(* ===== verification/_CoqProject ===== *)
-Q . S2P
Prelude.v
Crypto.v
Crc32.v
Protocol.v
Parser.v
NodeLink.v
NodeLinkAuth.v
CString.v
NodeLinkSemantic.v
Freshness.v
Persistence.v
Codec.v
Media.v
Backend.v
Recovery.v
RollbackAnchor.v
AntiReplay.v
AntiReplaySystem.v
Security.v
SecuritySession.v
Lifecycle.v
LifecycleSafety.v
TrustedKeys.v
Frames.v
DeviceService.v
Telemetry.v
Acquisition.v
AcquisitionExact.v
Float32.v
Dsp.v
DspExact.v
Health.v
HealthSafety.v
Control.v
ControlSafety.v
EmbeddedLink.v
EmbeddedReplies.v
EmbeddedSafety.v
Wire.v
Corroboration.v
CorroborationSafety.v
Envelope.v
Ingress.v
IngressSafety.v
MultiNode.v
Supervisor.v
Measurement.v
HighCompute.v
HighComputeExact.v
SecurityWitness.v
WitnessSafety.v
SignedEvidence.v
EvidenceSafety.v
EvidenceExchange.v
NodelinkAdapter.v
FlashAdapter.v
Uart.v
UartInterleaving.v
