(* ===== verification/Prelude.v ===== *)
(** * Guardian F401 firmware: a verification library

    The library models the portable core of the Guardian machine-supervision
    firmware ([src/firmware]) as executable functions and proves the properties
    that make it correct.  Definitions keep the names of the C source; paths
    below are relative to [src/firmware].

    ** The program

    A device measures a machine, judges its health, controls a run permit and
    talks to a host.

    - Bytes from the host go through the stream parser and the protocol codec
      (Protocol/) to the embedded link (Platform/Src/guardian_embedded_link.c),
      which dispatches requests to the device service (App/), telemetry
      (Telemetry/), signal processing (DSP/), health (Health/), control (Control/),
      security sessions (Security/) and the firmware lifecycle (Firmware/), and
      queues one reply frame per request.
    - Conversions of the ADC go through acquisition (Acquisition/) to measurements
      and a signal block; the DSP extracts features of the block; health learns a
      baseline of the features and scores later ones against it; control turns
      the health state, the interlock and the local run request into the permit.
    - Nodes exchange messages over the node link (NodeLink/): codec, signature
      check, semantic compatibility, freshness.  The accepted position of each
      identity is persisted in two flash slots, its digest is committed to a
      rollback anchor, and after a restart a device may actuate only from a
      position that store and anchor agree on.

    ** Files

    Foundations:
    - [Prelude]: machine integers with explicit wrap, big-endian fields, byte
      stores, early exits, shared lemmas and hints;
    - [Crypto] (Security/Src/guardian_crypto.c): SHA-256, HMAC, comparison;
      [Crc32]: the CRC-32 loops of the protocol and of the node link;
    - [Float32]: binary32 arithmetic, from the floats of the Standard Library;
      [CString]: bounded string scans and comparisons.

    Host protocol:
    - [Protocol] (Protocol/Src/guardian_protocol.c), [Parser]
      (Protocol/Src/guardian_parser.c);
    - [Frames]: the reply stores common to the handlers; [DeviceService]
      (App/Src/guardian_device_service.c); [Telemetry]
      (Telemetry/Src/guardian_telemetry.c);
    - [EmbeddedLink] (Platform/Src/guardian_embedded_link.c), with
      [EmbeddedReplies] (every handler answers) and [EmbeddedSafety] (the link
      answers every request; privileged state changes only through the gate).

    Measurement and control:
    - [Acquisition], [AcquisitionExact] (Acquisition/Src/guardian_acquisition.c);
    - [Dsp], [DspExact] (DSP/Src/guardian_dsp.c);
    - [Health], [HealthSafety] (Health/Src/guardian_health.c);
    - [Control], [ControlSafety] (Control/Src/guardian_control.c).

    Sessions and updates:
    - [Security], [SecuritySession] (Security/Src/guardian_security.c);
    - [Lifecycle], [LifecycleSafety] (Firmware/Src/guardian_firmware_lifecycle.c),
      [TrustedKeys] (the trusted-key provider and signature adapter of Firmware/).

    Node link (NodeLink/Src/guardian_node_link*.c):
    - [NodeLink] codec and sequence guard, [NodeLinkAuth] authentication,
      [NodeLinkSemantic] compatibility, [Freshness] evaluation;
    - [Persistence] the three-stage commit, [Codec] the record image, [Media] the
      storage interface and NOR flash as its instance, [Backend] the dual-slot
      store, [Recovery] its correctness;
    - [RollbackAnchor], [AntiReplay], and [AntiReplaySystem], their composition
      with the store over NOR flash and restarts.

    ** State and operations

    A C struct is a record with the fields of the struct, an enum an inductive
    type (with its numeric value where the code publishes it), a pointer
    parameter that may be null an [option], an output parameter a component of
    the result.  An operation takes the objects it may write and returns their new
    contents; its guards stand in the order of the source, [early c with r ;; k]
    for [if (c) return r; k].  Callbacks of the board (flash, random source,
    output adapter, byte queues, clock, signature and compatibility providers) are
    functions over a context [C] and a world [W] that the model threads through;
    what the theorems assume of them is stated as named hypotheses or classes
    ([MediaLaws], [AnchorLaws], [StagingLaws], [io_ok], [output_law]), and each has
    an instance or a concrete example.  Integers have their C width, with the wrap
    written out wherever an operation could leave it.

    ** What is proved

    - Codecs ([Protocol], [NodeLink], [Codec]): round trips in both directions,
      canonical images, detection of one-byte corruption, refusal of invalid input.
    - [Parser]: invariant and exact diagnostic counters on any stream, soundness of
      every reported frame, delivery of every valid frame, bounded collection.
    - [Crypto]: streaming SHA-256 equals the one-shot specification for any
      chunking; HMAC equals RFC 2104.
    - [NodeLinkAuth], [NodeLinkSemantic], [Freshness]: exact conditions of
      acceptance; no replay over any message sequence of a session.
    - [Persistence], [Recovery], [AntiReplay], [AntiReplaySystem]: the commit
      protocol as a refinement, exact recovery, no rollback over media failures
      and restarts, survival of committed positions.
    - [SecuritySession]: every run of the operations is a trace of an abstract
      session protocol; exact conditions for opening a session and accepting a
      request; honest clients are served.
    - [LifecycleSafety], [TrustedKeys]: only authentic, complete, newer images are
      activated; versions increase; a proper update completes; the committed key
      table accepts nothing.
    - [AcquisitionExact]: published measurements are exact reference values, no
      intermediate wraps; rejected blocks publish nothing.
    - [DspExact]: the transform computes the DFT over exact arithmetic.  The
      routine is one definition, generic in its arithmetic; the proof runs it on
      symbolic inputs and reads the 64 outputs off.
    - [HealthSafety]: the health state is a function of the history of deviations;
      the baseline is that of the first accepted blocks.
    - [ControlSafety]: the permit is asserted only under all its conditions; two
      keys for a start; faults stay latched; the machine can always be restarted.
    - [EmbeddedSafety]: the security gate and the answer to every request.

    ** Bounds and fuel

    Loops with a static bound recurse on it: the integer square root has 32
    radix-four digits of a 64-bit word, the transform six stages (fuel 7), the
    bit-reversal carry at most six bits (fuel 7), the model name scan 33
    characters, the frame and slot buffers their declared sizes.  The poll loop
    recurses on its budget.  Each is the bound of the C loop, so no result is
    lost to fuel.

    Floating point is binary32 with round to nearest even, evaluated operation by
    operation (no contraction, no excess precision, [sqrtf] correctly rounded),
    which is what the Cortex-M4 FPU computes for this code without contraction.
    Properties that need exact arithmetic are stated for the same generic
    definition over the reals.

    ** Not modelled

    - Platform/STM32F401, the flash adapter
      NodeLink/Src/guardian_node_link_freshness_persistence_stm32f401.c and the
      start-up code App/Src/guardian_firmware_app.c: register-level input and
      output, interrupts and wiring;
    - MultiNode/, the ingress transaction and the signed envelope: left for a
      later stage;
    - ThirdParty/ (Monocypher) and MDK-ARM/ (vendor HAL): third-party code, whose
      Ed25519 primitive is a parameter of [TrustedKeys];
    - the Python host tools, tests and fuzz drivers;
    - erasure of local secrets before return, which no caller can observe. *)

From stdpp Require Export prelude strings.
From Stdlib Require Export ZArith Lia ZifyNat.
From Stdlib Require Import Sorted.

#[global] Open Scope Z_scope.

#[global] Arguments Nat.div : simpl never.
#[global] Arguments Nat.modulo : simpl never.
#[global] Arguments Z.land : simpl never.
#[global] Arguments Z.lor : simpl never.
#[global] Arguments Z.lxor : simpl never.
#[global] Arguments Z.shiftl : simpl never.
#[global] Arguments Z.shiftr : simpl never.

(** ** Notations

    [early c with r ;; k] reads as the C statement [if (c) { return r; } k]. *)

Declare Scope guardian_scope.
Delimit Scope guardian_scope with guardian.

Notation "'early' c 'with' r ;; k" := (if c then r else k)
  (at level 10, c at level 99, r at level 99, k at level 200,
   only parsing) : guardian_scope.

#[global] Open Scope guardian_scope.

(** ** Machine integers

    Values of the C types [uint8_t] ... [uint64_t] are integers [Z]; a cast or
    an arithmetic operation that can leave the range wraps explicitly. *)

Definition u8 (z : Z) : Z := z `mod` 2 ^ 8.
Definition u16 (z : Z) : Z := z `mod` 2 ^ 16.
Definition u32 (z : Z) : Z := z `mod` 2 ^ 32.
Definition u64 (z : Z) : Z := z `mod` 2 ^ 64.

Definition UINT32_MAX : Z := 4294967295.

(** Signed types: the conversion keeps the low bits (two's complement). *)
Definition i16 (z : Z) : Z := (z + 2 ^ 15) `mod` 2 ^ 16 - 2 ^ 15.
Definition i32 (z : Z) : Z := (z + 2 ^ 31) `mod` 2 ^ 32 - 2 ^ 31.
Definition i64 (z : Z) : Z := (z + 2 ^ 63) `mod` 2 ^ 64 - 2 ^ 63.

Definition is_u8 (z : Z) : Prop := 0 <= z < 2 ^ 8.
Definition is_u16 (z : Z) : Prop := 0 <= z < 2 ^ 16.
Definition is_u32 (z : Z) : Prop := 0 <= z < 2 ^ 32.

#[global] Instance is_u8_dec z : Decision (is_u8 z).
Proof. unfold is_u8. apply _. Defined.
#[global] Instance is_u16_dec z : Decision (is_u16 z).
Proof. unfold is_u16. apply _. Defined.
#[global] Instance is_u32_dec z : Decision (is_u32 z).
Proof. unfold is_u32. apply _. Defined.

(** A byte string: a list of values of type [uint8_t]. *)
Definition bytes (l : list Z) : Prop := Forall is_u8 l.

#[global] Instance bytes_dec l : Decision (bytes l).
Proof. unfold bytes. apply _. Defined.

(** Peel one early return off a hypothesis [H : (early c with r ;; k) = res]
    where [r] cannot be [res], keeping the negated guard as [E]. *)
Ltac early_inv H E :=
  match type of H with (if ?c then _ else _) = _ =>
    destruct c eqn:E; [discriminate H|] end.

(** Peel one early return that cannot be the result off the goal
    [(early c with r ;; k) = result -> _], keeping the negated guard as [E]. *)
Ltac early_case E :=
  match goal with |- (if ?c then _ else _) = _ -> _ => destruct c eqn:E; [discriminate|] end.

Ltac unfold_ints := unfold is_u8, is_u16, is_u32, u8, u16, u32, u64 in *.

Lemma u8_range z : is_u8 (u8 z).
Proof. unfold_ints. apply Z.mod_pos_bound. lia. Qed.
Lemma u16_range z : is_u16 (u16 z).
Proof. unfold_ints. apply Z.mod_pos_bound. lia. Qed.
Lemma u32_range z : is_u32 (u32 z).
Proof. unfold_ints. apply Z.mod_pos_bound. lia. Qed.
Lemma u8_id z : is_u8 z -> u8 z = z.
Proof. unfold_ints. apply Z.mod_small. Qed.
Lemma u16_id z : is_u16 z -> u16 z = z.
Proof. unfold_ints. apply Z.mod_small. Qed.
Lemma u32_id z : is_u32 z -> u32 z = z.
Proof. unfold_ints. apply Z.mod_small. Qed.

Lemma bytes_app a b : bytes (a ++ b) <-> bytes a /\ bytes b.
Proof. apply Forall_app. Qed.
Lemma bytes_take n l : bytes l -> bytes (take n l).
Proof. apply Forall_take. Qed.
Lemma bytes_drop n l : bytes l -> bytes (drop n l).
Proof. apply Forall_drop. Qed.
Lemma bytes_replicate n v : is_u8 v -> bytes (replicate n v).
Proof. apply Forall_replicate. Qed.

(** Values in the range of a wider type. *)
Lemma i32_id z : -2 ^ 31 <= z < 2 ^ 31 -> i32 z = z.
Proof. intros. unfold i32. rewrite Z.mod_small; lia. Qed.
Lemma i64_id z : -2 ^ 63 <= z < 2 ^ 63 -> i64 z = z.
Proof. intros. unfold i64. rewrite Z.mod_small; lia. Qed.
Lemma u64_id z : 0 <= z < 2 ^ 64 -> u64 z = z.
Proof. apply Z.mod_small. Qed.

(** ** Sums *)

Definition sum_Z (l : list Z) : Z := foldr Z.add 0 l.

Lemma sum_Z_cons x l : sum_Z (x :: l) = x + sum_Z l.
Proof. done. Qed.

Lemma sum_Z_snoc l x : sum_Z (l ++ [x]) = sum_Z l + x.
Proof.
  induction l as [|y l IH]; [cbn; lia|]. rewrite <- app_comm_cons, !sum_Z_cons, IH. lia.
Qed.

Lemma sum_Z_abs_bound l m :
  Forall (fun z => Z.abs z <= m) l -> Z.abs (sum_Z l) <= m * Z.of_nat (length l).
Proof.
  induction 1 as [|x l Hx _ IH]; [cbn; lia|].
  rewrite sum_Z_cons. cbn [length]. rewrite Nat2Z.inj_succ, Z.mul_succ_r. lia.
Qed.

(** ** Lists that grow at their end *)

Lemma in_snoc {A} (l : list A) x y : In y (l ++ [x]) <-> In y l \/ y = x.
Proof. rewrite in_app_iff. cbn. intuition congruence. Qed.

Lemma sorted_snoc {A} (R : A -> A -> Prop) (l : list A) y :
  StronglySorted R l -> Forall (fun x => R x y) l -> StronglySorted R (l ++ [y]).
Proof.
  induction 1 as [|x l Hs IH Hx]; intros Hy; [repeat constructor|].
  apply Forall_cons in Hy as [Hxy Hy]. cbn. constructor; [by apply IH|].
  apply Forall_app. by split; [|constructor].
Qed.

(** ** Buffers

    A C buffer is the list of its bytes; [&p[off]] is [drop off p], [p[i]] is
    [byte_at p i] and [memcpy(&dst[off], src, length src)] is [blit dst off src]. *)

Definition byte_at (p : list Z) (i : nat) : Z := nth i p 0.

Definition blit (dst : list Z) (off : nat) (src : list Z) : list Z :=
  take off dst ++ src ++ drop (off + length src) dst.

(** The bytes of a string literal, without the terminator. *)
Definition label_bytes (s : string) : list Z :=
  map (fun c => Z.of_nat (Ascii.nat_of_ascii c)) (String.list_ascii_of_string s).

(** [p == NULL] *)
Definition is_null {A} (p : option A) : bool := match p with None => true | Some _ => false end.

Lemma is_null_false {A} (o : option A) : is_null o = false <-> is_Some o.
Proof. split; [destruct o; [by eauto|done]|by intros [x ->]]. Qed.

(** Equality of lists up to linear arithmetic in their indices. *)
Ltac app_lia := repeat first [lia | reflexivity | progress f_equal].

(** Linear arithmetic with quotients and remainders by constants. *)
Ltac nat_div_mod := zify; Z.to_euclidean_division_equations; lia.

(** ** Big-endian integer fields *)

Definition put_u16_be (value : Z) : list Z :=
  [u8 (Z.land (Z.shiftr value 8) 255); u8 (Z.land value 255)].

Definition put_u32_be (value : Z) : list Z :=
  [u8 (Z.land (Z.shiftr value 24) 255); u8 (Z.land (Z.shiftr value 16) 255);
   u8 (Z.land (Z.shiftr value 8) 255); u8 (Z.land value 255)].

Definition get_u16_be (p : list Z) : Z :=
  u16 (Z.lor (u16 (Z.shiftl (byte_at p 0) 8)) (byte_at p 1)).

Definition get_u32_be (p : list Z) : Z :=
  Z.lor (Z.lor (Z.lor (u32 (Z.shiftl (byte_at p 0) 24))
                      (u32 (Z.shiftl (byte_at p 1) 16)))
               (u32 (Z.shiftl (byte_at p 2) 8)))
        (byte_at p 3).

(** ** Lemmas on bits *)

(** An identity of bitwise operations, bit by bit. *)
Ltac z_bits :=
  apply Z.bits_inj'; intros ? _; rewrite ?Z.land_spec, ?Z.lor_spec, ?Z.lxor_spec, ?Z.bits_0;
  repeat match goal with |- context [Z.testbit ?x ?n] => destruct (Z.testbit x n) end; done.

Lemma land_lor_absorb x y : Z.land x (Z.lor x y) = x.
Proof. z_bits. Qed.

Lemma land_255 z : Z.land z 255 = z `mod` 256.
Proof. change 255 with (Z.ones 8). rewrite Z.land_ones by lia. done. Qed.

Lemma land_1 z : Z.land z 1 = z `mod` 2.
Proof. change 1 with (Z.ones 1). rewrite Z.land_ones by lia. done. Qed.

Lemma shiftr_div z n : 0 <= n -> Z.shiftr z n = z `div` 2 ^ n.
Proof. apply Z.shiftr_div_pow2. Qed.

Lemma lor_add_disjoint hi lo k :
  0 <= k -> 0 <= lo < 2 ^ k -> Z.lor (hi * 2 ^ k) lo = hi * 2 ^ k + lo.
Proof.
  intros Hk Hlo. symmetry. apply Z.add_nocarry_lor.
  apply Z.bits_inj'. intros n Hn. rewrite Z.land_spec, Z.bits_0.
  destruct (Z.lt_ge_cases n k).
  - rewrite <- Z.shiftl_mul_pow2, Z.shiftl_spec_low by lia. done.
  - rewrite <- (Z.mod_small lo (2 ^ k)), Z.mod_pow2_bits_high by lia.
    apply andb_false_r.
Qed.

Lemma lxor_range n a b :
  0 <= n -> 0 <= a < 2 ^ n -> 0 <= b < 2 ^ n -> 0 <= Z.lxor a b < 2 ^ n.
Proof.
  intros Hn Ha Hb. pose proof (proj2 (Z.lxor_nonneg a b)). split; [lia|].
  destruct (Z.eq_dec (Z.lxor a b) 0) as [->|]; [lia|].
  apply Z.log2_lt_pow2; [lia|].
  pose proof (Z.log2_lxor a b ltac:(lia) ltac:(lia)).
  assert (Hlog : forall x, 0 <= x < 2 ^ n -> Z.log2 x < n \/ x = 0).
  { intros x Hx. destruct (Z.eq_dec x 0); [by right|left]. apply Z.log2_lt_pow2; lia. }
  destruct (Hlog a Ha), (Hlog b Hb); subst; rewrite ?Z.lxor_0_l, ?Z.lxor_0_r in *;
    change (Z.log2 0) with 0 in *; lia.
Qed.

Lemma u8_lxor a b : is_u8 a -> is_u8 b -> u8 (Z.lxor a b) = Z.lxor a b.
Proof. intros. apply u8_id. unfold is_u8 in *. apply lxor_range; lia. Qed.

(** Arithmetic reading of a 32-bit big-endian field. *)
Lemma get_u32_be_cons a b c d l :
  is_u8 a -> is_u8 b -> is_u8 c -> is_u8 d ->
  get_u32_be (a :: b :: c :: d :: l) = a * 2 ^ 24 + b * 2 ^ 16 + c * 2 ^ 8 + d.
Proof.
  unfold is_u8, get_u32_be, byte_at, u32. cbn [nth]. intros.
  rewrite !Z.shiftl_mul_pow2 by lia.
  rewrite !Z.mod_small by lia.
  rewrite (lor_add_disjoint a (b * 2 ^ 16) 24) by lia.
  replace (a * 2 ^ 24 + b * 2 ^ 16) with ((a * 2 ^ 8 + b) * 2 ^ 16) by lia.
  rewrite lor_add_disjoint by lia.
  replace ((a * 2 ^ 8 + b) * 2 ^ 16 + c * 2 ^ 8)
    with ((a * 2 ^ 16 + b * 2 ^ 8 + c) * 2 ^ 8) by lia.
  rewrite lor_add_disjoint by lia. lia.
Qed.

Lemma get_u16_be_cons a b l :
  is_u8 a -> is_u8 b -> get_u16_be (a :: b :: l) = a * 2 ^ 8 + b.
Proof.
  unfold is_u8, get_u16_be, byte_at, u16. cbn [nth]. intros.
  rewrite !Z.shiftl_mul_pow2 by lia.
  rewrite (Z.mod_small (a * 2 ^ 8)) by lia.
  rewrite lor_add_disjoint by lia. apply Z.mod_small. lia.
Qed.

Ltac div_mod_lia := Z.div_mod_to_equations; lia.

Lemma put_u32_be_eq v :
  put_u32_be v =
  [(v `div` 2 ^ 24) `mod` 256; (v `div` 2 ^ 16) `mod` 256;
   (v `div` 2 ^ 8) `mod` 256; v `mod` 256].
Proof.
  unfold put_u32_be, u8. rewrite !land_255, !shiftr_div by lia.
  change (2 ^ 8) with 256. by rewrite !Z.mod_mod by lia.
Qed.

Lemma put_u16_be_eq v :
  put_u16_be v = [(v `div` 2 ^ 8) `mod` 256; v `mod` 256].
Proof.
  unfold put_u16_be, u8. rewrite !land_255, !shiftr_div by lia.
  change (2 ^ 8) with 256. by rewrite !Z.mod_mod by lia.
Qed.

Lemma put_get_u32_be v l : is_u32 v -> get_u32_be (put_u32_be v ++ l) = v.
Proof.
  intros Hv. rewrite put_u32_be_eq. cbn [app].
  rewrite get_u32_be_cons by (unfold is_u8; div_mod_lia).
  unfold is_u32 in Hv. div_mod_lia.
Qed.

Lemma put_get_u16_be v l : is_u16 v -> get_u16_be (put_u16_be v ++ l) = v.
Proof.
  intros Hv. rewrite put_u16_be_eq. cbn [app].
  rewrite get_u16_be_cons by (unfold is_u8; div_mod_lia).
  unfold is_u16 in Hv. div_mod_lia.
Qed.

Lemma put_u32_be_inj v w : is_u32 v -> is_u32 w -> put_u32_be v = put_u32_be w -> v = w.
Proof.
  intros Hv Hw H. rewrite <- (put_get_u32_be v []), <- (put_get_u32_be w []) by done.
  by rewrite H.
Qed.

Lemma put_u16_be_inj v w : is_u16 v -> is_u16 w -> put_u16_be v = put_u16_be w -> v = w.
Proof.
  intros Hv Hw H. rewrite <- (put_get_u16_be v []), <- (put_get_u16_be w []) by done.
  by rewrite H.
Qed.

Lemma get_put_u32_be a b c d l :
  bytes [a; b; c; d] -> put_u32_be (get_u32_be (a :: b :: c :: d :: l)) = [a; b; c; d].
Proof.
  intros H. unfold bytes in H. rewrite !Forall_cons in H. destruct H as (Ha & Hb & Hc & Hd & _).
  rewrite get_u32_be_cons by done. rewrite put_u32_be_eq.
  unfold is_u8 in *. repeat f_equal; div_mod_lia.
Qed.

Lemma get_put_u16_be a b l :
  bytes [a; b] -> put_u16_be (get_u16_be (a :: b :: l)) = [a; b].
Proof.
  intros H. unfold bytes in H. rewrite !Forall_cons in H. destruct H as (Ha & Hb & _).
  rewrite get_u16_be_cons by done. rewrite put_u16_be_eq.
  unfold is_u8 in *. repeat f_equal; div_mod_lia.
Qed.

Lemma put_u32_be_bytes v : bytes (put_u32_be v).
Proof. unfold put_u32_be. repeat constructor; apply u8_range. Qed.
Lemma put_u16_be_bytes v : bytes (put_u16_be v).
Proof. unfold put_u16_be. repeat constructor; apply u8_range. Qed.

Lemma get_u32_be_range l : bytes l -> is_u32 (get_u32_be l).
Proof.
  intros Hl.
  assert (Hat : forall i, is_u8 (byte_at l i)).
  { intros i. unfold byte_at. destruct (le_lt_dec (length l) i).
    - rewrite nth_overflow by done. done.
    - apply Forall_nth; [done|lia]. }
  change (get_u32_be l)
    with (get_u32_be (byte_at l 0 :: byte_at l 1 :: byte_at l 2 :: byte_at l 3 :: [])).
  rewrite get_u32_be_cons by done.
  pose proof (Hat 0%nat). pose proof (Hat 1%nat). pose proof (Hat 2%nat).
  pose proof (Hat 3%nat). unfold_ints. lia.
Qed.

Lemma put_u32_be_length v : length (put_u32_be v) = 4%nat.
Proof. done. Qed.
Lemma put_u16_be_length v : length (put_u16_be v) = 2%nat.
Proof. done. Qed.

(** Reading a field depends on its own bytes only. *)
Lemma get_u32_be_take l n : (4 <= n)%nat -> get_u32_be (take n l) = get_u32_be l.
Proof.
  intros Hn. destruct n as [|[|[|[|n]]]]; [lia..|].
  by destruct l as [|? [|? [|? [|? ?]]]].
Qed.

Lemma get_u16_be_take l n : (2 <= n)%nat -> get_u16_be (take n l) = get_u16_be l.
Proof.
  intros Hn. destruct n as [|[|n]]; [lia..|]. by destruct l as [|? [|? ?]].
Qed.

Lemma get_u32_be_app l k : (4 <= length l)%nat -> get_u32_be (l ++ k) = get_u32_be l.
Proof. intros H. by destruct l as [|? [|? [|? [|? ?]]]]; cbn in H; try lia. Qed.
Lemma get_u16_be_app l k : (2 <= length l)%nat -> get_u16_be (l ++ k) = get_u16_be l.
Proof. intros H. by destruct l as [|? [|? ?]]; cbn in H; try lia. Qed.

Lemma get_put_u32_be_take l :
  bytes l -> (4 <= length l)%nat -> put_u32_be (get_u32_be l) = take 4 l.
Proof.
  intros Hl Hn. destruct l as [|a [|b [|c [|d l]]]]; cbn in Hn; [lia..|].
  apply (get_put_u32_be a b c d l). by apply (bytes_take 4) in Hl.
Qed.

Lemma get_put_u16_be_take l :
  bytes l -> (2 <= length l)%nat -> put_u16_be (get_u16_be l) = take 2 l.
Proof.
  intros Hl Hn. destruct l as [|a [|b l]]; cbn in Hn; [lia..|].
  apply (get_put_u16_be a b l). by apply (bytes_take 2) in Hl.
Qed.

(** ** Lemmas on buffers *)

Lemma byte_at_app_l a b i : (i < length a)%nat -> byte_at (a ++ b) i = byte_at a i.
Proof. apply app_nth1. Qed.
Lemma byte_at_app_r a b i :
  (length a <= i)%nat -> byte_at (a ++ b) i = byte_at b (i - length a).
Proof. apply app_nth2. Qed.
Lemma byte_at_drop l n i : byte_at (drop n l) i = byte_at l (n + i).
Proof. unfold byte_at. revert l. by induction n; intros [|]; cbn; auto; destruct i. Qed.
Lemma byte_at_take l n i : (i < n)%nat -> byte_at (take n l) i = byte_at l i.
Proof.
  unfold byte_at. revert l i. induction n as [|n IH]; intros l i Hi; [lia|].
  destruct l as [|x l]; [done|]. destruct i as [|i]; [done|]. cbn. apply IH. lia.
Qed.
Lemma byte_at_range l i : bytes l -> is_u8 (byte_at l i).
Proof.
  intros Hl. unfold byte_at. destruct (le_lt_dec (length l) i).
  - by rewrite nth_overflow.
  - apply Forall_nth; [done|lia].
Qed.


Lemma byte_at_ext l r n :
  length l = n -> length r = n ->
  (forall i, (i < n)%nat -> byte_at l i = byte_at r i) -> l = r.
Proof. intros Hl Hr H. apply (nth_ext _ _ 0 0); [congruence|]. intros i Hi. apply H. lia. Qed.

Lemma blit_length dst off src :
  (off + length src <= length dst)%nat -> length (blit dst off src) = length dst.
Proof. intros. unfold blit. rewrite !length_app, length_take, length_drop. lia. Qed.

Lemma blit_length' dst off src n :
  length dst = n -> (off + length src <= n)%nat -> length (blit dst off src) = n.
Proof. intros <-. apply blit_length. Qed.

Lemma blit_app_r a b off src :
  (length a <= off)%nat -> blit (a ++ b) off src = a ++ blit b (off - length a) src.
Proof.
  intros. unfold blit. rewrite take_app_ge, drop_app_ge by lia.
  rewrite <- app_assoc. app_lia.
Qed.

Lemma blit_app_l a b off src :
  (off + length src <= length a)%nat -> blit (a ++ b) off src = blit a off src ++ b.
Proof.
  intros. unfold blit. rewrite take_app_le, drop_app_le by lia. by rewrite <- !app_assoc.
Qed.

Lemma blit_0 dst src : blit dst 0 src = src ++ drop (length src) dst.
Proof. done. Qed.

Lemma blit_exact dst src : length dst = length src -> blit dst 0 src = src.
Proof. intros. rewrite blit_0, drop_ge by lia. apply app_nil_r. Qed.

(** Consecutive writes to adjacent ranges are one write. *)
Lemma blit_blit_adjacent dst off1 src1 off2 src2 :
  off2 = (off1 + length src1)%nat -> (off1 <= length dst)%nat ->
  blit (blit dst off1 src1) off2 src2 = blit dst off1 (src1 ++ src2).
Proof.
  intros -> Hle. unfold blit.
  rewrite (app_assoc (take off1 dst)), take_app_length' by (rewrite length_app, length_take; lia).
  rewrite drop_app_ge by (rewrite length_app, length_take; lia).
  rewrite !length_app, length_take, drop_drop, <- !app_assoc. app_lia.
Qed.

(** A write over the beginning of an earlier one. *)
Lemma blit_blit_over dst off a b :
  (length b <= length a)%nat -> (off <= length dst)%nat ->
  blit (blit dst off a) off b = blit dst off (b ++ drop (length b) a).
Proof.
  intros Hle Hoff. unfold blit.
  rewrite take_app_length' by (rewrite length_take; lia).
  rewrite drop_app_ge by (rewrite length_take; lia).
  rewrite length_take, Nat.min_l, !length_app, length_drop by lia.
  replace (off + length b - off)%nat with (length b) by lia.
  rewrite drop_app_le by lia. rewrite <- !app_assoc. app_lia.
Qed.

(** Writing back what is there changes nothing. *)
Lemma blit_self dst off n :
  (off + n <= length dst)%nat -> blit dst off (take n (drop off dst)) = dst.
Proof.
  intros H. unfold blit. rewrite length_take, length_drop, Nat.min_l by lia.
  rewrite <- drop_drop, take_drop. apply take_drop.
Qed.

Lemma blit_take dst off src :
  (off <= length dst)%nat ->
  take (off + length src) (blit dst off src) = take off dst ++ src.
Proof.
  intros. unfold blit. rewrite app_assoc, take_app_length'; [done|].
  rewrite length_app, length_take. lia.
Qed.

Lemma take_blit_le dst off src n :
  (n <= off)%nat -> (off <= length dst)%nat -> take n (blit dst off src) = take n dst.
Proof.
  intros. unfold blit. rewrite take_app_le by (rewrite length_take; lia).
  rewrite take_take. f_equal. lia.
Qed.

Lemma byte_at_blit_lt dst off src i :
  (i < off)%nat -> (off <= length dst)%nat -> byte_at (blit dst off src) i = byte_at dst i.
Proof.
  intros. rewrite <- (byte_at_take _ off), take_blit_le by lia. by apply byte_at_take.
Qed.

Lemma get_u16_be_drop_take k n l :
  (k + 2 <= n)%nat -> get_u16_be (drop k (take n l)) = get_u16_be (drop k l).
Proof. intros. rewrite skipn_firstn_comm. apply get_u16_be_take. lia. Qed.

Lemma take_blit_0 dst src n :
  (n <= length src)%nat -> take n (blit dst 0 src) = take n src.
Proof. intros. by rewrite blit_0, take_app_le. Qed.

Lemma blit_nil dst off : blit dst off [] = dst.
Proof. unfold blit. cbn. by rewrite Nat.add_0_r, take_drop. Qed.

(** The payload copy, with its guard for the empty payload. *)
Lemma payload_copy (b : list Z) (len : Z) (dst : list Z) off n :
  n = Z.to_nat len -> 0 <= len ->
  (if negb (len =? 0) then blit dst off (take n b) else dst) = blit dst off (take n b).
Proof.
  intros -> Hl. destruct (Z.eqb_spec len 0) as [->|]; [|done].
  change (Z.to_nat 0) with 0%nat. by rewrite take_0, blit_nil.
Qed.

(** Side conditions on the lengths of buffers built from fields. *)
Ltac buffer_lia :=
  rewrite ?length_app, ?length_take, ?length_drop, ?length_replicate,
    ?put_u32_be_length, ?put_u16_be_length;
  cbn [length app]; lia.

Lemma bytes_nil : bytes [].
Proof. constructor. Qed.
Lemma bytes_cons b l : is_u8 b -> bytes l -> bytes (b :: l).
Proof. by constructor. Qed.
Lemma bytes_app_2 a b : bytes a -> bytes b -> bytes (a ++ b).
Proof. intros. by apply bytes_app. Qed.
Lemma bytes_blit dst off src : bytes dst -> bytes src -> bytes (blit dst off src).
Proof. intros. unfold blit. auto using bytes_app_2, bytes_take, bytes_drop. Qed.
Lemma get_u16_be_range l : is_u16 (get_u16_be l).
Proof. apply u16_range. Qed.

(** ** Parsing a buffer field by field

    A prefix of a buffer is a concatenation of fields when its first field and
    the rest are what they should be; a field is read off its bytes. *)

Lemma take_eq_app (l a b : list Z) n m :
  n = (length a + m)%nat ->
  take n l = a ++ b <-> take (length a) l = a /\ take m (drop (length a) l) = b.
Proof.
  intros ->. rewrite <- take_take_drop. split; [|by intros [-> ->]].
  intros H. destruct (le_lt_dec (length a) (length l)) as [Hle|Hlt].
  - apply app_inj_1 in H; [done|by rewrite length_take_le].
  - apply (f_equal length) in H.
    rewrite !length_app, !length_take, length_drop in H. lia.
Qed.

Lemma take_1_eq l v : (1 <= length l)%nat -> take 1 l = [v] <-> byte_at l 0 = v.
Proof. destruct l as [|x l]; cbn; [lia|]. intros _. split; [by intros [= ->]|by intros ->]. Qed.

Lemma take_u16_eq l v :
  bytes l -> (2 <= length l)%nat -> is_u16 v -> take 2 l = put_u16_be v <-> get_u16_be l = v.
Proof.
  intros Hb Hl Hv. rewrite <- get_put_u16_be_take by done.
  split; [apply put_u16_be_inj; auto using get_u16_be_range|by intros ->].
Qed.

Lemma take_u32_eq l v :
  bytes l -> (4 <= length l)%nat -> is_u32 v -> take 4 l = put_u32_be v <-> get_u32_be l = v.
Proof.
  intros Hb Hl Hv. rewrite <- get_put_u32_be_take by done.
  split; [apply put_u32_be_inj; auto using get_u32_be_range|by intros ->].
Qed.

Lemma get_put_u32_be_mod v l : get_u32_be (put_u32_be v ++ l) = u32 v.
Proof.
  rewrite <- (put_get_u32_be (u32 v) l) by apply u32_range. f_equal. f_equal.
  rewrite !put_u32_be_eq. unfold u32.
  repeat (apply f_equal2; [div_mod_lia|]). reflexivity.
Qed.

(** ** Automation

    [guardian] holds the range and byte-string facts of the prelude; each
    component adds its own.  [guardian_len] is the rewriting database of
    buffer lengths. *)

Create HintDb guardian.
#[export] Hint Resolve u8_range u16_range u32_range bytes_nil bytes_cons bytes_app_2
  bytes_take bytes_drop bytes_replicate bytes_blit put_u32_be_bytes put_u16_be_bytes
  get_u32_be_range get_u16_be_range byte_at_range : guardian.

Create Rewrite HintDb guardian_len.
#[export] Hint Rewrite @length_app @length_take @length_drop @length_replicate
  put_u32_be_length put_u16_be_length : guardian_len.
