(* ===== verification/Crypto.v ===== *)
(** * SHA-256, HMAC-SHA-256 and constant-time comparison

    Model of [firmware/Security/Src/guardian_crypto.c]: the streaming SHA-256
    context with its block buffer, the padding of the final block, HMAC over two
    streaming contexts, the branch-free comparison and the erasure loop.  The
    reference definitions [sha256_spec] and [hmac_spec] are those of FIPS 180-4
    and RFC 2104; the theorems show that the streaming code computes them. *)

From S2P Require Import Prelude.

(** ** Constants *)

Definition GUARDIAN_SHA256_SIZE : nat := 32.
Definition GUARDIAN_SHA256_BLOCK_SIZE : nat := 64.

Definition guardian_sha256_k : list Z :=
  [0x428A2F98; 0x71374491; 0xB5C0FBCF; 0xE9B5DBA5;
   0x3956C25B; 0x59F111F1; 0x923F82A4; 0xAB1C5ED5;
   0xD807AA98; 0x12835B01; 0x243185BE; 0x550C7DC3;
   0x72BE5D74; 0x80DEB1FE; 0x9BDC06A7; 0xC19BF174;
   0xE49B69C1; 0xEFBE4786; 0x0FC19DC6; 0x240CA1CC;
   0x2DE92C6F; 0x4A7484AA; 0x5CB0A9DC; 0x76F988DA;
   0x983E5152; 0xA831C66D; 0xB00327C8; 0xBF597FC7;
   0xC6E00BF3; 0xD5A79147; 0x06CA6351; 0x14292967;
   0x27B70A85; 0x2E1B2138; 0x4D2C6DFC; 0x53380D13;
   0x650A7354; 0x766A0ABB; 0x81C2C92E; 0x92722C85;
   0xA2BFE8A1; 0xA81A664B; 0xC24B8B70; 0xC76C51A3;
   0xD192E819; 0xD6990624; 0xF40E3585; 0x106AA070;
   0x19A4C116; 0x1E376C08; 0x2748774C; 0x34B0BCB5;
   0x391C0CB3; 0x4ED8AA4A; 0x5B9CCA4F; 0x682E6FF3;
   0x748F82EE; 0x78A5636F; 0x84C87814; 0x8CC70208;
   0x90BEFFFA; 0xA4506CEB; 0xBEF9A3F7; 0xC67178F2].

(** ** Word operations *)

Definition guardian_sha256_rotr (value count : Z) : Z :=
  Z.lor (Z.shiftr value count) (u32 (Z.shiftl value (32 - count))).

Definition guardian_sha256_read_u32_be (data : list Z) : Z := get_u32_be data.

Definition guardian_sha256_write_u32_be (value : Z) : list Z := put_u32_be value.

(** ** Streaming context *)

Record guardian_sha256_context_t := SHA256_CONTEXT {
  ctx_state : list Z;          (* state[8] *)
  ctx_buffer : list Z;         (* buffer[64] *)
  ctx_buffer_length : nat;
  ctx_total_length : Z         (* uint64_t *)
}.

Definition sha256_iv : list Z :=
  [0x6A09E667; 0xBB67AE85; 0x3C6EF372; 0xA54FF53A;
   0x510E527F; 0x9B05688C; 0x1F83D9AB; 0x5BE0CD19].

(** [init] leaves the bytes of [buffer] as they are. *)
Definition guardian_sha256_init (context : guardian_sha256_context_t)
  : guardian_sha256_context_t :=
  SHA256_CONTEXT sha256_iv (ctx_buffer context) 0 0.

(** ** Compression *)

(** The expansion of one schedule word, for [16 <= index < 64]. *)
Definition schedule_step (schedule : list Z) (index : nat) : list Z :=
  let w15 := byte_at schedule (index - 15) in
  let w2 := byte_at schedule (index - 2) in
  let s0 := Z.lxor (Z.lxor (guardian_sha256_rotr w15 7) (guardian_sha256_rotr w15 18))
                   (Z.shiftr w15 3) in
  let s1 := Z.lxor (Z.lxor (guardian_sha256_rotr w2 17) (guardian_sha256_rotr w2 19))
                   (Z.shiftr w2 10) in
  <[index := u32 (byte_at schedule (index - 16) + s0
                  + byte_at schedule (index - 7) + s1)]> schedule.

Definition message_schedule (block : list Z) : list Z :=
  let first := foldl (fun schedule index =>
                        <[index := guardian_sha256_read_u32_be (drop (index * 4) block)]>
                          schedule)
                     (replicate 64 0) (seq 0 16) in
  foldl schedule_step first (seq 16 48).

(** The working variables [a] ... [h]. *)
Definition working : Type := Z * Z * Z * Z * Z * Z * Z * Z.

Definition sha256_round (schedule : list Z) (vars : working) (index : nat) : working :=
  let '(a, b, c, d, e, f, g, h) := vars in
  let sigma1 := Z.lxor (Z.lxor (guardian_sha256_rotr e 6) (guardian_sha256_rotr e 11))
                       (guardian_sha256_rotr e 25) in
  let choose := Z.lxor (Z.land e f) (Z.land (u32 (Z.lnot e)) g) in
  let temp1 := u32 (h + sigma1 + choose + byte_at guardian_sha256_k index
                    + byte_at schedule index) in
  let sigma0 := Z.lxor (Z.lxor (guardian_sha256_rotr a 2) (guardian_sha256_rotr a 13))
                       (guardian_sha256_rotr a 22) in
  let majority := Z.lxor (Z.lxor (Z.land a b) (Z.land a c)) (Z.land b c) in
  let temp2 := u32 (sigma0 + majority) in
  (u32 (temp1 + temp2), a, b, c, u32 (d + temp1), e, f, g).

Definition sha256_compress (state block : list Z) : list Z :=
  let s i := byte_at state i in
  let '(a, b, c, d, e, f, g, h) :=
    foldl (sha256_round (message_schedule block))
          (s 0%nat, s 1%nat, s 2%nat, s 3%nat, s 4%nat, s 5%nat, s 6%nat, s 7%nat)
          (seq 0 64) in
  [u32 (s 0%nat + a); u32 (s 1%nat + b); u32 (s 2%nat + c); u32 (s 3%nat + d);
   u32 (s 4%nat + e); u32 (s 5%nat + f); u32 (s 6%nat + g); u32 (s 7%nat + h)].

Definition guardian_sha256_transform (context : guardian_sha256_context_t)
    (block : list Z) : guardian_sha256_context_t :=
  SHA256_CONTEXT (sha256_compress (ctx_state context) block)
    (ctx_buffer context) (ctx_buffer_length context) (ctx_total_length context).

(** ** Update

    One iteration of the [while (index < length)] loop copies as much as fits
    into the block buffer; [data] is what is left of the caller's bytes. *)
Definition update_iteration (context : guardian_sha256_context_t) (data : list Z)
  : guardian_sha256_context_t * list Z :=
  let available := (GUARDIAN_SHA256_BLOCK_SIZE - ctx_buffer_length context)%nat in
  let remaining := length data in
  let copy_length := if (remaining <? available)%nat then remaining else available in
  let buffer := blit (ctx_buffer context) (ctx_buffer_length context)
                     (take copy_length data) in
  let buffer_length := (ctx_buffer_length context + copy_length)%nat in
  let context' := SHA256_CONTEXT (ctx_state context) buffer buffer_length
                    (ctx_total_length context) in
  let context'' :=
    if (buffer_length =? GUARDIAN_SHA256_BLOCK_SIZE)%nat then
      let t := guardian_sha256_transform context' buffer in
      SHA256_CONTEXT (ctx_state t) (ctx_buffer t) 0 (ctx_total_length t)
    else context' in
  (context'', drop copy_length data).

(** The loop; [fuel] bounds the iterations. *)
Fixpoint update_loop (fuel : nat) (context : guardian_sha256_context_t) (data : list Z)
  : guardian_sha256_context_t :=
  match fuel, data with
  | _, [] => context
  | O, _ => context
  | S fuel', _ =>
      let '(context', data') := update_iteration context data in
      update_loop fuel' context' data'
  end.

Definition guardian_sha256_update (context : guardian_sha256_context_t)
    (data : option (list Z)) (length : nat) : guardian_sha256_context_t :=
  match data with
  | None => context   (* returns at once, or adds nothing when length is 0 *)
  | Some p =>
      let context' := SHA256_CONTEXT (ctx_state context) (ctx_buffer context)
                        (ctx_buffer_length context)
                        (u64 (ctx_total_length context + Z.of_nat length)) in
      update_loop length context' (take length p)
  end.

(** ** Finalisation *)

Definition put_u64_be (v : Z) : list Z :=
  map (fun s => u8 (Z.land (Z.shiftr v s) 255)) [56; 48; 40; 32; 24; 16; 8; 0].

Definition guardian_sha256_final (context : guardian_sha256_context_t)
    (digest : list Z) : list Z :=
  let bit_length := u64 (ctx_total_length context * 8) in
  let buffer := blit (ctx_buffer context) (ctx_buffer_length context) [0x80] in
  let c1 := SHA256_CONTEXT (ctx_state context) buffer
              (ctx_buffer_length context + 1) (ctx_total_length context) in
  let c2 :=
    if (56 <? ctx_buffer_length c1)%nat then
      let b := blit (ctx_buffer c1) (ctx_buffer_length c1)
                    (replicate (GUARDIAN_SHA256_BLOCK_SIZE - ctx_buffer_length c1) 0) in
      let t := guardian_sha256_transform c1 b in
      SHA256_CONTEXT (ctx_state t) b 0 (ctx_total_length t)
    else c1 in
  let b := blit (ctx_buffer c2) (ctx_buffer_length c2)
                (replicate (56 - ctx_buffer_length c2) 0) in
  let b := blit b 56 (put_u64_be bit_length) in
  let c3 := guardian_sha256_transform c2 b in
  foldl (fun d index =>
           blit d (index * 4)
             (guardian_sha256_write_u32_be (byte_at (ctx_state c3) index)))
        digest (seq 0 8).

(** [guardian_sha256_context_t context = {0};] *)
Definition sha256_context_zero : guardian_sha256_context_t :=
  SHA256_CONTEXT (replicate 8 0) (replicate 64 0) 0 0.

(** [guardian_sha256]: the content of [digest] after the call. *)
Definition guardian_sha256 (data : option (list Z)) (length : nat)
    (digest : option (list Z)) : option (list Z) :=
  match digest with
  | None => None
  | Some d =>
      let context := guardian_sha256_init sha256_context_zero in
      let context := guardian_sha256_update context data length in
      Some (guardian_sha256_final context d)
  end.

(** ** HMAC *)

Definition xor_pad (key_block : list Z) (c : Z) : list Z :=
  map (fun b => u8 (Z.lxor b c)) key_block.

(** The block-sized key: hashed first when it is longer than a block. *)
Definition hmac_normalized_key (key : option (list Z)) (key_length : nat) : list Z :=
  if (GUARDIAN_SHA256_BLOCK_SIZE <? key_length)%nat then
    blit (replicate 64 0) 0
      (take GUARDIAN_SHA256_SIZE
        (default [] (guardian_sha256 key key_length (Some (replicate 32 0)))))
  else blit (replicate 64 0) 0 (take key_length (default [] key)).

Definition guardian_hmac_sha256 (key : option (list Z)) (key_length : nat)
    (data : option (list Z)) (data_length : nat) (digest : option (list Z))
  : option (list Z) :=
  match digest with
  | None => None
  | Some d =>
      match key, key_length with
      | None, S _ => Some (blit d 0 (replicate GUARDIAN_SHA256_SIZE 0))
      | _, _ =>
          let key_block := hmac_normalized_key key key_length in
          let inner_pad := xor_pad key_block 0x36 in
          let outer_pad := xor_pad key_block 0x5C in
          let inner := guardian_sha256_init sha256_context_zero in
          let inner := guardian_sha256_update inner (Some inner_pad) 64 in
          let inner := guardian_sha256_update inner data data_length in
          let inner_digest := guardian_sha256_final inner (replicate 32 0) in
          let outer := guardian_sha256_init sha256_context_zero in
          let outer := guardian_sha256_update outer (Some outer_pad) 64 in
          let outer := guardian_sha256_update outer (Some inner_digest) 32 in
          Some (guardian_sha256_final outer d)
      end
  end.

(** ** Comparison and erasure *)

Definition guardian_crypto_constant_time_equal (left right : option (list Z))
    (length : nat) : bool :=
  match left, right with
  | Some l, Some r =>
      if (length =? 0)%nat then false
      else
        let difference :=
          foldl (fun difference index =>
                   Z.lor difference (u8 (Z.lxor (byte_at l index) (byte_at r index))))
                0 (seq 0 length) in
        difference =? 0
  | _, _ => false
  end.

Fixpoint zero_loop (bytes : list Z) (length : nat) : list Z :=
  match length, bytes with
  | S n, _ :: rest => 0 :: zero_loop rest n
  | _, _ => bytes
  end.

Definition guardian_crypto_zero (data : option (list Z)) (length : nat)
  : option (list Z) :=
  match data with
  | None => None
  | Some bytes => Some (zero_loop bytes length)
  end.

Example sha256_abc :
  guardian_sha256 (Some [97; 98; 99]) 3 (Some (replicate 32 0)) =
  Some [0xba;0x78;0x16;0xbf;0x8f;0x01;0xcf;0xea;0x41;0x41;0x40;0xde;0x5d;0xae;0x22;0x23;
        0xb0;0x03;0x61;0xa3;0x96;0x17;0x7a;0x9c;0xb4;0x10;0xff;0x61;0xf2;0x00;0x15;0xad].
Proof. vm_compute. reflexivity. Qed.

(** ** Reference definitions (FIPS 180-4, RFC 2104) *)

(** The message followed by the bit 1, the smallest number of zero bits that
    leaves room for the length in the last block, and the 64-bit length. *)
Definition pad_zeros (n : nat) : nat := ((119 - n mod 64) mod 64)%nat.

Definition sha256_pad (msg : list Z) : list Z :=
  msg ++ [0x80] ++ replicate (pad_zeros (length msg)) 0
      ++ put_u64_be (8 * Z.of_nat (length msg)).

Fixpoint compress_blocks (n : nat) (state msg : list Z) : list Z :=
  match n with
  | O => state
  | S n' => compress_blocks n' (sha256_compress state (take 64 msg)) (drop 64 msg)
  end.

Definition sha256_spec (msg : list Z) : list Z :=
  let padded := sha256_pad msg in
  concat (map put_u32_be (compress_blocks (length padded / 64) sha256_iv padded)).

Definition hmac_key_block (key : list Z) : list Z :=
  let k := if (64 <? length key)%nat then sha256_spec key else key in
  k ++ replicate (64 - length k) 0.

Definition hmac_spec (key msg : list Z) : list Z :=
  let k := hmac_key_block key in
  sha256_spec (map (fun b => Z.lxor b 0x5C) k
               ++ sha256_spec (map (fun b => Z.lxor b 0x36) k ++ msg)).

(** ** The streaming context represents the message absorbed so far *)

Record repr (c : guardian_sha256_context_t) (m : list Z) : Prop := {
  repr_buffer : length (ctx_buffer c) = 64%nat;
  repr_length : ctx_buffer_length c = (length m mod 64)%nat;
  repr_tail : take (ctx_buffer_length c) (ctx_buffer c) = drop (64 * (length m / 64)) m;
  repr_state : ctx_state c = compress_blocks (length m / 64) sha256_iv m
}.

Lemma sha256_compress_length st b : length (sha256_compress st b) = 8%nat.
Proof.
  unfold sha256_compress.
  by destruct (foldl _ _ _) as [[[[[[[? ?] ?] ?] ?] ?] ?] ?].
Qed.

#[global] Opaque sha256_compress.

Lemma compress_blocks_app n st m x :
  (64 * n <= length m)%nat -> compress_blocks n st (m ++ x) = compress_blocks n st m.
Proof.
  revert st m. induction n as [|n IH]; intros st m H; [done|]. cbn [compress_blocks].
  rewrite take_app_le, drop_app_le by lia. apply IH. rewrite length_drop. lia.
Qed.

Lemma compress_blocks_snoc n st m :
  compress_blocks (S n) st m =
  sha256_compress (compress_blocks n st m) (take 64 (drop (64 * n) m)).
Proof.
  revert st m. induction n as [|n IH]; intros st m; [by rewrite Nat.mul_0_r, drop_0|].
  change (compress_blocks (S (S n)) st m)
    with (compress_blocks (S n) (sha256_compress st (take 64 m)) (drop 64 m)).
  rewrite IH, drop_drop. cbn [compress_blocks].
  by replace (64 + 64 * n)%nat with (64 * S n)%nat by lia.
Qed.

Lemma compress_blocks_length n st m :
  length st = 8%nat -> length (compress_blocks n st m) = 8%nat.
Proof.
  revert st m. induction n; intros; cbn; [done|]. auto using sha256_compress_length.
Qed.

(** Writing [x] behind the pending bytes of a context. *)
Lemma repr_fill c m x :
  repr c m -> (ctx_buffer_length c + length x <= 64)%nat ->
  take (ctx_buffer_length c + length x) (blit (ctx_buffer c) (ctx_buffer_length c) x)
  = drop (64 * (length m / 64)) (m ++ x).
Proof.
  intros [Hb Hl Ht _] Hx. rewrite blit_take by lia. rewrite Ht.
  rewrite drop_app_le by nat_div_mod. done.
Qed.

Lemma update_iteration_spec c m data :
  repr c m -> data <> [] ->
  exists x c' data',
    update_iteration c data = (c', data') /\ data = x ++ data' /\ x <> [] /\
    ctx_total_length c' = ctx_total_length c /\
    repr c' (m ++ x).
Proof.
  intros Hr Hne. pose proof Hr as [Hb Hl Ht Hs].
  assert (Hlt : (ctx_buffer_length c < 64)%nat) by (rewrite Hl; nat_div_mod).
  unfold update_iteration, GUARDIAN_SHA256_BLOCK_SIZE.
  set (copy := if (_ <? _)%nat then _ else _).
  assert (Hcopy : copy = Nat.min (length data) (64 - ctx_buffer_length c)).
  { subst copy. destruct (Nat.ltb_spec (length data) (64 - ctx_buffer_length c)); lia. }
  clearbody copy. set (x := take copy data).
  assert (Hx : length x = copy) by (subst x; rewrite length_take; lia).
  assert (Hd : (0 < length data)%nat) by (destruct data; [done|cbn; lia]).
  pose proof (repr_fill c m x Hr ltac:(lia)) as Hf. rewrite Hx in Hf.
  assert (Hbl : length (blit (ctx_buffer c) (ctx_buffer_length c) x) = 64%nat)
    by (rewrite blit_length; lia).
  assert (Hmx : length (m ++ x) = (length m + copy)%nat) by (rewrite length_app; lia).
  eexists x, _, _. split; [reflexivity|]. split; [by unfold x; rewrite take_drop|].
  split; [intros E; rewrite E in Hx; cbn in Hx; lia|].
  destruct (Nat.eqb_spec (ctx_buffer_length c + copy) 64) as [E|E]; cbn; (split; [done|]).
  - assert (Hq : (length (m ++ x) / 64 = S (length m / 64))%nat)
      by (rewrite Hmx; nat_div_mod).
    split; cbn; [done| | |].
    + rewrite Hmx. nat_div_mod.
    + rewrite Hq. rewrite drop_ge by nat_div_mod. done.
    + rewrite Hq, compress_blocks_snoc, compress_blocks_app by nat_div_mod.
      rewrite <- Hf, Hs. rewrite take_take, E, take_ge by lia. done.
  - assert (Hq : (length (m ++ x) / 64 = length m / 64)%nat)
      by (rewrite Hmx; nat_div_mod).
    split; cbn; [done| | |].
    + rewrite Hmx. nat_div_mod.
    + by rewrite Hq.
    + rewrite Hq, Hs. symmetry. apply compress_blocks_app. nat_div_mod.
Qed.

(** The loop consumes all bytes with as much fuel as there are bytes. *)
Lemma update_loop_spec fuel c m data :
  repr c m -> (length data <= fuel)%nat ->
  repr (update_loop fuel c data) (m ++ data) /\
  ctx_total_length (update_loop fuel c data) = ctx_total_length c.
Proof.
  revert c m data. induction fuel as [|fuel IH]; intros c m data Hr Hf;
    (destruct data as [|z data]; [rewrite app_nil_r; split; [exact Hr|reflexivity]|]).
  - cbn in Hf. lia.
  - destruct (update_iteration_spec c m (z :: data)) as (x & c' & d' & Hi & Hd & Hx & Ht & Hr');
      [done|done|].
    cbn [update_loop]. rewrite Hi, Hd, app_assoc. rewrite <- Ht. apply IH; [done|].
    rewrite Hd, length_app in Hf. destruct x; [done|]. cbn [length] in Hf. lia.
Qed.

Lemma guardian_sha256_update_spec c m data n :
  repr c m -> ctx_total_length c = u64 (Z.of_nat (length m)) -> (n <= length data)%nat ->
  let c' := guardian_sha256_update c (Some data) n in
  repr c' (m ++ take n data) /\
  ctx_total_length c' = u64 (Z.of_nat (length (m ++ take n data))).
Proof.
  intros Hr Ht Hn. cbn.
  set (c0 := SHA256_CONTEXT _ _ _ _).
  assert (Hr0 : repr c0 m) by (by destruct Hr).
  destruct (update_loop_spec n c0 m (take n data)) as [H1 H2];
    [done|rewrite length_take; lia|].
  split; [done|]. rewrite H2. cbn. rewrite Ht, length_app, length_take_le by lia.
  unfold u64. rewrite Zplus_mod_idemp_l. f_equal. lia.
Qed.

Lemma repr_init c :
  length (ctx_buffer c) = 64%nat -> repr (guardian_sha256_init c) [].
Proof. intros. by split. Qed.

(** ** Finalisation computes the padded message's last blocks *)

Lemma sha256_pad_length m :
  length (sha256_pad m) = (64 * ((length m + 72) / 64))%nat.
Proof.
  unfold sha256_pad, pad_zeros. rewrite !length_app, length_replicate. cbn [length put_u64_be map].
  nat_div_mod.
Qed.

Lemma byte_at_state8 st :
  length st = 8%nat ->
  map (byte_at st) (seq 0 8) = st.
Proof. by do 9 (destruct st as [|? st]; [done || (intros; cbn in *; lia)|]). Qed.

(** Serialising the chaining words one after the other fills the digest. *)
Lemma digest_fill st d :
  length st = 8%nat -> length d = 32%nat ->
  foldl (fun d index => blit d (index * 4)
           (guardian_sha256_write_u32_be (byte_at st index))) d (seq 0 8)
  = concat (map put_u32_be st).
Proof.
  intros Hst Hd. unfold guardian_sha256_write_u32_be.
  do 8 (destruct st as [|? st]; [cbn in Hst; lia|]). destruct st; [|cbn in Hst; lia].
  cbn [foldl seq Nat.mul Nat.add byte_at nth].
  rewrite !(blit_blit_adjacent d) by (rewrite ?length_app, ?put_u32_be_length; lia).
  rewrite blit_exact by (rewrite ?length_app, ?put_u32_be_length; lia).
  cbn [map concat]. by rewrite <- !app_assoc, app_nil_r.
Qed.

Section final.
Context (c : guardian_sha256_context_t) (m : list Z).
Hypothesis Hr : repr c m.

#[local] Abbreviation bl := (ctx_buffer_length c).
#[local] Abbreviation len8 := (put_u64_be (8 * Z.of_nat (length m))).

Lemma tail_below_block : (bl < 64)%nat.
Proof. destruct Hr as [_ -> _ _]. nat_div_mod. Qed.

(** One more block suffices when the length fits behind the marker. *)
Lemma final_one_block :
  (bl + 1 <= 56)%nat ->
  compress_blocks (length (sha256_pad m) / 64) sha256_iv (sha256_pad m) =
  sha256_compress (ctx_state c)
    (blit (blit (blit (ctx_buffer c) bl [0x80]) (bl + 1) (replicate (56 - (bl + 1)) 0))
       56 len8).
Proof.
  intros Hle. pose proof tail_below_block. destruct Hr as [Hb Hl Ht Hs].
  assert (Hpz : pad_zeros (length m) = (56 - (bl + 1))%nat)
    by (unfold pad_zeros; rewrite <- Hl; nat_div_mod).
  rewrite sha256_pad_length.
  replace (64 * ((length m + 72) / 64) / 64)%nat with (S (length m / 64)) by nat_div_mod.
  rewrite compress_blocks_snoc. unfold sha256_pad.
  rewrite compress_blocks_app, <- Hs, drop_app_le by nat_div_mod.
  rewrite <- Ht, Hpz.
  rewrite !(blit_blit_adjacent (ctx_buffer c))
    by (cbn [length]; rewrite ?length_app, ?length_replicate; cbn [length]; lia).
  f_equal. unfold blit.
  rewrite (drop_ge (ctx_buffer c))
    by (rewrite !length_app, length_replicate; cbn [length put_u64_be map]; lia).
  rewrite app_nil_r, <- !app_assoc. apply take_ge.
  rewrite !length_app, length_take, length_replicate. cbn [length put_u64_be map]. lia.
Qed.

(** Otherwise the marker's block is completed with zeros and another one follows. *)
Lemma final_two_blocks :
  (56 < bl + 1)%nat ->
  let b := blit (blit (ctx_buffer c) bl [0x80]) (bl + 1) (replicate (64 - (bl + 1)) 0) in
  compress_blocks (length (sha256_pad m) / 64) sha256_iv (sha256_pad m) =
  sha256_compress (sha256_compress (ctx_state c) b)
    (blit (blit b 0 (replicate 56 0)) 56 len8).
Proof.
  intros Hlt b. pose proof tail_below_block. destruct Hr as [Hb Hl Ht Hs].
  assert (Hpz : pad_zeros (length m) = ((64 - (bl + 1)) + 56)%nat)
    by (unfold pad_zeros; rewrite <- Hl; nat_div_mod).
  assert (Hbb : b = take bl (ctx_buffer c) ++ [0x80] ++ replicate (64 - (bl + 1)) 0).
  { unfold b. rewrite blit_blit_adjacent by (cbn [length]; lia). unfold blit.
    rewrite (drop_ge (ctx_buffer c))
      by (rewrite length_app, length_replicate; cbn [length]; lia).
    by rewrite app_nil_r. }
  assert (Hbl : length b = 64%nat).
  { rewrite Hbb, !length_app, length_take, length_replicate. cbn [length]. lia. }
  clearbody b.
  assert (Hq : (length m = 64 * (length m / 64) + bl)%nat) by nat_div_mod.
  rewrite sha256_pad_length.
  replace (64 * ((length m + 72) / 64) / 64)%nat with (S (S (length m / 64))) by nat_div_mod.
  assert (Hpad : sha256_pad m
                 = take (64 * (length m / 64)) m ++ b ++ replicate 56 0 ++ len8).
  { unfold sha256_pad. rewrite Hpz, replicate_add, Hbb, Ht.
    rewrite <- (take_drop (64 * (length m / 64)) m) at 1. by rewrite <- !app_assoc. }
  assert (Ht64 : length (take (64 * (length m / 64)) m) = (64 * (length m / 64))%nat)
    by (rewrite length_take; lia).
  rewrite !compress_blocks_snoc.
  replace (compress_blocks (length m / 64) sha256_iv (sha256_pad m)) with (ctx_state c).
  2:{ unfold sha256_pad. rewrite compress_blocks_app by lia. done. }
  rewrite Hpad.
  rewrite (drop_app_length' (take _ m)) by done. rewrite take_app_length' by done.
  rewrite drop_app_ge by lia. rewrite Ht64, drop_app_ge by lia.
  replace (64 * S (length m / 64) - 64 * (length m / 64) - length b)%nat with 0%nat by lia.
  rewrite drop_0. apply (f_equal (sha256_compress _)).
  rewrite blit_blit_adjacent, blit_exact
    by (rewrite ?length_app, ?length_replicate; cbn [length put_u64_be map]; lia).
  by apply take_ge.
Qed.

Hypothesis Htotal : ctx_total_length c = u64 (Z.of_nat (length m)).
Hypothesis Hsmall : 8 * Z.of_nat (length m) < 2 ^ 64.

Lemma guardian_sha256_final_spec d :
  length d = 32%nat -> guardian_sha256_final c d = sha256_spec m.
Proof.
  intros Hd. unfold guardian_sha256_final, sha256_spec.
  assert (Hbits : u64 (ctx_total_length c * 8) = 8 * Z.of_nat (length m)).
  { rewrite Htotal. unfold u64. rewrite (Z.mod_small (Z.of_nat _)) by lia.
    rewrite Z.mod_small; lia. }
  rewrite Hbits. cbn [ctx_buffer_length ctx_buffer].
  rewrite digest_fill; [|by destruct (56 <? _)%nat; apply sha256_compress_length|done].
  apply (f_equal (fun st => concat (map put_u32_be st))).
  unfold GUARDIAN_SHA256_BLOCK_SIZE, guardian_sha256_transform. cbn [ctx_state].
  destruct (Nat.ltb_spec 56 (bl + 1)).
  - rewrite final_two_blocks by lia. reflexivity.
  - rewrite final_one_block by lia. reflexivity.
Qed.
End final.

(** ** The one-shot functions *)

Lemma sha256_spec_length m : length (sha256_spec m) = 32%nat.
Proof.
  unfold sha256_spec. set (st := compress_blocks _ _ _).
  assert (Hst : length st = 8%nat) by (apply compress_blocks_length; done).
  clearbody st. by do 9 (destruct st as [|? st]; [done || (cbn in Hst; lia)|]).
Qed.

Lemma sha256_spec_bytes m : bytes (sha256_spec m).
Proof.
  apply Forall_concat, Forall_map, Forall_true. intros. apply put_u32_be_bytes.
Qed.

Lemma sha256_context_repr : repr (guardian_sha256_init sha256_context_zero) [].
Proof. by apply repr_init. Qed.

Lemma guardian_sha256_spec data n d :
  (n <= length data)%nat -> 8 * Z.of_nat n < 2 ^ 64 -> length d = 32%nat ->
  guardian_sha256 (Some data) n (Some d) = Some (sha256_spec (take n data)).
Proof.
  intros Hn Hs Hd. unfold guardian_sha256.
  destruct (guardian_sha256_update_spec _ [] data n sha256_context_repr eq_refl Hn)
    as [Hr Ht].
  rewrite (guardian_sha256_final_spec _ _ Hr Ht); [done| |done].
  cbn [app]. rewrite length_take_le by lia. lia.
Qed.

Lemma hmac_key_block_length key : length (hmac_key_block key) = 64%nat.
Proof.
  unfold hmac_key_block. rewrite length_app, length_replicate.
  destruct (Nat.ltb_spec 64 (length key)); [rewrite sha256_spec_length|]; lia.
Qed.

Lemma hmac_key_block_bytes key : bytes key -> bytes (hmac_key_block key).
Proof.
  intros. unfold hmac_key_block. apply bytes_app. split; [|by apply bytes_replicate].
  case_match; [apply sha256_spec_bytes|done].
Qed.

Lemma xor_pad_eq k c : bytes k -> is_u8 c -> xor_pad k c = map (fun b => Z.lxor b c) k.
Proof.
  intros Hk Hc. apply map_ext_in. intros b Hb. apply u8_lxor; [|done].
  apply list_elem_of_In in Hb. unfold bytes in Hk. rewrite Forall_forall in Hk. auto.
Qed.

Lemma hmac_normalized_key_spec key kl :
  (kl <= length key)%nat -> 8 * Z.of_nat kl < 2 ^ 64 ->
  hmac_normalized_key (Some key) kl = hmac_key_block (take kl key).
Proof.
  intros Hkl Hk. unfold hmac_normalized_key, hmac_key_block,
    GUARDIAN_SHA256_BLOCK_SIZE, GUARDIAN_SHA256_SIZE.
  rewrite length_take_le by lia. destruct (64 <? kl)%nat.
  - rewrite guardian_sha256_spec by (rewrite ?length_replicate; lia). cbn [from_option id].
    rewrite (take_ge (sha256_spec _)) by (rewrite sha256_spec_length; lia).
    by rewrite blit_0, sha256_spec_length, drop_replicate.
  - cbn [from_option id]. by rewrite blit_0, drop_replicate, length_take_le by lia.
Qed.

(** Hashing a block-sized prefix and then [n] bytes in one streaming context. *)
Lemma sha256_two_updates pad data n d :
  length pad = 64%nat -> (n <= length data)%nat -> 8 * Z.of_nat (64 + n) < 2 ^ 64 ->
  length d = 32%nat ->
  let c := guardian_sha256_init sha256_context_zero in
  let c := guardian_sha256_update c (Some pad) 64 in
  let c := guardian_sha256_update c (Some data) n in
  guardian_sha256_final c d = sha256_spec (pad ++ take n data).
Proof.
  intros Hp Hn Hs Hd.
  destruct (guardian_sha256_update_spec _ [] pad 64 sha256_context_repr eq_refl)
    as [Hr1 Ht1]; [lia|].
  cbn [app] in Hr1, Ht1. rewrite (take_ge pad) in Hr1, Ht1 by lia.
  destruct (guardian_sha256_update_spec _ pad data n Hr1 Ht1 Hn) as [Hr2 Ht2].
  apply (guardian_sha256_final_spec _ _ Hr2 Ht2); [|done].
  rewrite length_app, length_take_le; lia.
Qed.

(** HMAC as the code computes it, for a key and a message in memory. *)
Lemma guardian_hmac_sha256_spec key kl data n d :
  bytes key -> (kl <= length key)%nat -> (n <= length data)%nat ->
  8 * Z.of_nat kl < 2 ^ 64 -> 8 * Z.of_nat (64 + n) < 2 ^ 64 -> length d = 32%nat ->
  guardian_hmac_sha256 (Some key) kl (Some data) n (Some d)
  = Some (hmac_spec (take kl key) (take n data)).
Proof.
  intros Hb Hkl Hn Hk64 Hn64 Hd. unfold guardian_hmac_sha256, hmac_spec.
  rewrite hmac_normalized_key_spec by done. set (kb := hmac_key_block _).
  assert (Hlen : length kb = 64%nat) by apply hmac_key_block_length.
  assert (Hkbb : bytes kb) by (apply hmac_key_block_bytes, bytes_take, Hb).
  rewrite !xor_pad_eq by done.
  rewrite (sha256_two_updates _ data) by (rewrite ?length_map, ?length_replicate; lia).
  rewrite sha256_two_updates by (rewrite ?length_map, ?sha256_spec_length; lia).
  by rewrite (take_ge (sha256_spec _)) by (rewrite sha256_spec_length; lia).
Qed.

(** ** Comparison *)

Lemma lor_eq_0 a b : Z.lor a b = 0 <-> a = 0 /\ b = 0.
Proof. apply Z.lor_eq_0_iff. Qed.

Lemma difference_zero l r start n acc :
  bytes l -> bytes r ->
  foldl (fun difference index =>
           Z.lor difference (u8 (Z.lxor (byte_at l index) (byte_at r index))))
        acc (seq start n) = 0 <->
  acc = 0 /\ forall i, (start <= i < start + n)%nat -> byte_at l i = byte_at r i.
Proof.
  intros Hl Hr. revert start acc. induction n as [|n IH]; intros start acc; cbn [seq foldl].
  - split; [|by intros []]. split; [done|]. lia.
  - rewrite IH, lor_eq_0.
    assert (Hx : u8 (Z.lxor (byte_at l start) (byte_at r start)) = 0
                 <-> byte_at l start = byte_at r start).
    { rewrite u8_lxor by (by apply byte_at_range). apply Z.lxor_eq_0_iff. }
    rewrite Hx. split.
    + intros [[-> E] H]. split; [done|]. intros i Hi.
      destruct (decide (i = start)) as [->|]; [done|]. apply H. lia.
    + intros [-> H]. repeat split; [apply H; lia|]. intros. apply H. lia.
Qed.

Lemma guardian_crypto_constant_time_equal_spec l r n :
  bytes l -> bytes r -> (0 < n)%nat -> (n <= length l)%nat -> (n <= length r)%nat ->
  guardian_crypto_constant_time_equal (Some l) (Some r) n = true <->
  take n l = take n r.
Proof.
  intros Hl Hr Hn Hln Hrn. unfold guardian_crypto_constant_time_equal.
  destruct (Nat.eqb_spec n 0); [lia|].
  rewrite Z.eqb_eq, difference_zero by done. split.
  - intros [_ H]. apply (byte_at_ext _ _ n); [by apply length_take_le|by apply length_take_le|].
    intros i Hi. rewrite !byte_at_take by done. apply H. lia.
  - intros H. split; [done|]. intros i Hi.
    rewrite <- (byte_at_take l n), H by lia. apply byte_at_take. lia.
Qed.

(** The loops that accumulate the bytes of a buffer with [|]. *)
Lemma or_loop_zero d start n acc :
  bytes d -> is_u8 acc ->
  foldl (fun combined i => u8 (Z.lor combined (byte_at d i))) acc (seq start n) = 0 <->
  acc = 0 /\ forall i, (start <= i < start + n)%nat -> byte_at d i = 0.
Proof.
  intros Hd. revert start acc. induction n as [|n IH]; intros start acc Ha; cbn [seq foldl].
  - split; [|by intros []]. split; [done|]. lia.
  - assert (Hor : is_u8 (Z.lor acc (byte_at d start))).
    { pose proof (byte_at_range d start Hd) as Hb. unfold is_u8 in *.
      split; [by apply Z.lor_nonneg; lia|].
      destruct (Z.eq_dec (Z.lor acc (byte_at d start)) 0) as [->|]; [lia|].
      assert (Hlor : 0 <= Z.lor acc (byte_at d start)) by (apply Z.lor_nonneg; lia).
      apply Z.log2_lt_pow2; [lia|]. rewrite Z.log2_lor by lia.
      apply Z.max_lub_lt.
      - destruct (Z.eq_dec acc 0) as [->|]; [done|apply Z.log2_lt_pow2; lia].
      - destruct (Z.eq_dec (byte_at d start) 0) as [->|]; [done|apply Z.log2_lt_pow2; lia]. }
    rewrite IH by apply u8_range. rewrite u8_id, lor_eq_0 by done. split.
    + intros [[-> E] H]. split; [done|]. intros i Hi.
      destruct (decide (i = start)) as [->|]; [done|]. apply H. lia.
    + intros [-> H]. split; [split; [done|apply H; lia]|]. intros. apply H. lia.
Qed.

Lemma byte_at_zeros n i : byte_at (replicate n 0) i = 0.
Proof. unfold byte_at. revert i. induction n; intros [|i]; cbn; auto. Qed.

Lemma or_loop_zeros d n :
  bytes d -> length d = n ->
  foldl (fun combined i => u8 (Z.lor combined (byte_at d i))) 0 (seq 0 n) = 0 <-> d = replicate n 0.
Proof.
  intros Hd Hl. rewrite or_loop_zero by done. split.
  - intros [_ H]. apply (byte_at_ext _ _ n); [done|by rewrite length_replicate|].
    intros i Hi. rewrite H by lia. symmetry. apply byte_at_zeros.
  - intros ->. split; [done|]. intros i _. apply byte_at_zeros.
Qed.

Lemma zero_loop_eq p n :
  zero_loop p n = replicate (Nat.min n (length p)) 0 ++ drop n p.
Proof.
  revert p. induction n as [|n IH]; intros [|x p]; cbn; [done..|]. by rewrite IH.
Qed.

(** ** What the other components use

    [uint8_t digest[32]; guardian_sha256(p, n, digest);] *)
Definition sha256_digest (p : list Z) (n : nat) : list Z :=
  default [] (guardian_sha256 (Some p) n (Some (replicate 32 0))).

Lemma sha256_digest_take p n : sha256_digest (take n p) n = sha256_digest p n.
Proof.
  unfold sha256_digest, guardian_sha256, guardian_sha256_update. by rewrite take_take, Nat.min_id.
Qed.

Lemma sha256_digest_app p q n :
  n = length p -> sha256_digest (p ++ q) n = sha256_digest p n.
Proof.
  intros ->. rewrite <- (sha256_digest_take (p ++ q)), take_app_length. by rewrite <- sha256_digest_take, take_ge.
Qed.

Lemma final_digest c :
  let b := guardian_sha256_final c (replicate 32 0) in length b = 32%nat /\ bytes b.
Proof.
  unfold guardian_sha256_final. cbv zeta.
  rewrite digest_fill; [|apply sha256_compress_length|done].
  set (st := ctx_state _). assert (Hst : length st = 8%nat) by apply sha256_compress_length.
  clearbody st. split.
  - by do 9 (destruct st as [|? st]; [done || (cbn in Hst; lia)|]).
  - apply Forall_concat, Forall_map, Forall_true. intros. apply put_u32_be_bytes.
Qed.

Lemma sha256_digest_length p n : length (sha256_digest p n) = 32%nat.
Proof. apply final_digest. Qed.
Lemma sha256_digest_bytes p n : bytes (sha256_digest p n).
Proof. apply final_digest. Qed.

Lemma sha256_digest_spec p n :
  (n <= length p)%nat -> 8 * Z.of_nat n < 2 ^ 64 -> sha256_digest p n = sha256_spec (take n p).
Proof. intros. unfold sha256_digest. by rewrite guardian_sha256_spec. Qed.

#[global] Opaque sha256_digest.

(** ** Properties *)

(** C37: however a message is cut into the pieces handed to
    [guardian_sha256_update], initialising a context, absorbing the pieces in
    order and finalising yields the FIPS 180-4 digest of the whole message. *)
Theorem sha256_any_chunking (chunks : list (list Z)) (buffer digest : list Z) :
  length buffer = 64%nat -> length digest = 32%nat ->
  8 * Z.of_nat (length (concat chunks)) < 2 ^ 64 ->
  guardian_sha256_final
    (foldl (fun c p => guardian_sha256_update c (Some p) (length p))
       (guardian_sha256_init (SHA256_CONTEXT [] buffer 0 0)) chunks) digest
  = sha256_spec (concat chunks).
Proof.
  intros Hb Hd Hs.
  assert (H : forall c m, repr c m -> ctx_total_length c = u64 (Z.of_nat (length m)) ->
    let c' := foldl (fun c p => guardian_sha256_update c (Some p) (length p)) c chunks in
    repr c' (m ++ concat chunks) /\
    ctx_total_length c' = u64 (Z.of_nat (length (m ++ concat chunks)))).
  { clear. induction chunks as [|p chunks IH]; intros c m Hr Ht; cbn [foldl concat].
    - by rewrite app_nil_r.
    - rewrite app_assoc. destruct (guardian_sha256_update_spec c m p (length p) Hr Ht);
        [lia|]. rewrite firstn_all in *. auto. }
  destruct (H _ [] (repr_init (SHA256_CONTEXT [] buffer 0 0) Hb) eq_refl) as [Hr Ht].
  by apply (guardian_sha256_final_spec _ _ Hr Ht).
Qed.

Lemma sha256_any_chunking_witness :
  guardian_sha256_final
    (foldl (fun c p => guardian_sha256_update c (Some p) (length p))
       (guardian_sha256_init (SHA256_CONTEXT [] (replicate 64 7) 0 0))
       [[97]; []; replicate 100 98; [99]]) (replicate 32 0)
  = sha256_spec (97 :: replicate 100 98 ++ [99]).
Proof.
  apply (sha256_any_chunking [[97]; []; replicate 100 98; [99]]); [reflexivity..|].
  vm_compute. reflexivity.
Defined.

(** [guardian_hmac_sha256] computes the RFC 2104 code over SHA-256, hashing
    keys longer than one block first. *)
Theorem hmac_refines_rfc2104 (key data digest : list Z) :
  bytes key -> 8 * Z.of_nat (length key) < 2 ^ 64 ->
  8 * Z.of_nat (64 + length data) < 2 ^ 64 -> length digest = 32%nat ->
  guardian_hmac_sha256 (Some key) (length key) (Some data) (length data) (Some digest)
  = Some (hmac_spec key data).
Proof.
  intros. rewrite guardian_hmac_sha256_spec by (done || lia). by rewrite !firstn_all.
Qed.

Lemma hmac_refines_rfc2104_witness :
  guardian_hmac_sha256 (Some (replicate 70 11)) 70 (Some [72; 105]) 2
    (Some (replicate 32 0)) = Some (hmac_spec (replicate 70 11) [72; 105]).
Proof.
  apply (hmac_refines_rfc2104 (replicate 70 11) [72; 105] (replicate 32 0)).
  - apply bytes_replicate. unfold is_u8. lia.
  - vm_compute. reflexivity.
  - vm_compute. reflexivity.
  - reflexivity.
Defined.

(** the branch-free comparison answers true exactly when both pointers are
    present, the width is non-zero and the first [n] bytes agree. *)
Theorem constant_time_equal_iff (left right : option (list Z)) (n : nat) :
  (forall l, left = Some l -> bytes l /\ (n <= length l)%nat) ->
  (forall r, right = Some r -> bytes r /\ (n <= length r)%nat) ->
  guardian_crypto_constant_time_equal left right n = true <->
  exists l r, left = Some l /\ right = Some r /\ n <> 0%nat /\ take n l = take n r.
Proof.
  intros Hl Hr. destruct left as [l|]; [|split; [done|by intros (? & ? & ? & _)]].
  destruct right as [r|]; [|split; [done|by intros (? & ? & _ & ? & _)]].
  pose proof (Hl l eq_refl) as []. pose proof (Hr r eq_refl) as []. destruct n as [|n].
  - split; [done|]. by intros (? & ? & _ & _ & ? & _).
  - rewrite guardian_crypto_constant_time_equal_spec by (done || lia).
    split; [intros ?; by exists l, r|].
    intros (l' & r' & El & Er & _ & ?). by simplify_eq.
Qed.

Lemma constant_time_equal_iff_witness :
  guardian_crypto_constant_time_equal (Some [1; 2; 3]) (Some [1; 2; 4]) 2 = true <->
  exists l r, Some [1; 2; 3] = Some l /\ Some [1; 2; 4] = Some r /\ 2%nat <> 0%nat /\
    take 2 l = take 2 r.
Proof.
  apply (constant_time_equal_iff (Some [1; 2; 3]) (Some [1; 2; 4]) 2); intros ? E; injection E as <-;
    (split; [by repeat constructor|cbn; lia]).
Defined.
