(* ===== verification/Crc32.v ===== *)
(** * CRC-32 of the two frame formats

    Model of the checksum loops of [firmware/Protocol/Src/guardian_protocol.c]
    ([guardian_crc32], which branches on the low bit) and of
    [firmware/NodeLink/Src/guardian_node_link.c] ([guardian_node_link_crc32],
    which selects the polynomial with a mask).  The lemmas show that the two
    agree, that the checksum fits in 32 bits, and that every step is injective,
    hence that an error confined to one byte always changes the checksum. *)

From S2P Require Import Prelude.

(** ** guardian_protocol.c *)

Definition GUARDIAN_CRC32_POLYNOMIAL : Z := 0xEDB88320.
Definition GUARDIAN_CRC32_INITIAL : Z := 0xFFFFFFFF.
Definition GUARDIAN_CRC32_FINAL_XOR : Z := 0xFFFFFFFF.

(** One reflected bit step of the inner loop. *)
Definition crc32_bit (crc : Z) : Z :=
  if negb (Z.land crc 1 =? 0)
  then Z.lxor (Z.shiftr crc 1) GUARDIAN_CRC32_POLYNOMIAL
  else Z.shiftr crc 1.

(** One iteration of the outer loop: mix in a byte, then eight bit steps. *)
Definition crc32_byte (crc byte : Z) : Z :=
  Nat.iter 8 crc32_bit (Z.lxor crc byte).

Definition guardian_crc32 (data : option (list Z)) (length : nat) : Z :=
  match data with
  | None => if negb (length =? 0)%nat then 0
            else Z.lxor GUARDIAN_CRC32_INITIAL GUARDIAN_CRC32_FINAL_XOR
  | Some p =>
      Z.lxor (foldl crc32_byte GUARDIAN_CRC32_INITIAL (take length p))
             GUARDIAN_CRC32_FINAL_XOR
  end.

(** ** guardian_node_link.c *)

(** One pass of the inner loop, [mask] being all ones or all zeros. *)
Definition node_link_crc32_bit (crc : Z) : Z :=
  let mask := u32 (0 - Z.land crc 1) in
  Z.lxor (Z.shiftr crc 1) (Z.land 0xEDB88320 mask).

Definition node_link_crc32_byte (crc byte : Z) : Z :=
  Nat.iter 8 node_link_crc32_bit (Z.lxor crc byte).

Definition guardian_node_link_crc32 (data : option (list Z)) (length : nat) : Z :=
  match data with
  | None => if negb (length =? 0)%nat then 0 else u32 (Z.lnot 0xFFFFFFFF)
  | Some p => u32 (Z.lnot (foldl node_link_crc32_byte 0xFFFFFFFF (take length p)))
  end.

(** ** Range *)

Lemma shiftr1_range a : is_u32 a -> 0 <= Z.shiftr a 1 < 2 ^ 31.
Proof. intros Ha. rewrite Z.shiftr_div_pow2 by lia. unfold is_u32 in Ha. div_mod_lia. Qed.

Lemma crc32_bit_range crc : is_u32 crc -> is_u32 (crc32_bit crc).
Proof.
  intros Hc. pose proof (shiftr1_range crc Hc). unfold crc32_bit, is_u32.
  case_match; [|lia]. apply lxor_range; unfold GUARDIAN_CRC32_POLYNOMIAL; lia.
Qed.

Lemma iter_range n crc : is_u32 crc -> is_u32 (Nat.iter n crc32_bit crc).
Proof. induction n; intros; cbn; auto using crc32_bit_range. Qed.

Lemma crc32_byte_range crc b : is_u32 crc -> is_u8 b -> is_u32 (crc32_byte crc b).
Proof.
  intros Hc Hb. apply iter_range. unfold is_u32, is_u8 in *. apply lxor_range; lia.
Qed.

Lemma crc32_fold_range crc l : is_u32 crc -> bytes l -> is_u32 (foldl crc32_byte crc l).
Proof.
  intros Hc Hl. revert crc Hc.
  induction Hl as [|b l Hb Hl IH]; intros crc Hc; cbn; [done|].
  by apply IH, crc32_byte_range.
Qed.

Lemma crc32_initial_range : is_u32 GUARDIAN_CRC32_INITIAL.
Proof. unfold is_u32, GUARDIAN_CRC32_INITIAL. lia. Qed.

Lemma guardian_crc32_range p n : bytes p -> is_u32 (guardian_crc32 (Some p) n).
Proof.
  intros Hp.
  pose proof (crc32_fold_range GUARDIAN_CRC32_INITIAL (take n p)
    crc32_initial_range (bytes_take n p Hp)).
  apply (lxor_range 32); [lia|assumption|]. unfold GUARDIAN_CRC32_FINAL_XOR. lia.
Qed.

Lemma guardian_crc32_take p n : guardian_crc32 (Some (take n p)) n = guardian_crc32 (Some p) n.
Proof. unfold guardian_crc32. by rewrite take_take, Nat.min_id. Qed.

Lemma guardian_crc32_app p q n :
  n = length p -> guardian_crc32 (Some (p ++ q)) n = guardian_crc32 (Some p) n.
Proof. intros ->. unfold guardian_crc32. by rewrite take_app_length, firstn_all. Qed.

Lemma guardian_node_link_crc32_take p n :
  guardian_node_link_crc32 (Some (take n p)) n = guardian_node_link_crc32 (Some p) n.
Proof. unfold guardian_node_link_crc32. by rewrite take_take, Nat.min_id. Qed.

Lemma guardian_node_link_crc32_app p q n :
  n = length p ->
  guardian_node_link_crc32 (Some (p ++ q)) n = guardian_node_link_crc32 (Some p) n.
Proof.
  intros ->. unfold guardian_node_link_crc32. by rewrite take_app_length, firstn_all.
Qed.

Lemma guardian_node_link_crc32_range p n : is_u32 (guardian_node_link_crc32 (Some p) n).
Proof. apply u32_range. Qed.

(** ** Equivalence of the two loops *)

Lemma node_link_crc32_bit_eq crc : node_link_crc32_bit crc = crc32_bit crc.
Proof.
  unfold node_link_crc32_bit, crc32_bit.
  rewrite land_1. pose proof (Z.mod_pos_bound crc 2 ltac:(lia)).
  assert (crc `mod` 2 = 0 \/ crc `mod` 2 = 1) as [->| ->] by lia; [|done].
  change (Z.land 0xEDB88320 (u32 (0 - 0))) with 0. by rewrite Z.lxor_0_r.
Qed.

Lemma node_link_crc32_byte_eq crc b : node_link_crc32_byte crc b = crc32_byte crc b.
Proof.
  unfold node_link_crc32_byte, crc32_byte. generalize (Z.lxor crc b). intros x.
  cbn. by rewrite !node_link_crc32_bit_eq.
Qed.

Lemma lnot_lxor x : is_u32 x -> u32 (Z.lnot x) = Z.lxor x 0xFFFFFFFF.
Proof.
  intros Hx. unfold u32. rewrite <- Z.land_ones by lia.
  change 0xFFFFFFFF with (Z.ones 32). apply Z.bits_inj'. intros n Hn.
  rewrite Z.land_spec, Z.lnot_spec, Z.lxor_spec by done.
  destruct (Z.lt_ge_cases n 32).
  - rewrite Z.ones_spec_low by lia. by destruct (Z.testbit x n).
  - rewrite Z.ones_spec_high by lia. unfold is_u32 in Hx.
    rewrite <- (Z.mod_small x (2 ^ 32)), Z.mod_pow2_bits_high by lia. done.
Qed.

Lemma guardian_node_link_crc32_eq p n :
  bytes p -> guardian_node_link_crc32 (Some p) n = guardian_crc32 (Some p) n.
Proof.
  intros Hp. unfold guardian_node_link_crc32, guardian_crc32.
  replace (foldl node_link_crc32_byte 4294967295 (take n p))
    with (foldl crc32_byte 4294967295 (take n p)).
  - apply lnot_lxor, crc32_fold_range; [apply crc32_initial_range|]. by apply bytes_take.
  - generalize 4294967295. induction (take n p) as [|b l IH]; intros crc; cbn [foldl]; [done|].
    by rewrite IH, node_link_crc32_byte_eq.
Qed.

(** ** Injectivity *)

Lemma land_1_testbit x : (Z.land x 1 =? 0) = negb (Z.testbit x 0).
Proof.
  rewrite land_1, Z.bit0_odd, Zmod_odd. by destruct (Z.odd x).
Qed.

(** The top bit of the result is the bit shifted out. *)
Lemma crc32_bit_top x : is_u32 x -> Z.testbit (crc32_bit x) 31 = Z.testbit x 0.
Proof.
  intros Hx. pose proof (shiftr1_range x Hx).
  assert (Ht : Z.testbit (Z.shiftr x 1) 31 = false).
  { rewrite <- (Z.mod_small (Z.shiftr x 1) (2 ^ 31)), Z.mod_pow2_bits_high by lia. done. }
  unfold crc32_bit. rewrite land_1_testbit, negb_involutive.
  destruct (Z.testbit x 0); [|done]. by rewrite Z.lxor_spec, Ht.
Qed.

Lemma lxor_cancel_r a b c : Z.lxor a c = Z.lxor b c -> a = b.
Proof.
  intros H. apply (f_equal (fun z => Z.lxor z c)) in H.
  by rewrite !Z.lxor_assoc, !Z.lxor_nilpotent, !Z.lxor_0_r in H.
Qed.

Lemma shiftr1_inj x y :
  Z.testbit x 0 = Z.testbit y 0 -> Z.shiftr x 1 = Z.shiftr y 1 -> x = y.
Proof.
  intros H0 H. rewrite !Z.bit0_odd in H0. rewrite !Z.shiftr_div_pow2 in H by lia.
  pose proof (Zmod_odd x). pose proof (Zmod_odd y). rewrite H0 in *.
  change (2 ^ 1) with 2 in H. destruct (Z.odd y); div_mod_lia.
Qed.

Lemma crc32_bit_inj x y : is_u32 x -> is_u32 y -> crc32_bit x = crc32_bit y -> x = y.
Proof.
  intros Hx Hy H. pose proof (crc32_bit_top x Hx) as Ht.
  rewrite H, (crc32_bit_top y Hy) in Ht. apply shiftr1_inj; [done|].
  unfold crc32_bit in H. rewrite !land_1_testbit, !negb_involutive, Ht in H.
  destruct (Z.testbit x 0); [|done]. by apply lxor_cancel_r in H.
Qed.

Lemma iter_inj n x y :
  is_u32 x -> is_u32 y -> Nat.iter n crc32_bit x = Nat.iter n crc32_bit y -> x = y.
Proof.
  intros Hx Hy. induction n as [|n IH]; cbn; [done|]. intros H.
  apply IH, crc32_bit_inj; auto using iter_range.
Qed.

Lemma crc32_byte_inj_crc c c' b :
  is_u32 c -> is_u32 c' -> is_u8 b -> crc32_byte c b = crc32_byte c' b -> c = c'.
Proof.
  intros Hc Hc' Hb H. apply iter_inj in H; [by apply lxor_cancel_r in H|..];
    unfold is_u32, is_u8 in *; apply lxor_range; lia.
Qed.

Lemma crc32_byte_inj_byte c b b' :
  is_u32 c -> is_u8 b -> is_u8 b' -> crc32_byte c b = crc32_byte c b' -> b = b'.
Proof.
  intros Hc Hb Hb' H. apply iter_inj in H.
  - rewrite !(Z.lxor_comm c) in H. by apply lxor_cancel_r in H.
  - unfold is_u32, is_u8 in *; apply lxor_range; lia.
  - unfold is_u32, is_u8 in *; apply lxor_range; lia.
Qed.

Lemma crc32_fold_inj l c c' :
  bytes l -> is_u32 c -> is_u32 c' ->
  foldl crc32_byte c l = foldl crc32_byte c' l -> c = c'.
Proof.
  intros Hl. revert c c'. induction Hl as [|b l Hb Hl IH]; intros c c' Hc Hc' H; [done|].
  cbn in H. apply (crc32_byte_inj_crc _ _ b); [done..|].
  apply IH; auto using crc32_byte_range.
Qed.

(** Two blocks that differ in exactly one byte have different checksums. *)
Lemma crc32_single_byte a x y b :
  bytes (a ++ x :: b) -> is_u8 y ->
  guardian_crc32 (Some (a ++ x :: b)) (length (a ++ x :: b))
  = guardian_crc32 (Some (a ++ y :: b)) (length (a ++ y :: b)) -> x = y.
Proof.
  intros Hb Hy. apply bytes_app in Hb as [Ha Hb]. apply Forall_cons in Hb as [Hx Hb].
  unfold guardian_crc32. rewrite !firstn_all, !foldl_app. cbn [foldl]. intros H.
  apply lxor_cancel_r in H.
  pose proof (crc32_fold_range GUARDIAN_CRC32_INITIAL a crc32_initial_range Ha).
  apply crc32_fold_inj in H; [|done|by apply crc32_byte_range..].
  by apply crc32_byte_inj_byte in H.
Qed.

(** ** Properties *)

(** The two CRC implementations agree.  For every byte buffer and length, and
    for the NULL pointer, the masked loop of the node link and the branching
    loop of the Guardian protocol compute the same 32-bit checksum. *)
Theorem crc32_implementations_agree data n :
  match data with Some p => bytes p | None => True end ->
  guardian_node_link_crc32 data n = guardian_crc32 data n /\ is_u32 (guardian_crc32 data n).
Proof.
  destruct data as [p|]; intros Hp.
  - split; [by apply guardian_node_link_crc32_eq|by apply guardian_crc32_range].
  - by destruct n.
Qed.

(** The check value of CRC-32/ISO-HDLC: the ASCII digits 1 to 9. *)
Lemma crc32_implementations_agree_witness :
  guardian_crc32 (Some [49; 50; 51; 52; 53; 54; 55; 56; 57]) 9 = 0xCBF43926 /\
  guardian_node_link_crc32 (Some [49; 50; 51; 52; 53; 54; 55; 56; 57]) 9
    = guardian_crc32 (Some [49; 50; 51; 52; 53; 54; 55; 56; 57]) 9 /\
  is_u32 (guardian_crc32 (Some [49; 50; 51; 52; 53; 54; 55; 56; 57]) 9).
Proof.
  split; [vm_compute; reflexivity|].
  apply (crc32_implementations_agree (Some [49; 50; 51; 52; 53; 54; 55; 56; 57]) 9).
  apply (bool_decide_unpack _). vm_compute. exact I.
Defined.
