(* ===== verification/Protocol.v ===== *)
(** * Guardian Protocol v0.1 frame codec

    Model of [firmware/Protocol/Src/guardian_protocol.c] (its CRC is in [Crc32]):
    the frame encoder and the frame decoder with every early return, each
    function with the NULL tests the code makes.  Pointer arguments are
    [option]s, [None] being NULL; a function returns its result code together
    with the objects it was given pointers to, as it leaves them. *)

From S2P Require Import Prelude Crc32.

(** ** Constants of guardian_protocol.h *)

Definition GUARDIAN_MAGIC_0 : Z := 0x47.
Definition GUARDIAN_MAGIC_1 : Z := 0x46.
Definition GUARDIAN_PROTOCOL_VERSION : Z := 0x01.
Definition GUARDIAN_HEADER_SIZE : nat := 12.
Definition GUARDIAN_CRC_SIZE : nat := 4.
Definition GUARDIAN_MAX_PAYLOAD_SIZE : nat := 256.
Definition GUARDIAN_MAX_FRAME_SIZE : nat :=
  GUARDIAN_HEADER_SIZE + GUARDIAN_MAX_PAYLOAD_SIZE + GUARDIAN_CRC_SIZE.
Definition GUARDIAN_SUPPORTED_FLAGS : Z := 0x00.

Definition GUARDIAN_OFFSET_MAGIC_0 : nat := 0.
Definition GUARDIAN_OFFSET_MAGIC_1 : nat := 1.
Definition GUARDIAN_OFFSET_VERSION : nat := 2.
Definition GUARDIAN_OFFSET_MESSAGE_TYPE : nat := 3.
Definition GUARDIAN_OFFSET_COMMAND : nat := 4.
Definition GUARDIAN_OFFSET_FLAGS : nat := 5.
Definition GUARDIAN_OFFSET_SEQUENCE : nat := 6.
Definition GUARDIAN_OFFSET_PAYLOAD_LENGTH : nat := 10.

Definition GUARDIAN_MESSAGE_REQUEST : Z := 0x01.
Definition GUARDIAN_MESSAGE_RESPONSE : Z := 0x02.
Definition GUARDIAN_MESSAGE_ERROR : Z := 0x04.
Definition GUARDIAN_MESSAGE_TELEMETRY : Z := 0x05.

(** [guardian_command_t] and [guardian_error_code_t], as the bytes they are on the
    wire. *)
Definition GUARDIAN_COMMAND_PING : Z := 0x01.
Definition GUARDIAN_COMMAND_DEVICE_INFO : Z := 0x02.
Definition GUARDIAN_COMMAND_GET_STATUS : Z := 0x10.
Definition GUARDIAN_COMMAND_GET_DSP_FEATURES : Z := 0x11.
Definition GUARDIAN_COMMAND_GET_HEALTH_STATUS : Z := 0x12.
Definition GUARDIAN_COMMAND_BASELINE_CONTROL : Z := 0x13.
Definition GUARDIAN_COMMAND_GET_CONTROL_STATUS : Z := 0x14.
Definition GUARDIAN_COMMAND_CONTROL_COMMAND : Z := 0x15.
Definition GUARDIAN_COMMAND_SET_TELEMETRY : Z := 0x20.
Definition GUARDIAN_COMMAND_MACHINE_TELEMETRY : Z := 0x21.
Definition GUARDIAN_COMMAND_AUTH_BEGIN : Z := 0x30.
Definition GUARDIAN_COMMAND_AUTH_FINISH : Z := 0x31.
Definition GUARDIAN_COMMAND_GET_SECURITY_STATUS : Z := 0x32.
Definition GUARDIAN_COMMAND_SECURE_COMMAND : Z := 0x33.
Definition GUARDIAN_COMMAND_GET_FIRMWARE_STATUS : Z := 0x40.
Definition GUARDIAN_COMMAND_FIRMWARE_BEGIN : Z := 0x41.
Definition GUARDIAN_COMMAND_FIRMWARE_CHUNK : Z := 0x42.
Definition GUARDIAN_COMMAND_FIRMWARE_FINALIZE : Z := 0x43.
Definition GUARDIAN_COMMAND_FIRMWARE_ACTIVATE : Z := 0x44.

Definition GUARDIAN_ERROR_MALFORMED_FRAME : Z := 0x01.
Definition GUARDIAN_ERROR_UNKNOWN_COMMAND : Z := 0x05.
Definition GUARDIAN_ERROR_INVALID_PAYLOAD : Z := 0x06.
Definition GUARDIAN_ERROR_INTERNAL : Z := 0x07.
Definition GUARDIAN_ERROR_BUSY : Z := 0x08.
Definition GUARDIAN_ERROR_UNAUTHORIZED : Z := 0x09.
Definition GUARDIAN_ERROR_REPLAY_DETECTED : Z := 0x0A.
Definition GUARDIAN_ERROR_SIGNATURE_INVALID : Z := 0x0B.
Definition GUARDIAN_ERROR_ROLLBACK_BLOCKED : Z := 0x0C.
Definition GUARDIAN_ERROR_UPDATE_FAILED : Z := 0x0D.

(** The enumeration [guardian_protocol_result_t]. *)
Inductive guardian_protocol_result_t :=
  | GUARDIAN_PROTOCOL_OK
  | GUARDIAN_PROTOCOL_ERROR_NULL_ARGUMENT
  | GUARDIAN_PROTOCOL_ERROR_OUTPUT_TOO_SMALL
  | GUARDIAN_PROTOCOL_ERROR_FRAME_TOO_SHORT
  | GUARDIAN_PROTOCOL_ERROR_MAGIC
  | GUARDIAN_PROTOCOL_ERROR_VERSION
  | GUARDIAN_PROTOCOL_ERROR_MESSAGE_TYPE
  | GUARDIAN_PROTOCOL_ERROR_FLAGS
  | GUARDIAN_PROTOCOL_ERROR_PAYLOAD_TOO_LARGE
  | GUARDIAN_PROTOCOL_ERROR_LENGTH_MISMATCH
  | GUARDIAN_PROTOCOL_ERROR_CRC.

#[global] Instance guardian_protocol_result_t_eq_dec : EqDecision guardian_protocol_result_t.
Proof. solve_decision. Defined.

(** [guardian_frame_t]; [message_type] is the value of the enumeration object. *)
Record guardian_frame_t := FRAME {
  frame_message_type : Z;
  frame_command : Z;
  frame_flags : Z;
  frame_sequence : Z;
  frame_payload_length : Z;
  frame_payload : list Z        (* payload[256] *)
}.

#[global] Instance guardian_frame_t_eq_dec : EqDecision guardian_frame_t.
Proof. solve_decision. Defined.

(** ** Byte order *)

Definition guardian_read_u16_be (input : list Z) : Z := get_u16_be input.
Definition guardian_read_u32_be (input : list Z) : Z := get_u32_be input.
Definition guardian_write_u16_be (value : Z) : list Z := put_u16_be value.
Definition guardian_write_u32_be (value : Z) : list Z := put_u32_be value.

Definition guardian_message_type_is_valid (message_type : Z) : bool :=
  early message_type <? GUARDIAN_MESSAGE_REQUEST with false ;;
  early GUARDIAN_MESSAGE_TELEMETRY <? message_type with false ;;
  true.

(** ** Encoder *)

Definition guardian_protocol_encode (frame : option guardian_frame_t)
    (output : option (list Z)) (output_capacity : nat) (output_size : option nat)
  : guardian_protocol_result_t * option (list Z) * option nat :=
  match frame, output, output_size with
  | Some f, Some out, Some _ =>
      early negb (guardian_message_type_is_valid (u8 (frame_message_type f)))
        with (GUARDIAN_PROTOCOL_ERROR_MESSAGE_TYPE, output, output_size) ;;
      early negb (frame_flags f =? GUARDIAN_SUPPORTED_FLAGS)
        with (GUARDIAN_PROTOCOL_ERROR_FLAGS, output, output_size) ;;
      early Z.of_nat GUARDIAN_MAX_PAYLOAD_SIZE <? frame_payload_length f
        with (GUARDIAN_PROTOCOL_ERROR_PAYLOAD_TOO_LARGE, output, output_size) ;;
      let plen := Z.to_nat (frame_payload_length f) in
      let required_size := (GUARDIAN_HEADER_SIZE + plen + GUARDIAN_CRC_SIZE)%nat in
      early (output_capacity <? required_size)%nat
        with (GUARDIAN_PROTOCOL_ERROR_OUTPUT_TOO_SMALL, output, output_size) ;;
      let out := blit out GUARDIAN_OFFSET_MAGIC_0 [GUARDIAN_MAGIC_0] in
      let out := blit out GUARDIAN_OFFSET_MAGIC_1 [GUARDIAN_MAGIC_1] in
      let out := blit out GUARDIAN_OFFSET_VERSION [GUARDIAN_PROTOCOL_VERSION] in
      let out := blit out GUARDIAN_OFFSET_MESSAGE_TYPE [u8 (frame_message_type f)] in
      let out := blit out GUARDIAN_OFFSET_COMMAND [frame_command f] in
      let out := blit out GUARDIAN_OFFSET_FLAGS [frame_flags f] in
      let out := blit out GUARDIAN_OFFSET_SEQUENCE
                   (guardian_write_u32_be (frame_sequence f)) in
      let out := blit out GUARDIAN_OFFSET_PAYLOAD_LENGTH
                   (guardian_write_u16_be (frame_payload_length f)) in
      let out := if negb (frame_payload_length f =? 0)
                 then blit out GUARDIAN_HEADER_SIZE (take plen (frame_payload f))
                 else out in
      let crc := guardian_crc32 (Some out) (GUARDIAN_HEADER_SIZE + plen) in
      let out := blit out (GUARDIAN_HEADER_SIZE + plen) (guardian_write_u32_be crc) in
      (GUARDIAN_PROTOCOL_OK, Some out, Some required_size)
  | _, _, _ => (GUARDIAN_PROTOCOL_ERROR_NULL_ARGUMENT, output, output_size)
  end.

(** ** Decoder *)

Definition guardian_protocol_decode (input : option (list Z)) (input_size : nat)
    (frame : option guardian_frame_t)
  : guardian_protocol_result_t * option guardian_frame_t :=
  match input, frame with
  | Some inp, Some f =>
      early (input_size <? GUARDIAN_HEADER_SIZE + GUARDIAN_CRC_SIZE)%nat
        with (GUARDIAN_PROTOCOL_ERROR_FRAME_TOO_SHORT, frame) ;;
      early negb (byte_at inp GUARDIAN_OFFSET_MAGIC_0 =? GUARDIAN_MAGIC_0)
        with (GUARDIAN_PROTOCOL_ERROR_MAGIC, frame) ;;
      early negb (byte_at inp GUARDIAN_OFFSET_MAGIC_1 =? GUARDIAN_MAGIC_1)
        with (GUARDIAN_PROTOCOL_ERROR_MAGIC, frame) ;;
      early negb (byte_at inp GUARDIAN_OFFSET_VERSION =? GUARDIAN_PROTOCOL_VERSION)
        with (GUARDIAN_PROTOCOL_ERROR_VERSION, frame) ;;
      early negb (guardian_message_type_is_valid (byte_at inp GUARDIAN_OFFSET_MESSAGE_TYPE))
        with (GUARDIAN_PROTOCOL_ERROR_MESSAGE_TYPE, frame) ;;
      early negb (byte_at inp GUARDIAN_OFFSET_FLAGS =? GUARDIAN_SUPPORTED_FLAGS)
        with (GUARDIAN_PROTOCOL_ERROR_FLAGS, frame) ;;
      let payload_length :=
        guardian_read_u16_be (drop GUARDIAN_OFFSET_PAYLOAD_LENGTH inp) in
      early Z.of_nat GUARDIAN_MAX_PAYLOAD_SIZE <? payload_length
        with (GUARDIAN_PROTOCOL_ERROR_PAYLOAD_TOO_LARGE, frame) ;;
      let plen := Z.to_nat payload_length in
      let expected_size := (GUARDIAN_HEADER_SIZE + plen + GUARDIAN_CRC_SIZE)%nat in
      early negb (input_size =? expected_size)%nat
        with (GUARDIAN_PROTOCOL_ERROR_LENGTH_MISMATCH, frame) ;;
      let received_crc := guardian_read_u32_be (drop (GUARDIAN_HEADER_SIZE + plen) inp) in
      let calculated_crc := guardian_crc32 (Some inp) (GUARDIAN_HEADER_SIZE + plen) in
      early negb (received_crc =? calculated_crc)
        with (GUARDIAN_PROTOCOL_ERROR_CRC, frame) ;;
      let f' := FRAME (byte_at inp GUARDIAN_OFFSET_MESSAGE_TYPE)
                  (byte_at inp GUARDIAN_OFFSET_COMMAND)
                  (byte_at inp GUARDIAN_OFFSET_FLAGS)
                  (guardian_read_u32_be (drop GUARDIAN_OFFSET_SEQUENCE inp))
                  payload_length
                  (if negb (payload_length =? 0)
                   then blit (frame_payload f) 0 (take plen (drop GUARDIAN_HEADER_SIZE inp))
                   else frame_payload f) in
      (GUARDIAN_PROTOCOL_OK, Some f')
  | _, _ => (GUARDIAN_PROTOCOL_ERROR_NULL_ARGUMENT, frame)
  end.

(** ** Diagnostic strings *)

Local Open Scope string_scope.

Definition guardian_protocol_result_string (result : guardian_protocol_result_t) : string :=
  match result with
  | GUARDIAN_PROTOCOL_OK => "ok"
  | GUARDIAN_PROTOCOL_ERROR_NULL_ARGUMENT => "null argument"
  | GUARDIAN_PROTOCOL_ERROR_OUTPUT_TOO_SMALL => "output buffer too small"
  | GUARDIAN_PROTOCOL_ERROR_FRAME_TOO_SHORT => "frame too short"
  | GUARDIAN_PROTOCOL_ERROR_MAGIC => "invalid magic"
  | GUARDIAN_PROTOCOL_ERROR_VERSION => "unsupported version"
  | GUARDIAN_PROTOCOL_ERROR_MESSAGE_TYPE => "unsupported message type"
  | GUARDIAN_PROTOCOL_ERROR_FLAGS => "unsupported flags"
  | GUARDIAN_PROTOCOL_ERROR_PAYLOAD_TOO_LARGE => "payload too large"
  | GUARDIAN_PROTOCOL_ERROR_LENGTH_MISMATCH => "frame length mismatch"
  | GUARDIAN_PROTOCOL_ERROR_CRC => "CRC mismatch"
  end.

Local Close Scope string_scope.

(** ** The wire format *)

(** Everything before the CRC trailer. *)
Definition protocol_body (f : guardian_frame_t) : list Z :=
  [GUARDIAN_MAGIC_0; GUARDIAN_MAGIC_1; GUARDIAN_PROTOCOL_VERSION;
   u8 (frame_message_type f); frame_command f; frame_flags f]
  ++ put_u32_be (frame_sequence f) ++ put_u16_be (frame_payload_length f)
  ++ take (Z.to_nat (frame_payload_length f)) (frame_payload f).

Definition protocol_wire (f : guardian_frame_t) : list Z :=
  let body := protocol_body f in
  body ++ put_u32_be (guardian_crc32 (Some body) (length body)).

Ltac unfold_offsets :=
  unfold GUARDIAN_OFFSET_MAGIC_0, GUARDIAN_OFFSET_MAGIC_1, GUARDIAN_OFFSET_VERSION,
    GUARDIAN_OFFSET_MESSAGE_TYPE, GUARDIAN_OFFSET_COMMAND, GUARDIAN_OFFSET_FLAGS,
    GUARDIAN_OFFSET_SEQUENCE, GUARDIAN_OFFSET_PAYLOAD_LENGTH, GUARDIAN_HEADER_SIZE in *.

(** A frame the encoder accepts, in a well-formed C object. *)
Record frame_ok (f : guardian_frame_t) : Prop := {
  frame_ok_type : GUARDIAN_MESSAGE_REQUEST <= frame_message_type f <= GUARDIAN_MESSAGE_TELEMETRY;
  frame_ok_command : is_u8 (frame_command f);
  frame_ok_flags : frame_flags f = GUARDIAN_SUPPORTED_FLAGS;
  frame_ok_sequence : is_u32 (frame_sequence f);
  frame_ok_length : 0 <= frame_payload_length f <= 256;
  frame_ok_payload : length (frame_payload f) = GUARDIAN_MAX_PAYLOAD_SIZE;
  frame_ok_bytes : bytes (frame_payload f)
}.

(** A frame object of the caller: 256 payload bytes. *)
Definition frame_object (f : guardian_frame_t) : Prop :=
  length (frame_payload f) = GUARDIAN_MAX_PAYLOAD_SIZE /\ bytes (frame_payload f).

Lemma frame_ok_object f : frame_ok f -> frame_object f.
Proof. intros []. by split. Qed.

Lemma guardian_message_type_is_valid_spec t :
  guardian_message_type_is_valid t = true <->
  GUARDIAN_MESSAGE_REQUEST <= t <= GUARDIAN_MESSAGE_TELEMETRY.
Proof.
  unfold guardian_message_type_is_valid.
  destruct (Z.ltb_spec t GUARDIAN_MESSAGE_REQUEST); [split; [done|lia]|].
  destruct (Z.ltb_spec GUARDIAN_MESSAGE_TELEMETRY t); [split; [done|lia]|]. split; [lia|done].
Qed.

Lemma protocol_body_length f :
  0 <= frame_payload_length f <= 256 -> length (frame_payload f) = GUARDIAN_MAX_PAYLOAD_SIZE ->
  length (protocol_body f) = (GUARDIAN_HEADER_SIZE + Z.to_nat (frame_payload_length f))%nat.
Proof.
  intros Hl Hp. unfold GUARDIAN_MAX_PAYLOAD_SIZE in Hp. unfold protocol_body.
  rewrite !length_app, length_take. cbn [length put_u32_be put_u16_be].
  unfold GUARDIAN_HEADER_SIZE. lia.
Qed.

(** The stores of the encoder fill the output with the wire format and nothing else. *)
Lemma encode_writes f out cap n0 :
  guardian_message_type_is_valid (u8 (frame_message_type f)) = true ->
  frame_flags f = GUARDIAN_SUPPORTED_FLAGS -> 0 <= frame_payload_length f <= 256 ->
  length (frame_payload f) = GUARDIAN_MAX_PAYLOAD_SIZE ->
  (length (protocol_wire f) <= cap <= length out)%nat ->
  guardian_protocol_encode (Some f) (Some out) cap (Some n0) =
  (GUARDIAN_PROTOCOL_OK,
   Some (protocol_wire f ++ drop (length (protocol_wire f)) out),
   Some (length (protocol_wire f))).
Proof.
  intros Ht Hf Hl Hp Hcap. pose proof (protocol_body_length f Hl Hp) as Hb.
  assert (Hw : length (protocol_wire f)
               = (GUARDIAN_HEADER_SIZE + Z.to_nat (frame_payload_length f) + GUARDIAN_CRC_SIZE)%nat)
    by (unfold protocol_wire; rewrite length_app, Hb, put_u32_be_length; done).
  unfold guardian_protocol_encode. rewrite Ht, Hf. cbn [negb].
  rewrite Z.eqb_refl. cbn [negb].
  destruct (Z.ltb_spec (Z.of_nat GUARDIAN_MAX_PAYLOAD_SIZE) (frame_payload_length f));
    [unfold GUARDIAN_MAX_PAYLOAD_SIZE in *; lia|].
  rewrite <- Hw. destruct (Nat.ltb_spec cap (length (protocol_wire f))); [lia|].
  set (plen := Z.to_nat (frame_payload_length f)) in *.
  assert (Hpay : forall o : list Z,
    (if negb (frame_payload_length f =? 0) then blit o GUARDIAN_HEADER_SIZE (take plen (frame_payload f))
     else o) = blit o GUARDIAN_HEADER_SIZE (take plen (frame_payload f))).
  { intros o. destruct (Z.eqb_spec (frame_payload_length f) 0) as [E|]; [|done].
    replace plen with 0%nat by lia. by rewrite take_0, blit_nil. }
  rewrite Hpay. unfold guardian_write_u32_be, guardian_write_u16_be.
  unfold_offsets. unfold GUARDIAN_MAX_PAYLOAD_SIZE, GUARDIAN_CRC_SIZE in *.
  rewrite !(blit_blit_adjacent out) by buffer_lia.
  rewrite <- !app_assoc. fold plen. rewrite <- Hf.
  set (crc := guardian_crc32 _ _).
  assert (Hcrc : crc = guardian_crc32 (Some (protocol_body f)) (length (protocol_body f))).
  { unfold crc. rewrite Hb, blit_0. by apply guardian_crc32_app. }
  rewrite blit_0, Hcrc. reflexivity.
Qed.

Lemma u8_message_type t :
  GUARDIAN_MESSAGE_REQUEST <= t <= GUARDIAN_MESSAGE_TELEMETRY -> u8 t = t.
Proof.
  intros Ht. apply u8_id. unfold is_u8, GUARDIAN_MESSAGE_REQUEST, GUARDIAN_MESSAGE_TELEMETRY in *. lia.
Qed.

Lemma protocol_body_bytes f : frame_ok f -> bytes (protocol_body f).
Proof.
  intros []. unfold protocol_body. rewrite frame_ok_flags0.
  repeat first [apply bytes_app_2 | apply bytes_cons]; auto with guardian.
  all: done.
Qed.

Lemma protocol_wire_length f :
  frame_ok f ->
  length (protocol_wire f)
  = (GUARDIAN_HEADER_SIZE + Z.to_nat (frame_payload_length f) + GUARDIAN_CRC_SIZE)%nat.
Proof.
  intros []. unfold protocol_wire. by rewrite length_app, protocol_body_length.
Qed.

(** Decoding the wire format of a frame gives the frame back; bytes of the
    caller's payload array beyond the declared length are left as they were. *)
Lemma decode_wire f g rest :
  frame_ok f ->
  guardian_protocol_decode (Some (protocol_wire f ++ rest)) (length (protocol_wire f)) (Some g)
  = (GUARDIAN_PROTOCOL_OK,
     Some (FRAME (frame_message_type f) (frame_command f) (frame_flags f)
             (frame_sequence f) (frame_payload_length f)
             (blit (frame_payload g) 0
                (take (Z.to_nat (frame_payload_length f)) (frame_payload f))))).
Proof.
  intros Hok. pose proof (protocol_wire_length f Hok) as Hw.
  pose proof (protocol_body_bytes f Hok) as Hbb.
  destruct Hok as [Ht Hc Hf Hs Hl Hp Hb].
  pose proof (protocol_body_length f Hl Hp) as Hbl.
  set (plen := Z.to_nat (frame_payload_length f)) in *.
  set (tail := put_u32_be (guardian_crc32 (Some (protocol_body f)) (length (protocol_body f))) ++ rest).
  assert (Hinp : protocol_wire f ++ rest = protocol_body f ++ tail)
    by (unfold protocol_wire; by rewrite <- app_assoc).
  rewrite Hinp. unfold guardian_protocol_decode. rewrite Hw.
  replace (_ <? _)%nat with false by (symmetry; apply Nat.ltb_ge; lia).
  assert (Hplen : guardian_read_u16_be (drop GUARDIAN_OFFSET_PAYLOAD_LENGTH (protocol_body f ++ tail))
                  = frame_payload_length f).
  { unfold protocol_body. apply (put_get_u16_be (frame_payload_length f)). unfold is_u16. lia. }
  assert (Hseq : guardian_read_u32_be (drop GUARDIAN_OFFSET_SEQUENCE (protocol_body f ++ tail))
                 = frame_sequence f) by (by apply put_get_u32_be).
  rewrite Hplen, Hseq. fold plen. rewrite payload_copy by (done || lia).
  assert (Hpay : take plen (drop GUARDIAN_HEADER_SIZE (protocol_body f ++ tail))
                 = take plen (frame_payload f)).
  { change (drop GUARDIAN_HEADER_SIZE (protocol_body f ++ tail))
      with (take plen (frame_payload f) ++ tail).
    rewrite take_app_le, take_take, Nat.min_id; [done|].
    rewrite length_take. unfold GUARDIAN_MAX_PAYLOAD_SIZE in Hp. lia. }
  rewrite Hpay, <- Hbl, drop_app_length, guardian_crc32_app by done.
  unfold tail, guardian_read_u32_be. rewrite put_get_u32_be by (by apply guardian_crc32_range).
  rewrite Z.eqb_refl, Nat.eqb_refl.
  change (byte_at _ GUARDIAN_OFFSET_MESSAGE_TYPE) with (u8 (frame_message_type f)).
  rewrite (u8_message_type _ Ht), (proj2 (guardian_message_type_is_valid_spec _) Ht).
  change (byte_at _ GUARDIAN_OFFSET_COMMAND) with (frame_command f).
  change (byte_at _ GUARDIAN_OFFSET_FLAGS) with (frame_flags f). rewrite Hf.
  replace (_ <? frame_payload_length f) with false
    by (symmetry; apply Z.ltb_ge; unfold GUARDIAN_MAX_PAYLOAD_SIZE; lia).
  by rewrite (Z.eqb_refl (guardian_crc32 _ _)).
Qed.

(** The header fields of a decoded frame re-encode to the bytes they came from. *)
Lemma decoded_body inp plen payload :
  bytes inp -> (12 + plen <= length inp)%nat ->
  byte_at inp 0 = GUARDIAN_MAGIC_0 -> byte_at inp 1 = GUARDIAN_MAGIC_1 ->
  byte_at inp 2 = GUARDIAN_PROTOCOL_VERSION ->
  plen = Z.to_nat (get_u16_be (drop 10 inp)) ->
  take plen payload = take plen (drop 12 inp) ->
  protocol_body (FRAME (byte_at inp 3) (byte_at inp 4) (byte_at inp 5)
    (get_u32_be (drop 6 inp)) (get_u16_be (drop 10 inp)) payload) = take (12 + plen) inp.
Proof.
  intros Hb Hn H0 H1 H2 Hplen Hpay. unfold protocol_body.
  cbn [frame_message_type frame_command frame_flags frame_sequence frame_payload_length
       frame_payload].
  rewrite <- Hplen, Hpay, u8_id, <- H0, <- H1, <- H2 by (by apply byte_at_range).
  rewrite get_put_u32_be_take, get_put_u16_be_take
    by (rewrite ?length_drop; auto with guardian; lia).
  rewrite <- (take_take_drop inp 12 plen). change (take 12 inp) with (take (6 + 4 + 2) inp).
  rewrite <- (take_take_drop inp (6 + 4) 2), <- (take_take_drop inp 6 4).
  rewrite <- !app_assoc. f_equal.
  do 6 (destruct inp as [|? inp]; [cbn in Hn; lia|]). reflexivity.
Qed.

(** What a successful decode says of the bytes it was given. *)
Lemma decode_ok_inv inp n g f :
  bytes inp -> (n <= length inp)%nat ->
  length (frame_payload g) = GUARDIAN_MAX_PAYLOAD_SIZE -> bytes (frame_payload g) ->
  guardian_protocol_decode (Some inp) n (Some g) = (GUARDIAN_PROTOCOL_OK, Some f) ->
  frame_ok f /\ take n inp = protocol_wire f.
Proof.
  intros Hb Hn Hg Hgb H. unfold guardian_protocol_decode in H.
  early_inv H E0. early_inv H E1. early_inv H E2. early_inv H E3. early_inv H E4.
  early_inv H E5. early_inv H E6. early_inv H E7. early_inv H E8.
  apply negb_false_iff in E1, E2, E3, E4, E5, E7, E8.
  apply Nat.ltb_ge in E0. apply Z.eqb_eq in E1, E2, E3, E5, E8. apply Nat.eqb_eq in E7.
  apply Z.ltb_ge in E6. apply guardian_message_type_is_valid_spec in E4.
  unfold guardian_read_u16_be, guardian_read_u32_be in *. unfold_offsets.
  unfold GUARDIAN_CRC_SIZE, GUARDIAN_MAX_PAYLOAD_SIZE in *.
  set (len := get_u16_be (drop 10 inp)) in *. set (plen := Z.to_nat len) in *.
  assert (Hlen : 0 <= len) by apply u16_range.
  rewrite payload_copy in H by done. injection H as <-.
  assert (Hpl : length (take plen (drop 12 inp)) = plen)
    by (rewrite length_take, length_drop; lia).
  pose proof (decoded_body inp plen (blit (frame_payload g) 0 (take plen (drop 12 inp)))
    Hb ltac:(lia) E1 E2 E3 eq_refl) as Hbody.
  rewrite take_blit_0, take_take, Nat.min_id in Hbody by lia. specialize (Hbody eq_refl).
  fold len in Hbody. split.
  - constructor; cbn [frame_message_type frame_command frame_flags frame_sequence
      frame_payload_length frame_payload]; auto with guardian.
    unfold GUARDIAN_MAX_PAYLOAD_SIZE. rewrite blit_length; lia.
  - unfold protocol_wire. rewrite Hbody, length_take, Nat.min_l, guardian_crc32_take by lia.
    rewrite <- E8, get_put_u32_be_take by (rewrite ?length_drop; auto with guardian; lia).
    rewrite take_take_drop. f_equal. lia.
Qed.

(** ** Errors leave the caller's objects alone *)

Lemma encode_not_ok f out cap n0 :
  (guardian_protocol_encode f out cap n0).1.1 <> GUARDIAN_PROTOCOL_OK ->
  (guardian_protocol_encode f out cap n0).1.2 = out /\
  (guardian_protocol_encode f out cap n0).2 = n0.
Proof.
  destruct f, out, n0; cbn [guardian_protocol_encode fst snd]; auto.
  repeat (case_match; cbn [fst snd]; auto); congruence.
Qed.

Lemma decode_not_ok inp n g :
  (guardian_protocol_decode inp n g).1 <> GUARDIAN_PROTOCOL_OK ->
  (guardian_protocol_decode inp n g).2 = g.
Proof.
  destruct inp, g; cbn [guardian_protocol_decode fst snd]; auto.
  repeat (case_match; cbn [fst snd]; auto); congruence.
Qed.

Lemma encode_ok_inv f out cap n0 r :
  guardian_protocol_encode (Some f) (Some out) cap (Some n0) = (GUARDIAN_PROTOCOL_OK, r.1, r.2) ->
  guardian_message_type_is_valid (u8 (frame_message_type f)) = true /\
  frame_flags f = GUARDIAN_SUPPORTED_FLAGS /\ frame_payload_length f <= 256 /\
  (GUARDIAN_HEADER_SIZE + Z.to_nat (frame_payload_length f) + GUARDIAN_CRC_SIZE <= cap)%nat.
Proof.
  unfold guardian_protocol_encode. intros H.
  early_inv H E0. early_inv H E1. early_inv H E2. early_inv H E3. clear H.
  apply negb_false_iff in E0, E1. apply Z.eqb_eq in E1. apply Z.ltb_ge in E2.
  apply Nat.ltb_ge in E3. unfold GUARDIAN_MAX_PAYLOAD_SIZE in *. split_and!; [done..|lia|done].
Qed.

(** The verdict does not depend on the destination. *)
Lemma decode_verdict_dest inp n g h :
  (guardian_protocol_decode (Some inp) n (Some g)).1
  = (guardian_protocol_decode (Some inp) n (Some h)).1.
Proof. unfold guardian_protocol_decode. by repeat case_match. Qed.

(** Two wire images of the same size that differ in one byte cannot both be valid. *)
Lemma protocol_wire_single_byte f f' a x y b :
  frame_ok f -> frame_ok f' ->
  protocol_wire f = a ++ x :: b -> protocol_wire f' = a ++ y :: b -> x = y.
Proof.
  intros Hok Hok' E E'. pose proof (protocol_body_bytes f Hok) as Hb.
  pose proof (protocol_body_bytes f' Hok') as Hb'.
  assert (Hlen : length (protocol_body f) = length (protocol_body f')).
  { apply (f_equal length) in E, E'. unfold protocol_wire in E, E'.
    rewrite !length_app, !put_u32_be_length in *. cbn [length] in *. lia. }
  pose proof (f_equal (take (length (protocol_body f))) E) as Ht.
  pose proof (f_equal (take (length (protocol_body f))) E') as Ht'.
  unfold protocol_wire in Ht, Ht'.
  rewrite take_app_length in Ht. rewrite Hlen, take_app_length, <- Hlen in Ht'.
  destruct (le_lt_dec (length (protocol_body f)) (length a)) as [Hle|Hlt].
  - rewrite take_app_le in Ht, Ht' by done. unfold protocol_wire in E, E'.
    rewrite Ht in E. rewrite Ht', E in E'. apply app_inv_head in E'. congruence.
  - destruct (length (protocol_body f) - length a)%nat as [|k] eqn:Hk; [lia|].
    rewrite take_app_ge, Hk in Ht, Ht' by lia. cbn [take] in Ht, Ht'.
    unfold protocol_wire in E, E'.
    apply (f_equal (drop (length (protocol_body f)))) in E, E'.
    rewrite drop_app_length in E. rewrite Hlen, drop_app_length, <- Hlen in E'.
    rewrite !drop_app_ge, Hk in E, E' by lia. cbn [drop] in E, E'.
    rewrite <- E in E'. apply put_u32_be_inj in E'; [|by apply guardian_crc32_range..].
    rewrite Ht in Hb. apply bytes_app in Hb' as H'. rewrite Ht' in Hb'.
    apply (crc32_single_byte a x y (take k b)); [done| |congruence].
    apply bytes_app in Hb' as [_ Hy]. by inversion Hy.
Qed.

(** ** The order of the encoder's tests *)

Definition encode_result (f : guardian_frame_t) (cap : nat) : guardian_protocol_result_t :=
  if negb (guardian_message_type_is_valid (u8 (frame_message_type f)))
  then GUARDIAN_PROTOCOL_ERROR_MESSAGE_TYPE
  else if negb (frame_flags f =? GUARDIAN_SUPPORTED_FLAGS) then GUARDIAN_PROTOCOL_ERROR_FLAGS
  else if 256 <? frame_payload_length f then GUARDIAN_PROTOCOL_ERROR_PAYLOAD_TOO_LARGE
  else if (cap <? 16 + Z.to_nat (frame_payload_length f))%nat
       then GUARDIAN_PROTOCOL_ERROR_OUTPUT_TOO_SMALL
  else GUARDIAN_PROTOCOL_OK.

(** ** Properties *)

(** A frame of the example traffic, and a scratch destination. *)
Definition example_frame : guardian_frame_t :=
  FRAME 1 7 0 0x01020304 3 ([10; 20; 30] ++ replicate 253 0).
Definition blank_frame : guardian_frame_t := FRAME 0 0 0 0 0 (replicate 256 0).

Lemma example_frame_ok : frame_ok example_frame.
Proof.
  split; vm_compute; try done; try (split; congruence).
  repeat constructor; try done; intros ?; discriminate.
Qed.

Lemma blank_payload_bytes : bytes (frame_payload blank_frame).
Proof. by apply bytes_replicate. Qed.

(** C36: Encoding then decoding gives the frame back.  For every frame the
    encoder accepts and every buffer large enough, the encoder reports a size
    and writes exactly that many bytes (the rest of the buffer keeps its
    contents); the decoder accepts exactly those bytes, whatever the
    destination held, and restores type, command, flags, sequence, length and
    the declared part of the payload. *)
Theorem encode_decode_roundtrip f g out cap n0 :
  frame_ok f ->
  (GUARDIAN_HEADER_SIZE + Z.to_nat (frame_payload_length f) + GUARDIAN_CRC_SIZE <= cap)%nat ->
  (cap <= length out)%nat ->
  exists wire,
    guardian_protocol_encode (Some f) (Some out) cap (Some n0)
      = (GUARDIAN_PROTOCOL_OK, Some (wire ++ drop (length wire) out), Some (length wire)) /\
    length wire
      = (GUARDIAN_HEADER_SIZE + Z.to_nat (frame_payload_length f) + GUARDIAN_CRC_SIZE)%nat /\
    guardian_protocol_decode (Some (wire ++ drop (length wire) out)) (length wire) (Some g)
      = (GUARDIAN_PROTOCOL_OK,
         Some (FRAME (frame_message_type f) (frame_command f) (frame_flags f)
                 (frame_sequence f) (frame_payload_length f)
                 (blit (frame_payload g) 0
                    (take (Z.to_nat (frame_payload_length f)) (frame_payload f))))).
Proof.
  intros Hok Hcap Hout. pose proof (protocol_wire_length f Hok) as Hw.
  exists (protocol_wire f). split_and!; [|done|by apply decode_wire].
  destruct Hok as [Ht]. apply encode_writes; try done; [|lia].
  rewrite u8_message_type by done. by apply guardian_message_type_is_valid_spec.
Qed.

Lemma encode_decode_roundtrip_witness :
  frame_ok example_frame /\
  exists wire,
    guardian_protocol_encode (Some example_frame) (Some (replicate 32 0xAA)) 32 (Some 0%nat)
      = (GUARDIAN_PROTOCOL_OK, Some (wire ++ drop (length wire) (replicate 32 0xAA)),
         Some (length wire)) /\
    length wire = (GUARDIAN_HEADER_SIZE + 3 + GUARDIAN_CRC_SIZE)%nat /\
    guardian_protocol_decode (Some (wire ++ drop (length wire) (replicate 32 0xAA)))
      (length wire) (Some blank_frame)
      = (GUARDIAN_PROTOCOL_OK,
         Some (FRAME 1 7 0 0x01020304 3
                 (blit (replicate 256 0) 0 (take 3 (frame_payload example_frame))))).
Proof.
  split; [apply example_frame_ok|].
  refine (encode_decode_roundtrip example_frame blank_frame (replicate 32 0xAA) 32 0
            example_frame_ok _ _); apply Nat.leb_le; reflexivity.
Defined.

(** The wire format is canonical.  Whatever bytes the decoder accepts, the
    frame it produces is one the encoder accepts, and encoding it (into any
    buffer of the same size) gives back exactly the bytes that were decoded:
    no two byte strings decode to the same frame. *)
Theorem decode_encode_canonical inp n g f out n0 :
  bytes inp -> (n <= length inp)%nat ->
  length (frame_payload g) = GUARDIAN_MAX_PAYLOAD_SIZE -> bytes (frame_payload g) ->
  length out = n ->
  guardian_protocol_decode (Some inp) n (Some g) = (GUARDIAN_PROTOCOL_OK, Some f) ->
  frame_ok f /\
  guardian_protocol_encode (Some f) (Some out) n (Some n0)
    = (GUARDIAN_PROTOCOL_OK, Some (take n inp), Some n).
Proof.
  intros Hb Hn Hg Hgb Hout Hdec.
  destruct (decode_ok_inv inp n g f) as [Hok Hw]; try done. split; [done|].
  assert (Hlen : length (protocol_wire f) = n) by (rewrite <- Hw, length_take; lia).
  rewrite encode_writes; try apply Hok; [|rewrite u8_message_type by apply Hok|lia].
  - by rewrite Hlen, <- Hw, drop_ge, app_nil_r by lia.
  - by apply guardian_message_type_is_valid_spec, Hok.
Qed.

Lemma decode_encode_canonical_witness :
  exists f,
  guardian_protocol_decode (Some (protocol_wire example_frame ++ [1; 2])) 19 (Some blank_frame)
    = (GUARDIAN_PROTOCOL_OK, Some f) /\
  frame_ok f /\
  guardian_protocol_encode (Some f) (Some (replicate 19 0)) 19 (Some 0%nat)
    = (GUARDIAN_PROTOCOL_OK, Some (take 19 (protocol_wire example_frame ++ [1; 2])), Some 19%nat).
Proof.
  eexists. split; [vm_compute; reflexivity|].
  apply (decode_encode_canonical (protocol_wire example_frame ++ [1; 2]) 19 blank_frame _
           (replicate 19 0) 0).
  - apply (bool_decide_unpack _). vm_compute. exact I.
  - apply Nat.leb_le. vm_compute. reflexivity.
  - reflexivity.
  - exact blank_payload_bytes.
  - reflexivity.
  - vm_compute. reflexivity.
Defined.

(** A corrupted byte is always detected.  If a frame accepted by the decoder
    has exactly one of its bytes replaced by a different value (anywhere: in
    the header, the payload or the checksum), the decoder rejects the result
    and leaves the destination frame as it was. *)
Theorem decode_detects_corruption a x y b g h :
  bytes (a ++ x :: b) -> is_u8 y -> y <> x ->
  length (frame_payload g) = GUARDIAN_MAX_PAYLOAD_SIZE -> bytes (frame_payload g) ->
  (exists f, guardian_protocol_decode (Some (a ++ x :: b)) (length (a ++ x :: b)) (Some g)
     = (GUARDIAN_PROTOCOL_OK, Some f)) ->
  exists e, e <> GUARDIAN_PROTOCOL_OK /\
    guardian_protocol_decode (Some (a ++ y :: b)) (length (a ++ y :: b)) (Some h)
    = (e, Some h).
Proof.
  intros Hb Hy Hne Hg Hgb [f Hf].
  destruct (guardian_protocol_decode (Some (a ++ y :: b)) (length (a ++ y :: b)) (Some h))
    as [e r] eqn:E.
  exists e. assert (He : e <> GUARDIAN_PROTOCOL_OK).
  { intros ->. pose proof (decode_verdict_dest (a ++ y :: b) (length (a ++ y :: b)) g h) as Hv.
    rewrite E in Hv. cbn [fst] in Hv.
    destruct (guardian_protocol_decode (Some (a ++ y :: b)) _ (Some g)) as [e' [f'|]] eqn:E';
      cbn [fst] in Hv; subst e'.
    2:{ unfold guardian_protocol_decode in E'. repeat case_match; discriminate. }
    assert (Hb' : bytes (a ++ y :: b)).
    { apply bytes_app in Hb as [Ha Hb]. inversion Hb. auto with guardian. }
    apply decode_ok_inv in Hf as [Hok Hw]; [|done..].
    apply decode_ok_inv in E' as [Hok' Hw']; [|done..].
    rewrite firstn_all in Hw, Hw'.
    by apply Hne, eq_sym, (protocol_wire_single_byte f f' a x y b). }
  split; [done|].
  pose proof (decode_not_ok (Some (a ++ y :: b)) (length (a ++ y :: b)) (Some h)) as Hd.
  rewrite E in Hd. by rewrite <- Hd.
Qed.

(** The second payload byte of the example frame corrupted. *)
Lemma decode_detects_corruption_witness :
  let a := take 13 (protocol_wire example_frame) in
  let b := drop 14 (protocol_wire example_frame) in
  exists e, e <> GUARDIAN_PROTOCOL_OK /\
    guardian_protocol_decode (Some (a ++ 21 :: b)) (length (a ++ 21 :: b)) (Some blank_frame)
    = (e, Some blank_frame).
Proof.
  cbv zeta.
  apply (decode_detects_corruption _ 20 21 _ blank_frame blank_frame).
  - apply (bool_decide_unpack _). vm_compute. exact I.
  - unfold is_u8. lia.
  - discriminate.
  - reflexivity.
  - exact blank_payload_bytes.
  - eexists. vm_compute. reflexivity.
Defined.

(** Rejection is total and side-effect free.  For every argument
    combination, NULL pointers included, the decoder returns a verdict; unless
    it is OK the destination frame is untouched, and unless the encoder
    returns OK neither the output buffer nor the size variable is touched.
    Otherwise the verdict of the encoder is decided by the first failing test
    in the order type, flags, payload length, capacity. *)
Theorem protocol_errors_preserve f out cap n0 inp n g :
  (guardian_protocol_encode f out cap n0).1.1
    = match f, out, n0 with
      | Some f', Some _, Some _ => encode_result f' cap
      | _, _, _ => GUARDIAN_PROTOCOL_ERROR_NULL_ARGUMENT
      end /\
  ((guardian_protocol_encode f out cap n0).1.1 = GUARDIAN_PROTOCOL_OK \/
   (guardian_protocol_encode f out cap n0).1.2 = out /\
   (guardian_protocol_encode f out cap n0).2 = n0) /\
  ((guardian_protocol_decode inp n g).1 = GUARDIAN_PROTOCOL_OK \/
   (guardian_protocol_decode inp n g).2 = g).
Proof.
  split_and!.
  - destruct f as [f|], out as [out|], n0 as [n0|]; try done.
    unfold guardian_protocol_encode, encode_result.
    replace (GUARDIAN_HEADER_SIZE + Z.to_nat (frame_payload_length f) + GUARDIAN_CRC_SIZE)%nat
      with (16 + Z.to_nat (frame_payload_length f))%nat
      by (unfold GUARDIAN_HEADER_SIZE, GUARDIAN_CRC_SIZE; lia).
    change (Z.of_nat GUARDIAN_MAX_PAYLOAD_SIZE) with 256.
    by repeat (case_match; [done|]).
  - destruct (decide ((guardian_protocol_encode f out cap n0).1.1 = GUARDIAN_PROTOCOL_OK));
      [by left|right]. by apply encode_not_ok.
  - destruct (decide ((guardian_protocol_decode inp n g).1 = GUARDIAN_PROTOCOL_OK));
      [by left|right]. by apply decode_not_ok.
Qed.
