(* ===== verification/Parser.v ===== *)
(** * Incremental stream parser

    Model of [firmware/Protocol/Src/guardian_parser.c]: the byte-by-byte
    synchronization state machine in front of the frame decoder of [Protocol],
    with its diagnostic counters. *)

From S2P Require Import Prelude Crc32 Protocol.

(** ** Data *)

(** [guardian_parser_result_t] *)
Inductive guardian_parser_result_t :=
  | GUARDIAN_PARSER_NO_FRAME
  | GUARDIAN_PARSER_FRAME_READY
  | GUARDIAN_PARSER_ERROR_CRC
  | GUARDIAN_PARSER_ERROR_PROTOCOL
  | GUARDIAN_PARSER_ERROR_OVERSIZE.

#[global] Instance guardian_parser_result_t_eq_dec : EqDecision guardian_parser_result_t.
Proof. solve_decision. Defined.

(** [guardian_parser_state_t]; a corrupted object can hold another value, which
    reaches the [default:] of the switch. *)
Inductive guardian_parser_state_t :=
  | GUARDIAN_PARSER_WAIT_MAGIC_0
  | GUARDIAN_PARSER_WAIT_MAGIC_1
  | GUARDIAN_PARSER_READ_FRAME
  | GUARDIAN_PARSER_STATE_OTHER (v : Z).

#[global] Instance guardian_parser_state_t_eq_dec : EqDecision guardian_parser_state_t.
Proof. solve_decision. Defined.

Record guardian_parser_t := PARSER {
  parser_state : guardian_parser_state_t;
  parser_buffer : list Z;                 (* buffer[GUARDIAN_MAX_FRAME_SIZE] *)
  parser_index : nat;
  parser_expected_size : nat;
  parser_frames_received : Z;
  parser_crc_errors : Z;
  parser_protocol_errors : Z;
  parser_oversize_errors : Z;
  parser_last_protocol_result : guardian_protocol_result_t
}.

(** ** Operations *)

Definition guardian_parser_read_u16_be (input : list Z) : Z :=
  let high := u16 (Z.shiftl (byte_at input 0) 8) in
  let low := byte_at input 1 in
  u16 (Z.lor high low).

Definition guardian_parser_return_to_sync (p : guardian_parser_t) : guardian_parser_t :=
  PARSER GUARDIAN_PARSER_WAIT_MAGIC_0 (parser_buffer p) 0 0
    (parser_frames_received p) (parser_crc_errors p) (parser_protocol_errors p)
    (parser_oversize_errors p) (parser_last_protocol_result p).

Definition guardian_parser_init (parser : option guardian_parser_t) : option guardian_parser_t :=
  match parser with
  | None => None
  | Some p => Some (PARSER GUARDIAN_PARSER_WAIT_MAGIC_0 (parser_buffer p) 0 0 0 0 0 0
                      GUARDIAN_PROTOCOL_OK)
  end.

Definition guardian_parser_reset_stream (parser : option guardian_parser_t)
  : option guardian_parser_t :=
  match parser with
  | None => None
  | Some p => Some (guardian_parser_return_to_sync p)
  end.

(** Field stores of the push function. *)
Definition set_candidate (p : guardian_parser_t) st buf idx : guardian_parser_t :=
  PARSER st buf idx (parser_expected_size p)
    (parser_frames_received p) (parser_crc_errors p) (parser_protocol_errors p)
    (parser_oversize_errors p) (parser_last_protocol_result p).
Definition set_expected (p : guardian_parser_t) n : guardian_parser_t :=
  PARSER (parser_state p) (parser_buffer p) (parser_index p) n
    (parser_frames_received p) (parser_crc_errors p) (parser_protocol_errors p)
    (parser_oversize_errors p) (parser_last_protocol_result p).
Definition set_last (p : guardian_parser_t) r : guardian_parser_t :=
  PARSER (parser_state p) (parser_buffer p) (parser_index p) (parser_expected_size p)
    (parser_frames_received p) (parser_crc_errors p) (parser_protocol_errors p)
    (parser_oversize_errors p) r.
(** The counter increments [+= 1U], modulo 2^32. *)
Definition count (p : guardian_parser_t) (frames crc protocol oversize : Z) : guardian_parser_t :=
  PARSER (parser_state p) (parser_buffer p) (parser_index p) (parser_expected_size p)
    (u32 (parser_frames_received p + frames)) (u32 (parser_crc_errors p + crc))
    (u32 (parser_protocol_errors p + protocol)) (u32 (parser_oversize_errors p + oversize))
    (parser_last_protocol_result p).

(** [case GUARDIAN_PARSER_READ_FRAME] once the candidate is complete. *)
Definition parser_complete (p : guardian_parser_t) (f : guardian_frame_t)
  : guardian_parser_result_t * guardian_parser_t * guardian_frame_t :=
  let '(decode_result, fr) :=
    guardian_protocol_decode (Some (parser_buffer p)) (parser_expected_size p) (Some f) in
  let f := default f fr in
  let p := set_last p decode_result in
  let p := guardian_parser_return_to_sync p in
  early bool_decide (decode_result = GUARDIAN_PROTOCOL_OK)
    with (GUARDIAN_PARSER_FRAME_READY, count p 1 0 0 0, f) ;;
  early bool_decide (decode_result = GUARDIAN_PROTOCOL_ERROR_CRC)
    with (GUARDIAN_PARSER_ERROR_CRC, count p 0 1 0 0, f) ;;
  (GUARDIAN_PARSER_ERROR_PROTOCOL, count p 0 0 1 0, f).

(** [case GUARDIAN_PARSER_READ_FRAME] from the completeness test on. *)
Definition parser_check_complete (p : guardian_parser_t) (f : guardian_frame_t)
  : guardian_parser_result_t * guardian_parser_t * guardian_frame_t :=
  early (parser_expected_size p =? 0)%nat || (parser_index p <? parser_expected_size p)%nat
    with (GUARDIAN_PARSER_NO_FRAME, p, f) ;;
  parser_complete p f.

(** [case GUARDIAN_PARSER_READ_FRAME] *)
Definition parser_read_frame (p : guardian_parser_t) (byte : Z) (f : guardian_frame_t)
  : guardian_parser_result_t * guardian_parser_t * guardian_frame_t :=
  early (GUARDIAN_MAX_FRAME_SIZE <=? parser_index p)%nat
    with (GUARDIAN_PARSER_ERROR_OVERSIZE,
          guardian_parser_return_to_sync (count p 0 0 0 1), f) ;;
  let p := set_candidate p (parser_state p) (blit (parser_buffer p) (parser_index p) [byte])
             (parser_index p + 1) in
  if (parser_index p =? GUARDIAN_HEADER_SIZE)%nat then
    let payload_length := guardian_parser_read_u16_be
                            (drop GUARDIAN_OFFSET_PAYLOAD_LENGTH (parser_buffer p)) in
    early (GUARDIAN_MAX_PAYLOAD_SIZE <? Z.to_nat payload_length)%nat
      with (GUARDIAN_PARSER_ERROR_OVERSIZE,
            guardian_parser_return_to_sync
              (set_last (count p 0 0 0 1) GUARDIAN_PROTOCOL_ERROR_PAYLOAD_TOO_LARGE), f) ;;
    parser_check_complete
      (set_expected p (GUARDIAN_HEADER_SIZE + Z.to_nat payload_length + GUARDIAN_CRC_SIZE)) f
  else parser_check_complete p f.

(** The switch of [guardian_parser_push_byte]. *)
Definition parser_step (p : guardian_parser_t) (byte : Z) (f : guardian_frame_t)
  : guardian_parser_result_t * guardian_parser_t * guardian_frame_t :=
  match parser_state p with
  | GUARDIAN_PARSER_WAIT_MAGIC_0 =>
      let p := if byte =? GUARDIAN_MAGIC_0
               then set_candidate p GUARDIAN_PARSER_WAIT_MAGIC_1
                      (blit (parser_buffer p) 0 [byte]) 1
               else p in
      (GUARDIAN_PARSER_NO_FRAME, p, f)
  | GUARDIAN_PARSER_WAIT_MAGIC_1 =>
      let p := if byte =? GUARDIAN_MAGIC_1
               then set_candidate p GUARDIAN_PARSER_READ_FRAME
                      (blit (parser_buffer p) 1 [byte]) 2
               else if byte =? GUARDIAN_MAGIC_0
               then set_candidate p (parser_state p) (blit (parser_buffer p) 0 [byte]) 1
               else guardian_parser_return_to_sync p in
      (GUARDIAN_PARSER_NO_FRAME, p, f)
  | GUARDIAN_PARSER_READ_FRAME => parser_read_frame p byte f
  | GUARDIAN_PARSER_STATE_OTHER _ =>
      (GUARDIAN_PARSER_ERROR_PROTOCOL,
       guardian_parser_return_to_sync (count p 0 0 1 0), f)
  end.

Definition guardian_parser_push_byte (parser : option guardian_parser_t) (byte : Z)
    (frame : option guardian_frame_t)
  : guardian_parser_result_t * option guardian_parser_t * option guardian_frame_t :=
  match parser, frame with
  | Some p, Some f =>
      let '(r, p', f') := parser_step p byte f in (r, Some p', Some f')
  | _, _ => (GUARDIAN_PARSER_ERROR_PROTOCOL, parser, frame)
  end.

(** A byte stream pushed one byte at a time: the results in order, and the
    parser and the output frame at the end. *)
Fixpoint parser_feed (p : guardian_parser_t) (f : guardian_frame_t) (stream : list Z)
  : list guardian_parser_result_t * guardian_parser_t * guardian_frame_t :=
  match stream with
  | [] => ([], p, f)
  | b :: rest =>
      let '(r, p1, f1) := parser_step p b f in
      let '(rs, p2, f2) := parser_feed p1 f1 rest in
      (r :: rs, p2, f2)
  end.

(** ** Invariant *)

Definition declared_size (p : guardian_parser_t) : nat :=
  16 + Z.to_nat (get_u16_be (drop GUARDIAN_OFFSET_PAYLOAD_LENGTH (parser_buffer p))).

Definition parser_inv (p : guardian_parser_t) : Prop :=
  length (parser_buffer p) = GUARDIAN_MAX_FRAME_SIZE /\ bytes (parser_buffer p) /\
  match parser_state p with
  | GUARDIAN_PARSER_WAIT_MAGIC_0 => parser_index p = 0%nat /\ parser_expected_size p = 0%nat
  | GUARDIAN_PARSER_WAIT_MAGIC_1 =>
      parser_index p = 1%nat /\ parser_expected_size p = 0%nat /\
      byte_at (parser_buffer p) 0 = GUARDIAN_MAGIC_0
  | GUARDIAN_PARSER_READ_FRAME =>
      (2 <= parser_index p)%nat /\
      byte_at (parser_buffer p) 0 = GUARDIAN_MAGIC_0 /\
      byte_at (parser_buffer p) 1 = GUARDIAN_MAGIC_1 /\
      (if (parser_index p <? 12)%nat then parser_expected_size p = 0%nat
       else (parser_index p < parser_expected_size p)%nat /\
            (parser_expected_size p <= GUARDIAN_MAX_FRAME_SIZE)%nat /\
            parser_expected_size p = declared_size p)
  | GUARDIAN_PARSER_STATE_OTHER _ => False
  end.

(** The bytes of the frame candidate collected so far. *)
Definition candidate (p : guardian_parser_t) : list Z := take (parser_index p) (parser_buffer p).

Lemma get_u16_be_read p : guardian_parser_read_u16_be p = get_u16_be p.
Proof. done. Qed.

Lemma inv_return_to_sync p :
  length (parser_buffer p) = GUARDIAN_MAX_FRAME_SIZE -> bytes (parser_buffer p) ->
  parser_inv (guardian_parser_return_to_sync p).
Proof. done. Qed.

(** Storing the next candidate byte. *)
Section store.
Context (p : guardian_parser_t) (b : Z).
Hypothesis Hlen : length (parser_buffer p) = GUARDIAN_MAX_FRAME_SIZE.
Hypothesis Hidx : (parser_index p < GUARDIAN_MAX_FRAME_SIZE)%nat.

Lemma store_candidate st :
  candidate (set_candidate p st (blit (parser_buffer p) (parser_index p) [b])
               (parser_index p + 1)) = candidate p ++ [b].
Proof. unfold candidate. cbn. by rewrite (blit_take _ _ [b]) by lia. Qed.

Lemma store_length :
  length (blit (parser_buffer p) (parser_index p) [b]) = GUARDIAN_MAX_FRAME_SIZE.
Proof. rewrite blit_length; cbn [length]; lia. Qed.

Lemma store_bytes : bytes (parser_buffer p) -> is_u8 b ->
  bytes (blit (parser_buffer p) (parser_index p) [b]).
Proof. auto with guardian. Qed.

Lemma store_magic i : (i < parser_index p)%nat ->
  byte_at (blit (parser_buffer p) (parser_index p) [b]) i = byte_at (parser_buffer p) i.
Proof. intros. apply byte_at_blit_lt; lia. Qed.

Lemma store_declared : (12 <= parser_index p)%nat ->
  get_u16_be (drop 10 (blit (parser_buffer p) (parser_index p) [b]))
  = get_u16_be (drop 10 (parser_buffer p)).
Proof.
  intros. rewrite <- (get_u16_be_drop_take 10 12), take_blit_le by lia.
  by apply get_u16_be_drop_take.
Qed.
End store.

(** The three outcomes of a byte in the collecting state: still collecting, a
    header that declares too much, or a complete candidate. *)
Inductive read_outcome (p : guardian_parser_t) (b : Z) (f : guardian_frame_t)
  : guardian_parser_result_t * guardian_parser_t * guardian_frame_t -> Prop :=
  | read_more p' :
      parser_inv p' -> parser_state p' = GUARDIAN_PARSER_READ_FRAME ->
      candidate p' = candidate p ++ [b] -> parser_index p' = S (parser_index p) ->
      read_outcome p b f (GUARDIAN_PARSER_NO_FRAME, p', f)
  | read_oversize p' :
      parser_inv p' -> parser_state p' = GUARDIAN_PARSER_WAIT_MAGIC_0 ->
      parser_index p = 11%nat ->
      256 < get_u16_be (drop 10 (candidate p ++ [b])) ->
      read_outcome p b f (GUARDIAN_PARSER_ERROR_OVERSIZE, p', f)
  | read_complete p' :
      length (parser_buffer p') = GUARDIAN_MAX_FRAME_SIZE -> bytes (parser_buffer p') ->
      candidate p' = candidate p ++ [b] -> parser_index p' = parser_expected_size p' ->
      (parser_expected_size p' <= GUARDIAN_MAX_FRAME_SIZE)%nat ->
      parser_expected_size p' = declared_size p' ->
      read_outcome p b f (parser_complete p' f).

Lemma parser_check_complete_eq p f :
  parser_expected_size p <> 0%nat ->
  parser_check_complete p f
  = if (parser_index p <? parser_expected_size p)%nat
    then (GUARDIAN_PARSER_NO_FRAME, p, f) else parser_complete p f.
Proof.
  intros H. unfold parser_check_complete.
  by destruct (Nat.eqb_spec (parser_expected_size p) 0).
Qed.

Section collect.
Context (p : guardian_parser_t) (b : Z) (f : guardian_frame_t).
Hypothesis Hinv : parser_inv p.
Hypothesis Hs : parser_state p = GUARDIAN_PARSER_READ_FRAME.
Hypothesis Hbyte : is_u8 b.

Let buf := blit (parser_buffer p) (parser_index p) [b].
(** The parser after the byte store, with the target size [n]. *)
Let stored (n : nat) :=
  set_expected (set_candidate p GUARDIAN_PARSER_READ_FRAME buf (parser_index p + 1)) n.

Lemma collect_index : (parser_index p < GUARDIAN_MAX_FRAME_SIZE)%nat.
Proof.
  destruct Hinv as (_ & _ & Hst). rewrite Hs in Hst. destruct Hst as (_ & _ & _ & H).
  assert (GUARDIAN_MAX_FRAME_SIZE = 272%nat) by done.
  destruct (Nat.ltb_spec (parser_index p) 12); lia.
Qed.

Lemma collect_buf : length buf = GUARDIAN_MAX_FRAME_SIZE /\ bytes buf.
Proof.
  destruct Hinv as (Hl & Hb & _).
  split; [by apply store_length, collect_index|by apply store_bytes].
Qed.

Lemma collect_candidate n : candidate (stored n) = candidate p ++ [b].
Proof.
  apply (store_candidate p b (proj1 Hinv) collect_index GUARDIAN_PARSER_READ_FRAME).
Qed.

(** A parser that is not complete yet satisfies the invariant again. *)
Lemma collect_inv n :
  (if (parser_index p + 1 <? 12)%nat then n = 0%nat
   else (parser_index p + 1 < n <= GUARDIAN_MAX_FRAME_SIZE)%nat /\
        n = (16 + Z.to_nat (get_u16_be (drop 10 buf)))%nat) ->
  parser_inv (stored n).
Proof.
  intros Hn. destruct collect_buf as [Hlen' Hb'].
  destruct Hinv as (Hlen & Hb & Hst). rewrite Hs in Hst. destruct Hst as (Hi & H0 & H1 & _).
  unfold parser_inv. cbn [parser_state parser_buffer parser_index parser_expected_size
    set_candidate set_expected stored].
  unfold buf at 3 4. rewrite !store_magic by (done || apply collect_index || lia).
  split_and!; try done; [lia|]. destruct (_ <? 12)%nat; [done|].
  destruct Hn as [Hn1 Hn2]. unfold declared_size. split_and!; [lia..|done].
Qed.

Lemma collect_more n :
  (if (parser_index p + 1 <? 12)%nat then n = 0%nat
   else (parser_index p + 1 < n <= GUARDIAN_MAX_FRAME_SIZE)%nat /\
        n = (16 + Z.to_nat (get_u16_be (drop 10 buf)))%nat) ->
  read_outcome p b f (GUARDIAN_PARSER_NO_FRAME, stored n, f).
Proof.
  intros Hn. apply read_more; [by apply collect_inv|done|apply collect_candidate|].
  cbn. lia.
Qed.

(** The header has just been completed. *)
Lemma collect_header :
  parser_index p = 11%nat -> read_outcome p b f (parser_read_frame p b f).
Proof.
  intros Ei. destruct collect_buf as [Hlen' Hb'].
  unfold parser_read_frame.
  destruct (Nat.leb_spec GUARDIAN_MAX_FRAME_SIZE (parser_index p));
    [pose proof collect_index; lia|].
  cbv zeta. cbn [parser_index set_candidate parser_buffer].
  change GUARDIAN_OFFSET_PAYLOAD_LENGTH with 10%nat. rewrite get_u16_be_read, Hs. fold buf.
  replace (_ =? GUARDIAN_HEADER_SIZE)%nat with true by (rewrite Ei; done).
  pose proof (get_u16_be_range (drop 10 buf)) as Hr. unfold is_u16 in Hr.
  destruct (Nat.ltb_spec GUARDIAN_MAX_PAYLOAD_SIZE (Z.to_nat (get_u16_be (drop 10 buf))))
    as [Ho|Ho]; unfold GUARDIAN_MAX_PAYLOAD_SIZE in Ho.
  - apply read_oversize; [by split|done|done|].
    rewrite <- (collect_candidate 0). unfold candidate.
    cbn [parser_index set_candidate set_expected parser_buffer stored].
    rewrite get_u16_be_drop_take by lia. lia.
  - rewrite parser_check_complete_eq by done. cbn [parser_index parser_expected_size
      set_candidate set_expected].
    replace (_ <? _)%nat with true
      by (symmetry; apply Nat.ltb_lt; unfold GUARDIAN_HEADER_SIZE, GUARDIAN_CRC_SIZE; lia).
    apply collect_more. rewrite Ei. cbn.
    unfold GUARDIAN_HEADER_SIZE, GUARDIAN_CRC_SIZE. lia.
Qed.

(** Any other position. *)
Lemma collect_byte :
  parser_index p <> 11%nat -> read_outcome p b f (parser_read_frame p b f).
Proof.
  intros Ei. destruct collect_buf as [Hlen' Hb']. pose proof collect_index as Hidx.
  unfold parser_read_frame.
  destruct (Nat.leb_spec GUARDIAN_MAX_FRAME_SIZE (parser_index p)); [lia|].
  cbv zeta. cbn [parser_index set_candidate parser_buffer]. rewrite Hs. fold buf.
  destruct (Nat.eqb_spec (parser_index p + 1) GUARDIAN_HEADER_SIZE) as [E|_];
    unfold GUARDIAN_HEADER_SIZE in *; [lia|].
  change (set_candidate p GUARDIAN_PARSER_READ_FRAME buf (parser_index p + 1))
    with (stored (parser_expected_size p)).
  destruct Hinv as (Hlen & Hb & Hst). rewrite Hs in Hst. destruct Hst as (_ & _ & _ & Hexp).
  destruct (Nat.ltb_spec (parser_index p) 12) as [Hlo|Hhi].
  - unfold parser_check_complete. cbn [parser_expected_size stored set_expected].
    rewrite Hexp. apply collect_more.
    by replace (_ <? 12)%nat with true by (symmetry; apply Nat.ltb_lt; lia).
  - destruct Hexp as (He1 & He2 & He3).
    assert (Hdecl : declared_size (stored (parser_expected_size p)) = declared_size p).
    { unfold declared_size. cbn [parser_buffer set_candidate set_expected stored].
      change GUARDIAN_OFFSET_PAYLOAD_LENGTH with 10%nat. unfold buf.
      by rewrite store_declared. }
    rewrite parser_check_complete_eq by (cbn; lia).
    cbn [parser_index parser_expected_size set_candidate set_expected stored].
    destruct (Nat.ltb_spec (parser_index p + 1) (parser_expected_size p)) as [Hl|Hl].
    + apply collect_more.
      replace (_ <? 12)%nat with false by (symmetry; apply Nat.ltb_ge; lia).
      split; [lia|]. rewrite He3, <- Hdecl. done.
    + apply read_complete; [done|done|apply collect_candidate|cbn; lia|done|].
      by rewrite Hdecl, <- He3.
Qed.

Lemma parser_read_outcome : read_outcome p b f (parser_step p b f).
Proof.
  unfold parser_step. rewrite Hs.
  destruct (decide (parser_index p = 11%nat)); [by apply collect_header|by apply collect_byte].
Qed.
End collect.

(** ** One step *)

(** The verdict on a complete candidate. *)
Lemma parser_complete_spec p f r p' f' :
  length (parser_buffer p) = GUARDIAN_MAX_FRAME_SIZE -> bytes (parser_buffer p) ->
  parser_index p = parser_expected_size p ->
  (parser_expected_size p <= GUARDIAN_MAX_FRAME_SIZE)%nat -> frame_object f ->
  parser_complete p f = (r, p', f') ->
  parser_inv p' /\ parser_state p' = GUARDIAN_PARSER_WAIT_MAGIC_0 /\
  r <> GUARDIAN_PARSER_NO_FRAME /\ frame_object f' /\
  (r = GUARDIAN_PARSER_FRAME_READY -> frame_ok f' /\ candidate p = protocol_wire f').
Proof.
  intros Hlen Hb Hi Hle [Hf Hfb] H. unfold parser_complete in H.
  destruct (guardian_protocol_decode (Some (parser_buffer p)) (parser_expected_size p) (Some f))
    as [e fr] eqn:E.
  destruct (bool_decide_reflect (e = GUARDIAN_PROTOCOL_OK)) as [->|Hne].
  - destruct fr as [fr|].
    2:{ unfold guardian_protocol_decode in E. repeat case_match; discriminate. }
    injection H as <- <- <-. cbn [from_option id].
    apply decode_ok_inv in E as [Hok Hw]; [|done|lia|done..].
    split_and!; try done; [by apply frame_ok_object..|].
    intros _. split; [done|]. unfold candidate. by rewrite Hi.
  - assert (fr = Some f) as ->.
    { pose proof (decode_not_ok (Some (parser_buffer p)) (parser_expected_size p) (Some f)) as Hd.
      rewrite E in Hd. by apply Hd. }
    destruct (bool_decide _); injection H as <- <- <-; split_and!; done.
Qed.

(** What one byte after [stream] does: the invariant and the caller's frame
    object are kept, the candidate is always the end of the stream, and a
    reported frame is the end of the stream too. *)
Record step_ok (stream : list Z) (b : Z)
    (res : guardian_parser_result_t * guardian_parser_t * guardian_frame_t) : Prop := {
  step_ok_inv : parser_inv res.1.2;
  step_ok_frame : frame_object res.2;
  step_ok_candidate : candidate res.1.2 `suffix_of` stream ++ [b];
  step_ok_ready : res.1.1 = GUARDIAN_PARSER_FRAME_READY ->
    frame_ok res.2 /\ protocol_wire res.2 `suffix_of` stream ++ [b]
}.

Section step.
Context (p : guardian_parser_t) (b : Z) (f : guardian_frame_t) (stream : list Z).
Hypothesis Hinv : parser_inv p.
Hypothesis Hb : is_u8 b.
Hypothesis Hf : frame_object f.
Hypothesis Hs : candidate p `suffix_of` stream.

(** A parser back in the first state has no candidate. *)
Lemma sync_candidate q :
  parser_inv q -> parser_state q = GUARDIAN_PARSER_WAIT_MAGIC_0 -> candidate q = [].
Proof.
  intros (_ & _ & Hst) E. rewrite E in Hst. unfold candidate. by rewrite (proj1 Hst).
Qed.

Lemma step_wait_0 :
  parser_state p = GUARDIAN_PARSER_WAIT_MAGIC_0 -> step_ok stream b (parser_step p b f).
Proof.
  intros Est. pose proof Hinv as (Hl & Hbuf & Hst). rewrite Est in Hst.
  destruct Hst as [Hi He]. unfold parser_step. rewrite Est.
  destruct (Z.eqb_spec b GUARDIAN_MAGIC_0) as [->|]; split; cbn [fst snd]; try done.
  - split; [by apply blit_length'; [|apply Nat.leb_le]|].
    split; [apply bytes_blit; auto with guardian|by split_and!].
  - by exists stream.
  - rewrite sync_candidate by done. apply suffix_nil.
Qed.

Lemma step_wait_1 :
  parser_state p = GUARDIAN_PARSER_WAIT_MAGIC_1 -> step_ok stream b (parser_step p b f).
Proof.
  intros Est. pose proof Hinv as (Hl & Hbuf & Hst). rewrite Est in Hst.
  destruct Hst as (Hi & He & H0). unfold parser_step. rewrite Est.
  pose proof Hs as Hsuf. unfold candidate in Hsuf. rewrite Hi in Hsuf.
  destruct (Z.eqb_spec b GUARDIAN_MAGIC_1) as [->|];
    [|destruct (Z.eqb_spec b GUARDIAN_MAGIC_0) as [->|]]; split; cbn [fst snd]; try done.
  - split; [by apply blit_length'; [|apply Nat.leb_le]|].
    split; [apply bytes_blit; auto with guardian|]. cbn [parser_state set_candidate].
    unfold set_candidate, parser_buffer at 1 2.
    destruct (parser_buffer p) as [|b0 buf]; [done|]. by split_and!.
  - unfold candidate. cbn [parser_index parser_buffer set_candidate].
    rewrite (blit_take _ 1 [GUARDIAN_MAGIC_1]) by (rewrite Hl; apply Nat.leb_le; done).
    by apply suffix_app.
  - split; [by apply blit_length'; [|apply Nat.leb_le]|].
    split; [apply bytes_blit; auto with guardian|]. by split_and!.
  - by exists stream.
  - apply suffix_nil.
Qed.

Lemma step_read :
  parser_state p = GUARDIAN_PARSER_READ_FRAME -> step_ok stream b (parser_step p b f).
Proof.
  intros Est. destruct (parser_read_outcome p b f Hinv Est Hb) as [p' Hi _ Hc _|p' Hi Hst|
    p' Hl Hbuf Hc Hidx Hle _].
  - split; cbn [fst snd]; try done. rewrite Hc. by apply suffix_app.
  - split; cbn [fst snd]; try done. rewrite sync_candidate by done. apply suffix_nil.
  - destruct (parser_complete p' f) as [[r p''] f'] eqn:E.
    apply parser_complete_spec in E as (Hi & Hst & _ & Hf' & Hok); try done.
    split; cbn [fst snd]; try done.
    + rewrite sync_candidate by done. apply suffix_nil.
    + intros Hr. destruct (Hok Hr) as [? Hw]. split; [done|].
      rewrite <- Hw, Hc. by apply suffix_app.
Qed.

Lemma parser_step_spec : step_ok stream b (parser_step p b f).
Proof.
  destruct (parser_state p) eqn:Est;
    [by apply step_wait_0|by apply step_wait_1|by apply step_read|].
  by destruct Hinv as (_ & _ & Hst); rewrite Est in Hst.
Qed.
End step.

Lemma parser_feed_spec stream : forall before p f rs p' f',
  parser_inv p -> bytes stream -> frame_object f -> candidate p `suffix_of` before ->
  parser_feed p f stream = (rs, p', f') ->
  parser_inv p' /\ frame_object f' /\ candidate p' `suffix_of` before ++ stream /\
  length rs = length stream.
Proof.
  induction stream as [|b stream IH]; intros before p f rs p' f' Hp Hb Hf Hs H; cbn in H.
  - injection H as <- <- <-. by rewrite app_nil_r.
  - inversion Hb; subst. destruct (parser_step p b f) as [[r p1] f1] eqn:E.
    destruct (parser_feed p1 f1 stream) as [[rs2 p2] f2] eqn:E2. injection H as <- <- <-.
    destruct (parser_step_spec p b f before) as [Hi Hf1 Hc1 _]; try done.
    rewrite E in Hi, Hf1, Hc1. cbn [fst snd] in Hi, Hf1, Hc1.
    destruct (IH (before ++ [b]) p1 f1 rs2 p2 f2) as (? & ? & Hc & Hl); try done.
    rewrite <- app_assoc in Hc. cbn [length]. rewrite Hl. done.
Qed.

Lemma parser_feed_app s1 s2 p f :
  parser_feed p f (s1 ++ s2)
  = let '(r1, p1, f1) := parser_feed p f s1 in
    let '(r2, p2, f2) := parser_feed p1 f1 s2 in (r1 ++ r2, p2, f2).
Proof.
  revert p f. induction s1 as [|b s1 IH]; intros p f; cbn.
  - by destruct (parser_feed p f s2) as [[??]?].
  - destruct (parser_step p b f) as [[r p1] f1]. rewrite IH.
    destruct (parser_feed p1 f1 s1) as [[r1 p2] f2].
    by destruct (parser_feed p2 f2 s2) as [[??]?].
Qed.

(** ** Counters *)

Definition counters (p : guardian_parser_t) : Z * Z * Z * Z :=
  (parser_frames_received p, parser_crc_errors p, parser_protocol_errors p,
   parser_oversize_errors p).

(** The diagnostic a result stands for. *)
Definition tally (c : Z * Z * Z * Z) (r : guardian_parser_result_t) : Z * Z * Z * Z :=
  let '(fr, crc, pr, ov) := c in
  match r with
  | GUARDIAN_PARSER_NO_FRAME => c
  | GUARDIAN_PARSER_FRAME_READY => (u32 (fr + 1), crc, pr, ov)
  | GUARDIAN_PARSER_ERROR_CRC => (fr, u32 (crc + 1), pr, ov)
  | GUARDIAN_PARSER_ERROR_PROTOCOL => (fr, crc, u32 (pr + 1), ov)
  | GUARDIAN_PARSER_ERROR_OVERSIZE => (fr, crc, pr, u32 (ov + 1))
  end.

Definition counters_ok (c : Z * Z * Z * Z) : Prop :=
  let '(fr, crc, pr, ov) := c in is_u32 fr /\ is_u32 crc /\ is_u32 pr /\ is_u32 ov.

Lemma tally_ok c r : counters_ok c -> counters_ok (tally c r).
Proof. destruct c as [[[? ?] ?] ?], r; cbn; intuition auto with guardian. Qed.

Lemma u32_add_0 z : is_u32 z -> u32 (z + 0) = z.
Proof. rewrite Z.add_0_r. apply u32_id. Qed.

Lemma parser_complete_counters p f :
  counters_ok (counters p) ->
  counters (parser_complete p f).1.2 = tally (counters p) (parser_complete p f).1.1.
Proof.
  intros (? & ? & ? & ?). unfold parser_complete.
  destruct (guardian_protocol_decode _ _ _) as [e fr].
  destruct (bool_decide _); [|destruct (bool_decide _)]; unfold counters;
    cbn [tally fst snd count set_last guardian_parser_return_to_sync parser_frames_received
      parser_crc_errors parser_protocol_errors parser_oversize_errors];
    by rewrite !u32_add_0.
Qed.

Lemma parser_step_counters p b f :
  counters_ok (counters p) ->
  counters (parser_step p b f).1.2 = tally (counters p) (parser_step p b f).1.1.
Proof.
  intros Hc. pose proof Hc as (? & ? & ? & ?). unfold parser_step.
  destruct (parser_state p).
  - by case_match.
  - by repeat case_match.
  - unfold parser_read_frame. case_match.
    { unfold counters. cbn. by rewrite !u32_add_0. }
    cbv zeta. destruct (_ =? GUARDIAN_HEADER_SIZE)%nat; [case_match|].
    { unfold counters. cbn. by rewrite !u32_add_0. }
    all: unfold parser_check_complete; case_match; [done|].
    all: by rewrite parser_complete_counters.
  - unfold counters. cbn. by rewrite !u32_add_0.
Qed.

Lemma parser_feed_counters stream p f :
  counters_ok (counters p) ->
  counters (parser_feed p f stream).1.2 = foldl tally (counters p) (parser_feed p f stream).1.1.
Proof.
  revert p f. induction stream as [|b stream IH]; intros p f Hc; [done|]. cbn [parser_feed].
  pose proof (parser_step_counters p b f Hc) as Hs.
  destruct (parser_step p b f) as [[r p1] f1]. cbn [fst snd] in Hs.
  specialize (IH p1 f1). rewrite Hs in IH. specialize (IH (tally_ok _ _ Hc)).
  by destruct (parser_feed p1 f1 stream) as [[rs p2] f2].
Qed.

(** ** Delivery of a valid frame *)

(** The frame the decoder writes for [f] into the object [g]. *)
Definition received (f g : guardian_frame_t) : guardian_frame_t :=
  FRAME (frame_message_type f) (frame_command f) (frame_flags f) (frame_sequence f)
    (frame_payload_length f)
    (blit (frame_payload g) 0 (take (Z.to_nat (frame_payload_length f)) (frame_payload f))).

Lemma wire_length_field f rest :
  frame_ok f -> get_u16_be (drop 10 (protocol_wire f ++ rest)) = frame_payload_length f.
Proof.
  intros Hok. unfold protocol_wire, protocol_body.
  apply (put_get_u16_be (frame_payload_length f)). destruct Hok. unfold is_u16. lia.
Qed.

Section deliver.
Context (f : guardian_frame_t).
Hypothesis Hok : frame_ok f.

Lemma prefix_length_field c rest :
  protocol_wire f = c ++ rest -> (12 <= length c)%nat ->
  get_u16_be (drop 10 c) = frame_payload_length f.
Proof.
  intros E Hl. rewrite <- (wire_length_field f []), app_nil_r, E by done.
  rewrite drop_app_le by lia. rewrite get_u16_be_app; [done|]. rewrite length_drop. lia.
Qed.

Lemma candidate_length p :
  (parser_index p <= GUARDIAN_MAX_FRAME_SIZE)%nat ->
  length (parser_buffer p) = GUARDIAN_MAX_FRAME_SIZE -> length (candidate p) = parser_index p.
Proof. intros. unfold candidate. rewrite length_take. lia. Qed.

Lemma prefix_declared p rest :
  length (parser_buffer p) = GUARDIAN_MAX_FRAME_SIZE ->
  (12 <= parser_index p <= GUARDIAN_MAX_FRAME_SIZE)%nat ->
  protocol_wire f = candidate p ++ rest ->
  declared_size p = length (protocol_wire f).
Proof.
  intros Hl Hi E. rewrite protocol_wire_length by done. unfold declared_size.
  change GUARDIAN_OFFSET_PAYLOAD_LENGTH with 10%nat.
  rewrite <- (get_u16_be_drop_take 10 (parser_index p)) by lia.
  change (take (parser_index p) (parser_buffer p)) with (candidate p).
  rewrite (prefix_length_field _ _ E) by (rewrite candidate_length; lia).
  unfold GUARDIAN_HEADER_SIZE, GUARDIAN_CRC_SIZE. lia.
Qed.

(** The completed candidate is accepted. *)
Lemma complete_wire p g :
  length (parser_buffer p) = GUARDIAN_MAX_FRAME_SIZE -> candidate p = protocol_wire f ->
  parser_index p = parser_expected_size p ->
  (parser_expected_size p <= GUARDIAN_MAX_FRAME_SIZE)%nat ->
  (parser_complete p g).1.1 = GUARDIAN_PARSER_FRAME_READY /\
  (parser_complete p g).2 = received f g /\
  parser_state (parser_complete p g).1.2 = GUARDIAN_PARSER_WAIT_MAGIC_0.
Proof.
  intros Hl Hc Hi Hle. unfold parser_complete.
  assert (Hw : parser_expected_size p = length (protocol_wire f)).
  { rewrite <- Hc, candidate_length by lia. done. }
  rewrite <- (take_drop (parser_index p) (parser_buffer p)).
  change (take (parser_index p) (parser_buffer p)) with (candidate p).
  rewrite Hc, Hw, decode_wire by done. done.
Qed.

(** One byte of the wire image: collected, or the frame is complete. *)
Lemma deliver_step p g b rest :
  parser_inv p -> parser_state p = GUARDIAN_PARSER_READ_FRAME -> is_u8 b ->
  protocol_wire f = candidate p ++ b :: rest ->
  if (length rest =? 0)%nat
  then (parser_step p b g).1.1 = GUARDIAN_PARSER_FRAME_READY /\
       (parser_step p b g).2 = received f g /\
       parser_state (parser_step p b g).1.2 = GUARDIAN_PARSER_WAIT_MAGIC_0
  else exists p', parser_step p b g = (GUARDIAN_PARSER_NO_FRAME, p', g) /\ parser_inv p' /\
         parser_state p' = GUARDIAN_PARSER_READ_FRAME /\ candidate p' = candidate p ++ [b].
Proof.
  intros Hinv Hst Hb E. pose proof (collect_index p Hinv Hst) as Hidx.
  pose proof (candidate_length p ltac:(lia) (proj1 Hinv)) as Hcl.
  rewrite (app_assoc (candidate p) [b] rest : candidate p ++ b :: rest = _) in E.
  pose proof (f_equal length E) as El. rewrite !length_app in El. cbn [length] in El.
  destruct (parser_read_outcome p b g Hinv Hst Hb) as [p' Hi Hst' Hc Hn|p' _ _ Hi Hov|
    p' Hl Hbuf Hc Hi Hle Hd]; rewrite ?(app_assoc (candidate p) [b] rest) in *.
  - destruct (Nat.eqb_spec (length rest) 0) as [Er|Er]; [|by exists p'].
    pose proof (collect_index p' Hi Hst') as Hidx'.
    destruct Hi as (Hl & _ & Hs'). rewrite Hst' in Hs'. destruct Hs' as (_ & _ & _ & Hs').
    rewrite <- Hc in E. pose proof (protocol_wire_length f Hok) as Hw.
    unfold GUARDIAN_HEADER_SIZE, GUARDIAN_CRC_SIZE in Hw.
    destruct (Nat.ltb_spec (parser_index p') 12); [lia|].
    rewrite (prefix_declared p' rest Hl ltac:(lia) E) in Hs'. lia.
  - rewrite (prefix_length_field _ _ E) in Hov by (rewrite length_app; cbn; lia).
    destruct Hok. lia.
  - rewrite <- Hc in E. pose proof (candidate_length p' ltac:(lia) Hl) as Hcl'.
    assert (Hd12 : (12 <= parser_index p')%nat) by (rewrite Hi, Hd; unfold declared_size; lia).
    pose proof (prefix_declared p' rest Hl ltac:(lia) E) as Hd'.
    rewrite E, length_app in Hd'.
    assert (length rest = 0%nat) as Hr by lia. rewrite Hr. cbn [Nat.eqb].
    apply nil_length_inv in Hr. subst rest. rewrite app_nil_r in E.
    by apply complete_wire.
Qed.

(** A parser holding a proper prefix of the wire image delivers the frame
    exactly when the last byte arrives. *)
Lemma feed_rest rest : forall p g b,
  bytes (b :: rest) -> parser_inv p -> parser_state p = GUARDIAN_PARSER_READ_FRAME ->
  protocol_wire f = candidate p ++ b :: rest ->
  (parser_feed p g (b :: rest)).1.1
    = replicate (length rest) GUARDIAN_PARSER_NO_FRAME ++ [GUARDIAN_PARSER_FRAME_READY] /\
  (parser_feed p g (b :: rest)).2 = received f g /\
  parser_state (parser_feed p g (b :: rest)).1.2 = GUARDIAN_PARSER_WAIT_MAGIC_0.
Proof.
  induction rest as [|b' rest IH]; intros p g b Hb Hinv Hst E;
    apply Forall_cons in Hb as [Hbb Hb];
    pose proof (deliver_step p g b _ Hinv Hst Hbb E) as Hstep; cbn [length Nat.eqb] in Hstep.
  - cbn [parser_feed]. destruct (parser_step p b g) as [[r p1] f1]. cbn in *.
    by destruct Hstep as (-> & -> & ->).
  - destruct Hstep as (p' & Hp & Hinv' & Hst' & Hc). cbn [parser_feed]. rewrite Hp.
    destruct (IH p' g b' Hb Hinv' Hst') as (IH1 & IH2 & IH3);
      [by rewrite Hc, <- app_assoc|]. cbn [parser_feed] in IH1, IH2, IH3.
    destruct (parser_step p' b' g) as [[r1 p1] f1].
    destruct (parser_feed p1 f1 rest) as [[rs p2] f2]. cbn [fst snd] in *.
    by rewrite IH1, IH2, IH3.
Qed.

(** The magic bytes take a synchronized parser to the collecting state. *)
Lemma feed_magic p g :
  parser_inv p -> parser_state p = GUARDIAN_PARSER_WAIT_MAGIC_0 ->
  exists p', parser_feed p g [GUARDIAN_MAGIC_0; GUARDIAN_MAGIC_1]
    = ([GUARDIAN_PARSER_NO_FRAME; GUARDIAN_PARSER_NO_FRAME], p', g) /\
    parser_inv p' /\ parser_state p' = GUARDIAN_PARSER_READ_FRAME /\
    candidate p' = [GUARDIAN_MAGIC_0; GUARDIAN_MAGIC_1].
Proof.
  intros (Hl & Hb & Hst) Est. rewrite Est in Hst. destruct Hst as [Hi He].
  cbn [parser_feed]. unfold parser_step at 1. rewrite Est.
  rewrite (Z.eqb_refl GUARDIAN_MAGIC_0). cbn [parser_step parser_state set_candidate].
  unfold parser_step. cbn [parser_state set_candidate].
  rewrite (Z.eqb_refl GUARDIAN_MAGIC_1). eexists. split; [reflexivity|].
  destruct (parser_buffer p) as [|b0 [|b1 buf]] eqn:Ebuf; [done..|].
  split; [|done].
  split; [done|]. split; [|by split_and!].
  apply Forall_cons in Hb as [_ Hb]. apply Forall_cons in Hb as [_ Hb].
  apply bytes_cons; [done|]. by apply bytes_cons.
Qed.
End deliver.

Lemma wire_magic f :
  exists b rest, protocol_wire f = [GUARDIAN_MAGIC_0; GUARDIAN_MAGIC_1] ++ b :: rest.
Proof.
  unfold protocol_wire. generalize (put_u32_be (guardian_crc32 (Some (protocol_body f))
    (length (protocol_body f)))). intros tail.
  unfold protocol_body. cbn [app]. eexists _, _. reflexivity.
Qed.

(** ** Progress *)

(** While collecting without a verdict the index advances with every byte. *)
Lemma feed_no_verdict stream : forall p f,
  parser_inv p -> parser_state p = GUARDIAN_PARSER_READ_FRAME -> bytes stream ->
  Forall (eq GUARDIAN_PARSER_NO_FRAME) (parser_feed p f stream).1.1 ->
  parser_index (parser_feed p f stream).1.2 = (parser_index p + length stream)%nat /\
  (parser_index p + length stream < GUARDIAN_MAX_FRAME_SIZE)%nat.
Proof.
  induction stream as [|b stream IH]; intros p f Hp Hst Hb Hr.
  - cbn [parser_feed fst snd length]. pose proof (collect_index p Hp Hst). lia.
  - apply Forall_cons in Hb as [Hbb Hb]. cbn [parser_feed] in *.
    destruct (parser_read_outcome p b f Hp Hst Hbb) as [p1 Hp1 Hst1 _ Hi|p1|p1].
    + specialize (IH p1 f Hp1 Hst1 Hb).
      destruct (parser_feed p1 f stream) as [[rs p2] f2]. cbn [fst snd length] in *.
      apply Forall_cons in Hr as [_ Hr]. specialize (IH Hr). lia.
    + destruct (parser_feed p1 f stream) as [[rs p2] f2].
      apply Forall_cons in Hr as [Hr _]. discriminate.
    + assert (Hn : (parser_complete p1 f).1.1 <> GUARDIAN_PARSER_NO_FRAME).
      { unfold parser_complete. by repeat case_match. }
      destruct (parser_complete p1 f) as [[r p2] f2].
      destruct (parser_feed p2 f2 stream) as [[rs p3] f3].
      apply Forall_cons in Hr as [Hr _]. by destruct Hn.
Qed.

(** ** Properties *)

Definition fresh_parser : guardian_parser_t :=
  PARSER GUARDIAN_PARSER_WAIT_MAGIC_0 (replicate GUARDIAN_MAX_FRAME_SIZE 0) 0 0 0 0 0 0
    GUARDIAN_PROTOCOL_OK.

Lemma fresh_parser_inv : parser_inv fresh_parser.
Proof. split; [done|]. split; [by apply bytes_replicate|done]. Qed.

Lemma blank_frame_object : frame_object blank_frame.
Proof. split; [done|apply blank_payload_bytes]. Qed.

(** C39: The parser never leaves its buffer and counts every event.  Whatever
    bytes arrive, in any number, the parser invariant holds afterwards (the
    write index stays inside the 272-byte buffer, the candidate starts with the
    magic bytes, the target size is the one its header declares and fits), each
    byte has one result, and the diagnostic counters are exactly the number of
    results of each kind, modulo 2^32.  Initialization and stream reset
    establish the invariant from any contents, and a step from a corrupted
    state value re-establishes it. *)
Theorem parser_invariant_and_counters p f stream :
  parser_inv p -> frame_object f -> bytes stream -> counters_ok (counters p) ->
  let '(rs, p', f') := parser_feed p f stream in
  parser_inv p' /\ frame_object f' /\ length rs = length stream /\
  counters p' = foldl tally (counters p) rs /\
  forall q, length (parser_buffer q) = GUARDIAN_MAX_FRAME_SIZE -> bytes (parser_buffer q) ->
    (exists q', guardian_parser_init (Some q) = Some q' /\ parser_inv q' /\
                counters q' = (0, 0, 0, 0)) /\
    (exists q', guardian_parser_reset_stream (Some q) = Some q' /\ parser_inv q' /\
                counters q' = counters q) /\
    (forall v b, parser_state q = GUARDIAN_PARSER_STATE_OTHER v ->
       exists q', guardian_parser_push_byte (Some q) b (Some f)
         = (GUARDIAN_PARSER_ERROR_PROTOCOL, Some q', Some f) /\ parser_inv q').
Proof.
  intros Hp Hf Hb Hc. pose proof (parser_feed_counters stream p f Hc) as Hcnt.
  destruct (parser_feed p f stream) as [[rs p'] f'] eqn:E.
  destruct (parser_feed_spec stream (candidate p) p f rs p' f') as (Hp' & Hf' & _ & Hl);
    [done..|].
  split; [done|]. split; [done|]. split; [done|]. split; [done|].
  intros q Hq Hqb. split; [|split].
  - eexists. split; [reflexivity|]. by split.
  - eexists. split; [reflexivity|]. by split.
  - intros v b Hv. eexists. unfold guardian_parser_push_byte, parser_step. rewrite Hv.
    split; [reflexivity|]. by split.
Qed.

Lemma parser_invariant_and_counters_witness :
  let '(rs, p', f') := parser_feed fresh_parser blank_frame [0x47; 0x47; 0x46; 1] in
  parser_inv p' /\ frame_object f' /\ length rs = 4%nat /\
  counters p' = foldl tally (counters fresh_parser) rs /\
  forall q, length (parser_buffer q) = GUARDIAN_MAX_FRAME_SIZE -> bytes (parser_buffer q) ->
    (exists q', guardian_parser_init (Some q) = Some q' /\ parser_inv q' /\
                counters q' = (0, 0, 0, 0)) /\
    (exists q', guardian_parser_reset_stream (Some q) = Some q' /\ parser_inv q' /\
                counters q' = counters q) /\
    (forall v b, parser_state q = GUARDIAN_PARSER_STATE_OTHER v ->
       exists q', guardian_parser_push_byte (Some q) b (Some blank_frame)
         = (GUARDIAN_PARSER_ERROR_PROTOCOL, Some q', Some blank_frame) /\ parser_inv q').
Proof.
  apply (parser_invariant_and_counters fresh_parser blank_frame [0x47; 0x47; 0x46; 1]).
  - apply fresh_parser_inv.
  - apply blank_frame_object.
  - apply (bool_decide_unpack _). vm_compute. exact I.
  - unfold counters_ok, is_u32. cbn. lia.
Defined.

(** C35: The parser only reports frames that were on the wire.  After any stream
    of bytes into a synchronized parser, if the next byte makes the parser
    report a frame, then that frame is one the encoder accepts and the last
    bytes of the stream are exactly its wire image, checksum included. *)
Theorem parser_soundness p f before b :
  parser_inv p -> parser_state p = GUARDIAN_PARSER_WAIT_MAGIC_0 -> frame_object f ->
  bytes before -> is_u8 b ->
  let '(_, p1, f1) := parser_feed p f before in
  let '(r, _, out) := guardian_parser_push_byte (Some p1) b (Some f1) in
  r = GUARDIAN_PARSER_FRAME_READY ->
  exists fr, out = Some fr /\ frame_ok fr /\ protocol_wire fr `suffix_of` before ++ [b].
Proof.
  intros Hp Hst Hf Hb Hbb. destruct (parser_feed p f before) as [[rs p1] f1] eqn:E.
  destruct (parser_feed_spec before [] p f rs p1 f1) as (Hp1 & Hf1 & Hc & _); try done.
  { rewrite sync_candidate by done. apply suffix_nil. }
  cbn [app] in Hc. destruct (parser_step_spec p1 b f1 before) as [_ _ _ Hr]; try done.
  unfold guardian_parser_push_byte.
  destruct (parser_step p1 b f1) as [[r p2] f2]. cbn [fst snd] in Hr. intros ->.
  destruct (Hr eq_refl) as [Hok Hsuf]. by exists f2.
Qed.

Lemma parser_soundness_witness :
  let '(_, p1, f1) := parser_feed fresh_parser blank_frame
                        (5 :: take 18 (protocol_wire example_frame)) in
  let '(r, _, out) := guardian_parser_push_byte (Some p1)
                        (byte_at (protocol_wire example_frame) 18) (Some f1) in
  r = GUARDIAN_PARSER_FRAME_READY ->
  exists fr, out = Some fr /\ frame_ok fr /\
    protocol_wire fr `suffix_of` (5 :: take 18 (protocol_wire example_frame))
      ++ [byte_at (protocol_wire example_frame) 18].
Proof.
  apply (parser_soundness fresh_parser blank_frame
           (5 :: take 18 (protocol_wire example_frame))
           (byte_at (protocol_wire example_frame) 18)).
  - apply fresh_parser_inv.
  - reflexivity.
  - apply blank_frame_object.
  - apply (bool_decide_unpack _). vm_compute. exact I.
  - apply (bool_decide_unpack _). vm_compute. exact I.
Defined.

(** Every valid frame is delivered.  From a synchronized parser, pushing the
    bytes of a frame's wire image yields no result until the last byte, and
    with the last byte the frame (the decoded fields, the payload written into
    the caller's object); the parser is then synchronized again, has counted
    one more frame and no error, so that back-to-back frames are all
    delivered. *)
Theorem parser_delivers f p g :
  frame_ok f -> parser_inv p -> parser_state p = GUARDIAN_PARSER_WAIT_MAGIC_0 ->
  frame_object g -> counters_ok (counters p) ->
  exists p',
    parser_feed p g (protocol_wire f)
    = (replicate (length (protocol_wire f) - 1) GUARDIAN_PARSER_NO_FRAME
         ++ [GUARDIAN_PARSER_FRAME_READY], p', received f g) /\
    parser_inv p' /\ parser_state p' = GUARDIAN_PARSER_WAIT_MAGIC_0 /\
    counters p' = tally (counters p) GUARDIAN_PARSER_FRAME_READY.
Proof.
  intros Hok Hp Hst Hg Hcnt. pose proof (protocol_wire_length f Hok) as Hw.
  assert (Hwb : bytes (protocol_wire f)).
  { unfold protocol_wire. auto using protocol_body_bytes with guardian. }
  destruct (feed_magic p g Hp Hst) as (q & Hq & Hqi & Hqs & Hqc).
  destruct (wire_magic f) as (b & rest & Hwire).
  assert (Hbr : bytes (b :: rest)) by (rewrite Hwire in Hwb; apply bytes_app in Hwb as [_ ?]; done).
  rewrite <- Hqc in Hwire.
  destruct (feed_rest f Hok rest q g b Hbr Hqi Hqs Hwire) as (H1 & H2 & H3).
  rewrite Hqc in Hwire. rewrite Hwire, parser_feed_app, Hq.
  destruct (parser_feed q g (b :: rest)) as [[rs p'] f'] eqn:Ef. cbn [fst snd] in H1, H2, H3.
  subst rs f'. exists p'. split.
  { cbn [length app]. replace (S (S (S (length rest))) - 1)%nat
      with (S (S (length rest))) by lia. reflexivity. }
  pose proof (parser_feed_spec (protocol_wire f) (candidate p) p g) as Hspec.
  pose proof (parser_feed_counters (protocol_wire f) p g Hcnt) as Hc.
  rewrite Hwire, parser_feed_app, Hq, Ef in Hspec, Hc.
  destruct (Hspec _ p' _ Hp ltac:(rewrite <- Hwire; done) Hg ltac:(done) eq_refl)
    as (Hp' & _).
  split; [done|]. split; [done|]. cbn [fst snd] in Hc. rewrite Hc, !foldl_app.
  cbn [foldl]. f_equal. generalize (length rest). clear.
  intros n. cbn [tally foldl]. generalize (counters p). intros [[[? ?] ?] ?]. by induction n.
Qed.

Lemma parser_delivers_witness :
  frame_ok example_frame /\
  exists p',
    parser_feed fresh_parser blank_frame (protocol_wire example_frame)
    = (replicate (length (protocol_wire example_frame) - 1) GUARDIAN_PARSER_NO_FRAME
         ++ [GUARDIAN_PARSER_FRAME_READY], p', received example_frame blank_frame) /\
    parser_inv p' /\ parser_state p' = GUARDIAN_PARSER_WAIT_MAGIC_0 /\
    counters p' = tally (counters fresh_parser) GUARDIAN_PARSER_FRAME_READY.
Proof.
  split; [apply example_frame_ok|].
  apply (parser_delivers example_frame fresh_parser blank_frame).
  - apply example_frame_ok.
  - apply fresh_parser_inv.
  - reflexivity.
  - apply blank_frame_object.
  - unfold counters_ok, is_u32. cbn. lia.
Defined.

(** C40: A candidate cannot hold the parser for ever.  Once the two magic bytes
    have been seen, at most 270 further bytes, whatever they are and whatever
    length they declare, bring a verdict (a frame or an error): an attacker
    cannot keep the parser collecting. *)
Theorem parser_bounded_collection p f stream :
  parser_inv p -> parser_state p = GUARDIAN_PARSER_READ_FRAME -> bytes stream ->
  (270 <= length stream)%nat ->
  Exists (fun r => r <> GUARDIAN_PARSER_NO_FRAME) (parser_feed p f stream).1.1.
Proof.
  intros Hp Hst Hb Hl.
  destruct (decide (Forall (eq GUARDIAN_PARSER_NO_FRAME) (parser_feed p f stream).1.1))
    as [Hall|Hex].
  - destruct (feed_no_verdict stream p f Hp Hst Hb Hall) as [_ H].
    unfold GUARDIAN_MAX_FRAME_SIZE, GUARDIAN_HEADER_SIZE, GUARDIAN_MAX_PAYLOAD_SIZE,
      GUARDIAN_CRC_SIZE in H.
    destruct Hp as (_ & _ & Hinv). rewrite Hst in Hinv. lia.
  - apply not_Forall_Exists in Hex; [|apply _].
    eapply Exists_impl; [exact Hex|]. cbn. congruence.
Qed.

Lemma parser_bounded_collection_witness :
  let p := (parser_feed fresh_parser blank_frame [0x47; 0x46]).1.2 in
  Exists (fun r => r <> GUARDIAN_PARSER_NO_FRAME)
    (parser_feed p blank_frame (replicate 270 0x10)).1.1.
Proof.
  cbv zeta. apply parser_bounded_collection.
  - destruct (feed_magic fresh_parser blank_frame fresh_parser_inv eq_refl)
      as (q & Hq & Hi & _). change [71; 70] with [GUARDIAN_MAGIC_0; GUARDIAN_MAGIC_1]. rewrite Hq. exact Hi.
  - reflexivity.
  - apply bytes_replicate. unfold is_u8. lia.
  - apply Nat.leb_le. reflexivity.
Defined.
