(* ===== verification/NodeLink.v ===== *)
(** * Node-link frame codec and sequence guard

    Model of [firmware/NodeLink/Src/guardian_node_link.c]; its CRC-32 is in
    [Crc32].  The codec follows the conventions of [Protocol]. *)

From Stdlib Require Import Sorting.Sorted.
From S2P Require Import Prelude Crc32.

(** ** Constants and data *)

Definition GUARDIAN_NODE_LINK_MAGIC_0 : Z := 0x47.
Definition GUARDIAN_NODE_LINK_MAGIC_1 : Z := 0x4E.
Definition GUARDIAN_NODE_LINK_VERSION : Z := 0x01.
Definition GUARDIAN_NODE_LINK_HEADER_SIZE : nat := 20.
Definition GUARDIAN_NODE_LINK_CRC_SIZE : nat := 4.
Definition GUARDIAN_NODE_LINK_MAX_PAYLOAD : nat := 64.
Definition GUARDIAN_NODE_LINK_MAX_FRAME : nat :=
  GUARDIAN_NODE_LINK_HEADER_SIZE + GUARDIAN_NODE_LINK_MAX_PAYLOAD + GUARDIAN_NODE_LINK_CRC_SIZE.
Definition GUARDIAN_NODE_LINK_SUPPORTED_FLAGS : Z := 0x00.

(** Values of [guardian_node_link_message_type_t] and [guardian_node_state_t]. *)
Definition GUARDIAN_NODE_LINK_MESSAGE_HELLO : Z := 0x01.
Definition GUARDIAN_NODE_LINK_MESSAGE_CHALLENGE : Z := 0x02.
Definition GUARDIAN_NODE_LINK_MESSAGE_RESPONSE : Z := 0x03.
Definition GUARDIAN_NODE_LINK_MESSAGE_HEARTBEAT : Z := 0x04.
Definition GUARDIAN_NODE_LINK_MESSAGE_HEALTH : Z := 0x05.
Definition GUARDIAN_NODE_LINK_MESSAGE_SUPERVISION_STATE : Z := 0x06.
Definition GUARDIAN_NODE_LINK_MESSAGE_ERROR : Z := 0x7F.
Definition GUARDIAN_NODE_STATE_BOOT : Z := 0x00.
Definition GUARDIAN_NODE_STATE_DISCOVERING : Z := 0x01.
Definition GUARDIAN_NODE_STATE_ACTIVE : Z := 0x02.
Definition GUARDIAN_NODE_STATE_DEGRADED : Z := 0x03.
Definition GUARDIAN_NODE_STATE_SAFE_HOLD : Z := 0x04.
Definition GUARDIAN_NODE_STATE_FAULT : Z := 0x05.

Inductive guardian_node_link_result_t :=
  | GUARDIAN_NODE_LINK_OK
  | GUARDIAN_NODE_LINK_ERROR_NULL_ARGUMENT
  | GUARDIAN_NODE_LINK_ERROR_OUTPUT_TOO_SMALL
  | GUARDIAN_NODE_LINK_ERROR_FRAME_TOO_SHORT
  | GUARDIAN_NODE_LINK_ERROR_MAGIC
  | GUARDIAN_NODE_LINK_ERROR_VERSION
  | GUARDIAN_NODE_LINK_ERROR_MESSAGE_TYPE
  | GUARDIAN_NODE_LINK_ERROR_FLAGS
  | GUARDIAN_NODE_LINK_ERROR_STATE
  | GUARDIAN_NODE_LINK_ERROR_SEQUENCE_ZERO
  | GUARDIAN_NODE_LINK_ERROR_PAYLOAD_TOO_LARGE
  | GUARDIAN_NODE_LINK_ERROR_LENGTH_MISMATCH
  | GUARDIAN_NODE_LINK_ERROR_CRC
  | GUARDIAN_NODE_LINK_ERROR_REPLAY_OR_REGRESSION.

#[global] Instance guardian_node_link_result_t_eq_dec : EqDecision guardian_node_link_result_t.
Proof. solve_decision. Defined.

Record guardian_node_link_frame_t := NL_FRAME {
  nl_message_type : Z;
  nl_flags : Z;
  nl_node_state : Z;
  nl_payload_length : Z;
  nl_sequence : Z;
  nl_sender_epoch : Z;
  nl_sender_node_id : Z;
  nl_payload : list Z           (* payload[64] *)
}.

#[global] Instance guardian_node_link_frame_t_eq_dec : EqDecision guardian_node_link_frame_t.
Proof. solve_decision. Defined.

Record guardian_node_link_sequence_guard_t := SEQUENCE_GUARD {
  guard_last_sequence : Z;
  guard_initialized : Z
}.

(** ** Byte order *)

Definition write_u16_be (value : Z) : list Z := [u8 (Z.shiftr value 8); u8 value].
Definition write_u32_be (value : Z) : list Z :=
  [u8 (Z.shiftr value 24); u8 (Z.shiftr value 16); u8 (Z.shiftr value 8); u8 value].
Definition read_u16_be (input : list Z) : Z :=
  u16 (Z.lor (Z.shiftl (byte_at input 0) 8) (byte_at input 1)).
Definition read_u32_be (input : list Z) : Z :=
  Z.lor (Z.lor (Z.lor (u32 (Z.shiftl (byte_at input 0) 24))
                      (u32 (Z.shiftl (byte_at input 1) 16)))
               (u32 (Z.shiftl (byte_at input 2) 8)))
        (byte_at input 3).

Definition valid_message_type (value : Z) : bool :=
  (value =? GUARDIAN_NODE_LINK_MESSAGE_HELLO)
  || (value =? GUARDIAN_NODE_LINK_MESSAGE_CHALLENGE)
  || (value =? GUARDIAN_NODE_LINK_MESSAGE_RESPONSE)
  || (value =? GUARDIAN_NODE_LINK_MESSAGE_HEARTBEAT)
  || (value =? GUARDIAN_NODE_LINK_MESSAGE_HEALTH)
  || (value =? GUARDIAN_NODE_LINK_MESSAGE_SUPERVISION_STATE)
  || (value =? GUARDIAN_NODE_LINK_MESSAGE_ERROR).

Definition valid_state (value : Z) : bool := value <=? u8 GUARDIAN_NODE_STATE_FAULT.

(** ** Encoder *)

Definition guardian_node_link_encode (frame : option guardian_node_link_frame_t)
    (output : option (list Z)) (output_capacity : nat) (output_size : option nat)
  : guardian_node_link_result_t * option (list Z) * option nat :=
  match frame, output, output_size with
  | Some f, Some out, Some _ =>
      early negb (valid_message_type (u8 (nl_message_type f)))
        with (GUARDIAN_NODE_LINK_ERROR_MESSAGE_TYPE, output, output_size) ;;
      early negb (nl_flags f =? GUARDIAN_NODE_LINK_SUPPORTED_FLAGS)
        with (GUARDIAN_NODE_LINK_ERROR_FLAGS, output, output_size) ;;
      early negb (valid_state (u8 (nl_node_state f)))
        with (GUARDIAN_NODE_LINK_ERROR_STATE, output, output_size) ;;
      early nl_sequence f =? 0
        with (GUARDIAN_NODE_LINK_ERROR_SEQUENCE_ZERO, output, output_size) ;;
      let plen := Z.to_nat (nl_payload_length f) in
      early (GUARDIAN_NODE_LINK_MAX_PAYLOAD <? plen)%nat
        with (GUARDIAN_NODE_LINK_ERROR_PAYLOAD_TOO_LARGE, output, output_size) ;;
      let frame_size := (GUARDIAN_NODE_LINK_HEADER_SIZE + plen + GUARDIAN_NODE_LINK_CRC_SIZE)%nat in
      early (output_capacity <? frame_size)%nat
        with (GUARDIAN_NODE_LINK_ERROR_OUTPUT_TOO_SMALL, output, output_size) ;;
      let out := blit out 0 [GUARDIAN_NODE_LINK_MAGIC_0] in
      let out := blit out 1 [GUARDIAN_NODE_LINK_MAGIC_1] in
      let out := blit out 2 [GUARDIAN_NODE_LINK_VERSION] in
      let out := blit out 3 [u8 (nl_message_type f)] in
      let out := blit out 4 [nl_flags f] in
      let out := blit out 5 [u8 (nl_node_state f)] in
      let out := blit out 6 (write_u16_be (nl_payload_length f)) in
      let out := blit out 8 (write_u32_be (nl_sequence f)) in
      let out := blit out 12 (write_u32_be (nl_sender_epoch f)) in
      let out := blit out 16 (write_u32_be (nl_sender_node_id f)) in
      let out := if negb (nl_payload_length f =? 0)
                 then blit out GUARDIAN_NODE_LINK_HEADER_SIZE (take plen (nl_payload f))
                 else out in
      let crc := guardian_node_link_crc32 (Some out) (GUARDIAN_NODE_LINK_HEADER_SIZE + plen) in
      let out := blit out (GUARDIAN_NODE_LINK_HEADER_SIZE + plen) (write_u32_be crc) in
      (GUARDIAN_NODE_LINK_OK, Some out, Some frame_size)
  | _, _, _ => (GUARDIAN_NODE_LINK_ERROR_NULL_ARGUMENT, output, output_size)
  end.

(** ** Decoder *)

Definition guardian_node_link_decode (input : option (list Z)) (input_size : nat)
    (frame : option guardian_node_link_frame_t)
  : guardian_node_link_result_t * option guardian_node_link_frame_t :=
  match input, frame with
  | Some inp, Some f =>
      early (input_size <? GUARDIAN_NODE_LINK_HEADER_SIZE + GUARDIAN_NODE_LINK_CRC_SIZE)%nat
        with (GUARDIAN_NODE_LINK_ERROR_FRAME_TOO_SHORT, frame) ;;
      early negb (byte_at inp 0 =? GUARDIAN_NODE_LINK_MAGIC_0)
            || negb (byte_at inp 1 =? GUARDIAN_NODE_LINK_MAGIC_1)
        with (GUARDIAN_NODE_LINK_ERROR_MAGIC, frame) ;;
      early negb (byte_at inp 2 =? GUARDIAN_NODE_LINK_VERSION)
        with (GUARDIAN_NODE_LINK_ERROR_VERSION, frame) ;;
      early negb (valid_message_type (byte_at inp 3))
        with (GUARDIAN_NODE_LINK_ERROR_MESSAGE_TYPE, frame) ;;
      early negb (byte_at inp 4 =? GUARDIAN_NODE_LINK_SUPPORTED_FLAGS)
        with (GUARDIAN_NODE_LINK_ERROR_FLAGS, frame) ;;
      early negb (valid_state (byte_at inp 5))
        with (GUARDIAN_NODE_LINK_ERROR_STATE, frame) ;;
      let payload_length := read_u16_be (drop 6 inp) in
      let plen := Z.to_nat payload_length in
      early (GUARDIAN_NODE_LINK_MAX_PAYLOAD <? plen)%nat
        with (GUARDIAN_NODE_LINK_ERROR_PAYLOAD_TOO_LARGE, frame) ;;
      let expected_size :=
        (GUARDIAN_NODE_LINK_HEADER_SIZE + plen + GUARDIAN_NODE_LINK_CRC_SIZE)%nat in
      early negb (input_size =? expected_size)%nat
        with (GUARDIAN_NODE_LINK_ERROR_LENGTH_MISMATCH, frame) ;;
      early read_u32_be (drop 8 inp) =? 0
        with (GUARDIAN_NODE_LINK_ERROR_SEQUENCE_ZERO, frame) ;;
      let encoded_crc := read_u32_be (drop (GUARDIAN_NODE_LINK_HEADER_SIZE + plen) inp) in
      let calculated_crc :=
        guardian_node_link_crc32 (Some inp) (GUARDIAN_NODE_LINK_HEADER_SIZE + plen) in
      early negb (encoded_crc =? calculated_crc)
        with (GUARDIAN_NODE_LINK_ERROR_CRC, frame) ;;
      let payload := if negb (payload_length =? 0)
                     then blit (nl_payload f) 0 (take plen (drop GUARDIAN_NODE_LINK_HEADER_SIZE inp))
                     else nl_payload f in
      let payload := if (plen <? GUARDIAN_NODE_LINK_MAX_PAYLOAD)%nat
                     then blit payload plen
                            (replicate (GUARDIAN_NODE_LINK_MAX_PAYLOAD - plen) 0)
                     else payload in
      (GUARDIAN_NODE_LINK_OK,
       Some (NL_FRAME (byte_at inp 3) (byte_at inp 4) (byte_at inp 5) payload_length
               (read_u32_be (drop 8 inp)) (read_u32_be (drop 12 inp))
               (read_u32_be (drop 16 inp)) payload))
  | _, _ => (GUARDIAN_NODE_LINK_ERROR_NULL_ARGUMENT, frame)
  end.

(** ** Sequence guard *)

Definition guardian_node_link_accept_sequence
    (guard : option guardian_node_link_sequence_guard_t) (sequence : Z)
  : guardian_node_link_result_t * option guardian_node_link_sequence_guard_t :=
  match guard with
  | None => (GUARDIAN_NODE_LINK_ERROR_NULL_ARGUMENT, guard)
  | Some g =>
      early sequence =? 0 with (GUARDIAN_NODE_LINK_ERROR_SEQUENCE_ZERO, guard) ;;
      early negb (guard_initialized g =? 0) && (sequence <=? guard_last_sequence g)
        with (GUARDIAN_NODE_LINK_ERROR_REPLAY_OR_REGRESSION, guard) ;;
      (GUARDIAN_NODE_LINK_OK, Some (SEQUENCE_GUARD sequence 1))
  end.

(** ** Byte order lemmas *)

Lemma write_u16_be_eq v : write_u16_be v = put_u16_be v.
Proof.
  unfold write_u16_be. rewrite put_u16_be_eq, shiftr_div by lia. done.
Qed.

Lemma write_u32_be_eq v : write_u32_be v = put_u32_be v.
Proof.
  unfold write_u32_be. rewrite put_u32_be_eq, !shiftr_div by lia. done.
Qed.

Lemma u16_lor_l a b : u16 (Z.lor (u16 a) b) = u16 (Z.lor a b).
Proof.
  unfold u16. rewrite <- !Z.land_ones by lia. apply Z.bits_inj'. intros n Hn.
  rewrite !Z.land_spec, !Z.lor_spec, Z.land_spec.
  destruct (Z.testbit a n), (Z.testbit b n), (Z.testbit (Z.ones 16) n); done.
Qed.

Lemma read_u16_be_eq p : read_u16_be p = get_u16_be p.
Proof. unfold read_u16_be, get_u16_be. by rewrite u16_lor_l. Qed.

Lemma read_u32_be_eq p : read_u32_be p = get_u32_be p.
Proof. done. Qed.

(** ** The wire format *)

Definition nl_body (f : guardian_node_link_frame_t) : list Z :=
  [GUARDIAN_NODE_LINK_MAGIC_0; GUARDIAN_NODE_LINK_MAGIC_1; GUARDIAN_NODE_LINK_VERSION;
   u8 (nl_message_type f); nl_flags f; u8 (nl_node_state f)]
  ++ put_u16_be (nl_payload_length f) ++ put_u32_be (nl_sequence f)
  ++ put_u32_be (nl_sender_epoch f) ++ put_u32_be (nl_sender_node_id f)
  ++ take (Z.to_nat (nl_payload_length f)) (nl_payload f).

Definition nl_wire (f : guardian_node_link_frame_t) : list Z :=
  let body := nl_body f in
  body ++ put_u32_be (guardian_node_link_crc32 (Some body) (length body)).

(** A frame the encoder accepts, in a well-formed C object. *)
Record nl_frame_ok (f : guardian_node_link_frame_t) : Prop := {
  nl_ok_type : valid_message_type (nl_message_type f) = true;
  nl_ok_flags : nl_flags f = GUARDIAN_NODE_LINK_SUPPORTED_FLAGS;
  nl_ok_state : GUARDIAN_NODE_STATE_BOOT <= nl_node_state f <= GUARDIAN_NODE_STATE_FAULT;
  nl_ok_length : 0 <= nl_payload_length f <= 64;
  nl_ok_sequence : is_u32 (nl_sequence f);
  nl_ok_sequence_nonzero : nl_sequence f <> 0;
  nl_ok_epoch : is_u32 (nl_sender_epoch f);
  nl_ok_node_id : is_u32 (nl_sender_node_id f);
  nl_ok_payload : length (nl_payload f) = GUARDIAN_NODE_LINK_MAX_PAYLOAD;
  nl_ok_bytes : bytes (nl_payload f)
}.

(** The frame with the unused part of its payload array cleared. *)
Definition nl_normalized (f : guardian_node_link_frame_t) : guardian_node_link_frame_t :=
  NL_FRAME (nl_message_type f) (nl_flags f) (nl_node_state f) (nl_payload_length f)
    (nl_sequence f) (nl_sender_epoch f) (nl_sender_node_id f)
    (take (Z.to_nat (nl_payload_length f)) (nl_payload f)
       ++ replicate (64 - Z.to_nat (nl_payload_length f)) 0).

Lemma valid_message_type_u8 t : valid_message_type t = true -> is_u8 t.
Proof.
  unfold valid_message_type, is_u8, GUARDIAN_NODE_LINK_MESSAGE_HELLO,
    GUARDIAN_NODE_LINK_MESSAGE_CHALLENGE, GUARDIAN_NODE_LINK_MESSAGE_RESPONSE,
    GUARDIAN_NODE_LINK_MESSAGE_HEARTBEAT, GUARDIAN_NODE_LINK_MESSAGE_HEALTH,
    GUARDIAN_NODE_LINK_MESSAGE_SUPERVISION_STATE, GUARDIAN_NODE_LINK_MESSAGE_ERROR.
  rewrite !orb_true_iff, !Z.eqb_eq. lia.
Qed.

Lemma valid_state_spec v :
  0 <= v -> valid_state v = true <-> GUARDIAN_NODE_STATE_BOOT <= v <= GUARDIAN_NODE_STATE_FAULT.
Proof.
  intros Hv. unfold valid_state, GUARDIAN_NODE_STATE_BOOT, GUARDIAN_NODE_STATE_FAULT.
  change (u8 5) with 5. rewrite Z.leb_le. lia.
Qed.

Lemma node_state_u8 v : GUARDIAN_NODE_STATE_BOOT <= v <= GUARDIAN_NODE_STATE_FAULT -> u8 v = v.
Proof.
  intros H. apply u8_id. unfold is_u8, GUARDIAN_NODE_STATE_BOOT, GUARDIAN_NODE_STATE_FAULT in *.
  lia.
Qed.

Lemma nl_body_length f :
  (Z.to_nat (nl_payload_length f) <= 64)%nat ->
  length (nl_payload f) = GUARDIAN_NODE_LINK_MAX_PAYLOAD ->
  length (nl_body f) = (GUARDIAN_NODE_LINK_HEADER_SIZE + Z.to_nat (nl_payload_length f))%nat.
Proof.
  unfold GUARDIAN_NODE_LINK_MAX_PAYLOAD, GUARDIAN_NODE_LINK_HEADER_SIZE, nl_body. intros.
  rewrite !length_app, length_take. cbn [length put_u32_be put_u16_be]. lia.
Qed.

Lemma nl_wire_length f :
  nl_frame_ok f ->
  length (nl_wire f) = (GUARDIAN_NODE_LINK_HEADER_SIZE + Z.to_nat (nl_payload_length f)
                        + GUARDIAN_NODE_LINK_CRC_SIZE)%nat.
Proof.
  intros []. unfold nl_wire. by rewrite length_app, nl_body_length by (done || lia).
Qed.

Lemma nl_body_bytes f : nl_frame_ok f -> bytes (nl_body f).
Proof.
  intros []. unfold nl_body. rewrite nl_ok_flags0.
  repeat first [apply bytes_app_2 | apply bytes_cons]; auto with guardian.
  all: done.
Qed.

Lemma nl_wire_bytes f : nl_frame_ok f -> bytes (nl_wire f).
Proof. intros. unfold nl_wire. auto using nl_body_bytes with guardian. Qed.

(** ** The encoder writes the wire format *)

Lemma nl_encode_writes f out cap n0 :
  nl_frame_ok f -> (length (nl_wire f) <= cap <= length out)%nat ->
  guardian_node_link_encode (Some f) (Some out) cap (Some n0)
  = (GUARDIAN_NODE_LINK_OK, Some (nl_wire f ++ drop (length (nl_wire f)) out),
     Some (length (nl_wire f))).
Proof.
  intros Hok Hcap. pose proof (nl_wire_length f Hok) as Hw. destruct Hok as [Ht Hf Hs Hl _ Hsq _ _ Hp _].
  pose proof (nl_body_length f ltac:(lia) Hp) as Hb.
  unfold guardian_node_link_encode.
  rewrite u8_id, Ht, Hf, Z.eqb_refl by by apply valid_message_type_u8.
  rewrite (node_state_u8 _ Hs), (proj2 (valid_state_spec (nl_node_state f) (proj1 Hs)) Hs).
  cbn [negb]. replace (nl_sequence f =? 0) with false by (symmetry; by apply Z.eqb_neq).
  rewrite <- Hw.
  replace (GUARDIAN_NODE_LINK_MAX_PAYLOAD <? _)%nat with false
    by (symmetry; apply Nat.ltb_ge; unfold GUARDIAN_NODE_LINK_MAX_PAYLOAD; lia).
  replace (cap <? _)%nat with false by (symmetry; apply Nat.ltb_ge; lia).
  rewrite payload_copy by (done || lia). rewrite !write_u16_be_eq, !write_u32_be_eq.
  unfold GUARDIAN_NODE_LINK_HEADER_SIZE, GUARDIAN_NODE_LINK_CRC_SIZE,
    GUARDIAN_NODE_LINK_MAX_PAYLOAD in *.
  rewrite !(blit_blit_adjacent out) by buffer_lia. rewrite <- !app_assoc.
  set (crc := guardian_node_link_crc32 _ _).
  assert (Hcrc : crc = guardian_node_link_crc32 (Some (nl_body f)) (length (nl_body f))).
  { unfold crc. rewrite Hb, blit_0. unfold nl_body.
    rewrite Hf, (u8_id (nl_message_type f)), (node_state_u8 _ Hs)
      by by apply valid_message_type_u8.
    apply guardian_node_link_crc32_app. rewrite <- Hb. unfold nl_body. by rewrite Hf, (u8_id (nl_message_type f)), (node_state_u8 _ Hs)
      by by apply valid_message_type_u8. }
  rewrite blit_0, Hcrc. unfold nl_wire, nl_body.
  rewrite Hf, (u8_id (nl_message_type f)), (node_state_u8 _ Hs)
    by by apply valid_message_type_u8. by rewrite <- !app_assoc.
Qed.

(** ** The decoder *)

(** The payload array after the copy and the clearing of its unused part. *)
Lemma nl_payload_fill (dst src : list Z) (len : Z) plen :
  plen = Z.to_nat len -> 0 <= len -> (plen <= 64)%nat -> (plen <= length src)%nat ->
  length dst = 64%nat ->
  (if (plen <? GUARDIAN_NODE_LINK_MAX_PAYLOAD)%nat
   then blit (if negb (len =? 0) then blit dst 0 (take plen src) else dst) plen
          (replicate (GUARDIAN_NODE_LINK_MAX_PAYLOAD - plen) 0)
   else (if negb (len =? 0) then blit dst 0 (take plen src) else dst))
  = take plen src ++ replicate (64 - plen) 0.
Proof.
  intros Hp Hl Hle Hsrc Hdst. rewrite payload_copy by done.
  unfold GUARDIAN_NODE_LINK_MAX_PAYLOAD.
  assert (Hts : length (take plen src) = plen) by (rewrite length_take; lia).
  destruct (Nat.ltb_spec plen 64).
  - rewrite blit_blit_adjacent by (rewrite ?Hts; lia).
    apply blit_exact. rewrite length_app, length_replicate. lia.
  - rewrite blit_exact by lia. replace (64 - plen)%nat with 0%nat by lia.
    by rewrite app_nil_r.
Qed.

Lemma nl_decode_wire f g rest :
  nl_frame_ok f -> length (nl_payload g) = 64%nat ->
  guardian_node_link_decode (Some (nl_wire f ++ rest)) (length (nl_wire f)) (Some g)
  = (GUARDIAN_NODE_LINK_OK, Some (nl_normalized f)).
Proof.
  intros Hok Hg. pose proof (nl_wire_length f Hok) as Hw. pose proof (nl_body_bytes f Hok) as Hbb.
  destruct Hok as [Ht Hf Hs Hl Hsq Hsq0 He Hid Hp Hb].
  pose proof (nl_body_length f ltac:(lia) Hp) as Hbl.
  set (tail := put_u32_be (guardian_node_link_crc32 (Some (nl_body f)) (length (nl_body f))) ++ rest).
  assert (Hinp : nl_wire f ++ rest = nl_body f ++ tail)
    by (unfold nl_wire; by rewrite <- app_assoc).
  rewrite Hinp. unfold guardian_node_link_decode. rewrite Hw.
  replace (_ <? _)%nat with false by (symmetry; apply Nat.ltb_ge; lia).
  assert (Hlen : read_u16_be (drop 6 (nl_body f ++ tail)) = nl_payload_length f).
  { rewrite read_u16_be_eq. apply (put_get_u16_be (nl_payload_length f)). unfold is_u16. lia. }
  assert (Hseq : read_u32_be (drop 8 (nl_body f ++ tail)) = nl_sequence f)
    by (by apply put_get_u32_be).
  assert (Hep : read_u32_be (drop 12 (nl_body f ++ tail)) = nl_sender_epoch f)
    by (by apply put_get_u32_be).
  assert (Hni : read_u32_be (drop 16 (nl_body f ++ tail)) = nl_sender_node_id f)
    by (by apply put_get_u32_be).
  assert (Hpay : take (Z.to_nat (nl_payload_length f))
                   (drop GUARDIAN_NODE_LINK_HEADER_SIZE (nl_body f ++ tail))
                 = take (Z.to_nat (nl_payload_length f)) (nl_payload f)).
  { change (drop GUARDIAN_NODE_LINK_HEADER_SIZE (nl_body f ++ tail))
      with (take (Z.to_nat (nl_payload_length f)) (nl_payload f) ++ tail).
    rewrite take_app_le, take_take, Nat.min_id; [done|].
    rewrite length_take. unfold GUARDIAN_NODE_LINK_MAX_PAYLOAD in Hp. lia. }
  rewrite Hlen, Hseq, Hep, Hni, Hpay, <- Hbl, drop_app_length, guardian_node_link_crc32_app by done.
  unfold tail. rewrite read_u32_be_eq, put_get_u32_be by apply guardian_node_link_crc32_range.
  rewrite (nl_payload_fill (nl_payload g) (nl_payload f))
    by (done || unfold GUARDIAN_NODE_LINK_MAX_PAYLOAD in Hp; lia).
  change (byte_at _ 3) with (u8 (nl_message_type f)). change (byte_at _ 4) with (nl_flags f).
  change (byte_at _ 5) with (u8 (nl_node_state f)).
  rewrite (u8_id (nl_message_type f)), Ht, Hf, (node_state_u8 _ Hs),
    (proj2 (valid_state_spec (nl_node_state f) (proj1 Hs)) Hs)
    by by apply valid_message_type_u8.
  replace (nl_sequence f =? 0) with false by (symmetry; by apply Z.eqb_neq).
  replace (GUARDIAN_NODE_LINK_MAX_PAYLOAD <? _)%nat with false
    by (symmetry; apply Nat.ltb_ge; unfold GUARDIAN_NODE_LINK_MAX_PAYLOAD; lia).
  rewrite !Nat.eqb_refl, (Z.eqb_refl (guardian_node_link_crc32 _ _)).
  unfold nl_normalized. by rewrite Hf.
Qed.

(** The header fields of a decoded frame re-encode to the bytes they came from. *)
Lemma nl_decoded_body inp plen payload :
  bytes inp -> (20 + plen <= length inp)%nat ->
  byte_at inp 0 = GUARDIAN_NODE_LINK_MAGIC_0 -> byte_at inp 1 = GUARDIAN_NODE_LINK_MAGIC_1 ->
  byte_at inp 2 = GUARDIAN_NODE_LINK_VERSION ->
  plen = Z.to_nat (get_u16_be (drop 6 inp)) ->
  take plen payload = take plen (drop 20 inp) ->
  nl_body (NL_FRAME (byte_at inp 3) (byte_at inp 4) (byte_at inp 5) (get_u16_be (drop 6 inp))
    (get_u32_be (drop 8 inp)) (get_u32_be (drop 12 inp)) (get_u32_be (drop 16 inp)) payload)
  = take (20 + plen) inp.
Proof.
  intros Hb Hn H0 H1 H2 Hplen Hpay. unfold nl_body.
  cbn [nl_message_type nl_flags nl_node_state nl_payload_length nl_sequence nl_sender_epoch
       nl_sender_node_id nl_payload].
  rewrite <- Hplen, Hpay, !u8_id, <- H0, <- H1, <- H2 by (by apply byte_at_range).
  rewrite !get_put_u32_be_take, get_put_u16_be_take
    by (rewrite ?length_drop; auto with guardian; lia).
  rewrite <- (take_take_drop inp 20 plen). change (take 20 inp) with (take (6 + 2 + 4 + 4 + 4) inp).
  rewrite <- (take_take_drop inp (6 + 2 + 4 + 4) 4), <- (take_take_drop inp (6 + 2 + 4) 4),
    <- (take_take_drop inp (6 + 2) 4), <- (take_take_drop inp 6 2).
  rewrite <- !app_assoc. f_equal.
  do 6 (destruct inp as [|? inp]; [cbn in Hn; lia|]). reflexivity.
Qed.

Lemma nl_decode_ok_inv inp n g f :
  bytes inp -> (n <= length inp)%nat -> length (nl_payload g) = 64%nat ->
  guardian_node_link_decode (Some inp) n (Some g) = (GUARDIAN_NODE_LINK_OK, Some f) ->
  nl_frame_ok f /\ take n inp = nl_wire f /\ nl_normalized f = f.
Proof.
  intros Hb Hn Hg H. unfold guardian_node_link_decode in H. cbv zeta in H.
  early_inv H E0. early_inv H E1. early_inv H E2. early_inv H E3. early_inv H E4.
  early_inv H E5. early_inv H E6. early_inv H E7. early_inv H E8. early_inv H E9.
  apply orb_false_iff in E1 as [E1 E1'].
  apply negb_false_iff in E1, E1', E2, E3, E4, E5, E7, E9.
  apply Nat.ltb_ge in E0, E6. apply Z.eqb_eq in E1, E1', E2, E4, E9. apply Nat.eqb_eq in E7.
  apply Z.eqb_neq in E8. apply valid_state_spec in E5; [|by apply byte_at_range].
  rewrite ?read_u16_be_eq in *. change read_u32_be with get_u32_be in *.
  unfold GUARDIAN_NODE_LINK_HEADER_SIZE, GUARDIAN_NODE_LINK_CRC_SIZE in *.
  set (len := get_u16_be (drop 6 inp)) in *. set (plen := Z.to_nat len) in *.
  assert (Hlen : 0 <= len) by apply u16_range.
  assert (Hp64 : (plen <= 64)%nat) by exact E6.
  rewrite (nl_payload_fill (nl_payload g) (drop 20 inp)) in H
    by (try done; rewrite length_drop; lia). injection H as <-.
  assert (Hpl : length (take plen (drop 20 inp)) = plen)
    by (rewrite length_take, length_drop; lia).
  pose proof (nl_decoded_body inp plen (take plen (drop 20 inp) ++ replicate (64 - plen) 0)
    Hb ltac:(lia) E1 E1' E2 eq_refl) as Hbody.
  rewrite take_app_length' in Hbody by done. specialize (Hbody eq_refl). fold len in Hbody.
  split; [|split].
  - constructor; cbn [nl_message_type nl_flags nl_node_state nl_payload_length nl_sequence
      nl_sender_epoch nl_sender_node_id nl_payload]; auto with guardian; [lia| |].
    + unfold GUARDIAN_NODE_LINK_MAX_PAYLOAD. rewrite length_app, length_replicate. lia.
    + apply bytes_app_2; auto with guardian. by apply bytes_replicate.
  - unfold nl_wire.
    rewrite Hbody, length_take, Nat.min_l, guardian_node_link_crc32_take by lia.
    rewrite <- E9, get_put_u32_be_take by (rewrite ?length_drop; auto with guardian; lia).
    rewrite take_take_drop. f_equal. lia.
  - unfold nl_normalized. cbn [nl_message_type nl_flags nl_node_state nl_payload_length
      nl_sequence nl_sender_epoch nl_sender_node_id nl_payload]. fold plen.
    by rewrite take_app_length'.
Qed.

(** ** Properties *)

Definition example_nl_frame : guardian_node_link_frame_t :=
  NL_FRAME GUARDIAN_NODE_LINK_MESSAGE_HEARTBEAT 0 GUARDIAN_NODE_STATE_ACTIVE 2 9 3 0x4002
    (11 :: 22 :: replicate 62 0xEE).
Definition blank_nl_frame : guardian_node_link_frame_t :=
  NL_FRAME 0 0 0 0 0 0 0 (replicate 64 0).

Lemma example_nl_frame_ok : nl_frame_ok example_nl_frame.
Proof.
  split; vm_compute; try done; try (split; congruence).
  repeat constructor; try done; intros ?; discriminate.
Qed.

(** Encoding then decoding a node-link frame gives it back.  For every frame
    the encoder accepts and every sufficiently large buffer, the encoder writes
    exactly the reported number of bytes and leaves the rest of the buffer
    alone; decoding those bytes gives every field back, with the unused part of
    the payload array cleared whatever the destination held. *)
Theorem node_link_roundtrip f g out cap n0 :
  nl_frame_ok f -> length (nl_payload g) = GUARDIAN_NODE_LINK_MAX_PAYLOAD ->
  (GUARDIAN_NODE_LINK_HEADER_SIZE + Z.to_nat (nl_payload_length f)
     + GUARDIAN_NODE_LINK_CRC_SIZE <= cap <= length out)%nat ->
  exists wire,
    guardian_node_link_encode (Some f) (Some out) cap (Some n0)
      = (GUARDIAN_NODE_LINK_OK, Some (wire ++ drop (length wire) out), Some (length wire)) /\
    (length wire <= GUARDIAN_NODE_LINK_MAX_FRAME)%nat /\
    guardian_node_link_decode (Some (wire ++ drop (length wire) out)) (length wire) (Some g)
      = (GUARDIAN_NODE_LINK_OK, Some (nl_normalized f)).
Proof.
  intros Hok Hg Hcap. pose proof (nl_wire_length f Hok) as Hw. exists (nl_wire f).
  split; [apply nl_encode_writes; [done|lia]|].
  split; [|by apply nl_decode_wire].
  destruct Hok. unfold GUARDIAN_NODE_LINK_MAX_FRAME, GUARDIAN_NODE_LINK_MAX_PAYLOAD. lia.
Qed.

Lemma node_link_roundtrip_witness :
  exists wire,
    guardian_node_link_encode (Some example_nl_frame) (Some (replicate 88 7)) 88 (Some 0%nat)
      = (GUARDIAN_NODE_LINK_OK, Some (wire ++ drop (length wire) (replicate 88 7)),
         Some (length wire)) /\
    (length wire <= GUARDIAN_NODE_LINK_MAX_FRAME)%nat /\
    guardian_node_link_decode (Some (wire ++ drop (length wire) (replicate 88 7)))
      (length wire) (Some blank_nl_frame)
      = (GUARDIAN_NODE_LINK_OK, Some (nl_normalized example_nl_frame)).
Proof.
  apply (node_link_roundtrip example_nl_frame blank_nl_frame (replicate 88 7) 88 0).
  - apply example_nl_frame_ok.
  - reflexivity.
  - split; apply Nat.leb_le; reflexivity.
Defined.

(** The node-link wire format is canonical.  Whatever bytes the decoder
    accepts, the frame it produces is accepted by the encoder, has its unused
    payload cleared and a non-zero sequence, and encodes to exactly the bytes
    that were decoded; a rejected input leaves the frame untouched. *)
Theorem node_link_canonical inp n g out n0 :
  bytes inp -> (n <= length inp)%nat ->
  length (nl_payload g) = GUARDIAN_NODE_LINK_MAX_PAYLOAD -> length out = n ->
  match guardian_node_link_decode (Some inp) n (Some g) with
  | (GUARDIAN_NODE_LINK_OK, fr) =>
      exists f, fr = Some f /\ nl_frame_ok f /\ nl_normalized f = f /\
        guardian_node_link_encode (Some f) (Some out) n (Some n0)
          = (GUARDIAN_NODE_LINK_OK, Some (take n inp), Some n)
  | (_, fr) => fr = Some g
  end.
Proof.
  intros Hb Hn Hg Hout.
  destruct (guardian_node_link_decode (Some inp) n (Some g)) as [e fr] eqn:E.
  destruct (decide (e = GUARDIAN_NODE_LINK_OK)) as [->|Hne].
  - destruct fr as [f|].
    2:{ unfold guardian_node_link_decode in E. repeat case_match; discriminate. }
    destruct (nl_decode_ok_inv inp n g f) as (Hok & Hw & Hnorm); try done.
    exists f. split; [done|]. split; [done|]. split; [done|].
    assert (Hlen : length (nl_wire f) = n) by (rewrite <- Hw, length_take; lia).
    rewrite nl_encode_writes by (done || lia).
    by rewrite Hlen, <- Hw, drop_ge, app_nil_r by lia.
  - assert (fr = Some g) as ->.
    { unfold guardian_node_link_decode in E. cbv zeta in E.
      repeat (case_match; [by injection E|]). congruence. }
    by destruct e.
Qed.

Lemma node_link_canonical_witness :
  match guardian_node_link_decode (Some (nl_wire example_nl_frame ++ [5])) 26
          (Some blank_nl_frame) with
  | (GUARDIAN_NODE_LINK_OK, fr) =>
      exists f, fr = Some f /\ nl_frame_ok f /\ nl_normalized f = f /\
        guardian_node_link_encode (Some f) (Some (replicate 26 0)) 26 (Some 0%nat)
          = (GUARDIAN_NODE_LINK_OK, Some (take 26 (nl_wire example_nl_frame ++ [5])), Some 26%nat)
  | (_, fr) => fr = Some blank_nl_frame
  end.
Proof.
  apply (node_link_canonical (nl_wire example_nl_frame ++ [5]) 26 blank_nl_frame
           (replicate 26 0) 0).
  - apply (bool_decide_unpack _). vm_compute. exact I.
  - apply Nat.leb_le. vm_compute. reflexivity.
  - reflexivity.
  - reflexivity.
Defined.

(** *** Sequence guard *)

(** A run of the guard over sequence numbers as they arrive: the accepted ones
    and the guard at the end. *)
Fixpoint accept_all (g : guardian_node_link_sequence_guard_t) (seqs : list Z)
  : list Z * guardian_node_link_sequence_guard_t :=
  match seqs with
  | [] => ([], g)
  | s :: rest =>
      match guardian_node_link_accept_sequence (Some g) s with
      | (GUARDIAN_NODE_LINK_OK, Some g') =>
          let '(acc, g2) := accept_all g' rest in (s :: acc, g2)
      | (_, Some g') => accept_all g' rest
      | (_, None) => ([], g)
      end
  end.

Definition guard_floor (g : guardian_node_link_sequence_guard_t) : Z :=
  if guard_initialized g =? 0 then 0 else guard_last_sequence g.

Lemma accept_sequence_floor g s :
  is_u32 s -> 0 <= guard_last_sequence g ->
  guardian_node_link_accept_sequence (Some g) s
  = if guard_floor g <? s then (GUARDIAN_NODE_LINK_OK, Some (SEQUENCE_GUARD s 1))
    else (if s =? 0 then GUARDIAN_NODE_LINK_ERROR_SEQUENCE_ZERO
          else GUARDIAN_NODE_LINK_ERROR_REPLAY_OR_REGRESSION, Some g).
Proof.
  intros Hs Hg. unfold is_u32 in Hs. unfold guardian_node_link_accept_sequence, guard_floor.
  destruct (Z.eqb_spec s 0), (Z.eqb_spec (guard_initialized g) 0),
    (Z.leb_spec s (guard_last_sequence g)); cbn [negb andb];
    try (destruct (Z.ltb_spec 0 s)); try (destruct (Z.ltb_spec (guard_last_sequence g) s));
    try done; exfalso; lia.
Qed.

Lemma accept_all_sorted seqs : forall g,
  Forall is_u32 seqs -> 0 <= guard_last_sequence g ->
  let '(acc, g') := accept_all g seqs in
  Sorted Z.lt (guard_floor g :: acc) /\ 0 <= guard_last_sequence g' /\
  guard_floor g' = List.last acc (guard_floor g).
Proof.
  induction seqs as [|s seqs IH]; intros g Hs Hg; [by repeat constructor|].
  apply Forall_cons in Hs as [Hsu Hs]. cbn [accept_all]. rewrite accept_sequence_floor by done.
  destruct (Z.ltb_spec (guard_floor g) s) as [Hlt|Hle].
  - assert (Hs0 : 0 <= s) by apply Hsu.
    specialize (IH (SEQUENCE_GUARD s 1) Hs Hs0).
    destruct (accept_all (SEQUENCE_GUARD s 1) seqs) as [acc g'].
    destruct IH as (Hsort & Hg' & Hl). cbn in Hsort, Hl. split; [|split; [done|]].
    + constructor; [done|]. by constructor.
    + rewrite Hl. destruct acc as [|a acc]; [done|]. cbn [List.last].
      clear. revert a. induction acc as [|b acc IH]; intros a; [done|]. apply IH.
  - specialize (IH g Hs Hg). by destruct (s =? 0).
Qed.

(** The sequence guard accepts a strictly increasing sequence.  Over any
    arrivals, the accepted sequence numbers are strictly increasing and above
    everything accepted before (above zero for a fresh guard), the guard ends
    at the last accepted number, and from then on a number is accepted exactly
    when it is above that: a replay, a regression or zero is refused and leaves
    the guard as it was. *)
Theorem sequence_guard_monotone g seqs :
  Forall is_u32 seqs -> 0 <= guard_last_sequence g ->
  let '(acc, g') := accept_all g seqs in
  Sorted Z.lt (guard_floor g :: acc) /\
  guard_floor g' = List.last acc (guard_floor g) /\
  forall s, is_u32 s ->
    if guard_floor g' <? s
    then guardian_node_link_accept_sequence (Some g') s
         = (GUARDIAN_NODE_LINK_OK, Some (SEQUENCE_GUARD s 1))
    else (guardian_node_link_accept_sequence (Some g') s).1 <> GUARDIAN_NODE_LINK_OK /\
         (guardian_node_link_accept_sequence (Some g') s).2 = Some g'.
Proof.
  intros Hs Hg. pose proof (accept_all_sorted seqs g Hs Hg) as H.
  destruct (accept_all g seqs) as [acc g']. destruct H as (Hsort & Hg' & Hl).
  split; [done|]. split; [done|]. intros s Hsu.
  rewrite accept_sequence_floor by done. destruct (guard_floor g' <? s); [done|].
  by destruct (s =? 0).
Qed.

Lemma sequence_guard_monotone_witness :
  accept_all (SEQUENCE_GUARD 0 0) [3; 3; 0; 7; 5; 0xFFFFFFFF; 1]
    = ([3; 7; 0xFFFFFFFF], SEQUENCE_GUARD 0xFFFFFFFF 1) /\
  let '(acc, g') := accept_all (SEQUENCE_GUARD 0 0) [3; 3; 0; 7; 5; 0xFFFFFFFF; 1] in
  Sorted Z.lt (guard_floor (SEQUENCE_GUARD 0 0) :: acc) /\
  guard_floor g' = List.last acc (guard_floor (SEQUENCE_GUARD 0 0)) /\
  forall s, is_u32 s ->
    if guard_floor g' <? s
    then guardian_node_link_accept_sequence (Some g') s
         = (GUARDIAN_NODE_LINK_OK, Some (SEQUENCE_GUARD s 1))
    else (guardian_node_link_accept_sequence (Some g') s).1 <> GUARDIAN_NODE_LINK_OK /\
         (guardian_node_link_accept_sequence (Some g') s).2 = Some g'.
Proof.
  split; [reflexivity|].
  apply (sequence_guard_monotone (SEQUENCE_GUARD 0 0) [3; 3; 0; 7; 5; 0xFFFFFFFF; 1]).
  - repeat constructor; unfold is_u32; lia.
  - cbn. lia.
Defined.
