(* ===== verification/NodeLinkAuth.v ===== *)
(** * Node-link authentication

    Model of [firmware/NodeLink/Src/guardian_node_link_auth.c]: configuration of
    the peer table, the transcript that is signed, and authentication of a
    frame.  The signature verifier is the caller's callback: it is a field of
    the configuration, of any type of context [C], and threads a world [W]. *)

From S2P Require Import Prelude NodeLink.

(** ** Constants and data *)

Definition GUARDIAN_NODE_LINK_SIGNATURE_ED25519 : Z := 0x01.
Definition GUARDIAN_NODE_LINK_ED25519_SIGNATURE_SIZE : nat := 64.
Definition GUARDIAN_NODE_LINK_AUTH_MAX_PEERS : nat := 8.

(** "GUARDIAN-F401:NODELINK:AUTH:V1", without its terminator. *)
Definition GUARDIAN_NODE_LINK_AUTH_DOMAIN : list Z :=
  [71; 85; 65; 82; 68; 73; 65; 78; 45; 70; 52; 48; 49; 58;
   78; 79; 68; 69; 76; 73; 78; 75; 58; 65; 85; 84; 72; 58; 86; 49].
Definition GUARDIAN_NODE_LINK_AUTH_DOMAIN_SIZE : nat := 30.
Definition GUARDIAN_NODE_LINK_AUTH_TRANSCRIPT_FIXED_SIZE : nat := 56.
Definition GUARDIAN_NODE_LINK_AUTH_TRANSCRIPT_MAX_SIZE : nat :=
  GUARDIAN_NODE_LINK_AUTH_TRANSCRIPT_FIXED_SIZE + GUARDIAN_NODE_LINK_MAX_PAYLOAD.

(** The value returned by the verifier, any integer being possible. *)
Inductive guardian_node_link_verify_result_t :=
  | GUARDIAN_NODE_LINK_VERIFY_VERIFIED
  | GUARDIAN_NODE_LINK_VERIFY_SIGNATURE_INVALID
  | GUARDIAN_NODE_LINK_VERIFY_KEY_UNKNOWN
  | GUARDIAN_NODE_LINK_VERIFY_KEY_REVOKED
  | GUARDIAN_NODE_LINK_VERIFY_ALGORITHM_UNSUPPORTED
  | GUARDIAN_NODE_LINK_VERIFY_PROVIDER_UNAVAILABLE
  | GUARDIAN_NODE_LINK_VERIFY_PROVIDER_FAILURE
  | GUARDIAN_NODE_LINK_VERIFY_OTHER (v : Z).

#[global] Instance guardian_node_link_verify_result_t_eq_dec :
  EqDecision guardian_node_link_verify_result_t.
Proof. solve_decision. Defined.

Inductive guardian_node_link_auth_result_t :=
  | GUARDIAN_NODE_LINK_AUTH_OK
  | GUARDIAN_NODE_LINK_AUTH_ERROR_NULL_ARGUMENT
  | GUARDIAN_NODE_LINK_AUTH_ERROR_UNCONFIGURED
  | GUARDIAN_NODE_LINK_AUTH_ERROR_PEER_UNKNOWN
  | GUARDIAN_NODE_LINK_AUTH_ERROR_KEY_UNKNOWN
  | GUARDIAN_NODE_LINK_AUTH_ERROR_KEY_REVOKED
  | GUARDIAN_NODE_LINK_AUTH_ERROR_ALGORITHM_UNSUPPORTED
  | GUARDIAN_NODE_LINK_AUTH_ERROR_TRANSCRIPT
  | GUARDIAN_NODE_LINK_AUTH_ERROR_SIGNATURE_INVALID
  | GUARDIAN_NODE_LINK_AUTH_ERROR_PROVIDER_UNAVAILABLE
  | GUARDIAN_NODE_LINK_AUTH_ERROR_PROVIDER_FAILURE.

#[global] Instance guardian_node_link_auth_result_t_eq_dec :
  EqDecision guardian_node_link_auth_result_t.
Proof. solve_decision. Defined.

Record guardian_node_link_peer_identity_t := PEER {
  peer_sender_node_id : Z;
  peer_producer_id : Z;
  peer_key_id : Z;
  peer_signature_algorithm : Z
}.

Definition zero_peer : guardian_node_link_peer_identity_t := PEER 0 0 0 0.

Record guardian_node_link_authenticated_message_t := AUTH_MESSAGE {
  am_frame : guardian_node_link_frame_t;
  am_producer_id : Z;
  am_key_id : Z;
  am_signature_algorithm : Z
}.

(** An object cleared with [memset]. *)
Definition zero_nl_frame : guardian_node_link_frame_t :=
  NL_FRAME 0 0 0 0 0 0 0 (replicate GUARDIAN_NODE_LINK_MAX_PAYLOAD 0).
Definition zero_authenticated_message : guardian_node_link_authenticated_message_t :=
  AUTH_MESSAGE zero_nl_frame 0 0 0.

Definition guardian_node_link_verify_signature_fn (C W : Type) : Type :=
  C -> Z -> Z -> Z -> list Z -> list Z -> W -> guardian_node_link_verify_result_t * W.

Record guardian_node_link_auth_config_t (C W : Type) := AUTH_CONFIG {
  auth_config_context : option C;
  auth_config_verify_signature : option (guardian_node_link_verify_signature_fn (option C) W);
  auth_config_peers : option (list guardian_node_link_peer_identity_t);
  auth_config_peer_count : nat;
  auth_config_required_signature_algorithm : Z
}.

Record guardian_node_link_authenticator_t (C W : Type) := AUTHENTICATOR {
  auth_context : option C;
  auth_verify_signature : option (guardian_node_link_verify_signature_fn (option C) W);
  auth_peers : list guardian_node_link_peer_identity_t;   (* peers[8] *)
  auth_peer_count : nat;
  auth_required_signature_algorithm : Z;
  auth_configured : Z
}.

Arguments AUTH_CONFIG {C W}.
Arguments auth_config_context {C W}.
Arguments auth_config_verify_signature {C W}.
Arguments auth_config_peers {C W}.
Arguments auth_config_peer_count {C W}.
Arguments auth_config_required_signature_algorithm {C W}.
Arguments AUTHENTICATOR {C W}.
Arguments auth_context {C W}.
Arguments auth_verify_signature {C W}.
Arguments auth_peers {C W}.
Arguments auth_peer_count {C W}.
Arguments auth_required_signature_algorithm {C W}.
Arguments auth_configured {C W}.

(** ** Byte order and validity *)

Definition guardian_node_link_auth_write_u16 (value : Z) : list Z := put_u16_be value.
Definition guardian_node_link_auth_write_u32 (value : Z) : list Z := put_u32_be value.

Definition guardian_node_link_auth_message_type_valid (message_type : Z) : bool :=
  (message_type =? GUARDIAN_NODE_LINK_MESSAGE_HELLO)
  || (message_type =? GUARDIAN_NODE_LINK_MESSAGE_CHALLENGE)
  || (message_type =? GUARDIAN_NODE_LINK_MESSAGE_RESPONSE)
  || (message_type =? GUARDIAN_NODE_LINK_MESSAGE_HEARTBEAT)
  || (message_type =? GUARDIAN_NODE_LINK_MESSAGE_HEALTH)
  || (message_type =? GUARDIAN_NODE_LINK_MESSAGE_SUPERVISION_STATE)
  || (message_type =? GUARDIAN_NODE_LINK_MESSAGE_ERROR).

Definition guardian_node_link_auth_state_valid (node_state : Z) : bool :=
  u32 node_state <=? GUARDIAN_NODE_STATE_FAULT.

Section auth.
Context {C W : Type}.
Local Abbreviation config := (guardian_node_link_auth_config_t C W).
Local Abbreviation authenticator := (guardian_node_link_authenticator_t C W).

(** ** Peer table *)

Definition guardian_node_link_auth_resolve_peer (a : option authenticator) (sender_node_id : Z)
  : option guardian_node_link_peer_identity_t :=
  match a with
  | None => None
  | Some a =>
      List.find (fun p => peer_sender_node_id p =? sender_node_id)
        (take (auth_peer_count a) (auth_peers a))
  end.

Definition guardian_node_link_auth_map_verify_result
    (result : guardian_node_link_verify_result_t) : guardian_node_link_auth_result_t :=
  match result with
  | GUARDIAN_NODE_LINK_VERIFY_VERIFIED => GUARDIAN_NODE_LINK_AUTH_OK
  | GUARDIAN_NODE_LINK_VERIFY_SIGNATURE_INVALID =>
      GUARDIAN_NODE_LINK_AUTH_ERROR_SIGNATURE_INVALID
  | GUARDIAN_NODE_LINK_VERIFY_KEY_UNKNOWN => GUARDIAN_NODE_LINK_AUTH_ERROR_KEY_UNKNOWN
  | GUARDIAN_NODE_LINK_VERIFY_KEY_REVOKED => GUARDIAN_NODE_LINK_AUTH_ERROR_KEY_REVOKED
  | GUARDIAN_NODE_LINK_VERIFY_ALGORITHM_UNSUPPORTED =>
      GUARDIAN_NODE_LINK_AUTH_ERROR_ALGORITHM_UNSUPPORTED
  | GUARDIAN_NODE_LINK_VERIFY_PROVIDER_UNAVAILABLE =>
      GUARDIAN_NODE_LINK_AUTH_ERROR_PROVIDER_UNAVAILABLE
  | GUARDIAN_NODE_LINK_VERIFY_PROVIDER_FAILURE
  | GUARDIAN_NODE_LINK_VERIFY_OTHER _ => GUARDIAN_NODE_LINK_AUTH_ERROR_PROVIDER_FAILURE
  end.

Definition zero_authenticator : authenticator :=
  AUTHENTICATOR None None (replicate GUARDIAN_NODE_LINK_AUTH_MAX_PEERS zero_peer) 0 0 0.

Definition guardian_node_link_authenticator_init (a : option authenticator)
  : option authenticator :=
  match a with None => None | Some _ => Some zero_authenticator end.

(** The double loop over the configured peers: the first error it returns. *)
Fixpoint auth_check_peers (required : Z) (peers : list guardian_node_link_peer_identity_t)
  : option guardian_node_link_auth_result_t :=
  match peers with
  | [] => None
  | p :: rest =>
      early (peer_sender_node_id p =? 0) || (peer_producer_id p =? 0) || (peer_key_id p =? 0)
        with Some GUARDIAN_NODE_LINK_AUTH_ERROR_UNCONFIGURED ;;
      early negb (peer_signature_algorithm p =? required)
        with Some GUARDIAN_NODE_LINK_AUTH_ERROR_ALGORITHM_UNSUPPORTED ;;
      early existsb (fun q => peer_sender_node_id p =? peer_sender_node_id q) rest
        with Some GUARDIAN_NODE_LINK_AUTH_ERROR_UNCONFIGURED ;;
      auth_check_peers required rest
  end.

(** [config->peers], an array that is not read when the count is zero. *)
Definition config_peers (cfg : config) : list guardian_node_link_peer_identity_t :=
  take (auth_config_peer_count cfg) (default [] (auth_config_peers cfg)).

Definition guardian_node_link_authenticator_configure (a : option authenticator)
    (cfg : option config) : guardian_node_link_auth_result_t * option authenticator :=
  match a, cfg with
  | Some _, Some cfg =>
      let a0 := zero_authenticator in
      early is_null (auth_config_verify_signature cfg)
        with (GUARDIAN_NODE_LINK_AUTH_ERROR_UNCONFIGURED, Some a0) ;;
      early (GUARDIAN_NODE_LINK_AUTH_MAX_PEERS <? auth_config_peer_count cfg)%nat
        with (GUARDIAN_NODE_LINK_AUTH_ERROR_UNCONFIGURED, Some a0) ;;
      early (0 <? auth_config_peer_count cfg)%nat && is_null (auth_config_peers cfg)
        with (GUARDIAN_NODE_LINK_AUTH_ERROR_UNCONFIGURED, Some a0) ;;
      early negb (auth_config_required_signature_algorithm cfg
                    =? GUARDIAN_NODE_LINK_SIGNATURE_ED25519)
        with (GUARDIAN_NODE_LINK_AUTH_ERROR_ALGORITHM_UNSUPPORTED, Some a0) ;;
      match auth_check_peers (auth_config_required_signature_algorithm cfg)
              (config_peers cfg) with
      | Some err => (err, Some a0)
      | None =>
          (GUARDIAN_NODE_LINK_AUTH_OK,
           Some (AUTHENTICATOR (auth_config_context cfg) (auth_config_verify_signature cfg)
                   (if (0 <? auth_config_peer_count cfg)%nat
                    then config_peers cfg
                           ++ drop (auth_config_peer_count cfg) (auth_peers a0)
                    else auth_peers a0)
                   (auth_config_peer_count cfg)
                   (auth_config_required_signature_algorithm cfg) 1))
      end
  | _, _ => (GUARDIAN_NODE_LINK_AUTH_ERROR_NULL_ARGUMENT, a)
  end.
End auth.

(** ** Transcript *)

Definition guardian_node_link_build_auth_transcript
    (frame : option guardian_node_link_frame_t) (producer_id key_id : Z)
    (output : option (list Z)) (output_capacity : nat) (output_length : option nat)
  : guardian_node_link_auth_result_t * option (list Z) * option nat :=
  match frame, output, output_length with
  | Some f, Some out, Some _ =>
      early negb (nl_flags f =? GUARDIAN_NODE_LINK_SUPPORTED_FLAGS)
            || negb (guardian_node_link_auth_message_type_valid (nl_message_type f))
            || negb (guardian_node_link_auth_state_valid (nl_node_state f))
            || (nl_sequence f =? 0) || (nl_sender_epoch f =? 0) || (nl_sender_node_id f =? 0)
            || (producer_id =? 0) || (key_id =? 0)
            || (GUARDIAN_NODE_LINK_MAX_PAYLOAD <? Z.to_nat (nl_payload_length f))%nat
        with (GUARDIAN_NODE_LINK_AUTH_ERROR_TRANSCRIPT, output, Some 0%nat) ;;
      let plen := Z.to_nat (nl_payload_length f) in
      let required := (GUARDIAN_NODE_LINK_AUTH_TRANSCRIPT_FIXED_SIZE + plen)%nat in
      early (output_capacity <? required)%nat
        with (GUARDIAN_NODE_LINK_AUTH_ERROR_TRANSCRIPT, output, Some 0%nat) ;;
      let offset := 0%nat in
      let out := blit out offset GUARDIAN_NODE_LINK_AUTH_DOMAIN in
      let offset := (offset + GUARDIAN_NODE_LINK_AUTH_DOMAIN_SIZE)%nat in
      let out := blit out offset [GUARDIAN_NODE_LINK_VERSION] in
      let offset := (offset + 1)%nat in
      let out := blit out offset [u8 (nl_message_type f)] in
      let offset := (offset + 1)%nat in
      let out := blit out offset [nl_flags f] in
      let offset := (offset + 1)%nat in
      let out := blit out offset [u8 (nl_node_state f)] in
      let offset := (offset + 1)%nat in
      let out := blit out offset (guardian_node_link_auth_write_u32 (nl_sequence f)) in
      let offset := (offset + 4)%nat in
      let out := blit out offset (guardian_node_link_auth_write_u32 (nl_sender_epoch f)) in
      let offset := (offset + 4)%nat in
      let out := blit out offset (guardian_node_link_auth_write_u32 (nl_sender_node_id f)) in
      let offset := (offset + 4)%nat in
      let out := blit out offset (guardian_node_link_auth_write_u32 producer_id) in
      let offset := (offset + 4)%nat in
      let out := blit out offset (guardian_node_link_auth_write_u32 key_id) in
      let offset := (offset + 4)%nat in
      let out := blit out offset (guardian_node_link_auth_write_u16 (nl_payload_length f)) in
      let offset := (offset + 2)%nat in
      let '(out, offset) :=
        if 0 <? nl_payload_length f
        then (blit out offset (take plen (nl_payload f)), (offset + plen)%nat)
        else (out, offset) in
      early negb (offset =? required)%nat
        with (GUARDIAN_NODE_LINK_AUTH_ERROR_TRANSCRIPT,
              Some (blit out 0 (replicate output_capacity 0)), Some 0%nat) ;;
      (GUARDIAN_NODE_LINK_AUTH_OK, Some out, Some offset)
  | _, _, _ => (GUARDIAN_NODE_LINK_AUTH_ERROR_NULL_ARGUMENT, output, output_length)
  end.

(** ** Authentication *)

(** The local array [transcript], whose initial contents are never read. *)
Definition transcript_buffer : list Z :=
  replicate GUARDIAN_NODE_LINK_AUTH_TRANSCRIPT_MAX_SIZE 0.

Definition guardian_node_link_authenticate {C W : Type}
    (a : option (guardian_node_link_authenticator_t C W))
    (frame : option guardian_node_link_frame_t)
    (signature : option (list Z)) (signature_length : nat)
    (authenticated_message : option guardian_node_link_authenticated_message_t) (w : W)
  : guardian_node_link_auth_result_t * option guardian_node_link_authenticated_message_t * W :=
  let out := match authenticated_message with
             | None => None
             | Some _ => Some zero_authenticated_message
             end in
  match a, frame, signature, out with
  | Some au, Some f, Some sig, Some _ =>
      match auth_verify_signature au with
      | None => (GUARDIAN_NODE_LINK_AUTH_ERROR_UNCONFIGURED, out, w)
      | Some verify =>
          early auth_configured au =? 0
            with (GUARDIAN_NODE_LINK_AUTH_ERROR_UNCONFIGURED, out, w) ;;
          early negb (signature_length =? GUARDIAN_NODE_LINK_ED25519_SIGNATURE_SIZE)%nat
            with (GUARDIAN_NODE_LINK_AUTH_ERROR_SIGNATURE_INVALID, out, w) ;;
          match guardian_node_link_auth_resolve_peer a (nl_sender_node_id f) with
          | None => (GUARDIAN_NODE_LINK_AUTH_ERROR_PEER_UNKNOWN, out, w)
          | Some peer =>
              early negb (peer_signature_algorithm peer =? auth_required_signature_algorithm au)
                with (GUARDIAN_NODE_LINK_AUTH_ERROR_ALGORITHM_UNSUPPORTED, out, w) ;;
              let '(transcript_result, transcript, transcript_length) :=
                guardian_node_link_build_auth_transcript frame
                  (peer_producer_id peer) (peer_key_id peer)
                  (Some transcript_buffer) GUARDIAN_NODE_LINK_AUTH_TRANSCRIPT_MAX_SIZE
                  (Some 0%nat) in
              early negb (bool_decide (transcript_result = GUARDIAN_NODE_LINK_AUTH_OK))
                with (transcript_result, out, w) ;;
              let '(verify_result, w) :=
                verify (auth_context au) (peer_signature_algorithm peer)
                  (peer_producer_id peer) (peer_key_id peer)
                  (take (default 0%nat transcript_length) (default [] transcript))
                  (take signature_length sig) w in
              let mapped_result := guardian_node_link_auth_map_verify_result verify_result in
              early negb (bool_decide (mapped_result = GUARDIAN_NODE_LINK_AUTH_OK))
                with (mapped_result, out, w) ;;
              (GUARDIAN_NODE_LINK_AUTH_OK,
               Some (AUTH_MESSAGE f (peer_producer_id peer) (peer_key_id peer)
                       (peer_signature_algorithm peer)), w)
          end
      end
  | _, _, _, _ => (GUARDIAN_NODE_LINK_AUTH_ERROR_NULL_ARGUMENT, out, w)
  end.

(** ** The signed transcript *)

Definition auth_transcript (f : guardian_node_link_frame_t) (producer_id key_id : Z) : list Z :=
  GUARDIAN_NODE_LINK_AUTH_DOMAIN
  ++ [GUARDIAN_NODE_LINK_VERSION; u8 (nl_message_type f); nl_flags f; u8 (nl_node_state f)]
  ++ put_u32_be (nl_sequence f) ++ put_u32_be (nl_sender_epoch f)
  ++ put_u32_be (nl_sender_node_id f) ++ put_u32_be producer_id ++ put_u32_be key_id
  ++ put_u16_be (nl_payload_length f)
  ++ take (Z.to_nat (nl_payload_length f)) (nl_payload f).

(** A frame and identifiers the transcript builder accepts, in well-formed C
    objects. *)
Record transcript_ok (f : guardian_node_link_frame_t) (producer_id key_id : Z) : Prop := {
  tr_flags : nl_flags f = GUARDIAN_NODE_LINK_SUPPORTED_FLAGS;
  tr_type : valid_message_type (nl_message_type f) = true;
  tr_state : GUARDIAN_NODE_STATE_BOOT <= nl_node_state f <= GUARDIAN_NODE_STATE_FAULT;
  tr_sequence : is_u32 (nl_sequence f) /\ nl_sequence f <> 0;
  tr_epoch : is_u32 (nl_sender_epoch f) /\ nl_sender_epoch f <> 0;
  tr_sender : is_u32 (nl_sender_node_id f) /\ nl_sender_node_id f <> 0;
  tr_producer : is_u32 producer_id /\ producer_id <> 0;
  tr_key : is_u32 key_id /\ key_id <> 0;
  tr_length : 0 <= nl_payload_length f <= 64
}.

(** A C object of the frame type: every field in the range of its type (the
    enumerations held in 32 bits). *)
Record nl_frame_object (f : guardian_node_link_frame_t) : Prop := {
  nlo_type : is_u32 (nl_message_type f);
  nlo_flags : is_u8 (nl_flags f);
  nlo_state : is_u32 (nl_node_state f);
  nlo_length : is_u16 (nl_payload_length f);
  nlo_sequence : is_u32 (nl_sequence f);
  nlo_epoch : is_u32 (nl_sender_epoch f);
  nlo_sender : is_u32 (nl_sender_node_id f);
  nlo_payload : length (nl_payload f) = GUARDIAN_NODE_LINK_MAX_PAYLOAD;
  nlo_bytes : bytes (nl_payload f)
}.

(** The guard of the builder decides [transcript_ok]. *)
Definition transcript_guard (f : guardian_node_link_frame_t) (producer_id key_id : Z) : bool :=
  negb (nl_flags f =? GUARDIAN_NODE_LINK_SUPPORTED_FLAGS)
  || negb (guardian_node_link_auth_message_type_valid (nl_message_type f))
  || negb (guardian_node_link_auth_state_valid (nl_node_state f))
  || (nl_sequence f =? 0) || (nl_sender_epoch f =? 0) || (nl_sender_node_id f =? 0)
  || (producer_id =? 0) || (key_id =? 0)
  || (GUARDIAN_NODE_LINK_MAX_PAYLOAD <? Z.to_nat (nl_payload_length f))%nat.

Lemma transcript_guard_spec f pid kid :
  nl_frame_object f -> is_u32 pid -> is_u32 kid ->
  transcript_guard f pid kid = false <-> transcript_ok f pid kid.
Proof.
  intros Ho Hp Hk. unfold transcript_guard.
  rewrite !orb_false_iff, !negb_false_iff, !Z.eqb_eq, !Z.eqb_neq, Nat.ltb_ge.
  unfold guardian_node_link_auth_state_valid.
  rewrite (u32_id (nl_node_state f)), Z.leb_le by apply Ho.
  unfold GUARDIAN_NODE_LINK_MAX_PAYLOAD. split.
  - intros [[[[[[[[? ?] ?] ?] ?] ?] ?] ?] ?]. destruct Ho. unfold is_u16, is_u32 in *.
    split; auto; unfold is_u32, GUARDIAN_NODE_STATE_BOOT; lia.
  - intros []. split_and!; try easy. lia.
Qed.

Lemma auth_transcript_length f pid kid :
  0 <= nl_payload_length f <= 64 -> length (nl_payload f) = GUARDIAN_NODE_LINK_MAX_PAYLOAD ->
  length (auth_transcript f pid kid)
  = (GUARDIAN_NODE_LINK_AUTH_TRANSCRIPT_FIXED_SIZE + Z.to_nat (nl_payload_length f))%nat.
Proof.
  intros Hl Hp. unfold GUARDIAN_NODE_LINK_MAX_PAYLOAD in Hp. unfold auth_transcript.
  rewrite !length_app, length_take, Hp. cbn [length put_u32_be put_u16_be].
  change (length GUARDIAN_NODE_LINK_AUTH_DOMAIN) with 30%nat.
  unfold GUARDIAN_NODE_LINK_AUTH_TRANSCRIPT_FIXED_SIZE. lia.
Qed.

(** The builder writes the transcript, or refuses with a zero length. *)
Lemma build_transcript_spec f pid kid out cap n0 :
  nl_frame_object f -> is_u32 pid -> is_u32 kid ->
  (GUARDIAN_NODE_LINK_AUTH_TRANSCRIPT_MAX_SIZE <= cap <= length out)%nat ->
  guardian_node_link_build_auth_transcript (Some f) pid kid (Some out) cap (Some n0)
  = if transcript_guard f pid kid
    then (GUARDIAN_NODE_LINK_AUTH_ERROR_TRANSCRIPT, Some out, Some 0%nat)
    else let t := auth_transcript f pid kid in
         (GUARDIAN_NODE_LINK_AUTH_OK, Some (t ++ drop (length t) out), Some (length t)).
Proof.
  intros Ho Hp Hk Hcap. unfold guardian_node_link_build_auth_transcript.
  fold (transcript_guard f pid kid). destruct (transcript_guard f pid kid) eqn:G; [done|].
  apply transcript_guard_spec in G as Hok; try done. destruct Hok.
  pose proof (auth_transcript_length f pid kid tr_length0 (nlo_payload f Ho)) as Hl.
  pose proof (nlo_payload f Ho) as Hpl.
  unfold GUARDIAN_NODE_LINK_AUTH_TRANSCRIPT_MAX_SIZE, GUARDIAN_NODE_LINK_AUTH_DOMAIN_SIZE,
    GUARDIAN_NODE_LINK_AUTH_TRANSCRIPT_FIXED_SIZE, GUARDIAN_NODE_LINK_MAX_PAYLOAD in *.
  set (plen := Z.to_nat (nl_payload_length f)) in *.
  destruct (Nat.ltb_spec cap (56 + plen)); [lia|]. cbv zeta.
  assert (Hpay : forall o : list Z,
    (if 0 <? nl_payload_length f
     then (blit o 56 (take plen (nl_payload f)), (56 + plen)%nat) else (o, 56%nat))
    = (blit o 56 (take plen (nl_payload f)), (56 + plen)%nat)).
  { intros o. destruct (Z.ltb_spec 0 (nl_payload_length f)); [done|].
    assert (plen = 0%nat) as -> by lia. by rewrite take_0, blit_nil. }
  cbn [Nat.add]. rewrite Hpay, Nat.eqb_refl. cbn [negb].
  unfold guardian_node_link_auth_write_u32, guardian_node_link_auth_write_u16.
  rewrite !(blit_blit_adjacent out) by (rewrite ?length_app;
    change (length GUARDIAN_NODE_LINK_AUTH_DOMAIN) with 30%nat; cbn [length put_u32_be put_u16_be]; lia).
  match goal with |- context [blit out 0 ?x] =>
    replace x with (auth_transcript f pid kid)
      by (unfold auth_transcript; fold plen; by rewrite <- !app_assoc) end.
  by rewrite blit_0, Hl.
Qed.

(** The transcript determines everything that is signed. *)
Lemma auth_transcript_inj f f' pid kid pid' kid' :
  nl_frame_object f -> nl_frame_object f' ->
  transcript_ok f pid kid -> transcript_ok f' pid' kid' ->
  auth_transcript f pid kid = auth_transcript f' pid' kid' ->
  nl_message_type f = nl_message_type f' /\ nl_flags f = nl_flags f' /\
  nl_node_state f = nl_node_state f' /\ nl_sequence f = nl_sequence f' /\
  nl_sender_epoch f = nl_sender_epoch f' /\ nl_sender_node_id f = nl_sender_node_id f' /\
  pid = pid' /\ kid = kid' /\ nl_payload_length f = nl_payload_length f' /\
  take (Z.to_nat (nl_payload_length f)) (nl_payload f)
  = take (Z.to_nat (nl_payload_length f')) (nl_payload f').
Proof.
  intros Ho Ho' [] [] H. unfold auth_transcript in H.
  apply app_inv_head in H.
  apply (app_inj_1 [_; _; _; _] [_; _; _; _]) in H as [Hh H]; [|done].
  injection Hh as Hmt Hfl Hst.
  rewrite (u8_id (nl_message_type f)), (u8_id (nl_message_type f')) in Hmt
    by by apply valid_message_type_u8.
  rewrite !node_state_u8 in Hst by done.
  do 5 (apply (app_inj_1 (put_u32_be _) (put_u32_be _)) in H as [? H]; [|done]).
  apply (app_inj_1 (put_u16_be _) (put_u16_be _)) in H as [Hl Hpay]; [|done].
  apply put_u16_be_inj in Hl; [|by apply nlo_length..].
  split_and!; try done; apply put_u32_be_inj; easy.
Qed.

(** ** What authentication establishes *)

Definition peer_object (p : guardian_node_link_peer_identity_t) : Prop :=
  is_u32 (peer_sender_node_id p) /\ is_u32 (peer_producer_id p) /\ is_u32 (peer_key_id p).

Section authenticate.
Context {C W : Type}.
Local Abbreviation authenticator := (guardian_node_link_authenticator_t C W).

Record authenticator_object (a : authenticator) : Prop := {
  ao_peers : Forall peer_object (auth_peers a)
}.

(** [sig] is a verified signature of [f] by the configured peer [p]: the
    verifier was asked about exactly the transcript of the frame under the
    peer's producer and key, and said yes, moving the world to [w']. *)
Record authentic (a : authenticator) (f : guardian_node_link_frame_t) (sig : list Z)
    (w w' : W) (p : guardian_node_link_peer_identity_t) : Prop := {
  authentic_configured : auth_configured a <> 0;
  authentic_peer : guardian_node_link_auth_resolve_peer (Some a) (nl_sender_node_id f) = Some p;
  authentic_algorithm : peer_signature_algorithm p = auth_required_signature_algorithm a;
  authentic_transcript : transcript_ok f (peer_producer_id p) (peer_key_id p);
  authentic_verified : exists verify, auth_verify_signature a = Some verify /\
    verify (auth_context a) (peer_signature_algorithm p) (peer_producer_id p) (peer_key_id p)
      (auth_transcript f (peer_producer_id p) (peer_key_id p))
      (take GUARDIAN_NODE_LINK_ED25519_SIGNATURE_SIZE sig) w
    = (GUARDIAN_NODE_LINK_VERIFY_VERIFIED, w')
}.

Lemma resolve_peer_In (a : authenticator) id p :
  guardian_node_link_auth_resolve_peer (Some a) id = Some p ->
  In p (auth_peers a) /\ peer_sender_node_id p = id.
Proof.
  cbn. intros H. apply List.find_some in H as [Hin He]. split; [|by apply Z.eqb_eq].
  rewrite <- (take_drop (auth_peer_count a) (auth_peers a)). apply in_or_app. by left.
Qed.

Lemma resolve_peer_object (a : authenticator) id p :
  authenticator_object a ->
  guardian_node_link_auth_resolve_peer (Some a) id = Some p -> peer_object p.
Proof.
  intros [Ha] H. apply resolve_peer_In in H as [Hin _].
  rewrite List.Forall_forall in Ha. by apply Ha.
Qed.

Lemma map_verify_ok r :
  guardian_node_link_auth_map_verify_result r = GUARDIAN_NODE_LINK_AUTH_OK <->
  r = GUARDIAN_NODE_LINK_VERIFY_VERIFIED.
Proof. by destruct r. Qed.

(** Authentication past the guards on the authenticator and the peer. *)
Lemma authenticate_eq (a : authenticator) f sig am w verify p :
  authenticator_object a -> nl_frame_object f ->
  auth_verify_signature a = Some verify -> auth_configured a <> 0 ->
  guardian_node_link_auth_resolve_peer (Some a) (nl_sender_node_id f) = Some p ->
  peer_signature_algorithm p = auth_required_signature_algorithm a ->
  guardian_node_link_authenticate (Some a) (Some f) (Some sig)
    GUARDIAN_NODE_LINK_ED25519_SIGNATURE_SIZE (Some am) w
  = if transcript_guard f (peer_producer_id p) (peer_key_id p)
    then (GUARDIAN_NODE_LINK_AUTH_ERROR_TRANSCRIPT, Some zero_authenticated_message, w)
    else
      let '(v, w') := verify (auth_context a) (peer_signature_algorithm p)
        (peer_producer_id p) (peer_key_id p)
        (auth_transcript f (peer_producer_id p) (peer_key_id p))
        (take GUARDIAN_NODE_LINK_ED25519_SIGNATURE_SIZE sig) w in
      if bool_decide (v = GUARDIAN_NODE_LINK_VERIFY_VERIFIED)
      then (GUARDIAN_NODE_LINK_AUTH_OK,
            Some (AUTH_MESSAGE f (peer_producer_id p) (peer_key_id p)
                    (peer_signature_algorithm p)), w')
      else (guardian_node_link_auth_map_verify_result v, Some zero_authenticated_message, w').
Proof.
  intros Ha Hf Hv Hc Hp Halg. pose proof (resolve_peer_object a _ _ Ha Hp) as (_ & Hpid & Hkid).
  unfold guardian_node_link_authenticate. rewrite Hv, Hp, Halg.
  replace (auth_configured a =? 0) with false by (symmetry; by apply Z.eqb_neq).
  rewrite (Nat.eqb_refl GUARDIAN_NODE_LINK_ED25519_SIGNATURE_SIZE), Z.eqb_refl. cbn [negb].
  rewrite build_transcript_spec by (done || by split; apply Nat.leb_le).
  destruct (transcript_guard f _ _); [done|]. cbv zeta.
  cbn [negb from_option id]. rewrite take_app_length.
  destruct (verify _ _ _ _ _ _ _) as [v w']. by destruct v.
Qed.

(** Authentication that succeeds passed every guard. *)
Lemma authenticate_guards (a : authenticator) f sig n am w am' w' :
  guardian_node_link_authenticate (Some a) (Some f) (Some sig) n (Some am) w
    = (GUARDIAN_NODE_LINK_AUTH_OK, am', w') ->
  n = GUARDIAN_NODE_LINK_ED25519_SIGNATURE_SIZE /\ auth_configured a <> 0 /\
  exists verify p, auth_verify_signature a = Some verify /\
    guardian_node_link_auth_resolve_peer (Some a) (nl_sender_node_id f) = Some p /\
    peer_signature_algorithm p = auth_required_signature_algorithm a.
Proof.
  unfold guardian_node_link_authenticate. intros H.
  destruct (auth_verify_signature a) as [verify|] eqn:Hv; [|discriminate H].
  early_inv H E0. early_inv H E1.
  destruct (guardian_node_link_auth_resolve_peer _ _) as [p|] eqn:Hp; [|discriminate H].
  early_inv H E2. apply negb_false_iff in E1, E2. apply Nat.eqb_eq in E1.
  apply Z.eqb_neq in E0. apply Z.eqb_eq in E2. split; [done|]. split; [done|].
  by exists verify, p.
Qed.

Lemma authenticate_not_ok a f sig n am (w : W) :
  let '(r, am', _) :=
    guardian_node_link_authenticate (C := C) a f sig n am w in
  r <> GUARDIAN_NODE_LINK_AUTH_OK ->
  am' = (fun _ => zero_authenticated_message) <$> am.
Proof.
  unfold guardian_node_link_authenticate.
  destruct a as [a|], f as [f|], sig as [sig|], am as [am|]; try done.
  cbn [fmap option_fmap option_map].
  destruct (auth_verify_signature a); [|done].
  repeat case_match; try done; congruence.
Qed.
End authenticate.

(** ** Configuration *)

Section configure.
Context {C W : Type}.

(** The peers of an accepted configuration. *)
Definition peers_ok (required : Z) (peers : list guardian_node_link_peer_identity_t) : Prop :=
  Forall (fun p => peer_sender_node_id p <> 0 /\ peer_producer_id p <> 0 /\ peer_key_id p <> 0 /\
                   peer_signature_algorithm p = required) peers /\
  NoDup (peer_sender_node_id <$> peers).

Lemma auth_check_peers_spec required peers :
  auth_check_peers required peers = None <-> peers_ok required peers.
Proof.
  unfold peers_ok. induction peers as [|p peers IH]; cbn [auth_check_peers fmap list_fmap].
  - split; [|done]. intros _. split; constructor.
  - rewrite Forall_cons, NoDup_cons.
    assert (Hex : existsb (fun q => peer_sender_node_id p =? peer_sender_node_id q) peers = true
                  <-> peer_sender_node_id p ∈ (peer_sender_node_id <$> peers)).
    { rewrite existsb_exists, list_elem_of_fmap.
      split; intros (q & H1 & H2); exists q;
        rewrite ?Z.eqb_eq, ?list_elem_of_In in *; by split. }
    destruct (_ || _ || _) eqn:E0.
    { rewrite !orb_true_iff, !Z.eqb_eq in E0. split; [done|]. intuition. }
    rewrite !orb_false_iff, !Z.eqb_neq in E0.
    destruct (negb _) eqn:E1.
    { rewrite negb_true_iff, Z.eqb_neq in E1. split; [done|]. intuition. }
    rewrite negb_false_iff, Z.eqb_eq in E1.
    destruct (existsb _ _) eqn:E2.
    { split; [done|]. intros (_ & Hn & _). by destruct Hn; apply Hex. }
    rewrite IH. split; [|intuition].
    intros [H1 H2]. split; [intuition|]. split; [|done]. intros Hin.
    apply Hex in Hin. congruence.
Qed.

Lemma auth_check_peers_not_ok required peers e :
  auth_check_peers required peers = Some e -> e <> GUARDIAN_NODE_LINK_AUTH_OK.
Proof.
  induction peers as [|p peers IH]; cbn [auth_check_peers]; [done|].
  destruct (_ || _ || _); [by intros [= <-]|]. destruct (negb _); [by intros [= <-]|].
  destruct (existsb _ _); [by intros [= <-]|]. done.
Qed.

Lemma find_nodup id p peers :
  NoDup (peer_sender_node_id <$> peers) -> In p peers -> peer_sender_node_id p = id ->
  List.find (fun q => peer_sender_node_id q =? id) peers = Some p.
Proof.
  induction peers as [|q peers IH]; [done|]. cbn [fmap list_fmap List.find In].
  rewrite NoDup_cons. intros [Hn Hd] [->|Hin] Hid.
  - by rewrite (proj2 (Z.eqb_eq _ _) Hid).
  - destruct (Z.eqb_spec (peer_sender_node_id q) id) as [E|]; [|by apply IH].
    exfalso. apply Hn. rewrite E, <- Hid. apply list_elem_of_fmap_2.
    by apply list_elem_of_In.
Qed.

(** What a caller may configure. *)
Record auth_config_ok (cfg : guardian_node_link_auth_config_t C W) : Prop := {
  aco_verify : is_Some (auth_config_verify_signature cfg);
  aco_count : (auth_config_peer_count cfg <= GUARDIAN_NODE_LINK_AUTH_MAX_PEERS)%nat;
  aco_peers : (0 < auth_config_peer_count cfg)%nat -> is_Some (auth_config_peers cfg);
  aco_algorithm : auth_config_required_signature_algorithm cfg
                  = GUARDIAN_NODE_LINK_SIGNATURE_ED25519;
  aco_peers_ok : peers_ok (auth_config_required_signature_algorithm cfg) (config_peers cfg)
}.

Lemma configure_ok_iff a cfg :
  (guardian_node_link_authenticator_configure (Some a) (Some cfg)).1
    = GUARDIAN_NODE_LINK_AUTH_OK <-> auth_config_ok cfg.
Proof.
  unfold guardian_node_link_authenticator_configure. split.
  - intros H.
    destruct (is_null (auth_config_verify_signature cfg)) eqn:E0; [done|].
    destruct (GUARDIAN_NODE_LINK_AUTH_MAX_PEERS <? _)%nat eqn:E1; [done|].
    destruct (_ && _) eqn:E2; [done|]. destruct (negb _) eqn:E3; [done|].
    destruct (auth_check_peers _ _) eqn:E4.
    { by apply auth_check_peers_not_ok in E4. }
    apply auth_check_peers_spec in E4. apply is_null_false in E0. apply Nat.ltb_ge in E1.
    apply negb_false_iff, Z.eqb_eq in E3. split; try done.
    intros Hpos. apply is_null_false. apply Nat.ltb_lt in Hpos. by rewrite Hpos in E2.
  - intros [Hv Hc Hp Ha Hok]. apply is_null_false in Hv. rewrite Hv.
    destruct (Nat.ltb_spec GUARDIAN_NODE_LINK_AUTH_MAX_PEERS (auth_config_peer_count cfg)); [lia|].
    replace (_ && _) with false.
    2:{ symmetry. apply andb_false_iff. destruct (Nat.ltb_spec 0 (auth_config_peer_count cfg)); [|by left].
        right. apply is_null_false. by apply Hp. }
    rewrite Ha, Z.eqb_refl. cbn [negb]. rewrite Ha in Hok.
    apply auth_check_peers_spec in Hok. by rewrite Hok.
Qed.

(** The peers of a configured authenticator are the configured ones. *)
Lemma configured_table (cfg : guardian_node_link_auth_config_t C W) zeros :
  length (config_peers cfg) = auth_config_peer_count cfg ->
  take (auth_config_peer_count cfg)
    (if (0 <? auth_config_peer_count cfg)%nat
     then config_peers cfg ++ drop (auth_config_peer_count cfg) zeros else zeros)
  = config_peers cfg.
Proof.
  intros Hlen. destruct (Nat.ltb_spec 0 (auth_config_peer_count cfg)).
  - by rewrite <- Hlen at 1; rewrite take_app_length.
  - assert (auth_config_peer_count cfg = 0%nat) as E by lia. rewrite E in *.
    by apply nil_length_inv in Hlen as ->.
Qed.
End configure.

Lemma written_prefix {R} (r : R) (o : list Z) n t d :
  (let t' := t in (r, Some (t' ++ d), Some (length t'))) = (r, Some o, Some n) -> take n o = t.
Proof. cbv zeta. intros [= <- <-]. apply take_app_length. Qed.

(** ** Properties *)

(** A verifier for the examples: the "signature" must end with the key number. *)
Definition example_verify : guardian_node_link_verify_signature_fn (option unit) nat :=
  fun _ alg producer key transcript sig calls =>
    (if List.last sig 0 =? key then GUARDIAN_NODE_LINK_VERIFY_VERIFIED
     else GUARDIAN_NODE_LINK_VERIFY_SIGNATURE_INVALID, S calls).

Definition example_auth_config : guardian_node_link_auth_config_t unit nat :=
  AUTH_CONFIG (Some tt) (Some example_verify) (Some [PEER 0x4002 2 21 1; PEER 0x4003 3 31 1]) 2 1.

Definition example_authenticator : guardian_node_link_authenticator_t unit nat :=
  default zero_authenticator
    (guardian_node_link_authenticator_configure (Some zero_authenticator)
       (Some example_auth_config)).2.

Lemma example_nl_frame_object : nl_frame_object example_nl_frame.
Proof.
  split; try (vm_compute; split; congruence).
  apply (bool_decide_unpack _). vm_compute. exact I.
Qed.

Lemma example_authenticator_object : authenticator_object example_authenticator.
Proof. split. repeat constructor; unfold is_u32; cbn; lia. Qed.

(** Authentication is sound, complete and fails closed.  It succeeds exactly
    when the signature has 64 bytes, the sender is the first configured peer
    with that node id, the frame and the peer's identifiers are acceptable, and
    the verifier answers VERIFIED for exactly the transcript of that frame
    under that peer's producer and key; the message handed on is then the
    received frame with the configured identity, never data of the caller.  In
    every other case the message is cleared. *)
Theorem authenticate_sound_complete {C W : Type} (a : guardian_node_link_authenticator_t C W)
    f sig n am w r am' w' :
  authenticator_object a -> nl_frame_object f ->
  guardian_node_link_authenticate (Some a) (Some f) (Some sig) n (Some am) w = (r, am', w') ->
  (r = GUARDIAN_NODE_LINK_AUTH_OK ->
     n = GUARDIAN_NODE_LINK_ED25519_SIGNATURE_SIZE /\
     exists p, authentic a f sig w w' p /\
       am' = Some (AUTH_MESSAGE f (peer_producer_id p) (peer_key_id p)
                     (peer_signature_algorithm p))) /\
  (r <> GUARDIAN_NODE_LINK_AUTH_OK -> am' = Some zero_authenticated_message) /\
  (n = GUARDIAN_NODE_LINK_ED25519_SIGNATURE_SIZE ->
   (exists p w1, authentic a f sig w w1 p) -> r = GUARDIAN_NODE_LINK_AUTH_OK).
Proof.
  intros Ha Hf H. split; [|split].
  - intros ->. destruct (authenticate_guards a f sig n am w am' w' H)
      as (-> & Hc & verify & p & Hv & Hp & Halg).
    split; [done|]. rewrite (authenticate_eq a f sig am w verify p) in H by done.
    destruct (resolve_peer_object a _ _ Ha Hp) as (_ & Hpid & Hkid).
    destruct (transcript_guard f _ _) eqn:G; [done|].
    destruct (verify _ _ _ _ _ _ _) as [v w1] eqn:Ev.
    case_bool_decide; [|injection H as Hr; apply map_verify_ok in Hr; done].
    injection H as <- <-. exists p. split; [|done]. subst v.
    split; [done..| |by exists verify]. by apply transcript_guard_spec.
  - pose proof (authenticate_not_ok (Some a) (Some f) (Some sig) n (Some am) w) as Hn.
    rewrite H in Hn. exact Hn.
  - intros -> (p & w1 & [Hc Hp Halg Htr (verify & Hv & Hver)]).
    destruct (resolve_peer_object a _ _ Ha Hp) as (_ & Hpid & Hkid).
    rewrite (authenticate_eq a f sig am w verify p) in H by done.
    apply transcript_guard_spec in Htr; [|done..]. rewrite Htr, Hver in H.
    by injection H.
Qed.

Lemma authenticate_sound_complete_witness :
  let sig := replicate 63 9 ++ [21] in
  guardian_node_link_authenticate (Some example_authenticator) (Some example_nl_frame) (Some sig) 64
    (Some zero_authenticated_message) 5%nat
  = (GUARDIAN_NODE_LINK_AUTH_OK, Some (AUTH_MESSAGE example_nl_frame 2 21 1), 6%nat) /\
  exists p, authentic example_authenticator example_nl_frame sig 5%nat 6%nat p /\
    Some (AUTH_MESSAGE example_nl_frame 2 21 1)
    = Some (AUTH_MESSAGE example_nl_frame (peer_producer_id p) (peer_key_id p)
              (peer_signature_algorithm p)).
Proof.
  cbv zeta. split; [vm_compute; reflexivity|].
  refine (proj2 (proj1 (authenticate_sound_complete example_authenticator example_nl_frame
    (replicate 63 9 ++ [21]) 64 zero_authenticated_message 5%nat GUARDIAN_NODE_LINK_AUTH_OK _ _
    example_authenticator_object example_nl_frame_object _) eq_refl)).
  vm_compute. reflexivity.
Defined.

(** A signature covers the whole frame and the signer.  Two frames accepted
    by the transcript builder under two signer identities have the same
    transcript only if every field of the frames, the declared part of the
    payloads, the producers and the keys agree: a signature cannot be moved to
    another message, node, epoch, sequence or key. *)
Theorem transcript_injective f f' pid kid pid' kid' out out' cap :
  nl_frame_object f -> nl_frame_object f' ->
  is_u32 pid -> is_u32 kid -> is_u32 pid' -> is_u32 kid' ->
  (GUARDIAN_NODE_LINK_AUTH_TRANSCRIPT_MAX_SIZE <= cap <= length out)%nat ->
  (cap <= length out')%nat ->
  forall o n o' n',
  guardian_node_link_build_auth_transcript (Some f) pid kid (Some out) cap (Some 0%nat)
    = (GUARDIAN_NODE_LINK_AUTH_OK, Some o, Some n) ->
  guardian_node_link_build_auth_transcript (Some f') pid' kid' (Some out') cap (Some 0%nat)
    = (GUARDIAN_NODE_LINK_AUTH_OK, Some o', Some n') ->
  take n o = take n' o' ->
  nl_normalized f = nl_normalized f' /\ pid = pid' /\ kid = kid'.
Proof.
  intros Ho Ho' Hp Hk Hp' Hk' Hcap Hcap' o n o' n' H H' E.
  rewrite build_transcript_spec in H by done. rewrite build_transcript_spec in H' by (done || lia).
  destruct (transcript_guard f pid kid) eqn:G; [done|].
  destruct (transcript_guard f' pid' kid') eqn:G'; [done|].
  apply written_prefix in H, H'. rewrite H, H' in E.
  apply transcript_guard_spec in G; [|done..]. apply transcript_guard_spec in G'; [|done..].
  destruct (auth_transcript_inj f f' pid kid pid' kid')
    as (H1 & H2 & H3 & H4 & H5 & H6 & -> & -> & H9 & H10); try done.
  split; [|done]. unfold nl_normalized. by rewrite H10, H1, H2, H3, H4, H5, H6, H9.
Qed.

Lemma transcript_injective_witness :
  let f' := nl_normalized example_nl_frame in
  nl_normalized example_nl_frame = nl_normalized f' /\ 2 = 2 /\ 21 = 21.
Proof.
  cbv zeta.
  refine (transcript_injective example_nl_frame (nl_normalized example_nl_frame) 2 21 2 21
    transcript_buffer transcript_buffer 120 example_nl_frame_object _ _ _ _ _ _ _ _ _ _ _ _ _ _).
  - split; try (vm_compute; split; congruence).
    apply (bool_decide_unpack _). vm_compute. exact I.
  - unfold is_u32. lia.
  - unfold is_u32. lia.
  - unfold is_u32. lia.
  - unfold is_u32. lia.
  - split; apply Nat.leb_le; reflexivity.
  - apply Nat.leb_le; reflexivity.
  - vm_compute. reflexivity.
  - vm_compute. reflexivity.
  - vm_compute. reflexivity.
Defined.

(** Configuration admits exactly unambiguous peer tables.  For a
    configuration whose array holds the announced number of peers, it succeeds
    exactly when there is a verifier, at most eight peers, Ed25519, non-zero
    identifiers and pairwise different node ids; every configured peer is then
    the one its node id resolves to, and no other id resolves.  After a refused
    configuration the authenticator holds nothing of the previous one and
    refuses every frame. *)
Theorem configure_unambiguous {C W : Type} (a : guardian_node_link_authenticator_t C W) cfg :
  length (config_peers cfg) = auth_config_peer_count cfg ->
  let '(r, a') := guardian_node_link_authenticator_configure (Some a) (Some cfg) in
  (r = GUARDIAN_NODE_LINK_AUTH_OK <-> auth_config_ok cfg) /\
  (r = GUARDIAN_NODE_LINK_AUTH_OK -> forall id p,
     guardian_node_link_auth_resolve_peer a' id = Some p <->
     In p (config_peers cfg) /\ peer_sender_node_id p = id) /\
  (r <> GUARDIAN_NODE_LINK_AUTH_OK -> forall f sig n am w,
     guardian_node_link_authenticate a' (Some f) (Some sig) n (Some am) w
     = (GUARDIAN_NODE_LINK_AUTH_ERROR_UNCONFIGURED, Some zero_authenticated_message, w)).
Proof.
  intros Hlen. pose proof (configure_ok_iff a cfg) as Hiff.
  destruct (guardian_node_link_authenticator_configure (Some a) (Some cfg)) as [r a'] eqn:E.
  cbn [fst] in Hiff. split; [done|].
  unfold guardian_node_link_authenticator_configure in E. split.
  - intros Hr id p. apply Hiff in Hr as Hcfg. subst r.
    early_inv E E0. early_inv E E1. early_inv E E2. early_inv E E3.
    destruct (auth_check_peers _ _) eqn:E4.
    { injection E as -> _. by apply auth_check_peers_not_ok in E4. }
    injection E as <-. cbn [guardian_node_link_auth_resolve_peer auth_peers auth_peer_count].
    rewrite configured_table by done. destruct Hcfg as [_ _ _ _ [_ Hnd]]. split.
    + intros H. apply List.find_some in H as [Hin He]. split; [done|by apply Z.eqb_eq].
    + intros [Hin He]. by apply find_nodup.
  - intros Hr f sig n am w. repeat case_match; injection E as <- <-; done.
Qed.

Lemma configure_unambiguous_witness :
  let '(r, a') := guardian_node_link_authenticator_configure (Some zero_authenticator)
                    (Some example_auth_config) in
  (r = GUARDIAN_NODE_LINK_AUTH_OK <-> auth_config_ok example_auth_config) /\
  (r = GUARDIAN_NODE_LINK_AUTH_OK -> forall id p,
     guardian_node_link_auth_resolve_peer a' id = Some p <->
     In p (config_peers example_auth_config) /\ peer_sender_node_id p = id) /\
  (r <> GUARDIAN_NODE_LINK_AUTH_OK -> forall f sig n am w,
     guardian_node_link_authenticate a' (Some f) (Some sig) n (Some am) w
     = (GUARDIAN_NODE_LINK_AUTH_ERROR_UNCONFIGURED, Some zero_authenticated_message, w)).
Proof.
  apply (configure_unambiguous zero_authenticator example_auth_config). reflexivity.
Defined.
