(* ===== verification/CString.v ===== *)
(** * C strings in fixed arrays

    The references the node link stores are C strings in arrays of 96 bytes.
    [ref_length] is the bounded scan for the terminator that the semantic and
    the freshness layers both write out, [strncmp_eq] the comparison
    [strncmp(a, b, n) == 0].  A string is the list of its bytes, read as zero
    past its end. *)

From S2P Require Import Prelude.

(** The scanning loop: the index of the first NUL, or [capacity]. *)
Fixpoint ref_length (source : list Z) (capacity : nat) : nat :=
  match capacity with
  | O => O
  | S c => if byte_at source 0 =? 0 then O else S (ref_length (drop 1 source) c)
  end.

(** [strncmp(a, b, n) == 0] *)
Fixpoint strncmp_eq (a b : list Z) (n : nat) : bool :=
  match n with
  | O => true
  | S n =>
      let x := byte_at a 0 in
      let y := byte_at b 0 in
      if negb (x =? y) then false
      else if x =? 0 then true
      else strncmp_eq (drop 1 a) (drop 1 b) n
  end.

Lemma ref_length_cons x l c :
  ref_length (x :: l) (S c) = if x =? 0 then 0%nat else S (ref_length l c).
Proof. done. Qed.

Lemma ref_length_nil cap : ref_length [] cap = 0%nat.
Proof. by destruct cap. Qed.

Lemma ref_length_source source cap : (ref_length source cap <= length source)%nat.
Proof.
  revert cap. induction source as [|x source IH]; intros cap; [by rewrite ref_length_nil|].
  destruct cap as [|c]; [cbn; lia|]. rewrite ref_length_cons. specialize (IH c).
  cbn [length]. destruct (x =? 0); lia.
Qed.

Lemma ref_length_nonzero source cap :
  Forall (fun b => b <> 0) (take (ref_length source cap) source).
Proof.
  revert cap. induction source as [|x source IH]; intros cap; [by rewrite ref_length_nil|].
  destruct cap as [|c]; [constructor|]. rewrite ref_length_cons.
  destruct (Z.eqb_spec x 0); [constructor|]. by constructor.
Qed.

Lemma ref_length_text text n cap :
  Forall (fun b => b <> 0) text -> (length text < cap)%nat ->
  ref_length (text ++ replicate n 0) cap = length text.
Proof.
  intros Ht. revert cap. induction Ht as [|x text Hx Ht IH]; intros cap Hc.
  - cbn [app]. destruct n; [by rewrite ref_length_nil|]. by destruct cap.
  - destruct cap as [|c]; [cbn in Hc; lia|]. cbn [app length]. rewrite ref_length_cons.
    destruct (Z.eqb_spec x 0); [done|]. rewrite IH; [done|]. cbn in Hc. lia.
Qed.

Lemma strncmp_eq_spec a b n :
  strncmp_eq a b n = true <->
  take (ref_length a n) a = take (ref_length b n) b.
Proof.
  revert a b. induction n as [|n IH]; intros a b; [done|].
  destruct a as [|x a], b as [|y b]; cbn [strncmp_eq].
  - done.
  - rewrite ref_length_nil, ref_length_cons. change (byte_at [] 0) with 0.
    change (byte_at (y :: b) 0) with y. destruct (Z.eqb_spec 0 y) as [<-|]; [done|].
    destruct (Z.eqb_spec y 0); [lia|]. done.
  - rewrite ref_length_nil, ref_length_cons. change (byte_at [] 0) with 0.
    change (byte_at (x :: a) 0) with x. destruct (Z.eqb_spec x 0) as [->|]; done.
  - rewrite !ref_length_cons. change (byte_at (x :: a) 0) with x.
    change (byte_at (y :: b) 0) with y. change (drop 1 (x :: a)) with a.
    change (drop 1 (y :: b)) with b.
    destruct (Z.eqb_spec x y) as [<-|Hxy]; cbn [negb].
    + destruct (Z.eqb_spec x 0); [done|]. rewrite IH. cbn [take]. split; [by intros ->|congruence].
    + destruct (Z.eqb_spec x 0), (Z.eqb_spec y 0); cbn [take]; split; try done; congruence.
Qed.

Lemma strncmp_eq_refl a n : strncmp_eq a a n = true.
Proof. by apply strncmp_eq_spec. Qed.

Lemma strncmp_eq_sym a b n : strncmp_eq a b n = strncmp_eq b a n.
Proof. apply eq_true_iff_eq. rewrite !strncmp_eq_spec. done. Qed.

Lemma strncmp_eq_trans a b c n :
  strncmp_eq a b n = true -> strncmp_eq b c n = true -> strncmp_eq a c n = true.
Proof. rewrite !strncmp_eq_spec. congruence. Qed.

(** The scan stops in the array when a terminator is there, whatever the bound. *)
Lemma ref_length_bound source n m :
  (ref_length source n < n)%nat -> (n <= m)%nat -> ref_length source m = ref_length source n.
Proof.
  revert source m. induction n as [|n IH]; intros source m Hl Hm; [lia|].
  destruct m as [|m]; [lia|]. destruct source as [|x source]; [done|].
  rewrite !ref_length_cons in *. destruct (x =? 0); [done|].
  rewrite (IH source m); [done|lia..].
Qed.

(** A scan bounded by one less stops at the same place when it ends early. *)
Lemma ref_length_pred source n :
  (ref_length source (S n) < S n)%nat -> ref_length source n = ref_length source (S n).
Proof.
  revert source. induction n as [|n IH]; intros source Hl.
  - destruct source as [|x source]; [done|]. rewrite ref_length_cons in *.
    destruct (x =? 0); [done|]. cbn in Hl. lia.
  - destruct source as [|x source]; [done|]. rewrite !(ref_length_cons x source) in *.
    destruct (x =? 0); [done|]. rewrite IH; [done|lia].
Qed.

(** The scan stops at a NUL byte. *)
Lemma ref_length_stops source n :
  (ref_length source n < n)%nat -> byte_at source (ref_length source n) = 0.
Proof.
  revert source. induction n as [|n IH]; intros [|x source] Hl; [lia..|done|].
  rewrite ref_length_cons in *. destruct (Z.eqb_spec x 0) as [->|]; [done|].
  apply IH. lia.
Qed.
