(* ===== verification/NodeLinkSemantic.v ===== *)
(** * Pre-freshness semantic compatibility

    Model of [firmware/NodeLink/Src/guardian_node_link_semantic.c]: the table of
    authenticated identities bound to semantic profiles and the resolution of
    an authenticated message against it.  The compatibility provider is the
    caller's callback.  A reference is a C string: the list of its bytes, read
    as zero (the terminator) past its end. *)

From S2P Require Import Prelude CString NodeLink NodeLinkAuth.

(** ** Constants and data *)

Definition GUARDIAN_NODE_LINK_SEMANTIC_MAX_BINDINGS : nat := 8.
Definition GUARDIAN_NODE_LINK_SEMANTIC_REF_CAPACITY : nat := 96.

Inductive guardian_node_link_compat_provider_result_t :=
  | GUARDIAN_NODE_LINK_COMPAT_PROVIDER_COMPATIBLE
  | GUARDIAN_NODE_LINK_COMPAT_PROVIDER_INCOMPATIBLE
  | GUARDIAN_NODE_LINK_COMPAT_PROVIDER_UNKNOWN
  | GUARDIAN_NODE_LINK_COMPAT_PROVIDER_UNSUPPORTED
  | GUARDIAN_NODE_LINK_COMPAT_PROVIDER_HISTORICALLY_IMPOSSIBLE
  | GUARDIAN_NODE_LINK_COMPAT_PROVIDER_CONTEXT_INCOMPLETE
  | GUARDIAN_NODE_LINK_COMPAT_PROVIDER_UNAVAILABLE
  | GUARDIAN_NODE_LINK_COMPAT_PROVIDER_FAILURE
  | GUARDIAN_NODE_LINK_COMPAT_PROVIDER_OTHER (v : Z).

Inductive guardian_node_link_semantic_result_t :=
  | GUARDIAN_NODE_LINK_SEMANTIC_OK
  | GUARDIAN_NODE_LINK_SEMANTIC_ERROR_NULL_ARGUMENT
  | GUARDIAN_NODE_LINK_SEMANTIC_ERROR_UNCONFIGURED
  | GUARDIAN_NODE_LINK_SEMANTIC_ERROR_BINDING_MISSING
  | GUARDIAN_NODE_LINK_SEMANTIC_ERROR_BINDING_AMBIGUOUS
  | GUARDIAN_NODE_LINK_SEMANTIC_ERROR_CONTEXT_INCOMPLETE
  | GUARDIAN_NODE_LINK_SEMANTIC_ERROR_INCOMPATIBLE
  | GUARDIAN_NODE_LINK_SEMANTIC_ERROR_UNKNOWN
  | GUARDIAN_NODE_LINK_SEMANTIC_ERROR_UNSUPPORTED
  | GUARDIAN_NODE_LINK_SEMANTIC_ERROR_HISTORICALLY_IMPOSSIBLE
  | GUARDIAN_NODE_LINK_SEMANTIC_ERROR_PROVIDER_UNAVAILABLE
  | GUARDIAN_NODE_LINK_SEMANTIC_ERROR_PROVIDER_FAILURE.

#[global] Instance guardian_node_link_compat_provider_result_t_eq_dec :
  EqDecision guardian_node_link_compat_provider_result_t.
Proof. solve_decision. Defined.
#[global] Instance guardian_node_link_semantic_result_t_eq_dec :
  EqDecision guardian_node_link_semantic_result_t.
Proof. solve_decision. Defined.

Definition zero_ref : list Z := replicate GUARDIAN_NODE_LINK_SEMANTIC_REF_CAPACITY 0.

Record guardian_node_link_semantic_binding_config_t := BINDING_CONFIG {
  bc_sender_node_id : Z;
  bc_producer_id : Z;
  bc_key_id : Z;
  bc_signature_algorithm : Z;
  bc_producer_semantic_profile_id : option (list Z)
}.

Record guardian_node_link_semantic_binding_t := BINDING {
  sb_sender_node_id : Z;
  sb_producer_id : Z;
  sb_key_id : Z;
  sb_signature_algorithm : Z;
  sb_producer_semantic_profile_id : list Z     (* char[96] *)
}.

Definition zero_binding : guardian_node_link_semantic_binding_t := BINDING 0 0 0 0 zero_ref.

(** The compatibility provider: it may fill the contract-id buffer. *)
Definition guardian_node_link_compatibility_fn (C W : Type) : Type :=
  C -> list Z -> list Z -> Z -> list Z -> W ->
  guardian_node_link_compat_provider_result_t * list Z * W.

Record guardian_node_link_semantic_config_t (C W : Type) := SEMANTIC_CONFIG {
  sc_context : option C;
  sc_resolve : option (guardian_node_link_compatibility_fn (option C) W);
  sc_consumer_semantic_profile_id : option (list Z);
  sc_bindings : option (list guardian_node_link_semantic_binding_config_t);
  sc_binding_count : nat
}.

Record guardian_node_link_semantic_resolver_t (C W : Type) := RESOLVER {
  sr_context : option C;
  sr_resolve : option (guardian_node_link_compatibility_fn (option C) W);
  sr_consumer_semantic_profile_id : list Z;
  sr_bindings : list guardian_node_link_semantic_binding_t;   (* bindings[8] *)
  sr_binding_count : nat;
  sr_configured : Z
}.

Arguments SEMANTIC_CONFIG {C W}.
Arguments sc_context {C W}.
Arguments sc_resolve {C W}.
Arguments sc_consumer_semantic_profile_id {C W}.
Arguments sc_bindings {C W}.
Arguments sc_binding_count {C W}.
Arguments RESOLVER {C W}.
Arguments sr_context {C W}.
Arguments sr_resolve {C W}.
Arguments sr_consumer_semantic_profile_id {C W}.
Arguments sr_bindings {C W}.
Arguments sr_binding_count {C W}.
Arguments sr_configured {C W}.

Record guardian_node_link_pre_freshness_compatible_message_t := COMPATIBLE_MESSAGE {
  cm_authenticated_message : guardian_node_link_authenticated_message_t;
  cm_producer_semantic_profile_id : list Z;
  cm_consumer_semantic_profile_id : list Z;
  cm_compatibility_contract_id : list Z
}.

Definition zero_compatible_message : guardian_node_link_pre_freshness_compatible_message_t :=
  COMPATIBLE_MESSAGE zero_authenticated_message zero_ref zero_ref zero_ref.

(** ** Reference snapshots *)

(** Returns 0 or 1 with the destination as it is left. *)
Definition guardian_node_link_semantic_snapshot_ref (destination : list Z)
    (destination_capacity : nat) (source : option (list Z)) : bool * list Z :=
  match source with
  | None => (false, destination)
  | Some source =>
      early (destination_capacity =? 0)%nat with (false, destination) ;;
      let length := ref_length source destination_capacity in
      early (length =? 0)%nat || (destination_capacity <=? length)%nat
        with (false, destination) ;;
      let destination := blit destination 0 (take length source) in
      (true, blit destination length [0])
  end.

(** ** Identity and results *)

Definition guardian_node_link_semantic_identity_equal
    (binding : option guardian_node_link_semantic_binding_t)
    (message : option guardian_node_link_authenticated_message_t) : bool :=
  match binding, message with
  | Some b, Some m =>
      (sb_sender_node_id b =? nl_sender_node_id (am_frame m))
      && (sb_producer_id b =? am_producer_id m)
      && (sb_key_id b =? am_key_id m)
      && (sb_signature_algorithm b =? am_signature_algorithm m)
  | _, _ => false
  end.

Definition guardian_node_link_semantic_map_provider_result
    (result : guardian_node_link_compat_provider_result_t)
  : guardian_node_link_semantic_result_t :=
  match result with
  | GUARDIAN_NODE_LINK_COMPAT_PROVIDER_COMPATIBLE => GUARDIAN_NODE_LINK_SEMANTIC_OK
  | GUARDIAN_NODE_LINK_COMPAT_PROVIDER_INCOMPATIBLE =>
      GUARDIAN_NODE_LINK_SEMANTIC_ERROR_INCOMPATIBLE
  | GUARDIAN_NODE_LINK_COMPAT_PROVIDER_UNKNOWN => GUARDIAN_NODE_LINK_SEMANTIC_ERROR_UNKNOWN
  | GUARDIAN_NODE_LINK_COMPAT_PROVIDER_UNSUPPORTED =>
      GUARDIAN_NODE_LINK_SEMANTIC_ERROR_UNSUPPORTED
  | GUARDIAN_NODE_LINK_COMPAT_PROVIDER_HISTORICALLY_IMPOSSIBLE =>
      GUARDIAN_NODE_LINK_SEMANTIC_ERROR_HISTORICALLY_IMPOSSIBLE
  | GUARDIAN_NODE_LINK_COMPAT_PROVIDER_CONTEXT_INCOMPLETE =>
      GUARDIAN_NODE_LINK_SEMANTIC_ERROR_CONTEXT_INCOMPLETE
  | GUARDIAN_NODE_LINK_COMPAT_PROVIDER_UNAVAILABLE =>
      GUARDIAN_NODE_LINK_SEMANTIC_ERROR_PROVIDER_UNAVAILABLE
  | GUARDIAN_NODE_LINK_COMPAT_PROVIDER_FAILURE
  | GUARDIAN_NODE_LINK_COMPAT_PROVIDER_OTHER _ =>
      GUARDIAN_NODE_LINK_SEMANTIC_ERROR_PROVIDER_FAILURE
  end.

(** The comparison of two bindings in the inner loop of the configuration. *)
Definition binding_identity_equal (x y : guardian_node_link_semantic_binding_t) : bool :=
  (sb_sender_node_id x =? sb_sender_node_id y)
  && (sb_producer_id x =? sb_producer_id y)
  && (sb_key_id x =? sb_key_id y)
  && (sb_signature_algorithm x =? sb_signature_algorithm y).

(** The outer loop from index [first] on: the error it returns, if any, and the
    bindings as they are left. *)
Fixpoint semantic_configure_bindings (first : nat)
    (sources : list guardian_node_link_semantic_binding_config_t)
    (bindings : list guardian_node_link_semantic_binding_t)
  : option guardian_node_link_semantic_result_t * list guardian_node_link_semantic_binding_t :=
  match sources with
  | [] => (None, bindings)
  | source :: rest =>
      let destination := nth first bindings zero_binding in
      early (bc_sender_node_id source =? 0) || (bc_producer_id source =? 0)
            || (bc_key_id source =? 0)
        with (Some GUARDIAN_NODE_LINK_SEMANTIC_ERROR_CONTEXT_INCOMPLETE, bindings) ;;
      early negb (bc_signature_algorithm source =? GUARDIAN_NODE_LINK_SIGNATURE_ED25519)
        with (Some GUARDIAN_NODE_LINK_SEMANTIC_ERROR_UNSUPPORTED, bindings) ;;
      let '(ok, ref) := guardian_node_link_semantic_snapshot_ref
                          (sb_producer_semantic_profile_id destination)
                          GUARDIAN_NODE_LINK_SEMANTIC_REF_CAPACITY
                          (bc_producer_semantic_profile_id source) in
      early negb ok
        with (Some GUARDIAN_NODE_LINK_SEMANTIC_ERROR_CONTEXT_INCOMPLETE, bindings) ;;
      let destination := BINDING (bc_sender_node_id source) (bc_producer_id source)
                           (bc_key_id source) (bc_signature_algorithm source) ref in
      let bindings := <[first := destination]> bindings in
      early existsb (fun existing => binding_identity_equal existing destination)
              (take first bindings)
        with (Some GUARDIAN_NODE_LINK_SEMANTIC_ERROR_BINDING_AMBIGUOUS, bindings) ;;
      semantic_configure_bindings (S first) rest bindings
  end.

Section semantic.
Context {C W : Type}.
Local Abbreviation config := (guardian_node_link_semantic_config_t C W).
Local Abbreviation resolver := (guardian_node_link_semantic_resolver_t C W).

Definition zero_resolver : resolver :=
  RESOLVER None None zero_ref
    (replicate GUARDIAN_NODE_LINK_SEMANTIC_MAX_BINDINGS zero_binding) 0 0.

Definition guardian_node_link_semantic_resolver_init (r : option resolver) : option resolver :=
  match r with None => None | Some _ => Some zero_resolver end.

Definition config_bindings (cfg : config) : list guardian_node_link_semantic_binding_config_t :=
  take (sc_binding_count cfg) (default [] (sc_bindings cfg)).

Definition guardian_node_link_semantic_resolver_configure (r : option resolver)
    (cfg : option config) : guardian_node_link_semantic_result_t * option resolver :=
  match r, cfg with
  | Some _, Some cfg =>
      let r0 := zero_resolver in
      early is_null (sc_resolve cfg)
        with (GUARDIAN_NODE_LINK_SEMANTIC_ERROR_UNCONFIGURED, Some r0) ;;
      early (GUARDIAN_NODE_LINK_SEMANTIC_MAX_BINDINGS <? sc_binding_count cfg)%nat
        with (GUARDIAN_NODE_LINK_SEMANTIC_ERROR_UNCONFIGURED, Some r0) ;;
      early (0 <? sc_binding_count cfg)%nat && is_null (sc_bindings cfg)
        with (GUARDIAN_NODE_LINK_SEMANTIC_ERROR_UNCONFIGURED, Some r0) ;;
      let '(ok, consumer) := guardian_node_link_semantic_snapshot_ref
                               (sr_consumer_semantic_profile_id r0)
                               GUARDIAN_NODE_LINK_SEMANTIC_REF_CAPACITY
                               (sc_consumer_semantic_profile_id cfg) in
      early negb ok
        with (GUARDIAN_NODE_LINK_SEMANTIC_ERROR_CONTEXT_INCOMPLETE, Some r0) ;;
      match semantic_configure_bindings 0 (config_bindings cfg) (sr_bindings r0) with
      | (Some err, bindings) => (err, Some (RESOLVER None None consumer bindings 0 0))
      | (None, bindings) =>
          (GUARDIAN_NODE_LINK_SEMANTIC_OK,
           Some (RESOLVER (sc_context cfg) (sc_resolve cfg) consumer bindings
                   (sc_binding_count cfg) 1))
      end
  | _, _ => (GUARDIAN_NODE_LINK_SEMANTIC_ERROR_NULL_ARGUMENT, r)
  end.

(** The matching loop: the last matching binding and the number of matches. *)
Definition semantic_match (r : resolver) (m : guardian_node_link_authenticated_message_t)
  : option guardian_node_link_semantic_binding_t * nat :=
  foldl (fun '(binding, match_count) b =>
           if guardian_node_link_semantic_identity_equal (Some b) (Some m)
           then (Some b, S match_count) else (binding, match_count))
    (None, 0%nat) (take (sr_binding_count r) (sr_bindings r)).

Definition guardian_node_link_resolve_pre_freshness_compatibility (r : option resolver)
    (authenticated_message : option guardian_node_link_authenticated_message_t)
    (compatible_message : option guardian_node_link_pre_freshness_compatible_message_t) (w : W)
  : guardian_node_link_semantic_result_t
    * option guardian_node_link_pre_freshness_compatible_message_t * W :=
  let out := match compatible_message with
             | None => None
             | Some _ => Some zero_compatible_message
             end in
  match r, authenticated_message, out with
  | Some re, Some m, Some cm =>
      match sr_resolve re with
      | None => (GUARDIAN_NODE_LINK_SEMANTIC_ERROR_UNCONFIGURED, out, w)
      | Some provider =>
          early sr_configured re =? 0
            with (GUARDIAN_NODE_LINK_SEMANTIC_ERROR_UNCONFIGURED, out, w) ;;
          let '(binding, match_count) := semantic_match re m in
          early (match_count =? 0)%nat
            with (GUARDIAN_NODE_LINK_SEMANTIC_ERROR_BINDING_MISSING, out, w) ;;
          early negb (match_count =? 1)%nat
            with (GUARDIAN_NODE_LINK_SEMANTIC_ERROR_BINDING_AMBIGUOUS, out, w) ;;
          let b := default zero_binding binding in
          let '(provider_result, contract_id, w) :=
            provider (sr_context re) (sb_producer_semantic_profile_id b)
              (sr_consumer_semantic_profile_id re) GUARDIAN_NODE_LINK_VERSION zero_ref w in
          let mapped_result :=
            guardian_node_link_semantic_map_provider_result provider_result in
          early negb (bool_decide (mapped_result = GUARDIAN_NODE_LINK_SEMANTIC_OK))
            with (mapped_result, out, w) ;;
          let '(ok, contract) := guardian_node_link_semantic_snapshot_ref
            (cm_compatibility_contract_id cm) GUARDIAN_NODE_LINK_SEMANTIC_REF_CAPACITY
            (Some contract_id) in
          early negb ok
            with (GUARDIAN_NODE_LINK_SEMANTIC_ERROR_PROVIDER_FAILURE,
                  Some zero_compatible_message, w) ;;
          let '(ok, producer) := guardian_node_link_semantic_snapshot_ref
            (cm_producer_semantic_profile_id cm) GUARDIAN_NODE_LINK_SEMANTIC_REF_CAPACITY
            (Some (sb_producer_semantic_profile_id b)) in
          early negb ok
            with (GUARDIAN_NODE_LINK_SEMANTIC_ERROR_PROVIDER_FAILURE,
                  Some zero_compatible_message, w) ;;
          let '(ok, consumer) := guardian_node_link_semantic_snapshot_ref
            (cm_consumer_semantic_profile_id cm) GUARDIAN_NODE_LINK_SEMANTIC_REF_CAPACITY
            (Some (sr_consumer_semantic_profile_id re)) in
          early negb ok
            with (GUARDIAN_NODE_LINK_SEMANTIC_ERROR_PROVIDER_FAILURE,
                  Some zero_compatible_message, w) ;;
          (GUARDIAN_NODE_LINK_SEMANTIC_OK,
           Some (COMPATIBLE_MESSAGE m producer consumer contract), w)
      end
  | _, _, _ => (GUARDIAN_NODE_LINK_SEMANTIC_ERROR_NULL_ARGUMENT, out, w)
  end.
End semantic.

(** ** Reference lemmas *)

(** A reference as the code stores it: a non-empty text shorter than the
    capacity, NUL-terminated and zero-filled. *)
Definition canonical_ref (l : list Z) : Prop :=
  exists text, l = text ++ replicate (GUARDIAN_NODE_LINK_SEMANTIC_REF_CAPACITY - length text) 0 /\
    text <> [] /\ (length text < GUARDIAN_NODE_LINK_SEMANTIC_REF_CAPACITY)%nat /\
    Forall (fun b => b <> 0) text.

(** A snapshot into a cleared array succeeds with a canonical reference. *)
Lemma snapshot_zero_spec src :
  let '(ok, ref) := guardian_node_link_semantic_snapshot_ref zero_ref
                      GUARDIAN_NODE_LINK_SEMANTIC_REF_CAPACITY (Some src) in
  if ok then canonical_ref ref /\
             ref = take (ref_length src 96) src ++ replicate (96 - ref_length src 96) 0
  else ref = zero_ref.
Proof.
  unfold guardian_node_link_semantic_snapshot_ref, GUARDIAN_NODE_LINK_SEMANTIC_REF_CAPACITY.
  cbn [Nat.eqb]. destruct (_ || _) eqn:E; [done|].
  apply orb_false_iff in E as [E1 E2]. apply Nat.eqb_neq in E1. apply Nat.leb_gt in E2.
  pose proof (ref_length_source src 96) as Hs.
  assert (Hl : length (take (ref_length src 96) src) = ref_length src 96)
    by (rewrite length_take; lia).
  assert (Href : blit (blit zero_ref 0 (take (ref_length src 96) src)) (ref_length src 96) [0]
    = take (ref_length src 96) src ++ replicate (96 - ref_length src 96) 0).
  { rewrite blit_blit_adjacent by (rewrite ?Hl; unfold zero_ref; lia).
    rewrite blit_0, length_app, Hl. cbn [length]. unfold zero_ref.
    rewrite drop_replicate, <- app_assoc. f_equal.
    unfold GUARDIAN_NODE_LINK_SEMANTIC_REF_CAPACITY.
    replace (96 - ref_length src 96)%nat with (S (96 - (ref_length src 96 + 1))) by lia. done. }
  rewrite Href. split; [|done]. exists (take (ref_length src 96) src).
  rewrite Hl. split; [done|]. split; [|split; [done|apply ref_length_nonzero]].
  intros Hnil. rewrite Hnil in Hl. by apply E1.
Qed.

Definition ref_of (text : list Z) : list Z := text ++ replicate (96 - length text) 0.

Lemma snapshot_zero_ok src :
  (guardian_node_link_semantic_snapshot_ref zero_ref GUARDIAN_NODE_LINK_SEMANTIC_REF_CAPACITY
     (Some src)).1 = true <-> (0 < ref_length src 96 < 96)%nat.
Proof.
  unfold guardian_node_link_semantic_snapshot_ref, GUARDIAN_NODE_LINK_SEMANTIC_REF_CAPACITY.
  cbn [Nat.eqb]. destruct (Nat.eqb_spec (ref_length src 96) 0), (Nat.leb_spec 96 (ref_length src 96));
    cbn [orb fst]; split; try done; lia.
Qed.

Lemma ref_of_text src :
  ref_of (take (ref_length src 96) src)
  = take (ref_length src 96) src ++ replicate (96 - ref_length src 96) 0.
Proof.
  unfold ref_of. rewrite length_take. pose proof (ref_length_source src 96). app_lia.
Qed.

(** A canonical reference is copied unchanged. *)
Lemma snapshot_canonical ref :
  canonical_ref ref ->
  guardian_node_link_semantic_snapshot_ref zero_ref GUARDIAN_NODE_LINK_SEMANTIC_REF_CAPACITY
    (Some ref) = (true, ref).
Proof.
  intros (text & -> & Hne & Hlen & Hnz). pose proof (snapshot_zero_spec
    (text ++ replicate (GUARDIAN_NODE_LINK_SEMANTIC_REF_CAPACITY - length text) 0)) as H.
  unfold guardian_node_link_semantic_snapshot_ref in *.
  unfold GUARDIAN_NODE_LINK_SEMANTIC_REF_CAPACITY in *. cbn [Nat.eqb] in *.
  rewrite ref_length_text in * by done.
  destruct text as [|x text]; [done|]. cbn [Nat.eqb length orb] in *.
  destruct (Nat.leb_spec 96 (S (length text))); [lia|].
  destruct H as [_ H]. rewrite H. f_equal.
  change (S (length text)) with (length (x :: text)). by rewrite take_app_length.
Qed.

(** ** The binding table *)

Definition identity : Type := Z * Z * Z * Z.
Definition binding_identity (b : guardian_node_link_semantic_binding_t) : identity :=
  (sb_sender_node_id b, sb_producer_id b, sb_key_id b, sb_signature_algorithm b).
Definition config_identity (c : guardian_node_link_semantic_binding_config_t) : identity :=
  (bc_sender_node_id c, bc_producer_id c, bc_key_id c, bc_signature_algorithm c).
Definition message_identity (m : guardian_node_link_authenticated_message_t) : identity :=
  (nl_sender_node_id (am_frame m), am_producer_id m, am_key_id m, am_signature_algorithm m).

Lemma binding_identity_equal_spec x y :
  binding_identity_equal x y = true <-> binding_identity x = binding_identity y.
Proof.
  unfold binding_identity_equal, binding_identity. rewrite !andb_true_iff, !Z.eqb_eq.
  split; [|by intros [= -> -> -> ->]]. by intros [[[-> ->] ->] ->].
Qed.

Lemma identity_equal_spec b m :
  guardian_node_link_semantic_identity_equal (Some b) (Some m) = true <->
  binding_identity b = message_identity m.
Proof.
  cbn. unfold binding_identity, message_identity. rewrite !andb_true_iff, !Z.eqb_eq.
  split; [|by intros [= -> -> -> ->]]. by intros [[[-> ->] ->] ->].
Qed.

(** The bindings of a table: canonical profiles, one binding per identity. *)
Definition table_ok (bs : list guardian_node_link_semantic_binding_t) : Prop :=
  Forall (fun b => canonical_ref (sb_producer_semantic_profile_id b)) bs /\
  NoDup (binding_identity <$> bs).

Lemma table_ok_snoc bs b :
  table_ok bs -> canonical_ref (sb_producer_semantic_profile_id b) ->
  existsb (fun x => binding_identity_equal x b) bs = false -> table_ok (bs ++ [b]).
Proof.
  intros [Hc Hn] Hb Hex. split; [by apply Forall_app_2; [|repeat constructor]|].
  rewrite fmap_app. apply NoDup_app. split; [done|]. split; [|apply NoDup_singleton].
  intros i Hi Hin. apply list_elem_of_singleton in Hin as ->.
  apply list_elem_of_fmap in Hi as (x & Hx & Hin). apply list_elem_of_In in Hin.
  assert (existsb (fun x => binding_identity_equal x b) bs = true); [|congruence].
  apply existsb_exists. exists x. by rewrite binding_identity_equal_spec.
Qed.

Lemma take_S_insert {A} (l : list A) i x :
  (i < length l)%nat -> take (S i) (<[i:=x]> l) = take i l ++ [x].
Proof.
  intros Hi. rewrite (take_S_r _ _ x) by (by apply list_lookup_insert_eq).
  by rewrite take_insert_ge.
Qed.

Lemma configure_bindings_spec sources : forall first bindings bindings',
  length bindings = GUARDIAN_NODE_LINK_SEMANTIC_MAX_BINDINGS ->
  (first + length sources <= GUARDIAN_NODE_LINK_SEMANTIC_MAX_BINDINGS)%nat ->
  Forall (eq zero_binding) (drop first bindings) -> table_ok (take first bindings) ->
  semantic_configure_bindings first sources bindings = (None, bindings') ->
  length bindings' = GUARDIAN_NODE_LINK_SEMANTIC_MAX_BINDINGS /\
  table_ok (take (first + length sources) bindings') /\
  binding_identity <$> take (first + length sources) bindings'
    = (binding_identity <$> take first bindings) ++ (config_identity <$> sources).
Proof.
  induction sources as [|s sources IH]; intros first bindings bindings' Hl Hle Hz Hok H.
  { injection H as <-. cbn [length]. rewrite Nat.add_0_r, app_nil_r. done. }
  cbn [length] in Hle. cbn [semantic_configure_bindings] in H.
  early_inv H E0. early_inv H E1.
  assert (Hn : nth first bindings zero_binding = zero_binding).
  { destruct (nth_in_or_default first bindings zero_binding) as [Hin|]; [|done].
    rewrite <- (take_drop first bindings), app_nth2; rewrite length_take; [|lia].
    replace (_ - _)%nat with 0%nat by lia. destruct Hz as [|? ? <- _]; done. }
  rewrite Hn in H. cbn [sb_producer_semantic_profile_id zero_binding] in H.
  destruct (bc_producer_semantic_profile_id s) as [src|] eqn:Es; [|discriminate H].
  pose proof (snapshot_zero_spec src) as Hsnap.
  destruct (guardian_node_link_semantic_snapshot_ref _ _ _) as [ok ref] eqn:Esnap.
  destruct ok; [|discriminate H]. cbn [negb] in H. destruct Hsnap as [Hcan _].
  early_inv H E2.
  assert (Hi : (first < length bindings)%nat) by lia.
  set (b := BINDING _ _ _ _ ref) in *.
  rewrite take_insert_ge in E2 by done.
  destruct (IH (S first) (<[first:=b]> bindings) bindings') as (Hl' & Hok' & Hid); try done.
  - by rewrite length_insert.
  - lia.
  - rewrite drop_insert_lt by lia.
    apply (Forall_drop _ 1) in Hz. by rewrite drop_drop, Nat.add_1_r in Hz.
  - rewrite take_S_insert by done. by apply table_ok_snoc.
  - cbn [length]. replace (first + S (length sources))%nat
      with (S first + length sources)%nat by lia.
    split; [done|]. split; [done|].
    rewrite Hid, take_S_insert, fmap_app, <- app_assoc by exact Hi. reflexivity.
Qed.

Section resolver.
Context {C W : Type}.
Local Abbreviation resolver := (guardian_node_link_semantic_resolver_t C W).

(** A configured resolver. *)
Record resolver_ok (r : resolver) : Prop := {
  ro_configured : sr_configured r <> 0;
  ro_provider : is_Some (sr_resolve r);
  ro_consumer : canonical_ref (sr_consumer_semantic_profile_id r);
  ro_table : table_ok (take (sr_binding_count r) (sr_bindings r))
}.

Lemma configure_bindings_not_ok sources : forall first bindings e bindings',
  semantic_configure_bindings first sources bindings = (Some e, bindings') ->
  e <> GUARDIAN_NODE_LINK_SEMANTIC_OK.
Proof.
  induction sources as [|s sources IH]; intros first bindings e bindings' H; [done|].
  cbn [semantic_configure_bindings] in H.
  destruct (_ || _ || _); [by injection H as <-|].
  destruct (negb _); [by injection H as <-|].
  destruct (guardian_node_link_semantic_snapshot_ref _ _ _) as [ok ref].
  destruct (negb ok); [by injection H as <-|].
  destruct (existsb _ _); [by injection H as <-|]. by eapply IH.
Qed.

Lemma configure_ok (r r' : resolver) (cfg : guardian_node_link_semantic_config_t C W) :
  length (config_bindings cfg) = sc_binding_count cfg ->
  guardian_node_link_semantic_resolver_configure (Some r) (Some cfg)
    = (GUARDIAN_NODE_LINK_SEMANTIC_OK, Some r') ->
  resolver_ok r' /\
  binding_identity <$> take (sr_binding_count r') (sr_bindings r')
    = config_identity <$> config_bindings cfg.
Proof.
  intros Hlen H. unfold guardian_node_link_semantic_resolver_configure in H.
  early_inv H E0. early_inv H E1. early_inv H E2.
  destruct (sc_consumer_semantic_profile_id cfg) as [src|]; [|discriminate H].
  pose proof (snapshot_zero_spec src) as Hs.
  destruct (guardian_node_link_semantic_snapshot_ref _ _ _) as [[|] consumer]; [|discriminate H].
  cbn [negb] in H. destruct Hs as [Hcan _].
  destruct (semantic_configure_bindings _ _ _) as [[e|] bindings'] eqn:E.
  { injection H as ->. by apply configure_bindings_not_ok in E. }
  injection H as <-. apply Nat.ltb_ge in E1. apply is_null_false in E0.
  destruct (configure_bindings_spec (config_bindings cfg) 0 (sr_bindings (C:=C) (W:=W) zero_resolver)
    bindings') as (Hl & Hok & Hid).
  - done.
  - by rewrite Hlen.
  - by repeat constructor.
  - split; constructor.
  - done.
  - rewrite Nat.add_0_l, Hlen in Hok, Hid. by split.
Qed.

(** The matching loop counts the bindings with the message's identity. *)
Lemma semantic_match_spec (r : resolver) m :
  semantic_match r m
  = let ms := filter (fun b => binding_identity b = message_identity m)
                (take (sr_binding_count r) (sr_bindings r)) in
    (last ms, length ms).
Proof.
  unfold semantic_match. cbv zeta.
  induction (take (sr_binding_count r) (sr_bindings r)) as [|b l IH] using rev_ind; [done|].
  rewrite foldl_app, IH. cbn [foldl].
  rewrite filter_app, filter_cons, filter_nil.
  destruct (guardian_node_link_semantic_identity_equal (Some b) (Some m)) eqn:E.
  - apply identity_equal_spec in E. rewrite decide_True by done.
    rewrite last_snoc, length_app. cbn [length]. f_equal. lia.
  - rewrite decide_False; [by rewrite app_nil_r|].
    intros Hid. apply identity_equal_spec in Hid. congruence.
Qed.
(** A table without duplicate identities has at most one match. *)
Lemma filter_identity_nodup bs i :
  NoDup (binding_identity <$> bs) ->
  filter (fun b => binding_identity b = i) bs = [] \/
  exists b, filter (fun b => binding_identity b = i) bs = [b] /\ In b bs /\
    binding_identity b = i.
Proof.
  induction bs as [|x bs IH]; [by left|]. cbn [fmap list_fmap]. rewrite NoDup_cons.
  intros [Hx Hn]. rewrite filter_cons. destruct (decide (binding_identity x = i)) as [Hi|Hi].
  - right. exists x. split; [|by split; [left|]]. f_equal.
    destruct (IH Hn) as [->|(b & Hf & Hin & Hb)]; [done|]. exfalso. apply Hx.
    rewrite Hi, <- Hb. apply list_elem_of_fmap_2. by apply list_elem_of_In.
  - destruct (IH Hn) as [->|(b & -> & Hin & Hb)]; [by left|]. right. exists b.
    split; [done|]. by split; [right|].
Qed.

Lemma map_provider_ok r :
  guardian_node_link_semantic_map_provider_result r = GUARDIAN_NODE_LINK_SEMANTIC_OK <->
  r = GUARDIAN_NODE_LINK_COMPAT_PROVIDER_COMPATIBLE.
Proof. by destruct r. Qed.

(** Resolution in a configured resolver. *)
Lemma resolve_eq (r : resolver) provider m cm w :
  resolver_ok r -> sr_resolve r = Some provider ->
  guardian_node_link_resolve_pre_freshness_compatibility (Some r) (Some m) (Some cm) w
  = match filter (fun b => binding_identity b = message_identity m)
            (take (sr_binding_count r) (sr_bindings r)) with
    | b :: _ =>
        let '(v, contract_id, w') :=
          provider (sr_context r) (sb_producer_semantic_profile_id b)
            (sr_consumer_semantic_profile_id r) GUARDIAN_NODE_LINK_VERSION zero_ref w in
        let '(ok, contract) := guardian_node_link_semantic_snapshot_ref zero_ref
          GUARDIAN_NODE_LINK_SEMANTIC_REF_CAPACITY (Some contract_id) in
        if decide (v = GUARDIAN_NODE_LINK_COMPAT_PROVIDER_COMPATIBLE) then
          if ok then
            (GUARDIAN_NODE_LINK_SEMANTIC_OK,
             Some (COMPATIBLE_MESSAGE m (sb_producer_semantic_profile_id b)
                     (sr_consumer_semantic_profile_id r) contract), w')
          else (GUARDIAN_NODE_LINK_SEMANTIC_ERROR_PROVIDER_FAILURE,
                Some zero_compatible_message, w')
        else (guardian_node_link_semantic_map_provider_result v,
              Some zero_compatible_message, w')
    | [] => (GUARDIAN_NODE_LINK_SEMANTIC_ERROR_BINDING_MISSING,
             Some zero_compatible_message, w)
    end.
Proof.
  intros [Hc _ Hcons [Hcan Hn]] Hp.
  unfold guardian_node_link_resolve_pre_freshness_compatibility. rewrite Hp.
  replace (sr_configured r =? 0) with false by (symmetry; by apply Z.eqb_neq).
  rewrite semantic_match_spec. cbv zeta.
  destruct (filter_identity_nodup _ (message_identity m) Hn) as [->|(b & -> & Hin & _)]; [done|].
  cbn [last length Nat.eqb negb from_option id].
  destruct (provider _ _ _ _ _ _) as [[v contract_id] w'].
  cbn [cm_compatibility_contract_id cm_producer_semantic_profile_id
       cm_consumer_semantic_profile_id zero_compatible_message].
  rewrite (snapshot_canonical (sr_consumer_semantic_profile_id r)) by done.
  rewrite (snapshot_canonical (sb_producer_semantic_profile_id b))
    by (rewrite List.Forall_forall in Hcan; by apply Hcan).
  destruct (guardian_node_link_semantic_snapshot_ref _ _ (Some contract_id)) as [[|] contract];
    case_decide as Hv; try (rewrite Hv); try done; by destruct v.
Qed.
End resolver.

(** ** Properties *)

(** A provider for the examples: it knows one contract, "C1". *)
Definition example_compat : guardian_node_link_compatibility_fn (option unit) nat :=
  fun _ producer consumer version buffer calls =>
    (if (byte_at producer 0 =? 80) && (byte_at consumer 0 =? 81)
     then GUARDIAN_NODE_LINK_COMPAT_PROVIDER_COMPATIBLE
     else GUARDIAN_NODE_LINK_COMPAT_PROVIDER_INCOMPATIBLE,
     blit buffer 0 [67; 49; 0], S calls).

Definition example_semantic_config : guardian_node_link_semantic_config_t unit nat :=
  SEMANTIC_CONFIG None (Some example_compat) (Some [81; 0])
    (Some [BINDING_CONFIG 0x4002 2 21 1 (Some [80; 49; 0]);
           BINDING_CONFIG 0x4003 3 31 1 (Some [80; 50; 0])]) 2.

Definition example_resolver : guardian_node_link_semantic_resolver_t unit nat :=
  default zero_resolver
    (guardian_node_link_semantic_resolver_configure (Some zero_resolver)
       (Some example_semantic_config)).2.

Definition example_auth_message : guardian_node_link_authenticated_message_t :=
  AUTH_MESSAGE example_nl_frame 2 21 1.

(** Configuration gives every identity at most one semantic profile, and
    resolution then passes on exactly what was authenticated.  After a
    successful configuration (from an array holding the announced number of
    bindings) the table lists the configured identities without duplicates;
    resolving a message answers MISSING when its identity is not listed,
    otherwise asks the provider about the profile bound to that identity, and
    succeeds exactly when the provider answers COMPATIBLE with a non-empty
    terminated contract id, handing on the authenticated message, the two
    profiles and the contract; it never finds an ambiguity, and every failure
    clears the output. *)
Theorem semantic_resolution {C W : Type} (r r' : guardian_node_link_semantic_resolver_t C W)
    cfg m cm w :
  length (config_bindings cfg) = sc_binding_count cfg ->
  guardian_node_link_semantic_resolver_configure (Some r) (Some cfg)
    = (GUARDIAN_NODE_LINK_SEMANTIC_OK, Some r') ->
  let bs := take (sr_binding_count r') (sr_bindings r') in
  binding_identity <$> bs = config_identity <$> config_bindings cfg /\
  NoDup (binding_identity <$> bs) /\
  let '(res, out, w') :=
    guardian_node_link_resolve_pre_freshness_compatibility (Some r') (Some m) (Some cm) w in
  (res = GUARDIAN_NODE_LINK_SEMANTIC_OK <->
     exists provider b contract_id,
       sr_resolve r' = Some provider /\ In b bs /\ binding_identity b = message_identity m /\
       provider (sr_context r') (sb_producer_semantic_profile_id b)
         (sr_consumer_semantic_profile_id r') GUARDIAN_NODE_LINK_VERSION zero_ref w
       = (GUARDIAN_NODE_LINK_COMPAT_PROVIDER_COMPATIBLE, contract_id, w') /\
       (0 < ref_length contract_id 96 < 96)%nat /\
       out = Some (COMPATIBLE_MESSAGE m (sb_producer_semantic_profile_id b)
                     (sr_consumer_semantic_profile_id r')
                     (ref_of (take (ref_length contract_id 96) contract_id)))) /\
  res <> GUARDIAN_NODE_LINK_SEMANTIC_ERROR_BINDING_AMBIGUOUS /\
  (res <> GUARDIAN_NODE_LINK_SEMANTIC_OK -> out = Some zero_compatible_message) /\
  (message_identity m ∉ (config_identity <$> config_bindings cfg) ->
     res = GUARDIAN_NODE_LINK_SEMANTIC_ERROR_BINDING_MISSING /\ w' = w).
Proof.
  intros Hlen Hcfg bs. destruct (configure_ok r r' cfg Hlen Hcfg) as [Hok Hids].
  fold bs in Hids. pose proof (ro_table r' Hok) as [_ Hnd]. fold bs in Hnd.
  split; [done|]. split; [done|].
  destruct (ro_provider r' Hok) as [provider Hp].
  rewrite (resolve_eq r' provider m cm w Hok Hp). fold bs.
  destruct (filter_identity_nodup bs (message_identity m) Hnd) as [Hf|(b & Hf & Hin & Hb)];
    rewrite Hf.
  - assert (Hno : forall b, In b bs -> binding_identity b <> message_identity m).
    { intros b Hin Hb. eapply filter_nil_not_elem_of;
        [exact Hf|exact Hb|by apply list_elem_of_In]. }
    split; [|done]. split; [done|]. intros (p & b & c & _ & Hin & Hb & _). by destruct (Hno b).
  - assert (Hel : message_identity m ∈ (config_identity <$> config_bindings cfg)).
    { rewrite <- Hids, <- Hb. apply list_elem_of_fmap_2. by apply list_elem_of_In. }
    destruct (provider _ _ _ _ _ _) as [[v contract_id] w1] eqn:Ev.
    pose proof (snapshot_zero_spec contract_id) as Hs.
    pose proof (snapshot_zero_ok contract_id) as Hsok.
    destruct (guardian_node_link_semantic_snapshot_ref _ _ _) as [ok contract].
    (* any other claim of success is about the same binding and the same answer *)
    assert (Huniq : forall p b' c w2, sr_resolve r' = Some p -> In b' bs ->
      binding_identity b' = message_identity m ->
      p (sr_context r') (sb_producer_semantic_profile_id b')
        (sr_consumer_semantic_profile_id r') GUARDIAN_NODE_LINK_VERSION zero_ref w
      = (GUARDIAN_NODE_LINK_COMPAT_PROVIDER_COMPATIBLE, c, w2) ->
      v = GUARDIAN_NODE_LINK_COMPAT_PROVIDER_COMPATIBLE /\ contract_id = c).
    { intros p b' c w2 Hp' Hin' Hb' Hc. assert (b' ∈ [b]) as H.
      { rewrite <- Hf. apply list_elem_of_filter. split; [done|by apply list_elem_of_In]. }
      apply list_elem_of_singleton in H as ->. rewrite Hp in Hp'. injection Hp' as <-.
      rewrite Ev in Hc. by injection Hc as -> -> _. }
    cbn [fst] in Hsok.
    destruct (decide (v = _)) as [->|Hv]; [destruct ok|].
    + split; [|done]. split; [|done]. intros _. exists provider, b, contract_id.
      destruct Hs as [_ ->]. rewrite <- ref_of_text.
      by repeat split; try apply Hsok.
    + split; [|done]. split; [done|].
      intros (p & b' & c & Hp' & Hin' & Hb' & Hc & Hlen' & _).
      destruct (Huniq p b' c w1) as [_ ->]; try done. by apply Hsok in Hlen'.
    + split; [|split; [by destruct v|done]]. split.
      * intros Hm. by apply map_provider_ok in Hm.
      * intros (p & b' & c & Hp' & Hin' & Hb' & Hc & _). by destruct (Huniq p b' c w1).
Qed.

Lemma semantic_resolution_witness :
  (guardian_node_link_resolve_pre_freshness_compatibility (Some example_resolver)
     (Some example_auth_message) (Some zero_compatible_message) 0%nat).1.1
    = GUARDIAN_NODE_LINK_SEMANTIC_OK /\
  NoDup (binding_identity <$> take (sr_binding_count example_resolver)
                                (sr_bindings example_resolver)).
Proof.
  split; [vm_compute; reflexivity|].
  refine (proj1 (proj2 (semantic_resolution zero_resolver example_resolver example_semantic_config
    example_auth_message zero_compatible_message 0%nat eq_refl _))).
  vm_compute. reflexivity.
Defined.
