(* ===== verification/Freshness.v ===== *)
(** * Session freshness

    Model of [firmware/NodeLink/Src/guardian_node_link_freshness.c]: the
    freshness runtime of one peer, its structural validation, the evaluation of
    an authenticated and compatible message against it, the application of an
    accepted message, and the classification of a persisted record; with the
    data of [guardian_node_link_freshness_persistence.h] it refers to. *)

From Stdlib Require Import Sorting.Sorted ZifyBool.
From S2P Require Import Prelude CString NodeLink NodeLinkAuth NodeLinkSemantic.

(** ** Data *)

Inductive guardian_node_link_freshness_condition_t :=
  | GUARDIAN_NODE_LINK_FRESHNESS_UNINITIALIZED
  | GUARDIAN_NODE_LINK_FRESHNESS_ACTIVE
  | GUARDIAN_NODE_LINK_FRESHNESS_UNKNOWN
  | GUARDIAN_NODE_LINK_FRESHNESS_REJOIN_REQUIRED
  | GUARDIAN_NODE_LINK_FRESHNESS_SESSION_REPLACEMENT_REQUIRED
  | GUARDIAN_NODE_LINK_FRESHNESS_CONDITION_OTHER (v : Z).

Inductive guardian_node_link_freshness_result_t :=
  | GUARDIAN_NODE_LINK_FRESHNESS_OK
  | GUARDIAN_NODE_LINK_FRESHNESS_ERROR_NULL_ARGUMENT
  | GUARDIAN_NODE_LINK_FRESHNESS_ERROR_INVALID_CONDITION
  | GUARDIAN_NODE_LINK_FRESHNESS_ERROR_INVALID_STATE
  | GUARDIAN_NODE_LINK_FRESHNESS_ERROR_INVALID_POLICY
  | GUARDIAN_NODE_LINK_FRESHNESS_ERROR_INVALID_MESSAGE
  | GUARDIAN_NODE_LINK_FRESHNESS_ERROR_INVALID_EVALUATION.

Inductive guardian_node_link_freshness_decision_t :=
  | GUARDIAN_NODE_LINK_FRESHNESS_DECISION_INVALID
  | GUARDIAN_NODE_LINK_FRESHNESS_DECISION_ACCEPT
  | GUARDIAN_NODE_LINK_FRESHNESS_DECISION_OBSERVE_ONLY
  | GUARDIAN_NODE_LINK_FRESHNESS_DECISION_REPLAY_DUPLICATE
  | GUARDIAN_NODE_LINK_FRESHNESS_DECISION_REPLAY_REGRESSION
  | GUARDIAN_NODE_LINK_FRESHNESS_DECISION_FORWARD_GAP_EXCEEDED
  | GUARDIAN_NODE_LINK_FRESHNESS_DECISION_EPOCH_TRANSITION_REQUIRED
  | GUARDIAN_NODE_LINK_FRESHNESS_DECISION_SESSION_REPLACEMENT_REQUIRED
  | GUARDIAN_NODE_LINK_FRESHNESS_DECISION_IDENTITY_MISMATCH
  | GUARDIAN_NODE_LINK_FRESHNESS_DECISION_STATE_BLOCKED.

#[global] Instance guardian_node_link_freshness_condition_t_eq_dec :
  EqDecision guardian_node_link_freshness_condition_t.
Proof. solve_decision. Defined.
#[global] Instance guardian_node_link_freshness_result_t_eq_dec :
  EqDecision guardian_node_link_freshness_result_t.
Proof. solve_decision. Defined.
#[global] Instance guardian_node_link_freshness_decision_t_eq_dec :
  EqDecision guardian_node_link_freshness_decision_t.
Proof. solve_decision. Defined.

Record guardian_node_link_freshness_identity_t := FRESHNESS_IDENTITY {
  fi_sender_node_id : Z;
  fi_producer_id : Z;
  fi_key_id : Z;
  fi_signature_algorithm : Z;
  fi_producer_semantic_profile_id : list Z;
  fi_consumer_semantic_profile_id : list Z;
  fi_compatibility_contract_id : list Z
}.

#[global] Instance guardian_node_link_freshness_identity_t_eq_dec :
  EqDecision guardian_node_link_freshness_identity_t.
Proof. solve_decision. Defined.

Definition zero_identity : guardian_node_link_freshness_identity_t :=
  FRESHNESS_IDENTITY 0 0 0 0 zero_ref zero_ref zero_ref.

Record guardian_node_link_freshness_runtime_t := RUNTIME {
  rt_condition : guardian_node_link_freshness_condition_t;
  rt_identity : guardian_node_link_freshness_identity_t;
  rt_observed_epoch : Z;
  rt_observed_sequence : Z;
  rt_accepted_epoch : Z;
  rt_accepted_sequence : Z;
  rt_identity_valid : Z;
  rt_observation_valid : Z;
  rt_accepted_epoch_valid : Z;
  rt_accepted_sequence_valid : Z
}.

Record guardian_node_link_freshness_policy_t := POLICY {
  pol_max_forward_gap : Z;
  pol_configured : Z
}.

Record guardian_node_link_freshness_evaluation_t := EVALUATION {
  ev_decision : guardian_node_link_freshness_decision_t;
  ev_identity : guardian_node_link_freshness_identity_t;
  ev_observed_epoch : Z;
  ev_observed_sequence : Z;
  ev_prior_condition : guardian_node_link_freshness_condition_t;
  ev_prior_observed_epoch : Z;
  ev_prior_observed_sequence : Z;
  ev_prior_accepted_epoch : Z;
  ev_prior_accepted_sequence : Z;
  ev_evaluated_max_forward_gap : Z;
  ev_prior_observation_valid : Z;
  ev_prior_accepted_epoch_valid : Z;
  ev_prior_accepted_sequence_valid : Z;
  ev_transition_applied : Z
}.

Definition zero_evaluation : guardian_node_link_freshness_evaluation_t :=
  EVALUATION GUARDIAN_NODE_LINK_FRESHNESS_DECISION_INVALID zero_identity 0 0
    GUARDIAN_NODE_LINK_FRESHNESS_UNINITIALIZED 0 0 0 0 0 0 0 0 0.

Definition GUARDIAN_NODE_LINK_FRESHNESS_PERSISTENCE_SCHEMA_VERSION : Z := 1.

Inductive guardian_node_link_freshness_persistence_status_t :=
  | GUARDIAN_NODE_LINK_PERSISTENCE_STATUS_INVALID
  | GUARDIAN_NODE_LINK_PERSISTENCE_STATUS_VALID_PERSISTED_STATE
  | GUARDIAN_NODE_LINK_PERSISTENCE_STATUS_NO_PERSISTED_STATE
  | GUARDIAN_NODE_LINK_PERSISTENCE_STATUS_CORRUPTED_STATE
  | GUARDIAN_NODE_LINK_PERSISTENCE_STATUS_TORN_OR_INCOMPLETE_UPDATE
  | GUARDIAN_NODE_LINK_PERSISTENCE_STATUS_ROLLBACK_SUSPECTED
  | GUARDIAN_NODE_LINK_PERSISTENCE_STATUS_UNAVAILABLE_STATE
  | GUARDIAN_NODE_LINK_PERSISTENCE_STATUS_OTHER (v : Z).

Inductive guardian_node_link_freshness_persistence_classification_t :=
  | GUARDIAN_NODE_LINK_PERSISTENCE_CLASSIFICATION_INVALID
  | GUARDIAN_NODE_LINK_PERSISTENCE_CLASSIFICATION_VALIDATED_RECORD_CANDIDATE
  | GUARDIAN_NODE_LINK_PERSISTENCE_CLASSIFICATION_NO_STATE_BOOTSTRAP
  | GUARDIAN_NODE_LINK_PERSISTENCE_CLASSIFICATION_FRESHNESS_UNKNOWN.

#[global] Instance guardian_node_link_freshness_persistence_status_t_eq_dec :
  EqDecision guardian_node_link_freshness_persistence_status_t.
Proof. solve_decision. Defined.
#[global] Instance guardian_node_link_freshness_persistence_classification_t_eq_dec :
  EqDecision guardian_node_link_freshness_persistence_classification_t.
Proof. solve_decision. Defined.

Record guardian_node_link_freshness_persisted_record_t := RECORD {
  rec_schema_version : Z;
  rec_identity : guardian_node_link_freshness_identity_t;
  rec_accepted_epoch : Z;
  rec_accepted_sequence : Z;
  rec_record_generation : Z
}.

#[global] Instance guardian_node_link_freshness_persisted_record_t_eq_dec :
  EqDecision guardian_node_link_freshness_persisted_record_t.
Proof. solve_decision. Defined.

Definition zero_record : guardian_node_link_freshness_persisted_record_t :=
  RECORD 0 zero_identity 0 0 0.

(** ** Structural validation *)

Definition guardian_node_link_freshness_ref_valid (reference : option (list Z)) (capacity : nat)
  : bool :=
  match reference with
  | None => false
  | Some reference =>
      early (capacity =? 0)%nat with false ;;
      let length := ref_length reference capacity in
      early (length =? 0)%nat || (capacity <=? length)%nat with false ;;
      true
  end.

Definition guardian_node_link_freshness_condition_valid
    (condition : guardian_node_link_freshness_condition_t) : bool :=
  match condition with
  | GUARDIAN_NODE_LINK_FRESHNESS_UNINITIALIZED
  | GUARDIAN_NODE_LINK_FRESHNESS_ACTIVE
  | GUARDIAN_NODE_LINK_FRESHNESS_UNKNOWN
  | GUARDIAN_NODE_LINK_FRESHNESS_REJOIN_REQUIRED
  | GUARDIAN_NODE_LINK_FRESHNESS_SESSION_REPLACEMENT_REQUIRED => true
  | GUARDIAN_NODE_LINK_FRESHNESS_CONDITION_OTHER _ => false
  end.

Definition guardian_node_link_freshness_runtime_init
    (runtime : option guardian_node_link_freshness_runtime_t)
  : option guardian_node_link_freshness_runtime_t :=
  match runtime with
  | None => None
  | Some _ => Some (RUNTIME GUARDIAN_NODE_LINK_FRESHNESS_UNINITIALIZED zero_identity 0 0 0 0 0 0 0 0)
  end.

(** A reference field of the structure: 96 bytes. *)
Definition field_ref_valid (reference : list Z) : bool :=
  guardian_node_link_freshness_ref_valid (Some reference) GUARDIAN_NODE_LINK_SEMANTIC_REF_CAPACITY.

Definition guardian_node_link_freshness_runtime_validate
    (runtime : option guardian_node_link_freshness_runtime_t)
  : guardian_node_link_freshness_result_t :=
  match runtime with
  | None => GUARDIAN_NODE_LINK_FRESHNESS_ERROR_NULL_ARGUMENT
  | Some r =>
      early negb (guardian_node_link_freshness_condition_valid (rt_condition r))
        with GUARDIAN_NODE_LINK_FRESHNESS_ERROR_INVALID_CONDITION ;;
      early (1 <? rt_identity_valid r) || (1 <? rt_observation_valid r)
            || (1 <? rt_accepted_epoch_valid r) || (1 <? rt_accepted_sequence_valid r)
        with GUARDIAN_NODE_LINK_FRESHNESS_ERROR_INVALID_STATE ;;
      early (negb (rt_observation_valid r =? 0) || negb (rt_accepted_epoch_valid r =? 0)
             || negb (rt_accepted_sequence_valid r =? 0)) && (rt_identity_valid r =? 0)
        with GUARDIAN_NODE_LINK_FRESHNESS_ERROR_INVALID_STATE ;;
      early negb (rt_identity_valid r =? 0) &&
            ((fi_sender_node_id (rt_identity r) =? 0) || (fi_producer_id (rt_identity r) =? 0)
             || (fi_key_id (rt_identity r) =? 0)
             || negb (fi_signature_algorithm (rt_identity r) =? GUARDIAN_NODE_LINK_SIGNATURE_ED25519))
        with GUARDIAN_NODE_LINK_FRESHNESS_ERROR_INVALID_STATE ;;
      early negb (rt_identity_valid r =? 0) &&
            negb (field_ref_valid (fi_producer_semantic_profile_id (rt_identity r)))
        with GUARDIAN_NODE_LINK_FRESHNESS_ERROR_INVALID_STATE ;;
      early negb (rt_identity_valid r =? 0) &&
            negb (field_ref_valid (fi_consumer_semantic_profile_id (rt_identity r)))
        with GUARDIAN_NODE_LINK_FRESHNESS_ERROR_INVALID_STATE ;;
      early negb (rt_identity_valid r =? 0) &&
            negb (field_ref_valid (fi_compatibility_contract_id (rt_identity r)))
        with GUARDIAN_NODE_LINK_FRESHNESS_ERROR_INVALID_STATE ;;
      early negb (rt_observation_valid r =? 0) && (rt_observed_sequence r =? 0)
        with GUARDIAN_NODE_LINK_FRESHNESS_ERROR_INVALID_STATE ;;
      early negb (rt_accepted_epoch_valid r =? 0) && (rt_accepted_epoch r =? 0)
        with GUARDIAN_NODE_LINK_FRESHNESS_ERROR_INVALID_STATE ;;
      early negb (rt_accepted_sequence_valid r =? 0) && (rt_accepted_sequence r =? 0)
        with GUARDIAN_NODE_LINK_FRESHNESS_ERROR_INVALID_STATE ;;
      if bool_decide (rt_condition r = GUARDIAN_NODE_LINK_FRESHNESS_UNINITIALIZED) then
        early negb (rt_accepted_epoch_valid r =? 0) || negb (rt_accepted_sequence_valid r =? 0)
          with GUARDIAN_NODE_LINK_FRESHNESS_ERROR_INVALID_STATE ;;
        GUARDIAN_NODE_LINK_FRESHNESS_OK
      else
        early negb (rt_accepted_sequence_valid r =? 0) && (rt_accepted_epoch_valid r =? 0)
          with GUARDIAN_NODE_LINK_FRESHNESS_ERROR_INVALID_STATE ;;
        early bool_decide (rt_condition r = GUARDIAN_NODE_LINK_FRESHNESS_ACTIVE) &&
              ((rt_identity_valid r =? 0) || (rt_accepted_epoch_valid r =? 0)
               || (rt_accepted_sequence_valid r =? 0) || (rt_accepted_sequence r =? 0))
          with GUARDIAN_NODE_LINK_FRESHNESS_ERROR_INVALID_STATE ;;
        GUARDIAN_NODE_LINK_FRESHNESS_OK
  end.

(** ** Identities *)

(** Returns 0 or 1 with the destination as it is left; the copying loop stops at
    the terminator or one byte before the end. *)
Definition guardian_node_link_freshness_copy_ref (destination : list Z)
    (destination_capacity : nat) (source : option (list Z)) : bool * list Z :=
  match source with
  | None => (false, destination)
  | Some src =>
      early (destination_capacity =? 0)%nat with (false, destination) ;;
      early negb (guardian_node_link_freshness_ref_valid source destination_capacity)
        with (false, destination) ;;
      let destination := blit destination 0 (replicate destination_capacity 0) in
      let index := ref_length src (destination_capacity - 1) in
      let destination := blit destination 0 (take index src) in
      (true, blit destination index [0])
  end.

Definition guardian_node_link_freshness_identity_equal
    (left right : option guardian_node_link_freshness_identity_t) : bool :=
  match left, right with
  | Some l, Some r =>
      early negb (fi_sender_node_id l =? fi_sender_node_id r)
            || negb (fi_producer_id l =? fi_producer_id r)
            || negb (fi_key_id l =? fi_key_id r)
            || negb (fi_signature_algorithm l =? fi_signature_algorithm r)
        with false ;;
      early negb (strncmp_eq (fi_producer_semantic_profile_id l)
                    (fi_producer_semantic_profile_id r)
                    GUARDIAN_NODE_LINK_SEMANTIC_REF_CAPACITY) with false ;;
      early negb (strncmp_eq (fi_consumer_semantic_profile_id l)
                    (fi_consumer_semantic_profile_id r)
                    GUARDIAN_NODE_LINK_SEMANTIC_REF_CAPACITY) with false ;;
      early negb (strncmp_eq (fi_compatibility_contract_id l)
                    (fi_compatibility_contract_id r)
                    GUARDIAN_NODE_LINK_SEMANTIC_REF_CAPACITY) with false ;;
      true
  | _, _ => false
  end.

Definition guardian_node_link_freshness_identity_structurally_valid
    (identity : option guardian_node_link_freshness_identity_t) : bool :=
  match identity with
  | None => false
  | Some i =>
      early (fi_sender_node_id i =? 0) || (fi_producer_id i =? 0) || (fi_key_id i =? 0)
            || negb (fi_signature_algorithm i =? GUARDIAN_NODE_LINK_SIGNATURE_ED25519)
        with false ;;
      early negb (field_ref_valid (fi_producer_semantic_profile_id i)) with false ;;
      early negb (field_ref_valid (fi_consumer_semantic_profile_id i)) with false ;;
      early negb (field_ref_valid (fi_compatibility_contract_id i)) with false ;;
      true
  end.

(** ** Classification of a persisted record *)

Definition guardian_node_link_freshness_persistence_classify
    (provider_status : guardian_node_link_freshness_persistence_status_t)
    (record : option guardian_node_link_freshness_persisted_record_t)
    (expected_identity : option guardian_node_link_freshness_identity_t)
    (classification : option guardian_node_link_freshness_persistence_classification_t)
  : guardian_node_link_freshness_result_t
    * option guardian_node_link_freshness_persistence_classification_t :=
  let classification :=
    match classification with
    | None => None
    | Some _ => Some GUARDIAN_NODE_LINK_PERSISTENCE_CLASSIFICATION_INVALID
    end in
  early is_null expected_identity || is_null classification
    with (GUARDIAN_NODE_LINK_FRESHNESS_ERROR_NULL_ARGUMENT, classification) ;;
  early negb (guardian_node_link_freshness_identity_structurally_valid expected_identity)
    with (GUARDIAN_NODE_LINK_FRESHNESS_ERROR_INVALID_STATE, classification) ;;
  match provider_status with
  | GUARDIAN_NODE_LINK_PERSISTENCE_STATUS_NO_PERSISTED_STATE =>
      (GUARDIAN_NODE_LINK_FRESHNESS_OK,
       Some GUARDIAN_NODE_LINK_PERSISTENCE_CLASSIFICATION_NO_STATE_BOOTSTRAP)
  | GUARDIAN_NODE_LINK_PERSISTENCE_STATUS_CORRUPTED_STATE
  | GUARDIAN_NODE_LINK_PERSISTENCE_STATUS_TORN_OR_INCOMPLETE_UPDATE
  | GUARDIAN_NODE_LINK_PERSISTENCE_STATUS_ROLLBACK_SUSPECTED
  | GUARDIAN_NODE_LINK_PERSISTENCE_STATUS_UNAVAILABLE_STATE =>
      (GUARDIAN_NODE_LINK_FRESHNESS_OK,
       Some GUARDIAN_NODE_LINK_PERSISTENCE_CLASSIFICATION_FRESHNESS_UNKNOWN)
  | GUARDIAN_NODE_LINK_PERSISTENCE_STATUS_INVALID
  | GUARDIAN_NODE_LINK_PERSISTENCE_STATUS_OTHER _ =>
      (GUARDIAN_NODE_LINK_FRESHNESS_ERROR_INVALID_STATE, classification)
  | GUARDIAN_NODE_LINK_PERSISTENCE_STATUS_VALID_PERSISTED_STATE =>
      match record with
      | None => (GUARDIAN_NODE_LINK_FRESHNESS_ERROR_NULL_ARGUMENT, classification)
      | Some rec =>
          early negb (rec_schema_version rec
                        =? GUARDIAN_NODE_LINK_FRESHNESS_PERSISTENCE_SCHEMA_VERSION)
            with (GUARDIAN_NODE_LINK_FRESHNESS_ERROR_INVALID_STATE, classification) ;;
          early negb (guardian_node_link_freshness_identity_structurally_valid
                        (Some (rec_identity rec)))
            with (GUARDIAN_NODE_LINK_FRESHNESS_ERROR_INVALID_STATE, classification) ;;
          early negb (guardian_node_link_freshness_identity_equal (Some (rec_identity rec))
                        expected_identity)
            with (GUARDIAN_NODE_LINK_FRESHNESS_ERROR_INVALID_STATE, classification) ;;
          early (rec_accepted_epoch rec =? 0) || (rec_accepted_sequence rec =? 0)
            with (GUARDIAN_NODE_LINK_FRESHNESS_ERROR_INVALID_STATE, classification) ;;
          (GUARDIAN_NODE_LINK_FRESHNESS_OK,
           Some GUARDIAN_NODE_LINK_PERSISTENCE_CLASSIFICATION_VALIDATED_RECORD_CANDIDATE)
      end
  end.

(** ** Evaluation *)

Definition guardian_node_link_freshness_identity_from_message
    (message : option guardian_node_link_pre_freshness_compatible_message_t)
    (identity : option guardian_node_link_freshness_identity_t)
  : bool * option guardian_node_link_freshness_identity_t :=
  match message, identity with
  | Some m, Some _ =>
      let am := cm_authenticated_message m in
      early (nl_sender_node_id (am_frame am) =? 0) || (am_producer_id am =? 0)
            || (am_key_id am =? 0)
            || negb (am_signature_algorithm am =? GUARDIAN_NODE_LINK_SIGNATURE_ED25519)
            || (nl_sequence (am_frame am) =? 0) || (nl_sender_epoch (am_frame am) =? 0)
        with (false, identity) ;;
      early negb (field_ref_valid (cm_producer_semantic_profile_id m)) with (false, identity) ;;
      early negb (field_ref_valid (cm_consumer_semantic_profile_id m)) with (false, identity) ;;
      early negb (field_ref_valid (cm_compatibility_contract_id m)) with (false, identity) ;;
      let with_refs := FRESHNESS_IDENTITY (nl_sender_node_id (am_frame am)) (am_producer_id am)
                         (am_key_id am) (am_signature_algorithm am) in
      let cap := GUARDIAN_NODE_LINK_SEMANTIC_REF_CAPACITY in
      let '(ok, producer) := guardian_node_link_freshness_copy_ref zero_ref cap
                               (Some (cm_producer_semantic_profile_id m)) in
      early negb ok with (false, Some (with_refs producer zero_ref zero_ref)) ;;
      let '(ok, consumer) := guardian_node_link_freshness_copy_ref zero_ref cap
                               (Some (cm_consumer_semantic_profile_id m)) in
      early negb ok with (false, Some (with_refs producer consumer zero_ref)) ;;
      let '(ok, contract) := guardian_node_link_freshness_copy_ref zero_ref cap
                               (Some (cm_compatibility_contract_id m)) in
      early negb ok with (false, Some (with_refs producer consumer contract)) ;;
      (true, Some (with_refs producer consumer contract))
  | _, _ => (false, identity)
  end.

(** The evaluation with the message's and the runtime's data bound, and the
    decision still [INVALID]. *)
Definition guardian_node_link_freshness_bind_prior_state
    (runtime : guardian_node_link_freshness_runtime_t)
    (evaluation : guardian_node_link_freshness_evaluation_t)
  : guardian_node_link_freshness_evaluation_t :=
  EVALUATION (ev_decision evaluation) (ev_identity evaluation)
    (ev_observed_epoch evaluation) (ev_observed_sequence evaluation)
    (rt_condition runtime) (rt_observed_epoch runtime) (rt_observed_sequence runtime)
    (rt_accepted_epoch runtime) (rt_accepted_sequence runtime)
    (ev_evaluated_max_forward_gap evaluation)
    (rt_observation_valid runtime) (rt_accepted_epoch_valid runtime)
    (rt_accepted_sequence_valid runtime) (ev_transition_applied evaluation).

Definition set_observed (identity : guardian_node_link_freshness_identity_t)
    (epoch sequence gap : Z) (e : guardian_node_link_freshness_evaluation_t)
  : guardian_node_link_freshness_evaluation_t :=
  EVALUATION (ev_decision e) identity epoch sequence
    (ev_prior_condition e) (ev_prior_observed_epoch e) (ev_prior_observed_sequence e)
    (ev_prior_accepted_epoch e) (ev_prior_accepted_sequence e) gap
    (ev_prior_observation_valid e) (ev_prior_accepted_epoch_valid e)
    (ev_prior_accepted_sequence_valid e) (ev_transition_applied e).

Definition set_decision (d : guardian_node_link_freshness_decision_t)
    (e : guardian_node_link_freshness_evaluation_t)
  : guardian_node_link_freshness_evaluation_t :=
  EVALUATION d (ev_identity e) (ev_observed_epoch e) (ev_observed_sequence e)
    (ev_prior_condition e) (ev_prior_observed_epoch e) (ev_prior_observed_sequence e)
    (ev_prior_accepted_epoch e) (ev_prior_accepted_sequence e)
    (ev_evaluated_max_forward_gap e)
    (ev_prior_observation_valid e) (ev_prior_accepted_epoch_valid e)
    (ev_prior_accepted_sequence_valid e) (ev_transition_applied e).

Definition set_transition_applied (v : Z) (e : guardian_node_link_freshness_evaluation_t)
  : guardian_node_link_freshness_evaluation_t :=
  EVALUATION (ev_decision e) (ev_identity e) (ev_observed_epoch e) (ev_observed_sequence e)
    (ev_prior_condition e) (ev_prior_observed_epoch e) (ev_prior_observed_sequence e)
    (ev_prior_accepted_epoch e) (ev_prior_accepted_sequence e)
    (ev_evaluated_max_forward_gap e)
    (ev_prior_observation_valid e) (ev_prior_accepted_epoch_valid e)
    (ev_prior_accepted_sequence_valid e) v.

Definition guardian_node_link_freshness_evaluate_internal
    (policy : option guardian_node_link_freshness_policy_t)
    (runtime : option guardian_node_link_freshness_runtime_t)
    (message : option guardian_node_link_pre_freshness_compatible_message_t)
    (evaluation : option guardian_node_link_freshness_evaluation_t)
  : guardian_node_link_freshness_result_t * option guardian_node_link_freshness_evaluation_t :=
  match policy, runtime, message, evaluation with
  | Some p, Some r, Some m, Some e =>
      early negb (pol_configured p =? 1) || (pol_max_forward_gap p =? 0)
        with (GUARDIAN_NODE_LINK_FRESHNESS_ERROR_INVALID_POLICY, evaluation) ;;
      early negb (bool_decide (guardian_node_link_freshness_runtime_validate runtime
                               = GUARDIAN_NODE_LINK_FRESHNESS_OK))
        with (GUARDIAN_NODE_LINK_FRESHNESS_ERROR_INVALID_STATE, evaluation) ;;
      let '(ok, incoming_identity) :=
        guardian_node_link_freshness_identity_from_message message (Some zero_identity) in
      early negb ok
        with (GUARDIAN_NODE_LINK_FRESHNESS_ERROR_INVALID_MESSAGE, evaluation) ;;
      let incoming_epoch := nl_sender_epoch (am_frame (cm_authenticated_message m)) in
      let incoming_sequence := nl_sequence (am_frame (cm_authenticated_message m)) in
      let e := set_observed (default zero_identity incoming_identity) incoming_epoch
                 incoming_sequence (pol_max_forward_gap p) e in
      let e := guardian_node_link_freshness_bind_prior_state r e in
      let decide_as d := (GUARDIAN_NODE_LINK_FRESHNESS_OK, Some (set_decision d e)) in
      match rt_condition r with
      | GUARDIAN_NODE_LINK_FRESHNESS_UNINITIALIZED =>
          decide_as GUARDIAN_NODE_LINK_FRESHNESS_DECISION_OBSERVE_ONLY
      | GUARDIAN_NODE_LINK_FRESHNESS_UNKNOWN
      | GUARDIAN_NODE_LINK_FRESHNESS_REJOIN_REQUIRED
      | GUARDIAN_NODE_LINK_FRESHNESS_SESSION_REPLACEMENT_REQUIRED =>
          decide_as GUARDIAN_NODE_LINK_FRESHNESS_DECISION_STATE_BLOCKED
      | GUARDIAN_NODE_LINK_FRESHNESS_CONDITION_OTHER _ =>
          (GUARDIAN_NODE_LINK_FRESHNESS_ERROR_INVALID_STATE, Some e)
      | GUARDIAN_NODE_LINK_FRESHNESS_ACTIVE =>
          early negb (guardian_node_link_freshness_identity_equal (Some (rt_identity r))
                        incoming_identity)
            with decide_as GUARDIAN_NODE_LINK_FRESHNESS_DECISION_IDENTITY_MISMATCH ;;
          early rt_accepted_sequence r =? UINT32_MAX
            with decide_as GUARDIAN_NODE_LINK_FRESHNESS_DECISION_SESSION_REPLACEMENT_REQUIRED ;;
          early negb (incoming_epoch =? rt_accepted_epoch r)
            with decide_as GUARDIAN_NODE_LINK_FRESHNESS_DECISION_EPOCH_TRANSITION_REQUIRED ;;
          early incoming_sequence =? rt_accepted_sequence r
            with decide_as GUARDIAN_NODE_LINK_FRESHNESS_DECISION_REPLAY_DUPLICATE ;;
          early incoming_sequence <? rt_accepted_sequence r
            with decide_as GUARDIAN_NODE_LINK_FRESHNESS_DECISION_REPLAY_REGRESSION ;;
          let delta := u32 (incoming_sequence - rt_accepted_sequence r) in
          early pol_max_forward_gap p <? delta
            with decide_as GUARDIAN_NODE_LINK_FRESHNESS_DECISION_FORWARD_GAP_EXCEEDED ;;
          decide_as GUARDIAN_NODE_LINK_FRESHNESS_DECISION_ACCEPT
      end
  | _, _, _, _ => (GUARDIAN_NODE_LINK_FRESHNESS_ERROR_NULL_ARGUMENT, evaluation)
  end.

Definition guardian_node_link_freshness_evaluate
    (policy : option guardian_node_link_freshness_policy_t)
    (runtime : option guardian_node_link_freshness_runtime_t)
    (message : option guardian_node_link_pre_freshness_compatible_message_t)
    (evaluation : option guardian_node_link_freshness_evaluation_t)
  : guardian_node_link_freshness_result_t * option guardian_node_link_freshness_evaluation_t :=
  early is_null evaluation
    with (GUARDIAN_NODE_LINK_FRESHNESS_ERROR_NULL_ARGUMENT, evaluation) ;;
  let evaluation := Some zero_evaluation in
  early is_null policy || is_null runtime || is_null message
    with (GUARDIAN_NODE_LINK_FRESHNESS_ERROR_NULL_ARGUMENT, evaluation) ;;
  let '(result, evaluation) :=
    guardian_node_link_freshness_evaluate_internal policy runtime message evaluation in
  if negb (bool_decide (result = GUARDIAN_NODE_LINK_FRESHNESS_OK))
  then (result, Some zero_evaluation)
  else (result, evaluation).

(** Returns the result, the runtime and the evaluation. *)
Definition guardian_node_link_freshness_evaluate_and_apply
    (policy : option guardian_node_link_freshness_policy_t)
    (runtime : option guardian_node_link_freshness_runtime_t)
    (message : option guardian_node_link_pre_freshness_compatible_message_t)
    (evaluation : option guardian_node_link_freshness_evaluation_t)
  : guardian_node_link_freshness_result_t * option guardian_node_link_freshness_runtime_t
    * option guardian_node_link_freshness_evaluation_t :=
  early is_null evaluation
    with (GUARDIAN_NODE_LINK_FRESHNESS_ERROR_NULL_ARGUMENT, runtime, evaluation) ;;
  let evaluation := Some zero_evaluation in
  match policy, runtime, message with
  | Some _, Some r, Some _ =>
      let '(result, evaluation) :=
        guardian_node_link_freshness_evaluate_internal policy runtime message evaluation in
      early negb (bool_decide (result = GUARDIAN_NODE_LINK_FRESHNESS_OK))
        with (result, runtime, Some zero_evaluation) ;;
      let e := default zero_evaluation evaluation in
      early negb (bool_decide (ev_decision e = GUARDIAN_NODE_LINK_FRESHNESS_DECISION_ACCEPT))
        with (GUARDIAN_NODE_LINK_FRESHNESS_OK, runtime, Some e) ;;
      let candidate :=
        RUNTIME (rt_condition r) (rt_identity r)
          (ev_observed_epoch e) (ev_observed_sequence e)
          (rt_accepted_epoch r) (ev_observed_sequence e)
          (rt_identity_valid r) 1 (rt_accepted_epoch_valid r) 1 in
      let result := guardian_node_link_freshness_runtime_validate (Some candidate) in
      early negb (bool_decide (result = GUARDIAN_NODE_LINK_FRESHNESS_OK))
        with (GUARDIAN_NODE_LINK_FRESHNESS_ERROR_INVALID_EVALUATION, runtime,
              Some zero_evaluation) ;;
      (GUARDIAN_NODE_LINK_FRESHNESS_OK, Some candidate, Some (set_transition_applied 1 e))
  | _, _, _ => (GUARDIAN_NODE_LINK_FRESHNESS_ERROR_NULL_ARGUMENT, runtime, evaluation)
  end.

(** ** Lemmas on references and identities *)

Lemma field_ref_valid_spec r :
  field_ref_valid r = true <-> (0 < ref_length r 96 < 96)%nat.
Proof.
  unfold field_ref_valid, guardian_node_link_freshness_ref_valid,
    GUARDIAN_NODE_LINK_SEMANTIC_REF_CAPACITY. cbn [Nat.eqb].
  destruct (Nat.eqb_spec (ref_length r 96) 0), (Nat.leb_spec 96 (ref_length r 96));
    cbn [orb]; split; try done; lia.
Qed.

(** The text of a reference. *)
Definition ref_text (r : list Z) : list Z := take (ref_length r 96) r.

Lemma copy_ref_spec src :
  field_ref_valid src = true ->
  guardian_node_link_freshness_copy_ref zero_ref GUARDIAN_NODE_LINK_SEMANTIC_REF_CAPACITY
    (Some src) = (true, ref_of (ref_text src)).
Proof.
  intros Hv. unfold guardian_node_link_freshness_copy_ref.
  change (guardian_node_link_freshness_ref_valid (Some src) GUARDIAN_NODE_LINK_SEMANTIC_REF_CAPACITY)
    with (field_ref_valid src). rewrite Hv. apply field_ref_valid_spec in Hv.
  unfold GUARDIAN_NODE_LINK_SEMANTIC_REF_CAPACITY. cbn [Nat.eqb negb Nat.sub].
  rewrite (ref_length_pred src 95) by apply Hv. unfold ref_text. rewrite ref_of_text.
  pose proof (ref_length_source src 96) as Hs. set (n := ref_length src 96) in *.
  assert (Hl : length (take n src) = n) by (rewrite length_take; lia).
  f_equal. rewrite (blit_exact zero_ref (replicate 96 0)) by done.
  rewrite blit_blit_adjacent by (rewrite ?Hl; lia).
  rewrite blit_0, length_app, Hl. cbn [length].
  rewrite drop_replicate, <- app_assoc. f_equal.
  replace (96 - n)%nat with (S (96 - (n + 1))) by lia. done.
Qed.

Lemma identity_equal_refl i :
  guardian_node_link_freshness_identity_equal (Some i) (Some i) = true.
Proof.
  unfold guardian_node_link_freshness_identity_equal. by rewrite !Z.eqb_refl, !strncmp_eq_refl.
Qed.

(** What the comparison of identities looks at. *)
Definition identity_key (i : guardian_node_link_freshness_identity_t) :=
  (fi_sender_node_id i, fi_producer_id i, fi_key_id i, fi_signature_algorithm i,
   ref_text (fi_producer_semantic_profile_id i), ref_text (fi_consumer_semantic_profile_id i),
   ref_text (fi_compatibility_contract_id i)).

Lemma identity_equal_key i j :
  guardian_node_link_freshness_identity_equal (Some i) (Some j) = true <->
  identity_key i = identity_key j.
Proof.
  unfold guardian_node_link_freshness_identity_equal, identity_key.
  destruct (_ || _) eqn:E0.
  { split; [done|]. intros [= H1 H2 H3 H4 _ _ _].
    by rewrite H1, H2, H3, H4, !Z.eqb_refl in E0. }
  rewrite !orb_false_iff, !negb_false_iff, !Z.eqb_eq in E0. destruct E0 as [[[-> ->] ->] ->].
  unfold ref_text.
  pose proof (strncmp_eq_spec (fi_producer_semantic_profile_id i)
    (fi_producer_semantic_profile_id j) 96) as H1.
  pose proof (strncmp_eq_spec (fi_consumer_semantic_profile_id i)
    (fi_consumer_semantic_profile_id j) 96) as H2.
  pose proof (strncmp_eq_spec (fi_compatibility_contract_id i)
    (fi_compatibility_contract_id j) 96) as H3.
  unfold GUARDIAN_NODE_LINK_SEMANTIC_REF_CAPACITY.
  split.
  - intros H. early_inv H E1. early_inv H E2. early_inv H E3.
    apply negb_false_iff in E1, E2, E3. rewrite (proj1 H1 E1), (proj1 H2 E2), (proj1 H3 E3).
    reflexivity.
  - intros Hk. apply pair_equal_spec in Hk as [Hk K3]. apply pair_equal_spec in Hk as [Hk K2].
    apply pair_equal_spec in Hk as [Hk K1].
    by rewrite (proj2 H1 K1), (proj2 H2 K2), (proj2 H3 K3).
Qed.

(** ** The runtime invariant *)

Record identity_ok (i : guardian_node_link_freshness_identity_t) : Prop := {
  ido_sender : fi_sender_node_id i <> 0;
  ido_producer : fi_producer_id i <> 0;
  ido_key : fi_key_id i <> 0;
  ido_algorithm : fi_signature_algorithm i = GUARDIAN_NODE_LINK_SIGNATURE_ED25519;
  ido_producer_ref : field_ref_valid (fi_producer_semantic_profile_id i) = true;
  ido_consumer_ref : field_ref_valid (fi_consumer_semantic_profile_id i) = true;
  ido_contract_ref : field_ref_valid (fi_compatibility_contract_id i) = true
}.

Lemma identity_structurally_valid_spec i :
  guardian_node_link_freshness_identity_structurally_valid (Some i) = true <-> identity_ok i.
Proof.
  unfold guardian_node_link_freshness_identity_structurally_valid. split.
  - intros H. early_inv H E0. early_inv H E1. early_inv H E2. early_inv H E3. split; lia.
  - intros []. destruct (_ || _) eqn:E; [lia|].
    by rewrite ido_producer_ref0, ido_consumer_ref0, ido_contract_ref0.
Qed.

Record runtime_ok (r : guardian_node_link_freshness_runtime_t) : Prop := {
  rto_condition : guardian_node_link_freshness_condition_valid (rt_condition r) = true;
  rto_flags : rt_identity_valid r <= 1 /\ rt_observation_valid r <= 1 /\
              rt_accepted_epoch_valid r <= 1 /\ rt_accepted_sequence_valid r <= 1;
  rto_bound : rt_observation_valid r <> 0 \/ rt_accepted_epoch_valid r <> 0 \/
              rt_accepted_sequence_valid r <> 0 -> rt_identity_valid r <> 0;
  rto_identity : rt_identity_valid r <> 0 -> identity_ok (rt_identity r);
  rto_observed : rt_observation_valid r <> 0 -> rt_observed_sequence r <> 0;
  rto_epoch : rt_accepted_epoch_valid r <> 0 -> rt_accepted_epoch r <> 0;
  rto_sequence : rt_accepted_sequence_valid r <> 0 -> rt_accepted_sequence r <> 0;
  rto_uninitialized : rt_condition r = GUARDIAN_NODE_LINK_FRESHNESS_UNINITIALIZED ->
    rt_accepted_epoch_valid r = 0 /\ rt_accepted_sequence_valid r = 0;
  rto_sequence_epoch : rt_accepted_sequence_valid r <> 0 -> rt_accepted_epoch_valid r <> 0;
  rto_active : rt_condition r = GUARDIAN_NODE_LINK_FRESHNESS_ACTIVE ->
    rt_identity_valid r <> 0 /\ rt_accepted_epoch_valid r <> 0 /\
    rt_accepted_sequence_valid r <> 0
}.

(** A test made only when a validity flag is set. *)
Lemma flag_guard a b : negb (a =? 0) && b = false <-> (a <> 0 -> b = false).
Proof. destruct (Z.eqb_spec a 0); cbn [negb andb]; intuition. Qed.

Lemma runtime_validate_sound r :
  guardian_node_link_freshness_runtime_validate (Some r) = GUARDIAN_NODE_LINK_FRESHNESS_OK ->
  runtime_ok r.
Proof.
  unfold guardian_node_link_freshness_runtime_validate. intros H.
  early_inv H E0. early_inv H E1. early_inv H E2. early_inv H E3. early_inv H E4.
  early_inv H E5. early_inv H E6. early_inv H E7. early_inv H E8. early_inv H E9.
  rewrite flag_guard in E3, E4, E5, E6, E7, E8, E9. apply negb_false_iff in E0.
  assert (Hid : rt_identity_valid r <> 0 -> identity_ok (rt_identity r)).
  { intros Hid. specialize (E3 Hid). specialize (E4 Hid). specialize (E5 Hid).
    specialize (E6 Hid). apply negb_false_iff in E4, E5, E6.
    rewrite !orb_false_iff, negb_false_iff, Z.eqb_eq, !Z.eqb_neq in E3. split; intuition. }
  split; try done; try (by intros Hv; apply Z.eqb_neq; auto).
  - clear -E1. lia.
  - clear -E2. lia.
  - intros Hc. rewrite bool_decide_true in H by done. early_inv H E10. clear -E10. lia.
  - case_bool_decide.
    + early_inv H E10. clear -E10. lia.
    + early_inv H E10. clear -E10. lia.
  - intros Hc. rewrite bool_decide_false in H by congruence. early_inv H E10.
    rewrite bool_decide_true in H by done. early_inv H E11. clear -E11. lia.
Qed.

(** Discharge the first guard of the goal. *)
Ltac guard_off :=
  match goal with |- (if ?c then _ else _) = _ =>
    let H := fresh in
    assert (H : c = false); [|rewrite H; clear H] end.

Lemma runtime_validate_complete r :
  runtime_ok r ->
  guardian_node_link_freshness_runtime_validate (Some r) = GUARDIAN_NODE_LINK_FRESHNESS_OK.
Proof.
  intros [Hc Hf Hb Hi Ho He Hs Hu Hse Ha].
  unfold guardian_node_link_freshness_runtime_validate. rewrite Hc. cbn [negb].
  guard_off; [clear -Hf; lia|]. guard_off; [clear -Hb; lia|].
  guard_off; [apply flag_guard; intros H; destruct (Hi H) as [? ? ? ? _ _ _]; lia|].
  do 3 (guard_off; [apply flag_guard; intros H; destruct (Hi H) as [_ _ _ _ H1 H2 H3];
    by rewrite ?H1, ?H2, ?H3|]).
  do 3 (guard_off; [apply flag_guard; intros H; apply Z.eqb_neq; auto|]).
  case_bool_decide as Hcond.
  - destruct (Hu Hcond) as [-> ->]. done.
  - guard_off; [clear -Hse; lia|]. case_bool_decide as Hact; [|done].
    destruct (Ha Hact) as (Ha1 & Ha2 & Ha3). specialize (Hs Ha3).
    guard_off; [clear -Ha1 Ha2 Ha3 Hs; lia|]. done.
Qed.

(** ** Messages *)

(** A message the evaluation accepts as well-formed. *)
Record message_ok (m : guardian_node_link_pre_freshness_compatible_message_t) : Prop := {
  mo_sender : nl_sender_node_id (am_frame (cm_authenticated_message m)) <> 0;
  mo_producer : am_producer_id (cm_authenticated_message m) <> 0;
  mo_key : am_key_id (cm_authenticated_message m) <> 0;
  mo_algorithm : am_signature_algorithm (cm_authenticated_message m)
                 = GUARDIAN_NODE_LINK_SIGNATURE_ED25519;
  mo_sequence : nl_sequence (am_frame (cm_authenticated_message m)) <> 0;
  mo_epoch : nl_sender_epoch (am_frame (cm_authenticated_message m)) <> 0;
  mo_producer_ref : field_ref_valid (cm_producer_semantic_profile_id m) = true;
  mo_consumer_ref : field_ref_valid (cm_consumer_semantic_profile_id m) = true;
  mo_contract_ref : field_ref_valid (cm_compatibility_contract_id m) = true
}.

Definition message_freshness_identity (m : guardian_node_link_pre_freshness_compatible_message_t)
  : guardian_node_link_freshness_identity_t :=
  let am := cm_authenticated_message m in
  FRESHNESS_IDENTITY (nl_sender_node_id (am_frame am)) (am_producer_id am) (am_key_id am)
    (am_signature_algorithm am) (ref_of (ref_text (cm_producer_semantic_profile_id m)))
    (ref_of (ref_text (cm_consumer_semantic_profile_id m)))
    (ref_of (ref_text (cm_compatibility_contract_id m))).

Definition message_okb (m : guardian_node_link_pre_freshness_compatible_message_t) : bool :=
  let am := cm_authenticated_message m in
  negb (nl_sender_node_id (am_frame am) =? 0) && negb (am_producer_id am =? 0)
  && negb (am_key_id am =? 0) && (am_signature_algorithm am =? GUARDIAN_NODE_LINK_SIGNATURE_ED25519)
  && negb (nl_sequence (am_frame am) =? 0) && negb (nl_sender_epoch (am_frame am) =? 0)
  && field_ref_valid (cm_producer_semantic_profile_id m)
  && field_ref_valid (cm_consumer_semantic_profile_id m)
  && field_ref_valid (cm_compatibility_contract_id m).

Lemma message_okb_spec m : message_okb m = true <-> message_ok m.
Proof.
  unfold message_okb. rewrite !andb_true_iff, !negb_true_iff, !Z.eqb_neq, Z.eqb_eq.
  split; [intros [[[[[[[[? ?] ?] ?] ?] ?] ?] ?] ?]; constructor; assumption|].
  intros []. repeat (split; [|assumption]). assumption.
Qed.

Lemma identity_from_message_spec m i :
  guardian_node_link_freshness_identity_from_message (Some m) (Some i)
  = if message_okb m then (true, Some (message_freshness_identity m)) else (false, Some i).
Proof.
  unfold guardian_node_link_freshness_identity_from_message, message_okb.
  destruct (nl_sender_node_id _ =? 0), (am_producer_id _ =? 0), (am_key_id _ =? 0),
    (am_signature_algorithm _ =? _), (nl_sequence _ =? 0), (nl_sender_epoch _ =? 0);
    cbn [orb andb negb]; try done.
  destruct (field_ref_valid (cm_producer_semantic_profile_id m)) eqn:E1; [|done].
  destruct (field_ref_valid (cm_consumer_semantic_profile_id m)) eqn:E2; [|done].
  destruct (field_ref_valid (cm_compatibility_contract_id m)) eqn:E3; [|done].
  cbn [orb andb negb]. cbv zeta. rewrite !copy_ref_spec by assumption. reflexivity.
Qed.

(** ** The decision *)

Definition msg_epoch (m : guardian_node_link_pre_freshness_compatible_message_t) : Z :=
  nl_sender_epoch (am_frame (cm_authenticated_message m)).
Definition msg_sequence (m : guardian_node_link_pre_freshness_compatible_message_t) : Z :=
  nl_sequence (am_frame (cm_authenticated_message m)).

(** The decision on a well-formed message, in unbounded arithmetic. *)
Definition freshness_decision (p : guardian_node_link_freshness_policy_t)
    (r : guardian_node_link_freshness_runtime_t)
    (m : guardian_node_link_pre_freshness_compatible_message_t)
  : guardian_node_link_freshness_decision_t :=
  match rt_condition r with
  | GUARDIAN_NODE_LINK_FRESHNESS_UNINITIALIZED =>
      GUARDIAN_NODE_LINK_FRESHNESS_DECISION_OBSERVE_ONLY
  | GUARDIAN_NODE_LINK_FRESHNESS_ACTIVE =>
      if negb (guardian_node_link_freshness_identity_equal (Some (rt_identity r))
                 (Some (message_freshness_identity m)))
      then GUARDIAN_NODE_LINK_FRESHNESS_DECISION_IDENTITY_MISMATCH
      else if rt_accepted_sequence r =? UINT32_MAX
      then GUARDIAN_NODE_LINK_FRESHNESS_DECISION_SESSION_REPLACEMENT_REQUIRED
      else if negb (msg_epoch m =? rt_accepted_epoch r)
      then GUARDIAN_NODE_LINK_FRESHNESS_DECISION_EPOCH_TRANSITION_REQUIRED
      else if msg_sequence m =? rt_accepted_sequence r
      then GUARDIAN_NODE_LINK_FRESHNESS_DECISION_REPLAY_DUPLICATE
      else if msg_sequence m <? rt_accepted_sequence r
      then GUARDIAN_NODE_LINK_FRESHNESS_DECISION_REPLAY_REGRESSION
      else if rt_accepted_sequence r + pol_max_forward_gap p <? msg_sequence m
      then GUARDIAN_NODE_LINK_FRESHNESS_DECISION_FORWARD_GAP_EXCEEDED
      else GUARDIAN_NODE_LINK_FRESHNESS_DECISION_ACCEPT
  | _ => GUARDIAN_NODE_LINK_FRESHNESS_DECISION_STATE_BLOCKED
  end.

(** The message is the next acceptable one of the session. *)
Record fresh_next (p : guardian_node_link_freshness_policy_t)
    (r : guardian_node_link_freshness_runtime_t)
    (m : guardian_node_link_pre_freshness_compatible_message_t) : Prop := {
  fn_active : rt_condition r = GUARDIAN_NODE_LINK_FRESHNESS_ACTIVE;
  fn_identity : identity_key (rt_identity r) = identity_key (message_freshness_identity m);
  fn_epoch : msg_epoch m = rt_accepted_epoch r;
  fn_sequence : rt_accepted_sequence r < msg_sequence m;
  fn_gap : msg_sequence m <= rt_accepted_sequence r + pol_max_forward_gap p
}.

(** The runtime after accepting [m]. *)
Definition advanced (r : guardian_node_link_freshness_runtime_t)
    (m : guardian_node_link_pre_freshness_compatible_message_t)
  : guardian_node_link_freshness_runtime_t :=
  RUNTIME (rt_condition r) (rt_identity r) (msg_epoch m) (msg_sequence m)
    (rt_accepted_epoch r) (msg_sequence m)
    (rt_identity_valid r) 1 (rt_accepted_epoch_valid r) 1.

(** The evaluation record of a decision. *)
Definition evaluation_of (p : guardian_node_link_freshness_policy_t)
    (r : guardian_node_link_freshness_runtime_t)
    (m : guardian_node_link_pre_freshness_compatible_message_t)
  : guardian_node_link_freshness_evaluation_t :=
  EVALUATION (freshness_decision p r m) (message_freshness_identity m) (msg_epoch m)
    (msg_sequence m) (rt_condition r) (rt_observed_epoch r) (rt_observed_sequence r)
    (rt_accepted_epoch r) (rt_accepted_sequence r) (pol_max_forward_gap p)
    (rt_observation_valid r) (rt_accepted_epoch_valid r) (rt_accepted_sequence_valid r) 0.

Record policy_ok (p : guardian_node_link_freshness_policy_t) : Prop := {
  po_configured : pol_configured p = 1;
  po_gap : 0 < pol_max_forward_gap p
}.

(** Values of C objects. *)
Definition sequences_u32 (r : guardian_node_link_freshness_runtime_t)
    (m : guardian_node_link_pre_freshness_compatible_message_t) : Prop :=
  is_u32 (rt_accepted_sequence r) /\ is_u32 (msg_sequence m).

Lemma fresh_next_decision p r m :
  sequences_u32 r m ->
  freshness_decision p r m = GUARDIAN_NODE_LINK_FRESHNESS_DECISION_ACCEPT <-> fresh_next p r m.
Proof.
  intros [Hr Hm]. unfold is_u32 in Hr, Hm. unfold freshness_decision. split.
  - intros H. destruct (rt_condition r) eqn:Ec; try discriminate H.
    early_inv H E0. early_inv H E1. early_inv H E2. early_inv H E3. early_inv H E4.
    early_inv H E5. apply negb_false_iff, identity_equal_key in E0.
    apply negb_false_iff, Z.eqb_eq in E2. apply Z.eqb_neq in E3. apply Z.ltb_ge in E4, E5.
    constructor; try assumption; lia.
  - intros [-> Hi He Hs Hg]. apply identity_equal_key in Hi. rewrite Hi. cbn [negb].
    destruct (Z.eqb_spec (rt_accepted_sequence r) UINT32_MAX) as [E|_];
      [unfold UINT32_MAX in E; lia|].
    rewrite He, Z.eqb_refl. cbn [negb].
    destruct (Z.eqb_spec (msg_sequence m) (rt_accepted_sequence r)); [lia|].
    destruct (Z.ltb_spec (msg_sequence m) (rt_accepted_sequence r)); [lia|].
    destruct (Z.ltb_spec (rt_accepted_sequence r + pol_max_forward_gap p) (msg_sequence m)); [lia|].
    reflexivity.
Qed.

Lemma evaluate_internal_eq p r m :
  policy_ok p -> runtime_ok r -> message_okb m = true -> sequences_u32 r m ->
  guardian_node_link_freshness_evaluate_internal (Some p) (Some r) (Some m) (Some zero_evaluation)
  = (GUARDIAN_NODE_LINK_FRESHNESS_OK, Some (evaluation_of p r m)).
Proof.
  intros [Hp1 Hp2] Hr Hm [Hru Hmu]. unfold is_u32 in Hru, Hmu.
  unfold guardian_node_link_freshness_evaluate_internal.
  rewrite (runtime_validate_complete r Hr), identity_from_message_spec, Hm, Hp1.
  destruct (Z.eqb_spec (pol_max_forward_gap p) 0); [lia|]. cbn [Z.eqb negb orb].
  rewrite bool_decide_true by reflexivity. cbn [negb from_option id].
  fold (msg_epoch m) (msg_sequence m).
  pose proof (rto_condition r Hr) as Hc.
  change (evaluation_of p r m) with
    (set_decision (freshness_decision p r m)
       (guardian_node_link_freshness_bind_prior_state r
          (set_observed (message_freshness_identity m) (msg_epoch m) (msg_sequence m)
             (pol_max_forward_gap p) zero_evaluation))).
  set (e := guardian_node_link_freshness_bind_prior_state _ _).
  unfold freshness_decision. destruct (rt_condition r); try reflexivity; [|discriminate Hc].
  destruct (guardian_node_link_freshness_identity_equal (Some (rt_identity r)) _); [|reflexivity].
  cbn [negb]. destruct (rt_accepted_sequence r =? UINT32_MAX); [reflexivity|].
  destruct (msg_epoch m =? rt_accepted_epoch r); [|reflexivity]. cbn [negb].
  destruct (Z.eqb_spec (msg_sequence m) (rt_accepted_sequence r)); [reflexivity|].
  destruct (Z.ltb_spec (msg_sequence m) (rt_accepted_sequence r)); [reflexivity|].
  rewrite u32_id by (unfold is_u32; lia).
  destruct (Z.ltb_spec (pol_max_forward_gap p) (msg_sequence m - rt_accepted_sequence r)),
    (Z.ltb_spec (rt_accepted_sequence r + pol_max_forward_gap p) (msg_sequence m));
    try lia; reflexivity.
Qed.

Lemma policy_bad p :
  ~ policy_ok p -> 0 <= pol_max_forward_gap p ->
  negb (pol_configured p =? 1) || (pol_max_forward_gap p =? 0) = true.
Proof.
  intros Hn Hg. destruct (Z.eqb_spec (pol_configured p) 1), (Z.eqb_spec (pol_max_forward_gap p) 0);
    try reflexivity. exfalso. apply Hn. constructor; lia.
Qed.

(** The runtime of an accepted message is valid again. *)
Lemma advanced_ok p r m :
  runtime_ok r -> fresh_next p r m -> 0 <= rt_accepted_sequence r -> runtime_ok (advanced r m).
Proof.
  intros [Hc Hf Hb Hi Ho He Hs Hu Hse Ha] [Fa _ Fe Fs _] Hpos.
  destruct (Ha Fa) as (Ha1 & Ha2 & Ha3).
  assert (msg_sequence m <> 0) by lia.
  constructor; cbn [advanced rt_condition rt_identity rt_observed_epoch rt_observed_sequence
    rt_accepted_epoch rt_accepted_sequence rt_identity_valid rt_observation_valid
    rt_accepted_epoch_valid rt_accepted_sequence_valid]; try assumption; try tauto.
  - lia.
  - intros _. split; [assumption|]. split; [assumption|discriminate].
Qed.

(** Application, in terms of the decision. *)
Lemma evaluate_and_apply_eq p r m e0 :
  policy_ok p -> runtime_ok r -> message_okb m = true -> sequences_u32 r m ->
  guardian_node_link_freshness_evaluate_and_apply (Some p) (Some r) (Some m) (Some e0)
  = if decide (freshness_decision p r m = GUARDIAN_NODE_LINK_FRESHNESS_DECISION_ACCEPT)
    then (GUARDIAN_NODE_LINK_FRESHNESS_OK, Some (advanced r m),
          Some (set_transition_applied 1 (evaluation_of p r m)))
    else (GUARDIAN_NODE_LINK_FRESHNESS_OK, Some r, Some (evaluation_of p r m)).
Proof.
  intros Hp Hr Hm Hu. unfold guardian_node_link_freshness_evaluate_and_apply.
  cbn [is_null]. rewrite evaluate_internal_eq by assumption. cbn [from_option id].
  rewrite bool_decide_true by reflexivity. cbn [negb].
  change (ev_decision (evaluation_of p r m)) with (freshness_decision p r m).
  destruct (decide (freshness_decision p r m = _)) as [Hd|Hd].
  - rewrite bool_decide_true by assumption. cbn [negb].
    change (RUNTIME (rt_condition r) (rt_identity r) _ _ _ _ _ _ _ _) with (advanced r m).
    apply fresh_next_decision in Hd; [|assumption].
    rewrite (runtime_validate_complete (advanced r m))
      by (eapply advanced_ok; [exact Hr|exact Hd|apply Hu]).
    reflexivity.
  - rewrite bool_decide_false by assumption. reflexivity.
Qed.

(** Inputs outside the contract are refused before anything is decided. *)
Lemma evaluate_internal_refuses p r m e :
  0 <= pol_max_forward_gap p ->
  ~ (policy_ok p /\ runtime_ok r /\ message_okb m = true) ->
  (guardian_node_link_freshness_evaluate_internal (Some p) (Some r) (Some m) (Some e)).1
  <> GUARDIAN_NODE_LINK_FRESHNESS_OK.
Proof.
  intros Hg Hn. unfold guardian_node_link_freshness_evaluate_internal.
  destruct (negb (pol_configured p =? 1) || (pol_max_forward_gap p =? 0)) eqn:Ep; [discriminate|].
  destruct (bool_decide (guardian_node_link_freshness_runtime_validate (Some r) = _)) eqn:Er;
    cbn [negb]; [|discriminate].
  rewrite identity_from_message_spec. destruct (message_okb m) eqn:Em; cbn [negb]; [|discriminate].
  exfalso. apply Hn. apply bool_decide_eq_true, runtime_validate_sound in Er.
  split; [|split; [exact Er|reflexivity]].
  apply orb_false_iff in Ep as [E1 E2]. apply negb_false_iff, Z.eqb_eq in E1.
  apply Z.eqb_neq in E2. constructor; [exact E1|lia].
Qed.

(** What one message can do to a runtime. *)
Inductive apply_outcome (p : guardian_node_link_freshness_policy_t)
    (r : guardian_node_link_freshness_runtime_t)
    (m : guardian_node_link_pre_freshness_compatible_message_t)
  : guardian_node_link_freshness_result_t * option guardian_node_link_freshness_runtime_t
    * option guardian_node_link_freshness_evaluation_t -> Prop :=
  | apply_accepted :
      policy_ok p -> runtime_ok r -> message_okb m = true -> fresh_next p r m ->
      apply_outcome p r m (GUARDIAN_NODE_LINK_FRESHNESS_OK, Some (advanced r m),
        Some (set_transition_applied 1 (evaluation_of p r m)))
  | apply_observed :
      policy_ok p -> runtime_ok r -> message_okb m = true -> ~ fresh_next p r m ->
      apply_outcome p r m (GUARDIAN_NODE_LINK_FRESHNESS_OK, Some r, Some (evaluation_of p r m))
  | apply_refused res :
      res <> GUARDIAN_NODE_LINK_FRESHNESS_OK ->
      ~ (policy_ok p /\ runtime_ok r /\ message_okb m = true) ->
      apply_outcome p r m (res, Some r, Some zero_evaluation).

Lemma evaluate_and_apply_outcome p r m e0 :
  0 <= pol_max_forward_gap p -> sequences_u32 r m ->
  apply_outcome p r m
    (guardian_node_link_freshness_evaluate_and_apply (Some p) (Some r) (Some m) (Some e0)).
Proof.
  intros Hg Hu.
  destruct (bool_decide (pol_configured p = 1 /\ 0 < pol_max_forward_gap p /\
    guardian_node_link_freshness_runtime_validate (Some r) = GUARDIAN_NODE_LINK_FRESHNESS_OK /\
    message_okb m = true)) eqn:E.
  - apply bool_decide_eq_true in E as (H1 & H2 & H3 & H4).
    assert (Hp : policy_ok p) by (constructor; assumption).
    apply runtime_validate_sound in H3. rewrite evaluate_and_apply_eq by assumption.
    destruct (decide _) as [Hd|Hd].
    + apply apply_accepted; try assumption. by apply fresh_next_decision.
    + apply apply_observed; try assumption. intros Hf. by apply Hd, fresh_next_decision.
  - assert (Hn : ~ (policy_ok p /\ runtime_ok r /\ message_okb m = true)).
    { intros ([H1 H2] & H3 & H4). apply runtime_validate_complete in H3.
      apply bool_decide_eq_false in E. by apply E. }
    unfold guardian_node_link_freshness_evaluate_and_apply. cbn [is_null].
    pose proof (evaluate_internal_refuses p r m zero_evaluation Hg Hn) as Hr.
    destruct (guardian_node_link_freshness_evaluate_internal _ _ _ _) as [res e].
    cbn [fst] in Hr. rewrite bool_decide_false by assumption. cbn [negb].
    by apply apply_refused.
Qed.

(** A session: messages applied in order of arrival.  The accepted ones are
    those whose evaluation reports an applied transition. *)
Fixpoint session (p : guardian_node_link_freshness_policy_t)
    (r : guardian_node_link_freshness_runtime_t)
    (ms : list guardian_node_link_pre_freshness_compatible_message_t)
  : list guardian_node_link_pre_freshness_compatible_message_t
    * guardian_node_link_freshness_runtime_t :=
  match ms with
  | [] => ([], r)
  | m :: rest =>
      let '(_, r', e) := guardian_node_link_freshness_evaluate_and_apply
                           (Some p) (Some r) (Some m) (Some zero_evaluation) in
      let '(accepted, rf) := session p (default r r') rest in
      (if ev_transition_applied (default zero_evaluation e) =? 1 then m :: accepted
       else accepted, rf)
  end.

(** What every run of a session guarantees, started in [r] and ended in [r']. *)
Record session_ok (p : guardian_node_link_freshness_policy_t)
    (r : guardian_node_link_freshness_runtime_t)
    (accepted : list guardian_node_link_pre_freshness_compatible_message_t)
    (r' : guardian_node_link_freshness_runtime_t) : Prop := {
  ses_increasing : Sorted Z.lt (rt_accepted_sequence r :: map msg_sequence accepted);
  ses_last : rt_accepted_sequence r' = List.last (map msg_sequence accepted) (rt_accepted_sequence r);
  ses_same : Forall (fun m => msg_epoch m = rt_accepted_epoch r /\
      identity_key (message_freshness_identity m) = identity_key (rt_identity r)) accepted;
  ses_gap : forall l m1 m2 l', accepted = l ++ m1 :: m2 :: l' ->
      msg_sequence m2 <= msg_sequence m1 + pol_max_forward_gap p;
  ses_frame : rt_condition r' = rt_condition r /\ rt_identity r' = rt_identity r /\
      rt_accepted_epoch r' = rt_accepted_epoch r;
  ses_active : accepted <> [] -> rt_condition r = GUARDIAN_NODE_LINK_FRESHNESS_ACTIVE;
  ses_valid : runtime_ok r -> runtime_ok r'
}.

Lemma last_cons_default {A} (l : list A) x d : List.last (x :: l) d = List.last l x.
Proof.
  revert x d. induction l as [|y l IH]; intros x d; [done|].
  change (List.last (x :: y :: l) d) with (List.last (y :: l) d). by rewrite !IH.
Qed.

Lemma session_spec p ms : forall r,
  0 <= pol_max_forward_gap p -> is_u32 (rt_accepted_sequence r) ->
  Forall (fun m => is_u32 (msg_sequence m)) ms ->
  let '(accepted, r') := session p r ms in
  session_ok p r accepted r' /\
  match accepted with
  | m :: _ => msg_sequence m <= rt_accepted_sequence r + pol_max_forward_gap p
  | [] => True
  end.
Proof.
  induction ms as [|m ms IH]; intros r Hg Hr Hms.
  { split; [|done]. constructor; try done.
    - apply Sorted_cons; [apply Sorted_nil|apply HdRel_nil].
    - intros l m1 m2 l' H. by destruct l. }
  apply Forall_cons in Hms as [Hm Hms]. cbn [session].
  destruct (evaluate_and_apply_outcome p r m zero_evaluation Hg (conj Hr Hm))
    as [Hp Hrok Hmok [Fa Fi Fe Fs Fg]| |]; cbn [from_option id].
  2,3: specialize (IH r Hg Hr Hms); by destruct (session p r ms).
  specialize (IH (advanced r m) Hg Hm Hms).
  destruct (session p (advanced r m) ms) as [acc r']. cbn [set_transition_applied ev_transition_applied].
  destruct IH as [[I1 I2 I3 I4 I5 I6 I7] I8].
  cbn [advanced rt_accepted_sequence rt_accepted_epoch rt_identity rt_condition] in *.
  cbn [Z.eqb Pos.eqb]. split; [|assumption]. constructor.
  - cbn [map]. constructor; [assumption|]. by constructor.
  - cbn [map]. by rewrite last_cons_default.
  - constructor; [by split|assumption].
  - intros l m1 m2 l' H. destruct l as [|x l].
    + injection H as -> H. subst acc. exact I8.
    + injection H as _ H. by apply (I4 l m1 m2 l').
  - assumption.
  - intros _. exact Fa.
  - intros _. apply I7. eapply advanced_ok; [exact Hrok| |apply Hr]. by constructor.
Qed.

(** ** Properties *)

Definition example_policy : guardian_node_link_freshness_policy_t := POLICY 16 1.

Definition example_ref (c : Z) : list Z := ref_of [c; 49].

Definition example_identity : guardian_node_link_freshness_identity_t :=
  FRESHNESS_IDENTITY 0x4002 2 21 1 (example_ref 80) (example_ref 81) (example_ref 67).

Definition example_message (epoch sequence : Z)
  : guardian_node_link_pre_freshness_compatible_message_t :=
  COMPATIBLE_MESSAGE
    (AUTH_MESSAGE (NL_FRAME GUARDIAN_NODE_LINK_MESSAGE_HEARTBEAT 0 GUARDIAN_NODE_STATE_ACTIVE 0
                     sequence epoch 0x4002 (replicate 64 0)) 2 21 1)
    (example_ref 80) (example_ref 81) (example_ref 67).

Definition example_runtime : guardian_node_link_freshness_runtime_t :=
  RUNTIME GUARDIAN_NODE_LINK_FRESHNESS_ACTIVE example_identity 0 0 3 100 1 0 1 1.

Lemma example_identity_ok : identity_ok example_identity.
Proof. constructor; try discriminate; reflexivity. Qed.

Lemma example_runtime_ok : runtime_ok example_runtime.
Proof. apply runtime_validate_sound. vm_compute. reflexivity. Qed.

(** Strictly increasing 32-bit numbers: no repetition, and not too many. *)
Lemma increasing_bounded l : forall a,
  Sorted Z.lt (a :: l) -> Forall is_u32 l -> is_u32 a ->
  Forall (Z.lt a) l /\ NoDup l /\ Z.of_nat (length l) <= UINT32_MAX - a.
Proof.
  unfold UINT32_MAX, is_u32. induction l as [|b l IH]; intros a Hs Hl Ha.
  { split; [constructor|]. split; [constructor|]. cbn. lia. }
  apply Forall_cons in Hl as [Hb Hl]. inversion Hs as [|? ? Hs' Hd]; subst.
  inversion Hd; subst. destruct (IH b Hs' Hl Hb) as (H1 & H2 & H3).
  split; [|split].
  - constructor; [assumption|]. eapply Forall_impl; [exact H1|]. cbn. lia.
  - constructor; [|assumption]. intros Hin. rewrite Forall_forall in H1.
    specialize (H1 _ Hin). lia.
  - cbn [length]. lia.
Qed.

Lemma session_subset p ms : forall r (P : guardian_node_link_pre_freshness_compatible_message_t -> Prop),
  Forall P ms -> Forall P (session p r ms).1.
Proof.
  induction ms as [|m ms IH]; intros r P H; [constructor|].
  apply Forall_cons in H as [Hm H]. cbn [session].
  destruct (guardian_node_link_freshness_evaluate_and_apply _ _ _ _) as [[res r1] e].
  specialize (IH (default r r1) P H). destruct (session p (default r r1) ms) as [acc rf].
  cbn [fst] in *. destruct (_ =? 1); [by constructor|assumption].
Qed.

(** C26: A freshness session never accepts a replay.  Start a peer's runtime
    anywhere and apply any messages in any order, under any policy: the
    accepted ones have strictly increasing sequence numbers, all above the
    number accepted before, each within the configured forward gap of the
    previous one, all in the accepted epoch and from the identity the runtime
    is bound to; nothing is accepted unless the runtime was ACTIVE; the runtime
    ends at the last accepted number with condition, identity and epoch
    unchanged, and a valid runtime stays valid.  In particular no sequence
    number is accepted twice, and no run accepts more messages than there are
    numbers left below 2^32. *)
Theorem session_no_replay p r ms :
  0 <= pol_max_forward_gap p -> is_u32 (rt_accepted_sequence r) ->
  Forall (fun m => is_u32 (msg_sequence m)) ms ->
  let '(accepted, r') := session p r ms in
  session_ok p r accepted r' /\
  NoDup (map msg_sequence accepted) /\
  Z.of_nat (length accepted) <= UINT32_MAX - rt_accepted_sequence r.
Proof.
  intros Hg Hr Hms. pose proof (session_spec p ms r Hg Hr Hms) as H.
  pose proof (session_subset p ms r _ Hms) as Hsub.
  destruct (session p r ms) as [acc r']. destruct H as [H _]. cbn [fst] in Hsub.
  split; [exact H|].
  destruct (increasing_bounded (map msg_sequence acc) (rt_accepted_sequence r))
    as (_ & Hnd & Hlen); [apply H| |exact Hr|].
  - by apply Forall_map.
  - rewrite length_map in Hlen. by split.
Qed.

Lemma session_no_replay_witness :
  let ms := [example_message 3 101; example_message 3 101; example_message 3 100;
             example_message 4 102; example_message 3 110; example_message 3 200] in
  map msg_sequence (session example_policy example_runtime ms).1 = [101; 110] /\
  let '(accepted, r') := session example_policy example_runtime ms in
  session_ok example_policy example_runtime accepted r' /\
  NoDup (map msg_sequence accepted) /\
  Z.of_nat (length accepted) <= UINT32_MAX - rt_accepted_sequence example_runtime.
Proof.
  cbv zeta. split; [vm_compute; reflexivity|].
  apply (session_no_replay example_policy example_runtime).
  - cbn. lia.
  - unfold is_u32. cbn. lia.
  - repeat constructor; unfold is_u32; cbn; lia.
Defined.

(** A message is accepted exactly when it is the next one, and only then does
    the runtime change.  For a valid runtime, a configured policy and a
    well-formed message, application succeeds with the evaluation the pure
    evaluator returns; it applies a transition exactly when the runtime is
    ACTIVE, the identity and epoch match, and the sequence lies above the
    accepted one by at most the gap, in exact arithmetic (so an exhausted
    generation, at 2^32 - 1, accepts nothing); the new runtime then records the
    message as observed and accepted and is valid; in every other case the
    runtime is unchanged. *)
Theorem apply_exact p r m e0 :
  policy_ok p -> runtime_ok r -> message_ok m -> sequences_u32 r m ->
  exists e r' applied,
    guardian_node_link_freshness_evaluate (Some p) (Some r) (Some m) (Some e0)
      = (GUARDIAN_NODE_LINK_FRESHNESS_OK, Some e) /\
    guardian_node_link_freshness_evaluate_and_apply (Some p) (Some r) (Some m) (Some e0)
      = (GUARDIAN_NODE_LINK_FRESHNESS_OK, Some r', Some (set_transition_applied applied e)) /\
    runtime_ok r' /\
    (ev_decision e = GUARDIAN_NODE_LINK_FRESHNESS_DECISION_ACCEPT <-> fresh_next p r m) /\
    (fresh_next p r m -> r' = advanced r m /\ applied = 1) /\
    (~ fresh_next p r m -> r' = r /\ applied = 0).
Proof.
  intros Hp Hr Hm Hu. apply message_okb_spec in Hm.
  assert (He : guardian_node_link_freshness_evaluate (Some p) (Some r) (Some m) (Some e0)
               = (GUARDIAN_NODE_LINK_FRESHNESS_OK, Some (evaluation_of p r m))).
  { unfold guardian_node_link_freshness_evaluate. cbn [is_null orb].
    by rewrite evaluate_internal_eq. }
  pose proof (fresh_next_decision p r m Hu) as Hiff.
  exists (evaluation_of p r m). rewrite evaluate_and_apply_eq by assumption.
  destruct (decide (freshness_decision p r m = _)) as [Hd|Hd].
  - apply Hiff in Hd as Hn. exists (advanced r m), 1.
    split; [exact He|]. split; [reflexivity|].
    split; [eapply advanced_ok; [exact Hr|exact Hn|apply Hu]|]. split; [exact Hiff|]. by split.
  - exists r, 0. split; [exact He|]. split; [reflexivity|]. split; [exact Hr|].
    split; [exact Hiff|]. split; [intros Hn; by apply Hiff in Hn|by split].
Qed.

Lemma apply_exact_witness :
  exists e r' applied,
    guardian_node_link_freshness_evaluate (Some example_policy) (Some example_runtime)
      (Some (example_message 3 116)) (Some zero_evaluation)
      = (GUARDIAN_NODE_LINK_FRESHNESS_OK, Some e) /\
    guardian_node_link_freshness_evaluate_and_apply (Some example_policy) (Some example_runtime)
      (Some (example_message 3 116)) (Some zero_evaluation)
      = (GUARDIAN_NODE_LINK_FRESHNESS_OK, Some r', Some (set_transition_applied applied e)) /\
    runtime_ok r' /\
    (ev_decision e = GUARDIAN_NODE_LINK_FRESHNESS_DECISION_ACCEPT <->
     fresh_next example_policy example_runtime (example_message 3 116)) /\
    (fresh_next example_policy example_runtime (example_message 3 116) ->
     r' = advanced example_runtime (example_message 3 116) /\ applied = 1) /\
    (~ fresh_next example_policy example_runtime (example_message 3 116) ->
     r' = example_runtime /\ applied = 0).
Proof.
  apply (apply_exact example_policy example_runtime (example_message 3 116) zero_evaluation).
  - constructor; [reflexivity|]. cbn. lia.
  - apply example_runtime_ok.
  - apply message_okb_spec. vm_compute. reflexivity.
  - split; unfold is_u32; cbn; lia.
Defined.

(** Validation decides the runtime invariant, and inputs outside the contract
    change nothing.  The validator answers OK exactly on runtimes satisfying
    the structural invariant; initialization gives one; and when the policy is
    not configured, the runtime invalid or the message malformed, application
    reports an error, leaves the runtime as it was and clears the evaluation. *)
Theorem freshness_fail_closed p r m e0 :
  0 <= pol_max_forward_gap p -> sequences_u32 r m ->
  (guardian_node_link_freshness_runtime_validate (Some r) = GUARDIAN_NODE_LINK_FRESHNESS_OK
     <-> runtime_ok r) /\
  (exists r0, guardian_node_link_freshness_runtime_init (Some r) = Some r0 /\ runtime_ok r0) /\
  (~ (policy_ok p /\ runtime_ok r /\ message_ok m) ->
   exists err, err <> GUARDIAN_NODE_LINK_FRESHNESS_OK /\
     guardian_node_link_freshness_evaluate_and_apply (Some p) (Some r) (Some m) (Some e0)
     = (err, Some r, Some zero_evaluation)).
Proof.
  intros Hg Hu. split; [|split].
  - split; [apply runtime_validate_sound|apply runtime_validate_complete].
  - eexists. split; [reflexivity|]. by apply runtime_validate_sound.
  - rewrite <- message_okb_spec. intros Hn.
    destruct (evaluate_and_apply_outcome p r m e0 Hg Hu) as [| |err Herr _]; [by destruct Hn..|].
    by exists err.
Qed.

Lemma freshness_fail_closed_witness :
  exists err, err <> GUARDIAN_NODE_LINK_FRESHNESS_OK /\
    guardian_node_link_freshness_evaluate_and_apply (Some (POLICY 16 0)) (Some example_runtime)
      (Some (example_message 3 101)) (Some zero_evaluation)
    = (err, Some example_runtime, Some zero_evaluation).
Proof.
  refine (proj2 (proj2 (freshness_fail_closed (POLICY 16 0) example_runtime
    (example_message 3 101) zero_evaluation _ _)) _).
  - cbn. lia.
  - split; unfold is_u32; cbn; lia.
  - intros [[H _] _]. discriminate H.
Defined.
