(* ===== verification/Persistence.v ===== *)
(** * Persistence transaction

    Model of [firmware/NodeLink/Src/guardian_node_link_freshness_persistence.c]:
    the validation of a continuation and the three-stage commit through a
    persistence provider.  A provider is the record of callbacks of the source;
    its context is a state [S] threaded through the calls, and a callback may
    also (against its contract) change the record it is given, which the code
    detects. *)

From S2P Require Import Prelude CString NodeLink NodeLinkAuth NodeLinkSemantic Freshness.

(** ** Data *)

Inductive guardian_node_link_freshness_persistence_operation_result_t :=
  | GUARDIAN_NODE_LINK_PERSISTENCE_OPERATION_INVALID
  | GUARDIAN_NODE_LINK_PERSISTENCE_OPERATION_OK
  | GUARDIAN_NODE_LINK_PERSISTENCE_OPERATION_UNAVAILABLE
  | GUARDIAN_NODE_LINK_PERSISTENCE_OPERATION_IO_FAILURE
  | GUARDIAN_NODE_LINK_PERSISTENCE_OPERATION_VERIFY_FAILURE
  | GUARDIAN_NODE_LINK_PERSISTENCE_OPERATION_COMMIT_FAILURE
  | GUARDIAN_NODE_LINK_PERSISTENCE_OPERATION_STATE_UNCERTAIN
  | GUARDIAN_NODE_LINK_PERSISTENCE_OPERATION_GENERATION_EXHAUSTED
  | GUARDIAN_NODE_LINK_PERSISTENCE_OPERATION_OTHER (v : Z).

Inductive guardian_node_link_freshness_persistence_transaction_outcome_t :=
  | GUARDIAN_NODE_LINK_PERSISTENCE_TRANSACTION_INVALID
  | GUARDIAN_NODE_LINK_PERSISTENCE_TRANSACTION_COMMITTED
  | GUARDIAN_NODE_LINK_PERSISTENCE_TRANSACTION_ABORTED
  | GUARDIAN_NODE_LINK_PERSISTENCE_TRANSACTION_STATE_UNCERTAIN
  | GUARDIAN_NODE_LINK_PERSISTENCE_TRANSACTION_GENERATION_EXHAUSTED.

Inductive guardian_node_link_freshness_persistence_stage_t :=
  | GUARDIAN_NODE_LINK_PERSISTENCE_STAGE_WRITE
  | GUARDIAN_NODE_LINK_PERSISTENCE_STAGE_VERIFY
  | GUARDIAN_NODE_LINK_PERSISTENCE_STAGE_COMMIT.

#[global] Instance operation_result_eq_dec :
  EqDecision guardian_node_link_freshness_persistence_operation_result_t.
Proof. solve_decision. Defined.
#[global] Instance transaction_outcome_eq_dec :
  EqDecision guardian_node_link_freshness_persistence_transaction_outcome_t.
Proof. solve_decision. Defined.

Local Abbreviation record := guardian_node_link_freshness_persisted_record_t.
Local Abbreviation op_result := guardian_node_link_freshness_persistence_operation_result_t.
Local Abbreviation outcome_t := guardian_node_link_freshness_persistence_transaction_outcome_t.

(** [guardian_node_link_freshness_persistence_provider_t]: the callbacks, with
    NULL pointers, over the provider state [S]. *)
Record guardian_node_link_freshness_persistence_provider_t (S : Type) := PROVIDER {
  prov_load : option (S -> guardian_node_link_freshness_persistence_status_t -> record ->
                op_result * guardian_node_link_freshness_persistence_status_t * record * S);
  prov_write_candidate : option (S -> record -> op_result * record * S);
  prov_verify_candidate : option (S -> record -> op_result * record * S);
  prov_commit_candidate : option (S -> record -> op_result * record * S)
}.

Arguments PROVIDER {S}.
Arguments prov_load {S}.
Arguments prov_write_candidate {S}.
Arguments prov_verify_candidate {S}.
Arguments prov_commit_candidate {S}.

(** ** Comparison and validation *)

Definition guardian_node_link_freshness_persistence_identity_equal
    (left right : option guardian_node_link_freshness_identity_t) : bool :=
  match left, right with
  | Some l, Some r =>
      early negb (fi_sender_node_id l =? fi_sender_node_id r)
            || negb (fi_producer_id l =? fi_producer_id r)
            || negb (fi_key_id l =? fi_key_id r)
            || negb (fi_signature_algorithm l =? fi_signature_algorithm r)
        with false ;;
      early negb (strncmp_eq (fi_producer_semantic_profile_id l)
                    (fi_producer_semantic_profile_id r)
                    GUARDIAN_NODE_LINK_SEMANTIC_REF_CAPACITY) with false ;;
      early negb (strncmp_eq (fi_consumer_semantic_profile_id l)
                    (fi_consumer_semantic_profile_id r)
                    GUARDIAN_NODE_LINK_SEMANTIC_REF_CAPACITY) with false ;;
      early negb (strncmp_eq (fi_compatibility_contract_id l)
                    (fi_compatibility_contract_id r)
                    GUARDIAN_NODE_LINK_SEMANTIC_REF_CAPACITY) with false ;;
      true
  | _, _ => false
  end.

Definition guardian_node_link_freshness_persistence_record_equal
    (left right : option record) : bool :=
  match left, right with
  | Some l, Some r =>
      early negb (rec_schema_version l =? rec_schema_version r)
            || negb (rec_accepted_epoch l =? rec_accepted_epoch r)
            || negb (rec_accepted_sequence l =? rec_accepted_sequence r)
            || negb (rec_record_generation l =? rec_record_generation r)
        with false ;;
      guardian_node_link_freshness_persistence_identity_equal
        (Some (rec_identity l)) (Some (rec_identity r))
  | _, _ => false
  end.

Definition guardian_node_link_freshness_persistence_transition_valid
    (previous_record candidate : option record) : bool :=
  match candidate with
  | None => false
  | Some c =>
      match previous_record with
      | None => true
      | Some p =>
          early negb (rec_accepted_epoch c =? rec_accepted_epoch p) with false ;;
          early rec_accepted_sequence c <=? rec_accepted_sequence p with false ;;
          true
      end
  end.

Definition guardian_node_link_freshness_persistence_result_valid (result : op_result) : bool :=
  match result with
  | GUARDIAN_NODE_LINK_PERSISTENCE_OPERATION_OK
  | GUARDIAN_NODE_LINK_PERSISTENCE_OPERATION_UNAVAILABLE
  | GUARDIAN_NODE_LINK_PERSISTENCE_OPERATION_IO_FAILURE
  | GUARDIAN_NODE_LINK_PERSISTENCE_OPERATION_VERIFY_FAILURE
  | GUARDIAN_NODE_LINK_PERSISTENCE_OPERATION_COMMIT_FAILURE
  | GUARDIAN_NODE_LINK_PERSISTENCE_OPERATION_STATE_UNCERTAIN
  | GUARDIAN_NODE_LINK_PERSISTENCE_OPERATION_GENERATION_EXHAUSTED => true
  | GUARDIAN_NODE_LINK_PERSISTENCE_OPERATION_INVALID
  | GUARDIAN_NODE_LINK_PERSISTENCE_OPERATION_OTHER _ => false
  end.

Definition guardian_node_link_freshness_persistence_result_valid_for_stage
    (stage : guardian_node_link_freshness_persistence_stage_t) (result : op_result) : bool :=
  early negb (guardian_node_link_freshness_persistence_result_valid result) with false ;;
  match stage with
  | GUARDIAN_NODE_LINK_PERSISTENCE_STAGE_WRITE =>
      bool_decide (result = GUARDIAN_NODE_LINK_PERSISTENCE_OPERATION_OK)
      || bool_decide (result = GUARDIAN_NODE_LINK_PERSISTENCE_OPERATION_UNAVAILABLE)
      || bool_decide (result = GUARDIAN_NODE_LINK_PERSISTENCE_OPERATION_IO_FAILURE)
      || bool_decide (result = GUARDIAN_NODE_LINK_PERSISTENCE_OPERATION_STATE_UNCERTAIN)
  | GUARDIAN_NODE_LINK_PERSISTENCE_STAGE_VERIFY =>
      bool_decide (result = GUARDIAN_NODE_LINK_PERSISTENCE_OPERATION_OK)
      || bool_decide (result = GUARDIAN_NODE_LINK_PERSISTENCE_OPERATION_UNAVAILABLE)
      || bool_decide (result = GUARDIAN_NODE_LINK_PERSISTENCE_OPERATION_IO_FAILURE)
      || bool_decide (result = GUARDIAN_NODE_LINK_PERSISTENCE_OPERATION_VERIFY_FAILURE)
      || bool_decide (result = GUARDIAN_NODE_LINK_PERSISTENCE_OPERATION_STATE_UNCERTAIN)
  | GUARDIAN_NODE_LINK_PERSISTENCE_STAGE_COMMIT =>
      bool_decide (result = GUARDIAN_NODE_LINK_PERSISTENCE_OPERATION_OK)
      || bool_decide (result = GUARDIAN_NODE_LINK_PERSISTENCE_OPERATION_UNAVAILABLE)
      || bool_decide (result = GUARDIAN_NODE_LINK_PERSISTENCE_OPERATION_IO_FAILURE)
      || bool_decide (result = GUARDIAN_NODE_LINK_PERSISTENCE_OPERATION_COMMIT_FAILURE)
      || bool_decide (result = GUARDIAN_NODE_LINK_PERSISTENCE_OPERATION_STATE_UNCERTAIN)
  end.

Definition guardian_node_link_freshness_persistence_validate_record
    (rec : option record) (expected_identity : option guardian_node_link_freshness_identity_t)
  : op_result :=
  early is_null rec with GUARDIAN_NODE_LINK_PERSISTENCE_OPERATION_INVALID ;;
  let '(result, classification) :=
    guardian_node_link_freshness_persistence_classify
      GUARDIAN_NODE_LINK_PERSISTENCE_STATUS_VALID_PERSISTED_STATE rec expected_identity
      (Some GUARDIAN_NODE_LINK_PERSISTENCE_CLASSIFICATION_INVALID) in
  early negb (bool_decide (result = GUARDIAN_NODE_LINK_FRESHNESS_OK))
    with GUARDIAN_NODE_LINK_PERSISTENCE_OPERATION_INVALID ;;
  early negb (bool_decide (classification
      = Some GUARDIAN_NODE_LINK_PERSISTENCE_CLASSIFICATION_VALIDATED_RECORD_CANDIDATE))
    with GUARDIAN_NODE_LINK_PERSISTENCE_OPERATION_INVALID ;;
  GUARDIAN_NODE_LINK_PERSISTENCE_OPERATION_OK.

(** Returns the result and [*next_generation]. *)
Definition guardian_node_link_freshness_persistence_next_generation
    (previous_record : option record) (next_generation : option Z) : op_result * option Z :=
  match next_generation with
  | None => (GUARDIAN_NODE_LINK_PERSISTENCE_OPERATION_INVALID, None)
  | Some _ =>
      match previous_record with
      | None => (GUARDIAN_NODE_LINK_PERSISTENCE_OPERATION_OK, Some 0)
      | Some p =>
          early rec_record_generation p =? UINT32_MAX
            with (GUARDIAN_NODE_LINK_PERSISTENCE_OPERATION_GENERATION_EXHAUSTED, Some 0) ;;
          (GUARDIAN_NODE_LINK_PERSISTENCE_OPERATION_OK, Some (u32 (rec_record_generation p + 1)))
      end
  end.

(** Returns the result and [*outcome]. *)
Definition guardian_node_link_freshness_persistence_handle_stage_result
    (stage : guardian_node_link_freshness_persistence_stage_t) (result : op_result)
    (outcome : option outcome_t) : op_result * option outcome_t :=
  match outcome with
  | None => (GUARDIAN_NODE_LINK_PERSISTENCE_OPERATION_INVALID, None)
  | Some _ =>
      early negb (guardian_node_link_freshness_persistence_result_valid_for_stage stage result)
        with (GUARDIAN_NODE_LINK_PERSISTENCE_OPERATION_INVALID,
              Some GUARDIAN_NODE_LINK_PERSISTENCE_TRANSACTION_STATE_UNCERTAIN) ;;
      early bool_decide (result = GUARDIAN_NODE_LINK_PERSISTENCE_OPERATION_STATE_UNCERTAIN)
        with (result, Some GUARDIAN_NODE_LINK_PERSISTENCE_TRANSACTION_STATE_UNCERTAIN) ;;
      early negb (bool_decide (result = GUARDIAN_NODE_LINK_PERSISTENCE_OPERATION_OK))
        with (result, Some GUARDIAN_NODE_LINK_PERSISTENCE_TRANSACTION_ABORTED) ;;
      (GUARDIAN_NODE_LINK_PERSISTENCE_OPERATION_OK, outcome)
  end.

(** ** Transaction *)

Section transaction.
Context {S : Type}.

(** One stage: the callback on the transaction copy, the classification of
    its result, and the two checks that the copy still is the candidate.
    [inl] is an early return of [transact_commit]. *)
Definition transaction_stage (stage : guardian_node_link_freshness_persistence_stage_t)
    (callback : S -> record -> op_result * record * S)
    (expected_identity : option guardian_node_link_freshness_identity_t)
    (validated_candidate transaction_candidate : record) (outcome : option outcome_t) (s : S)
  : (op_result * option outcome_t * S) + (record * option outcome_t * S) :=
  let '(result, transaction_candidate, s) := callback s transaction_candidate in
  let '(result, outcome) :=
    guardian_node_link_freshness_persistence_handle_stage_result stage result outcome in
  early negb (bool_decide (result = GUARDIAN_NODE_LINK_PERSISTENCE_OPERATION_OK))
    with inl (result, outcome, s) ;;
  early negb (guardian_node_link_freshness_persistence_record_equal
                (Some transaction_candidate) (Some validated_candidate))
    with inl (GUARDIAN_NODE_LINK_PERSISTENCE_OPERATION_INVALID,
              Some GUARDIAN_NODE_LINK_PERSISTENCE_TRANSACTION_STATE_UNCERTAIN, s) ;;
  early negb (bool_decide (guardian_node_link_freshness_persistence_validate_record
                (Some transaction_candidate) expected_identity
                = GUARDIAN_NODE_LINK_PERSISTENCE_OPERATION_OK))
    with inl (GUARDIAN_NODE_LINK_PERSISTENCE_OPERATION_INVALID,
              Some GUARDIAN_NODE_LINK_PERSISTENCE_TRANSACTION_STATE_UNCERTAIN, s) ;;
  inr (transaction_candidate, outcome, s).

(** The checks made before any callback: the result and the outcome of the
    early return, or [None] to go on. *)
Definition transaction_precheck (previous_record : option record)
    (expected_identity : option guardian_node_link_freshness_identity_t) (candidate : record)
  : option (op_result * outcome_t) :=
  let ok := GUARDIAN_NODE_LINK_PERSISTENCE_OPERATION_OK in
  let aborted := GUARDIAN_NODE_LINK_PERSISTENCE_TRANSACTION_ABORTED in
  let result := guardian_node_link_freshness_persistence_validate_record
                  previous_record expected_identity in
  early negb (is_null previous_record) && negb (bool_decide (result = ok))
    with Some (result, aborted) ;;
  let result := guardian_node_link_freshness_persistence_validate_record
                  (Some candidate) expected_identity in
  early negb (bool_decide (result = ok)) with Some (result, aborted) ;;
  let '(result, expected_generation) :=
    guardian_node_link_freshness_persistence_next_generation previous_record (Some 0) in
  early bool_decide (result = GUARDIAN_NODE_LINK_PERSISTENCE_OPERATION_GENERATION_EXHAUSTED)
    with Some (result, GUARDIAN_NODE_LINK_PERSISTENCE_TRANSACTION_GENERATION_EXHAUSTED) ;;
  early negb (bool_decide (result = ok)) with Some (result, aborted) ;;
  early negb (bool_decide (Some (rec_record_generation candidate) = expected_generation))
    with Some (GUARDIAN_NODE_LINK_PERSISTENCE_OPERATION_INVALID, aborted) ;;
  early negb (guardian_node_link_freshness_persistence_transition_valid
                previous_record (Some candidate))
    with Some (GUARDIAN_NODE_LINK_PERSISTENCE_OPERATION_INVALID, aborted) ;;
  None.

Definition guardian_node_link_freshness_persistence_transact_commit
    (provider : option (guardian_node_link_freshness_persistence_provider_t S))
    (previous_record : option record)
    (expected_identity : option guardian_node_link_freshness_identity_t)
    (candidate : option record) (outcome : option outcome_t) (s : S)
  : op_result * option outcome_t * S :=
  let outcome := match outcome with
                 | None => None
                 | Some _ => Some GUARDIAN_NODE_LINK_PERSISTENCE_TRANSACTION_INVALID
                 end in
  match provider, expected_identity, candidate, outcome with
  | Some prov, Some _, Some c, Some _ =>
      match prov_load prov, prov_write_candidate prov, prov_verify_candidate prov,
            prov_commit_candidate prov with
      | Some _, Some write, Some verify, Some commit =>
          match transaction_precheck previous_record expected_identity c with
          | Some (result, o) => (result, Some o, s)
          | None =>
              let validated := c in
              match transaction_stage GUARDIAN_NODE_LINK_PERSISTENCE_STAGE_WRITE write
                      expected_identity validated validated outcome s with
              | inl r => r
              | inr (tc, outcome, s) =>
                  match transaction_stage GUARDIAN_NODE_LINK_PERSISTENCE_STAGE_VERIFY verify
                          expected_identity validated tc outcome s with
                  | inl r => r
                  | inr (tc, outcome, s) =>
                      match transaction_stage GUARDIAN_NODE_LINK_PERSISTENCE_STAGE_COMMIT commit
                              expected_identity validated tc outcome s with
                      | inl r => r
                      | inr (_, _, s) =>
                          (GUARDIAN_NODE_LINK_PERSISTENCE_OPERATION_OK,
                           Some GUARDIAN_NODE_LINK_PERSISTENCE_TRANSACTION_COMMITTED, s)
                      end
                  end
              end
          end
      | _, _, _, _ => (GUARDIAN_NODE_LINK_PERSISTENCE_OPERATION_INVALID, outcome, s)
      end
  | _, _, _, _ => (GUARDIAN_NODE_LINK_PERSISTENCE_OPERATION_INVALID, outcome, s)
  end.
End transaction.

(** ** Records *)

(** A record a valid provider may hold for the identity. *)
Record record_ok (expected : guardian_node_link_freshness_identity_t) (rec : record) : Prop := {
  reco_schema : rec_schema_version rec = GUARDIAN_NODE_LINK_FRESHNESS_PERSISTENCE_SCHEMA_VERSION;
  reco_expected : identity_ok expected;
  reco_identity : identity_ok (rec_identity rec);
  reco_same : identity_key (rec_identity rec) = identity_key expected;
  reco_epoch : rec_accepted_epoch rec <> 0;
  reco_sequence : rec_accepted_sequence rec <> 0
}.

Lemma validate_record_spec rec expected :
  guardian_node_link_freshness_persistence_validate_record (Some rec) (Some expected)
    = GUARDIAN_NODE_LINK_PERSISTENCE_OPERATION_OK <-> record_ok expected rec.
Proof.
  unfold guardian_node_link_freshness_persistence_validate_record,
    guardian_node_link_freshness_persistence_classify. cbn [is_null orb].
  destruct (guardian_node_link_freshness_identity_structurally_valid (Some expected)) eqn:E0.
  2:{ split; [discriminate|]. intros [_ H _ _ _ _].
      apply identity_structurally_valid_spec in H. congruence. }
  apply identity_structurally_valid_spec in E0. cbn [negb].
  destruct (Z.eqb_spec (rec_schema_version rec)
    GUARDIAN_NODE_LINK_FRESHNESS_PERSISTENCE_SCHEMA_VERSION) as [Es|Es]; cbn [negb].
  2:{ split; [discriminate|]. by intros [H _ _ _ _ _]. }
  destruct (guardian_node_link_freshness_identity_structurally_valid (Some (rec_identity rec)))
    eqn:E1; cbn [negb].
  2:{ split; [discriminate|]. intros [_ _ H _ _ _].
      apply identity_structurally_valid_spec in H. congruence. }
  apply identity_structurally_valid_spec in E1.
  destruct (guardian_node_link_freshness_identity_equal (Some (rec_identity rec)) (Some expected))
    eqn:E2; cbn [negb].
  2:{ split; [discriminate|]. intros [_ _ _ H _ _]. apply identity_equal_key in H. congruence. }
  apply identity_equal_key in E2.
  destruct (Z.eqb_spec (rec_accepted_epoch rec) 0) as [E3|E3]; cbn [orb].
  { split; [discriminate|]. by intros [_ _ _ _ H _]. }
  destruct (Z.eqb_spec (rec_accepted_sequence rec) 0) as [E4|E4].
  { split; [discriminate|]. by intros [_ _ _ _ _ H]. }
  rewrite !bool_decide_true by reflexivity. cbn [negb].
  split; [|reflexivity]. intros _. constructor; assumption.
Qed.

Lemma persistence_identity_equal_eq l r :
  guardian_node_link_freshness_persistence_identity_equal l r
  = guardian_node_link_freshness_identity_equal l r.
Proof. reflexivity. Qed.

(** What the comparison of records looks at. *)
Definition record_key (r : record) :=
  (rec_schema_version r, rec_accepted_epoch r, rec_accepted_sequence r,
   rec_record_generation r, identity_key (rec_identity r)).

Lemma record_equal_key l r :
  guardian_node_link_freshness_persistence_record_equal (Some l) (Some r) = true <->
  record_key l = record_key r.
Proof.
  unfold guardian_node_link_freshness_persistence_record_equal, record_key.
  rewrite persistence_identity_equal_eq. destruct (_ || _) eqn:E.
  - split; [discriminate|]. intros [= H1 H2 H3 H4 _].
    by rewrite H1, H2, H3, H4, !Z.eqb_refl in E.
  - rewrite !orb_false_iff, !negb_false_iff, !Z.eqb_eq in E.
    destruct E as [[[-> ->] ->] ->]. rewrite identity_equal_key.
    split; [by intros ->|]. intros H. by apply pair_equal_spec in H as [_ H].
Qed.

(** The candidate is the continuation of the previous record. *)
Record continuation_ok (expected : guardian_node_link_freshness_identity_t)
    (previous : option record) (candidate : record) : Prop := {
  cont_candidate : record_ok expected candidate;
  cont_previous : forall p, previous = Some p -> record_ok expected p /\
    rec_record_generation candidate = rec_record_generation p + 1 /\
    rec_accepted_epoch candidate = rec_accepted_epoch p /\
    rec_accepted_sequence p < rec_accepted_sequence candidate;
  cont_first : previous = None -> rec_record_generation candidate = 0
}.

Definition generation_u32 (previous : option record) : Prop :=
  forall p, previous = Some p -> is_u32 (rec_record_generation p).

Definition exhausted (previous : option record) : Prop :=
  exists p, previous = Some p /\ rec_record_generation p = UINT32_MAX.

Lemma validate_record_not_ok rec expected :
  ~ record_ok expected rec ->
  guardian_node_link_freshness_persistence_validate_record (Some rec) (Some expected)
    = GUARDIAN_NODE_LINK_PERSISTENCE_OPERATION_INVALID.
Proof.
  intros Hn. rewrite <- validate_record_spec in Hn.
  unfold guardian_node_link_freshness_persistence_validate_record in *. cbn [is_null] in *.
  destruct (guardian_node_link_freshness_persistence_classify _ _ _ _) as [res cl].
  destruct (negb (bool_decide (res = _))); [reflexivity|].
  destruct (negb (bool_decide (cl = _))); [reflexivity|]. by destruct Hn.
Qed.

(** The checks before the callbacks decide [continuation_ok]. *)
Lemma precheck_spec expected previous candidate :
  generation_u32 previous -> is_u32 (rec_record_generation candidate) ->
  match transaction_precheck previous (Some expected) candidate with
  | None => continuation_ok expected previous candidate
  | Some (result, outcome) =>
      ~ continuation_ok expected previous candidate /\
      result <> GUARDIAN_NODE_LINK_PERSISTENCE_OPERATION_OK /\
      (outcome = GUARDIAN_NODE_LINK_PERSISTENCE_TRANSACTION_ABORTED \/
       outcome = GUARDIAN_NODE_LINK_PERSISTENCE_TRANSACTION_GENERATION_EXHAUSTED /\
       exhausted previous)
  end.
Proof.
  intros Hg Hcg. unfold transaction_precheck.
  destruct (negb (is_null previous) && _) eqn:E0.
  { apply andb_true_iff in E0 as [E1 E2]. apply negb_true_iff, bool_decide_eq_false in E2.
    destruct previous as [p|]; [|discriminate E1]. split; [|split; [exact E2|by left]].
    intros [_ Hp _]. destruct (Hp p eq_refl) as [Hp' _]. by apply E2, validate_record_spec. }
  assert (Hprev : forall p, previous = Some p -> record_ok expected p).
  { intros p ->. cbn [is_null negb andb] in E0. apply negb_false_iff, bool_decide_eq_true in E0.
    by apply validate_record_spec. }
  clear E0. destruct (negb (bool_decide _)) eqn:E1.
  { apply negb_true_iff, bool_decide_eq_false in E1. split; [|split; [exact E1|by left]].
    intros [Hc _ _]. by apply E1, validate_record_spec. }
  apply negb_false_iff, bool_decide_eq_true, validate_record_spec in E1.
  destruct previous as [p|]; cbn [guardian_node_link_freshness_persistence_next_generation].
  - specialize (Hg p eq_refl). destruct (Z.eqb_spec (rec_record_generation p) UINT32_MAX) as [Em|Em].
    { rewrite bool_decide_true by reflexivity. split; [|split; [discriminate|right]].
      - intros [_ Hp _]. destruct (Hp p eq_refl) as (_ & Hgen & _).
        unfold is_u32, UINT32_MAX in *. lia.
      - split; [reflexivity|]. by exists p. }
    rewrite !(bool_decide_false (GUARDIAN_NODE_LINK_PERSISTENCE_OPERATION_OK = _)) by discriminate.
    rewrite u32_id by (unfold is_u32, UINT32_MAX in *; lia).
    rewrite (bool_decide_true (GUARDIAN_NODE_LINK_PERSISTENCE_OPERATION_OK = _)) by reflexivity.
    cbn [negb].
    destruct (negb (bool_decide (Some _ = Some _))) eqn:E2.
    { apply negb_true_iff, bool_decide_eq_false in E2. split; [|split; [discriminate|by left]].
      intros [_ Hp _]. destruct (Hp p eq_refl) as (_ & Hgen & _). congruence. }
    apply negb_false_iff, bool_decide_eq_true in E2. injection E2 as E2.
    cbn [guardian_node_link_freshness_persistence_transition_valid].
    destruct (Z.eqb_spec (rec_accepted_epoch candidate) (rec_accepted_epoch p)) as [E3|E3]; cbn [negb].
    2:{ split; [|split; [discriminate|by left]]. intros [_ Hp _].
        by destruct (Hp p eq_refl) as (_ & _ & ? & _). }
    destruct (Z.leb_spec (rec_accepted_sequence candidate) (rec_accepted_sequence p)) as [E4|E4].
    { split; [|split; [discriminate|by left]]. intros [_ Hp _].
      destruct (Hp p eq_refl) as (_ & _ & _ & ?). lia. }
    constructor; [exact E1| |discriminate]. intros q [= <-]. by auto.
  - rewrite (bool_decide_false (GUARDIAN_NODE_LINK_PERSISTENCE_OPERATION_OK = _)) by discriminate.
    rewrite (bool_decide_true (GUARDIAN_NODE_LINK_PERSISTENCE_OPERATION_OK = _)) by reflexivity.
    cbn [negb]. destruct (negb (bool_decide (Some _ = Some _))) eqn:E2.
    { apply negb_true_iff, bool_decide_eq_false in E2. split; [|split; [discriminate|by left]].
      intros [_ _ Hf]. rewrite Hf in E2 by reflexivity. by apply E2. }
    apply negb_false_iff, bool_decide_eq_true in E2. injection E2 as E2.
    constructor; [exact E1|discriminate|]. by intros _.
Qed.

(** ** Stages *)

Section stages.
Context {S : Type} (expected : guardian_node_link_freshness_identity_t) (c : record).

Local Abbreviation callback_t := (S -> record -> op_result * record * S).

(** The callback answered OK and left the candidate alone. *)
Definition stage_passes (callback : callback_t) (s : S) (tc : record) (s' : S) (tc' : record)
  : Prop :=
  callback s tc = (GUARDIAN_NODE_LINK_PERSISTENCE_OPERATION_OK, tc', s') /\
  record_key tc' = record_key c /\ record_ok expected tc'.

(** The callback reported a failure its stage may report. *)
Definition stage_aborts stage (callback : callback_t) (s : S) (tc : record)
    (result : op_result) (s' : S) : Prop :=
  exists tc', callback s tc = (result, tc', s') /\
  guardian_node_link_freshness_persistence_result_valid_for_stage stage result = true /\
  result <> GUARDIAN_NODE_LINK_PERSISTENCE_OPERATION_OK /\
  result <> GUARDIAN_NODE_LINK_PERSISTENCE_OPERATION_STATE_UNCERTAIN.

(** The callback reported uncertainty, answered outside its vocabulary, or
    changed the candidate. *)
Definition stage_uncertain stage (callback : callback_t) (s : S) (tc : record) (s' : S) : Prop :=
  exists answer tc', callback s tc = (answer, tc', s') /\
  (answer = GUARDIAN_NODE_LINK_PERSISTENCE_OPERATION_STATE_UNCERTAIN \/
   guardian_node_link_freshness_persistence_result_valid_for_stage stage answer = false \/
   record_key tc' <> record_key c \/ ~ record_ok expected tc').

Lemma transaction_stage_spec stage (callback : callback_t) tc o s :
  match transaction_stage stage callback (Some expected) c tc (Some o) s with
  | inr (tc', o', s') => stage_passes callback s tc s' tc' /\ o' = Some o
  | inl (result, o', s') =>
      result <> GUARDIAN_NODE_LINK_PERSISTENCE_OPERATION_OK /\
      ((stage_aborts stage callback s tc result s' /\
        o' = Some GUARDIAN_NODE_LINK_PERSISTENCE_TRANSACTION_ABORTED) \/
       (stage_uncertain stage callback s tc s' /\
        o' = Some GUARDIAN_NODE_LINK_PERSISTENCE_TRANSACTION_STATE_UNCERTAIN))
  end.
Proof.
  unfold transaction_stage, guardian_node_link_freshness_persistence_handle_stage_result.
  destruct (callback s tc) as [[answer tc'] s'] eqn:Ecb.
  destruct (guardian_node_link_freshness_persistence_result_valid_for_stage stage answer) eqn:Ev;
    cbn [negb].
  2:{ rewrite bool_decide_false by discriminate. cbn [negb]. split; [discriminate|].
      right. split; [|reflexivity]. exists answer, tc'. by auto. }
  destruct (bool_decide_reflect (answer = GUARDIAN_NODE_LINK_PERSISTENCE_OPERATION_STATE_UNCERTAIN))
    as [->|Hu].
  { rewrite bool_decide_false by discriminate. cbn [negb]. split; [discriminate|].
    right. split; [|reflexivity]. eexists _, tc'. by split; [exact Ecb|left]. }
  destruct (bool_decide_reflect (answer = GUARDIAN_NODE_LINK_PERSISTENCE_OPERATION_OK))
    as [->|Hok]; cbn [negb].
  2:{ rewrite bool_decide_false by assumption. cbn [negb]. split; [exact Hok|].
      left. split; [|reflexivity]. by exists tc'. }
  rewrite bool_decide_true by reflexivity. cbn [negb].
  destruct (guardian_node_link_freshness_persistence_record_equal _ _) eqn:Er; cbn [negb].
  2:{ split; [discriminate|]. right. split; [|reflexivity]. eexists _, tc'.
      split; [exact Ecb|]. right; right; left. rewrite <- record_equal_key. congruence. }
  apply record_equal_key in Er.
  destruct (bool_decide_reflect (guardian_node_link_freshness_persistence_validate_record
    (Some tc') (Some expected) = GUARDIAN_NODE_LINK_PERSISTENCE_OPERATION_OK)) as [Hv|Hv];
    cbn [negb].
  - split; [|reflexivity]. split; [exact Ecb|]. split; [exact Er|]. by apply validate_record_spec.
  - split; [discriminate|]. right. split; [|reflexivity]. eexists _, tc'.
    split; [exact Ecb|]. right; right; right. by rewrite <- validate_record_spec.
Qed.

Lemma transaction_stage_passes stage (callback : callback_t) tc o s s' tc' :
  stage_passes callback s tc s' tc' ->
  transaction_stage stage callback (Some expected) c tc (Some o) s = inr (tc', Some o, s').
Proof.
  intros (Hcb & Hk & Hr). unfold transaction_stage. rewrite Hcb.
  unfold guardian_node_link_freshness_persistence_handle_stage_result.
  apply record_equal_key in Hk. apply validate_record_spec in Hr.
  replace (guardian_node_link_freshness_persistence_result_valid_for_stage stage
    GUARDIAN_NODE_LINK_PERSISTENCE_OPERATION_OK) with true by (by destruct stage).
  rewrite (bool_decide_false (GUARDIAN_NODE_LINK_PERSISTENCE_OPERATION_OK = _)) by discriminate.
  rewrite !(bool_decide_true (GUARDIAN_NODE_LINK_PERSISTENCE_OPERATION_OK = _)) by reflexivity.
  by rewrite Hk, bool_decide_true by exact Hr.
Qed.
End stages.

(** ** The transaction as a protocol *)

Section protocol.
Context {S : Type} (prov : guardian_node_link_freshness_persistence_provider_t S).
Context (write verify commit : S -> record -> op_result * record * S).
Context (expected : guardian_node_link_freshness_identity_t) (previous : option record) (c : record).

(** The callbacks of a provider with no missing one. *)
Definition provider_callbacks : Prop :=
  is_Some (prov_load prov) /\ prov_write_candidate prov = Some write /\
  prov_verify_candidate prov = Some verify /\ prov_commit_candidate prov = Some commit.

Local Abbreviation passes := (stage_passes expected c).

(** What a transaction may do, from provider state [s]. *)
Inductive transacts (s : S) : op_result * option outcome_t * S -> Prop :=
  | tx_refused result outcome :
      ~ continuation_ok expected previous c ->
      result <> GUARDIAN_NODE_LINK_PERSISTENCE_OPERATION_OK ->
      outcome = GUARDIAN_NODE_LINK_PERSISTENCE_TRANSACTION_ABORTED \/
      outcome = GUARDIAN_NODE_LINK_PERSISTENCE_TRANSACTION_GENERATION_EXHAUSTED /\
      exhausted previous ->
      transacts s (result, Some outcome, s)
  | tx_stopped stage callback s1 tc result outcome s2 :
      continuation_ok expected previous c ->
      match stage with
      | GUARDIAN_NODE_LINK_PERSISTENCE_STAGE_WRITE =>
          callback = write /\ s1 = s /\ tc = c
      | GUARDIAN_NODE_LINK_PERSISTENCE_STAGE_VERIFY =>
          callback = verify /\ passes write s c s1 tc
      | GUARDIAN_NODE_LINK_PERSISTENCE_STAGE_COMMIT =>
          callback = commit /\ exists sv tv, passes write s c sv tv /\ passes verify sv tv s1 tc
      end ->
      result <> GUARDIAN_NODE_LINK_PERSISTENCE_OPERATION_OK ->
      (stage_aborts stage callback s1 tc result s2 /\
       outcome = GUARDIAN_NODE_LINK_PERSISTENCE_TRANSACTION_ABORTED) \/
      (stage_uncertain expected c stage callback s1 tc s2 /\
       outcome = GUARDIAN_NODE_LINK_PERSISTENCE_TRANSACTION_STATE_UNCERTAIN) ->
      transacts s (result, Some outcome, s2)
  | tx_committed s1 t1 s2 t2 s3 t3 :
      continuation_ok expected previous c ->
      passes write s c s1 t1 -> passes verify s1 t1 s2 t2 -> passes commit s2 t2 s3 t3 ->
      transacts s (GUARDIAN_NODE_LINK_PERSISTENCE_OPERATION_OK,
                   Some GUARDIAN_NODE_LINK_PERSISTENCE_TRANSACTION_COMMITTED, s3).

Lemma transact_commit_transacts o s :
  provider_callbacks -> generation_u32 previous -> is_u32 (rec_record_generation c) ->
  transacts s (guardian_node_link_freshness_persistence_transact_commit
                 (Some prov) previous (Some expected) (Some c) (Some o) s).
Proof.
  intros ([load Hl] & Hw & Hv & Hc) Hg Hcg.
  unfold guardian_node_link_freshness_persistence_transact_commit. rewrite Hl, Hw, Hv, Hc.
  pose proof (precheck_spec expected previous c Hg Hcg) as Hpre.
  destruct (transaction_precheck previous (Some expected) c) as [[result outcome]|].
  { destruct Hpre as (H1 & H2 & H3). by apply tx_refused. }
  set (inv := GUARDIAN_NODE_LINK_PERSISTENCE_TRANSACTION_INVALID).
  pose proof (transaction_stage_spec expected c GUARDIAN_NODE_LINK_PERSISTENCE_STAGE_WRITE
    write c inv s) as H1.
  destruct (transaction_stage GUARDIAN_NODE_LINK_PERSISTENCE_STAGE_WRITE _ _ _ _ _ _)
    as [[[r1 o1] s1]|[[t1 o1] s1]].
  { destruct H1 as [Hr [[Ha ->]|[Ha ->]]];
      (eapply (tx_stopped s GUARDIAN_NODE_LINK_PERSISTENCE_STAGE_WRITE); [exact Hpre|done|exact Hr|]);
      [left|right]; by split. }
  destruct H1 as [P1 ->].
  pose proof (transaction_stage_spec expected c GUARDIAN_NODE_LINK_PERSISTENCE_STAGE_VERIFY
    verify t1 inv s1) as H2.
  destruct (transaction_stage GUARDIAN_NODE_LINK_PERSISTENCE_STAGE_VERIFY _ _ _ _ _ _)
    as [[[r2 o2] s2]|[[t2 o2] s2]].
  { destruct H2 as [Hr [[Ha ->]|[Ha ->]]];
      (eapply (tx_stopped s GUARDIAN_NODE_LINK_PERSISTENCE_STAGE_VERIFY);
        [exact Hpre|split; [reflexivity|exact P1]|exact Hr|]);
      [left|right]; by split. }
  destruct H2 as [P2 ->].
  pose proof (transaction_stage_spec expected c GUARDIAN_NODE_LINK_PERSISTENCE_STAGE_COMMIT
    commit t2 inv s2) as H3.
  destruct (transaction_stage GUARDIAN_NODE_LINK_PERSISTENCE_STAGE_COMMIT _ _ _ _ _ _)
    as [[[r3 o3] s3]|[[t3 o3] s3]].
  { destruct H3 as [Hr [[Ha ->]|[Ha ->]]];
      (eapply (tx_stopped s GUARDIAN_NODE_LINK_PERSISTENCE_STAGE_COMMIT);
        [exact Hpre|split; [reflexivity|exists s1, t1; split; [exact P1|exact P2]]|exact Hr|]);
      [left|right]; by split. }
  destruct H3 as [P3 _]. by eapply tx_committed.
Qed.

Lemma transact_commit_commits o s s1 t1 s2 t2 s3 t3 :
  provider_callbacks -> generation_u32 previous -> is_u32 (rec_record_generation c) ->
  continuation_ok expected previous c ->
  passes write s c s1 t1 -> passes verify s1 t1 s2 t2 -> passes commit s2 t2 s3 t3 ->
  guardian_node_link_freshness_persistence_transact_commit
    (Some prov) previous (Some expected) (Some c) (Some o) s
  = (GUARDIAN_NODE_LINK_PERSISTENCE_OPERATION_OK,
     Some GUARDIAN_NODE_LINK_PERSISTENCE_TRANSACTION_COMMITTED, s3).
Proof.
  intros ([load Hl] & Hw & Hv & Hc) Hg Hcg Hcont P1 P2 P3.
  unfold guardian_node_link_freshness_persistence_transact_commit. rewrite Hl, Hw, Hv, Hc.
  pose proof (precheck_spec expected previous c Hg Hcg) as Hpre.
  destruct (transaction_precheck previous (Some expected) c) as [[result outcome]|];
    [by destruct Hpre|].
  rewrite (transaction_stage_passes expected c _ write c _ s s1 t1 P1).
  rewrite (transaction_stage_passes expected c _ verify t1 _ s1 s2 t2 P2).
  by rewrite (transaction_stage_passes expected c _ commit t2 _ s2 s3 t3 P3).
Qed.
End protocol.

(** ** Properties *)

(** A provider for the examples: the staged and the stored record. *)
Definition example_store : Type := option record * option record.

Definition example_provider : guardian_node_link_freshness_persistence_provider_t example_store :=
  PROVIDER
    (Some (fun s st r => match s.2 with
       | Some x => (GUARDIAN_NODE_LINK_PERSISTENCE_OPERATION_OK,
                    GUARDIAN_NODE_LINK_PERSISTENCE_STATUS_VALID_PERSISTED_STATE, x, s)
       | None => (GUARDIAN_NODE_LINK_PERSISTENCE_OPERATION_OK,
                  GUARDIAN_NODE_LINK_PERSISTENCE_STATUS_NO_PERSISTED_STATE, r, s)
       end))
    (Some (fun s c => (GUARDIAN_NODE_LINK_PERSISTENCE_OPERATION_OK, c, (Some c, s.2))))
    (Some (fun s c => (if bool_decide (s.1 = Some c)
                       then GUARDIAN_NODE_LINK_PERSISTENCE_OPERATION_OK
                       else GUARDIAN_NODE_LINK_PERSISTENCE_OPERATION_VERIFY_FAILURE, c, s)))
    (Some (fun s c => (GUARDIAN_NODE_LINK_PERSISTENCE_OPERATION_OK, c, (None, s.1)))).

Definition example_write (s : example_store) (c : record) :=
  (GUARDIAN_NODE_LINK_PERSISTENCE_OPERATION_OK, c, (Some c, s.2)).
Definition example_verify (s : example_store) (c : record) :=
  (if bool_decide (s.1 = Some c) then GUARDIAN_NODE_LINK_PERSISTENCE_OPERATION_OK
   else GUARDIAN_NODE_LINK_PERSISTENCE_OPERATION_VERIFY_FAILURE, c, s).
Definition example_commit (s : example_store) (c : record) :=
  (GUARDIAN_NODE_LINK_PERSISTENCE_OPERATION_OK, c, (@None record, s.1)).

Definition example_record (sequence generation : Z) : record :=
  RECORD 1 example_identity 3 sequence generation.

Lemma example_record_ok sequence generation :
  sequence <> 0 -> record_ok example_identity (example_record sequence generation).
Proof.
  intros H. constructor; cbn [example_record rec_identity rec_accepted_epoch rec_accepted_sequence];
    try apply example_identity_ok; first [reflexivity|discriminate|exact H].
Qed.

Lemma example_continuation :
  continuation_ok example_identity (Some (example_record 100 7)) (example_record 105 8).
Proof.
  constructor; [by apply example_record_ok| |discriminate].
  intros p [= <-]. split; [by apply example_record_ok|]. cbn. lia.
Qed.

(** A record is committed exactly when it continues the previous one and the
    provider wrote, verified and committed it unchanged, in that order.  The
    result OK, the outcome COMMITTED and the existence of such a chain of
    callbacks (each answering OK, each leaving the candidate as it was given)
    are equivalent; a candidate that is not the continuation (same identity and
    epoch, strictly higher sequence, next generation without wrap-around) never
    reaches the provider. *)
Theorem transaction_committed_iff {S : Type}
    (prov : guardian_node_link_freshness_persistence_provider_t S) write verify commit
    expected previous c o s r o' s' :
  provider_callbacks prov write verify commit -> generation_u32 previous ->
  is_u32 (rec_record_generation c) ->
  guardian_node_link_freshness_persistence_transact_commit
    (Some prov) previous (Some expected) (Some c) (Some o) s = (r, o', s') ->
  (r = GUARDIAN_NODE_LINK_PERSISTENCE_OPERATION_OK <->
   o' = Some GUARDIAN_NODE_LINK_PERSISTENCE_TRANSACTION_COMMITTED) /\
  (r = GUARDIAN_NODE_LINK_PERSISTENCE_OPERATION_OK <->
   continuation_ok expected previous c /\
   exists s1 t1 s2 t2 s3 t3, stage_passes expected c write s c s1 t1 /\
     stage_passes expected c verify s1 t1 s2 t2 /\ stage_passes expected c commit s2 t2 s3 t3) /\
  (~ continuation_ok expected previous c -> s' = s).
Proof.
  intros Hp Hg Hcg H.
  pose proof (transact_commit_transacts prov write verify commit expected previous c o s Hp Hg Hcg)
    as Ht. rewrite H in Ht.
  assert (Hback : continuation_ok expected previous c /\
    (exists s1 t1 s2 t2 s3 t3, stage_passes expected c write s c s1 t1 /\
     stage_passes expected c verify s1 t1 s2 t2 /\ stage_passes expected c commit s2 t2 s3 t3) ->
    r = GUARDIAN_NODE_LINK_PERSISTENCE_OPERATION_OK).
  { intros (Hcont & s1 & t1 & s2 & t2 & s3 & t3 & P1 & P2 & P3).
    rewrite (transact_commit_commits prov write verify commit expected previous c o s
      s1 t1 s2 t2 s3 t3 Hp Hg Hcg Hcont P1 P2 P3) in H. by injection H. }
  inversion Ht as [? outcome Hn Hr Ho|stage callback s1 tc ? outcome s2 Hcont _ Hr Ho|
    s1 t1 s2 t2 s3 t3 Hcont P1 P2 P3]; subst.
  - split; [|split; [split; [done|exact Hback]|done]].
    split; [done|]. intros [= ->]. destruct Ho as [Ho|[Ho _]]; discriminate Ho.
  - split; [|split; [split; [done|exact Hback]|done]].
    split; [done|]. intros [= ->]. destruct Ho as [[_ Ho]|[_ Ho]]; discriminate Ho.
  - split; [done|]. split; [|done]. split; [|done]. intros _. split; [exact Hcont|].
    do 6 eexists. split; [exact P1|]. split; [exact P2|exact P3].
Qed.

Lemma transaction_committed_iff_witness :
  guardian_node_link_freshness_persistence_transact_commit (Some example_provider)
    (Some (example_record 100 7)) (Some example_identity) (Some (example_record 105 8))
    (Some GUARDIAN_NODE_LINK_PERSISTENCE_TRANSACTION_INVALID) (None, Some (example_record 100 7))
  = (GUARDIAN_NODE_LINK_PERSISTENCE_OPERATION_OK,
     Some GUARDIAN_NODE_LINK_PERSISTENCE_TRANSACTION_COMMITTED,
     (None, Some (example_record 105 8))) /\
  (GUARDIAN_NODE_LINK_PERSISTENCE_OPERATION_OK = GUARDIAN_NODE_LINK_PERSISTENCE_OPERATION_OK <->
   Some GUARDIAN_NODE_LINK_PERSISTENCE_TRANSACTION_COMMITTED
   = Some GUARDIAN_NODE_LINK_PERSISTENCE_TRANSACTION_COMMITTED).
Proof.
  split; [vm_compute; reflexivity|].
  refine (proj1 (transaction_committed_iff example_provider example_write example_verify
    example_commit example_identity (Some (example_record 100 7)) (example_record 105 8)
    GUARDIAN_NODE_LINK_PERSISTENCE_TRANSACTION_INVALID (None, Some (example_record 100 7)) _ _ _
    _ _ _ _)).
  - repeat split. by eexists.
  - intros p [= <-]. unfold is_u32. cbn. lia.
  - unfold is_u32. cbn. lia.
  - vm_compute. reflexivity.
Defined.

(** The transaction refines its protocol.  For any provider with all
    callbacks, a transaction is refused before any callback with the provider
    untouched, or stops at the first stage that does not pass, ABORTED when that
    stage reported a failure of its vocabulary and STATE_UNCERTAIN when it
    reported uncertainty, answered outside its vocabulary or tampered with the
    candidate, or commits after all three; it never answers OK otherwise and
    never reports ABORTED for a stage whose effect is unknown. *)
Theorem transaction_refines_protocol {S : Type}
    (prov : guardian_node_link_freshness_persistence_provider_t S) write verify commit
    expected previous c o s :
  provider_callbacks prov write verify commit -> generation_u32 previous ->
  is_u32 (rec_record_generation c) ->
  transacts write verify commit expected previous c s
    (guardian_node_link_freshness_persistence_transact_commit
       (Some prov) previous (Some expected) (Some c) (Some o) s).
Proof. intros Hp Hg Hc. by apply transact_commit_transacts. Qed.

Lemma transaction_refines_protocol_witness :
  transacts example_write example_verify example_commit example_identity
    (Some (example_record 100 7)) (example_record 100 8) (None, None)
    (guardian_node_link_freshness_persistence_transact_commit (Some example_provider)
       (Some (example_record 100 7)) (Some example_identity) (Some (example_record 100 8))
       (Some GUARDIAN_NODE_LINK_PERSISTENCE_TRANSACTION_INVALID) (None, None)).
Proof.
  apply transaction_refines_protocol.
  - repeat split. by eexists.
  - intros p [= <-]. unfold is_u32. cbn. lia.
  - unfold is_u32. cbn. lia.
Defined.
