(* ===== verification/Codec.v ===== *)
(** * Serialization of the persisted record

    Model of [firmware/NodeLink/Src/guardian_node_link_freshness_persistence_codec.c]:
    the 364-byte image of a record (28-byte header, three zero-filled
    references, counters, SHA-256 of the first 332 bytes) and its decoder. *)

From S2P Require Import Prelude Crypto CString NodeLink NodeLinkAuth NodeLinkSemantic.
From S2P Require Import Freshness Persistence.

(** ** Constants *)

Definition R3C_D_MAGIC_0 : Z := 0x47.
Definition R3C_D_MAGIC_1 : Z := 0x46.
Definition R3C_D_MAGIC_2 : Z := 0x52.
Definition R3C_D_MAGIC_3 : Z := 0x31.

Definition GUARDIAN_NODE_LINK_PERSISTENCE_CODEC_SERIALIZATION_VERSION : Z := 1.
Definition GUARDIAN_NODE_LINK_PERSISTENCE_CODEC_HEADER_LENGTH : Z := 28.
Definition GUARDIAN_NODE_LINK_PERSISTENCE_CODEC_INTEGRITY_MATERIAL_LENGTH : Z := 332.
Definition GUARDIAN_NODE_LINK_PERSISTENCE_CODEC_SERIALIZED_SIZE : nat := 364.
Definition GUARDIAN_NODE_LINK_PERSISTENCE_CODEC_INTEGRITY_SIZE : nat := 32.
Definition GUARDIAN_NODE_LINK_PERSISTENCE_CODEC_MAGIC_OFFSET : nat := 0.
Definition GUARDIAN_NODE_LINK_PERSISTENCE_CODEC_SERIALIZATION_VERSION_OFFSET : nat := 4.
Definition GUARDIAN_NODE_LINK_PERSISTENCE_CODEC_HEADER_LENGTH_OFFSET : nat := 6.
Definition GUARDIAN_NODE_LINK_PERSISTENCE_CODEC_LOGICAL_SCHEMA_OFFSET : nat := 8.
Definition GUARDIAN_NODE_LINK_PERSISTENCE_CODEC_SENDER_NODE_ID_OFFSET : nat := 12.
Definition GUARDIAN_NODE_LINK_PERSISTENCE_CODEC_PRODUCER_ID_OFFSET : nat := 16.
Definition GUARDIAN_NODE_LINK_PERSISTENCE_CODEC_KEY_ID_OFFSET : nat := 20.
Definition GUARDIAN_NODE_LINK_PERSISTENCE_CODEC_SIGNATURE_ALGORITHM_OFFSET : nat := 24.
Definition GUARDIAN_NODE_LINK_PERSISTENCE_CODEC_RESERVED_OFFSET : nat := 25.
Definition GUARDIAN_NODE_LINK_PERSISTENCE_CODEC_PRODUCER_PROFILE_OFFSET : nat := 28.
Definition GUARDIAN_NODE_LINK_PERSISTENCE_CODEC_CONSUMER_PROFILE_OFFSET : nat := 124.
Definition GUARDIAN_NODE_LINK_PERSISTENCE_CODEC_COMPATIBILITY_CONTRACT_OFFSET : nat := 220.
Definition GUARDIAN_NODE_LINK_PERSISTENCE_CODEC_ACCEPTED_EPOCH_OFFSET : nat := 316.
Definition GUARDIAN_NODE_LINK_PERSISTENCE_CODEC_ACCEPTED_SEQUENCE_OFFSET : nat := 320.
Definition GUARDIAN_NODE_LINK_PERSISTENCE_CODEC_RECORD_GENERATION_OFFSET : nat := 324.
Definition GUARDIAN_NODE_LINK_PERSISTENCE_CODEC_MATERIAL_LENGTH_OFFSET : nat := 328.
Definition GUARDIAN_NODE_LINK_PERSISTENCE_CODEC_INTEGRITY_OFFSET : nat := 332.

(** Short names of the layout constants. *)

Abbreviation CODEC_SERIALIZATION_VERSION := GUARDIAN_NODE_LINK_PERSISTENCE_CODEC_SERIALIZATION_VERSION.
Abbreviation CODEC_HEADER_LENGTH := GUARDIAN_NODE_LINK_PERSISTENCE_CODEC_HEADER_LENGTH.
Abbreviation CODEC_INTEGRITY_MATERIAL_LENGTH := GUARDIAN_NODE_LINK_PERSISTENCE_CODEC_INTEGRITY_MATERIAL_LENGTH.
Abbreviation CODEC_SERIALIZED_SIZE := GUARDIAN_NODE_LINK_PERSISTENCE_CODEC_SERIALIZED_SIZE.
Abbreviation CODEC_INTEGRITY_SIZE := GUARDIAN_NODE_LINK_PERSISTENCE_CODEC_INTEGRITY_SIZE.
Abbreviation CODEC_MAGIC_OFFSET := GUARDIAN_NODE_LINK_PERSISTENCE_CODEC_MAGIC_OFFSET.
Abbreviation CODEC_SERIALIZATION_VERSION_OFFSET := GUARDIAN_NODE_LINK_PERSISTENCE_CODEC_SERIALIZATION_VERSION_OFFSET.
Abbreviation CODEC_HEADER_LENGTH_OFFSET := GUARDIAN_NODE_LINK_PERSISTENCE_CODEC_HEADER_LENGTH_OFFSET.
Abbreviation CODEC_LOGICAL_SCHEMA_OFFSET := GUARDIAN_NODE_LINK_PERSISTENCE_CODEC_LOGICAL_SCHEMA_OFFSET.
Abbreviation CODEC_SENDER_NODE_ID_OFFSET := GUARDIAN_NODE_LINK_PERSISTENCE_CODEC_SENDER_NODE_ID_OFFSET.
Abbreviation CODEC_PRODUCER_ID_OFFSET := GUARDIAN_NODE_LINK_PERSISTENCE_CODEC_PRODUCER_ID_OFFSET.
Abbreviation CODEC_KEY_ID_OFFSET := GUARDIAN_NODE_LINK_PERSISTENCE_CODEC_KEY_ID_OFFSET.
Abbreviation CODEC_SIGNATURE_ALGORITHM_OFFSET := GUARDIAN_NODE_LINK_PERSISTENCE_CODEC_SIGNATURE_ALGORITHM_OFFSET.
Abbreviation CODEC_RESERVED_OFFSET := GUARDIAN_NODE_LINK_PERSISTENCE_CODEC_RESERVED_OFFSET.
Abbreviation CODEC_PRODUCER_PROFILE_OFFSET := GUARDIAN_NODE_LINK_PERSISTENCE_CODEC_PRODUCER_PROFILE_OFFSET.
Abbreviation CODEC_CONSUMER_PROFILE_OFFSET := GUARDIAN_NODE_LINK_PERSISTENCE_CODEC_CONSUMER_PROFILE_OFFSET.
Abbreviation CODEC_COMPATIBILITY_CONTRACT_OFFSET := GUARDIAN_NODE_LINK_PERSISTENCE_CODEC_COMPATIBILITY_CONTRACT_OFFSET.
Abbreviation CODEC_ACCEPTED_EPOCH_OFFSET := GUARDIAN_NODE_LINK_PERSISTENCE_CODEC_ACCEPTED_EPOCH_OFFSET.
Abbreviation CODEC_ACCEPTED_SEQUENCE_OFFSET := GUARDIAN_NODE_LINK_PERSISTENCE_CODEC_ACCEPTED_SEQUENCE_OFFSET.
Abbreviation CODEC_RECORD_GENERATION_OFFSET := GUARDIAN_NODE_LINK_PERSISTENCE_CODEC_RECORD_GENERATION_OFFSET.
Abbreviation CODEC_MATERIAL_LENGTH_OFFSET := GUARDIAN_NODE_LINK_PERSISTENCE_CODEC_MATERIAL_LENGTH_OFFSET.
Abbreviation CODEC_INTEGRITY_OFFSET := GUARDIAN_NODE_LINK_PERSISTENCE_CODEC_INTEGRITY_OFFSET.

Inductive guardian_node_link_freshness_persistence_codec_result_t :=
  | GUARDIAN_NODE_LINK_PERSISTENCE_CODEC_INVALID
  | GUARDIAN_NODE_LINK_PERSISTENCE_CODEC_OK
  | GUARDIAN_NODE_LINK_PERSISTENCE_CODEC_BAD_ARGUMENT
  | GUARDIAN_NODE_LINK_PERSISTENCE_CODEC_BUFFER_TOO_SMALL
  | GUARDIAN_NODE_LINK_PERSISTENCE_CODEC_BAD_MAGIC
  | GUARDIAN_NODE_LINK_PERSISTENCE_CODEC_UNSUPPORTED_VERSION
  | GUARDIAN_NODE_LINK_PERSISTENCE_CODEC_BAD_LENGTH
  | GUARDIAN_NODE_LINK_PERSISTENCE_CODEC_RESERVED_NONZERO
  | GUARDIAN_NODE_LINK_PERSISTENCE_CODEC_INVALID_FIELD
  | GUARDIAN_NODE_LINK_PERSISTENCE_CODEC_INTEGRITY_FAILURE
  | GUARDIAN_NODE_LINK_PERSISTENCE_CODEC_TRAILING_DATA.

#[global] Instance codec_result_eq_dec :
  EqDecision guardian_node_link_freshness_persistence_codec_result_t.
Proof. solve_decision. Defined.

Local Abbreviation record := guardian_node_link_freshness_persisted_record_t.
Local Abbreviation codec_result := guardian_node_link_freshness_persistence_codec_result_t.

(** ** Byte order *)

Definition r3c_d_put_u16_be (value : Z) : list Z := put_u16_be value.
Definition r3c_d_get_u16_be (input : list Z) : Z :=
  u16 (Z.lor (Z.shiftl (byte_at input 0) 8) (byte_at input 1)).
Definition r3c_d_put_u32_be (value : Z) : list Z := put_u32_be value.
Definition r3c_d_get_u32_be (input : list Z) : Z := get_u32_be input.

(** ** References *)

Definition r3c_d_ref_length (reference : option (list Z)) (capacity : nat) : nat :=
  match reference with
  | None => capacity
  | Some reference => ref_length reference capacity
  end.

(** Writes at [&output[off]]; returns 0 or 1 and the output. *)
Definition r3c_d_encode_ref (reference : list Z) (output : list Z) (off : nat) : bool * list Z :=
  let length := r3c_d_ref_length (Some reference) GUARDIAN_NODE_LINK_SEMANTIC_REF_CAPACITY in
  early (length =? 0)%nat || (GUARDIAN_NODE_LINK_SEMANTIC_REF_CAPACITY <=? length)%nat
    with (false, output) ;;
  let output := blit output off (replicate GUARDIAN_NODE_LINK_SEMANTIC_REF_CAPACITY 0) in
  (true, blit output off (take length reference)).

Definition r3c_d_decode_ref (input : option (list Z)) (reference : option (list Z))
  : bool * option (list Z) :=
  match input, reference with
  | Some inp, Some ref =>
      let cap := GUARDIAN_NODE_LINK_SEMANTIC_REF_CAPACITY in
      let terminator := ref_length inp cap in
      early (terminator =? 0)%nat || (cap <=? terminator)%nat with (false, reference) ;;
      early negb (forallb (fun b => b =? 0)
                    (take (cap - (terminator + 1)) (drop (terminator + 1) inp)))
        with (false, reference) ;;
      let ref := blit ref 0 (replicate cap 0) in
      (true, Some (blit ref 0 (take terminator inp)))
  | _, _ => (false, reference)
  end.

Definition r3c_d_record_is_logically_valid (rec : option record) : bool :=
  match rec with
  | None => false
  | Some r =>
      let '(result, classification) :=
        guardian_node_link_freshness_persistence_classify
          GUARDIAN_NODE_LINK_PERSISTENCE_STATUS_VALID_PERSISTED_STATE rec (Some (rec_identity r))
          (Some GUARDIAN_NODE_LINK_PERSISTENCE_CLASSIFICATION_INVALID) in
      early negb (bool_decide (result = GUARDIAN_NODE_LINK_FRESHNESS_OK)) with false ;;
      bool_decide (classification
        = Some GUARDIAN_NODE_LINK_PERSISTENCE_CLASSIFICATION_VALIDATED_RECORD_CANDIDATE)
  end.

(** ** Encoder *)

Definition guardian_node_link_freshness_persistence_encode (rec : option record)
    (output : option (list Z)) (output_capacity : nat) (output_written : option nat)
  : codec_result * option (list Z) * option nat :=
  let output_written := match output_written with None => None | Some _ => Some 0%nat end in
  match rec, output, output_written with
  | Some r, Some out, Some _ =>
      early (output_capacity <? CODEC_SERIALIZED_SIZE)%nat
        with (GUARDIAN_NODE_LINK_PERSISTENCE_CODEC_BUFFER_TOO_SMALL, output, output_written) ;;
      early negb (r3c_d_record_is_logically_valid rec)
        with (GUARDIAN_NODE_LINK_PERSISTENCE_CODEC_INVALID_FIELD, output, output_written) ;;
      let id := rec_identity r in
      let out := blit out 0 (replicate CODEC_SERIALIZED_SIZE 0) in
      let out := blit out (CODEC_MAGIC_OFFSET + 0) [R3C_D_MAGIC_0] in
      let out := blit out (CODEC_MAGIC_OFFSET + 1) [R3C_D_MAGIC_1] in
      let out := blit out (CODEC_MAGIC_OFFSET + 2) [R3C_D_MAGIC_2] in
      let out := blit out (CODEC_MAGIC_OFFSET + 3) [R3C_D_MAGIC_3] in
      let out := blit out CODEC_SERIALIZATION_VERSION_OFFSET
                   (r3c_d_put_u16_be CODEC_SERIALIZATION_VERSION) in
      let out := blit out CODEC_HEADER_LENGTH_OFFSET (r3c_d_put_u16_be CODEC_HEADER_LENGTH) in
      let out := blit out CODEC_LOGICAL_SCHEMA_OFFSET (r3c_d_put_u32_be (rec_schema_version r)) in
      let out := blit out CODEC_SENDER_NODE_ID_OFFSET (r3c_d_put_u32_be (fi_sender_node_id id)) in
      let out := blit out CODEC_PRODUCER_ID_OFFSET (r3c_d_put_u32_be (fi_producer_id id)) in
      let out := blit out CODEC_KEY_ID_OFFSET (r3c_d_put_u32_be (fi_key_id id)) in
      let out := blit out CODEC_SIGNATURE_ALGORITHM_OFFSET [fi_signature_algorithm id] in
      let '(ok, out) := r3c_d_encode_ref (fi_producer_semantic_profile_id id) out
                          CODEC_PRODUCER_PROFILE_OFFSET in
      early negb ok
        with (GUARDIAN_NODE_LINK_PERSISTENCE_CODEC_INVALID_FIELD, Some out, output_written) ;;
      let '(ok, out) := r3c_d_encode_ref (fi_consumer_semantic_profile_id id) out
                          CODEC_CONSUMER_PROFILE_OFFSET in
      early negb ok
        with (GUARDIAN_NODE_LINK_PERSISTENCE_CODEC_INVALID_FIELD, Some out, output_written) ;;
      let '(ok, out) := r3c_d_encode_ref (fi_compatibility_contract_id id) out
                          CODEC_COMPATIBILITY_CONTRACT_OFFSET in
      early negb ok
        with (GUARDIAN_NODE_LINK_PERSISTENCE_CODEC_INVALID_FIELD, Some out, output_written) ;;
      let out := blit out CODEC_ACCEPTED_EPOCH_OFFSET (r3c_d_put_u32_be (rec_accepted_epoch r)) in
      let out := blit out CODEC_ACCEPTED_SEQUENCE_OFFSET
                   (r3c_d_put_u32_be (rec_accepted_sequence r)) in
      let out := blit out CODEC_RECORD_GENERATION_OFFSET
                   (r3c_d_put_u32_be (rec_record_generation r)) in
      let out := blit out CODEC_MATERIAL_LENGTH_OFFSET
                   (r3c_d_put_u32_be CODEC_INTEGRITY_MATERIAL_LENGTH) in
      let digest := sha256_digest out CODEC_INTEGRITY_OFFSET in
      let out := blit out CODEC_INTEGRITY_OFFSET (take CODEC_INTEGRITY_SIZE digest) in
      (GUARDIAN_NODE_LINK_PERSISTENCE_CODEC_OK, Some out, Some CODEC_SERIALIZED_SIZE)
  | _, _, _ => (GUARDIAN_NODE_LINK_PERSISTENCE_CODEC_BAD_ARGUMENT, output, output_written)
  end.

(** ** Decoder *)

Definition guardian_node_link_freshness_persistence_decode (input : option (list Z))
    (input_length : nat) (rec : option record) : codec_result * option record :=
  let rec := match rec with None => None | Some _ => Some zero_record end in
  match input, rec with
  | Some inp, Some _ =>
      early (input_length <? CODEC_SERIALIZED_SIZE)%nat
        with (GUARDIAN_NODE_LINK_PERSISTENCE_CODEC_BAD_LENGTH, rec) ;;
      early (CODEC_SERIALIZED_SIZE <? input_length)%nat
        with (GUARDIAN_NODE_LINK_PERSISTENCE_CODEC_TRAILING_DATA, rec) ;;
      early negb (byte_at inp (CODEC_MAGIC_OFFSET + 0) =? R3C_D_MAGIC_0)
            || negb (byte_at inp (CODEC_MAGIC_OFFSET + 1) =? R3C_D_MAGIC_1)
            || negb (byte_at inp (CODEC_MAGIC_OFFSET + 2) =? R3C_D_MAGIC_2)
            || negb (byte_at inp (CODEC_MAGIC_OFFSET + 3) =? R3C_D_MAGIC_3)
        with (GUARDIAN_NODE_LINK_PERSISTENCE_CODEC_BAD_MAGIC, rec) ;;
      early negb (r3c_d_get_u16_be (drop CODEC_SERIALIZATION_VERSION_OFFSET inp)
                    =? CODEC_SERIALIZATION_VERSION)
        with (GUARDIAN_NODE_LINK_PERSISTENCE_CODEC_UNSUPPORTED_VERSION, rec) ;;
      early negb (r3c_d_get_u16_be (drop CODEC_HEADER_LENGTH_OFFSET inp) =? CODEC_HEADER_LENGTH)
        with (GUARDIAN_NODE_LINK_PERSISTENCE_CODEC_BAD_LENGTH, rec) ;;
      early negb (byte_at inp (CODEC_RESERVED_OFFSET + 0) =? 0)
            || negb (byte_at inp (CODEC_RESERVED_OFFSET + 1) =? 0)
            || negb (byte_at inp (CODEC_RESERVED_OFFSET + 2) =? 0)
        with (GUARDIAN_NODE_LINK_PERSISTENCE_CODEC_RESERVED_NONZERO, rec) ;;
      early negb (r3c_d_get_u32_be (drop CODEC_MATERIAL_LENGTH_OFFSET inp)
                    =? CODEC_INTEGRITY_MATERIAL_LENGTH)
        with (GUARDIAN_NODE_LINK_PERSISTENCE_CODEC_BAD_LENGTH, rec) ;;
      let expected_digest := sha256_digest inp CODEC_INTEGRITY_OFFSET in
      early negb (guardian_crypto_constant_time_equal (Some expected_digest)
                    (Some (drop CODEC_INTEGRITY_OFFSET inp)) CODEC_INTEGRITY_SIZE)
        with (GUARDIAN_NODE_LINK_PERSISTENCE_CODEC_INTEGRITY_FAILURE, rec) ;;
      let '(ok, producer) := r3c_d_decode_ref (Some (drop CODEC_PRODUCER_PROFILE_OFFSET inp))
                               (Some zero_ref) in
      early negb ok with (GUARDIAN_NODE_LINK_PERSISTENCE_CODEC_INVALID_FIELD, rec) ;;
      let '(ok, consumer) := r3c_d_decode_ref (Some (drop CODEC_CONSUMER_PROFILE_OFFSET inp))
                               (Some zero_ref) in
      early negb ok with (GUARDIAN_NODE_LINK_PERSISTENCE_CODEC_INVALID_FIELD, rec) ;;
      let '(ok, contract) := r3c_d_decode_ref
                               (Some (drop CODEC_COMPATIBILITY_CONTRACT_OFFSET inp))
                               (Some zero_ref) in
      early negb ok with (GUARDIAN_NODE_LINK_PERSISTENCE_CODEC_INVALID_FIELD, rec) ;;
      let candidate :=
        RECORD (r3c_d_get_u32_be (drop CODEC_LOGICAL_SCHEMA_OFFSET inp))
          (FRESHNESS_IDENTITY
             (r3c_d_get_u32_be (drop CODEC_SENDER_NODE_ID_OFFSET inp))
             (r3c_d_get_u32_be (drop CODEC_PRODUCER_ID_OFFSET inp))
             (r3c_d_get_u32_be (drop CODEC_KEY_ID_OFFSET inp))
             (byte_at inp CODEC_SIGNATURE_ALGORITHM_OFFSET)
             (default zero_ref producer) (default zero_ref consumer) (default zero_ref contract))
          (r3c_d_get_u32_be (drop CODEC_ACCEPTED_EPOCH_OFFSET inp))
          (r3c_d_get_u32_be (drop CODEC_ACCEPTED_SEQUENCE_OFFSET inp))
          (r3c_d_get_u32_be (drop CODEC_RECORD_GENERATION_OFFSET inp)) in
      early negb (r3c_d_record_is_logically_valid (Some candidate))
        with (GUARDIAN_NODE_LINK_PERSISTENCE_CODEC_INVALID_FIELD, rec) ;;
      (GUARDIAN_NODE_LINK_PERSISTENCE_CODEC_OK, Some candidate)
  | _, _ => (GUARDIAN_NODE_LINK_PERSISTENCE_CODEC_BAD_ARGUMENT, rec)
  end.

(** ** The serialized image *)

Definition codec_header (r : record) : list Z :=
  [R3C_D_MAGIC_0; R3C_D_MAGIC_1; R3C_D_MAGIC_2; R3C_D_MAGIC_3]
  ++ put_u16_be CODEC_SERIALIZATION_VERSION ++ put_u16_be CODEC_HEADER_LENGTH
  ++ put_u32_be (rec_schema_version r) ++ put_u32_be (fi_sender_node_id (rec_identity r))
  ++ put_u32_be (fi_producer_id (rec_identity r)) ++ put_u32_be (fi_key_id (rec_identity r))
  ++ [fi_signature_algorithm (rec_identity r)].

Definition codec_fields (r : record) : list Z :=
  ref_of (ref_text (fi_producer_semantic_profile_id (rec_identity r)))
  ++ ref_of (ref_text (fi_consumer_semantic_profile_id (rec_identity r)))
  ++ ref_of (ref_text (fi_compatibility_contract_id (rec_identity r)))
  ++ put_u32_be (rec_accepted_epoch r) ++ put_u32_be (rec_accepted_sequence r)
  ++ put_u32_be (rec_record_generation r) ++ put_u32_be CODEC_INTEGRITY_MATERIAL_LENGTH.

Definition codec_body (r : record) : list Z := codec_header r ++ [0; 0; 0] ++ codec_fields r.

Definition codec_image (r : record) : list Z :=
  codec_body r ++ sha256_digest (codec_body r) CODEC_INTEGRITY_OFFSET.

(** A C object of the record type. *)
Record record_object (r : record) : Prop := {
  ro_schema : is_u32 (rec_schema_version r);
  ro_sender : is_u32 (fi_sender_node_id (rec_identity r));
  ro_producer : is_u32 (fi_producer_id (rec_identity r));
  ro_key : is_u32 (fi_key_id (rec_identity r));
  ro_algorithm : is_u8 (fi_signature_algorithm (rec_identity r));
  ro_producer_ref : bytes (fi_producer_semantic_profile_id (rec_identity r));
  ro_consumer_ref : bytes (fi_consumer_semantic_profile_id (rec_identity r));
  ro_contract_ref : bytes (fi_compatibility_contract_id (rec_identity r));
  ro_epoch : is_u32 (rec_accepted_epoch r);
  ro_sequence : is_u32 (rec_accepted_sequence r);
  ro_generation : is_u32 (rec_record_generation r)
}.

(** The record with its references zero-filled after the terminator. *)
Definition normalized_identity (i : guardian_node_link_freshness_identity_t)
  : guardian_node_link_freshness_identity_t :=
  FRESHNESS_IDENTITY (fi_sender_node_id i) (fi_producer_id i) (fi_key_id i)
    (fi_signature_algorithm i)
    (ref_of (ref_text (fi_producer_semantic_profile_id i)))
    (ref_of (ref_text (fi_consumer_semantic_profile_id i)))
    (ref_of (ref_text (fi_compatibility_contract_id i))).

Definition normalized (r : record) : record :=
  RECORD (rec_schema_version r) (normalized_identity (rec_identity r)) (rec_accepted_epoch r)
    (rec_accepted_sequence r) (rec_record_generation r).

(** A record the codec accepts. *)
Definition record_valid (r : record) : Prop := record_ok (rec_identity r) r.

Lemma logically_valid_spec r : r3c_d_record_is_logically_valid (Some r) = true <-> record_valid r.
Proof.
  unfold record_valid. rewrite <- validate_record_spec.
  unfold r3c_d_record_is_logically_valid, guardian_node_link_freshness_persistence_validate_record.
  cbn [is_null]. destruct (guardian_node_link_freshness_persistence_classify _ _ _ _) as [res cl].
  destruct (bool_decide_reflect (res = GUARDIAN_NODE_LINK_FRESHNESS_OK)); cbn [negb];
    [|by split].
  case_bool_decide; cbn [negb]; by split.
Qed.

Lemma ref_of_length text : (length text <= 96)%nat -> length (ref_of text) = 96%nat.
Proof. intros. unfold ref_of. rewrite length_app, length_replicate. lia. Qed.

Lemma ref_text_length r : length (ref_text r) = ref_length r 96.
Proof.
  unfold ref_text. rewrite length_take. pose proof (ref_length_source r 96). lia.
Qed.

Lemma ref_of_text_length r : field_ref_valid r = true -> length (ref_of (ref_text r)) = 96%nat.
Proof.
  intros H. apply field_ref_valid_spec in H. apply ref_of_length. rewrite ref_text_length. lia.
Qed.

Lemma ref_of_bytes text : bytes text -> bytes (ref_of text).
Proof. intros. unfold ref_of. apply bytes_app_2; [done|]. by apply bytes_replicate. Qed.

Lemma ref_text_bytes r : bytes r -> bytes (ref_text r).
Proof. apply bytes_take. Qed.

Lemma encode_ref_spec ref out off :
  field_ref_valid ref = true -> (off + 96 <= length out)%nat ->
  r3c_d_encode_ref ref out off = (true, blit out off (ref_of (ref_text ref))).
Proof.
  intros Hv Hoff. apply field_ref_valid_spec in Hv. unfold r3c_d_encode_ref, r3c_d_ref_length.
  unfold GUARDIAN_NODE_LINK_SEMANTIC_REF_CAPACITY.
  destruct (Nat.eqb_spec (ref_length ref 96) 0); [lia|].
  destruct (Nat.leb_spec 96 (ref_length ref 96)); [lia|]. cbn [orb]. f_equal.
  change (take (ref_length ref 96) ref) with (ref_text ref).
  rewrite blit_blit_over by (rewrite ?ref_text_length, ?length_replicate; lia).
  rewrite drop_replicate. reflexivity.
Qed.

Lemma codec_header_length r : length (codec_header r) = 25%nat.
Proof. reflexivity. Qed.

Lemma codec_fields_length r : record_valid r -> length (codec_fields r) = 304%nat.
Proof.
  intros [_ _ [_ _ _ _ H1 H2 H3] _ _ _]. unfold codec_fields.
  rewrite !length_app, !ref_of_text_length by assumption. reflexivity.
Qed.

Lemma codec_body_length r : record_valid r -> length (codec_body r) = 332%nat.
Proof.
  intros H. unfold codec_body. rewrite !length_app, codec_header_length, codec_fields_length by done.
  reflexivity.
Qed.

Lemma codec_image_length r : record_valid r -> length (codec_image r) = CODEC_SERIALIZED_SIZE.
Proof.
  intros H. unfold codec_image. rewrite length_app, codec_body_length, sha256_digest_length by done.
  reflexivity.
Qed.

(** The buffer after clearing it and writing the header up to the algorithm: the
    reserved bytes are zero as if they had been written. *)
Lemma header_written out (h : list Z) :
  (364 <= length out)%nat -> length h = 25%nat ->
  blit (blit out 0 (replicate 364 0)) 0 h = blit out 0 (h ++ [0; 0; 0] ++ replicate 336 0).
Proof.
  intros Ho Hh. rewrite blit_blit_over by (rewrite ?length_replicate; lia).
  by rewrite Hh, drop_replicate.
Qed.

Lemma le_length_blit n dst off src :
  (n <= length dst)%nat -> (n <= length (blit dst off src))%nat.
Proof. intros. unfold blit. rewrite !length_app, length_take, length_drop. lia. Qed.

Ltac blit_bound := cbn [length app]; repeat apply le_length_blit; lia.

(** Overwriting the tail of an earlier write. *)
Lemma blit_blit_inside dst off a b c :
  (length c <= length b)%nat -> (off + length a <= length dst)%nat ->
  blit (blit dst off (a ++ b)) (off + length a) c
  = blit dst off (a ++ c ++ drop (length c) b).
Proof.
  intros Hc Ho. rewrite <- (blit_blit_adjacent dst off a (off + length a) b) by lia.
  rewrite blit_blit_over; [|done|by apply le_length_blit].
  rewrite blit_blit_adjacent by lia. done.
Qed.

(** The header writes, in the order of the encoder. *)
Lemma header_writes out r :
  (364 <= length out)%nat ->
  blit (blit (blit (blit (blit (blit (blit (blit (blit (blit (blit
    (blit out 0 (replicate CODEC_SERIALIZED_SIZE 0))
    (CODEC_MAGIC_OFFSET + 0) [R3C_D_MAGIC_0]) (CODEC_MAGIC_OFFSET + 1) [R3C_D_MAGIC_1])
    (CODEC_MAGIC_OFFSET + 2) [R3C_D_MAGIC_2]) (CODEC_MAGIC_OFFSET + 3) [R3C_D_MAGIC_3])
    CODEC_SERIALIZATION_VERSION_OFFSET (r3c_d_put_u16_be CODEC_SERIALIZATION_VERSION))
    CODEC_HEADER_LENGTH_OFFSET (r3c_d_put_u16_be CODEC_HEADER_LENGTH))
    CODEC_LOGICAL_SCHEMA_OFFSET (r3c_d_put_u32_be (rec_schema_version r)))
    CODEC_SENDER_NODE_ID_OFFSET (r3c_d_put_u32_be (fi_sender_node_id (rec_identity r))))
    CODEC_PRODUCER_ID_OFFSET (r3c_d_put_u32_be (fi_producer_id (rec_identity r))))
    CODEC_KEY_ID_OFFSET (r3c_d_put_u32_be (fi_key_id (rec_identity r))))
    CODEC_SIGNATURE_ALGORITHM_OFFSET [fi_signature_algorithm (rec_identity r)]
  = blit out 0 ((codec_header r ++ [0; 0; 0]) ++ replicate 336 0).
Proof.
  intros Ho. rewrite <- app_assoc, <- header_written by done.
  unfold CODEC_SERIALIZED_SIZE, CODEC_MAGIC_OFFSET, CODEC_SERIALIZATION_VERSION_OFFSET,
    CODEC_HEADER_LENGTH_OFFSET, CODEC_LOGICAL_SCHEMA_OFFSET, CODEC_SENDER_NODE_ID_OFFSET,
    CODEC_PRODUCER_ID_OFFSET, CODEC_KEY_ID_OFFSET, CODEC_SIGNATURE_ALGORITHM_OFFSET,
    r3c_d_put_u16_be, r3c_d_put_u32_be.
  assert (H : (25 <= length (blit out 0 (replicate 364 0%Z)))%nat) by blit_bound.
  revert H. generalize (blit out 0 (replicate 364 0)). intros o H.
  rewrite !blit_blit_adjacent by (first [reflexivity | lia | blit_bound]).
  reflexivity.
Qed.

(** The fields over the cleared buffer. *)
Lemma fields_written out (h w : list Z) :
  (364 <= length out)%nat -> length h = 28%nat -> (length w <= 336)%nat ->
  blit (blit out 0 (h ++ replicate 336 0)) 28 w
  = blit out 0 (h ++ w ++ replicate (336 - length w) 0).
Proof.
  intros Ho Hh Hw. rewrite <- Hh at 2. rewrite (blit_blit_inside out 0), drop_replicate;
    rewrite ?length_replicate; [done|lia..].
Qed.

Lemma record_encode_writes r out cap n0 :
  record_valid r -> (CODEC_SERIALIZED_SIZE <= cap)%nat -> (cap <= length out)%nat ->
  guardian_node_link_freshness_persistence_encode (Some r) (Some out) cap (Some n0)
  = (GUARDIAN_NODE_LINK_PERSISTENCE_CODEC_OK,
     Some (codec_image r ++ drop CODEC_SERIALIZED_SIZE out), Some CODEC_SERIALIZED_SIZE).
Proof.
  intros Hv Hcap Hout. unfold guardian_node_link_freshness_persistence_encode.
  destruct (Nat.ltb_spec cap CODEC_SERIALIZED_SIZE); [lia|].
  rewrite (proj2 (logically_valid_spec r) Hv). cbn [negb]. cbv zeta.
  pose proof Hv as [_ _ [_ _ _ _ Hr1 Hr2 Hr3] _ _ _].
  assert (Hlen : (364 <= length out)%nat) by (unfold CODEC_SERIALIZED_SIZE in *; lia).
  rewrite header_writes by assumption.
  rewrite encode_ref_spec by (assumption || (unfold CODEC_PRODUCER_PROFILE_OFFSET; blit_bound)).
  cbn [negb].
  rewrite encode_ref_spec by (assumption || (unfold CODEC_CONSUMER_PROFILE_OFFSET; blit_bound)).
  cbn [negb].
  rewrite encode_ref_spec
    by (assumption || (unfold CODEC_COMPATIBILITY_CONTRACT_OFFSET; blit_bound)).
  cbn [negb]. unfold r3c_d_put_u32_be.
  pose proof (ref_of_text_length _ Hr1) as H1. pose proof (ref_of_text_length _ Hr2) as H2.
  pose proof (ref_of_text_length _ Hr3) as H3.
  unfold CODEC_PRODUCER_PROFILE_OFFSET, CODEC_CONSUMER_PROFILE_OFFSET,
    CODEC_COMPATIBILITY_CONTRACT_OFFSET, CODEC_ACCEPTED_EPOCH_OFFSET,
    CODEC_ACCEPTED_SEQUENCE_OFFSET, CODEC_RECORD_GENERATION_OFFSET, CODEC_MATERIAL_LENGTH_OFFSET,
    CODEC_INTEGRITY_OFFSET.
  set (o := blit out 0 _).
  assert (Ho : (364 <= length o)%nat) by (subst o; blit_bound).
  rewrite !(blit_blit_adjacent o 28)
    by (rewrite ?length_app, ?H1, ?H2, ?H3; cbn; lia).
  rewrite <- !app_assoc.
  change (ref_of (ref_text (fi_producer_semantic_profile_id (rec_identity r)))
    ++ ref_of (ref_text (fi_consumer_semantic_profile_id (rec_identity r)))
    ++ ref_of (ref_text (fi_compatibility_contract_id (rec_identity r)))
    ++ put_u32_be (rec_accepted_epoch r) ++ put_u32_be (rec_accepted_sequence r)
    ++ put_u32_be (rec_record_generation r) ++ put_u32_be CODEC_INTEGRITY_MATERIAL_LENGTH)
    with (codec_fields r).
  pose proof (codec_fields_length r Hv) as Hf. clear H1 H2 H3.
  replace (sha256_digest (blit o 28 (codec_fields r)) 332)
    with (sha256_digest (codec_body r) 332).
  2:{ subst o. rewrite fields_written by (done || lia). rewrite blit_0, <- !app_assoc.
      rewrite (app_assoc [0; 0; 0]), (app_assoc (codec_header r)).
      symmetry. apply sha256_digest_app. symmetry. apply (codec_body_length r Hv). }
  rewrite take_ge by (rewrite sha256_digest_length; done).
  pose proof (fields_written out (codec_header r ++ [0; 0; 0])
    (codec_fields r ++ sha256_digest (codec_body r) 332)) as Hd.
  rewrite (length_app (codec_fields r)), Hf, sha256_digest_length in Hd.
  subst o. unfold codec_fields at 1 in Hd. rewrite <- !app_assoc in Hd.
  rewrite <- !app_assoc. rewrite Hd by (done || lia).
  unfold codec_image, codec_body. rewrite <- !app_assoc. rewrite blit_0.
  change (replicate (336 - (304 + 32)) 0) with (@nil Z). rewrite app_nil_r.
  do 3 f_equal. unfold CODEC_SERIALIZED_SIZE. rewrite !length_app, Hf, sha256_digest_length.
  rewrite <- !app_assoc. reflexivity.
Qed.

(** ** Reading references back *)

Lemma ref_length_take inp n : ref_length (take n inp) n = ref_length inp n.
Proof.
  revert inp. induction n as [|n IH]; intros [|x inp]; try done.
  cbn [take]. rewrite !ref_length_cons. by rewrite IH.
Qed.

Lemma ref_length_ref_of r rest :
  field_ref_valid r = true -> ref_length (ref_of (ref_text r) ++ rest) 96 = ref_length r 96.
Proof.
  intros H. pose proof (ref_of_text_length r H) as Hl. apply field_ref_valid_spec in H.
  rewrite <- ref_length_take, take_app_le, take_ge by lia.
  unfold ref_of. rewrite ref_length_text; [apply ref_text_length|apply ref_length_nonzero|].
  rewrite ref_text_length. lia.
Qed.

Lemma forallb_zero_replicate n : forallb (fun b => b =? 0) (replicate n 0) = true.
Proof. by induction n. Qed.

Lemma forallb_zero l : forallb (fun b => b =? 0) l = true -> l = replicate (length l) 0.
Proof.
  induction l as [|x l IH]; [done|]. cbn [forallb]. intros [Hx Hl]%andb_true_iff.
  apply Z.eqb_eq in Hx as ->. cbn [length replicate]. f_equal. by apply IH.
Qed.

Lemma decode_ref_ref_of r rest :
  field_ref_valid r = true ->
  r3c_d_decode_ref (Some (ref_of (ref_text r) ++ rest)) (Some zero_ref)
  = (true, Some (ref_of (ref_text r))).
Proof.
  intros Hv. pose proof (ref_of_text_length r Hv) as Hl. unfold r3c_d_decode_ref.
  unfold GUARDIAN_NODE_LINK_SEMANTIC_REF_CAPACITY.
  rewrite ref_length_ref_of by assumption. apply field_ref_valid_spec in Hv.
  set (n := ref_length r 96) in *.
  assert (Ht : length (ref_text r) = n) by apply ref_text_length.
  destruct (Nat.eqb_spec n 0); [lia|]. destruct (Nat.leb_spec 96 n); [lia|]. cbn [orb].
  assert (Hsplit : ref_of (ref_text r) = ref_text r ++ 0 :: replicate (96 - (n + 1)) 0).
  { unfold ref_of. rewrite Ht. replace (96 - n)%nat with (S (96 - (n + 1))) by lia. done. }
  assert (Hpad : take (96 - (n + 1)) (drop (n + 1) (ref_of (ref_text r) ++ rest))
    = replicate (96 - (n + 1)) 0).
  { rewrite Hsplit, <- app_assoc, drop_app_ge by lia. rewrite Ht.
    replace (n + 1 - n)%nat with 1%nat by lia. cbn [app drop].
    apply take_app_length'. by rewrite length_replicate. }
  rewrite Hpad, forallb_zero_replicate. cbn [negb]. do 2 f_equal.
  rewrite (blit_exact zero_ref (replicate 96 0)) by reflexivity.
  rewrite take_app_le by lia. unfold ref_of at 1. rewrite take_app_length' by done.
  rewrite blit_0, drop_replicate. reflexivity.
Qed.

Lemma decode_ref_inv inp out :
  (96 <= length inp)%nat ->
  r3c_d_decode_ref (Some inp) (Some zero_ref) = (true, out) ->
  out = Some (take 96 inp) /\ field_ref_valid (take 96 inp) = true /\
  ref_of (ref_text (take 96 inp)) = take 96 inp.
Proof.
  intros Hlen H. unfold r3c_d_decode_ref, GUARDIAN_NODE_LINK_SEMANTIC_REF_CAPACITY in H.
  rewrite <- ref_length_take in H. set (R := take 96 inp) in *.
  assert (HR : length R = 96%nat) by (subst R; rewrite length_take; lia).
  early_inv H E1. early_inv H E2. apply orb_false_iff in E1 as [E1 E1'].
  apply Nat.eqb_neq in E1. apply Nat.leb_gt in E1'. apply negb_false_iff in E2.
  apply pair_equal_spec in H as [_ <-]. set (n := ref_length R 96) in *.
  assert (Hpad : take (96 - (n + 1)) (drop (n + 1) inp) = drop (n + 1) R).
  { subst R. by rewrite skipn_firstn_comm. }
  rewrite Hpad in E2. apply forallb_zero in E2. rewrite length_drop, HR in E2.
  assert (Hn : drop n R = replicate (96 - n) 0).
  { pose proof (ref_length_stops R 96 ltac:(lia)) as H0. fold n in H0.
    replace (96 - n)%nat with (S (96 - (n + 1))) by lia. cbn [replicate].
    rewrite <- E2. rewrite (drop_S R 0 n); [f_equal; f_equal; lia|].
    destruct (nth_lookup_or_length R n 0) as [E|]; [|lia]. by rewrite E; f_equal. }
  assert (Ht : take n inp = ref_text R).
  { unfold ref_text. fold n. subst R. rewrite take_take. f_equal. lia. }
  assert (Hc : ref_of (ref_text R) = R).
  { unfold ref_of. rewrite ref_text_length. fold n. rewrite <- Hn. apply take_drop. }
  split; [|split; [apply field_ref_valid_spec; lia|exact Hc]].
  f_equal. rewrite (blit_exact zero_ref (replicate 96 0)) by reflexivity. rewrite Ht. etransitivity; [|exact Hc].
  rewrite blit_0, drop_replicate. reflexivity.
Qed.

(** ** Decoding an image *)


(** The codec writes the promotion to [int] of the first byte without a cast. *)
Lemma get_u16_be_agree p : bytes p -> r3c_d_get_u16_be p = get_u16_be p.
Proof.
  intros Hp. unfold r3c_d_get_u16_be, get_u16_be. do 2 f_equal. symmetry. apply u16_id.
  pose proof (byte_at_range p 0 Hp). unfold_ints. rewrite Z.shiftl_mul_pow2 by lia. lia.
Qed.

Lemma image_fields r rest :
  record_valid r ->
  let img := codec_image r ++ rest in
  drop 8 img = put_u32_be (rec_schema_version r) ++ drop 12 img /\
  drop 12 img = put_u32_be (fi_sender_node_id (rec_identity r)) ++ drop 16 img /\
  drop 16 img = put_u32_be (fi_producer_id (rec_identity r)) ++ drop 20 img /\
  drop 20 img = put_u32_be (fi_key_id (rec_identity r)) ++ drop 24 img /\
  drop 28 img
    = ref_of (ref_text (fi_producer_semantic_profile_id (rec_identity r))) ++ drop 124 img /\
  drop 124 img
    = ref_of (ref_text (fi_consumer_semantic_profile_id (rec_identity r))) ++ drop 220 img /\
  drop 220 img
    = ref_of (ref_text (fi_compatibility_contract_id (rec_identity r))) ++ drop 316 img /\
  drop 316 img = put_u32_be (rec_accepted_epoch r) ++ drop 320 img /\
  drop 320 img = put_u32_be (rec_accepted_sequence r) ++ drop 324 img /\
  drop 324 img = put_u32_be (rec_record_generation r) ++ drop 328 img /\
  drop 328 img = put_u32_be CODEC_INTEGRITY_MATERIAL_LENGTH ++ drop 332 img /\
  drop 332 img = sha256_digest (codec_body r) 332 ++ rest.
Proof.
  intros [_ _ [_ _ _ _ Hr1 Hr2 Hr3] _ _ _].
  apply ref_of_text_length in Hr1, Hr2, Hr3. cbv zeta.
  set (tail := sha256_digest (codec_body r) 332 ++ rest).
  assert (E : drop 28 (codec_image r ++ rest) = codec_fields r ++ tail)
    by (unfold codec_image; rewrite <- !app_assoc; reflexivity).
  unfold codec_fields in E.
  set (p := ref_of (ref_text (fi_producer_semantic_profile_id _))) in *.
  set (c := ref_of (ref_text (fi_consumer_semantic_profile_id _))) in *.
  set (k := ref_of (ref_text (fi_compatibility_contract_id _))) in *.
  rewrite <- !app_assoc in E.
  assert (Hstep : forall n m (a b : list Z), length a = m -> drop n (codec_image r ++ rest) = a ++ b ->
    drop (n + m) (codec_image r ++ rest) = b).
  { intros n m a b <- H. by rewrite <- drop_drop, H, drop_app_length. }
  pose proof (Hstep 28%nat 96%nat _ _ Hr1 E) as E2.
  pose proof (Hstep 124%nat 96%nat _ _ Hr2 E2) as E3.
  pose proof (Hstep 220%nat 96%nat _ _ Hr3 E3) as E4.
  pose proof (Hstep 316%nat 4%nat _ _ (put_u32_be_length _) E4) as E5.
  pose proof (Hstep 320%nat 4%nat _ _ (put_u32_be_length _) E5) as E6.
  pose proof (Hstep 324%nat 4%nat _ _ (put_u32_be_length _) E6) as E7.
  pose proof (Hstep 328%nat 4%nat _ _ (put_u32_be_length _) E7) as E8.
  cbn [Nat.add] in *. clear Hstep.
  repeat (split; [first [reflexivity | congruence]|]). exact E8.
Qed.

(** The candidate the decoder builds from the buffer [inp]. *)
Definition candidate_of (inp : list Z) : record :=
  RECORD (get_u32_be (drop 8 inp))
    (FRESHNESS_IDENTITY (get_u32_be (drop 12 inp)) (get_u32_be (drop 16 inp))
       (get_u32_be (drop 20 inp)) (byte_at inp 24)
       (take 96 (drop 28 inp)) (take 96 (drop 124 inp)) (take 96 (drop 220 inp)))
    (get_u32_be (drop 316 inp)) (get_u32_be (drop 320 inp)) (get_u32_be (drop 324 inp)).

Lemma byte_at_take_1 l k : (k < length l)%nat -> take 1 (drop k l) = [byte_at l k].
Proof.
  intros H. destruct (nth_lookup_or_length l k 0) as [E|]; [|lia].
  by rewrite (drop_S _ _ _ E).
Qed.

Lemma take_split n m k (l : list Z) : k = (n + m)%nat -> take k l = take n l ++ take m (drop n l).
Proof. intros ->. by rewrite take_take_drop. Qed.

(** The slices of a buffer along the layout. *)
Lemma body_slices (l : list Z) :
  (364 <= length l)%nat ->
  take 332 l =
    [byte_at l 0; byte_at l 1; byte_at l 2; byte_at l 3]
    ++ take 2 (drop 4 l) ++ take 2 (drop 6 l) ++ take 4 (drop 8 l) ++ take 4 (drop 12 l)
    ++ take 4 (drop 16 l) ++ take 4 (drop 20 l)
    ++ [byte_at l 24] ++ [byte_at l 25; byte_at l 26; byte_at l 27]
    ++ take 96 (drop 28 l) ++ take 96 (drop 124 l) ++ take 96 (drop 220 l)
    ++ take 4 (drop 316 l) ++ take 4 (drop 320 l) ++ take 4 (drop 324 l) ++ take 4 (drop 328 l).
Proof.
  intros H.
  assert (Hs : forall n m k, k = (n + m)%nat -> take k l = take n l ++ take m (drop n l))
    by (intros; by apply take_split).
  rewrite (Hs 328%nat 4%nat), (Hs 324%nat 4%nat), (Hs 320%nat 4%nat), (Hs 316%nat 4%nat),
    (Hs 220%nat 96%nat), (Hs 124%nat 96%nat), (Hs 28%nat 96%nat), (Hs 27%nat 1%nat),
    (Hs 26%nat 1%nat), (Hs 25%nat 1%nat), (Hs 24%nat 1%nat), (Hs 20%nat 4%nat),
    (Hs 16%nat 4%nat), (Hs 12%nat 4%nat), (Hs 8%nat 4%nat), (Hs 6%nat 2%nat), (Hs 4%nat 2%nat),
    (Hs 3%nat 1%nat), (Hs 2%nat 1%nat), (Hs 1%nat 1%nat), (Hs 0%nat 1%nat) by reflexivity.
  rewrite !byte_at_take_1 by lia. rewrite <- !app_assoc. reflexivity.
Qed.

Lemma codec_body_candidate inp :
  bytes inp -> (364 <= length inp)%nat ->
  [byte_at inp 0; byte_at inp 1; byte_at inp 2; byte_at inp 3]
    = [R3C_D_MAGIC_0; R3C_D_MAGIC_1; R3C_D_MAGIC_2; R3C_D_MAGIC_3] ->
  get_u16_be (drop 4 inp) = CODEC_SERIALIZATION_VERSION ->
  get_u16_be (drop 6 inp) = CODEC_HEADER_LENGTH ->
  [byte_at inp 25; byte_at inp 26; byte_at inp 27] = [0; 0; 0] ->
  get_u32_be (drop 328 inp) = CODEC_INTEGRITY_MATERIAL_LENGTH ->
  normalized (candidate_of inp) = candidate_of inp ->
  codec_body (candidate_of inp) = take 332 inp.
Proof.
  intros Hb Hl Hm Hv Hh Hr Hml Hn. rewrite body_slices by done. rewrite Hm, Hr.
  unfold codec_body, codec_header, codec_fields. rewrite <- Hv, <- Hh, <- Hml.
  unfold normalized in Hn. apply (f_equal rec_identity) in Hn. cbn [rec_identity] in Hn.
  unfold normalized_identity in Hn.
  pose proof (f_equal fi_producer_semantic_profile_id Hn) as H1.
  pose proof (f_equal fi_consumer_semantic_profile_id Hn) as H2.
  pose proof (f_equal fi_compatibility_contract_id Hn) as H3.
  cbn [fi_producer_semantic_profile_id fi_consumer_semantic_profile_id
    fi_compatibility_contract_id] in H1, H2, H3.
  rewrite H1, H2, H3. unfold candidate_of.
  cbn [rec_schema_version rec_identity rec_accepted_epoch rec_accepted_sequence
    rec_record_generation fi_sender_node_id fi_producer_id fi_key_id fi_signature_algorithm
    fi_producer_semantic_profile_id fi_consumer_semantic_profile_id fi_compatibility_contract_id].
  rewrite !get_put_u32_be_take, !get_put_u16_be_take
    by (first [by apply bytes_drop | rewrite length_drop; lia]).
  rewrite <- !app_assoc. reflexivity.
Qed.

Lemma candidate_object inp : bytes inp -> record_object (candidate_of inp).
Proof.
  intros H. constructor; cbn [candidate_of rec_schema_version rec_identity rec_accepted_epoch
    rec_accepted_sequence rec_record_generation fi_sender_node_id fi_producer_id fi_key_id
    fi_signature_algorithm fi_producer_semantic_profile_id fi_consumer_semantic_profile_id
    fi_compatibility_contract_id]; auto using get_u32_be_range, byte_at_range, bytes_take,
    bytes_drop.
Qed.

(** The decoder accepts exactly the images, and returns the record they were
    made from with its references zero-filled. *)
Lemma decode_inv inp n r0 out :
  bytes inp -> (n <= length inp)%nat ->
  guardian_node_link_freshness_persistence_decode (Some inp) n (Some r0)
    = (GUARDIAN_NODE_LINK_PERSISTENCE_CODEC_OK, out) ->
  n = CODEC_SERIALIZED_SIZE /\ exists r, out = Some r /\ record_valid r /\ record_object r /\
  normalized r = r /\ take CODEC_SERIALIZED_SIZE inp = codec_image r.
Proof.
  intros Hb Hn H. unfold guardian_node_link_freshness_persistence_decode in H.
  early_inv H E1. early_inv H E2. apply Nat.ltb_ge in E1, E2.
  assert (n = CODEC_SERIALIZED_SIZE) as -> by lia.
  unfold CODEC_SERIALIZED_SIZE in Hn.
  early_inv H E3. early_inv H E4. early_inv H E5. early_inv H E6. early_inv H E7.
  early_inv H E8.
  destruct (r3c_d_decode_ref (Some (drop CODEC_PRODUCER_PROFILE_OFFSET inp)) _) as [ok1 p] eqn:R1.
  early_inv H E9. apply negb_false_iff in E9 as ->.
  destruct (r3c_d_decode_ref (Some (drop CODEC_CONSUMER_PROFILE_OFFSET inp)) _) as [ok2 c] eqn:R2.
  early_inv H E10. apply negb_false_iff in E10 as ->.
  destruct (r3c_d_decode_ref (Some (drop CODEC_COMPATIBILITY_CONTRACT_OFFSET inp)) _)
    as [ok3 k] eqn:R3.
  early_inv H E11. apply negb_false_iff in E11 as ->.
  apply decode_ref_inv in R1 as (-> & _ & R1), R2 as (-> & _ & R2), R3 as (-> & _ & R3);
    try (rewrite length_drop; unfold CODEC_PRODUCER_PROFILE_OFFSET, CODEC_CONSUMER_PROFILE_OFFSET,
      CODEC_COMPATIBILITY_CONTRACT_OFFSET; clear - Hn; lia).
  cbn [from_option id] in H. cbv zeta in H. fold (candidate_of inp) in H.
  early_inv H E12. apply negb_false_iff, logically_valid_spec in E12.
  apply pair_equal_spec in H as [_ <-].
  unfold CODEC_PRODUCER_PROFILE_OFFSET, CODEC_CONSUMER_PROFILE_OFFSET,
    CODEC_COMPATIBILITY_CONTRACT_OFFSET in R1, R2, R3.
  assert (Hnorm : normalized (candidate_of inp) = candidate_of inp)
    by (unfold normalized, normalized_identity; cbn [candidate_of rec_identity
          fi_producer_semantic_profile_id fi_consumer_semantic_profile_id
          fi_compatibility_contract_id]; by rewrite R1, R2, R3).
  split; [reflexivity|]. exists (candidate_of inp). split; [reflexivity|].
  split; [exact E12|]. split; [by apply candidate_object|]. split; [exact Hnorm|].
  apply orb_false_iff in E3 as [[[M0 M1]%orb_false_iff M2]%orb_false_iff M3].
  apply orb_false_iff in E6 as [[Z0 Z1]%orb_false_iff Z2].
  apply negb_false_iff, Z.eqb_eq in M0, M1, M2, M3, Z0, Z1, Z2.
  rewrite negb_false_iff, Z.eqb_eq in E4, E5, E7.
  rewrite get_u16_be_agree in E4, E5 by (by apply bytes_drop).
  unfold codec_image.
  rewrite (codec_body_candidate inp Hb Hn); try assumption;
    try (repeat (apply f_equal2; [assumption|]); reflexivity).
  apply negb_false_iff, guardian_crypto_constant_time_equal_spec in E8.
  - unfold CODEC_SERIALIZED_SIZE, CODEC_INTEGRITY_OFFSET, CODEC_INTEGRITY_SIZE in *.
    rewrite (take_split 332 32 364) by reflexivity. rewrite <- E8, sha256_digest_take.
    by rewrite (take_ge (sha256_digest _ _)) by (by rewrite sha256_digest_length).
  - apply sha256_digest_bytes.
  - by apply bytes_drop.
  - unfold CODEC_INTEGRITY_SIZE. lia.
  - by rewrite sha256_digest_length.
  - rewrite length_drop. unfold CODEC_INTEGRITY_SIZE, CODEC_INTEGRITY_OFFSET. lia.
Qed.

Lemma ref_text_ref_of r : field_ref_valid r = true -> ref_text (ref_of (ref_text r)) = ref_text r.
Proof.
  intros H. pose proof (ref_length_ref_of r [] H) as Hl. rewrite app_nil_r in Hl.
  unfold ref_text at 1. rewrite Hl. unfold ref_of. apply take_app_length'.
  symmetry. apply ref_text_length.
Qed.

Lemma field_ref_valid_ref_of r : field_ref_valid r = true -> field_ref_valid (ref_of (ref_text r)) = true.
Proof.
  intros H. pose proof (ref_length_ref_of r [] H) as Hl. rewrite app_nil_r in Hl.
  apply field_ref_valid_spec. rewrite Hl. by apply field_ref_valid_spec.
Qed.

Lemma normalized_key r : record_valid r -> record_key (normalized r) = record_key r.
Proof.
  intros [_ _ [_ _ _ _ Hr1 Hr2 Hr3] _ _ _]. unfold record_key, normalized, identity_key.
  cbn [rec_schema_version rec_identity rec_accepted_epoch rec_accepted_sequence
    rec_record_generation normalized_identity fi_sender_node_id fi_producer_id fi_key_id
    fi_signature_algorithm fi_producer_semantic_profile_id fi_consumer_semantic_profile_id
    fi_compatibility_contract_id].
  by rewrite !ref_text_ref_of by assumption.
Qed.

Lemma normalized_valid r : record_valid r -> record_valid (normalized r).
Proof.
  intros [H1 _ [I1 I2 I3 I4 Hr1 Hr2 Hr3] _ H5 H6].
  apply field_ref_valid_ref_of in Hr1, Hr2, Hr3.
  assert (Hi : identity_ok (rec_identity (normalized r)))
    by exact (Build_identity_ok (normalized_identity (rec_identity r)) I1 I2 I3 I4 Hr1 Hr2 Hr3).
  exact (Build_record_ok _ (normalized r) H1 Hi Hi eq_refl H5 H6).
Qed.

Lemma decode_image r rest r0 :
  record_valid r -> record_object r -> bytes rest ->
  guardian_node_link_freshness_persistence_decode (Some (codec_image r ++ rest))
    CODEC_SERIALIZED_SIZE (Some r0)
  = (GUARDIAN_NODE_LINK_PERSISTENCE_CODEC_OK, Some (normalized r)).
Proof.
  intros Hv Ho Hrest. unfold guardian_node_link_freshness_persistence_decode.
  rewrite (proj2 (Nat.ltb_ge _ _)) by lia.
  pose proof (image_fields r rest Hv) as F. cbv zeta in F.
  assert (Hver : r3c_d_get_u16_be (drop 4 (codec_image r ++ rest)) = 1) by reflexivity.
  assert (Hhl : r3c_d_get_u16_be (drop 6 (codec_image r ++ rest)) = 28) by reflexivity.
  assert (Halg : byte_at (codec_image r ++ rest) 24 = fi_signature_algorithm (rec_identity r))
    by reflexivity.
  assert (Hm : negb (byte_at (codec_image r ++ rest) 0 =? R3C_D_MAGIC_0)
    || negb (byte_at (codec_image r ++ rest) 1 =? R3C_D_MAGIC_1)
    || negb (byte_at (codec_image r ++ rest) 2 =? R3C_D_MAGIC_2)
    || negb (byte_at (codec_image r ++ rest) 3 =? R3C_D_MAGIC_3) = false) by reflexivity.
  assert (Hz : negb (byte_at (codec_image r ++ rest) 25 =? 0)
    || negb (byte_at (codec_image r ++ rest) 26 =? 0)
    || negb (byte_at (codec_image r ++ rest) 27 =? 0) = false) by reflexivity.
  assert (Hdig : sha256_digest (codec_image r ++ rest) 332 = sha256_digest (codec_body r) 332).
  { unfold codec_image. rewrite <- app_assoc. apply sha256_digest_app.
    by rewrite codec_body_length. }
  revert F Hver Hhl Halg Hm Hz Hdig. generalize (codec_image r ++ rest). intros img F.
  destruct F as (F8 & F12 & F16 & F20 & F28 & F124 & F220 & F316 & F320 & F324 & F328 & F332).
  intros Hver Hhl Halg Hm Hz Hdig.
  unfold CODEC_MAGIC_OFFSET, CODEC_SERIALIZATION_VERSION_OFFSET, CODEC_HEADER_LENGTH_OFFSET,
    CODEC_LOGICAL_SCHEMA_OFFSET, CODEC_SENDER_NODE_ID_OFFSET, CODEC_PRODUCER_ID_OFFSET,
    CODEC_KEY_ID_OFFSET, CODEC_SIGNATURE_ALGORITHM_OFFSET, CODEC_RESERVED_OFFSET,
    CODEC_PRODUCER_PROFILE_OFFSET, CODEC_CONSUMER_PROFILE_OFFSET,
    CODEC_COMPATIBILITY_CONTRACT_OFFSET, CODEC_ACCEPTED_EPOCH_OFFSET,
    CODEC_ACCEPTED_SEQUENCE_OFFSET, CODEC_RECORD_GENERATION_OFFSET, CODEC_MATERIAL_LENGTH_OFFSET,
    CODEC_INTEGRITY_OFFSET, r3c_d_get_u32_be.
  cbn [Nat.add]. rewrite Hver, Hhl, Halg, Hm, Hz, Hdig, F332.
  pose proof (reco_identity _ _ Hv) as [_ _ _ _ Hr1 Hr2 Hr3].
  rewrite F28, F124, F220, !decode_ref_ref_of by assumption.
  rewrite F328, F8, F12, F16, F20, F316, F320, F324.
  rewrite !put_get_u32_be by (first [apply Ho | split; reflexivity || discriminate]).
  assert (Heq : guardian_crypto_constant_time_equal (Some (sha256_digest (codec_body r) 332))
    (Some (sha256_digest (codec_body r) 332 ++ rest)) CODEC_INTEGRITY_SIZE = true).
  { pose proof (sha256_digest_length (codec_body r) 332) as Hl.
    pose proof (sha256_digest_bytes (codec_body r) 332) as Hb.
    apply guardian_crypto_constant_time_equal_spec; unfold CODEC_INTEGRITY_SIZE;
      [assumption|by apply bytes_app_2|lia|by rewrite Hl|rewrite length_app; lia|].
    rewrite take_app_le by lia. reflexivity. }
  rewrite Heq. cbn [negb Z.eqb from_option id].
  rewrite (proj2 (logically_valid_spec (RECORD _ _ _ _ _))); [reflexivity|].
  exact (normalized_valid r Hv).
Qed.

Lemma record_decode_not_ok inp n r0 r1 out :
  guardian_node_link_freshness_persistence_decode inp n (Some r0) = (r1, out) ->
  r1 <> GUARDIAN_NODE_LINK_PERSISTENCE_CODEC_OK -> out = Some zero_record.
Proof.
  unfold guardian_node_link_freshness_persistence_decode. intros H Hr.
  destruct inp as [inp|]; [|by injection H as _ <-].
  repeat (match type of H with (if ?c then _ else _) = _ => destruct c;
    [apply pair_equal_spec in H as [_ <-]; reflexivity|] end
    || match type of H with (let '(_, _) := ?c in _) = _ => destruct c end).
  apply pair_equal_spec in H as [<- _]. by destruct Hr.
Qed.

Lemma codec_image_bytes r : record_object r -> bytes (codec_image r).
Proof.
  intros Ho. unfold codec_image, codec_body, codec_header, codec_fields.
  assert (Hu : forall v : Z, is_u8 v -> bytes [v]) by (intros; apply bytes_cons; [assumption|apply bytes_nil]).
  repeat apply bytes_app_2;
    lazymatch goal with
    | |- bytes (put_u32_be _) => apply put_u32_be_bytes
    | |- bytes (put_u16_be _) => apply put_u16_be_bytes
    | |- bytes (sha256_digest _ _) => apply sha256_digest_bytes
    | |- bytes (ref_text _) => apply ref_text_bytes; apply Ho
    | |- bytes (replicate _ _) => apply bytes_replicate; done
    | |- bytes [fi_signature_algorithm _] => exact (Hu _ (ro_algorithm r Ho))
    | |- bytes ?l => exact (bool_decide_eq_true_1 (bytes l) eq_refl)
    end.
Qed.

Lemma image_digest inp r :
  record_valid r -> (CODEC_SERIALIZED_SIZE <= length inp)%nat ->
  take CODEC_SERIALIZED_SIZE inp = codec_image r ->
  take 32 (drop CODEC_INTEGRITY_OFFSET inp) = sha256_spec (take CODEC_INTEGRITY_OFFSET inp).
Proof.
  intros Hv Hlen H. pose proof (codec_body_length r Hv) as Hl.
  unfold CODEC_SERIALIZED_SIZE, CODEC_INTEGRITY_OFFSET, codec_image in *.
  assert (H1 : take 332 inp = codec_body r).
  { rewrite <- (take_take inp 332 364 : _ = take 332 inp), H. by apply take_app_length'. }
  rewrite H1. change 32%nat with (364 - 332)%nat. rewrite <- skipn_firstn_comm, H.
  rewrite drop_app_length' by done. unfold CODEC_INTEGRITY_OFFSET.
  rewrite sha256_digest_spec; [|by rewrite Hl|reflexivity].
  by rewrite take_ge by (by rewrite Hl).
Qed.

Lemma example_record_object sequence generation :
  is_u32 sequence -> is_u32 generation -> record_object (example_record sequence generation).
Proof.
  intros. constructor; cbn [example_record rec_schema_version rec_identity rec_accepted_epoch
    rec_accepted_sequence rec_record_generation]; try assumption;
    first [apply ref_of_bytes; repeat constructor; done | split; reflexivity || discriminate].
Qed.

Lemma example_record_valid sequence generation :
  sequence <> 0 -> record_valid (example_record sequence generation).
Proof. apply example_record_ok. Qed.

(** ** Properties *)

(** Encoding a valid record and decoding the image gives the record back.  The
    encoder writes the 364-byte image and nothing after it, whatever the buffer
    held; the decoder, on that buffer, returns the record with its references
    zero-filled after the terminator, which the store's comparison of records
    cannot tell from the original.  An invalid record or a short buffer is
    refused with the buffer untouched and a length of zero. *)
Theorem codec_roundtrip (r r0 : record) (out : list Z) (cap n0 : nat) res out' n' :
  record_object r -> bytes out -> (cap <= length out)%nat ->
  guardian_node_link_freshness_persistence_encode (Some r) (Some out) cap (Some n0)
    = (res, out', n') ->
  (res = GUARDIAN_NODE_LINK_PERSISTENCE_CODEC_OK <->
   (CODEC_SERIALIZED_SIZE <= cap)%nat /\ record_valid r) /\
  (res <> GUARDIAN_NODE_LINK_PERSISTENCE_CODEC_OK -> out' = Some out /\ n' = Some 0%nat) /\
  (res = GUARDIAN_NODE_LINK_PERSISTENCE_CODEC_OK ->
   n' = Some CODEC_SERIALIZED_SIZE /\
   exists buf, out' = Some buf /\ length buf = length out /\
   drop CODEC_SERIALIZED_SIZE buf = drop CODEC_SERIALIZED_SIZE out /\
   guardian_node_link_freshness_persistence_decode (Some buf) CODEC_SERIALIZED_SIZE (Some r0)
     = (GUARDIAN_NODE_LINK_PERSISTENCE_CODEC_OK, Some (normalized r)) /\
   record_key (normalized r) = record_key r).
Proof.
  intros Ho Hb Hcap H.
  assert (Hs : (CODEC_SERIALIZED_SIZE <= cap)%nat /\ record_valid r \/
    ~ ((CODEC_SERIALIZED_SIZE <= cap)%nat /\ record_valid r) /\
    res <> GUARDIAN_NODE_LINK_PERSISTENCE_CODEC_OK /\ out' = Some out /\ n' = Some 0%nat).
  { clear Ho Hb. unfold guardian_node_link_freshness_persistence_encode in H.
    destruct (Nat.ltb_spec cap CODEC_SERIALIZED_SIZE) as [Hc|Hc].
    { right. apply pair_equal_spec in H as [H <-]. apply pair_equal_spec in H as [<- <-].
      split; [|done]. intros [? _]. lia. }
    destruct (r3c_d_record_is_logically_valid (Some r)) eqn:Ev.
    - left. split; [exact Hc|]. by apply logically_valid_spec.
    - right. cbn [negb] in H. apply pair_equal_spec in H as [H <-].
      apply pair_equal_spec in H as [<- <-].
      split; [|done]. intros [_ Hv]. apply logically_valid_spec in Hv. congruence. }
  destruct Hs as [[Hc Hv]|(Hno & Hr & -> & ->)].
  - rewrite record_encode_writes in H by assumption. apply pair_equal_spec in H as [H <-].
    apply pair_equal_spec in H as [<- <-].
    pose proof (codec_image_length r Hv) as Hl.
    split; [done|]. split; [done|]. intros _. split; [reflexivity|].
    eexists. split; [reflexivity|]. rewrite length_app, length_drop, Hl. split; [lia|].
    split; [by rewrite drop_app_length'|].
    split; [|by apply normalized_key]. apply decode_image; [done|done|by apply bytes_drop].
  - split; [by split|]. done.
Qed.

(** The decoder accepts only canonical images.  A successful decode means the
    input is exactly 364 bytes, is the image of a valid record of the target's
    integer widths with zero-filled references - so its digest is the SHA-256 of
    the 332 bytes before it - and that re-encoding the decoded record gives the
    input back byte for byte; any other outcome leaves a zeroed record. *)
Theorem codec_canonical (inp : list Z) (n : nat) (r0 : record) res rec' :
  bytes inp -> (n <= length inp)%nat ->
  guardian_node_link_freshness_persistence_decode (Some inp) n (Some r0) = (res, rec') ->
  (res <> GUARDIAN_NODE_LINK_PERSISTENCE_CODEC_OK -> rec' = Some zero_record) /\
  (res = GUARDIAN_NODE_LINK_PERSISTENCE_CODEC_OK ->
   n = CODEC_SERIALIZED_SIZE /\ exists r, rec' = Some r /\ record_valid r /\ record_object r /\
   normalized r = r /\
   take 32 (drop CODEC_INTEGRITY_OFFSET inp) = sha256_spec (take CODEC_INTEGRITY_OFFSET inp) /\
   guardian_node_link_freshness_persistence_encode (Some r) (Some (replicate 364 0)) 364 (Some 0%nat)
     = (GUARDIAN_NODE_LINK_PERSISTENCE_CODEC_OK, Some (take CODEC_SERIALIZED_SIZE inp),
        Some CODEC_SERIALIZED_SIZE)).
Proof.
  intros Hb Hn H. split; [by apply (record_decode_not_ok (Some inp) n r0)|]. intros ->.
  destruct (decode_inv inp n r0 rec' Hb Hn H) as (-> & r & -> & Hv & Ho & Hnm & Himg).
  split; [reflexivity|]. exists r. repeat (split; [assumption || reflexivity|]). split.
  - apply image_digest with (r := r); assumption.
  - rewrite record_encode_writes; [|assumption|reflexivity|by rewrite length_replicate].
    rewrite Himg, drop_ge by (by rewrite length_replicate). by rewrite app_nil_r.
Qed.

Lemma codec_roundtrip_witness :
  guardian_node_link_freshness_persistence_decode
    (guardian_node_link_freshness_persistence_encode (Some (example_record 105 8))
       (Some (replicate 400 7)) 400 (Some 0%nat)).1.2
    CODEC_SERIALIZED_SIZE (Some zero_record)
  = (GUARDIAN_NODE_LINK_PERSISTENCE_CODEC_OK, Some (normalized (example_record 105 8))).
Proof.
  destruct (guardian_node_link_freshness_persistence_encode (Some (example_record 105 8))
    (Some (replicate 400 7)) 400 (Some 0%nat)) as [[res out'] n'] eqn:E.
  pose proof (codec_roundtrip (example_record 105 8) zero_record (replicate 400 7) 400 0
    res out' n') as T.
  destruct T as (T1 & _ & T2);
    [by apply example_record_object|by apply bytes_replicate|by rewrite length_replicate
    |exact E|].
  assert (Hr : res = GUARDIAN_NODE_LINK_PERSISTENCE_CODEC_OK).
  { apply T1. split; [apply Nat.leb_le; reflexivity|by apply example_record_valid]. }
  destruct (T2 Hr) as (_ & buf & Hbuf & _ & _ & Hd & _). cbn [fst snd]. by rewrite Hbuf.
Defined.

Lemma codec_canonical_witness :
  exists r, record_valid r /\
  guardian_node_link_freshness_persistence_encode (Some r) (Some (replicate 364 0)) 364 (Some 0%nat)
  = (GUARDIAN_NODE_LINK_PERSISTENCE_CODEC_OK, Some (codec_image (example_record 105 8)),
     Some CODEC_SERIALIZED_SIZE).
Proof.
  assert (Hv : record_valid (example_record 105 8)) by (by apply example_record_valid).
  assert (Ho : record_object (example_record 105 8)) by (by apply example_record_object).
  pose proof (decode_image _ [] zero_record Hv Ho bytes_nil) as Hd. rewrite app_nil_r in Hd.
  pose proof (codec_image_length _ Hv) as Hl.
  destruct (codec_canonical (codec_image (example_record 105 8)) CODEC_SERIALIZED_SIZE zero_record
    _ _ (codec_image_bytes _ Ho) ltac:(rewrite Hl; reflexivity) Hd) as [_ T].
  destruct (T eq_refl) as (_ & r & Hr & Hrv & _ & _ & _ & He). exists r. split; [exact Hrv|].
  rewrite He, take_ge by (by rewrite Hl). reflexivity.
Defined.
