(* ===== verification/Media.v ===== *)
(** * The storage medium

    The media interface of
    [firmware/NodeLink/Inc/guardian_node_link_freshness_persistence_backend.h]:
    two erase domains with read, erase and program callbacks.  [MediaLaws] states
    what the backend relies on; [nor_laws] shows that NOR flash whose power may
    fail at any byte obeys it. *)

From S2P Require Import Prelude.

(** ** Types *)

Inductive guardian_node_link_persistence_slot_t :=
  | GUARDIAN_NODE_LINK_PERSISTENCE_SLOT_A
  | GUARDIAN_NODE_LINK_PERSISTENCE_SLOT_B.

#[global] Instance persistence_slot_eq_dec : EqDecision guardian_node_link_persistence_slot_t.
Proof. solve_decision. Defined.

Inductive guardian_node_link_persistence_media_result_t :=
  | GUARDIAN_NODE_LINK_PERSISTENCE_MEDIA_INVALID
  | GUARDIAN_NODE_LINK_PERSISTENCE_MEDIA_OK
  | GUARDIAN_NODE_LINK_PERSISTENCE_MEDIA_UNAVAILABLE
  | GUARDIAN_NODE_LINK_PERSISTENCE_MEDIA_IO_FAILURE
  | GUARDIAN_NODE_LINK_PERSISTENCE_MEDIA_OTHER (v : Z).

#[global] Instance media_result_eq_dec :
  EqDecision guardian_node_link_persistence_media_result_t.
Proof. solve_decision. Defined.

Local Abbreviation slot := guardian_node_link_persistence_slot_t.
Local Abbreviation media_result := guardian_node_link_persistence_media_result_t.

(** The callbacks, over the state [M] of the medium: [read] slot offset output
    length, [erase] slot, [program] slot offset data length. *)
Definition guardian_node_link_persistence_media_read_fn (M : Type) : Type :=
  M -> slot -> nat -> list Z -> nat -> media_result * list Z * M.
Definition guardian_node_link_persistence_media_erase_fn (M : Type) : Type :=
  M -> slot -> media_result * M.
Definition guardian_node_link_persistence_media_program_fn (M : Type) : Type :=
  M -> slot -> nat -> list Z -> nat -> media_result * M.

(** A media adapter as the caller hands it in, with NULL pointers. *)
Record guardian_node_link_persistence_media_t (M : Type) := MEDIA {
  media_read : option (guardian_node_link_persistence_media_read_fn M);
  media_erase : option (guardian_node_link_persistence_media_erase_fn M);
  media_program : option (guardian_node_link_persistence_media_program_fn M)
}.

Arguments MEDIA {M}.
Arguments media_read {M}.
Arguments media_erase {M}.
Arguments media_program {M}.

Definition other_slot (s : slot) : slot :=
  match s with
  | GUARDIAN_NODE_LINK_PERSISTENCE_SLOT_A => GUARDIAN_NODE_LINK_PERSISTENCE_SLOT_B
  | GUARDIAN_NODE_LINK_PERSISTENCE_SLOT_B => GUARDIAN_NODE_LINK_PERSISTENCE_SLOT_A
  end.

Lemma other_slot_involutive s : other_slot (other_slot s) = s.
Proof. by destruct s. Qed.

Lemma other_slot_ne s : other_slot s <> s.
Proof. by destruct s. Qed.

Lemma slot_cases s t : t = s \/ t = other_slot s.
Proof. destruct s, t; auto. Qed.

(** ** What the backend relies on

    Reading does not change the medium and, when it succeeds, returns what the
    slot holds; erasing and programming change only their slot, whatever they
    answer.  On a healthy medium they succeed and do what they are asked. *)
Class MediaLaws {M : Type} (read : guardian_node_link_persistence_media_read_fn M)
    (erase : guardian_node_link_persistence_media_erase_fn M)
    (program : guardian_node_link_persistence_media_program_fn M) := {
  content : M -> slot -> list Z;
  healthy : M -> Prop;
  content_bytes : forall m s, bytes (content m s);
  content_size : forall m s, (448 <= length (content m s))%nat;
  read_preserves : forall m s off buf n r out m',
    read m s off buf n = (r, out, m') ->
    (forall t, content m' t = content m t) /\ (healthy m -> healthy m');
  read_faithful : forall m s off buf n out m',
    read m s off buf n = (GUARDIAN_NODE_LINK_PERSISTENCE_MEDIA_OK, out, m') ->
    (off + n <= 448)%nat -> length buf = n -> out = take n (drop off (content m s));
  read_healthy : forall m s off buf n,
    healthy m -> (off + n <= 448)%nat -> exists out m',
    read m s off buf n = (GUARDIAN_NODE_LINK_PERSISTENCE_MEDIA_OK, out, m');
  erase_frame : forall m s r m',
    erase m s = (r, m') -> content m' (other_slot s) = content m (other_slot s);
  erase_healthy : forall m s, healthy m ->
    exists m', erase m s = (GUARDIAN_NODE_LINK_PERSISTENCE_MEDIA_OK, m') /\ healthy m' /\
    content m' s = replicate (length (content m s)) 0xFF;
  program_frame : forall m s off data n r m',
    program m s off data n = (r, m') -> content m' (other_slot s) = content m (other_slot s);
  program_healthy : forall m s off data n, healthy m -> bytes data -> (n <= length data)%nat ->
    (off + n <= 448)%nat -> take n (drop off (content m s)) = replicate n 0xFF ->
    exists m', program m s off data n = (GUARDIAN_NODE_LINK_PERSISTENCE_MEDIA_OK, m') /\
    healthy m' /\ content m' s = blit (content m s) off (take n data)
}.

(** ** NOR flash with a power supply that may fail

    Two erase domains of cells; programming clears bits, erasing sets them, both
    one cell at a time for as long as the power lasts ([None]: for ever). *)
Record nor := NOR {
  nor_cells : slot -> nat -> Z;
  nor_power : option nat
}.

Definition nor_capacity (s : slot) : nat :=
  match s with
  | GUARDIAN_NODE_LINK_PERSISTENCE_SLOT_A => 16 * 1024
  | GUARDIAN_NODE_LINK_PERSISTENCE_SLOT_B => 64 * 1024
  end.

Definition set_cells (m : nor) (s : slot) (cells : nat -> Z) (power : option nat) : nor :=
  NOR (fun t => if decide (t = s) then cells else nor_cells m t) power.

Definition nor_content (m : nor) (s : slot) : list Z := map (fun i => u8 (nor_cells m s i)) (seq 0 448).

Definition nor_read (m : nor) (s : slot) (off : nat) (buf : list Z) (n : nat)
  : media_result * list Z * nor :=
  if decide (nor_power m = Some 0%nat) then (GUARDIAN_NODE_LINK_PERSISTENCE_MEDIA_UNAVAILABLE, buf, m)
  else (GUARDIAN_NODE_LINK_PERSISTENCE_MEDIA_OK,
        blit buf 0 (map (fun i => u8 (nor_cells m s i)) (seq off n)), m).

(** The power left after [n] cells, and how many cells were written. *)
Definition spend (power : option nat) (n : nat) : option nat * nat :=
  match power with
  | None => (None, n)
  | Some p => (Some (p - n), Nat.min p n)
  end%nat.

Definition nor_erase (m : nor) (s : slot) : media_result * nor :=
  let '(power, done) := spend (nor_power m) (nor_capacity s) in
  (if (done =? nor_capacity s)%nat then GUARDIAN_NODE_LINK_PERSISTENCE_MEDIA_OK
   else GUARDIAN_NODE_LINK_PERSISTENCE_MEDIA_IO_FAILURE,
   set_cells m s (fun i => if (i <? done)%nat then 0xFF else nor_cells m s i) power).

Definition nor_program (m : nor) (s : slot) (off : nat) (data : list Z) (n : nat)
  : media_result * nor :=
  early (nor_capacity s <? off + n)%nat with (GUARDIAN_NODE_LINK_PERSISTENCE_MEDIA_INVALID, m) ;;
  let '(power, done) := spend (nor_power m) n in
  (if (done =? n)%nat then GUARDIAN_NODE_LINK_PERSISTENCE_MEDIA_OK
   else GUARDIAN_NODE_LINK_PERSISTENCE_MEDIA_IO_FAILURE,
   set_cells m s (fun i => if (off <=? i)%nat && (i <? off + done)%nat
                           then Z.land (nor_cells m s i) (byte_at data (i - off))
                           else nor_cells m s i) power).

Lemma nor_content_other m s cells power :
  nor_content (set_cells m s cells power) (other_slot s) = nor_content m (other_slot s).
Proof.
  unfold nor_content, set_cells. cbn [nor_cells].
  rewrite decide_False; [done|apply other_slot_ne].
Qed.

Lemma nor_content_set m s cells power :
  nor_content (set_cells m s cells power) s = map (fun i => u8 (cells i)) (seq 0 448).
Proof. unfold nor_content, set_cells. cbn [nor_cells]. by rewrite decide_True. Qed.

Lemma take_drop_seq off n : (off + n <= 448)%nat -> take n (drop off (seq 0 448)) = seq off n.
Proof.
  intros H. replace 448%nat with (off + (n + (448 - off - n)))%nat by lia.
  rewrite seq_app, drop_app_length' by (by rewrite length_seq).
  rewrite seq_app, take_app_length' by (by rewrite length_seq). done.
Qed.

Lemma nor_slice m s off n :
  (off + n <= 448)%nat ->
  take n (drop off (nor_content m s)) = map (fun i => u8 (nor_cells m s i)) (seq off n).
Proof.
  intros H. unfold nor_content. by rewrite skipn_map, firstn_map, take_drop_seq.
Qed.

Lemma nor_capacity_bound s : (448 <= nor_capacity s)%nat.
Proof. destruct s; cbn [nor_capacity]; lia. Qed.

Lemma land_255_byte b : is_u8 b -> u8 (Z.land 255 b) = b.
Proof.
  intros H. rewrite Z.land_comm, land_255. unfold_ints. change 256 with (2 ^ 8).
  rewrite Z.mod_mod by lia. by apply Z.mod_small.
Qed.

Lemma byte_at_map_seq f off n i :
  (i < n)%nat -> byte_at (map f (seq off n)) i = f (off + i)%nat.
Proof.
  intros H. unfold byte_at. rewrite (nth_indep _ 0 (f 0%nat)) by (by rewrite length_map, length_seq).
  rewrite map_nth, seq_nth by done. done.
Qed.

Lemma u8_land a b : u8 (Z.land a b) = Z.land (u8 a) (u8 b).
Proof.
  unfold u8. rewrite <- !Z.land_ones by lia. apply Z.bits_inj'. intros i Hi.
  rewrite !Z.land_spec. destruct (Z.testbit a i), (Z.testbit b i), (Z.testbit (Z.ones 8) i); done.
Qed.

Lemma byte_at_blit dst off src i :
  (off + length src <= length dst)%nat ->
  byte_at (blit dst off src) i =
    if (off <=? i)%nat && (i <? off + length src)%nat then byte_at src (i - off)
    else byte_at dst i.
Proof.
  intros H. destruct (Nat.leb_spec off i) as [Hi|Hi]; cbn [andb];
    [|apply byte_at_blit_lt; lia].
  unfold blit. rewrite byte_at_app_r by (rewrite length_take; lia).
  rewrite length_take, Nat.min_l by lia.
  destruct (Nat.ltb_spec i (off + length src)).
  - apply byte_at_app_l. lia.
  - rewrite byte_at_app_r, byte_at_drop by lia. f_equal. lia.
Qed.

#[global] Opaque nor_capacity.

#[global] Instance nor_laws : MediaLaws nor_read nor_erase nor_program.
Proof.
  refine (Build_MediaLaws nor nor_read nor_erase nor_program nor_content
    (fun m => nor_power m = None) _ _ _ _ _ _ _ _ _).
  - intros m s. unfold nor_content. apply Forall_map, Forall_true. intros. apply u8_range.
  - intros m s. unfold nor_content. by rewrite length_map, length_seq.
  - intros m s off buf n r out m'. unfold nor_read. case_decide; intros [= <- <- <-]; done.
  - intros m s off buf n out m'. unfold nor_read. case_decide; [discriminate|].
    intros [= <- <-] Hn Hb. rewrite blit_exact by (by rewrite length_map, length_seq).
    by rewrite nor_slice.
  - intros m s off buf n Hp _. unfold nor_read. rewrite Hp. by do 2 eexists.
  - intros m s r m'. unfold nor_erase. destruct (spend _ _) as [power done].
    intros H. apply pair_equal_spec in H as [_ <-]. apply nor_content_other.
  - intros m s Hp. unfold nor_erase. rewrite Hp. cbn [spend]. rewrite Nat.eqb_refl.
    eexists. split; [reflexivity|]. split; [reflexivity|]. rewrite nor_content_set.
    unfold nor_content. rewrite length_map, length_seq.
    apply (byte_at_ext _ _ 448); [by rewrite length_map, length_seq|by rewrite length_replicate|].
    intros i Hi. rewrite byte_at_map_seq by done. cbn [Nat.add].
    pose proof (nor_capacity_bound s). rewrite (proj2 (Nat.ltb_lt _ _)) by lia.
    unfold byte_at. by rewrite nth_lookup, lookup_replicate_2.
  - intros m s off data n r m'. unfold nor_program. case_match; [by intros [= _ <-]|].
    destruct (spend _ _) as [power done].
    intros Hq. apply pair_equal_spec in Hq as [_ <-]. apply nor_content_other.
  - intros m s off data n Hp Hb Hn Hoff Her. unfold nor_program.
    pose proof (nor_capacity_bound s). rewrite (proj2 (Nat.ltb_ge _ _)) by lia.
    rewrite Hp. cbn [spend]. rewrite Nat.eqb_refl.
    eexists. split; [reflexivity|]. split; [reflexivity|]. rewrite nor_content_set.
    assert (Hlen : length (nor_content m s) = 448%nat)
      by (unfold nor_content; by rewrite length_map, length_seq).
    apply (byte_at_ext _ _ 448); [by rewrite length_map, length_seq| |].
    { rewrite blit_length; [done|]. rewrite length_take. lia. }
    intros i Hi. rewrite byte_at_map_seq by done. cbn [Nat.add].
    rewrite byte_at_blit by (rewrite length_take; lia).
    rewrite length_take, Nat.min_l by done.
    destruct (Nat.leb_spec off i), (Nat.ltb_spec i (off + n)); cbn [andb];
      try (unfold nor_content; by rewrite byte_at_map_seq).
    assert (Hff : u8 (nor_cells m s i) = 0xFF).
    { pose proof (nor_slice m s off n Hoff) as Hs. rewrite Her in Hs.
      apply (f_equal (fun l => byte_at l (i - off))) in Hs.
      rewrite byte_at_map_seq in Hs by lia. replace (off + (i - off))%nat with i in Hs by lia.
      rewrite <- Hs. unfold byte_at. rewrite nth_lookup, lookup_replicate_2 by lia. reflexivity. }
    rewrite byte_at_take by lia. rewrite u8_land, Hff.
    rewrite <- (land_255_byte (byte_at data (i - off))) at 2 by (by apply byte_at_range).
    rewrite u8_land. reflexivity.
Defined.
