(* ===== verification/Backend.v ===== *)
(** * The dual-slot persistence backend

    Model of [firmware/NodeLink/Src/guardian_node_link_freshness_persistence_backend.c]:
    the 448-byte slot image (80-byte header with two SHA-256 digests, the
    364-byte record, the commit marker), the scan of a slot, the recovery over
    the two slots, and the provider callbacks that stage, verify and commit a
    record in the slot recovery did not select.

    A backend is the structure [init] has filled, so its callbacks are present;
    the state of the medium is passed along.  Local image buffers start with
    arbitrary contents in C and are filled before they are read: [image_buffer]. *)

From S2P Require Import Prelude Crypto CString NodeLink NodeLinkAuth NodeLinkSemantic.
From S2P Require Import Freshness Persistence Codec Media.

(** ** Constants *)

Definition R3E_MAGIC_0 : Z := 0x47.
Definition R3E_MAGIC_1 : Z := 0x50.
Definition R3E_MAGIC_2 : Z := 0x45.
Definition R3E_MAGIC_3 : Z := 0x31.
Definition R3E_HEADER_HASH_MATERIAL_SIZE : nat := 48.
Definition R3E_HEADER_HASH_OFFSET : nat := 48.
Definition R3E_PAYLOAD_LENGTH_OFFSET : nat := 8.
Definition R3E_GENERATION_OFFSET : nat := 12.
Definition R3E_PAYLOAD_HASH_OFFSET : nat := 16.

Definition GUARDIAN_NODE_LINK_PERSISTENCE_PHYSICAL_FORMAT_VERSION : Z := 1.
Definition GUARDIAN_NODE_LINK_PERSISTENCE_PHYSICAL_HEADER_SIZE : nat := 80.
Definition GUARDIAN_NODE_LINK_PERSISTENCE_PHYSICAL_PAYLOAD_OFFSET : nat := 80.
Definition GUARDIAN_NODE_LINK_PERSISTENCE_PHYSICAL_COMMIT_OFFSET : nat := 444.
Definition GUARDIAN_NODE_LINK_PERSISTENCE_PHYSICAL_COMMIT_SIZE : nat := 4.
Definition GUARDIAN_NODE_LINK_PERSISTENCE_PHYSICAL_IMAGE_SIZE : nat := 448.

(** ** Data *)

Local Abbreviation record := guardian_node_link_freshness_persisted_record_t.
Local Abbreviation op_result := guardian_node_link_freshness_persistence_operation_result_t.
Local Abbreviation status_t := guardian_node_link_freshness_persistence_status_t.
Local Abbreviation slot := guardian_node_link_persistence_slot_t.
Local Abbreviation media_result := guardian_node_link_persistence_media_result_t.

Inductive r3e_slot_state_t :=
  | R3E_SLOT_INVALID
  | R3E_SLOT_ERASED
  | R3E_SLOT_TORN
  | R3E_SLOT_CORRUPTED
  | R3E_SLOT_VALID
  | R3E_SLOT_IO_FAILURE.

#[global] Instance r3e_slot_state_eq_dec : EqDecision r3e_slot_state_t.
Proof. solve_decision. Defined.

Record r3e_slot_observation_t := OBSERVATION {
  obs_state : r3e_slot_state_t;
  obs_record : record
}.

Inductive guardian_node_link_persistence_recovery_diagnostic_t :=
  | GUARDIAN_NODE_LINK_PERSISTENCE_RECOVERY_INVALID
  | GUARDIAN_NODE_LINK_PERSISTENCE_RECOVERY_NO_STATE
  | GUARDIAN_NODE_LINK_PERSISTENCE_RECOVERY_VALID
  | GUARDIAN_NODE_LINK_PERSISTENCE_RECOVERY_VALID_WITH_TORN_PEER
  | GUARDIAN_NODE_LINK_PERSISTENCE_RECOVERY_TORN_ONLY
  | GUARDIAN_NODE_LINK_PERSISTENCE_RECOVERY_CORRUPTED
  | GUARDIAN_NODE_LINK_PERSISTENCE_RECOVERY_STATE_UNCERTAIN
  | GUARDIAN_NODE_LINK_PERSISTENCE_RECOVERY_IO_FAILURE.

Local Abbreviation diagnostic_t := guardian_node_link_persistence_recovery_diagnostic_t.

(** The structure after [init]: the callbacks of the media adapter and the
    pending transaction. *)
Record guardian_node_link_freshness_physical_backend_t (M : Type) := BACKEND {
  be_read : guardian_node_link_persistence_media_read_fn M;
  be_erase : guardian_node_link_persistence_media_erase_fn M;
  be_program : guardian_node_link_persistence_media_program_fn M;
  be_pending_slot : slot;
  be_pending_valid : Z
}.

Arguments BACKEND {M}.
Arguments be_read {M}.
Arguments be_erase {M}.
Arguments be_program {M}.
Arguments be_pending_slot {M}.
Arguments be_pending_valid {M}.

Local Abbreviation backend := guardian_node_link_freshness_physical_backend_t.

Definition set_pending {M} (b : backend M) (s : slot) (valid : Z) : backend M :=
  BACKEND (be_read b) (be_erase b) (be_program b) s valid.

Definition image_buffer : list Z := replicate GUARDIAN_NODE_LINK_PERSISTENCE_PHYSICAL_IMAGE_SIZE 0.

(** ** Helpers *)

Definition r3e_zero_record (rec : option record) : option record :=
  match rec with None => None | Some _ => Some zero_record end.

Definition r3e_put_u16_be (value : Z) : list Z := put_u16_be value.
Definition r3e_get_u16_be (input : list Z) : Z :=
  u16 (Z.lor (Z.shiftl (byte_at input 0) 8) (byte_at input 1)).
Definition r3e_put_u32_be (value : Z) : list Z := put_u32_be value.
Definition r3e_get_u32_be (input : list Z) : Z := get_u32_be input.

Definition r3e_bytes_all_ff (data : option (list Z)) (length : nat) : bool :=
  match data with
  | None => false
  | Some p => forallb (fun index => byte_at p index =? 0xFF) (seq 0 length)
  end.

Definition r3e_commit_marker_is_valid (marker : list Z) : bool :=
  (byte_at marker 0 =? 67) && (byte_at marker 1 =? 77)
  && (byte_at marker 2 =? 84) && (byte_at marker 3 =? 49).

Definition r3e_records_equal (left right : option record) : bool :=
  match left, right with
  | Some _, Some _ =>
      let buffer := replicate CODEC_SERIALIZED_SIZE 0 in
      let '(result, left_bytes, left_written) :=
        guardian_node_link_freshness_persistence_encode left (Some buffer)
          CODEC_SERIALIZED_SIZE (Some 0%nat) in
      early negb (bool_decide (result = GUARDIAN_NODE_LINK_PERSISTENCE_CODEC_OK)) with false ;;
      let '(result, right_bytes, right_written) :=
        guardian_node_link_freshness_persistence_encode right (Some buffer)
          CODEC_SERIALIZED_SIZE (Some 0%nat) in
      early negb (bool_decide (result = GUARDIAN_NODE_LINK_PERSISTENCE_CODEC_OK)) with false ;;
      early negb (bool_decide (left_written = Some CODEC_SERIALIZED_SIZE))
            || negb (bool_decide (right_written = Some CODEC_SERIALIZED_SIZE)) with false ;;
      guardian_crypto_constant_time_equal left_bytes right_bytes CODEC_SERIALIZED_SIZE
  | _, _ => false
  end.

(** [memcmp(a, b, n) == 0] *)
Definition memcmp_eq (a b : list Z) (n : nat) : bool :=
  forallb (fun i => byte_at a i =? byte_at b i) (seq 0 n).

Definition r3e_identity_equal (left right : option guardian_node_link_freshness_identity_t)
  : bool :=
  match left, right with
  | Some l, Some r =>
      early negb (fi_sender_node_id l =? fi_sender_node_id r)
            || negb (fi_producer_id l =? fi_producer_id r)
            || negb (fi_key_id l =? fi_key_id r)
            || negb (fi_signature_algorithm l =? fi_signature_algorithm r)
        with false ;;
      early negb (memcmp_eq (fi_producer_semantic_profile_id l) (fi_producer_semantic_profile_id r)
                    GUARDIAN_NODE_LINK_SEMANTIC_REF_CAPACITY) with false ;;
      early negb (memcmp_eq (fi_consumer_semantic_profile_id l) (fi_consumer_semantic_profile_id r)
                    GUARDIAN_NODE_LINK_SEMANTIC_REF_CAPACITY) with false ;;
      memcmp_eq (fi_compatibility_contract_id l) (fi_compatibility_contract_id r)
        GUARDIAN_NODE_LINK_SEMANTIC_REF_CAPACITY
  | _, _ => false
  end.

Definition r3e_transition_is_adjacent (older newer : option record) : bool :=
  match older, newer with
  | Some o, Some n =>
      early negb (r3e_identity_equal (Some (rec_identity o)) (Some (rec_identity n))) with false ;;
      early negb (rec_accepted_epoch o =? rec_accepted_epoch n) with false ;;
      early rec_record_generation o =? UINT32_MAX with false ;;
      early negb (rec_record_generation n =? u32 (rec_record_generation o + 1)) with false ;;
      rec_accepted_sequence o <? rec_accepted_sequence n
  | _, _ => false
  end.

Definition r3e_media_result_to_operation (result : media_result) : op_result :=
  match result with
  | GUARDIAN_NODE_LINK_PERSISTENCE_MEDIA_OK => GUARDIAN_NODE_LINK_PERSISTENCE_OPERATION_OK
  | GUARDIAN_NODE_LINK_PERSISTENCE_MEDIA_UNAVAILABLE =>
      GUARDIAN_NODE_LINK_PERSISTENCE_OPERATION_UNAVAILABLE
  | GUARDIAN_NODE_LINK_PERSISTENCE_MEDIA_IO_FAILURE =>
      GUARDIAN_NODE_LINK_PERSISTENCE_OPERATION_IO_FAILURE
  | GUARDIAN_NODE_LINK_PERSISTENCE_MEDIA_INVALID
  | GUARDIAN_NODE_LINK_PERSISTENCE_MEDIA_OTHER _ =>
      GUARDIAN_NODE_LINK_PERSISTENCE_OPERATION_INVALID
  end.

(** ** The slot image *)

Definition r3e_validate_body (image : option (list Z)) (rec : option record)
  : bool * option record :=
  match image, rec with
  | Some img, Some _ =>
      let rec := r3e_zero_record rec in
      let candidate := zero_record in
      early negb (byte_at img 0 =? R3E_MAGIC_0) || negb (byte_at img 1 =? R3E_MAGIC_1)
            || negb (byte_at img 2 =? R3E_MAGIC_2) || negb (byte_at img 3 =? R3E_MAGIC_3)
        with (false, rec) ;;
      early negb (r3e_get_u16_be (drop 4 img)
                    =? GUARDIAN_NODE_LINK_PERSISTENCE_PHYSICAL_FORMAT_VERSION)
        with (false, rec) ;;
      early negb (r3e_get_u16_be (drop 6 img)
                    =? Z.of_nat GUARDIAN_NODE_LINK_PERSISTENCE_PHYSICAL_HEADER_SIZE)
        with (false, rec) ;;
      early negb (r3e_get_u32_be (drop R3E_PAYLOAD_LENGTH_OFFSET img)
                    =? Z.of_nat CODEC_SERIALIZED_SIZE)
        with (false, rec) ;;
      let header_digest := sha256_digest img R3E_HEADER_HASH_MATERIAL_SIZE in
      early negb (guardian_crypto_constant_time_equal (Some header_digest)
                    (Some (drop R3E_HEADER_HASH_OFFSET img)) GUARDIAN_SHA256_SIZE)
        with (false, rec) ;;
      let payload := drop GUARDIAN_NODE_LINK_PERSISTENCE_PHYSICAL_PAYLOAD_OFFSET img in
      let payload_digest := sha256_digest payload CODEC_SERIALIZED_SIZE in
      early negb (guardian_crypto_constant_time_equal (Some payload_digest)
                    (Some (drop R3E_PAYLOAD_HASH_OFFSET img)) GUARDIAN_SHA256_SIZE)
        with (false, rec) ;;
      let '(result, candidate) :=
        guardian_node_link_freshness_persistence_decode (Some payload) CODEC_SERIALIZED_SIZE
          (Some candidate) in
      let candidate := default zero_record candidate in
      early negb (bool_decide (result = GUARDIAN_NODE_LINK_PERSISTENCE_CODEC_OK))
        with (false, rec) ;;
      early negb (r3e_get_u32_be (drop R3E_GENERATION_OFFSET img)
                    =? rec_record_generation candidate)
        with (false, rec) ;;
      (true, Some candidate)
  | _, _ => (false, rec)
  end.

Definition r3e_build_staged_image (rec : option record) (image : option (list Z))
  : bool * option (list Z) :=
  match rec, image with
  | Some r, Some img =>
      let img := blit img 0 (replicate GUARDIAN_NODE_LINK_PERSISTENCE_PHYSICAL_IMAGE_SIZE 0xFF) in
      let img := blit img 0 [R3E_MAGIC_0] in
      let img := blit img 1 [R3E_MAGIC_1] in
      let img := blit img 2 [R3E_MAGIC_2] in
      let img := blit img 3 [R3E_MAGIC_3] in
      let img := blit img 4
                   (r3e_put_u16_be GUARDIAN_NODE_LINK_PERSISTENCE_PHYSICAL_FORMAT_VERSION) in
      let img := blit img 6
                   (r3e_put_u16_be
                      (u16 (Z.of_nat GUARDIAN_NODE_LINK_PERSISTENCE_PHYSICAL_HEADER_SIZE))) in
      let img := blit img R3E_PAYLOAD_LENGTH_OFFSET
                   (r3e_put_u32_be (u32 (Z.of_nat CODEC_SERIALIZED_SIZE))) in
      let img := blit img R3E_GENERATION_OFFSET (r3e_put_u32_be (rec_record_generation r)) in
      let payload := drop GUARDIAN_NODE_LINK_PERSISTENCE_PHYSICAL_PAYLOAD_OFFSET img in
      let '(result, payload, payload_written) :=
        guardian_node_link_freshness_persistence_encode rec (Some payload) CODEC_SERIALIZED_SIZE
          (Some 0%nat) in
      let img := blit img GUARDIAN_NODE_LINK_PERSISTENCE_PHYSICAL_PAYLOAD_OFFSET
                   (default [] payload) in
      early negb (bool_decide (result = GUARDIAN_NODE_LINK_PERSISTENCE_CODEC_OK))
        with (false, Some img) ;;
      early negb (bool_decide (payload_written = Some CODEC_SERIALIZED_SIZE))
        with (false, Some img) ;;
      let digest := sha256_digest
                      (drop GUARDIAN_NODE_LINK_PERSISTENCE_PHYSICAL_PAYLOAD_OFFSET img)
                      CODEC_SERIALIZED_SIZE in
      let img := blit img R3E_PAYLOAD_HASH_OFFSET (take GUARDIAN_SHA256_SIZE digest) in
      let digest := sha256_digest img R3E_HEADER_HASH_MATERIAL_SIZE in
      let img := blit img R3E_HEADER_HASH_OFFSET (take GUARDIAN_SHA256_SIZE digest) in
      (true, Some img)
  | _, _ => (false, image)
  end.

(** ** Scanning a slot *)

Section operations.
Context {M : Type}.

(** The classification of the image read from a slot; [obs] is the cleared
    observation. *)
Definition r3e_classify_image (image : list Z) (obs : r3e_slot_observation_t)
  : r3e_slot_observation_t :=
  let marker := drop GUARDIAN_NODE_LINK_PERSISTENCE_PHYSICAL_COMMIT_OFFSET image in
  early r3e_bytes_all_ff (Some image) GUARDIAN_NODE_LINK_PERSISTENCE_PHYSICAL_IMAGE_SIZE
    with OBSERVATION R3E_SLOT_ERASED (obs_record obs) ;;
  early r3e_bytes_all_ff (Some marker) GUARDIAN_NODE_LINK_PERSISTENCE_PHYSICAL_COMMIT_SIZE
    with OBSERVATION R3E_SLOT_TORN (obs_record obs) ;;
  early negb (r3e_commit_marker_is_valid marker)
    with OBSERVATION R3E_SLOT_CORRUPTED (obs_record obs) ;;
  let '(ok, rec) := r3e_validate_body (Some image) (Some (obs_record obs)) in
  let rec := default (obs_record obs) rec in
  early negb ok with OBSERVATION R3E_SLOT_CORRUPTED rec ;;
  OBSERVATION R3E_SLOT_VALID rec.

Definition r3e_scan_slot (b : option (backend M)) (s : slot)
    (observation : option r3e_slot_observation_t) (m : M)
  : op_result * option r3e_slot_observation_t * M :=
  match b, observation with
  | Some b, Some _ =>
      let obs := OBSERVATION R3E_SLOT_INVALID zero_record in
      let '(media_result, image, m) :=
        be_read b m s 0%nat image_buffer GUARDIAN_NODE_LINK_PERSISTENCE_PHYSICAL_IMAGE_SIZE in
      early negb (bool_decide (media_result = GUARDIAN_NODE_LINK_PERSISTENCE_MEDIA_OK))
        with (r3e_media_result_to_operation media_result,
              Some (OBSERVATION R3E_SLOT_IO_FAILURE (obs_record obs)), m) ;;
      (GUARDIAN_NODE_LINK_PERSISTENCE_OPERATION_OK, Some (r3e_classify_image image obs), m)
  | _, _ => (GUARDIAN_NODE_LINK_PERSISTENCE_OPERATION_INVALID, observation, m)
  end.

(** ** Recovery *)

(** What recovery publishes: the result, the status, the diagnostic and, when a
    record is selected, the record and its slot. *)
Record recovery_t := RECOVERY {
  rcv_result : op_result;
  rcv_status : status_t;
  rcv_diagnostic : diagnostic_t;
  rcv_selected : option (record * slot)
}.

Definition r3e_uncertain : recovery_t :=
  RECOVERY GUARDIAN_NODE_LINK_PERSISTENCE_OPERATION_STATE_UNCERTAIN
    GUARDIAN_NODE_LINK_PERSISTENCE_STATUS_UNAVAILABLE_STATE
    GUARDIAN_NODE_LINK_PERSISTENCE_RECOVERY_STATE_UNCERTAIN None.

(** [r3e_recover_internal] when both slots were read: two committed slots. *)
Definition r3e_select_valid (a b : r3e_slot_observation_t) : recovery_t :=
  let valid r s :=
    RECOVERY GUARDIAN_NODE_LINK_PERSISTENCE_OPERATION_OK
      GUARDIAN_NODE_LINK_PERSISTENCE_STATUS_VALID_PERSISTED_STATE
      GUARDIAN_NODE_LINK_PERSISTENCE_RECOVERY_VALID (Some (r, s)) in
  if rec_record_generation (obs_record a) <? rec_record_generation (obs_record b) then
    early negb (r3e_transition_is_adjacent (Some (obs_record a)) (Some (obs_record b)))
      with r3e_uncertain ;;
    valid (obs_record b) GUARDIAN_NODE_LINK_PERSISTENCE_SLOT_B
  else if rec_record_generation (obs_record b) <? rec_record_generation (obs_record a) then
    early negb (r3e_transition_is_adjacent (Some (obs_record b)) (Some (obs_record a)))
      with r3e_uncertain ;;
    valid (obs_record a) GUARDIAN_NODE_LINK_PERSISTENCE_SLOT_A
  else r3e_uncertain.

(** One committed slot [valid] and its [peer]. *)
Definition r3e_select_one (valid peer : r3e_slot_observation_t) (valid_slot : slot) : recovery_t :=
  early bool_decide (obs_state peer = R3E_SLOT_CORRUPTED) with r3e_uncertain ;;
  early negb (bool_decide (obs_state peer = R3E_SLOT_ERASED))
        && negb (bool_decide (obs_state peer = R3E_SLOT_TORN))
    with r3e_uncertain ;;
  RECOVERY GUARDIAN_NODE_LINK_PERSISTENCE_OPERATION_OK
    GUARDIAN_NODE_LINK_PERSISTENCE_STATUS_VALID_PERSISTED_STATE
    (if bool_decide (obs_state peer = R3E_SLOT_TORN)
     then GUARDIAN_NODE_LINK_PERSISTENCE_RECOVERY_VALID_WITH_TORN_PEER
     else GUARDIAN_NODE_LINK_PERSISTENCE_RECOVERY_VALID)
    (Some (obs_record valid, valid_slot)).

Definition r3e_select (a b : r3e_slot_observation_t) : recovery_t :=
  let in_state o st := bool_decide (obs_state o = st) in
  let ok := GUARDIAN_NODE_LINK_PERSISTENCE_OPERATION_OK in
  early in_state a R3E_SLOT_ERASED && in_state b R3E_SLOT_ERASED
    with RECOVERY ok GUARDIAN_NODE_LINK_PERSISTENCE_STATUS_NO_PERSISTED_STATE
           GUARDIAN_NODE_LINK_PERSISTENCE_RECOVERY_NO_STATE None ;;
  early in_state a R3E_SLOT_VALID && in_state b R3E_SLOT_VALID with r3e_select_valid a b ;;
  early in_state a R3E_SLOT_VALID || in_state b R3E_SLOT_VALID
    with (if in_state a R3E_SLOT_VALID
          then r3e_select_one a b GUARDIAN_NODE_LINK_PERSISTENCE_SLOT_A
          else r3e_select_one b a GUARDIAN_NODE_LINK_PERSISTENCE_SLOT_B) ;;
  early in_state a R3E_SLOT_CORRUPTED || in_state b R3E_SLOT_CORRUPTED
    with RECOVERY ok GUARDIAN_NODE_LINK_PERSISTENCE_STATUS_CORRUPTED_STATE
           GUARDIAN_NODE_LINK_PERSISTENCE_RECOVERY_CORRUPTED None ;;
  early in_state a R3E_SLOT_TORN || in_state b R3E_SLOT_TORN
    with RECOVERY ok GUARDIAN_NODE_LINK_PERSISTENCE_STATUS_TORN_OR_INCOMPLETE_UPDATE
           GUARDIAN_NODE_LINK_PERSISTENCE_RECOVERY_TORN_ONLY None ;;
  r3e_uncertain.

(** A slot could not be read. *)
Definition r3e_unreadable (op_a op_b : op_result) : recovery_t :=
  RECOVERY
    (if bool_decide (op_a = GUARDIAN_NODE_LINK_PERSISTENCE_OPERATION_UNAVAILABLE)
        || bool_decide (op_b = GUARDIAN_NODE_LINK_PERSISTENCE_OPERATION_UNAVAILABLE)
     then GUARDIAN_NODE_LINK_PERSISTENCE_OPERATION_UNAVAILABLE
     else GUARDIAN_NODE_LINK_PERSISTENCE_OPERATION_IO_FAILURE)
    GUARDIAN_NODE_LINK_PERSISTENCE_STATUS_UNAVAILABLE_STATE
    GUARDIAN_NODE_LINK_PERSISTENCE_RECOVERY_IO_FAILURE None.

(** The outputs: result, status, record, diagnostic, selected slot, medium. *)
Definition r3e_recover_internal (b : option (backend M)) (provider_status : option status_t)
    (rec : option record) (diagnostic : option diagnostic_t) (selected_slot : option slot) (m : M)
  : op_result * option status_t * option record * option diagnostic_t * option slot * M :=
  match b, provider_status, rec, diagnostic with
  | Some _, Some _, Some _, Some _ =>
      let uninit := OBSERVATION R3E_SLOT_INVALID zero_record in
      let '(op_a, oa, m) :=
        r3e_scan_slot b GUARDIAN_NODE_LINK_PERSISTENCE_SLOT_A (Some uninit) m in
      let '(op_b, ob, m) :=
        r3e_scan_slot b GUARDIAN_NODE_LINK_PERSISTENCE_SLOT_B (Some uninit) m in
      let ok := GUARDIAN_NODE_LINK_PERSISTENCE_OPERATION_OK in
      let r :=
        if negb (bool_decide (op_a = ok)) || negb (bool_decide (op_b = ok))
        then r3e_unreadable op_a op_b
        else r3e_select (default uninit oa) (default uninit ob) in
      (rcv_result r, Some (rcv_status r),
       Some (match rcv_selected r with Some (rec, _) => rec | None => zero_record end),
       Some (rcv_diagnostic r),
       match selected_slot, rcv_selected r with
       | Some _, Some (_, s) => Some s
       | _, _ => selected_slot
       end, m)
  | _, _, _, _ =>
      (GUARDIAN_NODE_LINK_PERSISTENCE_OPERATION_INVALID, provider_status, rec, diagnostic,
       selected_slot, m)
  end.

(** ** The provider *)

(** [storage] is the caller's structure, overwritten here. *)
Definition guardian_node_link_freshness_physical_backend_init (storage : option unit)
    (media : option (guardian_node_link_persistence_media_t M))
  : op_result * option (backend M) :=
  match storage, media with
  | Some _, Some media =>
      match media_read media, media_erase media, media_program media with
      | Some read, Some erase, Some program =>
          (GUARDIAN_NODE_LINK_PERSISTENCE_OPERATION_OK,
           Some (BACKEND read erase program GUARDIAN_NODE_LINK_PERSISTENCE_SLOT_A 0))
      | _, _, _ => (GUARDIAN_NODE_LINK_PERSISTENCE_OPERATION_INVALID, None)
      end
  | _, _ => (GUARDIAN_NODE_LINK_PERSISTENCE_OPERATION_INVALID, None)
  end.

Definition guardian_node_link_freshness_physical_backend_recover (b : option (backend M))
    (provider_status : option status_t) (rec : option record) (diagnostic : option diagnostic_t)
    (m : M) : op_result * option status_t * option record * option diagnostic_t * M :=
  let '(result, st, rec, diagnostic, _, m) :=
    r3e_recover_internal b provider_status rec diagnostic None m in
  (result, st, rec, diagnostic, m).

Definition guardian_node_link_freshness_physical_backend_load (context : option (backend M))
    (provider_status : option status_t) (rec : option record) (m : M)
  : op_result * option status_t * option record * M :=
  match context, provider_status, rec with
  | Some _, Some _, Some _ =>
      let '(result, st, rec, _, m) :=
        guardian_node_link_freshness_physical_backend_recover context provider_status rec
          (Some GUARDIAN_NODE_LINK_PERSISTENCE_RECOVERY_INVALID) m in
      (result, st, rec, m)
  | _, _, _ => (GUARDIAN_NODE_LINK_PERSISTENCE_OPERATION_INVALID, provider_status, rec, m)
  end.

(** The slot a candidate goes to, or the refusal; [current_slot] is set when the
    status is VALID. *)
Definition write_target (st : status_t) (current candidate : record) (current_slot : slot)
  : slot + op_result :=
  match st with
  | GUARDIAN_NODE_LINK_PERSISTENCE_STATUS_NO_PERSISTED_STATE =>
      early negb (rec_record_generation candidate =? 0)
        with inr GUARDIAN_NODE_LINK_PERSISTENCE_OPERATION_VERIFY_FAILURE ;;
      inl GUARDIAN_NODE_LINK_PERSISTENCE_SLOT_A
  | GUARDIAN_NODE_LINK_PERSISTENCE_STATUS_VALID_PERSISTED_STATE =>
      early rec_record_generation current =? UINT32_MAX
        with inr GUARDIAN_NODE_LINK_PERSISTENCE_OPERATION_GENERATION_EXHAUSTED ;;
      early negb (r3e_transition_is_adjacent (Some current) (Some candidate))
        with inr GUARDIAN_NODE_LINK_PERSISTENCE_OPERATION_VERIFY_FAILURE ;;
      inl (if decide (current_slot = GUARDIAN_NODE_LINK_PERSISTENCE_SLOT_A)
           then GUARDIAN_NODE_LINK_PERSISTENCE_SLOT_B
           else GUARDIAN_NODE_LINK_PERSISTENCE_SLOT_A)
  | _ => inr GUARDIAN_NODE_LINK_PERSISTENCE_OPERATION_STATE_UNCERTAIN
  end.

Definition guardian_node_link_freshness_physical_backend_write_candidate
    (context : option (backend M)) (candidate : option record) (m : M)
  : op_result * option (backend M) * M :=
  match context, candidate with
  | Some b, Some c =>
      let b := set_pending b (be_pending_slot b) 0 in
      let '(operation, st, current, _, current_slot, m) :=
        r3e_recover_internal (Some b) (Some GUARDIAN_NODE_LINK_PERSISTENCE_STATUS_INVALID)
          (Some zero_record) (Some GUARDIAN_NODE_LINK_PERSISTENCE_RECOVERY_INVALID)
          (Some GUARDIAN_NODE_LINK_PERSISTENCE_SLOT_A) m in
      early negb (bool_decide (operation = GUARDIAN_NODE_LINK_PERSISTENCE_OPERATION_OK))
        with (operation, Some b, m) ;;
      match write_target (default GUARDIAN_NODE_LINK_PERSISTENCE_STATUS_INVALID st)
              (default zero_record current) c
              (default GUARDIAN_NODE_LINK_PERSISTENCE_SLOT_A current_slot) with
      | inr refusal => (refusal, Some b, m)
      | inl target_slot =>
          let '(ok, image) := r3e_build_staged_image candidate (Some image_buffer) in
          let image := default image_buffer image in
          early negb ok
            with (GUARDIAN_NODE_LINK_PERSISTENCE_OPERATION_VERIFY_FAILURE, Some b, m) ;;
          let '(media_result, m) := be_erase b m target_slot in
          early negb (bool_decide (media_result = GUARDIAN_NODE_LINK_PERSISTENCE_MEDIA_OK))
            with (r3e_media_result_to_operation media_result, Some b, m) ;;
          let '(media_result, m) :=
            be_program b m target_slot 0%nat image
              GUARDIAN_NODE_LINK_PERSISTENCE_PHYSICAL_COMMIT_OFFSET in
          early negb (bool_decide (media_result = GUARDIAN_NODE_LINK_PERSISTENCE_MEDIA_OK))
            with (r3e_media_result_to_operation media_result, Some b, m) ;;
          (GUARDIAN_NODE_LINK_PERSISTENCE_OPERATION_OK, Some (set_pending b target_slot 1), m)
      end
  | _, _ => (GUARDIAN_NODE_LINK_PERSISTENCE_OPERATION_INVALID, context, m)
  end.

Definition guardian_node_link_freshness_physical_backend_verify_candidate
    (context : option (backend M)) (candidate : option record) (m : M) : op_result * M :=
  match context, candidate with
  | Some b, Some _ =>
      let failure := GUARDIAN_NODE_LINK_PERSISTENCE_OPERATION_VERIFY_FAILURE in
      early negb (be_pending_valid b =? 1) with (failure, m) ;;
      let '(media_result, image, m) :=
        be_read b m (be_pending_slot b) 0%nat image_buffer
          GUARDIAN_NODE_LINK_PERSISTENCE_PHYSICAL_IMAGE_SIZE in
      early negb (bool_decide (media_result = GUARDIAN_NODE_LINK_PERSISTENCE_MEDIA_OK))
        with (r3e_media_result_to_operation media_result, m) ;;
      early negb (r3e_bytes_all_ff
                    (Some (drop GUARDIAN_NODE_LINK_PERSISTENCE_PHYSICAL_COMMIT_OFFSET image))
                    GUARDIAN_NODE_LINK_PERSISTENCE_PHYSICAL_COMMIT_SIZE)
        with (failure, m) ;;
      let '(ok, decoded) := r3e_validate_body (Some image) (Some zero_record) in
      early negb ok with (failure, m) ;;
      early negb (r3e_records_equal decoded candidate) with (failure, m) ;;
      (GUARDIAN_NODE_LINK_PERSISTENCE_OPERATION_OK, m)
  | _, _ => (GUARDIAN_NODE_LINK_PERSISTENCE_OPERATION_INVALID, m)
  end.

Definition commit_marker : list Z := [67; 77; 84; 49].

Definition guardian_node_link_freshness_physical_backend_commit_candidate
    (context : option (backend M)) (candidate : option record) (m : M)
  : op_result * option (backend M) * M :=
  match context, candidate with
  | Some b, Some _ =>
      let cleared := Some (set_pending b (be_pending_slot b) 0) in
      let uncertain := GUARDIAN_NODE_LINK_PERSISTENCE_OPERATION_STATE_UNCERTAIN in
      early negb (be_pending_valid b =? 1)
        with (GUARDIAN_NODE_LINK_PERSISTENCE_OPERATION_COMMIT_FAILURE, Some b, m) ;;
      let '(verified, m) :=
        guardian_node_link_freshness_physical_backend_verify_candidate (Some b) candidate m in
      early negb (bool_decide (verified = GUARDIAN_NODE_LINK_PERSISTENCE_OPERATION_OK))
        with (GUARDIAN_NODE_LINK_PERSISTENCE_OPERATION_VERIFY_FAILURE, cleared, m) ;;
      let '(media_result, m) :=
        be_program b m (be_pending_slot b) GUARDIAN_NODE_LINK_PERSISTENCE_PHYSICAL_COMMIT_OFFSET
          commit_marker GUARDIAN_NODE_LINK_PERSISTENCE_PHYSICAL_COMMIT_SIZE in
      early negb (bool_decide (media_result = GUARDIAN_NODE_LINK_PERSISTENCE_MEDIA_OK))
        with (uncertain, cleared, m) ;;
      let '(scanned, observation, m) :=
        r3e_scan_slot (Some b) (be_pending_slot b)
          (Some (OBSERVATION R3E_SLOT_INVALID zero_record)) m in
      let observation := default (OBSERVATION R3E_SLOT_INVALID zero_record) observation in
      early negb (bool_decide (scanned = GUARDIAN_NODE_LINK_PERSISTENCE_OPERATION_OK))
        with (uncertain, cleared, m) ;;
      early negb (bool_decide (obs_state observation = R3E_SLOT_VALID))
            || negb (r3e_records_equal (Some (obs_record observation)) candidate)
        with (uncertain, cleared, m) ;;
      (GUARDIAN_NODE_LINK_PERSISTENCE_OPERATION_OK, cleared, m)
  | _, _ => (GUARDIAN_NODE_LINK_PERSISTENCE_OPERATION_INVALID, context, m)
  end.

(** The provider callbacks act on the backend structure and the medium; the
    [const] candidate comes back as it was given. *)
Definition guardian_node_link_freshness_physical_backend_make_provider (storage : option unit)
    (b : option (backend M))
  : op_result * option (guardian_node_link_freshness_persistence_provider_t (backend M * M)) :=
  match b, storage with
  | Some _, Some _ =>
      (GUARDIAN_NODE_LINK_PERSISTENCE_OPERATION_OK,
       Some (PROVIDER
         (Some (fun s st rec =>
            let '(result, st', rec', m) :=
              guardian_node_link_freshness_physical_backend_load (Some s.1) (Some st) (Some rec)
                s.2 in
            (result, default st st', default rec rec', (s.1, m))))
         (Some (fun s c =>
            let '(result, b, m) :=
              guardian_node_link_freshness_physical_backend_write_candidate (Some s.1) (Some c)
                s.2 in
            (result, c, (default s.1 b, m))))
         (Some (fun s c =>
            let '(result, m) :=
              guardian_node_link_freshness_physical_backend_verify_candidate (Some s.1) (Some c)
                s.2 in
            (result, c, (s.1, m))))
         (Some (fun s c =>
            let '(result, b, m) :=
              guardian_node_link_freshness_physical_backend_commit_candidate (Some s.1) (Some c)
                s.2 in
            (result, c, (default s.1 b, m))))))
  | _, _ => (GUARDIAN_NODE_LINK_PERSISTENCE_OPERATION_INVALID, None)
  end.
End operations.

(** ** The image of a record in a slot *)

Definition slot_header (r : record) : list Z :=
  [R3E_MAGIC_0; R3E_MAGIC_1; R3E_MAGIC_2; R3E_MAGIC_3]
  ++ put_u16_be GUARDIAN_NODE_LINK_PERSISTENCE_PHYSICAL_FORMAT_VERSION
  ++ put_u16_be (Z.of_nat GUARDIAN_NODE_LINK_PERSISTENCE_PHYSICAL_HEADER_SIZE)
  ++ put_u32_be (Z.of_nat CODEC_SERIALIZED_SIZE) ++ put_u32_be (rec_record_generation r).

Definition slot_hashed (r : record) : list Z :=
  slot_header r ++ sha256_digest (codec_image r) CODEC_SERIALIZED_SIZE.

(** Everything before the commit marker. *)
Definition slot_body (r : record) : list Z :=
  slot_hashed r ++ sha256_digest (slot_hashed r) R3E_HEADER_HASH_MATERIAL_SIZE ++ codec_image r.

Definition erased_marker : list Z := replicate GUARDIAN_NODE_LINK_PERSISTENCE_PHYSICAL_COMMIT_SIZE 0xFF.

Lemma slot_hashed_length r : length (slot_hashed r) = 48%nat.
Proof. unfold slot_hashed. rewrite length_app, sha256_digest_length. reflexivity. Qed.

Lemma slot_body_length r : record_valid r -> length (slot_body r) = 444%nat.
Proof.
  intros H. unfold slot_body.
  rewrite !length_app, slot_hashed_length, sha256_digest_length, codec_image_length by done.
  reflexivity.
Qed.

Lemma slot_body_bytes r : record_object r -> bytes (slot_body r).
Proof.
  intros H. unfold slot_body, slot_hashed.
  apply bytes_app_2; [apply bytes_app_2; [|apply sha256_digest_bytes]|].
  - unfold slot_header.
    apply bytes_app_2; [exact (bool_decide_eq_true_1 (bytes
      [R3E_MAGIC_0; R3E_MAGIC_1; R3E_MAGIC_2; R3E_MAGIC_3]) eq_refl)|].
    apply bytes_app_2; [apply put_u16_be_bytes|]. apply bytes_app_2; [apply put_u16_be_bytes|].
    apply bytes_app_2; apply put_u32_be_bytes.
  - apply bytes_app_2; [apply sha256_digest_bytes|by apply codec_image_bytes].
Qed.

(** *** Writing it *)

Lemma slot_header_writes img r :
  length img = 448%nat ->
  blit (blit (blit (blit (blit (blit (blit (blit
    (blit img 0 (replicate GUARDIAN_NODE_LINK_PERSISTENCE_PHYSICAL_IMAGE_SIZE 0xFF))
    0 [R3E_MAGIC_0]) 1 [R3E_MAGIC_1]) 2 [R3E_MAGIC_2]) 3 [R3E_MAGIC_3])
    4 (r3e_put_u16_be GUARDIAN_NODE_LINK_PERSISTENCE_PHYSICAL_FORMAT_VERSION))
    6 (r3e_put_u16_be (u16 (Z.of_nat GUARDIAN_NODE_LINK_PERSISTENCE_PHYSICAL_HEADER_SIZE))))
    R3E_PAYLOAD_LENGTH_OFFSET (r3e_put_u32_be (u32 (Z.of_nat CODEC_SERIALIZED_SIZE))))
    R3E_GENERATION_OFFSET (r3e_put_u32_be (rec_record_generation r))
  = slot_header r ++ replicate 432 0xFF.
Proof.
  intros Hi. rewrite (blit_exact img) by (by rewrite Hi).
  unfold GUARDIAN_NODE_LINK_PERSISTENCE_PHYSICAL_IMAGE_SIZE, R3E_PAYLOAD_LENGTH_OFFSET,
    R3E_GENERATION_OFFSET, r3e_put_u16_be, r3e_put_u32_be.
  change (u16 (Z.of_nat GUARDIAN_NODE_LINK_PERSISTENCE_PHYSICAL_HEADER_SIZE))
    with (Z.of_nat GUARDIAN_NODE_LINK_PERSISTENCE_PHYSICAL_HEADER_SIZE).
  change (u32 (Z.of_nat CODEC_SERIALIZED_SIZE)) with (Z.of_nat CODEC_SERIALIZED_SIZE).
  assert (H : (16 <= length (replicate 448 255%Z))%nat) by (rewrite length_replicate; lia).
  change (replicate 432 255) with (drop 16 (replicate 448 255)).
  revert H. generalize (replicate 448 255). intros o H.
  rewrite !blit_blit_adjacent by (first [reflexivity | lia | blit_bound]).
  reflexivity.
Qed.

Lemma build_staged_image_spec r img :
  record_valid r -> length img = 448%nat ->
  r3e_build_staged_image (Some r) (Some img) = (true, Some (slot_body r ++ erased_marker)).
Proof.
  intros Hv Hi. unfold r3e_build_staged_image. rewrite slot_header_writes by done.
  pose proof (codec_image_length r Hv) as Hlen. unfold CODEC_SERIALIZED_SIZE in *.
  unfold GUARDIAN_NODE_LINK_PERSISTENCE_PHYSICAL_PAYLOAD_OFFSET, GUARDIAN_SHA256_SIZE,
    R3E_PAYLOAD_HASH_OFFSET, R3E_HEADER_HASH_OFFSET, R3E_HEADER_HASH_MATERIAL_SIZE.
  change (slot_header r ++ replicate 432 255)
    with (slot_header r ++ replicate 64 255 ++ replicate 368 255).
  rewrite (app_assoc (slot_header r)).
  assert (Hh : length (slot_header r ++ replicate 64 255) = 80%nat) by reflexivity.
  rewrite drop_app_length' by done.
  rewrite record_encode_writes by (first [assumption | reflexivity
    | rewrite length_replicate; apply Nat.leb_le; reflexivity]).
  unfold CODEC_SERIALIZED_SIZE. rewrite !bool_decide_true by reflexivity. cbn [negb from_option id].
  rewrite drop_replicate. change (368 - 364)%nat with 4%nat.
  rewrite blit_app_r, Hh by (by rewrite Hh). change (80 - 80)%nat with 0%nat.
  rewrite blit_exact by (rewrite length_app, Hlen; reflexivity).
  rewrite drop_app_length' by done.
  rewrite sha256_digest_app by (by rewrite Hlen).
  assert (Hd : forall p n, length (take 32 (sha256_digest p n)) = 32%nat)
    by (intros; by rewrite length_take, sha256_digest_length).
  rewrite <- (app_assoc (slot_header r)).
  rewrite blit_app_r by reflexivity. change (16 - length (slot_header r))%nat with 0%nat.
  rewrite (blit_app_l (replicate 64 255)) by (rewrite Hd; apply Nat.leb_le; reflexivity).
  rewrite (blit_0 (replicate 64 255)), Hd, drop_replicate. change (64 - 32)%nat with 32%nat.
  rewrite (take_ge (sha256_digest _ _)) by (by rewrite sha256_digest_length).
  rewrite <- (app_assoc (sha256_digest _ _)), (app_assoc (slot_header r)).
  change (slot_header r ++ sha256_digest (codec_image r) 364) with (slot_hashed r).
  pose proof (slot_hashed_length r) as Hhl.
  rewrite sha256_digest_app by (by rewrite Hhl).
  rewrite blit_app_r, Hhl by (by rewrite Hhl). change (48 - 48)%nat with 0%nat.
  rewrite (blit_app_l (replicate 32 255)) by (rewrite length_replicate, Hd; done).
  rewrite (blit_exact (replicate 32 255)) by (by rewrite length_replicate, Hd).
  rewrite (take_ge (sha256_digest _ _)) by (by rewrite sha256_digest_length).
  unfold slot_body, R3E_HEADER_HASH_MATERIAL_SIZE, CODEC_SERIALIZED_SIZE.
  by rewrite <- !app_assoc.
Qed.

(** *** Reading it back *)

Lemma slot_body_fields r rest :
  record_valid r ->
  let img := slot_body r ++ rest in
  drop 12 img = put_u32_be (rec_record_generation r) ++ drop 16 img /\
  drop 16 img = sha256_digest (codec_image r) 364 ++ drop 48 img /\
  drop 48 img = sha256_digest (slot_hashed r) 48 ++ drop 80 img /\
  drop 80 img = codec_image r ++ rest /\
  sha256_digest img 48 = sha256_digest (slot_hashed r) 48.
Proof.
  intros Hv. cbv zeta. set (d1 := sha256_digest (codec_image r) 364).
  set (d2 := sha256_digest (slot_hashed r) 48).
  assert (E : drop 16 (slot_body r ++ rest) = d1 ++ d2 ++ codec_image r ++ rest)
    by (unfold slot_body, slot_hashed; rewrite <- !app_assoc; reflexivity).
  assert (Hd1 : length d1 = 32%nat) by apply sha256_digest_length.
  assert (Hd2 : length d2 = 32%nat) by apply sha256_digest_length.
  assert (E2 : drop 48 (slot_body r ++ rest) = d2 ++ codec_image r ++ rest).
  { change 48%nat with (16 + 32)%nat. rewrite <- drop_drop, E. by apply drop_app_length'. }
  assert (E3 : drop 80 (slot_body r ++ rest) = codec_image r ++ rest).
  { change 80%nat with (48 + 32)%nat. rewrite <- drop_drop, E2. by apply drop_app_length'. }
  split; [unfold slot_body, slot_hashed; rewrite <- !app_assoc; reflexivity|].
  split; [by rewrite E, E2|]. split; [by rewrite E2, E3|]. split; [exact E3|].
  unfold slot_body. rewrite <- !app_assoc. apply sha256_digest_app. symmetry.
  apply slot_hashed_length.
Qed.

Lemma digest_matches d rest :
  bytes d -> length d = 32%nat -> bytes rest ->
  guardian_crypto_constant_time_equal (Some d) (Some (d ++ rest)) GUARDIAN_SHA256_SIZE = true.
Proof.
  intros Hb Hl Hr. unfold GUARDIAN_SHA256_SIZE.
  apply guardian_crypto_constant_time_equal_spec;
    [assumption|by apply bytes_app_2|lia|lia|rewrite length_app; lia|].
  by rewrite take_app_le by lia.
Qed.

Lemma validate_slot_body r rest r0 :
  record_valid r -> record_object r -> bytes rest ->
  r3e_validate_body (Some (slot_body r ++ rest)) (Some r0) = (true, Some (normalized r)).
Proof.
  intros Hv Ho Hrest. unfold r3e_validate_body.
  pose proof (slot_body_fields r rest Hv) as F. cbv zeta in F.
  assert (Hm : negb (byte_at (slot_body r ++ rest) 0 =? R3E_MAGIC_0)
    || negb (byte_at (slot_body r ++ rest) 1 =? R3E_MAGIC_1)
    || negb (byte_at (slot_body r ++ rest) 2 =? R3E_MAGIC_2)
    || negb (byte_at (slot_body r ++ rest) 3 =? R3E_MAGIC_3) = false) by reflexivity.
  assert (Hver : r3e_get_u16_be (drop 4 (slot_body r ++ rest)) = 1) by reflexivity.
  assert (Hsz : r3e_get_u16_be (drop 6 (slot_body r ++ rest)) = 80) by reflexivity.
  assert (Hpl : r3e_get_u32_be (drop 8 (slot_body r ++ rest)) = 364) by reflexivity.
  assert (Hb : forall k, bytes (drop k (slot_body r ++ rest)))
    by (intros; apply bytes_drop, bytes_app_2; [by apply slot_body_bytes|done]).
  revert F Hm Hver Hsz Hpl Hb. generalize (slot_body r ++ rest).
  intros img (F12 & F16 & F48 & F80 & Fd) Hm Hver Hsz Hpl Hb.
  unfold GUARDIAN_NODE_LINK_PERSISTENCE_PHYSICAL_FORMAT_VERSION,
    GUARDIAN_NODE_LINK_PERSISTENCE_PHYSICAL_HEADER_SIZE, R3E_PAYLOAD_LENGTH_OFFSET,
    R3E_HEADER_HASH_MATERIAL_SIZE, R3E_HEADER_HASH_OFFSET, R3E_PAYLOAD_HASH_OFFSET,
    GUARDIAN_NODE_LINK_PERSISTENCE_PHYSICAL_PAYLOAD_OFFSET, R3E_GENERATION_OFFSET.
  rewrite Hm, Hver, Hsz, Hpl. unfold CODEC_SERIALIZED_SIZE at 1.
  change (negb (1 =? 1)) with false. change (negb (80 =? Z.of_nat 80)) with false.
  change (negb (364 =? Z.of_nat 364)) with false.
  rewrite Fd, F48, digest_matches
    by (first [apply sha256_digest_bytes | apply sha256_digest_length | apply Hb]).
  rewrite F80, F16. cbn [negb].
  rewrite sha256_digest_app by (by rewrite codec_image_length).
  unfold CODEC_SERIALIZED_SIZE at 1.
  rewrite digest_matches
    by (first [apply sha256_digest_bytes | apply sha256_digest_length | apply Hb]).
  cbn [negb]. rewrite decode_image by done. cbn [from_option id].
  rewrite bool_decide_true by reflexivity. cbn [negb].
  unfold r3e_get_u32_be. rewrite F12, put_get_u32_be by apply Ho.
  cbn [normalized rec_record_generation]. by rewrite Z.eqb_refl.
Qed.

Lemma r3e_get_u16_be_agree p : bytes p -> r3e_get_u16_be p = get_u16_be p.
Proof. apply get_u16_be_agree. Qed.

Lemma digest_equal_inv d p :
  bytes d -> length d = 32%nat -> bytes p -> (32 <= length p)%nat ->
  guardian_crypto_constant_time_equal (Some d) (Some p) GUARDIAN_SHA256_SIZE = true ->
  take 32 p = d.
Proof.
  intros Hb Hl Hbp Hlp H. unfold GUARDIAN_SHA256_SIZE in H.
  apply guardian_crypto_constant_time_equal_spec in H; [|assumption|assumption|lia|lia|assumption].
  rewrite <- H. apply take_ge. lia.
Qed.

Lemma header_slices (l : list Z) :
  (448 <= length l)%nat ->
  take 16 l = [byte_at l 0; byte_at l 1; byte_at l 2; byte_at l 3]
    ++ take 2 (drop 4 l) ++ take 2 (drop 6 l) ++ take 4 (drop 8 l) ++ take 4 (drop 12 l).
Proof.
  intros H. do 16 (destruct l as [|? l]; [cbn in H; lia|]). reflexivity.
Qed.

(** The body of a slot is accepted only if it is the image of a record. *)
Lemma validate_body_inv img r0 out :
  bytes img -> (448 <= length img)%nat ->
  r3e_validate_body (Some img) (Some r0) = (true, out) ->
  exists r, out = Some r /\ record_valid r /\ record_object r /\ normalized r = r /\
  take 444 img = slot_body r.
Proof.
  intros Hb Hl H. unfold r3e_validate_body in H.
  early_inv H E1. early_inv H E2. early_inv H E3. early_inv H E4. early_inv H E5. early_inv H E6.
  set (payload := drop GUARDIAN_NODE_LINK_PERSISTENCE_PHYSICAL_PAYLOAD_OFFSET img) in *.
  destruct (guardian_node_link_freshness_persistence_decode (Some payload) CODEC_SERIALIZED_SIZE
    (Some zero_record)) as [res cand] eqn:Ed.
  early_inv H E7. early_inv H E8. apply pair_equal_spec in H as [_ <-].
  apply negb_false_iff, bool_decide_eq_true in E7. subst res.
  assert (Hbp : forall k, bytes (drop k img)) by (intros; by apply bytes_drop).
  apply decode_inv in Ed as (_ & r & -> & Hv & Ho & Hn & Himg);
    [|apply Hbp|unfold payload; rewrite length_drop;
      unfold CODEC_SERIALIZED_SIZE, GUARDIAN_NODE_LINK_PERSISTENCE_PHYSICAL_PAYLOAD_OFFSET; lia].
  cbn [from_option id] in *. exists r. split; [reflexivity|]. split; [exact Hv|].
  split; [exact Ho|]. split; [exact Hn|].
  apply orb_false_iff in E1 as [[[M0 M1]%orb_false_iff M2]%orb_false_iff M3].
  apply negb_false_iff, Z.eqb_eq in M0, M1, M2, M3, E2, E3, E4, E8.
  rewrite r3e_get_u16_be_agree in E2, E3 by apply Hbp.
  apply negb_false_iff in E5, E6.
  apply digest_equal_inv in E5;
    [|apply sha256_digest_bytes|apply sha256_digest_length|apply Hbp
     |rewrite length_drop; unfold R3E_HEADER_HASH_OFFSET; lia].
  apply digest_equal_inv in E6;
    [|apply sha256_digest_bytes|apply sha256_digest_length|apply Hbp
     |rewrite length_drop; unfold R3E_PAYLOAD_HASH_OFFSET; lia].
  unfold R3E_HEADER_HASH_OFFSET, R3E_HEADER_HASH_MATERIAL_SIZE, R3E_PAYLOAD_HASH_OFFSET,
    R3E_PAYLOAD_LENGTH_OFFSET, R3E_GENERATION_OFFSET, CODEC_SERIALIZED_SIZE in *.
  assert (Hh : take 16 img = slot_header r).
  { rewrite header_slices by done. unfold slot_header. rewrite M0, M1, M2, M3.
    rewrite <- E2, <- E3. unfold CODEC_SERIALIZED_SIZE. rewrite <- E4, <- E8.
    unfold r3e_get_u32_be.
    rewrite !get_put_u32_be_take, !get_put_u16_be_take
      by (first [apply Hbp | rewrite length_drop; lia]).
    reflexivity. }
  assert (Hp : sha256_digest payload 364 = sha256_digest (codec_image r) 364).
  { rewrite <- sha256_digest_take, Himg. reflexivity. }
  rewrite Hp in E6.
  assert (H48 : take 48 img = slot_hashed r).
  { rewrite (take_split 16 32 48) by reflexivity. rewrite Hh, E6. reflexivity. }
  rewrite <- sha256_digest_take, H48 in E5.
  rewrite (take_split 48 396 444), (take_split 32 364 396), drop_drop, H48, E5 by reflexivity.
  change (drop (48 + 32) img) with payload. by rewrite Himg.
Qed.

(** ** What a slot shows *)

Lemma bytes_all_ff_spec p n :
  (n <= length p)%nat ->
  r3e_bytes_all_ff (Some p) n = true <-> take n p = replicate n 0xFF.
Proof.
  intros Hn. unfold r3e_bytes_all_ff. rewrite forallb_forall. split.
  - intros H. apply (byte_at_ext _ _ n); [by apply length_take_le|by rewrite length_replicate|].
    intros i Hi. rewrite byte_at_take by done. unfold byte_at at 2.
    rewrite nth_lookup, lookup_replicate_2 by done. cbn [from_option id].
    apply Z.eqb_eq, H, in_seq. lia.
  - intros H i Hi. apply in_seq in Hi. apply Z.eqb_eq.
    rewrite <- (byte_at_take p n), H by lia. unfold byte_at.
    by rewrite nth_lookup, lookup_replicate_2 by lia.
Qed.

(** The observation of a slot holding [c]. *)
Definition slot_view (c : list Z) : r3e_slot_observation_t :=
  r3e_classify_image (take 448 c) (OBSERVATION R3E_SLOT_INVALID zero_record).

Lemma slot_view_valid c r :
  bytes c -> (448 <= length c)%nat -> slot_view c = OBSERVATION R3E_SLOT_VALID r ->
  record_valid r /\ record_object r /\ normalized r = r /\ take 444 c = slot_body r.
Proof.
  intros Hb Hl H. unfold slot_view, r3e_classify_image in H.
  early_inv H E1. early_inv H E2. early_inv H E3.
  destruct (r3e_validate_body _ _) as [ok rec] eqn:Ev. early_inv H E4.
  apply negb_false_iff in E4 as ->.
  apply validate_body_inv in Ev as (r' & -> & Hv & Ho & Hn & Hi);
    [|by apply bytes_take|by rewrite length_take_le].
  cbn [from_option id] in H. apply (f_equal obs_record) in H. cbn [obs_record] in H. subst r'.
  rewrite take_take in Hi. by repeat (split; [assumption|]).
Qed.


Lemma slot_view_erased c :
  take 448 c = replicate 448 0xFF -> slot_view c = OBSERVATION R3E_SLOT_ERASED zero_record.
Proof. intros H. unfold slot_view. rewrite H. reflexivity. Qed.

Section written_slot.
Context (r : record) (Hv : record_valid r) (Ho : record_object r).

Lemma body_not_erased mark :
  length mark = 4%nat -> r3e_bytes_all_ff (Some (slot_body r ++ mark)) 448 = false.
Proof.
  intros Hm. destruct (r3e_bytes_all_ff _ _) eqn:E; [|done]. exfalso.
  assert (Hl : length (slot_body r ++ mark) = 448%nat)
    by (rewrite length_app, slot_body_length, Hm by done; done).
  apply bytes_all_ff_spec in E; [|lia].
  apply (f_equal (fun l => byte_at l 0)) in E. discriminate E.
Qed.

Lemma body_marker mark : drop 444 (slot_body r ++ mark) = mark.
Proof. apply drop_app_length'. by rewrite slot_body_length. Qed.

(** A staged record shows a torn slot. *)
Lemma slot_view_staged c :
  take 448 c = slot_body r ++ erased_marker -> slot_view c = OBSERVATION R3E_SLOT_TORN zero_record.
Proof.
  intros H. unfold slot_view, r3e_classify_image. rewrite H.
  unfold GUARDIAN_NODE_LINK_PERSISTENCE_PHYSICAL_IMAGE_SIZE,
    GUARDIAN_NODE_LINK_PERSISTENCE_PHYSICAL_COMMIT_OFFSET.
  rewrite body_not_erased by done. by rewrite body_marker.
Qed.

(** A committed record shows itself. *)
Lemma slot_view_committed c :
  take 448 c = slot_body r ++ commit_marker ->
  slot_view c = OBSERVATION R3E_SLOT_VALID (normalized r).
Proof.
  intros H. unfold slot_view, r3e_classify_image. rewrite H.
  unfold GUARDIAN_NODE_LINK_PERSISTENCE_PHYSICAL_IMAGE_SIZE,
    GUARDIAN_NODE_LINK_PERSISTENCE_PHYSICAL_COMMIT_OFFSET.
  rewrite body_not_erased, body_marker by done.
  rewrite validate_slot_body; [reflexivity|assumption|assumption|].
  apply (bool_decide_eq_true_1 (bytes commit_marker)). reflexivity.
Qed.
End written_slot.

Lemma codec_image_normalized r : record_valid r -> codec_image (normalized r) = codec_image r.
Proof.
  intros [_ _ [_ _ _ _ H1 H2 H3] _ _ _].
  assert (Hb : codec_body (normalized r) = codec_body r).
  { unfold codec_body, codec_header, codec_fields, normalized, normalized_identity.
    cbn [rec_schema_version rec_identity rec_accepted_epoch rec_accepted_sequence
      rec_record_generation fi_sender_node_id fi_producer_id fi_key_id fi_signature_algorithm
      fi_producer_semantic_profile_id fi_consumer_semantic_profile_id fi_compatibility_contract_id].
    by rewrite !ref_text_ref_of by assumption. }
  unfold codec_image. by rewrite Hb.
Qed.

Lemma records_equal_spec l r :
  record_object l -> record_object r ->
  r3e_records_equal (Some l) (Some r) = true <->
  record_valid l /\ record_valid r /\ codec_image l = codec_image r.
Proof.
  intros Hol Hor. unfold r3e_records_equal.
  assert (Henc : forall x, {record_valid x} + {~ record_valid x}).
  { intros x. destruct (r3c_d_record_is_logically_valid (Some x)) eqn:E; [left|right];
      rewrite <- logically_valid_spec; congruence. }
  assert (Hno : forall x, ~ record_valid x ->
    guardian_node_link_freshness_persistence_encode (Some x)
      (Some (replicate CODEC_SERIALIZED_SIZE 0)) CODEC_SERIALIZED_SIZE (Some 0%nat)
    = (GUARDIAN_NODE_LINK_PERSISTENCE_CODEC_INVALID_FIELD,
       Some (replicate CODEC_SERIALIZED_SIZE 0), Some 0%nat)).
  { intros x Hx. unfold guardian_node_link_freshness_persistence_encode.
    rewrite (proj2 (Nat.ltb_ge _ _)) by done.
    destruct (r3c_d_record_is_logically_valid (Some x)) eqn:E; [|reflexivity].
    by apply logically_valid_spec in E. }
  assert (Hyes : forall x, record_valid x ->
    guardian_node_link_freshness_persistence_encode (Some x)
      (Some (replicate CODEC_SERIALIZED_SIZE 0)) CODEC_SERIALIZED_SIZE (Some 0%nat)
    = (GUARDIAN_NODE_LINK_PERSISTENCE_CODEC_OK, Some (codec_image x), Some CODEC_SERIALIZED_SIZE)).
  { intros x Hx. rewrite record_encode_writes by (rewrite ?length_replicate; done).
    rewrite drop_ge by (by rewrite length_replicate). by rewrite app_nil_r. }
  destruct (Henc l) as [Hl|Hl].
  2:{ rewrite Hno by assumption. rewrite bool_decide_false by discriminate.
      split; [discriminate|]. by intros [? _]. }
  rewrite Hyes by assumption. rewrite bool_decide_true by reflexivity. cbn [negb].
  destruct (Henc r) as [Hr|Hr].
  2:{ rewrite Hno by assumption. rewrite bool_decide_false by discriminate.
      split; [discriminate|]. by intros (_ & ? & _). }
  rewrite Hyes by assumption. rewrite !bool_decide_true by reflexivity. cbn [negb orb].
  pose proof (codec_image_length l Hl) as Hll. pose proof (codec_image_length r Hr) as Hlr.
  rewrite guardian_crypto_constant_time_equal_spec;
    [|by apply codec_image_bytes|by apply codec_image_bytes
     |apply Nat.ltb_lt; reflexivity|by rewrite Hll|by rewrite Hlr].
  rewrite !take_ge by (by rewrite ?Hll, ?Hlr). split; [|by intros (_ & _ & ?)].
  by intros ->.
Qed.

(** ** The selection *)

(** A record as decoding returns it. *)
Record decoded (r : record) : Prop := {
  dec_valid : record_valid r;
  dec_object : record_object r;
  dec_normal : normalized r = r
}.

(** [r'] is [r] or a later record of the same session. *)
Definition advances (r r' : record) : Prop :=
  r' = r \/
  rec_identity r' = rec_identity r /\ rec_accepted_epoch r' = rec_accepted_epoch r /\
  rec_accepted_sequence r < rec_accepted_sequence r' /\
  rec_record_generation r < rec_record_generation r'.

Lemma advances_trans r1 r2 r3 : advances r1 r2 -> advances r2 r3 -> advances r1 r3.
Proof.
  intros [->|(H1 & H2 & H3 & H4)] [->|(K1 & K2 & K3 & K4)]; [by left|by right|by right|].
  right. rewrite K1, K2. repeat (split; [assumption|]). clear - H3 H4 K3 K4. lia.
Qed.

Lemma memcmp_eq_spec a b n :
  (n <= length a)%nat -> (n <= length b)%nat -> memcmp_eq a b n = true <-> take n a = take n b.
Proof.
  intros Ha Hb. unfold memcmp_eq. rewrite forallb_forall. split.
  - intros H. apply (byte_at_ext _ _ n); [by apply length_take_le..|].
    intros i Hi. rewrite !byte_at_take by done. apply Z.eqb_eq, H, in_seq. lia.
  - intros H i Hi. apply in_seq in Hi. apply Z.eqb_eq.
    rewrite <- (byte_at_take a n), H by lia. apply byte_at_take. lia.
Qed.

Lemma decoded_refs r :
  decoded r ->
  length (fi_producer_semantic_profile_id (rec_identity r)) = 96%nat /\
  length (fi_consumer_semantic_profile_id (rec_identity r)) = 96%nat /\
  length (fi_compatibility_contract_id (rec_identity r)) = 96%nat.
Proof.
  intros [Hv _ Hn]. pose proof (reco_identity _ _ Hv) as [_ _ _ _ H1 H2 H3].
  apply (f_equal rec_identity) in Hn. cbn [rec_identity normalized] in Hn.
  unfold normalized_identity in Hn.
  pose proof (f_equal fi_producer_semantic_profile_id Hn) as E1.
  pose proof (f_equal fi_consumer_semantic_profile_id Hn) as E2.
  pose proof (f_equal fi_compatibility_contract_id Hn) as E3.
  cbn [fi_producer_semantic_profile_id fi_consumer_semantic_profile_id
    fi_compatibility_contract_id] in E1, E2, E3.
  split; [exact (eq_trans (eq_sym (f_equal length E1)) (ref_of_text_length _ H1))|].
  split; [exact (eq_trans (eq_sym (f_equal length E2)) (ref_of_text_length _ H2))|].
  exact (eq_trans (eq_sym (f_equal length E3)) (ref_of_text_length _ H3)).
Qed.

Lemma identity_equal_iff l r :
  decoded l -> decoded r ->
  r3e_identity_equal (Some (rec_identity l)) (Some (rec_identity r)) = true <->
  rec_identity l = rec_identity r.
Proof.
  intros Hl Hr. apply decoded_refs in Hl as (L1 & L2 & L3), Hr as (R1 & R2 & R3).
  revert L1 L2 L3 R1 R2 R3. generalize (rec_identity l) as i, (rec_identity r) as j.
  intros [i1 i2 i3 i4 i5 i6 i7] [j1 j2 j3 j4 j5 j6 j7].
  cbn [fi_producer_semantic_profile_id fi_consumer_semantic_profile_id
    fi_compatibility_contract_id]. intros L1 L2 L3 R1 R2 R3. unfold r3e_identity_equal.
  cbn [fi_sender_node_id fi_producer_id fi_key_id fi_signature_algorithm
    fi_producer_semantic_profile_id fi_consumer_semantic_profile_id fi_compatibility_contract_id].
  assert (Hm : forall a b, length a = 96%nat -> length b = 96%nat ->
    memcmp_eq a b 96 = true <-> a = b).
  { intros a b Ha Hb. rewrite memcmp_eq_spec by lia. by rewrite !take_ge by lia. }
  unfold GUARDIAN_NODE_LINK_SEMANTIC_REF_CAPACITY. split.
  - intros H. early_inv H E0. early_inv H E1. early_inv H E2.
    apply orb_false_iff in E0 as [[[A B]%orb_false_iff C]%orb_false_iff D].
    apply negb_false_iff, Z.eqb_eq in A, B, C, D. apply negb_false_iff in E1, E2.
    apply Hm in E1, E2, H; try assumption. congruence.
  - intros [= -> -> -> -> -> -> ->]. rewrite !Z.eqb_refl. cbn [negb orb].
    assert (Hrefl : forall a, length a = 96%nat -> memcmp_eq a a 96 = true)
      by (intros a Ha; by apply Hm).
    by rewrite !Hrefl.
Qed.

Lemma adjacent_spec o n :
  decoded o -> decoded n ->
  r3e_transition_is_adjacent (Some o) (Some n) = true <->
  rec_identity n = rec_identity o /\ rec_accepted_epoch n = rec_accepted_epoch o /\
  rec_record_generation n = rec_record_generation o + 1 /\
  rec_accepted_sequence o < rec_accepted_sequence n.
Proof.
  intros Ho Hn. unfold r3e_transition_is_adjacent.
  pose proof (identity_equal_iff o n Ho Hn) as Hid.
  pose proof (ro_generation _ (dec_object _ Ho)) as Hgo.
  pose proof (ro_generation _ (dec_object _ Hn)) as Hgn.
  unfold is_u32, UINT32_MAX, u32 in *. split.
  - intros H. early_inv H E1. early_inv H E2. early_inv H E3. early_inv H E4.
    apply negb_false_iff in E1. apply Hid in E1. apply negb_false_iff, Z.eqb_eq in E2, E4.
    apply Z.eqb_neq in E3. apply Z.ltb_lt in H. rewrite Z.mod_small in E4 by lia.
    by repeat (split; [congruence|]).
  - intros (H1 & H2 & H3 & H4). rewrite (proj2 Hid) by congruence. cbn [negb].
    rewrite H2, Z.eqb_refl. cbn [negb]. rewrite (proj2 (Z.eqb_neq _ _)) by lia.
    rewrite Z.mod_small, H3, Z.eqb_refl by lia. cbn [negb]. by apply Z.ltb_lt.
Qed.

Lemma adjacent_advances o n :
  decoded o -> decoded n -> r3e_transition_is_adjacent (Some o) (Some n) = true -> advances o n.
Proof.
  intros Ho Hn H. apply adjacent_spec in H as (H1 & H2 & H3 & H4); [|assumption..].
  right. repeat (split; [assumption|]). clear - H3. lia.
Qed.

(** The observation of a slot among two. *)
Definition pick (a b : r3e_slot_observation_t) (s : slot) : r3e_slot_observation_t :=
  match s with
  | GUARDIAN_NODE_LINK_PERSISTENCE_SLOT_A => a
  | GUARDIAN_NODE_LINK_PERSISTENCE_SLOT_B => b
  end.

Definition valid_decoded (o : r3e_slot_observation_t) : Prop :=
  obs_state o = R3E_SLOT_VALID -> decoded (obs_record o).

Lemma obs_eta o st : obs_state o = st -> o = OBSERVATION st (obs_record o).
Proof. by destruct o; cbn; intros ->. Qed.

Section selection.
Context (a b : r3e_slot_observation_t) (Ha : valid_decoded a) (Hb : valid_decoded b).

(** The selection, case by case. *)
Inductive selects : recovery_t -> Prop :=
  | selects_none st d res :
      st <> GUARDIAN_NODE_LINK_PERSISTENCE_STATUS_VALID_PERSISTED_STATE ->
      (st = GUARDIAN_NODE_LINK_PERSISTENCE_STATUS_NO_PERSISTED_STATE ->
       obs_state a = R3E_SLOT_ERASED /\ obs_state b = R3E_SLOT_ERASED) ->
      selects (RECOVERY res st d None)
  | selects_some s r d :
      pick a b s = OBSERVATION R3E_SLOT_VALID r ->
      (obs_state (pick a b (other_slot s)) = R3E_SLOT_ERASED \/
       obs_state (pick a b (other_slot s)) = R3E_SLOT_TORN \/
       obs_state (pick a b (other_slot s)) = R3E_SLOT_VALID /\
       r3e_transition_is_adjacent (Some (obs_record (pick a b (other_slot s)))) (Some r) = true) ->
      selects (RECOVERY GUARDIAN_NODE_LINK_PERSISTENCE_OPERATION_OK
        GUARDIAN_NODE_LINK_PERSISTENCE_STATUS_VALID_PERSISTED_STATE d (Some (r, s))).

Lemma selects_uncertain : selects r3e_uncertain.
Proof. by apply selects_none. Qed.

Lemma select_one_selects s :
  obs_state (pick a b s) = R3E_SLOT_VALID -> obs_state (pick a b (other_slot s)) <> R3E_SLOT_VALID ->
  selects (r3e_select_one (pick a b s) (pick a b (other_slot s)) s).
Proof.
  intros Hs Hp. unfold r3e_select_one. destruct (bool_decide _); [apply selects_uncertain|].
  destruct (bool_decide_reflect (obs_state (pick a b (other_slot s)) = R3E_SLOT_ERASED)) as [He|He],
    (bool_decide_reflect (obs_state (pick a b (other_slot s)) = R3E_SLOT_TORN)) as [Ht|Ht];
    cbn [negb andb]; [..|apply selects_uncertain];
    (apply selects_some; [by apply obs_eta|by auto]).
Qed.

Lemma select_selects : selects (r3e_select a b).
Proof.
  unfold r3e_select.
  destruct (bool_decide_reflect (obs_state a = R3E_SLOT_ERASED)) as [Ea|Ea],
    (bool_decide_reflect (obs_state b = R3E_SLOT_ERASED)) as [Eb|Eb]; cbn [andb];
    [by apply selects_none|..].
  all: destruct (bool_decide_reflect (obs_state a = R3E_SLOT_VALID)) as [Va|Va],
    (bool_decide_reflect (obs_state b = R3E_SLOT_VALID)) as [Vb|Vb]; cbn [andb orb];
    try congruence.
  all: try (by apply (select_one_selects GUARDIAN_NODE_LINK_PERSISTENCE_SLOT_A)).
  all: try (by apply (select_one_selects GUARDIAN_NODE_LINK_PERSISTENCE_SLOT_B)).
  all: try (repeat match goal with |- selects (if ?c then _ else _) => destruct c end;
    first [apply selects_uncertain | by apply selects_none]).
  unfold r3e_select_valid. destruct (_ <? _).
  - destruct (r3e_transition_is_adjacent _ _) eqn:E; [|apply selects_uncertain].
    apply (selects_some GUARDIAN_NODE_LINK_PERSISTENCE_SLOT_B); [by apply obs_eta|by right; right].
  - destruct (_ <? _); [|apply selects_uncertain].
    destruct (r3e_transition_is_adjacent _ _) eqn:E; [|apply selects_uncertain].
    apply (selects_some GUARDIAN_NODE_LINK_PERSISTENCE_SLOT_A); [by apply obs_eta|by right; right].
Qed.

(** A committed record is never lost: what is selected advances it. *)
Lemma selects_advances R s r r' s' :
  selects R -> pick a b s = OBSERVATION R3E_SLOT_VALID r -> rcv_selected R = Some (r', s') ->
  advances r r' /\ pick a b s' = OBSERVATION R3E_SLOT_VALID r'.
Proof.
  intros [st d res H1 H2|s2 r2 d Hp Ho] Hs Hsel; [discriminate|].
  injection Hsel as <- <-. split; [|exact Hp].
  destruct (slot_cases s2 s) as [Hc|Hc]; subst s.
  - rewrite Hp in Hs. injection Hs as ->. by left.
  - rewrite Hs in Ho. cbn [obs_state obs_record] in Ho. destruct Ho as [Ho|[Ho|[_ Ho]]]; [done..|].
    assert (Hdec : forall t, valid_decoded (pick a b t)) by (intros []; assumption).
    apply adjacent_advances; [..|exact Ho].
    + pose proof (Hdec (other_slot s2)) as H. rewrite Hs in H. by apply H.
    + pose proof (Hdec s2) as H. rewrite Hp in H. by apply H.
Qed.

Lemma selects_picked R r s :
  selects R -> rcv_selected R = Some (r, s) -> pick a b s = OBSERVATION R3E_SLOT_VALID r.
Proof. intros [|s2 r2 d Hp _] Hs; [discriminate|]. by injection Hs as <- <-. Qed.

Lemma selects_status R :
  selects R ->
  (rcv_status R = GUARDIAN_NODE_LINK_PERSISTENCE_STATUS_VALID_PERSISTED_STATE <->
   is_Some (rcv_selected R)) /\
  (rcv_status R = GUARDIAN_NODE_LINK_PERSISTENCE_STATUS_NO_PERSISTED_STATE ->
   obs_state a = R3E_SLOT_ERASED /\ obs_state b = R3E_SLOT_ERASED).
Proof.
  intros [st d res Hst Hno|s r d H1 H2]; cbn [rcv_status rcv_selected].
  - split; [|exact Hno]. split; [by intros ?|by intros [? [=]]].
  - split; [by split; [eexists|]|discriminate].
Qed.
End selection.
