(* ===== verification/Recovery.v ===== *)
(** * Recovery and commit of the dual-slot backend

    What the operations of [Backend.v] do over any medium that obeys
    [MediaLaws]: recovery as a function of what the two slots show, the slots each
    callback may change, the three stages of a commit on a healthy medium, the
    step relation of everything a backend may go through, and the properties. *)

From S2P Require Import Prelude Crypto CString NodeLink NodeLinkAuth NodeLinkSemantic.
From S2P Require Import Freshness Persistence Codec Media Backend.

Local Abbreviation record := guardian_node_link_freshness_persisted_record_t.
Local Abbreviation status_t := guardian_node_link_freshness_persistence_status_t.
Local Abbreviation slot := guardian_node_link_persistence_slot_t.
Local Abbreviation backend := guardian_node_link_freshness_physical_backend_t.

(** ** Recovery, over any medium that obeys its laws *)

Section recovery.
Context {M : Type} {read : guardian_node_link_persistence_media_read_fn M}.
Context {erase : guardian_node_link_persistence_media_erase_fn M}.
Context {program : guardian_node_link_persistence_media_program_fn M}.
Context {laws : MediaLaws read erase program}.

(** A backend over that medium. *)
Definition backend_over (b : backend M) : Prop :=
  be_read b = read /\ be_erase b = erase /\ be_program b = program.

Lemma set_pending_over b s v : backend_over b -> backend_over (set_pending b s v).
Proof. done. Qed.

Definition view (m : M) (s : slot) : r3e_slot_observation_t := slot_view (content m s).

Lemma view_slot m s : view m s = slot_view (content m s).
Proof. reflexivity. Qed.

Lemma view_image m s :
  view m s = r3e_classify_image (take 448 (content m s)) (OBSERVATION R3E_SLOT_INVALID zero_record).
Proof. reflexivity. Qed.

Lemma view_frame m m' s : content m' s = content m s -> view m' s = view m s.
Proof. intros H. by rewrite !view_slot, H. Qed.

Definition same_content (m m' : M) : Prop := forall s, content m' s = content m s.

Lemma same_content_view m m' s : same_content m m' -> view m' s = view m s.
Proof. intros H. by apply view_frame. Qed.

Lemma media_result_not_ok r :
  r <> GUARDIAN_NODE_LINK_PERSISTENCE_MEDIA_OK ->
  r3e_media_result_to_operation r <> GUARDIAN_NODE_LINK_PERSISTENCE_OPERATION_OK.
Proof. by destruct r. Qed.

Lemma read_image b m s res img m' :
  backend_over b ->
  be_read b m s 0%nat image_buffer GUARDIAN_NODE_LINK_PERSISTENCE_PHYSICAL_IMAGE_SIZE
    = (res, img, m') ->
  same_content m m' /\
  (healthy m -> healthy m' /\ res = GUARDIAN_NODE_LINK_PERSISTENCE_MEDIA_OK) /\
  (res = GUARDIAN_NODE_LINK_PERSISTENCE_MEDIA_OK -> img = take 448 (content m s)).
Proof.
  intros (-> & _ & _) H. pose proof (read_preserves _ _ _ _ _ _ _ _ H) as [Hc Hh].
  split; [exact Hc|]. split.
  - intros Hm. split; [by apply Hh|].
    destruct (read_healthy m s 0%nat image_buffer
      GUARDIAN_NODE_LINK_PERSISTENCE_PHYSICAL_IMAGE_SIZE Hm) as (out & m2 & H2); [done|congruence].
  - intros ->. apply read_faithful in H as ->; [by rewrite drop_0|done|reflexivity].
Qed.

Lemma scan_spec b m s o res o' m' :
  backend_over b -> r3e_scan_slot (Some b) s (Some o) m = (res, o', m') ->
  same_content m m' /\
  (healthy m -> healthy m' /\ res = GUARDIAN_NODE_LINK_PERSISTENCE_OPERATION_OK) /\
  (res = GUARDIAN_NODE_LINK_PERSISTENCE_OPERATION_OK -> o' = Some (view m s)).
Proof.
  intros Hb H. unfold r3e_scan_slot in H.
  destruct (be_read b m s 0%nat image_buffer _) as [[mres img] m2] eqn:E.
  apply (read_image b m s mres img m2 Hb) in E as (Hc & Hh & Hi).
  destruct (bool_decide_reflect (mres = GUARDIAN_NODE_LINK_PERSISTENCE_MEDIA_OK)) as [Hok|Hok];
    cbn [negb] in H; apply pair_equal_spec in H as [H <-]; apply pair_equal_spec in H as [<- <-].
  - split; [exact Hc|]. split; [intros Hm; split; [by apply Hh|reflexivity]|].
    intros _. rewrite (Hi Hok), view_image. reflexivity.
  - split; [exact Hc|]. split.
    + intros Hm. by destruct (Hh Hm) as [_ ?].
    + intros Hr. by apply media_result_not_ok in Hok.
Qed.

(** What recovery says of the medium. *)
Inductive recovers (m : M) : recovery_t -> Prop :=
  | recovers_views :
      recovers m (r3e_select (view m GUARDIAN_NODE_LINK_PERSISTENCE_SLOT_A)
                             (view m GUARDIAN_NODE_LINK_PERSISTENCE_SLOT_B))
  | recovers_unreadable op_a op_b : ~ healthy m -> recovers m (r3e_unreadable op_a op_b).

Lemma recover_spec b st rec d sel m res st' rec' d' sel' m' :
  backend_over b ->
  r3e_recover_internal (Some b) (Some st) (Some rec) (Some d) sel m
    = (res, st', rec', d', sel', m') ->
  same_content m m' /\ (healthy m -> healthy m') /\
  exists R, recovers m R /\ res = rcv_result R /\ st' = Some (rcv_status R) /\
  rec' = Some (match rcv_selected R with Some (r, _) => r | None => zero_record end) /\
  d' = Some (rcv_diagnostic R) /\
  sel' = match sel, rcv_selected R with Some _, Some (_, s) => Some s | _, _ => sel end.
Proof.
  intros Hb H. unfold r3e_recover_internal in H.
  destruct (r3e_scan_slot (Some b) GUARDIAN_NODE_LINK_PERSISTENCE_SLOT_A _ m)
    as [[op_a oa] m1] eqn:Ea.
  destruct (r3e_scan_slot (Some b) GUARDIAN_NODE_LINK_PERSISTENCE_SLOT_B _ m1)
    as [[op_b ob] m2] eqn:Eb.
  apply (scan_spec b m _ _ _ _ _ Hb) in Ea as (Ha1 & Ha2 & Ha3).
  apply (scan_spec b m1 _ _ _ _ _ Hb) in Eb as (Hb1 & Hb2 & Hb3).
  assert (Hc : same_content m m2) by (intros s; by rewrite Hb1, Ha1).
  assert (Hh : healthy m -> healthy m2 /\ op_a = GUARDIAN_NODE_LINK_PERSISTENCE_OPERATION_OK /\
    op_b = GUARDIAN_NODE_LINK_PERSISTENCE_OPERATION_OK).
  { intros Hm. destruct (Ha2 Hm) as [Hm1 ?]. by destruct (Hb2 Hm1). }
  injection H as <- <- <- <- <- <-. split; [exact Hc|]. split; [by intros ?; apply Hh|].
  eexists. split; [|by repeat (split; [reflexivity|])].
  destruct (bool_decide_reflect (op_a = GUARDIAN_NODE_LINK_PERSISTENCE_OPERATION_OK)) as [Hoa|Hoa],
    (bool_decide_reflect (op_b = GUARDIAN_NODE_LINK_PERSISTENCE_OPERATION_OK)) as [Hob|Hob];
    cbn [negb orb]; [|apply recovers_unreadable; intros Hm; by destruct (Hh Hm) as (_ & ? & ?)..].
  rewrite (Ha3 Hoa), (Hb3 Hob). cbn [from_option id].
  rewrite (same_content_view m m1) by assumption. apply recovers_views.
Qed.

(** Recovery touches nothing and, on a healthy medium, reads the two slots. *)
Lemma recovers_healthy m R :
  healthy m -> recovers m R ->
  R = r3e_select (view m GUARDIAN_NODE_LINK_PERSISTENCE_SLOT_A)
                 (view m GUARDIAN_NODE_LINK_PERSISTENCE_SLOT_B).
Proof. by intros Hm []. Qed.

Lemma view_decoded m s : valid_decoded (view m s).
Proof.
  intros H. rewrite view_slot in *. apply obs_eta in H.
  apply slot_view_valid in H as (H1 & H2 & H3 & _); [|apply content_bytes|apply content_size].
  by constructor.
Qed.

Lemma recovers_selects m R :
  recovers m R ->
  selects (view m GUARDIAN_NODE_LINK_PERSISTENCE_SLOT_A)
          (view m GUARDIAN_NODE_LINK_PERSISTENCE_SLOT_B) R.
Proof. intros []; [apply select_selects|by apply selects_none]. Qed.

Lemma pick_view m s :
  pick (view m GUARDIAN_NODE_LINK_PERSISTENCE_SLOT_A) (view m GUARDIAN_NODE_LINK_PERSISTENCE_SLOT_B) s
  = view m s.
Proof. by destruct s. Qed.

(** If some slot holds [r], recovery selects [r] or a later record, or nothing. *)
Lemma recovers_advances m R s r r' s' :
  view m s = OBSERVATION R3E_SLOT_VALID r -> recovers m R -> rcv_selected R = Some (r', s') ->
  advances r r' /\ view m s' = OBSERVATION R3E_SLOT_VALID r'.
Proof.
  intros Hs HR Hsel. apply recovers_selects in HR. rewrite <- pick_view.
  apply (selects_advances _ _ (view_decoded m _) (view_decoded m _) R s); [done| |done].
  by rewrite pick_view.
Qed.

(** ** What the callbacks may change *)

(** The slot [write_candidate] stages into, from what recovery says. *)
Definition stages (R : recovery_t) (c : record) (t : slot) : Prop :=
  rcv_result R = GUARDIAN_NODE_LINK_PERSISTENCE_OPERATION_OK /\
  write_target (rcv_status R) (match rcv_selected R with Some (r, _) => r | None => zero_record end)
    c (match rcv_selected R with Some (_, s) => s | None => GUARDIAN_NODE_LINK_PERSISTENCE_SLOT_A end)
  = inl t.

Lemma write_frame b c m res b' m' :
  backend_over b ->
  guardian_node_link_freshness_physical_backend_write_candidate (Some b) (Some c) m = (res, b', m') ->
  exists p v, b' = Some (set_pending b p v) /\
  (same_content m m' /\ v = 0 \/
   exists R t, recovers m R /\ stages R c t /\
   content m' (other_slot t) = content m (other_slot t) /\ (v = 1 -> p = t)).
Proof.
  intros Hb H. unfold guardian_node_link_freshness_physical_backend_write_candidate in H.
  destruct (r3e_recover_internal _ _ _ _ _ m) as [[[[[op st] cur] d] sel] m1] eqn:Er.
  apply recover_spec in Er as (Hc & _ & R & HR & -> & -> & -> & -> & ->); [|done].
  cbn [from_option id] in H.
  assert (Hsel : default GUARDIAN_NODE_LINK_PERSISTENCE_SLOT_A
      match rcv_selected R with
      | Some (_, s) => Some s
      | None => Some GUARDIAN_NODE_LINK_PERSISTENCE_SLOT_A
      end = match rcv_selected R with
            | Some (_, s) => s | None => GUARDIAN_NODE_LINK_PERSISTENCE_SLOT_A end)
    by (by destruct (rcv_selected R) as [[]|]).
  rewrite Hsel in H. clear Hsel.
  destruct (bool_decide_reflect (rcv_result R = GUARDIAN_NODE_LINK_PERSISTENCE_OPERATION_OK))
    as [Hok|Hok]; cbn [negb] in H.
  2:{ injection H as _ <- <-. do 2 eexists. split; [reflexivity|]. by left. }
  destruct (write_target _ _ _ _) as [t|refusal] eqn:Ht.
  2:{ injection H as _ <- <-. do 2 eexists. split; [reflexivity|]. by left. }
  destruct (r3e_build_staged_image (Some c) (Some image_buffer)) as [ok image].
  destruct ok; cbn [negb] in H.
  2:{ injection H as _ <- <-. do 2 eexists. split; [reflexivity|]. by left. }
  destruct Hb as (_ & He & Hp). cbn [be_erase be_program set_pending] in H. rewrite He in H.
  destruct (erase m1 t) as [er m2] eqn:Ee.
  pose proof (erase_frame _ _ _ _ Ee) as Hf2. rewrite Hc in Hf2.
  destruct (negb (bool_decide (er = GUARDIAN_NODE_LINK_PERSISTENCE_MEDIA_OK))).
  { injection H as _ <- <-. do 2 eexists. split; [reflexivity|]. right. exists R, t.
    by repeat (split; [done|]). }
  rewrite Hp in H. destruct (program m2 t _ _ _) as [pr m3] eqn:Ep.
  pose proof (program_frame _ _ _ _ _ _ _ Ep) as Hf3. rewrite Hf2 in Hf3.
  destruct (negb (bool_decide (pr = GUARDIAN_NODE_LINK_PERSISTENCE_MEDIA_OK)));
    injection H as _ <- <-; do 2 eexists; (split; [reflexivity|]); right; exists R, t;
    by repeat (split; [done|]).
Qed.

Lemma verify_frame b c m res m' :
  backend_over b ->
  guardian_node_link_freshness_physical_backend_verify_candidate (Some b) c m = (res, m') ->
  same_content m m' /\ (healthy m -> healthy m').
Proof.
  intros Hb H. unfold guardian_node_link_freshness_physical_backend_verify_candidate in H.
  destruct c as [c|]; [|by injection H as _ <-].
  destruct (negb (be_pending_valid b =? 1)); [by injection H as _ <-|].
  destruct (be_read b m _ _ _ _) as [[mres img] m2] eqn:E.
  apply (read_image b m _ _ _ _ Hb) in E as (Hc & Hh & _).
  assert (Hr : m' = m2).
  { destruct (r3e_validate_body (Some img) (Some zero_record)) as [ok dec].
    repeat match type of H with (if ?x then _ else _) = _ => destruct x; [by injection H|] end.
    by injection H. }
  subst m'. split; [exact Hc|]. intros Hm. by apply Hh.
Qed.

Lemma commit_frame b c m res b' m' :
  backend_over b ->
  guardian_node_link_freshness_physical_backend_commit_candidate (Some b) (Some c) m = (res, b', m') ->
  exists v, b' = Some (set_pending b (be_pending_slot b) v) /\
  (v = 1 -> be_pending_valid b = 1) /\
  (same_content m m' \/
   be_pending_valid b = 1 /\
   content m' (other_slot (be_pending_slot b)) = content m (other_slot (be_pending_slot b))).
Proof.
  intros Hb H. unfold guardian_node_link_freshness_physical_backend_commit_candidate in H.
  destruct (Z.eqb_spec (be_pending_valid b) 1) as [Hpv|Hpv]; cbn [negb] in H.
  2:{ injection H as _ <- <-. exists (be_pending_valid b). split; [by destruct b|].
      split; [done|by left]. }
  destruct (guardian_node_link_freshness_physical_backend_verify_candidate (Some b) (Some c) m)
    as [vr m1] eqn:Ev.
  apply verify_frame in Ev as [Hc _]; [|done].
  destruct (negb (bool_decide (vr = GUARDIAN_NODE_LINK_PERSISTENCE_OPERATION_OK))).
  { injection H as _ <- <-. exists 0. by split; [|split; [|left]]. }
  destruct Hb as (Hrd & He & Hp). rewrite Hp in H.
  destruct (program m1 (be_pending_slot b) _ _ _) as [pr m2] eqn:Ep.
  pose proof (program_frame _ _ _ _ _ _ _ Ep) as Hf. rewrite Hc in Hf.
  destruct (negb (bool_decide (pr = GUARDIAN_NODE_LINK_PERSISTENCE_MEDIA_OK))).
  { injection H as _ <- <-. exists 0. by split; [|split; [|right]]. }
  destruct (r3e_scan_slot (Some b) (be_pending_slot b) _ m2) as [[sc ob] m3] eqn:Es.
  apply scan_spec in Es as (Hc3 & _); [|done].
  assert (Hr : b' = Some (set_pending b (be_pending_slot b) 0) /\ m' = m3).
  { repeat match type of H with (if ?x then _ else _) = _ => destruct x; [by injection H|] end.
    by injection H. }
  destruct Hr as [-> ->]. exists 0. split; [done|]. split; [done|]. right. split; [done|].
  by rewrite Hc3.
Qed.

(** ** Everything a backend may go through

    The callbacks in any order with any candidate, over a medium whose every
    operation may fail and damage the slot it writes; [step_restart] is a reset
    of the device, after which [init] fills the backend again. *)
Inductive backend_step : backend M * M -> backend M * M -> Prop :=
  | step_load b m st rec res st' rec' m' :
      guardian_node_link_freshness_physical_backend_load (Some b) (Some st) (Some rec) m
        = (res, st', rec', m') ->
      backend_step (b, m) (b, m')
  | step_write b m c res b' m' :
      guardian_node_link_freshness_physical_backend_write_candidate (Some b) (Some c) m
        = (res, Some b', m') ->
      backend_step (b, m) (b', m')
  | step_verify b m c res m' :
      guardian_node_link_freshness_physical_backend_verify_candidate (Some b) c m = (res, m') ->
      backend_step (b, m) (b, m')
  | step_commit b m c res b' m' :
      guardian_node_link_freshness_physical_backend_commit_candidate (Some b) (Some c) m
        = (res, Some b', m') ->
      backend_step (b, m) (b', m')
  | step_restart b m m' :
      same_content m m' ->
      backend_step (b, m) (set_pending b GUARDIAN_NODE_LINK_PERSISTENCE_SLOT_A 0, m').

(** Some slot holds [r] or a later record, and it is not the pending one. *)
Definition keeps (r : record) (s : backend M * M) : Prop :=
  backend_over s.1 /\
  exists t r', view s.2 t = OBSERVATION R3E_SLOT_VALID r' /\ advances r r' /\
  (be_pending_valid s.1 = 1 -> be_pending_slot s.1 <> t).

Lemma keeps_same r b b' m m' :
  keeps r (b, m) -> backend_over b' -> same_content m m' ->
  (be_pending_valid b' = 1 -> be_pending_valid b = 1 /\ be_pending_slot b' = be_pending_slot b) ->
  keeps r (b', m').
Proof.
  intros (Hb & t & r' & Hv & Ha & Hp) Hb' Hc Hpend. split; [exact Hb'|]. exists t, r'.
  cbn [fst snd] in *. rewrite (same_content_view m m') by assumption.
  split; [exact Hv|]. split; [exact Ha|]. intros Hp'. destruct (Hpend Hp') as [H1 ->]. by apply Hp.
Qed.

Lemma load_frame b st rec m res st' rec' m' :
  backend_over b ->
  guardian_node_link_freshness_physical_backend_load (Some b) (Some st) (Some rec) m
    = (res, st', rec', m') ->
  same_content m m' /\ (healthy m -> healthy m').
Proof.
  intros Hb H. unfold guardian_node_link_freshness_physical_backend_load,
    guardian_node_link_freshness_physical_backend_recover in H.
  destruct (r3e_recover_internal _ _ _ _ _ m) as [[[[[op st2] cur] d] sel] m1] eqn:Er.
  apply recover_spec in Er as (Hc & Hh & _); [|done].
  injection H as _ _ _ <-. by split.
Qed.

(** Staging goes to the slot recovery did not select. *)
Lemma stages_spares m R c t s r :
  recovers m R -> stages R c t -> view m s = OBSERVATION R3E_SLOT_VALID r ->
  exists r', view m (other_slot t) = OBSERVATION R3E_SLOT_VALID r' /\ advances r r'.
Proof.
  intros HR [_ Ht] Hs. unfold write_target in Ht.
  destruct (rcv_status R) eqn:Est; try discriminate Ht.
  - pose proof (selects_status _ _ _ (recovers_selects m R HR)) as [[Hsel _] _].
    destruct (Hsel Est) as [[r' s'] Er]. rewrite Er in Ht.
    early_inv Ht E1. early_inv Ht E2. injection Ht as <-.
    destruct (recovers_advances m R s r r' s' Hs HR Er) as [Ha Hv].
    exists r'. split; [|exact Ha]. by destruct s'.
  - exfalso. apply recovers_selects, selects_status in HR as [_ HR].
    destruct (HR Est) as [Ea Eb].
    destruct s; rewrite Hs in *; discriminate.
Qed.

Lemma backend_step_keeps r s s' : backend_step s s' -> keeps r s -> keeps r s'.
Proof.
  intros Hstep Hk. pose proof Hk as (Hb & t & r' & Hv & Ha & Hp).
  destruct Hstep as [b m st rec res st' rec' m' H|b m c res b' m' H|b m c res m' H|
    b m c res b' m' H|b m m' H]; cbn [fst snd] in *.
  - apply load_frame in H as [Hc _]; [|done]. by apply (keeps_same r b b m m').
  - apply write_frame in H as (p & v & Hb' & Hw); [|done].
    injection Hb' as ->.
    destruct Hw as [[Hc ->]|(R & t' & HR & Hst & Hf & Hpt)].
    { by apply (keeps_same r b _ m m'). }
    destruct (stages_spares m R c t' t r' HR Hst Hv) as (r2 & Hv2 & Ha2).
    split; [exact Hb|]. exists (other_slot t'), r2. cbn [fst snd].
    split; [by rewrite (view_frame m)|]. split; [by apply (advances_trans r r')|].
    intros Hv1. rewrite (Hpt Hv1). apply not_eq_sym, other_slot_ne.
  - apply verify_frame in H as [Hc _]; [|done]. by apply (keeps_same r b b m m').
  - apply commit_frame in H as (v & Hb' & Hpv & Hcase); [|done].
    injection Hb' as ->. destruct Hcase as [Hc|[Hpv1 Hf]].
    { apply (keeps_same r b _ m m'); [done..|]. intros Hv1. split; [by apply Hpv|reflexivity]. }
    split; [exact Hb|]. exists t, r'. cbn [fst snd]. specialize (Hp Hpv1).
    destruct (slot_cases (be_pending_slot b) t) as [Ht|Ht]; rewrite Ht in *; [done|].
    split; [by rewrite (view_frame m)|]. split; [exact Ha|]. intros _.
    apply not_eq_sym, other_slot_ne.
  - by apply (keeps_same r b _ m m').
Qed.

Lemma backend_steps_keep r s s' : rtc backend_step s s' -> keeps r s -> keeps r s'.
Proof. induction 1; [done|]. intros. by eauto using backend_step_keeps. Qed.

(** ** On a healthy medium *)

Lemma take_blit_within (l src : list Z) off n :
  (off + length src <= n)%nat -> (n <= length l)%nat ->
  take n (blit l off src) = blit (take n l) off src.
Proof.
  intros Ho Hn. rewrite <- (take_drop n l) at 1.
  rewrite blit_app_l by (rewrite length_take; lia). apply take_app_length'.
  rewrite blit_length; rewrite length_take; lia.
Qed.

Lemma slot_body_staged_parts r :
  record_valid r ->
  take 444 (slot_body r ++ erased_marker) = slot_body r /\
  length (slot_body r ++ erased_marker) = 448%nat.
Proof.
  intros Hv. pose proof (slot_body_length r Hv) as Hl. split.
  - by apply take_app_length'.
  - rewrite length_app, Hl. reflexivity.
Qed.

Lemma program_spec m s off data n :
  healthy m -> bytes data -> length data = n -> (off + n <= 448)%nat ->
  take n (drop off (take 448 (content m s))) = replicate n 0xFF ->
  exists m', program m s off data n = (GUARDIAN_NODE_LINK_PERSISTENCE_MEDIA_OK, m') /\ healthy m' /\
  content m' (other_slot s) = content m (other_slot s) /\
  take 448 (content m' s) = blit (take 448 (content m s)) off data.
Proof.
  intros Hm Hb Hl Hoff Her. pose proof (content_size m s) as Hsz.
  destruct (program_healthy m s off data n Hm Hb) as (m' & Hp & Hh & Hc); [lia|done| |].
  { rewrite <- Her. rewrite skipn_firstn_comm, take_take. f_equal. lia. }
  exists m'. split; [exact Hp|]. split; [exact Hh|]. split; [exact (program_frame _ _ _ _ _ _ _ Hp)|].
  rewrite Hc, (take_ge data) by lia. apply take_blit_within; lia.
Qed.

Section written.
Context (b : backend M) (c : record) (Hb : backend_over b) (Hd : decoded c).

Lemma write_succeeds m t :
  healthy m ->
  stages (r3e_select (view m GUARDIAN_NODE_LINK_PERSISTENCE_SLOT_A)
                     (view m GUARDIAN_NODE_LINK_PERSISTENCE_SLOT_B)) c t ->
  exists m', guardian_node_link_freshness_physical_backend_write_candidate (Some b) (Some c) m
    = (GUARDIAN_NODE_LINK_PERSISTENCE_OPERATION_OK, Some (set_pending b t 1), m') /\ healthy m' /\
  content m' (other_slot t) = content m (other_slot t) /\
  take 448 (content m' t) = slot_body c ++ erased_marker.
Proof.
  intros Hm Hst. unfold guardian_node_link_freshness_physical_backend_write_candidate.
  destruct (r3e_recover_internal _ _ _ _ _ m) as [[[[[op st] cur] d] sel] m1] eqn:Er.
  apply recover_spec in Er as (Hc & Hh & R & HR & -> & -> & -> & -> & ->); [|done].
  apply recovers_healthy in HR; [|done]. rewrite <- HR in Hst. clear HR.
  destruct Hst as [Hok Ht]. rewrite Hok, bool_decide_true by reflexivity. cbn [from_option id negb].
  replace (default GUARDIAN_NODE_LINK_PERSISTENCE_SLOT_A
      match rcv_selected R with
      | Some (_, s) => Some s
      | None => Some GUARDIAN_NODE_LINK_PERSISTENCE_SLOT_A
      end) with (match rcv_selected R with
            | Some (_, s) => s | None => GUARDIAN_NODE_LINK_PERSISTENCE_SLOT_A end)
    by (by destruct (rcv_selected R) as [[]|]).
  rewrite Ht, build_staged_image_spec by (first [apply Hd | apply length_replicate]).
  pose proof (dec_valid c Hd) as Hv. pose proof (slot_body_staged_parts c Hv) as [Ht444 Hl448].
  pose proof (slot_body_length c Hv) as Hlb.
  pose proof (slot_body_bytes c (dec_object c Hd)) as Hbb.
  cbn [negb from_option id].
  destruct Hb as (_ & He & Hp). cbn [be_erase be_program set_pending]. rewrite He, Hp.
  destruct (erase_healthy m1 t (Hh Hm)) as (m2 & He2 & Hm2 & Hc2). rewrite He2.
  pose proof (erase_frame _ _ _ _ He2) as Hf2. rewrite bool_decide_true by reflexivity. cbn [negb].
  assert (Hsz : (448 <= length (content m1 t))%nat) by apply content_size.
  assert (Hff : take 448 (content m2 t) = replicate 448 0xFF)
    by (rewrite Hc2, take_replicate, Nat.min_l by lia; reflexivity).
  unfold GUARDIAN_NODE_LINK_PERSISTENCE_PHYSICAL_COMMIT_OFFSET.
  assert (Hpr : exists m3, program m2 t 0%nat (slot_body c ++ erased_marker) 444%nat
      = (GUARDIAN_NODE_LINK_PERSISTENCE_MEDIA_OK, m3) /\ healthy m3 /\
      content m3 t = blit (content m2 t) 0 (slot_body c)).
  { destruct (program_healthy m2 t 0%nat (slot_body c ++ erased_marker) 444%nat Hm2)
      as (m3 & Hp3 & Hm3 & Hc3).
    - apply bytes_app_2; [exact Hbb|]. apply (bool_decide_eq_true_1 (bytes erased_marker)). reflexivity.
    - lia.
    - lia.
    - rewrite Hc2, drop_0, take_replicate, Nat.min_l by lia. reflexivity.
    - exists m3. rewrite Ht444 in Hc3. exact (conj Hp3 (conj Hm3 Hc3)). }
  destruct Hpr as (m3 & Hp3 & Hm3 & Hc3). rewrite Hp3, bool_decide_true by reflexivity. cbn [negb].
  exists m3. split; [reflexivity|]. split; [exact Hm3|].
  split; [by rewrite (program_frame _ _ _ _ _ _ _ Hp3), Hf2, Hc|].
  assert (Hsz2 : (448 <= length (content m2 t))%nat) by apply content_size.
  rewrite Hc3, take_blit_within by (rewrite ?Hlb; lia). rewrite Hff, blit_0, Hlb. reflexivity.
Qed.

Lemma verify_succeeds m :
  healthy m -> be_pending_valid b = 1 ->
  take 448 (content m (be_pending_slot b)) = slot_body c ++ erased_marker ->
  exists m', guardian_node_link_freshness_physical_backend_verify_candidate (Some b) (Some c) m
    = (GUARDIAN_NODE_LINK_PERSISTENCE_OPERATION_OK, m') /\ healthy m' /\ same_content m m'.
Proof.
  intros Hm Hpv Hstaged. unfold guardian_node_link_freshness_physical_backend_verify_candidate.
  rewrite Hpv. cbn [Z.eqb Pos.eqb negb].
  destruct (be_read b m _ _ _ _) as [[mres img] m2] eqn:E.
  apply (read_image b m _ _ _ _ Hb) in E as (Hc & Hh & Hi).
  destruct (Hh Hm) as [Hm2 ->]. rewrite bool_decide_true by reflexivity. cbn [negb].
  rewrite Hi, Hstaged by reflexivity. exists m2. split; [|by split].
  pose proof (dec_valid c Hd) as Hv.
  unfold GUARDIAN_NODE_LINK_PERSISTENCE_PHYSICAL_COMMIT_OFFSET.
  rewrite (body_marker c Hv). change (r3e_bytes_all_ff (Some erased_marker) _) with true.
  rewrite validate_slot_body;
    [|exact Hv|apply Hd|apply (bool_decide_eq_true_1 (bytes erased_marker)); reflexivity].
  cbn [negb]. rewrite (dec_normal c Hd).
  assert (He : r3e_records_equal (Some c) (Some c) = true)
    by (apply records_equal_spec; [apply Hd..|]; split; [exact Hv|]; split; [exact Hv|reflexivity]).
  by rewrite He.
Qed.

Lemma commit_succeeds m :
  healthy m -> be_pending_valid b = 1 ->
  take 448 (content m (be_pending_slot b)) = slot_body c ++ erased_marker ->
  exists m', guardian_node_link_freshness_physical_backend_commit_candidate (Some b) (Some c) m
    = (GUARDIAN_NODE_LINK_PERSISTENCE_OPERATION_OK, Some (set_pending b (be_pending_slot b) 0), m') /\
  healthy m' /\
  content m' (other_slot (be_pending_slot b)) = content m (other_slot (be_pending_slot b)) /\
  view m' (be_pending_slot b) = OBSERVATION R3E_SLOT_VALID c.
Proof.
  intros Hm Hpv Hstaged. unfold guardian_node_link_freshness_physical_backend_commit_candidate.
  rewrite Hpv. cbn [Z.eqb Pos.eqb negb].
  destruct (verify_succeeds m Hm Hpv Hstaged) as (m1 & Hver & Hm1 & Hc1). rewrite Hver.
  rewrite bool_decide_true by reflexivity. cbn [negb].
  pose proof (dec_valid c Hd) as Hv. pose proof (slot_body_length c Hv) as Hlb.
  destruct Hb as (_ & _ & Hp). rewrite Hp.
  unfold GUARDIAN_NODE_LINK_PERSISTENCE_PHYSICAL_COMMIT_OFFSET,
    GUARDIAN_NODE_LINK_PERSISTENCE_PHYSICAL_COMMIT_SIZE.
  destruct (program_spec m1 (be_pending_slot b) 444 commit_marker 4 Hm1)
    as (m2 & Hp2 & Hm2 & Ho2 & Hc2).
  { apply (bool_decide_eq_true_1 (bytes commit_marker)). reflexivity. }
  { reflexivity. }
  { lia. }
  { rewrite Hc1, Hstaged, (body_marker c Hv). reflexivity. }
  rewrite Hp2, bool_decide_true by reflexivity. cbn [negb].
  rewrite Hc1, Hstaged, blit_app_r, Hlb in Hc2 by (by rewrite Hlb).
  change (444 - 444)%nat with 0%nat in Hc2.
  rewrite blit_exact in Hc2 by reflexivity.
  assert (Hview : view m2 (be_pending_slot b) = OBSERVATION R3E_SLOT_VALID c).
  { unfold view. rewrite (slot_view_committed c Hv (dec_object c Hd) _ Hc2), (dec_normal c Hd).
    reflexivity. }
  destruct (r3e_scan_slot (Some b) (be_pending_slot b) _ m2) as [[sc ob] m3] eqn:Es.
  apply scan_spec in Es as (Hc3 & Hh3 & Ho3); [|done].
  destruct (Hh3 Hm2) as [Hm3 ->]. rewrite Ho3, Hview by reflexivity.
  cbn [from_option id obs_state obs_record]. rewrite !bool_decide_true by reflexivity. cbn [negb orb].
  assert (He : r3e_records_equal (Some c) (Some c) = true)
    by (apply records_equal_spec; [apply Hd..|]; split; [exact Hv|]; split; [exact Hv|reflexivity]).
  rewrite He. cbn [negb]. exists m3. split; [reflexivity|]. split; [exact Hm3|].
  split; [by rewrite Hc3, Ho2, Hc1|]. by rewrite (same_content_view m2 m3).
Qed.
End written.

(** What recovery reports of the record a transaction continues. *)
Definition holds (previous : option record) (st : status_t) (rec : record) : Prop :=
  match previous with
  | None => st = GUARDIAN_NODE_LINK_PERSISTENCE_STATUS_NO_PERSISTED_STATE
  | Some p => st = GUARDIAN_NODE_LINK_PERSISTENCE_STATUS_VALID_PERSISTED_STATE /\ rec = p
  end.

(** [previous] is the record of the slot other than [t], which may be staged. *)
Definition staging_slot (m : M) (previous : option record) (t : slot) : Prop :=
  match previous with
  | None => t = GUARDIAN_NODE_LINK_PERSISTENCE_SLOT_A /\
      view m (other_slot t) = OBSERVATION R3E_SLOT_ERASED zero_record
  | Some p => view m (other_slot t) = OBSERVATION R3E_SLOT_VALID p
  end.

Lemma slot_view_erased_record c o :
  slot_view c = o -> obs_state o = R3E_SLOT_ERASED -> o = OBSERVATION R3E_SLOT_ERASED zero_record.
Proof.
  intros <-. unfold slot_view, r3e_classify_image.
  destruct (r3e_bytes_all_ff (Some (take 448 c)) _); [done|].
  destruct (r3e_bytes_all_ff _ _); [done|]. destruct (negb _); [done|].
  destruct (r3e_validate_body _ _) as [ok rec]. by destruct (negb ok).
Qed.

Lemma decoded_identity_eq l r :
  decoded l -> decoded r -> identity_key (rec_identity l) = identity_key (rec_identity r) ->
  rec_identity l = rec_identity r.
Proof.
  intros Hl Hr Hk.
  pose proof (f_equal rec_identity (dec_normal l Hl)) as El.
  pose proof (f_equal rec_identity (dec_normal r Hr)) as Er.
  cbn [rec_identity normalized] in El, Er. rewrite <- El, <- Er. clear El Er.
  revert Hk. generalize (rec_identity l) as i, (rec_identity r) as j.
  intros i j Hk. unfold identity_key in Hk. apply pair_equal_spec in Hk as [Hk H7].
  apply pair_equal_spec in Hk as [Hk H6]. apply pair_equal_spec in Hk as [Hk H5].
  apply pair_equal_spec in Hk as [Hk H4]. apply pair_equal_spec in Hk as [Hk H3].
  apply pair_equal_spec in Hk as [H1 H2]. unfold normalized_identity.
  rewrite H1, H2, H3, H4, H5, H6, H7. reflexivity.
Qed.

Lemma continuation_adjacent expected p c :
  decoded p -> decoded c -> continuation_ok expected (Some p) c ->
  r3e_transition_is_adjacent (Some p) (Some c) = true /\ rec_record_generation p <> UINT32_MAX.
Proof.
  intros Hp Hc [Hcand Hprev _]. destruct (Hprev p eq_refl) as (Hpo & Hg & He & Hs). split.
  - apply adjacent_spec; [exact Hp|exact Hc|]. split; [|by split; [exact He|split]].
    apply decoded_identity_eq; [exact Hc|exact Hp|].
    exact (eq_trans (reco_same _ _ Hcand) (eq_sym (reco_same _ _ Hpo))).
  - pose proof (ro_generation _ (dec_object _ Hc)) as Hu. rewrite Hg in Hu.
    unfold is_u32, UINT32_MAX in *. clear - Hu. lia.
Qed.

Lemma continuation_stages m expected previous c st rec :
  decoded c -> continuation_ok expected previous c ->
  let R := r3e_select (view m GUARDIAN_NODE_LINK_PERSISTENCE_SLOT_A)
                      (view m GUARDIAN_NODE_LINK_PERSISTENCE_SLOT_B) in
  rcv_result R = GUARDIAN_NODE_LINK_PERSISTENCE_OPERATION_OK -> rcv_status R = st ->
  rec = match rcv_selected R with Some (r, _) => r | None => zero_record end ->
  holds previous st rec ->
  exists t, stages R c t /\ staging_slot m previous t.
Proof.
  intros Hc Hcont R Hok Hst Hrec Hh.
  assert (HR : recovers m R) by apply recovers_views.
  pose proof (recovers_selects m R HR) as Hsel. apply selects_status in Hsel as [Hsome Hnone].
  rewrite Hst in *. unfold stages, staging_slot. rewrite Hst. destruct previous as [p|]; cbn in Hh.
  - destruct Hh as [Hst' Hp]. rewrite Hst' in *. destruct (proj1 Hsome eq_refl) as [[r s] Hs].
    rewrite Hs in Hrec |- *. rewrite Hrec in Hp. subst p.
    assert (Hv : view m s = OBSERVATION R3E_SLOT_VALID r).
    { rewrite <- pick_view. exact (selects_picked _ _ R r s (recovers_selects m R HR) Hs). }
    assert (Hdec : decoded r).
    { pose proof (view_decoded m s) as Hx. rewrite Hv in Hx. by apply Hx. }
    destruct (continuation_adjacent expected r c Hdec Hc Hcont) as [Hadj Hgen].
    exists (other_slot s). split; [|by rewrite other_slot_involutive]. split; [exact Hok|].
    unfold write_target. rewrite (proj2 (Z.eqb_neq _ _) Hgen), Hadj. cbn [negb]. by destruct s.
  - rewrite Hh in *. exists GUARDIAN_NODE_LINK_PERSISTENCE_SLOT_A.
    destruct (Hnone eq_refl) as [_ Hb]. split.
    + split; [exact Hok|]. unfold write_target. by rewrite (cont_first _ _ _ Hcont eq_refl).
    + split; [reflexivity|]. by eapply slot_view_erased_record; [symmetry; apply view_slot|].
Qed.

(** Recovery with the record committed in the slot [t], and with it staged only. *)
Lemma select_committed m expected previous c t :
  decoded c -> continuation_ok expected previous c -> staging_slot m previous t ->
  view m t = OBSERVATION R3E_SLOT_VALID c ->
  r3e_select (view m GUARDIAN_NODE_LINK_PERSISTENCE_SLOT_A)
             (view m GUARDIAN_NODE_LINK_PERSISTENCE_SLOT_B)
  = RECOVERY GUARDIAN_NODE_LINK_PERSISTENCE_OPERATION_OK
      GUARDIAN_NODE_LINK_PERSISTENCE_STATUS_VALID_PERSISTED_STATE
      GUARDIAN_NODE_LINK_PERSISTENCE_RECOVERY_VALID (Some (c, t)).
Proof.
  intros Hc Hcont Hst Hv. unfold staging_slot in Hst. destruct previous as [p|].
  - assert (Hdec : decoded p).
    { pose proof (view_decoded m (other_slot t)) as Hx. rewrite Hst in Hx. by apply Hx. }
    destruct (continuation_adjacent expected p c Hdec Hc Hcont) as [Hadj _].
    destruct (cont_previous _ _ _ Hcont p eq_refl) as (_ & Hg & _ & _).
    assert (Hboth : forall x y, r3e_select (OBSERVATION R3E_SLOT_VALID x)
        (OBSERVATION R3E_SLOT_VALID y) = r3e_select_valid (OBSERVATION R3E_SLOT_VALID x)
        (OBSERVATION R3E_SLOT_VALID y)) by reflexivity.
    destruct t; cbn [other_slot] in Hst; rewrite Hv, Hst, Hboth;
      unfold r3e_select_valid; cbn [obs_state obs_record].
    + rewrite (proj2 (Z.ltb_ge _ _)) by lia. rewrite (proj2 (Z.ltb_lt _ _)) by lia. by rewrite Hadj.
    + rewrite (proj2 (Z.ltb_lt _ _)) by lia. by rewrite Hadj.
  - destruct Hst as [-> Hst]. cbn [other_slot] in Hst. by rewrite Hv, Hst.
Qed.

Lemma select_staged m previous t :
  staging_slot m previous t -> view m t = OBSERVATION R3E_SLOT_TORN zero_record ->
  r3e_select (view m GUARDIAN_NODE_LINK_PERSISTENCE_SLOT_A)
             (view m GUARDIAN_NODE_LINK_PERSISTENCE_SLOT_B)
  = RECOVERY GUARDIAN_NODE_LINK_PERSISTENCE_OPERATION_OK
      (if previous is Some _ then GUARDIAN_NODE_LINK_PERSISTENCE_STATUS_VALID_PERSISTED_STATE
       else GUARDIAN_NODE_LINK_PERSISTENCE_STATUS_TORN_OR_INCOMPLETE_UPDATE)
      (if previous is Some _ then GUARDIAN_NODE_LINK_PERSISTENCE_RECOVERY_VALID_WITH_TORN_PEER
       else GUARDIAN_NODE_LINK_PERSISTENCE_RECOVERY_TORN_ONLY)
      match previous with Some p => Some (p, other_slot t) | None => None end.
Proof.
  intros Hst Hv. unfold staging_slot in Hst. destruct previous as [p|].
  - by destruct t; cbn [other_slot] in Hst; rewrite Hv, Hst.
  - destruct Hst as [-> Hst]. cbn [other_slot] in Hst. by rewrite Hv, Hst.
Qed.

(** On a healthy medium [recover] publishes the selection. *)
Lemma recover_healthy b m st rec d R :
  backend_over b -> healthy m ->
  r3e_select (view m GUARDIAN_NODE_LINK_PERSISTENCE_SLOT_A)
             (view m GUARDIAN_NODE_LINK_PERSISTENCE_SLOT_B) = R ->
  exists m', guardian_node_link_freshness_physical_backend_recover (Some b) (Some st) (Some rec)
    (Some d) m = (rcv_result R, Some (rcv_status R),
      Some match rcv_selected R with Some (r, _) => r | None => zero_record end,
      Some (rcv_diagnostic R), m') /\ same_content m m' /\ healthy m'.
Proof.
  intros Hb Hm HR. unfold guardian_node_link_freshness_physical_backend_recover.
  destruct (r3e_recover_internal _ _ _ _ _ m) as [[[[[op st2] cur] d2] sel] m1] eqn:Er.
  apply recover_spec in Er as (Hc & Hh & R' & HR' & -> & -> & -> & -> & _); [|done].
  apply recovers_healthy in HR'; [|done]. rewrite HR', HR. exists m1.
  split; [reflexivity|]. split; [exact Hc|]. by apply Hh.
Qed.

Lemma staging_same m m' previous t :
  content m' (other_slot t) = content m (other_slot t) ->
  staging_slot m previous t -> staging_slot m' previous t.
Proof. intros Hc. unfold staging_slot, view. by rewrite Hc. Qed.

(** The slot holds the committed image of [r]. *)
Definition committed (m : M) (s : slot) (r : record) : Prop :=
  decoded r /\ take 448 (content m s) = slot_body r ++ commit_marker.

Definition erased (m : M) (s : slot) : Prop := take 448 (content m s) = replicate 448 0xFF.

(** Something was staged and not committed. *)
Definition torn (m : M) (s : slot) : Prop :=
  ~ erased m s /\ take 4 (drop 444 (content m s)) = erased_marker.

Lemma view_committed m s r : view m s = OBSERVATION R3E_SLOT_VALID r <-> committed m s r.
Proof.
  unfold committed. split.
  - intros H. pose proof (view_decoded m s) as Hd. rewrite H in Hd. rewrite view_slot in H.
    specialize (Hd eq_refl). split; [exact Hd|]. cbn [obs_record] in Hd.
    pose proof H as Hb. apply slot_view_valid in Hb as (_ & _ & _ & Hb);
      [|apply content_bytes|apply content_size].
    rewrite (take_split 444 4 448), Hb by reflexivity. f_equal.
    unfold slot_view, r3e_classify_image in H. early_inv H E1. early_inv H E2. early_inv H E3.
    apply negb_false_iff in E3. unfold r3e_commit_marker_is_valid in E3.
    apply andb_true_iff in E3 as [[[M0 M1]%andb_true_iff M2]%andb_true_iff M3].
    apply Z.eqb_eq in M0, M1, M2, M3. pose proof (content_size m s) as Hsz.
    unfold GUARDIAN_NODE_LINK_PERSISTENCE_PHYSICAL_COMMIT_OFFSET in *.
    rewrite skipn_firstn_comm in M0, M1, M2, M3. change (448 - 444)%nat with 4%nat in *.
    revert M0 M1 M2 M3. assert (Hl : length (take 4 (drop 444 (content m s))) = 4%nat)
      by (rewrite length_take, length_drop; lia).
    revert Hl. generalize (take 4 (drop 444 (content m s))). intros l Hl M0 M1 M2 M3.
    apply (byte_at_ext _ _ 4); [exact Hl|reflexivity|]. intros i Hi.
    destruct i as [|[|[|[|i]]]]; [exact M0|exact M1|exact M2|exact M3|lia].
  - intros [[Hv Ho Hn] H]. rewrite view_slot, (slot_view_committed r Hv Ho _ H), Hn. reflexivity.
Qed.

Lemma view_erased m s : obs_state (view m s) = R3E_SLOT_ERASED <-> erased m s.
Proof.
  unfold view, erased. split; [|by intros H; rewrite (slot_view_erased _ H)].
  unfold slot_view, r3e_classify_image. pose proof (content_size m s) as Hsz.
  destruct (r3e_bytes_all_ff (Some (take 448 (content m s))) _) eqn:E.
  - intros _. apply bytes_all_ff_spec in E; [|by rewrite length_take_le].
    by rewrite take_take in E.
  - clear E. destruct (r3e_bytes_all_ff _ _); [by intros|]. destruct (negb _); [by intros|].
    destruct (r3e_validate_body _ _) as [ok rec]. by destruct (negb ok).
Qed.

Lemma view_torn m s : obs_state (view m s) = R3E_SLOT_TORN <-> torn m s.
Proof.
  pose proof (view_erased m s) as He. unfold torn. rewrite <- He. clear He.
  pose proof (content_size m s) as Hsz.
  assert (Hm : r3e_bytes_all_ff
      (Some (drop GUARDIAN_NODE_LINK_PERSISTENCE_PHYSICAL_COMMIT_OFFSET (take 448 (content m s))))
      GUARDIAN_NODE_LINK_PERSISTENCE_PHYSICAL_COMMIT_SIZE = true <->
    take 4 (drop 444 (content m s)) = erased_marker).
  { unfold GUARDIAN_NODE_LINK_PERSISTENCE_PHYSICAL_COMMIT_OFFSET.
    rewrite skipn_firstn_comm. change (448 - 444)%nat with 4%nat.
    rewrite bytes_all_ff_spec by (rewrite length_take, length_drop;
      unfold GUARDIAN_NODE_LINK_PERSISTENCE_PHYSICAL_COMMIT_SIZE; lia).
    by rewrite take_take. }
  unfold view, slot_view, r3e_classify_image.
  destruct (r3e_bytes_all_ff (Some (take 448 (content m s))) _); cbn [obs_state].
  { split; [discriminate|]. by intros [H _]. }
  destruct (r3e_bytes_all_ff _ _); cbn [obs_state].
  { rewrite <- Hm. done. }
  assert (Hno : forall o, obs_state o <> R3E_SLOT_TORN ->
    obs_state o = R3E_SLOT_TORN <-> obs_state o <> R3E_SLOT_ERASED /\ false = true)
    by (intros o Ho; split; [done|by intros [_ ?]]).
  rewrite <- Hm. destruct (negb _); [by apply (Hno (OBSERVATION _ _))|].
  destruct (r3e_validate_body _ _) as [ok rec]. by destruct (negb ok); apply (Hno (OBSERVATION _ _)).
Qed.

(** The peer of a slot whose record may be trusted. *)
Definition peer_admits (m : M) (s : slot) (r : record) : Prop :=
  erased m s \/ torn m s \/
  exists o, committed m s o /\ rec_identity r = rec_identity o /\
    rec_accepted_epoch r = rec_accepted_epoch o /\
    rec_record_generation r = rec_record_generation o + 1 /\
    rec_accepted_sequence o < rec_accepted_sequence r.


Lemma select_valid_spec m r s :
  rcv_selected (r3e_select (view m GUARDIAN_NODE_LINK_PERSISTENCE_SLOT_A)
                           (view m GUARDIAN_NODE_LINK_PERSISTENCE_SLOT_B)) = Some (r, s) <->
  committed m s r /\ peer_admits m (other_slot s) r.
Proof.
  unfold peer_admits. rewrite <- view_committed, <- view_erased, <- view_torn. split.
  - pose proof (select_selects (view m GUARDIAN_NODE_LINK_PERSISTENCE_SLOT_A)
      (view m GUARDIAN_NODE_LINK_PERSISTENCE_SLOT_B)) as Hsel.
    inversion Hsel as [st d res _ _ HR|s' r' d Hp Ho HR]; cbn [rcv_selected]; [discriminate|].
    intros Hs. injection Hs as -> ->. rewrite !pick_view in *. split; [exact Hp|].
    destruct Ho as [Ho|[Ho|[Ho Hadj]]]; [by auto..|]. right; right.
    pose proof (view_decoded m (other_slot s) Ho) as Hdo.
    pose proof (view_decoded m s) as Hdr. rewrite Hp in Hdr. specialize (Hdr eq_refl).
    apply (adjacent_spec _ _ Hdo Hdr) in Hadj.
    exists (obs_record (view m (other_slot s))). split; [|exact Hadj].
    by apply view_committed, obs_eta.
  - intros [Hv Hpeer].
    assert (Hone : forall o, obs_state o = R3E_SLOT_ERASED \/ obs_state o = R3E_SLOT_TORN ->
      rcv_selected (r3e_select_one (OBSERVATION R3E_SLOT_VALID r) o s) = Some (r, s)).
    { intros [st ro]. cbn [obs_state]. by intros [->| ->]. }
    assert (Hsel : forall o, obs_state o = R3E_SLOT_ERASED \/ obs_state o = R3E_SLOT_TORN ->
      r3e_select (OBSERVATION R3E_SLOT_VALID r) o
        = r3e_select_one (OBSERVATION R3E_SLOT_VALID r) o GUARDIAN_NODE_LINK_PERSISTENCE_SLOT_A /\
      r3e_select o (OBSERVATION R3E_SLOT_VALID r)
        = r3e_select_one (OBSERVATION R3E_SLOT_VALID r) o GUARDIAN_NODE_LINK_PERSISTENCE_SLOT_B).
    { intros [st ro]. cbn [obs_state]. by intros [->| ->]. }
    destruct Hpeer as [Hpeer|[Hpeer|(o & Ho & Hadj)]].
    1,2: assert (Hst : obs_state (view m (other_slot s)) = R3E_SLOT_ERASED \/
      obs_state (view m (other_slot s)) = R3E_SLOT_TORN) by auto;
      specialize (Hone _ Hst); apply Hsel in Hst as [Sa Sb];
      destruct s; cbn [other_slot] in *; rewrite Hv in *; [by rewrite Sa|by rewrite Sb].
    pose proof (view_decoded m s) as Hdr. rewrite Hv in Hdr. specialize (Hdr eq_refl).
    pose proof Ho as [Hdo _]. apply view_committed in Ho.
    pose proof (proj2 (adjacent_spec o r Hdo Hdr) Hadj) as Ha.
    assert (Hboth : forall x y, r3e_select (OBSERVATION R3E_SLOT_VALID x)
        (OBSERVATION R3E_SLOT_VALID y) = r3e_select_valid (OBSERVATION R3E_SLOT_VALID x)
        (OBSERVATION R3E_SLOT_VALID y)) by reflexivity.
    destruct Hadj as (_ & _ & Hg & _).
    destruct s; cbn [other_slot] in Ho; rewrite Hv, Ho, Hboth;
      unfold r3e_select_valid; cbn [obs_state obs_record].
    + rewrite (proj2 (Z.ltb_ge _ _)) by lia. rewrite (proj2 (Z.ltb_lt _ _)) by lia. by rewrite Ha.
    + rewrite (proj2 (Z.ltb_lt _ _)) by lia. by rewrite Ha.
Qed.
End recovery.

(** ** Properties *)

Section example.
(** A flash whose slot A holds a committed record and whose slot B is erased. *)
Definition example_flash : nor :=
  NOR (fun s i => match s with
       | GUARDIAN_NODE_LINK_PERSISTENCE_SLOT_A =>
           byte_at (slot_body (example_record 100 7) ++ commit_marker) i
       | GUARDIAN_NODE_LINK_PERSISTENCE_SLOT_B => 0xFF
       end) None.

Definition example_backend : backend nor :=
  BACKEND nor_read nor_erase nor_program GUARDIAN_NODE_LINK_PERSISTENCE_SLOT_A 0.

Lemma example_decoded sequence generation :
  sequence <> 0 -> is_u32 sequence -> is_u32 generation ->
  decoded (example_record sequence generation).
Proof.
  intros H Hs Hg. constructor.
  - by apply example_record_ok.
  - constructor; cbn [example_record rec_schema_version rec_identity rec_accepted_epoch
      rec_accepted_sequence rec_record_generation]; try assumption;
      first [by vm_compute | apply (bool_decide_eq_true_1 (bytes _)); reflexivity].
  - unfold normalized. cbn [example_record rec_identity rec_schema_version rec_accepted_epoch
      rec_accepted_sequence rec_record_generation]. reflexivity.
Qed.

Lemma example_previous_decoded : decoded (example_record 100 7).
Proof. apply example_decoded; unfold is_u32; lia. Qed.

Lemma example_candidate_decoded : decoded (example_record 105 8).
Proof. apply example_decoded; unfold is_u32; lia. Qed.

Lemma example_flash_committed :
  committed example_flash GUARDIAN_NODE_LINK_PERSISTENCE_SLOT_A (example_record 100 7).
Proof.
  split; [apply example_previous_decoded|].
  pose proof (slot_body_length _ (dec_valid _ example_previous_decoded)) as Hl.
  pose proof (slot_body_bytes _ (dec_object _ example_previous_decoded)) as Hb.
  change (content example_flash GUARDIAN_NODE_LINK_PERSISTENCE_SLOT_A)
    with (map (fun i => u8 (byte_at (slot_body (example_record 100 7) ++ commit_marker) i))
            (seq 0 448)).
  revert Hl Hb. generalize (slot_body (example_record 100 7)). intros body Hl Hb.
  rewrite take_ge by (rewrite length_map, length_seq; lia).
  apply (byte_at_ext _ _ 448); [by rewrite length_map, length_seq| |].
  { rewrite length_app, Hl. reflexivity. }
  intros i Hi. rewrite byte_at_map_seq by done. apply u8_id, byte_at_range, bytes_app_2; [exact Hb|].
  apply (bool_decide_eq_true_1 (bytes commit_marker)). reflexivity.
Qed.

Lemma example_flash_erased : erased example_flash GUARDIAN_NODE_LINK_PERSISTENCE_SLOT_B.
Proof. reflexivity. Qed.

Lemma example_flash_selects :
  rcv_selected (r3e_select (view example_flash GUARDIAN_NODE_LINK_PERSISTENCE_SLOT_A)
    (view example_flash GUARDIAN_NODE_LINK_PERSISTENCE_SLOT_B))
  = Some (example_record 100 7, GUARDIAN_NODE_LINK_PERSISTENCE_SLOT_A).
Proof. apply select_valid_spec. split; [apply example_flash_committed|left; apply example_flash_erased]. Qed.
End example.

Section transactions.
Context {M : Type} {read : guardian_node_link_persistence_media_read_fn M}.
Context {erase : guardian_node_link_persistence_media_erase_fn M}.
Context {program : guardian_node_link_persistence_media_program_fn M}.
Context {laws : MediaLaws read erase program}.

Local Abbreviation over := (@backend_over M read erase program).

(** The callbacks of [make_provider]. *)
Definition backend_write (s : backend M * M) (c : record) :=
  let '(result, b, m) :=
    guardian_node_link_freshness_physical_backend_write_candidate (Some s.1) (Some c) s.2 in
  (result, c, (default s.1 b, m)).

Definition backend_verify (s : backend M * M) (c : record) :=
  let '(result, m) :=
    guardian_node_link_freshness_physical_backend_verify_candidate (Some s.1) (Some c) s.2 in
  (result, c, (s.1, m)).

Definition backend_commit (s : backend M * M) (c : record) :=
  let '(result, b, m) :=
    guardian_node_link_freshness_physical_backend_commit_candidate (Some s.1) (Some c) s.2 in
  (result, c, (default s.1 b, m)).

Lemma make_provider_callbacks (b : backend M) :
  exists prov, guardian_node_link_freshness_physical_backend_make_provider (Some tt) (Some b)
    = (GUARDIAN_NODE_LINK_PERSISTENCE_OPERATION_OK, Some prov) /\
  provider_callbacks prov backend_write backend_verify backend_commit.
Proof. eexists. split; [reflexivity|]. split; [by eexists|]. by split. Qed.

(** The three stages on a healthy medium, from what recovery reported. *)
Lemma stages_run (b : backend M) (m : M) expected previous c t :
  over b -> healthy m -> decoded c -> continuation_ok expected previous c ->
  stages (r3e_select (view m GUARDIAN_NODE_LINK_PERSISTENCE_SLOT_A)
                     (view m GUARDIAN_NODE_LINK_PERSISTENCE_SLOT_B)) c t ->
  staging_slot m previous t ->
  exists bw mw m2 m3,
    (* staged *)
    backend_write (b, m) c = (GUARDIAN_NODE_LINK_PERSISTENCE_OPERATION_OK, c, (bw, mw)) /\
    over bw /\ healthy mw /\ staging_slot mw previous t /\
    view mw t = OBSERVATION R3E_SLOT_TORN zero_record /\
    (* verified and committed *)
    backend_verify (bw, mw) c = (GUARDIAN_NODE_LINK_PERSISTENCE_OPERATION_OK, c, (bw, m2)) /\
    backend_commit (bw, m2) c
      = (GUARDIAN_NODE_LINK_PERSISTENCE_OPERATION_OK, c, (set_pending b t 0, m3)) /\
    healthy m3 /\ staging_slot m3 previous t /\ view m3 t = OBSERVATION R3E_SLOT_VALID c.
Proof.
  intros Hb Hm Hd Hcont Hst Hprev.
  destruct (write_succeeds b c Hb Hd m t Hm Hst) as (mw & Hw & Hmw & How & Hcw).
  set (bw := set_pending b t 1). assert (Hbw : over bw) by exact Hb.
  destruct (verify_succeeds bw c Hbw Hd mw Hmw eq_refl Hcw) as (m2 & Hv & Hm2 & Hc2).
  assert (Hs2 : take 448 (content m2 t) = slot_body c ++ erased_marker) by (by rewrite Hc2).
  destruct (commit_succeeds bw c Hbw Hd m2 Hm2 eq_refl Hs2) as (m3 & Hc & Hm3 & Ho3 & Hv3).
  exists bw, mw, m2, m3. unfold backend_write, backend_verify, backend_commit. cbn [fst snd].
  rewrite Hw, Hv, Hc. split; [reflexivity|]. split; [exact Hbw|]. split; [exact Hmw|].
  split; [exact (staging_same m mw previous t How Hprev)|].
  split; [exact (slot_view_staged c (dec_valid c Hd) _ Hcw)|].
  split; [reflexivity|]. split; [reflexivity|]. split; [exact Hm3|]. split; [|exact Hv3].
  apply (staging_same m m3); [|exact Hprev].
  cbn [be_pending_slot bw set_pending] in Ho3. by rewrite Ho3, Hc2, How.
Qed.

Lemma select_empty x y :
  obs_state x = R3E_SLOT_ERASED -> obs_state y = R3E_SLOT_ERASED ->
  rcv_status (r3e_select x y) = GUARDIAN_NODE_LINK_PERSISTENCE_STATUS_NO_PERSISTED_STATE.
Proof. intros Hx Hy. unfold r3e_select. by rewrite Hx, Hy. Qed.

Lemma some_inj {A} (x y : A) : Some x = Some y -> x = y.
Proof. congruence. Qed.

Lemma recover_reports (b : backend M) m st rec d st' rec' d' m' res R :
  over b -> healthy m ->
  r3e_select (view m GUARDIAN_NODE_LINK_PERSISTENCE_SLOT_A)
             (view m GUARDIAN_NODE_LINK_PERSISTENCE_SLOT_B) = R ->
  guardian_node_link_freshness_physical_backend_recover (Some b) (Some st) (Some rec) (Some d) m
    = (res, Some st', Some rec', d', m') ->
  healthy m' /\ same_content m m' /\ rcv_result R = res /\ rcv_status R = st' /\
  rec' = match rcv_selected R with Some (r, _) => r | None => zero_record end.
Proof.
  intros Hb Hm HR H.
  destruct (recover_healthy b m st rec d R Hb Hm HR) as (m1 & H1 & Hc & Hh).
  rewrite H1 in H. clear H1 HR.
  apply pair_equal_spec in H as [H <-]. apply pair_equal_spec in H as [H _].
  apply pair_equal_spec in H as [H Hr]. apply pair_equal_spec in H as [Ho Hs].
  apply some_inj in Hs, Hr. split; [exact Hh|]. split; [exact Hc|]. split; [exact Ho|].
  split; [exact Hs|]. symmetry. exact Hr.
Qed.

Lemma recover_internal_spec (b : backend M) m st rec d res st' rec' d' m' :
  over b ->
  guardian_node_link_freshness_physical_backend_recover (Some b) (Some st) (Some rec) (Some d) m
    = (res, Some st', Some rec', d', m') ->
  same_content m m' /\ exists R, recovers m R /\ st' = rcv_status R /\
  rec' = match rcv_selected R with Some (r, _) => r | None => zero_record end.
Proof.
  intros Hb H. unfold guardian_node_link_freshness_physical_backend_recover in H.
  destruct (r3e_recover_internal _ _ _ _ _ m) as [[[[[op st2] cur] d2] sel] m1] eqn:Er.
  apply recover_spec in Er as (Hc & _ & R & HR & _ & -> & -> & _ & _); [|done].
  apply pair_equal_spec in H as [H <-]. apply pair_equal_spec in H as [H _].
  apply pair_equal_spec in H as [H Hr]. apply pair_equal_spec in H as [_ Hs].
  apply some_inj in Hs, Hr. split; [exact Hc|]. exists R. split; [exact HR|]. by split.
Qed.

Lemma recover_keeps (b : backend M) m st rec d res r d' m' :
  over b -> be_pending_valid b = 0 ->
  guardian_node_link_freshness_physical_backend_recover (Some b) (Some st) (Some rec) (Some d) m
    = (res, Some GUARDIAN_NODE_LINK_PERSISTENCE_STATUS_VALID_PERSISTED_STATE, Some r, d', m') ->
  keeps r (b, m').
Proof.
  intros Hb Hpv H. apply recover_internal_spec in H as (Hc & R & HR & Hst & Hr); [|exact Hb].
  apply recovers_selects in HR. pose proof (selects_status _ _ R HR) as [[Hsome _] _].
  destruct (Hsome (eq_sym Hst)) as [[r1 s] Hs]. rewrite Hs in Hr. subst r1.
  apply (selects_picked _ _ R r s HR) in Hs. rewrite pick_view in Hs.
  split; [exact Hb|]. exists s, r. cbn [fst snd].
  split; [by rewrite (same_content_view m m')|]. split; [by left|]. by rewrite Hpv.
Qed.

Lemma recover_after_keep (b : backend M) m st rec d res st' r' d' m' r t r1 :
  over b -> view m t = OBSERVATION R3E_SLOT_VALID r1 -> advances r r1 ->
  guardian_node_link_freshness_physical_backend_recover (Some b) (Some st) (Some rec) (Some d) m
    = (res, Some st', Some r', d', m') ->
  st' <> GUARDIAN_NODE_LINK_PERSISTENCE_STATUS_NO_PERSISTED_STATE /\
  (st' = GUARDIAN_NODE_LINK_PERSISTENCE_STATUS_VALID_PERSISTED_STATE -> advances r r').
Proof.
  intros Hb Hv Ha H. apply recover_internal_spec in H as (_ & R & HR & -> & ->); [|exact Hb].
  pose proof (selects_status _ _ R (recovers_selects m R HR)) as [[Hsome _] Hnone]. split.
  - intros Hn. destruct (Hnone Hn) as [Ea Eb]. destruct t; rewrite Hv in *; discriminate.
  - intros Hst. destruct (Hsome Hst) as [[r2 s] Hs].
    destruct (recovers_advances m R t r1 r2 s Hv HR Hs) as [Ha2 _]. rewrite Hs.
    exact (advances_trans r r1 r2 Ha Ha2).
Qed.

(** C27: A persisted record is never rolled back or forgotten.  Once recovery has
    reported a record, then after any sequence of loads, writes, verifications and
    commits of arbitrary candidates and any restarts, on a medium whose every
    operation may fail half-way and leave its slot in any state, recovery never
    reports an empty store, and a record it reports is that record or a later one
    of the same identity and epoch (higher sequence and generation). *)
Theorem backend_never_rolls_back (b0 : backend M) m0 st0 rec0 d0 res0 r d0' m0'
    b m st rec d res st' r' d' m' :
  over b0 -> be_pending_valid b0 = 0 ->
  guardian_node_link_freshness_physical_backend_recover (Some b0) (Some st0) (Some rec0) (Some d0)
    m0 = (res0, Some GUARDIAN_NODE_LINK_PERSISTENCE_STATUS_VALID_PERSISTED_STATE, Some r, d0', m0') ->
  rtc backend_step (b0, m0') (b, m) ->
  guardian_node_link_freshness_physical_backend_recover (Some b) (Some st) (Some rec) (Some d) m
    = (res, Some st', Some r', d', m') ->
  st' <> GUARDIAN_NODE_LINK_PERSISTENCE_STATUS_NO_PERSISTED_STATE /\
  (st' = GUARDIAN_NODE_LINK_PERSISTENCE_STATUS_VALID_PERSISTED_STATE -> advances r r').
Proof.
  intros Hb Hpv H0 Hsteps H.
  apply recover_keeps in H0; [|exact Hb|exact Hpv].
  apply (backend_steps_keep r _ _ Hsteps) in H0 as (Hb' & t & r1 & Hv & Ha & _).
  cbn [fst snd] in *. exact (recover_after_keep b m st rec d res st' r' d' m' r t r1 Hb' Hv Ha H).
Qed.

Lemma staging_previous_u32 (m : M) previous t : staging_slot m previous t -> generation_u32 previous.
Proof.
  intros H p ->. cbn [staging_slot] in H. pose proof (view_decoded m (other_slot t)) as Hd.
  rewrite H in Hd. exact (ro_generation _ (dec_object _ (Hd eq_refl))).
Qed.

Lemma transaction_runs (prov : guardian_node_link_freshness_persistence_provider_t (backend M * M))
    (b : backend M) (m : M) expected previous c o t :
  provider_callbacks prov backend_write backend_verify backend_commit ->
  over b -> healthy m -> decoded c -> continuation_ok expected previous c ->
  stages (r3e_select (view m GUARDIAN_NODE_LINK_PERSISTENCE_SLOT_A)
                     (view m GUARDIAN_NODE_LINK_PERSISTENCE_SLOT_B)) c t ->
  staging_slot m previous t ->
  exists m', guardian_node_link_freshness_persistence_transact_commit
    (Some prov) previous (Some expected) (Some c) (Some o) (b, m)
    = (GUARDIAN_NODE_LINK_PERSISTENCE_OPERATION_OK,
       Some GUARDIAN_NODE_LINK_PERSISTENCE_TRANSACTION_COMMITTED, (set_pending b t 0, m')) /\
  healthy m' /\
  r3e_select (view m' GUARDIAN_NODE_LINK_PERSISTENCE_SLOT_A)
             (view m' GUARDIAN_NODE_LINK_PERSISTENCE_SLOT_B)
  = RECOVERY GUARDIAN_NODE_LINK_PERSISTENCE_OPERATION_OK
      GUARDIAN_NODE_LINK_PERSISTENCE_STATUS_VALID_PERSISTED_STATE
      GUARDIAN_NODE_LINK_PERSISTENCE_RECOVERY_VALID (Some (c, t)).
Proof.
  intros Hprov Hb Hm Hd Hcont Hst Hprev.
  destruct (stages_run b m expected previous c t Hb Hm Hd Hcont Hst Hprev)
    as (bw & mw & m2 & m3 & Hw & _ & _ & _ & _ & Hv & Hc & Hm3 & Hp3 & Hv3).
  exists m3. split; [|split; [exact Hm3|exact (select_committed m3 expected previous c t Hd Hcont Hp3 Hv3)]].
  assert (Hk : forall (cb : backend M * M -> _ -> _) s s',
    cb s c = (GUARDIAN_NODE_LINK_PERSISTENCE_OPERATION_OK, c, s') ->
    stage_passes expected c cb s c s' c).
  { intros cb s s' H. split; [exact H|]. split; [reflexivity|apply Hcont]. }
  exact (transact_commit_commits prov backend_write backend_verify backend_commit expected previous c o
    (b, m) _ c _ c _ c Hprov (staging_previous_u32 m previous t Hprev)
    (ro_generation _ (dec_object c Hd)) Hcont (Hk _ _ _ Hw) (Hk _ _ _ Hv) (Hk _ _ _ Hc)).
Qed.

Lemma staged_recovers (b : backend M) (m : M) expected previous c t :
  over b -> healthy m -> decoded c -> continuation_ok expected previous c ->
  stages (r3e_select (view m GUARDIAN_NODE_LINK_PERSISTENCE_SLOT_A)
                     (view m GUARDIAN_NODE_LINK_PERSISTENCE_SLOT_B)) c t ->
  staging_slot m previous t ->
  exists bw mw, guardian_node_link_freshness_physical_backend_write_candidate (Some b) (Some c) m
    = (GUARDIAN_NODE_LINK_PERSISTENCE_OPERATION_OK, Some bw, mw) /\ over bw /\ healthy mw /\
  staging_slot mw previous t /\ view mw t = OBSERVATION R3E_SLOT_TORN zero_record.
Proof.
  intros Hb Hm Hd Hcont Hst Hprev.
  destruct (write_succeeds b c Hb Hd m t Hm Hst) as (mw & Hw & Hmw & How & Hcw).
  exists (set_pending b t 1), mw. split; [exact Hw|]. split; [exact Hb|]. split; [exact Hmw|].
  split; [exact (staging_same m mw previous t How Hprev)|].
  rewrite view_slot. exact (slot_view_staged c (dec_valid c Hd) _ Hcw).
Qed.

(** On a healthy medium a commit takes effect, all or nothing.  When recovery
    has reported the previous record (or the empty store) and the candidate
    continues it, the transaction through the backend's provider answers
    COMMITTED and recovery then reports exactly the candidate; and if the device
    restarts after the candidate was staged and before the commit marker, recovery
    still reports the previous record, with a torn peer (or, with no previous
    record, an incomplete update and no record). *)
Theorem backend_commit_recovers (b : backend M) m expected previous c o st rec d st' rec' d' m1 :
  over b -> healthy m -> decoded c -> continuation_ok expected previous c ->
  guardian_node_link_freshness_physical_backend_recover (Some b) (Some st) (Some rec) (Some d) m
    = (GUARDIAN_NODE_LINK_PERSISTENCE_OPERATION_OK, Some st', Some rec', d', m1) ->
  holds previous st' rec' ->
  exists prov, guardian_node_link_freshness_physical_backend_make_provider (Some tt) (Some b)
    = (GUARDIAN_NODE_LINK_PERSISTENCE_OPERATION_OK, Some prov) /\
  (exists b2 m2 m3, guardian_node_link_freshness_persistence_transact_commit
      (Some prov) previous (Some expected) (Some c) (Some o) (b, m1)
    = (GUARDIAN_NODE_LINK_PERSISTENCE_OPERATION_OK,
       Some GUARDIAN_NODE_LINK_PERSISTENCE_TRANSACTION_COMMITTED, (b2, m2)) /\
    guardian_node_link_freshness_physical_backend_recover (Some b2) (Some st) (Some rec) (Some d) m2
    = (GUARDIAN_NODE_LINK_PERSISTENCE_OPERATION_OK,
       Some GUARDIAN_NODE_LINK_PERSISTENCE_STATUS_VALID_PERSISTED_STATE, Some c,
       Some GUARDIAN_NODE_LINK_PERSISTENCE_RECOVERY_VALID, m3)) /\
  (exists b2 m2 m3, guardian_node_link_freshness_physical_backend_write_candidate (Some b) (Some c) m1
    = (GUARDIAN_NODE_LINK_PERSISTENCE_OPERATION_OK, Some b2, m2) /\
    guardian_node_link_freshness_physical_backend_recover (Some b2) (Some st) (Some rec) (Some d) m2
    = (GUARDIAN_NODE_LINK_PERSISTENCE_OPERATION_OK,
       Some (if previous is Some _ then GUARDIAN_NODE_LINK_PERSISTENCE_STATUS_VALID_PERSISTED_STATE
             else GUARDIAN_NODE_LINK_PERSISTENCE_STATUS_TORN_OR_INCOMPLETE_UPDATE),
       Some (default zero_record previous),
       Some (if previous is Some _
             then GUARDIAN_NODE_LINK_PERSISTENCE_RECOVERY_VALID_WITH_TORN_PEER
             else GUARDIAN_NODE_LINK_PERSISTENCE_RECOVERY_TORN_ONLY), m3)).
Proof.
  intros Hb Hm Hd Hcont H Hh.
  eapply recover_reports in H as (Hm1 & Hc1 & Hok & Hst & Hrec); [|exact Hb|exact Hm|reflexivity].
  rewrite <- !(same_content_view m m1) in Hok, Hst, Hrec by exact Hc1.
  destruct (continuation_stages m1 expected previous c st' rec' Hd Hcont Hok Hst Hrec Hh)
    as (t & Hstg & Hprev).
  destruct (make_provider_callbacks b) as (prov & Hmk & Hcb). exists prov. split; [exact Hmk|]. split.
  - destruct (transaction_runs prov b m1 expected previous c o t Hcb Hb Hm1 Hd Hcont Hstg Hprev)
      as (m2 & Ht & Hm2 & Hsel).
    destruct (recover_healthy (set_pending b t 0) m2 st rec d _ Hb Hm2 Hsel) as (m3 & Hr & _).
    exists (set_pending b t 0), m2, m3. by split.
  - destruct (staged_recovers b m1 expected previous c t Hb Hm1 Hd Hcont Hstg Hprev)
      as (bw & mw & Hw & Hbw & Hmw & Hpw & Hvw).
    destruct (recover_healthy bw mw st rec d _ Hbw Hmw (select_staged mw previous t Hpw Hvw))
      as (m3 & Hr & _).
    exists bw, mw, m3. split; [exact Hw|]. rewrite Hr. by destruct previous.
Qed.

(** Recovery decides.  On a healthy medium [recover] leaves both slots as they
    are and reports a record exactly when some slot holds its committed image
    (header, digests, record and commit marker) and the other slot is erased, was
    staged and not committed, or holds the committed predecessor of the record;
    it reports an empty store exactly when both slots are erased. *)
Theorem recovery_exact (b : backend M) m st rec d res st' r d' m' :
  over b -> healthy m ->
  guardian_node_link_freshness_physical_backend_recover (Some b) (Some st) (Some rec) (Some d) m
    = (res, Some st', Some r, d', m') ->
  same_content m m' /\
  (st' = GUARDIAN_NODE_LINK_PERSISTENCE_STATUS_VALID_PERSISTED_STATE <->
   exists s r', committed m s r' /\ peer_admits m (other_slot s) r') /\
  (st' = GUARDIAN_NODE_LINK_PERSISTENCE_STATUS_VALID_PERSISTED_STATE ->
   exists s, committed m s r /\ peer_admits m (other_slot s) r) /\
  (st' = GUARDIAN_NODE_LINK_PERSISTENCE_STATUS_NO_PERSISTED_STATE <->
   forall s, erased m s).
Proof.
  intros Hb Hm H.
  eapply recover_reports in H as (Hm1 & Hc1 & _ & Hst & Hrec); [|exact Hb|exact Hm|reflexivity].
  pose proof (selects_status _ _ _ (recovers_selects m _ (recovers_views m))) as [[Hs1 Hs2] Hnone].
  pose proof (select_valid_spec m) as Hsel. rewrite Hst in *.
  split; [exact Hc1|]. split; [|split].
  - split.
    + intros Hv. destruct (Hs1 Hv) as [[r' s] Hx]. apply Hsel in Hx. by exists s, r'.
    + intros (s & r' & Hx). apply Hs2. apply Hsel in Hx. by eexists.
  - intros Hv. destruct (Hs1 Hv) as [[r' s] Hx]. pose proof Hx as Hx2. apply Hsel in Hx2.
    rewrite Hx in Hrec. subst r. by exists s.
  - split.
    + intros Hn s. apply view_erased. destruct (Hnone Hn) as [Ea Eb].
      destruct s; [exact Ea|exact Eb].
    + intros He. rewrite <- Hst. apply select_empty; apply view_erased, He.
Qed.
End transactions.

(** ** Witnesses *)

(** On any healthy medium whose slot A holds a committed record and whose slot B
    is erased: recovery reports the record; a candidate is staged, the device
    restarts, and recovery still finds the previous record. *)
Section examples.
Context {M : Type} {read : guardian_node_link_persistence_media_read_fn M}
  {erase : guardian_node_link_persistence_media_erase_fn M}
  {program : guardian_node_link_persistence_media_program_fn M}
  {laws : MediaLaws read erase program}.
Context (b : backend M) (m : M)
  (Hb : backend_over (read := read) (erase := erase) (program := program) b) (Hm : healthy m)
  (Ha : committed m GUARDIAN_NODE_LINK_PERSISTENCE_SLOT_A (example_record 100 7))
  (He : erased m GUARDIAN_NODE_LINK_PERSISTENCE_SLOT_B).

Definition example_recover (b : backend M) (m : M) :=
  guardian_node_link_freshness_physical_backend_recover (Some b)
    (Some GUARDIAN_NODE_LINK_PERSISTENCE_STATUS_INVALID) (Some zero_record)
    (Some GUARDIAN_NODE_LINK_PERSISTENCE_RECOVERY_INVALID) m.

Lemma recovers_example :
  exists m', example_recover b m
  = (GUARDIAN_NODE_LINK_PERSISTENCE_OPERATION_OK,
     Some GUARDIAN_NODE_LINK_PERSISTENCE_STATUS_VALID_PERSISTED_STATE, Some (example_record 100 7),
     Some GUARDIAN_NODE_LINK_PERSISTENCE_RECOVERY_VALID, m') /\ healthy m'.
Proof using Hb Hm Ha He.
  apply view_committed in Ha. apply slot_view_erased in He. rewrite <- view_slot in He.
  destruct (recover_healthy b m
    GUARDIAN_NODE_LINK_PERSISTENCE_STATUS_INVALID zero_record
    GUARDIAN_NODE_LINK_PERSISTENCE_RECOVERY_INVALID
    (RECOVERY GUARDIAN_NODE_LINK_PERSISTENCE_OPERATION_OK
      GUARDIAN_NODE_LINK_PERSISTENCE_STATUS_VALID_PERSISTED_STATE
      GUARDIAN_NODE_LINK_PERSISTENCE_RECOVERY_VALID
      (Some (example_record 100 7, GUARDIAN_NODE_LINK_PERSISTENCE_SLOT_A))))
    as (m' & Hr & _ & Hm'); [exact Hb|exact Hm|by rewrite Ha, He|].
  exists m'. split; [exact Hr|exact Hm'].
Qed.

Lemma torn_run_example : exists m' b2 m2 d m3,
  example_recover b m
  = (GUARDIAN_NODE_LINK_PERSISTENCE_OPERATION_OK,
     Some GUARDIAN_NODE_LINK_PERSISTENCE_STATUS_VALID_PERSISTED_STATE, Some (example_record 100 7),
     Some GUARDIAN_NODE_LINK_PERSISTENCE_RECOVERY_VALID, m') /\
  guardian_node_link_freshness_physical_backend_write_candidate (Some b)
    (Some (example_record 105 8)) m' = (GUARDIAN_NODE_LINK_PERSISTENCE_OPERATION_OK, Some b2, m2) /\
  example_recover (set_pending b2 GUARDIAN_NODE_LINK_PERSISTENCE_SLOT_A 0) m2
  = (GUARDIAN_NODE_LINK_PERSISTENCE_OPERATION_OK,
     Some GUARDIAN_NODE_LINK_PERSISTENCE_STATUS_VALID_PERSISTED_STATE, Some (example_record 100 7),
     d, m3).
Proof using Hb Hm Ha He.
  destruct recovers_example as (m' & Hr & Hm'). pose proof Hr as H.
  eapply recover_reports in H as (_ & Hc1 & Hok & Hst & Hrec);
    [|exact Hb|exact Hm|reflexivity].
  rewrite <- !(same_content_view m m') in Hok, Hst, Hrec by exact Hc1.
  destruct (continuation_stages m' example_identity (Some (example_record 100 7))
    (example_record 105 8) _ _ example_candidate_decoded example_continuation Hok Hst Hrec
    (conj eq_refl eq_refl)) as (t & Hstg & Hprev).
  destruct (staged_recovers b m' example_identity (Some (example_record 100 7))
    (example_record 105 8) t Hb Hm' example_candidate_decoded example_continuation
    Hstg Hprev) as (bw & mw & Hw & Hbw & Hmw & Hpw & Hvw).
  destruct (recover_healthy
    (set_pending bw GUARDIAN_NODE_LINK_PERSISTENCE_SLOT_A 0) mw GUARDIAN_NODE_LINK_PERSISTENCE_STATUS_INVALID zero_record
    GUARDIAN_NODE_LINK_PERSISTENCE_RECOVERY_INVALID _ Hbw Hmw (select_staged mw _ t Hpw Hvw))
    as (m3 & Hr3 & _).
  do 5 eexists. split; [exact Hr|]. split; [exact Hw|exact Hr3].
Qed.
End examples.

Section witness.
Local Abbreviation example_over := (@backend_over nor nor_read nor_erase nor_program).

Lemma example_backend_over : example_over example_backend.
Proof. repeat split. Qed.

Lemma example_recovers :
  exists m', example_recover example_backend example_flash
  = (GUARDIAN_NODE_LINK_PERSISTENCE_OPERATION_OK,
     Some GUARDIAN_NODE_LINK_PERSISTENCE_STATUS_VALID_PERSISTED_STATE, Some (example_record 100 7),
     Some GUARDIAN_NODE_LINK_PERSISTENCE_RECOVERY_VALID, m') /\ nor_power m' = None.
Proof.
  exact (recovers_example (laws := nor_laws) example_backend example_flash example_backend_over eq_refl
    example_flash_committed example_flash_erased).
Qed.

Lemma backend_commit_recovers_witness : exists m1 prov,
  guardian_node_link_freshness_physical_backend_make_provider (Some tt) (Some example_backend)
    = (GUARDIAN_NODE_LINK_PERSISTENCE_OPERATION_OK, Some prov) /\
  exists b2 m2, guardian_node_link_freshness_persistence_transact_commit
      (Some prov) (Some (example_record 100 7)) (Some example_identity) (Some (example_record 105 8))
      (Some GUARDIAN_NODE_LINK_PERSISTENCE_TRANSACTION_INVALID) (example_backend, m1)
    = (GUARDIAN_NODE_LINK_PERSISTENCE_OPERATION_OK,
       Some GUARDIAN_NODE_LINK_PERSISTENCE_TRANSACTION_COMMITTED, (b2, m2)).
Proof.
  destruct example_recovers as (m1 & Hr & _). unfold example_recover in Hr.
  destruct (backend_commit_recovers (laws := nor_laws) example_backend example_flash
    example_identity (Some (example_record 100 7)) (example_record 105 8)
    GUARDIAN_NODE_LINK_PERSISTENCE_TRANSACTION_INVALID _ _ _ _ _ _ m1 example_backend_over eq_refl
    example_candidate_decoded example_continuation Hr (conj eq_refl eq_refl))
    as (prov & Hmk & (b2 & m2 & m3 & Ht & _) & _).
  exists m1, prov. split; [exact Hmk|]. exists b2, m2. exact Ht.
Defined.

Lemma recovery_exact_witness : exists m',
  guardian_node_link_freshness_physical_backend_recover (Some example_backend)
    (Some GUARDIAN_NODE_LINK_PERSISTENCE_STATUS_INVALID) (Some zero_record)
    (Some GUARDIAN_NODE_LINK_PERSISTENCE_RECOVERY_INVALID) example_flash
  = (GUARDIAN_NODE_LINK_PERSISTENCE_OPERATION_OK,
     Some GUARDIAN_NODE_LINK_PERSISTENCE_STATUS_VALID_PERSISTED_STATE, Some (example_record 100 7),
     Some GUARDIAN_NODE_LINK_PERSISTENCE_RECOVERY_VALID, m') /\
  same_content example_flash m' /\
  exists s, committed example_flash s (example_record 100 7).
Proof.
  destruct example_recovers as (m' & Hr & _). unfold example_recover in Hr. exists m'. split; [exact Hr|].
  destruct (recovery_exact (laws := nor_laws) example_backend example_flash _ _ _ _ _ _ _ m'
    example_backend_over eq_refl Hr) as (Hc & _ & Hs & _).
  split; [exact Hc|]. destruct (Hs eq_refl) as (s & H & _). exists s. exact H.
Defined.

Lemma backend_never_rolls_back_witness : exists m' b2 m2,
  guardian_node_link_freshness_physical_backend_write_candidate (Some example_backend)
    (Some (example_record 105 8)) m' = (GUARDIAN_NODE_LINK_PERSISTENCE_OPERATION_OK, Some b2, m2) /\
  advances (example_record 100 7) (example_record 100 7).
Proof.
  destruct (torn_run_example (laws := nor_laws) example_backend example_flash example_backend_over eq_refl
    example_flash_committed example_flash_erased) as (m' & b2 & m2 & d & m3 & H0 & Hw & H3). unfold example_recover in H0, H3.
  exists m', b2, m2. split; [exact Hw|].
  refine (proj2 (backend_never_rolls_back (laws := nor_laws) example_backend example_flash
    _ _ _ _ _ _ m' (set_pending b2 GUARDIAN_NODE_LINK_PERSISTENCE_SLOT_A 0) m2 _ _ _ _ _ _ d m3
    example_backend_over eq_refl H0 _ H3) eq_refl).
  eapply rtc_l; [exact (step_write _ _ _ _ _ _ Hw)|].
  eapply rtc_l; [exact (step_restart _ _ m2 (fun s => eq_refl))|apply rtc_refl].
Defined.
End witness.
