(* ===== verification/RollbackAnchor.v ===== *)
(** * The rollback anchor contract

    Model of [firmware/NodeLink/Src/guardian_node_link_rollback_anchor.c]: the
    commitment to a persisted record, the comparison of a record with the anchor,
    and the checked calls of an anchor provider.  The provider (a monotone counter
    in hardware outside the repository) is the record of callbacks of the source
    over a state [S]. *)

From S2P Require Import Prelude Crypto CString NodeLink NodeLinkAuth NodeLinkSemantic.
From S2P Require Import Freshness Persistence Codec.

Local Abbreviation record := guardian_node_link_freshness_persisted_record_t.
Local Abbreviation identity_t := guardian_node_link_freshness_identity_t.

(** ** Constants and data *)

Definition GUARDIAN_NODE_LINK_ROLLBACK_ANCHOR_COMMITMENT_SIZE : nat := 32.
Definition GUARDIAN_NODE_LINK_ROLLBACK_ANCHOR_DOMAIN_SIZE : nat := 33.
Definition GUARDIAN_NODE_LINK_ROLLBACK_ANCHOR_MATERIAL_LENGTH : nat := 332.
Definition GUARDIAN_NODE_LINK_ROLLBACK_ANCHOR_PREIMAGE_SIZE : nat := 369.

(** "GUARDIAN-R3D-ANCHOR-COMMITMENT-V1" *)
Definition guardian_r3d_anchor_domain : list Z :=
  [71; 85; 65; 82; 68; 73; 65; 78; 45; 82; 51; 68; 45; 65; 78; 67; 72;
   79; 82; 45; 67; 79; 77; 77; 73; 84; 77; 69; 78; 84; 45; 86; 49].

Record guardian_node_link_rollback_anchor_commitment_t := COMMITMENT {
  commitment_bytes : list Z
}.

Inductive guardian_node_link_rollback_anchor_status_t :=
  | GUARDIAN_NODE_LINK_ROLLBACK_ANCHOR_STATUS_INVALID
  | GUARDIAN_NODE_LINK_ROLLBACK_ANCHOR_STATUS_UNPROVISIONED
  | GUARDIAN_NODE_LINK_ROLLBACK_ANCHOR_STATUS_INDETERMINATE
  | GUARDIAN_NODE_LINK_ROLLBACK_ANCHOR_STATUS_VALID
  | GUARDIAN_NODE_LINK_ROLLBACK_ANCHOR_STATUS_UNAVAILABLE
  | GUARDIAN_NODE_LINK_ROLLBACK_ANCHOR_STATUS_CORRUPT
  | GUARDIAN_NODE_LINK_ROLLBACK_ANCHOR_STATUS_EXHAUSTED
  | GUARDIAN_NODE_LINK_ROLLBACK_ANCHOR_STATUS_IDENTITY_MISMATCH
  | GUARDIAN_NODE_LINK_ROLLBACK_ANCHOR_STATUS_STATE_MISMATCH
  | GUARDIAN_NODE_LINK_ROLLBACK_ANCHOR_STATUS_ROLLBACK_SUSPECTED
  | GUARDIAN_NODE_LINK_ROLLBACK_ANCHOR_STATUS_OTHER (v : Z).

Inductive guardian_node_link_rollback_anchor_provider_result_t :=
  | GUARDIAN_NODE_LINK_ROLLBACK_ANCHOR_PROVIDER_INVALID
  | GUARDIAN_NODE_LINK_ROLLBACK_ANCHOR_PROVIDER_OK
  | GUARDIAN_NODE_LINK_ROLLBACK_ANCHOR_PROVIDER_INVALID_ARGUMENT
  | GUARDIAN_NODE_LINK_ROLLBACK_ANCHOR_PROVIDER_UNAVAILABLE
  | GUARDIAN_NODE_LINK_ROLLBACK_ANCHOR_PROVIDER_IO_ERROR
  | GUARDIAN_NODE_LINK_ROLLBACK_ANCHOR_PROVIDER_INTEGRITY_ERROR
  | GUARDIAN_NODE_LINK_ROLLBACK_ANCHOR_PROVIDER_CONFLICT
  | GUARDIAN_NODE_LINK_ROLLBACK_ANCHOR_PROVIDER_EXHAUSTED
  | GUARDIAN_NODE_LINK_ROLLBACK_ANCHOR_PROVIDER_UNSUPPORTED
  | GUARDIAN_NODE_LINK_ROLLBACK_ANCHOR_PROVIDER_OTHER (v : Z).

Inductive guardian_node_link_rollback_anchor_compare_t :=
  | GUARDIAN_NODE_LINK_ROLLBACK_ANCHOR_COMPARE_INVALID
  | GUARDIAN_NODE_LINK_ROLLBACK_ANCHOR_COMPARE_MATCH
  | GUARDIAN_NODE_LINK_ROLLBACK_ANCHOR_COMPARE_BEHIND
  | GUARDIAN_NODE_LINK_ROLLBACK_ANCHOR_COMPARE_AHEAD
  | GUARDIAN_NODE_LINK_ROLLBACK_ANCHOR_COMPARE_STATE_MISMATCH
  | GUARDIAN_NODE_LINK_ROLLBACK_ANCHOR_COMPARE_IDENTITY_MISMATCH.

#[global] Instance anchor_commitment_eq_dec :
  EqDecision guardian_node_link_rollback_anchor_commitment_t.
Proof. solve_decision. Defined.
#[global] Instance anchor_status_eq_dec : EqDecision guardian_node_link_rollback_anchor_status_t.
Proof. solve_decision. Defined.
#[global] Instance anchor_provider_result_eq_dec :
  EqDecision guardian_node_link_rollback_anchor_provider_result_t.
Proof. solve_decision. Defined.
#[global] Instance anchor_compare_eq_dec : EqDecision guardian_node_link_rollback_anchor_compare_t.
Proof. solve_decision. Defined.

Record guardian_node_link_rollback_anchor_record_t := ANCHOR {
  anchor_identity : identity_t;
  anchor_generation : Z;
  anchor_commitment : guardian_node_link_rollback_anchor_commitment_t
}.

Local Abbreviation anchor_t := guardian_node_link_rollback_anchor_record_t.
Local Abbreviation status_t := guardian_node_link_rollback_anchor_status_t.
Local Abbreviation result_t := guardian_node_link_rollback_anchor_provider_result_t.
Local Abbreviation compare_t := guardian_node_link_rollback_anchor_compare_t.
Local Abbreviation commitment_t := guardian_node_link_rollback_anchor_commitment_t.

(** The callbacks, with NULL pointers; an output parameter is passed with its
    current value. *)
Definition guardian_node_link_rollback_anchor_status_fn (S : Type) : Type :=
  S -> identity_t -> status_t -> result_t * status_t * S.
Definition guardian_node_link_rollback_anchor_read_fn (S : Type) : Type :=
  S -> identity_t -> anchor_t -> status_t -> result_t * anchor_t * status_t * S.
Definition guardian_node_link_rollback_anchor_advance_fn (S : Type) : Type :=
  S -> identity_t -> Z -> Z -> commitment_t -> result_t * S.

Record guardian_node_link_rollback_anchor_provider_t (S : Type) := ANCHOR_PROVIDER {
  anchor_prov_status : option (guardian_node_link_rollback_anchor_status_fn S);
  anchor_prov_read : option (guardian_node_link_rollback_anchor_read_fn S);
  anchor_prov_advance : option (guardian_node_link_rollback_anchor_advance_fn S)
}.

Arguments ANCHOR_PROVIDER {S}.
Arguments anchor_prov_status {S}.
Arguments anchor_prov_read {S}.
Arguments anchor_prov_advance {S}.

Definition zero_commitment : commitment_t :=
  COMMITMENT (replicate GUARDIAN_NODE_LINK_ROLLBACK_ANCHOR_COMMITMENT_SIZE 0).

Definition zero_anchor : anchor_t := ANCHOR zero_identity 0 zero_commitment.

(** ** Operations *)

Definition guardian_node_link_rollback_anchor_identity_equal (left right : option identity_t)
  : bool :=
  match left, right with
  | Some l, Some r =>
      early negb (fi_sender_node_id l =? fi_sender_node_id r)
            || negb (fi_producer_id l =? fi_producer_id r)
            || negb (fi_key_id l =? fi_key_id r)
            || negb (fi_signature_algorithm l =? fi_signature_algorithm r)
        with false ;;
      early negb (strncmp_eq (fi_producer_semantic_profile_id l)
                    (fi_producer_semantic_profile_id r)
                    GUARDIAN_NODE_LINK_SEMANTIC_REF_CAPACITY) with false ;;
      early negb (strncmp_eq (fi_consumer_semantic_profile_id l)
                    (fi_consumer_semantic_profile_id r)
                    GUARDIAN_NODE_LINK_SEMANTIC_REF_CAPACITY) with false ;;
      early negb (strncmp_eq (fi_compatibility_contract_id l) (fi_compatibility_contract_id r)
                    GUARDIAN_NODE_LINK_SEMANTIC_REF_CAPACITY) with false ;;
      true
  | _, _ => false
  end.

(** The result and [*commitment]. *)
Definition guardian_node_link_rollback_anchor_commitment_from_record (rec : option record)
    (commitment : option commitment_t) : result_t * option commitment_t :=
  let commitment := match commitment with None => None | Some _ => Some zero_commitment end in
  let invalid := GUARDIAN_NODE_LINK_ROLLBACK_ANCHOR_PROVIDER_INVALID_ARGUMENT in
  early is_null rec || is_null commitment with (invalid, commitment) ;;
  let serialized := replicate CODEC_SERIALIZED_SIZE 0 in
  let preimage := replicate GUARDIAN_NODE_LINK_ROLLBACK_ANCHOR_PREIMAGE_SIZE 0 in
  let '(codec_result, serialized, serialized_written) :=
    guardian_node_link_freshness_persistence_encode rec (Some serialized) CODEC_SERIALIZED_SIZE
      (Some 0%nat) in
  early negb (bool_decide (codec_result = GUARDIAN_NODE_LINK_PERSISTENCE_CODEC_OK))
        || negb (bool_decide (serialized_written = Some CODEC_SERIALIZED_SIZE))
    with (invalid, commitment) ;;
  let serialized := default [] serialized in
  let d := GUARDIAN_NODE_LINK_ROLLBACK_ANCHOR_DOMAIN_SIZE in
  let preimage := blit preimage 0 (take d guardian_r3d_anchor_domain) in
  let preimage := blit preimage (d + 0) [0x00] in
  let preimage := blit preimage (d + 1) [0x00] in
  let preimage := blit preimage (d + 2) [0x01] in
  let preimage := blit preimage (d + 3) [0x4C] in
  let preimage := blit preimage (d + 4)
                    (take GUARDIAN_NODE_LINK_ROLLBACK_ANCHOR_MATERIAL_LENGTH serialized) in
  (GUARDIAN_NODE_LINK_ROLLBACK_ANCHOR_PROVIDER_OK,
   Some (COMMITMENT (sha256_digest preimage GUARDIAN_NODE_LINK_ROLLBACK_ANCHOR_PREIMAGE_SIZE))).

(** The result and [*comparison]. *)
Definition guardian_node_link_rollback_anchor_compare (anchor : option anchor_t)
    (candidate : option record) (comparison : option compare_t) : result_t * option compare_t :=
  let ok := GUARDIAN_NODE_LINK_ROLLBACK_ANCHOR_PROVIDER_OK in
  match comparison with
  | None => (GUARDIAN_NODE_LINK_ROLLBACK_ANCHOR_PROVIDER_INVALID_ARGUMENT, None)
  | Some _ =>
      let comparison := Some GUARDIAN_NODE_LINK_ROLLBACK_ANCHOR_COMPARE_INVALID in
      match anchor, candidate with
      | Some a, Some c =>
          let '(result, candidate_commitment) :=
            guardian_node_link_rollback_anchor_commitment_from_record candidate
              (Some zero_commitment) in
          early negb (bool_decide (result = ok)) with (result, comparison) ;;
          early negb (guardian_node_link_rollback_anchor_identity_equal
                        (Some (anchor_identity a)) (Some (rec_identity c)))
            with (ok, Some GUARDIAN_NODE_LINK_ROLLBACK_ANCHOR_COMPARE_IDENTITY_MISMATCH) ;;
          early rec_record_generation c <? anchor_generation a
            with (ok, Some GUARDIAN_NODE_LINK_ROLLBACK_ANCHOR_COMPARE_BEHIND) ;;
          early anchor_generation a <? rec_record_generation c
            with (ok, Some GUARDIAN_NODE_LINK_ROLLBACK_ANCHOR_COMPARE_AHEAD) ;;
          early negb (guardian_crypto_constant_time_equal
                        (Some (commitment_bytes (default zero_commitment candidate_commitment)))
                        (Some (commitment_bytes (anchor_commitment a)))
                        GUARDIAN_NODE_LINK_ROLLBACK_ANCHOR_COMMITMENT_SIZE)
            with (ok, Some GUARDIAN_NODE_LINK_ROLLBACK_ANCHOR_COMPARE_STATE_MISMATCH) ;;
          (ok, Some GUARDIAN_NODE_LINK_ROLLBACK_ANCHOR_COMPARE_MATCH)
      | _, _ => (GUARDIAN_NODE_LINK_ROLLBACK_ANCHOR_PROVIDER_INVALID_ARGUMENT, comparison)
      end
  end.

Definition guardian_node_link_rollback_anchor_next_generation (current_generation : Z)
    (next_generation : option Z) : result_t * option Z :=
  match next_generation with
  | None => (GUARDIAN_NODE_LINK_ROLLBACK_ANCHOR_PROVIDER_INVALID_ARGUMENT, None)
  | Some _ =>
      early UINT32_MAX - 1 <=? current_generation
        with (GUARDIAN_NODE_LINK_ROLLBACK_ANCHOR_PROVIDER_EXHAUSTED, Some 0) ;;
      (GUARDIAN_NODE_LINK_ROLLBACK_ANCHOR_PROVIDER_OK, Some (u32 (current_generation + 1)))
  end.

Section calls.
Context {S : Type}.

Definition guardian_node_link_rollback_anchor_status
    (provider : option (guardian_node_link_rollback_anchor_provider_t S))
    (identity : option identity_t) (status : option status_t) (s : S)
  : result_t * option status_t * S :=
  let status :=
    match status with
    | None => None | Some _ => Some GUARDIAN_NODE_LINK_ROLLBACK_ANCHOR_STATUS_INVALID
    end in
  match provider, identity, status with
  | Some p, Some i, Some st =>
      match anchor_prov_status p with
      | Some status_fn => let '(result, st, s) := status_fn s i st in (result, Some st, s)
      | None => (GUARDIAN_NODE_LINK_ROLLBACK_ANCHOR_PROVIDER_INVALID_ARGUMENT, status, s)
      end
  | _, _, _ => (GUARDIAN_NODE_LINK_ROLLBACK_ANCHOR_PROVIDER_INVALID_ARGUMENT, status, s)
  end.

Definition guardian_node_link_rollback_anchor_read
    (provider : option (guardian_node_link_rollback_anchor_provider_t S))
    (identity : option identity_t) (rec : option anchor_t) (status : option status_t) (s : S)
  : result_t * option anchor_t * option status_t * S :=
  let rec := match rec with None => None | Some _ => Some zero_anchor end in
  let status :=
    match status with
    | None => None | Some _ => Some GUARDIAN_NODE_LINK_ROLLBACK_ANCHOR_STATUS_INVALID
    end in
  match provider, identity, rec, status with
  | Some p, Some i, Some r, Some st =>
      match anchor_prov_read p with
      | Some read_fn =>
          let '(result, r, st, s) := read_fn s i r st in (result, Some r, Some st, s)
      | None => (GUARDIAN_NODE_LINK_ROLLBACK_ANCHOR_PROVIDER_INVALID_ARGUMENT, rec, status, s)
      end
  | _, _, _, _ => (GUARDIAN_NODE_LINK_ROLLBACK_ANCHOR_PROVIDER_INVALID_ARGUMENT, rec, status, s)
  end.

Definition guardian_node_link_rollback_anchor_advance
    (provider : option (guardian_node_link_rollback_anchor_provider_t S))
    (identity : option identity_t) (expected_generation next_generation : Z)
    (next_commitment : option commitment_t) (s : S) : result_t * S :=
  let invalid := GUARDIAN_NODE_LINK_ROLLBACK_ANCHOR_PROVIDER_INVALID_ARGUMENT in
  match provider, identity, next_commitment with
  | Some p, Some i, Some commitment =>
      match anchor_prov_advance p with
      | Some advance_fn =>
          let '(result, governed_next_generation) :=
            guardian_node_link_rollback_anchor_next_generation expected_generation (Some 0) in
          early negb (bool_decide (result = GUARDIAN_NODE_LINK_ROLLBACK_ANCHOR_PROVIDER_OK))
            with (result, s) ;;
          early negb (bool_decide (Some next_generation = governed_next_generation))
            with (invalid, s) ;;
          advance_fn s i expected_generation next_generation commitment
      | None => (invalid, s)
      end
  | _, _, _ => (invalid, s)
  end.
End calls.

(** ** The commitment *)

(** What is hashed: the domain, the length 332 and the encoded record without its
    own digest. *)
Definition anchor_preimage (r : record) : list Z :=
  guardian_r3d_anchor_domain ++ put_u32_be (Z.of_nat CODEC_INTEGRITY_OFFSET) ++ codec_body r.

Definition commitment_of (r : record) : commitment_t :=
  COMMITMENT (sha256_digest (anchor_preimage r) GUARDIAN_NODE_LINK_ROLLBACK_ANCHOR_PREIMAGE_SIZE).

Lemma anchor_preimage_length r : record_valid r -> length (anchor_preimage r) = 369%nat.
Proof.
  intros H. unfold anchor_preimage. rewrite !length_app, codec_body_length by assumption. reflexivity.
Qed.

Lemma preimage_writes r :
  record_valid r ->
  blit (blit (blit (blit (blit (blit (replicate 369 0) 0 (take 33 guardian_r3d_anchor_domain))
    (33 + 0) [0x00]) (33 + 1) [0x00]) (33 + 2) [0x01]) (33 + 3) [0x4C])
    (33 + 4) (take 332 (codec_image r ++ drop 364 (replicate 364 0)))
  = anchor_preimage r.
Proof.
  intros H. pose proof (codec_body_length r H) as Hl.
  replace (take 332 (codec_image r ++ drop 364 (replicate 364 0))) with (codec_body r).
  2:{ unfold codec_image. rewrite <- app_assoc. symmetry. by apply take_app_length'. }
  change (take 33 guardian_r3d_anchor_domain) with guardian_r3d_anchor_domain.
  assert (Hz : length (replicate 369 0) = 369%nat) by apply length_replicate.
  revert Hz. generalize (replicate 369 0). intros z Hz.
  rewrite !blit_blit_adjacent by (first [reflexivity | lia | blit_bound]).
  rewrite blit_exact; [reflexivity|].
  rewrite Hz, !length_app, Hl. reflexivity.
Qed.

Lemma commitment_spec r c0 :
  guardian_node_link_rollback_anchor_commitment_from_record (Some r) (Some c0) =
  if decide (guardian_node_link_freshness_persistence_validate_record (Some r) (Some (rec_identity r))
             = GUARDIAN_NODE_LINK_PERSISTENCE_OPERATION_OK)
  then (GUARDIAN_NODE_LINK_ROLLBACK_ANCHOR_PROVIDER_OK, Some (commitment_of r))
  else (GUARDIAN_NODE_LINK_ROLLBACK_ANCHOR_PROVIDER_INVALID_ARGUMENT, Some zero_commitment).
Proof.
  unfold guardian_node_link_rollback_anchor_commitment_from_record. cbn [is_null orb].
  destruct (decide _) as [Hv|Hv].
  - apply validate_record_spec in Hv.
    rewrite record_encode_writes by (first [exact Hv | reflexivity | by rewrite length_replicate]).
    rewrite !bool_decide_true by reflexivity. cbn [negb orb from_option id].
    unfold commitment_of. f_equal. f_equal. f_equal. f_equal. exact (preimage_writes r Hv).
  - assert (Hl : r3c_d_record_is_logically_valid (Some r) = false).
    { destruct (r3c_d_record_is_logically_valid (Some r)) eqn:E; [|reflexivity].
      exfalso. apply Hv, validate_record_spec. by apply logically_valid_spec. }
    unfold guardian_node_link_freshness_persistence_encode.
    rewrite (proj2 (Nat.ltb_ge _ _)) by done. rewrite Hl. reflexivity.
Qed.

Lemma commitment_valid r c0 :
  record_valid r -> guardian_node_link_rollback_anchor_commitment_from_record (Some r) (Some c0)
  = (GUARDIAN_NODE_LINK_ROLLBACK_ANCHOR_PROVIDER_OK, Some (commitment_of r)).
Proof. intros Hv. rewrite commitment_spec, decide_True; [done|]. by apply validate_record_spec. Qed.

Lemma commitment_of_bytes r :
  bytes (commitment_bytes (commitment_of r)) /\ length (commitment_bytes (commitment_of r)) = 32%nat.
Proof. split; [apply sha256_digest_bytes|apply sha256_digest_length]. Qed.

Lemma commitment_of_sha256 r :
  record_valid r -> commitment_bytes (commitment_of r) = sha256_spec (anchor_preimage r).
Proof.
  intros Hv. pose proof (anchor_preimage_length r Hv) as Hl. cbn [commitment_of commitment_bytes].
  unfold GUARDIAN_NODE_LINK_ROLLBACK_ANCHOR_PREIMAGE_SIZE.
  assert (Hle : (369 <= length (anchor_preimage r))%nat) by (rewrite Hl; constructor).
  rewrite sha256_digest_spec by first [exact Hle | reflexivity].
  rewrite take_ge; [reflexivity|]. rewrite Hl. constructor.
Qed.

(** ** The comparison *)

(** An anchor record as a C object. *)
Record anchor_object (a : anchor_t) : Prop := {
  ao_generation : is_u32 (anchor_generation a);
  ao_bytes : bytes (commitment_bytes (anchor_commitment a));
  ao_size : length (commitment_bytes (anchor_commitment a)) = 32%nat
}.

Definition compare_spec (a : anchor_t) (r : record) : compare_t :=
  if decide (identity_key (anchor_identity a) = identity_key (rec_identity r)) then
    match rec_record_generation r ?= anchor_generation a with
    | Lt => GUARDIAN_NODE_LINK_ROLLBACK_ANCHOR_COMPARE_BEHIND
    | Gt => GUARDIAN_NODE_LINK_ROLLBACK_ANCHOR_COMPARE_AHEAD
    | Eq => if decide (anchor_commitment a = commitment_of r)
            then GUARDIAN_NODE_LINK_ROLLBACK_ANCHOR_COMPARE_MATCH
            else GUARDIAN_NODE_LINK_ROLLBACK_ANCHOR_COMPARE_STATE_MISMATCH
    end
  else GUARDIAN_NODE_LINK_ROLLBACK_ANCHOR_COMPARE_IDENTITY_MISMATCH.

Lemma anchor_identity_equal_key l r :
  guardian_node_link_rollback_anchor_identity_equal (Some l) (Some r) = true <->
  identity_key l = identity_key r.
Proof. apply identity_equal_key. Qed.

Lemma compare_valid a r c0 :
  anchor_object a -> record_valid r ->
  guardian_node_link_rollback_anchor_compare (Some a) (Some r) (Some c0)
  = (GUARDIAN_NODE_LINK_ROLLBACK_ANCHOR_PROVIDER_OK, Some (compare_spec a r)).
Proof.
  intros [_ Hb Hl] Hv. unfold guardian_node_link_rollback_anchor_compare, compare_spec.
  rewrite commitment_valid, bool_decide_true by done. cbn [negb from_option id].
  pose proof (anchor_identity_equal_key (anchor_identity a) (rec_identity r)) as Hk.
  destruct (guardian_node_link_rollback_anchor_identity_equal _ _); cbn [negb].
  2:{ rewrite decide_False; [done|]. intros H. by apply Hk in H. }
  rewrite decide_True by (by apply Hk).
  destruct (Z.compare_spec (rec_record_generation r) (anchor_generation a)) as [H|H|H].
  - rewrite !(proj2 (Z.ltb_ge _ _)) by lia.
    destruct (commitment_of_bytes r) as [Hcb Hcl].
    pose proof (guardian_crypto_constant_time_equal_spec (commitment_bytes (commitment_of r))
      (commitment_bytes (anchor_commitment a)) 32 Hcb Hb) as He.
    rewrite !take_ge in He by (rewrite ?Hcl, ?Hl; lia).
    specialize (He ltac:(lia) ltac:(rewrite Hcl; lia) ltac:(rewrite Hl; lia)).
    unfold GUARDIAN_NODE_LINK_ROLLBACK_ANCHOR_COMMITMENT_SIZE.
    destruct (guardian_crypto_constant_time_equal _ _ 32); cbn [negb].
    + rewrite decide_True; [done|]. destruct (anchor_commitment a) as [x], (commitment_of r) as [y].
      cbn [commitment_bytes] in He. f_equal. symmetry. by apply He.
    + rewrite decide_False; [done|]. intros E. rewrite E in He. discriminate (proj2 He eq_refl).
  - by rewrite (proj2 (Z.ltb_lt _ _)) by lia.
  - rewrite (proj2 (Z.ltb_ge _ _)) by lia. by rewrite (proj2 (Z.ltb_lt _ _)) by lia.
Qed.

Lemma compare_invalid a r c0 :
  ~ record_valid r ->
  guardian_node_link_rollback_anchor_compare (Some a) (Some r) (Some c0)
  = (GUARDIAN_NODE_LINK_ROLLBACK_ANCHOR_PROVIDER_INVALID_ARGUMENT,
     Some GUARDIAN_NODE_LINK_ROLLBACK_ANCHOR_COMPARE_INVALID).
Proof.
  intros Hv. unfold guardian_node_link_rollback_anchor_compare.
  rewrite commitment_spec, decide_False; [reflexivity|]. by rewrite validate_record_spec.
Qed.

Lemma compare_match a r :
  compare_spec a r = GUARDIAN_NODE_LINK_ROLLBACK_ANCHOR_COMPARE_MATCH <->
  identity_key (anchor_identity a) = identity_key (rec_identity r) /\
  anchor_generation a = rec_record_generation r /\ anchor_commitment a = commitment_of r.
Proof.
  unfold compare_spec. destruct (decide (identity_key _ = _)) as [Hi|Hi]; [|by split; [|intros []]].
  destruct (Z.compare_spec (rec_record_generation r) (anchor_generation a)) as [H|H|H].
  - destruct (decide (anchor_commitment a = _)); split; try done. by intros (_ & _ & ?).
  - split; [done|]. intros (_ & ? & _). lia.
  - split; [done|]. intros (_ & ? & _). lia.
Qed.

(** The anchor that commits to a record. *)
Definition anchor_of (r : record) : anchor_t :=
  ANCHOR (rec_identity r) (rec_record_generation r) (commitment_of r).

Lemma anchor_of_object r : record_object r -> anchor_object (anchor_of r).
Proof.
  intros Ho. constructor; [apply Ho|apply commitment_of_bytes|apply commitment_of_bytes].
Qed.

Lemma anchor_of_match r : compare_spec (anchor_of r) r = GUARDIAN_NODE_LINK_ROLLBACK_ANCHOR_COMPARE_MATCH.
Proof. by apply compare_match. Qed.

(** Records with the same encoding have the same fields. *)
Lemma codec_body_inj r r' :
  record_valid r -> record_object r -> record_valid r' -> record_object r' ->
  codec_body r = codec_body r' -> normalized r = normalized r'.
Proof.
  intros Hv Ho Hv' Ho' Hb.
  pose proof (decode_image r [] zero_record Hv Ho bytes_nil) as H.
  pose proof (decode_image r' [] zero_record Hv' Ho' bytes_nil) as H'.
  unfold codec_image in *. rewrite Hb in H. rewrite H' in H.
  apply pair_equal_spec in H as [_ H]. apply (f_equal (from_option id zero_record)) in H.
  symmetry. exact H.
Qed.

Lemma codec_body_normalized r : record_valid r -> codec_body (normalized r) = codec_body r.
Proof.
  intros [_ _ [_ _ _ _ H1 H2 H3] _ _ _].
  unfold codec_body, codec_header, codec_fields, normalized, normalized_identity.
  cbn [rec_schema_version rec_identity rec_accepted_epoch rec_accepted_sequence
    rec_record_generation fi_sender_node_id fi_producer_id fi_key_id fi_signature_algorithm
    fi_producer_semantic_profile_id fi_consumer_semantic_profile_id fi_compatibility_contract_id].
  by rewrite !ref_text_ref_of by assumption.
Qed.

Lemma next_generation_spec g x :
  is_u32 g ->
  guardian_node_link_rollback_anchor_next_generation g (Some x) =
  if decide (g + 1 < UINT32_MAX) then (GUARDIAN_NODE_LINK_ROLLBACK_ANCHOR_PROVIDER_OK, Some (g + 1))
  else (GUARDIAN_NODE_LINK_ROLLBACK_ANCHOR_PROVIDER_EXHAUSTED, Some 0).
Proof.
  intros Hg. unfold guardian_node_link_rollback_anchor_next_generation.
  unfold is_u32, UINT32_MAX in *. case_decide.
  - rewrite (proj2 (Z.leb_gt _ _)) by lia. by rewrite u32_id by (unfold is_u32; lia).
  - by rewrite (proj2 (Z.leb_le _ _)) by lia.
Qed.

(** ** Properties *)

Lemma example_record_decodes : record_valid (example_record 100 7) /\ record_object (example_record 100 7).
Proof.
  split; [by apply example_record_ok|].
  constructor; first [by vm_compute | apply (bool_decide_eq_true_1 (bytes _)); reflexivity].
Qed.

(** An anchor identifies its record.  Comparing a record with the anchor of
    [r0] answers OK exactly for valid records, and then with the verdict of the
    identities, the generations and the commitments in that order; a MATCH means
    that the candidate has exactly the fields of [r0], or exhibits a collision of
    SHA-256 on two different preimages, and a record with the fields of [r0]
    always matches. *)
Theorem anchor_match_identifies r0 c x res cmp :
  record_valid r0 -> record_object r0 -> record_object c ->
  guardian_node_link_rollback_anchor_compare (Some (anchor_of r0)) (Some c) (Some x)
    = (res, Some cmp) ->
  (res = GUARDIAN_NODE_LINK_ROLLBACK_ANCHOR_PROVIDER_OK <-> record_valid c) /\
  (record_valid c -> cmp = compare_spec (anchor_of r0) c) /\
  (cmp = GUARDIAN_NODE_LINK_ROLLBACK_ANCHOR_COMPARE_MATCH ->
   normalized c = normalized r0 \/
   anchor_preimage c <> anchor_preimage r0 /\
   sha256_spec (anchor_preimage c) = sha256_spec (anchor_preimage r0)) /\
  (record_valid c -> normalized c = normalized r0 ->
   cmp = GUARDIAN_NODE_LINK_ROLLBACK_ANCHOR_COMPARE_MATCH).
Proof.
  intros Hv0 Ho0 Ho H.
  destruct (decide (guardian_node_link_freshness_persistence_validate_record (Some c)
    (Some (rec_identity c)) = GUARDIAN_NODE_LINK_PERSISTENCE_OPERATION_OK)) as [Hv|Hv];
    rewrite validate_record_spec in Hv.
  2:{ rewrite compare_invalid in H by exact Hv. apply pair_equal_spec in H as [<- H].
      injection H as <-. by repeat (split; [done|]). }
  rewrite compare_valid in H by (first [by apply anchor_of_object | exact Hv]).
  apply pair_equal_spec in H as [<- H]. injection H as <-.
  split; [done|]. split; [done|]. split.
  - intros (Hi & Hg & Hc)%compare_match.
    destruct (decide (anchor_preimage c = anchor_preimage r0)) as [E|E].
    + left. apply codec_body_inj; try assumption. unfold anchor_preimage in E.
      by apply app_inv_head in E; apply app_inv_head in E.
    + right. split; [exact E|]. rewrite <- !commitment_of_sha256 by assumption.
      exact (f_equal commitment_bytes (eq_sym Hc)).
  - intros _ Hn. apply compare_match.
    pose proof (normalized_key c Hv) as Kc. pose proof (normalized_key r0 Hv0) as K0.
    rewrite Hn, K0 in Kc. unfold record_key in Kc.
    apply pair_equal_spec in Kc as [Kc Hi]. apply pair_equal_spec in Kc as [_ Hg].
    split; [exact Hi|]. split; [exact Hg|].
    cbn [anchor_of anchor_commitment]. unfold commitment_of, anchor_preimage.
    rewrite <- (codec_body_normalized c Hv), <- (codec_body_normalized r0 Hv0), Hn. reflexivity.
Qed.

Lemma anchor_match_identifies_witness : exists res cmp,
  guardian_node_link_rollback_anchor_compare (Some (anchor_of (example_record 100 7)))
    (Some (example_record 100 7)) (Some GUARDIAN_NODE_LINK_ROLLBACK_ANCHOR_COMPARE_INVALID)
    = (res, Some cmp) /\ cmp = GUARDIAN_NODE_LINK_ROLLBACK_ANCHOR_COMPARE_MATCH.
Proof.
  destruct example_record_decodes as [Hv Ho].
  pose proof (compare_valid (anchor_of (example_record 100 7)) (example_record 100 7)
    GUARDIAN_NODE_LINK_ROLLBACK_ANCHOR_COMPARE_INVALID (anchor_of_object _ Ho) Hv) as H.
  do 2 eexists. split; [exact H|].
  exact (proj2 (proj2 (proj2 (anchor_match_identifies _ _ _ _ _ Hv Ho Ho H))) Hv eq_refl).
Defined.

(** The anchor's generation never wraps.  The next generation is the current one
    plus one, and stays below [UINT32_MAX], or the counter is EXHAUSTED; and an
    advance reaches the provider only from a generation to its successor in that
    range, every other request leaving the provider untouched. *)
Theorem anchor_generation_bounded {S : Type} (p : guardian_node_link_rollback_anchor_provider_t S)
    i g n c x (s s' : S) res :
  is_u32 g -> is_u32 n ->
  guardian_node_link_rollback_anchor_advance (Some p) (Some i) g n (Some c) s = (res, s') ->
  (guardian_node_link_rollback_anchor_next_generation g (Some x)
     = (GUARDIAN_NODE_LINK_ROLLBACK_ANCHOR_PROVIDER_OK, Some (g + 1)) /\ g + 1 < UINT32_MAX \/
   guardian_node_link_rollback_anchor_next_generation g (Some x)
     = (GUARDIAN_NODE_LINK_ROLLBACK_ANCHOR_PROVIDER_EXHAUSTED, Some 0) /\ UINT32_MAX <= g + 1) /\
  (s' = s /\ res <> GUARDIAN_NODE_LINK_ROLLBACK_ANCHOR_PROVIDER_OK \/
   n = g + 1 /\ n < UINT32_MAX /\
   exists f, anchor_prov_advance p = Some f /\ f s i g n c = (res, s')).
Proof.
  intros Hg Hn H. split.
  - rewrite next_generation_spec by exact Hg. case_decide; [by left|right]. split; [done|lia].
  - unfold guardian_node_link_rollback_anchor_advance in H.
    destruct (anchor_prov_advance p) as [f|]; [|left; by injection H as <- <-].
    rewrite next_generation_spec in H by exact Hg. case_decide.
    2:{ left. by injection H as <- <-. }
    rewrite bool_decide_true in H by reflexivity. cbn [negb] in H.
    destruct (bool_decide_reflect (Some n = Some (g + 1))) as [E|E]; cbn [negb] in H.
    + injection E as ->. right. split; [done|]. split; [done|]. by exists f.
    + left. by injection H as <- <-.
Qed.

Lemma anchor_generation_bounded_witness :
  let f := (fun s _ e n _ => if s =? e then (GUARDIAN_NODE_LINK_ROLLBACK_ANCHOR_PROVIDER_OK, n)
            else (GUARDIAN_NODE_LINK_ROLLBACK_ANCHOR_PROVIDER_CONFLICT, s)) in
  7 = 7 /\ GUARDIAN_NODE_LINK_ROLLBACK_ANCHOR_PROVIDER_EXHAUSTED
    <> GUARDIAN_NODE_LINK_ROLLBACK_ANCHOR_PROVIDER_OK \/
  UINT32_MAX = UINT32_MAX - 1 + 1 /\ UINT32_MAX < UINT32_MAX /\
  exists f', anchor_prov_advance (ANCHOR_PROVIDER None None (Some f)) = Some f' /\
    f' 7 example_identity (UINT32_MAX - 1) UINT32_MAX zero_commitment
      = (GUARDIAN_NODE_LINK_ROLLBACK_ANCHOR_PROVIDER_EXHAUSTED, 7).
Proof.
  intros f. refine (proj2 (anchor_generation_bounded (ANCHOR_PROVIDER None None (Some f))
    example_identity (UINT32_MAX - 1) UINT32_MAX zero_commitment 0 7 7 _ _ _ _)).
  - by vm_compute.
  - by vm_compute.
  - reflexivity.
Defined.
