(* ===== verification/AntiReplay.v ===== *)
(** * Persistent anti-replay

    Model of [firmware/NodeLink/Src/guardian_node_link_persistent_anti_replay.c]:
    the recovery of a freshness runtime from the persisted record and the rollback
    anchor, and the commit of a continuation to both.  The persistence provider and
    the anchor provider act on one state [S], so that they may share a medium. *)

From S2P Require Import Prelude Crypto CString NodeLink NodeLinkAuth NodeLinkSemantic.
From S2P Require Import Freshness Persistence Codec RollbackAnchor.

Local Abbreviation record := guardian_node_link_freshness_persisted_record_t.
Local Abbreviation identity_t := guardian_node_link_freshness_identity_t.
Local Abbreviation runtime_t := guardian_node_link_freshness_runtime_t.
Local Abbreviation op_result := guardian_node_link_freshness_persistence_operation_result_t.
Local Abbreviation anchor_result := guardian_node_link_rollback_anchor_provider_result_t.

(** ** Data *)

Inductive guardian_node_link_persistent_anti_replay_result_t :=
  | GUARDIAN_NODE_LINK_PERSISTENT_ANTI_REPLAY_INVALID
  | GUARDIAN_NODE_LINK_PERSISTENT_ANTI_REPLAY_OK
  | GUARDIAN_NODE_LINK_PERSISTENT_ANTI_REPLAY_BOOTSTRAP_REQUIRED
  | GUARDIAN_NODE_LINK_PERSISTENT_ANTI_REPLAY_FRESHNESS_UNKNOWN
  | GUARDIAN_NODE_LINK_PERSISTENT_ANTI_REPLAY_ROLLBACK_SUSPECTED
  | GUARDIAN_NODE_LINK_PERSISTENT_ANTI_REPLAY_STATE_MISMATCH
  | GUARDIAN_NODE_LINK_PERSISTENT_ANTI_REPLAY_PROVIDER_UNAVAILABLE
  | GUARDIAN_NODE_LINK_PERSISTENT_ANTI_REPLAY_STATE_UNCERTAIN
  | GUARDIAN_NODE_LINK_PERSISTENT_ANTI_REPLAY_REPLAY_OR_REGRESSION
  | GUARDIAN_NODE_LINK_PERSISTENT_ANTI_REPLAY_EPOCH_TRANSITION_REQUIRED
  | GUARDIAN_NODE_LINK_PERSISTENT_ANTI_REPLAY_GENERATION_EXHAUSTED.

#[global] Instance anti_replay_result_eq_dec :
  EqDecision guardian_node_link_persistent_anti_replay_result_t.
Proof. solve_decision. Defined.

Local Abbreviation result_t := guardian_node_link_persistent_anti_replay_result_t.

Record guardian_node_link_persistent_anti_replay_evidence_t := EVIDENCE {
  ev_persistence_status : guardian_node_link_freshness_persistence_status_t;
  ev_persistence_classification : guardian_node_link_freshness_persistence_classification_t;
  ev_anchor_status : guardian_node_link_rollback_anchor_status_t;
  ev_anchor_comparison : guardian_node_link_rollback_anchor_compare_t;
  ev_accepted_epoch : Z;
  ev_accepted_sequence : Z;
  ev_record_generation : Z;
  ev_runtime_restored : Z;
  ev_persistence_committed : Z;
  ev_anchor_advanced : Z;
  ev_anchor_readback_verified : Z;
  ev_persistent_anti_replay_valid : Z;
  ev_actuation_authorized : Z
}.

Local Abbreviation evidence_t := guardian_node_link_persistent_anti_replay_evidence_t.

Definition set_persistence_status st (e : evidence_t) : evidence_t :=
  EVIDENCE st (ev_persistence_classification e) (ev_anchor_status e) (ev_anchor_comparison e)
    (ev_accepted_epoch e) (ev_accepted_sequence e) (ev_record_generation e)
    (ev_runtime_restored e) (ev_persistence_committed e) (ev_anchor_advanced e)
    (ev_anchor_readback_verified e) (ev_persistent_anti_replay_valid e)
    (ev_actuation_authorized e).

Definition set_classification c (e : evidence_t) : evidence_t :=
  EVIDENCE (ev_persistence_status e) c (ev_anchor_status e) (ev_anchor_comparison e)
    (ev_accepted_epoch e) (ev_accepted_sequence e) (ev_record_generation e)
    (ev_runtime_restored e) (ev_persistence_committed e) (ev_anchor_advanced e)
    (ev_anchor_readback_verified e) (ev_persistent_anti_replay_valid e)
    (ev_actuation_authorized e).

Definition set_anchor_status st (e : evidence_t) : evidence_t :=
  EVIDENCE (ev_persistence_status e) (ev_persistence_classification e) st (ev_anchor_comparison e)
    (ev_accepted_epoch e) (ev_accepted_sequence e) (ev_record_generation e)
    (ev_runtime_restored e) (ev_persistence_committed e) (ev_anchor_advanced e)
    (ev_anchor_readback_verified e) (ev_persistent_anti_replay_valid e)
    (ev_actuation_authorized e).

Definition set_anchor_comparison c (e : evidence_t) : evidence_t :=
  EVIDENCE (ev_persistence_status e) (ev_persistence_classification e) (ev_anchor_status e) c
    (ev_accepted_epoch e) (ev_accepted_sequence e) (ev_record_generation e)
    (ev_runtime_restored e) (ev_persistence_committed e) (ev_anchor_advanced e)
    (ev_anchor_readback_verified e) (ev_persistent_anti_replay_valid e)
    (ev_actuation_authorized e).

(** The flags [persistence_committed], [anchor_advanced] and
    [anchor_readback_verified]. *)
Definition set_progress committed advanced readback (e : evidence_t) : evidence_t :=
  EVIDENCE (ev_persistence_status e) (ev_persistence_classification e) (ev_anchor_status e)
    (ev_anchor_comparison e) (ev_accepted_epoch e) (ev_accepted_sequence e)
    (ev_record_generation e) (ev_runtime_restored e) committed advanced readback
    (ev_persistent_anti_replay_valid e) (ev_actuation_authorized e).

(** The accepted position and the final flags. *)
Definition set_restored (r : record) (e : evidence_t) : evidence_t :=
  EVIDENCE (ev_persistence_status e) (ev_persistence_classification e) (ev_anchor_status e)
    (ev_anchor_comparison e) (rec_accepted_epoch r) (rec_accepted_sequence r)
    (rec_record_generation r) 1 (ev_persistence_committed e) (ev_anchor_advanced e)
    (ev_anchor_readback_verified e) 1 0.

(** ** Helpers *)

Definition guardian_persistent_anti_replay_evidence_init (evidence : option evidence_t)
  : option evidence_t :=
  match evidence with
  | None => None
  | Some _ =>
      Some (EVIDENCE GUARDIAN_NODE_LINK_PERSISTENCE_STATUS_INVALID
        GUARDIAN_NODE_LINK_PERSISTENCE_CLASSIFICATION_INVALID
        GUARDIAN_NODE_LINK_ROLLBACK_ANCHOR_STATUS_INVALID
        GUARDIAN_NODE_LINK_ROLLBACK_ANCHOR_COMPARE_INVALID 0 0 0 0 0 0 0 0 0)
  end.

Definition map_persistence_operation (result : op_result) : result_t :=
  match result with
  | GUARDIAN_NODE_LINK_PERSISTENCE_OPERATION_UNAVAILABLE =>
      GUARDIAN_NODE_LINK_PERSISTENT_ANTI_REPLAY_PROVIDER_UNAVAILABLE
  | GUARDIAN_NODE_LINK_PERSISTENCE_OPERATION_GENERATION_EXHAUSTED =>
      GUARDIAN_NODE_LINK_PERSISTENT_ANTI_REPLAY_GENERATION_EXHAUSTED
  | GUARDIAN_NODE_LINK_PERSISTENCE_OPERATION_STATE_UNCERTAIN
  | GUARDIAN_NODE_LINK_PERSISTENCE_OPERATION_IO_FAILURE
  | GUARDIAN_NODE_LINK_PERSISTENCE_OPERATION_VERIFY_FAILURE
  | GUARDIAN_NODE_LINK_PERSISTENCE_OPERATION_COMMIT_FAILURE =>
      GUARDIAN_NODE_LINK_PERSISTENT_ANTI_REPLAY_STATE_UNCERTAIN
  | GUARDIAN_NODE_LINK_PERSISTENCE_OPERATION_OK => GUARDIAN_NODE_LINK_PERSISTENT_ANTI_REPLAY_OK
  | GUARDIAN_NODE_LINK_PERSISTENCE_OPERATION_INVALID
  | GUARDIAN_NODE_LINK_PERSISTENCE_OPERATION_OTHER _ =>
      GUARDIAN_NODE_LINK_PERSISTENT_ANTI_REPLAY_INVALID
  end.

Definition map_anchor_provider_result (result : anchor_result) : result_t :=
  match result with
  | GUARDIAN_NODE_LINK_ROLLBACK_ANCHOR_PROVIDER_OK =>
      GUARDIAN_NODE_LINK_PERSISTENT_ANTI_REPLAY_OK
  | GUARDIAN_NODE_LINK_ROLLBACK_ANCHOR_PROVIDER_UNAVAILABLE =>
      GUARDIAN_NODE_LINK_PERSISTENT_ANTI_REPLAY_PROVIDER_UNAVAILABLE
  | GUARDIAN_NODE_LINK_ROLLBACK_ANCHOR_PROVIDER_EXHAUSTED =>
      GUARDIAN_NODE_LINK_PERSISTENT_ANTI_REPLAY_GENERATION_EXHAUSTED
  | GUARDIAN_NODE_LINK_ROLLBACK_ANCHOR_PROVIDER_IO_ERROR
  | GUARDIAN_NODE_LINK_ROLLBACK_ANCHOR_PROVIDER_INTEGRITY_ERROR
  | GUARDIAN_NODE_LINK_ROLLBACK_ANCHOR_PROVIDER_CONFLICT =>
      GUARDIAN_NODE_LINK_PERSISTENT_ANTI_REPLAY_STATE_UNCERTAIN
  | GUARDIAN_NODE_LINK_ROLLBACK_ANCHOR_PROVIDER_INVALID_ARGUMENT
  | GUARDIAN_NODE_LINK_ROLLBACK_ANCHOR_PROVIDER_UNSUPPORTED
  | GUARDIAN_NODE_LINK_ROLLBACK_ANCHOR_PROVIDER_INVALID
  | GUARDIAN_NODE_LINK_ROLLBACK_ANCHOR_PROVIDER_OTHER _ =>
      GUARDIAN_NODE_LINK_PERSISTENT_ANTI_REPLAY_INVALID
  end.

(** [identity_equal] of this file. *)
Definition anti_replay_identity_equal (left right : option identity_t) : bool :=
  match left, right with
  | Some l, Some r =>
      early negb (fi_sender_node_id l =? fi_sender_node_id r)
            || negb (fi_producer_id l =? fi_producer_id r)
            || negb (fi_key_id l =? fi_key_id r)
            || negb (fi_signature_algorithm l =? fi_signature_algorithm r)
        with false ;;
      early negb (strncmp_eq (fi_producer_semantic_profile_id l)
                    (fi_producer_semantic_profile_id r)
                    GUARDIAN_NODE_LINK_SEMANTIC_REF_CAPACITY) with false ;;
      early negb (strncmp_eq (fi_consumer_semantic_profile_id l)
                    (fi_consumer_semantic_profile_id r)
                    GUARDIAN_NODE_LINK_SEMANTIC_REF_CAPACITY) with false ;;
      early negb (strncmp_eq (fi_compatibility_contract_id l) (fi_compatibility_contract_id r)
                    GUARDIAN_NODE_LINK_SEMANTIC_REF_CAPACITY) with false ;;
      true
  | _, _ => false
  end.

(** The runtime [restore_runtime_from_record] builds before it validates it. *)
Definition runtime_of_record (r : record) : runtime_t :=
  RUNTIME GUARDIAN_NODE_LINK_FRESHNESS_ACTIVE (rec_identity r) 0 0
    (rec_accepted_epoch r) (rec_accepted_sequence r) 1 0 1 1.

Definition restore_runtime_from_record (rec : option record) (runtime : option runtime_t)
  : result_t * option runtime_t :=
  match rec, runtime with
  | Some r, Some _ =>
      let candidate := runtime_of_record r in
      early negb (bool_decide (guardian_node_link_freshness_runtime_validate (Some candidate)
                               = GUARDIAN_NODE_LINK_FRESHNESS_OK))
        with (GUARDIAN_NODE_LINK_PERSISTENT_ANTI_REPLAY_INVALID, runtime) ;;
      (GUARDIAN_NODE_LINK_PERSISTENT_ANTI_REPLAY_OK, Some candidate)
  | _, _ => (GUARDIAN_NODE_LINK_PERSISTENT_ANTI_REPLAY_INVALID, runtime)
  end.

(** The verdict of [recover] on a comparison that did not match. *)
Definition comparison_verdict (c : guardian_node_link_rollback_anchor_compare_t)
  : option result_t :=
  match c with
  | GUARDIAN_NODE_LINK_ROLLBACK_ANCHOR_COMPARE_MATCH => None
  | GUARDIAN_NODE_LINK_ROLLBACK_ANCHOR_COMPARE_BEHIND =>
      Some GUARDIAN_NODE_LINK_PERSISTENT_ANTI_REPLAY_ROLLBACK_SUSPECTED
  | GUARDIAN_NODE_LINK_ROLLBACK_ANCHOR_COMPARE_AHEAD =>
      Some GUARDIAN_NODE_LINK_PERSISTENT_ANTI_REPLAY_STATE_UNCERTAIN
  | GUARDIAN_NODE_LINK_ROLLBACK_ANCHOR_COMPARE_STATE_MISMATCH
  | GUARDIAN_NODE_LINK_ROLLBACK_ANCHOR_COMPARE_IDENTITY_MISMATCH =>
      Some GUARDIAN_NODE_LINK_PERSISTENT_ANTI_REPLAY_STATE_MISMATCH
  | GUARDIAN_NODE_LINK_ROLLBACK_ANCHOR_COMPARE_INVALID =>
      Some GUARDIAN_NODE_LINK_PERSISTENT_ANTI_REPLAY_INVALID
  end.

(** ** Recovery *)

Section operations.
Context {S : Type}.

Local Abbreviation persistence_t := (guardian_node_link_freshness_persistence_provider_t S).
Local Abbreviation anchor_provider_t := (guardian_node_link_rollback_anchor_provider_t S).

(** The load and its classification, up to the first use of the anchor: [inl] is
    an early return. *)
Definition recover_load
    (load : S -> guardian_node_link_freshness_persistence_status_t -> record ->
       op_result * guardian_node_link_freshness_persistence_status_t * record * S)
    (expected_identity : identity_t) (ev : evidence_t) (s : S)
  : (result_t * evidence_t * S)
    + (guardian_node_link_freshness_persistence_classification_t * record * evidence_t * S) :=
  let '(persistence_result, persistence_status, loaded, s) :=
    load s GUARDIAN_NODE_LINK_PERSISTENCE_STATUS_INVALID zero_record in
  let ev := set_persistence_status persistence_status ev in
  early negb (bool_decide (persistence_result = GUARDIAN_NODE_LINK_PERSISTENCE_OPERATION_OK))
    with inl (map_persistence_operation persistence_result, ev, s) ;;
  let '(result, classification) :=
    guardian_node_link_freshness_persistence_classify persistence_status (Some loaded)
      (Some expected_identity) (Some GUARDIAN_NODE_LINK_PERSISTENCE_CLASSIFICATION_INVALID) in
  early negb (bool_decide (result = GUARDIAN_NODE_LINK_FRESHNESS_OK))
    with inl (GUARDIAN_NODE_LINK_PERSISTENT_ANTI_REPLAY_INVALID, ev, s) ;;
  let classification :=
    default GUARDIAN_NODE_LINK_PERSISTENCE_CLASSIFICATION_INVALID classification in
  let ev := set_classification classification ev in
  early bool_decide (classification
          = GUARDIAN_NODE_LINK_PERSISTENCE_CLASSIFICATION_FRESHNESS_UNKNOWN)
    with inl (GUARDIAN_NODE_LINK_PERSISTENT_ANTI_REPLAY_FRESHNESS_UNKNOWN, ev, s) ;;
  inr (classification, loaded, ev, s).

(** The anchor's status and what it allows for this classification. *)
Definition recover_status (anchor : option anchor_provider_t) (expected_identity : identity_t)
    (classification : guardian_node_link_freshness_persistence_classification_t)
    (ev : evidence_t) (s : S) : (result_t * evidence_t * S) + (evidence_t * S) :=
  let '(anchor_result, anchor_status, s) :=
    guardian_node_link_rollback_anchor_status anchor (Some expected_identity)
      (Some GUARDIAN_NODE_LINK_ROLLBACK_ANCHOR_STATUS_INVALID) s in
  let anchor_status := default GUARDIAN_NODE_LINK_ROLLBACK_ANCHOR_STATUS_INVALID anchor_status in
  let ev := set_anchor_status anchor_status ev in
  let in_status st := bool_decide (anchor_status = st) in
  early negb (bool_decide (anchor_result = GUARDIAN_NODE_LINK_ROLLBACK_ANCHOR_PROVIDER_OK))
    with inl (map_anchor_provider_result anchor_result, ev, s) ;;
  early bool_decide (classification
          = GUARDIAN_NODE_LINK_PERSISTENCE_CLASSIFICATION_NO_STATE_BOOTSTRAP)
    with inl (if in_status GUARDIAN_NODE_LINK_ROLLBACK_ANCHOR_STATUS_UNPROVISIONED
              then GUARDIAN_NODE_LINK_PERSISTENT_ANTI_REPLAY_BOOTSTRAP_REQUIRED
              else if in_status GUARDIAN_NODE_LINK_ROLLBACK_ANCHOR_STATUS_VALID
              then GUARDIAN_NODE_LINK_PERSISTENT_ANTI_REPLAY_ROLLBACK_SUSPECTED
              else GUARDIAN_NODE_LINK_PERSISTENT_ANTI_REPLAY_FRESHNESS_UNKNOWN, ev, s) ;;
  early negb (bool_decide (classification
          = GUARDIAN_NODE_LINK_PERSISTENCE_CLASSIFICATION_VALIDATED_RECORD_CANDIDATE))
    with inl (GUARDIAN_NODE_LINK_PERSISTENT_ANTI_REPLAY_INVALID, ev, s) ;;
  early negb (in_status GUARDIAN_NODE_LINK_ROLLBACK_ANCHOR_STATUS_VALID)
    with inl (if in_status GUARDIAN_NODE_LINK_ROLLBACK_ANCHOR_STATUS_UNPROVISIONED
              then GUARDIAN_NODE_LINK_PERSISTENT_ANTI_REPLAY_ROLLBACK_SUSPECTED
              else GUARDIAN_NODE_LINK_PERSISTENT_ANTI_REPLAY_FRESHNESS_UNKNOWN, ev, s) ;;
  inr (ev, s).

(** Reading the anchor and comparing a record with it: the status must be VALID
    ([not_valid] is the answer otherwise).  Used before and after an advance. *)
Definition read_and_compare (anchor : option anchor_provider_t) (expected_identity : identity_t)
    (rec : record) (not_valid : result_t) (ev : evidence_t) (s : S)
  : (result_t * evidence_t * S)
    + (anchor_result * guardian_node_link_rollback_anchor_compare_t * evidence_t * S) :=
  let '(anchor_result, anchor_record, anchor_status, s) :=
    guardian_node_link_rollback_anchor_read anchor (Some expected_identity) (Some zero_anchor)
      (Some GUARDIAN_NODE_LINK_ROLLBACK_ANCHOR_STATUS_INVALID) s in
  let anchor_status := default GUARDIAN_NODE_LINK_ROLLBACK_ANCHOR_STATUS_INVALID anchor_status in
  let ev := set_anchor_status anchor_status ev in
  early negb (bool_decide (anchor_result = GUARDIAN_NODE_LINK_ROLLBACK_ANCHOR_PROVIDER_OK))
    with inl (map_anchor_provider_result anchor_result, ev, s) ;;
  early negb (bool_decide (anchor_status = GUARDIAN_NODE_LINK_ROLLBACK_ANCHOR_STATUS_VALID))
    with inl (not_valid, ev, s) ;;
  let '(anchor_result, comparison) :=
    guardian_node_link_rollback_anchor_compare anchor_record (Some rec)
      (Some GUARDIAN_NODE_LINK_ROLLBACK_ANCHOR_COMPARE_INVALID) in
  let comparison := default GUARDIAN_NODE_LINK_ROLLBACK_ANCHOR_COMPARE_INVALID comparison in
  inr (anchor_result, comparison, set_anchor_comparison comparison ev, s).

(** The outputs: result, runtime, restored record, evidence. *)
Definition guardian_node_link_persistent_anti_replay_recover
    (persistence_provider : option persistence_t) (anchor_provider : option anchor_provider_t)
    (expected_identity : option identity_t) (runtime : option runtime_t)
    (restored_record : option record) (evidence : option evidence_t) (s : S)
  : result_t * option runtime_t * option record * option evidence_t * S :=
  let runtime := guardian_node_link_freshness_runtime_init runtime in
  let restored_record := match restored_record with None => None | Some _ => Some zero_record end in
  let evidence := guardian_persistent_anti_replay_evidence_init evidence in
  let invalid := GUARDIAN_NODE_LINK_PERSISTENT_ANTI_REPLAY_INVALID in
  match persistence_provider, anchor_provider, expected_identity, runtime, restored_record,
        evidence with
  | Some persistence, Some _, Some expected, Some _, Some _, Some ev =>
      match prov_load persistence with
      | None => (invalid, runtime, restored_record, evidence, s)
      | Some load =>
          match recover_load load expected ev s with
          | inl (result, ev, s) => (result, runtime, restored_record, Some ev, s)
          | inr (classification, loaded, ev, s) =>
              match recover_status anchor_provider expected classification ev s with
              | inl (result, ev, s) => (result, runtime, restored_record, Some ev, s)
              | inr (ev, s) =>
                  match read_and_compare anchor_provider expected loaded
                          GUARDIAN_NODE_LINK_PERSISTENT_ANTI_REPLAY_FRESHNESS_UNKNOWN ev s with
                  | inl (result, ev, s) => (result, runtime, restored_record, Some ev, s)
                  | inr (anchor_result, comparison, ev, s) =>
                      early negb (bool_decide (anchor_result
                              = GUARDIAN_NODE_LINK_ROLLBACK_ANCHOR_PROVIDER_OK))
                        with (map_anchor_provider_result anchor_result, runtime, restored_record,
                              Some ev, s) ;;
                      match comparison_verdict comparison with
                      | Some verdict => (verdict, runtime, restored_record, Some ev, s)
                      | None =>
                          let '(result, runtime) :=
                            restore_runtime_from_record (Some loaded) runtime in
                          early negb (bool_decide (result
                                  = GUARDIAN_NODE_LINK_PERSISTENT_ANTI_REPLAY_OK))
                            with (result, guardian_node_link_freshness_runtime_init runtime,
                                  restored_record, Some ev, s) ;;
                          (GUARDIAN_NODE_LINK_PERSISTENT_ANTI_REPLAY_OK, runtime, Some loaded,
                           Some (set_restored loaded
                                   (set_progress (ev_persistence_committed ev)
                                      (ev_anchor_advanced ev) 1 ev)), s)
                      end
                  end
              end
          end
      end
  | _, _, _, _, _, _ => (invalid, runtime, restored_record, evidence, s)
  end.

(** ** Continuation *)

(** The runtime and the previous record are in step: the early return of
    [commit_continuation], or [None]. *)
Definition continuation_precheck (expected_identity : identity_t) (previous_record : record)
    (runtime : runtime_t) : option result_t :=
  let '(result, classification) :=
    guardian_node_link_freshness_persistence_classify
      GUARDIAN_NODE_LINK_PERSISTENCE_STATUS_VALID_PERSISTED_STATE (Some previous_record)
      (Some expected_identity) (Some GUARDIAN_NODE_LINK_PERSISTENCE_CLASSIFICATION_INVALID) in
  early negb (bool_decide (result = GUARDIAN_NODE_LINK_FRESHNESS_OK))
    with Some GUARDIAN_NODE_LINK_PERSISTENT_ANTI_REPLAY_INVALID ;;
  early negb (bool_decide (classification
          = Some GUARDIAN_NODE_LINK_PERSISTENCE_CLASSIFICATION_VALIDATED_RECORD_CANDIDATE))
    with Some GUARDIAN_NODE_LINK_PERSISTENT_ANTI_REPLAY_INVALID ;;
  early negb (bool_decide (guardian_node_link_freshness_runtime_validate (Some runtime)
                = GUARDIAN_NODE_LINK_FRESHNESS_OK))
        || negb (bool_decide (rt_condition runtime = GUARDIAN_NODE_LINK_FRESHNESS_ACTIVE))
        || (rt_identity_valid runtime =? 0)
        || (rt_accepted_epoch_valid runtime =? 0)
        || (rt_accepted_sequence_valid runtime =? 0)
        || negb (anti_replay_identity_equal (Some (rt_identity runtime)) (Some expected_identity))
        || negb (rt_accepted_epoch runtime =? rec_accepted_epoch previous_record)
        || negb (rt_accepted_sequence runtime =? rec_accepted_sequence previous_record)
    with Some GUARDIAN_NODE_LINK_PERSISTENT_ANTI_REPLAY_STATE_MISMATCH ;;
  None.

(** The checks between the comparison of the previous record with the anchor and
    the transaction. *)
Definition continuation_position (previous_record : record)
    (comparison : guardian_node_link_rollback_anchor_compare_t) (next_epoch next_sequence : Z)
  : option result_t :=
  early bool_decide (comparison = GUARDIAN_NODE_LINK_ROLLBACK_ANCHOR_COMPARE_BEHIND)
    with Some GUARDIAN_NODE_LINK_PERSISTENT_ANTI_REPLAY_ROLLBACK_SUSPECTED ;;
  early negb (bool_decide (comparison = GUARDIAN_NODE_LINK_ROLLBACK_ANCHOR_COMPARE_MATCH))
    with Some GUARDIAN_NODE_LINK_PERSISTENT_ANTI_REPLAY_STATE_MISMATCH ;;
  early negb (next_epoch =? rec_accepted_epoch previous_record)
    with Some GUARDIAN_NODE_LINK_PERSISTENT_ANTI_REPLAY_EPOCH_TRANSITION_REQUIRED ;;
  early (next_sequence =? 0) || (next_sequence <=? rec_accepted_sequence previous_record)
    with Some GUARDIAN_NODE_LINK_PERSISTENT_ANTI_REPLAY_REPLAY_OR_REGRESSION ;;
  early UINT32_MAX - 1 <=? rec_record_generation previous_record
    with Some GUARDIAN_NODE_LINK_PERSISTENT_ANTI_REPLAY_GENERATION_EXHAUSTED ;;
  None.

Definition continuation_record (previous_record : record) (next_sequence : Z) : record :=
  RECORD (rec_schema_version previous_record) (rec_identity previous_record)
    (rec_accepted_epoch previous_record) next_sequence
    (u32 (rec_record_generation previous_record + 1)).

(** The advance of the anchor to the committed candidate and its read-back. *)
Definition continuation_anchor (anchor_provider : option anchor_provider_t)
    (expected_identity : identity_t) (previous_record candidate : record)
    (ev : evidence_t) (s : S) : (result_t * evidence_t * S) + (evidence_t * S) :=
  let uncertain := GUARDIAN_NODE_LINK_PERSISTENT_ANTI_REPLAY_STATE_UNCERTAIN in
  let '(anchor_result, commitment) :=
    guardian_node_link_rollback_anchor_commitment_from_record (Some candidate)
      (Some zero_commitment) in
  early negb (bool_decide (anchor_result = GUARDIAN_NODE_LINK_ROLLBACK_ANCHOR_PROVIDER_OK))
    with inl (map_anchor_provider_result anchor_result, ev, s) ;;
  let '(anchor_result, s) :=
    guardian_node_link_rollback_anchor_advance anchor_provider (Some expected_identity)
      (rec_record_generation previous_record) (rec_record_generation candidate) commitment s in
  early negb (bool_decide (anchor_result = GUARDIAN_NODE_LINK_ROLLBACK_ANCHOR_PROVIDER_OK))
    with inl (map_anchor_provider_result anchor_result, ev, s) ;;
  let ev := set_progress (ev_persistence_committed ev) 1 (ev_anchor_readback_verified ev) ev in
  match read_and_compare anchor_provider expected_identity candidate uncertain ev s with
  | inl r => inl r
  | inr (anchor_result, comparison, ev, s) =>
      early negb (bool_decide (anchor_result = GUARDIAN_NODE_LINK_ROLLBACK_ANCHOR_PROVIDER_OK))
            || negb (bool_decide (comparison = GUARDIAN_NODE_LINK_ROLLBACK_ANCHOR_COMPARE_MATCH))
        with inl (uncertain, ev, s) ;;
      inr (set_progress (ev_persistence_committed ev) (ev_anchor_advanced ev) 1 ev, s)
  end.

Definition guardian_node_link_persistent_anti_replay_commit_continuation
    (persistence_provider : option persistence_t) (anchor_provider : option anchor_provider_t)
    (expected_identity : option identity_t) (previous_record : option record)
    (next_epoch next_sequence : Z) (runtime : option runtime_t)
    (committed_record : option record) (evidence : option evidence_t) (s : S)
  : result_t * option runtime_t * option record * option evidence_t * S :=
  let committed_record :=
    match committed_record with None => None | Some _ => Some zero_record end in
  let evidence := guardian_persistent_anti_replay_evidence_init evidence in
  match persistence_provider, anchor_provider, expected_identity, previous_record, runtime,
        committed_record, evidence with
  | Some _, Some _, Some expected, Some previous, Some rt, Some _, Some ev =>
      match continuation_precheck expected previous rt with
      | Some result => (result, runtime, committed_record, evidence, s)
      | None =>
          match read_and_compare anchor_provider expected previous
                  GUARDIAN_NODE_LINK_PERSISTENT_ANTI_REPLAY_FRESHNESS_UNKNOWN ev s with
          | inl (result, ev, s) => (result, runtime, committed_record, Some ev, s)
          | inr (anchor_result, comparison, ev, s) =>
              early negb (bool_decide (anchor_result
                      = GUARDIAN_NODE_LINK_ROLLBACK_ANCHOR_PROVIDER_OK))
                with (map_anchor_provider_result anchor_result, runtime, committed_record,
                      Some ev, s) ;;
              match continuation_position previous comparison next_epoch next_sequence with
              | Some result => (result, runtime, committed_record, Some ev, s)
              | None =>
                  let candidate := continuation_record previous next_sequence in
                  let '(persistence_result, outcome, s) :=
                    guardian_node_link_freshness_persistence_transact_commit persistence_provider
                      previous_record expected_identity (Some candidate)
                      (Some GUARDIAN_NODE_LINK_PERSISTENCE_TRANSACTION_INVALID) s in
                  early negb (bool_decide (persistence_result
                          = GUARDIAN_NODE_LINK_PERSISTENCE_OPERATION_OK))
                        || negb (bool_decide (outcome
                          = Some GUARDIAN_NODE_LINK_PERSISTENCE_TRANSACTION_COMMITTED))
                    with (map_persistence_operation persistence_result, runtime,
                          committed_record, Some ev, s) ;;
                  let ev := set_progress 1 (ev_anchor_advanced ev)
                              (ev_anchor_readback_verified ev) ev in
                  match continuation_anchor anchor_provider expected previous candidate ev s with
                  | inl (result, ev, s) => (result, runtime, committed_record, Some ev, s)
                  | inr (ev, s) =>
                      let '(result, runtime) :=
                        restore_runtime_from_record (Some candidate) runtime in
                      early negb (bool_decide (result
                              = GUARDIAN_NODE_LINK_PERSISTENT_ANTI_REPLAY_OK))
                        with (result, runtime, committed_record, Some ev, s) ;;
                      (GUARDIAN_NODE_LINK_PERSISTENT_ANTI_REPLAY_OK, runtime, Some candidate,
                       Some (set_restored candidate ev), s)
                  end
              end
          end
      end
  | _, _, _, _, _, _, _ =>
      (GUARDIAN_NODE_LINK_PERSISTENT_ANTI_REPLAY_INVALID, runtime, committed_record, evidence, s)
  end.
End operations.

Definition guardian_node_link_persistent_anti_replay_can_actuate (allowed : option Z)
  : result_t * option Z :=
  match allowed with
  | None => (GUARDIAN_NODE_LINK_PERSISTENT_ANTI_REPLAY_INVALID, None)
  | Some _ => (GUARDIAN_NODE_LINK_PERSISTENT_ANTI_REPLAY_OK, Some 0)
  end.

(** ** What recovery and continuation decide *)

Lemma record_ok_valid expected r : record_ok expected r -> record_valid r.
Proof. intros [H1 H2 H3 H4 H5 H6]. by constructor. Qed.

Lemma restored_runtime_ok expected r : record_ok expected r -> runtime_ok (runtime_of_record r).
Proof.
  intros [_ _ Hi _ He Hs]. constructor; cbn [runtime_of_record rt_condition rt_identity_valid
    rt_observation_valid rt_accepted_epoch_valid rt_accepted_sequence_valid rt_identity
    rt_observed_sequence rt_accepted_epoch rt_accepted_sequence]; try done; lia.
Qed.

Lemma restore_runtime_spec expected r rt :
  record_ok expected r -> restore_runtime_from_record (Some r) (Some rt)
  = (GUARDIAN_NODE_LINK_PERSISTENT_ANTI_REPLAY_OK, Some (runtime_of_record r)).
Proof.
  intros H. unfold restore_runtime_from_record.
  rewrite (runtime_validate_complete _ (restored_runtime_ok expected r H)).
  by rewrite bool_decide_true.
Qed.

Lemma anti_replay_identity_key l r :
  anti_replay_identity_equal (Some l) (Some r) = true <-> identity_key l = identity_key r.
Proof. apply identity_equal_key. Qed.

Lemma classify_candidate st r e c :
  guardian_node_link_freshness_persistence_classify st (Some r) (Some e) (Some c)
    = (GUARDIAN_NODE_LINK_FRESHNESS_OK,
       Some GUARDIAN_NODE_LINK_PERSISTENCE_CLASSIFICATION_VALIDATED_RECORD_CANDIDATE) <->
  st = GUARDIAN_NODE_LINK_PERSISTENCE_STATUS_VALID_PERSISTED_STATE /\ record_ok e r.
Proof.
  rewrite <- validate_record_spec.
  unfold guardian_node_link_freshness_persistence_validate_record. cbn [is_null].
  destruct (decide (st = GUARDIAN_NODE_LINK_PERSISTENCE_STATUS_VALID_PERSISTED_STATE)) as [->|Hst].
  - change (guardian_node_link_freshness_persistence_classify _ (Some r) (Some e)
      (Some GUARDIAN_NODE_LINK_PERSISTENCE_CLASSIFICATION_INVALID)) with
      (guardian_node_link_freshness_persistence_classify
        GUARDIAN_NODE_LINK_PERSISTENCE_STATUS_VALID_PERSISTED_STATE (Some r) (Some e) (Some c)).
    destruct (guardian_node_link_freshness_persistence_classify _ _ _ _) as [res cl].
    destruct (bool_decide_reflect (res = GUARDIAN_NODE_LINK_FRESHNESS_OK)) as [->|Hr]; cbn [negb].
    2:{ split; [by intros [= ->]|]. by intros [_ ?]. }
    destruct (bool_decide_reflect (cl = Some
      GUARDIAN_NODE_LINK_PERSISTENCE_CLASSIFICATION_VALIDATED_RECORD_CANDIDATE)) as [->|Hc];
      cbn [negb]; [done|]. split; [by intros [= ->]|]. by intros [_ ?].
  - split; [|by intros [? _]]. unfold guardian_node_link_freshness_persistence_classify.
    cbn [is_null orb]. destruct (negb _); [discriminate|]. by destruct st.
Qed.

(** The transaction answers OK only with COMMITTED. *)
Lemma transact_commit_ok {S : Type} (prov : guardian_node_link_freshness_persistence_provider_t S)
    previous e c o (s : S) o' s' :
  generation_u32 previous -> is_u32 (rec_record_generation c) ->
  guardian_node_link_freshness_persistence_transact_commit (Some prov) previous (Some e) (Some c)
    (Some o) s = (GUARDIAN_NODE_LINK_PERSISTENCE_OPERATION_OK, o', s') ->
  o' = Some GUARDIAN_NODE_LINK_PERSISTENCE_TRANSACTION_COMMITTED.
Proof.
  intros Hg Hc H.
  destruct (prov_load prov) as [l|] eqn:El, (prov_write_candidate prov) as [w|] eqn:Ew,
    (prov_verify_candidate prov) as [v|] eqn:Ev, (prov_commit_candidate prov) as [k|] eqn:Ek;
    try (unfold guardian_node_link_freshness_persistence_transact_commit in H;
         rewrite ?El, ?Ew, ?Ev, ?Ek in H; discriminate H).
  assert (Hcb : provider_callbacks prov w v k) by (split; [by exists l|done]).
  pose proof (transact_commit_transacts prov w v k e previous c o s Hcb Hg Hc) as Ht.
  rewrite H in Ht. by inversion Ht.
Qed.

(** ** Reading the anchor *)

Section specs.
Context {S : Type} (persistence : guardian_node_link_freshness_persistence_provider_t S).
Context (anchor : guardian_node_link_rollback_anchor_provider_t S).
Context (load : S -> guardian_node_link_freshness_persistence_status_t -> record ->
  op_result * guardian_node_link_freshness_persistence_status_t * record * S).
Context (status : guardian_node_link_rollback_anchor_status_fn S).
Context (read : guardian_node_link_rollback_anchor_read_fn S).
Context (advance : guardian_node_link_rollback_anchor_advance_fn S).
Context (Hload : prov_load persistence = Some load).
Context (Hstatus : anchor_prov_status anchor = Some status).
Context (Hread : anchor_prov_read anchor = Some read).
Context (Hadvance : anchor_prov_advance anchor = Some advance).

(** The read callback fills the record it is given, whose commitment is an array
    of 32 bytes. *)
Definition read_typed : Prop :=
  forall s i a st res a' st' s',
    read s i a st = (res, a', st', s') -> anchor_object a -> anchor_object a'.
Context (Htyped : read_typed).

Local Abbreviation valid_status := GUARDIAN_NODE_LINK_ROLLBACK_ANCHOR_STATUS_VALID.
Local Abbreviation unset := GUARDIAN_NODE_LINK_ROLLBACK_ANCHOR_STATUS_INVALID.
Local Abbreviation anchor_ok := GUARDIAN_NODE_LINK_ROLLBACK_ANCHOR_PROVIDER_OK.
Local Abbreviation matches := GUARDIAN_NODE_LINK_ROLLBACK_ANCHOR_COMPARE_MATCH.

Lemma zero_anchor_object : anchor_object zero_anchor.
Proof.
  constructor; [by vm_compute| |reflexivity].
  apply (bool_decide_eq_true_1 (bytes _)). reflexivity.
Qed.

Lemma read_and_compare_eq e r nv ev s :
  record_valid r ->
  read_and_compare (Some anchor) e r nv ev s =
  let '(res, a, st, s') := read s e zero_anchor unset in
  if bool_decide (res = anchor_ok) then
    if bool_decide (st = valid_status) then
      inr (anchor_ok, compare_spec a r, set_anchor_comparison (compare_spec a r)
             (set_anchor_status st ev), s')
    else inl (nv, set_anchor_status st ev, s')
  else inl (map_anchor_provider_result res, set_anchor_status st ev, s').
Proof.
  intros Hv. unfold read_and_compare, guardian_node_link_rollback_anchor_read. rewrite Hread.
  destruct (read s e zero_anchor unset) as [[[res a] st] s'] eqn:E.
  pose proof (Htyped _ _ _ _ _ _ _ _ E zero_anchor_object) as Ha. cbn [from_option id].
  destruct (bool_decide_reflect (res = anchor_ok)) as [->|]; cbn [negb]; [|reflexivity].
  destruct (bool_decide_reflect (st = valid_status)) as [->|]; cbn [negb]; [|reflexivity].
  by rewrite compare_valid.
Qed.

(** [r] is the persisted record, valid for [e], and the anchor commits to it. *)
Definition restores (e : identity_t) (s : S) (r : record) (s' : S) : Prop :=
  exists s1 s2 a,
    load s GUARDIAN_NODE_LINK_PERSISTENCE_STATUS_INVALID zero_record
      = (GUARDIAN_NODE_LINK_PERSISTENCE_OPERATION_OK,
         GUARDIAN_NODE_LINK_PERSISTENCE_STATUS_VALID_PERSISTED_STATE, r, s1) /\
    record_ok e r /\ status s1 e unset = (anchor_ok, valid_status, s2) /\
    read s2 e zero_anchor unset = (anchor_ok, a, valid_status, s') /\
    compare_spec a r = matches.

Definition initial_runtime : runtime_t :=
  RUNTIME GUARDIAN_NODE_LINK_FRESHNESS_UNINITIALIZED zero_identity 0 0 0 0 0 0 0 0.

Lemma recover_load_inv e ev s c r ev' s' :
  recover_load load e ev s = inr (c, r, ev', s') ->
  exists st, load s GUARDIAN_NODE_LINK_PERSISTENCE_STATUS_INVALID zero_record
    = (GUARDIAN_NODE_LINK_PERSISTENCE_OPERATION_OK, st, r, s') /\
  guardian_node_link_freshness_persistence_classify st (Some r) (Some e)
    (Some GUARDIAN_NODE_LINK_PERSISTENCE_CLASSIFICATION_INVALID)
    = (GUARDIAN_NODE_LINK_FRESHNESS_OK, Some c) /\
  ev' = set_classification c (set_persistence_status st ev).
Proof.
  unfold recover_load. destruct (load s _ _) as [[[pr st] r1] s1].
  destruct (bool_decide_reflect (pr = GUARDIAN_NODE_LINK_PERSISTENCE_OPERATION_OK)) as [->|];
    cbn [negb]; [|discriminate].
  destruct (guardian_node_link_freshness_persistence_classify st _ _ _) as [res cl] eqn:E.
  destruct (bool_decide_reflect (res = GUARDIAN_NODE_LINK_FRESHNESS_OK)) as [->|];
    cbn [negb]; [|discriminate].
  destruct (bool_decide _); [discriminate|]. intros [= <- <- <- <-]. exists st.
  split; [reflexivity|]. split; [|reflexivity]. rewrite E. f_equal.
  destruct cl as [c|]; [reflexivity|]. exfalso. revert E.
  unfold guardian_node_link_freshness_persistence_classify. cbn [is_null orb].
  destruct (negb _); [discriminate|]. destruct st; try discriminate.
  repeat (match goal with |- (if ?x then _ else _) = _ -> _ => destruct x end; [discriminate|]).
  discriminate.
Qed.

(** Nothing restored, nothing valid, nothing authorized. *)
Definition clean (ev : evidence_t) : Prop :=
  ev_runtime_restored ev = 0 /\ ev_persistent_anti_replay_valid ev = 0 /\
  ev_actuation_authorized ev = 0.

Local Abbreviation ok := GUARDIAN_NODE_LINK_PERSISTENT_ANTI_REPLAY_OK.

Lemma map_persistence_not_ok r :
  r <> GUARDIAN_NODE_LINK_PERSISTENCE_OPERATION_OK -> map_persistence_operation r <> ok.
Proof. by destruct r. Qed.

Lemma map_anchor_not_ok r : r <> anchor_ok -> map_anchor_provider_result r <> ok.
Proof. by destruct r. Qed.

Lemma recover_load_stops e ev s res ev' s' :
  clean ev -> recover_load load e ev s = inl (res, ev', s') -> res <> ok /\ clean ev'.
Proof.
  intros Hc. unfold recover_load. destruct (load s _ _) as [[[pr st] r1] s1].
  destruct (bool_decide_reflect (pr = GUARDIAN_NODE_LINK_PERSISTENCE_OPERATION_OK)) as [->|Hp];
    cbn [negb]; [|intros [= <- <- <-]; split; [by apply map_persistence_not_ok|exact Hc]].
  destruct (guardian_node_link_freshness_persistence_classify st _ _ _) as [res' cl].
  destruct (negb _); [by intros [= <- <- <-]|].
  destruct (bool_decide _); [by intros [= <- <- <-]|discriminate].
Qed.

Lemma recover_status_eq e c ev s :
  recover_status (Some anchor) e c ev s =
  let '(res, st, s') := status s e unset in
  let ev' := set_anchor_status st ev in
  if bool_decide (res = anchor_ok) then
    if bool_decide (c = GUARDIAN_NODE_LINK_PERSISTENCE_CLASSIFICATION_VALIDATED_RECORD_CANDIDATE)
    then if bool_decide (st = valid_status) then inr (ev', s')
         else inl (if bool_decide (st = GUARDIAN_NODE_LINK_ROLLBACK_ANCHOR_STATUS_UNPROVISIONED)
                   then GUARDIAN_NODE_LINK_PERSISTENT_ANTI_REPLAY_ROLLBACK_SUSPECTED
                   else GUARDIAN_NODE_LINK_PERSISTENT_ANTI_REPLAY_FRESHNESS_UNKNOWN, ev', s')
    else inl (if bool_decide (c = GUARDIAN_NODE_LINK_PERSISTENCE_CLASSIFICATION_NO_STATE_BOOTSTRAP)
              then if bool_decide (st = GUARDIAN_NODE_LINK_ROLLBACK_ANCHOR_STATUS_UNPROVISIONED)
                   then GUARDIAN_NODE_LINK_PERSISTENT_ANTI_REPLAY_BOOTSTRAP_REQUIRED
                   else if bool_decide (st = valid_status)
                   then GUARDIAN_NODE_LINK_PERSISTENT_ANTI_REPLAY_ROLLBACK_SUSPECTED
                   else GUARDIAN_NODE_LINK_PERSISTENT_ANTI_REPLAY_FRESHNESS_UNKNOWN
              else GUARDIAN_NODE_LINK_PERSISTENT_ANTI_REPLAY_INVALID, ev', s')
  else inl (map_anchor_provider_result res, ev', s').
Proof.
  unfold recover_status, guardian_node_link_rollback_anchor_status. rewrite Hstatus.
  destruct (status s e unset) as [[res st] s']. cbn [from_option id].
  destruct (bool_decide_reflect (res = anchor_ok)); cbn [negb]; [|reflexivity].
  by destruct c; repeat case_bool_decide.
Qed.

Lemma recover_status_stops e c ev s res ev' s' :
  clean ev -> recover_status (Some anchor) e c ev s = inl (res, ev', s') -> res <> ok /\ clean ev'.
Proof.
  intros Hc. rewrite recover_status_eq. destruct (status s e unset) as [[r st] s1].
  destruct (bool_decide_reflect (r = anchor_ok)) as [->|Hr];
    [|intros [= <- <- <-]; split; [by apply map_anchor_not_ok|exact Hc]].
  repeat case_bool_decide; try discriminate; by intros [= <- <- <-].
Qed.

Lemma recover_status_inv e c ev s ev' s' :
  recover_status (Some anchor) e c ev s = inr (ev', s') ->
  c = GUARDIAN_NODE_LINK_PERSISTENCE_CLASSIFICATION_VALIDATED_RECORD_CANDIDATE /\
  status s e unset = (anchor_ok, valid_status, s') /\ ev' = set_anchor_status valid_status ev.
Proof.
  rewrite recover_status_eq. destruct (status s e unset) as [[r st] s1].
  repeat case_bool_decide; subst; try discriminate. by intros [= <- <-].
Qed.

Lemma read_and_compare_stops e r nv ev s res ev' s' :
  record_valid r -> nv <> ok -> clean ev ->
  read_and_compare (Some anchor) e r nv ev s = inl (res, ev', s') -> res <> ok /\ clean ev'.
Proof.
  intros Hv Hn Hc. rewrite read_and_compare_eq by exact Hv.
  destruct (read s e zero_anchor unset) as [[[r' a] st] s1].
  destruct (bool_decide_reflect (r' = anchor_ok)) as [->|Hr];
    [|intros [= <- <- <-]; split; [by apply map_anchor_not_ok|exact Hc]].
  case_bool_decide; [discriminate|]. by intros [= <- <- <-].
Qed.

Lemma read_and_compare_inv e r nv ev s res c ev' s' :
  record_valid r -> read_and_compare (Some anchor) e r nv ev s = inr (res, c, ev', s') ->
  exists a, read s e zero_anchor unset = (anchor_ok, a, valid_status, s') /\ res = anchor_ok /\
  c = compare_spec a r /\ ev' = set_anchor_comparison c (set_anchor_status valid_status ev).
Proof.
  intros Hv. rewrite read_and_compare_eq by exact Hv.
  destruct (read s e zero_anchor unset) as [[[r' a] st] s1].
  repeat case_bool_decide; subst; try discriminate. intros [= <- <- <- <-]. by exists a.
Qed.

Lemma read_and_compare_match e r nv ev s a s' :
  record_valid r -> read s e zero_anchor unset = (anchor_ok, a, valid_status, s') ->
  compare_spec a r = matches ->
  read_and_compare (Some anchor) e r nv ev s
  = inr (anchor_ok, matches, set_anchor_comparison matches (set_anchor_status valid_status ev), s').
Proof.
  intros Hv Hr Hm. rewrite read_and_compare_eq, Hr by exact Hv.
  by rewrite !bool_decide_true, Hm by reflexivity.
Qed.

(** ** The outcome of a recovery *)

Inductive recovery_outcome (e : identity_t) (s : S)
  : result_t * option runtime_t * option record * option evidence_t * S -> Prop :=
  | recovered r ev s' :
      restores e s r s' -> ev_persistent_anti_replay_valid ev = 1 ->
      ev_runtime_restored ev = 1 -> ev_anchor_comparison ev = matches ->
      ev_record_generation ev = rec_record_generation r -> ev_actuation_authorized ev = 0 ->
      recovery_outcome e s (ok, Some (runtime_of_record r), Some r, Some ev, s')
  | not_recovered res ev s' :
      res <> ok -> (forall r s2, ~ restores e s r s2) -> clean ev ->
      recovery_outcome e s (res, Some initial_runtime, Some zero_record, Some ev, s').

Lemma recover_restores e rt0 r0 ev0 s r s' :
  restores e s r s' -> exists ev,
  guardian_node_link_persistent_anti_replay_recover (Some persistence) (Some anchor) (Some e)
    (Some rt0) (Some r0) (Some ev0) s
  = (ok, Some (runtime_of_record r), Some r, Some ev, s') /\
  ev_persistent_anti_replay_valid ev = 1 /\ ev_runtime_restored ev = 1 /\
  ev_anchor_comparison ev = matches /\ ev_record_generation ev = rec_record_generation r /\
  ev_actuation_authorized ev = 0.
Proof.
  intros (s1 & s2 & a & Hl & Hr & Hs & Hrd & Hm).
  unfold guardian_node_link_persistent_anti_replay_recover.
  cbn [guardian_node_link_freshness_runtime_init guardian_persistent_anti_replay_evidence_init].
  rewrite Hload. unfold recover_load. rewrite Hl.
  rewrite (proj2 (classify_candidate _ r e _) (conj eq_refl Hr)).
  rewrite !(bool_decide_true (_ = _)) by reflexivity. cbn [negb from_option id].
  rewrite (bool_decide_false (_ = _)) by discriminate.
  rewrite recover_status_eq, Hs. rewrite !bool_decide_true by reflexivity.
  cbv beta zeta iota.
  rewrite (read_and_compare_match _ _ _ _ _ a s') by (first [exact (record_ok_valid e r Hr) | done]).
  rewrite bool_decide_true by reflexivity. cbn [negb comparison_verdict].
  rewrite (restore_runtime_spec e) by exact Hr. rewrite bool_decide_true by reflexivity. cbn [negb].
  eexists. split; [reflexivity|]. by repeat split.
Qed.

Lemma recover_outcome e rt0 r0 ev0 s :
  recovery_outcome e s
    (guardian_node_link_persistent_anti_replay_recover (Some persistence) (Some anchor) (Some e)
       (Some rt0) (Some r0) (Some ev0) s).
Proof.
  destruct (guardian_node_link_persistent_anti_replay_recover _ _ _ _ _ _ s)
    as [[[[res rt] rec] ev] s'] eqn:E.
  assert (Hdec : (exists r, restores e s r s' /\ res = ok) \/
    res <> ok /\ rt = Some initial_runtime /\ rec = Some zero_record /\
    exists ev', ev = Some ev' /\ clean ev').
  { unfold guardian_node_link_persistent_anti_replay_recover in E.
    cbn [guardian_node_link_freshness_runtime_init guardian_persistent_anti_replay_evidence_init]
      in E. rewrite Hload in E.
    set (ev1 := EVIDENCE _ _ _ _ _ _ _ _ _ _ _ _ _) in E.
    assert (Hc1 : clean ev1) by done.
    destruct (recover_load load e ev1 s) as [[[r1 ev2] s1]|[[[c loaded] ev2] s1]] eqn:E1.
    { apply recover_load_stops in E1 as [H1 H2]; [|exact Hc1]. injection E as <- <- <- <- <-.
      right. by repeat (split; [done|]); eexists. }
    apply recover_load_inv in E1 as (st & Hl & Hcl & Hev2).
    assert (Hc2 : clean ev2) by (by rewrite Hev2).
    destruct (recover_status (Some anchor) e c ev2 s1) as [[[r1 ev3] s2]|[ev3 s2]] eqn:E2.
    { apply recover_status_stops in E2 as [H1 H2]; [|exact Hc2]. injection E as <- <- <- <- <-.
      right. by repeat (split; [done|]); eexists. }
    apply recover_status_inv in E2 as (-> & Hs & Hev3).
    assert (Hc3 : clean ev3) by (by rewrite Hev3).
    apply classify_candidate in Hcl as [-> Hr]. pose proof (record_ok_valid e loaded Hr) as Hv.
    destruct (read_and_compare (Some anchor) e loaded _ ev3 s2)
      as [[[r1 ev4] s3]|[[[ar cmp] ev4] s3]] eqn:E3.
    { apply read_and_compare_stops in E3 as [H1 H2]; [|exact Hv|discriminate|exact Hc3].
      injection E as <- <- <- <- <-. right. by repeat (split; [done|]); eexists. }
    apply read_and_compare_inv in E3 as (a & Hrd & -> & Hcmp & Hev4); [|exact Hv].
    assert (Hc4 : clean ev4) by (by rewrite Hev4).
    rewrite bool_decide_true in E by reflexivity. cbn [negb] in E.
    destruct (comparison_verdict cmp) as [v|] eqn:Ev.
    { injection E as <- <- <- <- <-. right. split; [by destruct cmp; inversion Ev|].
      by repeat (split; [done|]); eexists. }
    assert (Hm : compare_spec a loaded = matches) by (rewrite <- Hcmp; by destruct cmp).
    rewrite (restore_runtime_spec e) in E by exact Hr.
    rewrite bool_decide_true in E by reflexivity. cbn [negb] in E.
    injection E as <- <- <- <- <-. left. exists loaded. split; [|reflexivity].
    by exists s1, s2, a. }
  destruct Hdec as [(r & Hr & ->)|(H1 & -> & -> & ev' & -> & H2)].
  - destruct (recover_restores e rt0 r0 ev0 s r s' Hr) as (ev' & E' & H1 & H2 & H3 & H4 & H5).
    rewrite E in E'. injection E' as -> -> ->. by apply recovered.
  - apply not_recovered; [exact H1| |exact H2]. intros r s2 Hr.
    destruct (recover_restores e rt0 r0 ev0 s r s2 Hr) as (ev2 & E' & _).
    rewrite E in E'. by injection E' as ->.
Qed.

(** ** The outcome of a continuation *)

(** The runtime is the one of the previous record. *)
Record in_step (e : identity_t) (previous : record) (rt : runtime_t) : Prop := {
  is_record : record_ok e previous;
  is_runtime : runtime_ok rt;
  is_active : rt_condition rt = GUARDIAN_NODE_LINK_FRESHNESS_ACTIVE;
  is_identity : identity_key (rt_identity rt) = identity_key e;
  is_epoch : rt_accepted_epoch rt = rec_accepted_epoch previous;
  is_sequence : rt_accepted_sequence rt = rec_accepted_sequence previous
}.

Lemma continuation_precheck_spec e previous rt :
  match continuation_precheck e previous rt with
  | None => in_step e previous rt
  | Some res => res <> ok /\ ~ in_step e previous rt
  end.
Proof.
  unfold continuation_precheck.
  pose proof (classify_candidate GUARDIAN_NODE_LINK_PERSISTENCE_STATUS_VALID_PERSISTED_STATE
    previous e GUARDIAN_NODE_LINK_PERSISTENCE_CLASSIFICATION_INVALID) as Hcl.
  destruct (guardian_node_link_freshness_persistence_classify _ _ _ _) as [res cl].
  destruct (bool_decide_reflect (res = GUARDIAN_NODE_LINK_FRESHNESS_OK)) as [->|Hr]; cbn [negb].
  2:{ split; [done|]. intros H. destruct Hcl as [_ Hcl].
      specialize (Hcl (conj eq_refl (is_record _ _ _ H))). by injection Hcl as ->. }
  destruct (bool_decide_reflect (cl = Some
    GUARDIAN_NODE_LINK_PERSISTENCE_CLASSIFICATION_VALIDATED_RECORD_CANDIDATE)) as [->|Hc];
    cbn [negb].
  2:{ split; [done|]. intros H. destruct Hcl as [_ Hcl].
      specialize (Hcl (conj eq_refl (is_record _ _ _ H))). by injection Hcl as ->. }
  destruct (proj1 Hcl eq_refl) as [_ Hrec]. clear Hcl.
  assert (Hn : forall f, (f = 0 -> False) -> (f =? 0) = false) by (intros; by apply Z.eqb_neq).
  destruct (_ || _) eqn:E.
  - split; [done|]. intros [_ Hok Ha Hi He Hs].
    destruct (rto_active _ Hok Ha) as (F1 & F2 & F3).
    rewrite (runtime_validate_complete _ Hok), Ha, !bool_decide_true in E by reflexivity.
    rewrite !Hn, He, Hs, !Z.eqb_refl in E by assumption.
    apply anti_replay_identity_key in Hi. by rewrite Hi in E.
  - apply orb_false_iff in E as
      [[[[[[[A B]%orb_false_iff _]%orb_false_iff _]%orb_false_iff _]%orb_false_iff C]%orb_false_iff
         D]%orb_false_iff F].
    apply negb_false_iff, bool_decide_eq_true in A, B.
    apply negb_false_iff in C. apply negb_false_iff, Z.eqb_eq in D, F.
    constructor; [exact Hrec|by apply runtime_validate_sound|exact B| |exact D|exact F].
    by apply anti_replay_identity_key.
Qed.

Lemma continuation_position_spec previous cmp next_epoch next_sequence :
  0 <= rec_accepted_sequence previous ->
  match continuation_position previous cmp next_epoch next_sequence with
  | None => cmp = matches /\ next_epoch = rec_accepted_epoch previous /\
      rec_accepted_sequence previous < next_sequence /\ rec_record_generation previous + 1 < UINT32_MAX
  | Some res => res <> ok /\ ~ (cmp = matches /\ next_epoch = rec_accepted_epoch previous /\
      rec_accepted_sequence previous < next_sequence /\ rec_record_generation previous + 1 < UINT32_MAX)
  end.
Proof.
  intros Hs. unfold continuation_position.
  repeat case_bool_decide; subst; cbn [negb];
    try (split; [discriminate|by intros [? _]]).
  destruct (Z.eqb_spec next_epoch (rec_accepted_epoch previous)); cbn [negb];
    [|by split; [|intros (_ & ? & _)]].
  destruct (Z.eqb_spec next_sequence 0), (Z.leb_spec next_sequence (rec_accepted_sequence previous));
    cbn [orb]; try (split; [discriminate|]; intros (_ & _ & ? & _); lia).
  destruct (Z.leb_spec (UINT32_MAX - 1) (rec_record_generation previous));
    [split; [discriminate|]; intros (_ & _ & _ & ?); lia|].
  repeat (split; [done|]). lia.
Qed.

(** The commit went through the persistence provider and the anchor, in this
    order, and the anchor reads back as the candidate's. *)
Definition continues (e : identity_t) (previous : record) (next_epoch next_sequence : Z)
    (s : S) (c : record) (s' : S) : Prop :=
  exists s1 s2 s3 a a',
    read s e zero_anchor unset = (anchor_ok, a, valid_status, s1) /\
    compare_spec a previous = matches /\ next_epoch = rec_accepted_epoch previous /\
    rec_accepted_sequence previous < next_sequence /\
    rec_record_generation previous + 1 < UINT32_MAX /\
    c = continuation_record previous next_sequence /\
    guardian_node_link_freshness_persistence_transact_commit (Some persistence) (Some previous)
      (Some e) (Some c) (Some GUARDIAN_NODE_LINK_PERSISTENCE_TRANSACTION_INVALID) s1
      = (GUARDIAN_NODE_LINK_PERSISTENCE_OPERATION_OK,
         Some GUARDIAN_NODE_LINK_PERSISTENCE_TRANSACTION_COMMITTED, s2) /\
    advance s2 e (rec_record_generation previous) (rec_record_generation c) (commitment_of c)
      = (anchor_ok, s3) /\
    read s3 e zero_anchor unset = (anchor_ok, a', valid_status, s') /\
    compare_spec a' c = matches.

Lemma continuation_record_ok e previous n :
  record_ok e previous -> 0 < n -> record_ok e (continuation_record previous n).
Proof. intros [H1 H2 H3 H4 H5 H6] Hn. constructor; try assumption. cbn. lia. Qed.

Lemma advance_eq e previous n c s :
  is_u32 (rec_record_generation previous) -> rec_record_generation previous + 1 < UINT32_MAX ->
  guardian_node_link_rollback_anchor_advance (Some anchor) (Some e) (rec_record_generation previous)
    (rec_record_generation (continuation_record previous n)) (Some c) s
  = advance s e (rec_record_generation previous)
      (rec_record_generation (continuation_record previous n)) c.
Proof.
  intros Hu Hg. unfold guardian_node_link_rollback_anchor_advance. rewrite Hadvance.
  rewrite next_generation_spec by exact Hu. rewrite decide_True by exact Hg.
  rewrite bool_decide_true by reflexivity. cbn [negb continuation_record rec_record_generation].
  unfold is_u32, UINT32_MAX in *. rewrite u32_id by (unfold is_u32; lia).
  by rewrite bool_decide_true.
Qed.

Lemma continuation_anchor_eq e previous n ev s :
  is_u32 (rec_record_generation previous) -> rec_record_generation previous + 1 < UINT32_MAX ->
  record_valid (continuation_record previous n) ->
  continuation_anchor (Some anchor) e previous (continuation_record previous n) ev s =
  let c := continuation_record previous n in
  let '(res, s1) :=
    advance s e (rec_record_generation previous) (rec_record_generation c) (commitment_of c) in
  if bool_decide (res = anchor_ok) then
    let ev := set_progress (ev_persistence_committed ev) 1 (ev_anchor_readback_verified ev) ev in
    match read_and_compare (Some anchor) e c
            GUARDIAN_NODE_LINK_PERSISTENT_ANTI_REPLAY_STATE_UNCERTAIN ev s1 with
    | inl r => inl r
    | inr (_, cmp, ev, s2) =>
        if bool_decide (cmp = matches)
        then inr (set_progress (ev_persistence_committed ev) (ev_anchor_advanced ev) 1 ev, s2)
        else inl (GUARDIAN_NODE_LINK_PERSISTENT_ANTI_REPLAY_STATE_UNCERTAIN, ev, s2)
    end
  else inl (map_anchor_provider_result res, ev, s1).
Proof.
  intros Hu Hg Hv. unfold continuation_anchor. rewrite commitment_valid by exact Hv.
  rewrite bool_decide_true by reflexivity. cbn [negb]. rewrite advance_eq by assumption.
  cbv zeta. destruct (advance _ _ _ _ _) as [res s1].
  destruct (bool_decide_reflect (res = anchor_ok)); cbn [negb]; [|reflexivity].
  destruct (read_and_compare _ _ _ _ _ _) as [[[r ev1] s2]|[[[r cmp] ev1] s2]] eqn:E; [reflexivity|].
  apply read_and_compare_inv in E as (a & _ & -> & _); [|exact Hv].
  rewrite bool_decide_true by reflexivity. cbn [negb orb]. by destruct (bool_decide _).
Qed.

Definition record_u32 (r : record) : Prop :=
  0 <= rec_accepted_sequence r /\ is_u32 (rec_record_generation r).

Inductive continuation_outcome (e : identity_t) (previous : record) (ne ns : Z) (rt : runtime_t)
    (s : S)
  : result_t * option runtime_t * option record * option evidence_t * S -> Prop :=
  | continued c ev s' :
      in_step e previous rt -> continues e previous ne ns s c s' ->
      ev_persistence_committed ev = 1 -> ev_anchor_advanced ev = 1 ->
      ev_anchor_readback_verified ev = 1 -> ev_persistent_anti_replay_valid ev = 1 ->
      ev_actuation_authorized ev = 0 ->
      continuation_outcome e previous ne ns rt s
        (ok, Some (runtime_of_record c), Some c, Some ev, s')
  | not_continued res ev s' :
      res <> ok -> (forall c s2, in_step e previous rt -> ~ continues e previous ne ns s c s2) ->
      clean ev -> (ev_anchor_advanced ev = 1 -> ev_persistence_committed ev = 1) ->
      continuation_outcome e previous ne ns rt s (res, Some rt, Some zero_record, Some ev, s').

Lemma commit_continues e previous ne ns rt r0 ev0 s c s' :
  record_u32 previous -> in_step e previous rt -> continues e previous ne ns s c s' ->
  exists ev,
  guardian_node_link_persistent_anti_replay_commit_continuation (Some persistence) (Some anchor)
    (Some e) (Some previous) ne ns (Some rt) (Some r0) (Some ev0) s
  = (ok, Some (runtime_of_record c), Some c, Some ev, s') /\
  ev_persistence_committed ev = 1 /\ ev_anchor_advanced ev = 1 /\
  ev_anchor_readback_verified ev = 1 /\ ev_persistent_anti_replay_valid ev = 1 /\
  ev_actuation_authorized ev = 0.
Proof.
  intros [Hu Hgu] Hin (s1 & s2 & s3 & a & a' & Hr & Hm & He & Hs & Hg & -> & Ht & Had & Hr' & Hm').
  assert (Hc : record_ok e (continuation_record previous ns))
    by (apply continuation_record_ok; [apply Hin|lia]).
  unfold guardian_node_link_persistent_anti_replay_commit_continuation.
  cbn [guardian_persistent_anti_replay_evidence_init].
  pose proof (continuation_precheck_spec e previous rt) as Hp.
  destruct (continuation_precheck e previous rt); [by destruct Hp|].
  rewrite (read_and_compare_match _ _ _ _ _ a s1)
    by (first [exact (record_ok_valid e _ (is_record _ _ _ Hin)) | done]).
  rewrite bool_decide_true by reflexivity. cbn [negb].
  pose proof (continuation_position_spec previous matches ne ns Hu) as Hp2.
  destruct (continuation_position previous matches ne ns); [exfalso; by apply (proj2 Hp2)|].
  rewrite Ht. rewrite !bool_decide_true by reflexivity. cbn [negb orb].
  rewrite continuation_anchor_eq by (first [exact (record_ok_valid e _ Hc) | assumption]).
  cbv zeta. rewrite Had. rewrite bool_decide_true by reflexivity.
  rewrite (read_and_compare_match _ _ _ _ _ a' s')
    by (first [exact (record_ok_valid e _ Hc) | done]).
  rewrite bool_decide_true by reflexivity.
  rewrite (restore_runtime_spec e) by exact Hc. rewrite bool_decide_true by reflexivity.
  cbn [negb]. eexists. split; [reflexivity|]. by repeat split.
Qed.

Lemma read_and_compare_progress e r nv ev s res ev' s' :
  record_valid r ->
  read_and_compare (Some anchor) e r nv ev s = inl (res, ev', s') ->
  ev_persistence_committed ev' = ev_persistence_committed ev /\
  ev_anchor_advanced ev' = ev_anchor_advanced ev.
Proof.
  intros Hv. rewrite read_and_compare_eq by exact Hv.
  destruct (read s e zero_anchor unset) as [[[r' a] st] s1].
  repeat case_bool_decide; try discriminate; by intros [= <- <- <-].
Qed.

Lemma continuation_anchor_stops e previous n ev s res ev' s' :
  is_u32 (rec_record_generation previous) -> rec_record_generation previous + 1 < UINT32_MAX ->
  record_valid (continuation_record previous n) -> clean ev -> ev_persistence_committed ev = 1 ->
  continuation_anchor (Some anchor) e previous (continuation_record previous n) ev s
    = inl (res, ev', s') ->
  res <> ok /\ clean ev' /\ ev_persistence_committed ev' = 1.
Proof.
  intros Hu Hg Hv Hc Hp. rewrite continuation_anchor_eq by assumption. cbv zeta.
  destruct (advance _ _ _ _ _) as [ar s1].
  destruct (bool_decide_reflect (ar = anchor_ok)) as [->|Ha];
    [|intros [= <- <- <-]; split; [by apply map_anchor_not_ok|done]].
  set (ev1 := set_progress _ _ _ _). assert (Hc1 : clean ev1) by exact Hc.
  destruct (read_and_compare _ _ _ _ ev1 s1) as [[[r ev2] s2]|[[[r cmp] ev2] s2]] eqn:E.
  - intros [= <- <- <-]. pose proof E as E2.
    apply read_and_compare_stops in E as [H1 H2]; [|exact Hv|discriminate|exact Hc1].
    apply read_and_compare_progress in E2 as [H3 _]; [|exact Hv].
    split; [exact H1|]. split; [exact H2|]. by rewrite H3.
  - apply read_and_compare_inv in E as (a & _ & _ & _ & Hev); [|exact Hv].
    case_bool_decide; [discriminate|]. intros [= <- <- <-]. subst ev2. split; [discriminate|]. split; [exact Hc|exact Hp].
Qed.

Lemma continuation_anchor_inv e previous n ev s ev' s' :
  is_u32 (rec_record_generation previous) -> rec_record_generation previous + 1 < UINT32_MAX ->
  record_valid (continuation_record previous n) ->
  continuation_anchor (Some anchor) e previous (continuation_record previous n) ev s
    = inr (ev', s') ->
  exists s3 a', advance s e (rec_record_generation previous)
      (rec_record_generation (continuation_record previous n))
      (commitment_of (continuation_record previous n)) = (anchor_ok, s3) /\
    read s3 e zero_anchor unset = (anchor_ok, a', valid_status, s') /\
    compare_spec a' (continuation_record previous n) = matches.
Proof.
  intros Hu Hg Hv. rewrite continuation_anchor_eq by assumption. cbv zeta.
  destruct (advance _ _ _ _ _) as [ar s1]. case_bool_decide; [|discriminate]. subst ar.
  destruct (read_and_compare _ _ _ _ _ s1) as [r|[[[r cmp] ev2] s2]] eqn:E; [discriminate|].
  apply read_and_compare_inv in E as (a & Hrd & _ & -> & _); [|exact Hv].
  case_bool_decide; [|discriminate]. intros [= _ <-]. by exists s1, a.
Qed.

Lemma commit_outcome e previous ne ns rt r0 ev0 s :
  record_u32 previous ->
  continuation_outcome e previous ne ns rt s
    (guardian_node_link_persistent_anti_replay_commit_continuation (Some persistence) (Some anchor)
       (Some e) (Some previous) ne ns (Some rt) (Some r0) (Some ev0) s).
Proof.
  intros [Hu Hgu].
  destruct (guardian_node_link_persistent_anti_replay_commit_continuation _ _ _ _ _ _ _ _ _ s)
    as [[[[res rt'] rec] ev] s'] eqn:E.
  assert (Hdec : (in_step e previous rt /\ exists c, continues e previous ne ns s c s' /\ res = ok) \/
    res <> ok /\ rt' = Some rt /\ rec = Some zero_record /\ exists ev', ev = Some ev' /\
    clean ev' /\ (ev_anchor_advanced ev' = 1 -> ev_persistence_committed ev' = 1)).
  { unfold guardian_node_link_persistent_anti_replay_commit_continuation in E.
    cbn [guardian_persistent_anti_replay_evidence_init] in E.
    set (ev1 := EVIDENCE _ _ _ _ _ _ _ _ _ _ _ _ _) in E. assert (Hc1 : clean ev1) by done.
    pose proof (continuation_precheck_spec e previous rt) as Hp.
    destruct (continuation_precheck e previous rt) as [v|].
    { injection E as <- <- <- <- <-. right. split; [apply Hp|]. by repeat (split; [done|]); eexists. }
    pose proof (record_ok_valid e _ (is_record _ _ _ Hp)) as Hv.
    destruct (read_and_compare (Some anchor) e previous _ ev1 s)
      as [[[r1 ev2] s1]|[[[ar cmp] ev2] s1]] eqn:E1.
    { pose proof E1 as E2. apply read_and_compare_progress in E2 as [_ H3]; [|exact Hv].
      apply read_and_compare_stops in E1 as [H1 H2]; [|exact Hv|discriminate|exact Hc1].
      injection E as <- <- <- <- <-. right. do 3 (split; [done|]). eexists. split; [done|].
      split; [done|]. by rewrite H3. }
    apply read_and_compare_inv in E1 as (a & Hrd & -> & Hcmp & Hev2); [|exact Hv].
    rewrite bool_decide_true in E by reflexivity. cbn [negb] in E.
    pose proof (continuation_position_spec previous cmp ne ns Hu) as Hpos.
    destruct (continuation_position previous cmp ne ns) as [v|].
    { injection E as <- <- <- <- <-. right. split; [apply Hpos|]. do 2 (split; [done|]).
      exists ev2. by rewrite Hev2. }
    destruct Hpos as (Hm & Hne & Hns & Hg). subst cmp. rewrite Hm in Hev2.
    assert (Hrc : record_ok e (continuation_record previous ns))
      by (apply continuation_record_ok; [apply Hp|lia]).
    destruct (guardian_node_link_freshness_persistence_transact_commit _ _ _ _ _ s1)
      as [[pr o] s2] eqn:Et.
    destruct (bool_decide_reflect (pr = GUARDIAN_NODE_LINK_PERSISTENCE_OPERATION_OK)) as [->|Hpr];
      cbn [negb orb] in E.
    2:{ injection E as <- <- <- <- <-. right. split; [by apply map_persistence_not_ok|].
        do 2 (split; [done|]). exists ev2. by rewrite Hev2. }
    destruct (bool_decide_reflect
      (o = Some GUARDIAN_NODE_LINK_PERSISTENCE_TRANSACTION_COMMITTED)) as [->|Ho]; cbn [negb] in E.
    2:{ exfalso. apply Ho. revert Et. apply transact_commit_ok; [by intros p [= <-]|apply u32_range]. }
    set (ev3 := set_progress _ _ _ ev2) in E.
    assert (Hc3 : clean ev3) by (subst ev3 ev2; exact Hc1).
    destruct (continuation_anchor (Some anchor) e previous (continuation_record previous ns) ev3 s2)
      as [[[r1 ev4] s3]|[ev4 s3]] eqn:Ea.
    { apply continuation_anchor_stops in Ea as (H1 & H2 & H3);
        [|exact Hgu|exact Hg|exact (record_ok_valid e _ Hrc)|exact Hc3|reflexivity].
      injection E as <- <- <- <- <-. right. do 3 (split; [done|]). by exists ev4. }
    apply continuation_anchor_inv in Ea as (s4 & a' & Had & Hr' & Hm');
      [|exact Hgu|exact Hg|exact (record_ok_valid e _ Hrc)].
    rewrite (restore_runtime_spec e) in E by exact Hrc.
    rewrite bool_decide_true in E by reflexivity. cbn [negb] in E.
    injection E as <- <- <- <- <-. left. split; [exact Hp|].
    exists (continuation_record previous ns). split; [|reflexivity].
    exists s1, s2, s4, a, a'. by repeat (split; [done|]). }
  destruct Hdec as [(Hin & c & Hc & ->)|(H1 & -> & -> & ev' & -> & H2 & H3)].
  - destruct (commit_continues e previous ne ns rt r0 ev0 s c s' (conj Hu Hgu) Hin Hc)
      as (ev' & E' & K1 & K2 & K3 & K4 & K5).
    rewrite E in E'. injection E' as -> -> ->. by apply continued.
  - apply not_continued; [exact H1| |exact H2|exact H3]. intros c s2 Hin Hc.
    destruct (commit_continues e previous ne ns rt r0 ev0 s c s2 (conj Hu Hgu) Hin Hc) as (ev2 & E' & _).
    rewrite E in E'. by injection E' as ->.
Qed.
End specs.

(** ** Properties *)

Section properties.
Context {S : Type} (persistence : guardian_node_link_freshness_persistence_provider_t S).
Context (anchor : guardian_node_link_rollback_anchor_provider_t S).
Context (load : S -> guardian_node_link_freshness_persistence_status_t -> record ->
  op_result * guardian_node_link_freshness_persistence_status_t * record * S).
Context (status : guardian_node_link_rollback_anchor_status_fn S).
Context (read : guardian_node_link_rollback_anchor_read_fn S).
Context (advance : guardian_node_link_rollback_anchor_advance_fn S).

(** Both providers have their callbacks. *)
Definition providers_ok : Prop :=
  prov_load persistence = Some load /\ anchor_prov_status anchor = Some status /\
  anchor_prov_read anchor = Some read /\ anchor_prov_advance anchor = Some advance /\
  read_typed read.

(** A runtime is restored exactly from a record the anchor commits to.  Recovery
    answers OK if and only if the provider loaded a valid record of the expected
    identity and the anchor, read back as VALID, has its identity, generation and
    commitment; the runtime is then exactly at the record's epoch and sequence.
    Otherwise (no record, torn or older state, a record ahead of the anchor, any
    provider failure) the runtime is the initial one, the record is cleared and
    the evidence claims nothing. *)
Theorem anti_replay_recover_exact e rt0 r0 ev0 s res rt rec ev s' :
  providers_ok ->
  guardian_node_link_persistent_anti_replay_recover (Some persistence) (Some anchor) (Some e)
    (Some rt0) (Some r0) (Some ev0) s = (res, rt, rec, ev, s') ->
  (res = GUARDIAN_NODE_LINK_PERSISTENT_ANTI_REPLAY_OK <->
   exists r, restores load status read e s r s') /\
  (forall r, restores load status read e s r s' ->
   rt = Some (runtime_of_record r) /\ rec = Some r) /\
  (res <> GUARDIAN_NODE_LINK_PERSISTENT_ANTI_REPLAY_OK ->
   rt = Some initial_runtime /\ rec = Some zero_record /\ exists ev', ev = Some ev' /\ clean ev').
Proof.
  intros (Hl & Hs & Hr & _ & Ht) H.
  pose proof (recover_outcome persistence anchor load status read Hl Hs Hr Ht e rt0 r0 ev0 s) as Ho.
  rewrite H in Ho. inversion Ho as [r ev1 s1 Hres _ _ _ _ _|res1 ev1 s1 Hn Hres Hc]; subst.
  - split; [by split; [exists r|]|]. split; [|done]. intros r' Hr'.
    destruct (recover_restores persistence anchor load status read Hl Hs Hr Ht e rt0 r0 ev0 s r' s' Hr')
      as (ev2 & E & _).
    rewrite H in E. apply pair_equal_spec in E as [E _]. apply pair_equal_spec in E as [E _].
    apply pair_equal_spec in E as [E Erec]. apply pair_equal_spec in E as [_ Ert]. by split.
  - split; [split; [done|intros [r Hr']; by destruct (Hres r s')]|].
    split; [intros r Hr'; by destruct (Hres r s')|]. intros _.
    split; [done|]. split; [done|]. by exists ev1.
Qed.

(** C28: A continuation commits in order or not at all.  [commit_continuation] answers
    OK if and only if the runtime is in step with the previous record, the anchor
    matches it, the new position is the same epoch at a higher sequence with a
    generation left, and then the persistence transaction committed, the anchor
    advanced to the candidate's commitment and read back as it; only then does the
    runtime move.  Otherwise the runtime is exactly as it was, the record is
    cleared, and the anchor was not advanced unless the record had been persisted.
    No outcome authorizes actuation. *)
Theorem anti_replay_commit_exact e previous ne ns rt r0 ev0 s res rt' rec ev s' :
  providers_ok -> record_u32 previous ->
  guardian_node_link_persistent_anti_replay_commit_continuation (Some persistence) (Some anchor)
    (Some e) (Some previous) ne ns (Some rt) (Some r0) (Some ev0) s = (res, rt', rec, ev, s') ->
  exists ev', ev = Some ev' /\ ev_actuation_authorized ev' = 0 /\
  (ev_anchor_advanced ev' = 1 -> ev_persistence_committed ev' = 1) /\
  (res = GUARDIAN_NODE_LINK_PERSISTENT_ANTI_REPLAY_OK <->
   in_step e previous rt /\ exists c, continues persistence read advance e previous ne ns s c s') /\
  (res = GUARDIAN_NODE_LINK_PERSISTENT_ANTI_REPLAY_OK ->
   let c := continuation_record previous ns in
   rt' = Some (runtime_of_record c) /\ rec = Some c /\ runtime_ok (runtime_of_record c)) /\
  (res <> GUARDIAN_NODE_LINK_PERSISTENT_ANTI_REPLAY_OK ->
   rt' = Some rt /\ rec = Some zero_record /\ clean ev').
Proof.
  intros (Hl & Hs & Hr & Ha & Ht) Hu H.
  pose proof (commit_outcome persistence anchor read advance Hr Ha Ht e previous ne ns rt r0 ev0 s Hu)
    as Ho. rewrite H in Ho.
  inversion Ho as [c ev1 s1 Hin Hc K1 K2 K3 K4 K5|res1 ev1 s1 Hn Hno Hc Hadv]; subst; exists ev1.
  - split; [done|]. split; [exact K5|]. split; [by intros _|].
    split; [split; [intros _; split; [exact Hin|by exists c]|done]|]. split; [|done].
    intros _. cbv zeta.
    assert (Hce : c = continuation_record previous ns /\ rec_accepted_sequence previous < ns)
      by (destruct Hc as (? & ? & ? & ? & ? & _ & _ & _ & Hns & _ & -> & _); by split).
    destruct Hce as [-> Hns]. split; [done|]. split; [done|].
    apply (restored_runtime_ok e), continuation_record_ok; [apply Hin|]. destruct Hu as [Hu _]. lia.
  - split; [done|]. split; [apply Hc|]. split; [exact Hadv|].
    split; [split; [done|intros (Hin & c & Hcc); by destruct (Hno c s' Hin)]|].
    split; [done|]. by repeat (split; [done|]).
Qed.
End properties.

(** ** Witnesses *)

(** A store and an anchor that hold one record, as the state. *)
Definition example_cell_persistence : guardian_node_link_freshness_persistence_provider_t record :=
  PROVIDER
    (Some (fun s _ _ => (GUARDIAN_NODE_LINK_PERSISTENCE_OPERATION_OK,
       GUARDIAN_NODE_LINK_PERSISTENCE_STATUS_VALID_PERSISTED_STATE, s, s)))
    (Some (fun s c => (GUARDIAN_NODE_LINK_PERSISTENCE_OPERATION_OK, c, s)))
    (Some (fun s c => (GUARDIAN_NODE_LINK_PERSISTENCE_OPERATION_OK, c, s)))
    (Some (fun s c => (GUARDIAN_NODE_LINK_PERSISTENCE_OPERATION_OK, c, c))).

Definition example_cell_load (s : record) (_ : guardian_node_link_freshness_persistence_status_t)
    (_ : record) :=
  (GUARDIAN_NODE_LINK_PERSISTENCE_OPERATION_OK,
   GUARDIAN_NODE_LINK_PERSISTENCE_STATUS_VALID_PERSISTED_STATE, s, s).

Definition example_cell_status (s : record) (_ : identity_t)
    (_ : guardian_node_link_rollback_anchor_status_t) :=
  (GUARDIAN_NODE_LINK_ROLLBACK_ANCHOR_PROVIDER_OK, GUARDIAN_NODE_LINK_ROLLBACK_ANCHOR_STATUS_VALID, s).

Definition example_cell_read (s : record) (_ : identity_t)
    (a : guardian_node_link_rollback_anchor_record_t)
    (_ : guardian_node_link_rollback_anchor_status_t) :=
  (GUARDIAN_NODE_LINK_ROLLBACK_ANCHOR_PROVIDER_OK,
   if decide (is_u32 (rec_record_generation s)) then anchor_of s else a,
   GUARDIAN_NODE_LINK_ROLLBACK_ANCHOR_STATUS_VALID, s).

Definition example_cell_advance (s : record) (_ : identity_t) (_ _ : Z)
    (_ : guardian_node_link_rollback_anchor_commitment_t) :=
  (GUARDIAN_NODE_LINK_ROLLBACK_ANCHOR_PROVIDER_OK, s).

Definition example_cell_anchor : guardian_node_link_rollback_anchor_provider_t record :=
  ANCHOR_PROVIDER (Some example_cell_status) (Some example_cell_read) (Some example_cell_advance).

Lemma example_cell_ok :
  providers_ok example_cell_persistence example_cell_anchor example_cell_load example_cell_status
    example_cell_read example_cell_advance.
Proof.
  do 4 (split; [reflexivity|]). intros s i a st res a' st' s' H Ha. unfold example_cell_read in H.
  injection H as _ <- _ _. case_decide; [|exact Ha].
  constructor; [assumption|apply commitment_of_bytes|apply commitment_of_bytes].
Qed.

Lemma example_cell_restores :
  restores example_cell_load example_cell_status example_cell_read example_identity
    (example_record 100 7) (example_record 100 7) (example_record 100 7).
Proof.
  exists (example_record 100 7), (example_record 100 7), (anchor_of (example_record 100 7)).
  split; [reflexivity|]. split; [by apply example_record_ok|]. split; [reflexivity|].
  split; [|apply anchor_of_match]. unfold example_cell_read.
  by rewrite decide_True by (by vm_compute).
Qed.

Definition example_evidence : evidence_t :=
  EVIDENCE GUARDIAN_NODE_LINK_PERSISTENCE_STATUS_INVALID
    GUARDIAN_NODE_LINK_PERSISTENCE_CLASSIFICATION_INVALID
    GUARDIAN_NODE_LINK_ROLLBACK_ANCHOR_STATUS_INVALID
    GUARDIAN_NODE_LINK_ROLLBACK_ANCHOR_COMPARE_INVALID 0 0 0 0 0 0 0 0 0.

Lemma anti_replay_recover_exact_witness : exists ev,
  guardian_node_link_persistent_anti_replay_recover (Some example_cell_persistence)
    (Some example_cell_anchor) (Some example_identity) (Some initial_runtime) (Some zero_record)
    (Some example_evidence) (example_record 100 7)
  = (GUARDIAN_NODE_LINK_PERSISTENT_ANTI_REPLAY_OK,
     Some (runtime_of_record (example_record 100 7)), Some (example_record 100 7), ev,
     example_record 100 7).
Proof.
  destruct (guardian_node_link_persistent_anti_replay_recover (Some example_cell_persistence)
    (Some example_cell_anchor) (Some example_identity) (Some initial_runtime) (Some zero_record)
    (Some example_evidence) (example_record 100 7)) as [[[[res rt] rec] ev] s'] eqn:E.
  pose proof example_cell_ok as Hok.
  destruct (recover_restores example_cell_persistence example_cell_anchor example_cell_load
    example_cell_status example_cell_read eq_refl eq_refl eq_refl (proj2 (proj2 (proj2 (proj2 Hok))))
    example_identity initial_runtime zero_record example_evidence _ _ _ example_cell_restores)
    as (ev' & E' & _).
  rewrite E in E'. apply pair_equal_spec in E' as [_ ->].
  destruct (anti_replay_recover_exact example_cell_persistence example_cell_anchor example_cell_load
    example_cell_status example_cell_read example_cell_advance example_identity initial_runtime
    zero_record example_evidence _ _ _ _ _ _ Hok E) as ([_ Hres] & Hr & _).
  destruct (Hr _ example_cell_restores) as [-> ->].
  assert (Hex : exists r, restores example_cell_load example_cell_status example_cell_read
    example_identity (example_record 100 7) r (example_record 100 7))
    by (exists (example_record 100 7); exact example_cell_restores).
  rewrite (Hres Hex). by exists ev.
Defined.

Lemma anti_replay_commit_exact_witness : exists res ev s',
  guardian_node_link_persistent_anti_replay_commit_continuation (Some example_cell_persistence)
    (Some example_cell_anchor) (Some example_identity) (Some (example_record 100 7)) 3 99
    (Some (runtime_of_record (example_record 100 7))) (Some zero_record) (Some example_evidence)
    (example_record 100 7)
  = (res, Some (runtime_of_record (example_record 100 7)), Some zero_record, ev, s') /\
  res <> GUARDIAN_NODE_LINK_PERSISTENT_ANTI_REPLAY_OK.
Proof.
  assert (Hu : record_u32 (example_record 100 7)) by (split; [done|by vm_compute]).
  destruct (guardian_node_link_persistent_anti_replay_commit_continuation
    (Some example_cell_persistence) (Some example_cell_anchor) (Some example_identity)
    (Some (example_record 100 7)) 3 99 (Some (runtime_of_record (example_record 100 7)))
    (Some zero_record) (Some example_evidence) (example_record 100 7))
    as [[[[res rt] rec] ev] s'] eqn:E.
  destruct (anti_replay_commit_exact example_cell_persistence example_cell_anchor example_cell_load
    example_cell_status example_cell_read example_cell_advance example_identity
    (example_record 100 7) 3 99 (runtime_of_record (example_record 100 7)) zero_record
    example_evidence (example_record 100 7) res rt rec ev s' example_cell_ok Hu E)
    as (ev' & Hev & _ & _ & [Hres _] & _ & Hno).
  subst ev.
  assert (Hn : res <> GUARDIAN_NODE_LINK_PERSISTENT_ANTI_REPLAY_OK).
  { intros Hok. destruct (Hres Hok) as (_ & c & s1 & s2 & s3 & a & a' & _ & _ & _ & Hs & _).
    apply Z.lt_asymm in Hs. apply Hs. reflexivity. }
  destruct (Hno Hn) as (-> & -> & _). exists res, (Some ev'), s'. split; [reflexivity|exact Hn].
Defined.
