(* ===== verification/AntiReplaySystem.v ===== *)
(** * Anti-replay across power cycles

    The composition of [AntiReplay.v] with the dual-slot backend of [Backend.v]
    and an anchor that obeys [AnchorLaws]: what a monotone hardware counter behind
    the anchor provider promises.  The anchor is a parameter (the repository has no
    implementation of it); [cell_laws] shows that a plain cell obeys the laws. *)

From S2P Require Import Prelude Crypto CString NodeLink NodeLinkAuth NodeLinkSemantic.
From S2P Require Import Freshness Persistence Codec Media Backend Recovery RollbackAnchor.
From S2P Require Import AntiReplay.
From Stdlib Require Import Sorted.

Local Abbreviation record := guardian_node_link_freshness_persisted_record_t.
Local Abbreviation identity_t := guardian_node_link_freshness_identity_t.
Local Abbreviation runtime_t := guardian_node_link_freshness_runtime_t.
Local Abbreviation anchor_t := guardian_node_link_rollback_anchor_record_t.
Local Abbreviation backend := guardian_node_link_freshness_physical_backend_t.
Local Abbreviation anchor_ok := GUARDIAN_NODE_LINK_ROLLBACK_ANCHOR_PROVIDER_OK.
Local Abbreviation anchor_valid := GUARDIAN_NODE_LINK_ROLLBACK_ANCHOR_STATUS_VALID.
Local Abbreviation matches := GUARDIAN_NODE_LINK_ROLLBACK_ANCHOR_COMPARE_MATCH.

(** ** The anchor *)

(** A provisioned anchor in working order answers with what it holds, and an
    advance from its generation replaces it. *)
Class AnchorLaws {A : Type} (status : guardian_node_link_rollback_anchor_status_fn A)
    (read : guardian_node_link_rollback_anchor_read_fn A)
    (advance : guardian_node_link_rollback_anchor_advance_fn A) := {
  anchored : A -> option anchor_t;
  anchor_works : A -> Prop;
  anchor_read_typed : read_typed read;
  anchor_status_works x a i st :
    anchor_works x -> anchored x = Some a -> identity_key (anchor_identity a) = identity_key i ->
    exists x', status x i st = (anchor_ok, anchor_valid, x') /\ anchor_works x' /\
    anchored x' = Some a;
  anchor_read_works x a i a0 st :
    anchor_works x -> anchored x = Some a -> identity_key (anchor_identity a) = identity_key i ->
    exists x', read x i a0 st = (anchor_ok, a, anchor_valid, x') /\ anchor_works x' /\
    anchored x' = Some a;
  anchor_advance_works x a i n c :
    anchor_works x -> anchored x = Some a -> identity_key (anchor_identity a) = identity_key i ->
    is_u32 n -> bytes (commitment_bytes c) -> length (commitment_bytes c) = 32%nat ->
    exists x' a', advance x i (anchor_generation a) n c = (anchor_ok, x') /\ anchor_works x' /\
    anchored x' = Some a' /\ identity_key (anchor_identity a') = identity_key i /\
    anchor_generation a' = n /\ anchor_commitment a' = c
}.

(** A cell that may hold an anchor. *)
#[global] Instance anchor_object_dec a : Decision (anchor_object a).
Proof.
  destruct (decide (is_u32 (anchor_generation a) /\ bytes (commitment_bytes (anchor_commitment a)) /\
    length (commitment_bytes (anchor_commitment a)) = 32%nat)) as [(H1 & H2 & H3)|H].
  - left. by constructor.
  - right. intros [H1 H2 H3]. by apply H.
Defined.

Definition cell_status (x : option anchor_t) (_ : identity_t)
    (_ : guardian_node_link_rollback_anchor_status_t) :=
  match x with
  | Some _ => (anchor_ok, anchor_valid, x)
  | None => (anchor_ok, GUARDIAN_NODE_LINK_ROLLBACK_ANCHOR_STATUS_UNPROVISIONED, x)
  end.

Definition cell_read (x : option anchor_t) (_ : identity_t) (a0 : anchor_t)
    (_ : guardian_node_link_rollback_anchor_status_t) :=
  match x with
  | Some a => (anchor_ok, if decide (anchor_object a) then a else a0, anchor_valid, x)
  | None => (anchor_ok, a0, GUARDIAN_NODE_LINK_ROLLBACK_ANCHOR_STATUS_UNPROVISIONED, x)
  end.

Definition cell_advance (x : option anchor_t) (i : identity_t) (g n : Z)
    (c : guardian_node_link_rollback_anchor_commitment_t) :=
  match x with
  | Some a => if anchor_generation a =? g then (anchor_ok, Some (ANCHOR i n c))
              else (GUARDIAN_NODE_LINK_ROLLBACK_ANCHOR_PROVIDER_CONFLICT, x)
  | None => (GUARDIAN_NODE_LINK_ROLLBACK_ANCHOR_PROVIDER_UNAVAILABLE, x)
  end.

#[global] Instance cell_laws : AnchorLaws cell_status cell_read cell_advance.
Proof.
  refine (Build_AnchorLaws _ cell_status cell_read cell_advance (fun x => x)
    (fun x => from_option anchor_object True x) _ _ _ _).
  - intros s i a st res a' st' s' H Ha. destruct s as [b|]; cbn in H.
    + injection H as _ <- _ _. by case_decide.
    + by injection H as _ <- _ _.
  - intros x a i st Hw -> _. by eexists.
  - intros x a i a0 st Hw -> _. cbn in *. rewrite decide_True by exact Hw. by eexists.
  - intros x a i n c Hw -> _ Hn Hb Hl. cbn. rewrite Z.eqb_refl. do 2 eexists.
    split; [reflexivity|]. split; [by constructor|]. by split.
Defined.

(** ** Two providers over one state *)

Section lift.
Context {S A : Type}.

Definition lift_stage (f : S -> record -> guardian_node_link_freshness_persistence_operation_result_t
    * record * S) (s : S * A) (c : record) :=
  let '(result, c, s1) := f s.1 c in (result, c, (s1, s.2)).

Definition lift_persistence (p : guardian_node_link_freshness_persistence_provider_t S)
  : guardian_node_link_freshness_persistence_provider_t (S * A) :=
  PROVIDER
    (option_map (fun load s st rec =>
       let '(result, st, rec, s1) := load s.1 st rec in (result, st, rec, (s1, s.2))) (prov_load p))
    (option_map lift_stage (prov_write_candidate p))
    (option_map lift_stage (prov_verify_candidate p))
    (option_map lift_stage (prov_commit_candidate p)).

Definition lift_status (f : guardian_node_link_rollback_anchor_status_fn A)
  : guardian_node_link_rollback_anchor_status_fn (S * A) :=
  fun s i st => let '(result, st, x) := f s.2 i st in (result, st, (s.1, x)).

Definition lift_read (f : guardian_node_link_rollback_anchor_read_fn A)
  : guardian_node_link_rollback_anchor_read_fn (S * A) :=
  fun s i a st => let '(result, a, st, x) := f s.2 i a st in (result, a, st, (s.1, x)).

Definition lift_advance (f : guardian_node_link_rollback_anchor_advance_fn A)
  : guardian_node_link_rollback_anchor_advance_fn (S * A) :=
  fun s i g n c => let '(result, x) := f s.2 i g n c in (result, (s.1, x)).

Lemma lift_read_typed f : read_typed f -> read_typed (lift_read f).
Proof.
  intros H s i a st res a' st' s' E Ha. unfold lift_read in E.
  destruct (f s.2 i a st) as [[[r b] st2] x] eqn:Ef. injection E as _ <- _ _.
  exact (H _ _ _ _ _ _ _ _ Ef Ha).
Qed.
End lift.

(** ** The system *)

Section system.
Context {M : Type} {read : guardian_node_link_persistence_media_read_fn M}.
Context {erase : guardian_node_link_persistence_media_erase_fn M}.
Context {program : guardian_node_link_persistence_media_program_fn M}.
Context {laws : MediaLaws read erase program}.
Context {A : Type} {astatus : guardian_node_link_rollback_anchor_status_fn A}.
Context {aread : guardian_node_link_rollback_anchor_read_fn A}.
Context {aadvance : guardian_node_link_rollback_anchor_advance_fn A}.
Context {alaws : AnchorLaws astatus aread aadvance}.

Local Abbreviation over := (@backend_over M read erase program).
Local Abbreviation state := (backend M * M * A)%type.

(** The callbacks [make_provider] installs. *)
Definition backend_provider : guardian_node_link_freshness_persistence_provider_t (backend M * M) :=
  PROVIDER
    (Some (fun s st rec =>
       let '(result, st', rec', m) :=
         guardian_node_link_freshness_physical_backend_load (Some s.1) (Some st) (Some rec) s.2 in
       (result, default st st', default rec rec', (s.1, m))))
    (Some backend_write) (Some backend_verify) (Some backend_commit).

Lemma make_provider_eq (b : backend M) :
  guardian_node_link_freshness_physical_backend_make_provider (Some tt) (Some b)
  = (GUARDIAN_NODE_LINK_PERSISTENCE_OPERATION_OK, Some backend_provider).
Proof. reflexivity. Qed.

Definition system_persistence : guardian_node_link_freshness_persistence_provider_t state :=
  lift_persistence backend_provider.

Definition system_anchor : guardian_node_link_rollback_anchor_provider_t state :=
  ANCHOR_PROVIDER (Some (lift_status astatus)) (Some (lift_read aread)) (Some (lift_advance aadvance)).

Definition system_load (s : state) (st : guardian_node_link_freshness_persistence_status_t)
    (rec : record) :=
  let '(result, st, rec, s1) :=
    (let '(result, st', rec', m) :=
       guardian_node_link_freshness_physical_backend_load (Some s.1.1) (Some st) (Some rec) s.1.2 in
     (result, default st st', default rec rec', (s.1.1, m))) in
  (result, st, rec, (s1, s.2)).

Lemma system_load_eq : prov_load system_persistence = Some system_load.
Proof. reflexivity. Qed.

Lemma system_read_typed : read_typed (lift_read (S := backend M * M) aread).
Proof. apply lift_read_typed, anchor_read_typed. Qed.

(** The backend selects [r], and the anchor commits to it. *)
Record synced (e : identity_t) (s : state) (r : record) : Prop := {
  sy_over : over s.1.1;
  sy_healthy : healthy s.1.2;
  sy_record : record_ok e r;
  sy_selected : exists d t,
    r3e_select (view s.1.2 GUARDIAN_NODE_LINK_PERSISTENCE_SLOT_A)
               (view s.1.2 GUARDIAN_NODE_LINK_PERSISTENCE_SLOT_B)
    = RECOVERY GUARDIAN_NODE_LINK_PERSISTENCE_OPERATION_OK
        GUARDIAN_NODE_LINK_PERSISTENCE_STATUS_VALID_PERSISTED_STATE d (Some (r, t));
  sy_works : anchor_works s.2;
  sy_anchored : exists a, anchored s.2 = Some a /\
    identity_key (anchor_identity a) = identity_key e /\ compare_spec a r = matches
}.

Lemma synced_intro e s r b m x :
  synced e s r -> over b -> same_content s.1.2 m -> healthy m -> anchor_works x ->
  anchored x = anchored s.2 -> synced e ((b, m), x) r.
Proof.
  intros [_ _ Hr (d & t & Hs) _ Ha] Hb Hc Hm Hw Hx. constructor; cbn [fst snd]; try assumption.
  - exists d, t. by rewrite !(same_content_view s.1.2 m).
  - by rewrite Hx.
Qed.

Lemma system_load_synced e s r :
  synced e s r -> exists m',
  system_load s GUARDIAN_NODE_LINK_PERSISTENCE_STATUS_INVALID zero_record
  = (GUARDIAN_NODE_LINK_PERSISTENCE_OPERATION_OK,
     GUARDIAN_NODE_LINK_PERSISTENCE_STATUS_VALID_PERSISTED_STATE, r, (s.1.1, m', s.2)) /\
  same_content s.1.2 m' /\ healthy m'.
Proof.
  intros [Hb Hm _ (d & t & Hs) _ _].
  destruct (recover_healthy s.1.1 s.1.2 GUARDIAN_NODE_LINK_PERSISTENCE_STATUS_INVALID zero_record
    GUARDIAN_NODE_LINK_PERSISTENCE_RECOVERY_INVALID _ Hb Hm Hs) as (m' & Hr & Hc & Hh).
  exists m'. split; [|by split]. unfold system_load,
    guardian_node_link_freshness_physical_backend_load. rewrite Hr. reflexivity.
Qed.

(** A device in step recovers. *)
Lemma synced_restores e s r :
  synced e s r -> exists s', restores system_load (lift_status astatus) (lift_read aread) e s r s' /\
  synced e s' r.
Proof.
  intros Hsy. destruct (system_load_synced e s r Hsy) as (m' & Hl & Hc & Hh).
  pose proof Hsy as [Hb _ Hr _ Hw (a & Ha & Hi & Hm)].
  destruct (anchor_status_works s.2 a e GUARDIAN_NODE_LINK_ROLLBACK_ANCHOR_STATUS_INVALID Hw Ha Hi)
    as (x1 & Hs1 & Hw1 & Ha1).
  destruct (anchor_read_works x1 a e zero_anchor GUARDIAN_NODE_LINK_ROLLBACK_ANCHOR_STATUS_INVALID
    Hw1 Ha1 Hi) as (x2 & Hs2 & Hw2 & Ha2).
  exists (s.1.1, m', x2). split.
  - exists (s.1.1, m', s.2), (s.1.1, m', x1), a. split; [exact Hl|]. split; [exact Hr|].
    unfold lift_status, lift_read. cbn [fst snd]. rewrite Hs1, Hs2.
    split; [reflexivity|]. split; [reflexivity|exact Hm].
  - apply (synced_intro e s r); try assumption. by rewrite Ha2, Ha.
Qed.

Lemma continuation_decoded e r n :
  decoded r -> record_ok e r -> 0 < n -> is_u32 n -> decoded (continuation_record r n).
Proof.
  intros [_ Ho Hn] Hr Hpos Hu. constructor.
  - exact (record_ok_valid e _ (continuation_record_ok e r n Hr Hpos)).
  - destruct Ho. constructor; try assumption. apply u32_range.
  - unfold normalized in *. cbn [continuation_record rec_schema_version rec_identity
      rec_accepted_epoch rec_accepted_sequence rec_record_generation].
    apply (f_equal rec_identity) in Hn. cbn [rec_identity] in Hn.
    unfold continuation_record. f_equal. exact Hn.
Qed.

Lemma continuation_is_ok e r n :
  record_ok e r -> 0 <= rec_accepted_sequence r < n -> is_u32 (rec_record_generation r) ->
  rec_record_generation r + 1 < UINT32_MAX ->
  continuation_ok e (Some r) (continuation_record r n).
Proof.
  intros Hr Hn Hu Hg. constructor; [apply continuation_record_ok; [exact Hr|lia]| |discriminate].
  intros p [= <-]. split; [exact Hr|]. cbn [continuation_record rec_record_generation
    rec_accepted_epoch rec_accepted_sequence]. unfold is_u32, UINT32_MAX in *.
  rewrite u32_id by (unfold is_u32; lia). split; [reflexivity|]. split; [reflexivity|lia].
Qed.

(** The transaction through the lifted provider. *)
Lemma system_transaction (b : backend M) m x e r n o d t :
  over b -> healthy m -> record_ok e r -> 0 <= rec_accepted_sequence r < n -> is_u32 n ->
  rec_record_generation r + 1 < UINT32_MAX ->
  r3e_select (view m GUARDIAN_NODE_LINK_PERSISTENCE_SLOT_A)
             (view m GUARDIAN_NODE_LINK_PERSISTENCE_SLOT_B)
  = RECOVERY GUARDIAN_NODE_LINK_PERSISTENCE_OPERATION_OK
      GUARDIAN_NODE_LINK_PERSISTENCE_STATUS_VALID_PERSISTED_STATE d (Some (r, t)) ->
  exists b' m' t', guardian_node_link_freshness_persistence_transact_commit (Some system_persistence)
      (Some r) (Some e) (Some (continuation_record r n)) (Some o) ((b, m), x)
    = (GUARDIAN_NODE_LINK_PERSISTENCE_OPERATION_OK,
       Some GUARDIAN_NODE_LINK_PERSISTENCE_TRANSACTION_COMMITTED, ((b', m'), x)) /\
  over b' /\ healthy m' /\
  r3e_select (view m' GUARDIAN_NODE_LINK_PERSISTENCE_SLOT_A)
             (view m' GUARDIAN_NODE_LINK_PERSISTENCE_SLOT_B)
  = RECOVERY GUARDIAN_NODE_LINK_PERSISTENCE_OPERATION_OK
      GUARDIAN_NODE_LINK_PERSISTENCE_STATUS_VALID_PERSISTED_STATE
      GUARDIAN_NODE_LINK_PERSISTENCE_RECOVERY_VALID (Some (continuation_record r n, t')).
Proof.
  intros Hb Hm Hr Hn Hu Hg Hsel.
  assert (Hdec : decoded r).
  { pose proof (f_equal rcv_selected Hsel) as Hs. apply select_valid_spec in Hs as [[Hd _] _]. exact Hd. }
  pose proof (ro_generation _ (dec_object _ Hdec)) as Hug.
  pose proof (continuation_is_ok e r n Hr Hn Hug Hg) as Hcont.
  assert (Hd : decoded (continuation_record r n))
    by (apply (continuation_decoded e); [exact Hdec|exact Hr|lia|exact Hu]).
  destruct (continuation_stages m e (Some r) (continuation_record r n)
    GUARDIAN_NODE_LINK_PERSISTENCE_STATUS_VALID_PERSISTED_STATE r Hd Hcont) as (t' & Hst & Hprev);
    [by rewrite Hsel|by rewrite Hsel|by rewrite Hsel|by split|].
  destruct (stages_run b m e (Some r) (continuation_record r n) t' Hb Hm Hd Hcont Hst Hprev)
    as (bw & mw & m2 & m3 & Hw & Hbw & _ & _ & _ & Hv & Hc & Hm3 & Hp3 & Hv3).
  exists (set_pending b t' 0), m3, t'. split; [|split; [exact Hb|split; [exact Hm3|]]].
  2:{ exact (select_committed m3 e (Some r) (continuation_record r n) t' Hd Hcont Hp3 Hv3). }
  assert (Hk : forall (cb : backend M * M -> _ -> _) s s',
    cb s (continuation_record r n)
      = (GUARDIAN_NODE_LINK_PERSISTENCE_OPERATION_OK, continuation_record r n, s') ->
    stage_passes e (continuation_record r n) (lift_stage (A := A) cb) (s, x)
      (continuation_record r n) (s', x) (continuation_record r n)).
  { intros cb s s' H. split; [|split; [reflexivity|apply Hcont]].
    unfold lift_stage. cbn [fst snd]. by rewrite H. }
  assert (Hcb : provider_callbacks system_persistence (lift_stage backend_write)
    (lift_stage backend_verify) (lift_stage backend_commit)) by (split; [by eexists|done]).
  assert (Hgp : generation_u32 (Some r)) by (intros p [= <-]; exact Hug).
  exact (transact_commit_commits system_persistence (lift_stage backend_write)
    (lift_stage backend_verify) (lift_stage backend_commit) e (Some r) (continuation_record r n) o
    (b, m, x) _ _ _ _ _ _ Hcb Hgp (ro_generation _ (dec_object _ Hd)) Hcont
    (Hk _ _ _ Hw) (Hk _ _ _ Hv) (Hk _ _ _ Hc)).
Qed.

(** A device in step commits the next sequence number. *)
Lemma synced_continues e s r n :
  synced e s r -> 0 <= rec_accepted_sequence r < n -> is_u32 n ->
  rec_record_generation r + 1 < UINT32_MAX ->
  exists s', continues system_persistence (lift_read aread) (lift_advance aadvance) e r
    (rec_accepted_epoch r) n s (continuation_record r n) s' /\
  synced e s' (continuation_record r n).
Proof.
  destruct s as [[b m] x]. intros [Hb Hm Hr (d & t & Hsel) Hw (a & Ha & Hi & Hcmp)] Hn Hu Hg.
  cbn [fst snd] in *.
  assert (Hdec : decoded r).
  { pose proof (f_equal rcv_selected Hsel) as Hs. apply select_valid_spec in Hs as [[Hd _] _]. exact Hd. }
  pose proof (ro_generation _ (dec_object _ Hdec)) as Hug.
  assert (Hc : record_ok e (continuation_record r n)) by (apply continuation_record_ok; [exact Hr|lia]).
  destruct (anchor_read_works x a e zero_anchor GUARDIAN_NODE_LINK_ROLLBACK_ANCHOR_STATUS_INVALID
    Hw Ha Hi) as (x1 & Hr1 & Hw1 & Ha1).
  destruct (system_transaction b m x1 e r n GUARDIAN_NODE_LINK_PERSISTENCE_TRANSACTION_INVALID d t
    Hb Hm Hr Hn Hu Hg Hsel) as (b2 & m2 & t2 & Ht & Hb2 & Hm2 & Hsel2).
  apply compare_match in Hcmp as Hm0. destruct Hm0 as (_ & Hga & _).
  destruct (commitment_of_bytes (continuation_record r n)) as [Hcb Hcl].
  destruct (anchor_advance_works x1 a e (rec_record_generation (continuation_record r n))
    (commitment_of (continuation_record r n)) Hw1 Ha1 Hi (u32_range _) Hcb Hcl)
    as (x2 & a2 & Had & Hw2 & Ha2 & Hi2 & Hg2 & Hc2).
  destruct (anchor_read_works x2 a2 e zero_anchor GUARDIAN_NODE_LINK_ROLLBACK_ANCHOR_STATUS_INVALID
    Hw2 Ha2 Hi2) as (x3 & Hr3 & Hw3 & Ha3).
  assert (Hcmp2 : compare_spec a2 (continuation_record r n) = matches).
  { apply compare_match. split; [|by split]. rewrite Hi2. symmetry. apply (reco_same _ _ Hc). }
  exists ((b2, m2), x3). split.
  - exists ((b, m), x1), ((b2, m2), x1), ((b2, m2), x2), a, a2.
    unfold lift_read, lift_advance. cbn [fst snd]. rewrite Hr1, Hr3, <- Hga, Had.
    split; [reflexivity|]. split; [exact Hcmp|]. split; [reflexivity|]. split; [apply Hn|].
    split; [rewrite Hga; exact Hg|]. split; [reflexivity|]. split; [exact Ht|].
    split; [reflexivity|]. split; [reflexivity|exact Hcmp2].
  - constructor; cbn [fst snd]; [exact Hb2|exact Hm2|exact Hc|by exists
      GUARDIAN_NODE_LINK_PERSISTENCE_RECOVERY_VALID, t2|exact Hw3|].
    exists a2. by split.
Qed.

Lemma synced_in_step e s r : synced e s r -> in_step e r (runtime_of_record r).
Proof.
  intros Hs. pose proof (sy_record _ _ _ Hs) as Hr.
  constructor; [exact Hr|exact (restored_runtime_ok e r Hr)|reflexivity| |reflexivity|reflexivity].
  apply (reco_same _ _ Hr).
Qed.

(** ** Power cycles

    [init] fills the backend again, recovery restores the runtime and, when a
    sequence number is to be accepted, the continuation is committed before the
    power goes. *)
Definition power_up (s : state) : state :=
  ((set_pending s.1.1 GUARDIAN_NODE_LINK_PERSISTENCE_SLOT_A 0, s.1.2), s.2).

Fixpoint power_cycles (e : identity_t) (ev : guardian_node_link_persistent_anti_replay_evidence_t)
    (s : state) (ns : list Z) : option (runtime_t * record * state) :=
  match guardian_node_link_persistent_anti_replay_recover (Some system_persistence)
          (Some system_anchor) (Some e) (Some initial_runtime) (Some zero_record) (Some ev)
          (power_up s) with
  | (GUARDIAN_NODE_LINK_PERSISTENT_ANTI_REPLAY_OK, Some rt, Some r, _, s) =>
      match ns with
      | [] => Some (rt, r, s)
      | n :: ns =>
          match guardian_node_link_persistent_anti_replay_commit_continuation
                  (Some system_persistence) (Some system_anchor) (Some e) (Some r)
                  (rec_accepted_epoch r) n (Some rt) (Some zero_record) (Some ev) s with
          | (GUARDIAN_NODE_LINK_PERSISTENT_ANTI_REPLAY_OK, _, _, _, s) => power_cycles e ev s ns
          | _ => None
          end
      end
  | _ => None
  end.

Lemma synced_power_up e s r : synced e s r -> synced e (power_up s) r.
Proof. intros Hs. by apply (synced_intro e s r); destruct Hs. Qed.

Lemma recover_synced e ev s r :
  synced e s r -> exists ev' s',
  guardian_node_link_persistent_anti_replay_recover (Some system_persistence)
    (Some system_anchor) (Some e) (Some initial_runtime) (Some zero_record) (Some ev) s
  = (GUARDIAN_NODE_LINK_PERSISTENT_ANTI_REPLAY_OK, Some (runtime_of_record r), Some r, ev', s') /\
  synced e s' r.
Proof.
  intros Hs. destruct (synced_restores e s r Hs) as (s' & Hr & Hs').
  destruct (recover_restores system_persistence system_anchor system_load (lift_status astatus)
    (lift_read aread) system_load_eq eq_refl eq_refl system_read_typed e initial_runtime zero_record
    ev s r s' Hr) as (ev' & H & _).
  by exists (Some ev'), s'.
Qed.

Lemma commit_synced e ev s r n :
  synced e s r -> 0 <= rec_accepted_sequence r < n -> is_u32 n ->
  rec_record_generation r + 1 < UINT32_MAX ->
  exists ev' s', guardian_node_link_persistent_anti_replay_commit_continuation
    (Some system_persistence) (Some system_anchor) (Some e) (Some r) (rec_accepted_epoch r) n
    (Some (runtime_of_record r)) (Some zero_record) (Some ev) s
  = (GUARDIAN_NODE_LINK_PERSISTENT_ANTI_REPLAY_OK, Some (runtime_of_record (continuation_record r n)),
     Some (continuation_record r n), ev', s') /\ synced e s' (continuation_record r n).
Proof.
  intros Hs Hn Hu Hg. destruct (synced_continues e s r n Hs Hn Hu Hg) as (s' & Hc & Hs').
  assert (Hru : record_u32 r).
  { destruct (sy_selected _ _ _ Hs) as (d & t & Hsel).
    pose proof (f_equal rcv_selected Hsel) as Hx. apply select_valid_spec in Hx as [[Hd _] _].
    split; [lia|exact (ro_generation _ (dec_object _ Hd))]. }
  destruct (commit_continues system_persistence system_anchor (lift_read aread)
    (lift_advance aadvance) eq_refl eq_refl system_read_typed e r (rec_accepted_epoch r) n
    (runtime_of_record r) zero_record ev s (continuation_record r n) s' Hru
    (synced_in_step e s r Hs) Hc) as (ev' & H & _).
  by exists (Some ev'), s'.
Qed.

Lemma power_cycles_nil e ev s rt r ev' s' :
  guardian_node_link_persistent_anti_replay_recover (Some system_persistence) (Some system_anchor)
    (Some e) (Some initial_runtime) (Some zero_record) (Some ev) (power_up s)
  = (GUARDIAN_NODE_LINK_PERSISTENT_ANTI_REPLAY_OK, Some rt, Some r, ev', s') ->
  power_cycles e ev s [] = Some (rt, r, s').
Proof. intros H. unfold power_cycles. by rewrite H. Qed.

Lemma power_cycles_cons e ev s n ns rt r ev' s' rt' c' ev2 s2 :
  guardian_node_link_persistent_anti_replay_recover (Some system_persistence) (Some system_anchor)
    (Some e) (Some initial_runtime) (Some zero_record) (Some ev) (power_up s)
  = (GUARDIAN_NODE_LINK_PERSISTENT_ANTI_REPLAY_OK, Some rt, Some r, ev', s') ->
  guardian_node_link_persistent_anti_replay_commit_continuation (Some system_persistence)
    (Some system_anchor) (Some e) (Some r) (rec_accepted_epoch r) n (Some rt) (Some zero_record)
    (Some ev) s'
  = (GUARDIAN_NODE_LINK_PERSISTENT_ANTI_REPLAY_OK, rt', c', ev2, s2) ->
  power_cycles e ev s (n :: ns) = power_cycles e ev s2 ns.
Proof. intros H H'. unfold power_cycles at 1. rewrite H. by rewrite H'. Qed.

(** C29: Accepted positions survive power cycles.  On a healthy medium and a working
    anchor that are in step with a record, any strictly increasing run of sequence
    numbers, each committed in a power cycle of its own, is committed in full while
    generations last: every recovery and every commit answers OK, and the last
    recovery restores exactly the last sequence number, in the same epoch and
    identity, with the generation advanced once per commit. *)
Theorem positions_survive_power_cycles e ev s r ns :
  synced e s r -> 0 <= rec_accepted_sequence r -> is_u32 (rec_record_generation r) ->
  Sorted Z.lt (rec_accepted_sequence r :: ns) -> Forall is_u32 ns ->
  rec_record_generation r + Z.of_nat (length ns) < UINT32_MAX ->
  exists s', let last_record := foldl continuation_record r ns in
  power_cycles e ev s ns = Some (runtime_of_record last_record, last_record, s') /\
  synced e s' last_record /\
  rec_accepted_sequence last_record = List.last ns (rec_accepted_sequence r) /\
  rec_record_generation last_record = rec_record_generation r + Z.of_nat (length ns).
Proof.
  revert s r. induction ns as [|n ns IH]; intros s r Hs Hpos Hg Hsort Hu Hroom;
    apply synced_power_up in Hs; destruct (recover_synced e ev _ r Hs) as (ev1 & s1 & Hr & Hs1).
  - exists s1. split; [exact (power_cycles_nil _ _ _ _ _ _ _ Hr)|]. split; [exact Hs1|].
    split; [reflexivity|]. cbn [foldl length]. lia.
  - apply Forall_cons in Hu as [Hn Hu]. inversion Hsort as [|? ? Hsort' Hd]; subst.
    inversion Hd as [|? ? Hlt]; subst. cbn [length] in Hroom.
    destruct (commit_synced e ev s1 r n Hs1) as (ev2 & s2 & Hc & Hs2); [lia|exact Hn|lia|].
    assert (Hg' : rec_record_generation (continuation_record r n) = rec_record_generation r + 1).
    { cbn. apply u32_id. unfold is_u32, UINT32_MAX in *. lia. }
    destruct (IH s2 (continuation_record r n) Hs2) as (s' & Hp & Hs' & Hl & Hgen);
      [cbn; lia|rewrite Hg'; unfold is_u32, UINT32_MAX in *; lia|exact Hsort'|exact Hu|
       rewrite Hg'; lia|].
    exists s'. rewrite (power_cycles_cons e ev s n ns _ _ _ _ _ _ _ _ Hr Hc).
    split; [exact Hp|]. split; [exact Hs'|].
    split; [|cbn [foldl length]; rewrite Hgen, Hg'; lia].
    cbn [foldl]. rewrite Hl. by rewrite last_cons_default.
Qed.
End system.

(** ** Witness *)

Definition example_state : backend nor * nor * option anchor_t :=
  ((example_backend, example_flash), Some (anchor_of (example_record 100 7))).

Lemma example_synced :
  synced (laws := nor_laws) (alaws := cell_laws) example_identity example_state (example_record 100 7).
Proof.
  assert (Hv : view example_flash GUARDIAN_NODE_LINK_PERSISTENCE_SLOT_A
    = OBSERVATION R3E_SLOT_VALID (example_record 100 7))
    by apply view_committed, example_flash_committed.
  assert (He : view example_flash GUARDIAN_NODE_LINK_PERSISTENCE_SLOT_B
    = OBSERVATION R3E_SLOT_ERASED zero_record)
    by (rewrite view_slot; apply slot_view_erased, example_flash_erased).
  constructor; cbn [example_state fst snd].
  - exact example_backend_over.
  - reflexivity.
  - by apply example_record_ok.
  - exists GUARDIAN_NODE_LINK_PERSISTENCE_RECOVERY_VALID, GUARDIAN_NODE_LINK_PERSISTENCE_SLOT_A.
    rewrite Hv, He. reflexivity.
  - apply anchor_of_object, (dec_object _ example_previous_decoded).
  - exists (anchor_of (example_record 100 7)). split; [reflexivity|]. split; [reflexivity|].
    apply anchor_of_match.
Qed.

Lemma positions_survive_power_cycles_witness : exists s' : backend nor * nor * option anchor_t,
  power_cycles
    (astatus := cell_status) (aread := cell_read) (aadvance := cell_advance)
    example_identity example_evidence example_state [105; 106; 4000]
  = Some (runtime_of_record (foldl continuation_record (example_record 100 7) [105; 106; 4000]),
      foldl continuation_record (example_record 100 7) [105; 106; 4000], s').
Proof.
  destruct (positions_survive_power_cycles (laws := nor_laws) (alaws := cell_laws)
    example_identity example_evidence example_state (example_record 100 7) [105; 106; 4000]
    example_synced) as (s' & Hp & _).
  - vm_compute. discriminate.
  - vm_compute. split; [discriminate|reflexivity].
  - repeat constructor.
  - repeat constructor; vm_compute; discriminate.
  - reflexivity.
  - exists s'. exact Hp.
Defined.
