(* ===== verification/Security.v ===== *)
(** * Authenticated sessions

    Model of [firmware/Security/Src/guardian_security.c]: the challenge-response
    handshake over a pre-shared key, the session it opens, the envelope of
    privileged requests with its strict counter, role checks, the envelope of
    responses and the diagnostics.  Every operation takes the security context
    and returns it as it leaves it.  The nonce source of the platform is a
    callback parameter: it is given its context, the buffer to fill, the length
    and the state of the world, and answers its result with the buffer and the
    world.  The erasure of local buffers is not observable and not modelled; the
    erasure of a member of the context sets it to its zero value. *)

From S2P Require Import Prelude Crypto Crc32 Protocol.

(** ** Constants and data of guardian_security.h *)

Definition GUARDIAN_SECURITY_SCHEMA_VERSION : Z := 0x01.
Definition GUARDIAN_SECURITY_PSK_SIZE : nat := 32.
Definition GUARDIAN_SECURITY_NONCE_SIZE : nat := 16.
Definition GUARDIAN_SECURITY_SESSION_KEY_SIZE : nat := 32.
Definition GUARDIAN_SECURITY_TAG_SIZE : nat := 16.
Definition GUARDIAN_SECURITY_AUTH_BEGIN_REQUEST_SIZE : Z := 18.
Definition GUARDIAN_SECURITY_AUTH_BEGIN_RESPONSE_SIZE : Z := 38.
Definition GUARDIAN_SECURITY_AUTH_FINISH_REQUEST_SIZE : Z := 22.
Definition GUARDIAN_SECURITY_AUTH_FINISH_RESPONSE_SIZE : Z := 8.
Definition GUARDIAN_SECURITY_STATUS_PAYLOAD_SIZE : Z := 36.
Definition GUARDIAN_SECURITY_REQUEST_OVERHEAD : Z := 32.
Definition GUARDIAN_SECURITY_RESPONSE_OVERHEAD : Z := 33.
Definition GUARDIAN_SECURITY_MAX_REQUEST_INNER_PAYLOAD : Z :=
  u16 (Z.of_nat GUARDIAN_MAX_PAYLOAD_SIZE - GUARDIAN_SECURITY_REQUEST_OVERHEAD).
Definition GUARDIAN_SECURITY_MAX_RESPONSE_INNER_PAYLOAD : Z :=
  u16 (Z.of_nat GUARDIAN_MAX_PAYLOAD_SIZE - GUARDIAN_SECURITY_RESPONSE_OVERHEAD).
Definition GUARDIAN_SECURITY_DEFAULT_SESSION_TIMEOUT_SECONDS : Z := 300.
Definition GUARDIAN_SECURITY_PENDING_TIMEOUT_SECONDS : Z := 30.

(** [guardian_security_role_t]: a role is the value of the enumeration object. *)
Definition GUARDIAN_SECURITY_ROLE_NONE : Z := 0.
Definition GUARDIAN_SECURITY_ROLE_OBSERVER : Z := 1.
Definition GUARDIAN_SECURITY_ROLE_OPERATOR : Z := 2.
Definition GUARDIAN_SECURITY_ROLE_ADMIN : Z := 3.

Inductive guardian_security_result_t :=
  | GUARDIAN_SECURITY_OK
  | GUARDIAN_SECURITY_ERROR_NULL_ARGUMENT
  | GUARDIAN_SECURITY_ERROR_INVALID_PAYLOAD
  | GUARDIAN_SECURITY_ERROR_UNAUTHORIZED
  | GUARDIAN_SECURITY_ERROR_REPLAY
  | GUARDIAN_SECURITY_ERROR_RANDOM
  | GUARDIAN_SECURITY_ERROR_OUTPUT_TOO_SMALL.

#[global] Instance guardian_security_result_t_eq_dec : EqDecision guardian_security_result_t.
Proof. solve_decision. Defined.

Local Abbreviation result_t := guardian_security_result_t.

(** [int random(void *context, uint8_t *output, size_t length)] *)
Definition guardian_security_random_fn (C W : Type) : Type :=
  option C -> list Z -> nat -> W -> Z * list Z * W.

Record guardian_security_config_t (C W : Type) := SECURITY_CONFIG {
  cfg_psk : list Z;                     (* psk[32] *)
  cfg_max_role : Z;
  cfg_random : option (guardian_security_random_fn C W);
  cfg_random_context : option C;
  cfg_session_timeout_seconds : Z       (* uint16_t *)
}.
Arguments SECURITY_CONFIG {C W}.
Arguments cfg_psk {C W}.
Arguments cfg_max_role {C W}.
Arguments cfg_random {C W}.
Arguments cfg_random_context {C W}.
Arguments cfg_session_timeout_seconds {C W}.

Record guardian_security_pending_t := PENDING {
  pend_valid : Z;
  pend_role : Z;
  pend_session_id : Z;
  pend_client_nonce : list Z;           (* client_nonce[16] *)
  pend_device_nonce : list Z;           (* device_nonce[16] *)
  pend_started_seconds : Z
}.

Record guardian_security_session_t := SESSION {
  sess_valid : Z;
  sess_role : Z;
  sess_session_id : Z;
  sess_session_key : list Z;            (* session_key[32] *)
  sess_next_counter : Z;                (* uint64_t *)
  sess_last_activity_seconds : Z
}.

Record guardian_security_status_t := SECURITY_STATUS {
  stat_configured : Z;
  stat_active : Z;
  stat_active_role : Z;
  stat_session_id : Z;
  stat_next_counter : Z;
  stat_timeout_seconds : Z;
  stat_remaining_seconds : Z;
  stat_auth_successes : Z;
  stat_auth_failures : Z;
  stat_replay_rejections : Z;
  stat_unauthorized_rejections : Z
}.

Record guardian_security_t (C W : Type) := SECURITY {
  sec_config : guardian_security_config_t C W;
  sec_configured : Z;
  sec_pending : guardian_security_pending_t;
  sec_session : guardian_security_session_t;
  sec_auth_successes : Z;
  sec_auth_failures : Z;
  sec_replay_rejections : Z;
  sec_unauthorized_rejections : Z
}.
Arguments SECURITY {C W}.
Arguments sec_config {C W}.
Arguments sec_configured {C W}.
Arguments sec_pending {C W}.
Arguments sec_session {C W}.
Arguments sec_auth_successes {C W}.
Arguments sec_auth_failures {C W}.
Arguments sec_replay_rejections {C W}.
Arguments sec_unauthorized_rejections {C W}.

(** ** Labels: the bytes of the string literals *)

Definition guardian_security_server_label : list Z := Eval cbv in label_bytes "GF-M10-SERVER".
Definition guardian_security_client_label : list Z := Eval cbv in label_bytes "GF-M10-CLIENT".
Definition guardian_security_session_label : list Z := Eval cbv in label_bytes "GF-M10-SESSION".
Definition guardian_security_request_label : list Z := Eval cbv in label_bytes "GF-M10-REQUEST".
Definition guardian_security_response_label : list Z := Eval cbv in label_bytes "GF-M10-RESPONSE".
Definition GUARDIAN_SECURITY_TRANSCRIPT_CAPACITY : nat := 288.

(** ** Scalars *)

Definition guardian_security_increment_u32 (value : Z) : Z :=
  if negb (value =? 0xFFFFFFFF) then u32 (value + 1) else value.

Definition guardian_security_write_u16_be (value : Z) : list Z := put_u16_be value.
Definition guardian_security_write_u32_be (value : Z) : list Z := put_u32_be value.
Definition guardian_security_write_u64_be (value : Z) : list Z :=
  [u8 (Z.land (Z.shiftr value 56) 255); u8 (Z.land (Z.shiftr value 48) 255);
   u8 (Z.land (Z.shiftr value 40) 255); u8 (Z.land (Z.shiftr value 32) 255);
   u8 (Z.land (Z.shiftr value 24) 255); u8 (Z.land (Z.shiftr value 16) 255);
   u8 (Z.land (Z.shiftr value 8) 255); u8 (Z.land value 255)].
Definition guardian_security_read_u16_be (input : list Z) : Z := get_u16_be input.
Definition guardian_security_read_u32_be (input : list Z) : Z := get_u32_be input.
Definition guardian_security_read_u64_be (input : list Z) : Z :=
  Z.lor (Z.lor (Z.lor (Z.lor (Z.lor (Z.lor (Z.lor
    (u64 (Z.shiftl (byte_at input 0) 56))
    (u64 (Z.shiftl (byte_at input 1) 48)))
    (u64 (Z.shiftl (byte_at input 2) 40)))
    (u64 (Z.shiftl (byte_at input 3) 32)))
    (u64 (Z.shiftl (byte_at input 4) 24)))
    (u64 (Z.shiftl (byte_at input 5) 16)))
    (u64 (Z.shiftl (byte_at input 6) 8)))
    (byte_at input 7).

(** ** Transcripts *)

(** [guardian_security_append]: the flag, the buffer and the length. *)
Definition guardian_security_append (transcript : option (list Z)) (capacity : nat)
    (length : option nat) (data : option (list Z)) (data_length : nat)
  : bool * option (list Z) * option nat :=
  match transcript, length with
  | Some t, Some n =>
      early is_null data && negb (data_length =? 0)%nat with (false, transcript, length) ;;
      early (capacity <? n + data_length)%nat with (false, transcript, length) ;;
      let t := if negb (data_length =? 0)%nat
               then blit t n (take data_length (default [] data)) else t in
      (true, Some t, Some (n + data_length)%nat)
  | _, _ => (false, transcript, length)
  end.

Definition zero_frame : guardian_frame_t := FRAME 0 0 0 0 0 (replicate 256 0).

Section operations.
Context {C W : Type}.

Local Abbreviation security_t := (guardian_security_t C W).
Local Abbreviation config_t := (guardian_security_config_t C W).

(** The zero values left by [memset] and [guardian_crypto_zero]. *)
Definition zero_pending : guardian_security_pending_t :=
  PENDING 0 0 0 (replicate 16 0) (replicate 16 0) 0.
Definition zero_session : guardian_security_session_t :=
  SESSION 0 0 0 (replicate 32 0) 0 0.
Definition zero_security : security_t :=
  SECURITY (SECURITY_CONFIG (replicate 32 0) 0 None None 0) 0 zero_pending zero_session 0 0 0 0.

(** Assignments to the members of the context. *)
Definition set_pending (p : guardian_security_pending_t) (s : security_t) : security_t :=
  SECURITY (sec_config s) (sec_configured s) p (sec_session s) (sec_auth_successes s)
    (sec_auth_failures s) (sec_replay_rejections s) (sec_unauthorized_rejections s).
Definition set_session (x : guardian_security_session_t) (s : security_t) : security_t :=
  SECURITY (sec_config s) (sec_configured s) (sec_pending s) x (sec_auth_successes s)
    (sec_auth_failures s) (sec_replay_rejections s) (sec_unauthorized_rejections s).
Definition count_auth_success (s : security_t) : security_t :=
  SECURITY (sec_config s) (sec_configured s) (sec_pending s) (sec_session s)
    (guardian_security_increment_u32 (sec_auth_successes s))
    (sec_auth_failures s) (sec_replay_rejections s) (sec_unauthorized_rejections s).
Definition count_auth_failure (s : security_t) : security_t :=
  SECURITY (sec_config s) (sec_configured s) (sec_pending s) (sec_session s)
    (sec_auth_successes s) (guardian_security_increment_u32 (sec_auth_failures s))
    (sec_replay_rejections s) (sec_unauthorized_rejections s).
Definition count_replay_rejection (s : security_t) : security_t :=
  SECURITY (sec_config s) (sec_configured s) (sec_pending s) (sec_session s)
    (sec_auth_successes s) (sec_auth_failures s)
    (guardian_security_increment_u32 (sec_replay_rejections s)) (sec_unauthorized_rejections s).
Definition count_unauthorized_rejection (s : security_t) : security_t :=
  SECURITY (sec_config s) (sec_configured s) (sec_pending s) (sec_session s)
    (sec_auth_successes s) (sec_auth_failures s) (sec_replay_rejections s)
    (guardian_security_increment_u32 (sec_unauthorized_rejections s)).

Definition guardian_security_clear_pending (s : security_t) : security_t :=
  set_pending zero_pending s.
Definition guardian_security_clear_session (s : security_t) : security_t :=
  set_session zero_session s.

Definition guardian_security_expire_pending (s : security_t) (now_seconds : Z) : security_t :=
  early pend_valid (sec_pending s) =? 0 with s ;;
  let elapsed := u32 (now_seconds - pend_started_seconds (sec_pending s)) in
  if GUARDIAN_SECURITY_PENDING_TIMEOUT_SECONDS <=? elapsed
  then guardian_security_clear_pending s else s.

Definition guardian_security_expire_session (s : security_t) (now_seconds : Z) : security_t :=
  early sess_valid (sec_session s) =? 0 with s ;;
  let elapsed := u32 (now_seconds - sess_last_activity_seconds (sec_session s)) in
  if cfg_session_timeout_seconds (sec_config s) <=? elapsed
  then guardian_security_clear_session s else s.

(** ** Codes over transcripts: the flag and the digest *)

Definition guardian_security_handshake_mac (s : security_t) (label : list Z) (label_length : nat)
    (role session_id : Z) (client_nonce device_nonce digest : list Z) : bool * list Z :=
  let transcript := Some (replicate GUARDIAN_SECURITY_TRANSCRIPT_CAPACITY 0) in
  let capacity := GUARDIAN_SECURITY_TRANSCRIPT_CAPACITY in
  let '(appended, transcript, length) :=
    guardian_security_append transcript capacity (Some 0%nat) (Some label) label_length in
  early negb appended with (false, digest) ;;
  let scalar := replicate 6 0 in
  let scalar := blit scalar 0 [GUARDIAN_SECURITY_SCHEMA_VERSION] in
  let scalar := blit scalar 1 [u8 role] in
  let scalar := blit scalar 2 (guardian_security_write_u32_be session_id) in
  let '(appended, transcript, length) :=
    guardian_security_append transcript capacity length (Some scalar) 6 in
  early negb appended with (false, digest) ;;
  let '(appended, transcript, length) :=
    guardian_security_append transcript capacity length (Some client_nonce)
      GUARDIAN_SECURITY_NONCE_SIZE in
  early negb appended with (false, digest) ;;
  let '(appended, transcript, length) :=
    guardian_security_append transcript capacity length (Some device_nonce)
      GUARDIAN_SECURITY_NONCE_SIZE in
  early negb appended with (false, digest) ;;
  let digest :=
    default digest (guardian_hmac_sha256 (Some (cfg_psk (sec_config s))) GUARDIAN_SECURITY_PSK_SIZE
      transcript (default 0%nat length) (Some digest)) in
  (true, digest).

Definition guardian_security_request_tag (s : security_t) (outer_request : guardian_frame_t)
    (session_id counter inner_command : Z) (inner_payload : list Z) (inner_length : Z)
    (tag : list Z) : bool * list Z :=
  let transcript := Some (replicate GUARDIAN_SECURITY_TRANSCRIPT_CAPACITY 0) in
  let capacity := GUARDIAN_SECURITY_TRANSCRIPT_CAPACITY in
  let '(appended, transcript, length) :=
    guardian_security_append transcript capacity (Some 0%nat)
      (Some guardian_security_request_label) (length guardian_security_request_label) in
  early negb appended with (false, tag) ;;
  let scalar := replicate 20 0 in
  let scalar := blit scalar 0 [GUARDIAN_SECURITY_SCHEMA_VERSION] in
  let scalar := blit scalar 1 (guardian_security_write_u32_be session_id) in
  let scalar := blit scalar 5 (guardian_security_write_u64_be counter) in
  let scalar := blit scalar 13 (guardian_security_write_u32_be (frame_sequence outer_request)) in
  let scalar := blit scalar 17 [inner_command] in
  let scalar := blit scalar 18 (guardian_security_write_u16_be inner_length) in
  let '(appended, transcript, length) :=
    guardian_security_append transcript capacity length (Some scalar) 20 in
  early negb appended with (false, tag) ;;
  let '(appended, transcript, length) :=
    guardian_security_append transcript capacity length (Some inner_payload)
      (Z.to_nat inner_length) in
  early negb appended with (false, tag) ;;
  let tag :=
    default tag (guardian_hmac_sha256 (Some (sess_session_key (sec_session s)))
      GUARDIAN_SECURITY_SESSION_KEY_SIZE transcript (default 0%nat length) (Some tag)) in
  (true, tag).

Definition guardian_security_response_tag (s : security_t) (outer_request : guardian_frame_t)
    (session_id counter : Z) (inner_response : guardian_frame_t) (tag : list Z)
  : bool * list Z :=
  let transcript := Some (replicate GUARDIAN_SECURITY_TRANSCRIPT_CAPACITY 0) in
  let capacity := GUARDIAN_SECURITY_TRANSCRIPT_CAPACITY in
  let '(appended, transcript, length) :=
    guardian_security_append transcript capacity (Some 0%nat)
      (Some guardian_security_response_label) (length guardian_security_response_label) in
  early negb appended with (false, tag) ;;
  let scalar := replicate 21 0 in
  let scalar := blit scalar 0 [GUARDIAN_SECURITY_SCHEMA_VERSION] in
  let scalar := blit scalar 1 (guardian_security_write_u32_be session_id) in
  let scalar := blit scalar 5 (guardian_security_write_u64_be counter) in
  let scalar := blit scalar 13 (guardian_security_write_u32_be (frame_sequence outer_request)) in
  let scalar := blit scalar 17 [u8 (frame_message_type inner_response)] in
  let scalar := blit scalar 18 [frame_command inner_response] in
  let scalar :=
    blit scalar 19 (guardian_security_write_u16_be (frame_payload_length inner_response)) in
  let '(appended, transcript, length) :=
    guardian_security_append transcript capacity length (Some scalar) 21 in
  early negb appended with (false, tag) ;;
  let '(appended, transcript, length) :=
    guardian_security_append transcript capacity length (Some (frame_payload inner_response))
      (Z.to_nat (frame_payload_length inner_response)) in
  early negb appended with (false, tag) ;;
  let tag :=
    default tag (guardian_hmac_sha256 (Some (sess_session_key (sec_session s)))
      GUARDIAN_SECURITY_SESSION_KEY_SIZE transcript (default 0%nat length) (Some tag)) in
  (true, tag).

(** ** Provisioning *)

Definition guardian_security_init (security : option security_t) : option security_t :=
  match security with None => None | Some _ => Some zero_security end.

Definition guardian_security_clear (security : option security_t) : option security_t :=
  match security with None => None | Some _ => Some zero_security end.

Definition guardian_security_configure (security : option security_t) (config : option config_t)
  : result_t * option security_t :=
  match security, config with
  | Some s, Some config =>
      early (cfg_max_role config <? GUARDIAN_SECURITY_ROLE_OBSERVER)
            || (GUARDIAN_SECURITY_ROLE_ADMIN <? cfg_max_role config)
        with (GUARDIAN_SECURITY_ERROR_INVALID_PAYLOAD, security) ;;
      early is_null (cfg_random config)
        with (GUARDIAN_SECURITY_ERROR_INVALID_PAYLOAD, security) ;;
      let s := default s (guardian_security_clear (Some s)) in
      let timeout := cfg_session_timeout_seconds config in
      let timeout := if timeout =? 0 then GUARDIAN_SECURITY_DEFAULT_SESSION_TIMEOUT_SECONDS
                     else timeout in
      let config := SECURITY_CONFIG (cfg_psk config) (cfg_max_role config) (cfg_random config)
                      (cfg_random_context config) timeout in
      (GUARDIAN_SECURITY_OK,
       Some (SECURITY config 1 (sec_pending s) (sec_session s) (sec_auth_successes s)
               (sec_auth_failures s) (sec_replay_rejections s) (sec_unauthorized_rejections s)))
  | _, _ => (GUARDIAN_SECURITY_ERROR_NULL_ARGUMENT, security)
  end.

(** ** Handshake *)

Definition guardian_security_auth_begin (security : option security_t)
    (request_payload : option (list Z)) (request_length now_seconds : Z)
    (response_payload : option (list Z)) (response_capacity : Z) (response_length : option Z)
    (w : W) : result_t * option security_t * option (list Z) * option Z * W :=
  match security, request_payload, response_payload, response_length with
  | Some s, Some request, Some response, Some _ =>
      let fail r s := (r, Some s, response_payload, response_length, w) in
      early sec_configured s =? 0 with fail GUARDIAN_SECURITY_ERROR_UNAUTHORIZED s ;;
      early negb (request_length =? GUARDIAN_SECURITY_AUTH_BEGIN_REQUEST_SIZE)
        with fail GUARDIAN_SECURITY_ERROR_INVALID_PAYLOAD (count_auth_failure s) ;;
      early response_capacity <? GUARDIAN_SECURITY_AUTH_BEGIN_RESPONSE_SIZE
        with fail GUARDIAN_SECURITY_ERROR_OUTPUT_TOO_SMALL s ;;
      early negb (byte_at request 0 =? GUARDIAN_SECURITY_SCHEMA_VERSION)
        with fail GUARDIAN_SECURITY_ERROR_INVALID_PAYLOAD (count_auth_failure s) ;;
      let requested_role := byte_at request 1 in
      early (requested_role <? GUARDIAN_SECURITY_ROLE_OBSERVER)
            || (cfg_max_role (sec_config s) <? requested_role)
        with fail GUARDIAN_SECURITY_ERROR_UNAUTHORIZED (count_unauthorized_rejection s) ;;
      let s := guardian_security_expire_pending s now_seconds in
      match cfg_random (sec_config s) with
      | None => fail GUARDIAN_SECURITY_ERROR_RANDOM s   (* a configured context has one *)
      | Some random =>
          let '(filled, random_bytes, w) :=
            random (cfg_random_context (sec_config s)) (replicate 20 0) 20%nat w in
          early filled =? 0
            with (GUARDIAN_SECURITY_ERROR_RANDOM, Some s, response_payload, response_length, w) ;;
          let s := guardian_security_clear_pending s in
          let session_id := guardian_security_read_u32_be random_bytes in
          let session_id := if session_id =? 0 then 1 else session_id in
          let client_nonce := take GUARDIAN_SECURITY_NONCE_SIZE (drop 2 request) in
          let device_nonce := take GUARDIAN_SECURITY_NONCE_SIZE (drop 4 random_bytes) in
          let s := set_pending (PENDING 1 requested_role session_id client_nonce device_nonce
                                  now_seconds) s in
          let '(computed, server_proof) :=
            guardian_security_handshake_mac s guardian_security_server_label
              (length guardian_security_server_label) requested_role session_id
              client_nonce device_nonce (replicate 32 0) in
          early negb computed
            with (GUARDIAN_SECURITY_ERROR_INVALID_PAYLOAD,
                  Some (guardian_security_clear_pending s), response_payload, response_length, w) ;;
          let response := blit response 0 [GUARDIAN_SECURITY_SCHEMA_VERSION] in
          let response := blit response 1 [u8 requested_role] in
          let response := blit response 2 (guardian_security_write_u32_be session_id) in
          let response := blit response 6 (take GUARDIAN_SECURITY_NONCE_SIZE device_nonce) in
          let response := blit response 22 (take GUARDIAN_SECURITY_TAG_SIZE server_proof) in
          (GUARDIAN_SECURITY_OK, Some s, Some response,
           Some GUARDIAN_SECURITY_AUTH_BEGIN_RESPONSE_SIZE, w)
      end
  | _, _, _, _ =>
      (GUARDIAN_SECURITY_ERROR_NULL_ARGUMENT, security, response_payload, response_length, w)
  end.

Definition guardian_security_auth_finish (security : option security_t)
    (request_payload : option (list Z)) (request_length now_seconds : Z)
    (response_payload : option (list Z)) (response_capacity : Z) (response_length : option Z)
  : result_t * option security_t * option (list Z) * option Z :=
  match security, request_payload, response_payload, response_length with
  | Some s, Some request, Some response, Some _ =>
      let fail r s := (r, Some s, response_payload, response_length) in
      early sec_configured s =? 0 with fail GUARDIAN_SECURITY_ERROR_UNAUTHORIZED s ;;
      let s := guardian_security_expire_pending s now_seconds in
      early negb (request_length =? GUARDIAN_SECURITY_AUTH_FINISH_REQUEST_SIZE)
        with fail GUARDIAN_SECURITY_ERROR_INVALID_PAYLOAD (count_auth_failure s) ;;
      early response_capacity <? GUARDIAN_SECURITY_AUTH_FINISH_RESPONSE_SIZE
        with fail GUARDIAN_SECURITY_ERROR_OUTPUT_TOO_SMALL s ;;
      early pend_valid (sec_pending s) =? 0
        with fail GUARDIAN_SECURITY_ERROR_UNAUTHORIZED (count_auth_failure s) ;;
      early negb (byte_at request 0 =? GUARDIAN_SECURITY_SCHEMA_VERSION)
        with fail GUARDIAN_SECURITY_ERROR_INVALID_PAYLOAD (count_auth_failure s) ;;
      let role := byte_at request 1 in
      let session_id := guardian_security_read_u32_be (drop 2 request) in
      early negb (role =? pend_role (sec_pending s))
            || negb (session_id =? pend_session_id (sec_pending s))
        with fail GUARDIAN_SECURITY_ERROR_UNAUTHORIZED
               (guardian_security_clear_pending (count_auth_failure s)) ;;
      let client_nonce := pend_client_nonce (sec_pending s) in
      let device_nonce := pend_device_nonce (sec_pending s) in
      let '(computed, expected_proof) :=
        guardian_security_handshake_mac s guardian_security_client_label
          (length guardian_security_client_label) role session_id client_nonce device_nonce
          (replicate 32 0) in
      early negb computed
        with fail GUARDIAN_SECURITY_ERROR_INVALID_PAYLOAD (guardian_security_clear_pending s) ;;
      early negb (guardian_crypto_constant_time_equal (Some expected_proof)
                    (Some (drop 6 request)) GUARDIAN_SECURITY_TAG_SIZE)
        with fail GUARDIAN_SECURITY_ERROR_UNAUTHORIZED
               (guardian_security_clear_pending (count_auth_failure s)) ;;
      let '(computed, session_key) :=
        guardian_security_handshake_mac s guardian_security_session_label
          (length guardian_security_session_label) role session_id client_nonce device_nonce
          (replicate 32 0) in
      early negb computed
        with fail GUARDIAN_SECURITY_ERROR_INVALID_PAYLOAD (guardian_security_clear_pending s) ;;
      let s := guardian_security_clear_session s in
      let s := set_session (SESSION 1 role session_id
                 (take GUARDIAN_SECURITY_SESSION_KEY_SIZE session_key) 1 now_seconds) s in
      let s := count_auth_success s in
      let response := blit response 0 [GUARDIAN_SECURITY_SCHEMA_VERSION] in
      let response := blit response 1 [u8 role] in
      let response := blit response 2 (guardian_security_write_u32_be session_id) in
      let response := blit response 6
        (guardian_security_write_u16_be (cfg_session_timeout_seconds (sec_config s))) in
      (GUARDIAN_SECURITY_OK, Some (guardian_security_clear_pending s), Some response,
       Some GUARDIAN_SECURITY_AUTH_FINISH_RESPONSE_SIZE)
  | _, _, _, _ =>
      (GUARDIAN_SECURITY_ERROR_NULL_ARGUMENT, security, response_payload, response_length)
  end.

(** ** Privileged requests *)

Definition guardian_security_unwrap_request (security : option security_t)
    (outer_request : option guardian_frame_t) (now_seconds : Z)
    (inner_request : option guardian_frame_t) (counter : option Z)
  : result_t * option security_t * option guardian_frame_t * option Z :=
  match security, outer_request, inner_request, counter with
  | Some s, Some outer, Some _, Some _ =>
      let fail r s := (r, Some s, inner_request, counter) in
      let s := guardian_security_expire_session s now_seconds in
      early sess_valid (sec_session s) =? 0
        with fail GUARDIAN_SECURITY_ERROR_UNAUTHORIZED (count_unauthorized_rejection s) ;;
      early frame_payload_length outer <? GUARDIAN_SECURITY_REQUEST_OVERHEAD
        with fail GUARDIAN_SECURITY_ERROR_INVALID_PAYLOAD (count_auth_failure s) ;;
      early negb (byte_at (frame_payload outer) 0 =? GUARDIAN_SECURITY_SCHEMA_VERSION)
        with fail GUARDIAN_SECURITY_ERROR_INVALID_PAYLOAD (count_auth_failure s) ;;
      let session_id := guardian_security_read_u32_be (drop 1 (frame_payload outer)) in
      early negb (session_id =? sess_session_id (sec_session s))
        with fail GUARDIAN_SECURITY_ERROR_UNAUTHORIZED (count_unauthorized_rejection s) ;;
      let request_counter := guardian_security_read_u64_be (drop 5 (frame_payload outer)) in
      let inner_command := byte_at (frame_payload outer) 13 in
      let inner_length := guardian_security_read_u16_be (drop 14 (frame_payload outer)) in
      early GUARDIAN_SECURITY_MAX_REQUEST_INNER_PAYLOAD <? inner_length
        with fail GUARDIAN_SECURITY_ERROR_INVALID_PAYLOAD (count_auth_failure s) ;;
      let expected_length := u16 (GUARDIAN_SECURITY_REQUEST_OVERHEAD + inner_length) in
      early negb (frame_payload_length outer =? expected_length)
        with fail GUARDIAN_SECURITY_ERROR_INVALID_PAYLOAD (count_auth_failure s) ;;
      let '(computed, expected_tag) :=
        guardian_security_request_tag s outer session_id request_counter inner_command
          (drop 16 (frame_payload outer)) inner_length (replicate 32 0) in
      early negb computed with fail GUARDIAN_SECURITY_ERROR_INVALID_PAYLOAD s ;;
      let received_tag := drop (16 + Z.to_nat inner_length) (frame_payload outer) in
      early negb (guardian_crypto_constant_time_equal (Some expected_tag) (Some received_tag)
                    GUARDIAN_SECURITY_TAG_SIZE)
        with fail GUARDIAN_SECURITY_ERROR_UNAUTHORIZED (count_auth_failure s) ;;
      early negb (request_counter =? sess_next_counter (sec_session s))
        with fail GUARDIAN_SECURITY_ERROR_REPLAY (count_replay_rejection s) ;;
      let inner_payload :=
        if negb (inner_length =? 0)
        then blit (frame_payload zero_frame) 0
               (take (Z.to_nat inner_length) (drop 16 (frame_payload outer)))
        else frame_payload zero_frame in
      let inner := FRAME GUARDIAN_MESSAGE_REQUEST inner_command GUARDIAN_SUPPORTED_FLAGS
                     (frame_sequence outer) inner_length inner_payload in
      let x := sec_session s in
      let next_counter := u64 (sess_next_counter x + 1) in
      let s := set_session (SESSION (sess_valid x) (sess_role x) (sess_session_id x)
                 (sess_session_key x) next_counter (sess_last_activity_seconds x)) s in
      early next_counter =? 0
        with (GUARDIAN_SECURITY_ERROR_REPLAY, Some (guardian_security_clear_session s),
              Some inner, Some request_counter) ;;
      let s := set_session (SESSION (sess_valid x) (sess_role x) (sess_session_id x)
                 (sess_session_key x) next_counter now_seconds) s in
      (GUARDIAN_SECURITY_OK, Some s, Some inner, Some request_counter)
  | _, _, _, _ => (GUARDIAN_SECURITY_ERROR_NULL_ARGUMENT, security, inner_request, counter)
  end.

Definition guardian_security_authorize (security : option security_t) (command : Z)
  : bool * option security_t :=
  match security with
  | None => (false, None)
  | Some s =>
      early sess_valid (sec_session s) =? 0 with (false, security) ;;
      let required_role :=
        if command =? GUARDIAN_COMMAND_BASELINE_CONTROL then GUARDIAN_SECURITY_ROLE_OPERATOR
        else if command =? GUARDIAN_COMMAND_CONTROL_COMMAND then GUARDIAN_SECURITY_ROLE_OPERATOR
        else GUARDIAN_SECURITY_ROLE_ADMIN in
      early sess_role (sec_session s) <? required_role
        with (false, Some (count_unauthorized_rejection s)) ;;
      (true, security)
  end.

(** ** Privileged responses *)

Definition guardian_security_wrap_response (security : option security_t)
    (outer_request : option guardian_frame_t) (counter : Z)
    (inner_response outer_response : option guardian_frame_t)
  : result_t * option guardian_frame_t :=
  match security, outer_request, inner_response, outer_response with
  | Some s, Some request, Some inner, Some _ =>
      early sess_valid (sec_session s) =? 0
        with (GUARDIAN_SECURITY_ERROR_UNAUTHORIZED, outer_response) ;;
      early GUARDIAN_SECURITY_MAX_RESPONSE_INNER_PAYLOAD <? frame_payload_length inner
        with (GUARDIAN_SECURITY_ERROR_OUTPUT_TOO_SMALL, outer_response) ;;
      let len := frame_payload_length inner in
      let p := frame_payload zero_frame in
      let p := blit p 0 [GUARDIAN_SECURITY_SCHEMA_VERSION] in
      let p := blit p 1 (guardian_security_write_u32_be (sess_session_id (sec_session s))) in
      let p := blit p 5 (guardian_security_write_u64_be counter) in
      let p := blit p 13 [u8 (frame_message_type inner)] in
      let p := blit p 14 [frame_command inner] in
      let p := blit p 15 (guardian_security_write_u16_be len) in
      let p := if negb (len =? 0) then blit p 17 (take (Z.to_nat len) (frame_payload inner))
               else p in
      let outer p payload_length :=
        FRAME GUARDIAN_MESSAGE_RESPONSE (frame_command request) GUARDIAN_SUPPORTED_FLAGS
          (frame_sequence request) payload_length p in
      let '(computed, tag) :=
        guardian_security_response_tag s request (sess_session_id (sec_session s)) counter inner
          (replicate 32 0) in
      early negb computed
        with (GUARDIAN_SECURITY_ERROR_INVALID_PAYLOAD, Some (outer p 0)) ;;
      let p := blit p (17 + Z.to_nat len) (take GUARDIAN_SECURITY_TAG_SIZE tag) in
      (GUARDIAN_SECURITY_OK, Some (outer p (u16 (GUARDIAN_SECURITY_RESPONSE_OVERHEAD + len))))
  | _, _, _, _ => (GUARDIAN_SECURITY_ERROR_NULL_ARGUMENT, outer_response)
  end.

(** ** Diagnostics *)

Definition zero_status : guardian_security_status_t := SECURITY_STATUS 0 0 0 0 0 0 0 0 0 0 0.

Definition guardian_security_status (security : option security_t) (now_seconds : Z)
  : guardian_security_status_t * option security_t :=
  match security with
  | None => (zero_status, None)
  | Some s =>
      let s := guardian_security_expire_pending s now_seconds in
      let s := guardian_security_expire_session s now_seconds in
      let timeout := cfg_session_timeout_seconds (sec_config s) in
      let published := if negb (sec_configured s =? 0) then timeout else 0 in
      let status active active_role session_id next_counter remaining :=
        SECURITY_STATUS (sec_configured s) active active_role session_id next_counter published
          remaining (sec_auth_successes s) (sec_auth_failures s) (sec_replay_rejections s)
          (sec_unauthorized_rejections s) in
      if negb (sess_valid (sec_session s) =? 0) then
        let elapsed := u32 (now_seconds - sess_last_activity_seconds (sec_session s)) in
        let remaining := if elapsed <? timeout then u16 (u32 (timeout - elapsed)) else 0 in
        (status 1 (sess_role (sec_session s)) (sess_session_id (sec_session s))
           (sess_next_counter (sec_session s)) remaining, Some s)
      else (status 0 0 0 0 0, Some s)
  end.
End operations.

Definition guardian_security_encode_status_payload (status : option guardian_security_status_t)
    (payload : option (list Z)) (payload_capacity : Z) (payload_length : option Z)
  : result_t * option (list Z) * option Z :=
  match status, payload, payload_length with
  | Some st, Some p, Some _ =>
      early payload_capacity <? GUARDIAN_SECURITY_STATUS_PAYLOAD_SIZE
        with (GUARDIAN_SECURITY_ERROR_OUTPUT_TOO_SMALL, payload, payload_length) ;;
      let p := blit p 0 [GUARDIAN_SECURITY_SCHEMA_VERSION] in
      let p := blit p 1 [stat_configured st] in
      let p := blit p 2 [stat_active st] in
      let p := blit p 3 [u8 (stat_active_role st)] in
      let p := blit p 4 (guardian_security_write_u32_be (stat_session_id st)) in
      let p := blit p 8 (guardian_security_write_u64_be (stat_next_counter st)) in
      let p := blit p 16 (guardian_security_write_u16_be (stat_timeout_seconds st)) in
      let p := blit p 18 (guardian_security_write_u16_be (stat_remaining_seconds st)) in
      let p := blit p 20 (guardian_security_write_u32_be (stat_auth_successes st)) in
      let p := blit p 24 (guardian_security_write_u32_be (stat_auth_failures st)) in
      let p := blit p 28 (guardian_security_write_u32_be (stat_replay_rejections st)) in
      let p := blit p 32 (guardian_security_write_u32_be (stat_unauthorized_rejections st)) in
      (GUARDIAN_SECURITY_OK, Some p, Some GUARDIAN_SECURITY_STATUS_PAYLOAD_SIZE)
  | _, _, _ => (GUARDIAN_SECURITY_ERROR_NULL_ARGUMENT, payload, payload_length)
  end.

(** ** 64-bit fields *)

Lemma write_u64_be_split v :
  guardian_security_write_u64_be v = put_u32_be (v `div` 2 ^ 32) ++ put_u32_be v.
Proof.
  unfold guardian_security_write_u64_be, put_u32_be, u8. cbn [app].
  rewrite !land_255, !shiftr_div, !Z.div_div by lia. reflexivity.
Qed.

Lemma write_u64_be_length v : length (guardian_security_write_u64_be v) = 8%nat.
Proof. done. Qed.
Lemma write_u64_be_bytes v : bytes (guardian_security_write_u64_be v).
Proof. rewrite write_u64_be_split. auto with guardian. Qed.

Lemma read_u64_be_split l :
  bytes l -> guardian_security_read_u64_be l = get_u32_be l * 2 ^ 32 + get_u32_be (drop 4 l).
Proof.
  intros Hl. pose proof (byte_at_range l) as Hr.
  change (get_u32_be l)
    with (get_u32_be [byte_at l 0; byte_at l 1; byte_at l 2; byte_at l 3]).
  replace (get_u32_be (drop 4 l))
    with (get_u32_be [byte_at l 4; byte_at l 5; byte_at l 6; byte_at l 7])
    by (unfold get_u32_be; rewrite !byte_at_drop; reflexivity).
  rewrite !get_u32_be_cons by auto.
  unfold guardian_security_read_u64_be.
  pose proof (Hr 0%nat Hl) as H0. pose proof (Hr 1%nat Hl) as H1. pose proof (Hr 2%nat Hl) as H2.
  pose proof (Hr 3%nat Hl) as H3. pose proof (Hr 4%nat Hl) as H4. pose proof (Hr 5%nat Hl) as H5.
  pose proof (Hr 6%nat Hl) as H6. pose proof (Hr 7%nat Hl) as H7. clear Hr Hl.
  generalize dependent (byte_at l 0). generalize dependent (byte_at l 1).
  generalize dependent (byte_at l 2). generalize dependent (byte_at l 3).
  generalize dependent (byte_at l 4). generalize dependent (byte_at l 5).
  generalize dependent (byte_at l 6). generalize dependent (byte_at l 7).
  unfold is_u8, u64. intros h Hh g Hg f Hf e He d Hd c Hc b Hb a Ha.
  rewrite !Z.shiftl_mul_pow2 by lia. rewrite !Z.mod_small by lia.
  assert (Hs : forall x y k, 0 <= k -> 0 <= y < 2 ^ 8 ->
            Z.lor (x * 2 ^ (k + 8)) (y * 2 ^ k) = (x * 2 ^ 8 + y) * 2 ^ k).
  { intros x y k Hk Hy. rewrite Z.pow_add_r by lia.
    replace (x * (2 ^ k * 2 ^ 8)) with (x * 2 ^ 8 * 2 ^ k) by ring.
    rewrite <- !(Z.shiftl_mul_pow2 _ k), <- Z.shiftl_lor by lia.
    by rewrite lor_add_disjoint by lia. }
  change (2 ^ 56) with (2 ^ (48 + 8)). rewrite Hs by lia.
  change (2 ^ 48) with (2 ^ (40 + 8)). rewrite Hs by lia.
  change (2 ^ 40) with (2 ^ (32 + 8)). rewrite Hs by lia.
  change (2 ^ 32) with (2 ^ (24 + 8)) at 1. rewrite Hs by lia.
  change (2 ^ 24) with (2 ^ (16 + 8)) at 1. rewrite Hs by lia.
  change (2 ^ 16) with (2 ^ (8 + 8)) at 1. rewrite Hs by lia.
  rewrite lor_add_disjoint by lia. lia.
Qed.

Definition is_u64 (z : Z) : Prop := 0 <= z < 2 ^ 64.

Lemma read_write_u64_be v l :
  is_u64 v -> bytes l -> guardian_security_read_u64_be (guardian_security_write_u64_be v ++ l) = v.
Proof.
  intros Hv Hl. rewrite write_u64_be_split, read_u64_be_split by auto with guardian.
  rewrite <- app_assoc, (drop_app_length' (put_u32_be _)) by done.
  rewrite !get_put_u32_be_mod. unfold is_u64, u32 in *. div_mod_lia.
Qed.

Lemma read_u64_be_range l : bytes l -> is_u64 (guardian_security_read_u64_be l).
Proof.
  intros Hl. rewrite read_u64_be_split by done.
  pose proof (get_u32_be_range l Hl) as H1.
  pose proof (get_u32_be_range (drop 4 l) (bytes_drop 4 l Hl)) as H2.
  unfold is_u64, is_u32 in *. lia.
Qed.

Lemma write_read_u64_be l :
  bytes l -> (8 <= length l)%nat ->
  guardian_security_write_u64_be (guardian_security_read_u64_be l) = take 8 l.
Proof.
  intros Hl Hn. rewrite write_u64_be_split, read_u64_be_split by done.
  pose proof (get_u32_be_range l Hl) as H1.
  pose proof (get_u32_be_range (drop 4 l) (bytes_drop 4 l Hl)) as H2.
  set (a := get_u32_be l) in *. set (b := get_u32_be (drop 4 l)) in *.
  replace ((a * 2 ^ 32 + b) `div` 2 ^ 32) with a by (unfold is_u32 in *; div_mod_lia).
  replace (put_u32_be (a * 2 ^ 32 + b)) with (put_u32_be b).
  - subst a b. rewrite !get_put_u32_be_take by (rewrite ?length_drop; auto with guardian; lia).
    change 8%nat with (4 + 4)%nat. apply take_take_drop.
  - rewrite !put_u32_be_eq. unfold is_u32 in *.
    repeat (apply f_equal2; [div_mod_lia|]). reflexivity.
Qed.

Lemma write_u64_be_inj v w :
  is_u64 v -> is_u64 w ->
  guardian_security_write_u64_be v = guardian_security_write_u64_be w -> v = w.
Proof.
  intros Hv Hw H. rewrite <- (read_write_u64_be v []), <- (read_write_u64_be w [])
    by auto using bytes_nil. by rewrite H.
Qed.
Lemma take_u64_eq l v :
  bytes l -> (8 <= length l)%nat -> is_u64 v ->
  take 8 l = guardian_security_write_u64_be v <-> guardian_security_read_u64_be l = v.
Proof.
  intros Hb Hl Hv. rewrite <- write_read_u64_be by done.
  split; [apply write_u64_be_inj; auto using read_u64_be_range|by intros ->].
Qed.
#[export] Hint Resolve write_u64_be_bytes read_u64_be_range : guardian.

(** ** What the codes are computed over *)

Definition handshake_transcript (label : list Z) (role session_id : Z)
    (client_nonce device_nonce : list Z) : list Z :=
  label ++ [GUARDIAN_SECURITY_SCHEMA_VERSION; u8 role] ++ put_u32_be session_id
  ++ client_nonce ++ device_nonce.

Definition request_transcript (session_id counter sequence command : Z) (payload : list Z)
  : list Z :=
  guardian_security_request_label ++ [GUARDIAN_SECURITY_SCHEMA_VERSION] ++ put_u32_be session_id
  ++ guardian_security_write_u64_be counter ++ put_u32_be sequence ++ [command]
  ++ put_u16_be (Z.of_nat (length payload)) ++ payload.

Definition response_transcript (session_id counter sequence message_type command : Z)
    (payload : list Z) : list Z :=
  guardian_security_response_label ++ [GUARDIAN_SECURITY_SCHEMA_VERSION] ++ put_u32_be session_id
  ++ guardian_security_write_u64_be counter ++ put_u32_be sequence ++ [u8 message_type; command]
  ++ put_u16_be (Z.of_nat (length payload)) ++ payload.

Local Abbreviation zeros := (replicate GUARDIAN_SECURITY_TRANSCRIPT_CAPACITY 0).

(** Appending to a transcript that holds [m]. *)
Lemma append_holds m data n :
  (length m + n <= 288)%nat -> (n <= length data)%nat ->
  guardian_security_append (Some (blit zeros 0 m)) GUARDIAN_SECURITY_TRANSCRIPT_CAPACITY
    (Some (length m)) (Some data) n
  = (true, Some (blit zeros 0 (m ++ take n data)), Some (length (m ++ take n data))).
Proof.
  intros Hm Hn. unfold guardian_security_append. cbn [is_null andb default].
  unfold GUARDIAN_SECURITY_TRANSCRIPT_CAPACITY in *.
  destruct (Nat.ltb_spec 288 (length m + n)); [lia|].
  rewrite length_app, length_take_le by done. f_equal. f_equal. f_equal.
  destruct (Nat.eqb_spec n 0) as [->|]; cbn [negb].
  - by rewrite take_0, app_nil_r.
  - by rewrite blit_blit_adjacent by (cbn [length]; lia).
Qed.

Lemma append_first data n :
  (n <= 288)%nat -> (n <= length data)%nat ->
  guardian_security_append (Some zeros) GUARDIAN_SECURITY_TRANSCRIPT_CAPACITY
    (Some 0%nat) (Some data) n
  = (true, Some (blit zeros 0 (take n data)), Some (length (take n data))).
Proof.
  intros. apply (append_holds [] data n); [cbn; lia|done].
Qed.

(** The code over what the transcript holds. *)
Lemma hmac_of_transcript key m d :
  length key = 32%nat -> bytes key -> (length m <= 288)%nat -> length d = 32%nat ->
  guardian_hmac_sha256 (Some key) 32 (Some (blit zeros 0 m)) (length m) (Some d)
  = Some (hmac_spec key m).
Proof.
  intros Hk Hb Hm Hd.
  rewrite guardian_hmac_sha256_spec; [|done|lia| |lia|lia|done].
  - by rewrite take_ge, take_blit_0, take_ge by lia.
  - rewrite blit_0, length_app. lia.
Qed.

Local Ltac transcript_lia :=
  rewrite ?length_app, ?put_u32_be_length, ?put_u16_be_length, ?write_u64_be_length;
  cbn [length guardian_security_request_label guardian_security_response_label]; lia.

Section operation_lemmas.
Context {C W : Type}.

Local Abbreviation security_t := (guardian_security_t C W).

Lemma handshake_mac_spec (s : security_t) label role sid cn dn d :
  length (cfg_psk (sec_config s)) = 32%nat -> bytes (cfg_psk (sec_config s)) ->
  (length label <= 250)%nat -> length cn = 16%nat -> length dn = 16%nat -> length d = 32%nat ->
  guardian_security_handshake_mac s label (length label) role sid cn dn d
  = (true, hmac_spec (cfg_psk (sec_config s)) (handshake_transcript label role sid cn dn)).
Proof.
  intros Hk Hb Hl Hcn Hdn Hd. unfold guardian_security_handshake_mac. cbv zeta.
  rewrite append_first by lia. cbn [negb]. rewrite (take_ge label) by lia.
  rewrite append_holds by (first [lia | cbn; lia]). cbn [negb].
  change (take 6 _)
    with ([GUARDIAN_SECURITY_SCHEMA_VERSION; u8 role] ++ put_u32_be sid).
  rewrite append_holds by (unfold GUARDIAN_SECURITY_NONCE_SIZE; buffer_lia). cbn [negb].
  rewrite (take_ge cn) by (unfold GUARDIAN_SECURITY_NONCE_SIZE; lia).
  rewrite append_holds by (unfold GUARDIAN_SECURITY_NONCE_SIZE; buffer_lia). cbn [negb].
  rewrite (take_ge dn) by (unfold GUARDIAN_SECURITY_NONCE_SIZE; lia).
  rewrite <- !app_assoc. cbn [default from_option id].
  rewrite hmac_of_transcript by (try buffer_lia; done). reflexivity.
Qed.

Lemma request_tag_spec (s : security_t) outer sid ctr cmd p len d :
  length (sess_session_key (sec_session s)) = 32%nat -> bytes (sess_session_key (sec_session s)) ->
  0 <= len <= 224 -> (Z.to_nat len <= length p)%nat -> length d = 32%nat ->
  guardian_security_request_tag s outer sid ctr cmd p len d
  = (true, hmac_spec (sess_session_key (sec_session s))
             (request_transcript sid ctr (frame_sequence outer) cmd (take (Z.to_nat len) p))).
Proof.
  intros Hk Hb Hl Hp Hd. unfold guardian_security_request_tag. cbv zeta.
  rewrite append_first by (cbn; lia). cbn [negb].
  rewrite (take_ge guardian_security_request_label) by (cbn; lia).
  rewrite append_holds by (cbn; lia). cbn [negb].
  change (take 20 _)
    with ([GUARDIAN_SECURITY_SCHEMA_VERSION] ++ put_u32_be sid
          ++ guardian_security_write_u64_be ctr ++ put_u32_be (frame_sequence outer) ++ [cmd]
          ++ put_u16_be len).
  rewrite append_holds by transcript_lia.
  cbn [negb]. cbn [default from_option id].
  rewrite <- !app_assoc.
  assert (Hlen : Z.of_nat (length (take (Z.to_nat len) p)) = len)
    by (rewrite length_take_le by done; lia).
  unfold request_transcript. rewrite Hlen.
  rewrite hmac_of_transcript; [reflexivity|done|done| |done].
  rewrite !app_assoc, length_app, length_take_le, <- !app_assoc by done. transcript_lia.
Qed.

Lemma response_tag_spec (s : security_t) outer sid ctr inner d :
  length (sess_session_key (sec_session s)) = 32%nat -> bytes (sess_session_key (sec_session s)) ->
  0 <= frame_payload_length inner <= 223 ->
  (Z.to_nat (frame_payload_length inner) <= length (frame_payload inner))%nat ->
  length d = 32%nat ->
  guardian_security_response_tag s outer sid ctr inner d
  = (true, hmac_spec (sess_session_key (sec_session s))
      (response_transcript sid ctr (frame_sequence outer) (frame_message_type inner)
         (frame_command inner)
         (take (Z.to_nat (frame_payload_length inner)) (frame_payload inner)))).
Proof.
  intros Hk Hb Hl Hp Hd. unfold guardian_security_response_tag. cbv zeta.
  set (len := frame_payload_length inner) in *. set (p := frame_payload inner) in *.
  rewrite append_first by (cbn; lia). cbn [negb].
  rewrite (take_ge guardian_security_response_label) by (cbn; lia).
  rewrite append_holds by (cbn; lia). cbn [negb].
  change (take 21 _)
    with ([GUARDIAN_SECURITY_SCHEMA_VERSION] ++ put_u32_be sid
          ++ guardian_security_write_u64_be ctr ++ put_u32_be (frame_sequence outer)
          ++ [u8 (frame_message_type inner); frame_command inner] ++ put_u16_be len).
  rewrite append_holds by transcript_lia.
  cbn [negb]. cbn [default from_option id].
  rewrite <- !app_assoc.
  assert (Hlen : Z.of_nat (length (take (Z.to_nat len) p)) = len)
    by (rewrite length_take_le by done; lia).
  unfold response_transcript. rewrite Hlen.
  rewrite hmac_of_transcript; [reflexivity|done|done| |done].
  rewrite !app_assoc, length_app, length_take_le, <- !app_assoc by done. transcript_lia.
Qed.
End operation_lemmas.
