(* ===== verification/SecuritySession.v ===== *)
(** * Authenticated sessions: what a session promises

    The wire format of the messages of [Security], the exact behaviour of each
    operation, the invariant of the security context, the session protocol that
    every run of the operations follows, and a session with a client that
    computes its messages as specified. *)

From S2P Require Import Prelude Crypto Crc32 Protocol Security.

(** ** Messages *)

Definition proof_of (psk label : list Z) (role session_id : Z) (cn dn : list Z) : list Z :=
  take 16 (hmac_spec psk (handshake_transcript label role session_id cn dn)).

Definition session_key_of (psk : list Z) (role session_id : Z) (cn dn : list Z) : list Z :=
  hmac_spec psk (handshake_transcript guardian_security_session_label role session_id cn dn).

(** AUTH_BEGIN and its response, AUTH_FINISH and its response. *)
Definition begin_message (role : Z) (cn : list Z) : list Z :=
  [GUARDIAN_SECURITY_SCHEMA_VERSION; role] ++ cn.
Definition challenge_message (psk : list Z) (role session_id : Z) (cn dn : list Z) : list Z :=
  [GUARDIAN_SECURITY_SCHEMA_VERSION; role] ++ put_u32_be session_id ++ dn
  ++ proof_of psk guardian_security_server_label role session_id cn dn.
Definition finish_message (psk : list Z) (role session_id : Z) (cn dn : list Z) : list Z :=
  [GUARDIAN_SECURITY_SCHEMA_VERSION; role] ++ put_u32_be session_id
  ++ proof_of psk guardian_security_client_label role session_id cn dn.
Definition opened_message (role session_id timeout : Z) : list Z :=
  [GUARDIAN_SECURITY_SCHEMA_VERSION; role] ++ put_u32_be session_id ++ put_u16_be timeout.

(** The payloads of SECURE_COMMAND and of its response. *)
Definition request_tag_of (key : list Z) (session_id counter sequence command : Z)
    (inner : list Z) : list Z :=
  take 16 (hmac_spec key (request_transcript session_id counter sequence command inner)).
Definition request_envelope (key : list Z) (session_id counter sequence command : Z)
    (inner : list Z) : list Z :=
  [GUARDIAN_SECURITY_SCHEMA_VERSION] ++ put_u32_be session_id
  ++ guardian_security_write_u64_be counter ++ [command]
  ++ put_u16_be (Z.of_nat (length inner)) ++ inner
  ++ request_tag_of key session_id counter sequence command inner.
Definition response_envelope (key : list Z) (session_id counter sequence message_type command : Z)
    (inner : list Z) : list Z :=
  [GUARDIAN_SECURITY_SCHEMA_VERSION] ++ put_u32_be session_id
  ++ guardian_security_write_u64_be counter ++ [u8 message_type; command]
  ++ put_u16_be (Z.of_nat (length inner)) ++ inner
  ++ take 16 (hmac_spec key
       (response_transcript session_id counter sequence message_type command inner)).

Lemma hmac_spec_length k m : length (hmac_spec k m) = 32%nat.
Proof. apply sha256_spec_length. Qed.
Lemma hmac_spec_bytes k m : bytes (hmac_spec k m).
Proof. apply sha256_spec_bytes. Qed.
#[local] Hint Resolve hmac_spec_bytes : guardian.
#[local] Opaque hmac_spec.

Lemma tag_length k m : length (take 16 (hmac_spec k m)) = 16%nat.
Proof. rewrite length_take, hmac_spec_length. lia. Qed.

(** Comparing a received tag with the prefix of a computed code. *)
Lemma tag_equal k m (r : list Z) :
  bytes r -> (16 <= length r)%nat ->
  guardian_crypto_constant_time_equal (Some (hmac_spec k m)) (Some r) 16 = true <->
  take 16 r = take 16 (hmac_spec k m).
Proof.
  intros Hr Hl. rewrite guardian_crypto_constant_time_equal_spec;
    [by split|apply hmac_spec_bytes|done|lia|rewrite hmac_spec_length; lia|done].
Qed.

Local Ltac fields_lia :=
  rewrite ?length_app, ?length_take, ?length_drop, ?put_u32_be_length, ?put_u16_be_length,
    ?write_u64_be_length; cbn [length]; lia.

(** The fields of a request envelope, read off the payload. *)
Lemma request_envelope_fields key sid ctr seq cmd inner p plen :
  bytes p -> length p = 256%nat -> (plen <= 256)%nat -> is_u32 sid -> is_u64 ctr ->
  (length inner <= 224)%nat ->
  take plen p = request_envelope key sid ctr seq cmd inner <->
  (plen = 32 + length inner)%nat /\ byte_at p 0 = GUARDIAN_SECURITY_SCHEMA_VERSION /\
  get_u32_be (drop 1 p) = sid /\ guardian_security_read_u64_be (drop 5 p) = ctr /\
  byte_at p 13 = cmd /\ get_u16_be (drop 14 p) = Z.of_nat (length inner) /\
  take (length inner) (drop 16 p) = inner /\
  take 16 (drop (16 + length inner) p) = request_tag_of key sid ctr seq cmd inner.
Proof.
  intros Hb Hp Hn Hs Hc Hi. set (tag := request_tag_of key sid ctr seq cmd inner).
  assert (Ht : length tag = 16%nat) by apply tag_length.
  destruct (decide (plen = 32 + length inner)%nat) as [->|Hne].
  2:{ split; [|by intros [? _]]. intros H. apply (f_equal length) in H.
      unfold request_envelope in H. rewrite length_take_le in H by lia.
      rewrite !length_app, put_u32_be_length, put_u16_be_length, write_u64_be_length in H.
      fold tag in H. rewrite Ht in H. cbn [length] in H. lia. }
  unfold request_envelope. fold tag.
  rewrite (take_eq_app p _ _ _ (31 + length inner)) by fields_lia.
  rewrite (take_eq_app _ (put_u32_be sid) _ _ (27 + length inner)) by fields_lia.
  rewrite (take_eq_app _ (guardian_security_write_u64_be ctr) _ _ (19 + length inner))
    by fields_lia.
  rewrite (take_eq_app _ [cmd] _ _ (18 + length inner)) by fields_lia.
  rewrite (take_eq_app _ (put_u16_be _) _ _ (16 + length inner)) by fields_lia.
  rewrite (take_eq_app _ inner _ _ 16) by lia.
  rewrite !drop_drop, put_u32_be_length, put_u16_be_length, write_u64_be_length.
  cbn [length Nat.add].
  rewrite !take_1_eq by (rewrite ?length_drop; lia).
  rewrite take_u32_eq, take_u64_eq, take_u16_eq
    by (rewrite ?length_drop; auto with guardian; unfold is_u16; lia).
  rewrite byte_at_drop. split; [intros H; split; [done|exact H]|intros [_ H]; exact H].
Qed.

(** The fields of a finish message. *)
Lemma finish_message_fields psk role sid cn dn r :
  bytes r -> length r = 22%nat -> is_u32 sid ->
  r = finish_message psk role sid cn dn <->
  byte_at r 0 = GUARDIAN_SECURITY_SCHEMA_VERSION /\ byte_at r 1 = role /\
  get_u32_be (drop 2 r) = sid /\
  take 16 (drop 6 r) = proof_of psk guardian_security_client_label role sid cn dn.
Proof.
  intros Hb Hl Hs. set (tag := proof_of _ _ _ _ _ _).
  assert (Ht : length tag = 16%nat) by apply tag_length.
  rewrite <- (take_ge r 22) at 1 by lia.
  unfold finish_message. fold tag.
  change ([GUARDIAN_SECURITY_SCHEMA_VERSION; role] ++ ?x)
    with ([GUARDIAN_SECURITY_SCHEMA_VERSION] ++ [role] ++ x).
  rewrite (take_eq_app r [_] _ _ 21) by fields_lia.
  rewrite (take_eq_app _ [role] _ _ 20) by fields_lia.
  rewrite (take_eq_app _ (put_u32_be sid) _ _ 16) by fields_lia.
  rewrite !drop_drop, put_u32_be_length. cbn [length Nat.add].
  rewrite !take_1_eq by (rewrite ?length_drop; lia).
  rewrite take_u32_eq by (rewrite ?length_drop; auto with guardian; lia).
  by rewrite byte_at_drop.
Qed.

(** ** The invariant of the security context *)

Section sessions.
Context {C W : Type}.

Local Abbreviation security_t := (guardian_security_t C W).
Local Abbreviation config_t := (guardian_security_config_t C W).
Implicit Types (s : security_t) (w : W).

(** The contract of the nonce source: it fills the buffer it is given. *)
Definition random_fills (f : guardian_security_random_fn C W) : Prop :=
  forall c w, let '(_, b, _) := f c (replicate 20 0) 20%nat w in length b = 20%nat /\ bytes b.

(** A configuration object: an array of 32 bytes, a [uint16_t] timeout. *)
Record config_object (c : config_t) : Prop := {
  co_psk : length (cfg_psk c) = 32%nat;
  co_bytes : bytes (cfg_psk c);
  co_random : forall f, cfg_random c = Some f -> random_fills f;
  co_timeout : is_u16 (cfg_session_timeout_seconds c)
}.

Record pending_ok (s : security_t) (p : guardian_security_pending_t) : Prop := {
  po_valid : pend_valid p = 1;
  po_role : 1 <= pend_role p <= cfg_max_role (sec_config s);
  po_session_id : 1 <= pend_session_id p < 2 ^ 32;
  po_client : length (pend_client_nonce p) = 16%nat;
  po_device : length (pend_device_nonce p) = 16%nat;
  po_started : is_u32 (pend_started_seconds p)
}.

Record session_ok (s : security_t) (x : guardian_security_session_t) : Prop := {
  so_valid : sess_valid x = 1;
  so_role : 1 <= sess_role x <= cfg_max_role (sec_config s);
  so_session_id : 1 <= sess_session_id x < 2 ^ 32;
  so_key : length (sess_session_key x) = 32%nat;
  so_key_bytes : bytes (sess_session_key x);
  so_counter : 1 <= sess_next_counter x < 2 ^ 64;
  so_activity : is_u32 (sess_last_activity_seconds x)
}.

(** Secrets and sessions exist only in a provisioned context; the members that are
    not in use are zero. *)
Record security_ok (s : security_t) : Prop := {
  ok_config : config_object (sec_config s);
  ok_configured :
    sec_configured s = 0 /\ sec_pending s = zero_pending /\ sec_session s = zero_session \/
    sec_configured s = 1 /\ 1 <= cfg_max_role (sec_config s) <= 3 /\
    is_Some (cfg_random (sec_config s)) /\ cfg_session_timeout_seconds (sec_config s) <> 0;
  ok_pending : sec_pending s = zero_pending \/ pending_ok s (sec_pending s);
  ok_session : sec_session s = zero_session \/ session_ok s (sec_session s);
  ok_counts : is_u32 (sec_auth_successes s) /\ is_u32 (sec_auth_failures s) /\
    is_u32 (sec_replay_rejections s) /\ is_u32 (sec_unauthorized_rejections s)
}.

Lemma increment_u32_range v : is_u32 v -> is_u32 (guardian_security_increment_u32 v).
Proof. intros Hv. unfold guardian_security_increment_u32. case_match; [apply u32_range|done]. Qed.

Lemma zero_security_ok : security_ok zero_security.
Proof.
  constructor; cbn; [|by left|by left|by left|by repeat split].
  constructor; cbn; [done|by apply (bytes_replicate 32 0)|done|done].
Qed.

(** The counts do not matter to the rest of the invariant. *)
Lemma counted_ok s s' :
  security_ok s -> sec_config s' = sec_config s -> sec_configured s' = sec_configured s ->
  (sec_pending s' = sec_pending s \/ sec_pending s' = zero_pending) ->
  (sec_session s' = sec_session s \/ sec_session s' = zero_session) ->
  is_u32 (sec_auth_successes s') /\ is_u32 (sec_auth_failures s') /\
  is_u32 (sec_replay_rejections s') /\ is_u32 (sec_unauthorized_rejections s') ->
  security_ok s'.
Proof.
  intros [Hc Hf Hp Hx _] E1 E2 Ep Ex Hn.
  constructor; rewrite ?E1, ?E2; [done| | | |done].
  - destruct Hf as [(H1 & H2 & H3)|H]; [left|right; done].
    split; [done|]. destruct Ep as [-> | ->], Ex as [-> | ->]; done.
  - destruct Ep as [-> | ->]; [|by left]. destruct Hp as [|[]]; [by left|right].
    constructor; by rewrite ?E1.
  - destruct Ex as [-> | ->]; [|by left]. destruct Hx as [|[]]; [by left|right].
    constructor; by rewrite ?E1.
Qed.

Ltac counted Hs :=
  destruct (ok_counts _ Hs) as (? & ? & ? & ?);
  eapply (counted_ok _ _ Hs); [reflexivity|reflexivity|auto|auto|];
  cbn; split_and!; auto using increment_u32_range.

Lemma count_auth_failure_ok s : security_ok s -> security_ok (count_auth_failure s).
Proof. intros Hs. counted Hs. Qed.
Lemma count_unauthorized_ok s : security_ok s -> security_ok (count_unauthorized_rejection s).
Proof. intros Hs. counted Hs. Qed.
Lemma count_replay_ok s : security_ok s -> security_ok (count_replay_rejection s).
Proof. intros Hs. counted Hs. Qed.
Lemma clear_pending_ok s : security_ok s -> security_ok (guardian_security_clear_pending s).
Proof. intros Hs. counted Hs. Qed.
Lemma clear_session_ok s : security_ok s -> security_ok (guardian_security_clear_session s).
Proof. intros Hs. counted Hs. Qed.
#[local] Hint Resolve count_auth_failure_ok count_unauthorized_ok count_replay_ok
  clear_pending_ok clear_session_ok : core.

Lemma expire_pending_ok s now : security_ok s -> security_ok (guardian_security_expire_pending s now).
Proof. intros. unfold guardian_security_expire_pending. cbv zeta. repeat case_match; auto. Qed.
Lemma expire_session_ok s now : security_ok s -> security_ok (guardian_security_expire_session s now).
Proof. intros. unfold guardian_security_expire_session. cbv zeta. repeat case_match; auto. Qed.
#[local] Hint Resolve expire_pending_ok expire_session_ok : core.

(** A challenge or a session in force at a time. *)
Definition pending_live s (now : Z) : Prop :=
  pend_valid (sec_pending s) <> 0 /\
  u32 (now - pend_started_seconds (sec_pending s)) < GUARDIAN_SECURITY_PENDING_TIMEOUT_SECONDS.
Definition session_live s (now : Z) : Prop :=
  sess_valid (sec_session s) <> 0 /\
  u32 (now - sess_last_activity_seconds (sec_session s))
    < cfg_session_timeout_seconds (sec_config s).

Lemma expire_pending_spec s now :
  pending_live s now /\ guardian_security_expire_pending s now = s \/
  ~ pending_live s now /\ pend_valid (sec_pending (guardian_security_expire_pending s now)) = 0 /\
  sec_session (guardian_security_expire_pending s now) = sec_session s /\
  sec_config (guardian_security_expire_pending s now) = sec_config s.
Proof.
  unfold pending_live, guardian_security_expire_pending. cbv zeta.
  destruct (Z.eqb_spec (pend_valid (sec_pending s)) 0) as [E|E].
  { right. split; [by intros [? _]|done]. }
  destruct (Z.leb_spec GUARDIAN_SECURITY_PENDING_TIMEOUT_SECONDS
    (u32 (now - pend_started_seconds (sec_pending s)))).
  - right. split; [lia|done].
  - left. split; [split; [done|lia]|done].
Qed.

Lemma expire_session_spec s now :
  session_live s now /\ guardian_security_expire_session s now = s \/
  ~ session_live s now /\ sess_valid (sec_session (guardian_security_expire_session s now)) = 0.
Proof.
  unfold session_live, guardian_security_expire_session. cbv zeta.
  destruct (Z.eqb_spec (sess_valid (sec_session s)) 0) as [E|E].
  { right. split; [by intros [? _]|done]. }
  destruct (Z.leb_spec (cfg_session_timeout_seconds (sec_config s))
    (u32 (now - sess_last_activity_seconds (sec_session s)))).
  - right. split; [lia|done].
  - left. split; [split; [done|lia]|done].
Qed.

Lemma session_live_ok s now : security_ok s -> session_live s now -> session_ok s (sec_session s).
Proof. intros Hs [Hv _]. destruct (ok_session s Hs) as [E|]; [by rewrite E in Hv|done]. Qed.
Lemma pending_live_ok s now : security_ok s -> pending_live s now -> pending_ok s (sec_pending s).
Proof. intros Hs [Hv _]. destruct (ok_pending s Hs) as [E|]; [by rewrite E in Hv|done]. Qed.

(** ** Requests *)

(** A SECURE_COMMAND frame object. *)
Record frame_object (f : guardian_frame_t) : Prop := {
  fo_length : is_u16 (frame_payload_length f);
  fo_capacity : length (frame_payload f) = 256%nat;
  fo_bytes : bytes (frame_payload f)
}.

(** The frame carries the request with the next counter of the session. *)
Definition carries s (outer : guardian_frame_t) (counter command : Z) (inner : list Z) : Prop :=
  let x := sec_session s in
  0 <= frame_payload_length outer <= 256 /\ (length inner <= 224)%nat /\ is_u64 counter /\
  take (Z.to_nat (frame_payload_length outer)) (frame_payload outer)
  = request_envelope (sess_session_key x) (sess_session_id x) counter (frame_sequence outer)
      command inner.

Definition inner_frame (outer : guardian_frame_t) (command : Z) (inner : list Z)
  : guardian_frame_t :=
  FRAME GUARDIAN_MESSAGE_REQUEST command GUARDIAN_SUPPORTED_FLAGS (frame_sequence outer)
    (Z.of_nat (length inner)) (inner ++ replicate (256 - length inner) 0).

Definition consume s (now : Z) : security_t :=
  let x := sec_session s in
  set_session (SESSION (sess_valid x) (sess_role x) (sess_session_id x) (sess_session_key x)
    (sess_next_counter x + 1) now) s.

Local Abbreviation unwrap := guardian_security_unwrap_request.

(** What [unwrap_request] can answer. *)
Inductive unwrap_outcome s (outer : guardian_frame_t) (now : Z) (i0 : guardian_frame_t) (c0 : Z)
  : guardian_security_result_t * option security_t * option guardian_frame_t * option Z -> Prop :=
  | request_accepted command inner :
      session_live s now -> carries s outer (sess_next_counter (sec_session s)) command inner ->
      sess_next_counter (sec_session s) + 1 < 2 ^ 64 ->
      unwrap_outcome s outer now i0 c0
        (GUARDIAN_SECURITY_OK, Some (consume s now), Some (inner_frame outer command inner),
         Some (sess_next_counter (sec_session s)))
  | counter_exhausted command inner :
      session_live s now -> carries s outer (sess_next_counter (sec_session s)) command inner ->
      sess_next_counter (sec_session s) + 1 = 2 ^ 64 ->
      unwrap_outcome s outer now i0 c0
        (GUARDIAN_SECURITY_ERROR_REPLAY,
         Some (guardian_security_clear_session s), Some (inner_frame outer command inner),
         Some (sess_next_counter (sec_session s)))
  | counter_rejected counter command inner :
      session_live s now -> carries s outer counter command inner ->
      counter <> sess_next_counter (sec_session s) ->
      unwrap_outcome s outer now i0 c0
        (GUARDIAN_SECURITY_ERROR_REPLAY, Some (count_replay_rejection s), Some i0, Some c0)
  | request_rejected r s' :
      r <> GUARDIAN_SECURITY_OK -> r <> GUARDIAN_SECURITY_ERROR_REPLAY ->
      (forall counter command inner, session_live s now -> ~ carries s outer counter command inner) ->
      (s' = count_auth_failure (guardian_security_expire_session s now) \/
       s' = count_unauthorized_rejection (guardian_security_expire_session s now)) ->
      unwrap_outcome s outer now i0 c0 (r, Some s', Some i0, Some c0).

Lemma inner_frame_eq outer command len p :
  length p = 256%nat -> 0 <= len <= 224 ->
  FRAME GUARDIAN_MESSAGE_REQUEST command GUARDIAN_SUPPORTED_FLAGS (frame_sequence outer) len
    (if negb (len =? 0)
     then blit (frame_payload zero_frame) 0 (take (Z.to_nat len) (drop 16 p))
     else frame_payload zero_frame)
  = inner_frame outer command (take (Z.to_nat len) (drop 16 p)).
Proof.
  intros Hp Hl. rewrite payload_copy by (done || lia). unfold inner_frame.
  rewrite blit_0. cbn [zero_frame frame_payload].
  assert (Hn : length (take (Z.to_nat len) (drop 16 p)) = Z.to_nat len)
    by (rewrite length_take, length_drop; lia).
  rewrite Hn, drop_replicate. f_equal. lia.
Qed.

(** A guard that refuses what does not carry a request. *)
Ltac reject Hfields Hexp :=
  apply request_rejected; [done|done| |rewrite Hexp; auto];
  let Hc := fresh "Hc" in
  intros c m i _ Hc; apply Hfields in Hc;
  destruct Hc as (F0 & F1 & F2 & F3 & F4 & F5 & F6 & F7 & F8 & F9); try (lia || congruence).

Lemma unwrap_cases s outer now i0 c0 :
  security_ok s -> frame_object outer -> 
  unwrap_outcome s outer now i0 c0 (unwrap (Some s) (Some outer) now (Some i0) (Some c0)).
Proof.
  intros Hs Ho. unfold unwrap.
  destruct (expire_session_spec s now) as [[Hlive ->]|[Hdead He]]; cbv zeta.
  2:{ rewrite He. cbn [Z.eqb]. apply request_rejected; [done|done|done|by right]. }
  assert (Hexp : guardian_security_expire_session s now = s)
    by (destruct (expire_session_spec s now) as [[_ E]|[Hn _]]; [exact E|done]).
  pose proof (session_live_ok s now Hs Hlive) as [Hv Hrole Hsid Hkey Hkb Hctr Hact].
  destruct Ho as [Hpl Hcap Hb]. set (p := frame_payload outer) in *.
  set (x := sec_session s) in *. set (plen := frame_payload_length outer) in *.
  assert (Hsid' : is_u32 (sess_session_id x)) by (unfold is_u32; lia).
  assert (Hfields : forall ctr cmd inner, carries s outer ctr cmd inner ->
    0 <= plen <= 256 /\ (Z.to_nat plen = 32 + length inner)%nat /\
    byte_at p 0 = GUARDIAN_SECURITY_SCHEMA_VERSION /\
    get_u32_be (drop 1 p) = sess_session_id x /\ guardian_security_read_u64_be (drop 5 p) = ctr /\
    byte_at p 13 = cmd /\ get_u16_be (drop 14 p) = Z.of_nat (length inner) /\
    take (length inner) (drop 16 p) = inner /\ (length inner <= 224)%nat /\
    take 16 (drop (16 + length inner) p)
      = request_tag_of (sess_session_key x) (sess_session_id x) ctr (frame_sequence outer) cmd inner).
  { intros ctr cmd inner (H1 & H2 & H3 & H4).
    apply request_envelope_fields in H4; [|done|done|lia|done|done|done].
    destruct H4 as (F1 & F2 & F3 & F4 & F5 & F6 & F7 & F8). done. }
  destruct (Z.eqb_spec (sess_valid x) 0); [lia|].
  change GUARDIAN_SECURITY_MAX_REQUEST_INNER_PAYLOAD with 224.
  unfold GUARDIAN_SECURITY_REQUEST_OVERHEAD, guardian_security_read_u32_be,
    guardian_security_read_u16_be.
  destruct (Z.ltb_spec plen 32) as [E1|E1]; [reject Hfields Hexp|].
  destruct (Z.eqb_spec (byte_at p 0) GUARDIAN_SECURITY_SCHEMA_VERSION) as [E2|E2]; cbn [negb];
    [|reject Hfields Hexp].
  destruct (Z.eqb_spec (get_u32_be (drop 1 p)) (sess_session_id x)) as [E3|E3]; cbn [negb];
    [|reject Hfields Hexp].
  pose proof (get_u16_be_range (drop 14 p)) as Hlr.
  destruct (Z.ltb_spec 224 (get_u16_be (drop 14 p))) as [E4|E4]; [reject Hfields Hexp|].
  rewrite u16_id by (unfold is_u16 in *; lia).
  destruct (Z.eqb_spec plen (32 + get_u16_be (drop 14 p))) as [E5|E5]; cbn [negb];
    [|reject Hfields Hexp].
  set (len := get_u16_be (drop 14 p)) in *. set (ctr := guardian_security_read_u64_be (drop 5 p)).
  assert (Hln : (Z.to_nat len <= 224)%nat) by (unfold is_u16 in Hlr; lia).
  rewrite request_tag_spec
    by (first [exact Hkey|exact Hkb|unfold is_u16 in Hlr; lia|rewrite length_drop; lia|done]).
  cbn [negb]. fold x. rewrite E3.
  set (inner := take (Z.to_nat len) (drop 16 p)).
  assert (Hil : length inner = Z.to_nat len) by (subst inner; rewrite length_take, length_drop; lia).
  set (tag := hmac_spec _ _).
  destruct (guardian_crypto_constant_time_equal (Some tag) _ _) eqn:E6; cbn [negb].
  2:{ reject Hfields Hexp.
      assert (length i = Z.to_nat len) as Hl0 by lia.
      assert (i = inner) as -> by (rewrite <- F7, Hl0; reflexivity).
      rewrite <- not_true_iff_false in E6. apply E6.
      apply tag_equal; [auto with guardian|rewrite length_drop; lia|].
      subst tag ctr. rewrite <- Hil, F9, F4, <- F5. reflexivity. }
  apply tag_equal in E6; [|auto with guardian|rewrite length_drop; lia].
  assert (Hcar : carries s outer ctr (byte_at p 13) inner).
  { split; [fold plen; lia|]. split; [lia|]. split; [by apply read_u64_be_range, bytes_drop|].
    fold x p plen. apply request_envelope_fields; [done|done|lia|done| |lia|].
    - by apply read_u64_be_range, bytes_drop.
    - rewrite Hil. split_and!; try done; try lia. }
  destruct (Z.eqb_spec ctr (sess_next_counter x)) as [E7|E7]; cbn [negb].
  2:{ by eapply counter_rejected. }
  pose proof (inner_frame_eq outer (byte_at p 13) len p Hcap ltac:(unfold is_u16 in Hlr; lia)) as Hf.
  fold inner in Hf. rewrite Hf.
  rewrite E7 in Hcar |- *. unfold u64.
  destruct (decide (sess_next_counter x + 1 = 2 ^ 64)) as [Hw|Hw].
  - rewrite Hw, Z.mod_same by done. cbn [Z.eqb]. 
    exact (counter_exhausted s outer now i0 c0 (byte_at p 13) inner Hlive Hcar Hw).
  - rewrite Z.mod_small by lia. destruct (Z.eqb_spec (sess_next_counter x + 1) 0); [lia|].
    exact (request_accepted s outer now i0 c0 (byte_at p 13) inner Hlive Hcar ltac:(fold x; lia)).
Qed.

(** ** The second half of the handshake *)

Local Abbreviation finish := guardian_security_auth_finish.

Definition pending_finish_message s : list Z :=
  let q := sec_pending s in
  finish_message (cfg_psk (sec_config s)) (pend_role q) (pend_session_id q)
    (pend_client_nonce q) (pend_device_nonce q).

(** The context after a session is opened. *)
Definition opened s (now : Z) : security_t :=
  let q := sec_pending s in
  guardian_security_clear_pending (count_auth_success (set_session
    (SESSION 1 (pend_role q) (pend_session_id q)
       (session_key_of (cfg_psk (sec_config s)) (pend_role q) (pend_session_id q)
          (pend_client_nonce q) (pend_device_nonce q)) 1 now) s)).

(** What opens a session: the client's proof for a live challenge. *)
Definition opens s (request : list Z) (len now cap : Z) : Prop :=
  sec_configured s = 1 /\ len = 22 /\ 8 <= cap /\ pending_live s now /\
  request = pending_finish_message s.

(** A well-formed AUTH_FINISH while a challenge is live. *)
Definition attempts s (request : list Z) (len now cap : Z) : Prop :=
  sec_configured s = 1 /\ len = 22 /\ 8 <= cap /\ pending_live s now /\
  byte_at request 0 = GUARDIAN_SECURITY_SCHEMA_VERSION.

Inductive finish_outcome s (request : list Z) (len now : Z) (response : list Z) (cap rl : Z)
  : guardian_security_result_t * option security_t * option (list Z) * option Z -> Prop :=
  | session_opened :
      opens s request len now cap ->
      finish_outcome s request len now response cap rl
        (GUARDIAN_SECURITY_OK, Some (opened s now),
         Some (blit response 0 (opened_message (pend_role (sec_pending s))
                 (pend_session_id (sec_pending s)) (cfg_session_timeout_seconds (sec_config s)))),
         Some 8)
  | session_refused r s' :
      r <> GUARDIAN_SECURITY_OK -> ~ opens s request len now cap ->
      (attempts s request len now cap -> sec_pending s' = zero_pending) -> security_ok s' -> sec_session s' = sec_session s -> sec_config s' = sec_config s ->
      finish_outcome s request len now response cap rl (r, Some s', Some response, Some rl).

(** A request object: as many bytes as announced. *)
Definition request_object (request : list Z) (len : Z) : Prop :=
  bytes request /\ Z.of_nat (length request) = len.

Lemma expire_pending_config s now :
  sec_config (guardian_security_expire_pending s now) = sec_config s /\
  sec_session (guardian_security_expire_pending s now) = sec_session s.
Proof. unfold guardian_security_expire_pending. cbv zeta. by repeat case_match. Qed.

(** A refusal that keeps the session. *)
Ltac refuse :=
  apply session_refused; [done| |by intros (A1 & A2 & A3 & A4 & A5); (done || lia || congruence)
    |by auto
    |by (cbn; apply expire_pending_config) || done|by (cbn; apply expire_pending_config) || done];
  intros (O1 & O2 & O3 & O4 & O5); try (lia || congruence || done).

Lemma finish_cases s request len now response cap rl :
  security_ok s -> request_object request len -> is_u32 now ->
  (Z.to_nat cap <= length response)%nat ->
  finish_outcome s request len now response cap rl
    (finish (Some s) (Some request) len now (Some response) cap (Some rl)).
Proof.
  intros Hs [Hb Hlen] Hnow Hcap. unfold finish. cbv zeta.
  unfold GUARDIAN_SECURITY_AUTH_FINISH_REQUEST_SIZE, GUARDIAN_SECURITY_AUTH_FINISH_RESPONSE_SIZE.
  destruct (Z.eqb_spec (sec_configured s) 0) as [E0|E0]; [refuse|].
  assert (Hcfg : sec_configured s = 1) by (destruct (ok_configured s Hs) as [[? _]|[? _]]; [done|done]).
  destruct (Z.eqb_spec len 22) as [E1|E1]; cbn [negb]; [|refuse].
  destruct (Z.ltb_spec cap 8) as [E2|E2]; [refuse|].
  destruct (expire_pending_spec s now) as [[Hlive Hexp]|(Hdead & He & _)].
  2:{ rewrite He. cbn [Z.eqb]. refuse. }
  rewrite Hexp. pose proof (pending_live_ok s now Hs Hlive) as [Hv Hrole Hsid Hcn Hdn Hst].
  destruct (ok_config s Hs) as [Hpsk Hpb _ Htm].
  set (q := sec_pending s) in *.
  destruct (Z.eqb_spec (pend_valid q) 0) as [E3|E3]; [lia|].
  assert (Hl : length request = 22%nat) by lia.
  pose proof (finish_message_fields (cfg_psk (sec_config s)) (pend_role q) (pend_session_id q)
    (pend_client_nonce q) (pend_device_nonce q) request Hb Hl ltac:(unfold is_u32; lia)) as Hf.
  fold (pending_finish_message s) in Hf.
  destruct (Z.eqb_spec (byte_at request 0) GUARDIAN_SECURITY_SCHEMA_VERSION) as [E4|E4]; cbn [negb].
  2:{ refuse. apply Hf in O5. by destruct O5. }
  unfold guardian_security_read_u32_be.
  destruct (Z.eqb_spec (byte_at request 1) (pend_role q)) as [E5|E5]; cbn [negb orb].
  2:{ refuse. apply Hf in O5. by destruct O5 as (_ & ? & _). }
  destruct (Z.eqb_spec (get_u32_be (drop 2 request)) (pend_session_id q)) as [E6|E6]; cbn [negb].
  2:{ refuse. apply Hf in O5. by destruct O5 as (_ & _ & ? & _). }
  rewrite E5, E6.
  rewrite !handshake_mac_spec by (first [done | cbn; lia]). cbn [negb].
  destruct (guardian_crypto_constant_time_equal _ _ _) eqn:E7; cbn [negb].
  2:{ refuse. apply Hf in O5. destruct O5 as (_ & _ & _ & O5).
      rewrite <- not_true_iff_false in E7. apply E7.
      apply tag_equal; [auto with guardian|rewrite length_drop; lia|exact O5]. }
  apply tag_equal in E7; [|auto with guardian|rewrite length_drop; lia].
  assert (Ho : opens s request len now cap).
  { split_and!; [done|done|done|exact Hlive|]. by apply Hf. }
  pose proof (session_opened s request len now response cap rl Ho) as Hr.
  unfold opened in Hr. fold q in Hr. cbv zeta in Hr.
  rewrite take_ge by (rewrite hmac_spec_length; done).
  assert (Hrole8 : u8 (pend_role q) = pend_role q).
  { apply u8_id. rewrite <- E5. by apply byte_at_range. }
  rewrite Hrole8, !(blit_blit_adjacent response) by fields_lia.
  exact Hr.
Qed.

Lemma opened_ok s request len now cap :
  security_ok s -> is_u32 now -> opens s request len now cap -> security_ok (opened s now).
Proof.
  intros Hs Hnow (Hc & _ & _ & Hl & _).
  pose proof (pending_live_ok s now Hs Hl) as [Hv Hrole Hsid Hcn Hdn Hst].
  destruct (ok_counts s Hs) as (N1 & N2 & N3 & N4).
  constructor; cbn.
  - apply (ok_config s Hs).
  - right. destruct (ok_configured s Hs) as [[? _]|H]; [congruence|exact H].
  - by left.
  - right. constructor; cbn; try done; try lia.
    + apply hmac_spec_length.
    + apply hmac_spec_bytes.
  - split_and!; auto using increment_u32_range.
Qed.

(** ** The first half of the handshake *)

Local Abbreviation begin_ := guardian_security_auth_begin.

(** An admissible AUTH_BEGIN. *)
Definition begins s (request : list Z) (len cap role : Z) (cn : list Z) : Prop :=
  sec_configured s = 1 /\ len = 18 /\ 38 <= cap /\
  1 <= role <= cfg_max_role (sec_config s) /\ request = begin_message role cn.

Definition challenged s (role sid : Z) (cn dn : list Z) (now : Z) : security_t :=
  set_pending (PENDING 1 role sid cn dn now) s.

(** The session identifier drawn from the random bytes. *)
Definition drawn_session_id (rnd : list Z) : Z :=
  let session_id := get_u32_be rnd in if session_id =? 0 then 1 else session_id.

Inductive begin_outcome s (request : list Z) (len now : Z) (response : list Z) (cap rl : Z) w
  : guardian_security_result_t * option security_t * option (list Z) * option Z * W -> Prop :=
  | challenge_issued role cn f filled rnd w' :
      begins s request len cap role cn -> cfg_random (sec_config s) = Some f ->
      f (cfg_random_context (sec_config s)) (replicate 20 0) 20%nat w = (filled, rnd, w') ->
      filled <> 0 ->
      let sid := drawn_session_id rnd in
      let dn := drop 4 rnd in
      begin_outcome s request len now response cap rl w
        (GUARDIAN_SECURITY_OK, Some (challenged s role sid cn dn now),
         Some (blit response 0 (challenge_message (cfg_psk (sec_config s)) role sid cn dn)),
         Some 38, w')
  | challenge_refused r s' w' :
      r <> GUARDIAN_SECURITY_OK ->
      (r <> GUARDIAN_SECURITY_ERROR_RANDOM ->
       forall role cn, ~ begins s request len cap role cn) ->
      (r = GUARDIAN_SECURITY_ERROR_RANDOM -> forall f, cfg_random (sec_config s) = Some f ->
       (f (cfg_random_context (sec_config s)) (replicate 20 0) 20%nat w).1.1 = 0) ->
      security_ok s' -> sec_session s' = sec_session s -> sec_config s' = sec_config s ->
      begin_outcome s request len now response cap rl w (r, Some s', Some response, Some rl, w').

Lemma begin_message_fields role cn r :
  length r = 18%nat -> r = begin_message role cn <->
  byte_at r 0 = GUARDIAN_SECURITY_SCHEMA_VERSION /\ byte_at r 1 = role /\ drop 2 r = cn.
Proof.
  intros Hl. do 2 (destruct r as [|? r]; [cbn in Hl; lia|]).
  unfold begin_message. cbn [app]. change (drop 2 (z :: z0 :: r)) with r. change (byte_at (z :: z0 :: r) 0) with z.
  change (byte_at (z :: z0 :: r) 1) with z0.
  split; [by intros [= -> -> ->]|by intros (-> & -> & ->)].
Qed.

Lemma challenged_ok s role sid cn dn now :
  security_ok s -> sec_configured s = 1 -> 1 <= role <= cfg_max_role (sec_config s) ->
  1 <= sid < 2 ^ 32 -> length cn = 16%nat -> length dn = 16%nat -> is_u32 now ->
  security_ok (challenged s role sid cn dn now).
Proof.
  intros Hs Hc Hr Hsid Hcn Hdn Hnow. constructor; cbn.
  - apply (ok_config s Hs).
  - right. destruct (ok_configured s Hs) as [[? _]|H]; [congruence|exact H].
  - right. by constructor.
  - destruct (ok_session s Hs) as [|[]]; [by left|right]. by constructor.
  - apply (ok_counts s Hs).
Qed.

Ltac refuse_begin :=
  apply challenge_refused; [done| |done|by auto|done|done];
  intros _ role' cn' (O1 & O2 & O3 & O4 & O5); try (lia || congruence || done).

Lemma begin_cases s request len now response cap rl w :
  security_ok s -> request_object request len -> is_u32 now ->
  (Z.to_nat cap <= length response)%nat ->
  begin_outcome s request len now response cap rl w
    (begin_ (Some s) (Some request) len now (Some response) cap (Some rl) w).
Proof.
  intros Hs [Hb Hlen] Hnow Hcap. unfold begin_. cbv zeta.
  unfold GUARDIAN_SECURITY_AUTH_BEGIN_REQUEST_SIZE, GUARDIAN_SECURITY_AUTH_BEGIN_RESPONSE_SIZE.
  destruct (Z.eqb_spec (sec_configured s) 0) as [E0|E0]; [refuse_begin|].
  destruct (ok_configured s Hs) as [[? _]|(Hcfg & Hmax & [f Hf] & _)]; [done|].
  destruct (Z.eqb_spec len 18) as [E1|E1]; cbn [negb]; [|refuse_begin].
  destruct (Z.ltb_spec cap 38) as [E2|E2]; [refuse_begin|].
  assert (Hl : length request = 18%nat) by lia.
  pose proof (fun role cn => begin_message_fields role cn request Hl) as Hm.
  destruct (Z.eqb_spec (byte_at request 0) GUARDIAN_SECURITY_SCHEMA_VERSION) as [E4|E4]; cbn [negb].
  2:{ refuse_begin. apply Hm in O5. by destruct O5. }
  set (role := byte_at request 1) in *.
  destruct ((role <? GUARDIAN_SECURITY_ROLE_OBSERVER) || (cfg_max_role (sec_config s) <? role))
    eqn:E5.
  { refuse_begin. apply Hm in O5 as (_ & O5 & _). fold role in O5. unfold GUARDIAN_SECURITY_ROLE_OBSERVER in E5.
    subst role'. lia. }
  unfold GUARDIAN_SECURITY_ROLE_OBSERVER in E5.
  assert (Hrole : 1 <= role <= cfg_max_role (sec_config s)) by lia.
  destruct (expire_pending_config s now) as [Ec Ex]. rewrite Ec, Hf.
  destruct (f _ _ _ w) as [[filled rnd] w'] eqn:Er.
  destruct (Z.eqb_spec filled 0) as [E6|E6].
  { apply challenge_refused; [done|done| |by auto|done|done].
    intros _ f' Hf'. rewrite Hf in Hf'. injection Hf' as <-. by rewrite Er. }
  pose proof (co_random _ (ok_config s Hs) f Hf (cfg_random_context (sec_config s)) w) as Hfill.
  rewrite Er in Hfill. destruct Hfill as [Hrl Hrb].
  destruct (ok_config s Hs) as [Hpsk Hpb _ Htm].
  unfold guardian_security_read_u32_be. fold (drawn_session_id rnd).
  unfold GUARDIAN_SECURITY_NONCE_SIZE.
  rewrite (take_ge (drop 2 request)) by (rewrite length_drop; lia).
  rewrite (take_ge (drop 4 rnd)) by (rewrite length_drop; lia).
  rewrite (take_ge (drop 4 rnd)) by (rewrite length_drop; lia).
  rewrite handshake_mac_spec
    by (first [cbn; rewrite Ec; done | rewrite length_drop; lia | cbn; lia | done]).
  cbn [negb].
  pose proof (challenge_issued s request len now response cap rl w role (drop 2 request) f filled
    rnd w') as Hr. cbv zeta in Hr.
  assert (Hrole8 : u8 role = role) by (apply u8_id, byte_at_range, Hb).
  rewrite Hrole8, !(blit_blit_adjacent response) by fields_lia.
  assert (Hsc : forall q, set_pending q (guardian_security_clear_pending
    (guardian_security_expire_pending s now)) = set_pending q s).
  { intros q. unfold guardian_security_expire_pending. cbv zeta. by repeat case_match. }
  rewrite Hsc. cbn [set_pending sec_config].
  apply Hr; [|done|exact Er|done].
  split_and!; [done|done|done|lia|lia|]. by apply Hm.
Qed.

(** ** Provisioning, authorization, responses *)

Lemma security_configure_ok s c r s' :
  config_object c -> security_ok s ->
  guardian_security_configure (Some s) (Some c) = (r, Some s') ->
  security_ok s' /\ (s' = s \/ sec_session s' = zero_session).
Proof.
  intros Hc Hs. unfold guardian_security_configure. cbv zeta.
  unfold GUARDIAN_SECURITY_ROLE_OBSERVER, GUARDIAN_SECURITY_ROLE_ADMIN.
  destruct ((cfg_max_role c <? 1) || (3 <? cfg_max_role c)) eqn:E1.
  { intros [= <- <-]. split; [done|by left]. }
  destruct (is_null (cfg_random c)) eqn:E2.
  { intros [= <- <-]. split; [done|by left]. }
  apply is_null_false in E2. intros [= <- <-]. split; [|by right].
  destruct Hc as [H1 H2 H3 H4].
  unfold GUARDIAN_SECURITY_DEFAULT_SESSION_TIMEOUT_SECONDS.
  constructor; cbn [sec_config sec_configured sec_pending sec_session sec_auth_successes
    sec_auth_failures sec_replay_rejections sec_unauthorized_rejections cfg_max_role cfg_random
    cfg_session_timeout_seconds default guardian_security_clear zero_security];
    [|right|by left|by left|by repeat split].
  - constructor; cbn; [done|done|done|]. by destruct (Z.eqb_spec (cfg_session_timeout_seconds c) 0).
  - split; [done|]. split; [lia|]. split; [done|].
    by destruct (Z.eqb_spec (cfg_session_timeout_seconds c) 0).
Qed.

Definition required_role (command : Z) : Z :=
  if (command =? GUARDIAN_COMMAND_BASELINE_CONTROL) || (command =? GUARDIAN_COMMAND_CONTROL_COMMAND)
  then GUARDIAN_SECURITY_ROLE_OPERATOR else GUARDIAN_SECURITY_ROLE_ADMIN.

Lemma authorize_spec s command :
  guardian_security_authorize (Some s) command
  = if sess_valid (sec_session s) =? 0 then (false, Some s)
    else if required_role command <=? sess_role (sec_session s) then (true, Some s)
    else (false, Some (count_unauthorized_rejection s)).
Proof.
  unfold guardian_security_authorize, required_role. cbv zeta.
  destruct (sess_valid (sec_session s) =? 0); [done|].
  destruct (command =? GUARDIAN_COMMAND_BASELINE_CONTROL), (command =? GUARDIAN_COMMAND_CONTROL_COMMAND);
    cbn [orb]; by rewrite Z.ltb_antisym; destruct (_ <=? _).
Qed.

Lemma wrap_spec s request counter inner o0 now :
  security_ok s -> session_live s now -> frame_object inner ->
  frame_payload_length inner <= 223 ->
  exists p,
  guardian_security_wrap_response (Some s) (Some request) counter (Some inner) (Some o0)
  = (GUARDIAN_SECURITY_OK,
     Some (FRAME GUARDIAN_MESSAGE_RESPONSE (frame_command request) GUARDIAN_SUPPORTED_FLAGS
             (frame_sequence request) (33 + frame_payload_length inner) p)) /\
  length p = 256%nat /\
  take (Z.to_nat (33 + frame_payload_length inner)) p
  = response_envelope (sess_session_key (sec_session s)) (sess_session_id (sec_session s)) counter
      (frame_sequence request) (frame_message_type inner) (frame_command inner)
      (take (Z.to_nat (frame_payload_length inner)) (frame_payload inner)).
Proof.
  intros Hs Hl [Hpl Hcap Hb] Hlen.
  pose proof (session_live_ok s now Hs Hl) as [Hv Hrole Hsid Hkey Hkb Hctr Hact].
  unfold guardian_security_wrap_response. cbv zeta.
  destruct (Z.eqb_spec (sess_valid (sec_session s)) 0); [lia|].
  change GUARDIAN_SECURITY_MAX_RESPONSE_INNER_PAYLOAD with 223.
  destruct (Z.ltb_spec 223 (frame_payload_length inner)); [lia|].
  unfold is_u16 in Hpl. set (len := frame_payload_length inner) in *.
  rewrite response_tag_spec by (first [done | fold len; lia]). cbn [negb]. fold len.
  unfold GUARDIAN_SECURITY_RESPONSE_OVERHEAD, GUARDIAN_SECURITY_TAG_SIZE.
  rewrite u16_id by (unfold is_u16; lia).
  rewrite payload_copy by (done || lia).
  set (payload := take (Z.to_nat len) (frame_payload inner)).
  assert (Hp : length payload = Z.to_nat len) by (apply length_take_le; lia).
  set (tag := take 16 (hmac_spec _ _)). assert (Ht : length tag = 16%nat) by apply tag_length.
  eexists. split; [reflexivity|].
  assert (Hz : length (frame_payload zero_frame) = 256%nat) by done.
  rewrite !(blit_blit_adjacent (frame_payload zero_frame)) by (rewrite ?Hp; fields_lia).
  split.
  - rewrite blit_length; [done|]. rewrite Hz. rewrite ?length_app, Hp, Ht. fields_lia.
  - rewrite take_blit_0, take_ge.
    + unfold response_envelope. fold payload. rewrite Hp, Z2Nat.id by lia. fold tag.
      rewrite <- !app_assoc. reflexivity.
    + rewrite ?length_app, Hp, Ht. fields_lia.
    + rewrite ?length_app, Hp, Ht. fields_lia.
Qed.

(** ** Runs of the operations, and the session protocol *)

Inductive security_op :=
  | OpClear
  | OpConfigure (config : config_t)
  | OpBegin (request : list Z) (len now : Z) (response : list Z) (cap : Z)
  | OpFinish (request : list Z) (len now : Z) (response : list Z) (cap : Z)
  | OpUnwrap (outer : guardian_frame_t) (now : Z)
  | OpAuthorize (command : Z)
  | OpStatus (now : Z).

Inductive security_event :=
  | Opened (role session_id now : Z)
  | Accepted (now counter command : Z)
  | Authorized (command : Z).

(** The objects of the caller: buffers as long as announced, frames, times. *)
Definition op_typed (o : security_op) : Prop :=
  match o with
  | OpConfigure c => config_object c
  | OpBegin request len now response cap | OpFinish request len now response cap =>
      request_object request len /\ is_u32 now /\ (Z.to_nat cap <= length response)%nat
  | OpUnwrap outer now => frame_object outer /\ is_u32 now
  | OpStatus now => is_u32 now
  | _ => True
  end.

(** One operation: the context, what it lets the caller do, the world. *)
Definition perform (o : security_op) s w : security_t * list security_event * W :=
  match o with
  | OpClear => (default s (guardian_security_clear (Some s)), [], w)
  | OpConfigure c => (default s (guardian_security_configure (Some s) (Some c)).2, [], w)
  | OpBegin request len now response cap =>
      let '(_, s', _, _, w') :=
        begin_ (Some s) (Some request) len now (Some response) cap (Some 0) w in
      (default s s', [], w')
  | OpFinish request len now response cap =>
      let '(r, s', _, _) := finish (Some s) (Some request) len now (Some response) cap (Some 0) in
      let s' := default s s' in
      (s', if decide (r = GUARDIAN_SECURITY_OK)
           then [Opened (sess_role (sec_session s')) (sess_session_id (sec_session s')) now]
           else [], w)
  | OpUnwrap outer now =>
      let '(r, s', inner, counter) :=
        unwrap (Some s) (Some outer) now (Some zero_frame) (Some 0) in
      (default s s', if decide (r = GUARDIAN_SECURITY_OK)
                     then [Accepted now (default 0 counter)
                             (frame_command (default zero_frame inner))]
                     else [], w)
  | OpAuthorize command =>
      let '(granted, s') := guardian_security_authorize (Some s) command in
      (default s s', if granted : bool then [Authorized command] else [], w)
  | OpStatus now => (default s (guardian_security_status (Some s) now).2, [], w)
  end.

Fixpoint perform_all (os : list security_op) s w : security_t * list security_event * W :=
  match os with
  | [] => (s, [], w)
  | o :: os =>
      let '(s, ev, w) := perform o s w in
      let '(s, ev', w) := perform_all os s w in
      (s, ev ++ ev', w)
  end.

(** The protocol: at most one session, opened for a role at counter 1, in which
    the counters follow each other without gap or repetition, each within the
    timeout since the last, and only operations within the role are granted. *)
Record ticket := TICKET { t_role : Z; t_next : Z; t_last : Z; t_timeout : Z }.

Inductive session_trace : option ticket -> list security_event -> option ticket -> Prop :=
  | trace_nil a : session_trace a [] a
  | trace_close a tr b : session_trace None tr b -> session_trace a tr b
  | trace_open a role sid now timeout tr b :
      1 <= role <= 3 -> session_trace (Some (TICKET role 1 now timeout)) tr b ->
      session_trace a (Opened role sid now :: tr) b
  | trace_accept t now command tr b :
      u32 (now - t_last t) < t_timeout t -> t_next t + 1 < 2 ^ 64 ->
      session_trace (Some (TICKET (t_role t) (t_next t + 1) now (t_timeout t))) tr b ->
      session_trace (Some t) (Accepted now (t_next t) command :: tr) b
  | trace_authorize t command tr b :
      required_role command <= t_role t -> session_trace (Some t) tr b ->
      session_trace (Some t) (Authorized command :: tr) b.

Lemma session_trace_app a x b y c :
  session_trace a x b -> session_trace b y c -> session_trace a (x ++ y) c.
Proof. intros H Hy. induction H; cbn; eauto using session_trace. Qed.

Lemma session_trace_split a x y c :
  session_trace a (x ++ y) c -> exists b, session_trace a x b /\ session_trace b y c.
Proof.
  remember (x ++ y) as tr eqn:E. intros H. revert x E.
  induction H as [a|a tr b H IH|a role sid now timeout tr b Hr H IH|t now command tr b Ht Hn H IH
    |t command tr b Hr H IH]; intros x E.
  - symmetry in E. apply app_nil in E as [-> ->]. exists a. by split; constructor.
  - destruct (IH x E) as (m & H1 & H2). exists m. split; [by constructor|done].
  - destruct x as [|e x]; [cbn in E; subst; exists a; by split; econstructor|].
    injection E as <- E. destruct (IH x E) as (m & H1 & H2). exists m. by split; [econstructor|].
  - destruct x as [|e x]; [cbn in E; subst; exists (Some t); by split; econstructor|].
    injection E as <- E. destruct (IH x E) as (m & H1 & H2). exists m. by split; [econstructor|].
  - destruct x as [|e x]; [cbn in E; subst; exists (Some t); by split; econstructor|].
    injection E as <- E. destruct (IH x E) as (m & H1 & H2). exists m. by split; [econstructor|].
Qed.

Definition ticket_of s : option ticket :=
  let x := sec_session s in
  if sess_valid x =? 0 then None
  else Some (TICKET (sess_role x) (sess_next_counter x) (sess_last_activity_seconds x)
               (cfg_session_timeout_seconds (sec_config s))).

Lemma ticket_same s s' :
  sec_session s' = sec_session s -> sec_config s' = sec_config s -> ticket_of s' = ticket_of s.
Proof. unfold ticket_of. by intros -> ->. Qed.

Lemma ticket_zero s : sec_session s = zero_session -> ticket_of s = None.
Proof. unfold ticket_of. by intros ->. Qed.

Lemma ticket_live s now : security_ok s -> session_live s now ->
  ticket_of s = Some (TICKET (sess_role (sec_session s)) (sess_next_counter (sec_session s))
    (sess_last_activity_seconds (sec_session s)) (cfg_session_timeout_seconds (sec_config s))).
Proof. intros Hs [Hv _]. unfold ticket_of. by destruct (Z.eqb_spec (sess_valid (sec_session s)) 0). Qed.

Lemma expired_trace s s' now :
  sec_session s' = sec_session (guardian_security_expire_session s now) ->
  sec_config s' = sec_config s -> session_trace (ticket_of s) [] (ticket_of s').
Proof.
  intros H Hc. unfold guardian_security_expire_session in H. cbv zeta in H. repeat case_match.
  - rewrite (ticket_same s s') by done. constructor.
  - rewrite (ticket_zero s') by done. apply trace_close. constructor.
  - rewrite (ticket_same s s') by done. constructor.
Qed.

Lemma max_role_le s : security_ok s -> sec_configured s = 1 -> cfg_max_role (sec_config s) <= 3.
Proof. intros Hs Hc. destruct (ok_configured s Hs) as [[? _]|(_ & ? & _)]; [congruence|lia]. Qed.

Lemma consume_ok s now :
  security_ok s -> session_live s now -> is_u32 now -> sess_next_counter (sec_session s) + 1 < 2 ^ 64 ->
  security_ok (consume s now).
Proof.
  intros Hs Hl Hnow Hn. pose proof (session_live_ok s now Hs Hl) as [Hv Hrole Hsid Hkey Hkb Hctr Hact].
  constructor; cbn.
  - apply (ok_config s Hs).
  - right. destruct (ok_configured s Hs) as [(_ & _ & E)|H]; [by rewrite E in Hv|exact H].
  - destruct (ok_pending s Hs) as [|[]]; [by left|right]. by constructor.
  - right. constructor; cbn; try done. lia.
  - apply (ok_counts s Hs).
Qed.

(** Every operation keeps the invariant and follows the protocol. *)
Definition keeps_protocol s (ev : list security_event) s' : Prop :=
  security_ok s' /\ session_trace (ticket_of s) ev (ticket_of s').

Lemma same_session s s' :
  security_ok s' -> sec_session s' = sec_session s -> sec_config s' = sec_config s ->
  keeps_protocol s [] s'.
Proof. intros H1 H2 H3. split; [done|]. rewrite (ticket_same s s') by done. constructor. Qed.

Lemma closed_session s s' :
  security_ok s' -> sec_session s' = zero_session -> keeps_protocol s [] s'.
Proof. intros H1 H2. split; [done|]. rewrite (ticket_zero s') by done. apply trace_close. constructor. Qed.

Lemma finish_step s request len now response cap w :
  security_ok s -> op_typed (OpFinish request len now response cap) ->
  let '(s', ev, _) := perform (OpFinish request len now response cap) s w in
  keeps_protocol s ev s'.
Proof.
  intros Hs (Hr & Hnow & Hcap). unfold perform.
  destruct (finish_cases s request len now response cap 0 Hs Hr Hnow Hcap) as [Ho|r s' Hn _ _ H1 H2 H3].
  - cbn [from_option id]. rewrite decide_True by done.
    split; [by eapply opened_ok|].
    destruct Ho as (Hc & _ & _ & Hl & _).
    pose proof (pending_live_ok s now Hs Hl) as [Hv Hrole _ _ _ _].
    pose proof (max_role_le s Hs Hc).
    eapply (trace_open _ _ _ _ (cfg_session_timeout_seconds (sec_config s))); [cbn; lia|].
    constructor.
  - rewrite decide_False by done. by apply same_session.
Qed.

Lemma unwrap_step s outer now w :
  security_ok s -> op_typed (OpUnwrap outer now) ->
  let '(s', ev, _) := perform (OpUnwrap outer now) s w in keeps_protocol s ev s'.
Proof.
  intros Hs [Ho Hnow]. unfold perform.
  destruct (unwrap_cases s outer now zero_frame 0 Hs Ho)
    as [command inner Hl Hc Hn|command inner Hl Hc Hn|c command inner Hl Hc Hn|r s' Hn _ _ Hs'];
    cbn [from_option id].
  - rewrite decide_True by done. split; [by apply consume_ok|].
    rewrite (ticket_live s now) by done. cbn [inner_frame frame_command].
    apply (trace_accept (TICKET _ _ _ _)); [apply Hl|done|].
    cbn [t_role t_next t_timeout]. unfold ticket_of. cbn [consume sec_session set_session sess_valid].
    destruct (Z.eqb_spec (sess_valid (sec_session s)) 0); [by destruct Hl|constructor].
  - rewrite decide_False by done. apply closed_session; [auto|done].
  - rewrite decide_False by done. apply same_session; [auto|done|done].
  - rewrite decide_False by done.
    destruct Hs' as [-> | ->]; (split; [auto|apply (expired_trace s _ now); [done|]]);
      cbn; unfold guardian_security_expire_session; cbv zeta; by repeat case_match.
Qed.

Lemma begin_step s request len now response cap w :
  security_ok s -> op_typed (OpBegin request len now response cap) ->
  let '(s', ev, _) := perform (OpBegin request len now response cap) s w in
  keeps_protocol s ev s'.
Proof.
  intros Hs (Hr & Hnow & Hcap). unfold perform.
  destruct (begin_cases s request len now response cap 0 w Hs Hr Hnow Hcap)
    as [role cn f filled rnd w' (Hc & Hlen & Hcap' & Hrole & Hm) Hf Hfill Hnz sid dn
       |r s' w' _ _ _ H1 H2 H3]; [|by apply same_session].
  cbn [from_option id]. apply same_session; [|done|done].
  pose proof (co_random _ (ok_config s Hs) f Hf (cfg_random_context (sec_config s)) w) as Hf'.
  rewrite Hfill in Hf'. destruct Hf' as [Hl Hb].
  apply challenged_ok; try done.
  - subst sid. unfold drawn_session_id. cbv zeta. pose proof (get_u32_be_range rnd Hb) as Hu.
    unfold is_u32 in Hu. destruct (Z.eqb_spec (get_u32_be rnd) 0); lia.
  - destruct Hr as [_ Hr]. rewrite Hm in Hr. unfold begin_message in Hr.
    rewrite length_app in Hr. cbn [length] in Hr. lia.
  - subst dn. rewrite length_drop. lia.
Qed.

Lemma perform_step o s w :
  security_ok s -> op_typed o ->
  let '(s', ev, _) := perform o s w in keeps_protocol s ev s'.
Proof.
  intros Hs Ho. destruct o as [|c|request len now response cap|request len now response cap
    |outer now|command|now].
  - apply closed_session; [apply zero_security_ok|done].
  - unfold perform. destruct (guardian_security_configure (Some s) (Some c)) as [r [s'|]] eqn:E; cbn.
    + destruct (security_configure_ok s c r s' Ho Hs E) as [H1 [-> |H2]];
        [by apply same_session|by apply closed_session].
    + by apply same_session.
  - by apply begin_step.
  - by apply finish_step.
  - by apply unwrap_step.
  - unfold perform. rewrite authorize_spec.
    destruct (Z.eqb_spec (sess_valid (sec_session s)) 0) as [E|E]; [by apply same_session|].
    destruct (Z.leb_spec (required_role command) (sess_role (sec_session s))) as [E2|E2];
      cbn [from_option id]; [|apply same_session; [auto|done|done]].
    split; [done|]. unfold ticket_of.
    destruct (Z.eqb_spec (sess_valid (sec_session s)) 0); [done|].
    by apply trace_authorize; [|constructor].
  - unfold perform, guardian_security_status. cbv zeta.
    set (s' := guardian_security_expire_session _ now).
    assert (Hk : keeps_protocol s [] s').
    { split; [by apply expire_session_ok, expire_pending_ok|].
      destruct (expire_pending_config s now) as [E1 E2].
      apply (expired_trace s s' now).
      - subst s'. unfold guardian_security_expire_session. rewrite E1, E2. cbv zeta.
        by repeat case_match.
      - subst s'. unfold guardian_security_expire_session. cbv zeta.
        by repeat case_match. }
    by destruct (negb _).
Qed.

Lemma perform_all_keeps os s w :
  security_ok s -> Forall op_typed os ->
  let '(s', tr, _) := perform_all os s w in keeps_protocol s tr s'.
Proof.
  intros Hs Hos. revert s w Hs. induction Hos as [|o os Ho _ IH]; intros s w Hs; cbn [perform_all].
  - split; [done|constructor].
  - pose proof (perform_step o s w Hs Ho) as H1. destruct (perform o s w) as [[s1 ev] w1].
    pose proof (IH s1 w1 (proj1 H1)) as H2. destruct (perform_all os s1 w1) as [[s2 tr] w2].
    split; [apply H2|]. eapply session_trace_app; [apply H1|apply H2].
Qed.

(** ** What a trace says of one session *)

Definition accepted (tr : list security_event) : list Z :=
  omap (fun e => match e with Accepted _ counter _ => Some counter | _ => None end) tr.
Definition authorized (tr : list security_event) : list Z :=
  omap (fun e => match e with Authorized command => Some command | _ => None end) tr.
Definition no_opening (tr : list security_event) : Prop :=
  Forall (fun e => match e with Opened _ _ _ => False | _ => True end) tr.

Lemma trace_within a tr b :
  session_trace a tr b -> no_opening tr ->
  match a with
  | None => accepted tr = [] /\ authorized tr = []
  | Some t => accepted tr = seqZ (t_next t) (Z.of_nat (length (accepted tr))) /\
      Forall (fun c => required_role c <= t_role t) (authorized tr)
  end.
Proof.
  induction 1 as [[t|]|[t|] tr b H IH|a role sid now timeout tr b Hr H IH
    |t now command tr b Ht Hn H IH|t command tr b Hr H IH]; intros Hno; try done.
  - destruct (IH Hno) as [E1 E2]. rewrite E1, E2. by split; [|constructor].
  - by apply IH.
  - by apply Forall_cons in Hno as [[] _].
  - apply Forall_cons in Hno as [_ Hno]. destruct (IH Hno) as [E1 E2]. cbn [t_next t_role] in *.
    split; [|exact E2]. cbn [accepted omap list_omap length]. fold (accepted tr).
    rewrite Nat2Z.inj_succ, seqZ_cons by lia. f_equal.
    rewrite Z.pred_succ. exact E1.
  - apply Forall_cons in Hno as [_ Hno]. destruct (IH Hno) as [E1 E2].
    split; [exact E1|]. cbn. by constructor.
Qed.

(** The fields of a request are determined by the frame. *)
Lemma carries_inj s outer c m i c' m' i' :
  frame_object outer -> is_u32 (sess_session_id (sec_session s)) ->
  carries s outer c m i -> carries s outer c' m' i' -> c = c' /\ m = m' /\ i = i'.
Proof.
  intros [Hpl Hcap Hb] Hs (H1 & H2 & H3 & H4) (H1' & H2' & H3' & H4').
  apply request_envelope_fields in H4; [|done|done|lia|done|done|done].
  apply request_envelope_fields in H4'; [|done|done|lia|done|done|done].
  destruct H4 as (F1 & F2 & F3 & F4 & F5 & F6 & F7 & _).
  destruct H4' as (F1' & F2' & F3' & F4' & F5' & F6' & F7' & _).
  assert (E : length i = length i') by lia. rewrite E in F7.
  split; [congruence|]. split; [congruence|]. by rewrite <- F7, F7'.
Qed.
End sessions.

(** ** A client that computes its messages as specified *)

Record client_request := CLIENT_REQUEST {
  rq_sequence : Z; rq_command : Z; rq_payload : list Z; rq_time : Z }.

Definition client_frame (key : list Z) (sid counter : Z) (q : client_request) : guardian_frame_t :=
  let envelope :=
    request_envelope key sid counter (rq_sequence q) (rq_command q) (rq_payload q) in
  FRAME GUARDIAN_MESSAGE_REQUEST 0x33 0 (rq_sequence q) (Z.of_nat (length envelope))
    (envelope ++ replicate (256 - length envelope) 0).

Definition request_ok (q : client_request) : Prop :=
  is_u8 (rq_command q) /\ bytes (rq_payload q) /\ (length (rq_payload q) <= 224)%nat /\
  is_u32 (rq_time q).

(** Each request comes within the timeout since the one before. *)
Fixpoint in_time (timeout last : Z) (qs : list client_request) : Prop :=
  match qs with
  | [] => True
  | q :: qs => u32 (rq_time q - last) < timeout /\ in_time timeout (rq_time q) qs
  end.

(** The device unwraps the client's requests; [None] if one is refused. *)
Fixpoint serve {C W} (key : list Z) (sid counter : Z) (qs : list client_request)
    (s : guardian_security_t C W) : option (list guardian_frame_t * guardian_security_t C W) :=
  match qs with
  | [] => Some ([], s)
  | q :: qs =>
      match guardian_security_unwrap_request (Some s) (Some (client_frame key sid counter q))
              (rq_time q) (Some zero_frame) (Some 0) with
      | (GUARDIAN_SECURITY_OK, Some s, Some inner, _) =>
          match serve key sid (counter + 1) qs s with
          | Some (inners, s) => Some (inner :: inners, s)
          | None => None
          end
      | _ => None
      end
  end.

Lemma request_envelope_length key sid c seq cmd i :
  length (request_envelope key sid c seq cmd i) = (32 + length i)%nat.
Proof.
  unfold request_envelope. rewrite !length_app. unfold request_tag_of. rewrite tag_length.
  rewrite put_u32_be_length, put_u16_be_length, write_u64_be_length. cbn [length]. lia.
Qed.

Lemma client_frame_object key sid c q :
  request_ok q -> frame_object (client_frame key sid c q).
Proof.
  intros (Hc & Hb & Hl & Ht). pose proof (request_envelope_length key sid c (rq_sequence q)
    (rq_command q) (rq_payload q)) as He.
  constructor; cbn [client_frame frame_payload_length frame_payload].
  - unfold is_u16. lia.
  - rewrite length_app, length_replicate. lia.
  - apply bytes_app. split; [|by apply bytes_replicate].
    unfold request_envelope, request_tag_of.
    repeat (apply bytes_app; split);
      auto using put_u32_be_bytes, put_u16_be_bytes, write_u64_be_bytes, bytes_take, hmac_spec_bytes.
    + by apply bytes_cons; [|apply bytes_nil].
    + by apply bytes_cons; [|apply bytes_nil].
Qed.

Lemma client_frame_carries {C W} (s : guardian_security_t C W) c q :
  is_u64 c -> (length (rq_payload q) <= 224)%nat ->
  carries s (client_frame (sess_session_key (sec_session s)) (sess_session_id (sec_session s)) c q)
    c (rq_command q) (rq_payload q).
Proof.
  intros Hc Hl. pose proof (request_envelope_length (sess_session_key (sec_session s))
    (sess_session_id (sec_session s)) c (rq_sequence q) (rq_command q) (rq_payload q)) as He.
  unfold carries. cbn [client_frame frame_payload_length frame_payload frame_sequence].
  split; [lia|]. split; [done|]. split; [done|].
  rewrite Nat2Z.id, take_app_length. reflexivity.
Qed.

Lemma serve_honest {C W} qs (s : guardian_security_t C W) :
  security_ok s -> sess_valid (sec_session s) = 1 -> Forall request_ok qs ->
  in_time (cfg_session_timeout_seconds (sec_config s))
    (sess_last_activity_seconds (sec_session s)) qs ->
  sess_next_counter (sec_session s) + Z.of_nat (length qs) < 2 ^ 64 ->
  exists s',
  serve (sess_session_key (sec_session s)) (sess_session_id (sec_session s))
    (sess_next_counter (sec_session s)) qs s
  = Some (map (fun q => FRAME GUARDIAN_MESSAGE_REQUEST (rq_command q) GUARDIAN_SUPPORTED_FLAGS
                (rq_sequence q) (Z.of_nat (length (rq_payload q)))
                (rq_payload q ++ replicate (256 - length (rq_payload q)) 0)) qs, s') /\
  security_ok s'.
Proof.
  intros Hs Hv Hqs. revert s Hs Hv.
  induction Hqs as [|q qs Hq Hqs IH]; intros s Hs Hv Ht Hn; [by exists s|].
  destruct Ht as [Ht Htq]. cbn [length] in Hn.
  assert (Hl : session_live s (rq_time q)) by (split; [by rewrite Hv|done]).
  pose proof (session_live_ok s _ Hs Hl) as Hx.
  pose proof (client_frame_object (sess_session_key (sec_session s))
    (sess_session_id (sec_session s)) (sess_next_counter (sec_session s)) q Hq) as Ho.
  pose proof (so_counter _ _ Hx) as Hctr.
  assert (Hc : is_u64 (sess_next_counter (sec_session s))) by (unfold is_u64; lia).
  pose proof (client_frame_carries s (sess_next_counter (sec_session s)) q Hc
    ltac:(by destruct Hq as (_ & _ & ? & _))) as Hcar.
  assert (Hsid : is_u32 (sess_session_id (sec_session s)))
    by (pose proof (so_session_id _ _ Hx); unfold is_u32; lia).
  cbn [serve]. set (fr := client_frame _ _ _ q) in *.
  destruct (unwrap_cases s fr (rq_time q) zero_frame 0 Hs Ho)
    as [m i _ Hc1 Hn1|m i _ Hc1 Hn1|c m i _ Hc1 Hn1|r s' Hn1 _ Hno _].
  - destruct (carries_inj s fr _ _ _ _ _ _ Ho Hsid Hcar Hc1) as (_ & <- & <-).
    destruct (IH (consume s (rq_time q))) as (s' & E & Hs').
    + apply consume_ok; try done. by destruct Hq as (_ & _ & _ & ?).
    + done.
    + exact Htq.
    + cbn. lia.
    + cbn [consume set_session sec_session sess_session_key sess_session_id sess_next_counter] in E.
      rewrite E. exists s'. split; [|done]. by subst fr.
  - lia.
  - destruct (carries_inj s fr _ _ _ _ _ _ Ho Hsid Hcar Hc1) as (<- & _ & _). done.
  - by destruct (Hno _ _ _ Hl Hcar).
Qed.

(** ** The inputs of the codes *)

Inductive handshake_purpose := ServerProof | ClientProof | SessionKey.

Inductive mac_input :=
  | HandshakeInput (purpose : handshake_purpose) (role session_id : Z) (cn dn : list Z)
  | RequestInput (session_id counter sequence command : Z) (payload : list Z)
  | ResponseInput (session_id counter sequence message_type command : Z) (payload : list Z).

Definition purpose_label (p : handshake_purpose) : list Z :=
  match p with
  | ServerProof => guardian_security_server_label
  | ClientProof => guardian_security_client_label
  | SessionKey => guardian_security_session_label
  end.

Definition transcript_of (i : mac_input) : list Z :=
  match i with
  | HandshakeInput p role sid cn dn => handshake_transcript (purpose_label p) role sid cn dn
  | RequestInput sid c seq cmd payload => request_transcript sid c seq cmd payload
  | ResponseInput sid c seq ty cmd payload => response_transcript sid c seq ty cmd payload
  end.

Definition input_ok (i : mac_input) : Prop :=
  match i with
  | HandshakeInput _ role sid cn dn =>
      is_u8 role /\ is_u32 sid /\ length cn = 16%nat /\ length dn = 16%nat
  | RequestInput sid c seq _ payload =>
      is_u32 sid /\ is_u64 c /\ is_u32 seq /\ (length payload <= 256)%nat
  | ResponseInput sid c seq ty _ payload =>
      is_u32 sid /\ is_u64 c /\ is_u32 seq /\ is_u8 ty /\ (length payload <= 256)%nat
  end.

Ltac split_fields H :=
  repeat (apply app_inj_1 in H; [|first [done|lia]]; let E := fresh "E" in destruct H as [E H]).

Lemma length_fits {A} (l : list A) : (length l <= 256)%nat -> is_u16 (Z.of_nat (length l)).
Proof. unfold is_u16. lia. Qed.

Lemma request_transcript_inj sid c seq cmd p sid' c' seq' cmd' p' :
  input_ok (RequestInput sid c seq cmd p) -> input_ok (RequestInput sid' c' seq' cmd' p') ->
  request_transcript sid c seq cmd p = request_transcript sid' c' seq' cmd' p' ->
  RequestInput sid c seq cmd p = RequestInput sid' c' seq' cmd' p'.
Proof.
  intros (H1 & H2 & H3 & H4) (H1' & H2' & H3' & H4') H. unfold request_transcript in H.
  split_fields H.
  apply put_u32_be_inj in E1, E3; try done. apply write_u64_be_inj in E2; try done.
  injection E4 as ->. by rewrite E1, E2, E3, H.
Qed.

Lemma response_transcript_inj sid c seq ty cmd p sid' c' seq' ty' cmd' p' :
  input_ok (ResponseInput sid c seq ty cmd p) ->
  input_ok (ResponseInput sid' c' seq' ty' cmd' p') ->
  response_transcript sid c seq ty cmd p = response_transcript sid' c' seq' ty' cmd' p' ->
  ResponseInput sid c seq ty cmd p = ResponseInput sid' c' seq' ty' cmd' p'.
Proof.
  intros (H1 & H2 & H3 & H5 & H4) (H1' & H2' & H3' & H5' & H4') H.
  unfold response_transcript in H. split_fields H.
  apply put_u32_be_inj in E1, E3; try done. apply write_u64_be_inj in E2; try done.
  injection E4 as Et Ec. rewrite !u8_id in Et by done. by rewrite E1, E2, E3, Et, Ec, H.
Qed.

Lemma handshake_transcript_inj l role sid cn dn role' sid' cn' dn' :
  is_u8 role -> is_u8 role' -> is_u32 sid -> is_u32 sid' ->
  length cn = 16%nat -> length cn' = 16%nat ->
  handshake_transcript l role sid cn dn = handshake_transcript l role' sid' cn' dn' ->
  role = role' /\ sid = sid' /\ cn = cn' /\ dn = dn'.
Proof.
  intros H1 H1' H2 H2' H3 H3' H. unfold handshake_transcript in H. split_fields H.
  injection E0 as Er. rewrite !u8_id in Er by done. apply put_u32_be_inj in E1; done.
Qed.

(** The labels differ in their first eleven bytes. *)
Lemma transcript_of_inj i j :
  input_ok i -> input_ok j -> transcript_of i = transcript_of j -> i = j.
Proof.
  intros Hi Hj H. pose proof (f_equal (take 11) H) as Hl.
  destruct i as [p role sid cn dn|sid c seq cmd pl|sid c seq ty cmd pl],
    j as [p' role' sid' cn' dn'|sid' c' seq' cmd' pl'|sid' c' seq' ty' cmd' pl'].
  - assert (p = p') as <- by (destruct p, p'; (done || discriminate Hl)).
    destruct Hi as (H1 & H2 & H3 & H4), Hj as (H1' & H2' & H3' & H4').
    apply handshake_transcript_inj in H; try done. by destruct H as (-> & -> & -> & ->).
  - destruct p; discriminate Hl.
  - destruct p; discriminate Hl.
  - destruct p'; discriminate Hl.
  - by apply request_transcript_inj.
  - discriminate Hl.
  - destruct p'; discriminate Hl.
  - discriminate Hl.
  - by apply response_transcript_inj.
Qed.

(** The code that a context computes for an input. *)
Definition coded {C W} (s : guardian_security_t C W) (i : mac_input) : Prop :=
  match i with
  | HandshakeInput p role sid cn dn =>
      guardian_security_handshake_mac s (purpose_label p) (length (purpose_label p)) role sid cn dn
        (replicate 32 0)
      = (true, hmac_spec (cfg_psk (sec_config s)) (transcript_of i))
  | RequestInput sid c seq cmd payload =>
      (length payload <= 224)%nat -> forall outer, frame_sequence outer = seq ->
      guardian_security_request_tag s outer sid c cmd payload (Z.of_nat (length payload))
        (replicate 32 0)
      = (true, hmac_spec (sess_session_key (sec_session s)) (transcript_of i))
  | ResponseInput sid c seq ty cmd payload =>
      (length payload <= 223)%nat -> forall outer, frame_sequence outer = seq ->
      guardian_security_response_tag s outer sid c
        (FRAME ty cmd 0 seq (Z.of_nat (length payload)) payload) (replicate 32 0)
      = (true, hmac_spec (sess_session_key (sec_session s)) (transcript_of i))
  end.

Lemma session_key_shape {C W} (s : guardian_security_t C W) : security_ok s ->
  length (sess_session_key (sec_session s)) = 32%nat /\ bytes (sess_session_key (sec_session s)).
Proof.
  intros Hs. destruct (ok_session s Hs) as [-> |[]]; [|done].
  split; [done|by apply (bytes_replicate 32 0)].
Qed.

Lemma begin_accepts {C W} (s : guardian_security_t C W) request len now response cap rl w res
    role cn f filled rnd w' :
  begin_outcome s request len now response cap rl w res ->
  begins s request len cap role cn -> cfg_random (sec_config s) = Some f ->
  f (cfg_random_context (sec_config s)) (replicate 20 0) 20%nat w = (filled, rnd, w') ->
  filled <> 0 ->
  res = (GUARDIAN_SECURITY_OK,
         Some (challenged s role (drawn_session_id rnd) cn (drop 4 rnd) now),
         Some (blit response 0 (challenge_message (cfg_psk (sec_config s)) role
                 (drawn_session_id rnd) cn (drop 4 rnd))), Some 38, w').
Proof.
  intros [role1 cn1 f1 filled1 rnd1 w1 Hb1 Hf1 Hfill1 Hnz1 sid1 dn1|r s' w1 Hn Hno Hrand _ _ _]
    Hb Hf Hfill Hnz.
  - rewrite Hf in Hf1. injection Hf1 as <-. rewrite Hfill in Hfill1.
    apply pair_equal_spec in Hfill1 as [Hfill1 <-]. apply pair_equal_spec in Hfill1 as [_ <-].
    destruct Hb1 as (_ & _ & _ & _ & Hm1), Hb as (_ & _ & _ & _ & Hm). rewrite Hm in Hm1.
    injection Hm1 as <- <-. reflexivity.
  - exfalso. destruct (decide (r = GUARDIAN_SECURITY_ERROR_RANDOM)) as [Er|Er];
      [|by apply (Hno Er role cn)].
    specialize (Hrand Er f Hf). by rewrite Hfill in Hrand.
Qed.

Lemma finish_accepts {C W} (s : guardian_security_t C W) request len now response cap rl res :
  finish_outcome s request len now response cap rl res -> opens s request len now cap ->
  res = (GUARDIAN_SECURITY_OK, Some (opened s now),
         Some (blit response 0 (opened_message (pend_role (sec_pending s))
                 (pend_session_id (sec_pending s)) (cfg_session_timeout_seconds (sec_config s)))),
         Some 8).
Proof. intros [Ho|r s' _ Hno _ _ _ _] H; [reflexivity|by destruct Hno]. Qed.

(** ** Properties *)

Section properties.
Context {C W : Type}.
Implicit Types (s : guardian_security_t C W) (w : W).

(** C30: Every run follows the session protocol.  Whatever operations are performed in
    whatever order on an initialized context, what the context lets the caller do
    is a trace of the protocol: after an opening, and until the next one, the
    accepted counters are exactly 1, 2, 3, ... (no replay, no gap, each within the
    inactivity timeout), only commands within the role of the session are
    granted, and before any opening nothing is accepted or granted. *)
Theorem session_run_follows_protocol os w s tr w' :
  Forall op_typed os -> perform_all os zero_security w = (s, tr, w') ->
  session_trace None tr (ticket_of s) /\
  (forall pre role sid now mid post,
   tr = pre ++ Opened role sid now :: mid ++ post -> no_opening mid ->
   1 <= role <= 3 /\ accepted mid = seqZ 1 (Z.of_nat (length (accepted mid))) /\
   Forall (fun c => required_role c <= role) (authorized mid)) /\
  (forall pre post, tr = pre ++ post -> no_opening pre -> accepted pre = [] /\ authorized pre = []).
Proof.
  intros Hos H. pose proof (perform_all_keeps os zero_security w zero_security_ok Hos) as Hk.
  rewrite H in Hk. destruct Hk as [_ Ht]. change (ticket_of zero_security) with (@None ticket) in Ht.
  split; [exact Ht|]. split.
  - intros pre role sid now mid post -> Hno. apply session_trace_split in Ht as (a & _ & Ht).
    remember (Opened role sid now :: mid ++ post) as x eqn:E.
    induction Ht as [|a tr b Ht IH|a role' sid' now' timeout tr b Hr Ht _| |]; try discriminate;
      [by apply IH|].
    injection E as -> -> -> ->. apply session_trace_split in Ht as (m & Ht & _).
    split; [done|]. by apply (trace_within _ _ _ Ht).
  - intros pre post -> Hno. apply session_trace_split in Ht as (m & Ht & _).
    by apply (trace_within _ _ _ Ht).
Qed.

(** Requests are accepted exactly.  [unwrap_request] answers OK if and only if the
    session is live and the frame carries, under the session key, a request with
    the next counter; it then delivers that request, and the counter is consumed.
    It answers REPLAY exactly for an authentic request with another counter, or
    when the counter is exhausted.  Whatever else comes, the counter does not
    move: the session stays as it was or is erased. *)
Theorem unwrap_exact s outer now i0 c0 r s' i c :
  security_ok s -> frame_object outer ->
  guardian_security_unwrap_request (Some s) (Some outer) now (Some i0) (Some c0)
    = (r, Some s', i, c) ->
  let next := sess_next_counter (sec_session s) in
  (r = GUARDIAN_SECURITY_OK <->
   session_live s now /\ next + 1 < 2 ^ 64 /\ exists command inner, carries s outer next command inner) /\
  (r = GUARDIAN_SECURITY_ERROR_REPLAY <->
   session_live s now /\ exists counter command inner,
     carries s outer counter command inner /\ (counter <> next \/ next + 1 = 2 ^ 64)) /\
  (r = GUARDIAN_SECURITY_OK -> s' = consume s now /\ c = Some next /\
   exists command inner, carries s outer next command inner /\
     i = Some (inner_frame outer command inner)) /\
  (r <> GUARDIAN_SECURITY_OK ->
   sec_session s' = sec_session s \/ sec_session s' = zero_session).
Proof.
  intros Hs Ho H next. pose proof (unwrap_cases s outer now i0 c0 Hs Ho) as Hc. rewrite H in Hc.
  assert (Hsid : session_live s now -> is_u32 (sess_session_id (sec_session s))).
  { intros Hl. pose proof (so_session_id _ _ (session_live_ok s now Hs Hl)). unfold is_u32. lia. }
  inversion Hc as [m x Hl Hcar Hn|m x Hl Hcar Hn|c1 m x Hl Hcar Hn|r1 s1 Hr1 Hr2 Hno Hs1]; subst;
    try fold next in Hcar, Hn.
  - split; [split; [|done]; intros _; split; [done|]; split; [done|by do 2 eexists]|].
    split; [|split; [|done]].
    + split; [done|]. intros (_ & c1 & m1 & x1 & Hcar1 & Hne).
      destruct (carries_inj s outer _ _ _ _ _ _ Ho (Hsid Hl) Hcar Hcar1) as (<- & _ & _).
      destruct Hne; [done|lia].
    + intros _. split; [done|]. split; [done|]. by do 2 eexists.
  - split; [split; [done|]; intros (_ & ? & _); lia|].
    split; [split; [|done]; intros _; split; [done|]; do 3 eexists; split; [exact Hcar|by right]|].
    split; [done|]. intros _. by right.
  - split.
    { split; [done|]. intros (_ & _ & m1 & x1 & Hcar1).
      by destruct (carries_inj s outer _ _ _ _ _ _ Ho (Hsid Hl) Hcar Hcar1) as (-> & _ & _). }
    split; [split; [|done]; intros _; split; [done|]; do 3 eexists; split; [exact Hcar|by left]|].
    split; [done|]. intros _. by left.
  - split; [split; [done|]; intros (Hl & _ & m1 & x1 & Hcar1); by destruct (Hno _ _ _ Hl Hcar1)|].
    split; [split; [done|]; intros (Hl & c1 & m1 & x1 & Hcar1 & _); by destruct (Hno _ _ _ Hl Hcar1)|].
    split; [done|]. intros _. unfold guardian_security_expire_session in Hs1. cbv zeta in Hs1.
    destruct Hs1 as [-> | ->]; cbn; repeat case_match; cbn; auto.
Qed.

(** A session opens exactly on the client's proof.  [auth_finish] answers OK if
    and only if the context is provisioned, a challenge is live and the message is
    the one the holder of the pre-shared key computes for it; the new session then
    has the role and identifier of the challenge, the key derived from it and
    counter 1.  Otherwise the session is untouched, and a well-formed attempt
    that fails uses up its challenge. *)
Theorem auth_finish_exact s request len now response cap rl r s' response' rl' :
  security_ok s -> request_object request len -> is_u32 now ->
  (Z.to_nat cap <= length response)%nat ->
  guardian_security_auth_finish (Some s) (Some request) len now (Some response) cap (Some rl)
    = (r, Some s', response', rl') ->
  (r = GUARDIAN_SECURITY_OK <-> opens s request len now cap) /\
  (r = GUARDIAN_SECURITY_OK -> s' = opened s now /\ rl' = Some 8 /\
   response' = Some (blit response 0 (opened_message (pend_role (sec_pending s))
     (pend_session_id (sec_pending s)) (cfg_session_timeout_seconds (sec_config s))))) /\
  (r <> GUARDIAN_SECURITY_OK ->
   sec_session s' = sec_session s /\ response' = Some response /\ rl' = Some rl /\
   (attempts s request len now cap -> sec_pending s' = zero_pending)).
Proof.
  intros Hs Hr Hnow Hcap H.
  pose proof (finish_cases s request len now response cap rl Hs Hr Hnow Hcap) as Hc.
  rewrite H in Hc. inversion Hc as [Ho|r1 s1 Hn Hno Ha H1 H2 H3]; subst; by split_and!.
Qed.

(** C38: The security context is well typed.  Starting from [init], every operation on
    objects of their C types keeps the invariant: keys and nonces have their
    sizes, a session or a challenge exists only in a provisioned context, with a
    role between OBSERVER and the ceiling of the key, a non-zero identifier and a
    counter between 1 and 2^64 - 1, unused members are zero, and every count stays
    in its 32 bits. *)
Theorem security_context_typed os w s tr w' :
  Forall op_typed os -> perform_all os zero_security w = (s, tr, w') ->
  guardian_security_init (Some s) = Some zero_security /\ security_ok s.
Proof.
  intros Hos H. split; [done|].
  pose proof (perform_all_keeps os zero_security w zero_security_ok Hos) as Hk.
  rewrite H in Hk. apply Hk.
Qed.

(** C31: An honest session is served.  A client that knows the key and computes its
    messages as specified, finishing within thirty seconds and sending its
    requests within the timeout, is challenged with a proof it can check, gets its
    session, and has every request delivered as it was sent. *)
Theorem honest_session_served s role cn f filled rnd w w' now now' response1 cap1 rl1
    response2 cap2 rl2 qs :
  security_ok s -> sec_configured s = 1 -> 1 <= role <= cfg_max_role (sec_config s) ->
  length cn = 16%nat -> bytes cn -> cfg_random (sec_config s) = Some f ->
  f (cfg_random_context (sec_config s)) (replicate 20 0) 20%nat w = (filled, rnd, w') ->
  filled <> 0 -> is_u32 now -> is_u32 now' -> u32 (now' - now) < 30 ->
  38 <= cap1 -> (Z.to_nat cap1 <= length response1)%nat ->
  8 <= cap2 -> (Z.to_nat cap2 <= length response2)%nat ->
  Forall request_ok qs -> in_time (cfg_session_timeout_seconds (sec_config s)) now' qs ->
  Z.of_nat (length qs) < 2 ^ 64 - 1 ->
  let psk := cfg_psk (sec_config s) in
  let sid := drawn_session_id rnd in let dn := drop 4 rnd in
  let key := session_key_of psk role sid cn dn in
  exists s1 s2 s3,
  guardian_security_auth_begin (Some s) (Some (begin_message role cn)) 18 now (Some response1) cap1
    (Some rl1) w
  = (GUARDIAN_SECURITY_OK, Some s1, Some (blit response1 0 (challenge_message psk role sid cn dn)),
     Some 38, w') /\
  guardian_security_auth_finish (Some s1) (Some (finish_message psk role sid cn dn)) 22 now'
    (Some response2) cap2 (Some rl2)
  = (GUARDIAN_SECURITY_OK, Some s2,
     Some (blit response2 0 (opened_message role sid (cfg_session_timeout_seconds (sec_config s)))),
     Some 8) /\
  serve key sid 1 qs s2
  = Some (map (fun q => FRAME GUARDIAN_MESSAGE_REQUEST (rq_command q) GUARDIAN_SUPPORTED_FLAGS
                (rq_sequence q) (Z.of_nat (length (rq_payload q)))
                (rq_payload q ++ replicate (256 - length (rq_payload q)) 0)) qs, s3) /\
  security_ok s3.
Proof.
  intros Hs Hc Hrole Hcn Hcb Hf Hfill Hnz Hnow Hnow' Ht Hc1 Hr1 Hc2 Hr2 Hqs Hin Hlen psk sid dn key.
  assert (Hr8 : is_u8 role) by (pose proof (max_role_le s Hs Hc); unfold is_u8; lia).
  assert (Hreq : request_object (begin_message role cn) 18).
  { split; [apply bytes_cons; [done|by apply bytes_cons]|].
    unfold begin_message. rewrite length_app, Hcn. done. }
  assert (Hb : begins s (begin_message role cn) 18 cap1 role cn) by (split_and!; (done || lia)).
  pose proof (co_random _ (ok_config s Hs) f Hf (cfg_random_context (sec_config s)) w) as Hfok.
  rewrite Hfill in Hfok. destruct Hfok as [Hrl Hrb].
  assert (Hdn : length dn = 16%nat) by (subst dn; rewrite length_drop; lia).
  assert (Hsid : 1 <= sid < 2 ^ 32).
  { subst sid. unfold drawn_session_id. cbv zeta. pose proof (get_u32_be_range rnd Hrb) as Hu.
    unfold is_u32 in Hu. destruct (Z.eqb_spec (get_u32_be rnd) 0); lia. }
  set (s1 := challenged s role sid cn dn now).
  assert (Hs1 : security_ok s1) by (by apply challenged_ok).
  assert (Hfreq : request_object (finish_message psk role sid cn dn) 22).
  { unfold finish_message, proof_of. split.
    - apply bytes_cons; [done|]. apply bytes_cons; [done|].
      auto using bytes_app_2, put_u32_be_bytes, bytes_take, hmac_spec_bytes.
    - rewrite !length_app, put_u32_be_length, tag_length. done. }
  assert (Hop : opens s1 (finish_message psk role sid cn dn) 22 now' cap2).
  { split_and!; [done|done|done| |done]. by split. }
  assert (Hs2 : security_ok (opened s1 now')) by (by eapply opened_ok).
  destruct (serve_honest qs (opened s1 now') Hs2 eq_refl Hqs Hin ltac:(cbn; lia))
    as (s3 & Hserve & Hs3).
  exists s1, (opened s1 now'), s3. split; [|split; [|split; [exact Hserve|exact Hs3]]].
  - apply (begin_accepts s _ 18 now response1 cap1 rl1 w _ role cn f filled rnd w'
      (begin_cases s _ 18 now response1 cap1 rl1 w Hs Hreq Hnow Hr1) Hb Hf Hfill Hnz).
  - exact (finish_accepts s1 _ 22 now' response2 cap2 rl2 _
      (finish_cases s1 _ 22 now' response2 cap2 rl2 Hs1 Hfreq Hnow' Hr2) Hop).
Qed.

(** The codes are separated by purpose.  Server proofs, client proofs, session
    keys, request tags and response tags are HMAC codes over transcripts no two of
    which are equal: equal transcripts have the same purpose and agree in role,
    session, nonces, counter, sequence number, type, command and payload. *)
Theorem mac_inputs_separated s i j :
  security_ok s -> input_ok i -> input_ok j ->
  coded s i /\ coded s j /\ (transcript_of i = transcript_of j -> i = j).
Proof.
  intros Hs Hi Hj. destruct (ok_config s Hs) as [Hpsk Hpb _ _].
  destruct (session_key_shape s Hs) as [Hk Hkb].
  assert (Hcode : forall k, input_ok k -> coded s k).
  { intros [p role sid cn dn|sid c seq cmd payload|sid c seq ty cmd payload] Hok; cbn [coded].
    - destruct Hok as (_ & _ & Hcn & Hdn).
      by apply handshake_mac_spec; try done; destruct p; cbn; lia.
    - intros Hl outer <-. rewrite request_tag_spec by (done || lia).
      by rewrite Nat2Z.id, take_ge by lia.
    - intros Hl outer <-. rewrite response_tag_spec
        by (cbn [frame_payload_length frame_payload]; (done || lia)).
      cbn [frame_payload_length frame_payload frame_message_type frame_command].
      by rewrite Nat2Z.id, take_ge by lia. }
  split; [by apply Hcode|]. split; [by apply Hcode|]. by apply transcript_of_inj.
Qed.
End properties.

(** ** Witnesses *)

(** A nonce source that counts its calls. *)
Definition example_random (_ : option unit) (_ : list Z) (_ : nat) (w : Z) : Z * list Z * Z :=
  (1, replicate 20 (u8 w), w + 1).
Definition example_config : guardian_security_config_t unit Z :=
  SECURITY_CONFIG (replicate 32 11) 2 (Some example_random) None 0.
Definition example_context : guardian_security_t unit Z :=
  default zero_security (guardian_security_configure (Some zero_security) (Some example_config)).2.
Definition example_nonce : list Z := replicate 16 5.
Definition example_session_id : Z := 0x07070707.
Definition example_key : list Z :=
  session_key_of (replicate 32 11) 2 example_session_id example_nonce (replicate 16 7).
Definition example_finish : list Z :=
  finish_message (replicate 32 11) 2 example_session_id example_nonce (replicate 16 7).
Definition example_requests : list client_request :=
  [CLIENT_REQUEST 70 0x13 [1; 2; 3] 21; CLIENT_REQUEST 71 0x15 [] 22].
Definition example_pending : guardian_security_t unit Z :=
  challenged example_context 2 example_session_id example_nonce (replicate 16 7) 10.
Definition example_live : guardian_security_t unit Z :=
  set_session (SESSION 1 2 example_session_id (replicate 32 9) 4 20) example_context.

(** Configure, a handshake, two requests with their authorization, a replay. *)
Definition example_ops : list (@security_op unit Z) :=
  let request c q := OpUnwrap (client_frame example_key example_session_id c q) (rq_time q) in
  [OpConfigure example_config;
   OpBegin (begin_message 2 example_nonce) 18 10 (replicate 38 0) 38;
   OpFinish example_finish 22 20 (replicate 38 0) 38;
   request 1 (CLIENT_REQUEST 70 0x13 [1; 2; 3] 21); OpAuthorize 0x13; OpAuthorize 0x40;
   request 1 (CLIENT_REQUEST 70 0x13 [1; 2; 3] 21); OpStatus 22;
   request 2 (CLIENT_REQUEST 71 0x15 [] 22)].

Lemma example_config_object : config_object example_config.
Proof.
  constructor; cbn.
  - done.
  - by apply (bytes_replicate 32 11).
  - intros f [= <-] c w. split; [done|]. apply bytes_replicate, u8_range.
  - done.
Qed.

Lemma example_context_ok : security_ok example_context.
Proof.
  destruct (security_configure_ok zero_security example_config GUARDIAN_SECURITY_OK example_context
    example_config_object zero_security_ok eq_refl) as [H _]. exact H.
Qed.

Lemma example_requests_ok : Forall request_ok example_requests.
Proof.
  repeat constructor; cbn; try (unfold is_u8, is_u32; lia); try apply bytes_nil.
Qed.

Lemma example_ops_typed : Forall op_typed example_ops.
Proof.
  pose proof (proj1 (Forall_forall _ _) example_requests_ok) as Hr.
  assert (H1 : request_ok (CLIENT_REQUEST 70 0x13 [1; 2; 3] 21)) by (apply Hr; left).
  assert (H2 : request_ok (CLIENT_REQUEST 71 0x15 [] 22)) by (apply Hr; right; left).
  apply Forall_cons; split; [exact example_config_object|].
  apply Forall_cons; split.
  { split; [split; [by apply (bool_decide_eq_true_1 (bytes _)); vm_compute|done]|split; [done|by cbn; lia]]. }
  apply Forall_cons; split.
  { split; [split; [by apply (bool_decide_eq_true_1 (bytes _)); vm_compute|]|split; [done|by cbn; lia]].
    unfold example_finish, finish_message, proof_of.
    rewrite !length_app, tag_length. done. }
  repeat (apply Forall_cons; split); try done;
    (split; [by apply client_frame_object|done]).
Qed.

Lemma session_run_follows_protocol_witness : exists s w',
  perform_all example_ops zero_security 7
  = (s, [Opened 2 example_session_id 20; Accepted 21 1 0x13; Authorized 0x13; Accepted 22 2 0x15], w') /\
  [1; 2] = seqZ 1 2.
Proof.
  assert (H : (perform_all example_ops zero_security 7).1.2
    = [Opened 2 example_session_id 20; Accepted 21 1 0x13; Authorized 0x13; Accepted 22 2 0x15])
    by (vm_compute; reflexivity).
  destruct (perform_all example_ops zero_security 7) as [[s tr] w'] eqn:E. cbn in H. subst tr.
  exists s, w'. split; [reflexivity|].
  destruct (session_run_follows_protocol example_ops 7 s _ w' example_ops_typed E) as (_ & H & _).
  refine (proj1 (proj2 (H [] 2 example_session_id 20
    [Accepted 21 1 0x13; Authorized 0x13; Accepted 22 2 0x15] [] eq_refl _))).
  by repeat constructor.
Defined.

Lemma security_context_typed_witness : exists s : guardian_security_t unit Z,
  security_ok s /\ sec_replay_rejections s = 1.
Proof.
  assert (H : sec_replay_rejections (perform_all example_ops zero_security 7).1.1 = 1)
    by (vm_compute; reflexivity).
  destruct (perform_all example_ops zero_security 7) as [[s tr] w'] eqn:E.
  exists s. split; [|exact H].
  exact (proj2 (security_context_typed example_ops 7 s tr w' example_ops_typed E)).
Defined.

Lemma example_pending_ok : security_ok example_pending.
Proof.
  apply challenged_ok; [exact example_context_ok|done|cbn; lia|done|done|done|done].
Qed.

Lemma example_live_ok : security_ok example_live.
Proof.
  destruct example_context_ok as [H1 H2 H3 H4 H5]. constructor; cbn; try done.
  - right. by destruct H2 as [[? _]|H2].
  - by left.
  - right. constructor; cbn; try done. by apply (bytes_replicate 32 9).
Qed.

Definition example_request : guardian_frame_t :=
  client_frame (replicate 32 9) example_session_id 4 (CLIENT_REQUEST 70 0x13 [1; 2; 3] 21).

Lemma example_request_carries :
  frame_object example_request /\ carries example_live example_request 4 0x13 [1; 2; 3].
Proof.
  split; [|apply (client_frame_carries example_live 4 (CLIENT_REQUEST 70 0x13 [1; 2; 3] 21));
           [done|cbn; lia]].
  apply client_frame_object, (proj1 (Forall_forall _ _) example_requests_ok). left.
Qed.

Lemma unwrap_exact_witness : exists s' i c,
  guardian_security_unwrap_request (Some example_live) (Some example_request) 21
    (Some zero_frame) (Some 0)
  = (GUARDIAN_SECURITY_OK, Some s', i, c) /\ s' = consume example_live 21 /\ c = Some 4.
Proof.
  assert (Hl : session_live example_live 21) by by split.
  assert (Hn : sess_next_counter (sec_session example_live) + 1 < 2 ^ 64) by done.
  destruct example_request_carries as [Ho Hc].
  pose proof (unwrap_cases example_live example_request 21 zero_frame 0 example_live_ok Ho) as Hu.
  destruct (guardian_security_unwrap_request _ _ _ _ _) as [[[r [s'|]] i] c] eqn:E;
    [|exfalso; clear -Hu; inversion Hu].
  destruct (unwrap_exact example_live example_request 21 zero_frame 0 r s' i c
    example_live_ok Ho E) as (H1 & _ & H2 & _).
  pose proof (proj2 H1 (conj Hl (conj Hn (ex_intro _ 0x13 (ex_intro _ [1; 2; 3] Hc))))) as Hr.
  exists s', i, c. destruct (H2 Hr) as (H3 & H4 & _).
  split; [exact (f_equal (fun r => (r, Some s', i, c)) Hr)|]. exact (conj H3 H4).
Defined.

Lemma auth_finish_exact_witness : exists s' p l,
  guardian_security_auth_finish (Some example_pending) (Some example_finish) 22 20
    (Some (replicate 38 0)) 38 (Some 0) = (GUARDIAN_SECURITY_OK, Some s', p, l) /\
  s' = opened example_pending 20.
Proof.
  assert (Hr : request_object example_finish 22).
  { split; [by apply (bool_decide_eq_true_1 (bytes _)); vm_compute|].
    unfold example_finish, finish_message, proof_of. rewrite !length_app, tag_length. done. }
  assert (Hcap : (Z.to_nat 38 <= length (replicate 38 0))%nat) by (cbn; lia).
  assert (Hnow : is_u32 20) by done.
  assert (Hop : opens example_pending example_finish 22 20 38).
  { split; [done|]. split; [done|]. split; [done|]. split; [by split|reflexivity]. }
  pose proof (finish_cases example_pending example_finish 22 20 (replicate 38 0) 38 0
    example_pending_ok Hr Hnow Hcap) as Hf.
  destruct (guardian_security_auth_finish _ _ _ _ _ _ _) as [[[r [s'|]] p] l] eqn:E;
    [|exfalso; clear -Hf; inversion Hf].
  destruct (auth_finish_exact example_pending example_finish 22 20 (replicate 38 0) 38 0 r s' p l
    example_pending_ok Hr Hnow Hcap E) as (H1 & H2 & _).
  pose proof (proj2 H1 Hop) as Hok.
  exists s', p, l. destruct (H2 Hok) as (H3 & _).
  exact (conj (f_equal (fun r => (r, Some s', p, l)) Hok) H3).
Defined.

Lemma honest_session_served_witness : exists s1 s2 s3,
  (guardian_security_auth_begin (Some example_context) (Some (begin_message 2 example_nonce)) 18 10
     (Some (replicate 38 0)) 38 (Some 0) 7).1.1.1 = (GUARDIAN_SECURITY_OK, Some s1) /\
  (guardian_security_auth_finish (Some s1) (Some example_finish) 22 20
     (Some (replicate 38 0)) 38 (Some 0)).1.1 = (GUARDIAN_SECURITY_OK, Some s2) /\
  option_map snd (serve example_key example_session_id 1 example_requests s2) = Some s3.
Proof.
  destruct (honest_session_served example_context 2 example_nonce example_random 1
    (replicate 20 7) 7 8 10 20 (replicate 38 0) 38 0 (replicate 38 0) 38 0 example_requests
    example_context_ok) as (s1 & s2 & s3 & H1 & H2 & H3 & _).
  - done.
  - done.
  - done.
  - by apply (bytes_replicate 16 5).
  - done.
  - done.
  - done.
  - done.
  - done.
  - done.
  - done.
  - cbn; lia.
  - done.
  - cbn; lia.
  - exact example_requests_ok.
  - by repeat split.
  - done.
  - exists s1, s2, s3. split; [exact (f_equal (fun x => x.1.1.1) H1)|].
    split; [exact (f_equal (fun x => x.1.1) H2)|exact (f_equal (option_map snd) H3)].
Defined.

Lemma mac_inputs_separated_witness :
  transcript_of (RequestInput 7 1 70 0x13 [1]) <> transcript_of (ResponseInput 7 1 70 2 0x13 [1]).
Proof.
  intros H.
  assert (H1 : input_ok (RequestInput 7 1 70 0x13 [1])) by (cbn; split_and!; (done || lia)).
  assert (H2 : input_ok (ResponseInput 7 1 70 2 0x13 [1])) by (cbn; split_and!; (done || lia)).
  discriminate (proj2 (proj2 (mac_inputs_separated example_live _ _ example_live_ok H1 H2)) H).
Defined.
