(* ===== verification/Lifecycle.v ===== *)
(** * Firmware lifecycle

    Model of [firmware/Firmware/Src/guardian_firmware_lifecycle.c]: the manifest
    and chunk decoders, the canonical signed transcript, and the life of a
    candidate image from its transfer over verification and activation to the
    outcome of its first boot.  The seven callbacks of the platform (staging
    storage, signature verification, boot metadata) are parameters: each is given
    the opaque context, its arguments and the state of the world, and answers its
    [int] and the world.  A configured lifecycle has every callback; the branches
    for a missing one are not reached ([lifecycle_ok] in [LifecycleSafety]). *)

From S2P Require Import Prelude Crypto.

(** ** Constants and data of guardian_firmware_lifecycle.h *)

Definition GUARDIAN_FIRMWARE_SCHEMA_VERSION : Z := 0x01.
Definition GUARDIAN_FIRMWARE_SIGNATURE_ED25519 : Z := 0x01.
Definition GUARDIAN_FIRMWARE_SIGNATURE_DEMO_HMAC_SHA256 : Z := 0xFE.
Definition GUARDIAN_FIRMWARE_MAX_SIGNATURE_SIZE : nat := 64.
Definition GUARDIAN_FIRMWARE_DIGEST_SIZE : nat := GUARDIAN_SHA256_SIZE.
Definition GUARDIAN_FIRMWARE_SIGNED_MANIFEST_SIZE : nat := 64.
Definition GUARDIAN_FIRMWARE_MANIFEST_PREFIX_SIZE : Z := 53.
Definition GUARDIAN_FIRMWARE_CHUNK_PREFIX_SIZE : Z := 7.
Definition GUARDIAN_FIRMWARE_CHUNK_MAX_DATA : Z := 192.
Definition GUARDIAN_FIRMWARE_STATUS_PAYLOAD_SIZE : Z := 34.

Inductive guardian_firmware_state_t :=
  | GUARDIAN_FIRMWARE_STATE_IDLE
  | GUARDIAN_FIRMWARE_STATE_RECEIVING
  | GUARDIAN_FIRMWARE_STATE_VERIFIED
  | GUARDIAN_FIRMWARE_STATE_PENDING_ACTIVATION
  | GUARDIAN_FIRMWARE_STATE_CONFIRMED
  | GUARDIAN_FIRMWARE_STATE_ROLLED_BACK
  | GUARDIAN_FIRMWARE_STATE_FAILED.

Inductive guardian_firmware_failure_t :=
  | GUARDIAN_FIRMWARE_FAILURE_NONE
  | GUARDIAN_FIRMWARE_FAILURE_UNCONFIGURED
  | GUARDIAN_FIRMWARE_FAILURE_INVALID_PAYLOAD
  | GUARDIAN_FIRMWARE_FAILURE_ROLLBACK_BLOCKED
  | GUARDIAN_FIRMWARE_FAILURE_STORAGE
  | GUARDIAN_FIRMWARE_FAILURE_HASH_MISMATCH
  | GUARDIAN_FIRMWARE_FAILURE_SIGNATURE_INVALID
  | GUARDIAN_FIRMWARE_FAILURE_ACTIVATION
  | GUARDIAN_FIRMWARE_FAILURE_CONFIRMATION
  | GUARDIAN_FIRMWARE_FAILURE_OUT_OF_ORDER.

Inductive guardian_firmware_result_t :=
  | GUARDIAN_FIRMWARE_OK
  | GUARDIAN_FIRMWARE_ERROR_NULL_ARGUMENT
  | GUARDIAN_FIRMWARE_ERROR_UNCONFIGURED
  | GUARDIAN_FIRMWARE_ERROR_INVALID_PAYLOAD
  | GUARDIAN_FIRMWARE_ERROR_INVALID_STATE
  | GUARDIAN_FIRMWARE_ERROR_ROLLBACK_BLOCKED
  | GUARDIAN_FIRMWARE_ERROR_STORAGE
  | GUARDIAN_FIRMWARE_ERROR_HASH_MISMATCH
  | GUARDIAN_FIRMWARE_ERROR_SIGNATURE_INVALID
  | GUARDIAN_FIRMWARE_ERROR_ACTIVATION
  | GUARDIAN_FIRMWARE_ERROR_CONFIRMATION
  | GUARDIAN_FIRMWARE_ERROR_OUT_OF_ORDER
  | GUARDIAN_FIRMWARE_ERROR_OUTPUT_TOO_SMALL.

#[global] Instance guardian_firmware_state_t_eq_dec : EqDecision guardian_firmware_state_t.
Proof. solve_decision. Defined.
#[global] Instance guardian_firmware_failure_t_eq_dec : EqDecision guardian_firmware_failure_t.
Proof. solve_decision. Defined.
#[global] Instance guardian_firmware_result_t_eq_dec : EqDecision guardian_firmware_result_t.
Proof. solve_decision. Defined.

(** The values of the enumeration constants, as the status payload shows them. *)
Definition firmware_state_value (s : guardian_firmware_state_t) : Z :=
  match s with
  | GUARDIAN_FIRMWARE_STATE_IDLE => 0
  | GUARDIAN_FIRMWARE_STATE_RECEIVING => 1
  | GUARDIAN_FIRMWARE_STATE_VERIFIED => 2
  | GUARDIAN_FIRMWARE_STATE_PENDING_ACTIVATION => 3
  | GUARDIAN_FIRMWARE_STATE_CONFIRMED => 4
  | GUARDIAN_FIRMWARE_STATE_ROLLED_BACK => 5
  | GUARDIAN_FIRMWARE_STATE_FAILED => 6
  end.

Definition firmware_failure_value (f : guardian_firmware_failure_t) : Z :=
  match f with
  | GUARDIAN_FIRMWARE_FAILURE_NONE => 0
  | GUARDIAN_FIRMWARE_FAILURE_UNCONFIGURED => 1
  | GUARDIAN_FIRMWARE_FAILURE_INVALID_PAYLOAD => 2
  | GUARDIAN_FIRMWARE_FAILURE_ROLLBACK_BLOCKED => 3
  | GUARDIAN_FIRMWARE_FAILURE_STORAGE => 4
  | GUARDIAN_FIRMWARE_FAILURE_HASH_MISMATCH => 5
  | GUARDIAN_FIRMWARE_FAILURE_SIGNATURE_INVALID => 6
  | GUARDIAN_FIRMWARE_FAILURE_ACTIVATION => 7
  | GUARDIAN_FIRMWARE_FAILURE_CONFIRMATION => 8
  | GUARDIAN_FIRMWARE_FAILURE_OUT_OF_ORDER => 9
  end.

Record guardian_firmware_manifest_t := MANIFEST {
  man_signature_algorithm : Z;
  man_key_id : Z;
  man_version_counter : Z;
  man_firmware_major : Z;
  man_firmware_minor : Z;
  man_firmware_patch : Z;
  man_image_size : Z;
  man_image_sha256 : list Z;            (* image_sha256[32] *)
  man_signature_length : Z;
  man_signature : list Z                (* signature[64] *)
}.

Record guardian_firmware_chunk_t := CHUNK {
  chunk_offset : Z;
  chunk_length : Z;
  chunk_data : list Z                   (* data[192] *)
}.

Record guardian_firmware_status_t := FIRMWARE_STATUS {
  fs_state : guardian_firmware_state_t;
  fs_failure : guardian_firmware_failure_t;
  fs_signature_algorithm : Z;
  fs_active_version_counter : Z;
  fs_rollback_floor : Z;
  fs_candidate_version_counter : Z;
  fs_bytes_received : Z;
  fs_image_size : Z;
  fs_key_id : Z;
  fs_firmware_major : Z;
  fs_firmware_minor : Z;
  fs_firmware_patch : Z
}.

(** ** The platform's callbacks *)

Definition guardian_firmware_erase_fn (C W : Type) : Type := option C -> Z -> W -> Z * W.
Definition guardian_firmware_write_fn (C W : Type) : Type :=
  option C -> Z -> list Z -> Z -> W -> Z * W.
Definition guardian_firmware_hash_fn (C W : Type) : Type :=
  option C -> Z -> list Z -> W -> Z * list Z * W.
Definition guardian_firmware_verify_signature_fn (C W : Type) : Type :=
  option C -> Z -> Z -> list Z -> nat -> list Z -> Z -> W -> Z * W.
Definition guardian_firmware_mark_pending_fn (C W : Type) : Type :=
  option C -> Z -> Z -> Z -> Z -> W -> Z * W.
Definition guardian_firmware_persist_floor_fn (C W : Type) : Type := option C -> Z -> W -> Z * W.
Definition guardian_firmware_complete_pending_fn (C W : Type) : Type :=
  option C -> Z -> Z -> W -> Z * W.

Record guardian_firmware_config_t (C W : Type) := FIRMWARE_CONFIG {
  fc_context : option C;
  fc_erase : option (guardian_firmware_erase_fn C W);
  fc_write : option (guardian_firmware_write_fn C W);
  fc_hash : option (guardian_firmware_hash_fn C W);
  fc_verify_signature : option (guardian_firmware_verify_signature_fn C W);
  fc_required_signature_algorithm : Z;
  fc_mark_pending : option (guardian_firmware_mark_pending_fn C W);
  fc_persist_floor : option (guardian_firmware_persist_floor_fn C W);
  fc_complete_pending : option (guardian_firmware_complete_pending_fn C W);
  fc_max_image_size : Z;
  fc_active_version_counter : Z;
  fc_rollback_floor : Z
}.
Arguments FIRMWARE_CONFIG {C W}.
Arguments fc_context {C W}.
Arguments fc_erase {C W}.
Arguments fc_write {C W}.
Arguments fc_hash {C W}.
Arguments fc_verify_signature {C W}.
Arguments fc_required_signature_algorithm {C W}.
Arguments fc_mark_pending {C W}.
Arguments fc_persist_floor {C W}.
Arguments fc_complete_pending {C W}.
Arguments fc_max_image_size {C W}.
Arguments fc_active_version_counter {C W}.
Arguments fc_rollback_floor {C W}.

Record guardian_firmware_lifecycle_t (C W : Type) := LIFECYCLE {
  lc_config : guardian_firmware_config_t C W;
  lc_configured : Z;
  lc_state : guardian_firmware_state_t;
  lc_failure : guardian_firmware_failure_t;
  lc_manifest : guardian_firmware_manifest_t;
  lc_bytes_received : Z
}.
Arguments LIFECYCLE {C W}.
Arguments lc_config {C W}.
Arguments lc_configured {C W}.
Arguments lc_state {C W}.
Arguments lc_failure {C W}.
Arguments lc_manifest {C W}.
Arguments lc_bytes_received {C W}.

(** "GF-M12-IMAGE" *)
Definition guardian_firmware_signed_domain : list Z :=
  [0x47; 0x46; 0x2D; 0x4D; 0x31; 0x32; 0x2D; 0x49; 0x4D; 0x41; 0x47; 0x45].

Local Abbreviation result_t := guardian_firmware_result_t.
Local Abbreviation manifest_t := guardian_firmware_manifest_t.
Local Abbreviation chunk_t := guardian_firmware_chunk_t.

Definition guardian_firmware_write_u16_be (value : Z) : list Z := put_u16_be value.
Definition guardian_firmware_write_u32_be (value : Z) : list Z := put_u32_be value.
Definition guardian_firmware_read_u16_be (input : list Z) : Z := get_u16_be input.
Definition guardian_firmware_read_u32_be (input : list Z) : Z := get_u32_be input.

Definition guardian_firmware_signature_valid (algorithm signature_length : Z) : bool :=
  early algorithm =? GUARDIAN_FIRMWARE_SIGNATURE_ED25519 with signature_length =? 64 ;;
  early algorithm =? GUARDIAN_FIRMWARE_SIGNATURE_DEMO_HMAC_SHA256 with signature_length =? 32 ;;
  false.

(** ** Decoders *)

Definition zero_manifest : manifest_t :=
  MANIFEST 0 0 0 0 0 0 0 (replicate 32 0) 0 (replicate 64 0).
Definition zero_chunk : chunk_t := CHUNK 0 0 (replicate 192 0).

Definition guardian_firmware_decode_manifest (payload : option (list Z)) (payload_length : Z)
    (manifest : option manifest_t) : result_t * option manifest_t :=
  match payload, manifest with
  | Some p, Some _ =>
      early payload_length <? GUARDIAN_FIRMWARE_MANIFEST_PREFIX_SIZE
        with (GUARDIAN_FIRMWARE_ERROR_INVALID_PAYLOAD, manifest) ;;
      early negb (byte_at p 0 =? GUARDIAN_FIRMWARE_SCHEMA_VERSION)
        with (GUARDIAN_FIRMWARE_ERROR_INVALID_PAYLOAD, manifest) ;;
      let signature_length := byte_at p 52 in
      early negb (guardian_firmware_signature_valid (byte_at p 1) signature_length)
        with (GUARDIAN_FIRMWARE_ERROR_INVALID_PAYLOAD, manifest) ;;
      early negb (payload_length =? u16 (GUARDIAN_FIRMWARE_MANIFEST_PREFIX_SIZE + signature_length))
        with (GUARDIAN_FIRMWARE_ERROR_INVALID_PAYLOAD, manifest) ;;
      let algorithm := byte_at p 1 in
      let key_id := guardian_firmware_read_u32_be (drop 2 p) in
      let version_counter := guardian_firmware_read_u32_be (drop 6 p) in
      early version_counter =? 0
        with (GUARDIAN_FIRMWARE_ERROR_INVALID_PAYLOAD,
              Some (MANIFEST algorithm key_id version_counter 0 0 0 0 (man_image_sha256 zero_manifest)
                      0 (man_signature zero_manifest))) ;;
      let major := guardian_firmware_read_u16_be (drop 10 p) in
      let minor := guardian_firmware_read_u16_be (drop 12 p) in
      let patch := guardian_firmware_read_u16_be (drop 14 p) in
      let image_size := guardian_firmware_read_u32_be (drop 16 p) in
      early image_size =? 0
        with (GUARDIAN_FIRMWARE_ERROR_INVALID_PAYLOAD,
              Some (MANIFEST algorithm key_id version_counter major minor patch image_size
                      (man_image_sha256 zero_manifest) 0 (man_signature zero_manifest))) ;;
      (GUARDIAN_FIRMWARE_OK,
       Some (MANIFEST algorithm key_id version_counter major minor patch image_size
               (take GUARDIAN_FIRMWARE_DIGEST_SIZE (drop 20 p)) signature_length
               (blit (man_signature zero_manifest) 0
                  (take (Z.to_nat signature_length) (drop 53 p)))))
  | _, _ => (GUARDIAN_FIRMWARE_ERROR_NULL_ARGUMENT, manifest)
  end.

Definition guardian_firmware_decode_chunk (payload : option (list Z)) (payload_length : Z)
    (chunk : option chunk_t) : result_t * option chunk_t :=
  match payload, chunk with
  | Some p, Some _ =>
      early payload_length <=? GUARDIAN_FIRMWARE_CHUNK_PREFIX_SIZE
        with (GUARDIAN_FIRMWARE_ERROR_INVALID_PAYLOAD, chunk) ;;
      early negb (byte_at p 0 =? GUARDIAN_FIRMWARE_SCHEMA_VERSION)
        with (GUARDIAN_FIRMWARE_ERROR_INVALID_PAYLOAD, chunk) ;;
      let length := guardian_firmware_read_u16_be (drop 5 p) in
      early (length =? 0) || (GUARDIAN_FIRMWARE_CHUNK_MAX_DATA <? length)
        with (GUARDIAN_FIRMWARE_ERROR_INVALID_PAYLOAD, chunk) ;;
      early negb (payload_length =? u16 (GUARDIAN_FIRMWARE_CHUNK_PREFIX_SIZE + length))
        with (GUARDIAN_FIRMWARE_ERROR_INVALID_PAYLOAD, chunk) ;;
      (GUARDIAN_FIRMWARE_OK,
       Some (CHUNK (guardian_firmware_read_u32_be (drop 1 p)) length
               (blit (chunk_data zero_chunk) 0 (take (Z.to_nat length) (drop 7 p)))))
  | _, _ => (GUARDIAN_FIRMWARE_ERROR_NULL_ARGUMENT, chunk)
  end.

Definition guardian_firmware_decode_action (payload : option (list Z)) (payload_length : Z)
  : result_t :=
  match payload with
  | None => GUARDIAN_FIRMWARE_ERROR_NULL_ARGUMENT
  | Some p =>
      early negb (payload_length =? 1) with GUARDIAN_FIRMWARE_ERROR_INVALID_PAYLOAD ;;
      early negb (byte_at p 0 =? GUARDIAN_FIRMWARE_SCHEMA_VERSION)
        with GUARDIAN_FIRMWARE_ERROR_INVALID_PAYLOAD ;;
      GUARDIAN_FIRMWARE_OK
  end.

(** ** The signed transcript *)

Definition guardian_firmware_signed_manifest (manifest : option manifest_t)
    (output : option (list Z)) : result_t * option (list Z) :=
  match manifest, output with
  | Some m, Some out =>
      early negb (guardian_firmware_signature_valid (man_signature_algorithm m)
                    (man_signature_length m))
        with (GUARDIAN_FIRMWARE_ERROR_INVALID_PAYLOAD, output) ;;
      let out := blit out 0 guardian_firmware_signed_domain in
      let out := blit out 12 [GUARDIAN_FIRMWARE_SCHEMA_VERSION] in
      let out := blit out 13 [man_signature_algorithm m] in
      let out := blit out 14 (guardian_firmware_write_u32_be (man_key_id m)) in
      let out := blit out 18 (guardian_firmware_write_u32_be (man_version_counter m)) in
      let out := blit out 22 (guardian_firmware_write_u16_be (man_firmware_major m)) in
      let out := blit out 24 (guardian_firmware_write_u16_be (man_firmware_minor m)) in
      let out := blit out 26 (guardian_firmware_write_u16_be (man_firmware_patch m)) in
      let out := blit out 28 (guardian_firmware_write_u32_be (man_image_size m)) in
      let out := blit out 32 (take GUARDIAN_FIRMWARE_DIGEST_SIZE (man_image_sha256 m)) in
      (GUARDIAN_FIRMWARE_OK, Some out)
  | _, _ => (GUARDIAN_FIRMWARE_ERROR_NULL_ARGUMENT, output)
  end.

Section operations.
Context {C W : Type}.

Local Abbreviation lifecycle_t := (guardian_firmware_lifecycle_t C W).
Local Abbreviation config_t := (guardian_firmware_config_t C W).

(** Assignments to the members of the lifecycle. *)
Definition set_state (st : guardian_firmware_state_t) (f : guardian_firmware_failure_t)
    (l : lifecycle_t) : lifecycle_t :=
  LIFECYCLE (lc_config l) (lc_configured l) st f (lc_manifest l) (lc_bytes_received l).

Definition set_counters (floor active : Z) (l : lifecycle_t) : lifecycle_t :=
  let c := lc_config l in
  LIFECYCLE
    (FIRMWARE_CONFIG (fc_context c) (fc_erase c) (fc_write c) (fc_hash c) (fc_verify_signature c)
       (fc_required_signature_algorithm c) (fc_mark_pending c) (fc_persist_floor c)
       (fc_complete_pending c) (fc_max_image_size c) active floor)
    (lc_configured l) (lc_state l) (lc_failure l) (lc_manifest l) (lc_bytes_received l).

Definition guardian_firmware_fail (lifecycle : option lifecycle_t)
    (failure : guardian_firmware_failure_t) (result : result_t)
  : result_t * option lifecycle_t :=
  match lifecycle with
  | None => (result, None)
  | Some l => (result, Some (set_state GUARDIAN_FIRMWARE_STATE_FAILED failure l))
  end.

Definition guardian_firmware_minimum_counter (l : lifecycle_t) : Z :=
  let minimum := fc_active_version_counter (lc_config l) in
  if minimum <? fc_rollback_floor (lc_config l) then fc_rollback_floor (lc_config l)
  else minimum.

Definition zero_config : config_t :=
  FIRMWARE_CONFIG None None None None None 0 None None None 0 0 0.
Definition zero_lifecycle : lifecycle_t :=
  LIFECYCLE zero_config 0 GUARDIAN_FIRMWARE_STATE_IDLE GUARDIAN_FIRMWARE_FAILURE_NONE
    zero_manifest 0.

Definition guardian_firmware_lifecycle_init (lifecycle : option lifecycle_t)
  : option lifecycle_t :=
  match lifecycle with
  | None => None
  | Some _ =>
      Some (set_state GUARDIAN_FIRMWARE_STATE_IDLE GUARDIAN_FIRMWARE_FAILURE_NONE zero_lifecycle)
  end.

Definition guardian_firmware_lifecycle_configure (lifecycle : option lifecycle_t)
    (config : option config_t) : result_t * option lifecycle_t :=
  match lifecycle, config with
  | Some l, Some c =>
      early is_null (fc_erase c) || is_null (fc_write c) || is_null (fc_hash c)
            || is_null (fc_verify_signature c) || is_null (fc_mark_pending c)
            || is_null (fc_persist_floor c) || is_null (fc_complete_pending c)
            || (fc_max_image_size c =? 0)
        with (GUARDIAN_FIRMWARE_ERROR_UNCONFIGURED, lifecycle) ;;
      early negb (fc_required_signature_algorithm c =? GUARDIAN_FIRMWARE_SIGNATURE_ED25519)
            && negb (fc_required_signature_algorithm c
                       =? GUARDIAN_FIRMWARE_SIGNATURE_DEMO_HMAC_SHA256)
        with (GUARDIAN_FIRMWARE_ERROR_INVALID_PAYLOAD, lifecycle) ;;
      early fc_active_version_counter c <? fc_rollback_floor c
        with (GUARDIAN_FIRMWARE_ERROR_INVALID_PAYLOAD, lifecycle) ;;
      let l := default l (guardian_firmware_lifecycle_init lifecycle) in
      (GUARDIAN_FIRMWARE_OK,
       Some (LIFECYCLE c 1 (lc_state l) (lc_failure l) (lc_manifest l) (lc_bytes_received l)))
  | _, _ => (GUARDIAN_FIRMWARE_ERROR_NULL_ARGUMENT, lifecycle)
  end.

(** ** Transfer *)

Definition guardian_firmware_begin (lifecycle : option lifecycle_t) (manifest : option manifest_t)
    (w : W) : result_t * option lifecycle_t * W :=
  match lifecycle, manifest with
  | Some l, Some m =>
      early lc_configured l =? 0
        with (guardian_firmware_fail lifecycle GUARDIAN_FIRMWARE_FAILURE_UNCONFIGURED
                GUARDIAN_FIRMWARE_ERROR_UNCONFIGURED, w) ;;
      early negb (guardian_firmware_signature_valid (man_signature_algorithm m)
                    (man_signature_length m))
        with (guardian_firmware_fail lifecycle GUARDIAN_FIRMWARE_FAILURE_INVALID_PAYLOAD
                GUARDIAN_FIRMWARE_ERROR_INVALID_PAYLOAD, w) ;;
      early negb (man_signature_algorithm m =? fc_required_signature_algorithm (lc_config l))
        with (guardian_firmware_fail lifecycle GUARDIAN_FIRMWARE_FAILURE_INVALID_PAYLOAD
                GUARDIAN_FIRMWARE_ERROR_INVALID_PAYLOAD, w) ;;
      early (man_image_size m =? 0) || (fc_max_image_size (lc_config l) <? man_image_size m)
        with (guardian_firmware_fail lifecycle GUARDIAN_FIRMWARE_FAILURE_INVALID_PAYLOAD
                GUARDIAN_FIRMWARE_ERROR_INVALID_PAYLOAD, w) ;;
      early man_version_counter m <=? guardian_firmware_minimum_counter l
        with (guardian_firmware_fail lifecycle GUARDIAN_FIRMWARE_FAILURE_ROLLBACK_BLOCKED
                GUARDIAN_FIRMWARE_ERROR_ROLLBACK_BLOCKED, w) ;;
      let '(erased, w) :=
        match fc_erase (lc_config l) with
        | Some erase => erase (fc_context (lc_config l)) (man_image_size m) w
        | None => (0, w)
        end in
      early erased =? 0
        with (guardian_firmware_fail lifecycle GUARDIAN_FIRMWARE_FAILURE_STORAGE
                GUARDIAN_FIRMWARE_ERROR_STORAGE, w) ;;
      (GUARDIAN_FIRMWARE_OK,
       Some (LIFECYCLE (lc_config l) (lc_configured l) GUARDIAN_FIRMWARE_STATE_RECEIVING
               GUARDIAN_FIRMWARE_FAILURE_NONE m 0), w)
  | _, _ => (GUARDIAN_FIRMWARE_ERROR_NULL_ARGUMENT, lifecycle, w)
  end.

Definition guardian_firmware_write_chunk (lifecycle : option lifecycle_t) (chunk : option chunk_t)
    (w : W) : result_t * option lifecycle_t * W :=
  match lifecycle, chunk with
  | Some l, Some c =>
      early negb (bool_decide (lc_state l = GUARDIAN_FIRMWARE_STATE_RECEIVING))
        with (GUARDIAN_FIRMWARE_ERROR_INVALID_STATE, lifecycle, w) ;;
      early (chunk_length c =? 0) || (GUARDIAN_FIRMWARE_CHUNK_MAX_DATA <? chunk_length c)
        with (guardian_firmware_fail lifecycle GUARDIAN_FIRMWARE_FAILURE_INVALID_PAYLOAD
                GUARDIAN_FIRMWARE_ERROR_INVALID_PAYLOAD, w) ;;
      early negb (chunk_offset c =? lc_bytes_received l)
        with (guardian_firmware_fail lifecycle GUARDIAN_FIRMWARE_FAILURE_OUT_OF_ORDER
                GUARDIAN_FIRMWARE_ERROR_OUT_OF_ORDER, w) ;;
      early man_image_size (lc_manifest l) <? u64 (chunk_offset c + chunk_length c)
        with (guardian_firmware_fail lifecycle GUARDIAN_FIRMWARE_FAILURE_INVALID_PAYLOAD
                GUARDIAN_FIRMWARE_ERROR_INVALID_PAYLOAD, w) ;;
      let '(written, w) :=
        match fc_write (lc_config l) with
        | Some write =>
            write (fc_context (lc_config l)) (chunk_offset c) (chunk_data c) (chunk_length c) w
        | None => (0, w)
        end in
      early written =? 0
        with (guardian_firmware_fail lifecycle GUARDIAN_FIRMWARE_FAILURE_STORAGE
                GUARDIAN_FIRMWARE_ERROR_STORAGE, w) ;;
      (GUARDIAN_FIRMWARE_OK,
       Some (LIFECYCLE (lc_config l) (lc_configured l) (lc_state l) (lc_failure l) (lc_manifest l)
               (u32 (lc_bytes_received l + chunk_length c))), w)
  | _, _ => (GUARDIAN_FIRMWARE_ERROR_NULL_ARGUMENT, lifecycle, w)
  end.

(** ** Verification *)

Definition guardian_firmware_finalize (lifecycle : option lifecycle_t) (w : W)
  : result_t * option lifecycle_t * W :=
  match lifecycle with
  | None => (GUARDIAN_FIRMWARE_ERROR_NULL_ARGUMENT, None, w)
  | Some l =>
      let c := lc_config l in
      let m := lc_manifest l in
      early negb (bool_decide (lc_state l = GUARDIAN_FIRMWARE_STATE_RECEIVING))
        with (GUARDIAN_FIRMWARE_ERROR_INVALID_STATE, lifecycle, w) ;;
      early negb (lc_bytes_received l =? man_image_size m)
        with (guardian_firmware_fail lifecycle GUARDIAN_FIRMWARE_FAILURE_INVALID_PAYLOAD
                GUARDIAN_FIRMWARE_ERROR_INVALID_PAYLOAD, w) ;;
      let actual_digest := replicate GUARDIAN_FIRMWARE_DIGEST_SIZE 0 in
      let '(hashed, actual_digest, w) :=
        match fc_hash c with
        | Some hash => hash (fc_context c) (man_image_size m) actual_digest w
        | None => (0, actual_digest, w)
        end in
      early hashed =? 0
        with (guardian_firmware_fail lifecycle GUARDIAN_FIRMWARE_FAILURE_STORAGE
                GUARDIAN_FIRMWARE_ERROR_STORAGE, w) ;;
      early negb (guardian_crypto_constant_time_equal (Some actual_digest)
                    (Some (man_image_sha256 m)) GUARDIAN_FIRMWARE_DIGEST_SIZE)
        with (guardian_firmware_fail lifecycle GUARDIAN_FIRMWARE_FAILURE_HASH_MISMATCH
                GUARDIAN_FIRMWARE_ERROR_HASH_MISMATCH, w) ;;
      let signed_message := replicate GUARDIAN_FIRMWARE_SIGNED_MANIFEST_SIZE 0 in
      let '(signed_result, signed_message) :=
        guardian_firmware_signed_manifest (Some m) (Some signed_message) in
      early negb (bool_decide (signed_result = GUARDIAN_FIRMWARE_OK))
        with (guardian_firmware_fail lifecycle GUARDIAN_FIRMWARE_FAILURE_INVALID_PAYLOAD
                signed_result, w) ;;
      let '(verified, w) :=
        match fc_verify_signature c with
        | Some verify =>
            verify (fc_context c) (man_signature_algorithm m) (man_key_id m)
              (default [] signed_message) GUARDIAN_FIRMWARE_SIGNED_MANIFEST_SIZE
              (man_signature m) (man_signature_length m) w
        | None => (0, w)
        end in
      early verified =? 0
        with (guardian_firmware_fail lifecycle GUARDIAN_FIRMWARE_FAILURE_SIGNATURE_INVALID
                GUARDIAN_FIRMWARE_ERROR_SIGNATURE_INVALID, w) ;;
      early man_version_counter m <=? guardian_firmware_minimum_counter l
        with (guardian_firmware_fail lifecycle GUARDIAN_FIRMWARE_FAILURE_ROLLBACK_BLOCKED
                GUARDIAN_FIRMWARE_ERROR_ROLLBACK_BLOCKED, w) ;;
      (GUARDIAN_FIRMWARE_OK,
       Some (set_state GUARDIAN_FIRMWARE_STATE_VERIFIED GUARDIAN_FIRMWARE_FAILURE_NONE l), w)
  end.

(** ** Activation and the outcome of the boot *)

Definition guardian_firmware_activate (lifecycle : option lifecycle_t) (w : W)
  : result_t * option lifecycle_t * W :=
  match lifecycle with
  | None => (GUARDIAN_FIRMWARE_ERROR_NULL_ARGUMENT, None, w)
  | Some l =>
      let m := lc_manifest l in
      early negb (bool_decide (lc_state l = GUARDIAN_FIRMWARE_STATE_VERIFIED))
        with (GUARDIAN_FIRMWARE_ERROR_INVALID_STATE, lifecycle, w) ;;
      let '(marked, w) :=
        match fc_mark_pending (lc_config l) with
        | Some mark_pending =>
            mark_pending (fc_context (lc_config l)) (man_version_counter m)
              (man_firmware_major m) (man_firmware_minor m) (man_firmware_patch m) w
        | None => (0, w)
        end in
      early marked =? 0
        with (guardian_firmware_fail lifecycle GUARDIAN_FIRMWARE_FAILURE_ACTIVATION
                GUARDIAN_FIRMWARE_ERROR_ACTIVATION, w) ;;
      (GUARDIAN_FIRMWARE_OK,
       Some (set_state GUARDIAN_FIRMWARE_STATE_PENDING_ACTIVATION GUARDIAN_FIRMWARE_FAILURE_NONE l),
       w)
  end.

Definition guardian_firmware_confirm_boot (lifecycle : option lifecycle_t)
    (booted_version_counter : Z) (w : W) : result_t * option lifecycle_t * W :=
  match lifecycle with
  | None => (GUARDIAN_FIRMWARE_ERROR_NULL_ARGUMENT, None, w)
  | Some l =>
      let c := lc_config l in
      early negb (bool_decide (lc_state l = GUARDIAN_FIRMWARE_STATE_PENDING_ACTIVATION))
        with (GUARDIAN_FIRMWARE_ERROR_INVALID_STATE, lifecycle, w) ;;
      early negb (booted_version_counter =? man_version_counter (lc_manifest l))
        with (guardian_firmware_fail lifecycle GUARDIAN_FIRMWARE_FAILURE_CONFIRMATION
                GUARDIAN_FIRMWARE_ERROR_CONFIRMATION, w) ;;
      let '(persisted, w) :=
        match fc_persist_floor c with
        | Some persist_floor => persist_floor (fc_context c) booted_version_counter w
        | None => (0, w)
        end in
      early persisted =? 0
        with (guardian_firmware_fail lifecycle GUARDIAN_FIRMWARE_FAILURE_CONFIRMATION
                GUARDIAN_FIRMWARE_ERROR_CONFIRMATION, w) ;;
      let l := set_counters booted_version_counter booted_version_counter l in
      let '(completed, w) :=
        match fc_complete_pending c with
        | Some complete_pending => complete_pending (fc_context c) booted_version_counter 1 w
        | None => (0, w)
        end in
      early completed =? 0
        with (guardian_firmware_fail (Some l) GUARDIAN_FIRMWARE_FAILURE_CONFIRMATION
                GUARDIAN_FIRMWARE_ERROR_CONFIRMATION, w) ;;
      (GUARDIAN_FIRMWARE_OK,
       Some (set_state GUARDIAN_FIRMWARE_STATE_CONFIRMED GUARDIAN_FIRMWARE_FAILURE_NONE l), w)
  end.

Definition guardian_firmware_report_boot_failure (lifecycle : option lifecycle_t)
    (attempted_version_counter : Z) (w : W) : result_t * option lifecycle_t * W :=
  match lifecycle with
  | None => (GUARDIAN_FIRMWARE_ERROR_NULL_ARGUMENT, None, w)
  | Some l =>
      let c := lc_config l in
      early negb (bool_decide (lc_state l = GUARDIAN_FIRMWARE_STATE_PENDING_ACTIVATION))
        with (GUARDIAN_FIRMWARE_ERROR_INVALID_STATE, lifecycle, w) ;;
      early negb (attempted_version_counter =? man_version_counter (lc_manifest l))
        with (GUARDIAN_FIRMWARE_ERROR_INVALID_PAYLOAD, lifecycle, w) ;;
      let '(completed, w) :=
        match fc_complete_pending c with
        | Some complete_pending => complete_pending (fc_context c) attempted_version_counter 0 w
        | None => (0, w)
        end in
      early completed =? 0
        with (guardian_firmware_fail lifecycle GUARDIAN_FIRMWARE_FAILURE_CONFIRMATION
                GUARDIAN_FIRMWARE_ERROR_CONFIRMATION, w) ;;
      (GUARDIAN_FIRMWARE_OK,
       Some (set_state GUARDIAN_FIRMWARE_STATE_ROLLED_BACK GUARDIAN_FIRMWARE_FAILURE_NONE l), w)
  end.

(** ** Diagnostics *)

Definition guardian_firmware_status (lifecycle : option lifecycle_t)
  : guardian_firmware_status_t :=
  match lifecycle with
  | None => FIRMWARE_STATUS GUARDIAN_FIRMWARE_STATE_IDLE GUARDIAN_FIRMWARE_FAILURE_NONE
              0 0 0 0 0 0 0 0 0 0
  | Some l =>
      let m := lc_manifest l in
      let status algorithm candidate received size key major minor patch :=
        FIRMWARE_STATUS (lc_state l) (lc_failure l) algorithm
          (fc_active_version_counter (lc_config l)) (fc_rollback_floor (lc_config l))
          candidate received size key major minor patch in
      if negb (man_version_counter m =? 0)
      then status (man_signature_algorithm m) (man_version_counter m) (lc_bytes_received l)
             (man_image_size m) (man_key_id m) (man_firmware_major m) (man_firmware_minor m)
             (man_firmware_patch m)
      else status 0 0 0 0 0 0 0 0
  end.
End operations.

Definition guardian_firmware_encode_status_payload (status : option guardian_firmware_status_t)
    (payload : option (list Z)) (payload_capacity : Z) (payload_length : option Z)
  : result_t * option (list Z) * option Z :=
  match status, payload, payload_length with
  | Some st, Some p, Some _ =>
      early payload_capacity <? GUARDIAN_FIRMWARE_STATUS_PAYLOAD_SIZE
        with (GUARDIAN_FIRMWARE_ERROR_OUTPUT_TOO_SMALL, payload, payload_length) ;;
      let p := blit p 0 [GUARDIAN_FIRMWARE_SCHEMA_VERSION] in
      let p := blit p 1 [u8 (firmware_state_value (fs_state st))] in
      let p := blit p 2 [u8 (firmware_failure_value (fs_failure st))] in
      let p := blit p 3 [u8 (fs_signature_algorithm st)] in
      let p := blit p 4 (guardian_firmware_write_u32_be (fs_active_version_counter st)) in
      let p := blit p 8 (guardian_firmware_write_u32_be (fs_rollback_floor st)) in
      let p := blit p 12 (guardian_firmware_write_u32_be (fs_candidate_version_counter st)) in
      let p := blit p 16 (guardian_firmware_write_u32_be (fs_bytes_received st)) in
      let p := blit p 20 (guardian_firmware_write_u32_be (fs_image_size st)) in
      let p := blit p 24 (guardian_firmware_write_u32_be (fs_key_id st)) in
      let p := blit p 28 (guardian_firmware_write_u16_be (fs_firmware_major st)) in
      let p := blit p 30 (guardian_firmware_write_u16_be (fs_firmware_minor st)) in
      let p := blit p 32 (guardian_firmware_write_u16_be (fs_firmware_patch st)) in
      (GUARDIAN_FIRMWARE_OK, Some p, Some GUARDIAN_FIRMWARE_STATUS_PAYLOAD_SIZE)
  | _, _, _ => (GUARDIAN_FIRMWARE_ERROR_NULL_ARGUMENT, payload, payload_length)
  end.
