(* ===== verification/LifecycleSafety.v ===== *)
(** * Firmware lifecycle: what an update promises

    What the operations of [Lifecycle] do over a platform that obeys
    [StagingLaws]: the image that is verified and activated is the image that was
    transferred, hashed and signed; version counters only go up; a transfer on a
    working platform completes.  The laws state what the staging storage is; the
    signature verifier is any callback. *)

From S2P Require Import Prelude Crypto Lifecycle.
From Stdlib Require Import Sorted.

Local Abbreviation manifest_t := guardian_firmware_manifest_t.
Local Abbreviation chunk_t := guardian_firmware_chunk_t.
Local Abbreviation FW_OK := GUARDIAN_FIRMWARE_OK.
Local Abbreviation RECEIVING := GUARDIAN_FIRMWARE_STATE_RECEIVING.
Local Abbreviation VERIFIED := GUARDIAN_FIRMWARE_STATE_VERIFIED.
Local Abbreviation PENDING_ACTIVATION := GUARDIAN_FIRMWARE_STATE_PENDING_ACTIVATION.
Local Abbreviation FAILED := GUARDIAN_FIRMWARE_STATE_FAILED.

(** ** The signed transcript *)

Definition manifest_transcript (m : manifest_t) : list Z :=
  guardian_firmware_signed_domain
  ++ [GUARDIAN_FIRMWARE_SCHEMA_VERSION; man_signature_algorithm m]
  ++ put_u32_be (man_key_id m) ++ put_u32_be (man_version_counter m)
  ++ put_u16_be (man_firmware_major m) ++ put_u16_be (man_firmware_minor m)
  ++ put_u16_be (man_firmware_patch m) ++ put_u32_be (man_image_size m) ++ man_image_sha256 m.

(** A manifest object: fields of their C types. *)
Record manifest_object (m : manifest_t) : Prop := {
  mo_key_id : is_u32 (man_key_id m);
  mo_version : is_u32 (man_version_counter m);
  mo_major : is_u16 (man_firmware_major m);
  mo_minor : is_u16 (man_firmware_minor m);
  mo_patch : is_u16 (man_firmware_patch m);
  mo_size : is_u32 (man_image_size m);
  mo_digest : length (man_image_sha256 m) = 32%nat;
  mo_digest_bytes : bytes (man_image_sha256 m)
}.

Lemma signed_manifest_spec m out :
  length (man_image_sha256 m) = 32%nat -> length out = 64%nat ->
  guardian_firmware_signature_valid (man_signature_algorithm m) (man_signature_length m) = true ->
  guardian_firmware_signed_manifest (Some m) (Some out) = (FW_OK, Some (manifest_transcript m)).
Proof.
  intros Hd Ho Hv. unfold guardian_firmware_signed_manifest. rewrite Hv. cbn [negb]. cbv zeta.
  rewrite (take_ge (man_image_sha256 m)) by (rewrite Hd; done).
  do 64 (destruct out as [|? out]; [discriminate Ho|]).
  destruct out; [|discriminate Ho]. clear Ho.
  rewrite !(blit_blit_adjacent (_ :: _))
    by (rewrite ?length_app, ?put_u32_be_length, ?put_u16_be_length; cbn [length]; (reflexivity || lia)).
  rewrite blit_exact; [by rewrite <- !app_assoc|].
  rewrite ?length_app, ?put_u32_be_length, ?put_u16_be_length, Hd. reflexivity.
Qed.

Lemma manifest_transcript_inj m n :
  manifest_object m -> manifest_object n -> manifest_transcript m = manifest_transcript n ->
  man_signature_algorithm m = man_signature_algorithm n /\ man_key_id m = man_key_id n /\
  man_version_counter m = man_version_counter n /\ man_firmware_major m = man_firmware_major n /\
  man_firmware_minor m = man_firmware_minor n /\ man_firmware_patch m = man_firmware_patch n /\
  man_image_size m = man_image_size n /\ man_image_sha256 m = man_image_sha256 n.
Proof.
  intros [] [] H. unfold manifest_transcript in H.
  do 8 (apply app_inj_1 in H; [|done]; let E := fresh "E" in destruct H as [E H]).
  injection E0 as ->. apply put_u32_be_inj in E1, E2, E6; try done.
  by apply put_u16_be_inj in E3, E4, E5.
Qed.

(** ** The platform *)

Section platform.
Context {C W : Type} (context : option C).
Context (erase : guardian_firmware_erase_fn C W) (write : guardian_firmware_write_fn C W)
  (hash : guardian_firmware_hash_fn C W) (verify : guardian_firmware_verify_signature_fn C W)
  (mark_pending : guardian_firmware_mark_pending_fn C W)
  (persist_floor : guardian_firmware_persist_floor_fn C W)
  (complete_pending : guardian_firmware_complete_pending_fn C W).

(** What the staging storage is: an area of bytes with room for the announced image
    after an erase, in which a successful write stores its bytes, whose content a
    successful hash digests, and which no other callback changes. *)
Class StagingLaws := {
  area : W -> list Z;
  law_erase n w r w' : erase context n w = (r, w') -> r <> 0 ->
    (Z.to_nat n <= length (area w'))%nat;
  law_write off data len w r w' : write context off data len w = (r, w') -> r <> 0 ->
    (Z.to_nat off + Z.to_nat len <= length (area w))%nat ->
    area w' = blit (area w) (Z.to_nat off) (take (Z.to_nat len) data);
  law_hash n d w r d' w' : hash context n d w = (r, d', w') -> r <> 0 ->
    (Z.to_nat n <= length (area w))%nat ->
    d' = sha256_spec (take (Z.to_nat n) (area w)) /\ area w' = area w;
  law_verify a k msg n sig sl w : area (verify context a k msg n sig sl w).2 = area w;
  law_mark v x y z w : area (mark_pending context v x y z w).2 = area w;
  law_floor v w : area (persist_floor context v w).2 = area w;
  law_complete v b w : area (complete_pending context v b w).2 = area w
}.

Context {Laws : StagingLaws}.

Local Abbreviation lifecycle_t := (guardian_firmware_lifecycle_t C W).
Implicit Types (l : lifecycle_t) (w : W).

(** The configuration of a device over this platform. *)
Definition platform_config (algorithm max_image_size active floor : Z)
  : guardian_firmware_config_t C W :=
  FIRMWARE_CONFIG context (Some erase) (Some write) (Some hash) (Some verify) algorithm
    (Some mark_pending) (Some persist_floor) (Some complete_pending) max_image_size active floor.

(** The verifier has accepted the manifest's signature over its transcript. *)
Definition signature_accepted (m : manifest_t) : Prop :=
  exists w, (verify context (man_signature_algorithm m) (man_key_id m) (manifest_transcript m) 64%nat
    (man_signature m) (man_signature_length m) w).1 <> 0.

Definition in_flight (st : guardian_firmware_state_t) : Prop :=
  st = RECEIVING \/ st = VERIFIED \/ st = PENDING_ACTIVATION.
Definition proved (st : guardian_firmware_state_t) : Prop :=
  st = VERIFIED \/ st = PENDING_ACTIVATION.

Record base_ok l : Prop := {
  bo_config : lc_config l = platform_config (fc_required_signature_algorithm (lc_config l))
    (fc_max_image_size (lc_config l)) (fc_active_version_counter (lc_config l))
    (fc_rollback_floor (lc_config l));
  bo_configured : lc_configured l = 1;
  bo_floor : fc_rollback_floor (lc_config l) <= fc_active_version_counter (lc_config l)
}.

(** [image] is what was transferred since the last accepted BEGIN. *)
Record candidate_ok l (image : list Z) w : Prop := {
  cd_manifest : manifest_object (lc_manifest l);
  cd_signature : guardian_firmware_signature_valid (man_signature_algorithm (lc_manifest l))
    (man_signature_length (lc_manifest l)) = true;
  cd_algorithm : man_signature_algorithm (lc_manifest l)
    = fc_required_signature_algorithm (lc_config l);
  cd_version : fc_active_version_counter (lc_config l) < man_version_counter (lc_manifest l);
  cd_received : lc_bytes_received l = Z.of_nat (length image);
  cd_fits : Z.of_nat (length image) <= man_image_size (lc_manifest l);
  cd_room : (Z.to_nat (man_image_size (lc_manifest l)) <= length (area w))%nat;
  cd_staged : take (length image) (area w) = image
}.

Record authentic l (image : list Z) : Prop := {
  au_size : Z.of_nat (length image) = man_image_size (lc_manifest l);
  au_digest : sha256_spec image = man_image_sha256 (lc_manifest l);
  au_signature : signature_accepted (lc_manifest l)
}.

Record lifecycle_ok l (image : list Z) w : Prop := {
  lo_base : base_ok l;
  lo_candidate : in_flight (lc_state l) -> candidate_ok l image w;
  lo_authentic : proved (lc_state l) -> authentic l image
}.

Lemma minimum_counter_spec l :
  base_ok l -> guardian_firmware_minimum_counter l = fc_active_version_counter (lc_config l).
Proof.
  intros [_ _ Hf]. unfold guardian_firmware_minimum_counter. cbv zeta.
  by destruct (Z.ltb_spec (fc_active_version_counter (lc_config l)) (fc_rollback_floor (lc_config l)));
    [lia|].
Qed.

Lemma settled_ok l image w :
  base_ok l -> ~ in_flight (lc_state l) -> lifecycle_ok l image w.
Proof.
  intros Hb Hn. split; [done|done|]. intros [H|H]; destruct Hn; [right; left|right; right]; done.
Qed.

Lemma set_state_base st f l : base_ok l -> base_ok (set_state st f l).
Proof. intros [H1 H2 H3]. by split. Qed.

(** A failure is recorded and nothing is in flight. *)
Lemma failed_ok l image w f r :
  base_ok l -> let '(r', l') := guardian_firmware_fail (Some l) f r in
  r' = r /\ exists x, l' = Some x /\ lifecycle_ok x image w /\ lc_state x = FAILED /\
    lc_config x = lc_config l.
Proof.
  intros Hb. split; [done|]. eexists. split; [reflexivity|].
  split; [|done]. apply settled_ok; [by apply set_state_base|].
  by intros [H|[H|H]].
Qed.

(** ** The operations *)

Inductive firmware_op :=
  | OpBegin (m : manifest_t)
  | OpChunk (c : chunk_t)
  | OpFinalize
  | OpActivate
  | OpConfirm (version : Z)
  | OpBootFailure (version : Z).

Record chunk_object (c : chunk_t) : Prop := {
  ch_offset : is_u32 (chunk_offset c);
  ch_length : is_u16 (chunk_length c);
  ch_data : length (chunk_data c) = 192%nat
}.

Definition firmware_op_typed (o : firmware_op) : Prop :=
  match o with OpBegin m => manifest_object m | OpChunk c => chunk_object c | _ => True end.

Definition perform_firmware (o : firmware_op) l w
  : guardian_firmware_result_t * option lifecycle_t * W :=
  match o with
  | OpBegin m => guardian_firmware_begin (Some l) (Some m) w
  | OpChunk c => guardian_firmware_write_chunk (Some l) (Some c) w
  | OpFinalize => guardian_firmware_finalize (Some l) w
  | OpActivate => guardian_firmware_activate (Some l) w
  | OpConfirm v => guardian_firmware_confirm_boot (Some l) v w
  | OpBootFailure v => guardian_firmware_report_boot_failure (Some l) v w
  end.

(** The image transferred so far. *)
Definition image_after (o : firmware_op) (r : guardian_firmware_result_t) (image : list Z)
  : list Z :=
  match o with
  | OpBegin _ => if decide (r = FW_OK) then [] else image
  | OpChunk c => if decide (r = FW_OK)
                 then image ++ take (Z.to_nat (chunk_length c)) (chunk_data c) else image
  | _ => image
  end.

(** What an operation may do to the counters. *)
Definition advances_counters (o : firmware_op) (r : guardian_firmware_result_t) l l' : Prop :=
  lc_config l' = lc_config l /\ (r = FW_OK -> forall v, o <> OpConfirm v) \/
  exists v, o = OpConfirm v /\ lc_state l = PENDING_ACTIVATION /\
    v = man_version_counter (lc_manifest l) /\
    fc_active_version_counter (lc_config l') = v /\ fc_rollback_floor (lc_config l') = v.

Definition op_outcome (o : firmware_op) l (image : list Z)
    (x : guardian_firmware_result_t * option lifecycle_t * W) : Prop :=
  let '(r, l', w') := x in
  exists l1, l' = Some l1 /\ lifecycle_ok l1 (image_after o r image) w' /\
    advances_counters o r l l1.

Lemma fail_outcome o l image f r w :
  base_ok l -> r <> FW_OK ->
  op_outcome o l image (guardian_firmware_fail (Some l) f r, w).
Proof.
  intros Hb Hr. unfold op_outcome.
  pose proof (failed_ok l image w f r Hb) as Hf.
  destruct (guardian_firmware_fail (Some l) f r) as [r' l'].
  destruct Hf as [-> (x & -> & Hx & _ & Hc)]. exists x. split; [done|].
  split; [|by left; split]. unfold image_after.
  destruct o; try done; by rewrite decide_False.
Qed.

Lemma unchanged_outcome o l image r w :
  lifecycle_ok l image w -> r <> FW_OK -> op_outcome o l image (r, Some l, w).
Proof.
  intros Hl Hr. exists l. split; [done|]. split; [|by left; split].
  unfold image_after. destruct o; try done; by rewrite decide_False.
Qed.

Lemma firmware_begin_step m l image w :
  lifecycle_ok l image w -> manifest_object m ->
  op_outcome (OpBegin m) l image (perform_firmware (OpBegin m) l w).
Proof.
  intros Hl Hm. pose proof (lo_base _ _ _ Hl) as Hb. pose proof Hb as [Hc Hcf Hfl].
  cbn [perform_firmware]. unfold guardian_firmware_begin.
  rewrite Hcf. cbn [Z.eqb].
  destruct (guardian_firmware_signature_valid _ _) eqn:E1; cbn [negb]; [|by apply fail_outcome].
  destruct (Z.eqb_spec (man_signature_algorithm m) (fc_required_signature_algorithm (lc_config l)))
    as [E2|E2]; cbn [negb]; [|by apply fail_outcome].
  destruct ((man_image_size m =? 0) || _) eqn:E3; [by apply fail_outcome|].
  rewrite minimum_counter_spec by done.
  destruct (Z.leb_spec (man_version_counter m) (fc_active_version_counter (lc_config l))) as [E4|E4];
    [by apply fail_outcome|].
  rewrite Hc. cbn [fc_erase fc_context platform_config].
  destruct (erase context (man_image_size m) w) as [er w'] eqn:Ee.
  destruct (Z.eqb_spec er 0) as [E5|E5]; [by apply fail_outcome|].
  pose proof (law_erase _ _ _ _ Ee E5) as Hroom.
  rewrite <- Hc. eexists. split; [reflexivity|].
  cbn [image_after]. rewrite decide_True by done. split; [|by left; split].
  split.
  - by split.
  - intros _. pose proof (mo_size _ Hm) as Hs. unfold is_u32 in Hs. by split; cbn; try lia.
  - cbn. by intros [H|H].
Qed.

Lemma chunk_step c l image w :
  lifecycle_ok l image w -> chunk_object c ->
  op_outcome (OpChunk c) l image (perform_firmware (OpChunk c) l w).
Proof.
  intros Hl Hc. pose proof (lo_base _ _ _ Hl) as Hb. pose proof Hb as [Hcf _ _].
  cbn [perform_firmware]. unfold guardian_firmware_write_chunk.
  destruct (bool_decide_reflect (lc_state l = RECEIVING)) as [Es|Es]; cbn [negb];
    [|by apply unchanged_outcome].
  pose proof (lo_candidate _ _ _ Hl (or_introl Es)) as [K1 K2 K3 K4 K5 K6 K7 K8].
  destruct Hc as [Ho Hn Hd]. unfold is_u32, is_u16 in *.
  destruct ((chunk_length c =? 0) || (GUARDIAN_FIRMWARE_CHUNK_MAX_DATA <? chunk_length c)) eqn:E1;
    [by apply fail_outcome|].
  unfold GUARDIAN_FIRMWARE_CHUNK_MAX_DATA in E1.
  destruct (Z.eqb_spec (chunk_offset c) (lc_bytes_received l)) as [E2|E2]; cbn [negb];
    [|by apply fail_outcome].
  pose proof (mo_size _ K1) as Hs. unfold is_u32 in Hs.
  unfold u64. rewrite Z.mod_small by lia.
  destruct (Z.ltb_spec (man_image_size (lc_manifest l)) (chunk_offset c + chunk_length c)) as [E3|E3];
    [by apply fail_outcome|].
  rewrite Hcf. cbn [fc_write fc_context platform_config]. rewrite <- Hcf.
  destruct (write context (chunk_offset c) (chunk_data c) (chunk_length c) w) as [wr w'] eqn:Ew.
  destruct (Z.eqb_spec wr 0) as [E4|E4]; [by apply fail_outcome|].
  pose proof (law_write _ _ _ _ _ _ Ew E4 ltac:(lia)) as Harea.
  eexists. split; [reflexivity|]. cbn [image_after]. rewrite decide_True by done.
  split; [|by left; split]. set (data := take (Z.to_nat (chunk_length c)) (chunk_data c)) in *.
  assert (Hdl : length data = Z.to_nat (chunk_length c)) by (apply length_take_le; lia).
  split.
  - destruct Hb. by split.
  - intros _. split; cbn [lc_manifest lc_config lc_bytes_received]; try done.
    + rewrite u32_id by (unfold is_u32; lia). rewrite length_app. lia.
    + rewrite length_app. lia.
    + rewrite Harea, blit_length; lia.
    + rewrite Harea, E2, K5, Nat2Z.id, length_app.
      rewrite blit_take by lia. by rewrite K8.
  - cbn [lc_state]. rewrite Es. by intros [H|H].
Qed.

Lemma digest_equal d m :
  length d = 32%nat -> bytes d -> manifest_object m ->
  guardian_crypto_constant_time_equal (Some d) (Some (man_image_sha256 m)) 32 = true ->
  d = man_image_sha256 m.
Proof.
  intros Hd Hb [_ _ _ _ _ _ Hm Hmb] H.
  apply guardian_crypto_constant_time_equal_spec in H; [|done|done|lia|lia|lia].
  by rewrite !take_ge in H by lia.
Qed.

Lemma finalize_step l image w :
  lifecycle_ok l image w -> op_outcome OpFinalize l image (perform_firmware OpFinalize l w).
Proof.
  intros Hl. pose proof (lo_base _ _ _ Hl) as Hb. pose proof Hb as [Hcf _ _].
  cbn [perform_firmware]. unfold guardian_firmware_finalize. cbv zeta.
  destruct (bool_decide_reflect (lc_state l = RECEIVING)) as [Es|Es]; cbn [negb];
    [|by apply unchanged_outcome].
  pose proof (lo_candidate _ _ _ Hl (or_introl Es)) as [K1 K2 K3 K4 K5 K6 K7 K8].
  destruct (Z.eqb_spec (lc_bytes_received l) (man_image_size (lc_manifest l))) as [E1|E1]; cbn [negb];
    [|by apply fail_outcome].
  rewrite minimum_counter_spec by done.
  rewrite Hcf. cbn [fc_hash fc_context fc_verify_signature platform_config
    fc_active_version_counter].
  unfold GUARDIAN_FIRMWARE_DIGEST_SIZE, GUARDIAN_SHA256_SIZE.
  destruct (hash context _ _ w) as [[h d] w1] eqn:Eh.
  destruct (Z.eqb_spec h 0) as [E2|E2]; [by apply fail_outcome|].
  destruct (law_hash _ _ _ _ _ _ Eh E2 K7) as [Hd Ha].
  assert (Himg : take (Z.to_nat (man_image_size (lc_manifest l))) (area w) = image).
  { rewrite <- E1, K5, Nat2Z.id. exact K8. }
  rewrite Himg in Hd. subst d.
  destruct (guardian_crypto_constant_time_equal _ _ _) eqn:E3; cbn [negb]; [|by apply fail_outcome].
  apply digest_equal in E3; [|apply sha256_spec_length|apply sha256_spec_bytes|done].
  rewrite signed_manifest_spec by (first [exact (mo_digest _ K1) | exact K2 | reflexivity]).
  rewrite bool_decide_true by done. cbn [negb from_option id].
  unfold GUARDIAN_FIRMWARE_SIGNED_MANIFEST_SIZE.
  pose proof (law_verify (man_signature_algorithm (lc_manifest l)) (man_key_id (lc_manifest l))
    (manifest_transcript (lc_manifest l)) 64 (man_signature (lc_manifest l))
    (man_signature_length (lc_manifest l)) w1) as Hav.
  destruct (verify context _ _ _ _ _ _ w1) as [v w2] eqn:Ev. cbn [snd] in Hav.
  destruct (Z.eqb_spec v 0) as [E4|E4]; [by apply fail_outcome|].
  destruct (Z.leb_spec (man_version_counter (lc_manifest l))
    (fc_active_version_counter (lc_config l))) as [E5|E5]; [lia|].
  eexists. split; [reflexivity|]. split; [|by left; split]. cbn [image_after]. split.
  - by apply set_state_base.
  - intros _. split; cbn [set_state lc_manifest lc_config lc_bytes_received]; try done;
      rewrite Hav, Ha; done.
  - intros _. split; cbn [set_state lc_manifest]; [lia|done|]. exists w1. by rewrite Ev.
Qed.

Lemma moved_ok l image w w' st f :
  lifecycle_ok l image w -> in_flight (lc_state l) -> (proved st -> proved (lc_state l)) ->
  area w' = area w -> lifecycle_ok (set_state st f l) image w'.
Proof.
  intros Hl Hi Hp Ha. destruct (lo_candidate _ _ _ Hl Hi) as [K1 K2 K3 K4 K5 K6 K7 K8]. split.
  - apply set_state_base, Hl.
  - intros _. split; cbn [set_state lc_manifest lc_config lc_bytes_received]; try done; by rewrite Ha.
  - intros Hst. destruct (lo_authentic _ _ _ Hl (Hp Hst)) as [A1 A2 A3]. by split.
Qed.

Lemma activate_step l image w :
  lifecycle_ok l image w -> op_outcome OpActivate l image (perform_firmware OpActivate l w).
Proof.
  intros Hl. pose proof (lo_base _ _ _ Hl) as Hb. pose proof Hb as [Hcf _ _].
  cbn [perform_firmware]. unfold guardian_firmware_activate. cbv zeta.
  destruct (bool_decide_reflect (lc_state l = VERIFIED)) as [Es|Es]; cbn [negb];
    [|by apply unchanged_outcome].
  rewrite Hcf. cbn [fc_mark_pending fc_context platform_config].
  pose proof (law_mark (man_version_counter (lc_manifest l)) (man_firmware_major (lc_manifest l))
    (man_firmware_minor (lc_manifest l)) (man_firmware_patch (lc_manifest l)) w) as Ha.
  destruct (mark_pending context _ _ _ _ w) as [mk w']. cbn [snd] in Ha.
  destruct (Z.eqb_spec mk 0) as [E|E]; [by apply fail_outcome|].
  eexists. split; [reflexivity|]. split; [|by left; split].
  apply (moved_ok _ _ w); [done|by right; left|intros _; by left|done].
Qed.

Lemma confirm_step v l image w :
  lifecycle_ok l image w ->
  op_outcome (OpConfirm v) l image (perform_firmware (OpConfirm v) l w).
Proof.
  intros Hl. pose proof (lo_base _ _ _ Hl) as Hb. pose proof Hb as [Hcf H1 H2].
  cbn [perform_firmware]. unfold guardian_firmware_confirm_boot. cbv zeta.
  destruct (bool_decide_reflect (lc_state l = PENDING_ACTIVATION)) as [Es|Es]; cbn [negb];
    [|by apply unchanged_outcome].
  destruct (Z.eqb_spec v (man_version_counter (lc_manifest l))) as [E1|E1]; cbn [negb];
    [|by apply fail_outcome].
  rewrite Hcf. cbn [fc_persist_floor fc_complete_pending fc_context platform_config].
  destruct (persist_floor context v w) as [pf w1].
  destruct (Z.eqb_spec pf 0) as [E2|E2]; [by apply fail_outcome|].
  destruct (complete_pending context v 1 w1) as [cp w2].
  assert (Hb' : base_ok (set_counters v v l)).
  { split; cbn; [|done|lia]. by rewrite Hcf. }
  assert (Hadv : forall st f r, advances_counters (OpConfirm v) r l (set_state st f (set_counters v v l))).
  { intros st f r. right. exists v. by split_and!. }
  destruct (Z.eqb_spec cp 0) as [E3|E3]; (eexists; split; [reflexivity|]; split; [|apply Hadv]);
    (apply settled_ok; [by apply set_state_base|by intros [?|[?|?]]]).
Qed.

Lemma boot_failure_step v l image w :
  lifecycle_ok l image w ->
  op_outcome (OpBootFailure v) l image (perform_firmware (OpBootFailure v) l w).
Proof.
  intros Hl. pose proof (lo_base _ _ _ Hl) as Hb. pose proof Hb as [Hcf _ _].
  cbn [perform_firmware]. unfold guardian_firmware_report_boot_failure. cbv zeta.
  destruct (bool_decide_reflect (lc_state l = PENDING_ACTIVATION)) as [Es|Es]; cbn [negb];
    [|by apply unchanged_outcome].
  destruct (Z.eqb_spec v (man_version_counter (lc_manifest l))) as [E1|E1]; cbn [negb];
    [|by apply unchanged_outcome].
  rewrite Hcf. cbn [fc_complete_pending fc_context platform_config].
  destruct (complete_pending context v 0 w) as [cp w'].
  destruct (Z.eqb_spec cp 0) as [E3|E3]; [by apply fail_outcome|].
  eexists. split; [reflexivity|]. split; [|by left; split].
  apply settled_ok; [by apply set_state_base|by intros [?|[?|?]]].
Qed.

Lemma firmware_step o l image w :
  lifecycle_ok l image w -> firmware_op_typed o -> op_outcome o l image (perform_firmware o l w).
Proof.
  intros Hl Ho. destruct o;
    [by apply firmware_begin_step|by apply chunk_step|by apply finalize_step|by apply activate_step
    |by apply confirm_step|by apply boot_failure_step].
Qed.

(** ** Runs *)

(** The lifecycle, the world, the image transferred last, the versions confirmed. *)
Fixpoint run_firmware (os : list firmware_op) l w (image confirmed : list Z)
  : lifecycle_t * W * list Z * list Z :=
  match os with
  | [] => (l, w, image, confirmed)
  | o :: os =>
      let '(r, l', w') := perform_firmware o l w in
      run_firmware os (default l l') w' (image_after o r image)
        (match o with
         | OpConfirm v => if decide (r = FW_OK) then confirmed ++ [v] else confirmed
         | _ => confirmed
         end)
  end.

(** The versions confirmed so far increase up to the active one. *)
Definition confirmed_ok (active0 : Z) l (confirmed : list Z) : Prop :=
  StronglySorted Z.lt (active0 :: confirmed) /\
  Forall (fun v => v <= fc_active_version_counter (lc_config l)) (active0 :: confirmed).

Lemma confirmed_step active0 o r l l' image w confirmed :
  lifecycle_ok l image w -> advances_counters o r l l' -> confirmed_ok active0 l confirmed ->
  confirmed_ok active0 l'
    (match o with
     | OpConfirm v => if decide (r = FW_OK) then confirmed ++ [v] else confirmed
     | _ => confirmed
     end).
Proof.
  intros Hl Ha [Hs Hf]. unfold confirmed_ok.
  destruct Ha as [[Hc Hn]|(v & -> & Hst & Hv & Hact & _)].
  - rewrite Hc. destruct o; try done. destruct (decide (r = FW_OK)) as [Hr|]; [|done].
    by destruct (Hn Hr version).
  - pose proof (cd_version _ _ _ (lo_candidate _ _ _ Hl (or_intror (or_intror Hst)))) as Hlt.
    rewrite <- Hv in Hlt. rewrite Hact.
    assert (Hall : Forall (fun x => x < v) (active0 :: confirmed)).
    { eapply Forall_impl; [exact Hf|]. cbv beta. intros x Hx. lia. }
    assert (Hle : Forall (fun x => x <= v) (active0 :: confirmed)).
    { eapply Forall_impl; [exact Hall|]. cbv beta. intros x Hx. lia. }
    destruct (decide (r = FW_OK)); [|by split]. split.
    + by apply (sorted_snoc Z.lt (active0 :: confirmed)).
    + change (active0 :: confirmed ++ [v]) with ((active0 :: confirmed) ++ [v]).
      apply Forall_app. split; [done|]. constructor; [lia|constructor].
Qed.

Lemma run_firmware_ok active0 os l w image confirmed :
  lifecycle_ok l image w -> Forall firmware_op_typed os -> confirmed_ok active0 l confirmed ->
  let '(l', w', image', confirmed') := run_firmware os l w image confirmed in
  lifecycle_ok l' image' w' /\ confirmed_ok active0 l' confirmed'.
Proof.
  intros Hl Hos. revert l w image confirmed Hl.
  induction Hos as [|o os Ho _ IH]; intros l w image confirmed Hl Hc; [by split|].
  cbn [run_firmware]. pose proof (firmware_step o l image w Hl Ho) as Hstep.
  destruct (perform_firmware o l w) as [[r l'] w']. destruct Hstep as (l1 & -> & H1 & H2).
  cbn [from_option id]. apply IH; [exact H1|]. exact (confirmed_step active0 o r l l1 image w confirmed Hl H2 Hc).
Qed.

(** A freshly configured device. *)
Definition configured_lifecycle (algorithm max_image_size active floor : Z) : lifecycle_t :=
  default zero_lifecycle (guardian_firmware_lifecycle_configure (Some zero_lifecycle)
    (Some (platform_config algorithm max_image_size active floor))).2.

(** The parameters [configure] accepts. *)
Definition configurable (algorithm max_image_size active floor : Z) : Prop :=
  (algorithm = GUARDIAN_FIRMWARE_SIGNATURE_ED25519 \/
   algorithm = GUARDIAN_FIRMWARE_SIGNATURE_DEMO_HMAC_SHA256) /\
  max_image_size <> 0 /\ floor <= active.

Lemma configured_eq algorithm max_image_size active floor :
  configurable algorithm max_image_size active floor ->
  configured_lifecycle algorithm max_image_size active floor
  = LIFECYCLE (platform_config algorithm max_image_size active floor) 1
      GUARDIAN_FIRMWARE_STATE_IDLE GUARDIAN_FIRMWARE_FAILURE_NONE zero_manifest 0.
Proof.
  intros (Ha & Hm & Hf). unfold configured_lifecycle, guardian_firmware_lifecycle_configure.
  cbn [platform_config fc_erase fc_write fc_hash fc_verify_signature fc_mark_pending
    fc_persist_floor fc_complete_pending fc_max_image_size fc_required_signature_algorithm
    fc_active_version_counter fc_rollback_floor is_null orb].
  destruct (Z.eqb_spec max_image_size 0); [done|].
  destruct (Z.ltb_spec active floor); [lia|].
  destruct Ha as [-> | ->]; reflexivity.
Qed.

Lemma configured_ok algorithm max_image_size active floor w :
  configurable algorithm max_image_size active floor ->
  lifecycle_ok (configured_lifecycle algorithm max_image_size active floor) [] w /\
  confirmed_ok active (configured_lifecycle algorithm max_image_size active floor) [].
Proof.
  intros Hc. rewrite configured_eq by done. split.
  - apply settled_ok; [|by intros [?|[?|?]]]. destruct Hc as (_ & _ & ?). by split.
  - split; [repeat constructor|]. constructor; [cbn; lia|constructor].
Qed.

(** ** An update on a working platform *)

Record working : Prop := {
  wk_erase n w : (erase context n w).1 <> 0;
  wk_write off d n w : (write context off d n w).1 <> 0;
  wk_hash n d w : (hash context n d w).1.1 <> 0;
  wk_mark v x y z w : (mark_pending context v x y z w).1 <> 0;
  wk_floor v w : (persist_floor context v w).1 <> 0;
  wk_complete v b w : (complete_pending context v b w).1 <> 0
}.

(** The chunks of an image cut into pieces, from an offset on. *)
Fixpoint chunks_of (off : Z) (pieces : list (list Z)) : list firmware_op :=
  match pieces with
  | [] => []
  | d :: pieces =>
      OpChunk (CHUNK off (Z.of_nat (length d)) (d ++ replicate (192 - length d) 0))
      :: chunks_of (off + Z.of_nat (length d)) pieces
  end.

(** The operations in turn, as long as each answers OK. *)
Fixpoint run_ok (os : list firmware_op) l w : option (lifecycle_t * W) :=
  match os with
  | [] => Some (l, w)
  | o :: os =>
      match perform_firmware o l w with
      | (GUARDIAN_FIRMWARE_OK, Some l', w') => run_ok os l' w'
      | _ => None
      end
  end.

(** A transfer of [m] that has received [image]. *)
Record receiving l m (image : list Z) w : Prop := {
  rc_ok : lifecycle_ok l image w;
  rc_state : lc_state l = RECEIVING;
  rc_manifest : lc_manifest l = m
}.

Lemma step_result o l image w r l' w' :
  lifecycle_ok l image w -> firmware_op_typed o -> perform_firmware o l w = (r, Some l', w') ->
  lifecycle_ok l' (image_after o r image) w'.
Proof.
  intros Hl Ho H. pose proof (firmware_step o l image w Hl Ho) as Hs. rewrite H in Hs.
  by destruct Hs as (l1 & [= <-] & ? & _).
Qed.

Lemma chunk_accepts l m image w d :
  working -> receiving l m image w -> (1 <= length d <= 192)%nat ->
  Z.of_nat (length image + length d) <= man_image_size m ->
  exists l' w',
  perform_firmware (OpChunk (CHUNK (Z.of_nat (length image)) (Z.of_nat (length d))
    (d ++ replicate (192 - length d) 0))) l w = (FW_OK, Some l', w') /\
  receiving l' m (image ++ d) w'.
Proof.
  intros Hw [Hl Hs Hm] Hd Hfit.
  set (c := CHUNK _ _ _).
  pose proof (lo_base _ _ _ Hl) as [Hcf _ _].
  destruct (lo_candidate _ _ _ Hl (or_introl Hs)) as [K1 _ _ _ K5 _ K7 _].
  pose proof (mo_size _ K1) as Hsz. unfold is_u32 in Hsz. rewrite Hm in Hsz.
  destruct (write context (chunk_offset c) (chunk_data c) (chunk_length c) w) as [wr w'] eqn:Ew.
  assert (Hwr : wr <> 0) by (pose proof (wk_write Hw (chunk_offset c) (chunk_data c) (chunk_length c) w)
    as H; by rewrite Ew in H).
  assert (Hc : chunk_object c).
  { split; unfold is_u32, is_u16; cbn; [lia|lia|]. rewrite length_app, length_replicate. lia. }
  assert (E : exists l', perform_firmware (OpChunk c) l w = (FW_OK, Some l', w') /\
    lc_state l' = RECEIVING /\ lc_manifest l' = m).
  { cbn [perform_firmware]. unfold guardian_firmware_write_chunk.
    rewrite bool_decide_true by done. cbn [negb].
    unfold GUARDIAN_FIRMWARE_CHUNK_MAX_DATA.
    replace ((chunk_length c =? 0) || (192 <? chunk_length c)) with false by (cbn; lia).
    rewrite K5, Hm. cbn [chunk_offset c]. rewrite Z.eqb_refl. cbn [negb].
    unfold u64. rewrite Z.mod_small by (cbn; lia).
    destruct (Z.ltb_spec (man_image_size m) (Z.of_nat (length image) + chunk_length c)) as [Hlt|_];
      [cbn in Hlt; lia|].
    rewrite Hcf. cbn [fc_write fc_context platform_config].
    change (Z.of_nat (length image)) with (chunk_offset c). rewrite Ew.
    destruct (Z.eqb_spec wr 0); [done|]. eexists. split; [reflexivity|]. by split. }
  destruct E as (l' & E & Es & Em). exists l', w'. split; [exact E|].
  split; [|done|done]. pose proof (step_result (OpChunk c) l image w _ _ _ Hl Hc E) as Hl'.
  cbn [image_after chunk_length chunk_data c] in Hl'. rewrite decide_True in Hl' by done.
  by rewrite Nat2Z.id, take_app_length in Hl'.
Qed.

Lemma chunks_accepted pieces rest : forall l m image w,
  working -> receiving l m image w -> Forall (fun d => (1 <= length d <= 192)%nat) pieces ->
  Z.of_nat (length image + length (concat pieces)) <= man_image_size m ->
  exists l' w',
  run_ok (chunks_of (Z.of_nat (length image)) pieces ++ rest) l w = run_ok rest l' w' /\
  receiving l' m (image ++ concat pieces) w'.
Proof.
  induction pieces as [|d pieces IH]; intros l m image w Hw Hr Hp Hfit.
  - exists l, w. split; [done|]. cbn. by rewrite app_nil_r.
  - apply Forall_cons in Hp as [Hd Hp]. cbn [concat] in Hfit. rewrite length_app in Hfit.
    destruct (chunk_accepts l m image w d Hw Hr Hd ltac:(lia)) as (l1 & w1 & E1 & Hr1).
    destruct (IH l1 m (image ++ d) w1 Hw Hr1 Hp) as (l2 & w2 & E2 & Hr2);
      [rewrite length_app; lia|].
    exists l2, w2. cbn [chunks_of app run_ok]. rewrite E1.
    rewrite length_app, Nat2Z.inj_add in E2. split; [exact E2|].
    cbn [concat]. by rewrite app_assoc.
Qed.

(** The verifier accepts the manifest whenever it is asked. *)
Definition always_accepted (m : manifest_t) : Prop :=
  forall w, (verify context (man_signature_algorithm m) (man_key_id m) (manifest_transcript m) 64%nat
    (man_signature m) (man_signature_length m) w).1 <> 0.

Lemma finalize_accepts l m image w :
  working -> receiving l m image w -> always_accepted m ->
  Z.of_nat (length image) = man_image_size m -> sha256_spec image = man_image_sha256 m ->
  exists l' w', perform_firmware OpFinalize l w = (FW_OK, Some l', w') /\
    lc_state l' = VERIFIED /\ lc_manifest l' = m /\ lifecycle_ok l' image w'.
Proof.
  intros Hw [Hl Hs Hm] Hv Hn Hd.
  destruct (lo_candidate _ _ _ Hl (or_introl Hs)) as [K1 K2 _ K4 K5 _ K7 K8].
  pose proof (lo_base _ _ _ Hl) as Hb. pose proof Hb as [Hcf _ _].
  assert (E : exists l' w', perform_firmware OpFinalize l w = (FW_OK, Some l', w') /\
    lc_state l' = VERIFIED /\ lc_manifest l' = m).
  { cbn [perform_firmware]. unfold guardian_firmware_finalize. cbv zeta.
    rewrite bool_decide_true by done. cbn [negb]. rewrite K5, Hm, Hn, Z.eqb_refl. cbn [negb].
    rewrite minimum_counter_spec by done. rewrite Hm in K1, K2, K4, K7.
    rewrite Hcf. cbn [fc_hash fc_context fc_verify_signature platform_config
      fc_active_version_counter].
    unfold GUARDIAN_FIRMWARE_DIGEST_SIZE, GUARDIAN_SHA256_SIZE.
    pose proof (wk_hash Hw (man_image_size m) (replicate 32 0) w) as Hh.
    destruct (hash context _ _ w) as [[h d] w1] eqn:Eh. cbn [fst] in Hh.
    destruct (Z.eqb_spec h 0); [done|].
    destruct (law_hash _ _ _ _ _ _ Eh Hh K7) as [-> Ha].
    rewrite <- Hn, Nat2Z.id, K8, Hd.
    destruct (guardian_crypto_constant_time_equal _ _ _) eqn:E3.
    2:{ rewrite <- not_true_iff_false in E3. destruct E3.
        apply guardian_crypto_constant_time_equal_spec;
          [apply K1|apply K1|lia|by rewrite (mo_digest _ K1)|by rewrite (mo_digest _ K1)|done]. }
    cbn [negb].
    rewrite signed_manifest_spec by (first [exact (mo_digest _ K1) | exact K2 | reflexivity]).
    rewrite bool_decide_true by done. cbn [negb from_option id].
    unfold GUARDIAN_FIRMWARE_SIGNED_MANIFEST_SIZE. specialize (Hv w1).
    destruct (verify context _ _ _ _ _ _ w1) as [v w2] eqn:Ev. cbn [fst] in Hv.
    destruct (Z.eqb_spec v 0); [done|].
    destruct (Z.leb_spec (man_version_counter m) (fc_active_version_counter (lc_config l))); [lia|].
    do 2 eexists. split; [reflexivity|]. by split. }
  destruct E as (l' & w' & E & H1 & H2). exists l', w'. split; [exact E|].
  split; [done|]. split; [done|].
  exact (step_result OpFinalize l image w _ _ _ Hl I E).
Qed.

Lemma begin_accepts_manifest l w m :
  working -> base_ok l -> manifest_object m ->
  guardian_firmware_signature_valid (man_signature_algorithm m) (man_signature_length m) = true ->
  man_signature_algorithm m = fc_required_signature_algorithm (lc_config l) ->
  0 < man_image_size m <= fc_max_image_size (lc_config l) ->
  fc_active_version_counter (lc_config l) < man_version_counter m ->
  lifecycle_ok l [] w ->
  exists l' w', perform_firmware (OpBegin m) l w = (FW_OK, Some l', w') /\ receiving l' m [] w'.
Proof.
  intros Hw Hb Hm Hv Ha Hs Hver Hl. pose proof Hb as [Hcf Hc1 _].
  assert (E : exists l' w', perform_firmware (OpBegin m) l w = (FW_OK, Some l', w') /\
    lc_state l' = RECEIVING /\ lc_manifest l' = m).
  { cbn [perform_firmware]. unfold guardian_firmware_begin. rewrite Hc1, Hv, Ha, Z.eqb_refl.
    cbn [negb Z.eqb].
    replace ((man_image_size m =? 0) || (fc_max_image_size (lc_config l) <? man_image_size m))
      with false by lia.
    rewrite minimum_counter_spec by done.
    destruct (Z.leb_spec (man_version_counter m) (fc_active_version_counter (lc_config l))); [lia|].
    rewrite Hcf. cbn [fc_erase fc_context platform_config].
    pose proof (wk_erase Hw (man_image_size m) w) as He.
    destruct (erase context _ w) as [er w']. cbn [fst] in He.
    destruct (Z.eqb_spec er 0); [done|]. do 2 eexists. split; [reflexivity|]. by split. }
  destruct E as (l' & w' & E & H1 & H2). exists l', w'. split; [exact E|].
  split; [|done|done]. exact (step_result (OpBegin m) l [] w _ _ _ Hl Hm E).
Qed.

Lemma activate_accepts l m image w :
  working -> lifecycle_ok l image w -> lc_state l = VERIFIED -> lc_manifest l = m ->
  exists l' w', perform_firmware OpActivate l w = (FW_OK, Some l', w') /\
    lc_state l' = PENDING_ACTIVATION /\ lc_manifest l' = m /\ lifecycle_ok l' image w'.
Proof.
  intros Hw Hl Hs Hm. pose proof (lo_base _ _ _ Hl) as [Hcf _ _].
  assert (E : exists l' w', perform_firmware OpActivate l w = (FW_OK, Some l', w') /\
    lc_state l' = PENDING_ACTIVATION /\ lc_manifest l' = m).
  { cbn [perform_firmware]. unfold guardian_firmware_activate. cbv zeta.
    rewrite bool_decide_true by done. cbn [negb]. rewrite Hcf.
    cbn [fc_mark_pending fc_context platform_config].
    pose proof (wk_mark Hw (man_version_counter (lc_manifest l)) (man_firmware_major (lc_manifest l))
      (man_firmware_minor (lc_manifest l)) (man_firmware_patch (lc_manifest l)) w) as Hk.
    destruct (mark_pending context _ _ _ _ w) as [mk w']. cbn [fst] in Hk.
    destruct (Z.eqb_spec mk 0); [done|]. do 2 eexists. split; [reflexivity|]. by split. }
  destruct E as (l' & w' & E & H1 & H2). exists l', w'. split; [exact E|].
  split; [done|]. split; [done|]. exact (step_result OpActivate l image w _ _ _ Hl I E).
Qed.

Lemma confirm_accepts l m image w :
  working -> lifecycle_ok l image w -> lc_state l = PENDING_ACTIVATION -> lc_manifest l = m ->
  exists l' w', perform_firmware (OpConfirm (man_version_counter m)) l w = (FW_OK, Some l', w') /\
    lc_state l' = GUARDIAN_FIRMWARE_STATE_CONFIRMED /\
    fc_active_version_counter (lc_config l') = man_version_counter m /\
    fc_rollback_floor (lc_config l') = man_version_counter m /\ area w' = area w.
Proof.
  intros Hw Hl Hs Hm. pose proof (lo_base _ _ _ Hl) as [Hcf _ _].
  cbn [perform_firmware]. unfold guardian_firmware_confirm_boot. cbv zeta.
  rewrite bool_decide_true by done. cbn [negb]. rewrite Hm, Z.eqb_refl. cbn [negb]. rewrite Hcf.
  cbn [fc_persist_floor fc_complete_pending fc_context platform_config].
  pose proof (wk_floor Hw (man_version_counter m) w) as H1.
  pose proof (law_floor (man_version_counter m) w) as A1.
  destruct (persist_floor context _ w) as [pf w1]. cbn [fst snd] in H1, A1.
  destruct (Z.eqb_spec pf 0); [done|].
  pose proof (wk_complete Hw (man_version_counter m) 1 w1) as H2.
  pose proof (law_complete (man_version_counter m) 1 w1) as A2.
  destruct (complete_pending context _ 1 w1) as [cp w2]. cbn [fst snd] in H2, A2.
  destruct (Z.eqb_spec cp 0); [done|].
  do 2 eexists. split; [reflexivity|]. split_and!; [done|done|done|congruence].
Qed.

(** ** Properties *)

(** C32: What is activated is what was transferred, hashed and signed.  In every run
    from a configured lifecycle, whatever fails on the way, [activate] reaches the
    boot metadata only for a candidate whose chunks since its BEGIN, in order and
    without gap, make up exactly the signed image size and lie at the start of
    the staging area, whose SHA-256 is the signed digest, whose manifest
    transcript the verifier accepted with the required algorithm, and whose
    version is above the active one; the same holds while the activation is
    pending. *)
Theorem activated_image_is_authentic algorithm max_image_size active floor os w l w' image confirmed :
  configurable algorithm max_image_size active floor -> Forall firmware_op_typed os ->
  run_firmware os (configured_lifecycle algorithm max_image_size active floor) w [] []
    = (l, w', image, confirmed) ->
  (perform_firmware OpActivate l w').1.1 <> GUARDIAN_FIRMWARE_ERROR_INVALID_STATE \/
  lc_state l = PENDING_ACTIVATION ->
  let m := lc_manifest l in
  Z.of_nat (length image) = man_image_size m /\ take (length image) (area w') = image /\
  sha256_spec image = man_image_sha256 m /\ signature_accepted m /\
  man_signature_algorithm m = fc_required_signature_algorithm (lc_config l) /\
  fc_rollback_floor (lc_config l) <= fc_active_version_counter (lc_config l) < man_version_counter m.
Proof.
  intros Hc Hos Hrun Hst m. destruct (configured_ok algorithm max_image_size active floor w Hc)
    as [Hl Hcf].
  pose proof (run_firmware_ok active os _ w [] [] Hl Hos Hcf) as Hr. rewrite Hrun in Hr.
  destruct Hr as [Hok _].
  assert (Hp : proved (lc_state l)).
  { destruct Hst as [Hst| ->]; [left|by right]. cbn [perform_firmware] in Hst.
    unfold guardian_firmware_activate in Hst. cbv zeta in Hst.
    destruct (bool_decide_reflect (lc_state l = VERIFIED)); [done|]. by destruct Hst. }
  destruct (lo_candidate _ _ _ Hok ltac:(destruct Hp; [right; by left|right; by right]))
    as [K1 K2 K3 K4 K5 K6 K7 K8].
  destruct (lo_authentic _ _ _ Hok Hp) as [A1 A2 A3].
  pose proof (bo_floor _ (lo_base _ _ _ Hok)). by split_and!.
Qed.

(** Versions only go up.  In every run the versions whose boot was confirmed are
    strictly increasing, all above the version active at configuration and at
    most the active one at the end, and the rollback floor never exceeds the
    active version. *)
Theorem confirmed_versions_increase algorithm max_image_size active floor os w l w' image confirmed :
  configurable algorithm max_image_size active floor -> Forall firmware_op_typed os ->
  run_firmware os (configured_lifecycle algorithm max_image_size active floor) w [] []
    = (l, w', image, confirmed) ->
  StronglySorted Z.lt (active :: confirmed) /\
  Forall (fun v => v <= fc_active_version_counter (lc_config l)) (active :: confirmed) /\
  fc_rollback_floor (lc_config l) <= fc_active_version_counter (lc_config l).
Proof.
  intros Hc Hos Hrun. destruct (configured_ok algorithm max_image_size active floor w Hc)
    as [Hl Hcf].
  pose proof (run_firmware_ok active os _ w [] [] Hl Hos Hcf) as Hr. rewrite Hrun in Hr.
  destruct Hr as [Hok [H1 H2]]. split; [done|]. split; [done|]. apply (lo_base _ _ _ Hok).
Qed.

(** C33: An update completes on a working platform.  If the callbacks succeed and the
    verifier accepts the manifest, then BEGIN, the image in pieces of 1 to 192
    bytes, FINALIZE, ACTIVATE and the confirmation of the boot all answer OK, the
    lifecycle ends CONFIRMED with the new version as active version and rollback
    floor, and the staging area starts with the image. *)
Theorem update_completes algorithm max_image_size active floor w m pieces :
  configurable algorithm max_image_size active floor -> working -> always_accepted m ->
  manifest_object m ->
  guardian_firmware_signature_valid (man_signature_algorithm m) (man_signature_length m) = true ->
  man_signature_algorithm m = algorithm -> 0 < man_image_size m <= max_image_size ->
  active < man_version_counter m ->
  Forall (fun d => (1 <= length d <= 192)%nat) pieces ->
  Z.of_nat (length (concat pieces)) = man_image_size m ->
  sha256_spec (concat pieces) = man_image_sha256 m ->
  exists l' w',
  run_ok (OpBegin m :: chunks_of 0 pieces ++ [OpFinalize; OpActivate; OpConfirm (man_version_counter m)])
    (configured_lifecycle algorithm max_image_size active floor) w = Some (l', w') /\
  lc_state l' = GUARDIAN_FIRMWARE_STATE_CONFIRMED /\
  fc_active_version_counter (lc_config l') = man_version_counter m /\
  fc_rollback_floor (lc_config l') = man_version_counter m /\
  take (length (concat pieces)) (area w') = concat pieces.
Proof.
  intros Hc Hw Hacc Hm Hv Ha Hs Hver Hp Hn Hd.
  destruct (configured_ok algorithm max_image_size active floor w Hc) as [Hl _].
  rewrite configured_eq in Hl |- * by done. set (l0 := LIFECYCLE _ _ _ _ _ _) in *.
  destruct (begin_accepts_manifest l0 w m Hw (lo_base _ _ _ Hl) Hm Hv Ha Hs Hver Hl)
    as (l1 & w1 & E1 & Hr1).
  destruct (chunks_accepted pieces [OpFinalize; OpActivate; OpConfirm (man_version_counter m)]
    l1 m [] w1 Hw Hr1 Hp) as (l2 & w2 & E2 & Hr2); [cbn; lia|]. cbn [app length] in E2, Hr2.
  destruct (finalize_accepts l2 m (concat pieces) w2 Hw Hr2 Hacc Hn Hd) as (l3 & w3 & E3 & S3 & M3 & H3).
  destruct (activate_accepts l3 m (concat pieces) w3 Hw H3 S3 M3) as (l4 & w4 & E4 & S4 & M4 & H4).
  destruct (confirm_accepts l4 m (concat pieces) w4 Hw H4 S4 M4) as (l5 & w5 & E5 & S5 & A5 & F5 & W5).
  exists l5, w5. cbn [run_ok]. rewrite E1. change (Z.of_nat 0) with 0 in E2. rewrite E2.
  cbn [run_ok]. rewrite E3, E4, E5. split; [done|]. split; [done|]. split; [done|]. split; [done|].
  rewrite W5. apply (cd_staged _ _ _ (lo_candidate _ _ _ H4 (or_intror (or_intror S4)))).
Qed.
End platform.

(** The signature covers the manifest.  For a manifest with a supported algorithm
    and width, [signed_manifest] writes the 64-byte transcript, and two manifests
    have the same transcript only if they agree in algorithm, key, version
    counter, semantic version, image size and image digest. *)
Theorem signed_manifest_covers m n out :
  manifest_object m -> manifest_object n -> length out = 64%nat ->
  guardian_firmware_signature_valid (man_signature_algorithm m) (man_signature_length m) = true ->
  guardian_firmware_signature_valid (man_signature_algorithm n) (man_signature_length n) = true ->
  guardian_firmware_signed_manifest (Some m) (Some out) = (FW_OK, Some (manifest_transcript m)) /\
  length (manifest_transcript m) = 64%nat /\
  (guardian_firmware_signed_manifest (Some m) (Some out)
     = guardian_firmware_signed_manifest (Some n) (Some out) ->
   man_signature_algorithm m = man_signature_algorithm n /\ man_key_id m = man_key_id n /\
   man_version_counter m = man_version_counter n /\ man_firmware_major m = man_firmware_major n /\
   man_firmware_minor m = man_firmware_minor n /\ man_firmware_patch m = man_firmware_patch n /\
   man_image_size m = man_image_size n /\ man_image_sha256 m = man_image_sha256 n).
Proof.
  intros Hm Hn Ho Hvm Hvn.
  rewrite !signed_manifest_spec by (first [done | apply mo_digest; done]).
  split; [done|]. split.
  - unfold manifest_transcript. rewrite !length_app, (mo_digest _ Hm). reflexivity.
  - intros H. apply manifest_transcript_inj; [done|done|].
    exact (f_equal (fun x => default [] x.2) H).
Qed.

(** ** A platform, and the witnesses

    A staging area in memory; every callback succeeds, and the verifier accepts
    a signature whose first byte is 1. *)

Definition example_erase (_ : option unit) (n : Z) (w : list Z) : Z * list Z :=
  (1, replicate (Z.to_nat n) 255).
Definition example_write (_ : option unit) (off : Z) (data : list Z) (len : Z) (w : list Z)
  : Z * list Z := (1, blit w (Z.to_nat off) (take (Z.to_nat len) data)).
Definition example_hash (_ : option unit) (n : Z) (_ : list Z) (w : list Z)
  : Z * list Z * list Z := (1, sha256_spec (take (Z.to_nat n) w), w).
Definition example_verify (_ : option unit) (_ _ : Z) (_ : list Z) (_ : nat) (sig : list Z) (_ : Z)
    (w : list Z) : Z * list Z := (if byte_at sig 0 =? 1 then 1 else 0, w).
Definition example_mark (_ : option unit) (_ _ _ _ : Z) (w : list Z) : Z * list Z := (1, w).
Definition example_floor (_ : option unit) (_ : Z) (w : list Z) : Z * list Z := (1, w).
Definition example_complete (_ : option unit) (_ _ : Z) (w : list Z) : Z * list Z := (1, w).

#[global] Instance example_laws :
  StagingLaws None example_erase example_write example_hash example_verify example_mark
    example_floor example_complete.
Proof.
  refine {| area := fun w : list Z => w |}; try done.
  - intros n w r w' [= <- <-] _. by rewrite length_replicate.
  - by intros off data len w r w' [= <- <-] _ _.
  - by intros n d w r d' w' [= <- <- <-] _ _.
Defined.

Definition example_pieces : list (list Z) := [[10; 20; 30]; [40; 50]].
Definition example_manifest (version : Z) : manifest_t :=
  MANIFEST GUARDIAN_FIRMWARE_SIGNATURE_ED25519 2 version 1 0 0 5
    (sha256_spec (concat example_pieces)) 64 (1 :: replicate 63 0).

Lemma example_manifest_object v : is_u32 v -> manifest_object (example_manifest v).
Proof.
  intros Hv. split; cbn [example_manifest man_key_id man_version_counter man_firmware_major
    man_firmware_minor man_firmware_patch man_image_size man_image_sha256]; try done.
  apply sha256_spec_bytes.
Qed.

Lemma example_working :
  working None example_erase example_write example_hash example_mark example_floor example_complete.
Proof. by split. Qed.

Definition example_transfer : list firmware_op :=
  OpBegin (example_manifest 8) :: chunks_of 0 example_pieces ++ [OpFinalize].

Lemma example_transfer_typed : Forall firmware_op_typed example_transfer.
Proof.
  repeat (apply Forall_cons; split); try done. by apply example_manifest_object.
Qed.

Definition example_start : guardian_firmware_lifecycle_t unit (list Z) :=
  configured_lifecycle None example_erase example_write example_hash example_verify example_mark
    example_floor example_complete GUARDIAN_FIRMWARE_SIGNATURE_ED25519 1000 7 7.

Lemma example_configurable : configurable GUARDIAN_FIRMWARE_SIGNATURE_ED25519 1000 7 7.
Proof. split; [by left|done]. Qed.

Lemma update_completes_witness : exists l' w',
  run_ok (OpBegin (example_manifest 8) :: chunks_of 0 example_pieces
          ++ [OpFinalize; OpActivate; OpConfirm 8])
    (configured_lifecycle None example_erase example_write example_hash example_verify example_mark
       example_floor example_complete GUARDIAN_FIRMWARE_SIGNATURE_ED25519 1000 7 7) []
  = Some (l', w') /\ take 5 w' = [10; 20; 30; 40; 50].
Proof.
  destruct (update_completes None example_erase example_write example_hash example_verify
    example_mark example_floor example_complete GUARDIAN_FIRMWARE_SIGNATURE_ED25519 1000 7 7 []
    (example_manifest 8) example_pieces) as (l' & w' & H & _ & _ & _ & Ha).
  - split; [by left|done].
  - exact example_working.
  - done.
  - by apply example_manifest_object.
  - done.
  - done.
  - done.
  - done.
  - repeat constructor; cbn; lia.
  - done.
  - reflexivity.
  - exists l', w'. split; [exact H|exact Ha].
Defined.

Lemma activated_image_is_authentic_witness :
  exists l w image confirmed,
  run_firmware example_transfer example_start [] [] [] = (l, w, image, confirmed) /\
  image = [10; 20; 30; 40; 50] /\ sha256_spec image = man_image_sha256 (lc_manifest l).
Proof.
  assert (H : (run_firmware example_transfer example_start [] [] []).1.2 = [10; 20; 30; 40; 50])
    by (vm_compute; reflexivity).
  assert (Hs : (perform_firmware OpActivate
      (run_firmware example_transfer example_start [] [] []).1.1.1
      (run_firmware example_transfer example_start [] [] []).1.1.2).1.1
    <> GUARDIAN_FIRMWARE_ERROR_INVALID_STATE) by (vm_compute; discriminate).
  destruct (run_firmware example_transfer example_start [] [] []) as [[[l w] image] confirmed] eqn:E.
  exists l, w, image, confirmed. split; [reflexivity|]. split; [exact H|].
  exact (proj1 (proj2 (proj2 (activated_image_is_authentic None example_erase example_write
    example_hash example_verify example_mark example_floor example_complete
    GUARDIAN_FIRMWARE_SIGNATURE_ED25519 1000 7 7 example_transfer [] l w image confirmed
    example_configurable example_transfer_typed E (or_introl Hs))))).
Defined.

Lemma confirmed_versions_increase_witness :
  exists l w image confirmed,
  run_firmware (example_transfer ++ [OpActivate; OpConfirm 8]) example_start [] [] []
    = (l, w, image, confirmed) /\ confirmed = [8] /\ StronglySorted Z.lt [7; 8].
Proof.
  assert (H : (run_firmware (example_transfer ++ [OpActivate; OpConfirm 8]) example_start [] [] []).2
    = [8]) by (vm_compute; reflexivity).
  destruct (run_firmware (example_transfer ++ [OpActivate; OpConfirm 8]) example_start [] [] [])
    as [[[l w] image] confirmed] eqn:E. cbn [snd] in H. subst confirmed.
  exists l, w, image, [8]. split; [reflexivity|]. split; [reflexivity|].
  refine (proj1 (confirmed_versions_increase None example_erase example_write
    example_hash example_verify example_mark example_floor example_complete
    GUARDIAN_FIRMWARE_SIGNATURE_ED25519 1000 7 7 _ [] l w image [8]
    example_configurable _ E)).
  apply Forall_app. split; [exact example_transfer_typed|by repeat constructor].
Defined.

Lemma signed_manifest_covers_witness :
  guardian_firmware_signed_manifest (Some (example_manifest 8)) (Some (replicate 64 0))
  = (FW_OK, Some (manifest_transcript (example_manifest 8))).
Proof.
  assert (H8 : manifest_object (example_manifest 8)) by (apply example_manifest_object; done).
  assert (H9 : manifest_object (example_manifest 9)) by (apply example_manifest_object; done).
  exact (proj1 (signed_manifest_covers _ _ (replicate 64 0) H8 H9 eq_refl eq_refl eq_refl)).
Defined.
