(* ===== verification/TrustedKeys.v ===== *)
(** * Trusted firmware keys

    Model of [firmware/Firmware/Src/guardian_firmware_trusted_key_provider.c],
    [guardian_firmware_trusted_signature_adapter.c] and
    [guardian_firmware_ed25519_monocypher.c]: the table of trusted keys, its
    resolution with the provenance checks, and the signature verifier built on
    it.  The Ed25519 primitive of the vendored library is the parameter
    [crypto_ed25519_check].  The resolution is stated for any table; the
    committed table is [g_guardian_firmware_trusted_keys]. *)

From S2P Require Import Prelude Crypto Lifecycle LifecycleSafety.

(** ** Data *)

Definition GUARDIAN_FIRMWARE_TRUSTED_KEY_PUBLIC_KEY_BYTES : nat := 32.
Definition GUARDIAN_FIRMWARE_TRUSTED_KEY_PROVENANCE_DIGEST_BYTES : nat := 32.
Definition GUARDIAN_FIRMWARE_ED25519_SIGNATURE_BYTES : Z := 64.

Inductive guardian_firmware_trusted_key_algorithm_t :=
  | GUARDIAN_FIRMWARE_TRUSTED_KEY_ALGORITHM_UNKNOWN
  | GUARDIAN_FIRMWARE_TRUSTED_KEY_ALGORITHM_ED25519.

Inductive guardian_firmware_trusted_key_state_t :=
  | GUARDIAN_FIRMWARE_TRUSTED_KEY_STATE_UNKNOWN
  | GUARDIAN_FIRMWARE_TRUSTED_KEY_STATE_ACTIVE
  | GUARDIAN_FIRMWARE_TRUSTED_KEY_STATE_RETIRED
  | GUARDIAN_FIRMWARE_TRUSTED_KEY_STATE_REVOKED.

Inductive guardian_firmware_trusted_key_provenance_state_t :=
  | GUARDIAN_FIRMWARE_TRUSTED_KEY_PROVENANCE_UNKNOWN
  | GUARDIAN_FIRMWARE_TRUSTED_KEY_PROVENANCE_LEGACY_UNVERIFIED
  | GUARDIAN_FIRMWARE_TRUSTED_KEY_PROVENANCE_PRODUCTION_APPROVED
  | GUARDIAN_FIRMWARE_TRUSTED_KEY_PROVENANCE_REVOKED.

Record guardian_firmware_trusted_key_record_t := KEY_RECORD {
  key_key_id : Z;
  key_algorithm : guardian_firmware_trusted_key_algorithm_t;
  key_state : guardian_firmware_trusted_key_state_t;
  key_public_key : list Z;              (* public_key[32] *)
  key_provenance_state : guardian_firmware_trusted_key_provenance_state_t;
  key_provenance_digest : list Z        (* provenance_digest[32] *)
}.

Inductive guardian_firmware_trusted_key_resolution_t :=
  | GUARDIAN_FIRMWARE_TRUSTED_KEY_RESOLUTION_OK
  | GUARDIAN_FIRMWARE_TRUSTED_KEY_RESOLUTION_UNKNOWN_KEY
  | GUARDIAN_FIRMWARE_TRUSTED_KEY_RESOLUTION_AMBIGUOUS_KEY
  | GUARDIAN_FIRMWARE_TRUSTED_KEY_RESOLUTION_NON_ACTIVE_KEY
  | GUARDIAN_FIRMWARE_TRUSTED_KEY_RESOLUTION_ALGORITHM_MISMATCH
  | GUARDIAN_FIRMWARE_TRUSTED_KEY_RESOLUTION_INVALID_ARGUMENT
  | GUARDIAN_FIRMWARE_TRUSTED_KEY_RESOLUTION_UNVERIFIED_PROVENANCE.

#[global] Instance key_algorithm_eq_dec : EqDecision guardian_firmware_trusted_key_algorithm_t.
Proof. solve_decision. Defined.
#[global] Instance key_state_eq_dec : EqDecision guardian_firmware_trusted_key_state_t.
Proof. solve_decision. Defined.
#[global] Instance key_provenance_eq_dec :
  EqDecision guardian_firmware_trusted_key_provenance_state_t.
Proof. solve_decision. Defined.
#[global] Instance key_resolution_eq_dec : EqDecision guardian_firmware_trusted_key_resolution_t.
Proof. solve_decision. Defined.

Local Abbreviation record_t := guardian_firmware_trusted_key_record_t.
Local Abbreviation resolution_t := guardian_firmware_trusted_key_resolution_t.
Local Abbreviation RESOLUTION_OK := GUARDIAN_FIRMWARE_TRUSTED_KEY_RESOLUTION_OK.
Local Abbreviation ACTIVE := GUARDIAN_FIRMWARE_TRUSTED_KEY_STATE_ACTIVE.
Local Abbreviation ED25519 := GUARDIAN_FIRMWARE_TRUSTED_KEY_ALGORITHM_ED25519.
Local Abbreviation APPROVED := GUARDIAN_FIRMWARE_TRUSTED_KEY_PROVENANCE_PRODUCTION_APPROVED.

Definition g_guardian_firmware_trusted_keys : list record_t :=
  [KEY_RECORD 2 GUARDIAN_FIRMWARE_TRUSTED_KEY_ALGORITHM_ED25519
     GUARDIAN_FIRMWARE_TRUSTED_KEY_STATE_ACTIVE
     [0x33; 0x0E; 0x6D; 0xB6; 0xBB; 0x72; 0x3F; 0xFE;
      0x2B; 0x98; 0x7A; 0xD6; 0x0E; 0x07; 0x73; 0x97;
      0xCC; 0x33; 0x3F; 0x04; 0x7B; 0x4B; 0x77; 0x06;
      0x68; 0x9F; 0xA2; 0x49; 0x69; 0x26; 0xCB; 0xC4]
     GUARDIAN_FIRMWARE_TRUSTED_KEY_PROVENANCE_LEGACY_UNVERIFIED
     [0; 0; 0; 0; 0; 0; 0; 0; 0; 0; 0; 0; 0; 0; 0; 0;
      0; 0; 0; 0; 0; 0; 0; 0; 0; 0; 0; 0; 0; 0; 0; 0]].

(** ** Resolution *)

(** The loop both files write out: the OR of the 32 bytes is zero. *)
Definition guardian_firmware_trusted_key_digest_is_zero (digest : list Z) : bool :=
  foldl (fun combined i => u8 (Z.lor combined (byte_at digest i))) 0
    (seq 0 GUARDIAN_FIRMWARE_TRUSTED_KEY_PROVENANCE_DIGEST_BYTES) =? 0.

Definition guardian_firmware_provenance_digest_is_zero (digest : option (list Z)) : bool :=
  match digest with
  | None => true
  | Some d =>
      foldl (fun combined i => u8 (Z.lor combined (byte_at d i))) 0
        (seq 0 GUARDIAN_FIRMWARE_TRUSTED_KEY_PROVENANCE_DIGEST_BYTES) =? 0
  end.

(** The search loop: the last match and the number of matches. *)
Definition find_key (keys : list record_t) (key_id : Z) : option record_t * nat :=
  foldl (fun '(found, count) k =>
           if key_key_id k =? key_id then (Some k, S count) else (found, count)) (None, 0%nat) keys.

Section table.
Context (keys : list record_t).

(** [out_record] points to a record pointer: [None] is NULL. *)
Definition guardian_firmware_trusted_key_provider_resolve (key_id : Z)
    (required_algorithm : guardian_firmware_trusted_key_algorithm_t)
    (out_record : option (option record_t)) : resolution_t * option (option record_t) :=
  match out_record with
  | None => (GUARDIAN_FIRMWARE_TRUSTED_KEY_RESOLUTION_INVALID_ARGUMENT, None)
  | Some _ =>
      let '(found, match_count) := find_key keys key_id in
      early (match_count =? 0)%nat
        with (GUARDIAN_FIRMWARE_TRUSTED_KEY_RESOLUTION_UNKNOWN_KEY, Some None) ;;
      early negb (match_count =? 1)%nat
        with (GUARDIAN_FIRMWARE_TRUSTED_KEY_RESOLUTION_AMBIGUOUS_KEY, Some None) ;;
      match found with
      | None => (GUARDIAN_FIRMWARE_TRUSTED_KEY_RESOLUTION_UNKNOWN_KEY, Some None)
      | Some k =>
          early negb (bool_decide (key_state k = GUARDIAN_FIRMWARE_TRUSTED_KEY_STATE_ACTIVE))
            with (GUARDIAN_FIRMWARE_TRUSTED_KEY_RESOLUTION_NON_ACTIVE_KEY, Some None) ;;
          early negb (bool_decide (key_algorithm k = required_algorithm))
            with (GUARDIAN_FIRMWARE_TRUSTED_KEY_RESOLUTION_ALGORITHM_MISMATCH, Some None) ;;
          (GUARDIAN_FIRMWARE_TRUSTED_KEY_RESOLUTION_OK, Some (Some k))
      end
  end.

Definition guardian_firmware_trusted_key_provider_resolve_production (key_id : Z)
    (required_algorithm : guardian_firmware_trusted_key_algorithm_t)
    (out_record : option (option record_t)) : resolution_t * option (option record_t) :=
  match out_record with
  | None => (GUARDIAN_FIRMWARE_TRUSTED_KEY_RESOLUTION_INVALID_ARGUMENT, None)
  | Some _ =>
      let '(resolution, record) :=
        guardian_firmware_trusted_key_provider_resolve key_id required_algorithm (Some None) in
      early negb (bool_decide (resolution = GUARDIAN_FIRMWARE_TRUSTED_KEY_RESOLUTION_OK))
        with (resolution, Some None) ;;
      match default None record with
      | None => (GUARDIAN_FIRMWARE_TRUSTED_KEY_RESOLUTION_UNVERIFIED_PROVENANCE, Some None)
      | Some k =>
          early negb (bool_decide (key_provenance_state k
                        = GUARDIAN_FIRMWARE_TRUSTED_KEY_PROVENANCE_PRODUCTION_APPROVED))
                || guardian_firmware_trusted_key_digest_is_zero (key_provenance_digest k)
            with (GUARDIAN_FIRMWARE_TRUSTED_KEY_RESOLUTION_UNVERIFIED_PROVENANCE, Some None) ;;
          (GUARDIAN_FIRMWARE_TRUSTED_KEY_RESOLUTION_OK, Some (Some k))
      end
  end.

(** ** Verification *)

Context (crypto_ed25519_check : list Z -> list Z -> list Z -> nat -> Z).

Definition guardian_firmware_ed25519_backend_verify (signature public_key message : option (list Z))
    (message_length : nat) : Z :=
  match signature, public_key with
  | Some signature, Some public_key =>
      early is_null message && negb (message_length =? 0)%nat with 0 ;;
      let safe_message := default [0] message in
      if crypto_ed25519_check signature public_key safe_message message_length =? 0 then 1 else 0
  | _, _ => 0
  end.

Definition guardian_firmware_trusted_signature_verify {C : Type} (context : option C)
    (signature_algorithm key_id : Z) (signed_message : option (list Z))
    (signed_message_length : nat) (signature : option (list Z)) (signature_length : Z) : Z :=
  early is_null signed_message || is_null signature || (signed_message_length =? 0)%nat with 0 ;;
  early negb (signature_algorithm =? GUARDIAN_FIRMWARE_SIGNATURE_ED25519) with 0 ;;
  early negb (signature_length =? GUARDIAN_FIRMWARE_ED25519_SIGNATURE_BYTES) with 0 ;;
  let '(resolution, record) :=
    guardian_firmware_trusted_key_provider_resolve_production key_id
      GUARDIAN_FIRMWARE_TRUSTED_KEY_ALGORITHM_ED25519 (Some None) in
  early negb (bool_decide (resolution = GUARDIAN_FIRMWARE_TRUSTED_KEY_RESOLUTION_OK)) with 0 ;;
  match default None record with
  | None => 0
  | Some k =>
      early negb (key_key_id k =? key_id)
            || negb (bool_decide (key_state k = GUARDIAN_FIRMWARE_TRUSTED_KEY_STATE_ACTIVE))
            || negb (bool_decide (key_algorithm k
                       = GUARDIAN_FIRMWARE_TRUSTED_KEY_ALGORITHM_ED25519))
            || negb (bool_decide (key_provenance_state k
                       = GUARDIAN_FIRMWARE_TRUSTED_KEY_PROVENANCE_PRODUCTION_APPROVED))
            || guardian_firmware_provenance_digest_is_zero (Some (key_provenance_digest k))
        with 0 ;;
      if guardian_firmware_ed25519_backend_verify signature (Some (key_public_key k))
           signed_message signed_message_length =? 1 then 1 else 0
  end.
End table.

(** ** Lemmas *)

Lemma digest_is_zero_spec d :
  bytes d -> length d = 32%nat ->
  guardian_firmware_trusted_key_digest_is_zero d = true <-> d = replicate 32 0.
Proof.
  intros Hd Hl. unfold guardian_firmware_trusted_key_digest_is_zero.
  by rewrite Z.eqb_eq, or_loop_zeros.
Qed.

Lemma provenance_digest_eq d :
  guardian_firmware_provenance_digest_is_zero (Some d)
  = guardian_firmware_trusted_key_digest_is_zero d.
Proof.
  unfold guardian_firmware_provenance_digest_is_zero,
    guardian_firmware_trusted_key_digest_is_zero. reflexivity.
Qed.

(** The search finds the last match and counts them all. *)
Lemma find_key_spec keys key_id :
  find_key keys key_id
  = (last (filter (fun k => key_key_id k = key_id) keys),
     length (filter (fun k => key_key_id k = key_id) keys)).
Proof.
  unfold find_key. set (step := fun '(found, count) k => _).
  assert (H : forall found count, foldl step (found, count) keys
    = (match last (filter (fun k => key_key_id k = key_id) keys) with
       | Some k => Some k | None => found end,
       (count + length (filter (fun k => key_key_id k = key_id) keys))%nat)).
  { induction keys as [|k keys IH]; intros found count; cbn [foldl]; [by rewrite Nat.add_0_r|].
    unfold step at 2. rewrite filter_cons.
    destruct (Z.eqb_spec (key_key_id k) key_id) as [E|E]; rewrite IH.
    - rewrite decide_True by done. rewrite last_cons. cbn [length].
      rewrite Nat.add_succ_r. by destruct (last _).
    - by rewrite decide_False. }
  rewrite H. by destruct (last _).
Qed.

(** The key of an identifier: its only entry, and that one usable in production. *)
Definition production_key (keys : list record_t) (key_id : Z) (k : record_t) : Prop :=
  filter (fun k => key_key_id k = key_id) keys = [k] /\ key_state k = ACTIVE /\
  key_algorithm k = ED25519 /\ key_provenance_state k = APPROVED /\
  key_provenance_digest k <> replicate 32 0.

Definition keys_typed (keys : list record_t) : Prop :=
  Forall (fun k => bytes (key_provenance_digest k) /\ length (key_provenance_digest k) = 32%nat) keys.

Lemma production_key_typed keys key_id k :
  keys_typed keys -> filter (fun k => key_key_id k = key_id) keys = [k] ->
  key_key_id k = key_id /\ bytes (key_provenance_digest k) /\
  length (key_provenance_digest k) = 32%nat.
Proof.
  intros Ht Hf. assert (Hin : k ∈ filter (fun k => key_key_id k = key_id) keys) by (rewrite Hf; left).
  apply list_elem_of_filter in Hin as [Hk Hin]. split; [done|].
  exact (proj1 (Forall_forall _ _) Ht k Hin).
Qed.

Lemma resolve_production_spec keys key_id :
  keys_typed keys ->
  (exists k, production_key keys key_id k /\
   guardian_firmware_trusted_key_provider_resolve_production keys key_id ED25519 (Some None)
     = (RESOLUTION_OK, Some (Some k))) \/
  (forall k, ~ production_key keys key_id k) /\
  exists r, r <> RESOLUTION_OK /\
   guardian_firmware_trusted_key_provider_resolve_production keys key_id ED25519 (Some None)
     = (r, Some None).
Proof.
  intros Ht. unfold guardian_firmware_trusted_key_provider_resolve_production,
    guardian_firmware_trusted_key_provider_resolve.
  rewrite find_key_spec. unfold production_key.
  destruct (filter (fun k => key_key_id k = key_id) keys) as [|k [|k2 ks]] eqn:Ef; cbn [last length].
  - right. split; [by intros k (? & _)|]. eexists. by split; [|reflexivity].
  - destruct (production_key_typed keys key_id k Ht Ef) as (_ & Hb & Hl).
    cbn [Nat.eqb negb].
    destruct (bool_decide_reflect (key_state k = ACTIVE)) as [E1|E1]; cbn [negb].
    2:{ right. split; [by intros k' ([= <-] & ? & _)|]. eexists. by split; [|reflexivity]. }
    destruct (bool_decide_reflect (key_algorithm k = ED25519)) as [E2|E2]; cbn [negb].
    2:{ right. split; [by intros k' ([= <-] & _ & ? & _)|]. eexists. by split; [|reflexivity]. }
    rewrite bool_decide_true by done. cbn [negb from_option id].
    destruct (bool_decide_reflect (key_provenance_state k = APPROVED)) as [E3|E3]; cbn [negb orb].
    2:{ right. split; [by intros k' ([= <-] & _ & _ & ? & _)|]. eexists. by split; [|reflexivity]. }
    destruct (guardian_firmware_trusted_key_digest_is_zero (key_provenance_digest k)) eqn:E4.
    + apply digest_is_zero_spec in E4; [|done|done].
      right. split; [by intros k' ([= <-] & _ & _ & _ & ?)|]. eexists. by split; [|reflexivity].
    + left. exists k. split; [|done]. split_and!; try done.
      intros E. apply (digest_is_zero_spec _ Hb Hl) in E. congruence.
  - right. split; [by intros k' ([=] & _)|]. eexists. by split; [|reflexivity].
Qed.

(** ** Properties *)

Section properties.
Context (crypto_ed25519_check : list Z -> list Z -> list Z -> nat -> Z).

(** The verifier as the callback of a lifecycle. *)
Definition trusted_verify {C W : Type} (keys : list record_t)
  : guardian_firmware_verify_signature_fn C W :=
  fun context algorithm key_id message message_length signature signature_length w =>
    (guardian_firmware_trusted_signature_verify keys crypto_ed25519_check context algorithm key_id
       (Some message) message_length (Some signature) signature_length, w).

Lemma trusted_signature_spec {C} keys (context : option C) algorithm key_id message n sig sl :
  keys_typed keys ->
  let v := guardian_firmware_trusted_signature_verify keys crypto_ed25519_check context algorithm
             key_id (Some message) n (Some sig) sl in
  (v = 0 \/ v = 1) /\
  (v = 1 <-> n <> 0%nat /\ algorithm = GUARDIAN_FIRMWARE_SIGNATURE_ED25519 /\ sl = 64 /\
   exists k, production_key keys key_id k /\
     crypto_ed25519_check sig (key_public_key k) message n = 0).
Proof.
  intros Ht. cbv zeta. unfold guardian_firmware_trusted_signature_verify. cbn [is_null orb].
  destruct (Nat.eqb_spec n 0) as [E0|E0]; [split; [by left|split; [done|by intros (? & _)]]|].
  destruct (Z.eqb_spec algorithm GUARDIAN_FIRMWARE_SIGNATURE_ED25519) as [E1|E1]; cbn [negb];
    [|split; [by left|split; [done|by intros (_ & ? & _)]]].
  unfold GUARDIAN_FIRMWARE_ED25519_SIGNATURE_BYTES.
  destruct (Z.eqb_spec sl 64) as [E2|E2]; cbn [negb];
    [|split; [by left|split; [done|by intros (_ & _ & ? & _)]]].
  destruct (resolve_production_spec keys key_id Ht) as [(k & Hk & ->)|(Hno & r & Hr & ->)].
  2:{ rewrite bool_decide_false by done. cbn [negb]. split; [by left|].
      split; [done|]. intros (_ & _ & _ & k & Hk & _). by destruct (Hno k). }
  rewrite bool_decide_true by done. cbn [negb from_option id].
  pose proof Hk as (Hf & Hs & Ha & Hp & Hd).
  destruct (production_key_typed keys key_id k Ht Hf) as (Hid & Hb & Hl).
  rewrite Hid, Z.eqb_refl, !bool_decide_true by done. cbn [negb orb].
  destruct (guardian_firmware_provenance_digest_is_zero (Some (key_provenance_digest k))) eqn:Ez.
  { rewrite provenance_digest_eq in Ez. destruct Hd. by apply (digest_is_zero_spec _ Hb Hl) in Ez. }
  unfold guardian_firmware_ed25519_backend_verify. cbn [is_null andb from_option id].
  destruct (Z.eqb_spec (crypto_ed25519_check sig (key_public_key k) message n) 0) as [Ec|Ec];
    cbn [Z.eqb Pos.eqb].
  - split; [by right|]. split; [|done]. intros _. split_and!; try done. by exists k.
  - split; [by left|]. split; [done|]. intros (_ & _ & _ & k' & (Hf' & _) & Hc).
    rewrite Hf in Hf'. injection Hf' as <-. done.
Qed.

Lemma committed_keys_typed : keys_typed g_guardian_firmware_trusted_keys.
Proof.
  apply Forall_cons. split; [|constructor]. split; [|done]. by apply (bytes_replicate 32 0).
Qed.

Lemma no_committed_key key_id k : ~ production_key g_guardian_firmware_trusted_keys key_id k.
Proof.
  intros (Hf & _ & _ & Hp & _).
  assert (Hin : k ∈ filter (fun k => key_key_id k = key_id) g_guardian_firmware_trusted_keys)
    by (rewrite Hf; left).
  apply list_elem_of_filter in Hin as [_ Hin].
  unfold g_guardian_firmware_trusted_keys in Hin. apply list_elem_of_singleton in Hin. by subst k.
Qed.

(** No candidate is ever proved when no signature is accepted. *)
Section unsigned.
Context {C W : Type} (context : option C) (erase : guardian_firmware_erase_fn C W)
  (write : guardian_firmware_write_fn C W) (hash : guardian_firmware_hash_fn C W)
  (mark_pending : guardian_firmware_mark_pending_fn C W)
  (persist_floor : guardian_firmware_persist_floor_fn C W)
  (complete_pending : guardian_firmware_complete_pending_fn C W).
Context (laws : StagingLaws context erase write hash
  (trusted_verify g_guardian_firmware_trusted_keys) mark_pending persist_floor complete_pending).

Local Abbreviation device_ok :=
  (lifecycle_ok context erase write hash (trusted_verify g_guardian_firmware_trusted_keys)
     mark_pending persist_floor complete_pending).

Lemma unsigned_never_proved l image w : device_ok l image w -> ~ proved (lc_state l).
Proof.
  intros Hok Hp. destruct (lo_authentic _ _ _ _ _ _ _ _ _ _ _ Hok Hp) as [_ _ [w0 Hv]].
  apply Hv. cbn [trusted_verify fst].
  destruct (trusted_signature_spec g_guardian_firmware_trusted_keys context
    (man_signature_algorithm (lc_manifest l)) (man_key_id (lc_manifest l))
    (manifest_transcript (lc_manifest l)) 64%nat (man_signature (lc_manifest l))
    (man_signature_length (lc_manifest l)) committed_keys_typed) as [[H3|H3] H4]; [exact H3|].
  apply H4 in H3 as (_ & _ & _ & k & Hk & _). destruct (no_committed_key _ k Hk).
Qed.

Lemma unsigned_run os l w image confirmed :
  device_ok l image w -> Forall firmware_op_typed os ->
  let '(l', w', image', _) := run_firmware os l w image confirmed in
  device_ok l' image' w' /\
  fc_active_version_counter (lc_config l') = fc_active_version_counter (lc_config l).
Proof.
  intros Hl Hos. revert l w image confirmed Hl.
  induction Hos as [|o os Ho _ IH]; intros l w image confirmed Hl; [by split|].
  cbn [run_firmware].
  pose proof (firmware_step context erase write hash _ mark_pending persist_floor complete_pending
    o l image w Hl Ho) as Hstep.
  destruct (perform_firmware o l w) as [[r l'] w']. destruct Hstep as (l1 & -> & H1 & H2).
  cbn [from_option id].
  assert (Ha : fc_active_version_counter (lc_config l1) = fc_active_version_counter (lc_config l)).
  { destruct H2 as [[-> _]|(v & _ & Hs & _)]; [done|].
    destruct (unsigned_never_proved l image w Hl). by right. }
  rewrite <- Ha. exact (IH l1 w' _ _ H1).
Qed.
End unsigned.

(** A firmware signature verifies exactly under a production key.  For any table
    of keys, the verifier answers 1 if and only if the algorithm is Ed25519 with a
    64-byte signature and a message, the key identifier has exactly one entry, that
    entry is ACTIVE, Ed25519, approved for production with a non-zero provenance
    digest, and the primitive accepts under its public key; otherwise it answers
    0.  The committed table has no such entry: with it every verification fails. *)
Theorem trusted_signature_exact {C : Type} keys (context : option C) algorithm key_id message n sig sl :
  keys_typed keys ->
  let verify keys := guardian_firmware_trusted_signature_verify keys crypto_ed25519_check context
    algorithm key_id (Some message) n (Some sig) sl in
  (verify keys = 0 \/ verify keys = 1) /\
  (verify keys = 1 <-> n <> 0%nat /\ algorithm = GUARDIAN_FIRMWARE_SIGNATURE_ED25519 /\ sl = 64 /\
   exists k, production_key keys key_id k /\
     crypto_ed25519_check sig (key_public_key k) message n = 0) /\
  verify g_guardian_firmware_trusted_keys = 0.
Proof.
  intros Ht verify. destruct (trusted_signature_spec keys context algorithm key_id message n sig sl Ht)
    as [H1 H2]. split; [exact H1|]. split; [exact H2|].
  destruct (trusted_signature_spec g_guardian_firmware_trusted_keys context algorithm key_id message
    n sig sl committed_keys_typed) as [[H3|H3] H4]; [exact H3|].
  apply H4 in H3 as (_ & _ & _ & k & Hk & _). destruct (no_committed_key key_id k Hk).
Qed.

(** C34: The committed keys fail closed.  With the verifier over the committed table
    as its callback, and whatever the rest of the platform, no run of a lifecycle
    ever verifies, activates or confirms a candidate. *)
Theorem committed_keys_fail_closed {C W : Type} (context : option C) (erase : guardian_firmware_erase_fn C W)
    write hash mark_pending persist_floor complete_pending
    (laws : StagingLaws context erase write hash
       (trusted_verify g_guardian_firmware_trusted_keys) mark_pending persist_floor complete_pending)
    algorithm max_image_size active floor os w l w' image confirmed :
  configurable algorithm max_image_size active floor -> Forall firmware_op_typed os ->
  run_firmware os (configured_lifecycle context erase write hash
      (trusted_verify g_guardian_firmware_trusted_keys) mark_pending persist_floor complete_pending
      algorithm max_image_size active floor) w [] [] = (l, w', image, confirmed) ->
  ~ proved (lc_state l) /\ fc_active_version_counter (lc_config l) = active.
Proof.
  intros Hc Hos Hrun.
  destruct (configured_ok context erase write hash _ mark_pending persist_floor complete_pending
    algorithm max_image_size active floor w Hc) as [Hl _].
  pose proof (unsigned_run context erase write hash mark_pending persist_floor complete_pending
    laws os _ w [] [] Hl Hos) as Hr.
  rewrite Hrun in Hr. destruct Hr as [Hok Ha]. split; [by eapply unsigned_never_proved|].
  rewrite Ha, configured_eq by done. reflexivity.
Qed.
End properties.

(** ** Witnesses *)

Definition example_keys : list record_t :=
  [KEY_RECORD 7 ED25519 ACTIVE (replicate 32 3) APPROVED (replicate 32 9)].

(** A stand-in primitive: the signature starts with the key's first byte. *)
Definition example_check (sig key _ : list Z) (_ : nat) : Z :=
  if byte_at sig 0 =? byte_at key 0 then 0 else -1.

Lemma trusted_signature_exact_witness :
  guardian_firmware_trusted_signature_verify example_keys example_check (@None unit)
    GUARDIAN_FIRMWARE_SIGNATURE_ED25519 7 (Some [1; 2]) 2 (Some (replicate 64 3)) 64 = 1.
Proof.
  assert (Ht : keys_typed example_keys).
  { apply Forall_cons. split; [|constructor]. split; [|done]. by apply (bytes_replicate 32 9). }
  apply (trusted_signature_exact example_check example_keys (@None unit)
    GUARDIAN_FIRMWARE_SIGNATURE_ED25519 7 [1; 2] 2 (replicate 64 3) 64 Ht).
  split; [done|]. split; [done|]. split; [done|].
  exists (KEY_RECORD 7 ED25519 ACTIVE (replicate 32 3) APPROVED (replicate 32 9)).
  split; [|reflexivity]. split; [reflexivity|]. split; [done|]. split; [done|]. split; [done|].
  discriminate.
Defined.

#[global] Instance example_trusted_laws :
  StagingLaws None example_erase example_write example_hash
    (trusted_verify (C := unit) example_check g_guardian_firmware_trusted_keys)
    example_mark example_floor example_complete.
Proof.
  refine {| area := fun w : list Z => w |}; try done.
  - intros n w r w' [= <- <-] _. by rewrite length_replicate.
  - by intros off data len w r w' [= <- <-] _ _.
  - by intros n d w r d' w' [= <- <- <-] _ _.
Defined.

Lemma committed_keys_fail_closed_witness :
  exists l w image confirmed,
  run_firmware example_transfer (configured_lifecycle None example_erase example_write example_hash
      (trusted_verify example_check g_guardian_firmware_trusted_keys) example_mark example_floor
      example_complete GUARDIAN_FIRMWARE_SIGNATURE_ED25519 1000 7 7) [] [] []
    = (l, w, image, confirmed) /\ ~ proved (lc_state l).
Proof.
  destruct (run_firmware _ _ _ _ _) as [[[l w] image] confirmed] eqn:E.
  exists l, w, image, confirmed. split; [reflexivity|].
  exact (proj1 (committed_keys_fail_closed example_check None example_erase example_write
    example_hash example_mark example_floor example_complete example_trusted_laws
    GUARDIAN_FIRMWARE_SIGNATURE_ED25519 1000 7 7 example_transfer [] l w image confirmed
    example_configurable example_transfer_typed E)).
Defined.
