(* ===== verification/Frames.v ===== *)
(** * Replies

    The reply frames every command handler of the device builds in the response
    object it is given: an ERROR of one byte, or a RESPONSE whose payload the
    handler writes.  Each handler's file writes the same field stores out; the
    functions here are those stores; a store into the byte array of the payload
    keeps the low byte ([u8]).  [answers] is what a reply promises to the
    link that will encode it. *)

From S2P Require Import Prelude Crc32 Protocol.

(** The ERROR stores; the payload past its first byte is left as it was. *)
Definition reply_error (request response : guardian_frame_t) (error : Z) : guardian_frame_t :=
  FRAME GUARDIAN_MESSAGE_ERROR (frame_command request) GUARDIAN_SUPPORTED_FLAGS
    (frame_sequence request) 1 (blit (frame_payload response) 0 [u8 error]).

(** The RESPONSE stores, with the length and the payload the handler leaves. *)
Definition reply_response (request : guardian_frame_t) (payload_length : Z) (payload : list Z)
  : guardian_frame_t :=
  FRAME GUARDIAN_MESSAGE_RESPONSE (frame_command request) GUARDIAN_SUPPORTED_FLAGS
    (frame_sequence request) payload_length payload.

(** [guardian_frame_t x = {0}], or [memset] of one. *)
Definition zero_frame : guardian_frame_t :=
  FRAME 0 0 0 0 0 (replicate GUARDIAN_MAX_PAYLOAD_SIZE 0).

(** A reply correlated to its request that the encoder of [Protocol] accepts. *)
Record answers (request response : guardian_frame_t) : Prop := {
  answers_ok : frame_ok response;
  answers_type : frame_message_type response = GUARDIAN_MESSAGE_RESPONSE \/
                 frame_message_type response = GUARDIAN_MESSAGE_ERROR;
  answers_command : frame_command response = frame_command request;
  answers_sequence : frame_sequence response = frame_sequence request
}.

(** ** Payload stores *)

(** The payload array of a frame object. *)
Definition payload_object (p : list Z) : Prop :=
  length p = GUARDIAN_MAX_PAYLOAD_SIZE /\ bytes p.

Lemma store_object p off src :
  payload_object p -> (off + length src <= GUARDIAN_MAX_PAYLOAD_SIZE)%nat -> bytes src ->
  payload_object (blit p off src).
Proof.
  intros [Hl Hb] Hle Hs. split; [|by apply bytes_blit].
  rewrite blit_length; [done|lia].
Qed.

Lemma bytes_1 b : is_u8 b -> bytes [b].
Proof. intros H. by apply Forall_singleton. Qed.

Lemma zero_payload_object : payload_object (replicate GUARDIAN_MAX_PAYLOAD_SIZE 0).
Proof. split; [apply length_replicate|]. apply bytes_replicate. done. Qed.

Create HintDb frames.
#[export] Hint Resolve bytes_1 u8_range put_u16_be_bytes put_u32_be_bytes zero_payload_object : frames.

(** Closes [payload_object p] for a [p] built from a payload object by stores. *)
Ltac payload_stores :=
  repeat (apply store_object;
          [|rewrite ?put_u16_be_length, ?put_u32_be_length; cbn [length];
            unfold GUARDIAN_MAX_PAYLOAD_SIZE; lia|solve [auto with frames]]);
  try done.

(** ** Replies *)

Lemma zero_frame_object : frame_object zero_frame.
Proof. apply zero_payload_object. Qed.

Lemma error_answers request response error :
  frame_ok request -> frame_object response -> answers request (reply_error request response error).
Proof.
  intros [] Ho. destruct (store_object (frame_payload response) 0 [u8 error]) as [Hl Hb];
    [done|cbn; unfold GUARDIAN_MAX_PAYLOAD_SIZE; lia|auto with frames|].
  split; [|by right|done..]. split; cbn; try done.
Qed.

Lemma response_answers request payload_length payload :
  frame_ok request -> 0 <= payload_length <= 256 -> payload_object payload ->
  answers request (reply_response request payload_length payload).
Proof. intros [] ? []. split; [|by left|done..]. by split. Qed.
