(* ===== verification/DeviceService.v ===== *)
(** * Read-only device commands

    Model of [firmware/App/Src/guardian_device_service.c]: the validation of the
    device's identity and the handlers of PING, DEVICE_INFO and GET_STATUS. *)

From S2P Require Import Prelude Crc32 Protocol Frames.

Definition GUARDIAN_DEVICE_MODEL_MAX_LENGTH : nat := 32.
Definition GUARDIAN_DEVICE_PAYLOAD_SCHEMA_VERSION : Z := 0x01.

Inductive guardian_device_state_t :=
  | GUARDIAN_DEVICE_STATE_BOOT
  | GUARDIAN_DEVICE_STATE_IDLE
  | GUARDIAN_DEVICE_STATE_RUNNING
  | GUARDIAN_DEVICE_STATE_DEGRADED
  | GUARDIAN_DEVICE_STATE_FAULT.

#[global] Instance guardian_device_state_t_eq_dec : EqDecision guardian_device_state_t.
Proof. solve_decision. Defined.

Definition device_state_value (s : guardian_device_state_t) : Z :=
  match s with
  | GUARDIAN_DEVICE_STATE_BOOT => 0x00
  | GUARDIAN_DEVICE_STATE_IDLE => 0x01
  | GUARDIAN_DEVICE_STATE_RUNNING => 0x02
  | GUARDIAN_DEVICE_STATE_DEGRADED => 0x03
  | GUARDIAN_DEVICE_STATE_FAULT => 0x04
  end.

(** [model] is the memory the pointer of the identity points to. *)
Record guardian_device_identity_t := IDENTITY {
  id_model : option (list Z);
  id_firmware_major : Z;
  id_firmware_minor : Z;
  id_firmware_patch : Z;
  id_device_id : Z
}.

Record guardian_device_runtime_t := RUNTIME {
  rt_state : guardian_device_state_t;
  rt_uptime_seconds : Z;
  rt_rx_frames : Z;
  rt_tx_frames : Z;
  rt_protocol_errors : Z;
  rt_last_error : Z
}.

Record guardian_device_service_t := SERVICE { service_identity : guardian_device_identity_t }.

Definition guardian_device_write_u32_be (value : Z) : list Z := put_u32_be value.

(** The scanning loop: at most [budget] further bytes are read. *)
Fixpoint model_scan (model : list Z) (length : nat) (budget : nat) : nat :=
  match budget with
  | O => length
  | S b => if byte_at model length =? 0 then length else model_scan model (length + 1) b
  end.

Definition guardian_device_model_length (model : option (list Z)) : nat :=
  match model with
  | None => 0
  | Some m => model_scan m 0 (GUARDIAN_DEVICE_MODEL_MAX_LENGTH + 1)
  end.

Definition guardian_device_make_error (request response : guardian_frame_t) (error_code : Z)
  : guardian_frame_t := reply_error request response error_code.

Definition guardian_device_handle_ping (request response : guardian_frame_t) : guardian_frame_t :=
  let p := blit (frame_payload response) 0 [0x50] in
  let p := blit p 1 [0x4F] in
  let p := blit p 2 [0x4E] in
  let p := blit p 3 [0x47] in
  reply_response request 4 p.

Definition guardian_device_handle_info (service : guardian_device_service_t)
    (request response : guardian_frame_t) : guardian_frame_t :=
  let i := service_identity service in
  let model_length := guardian_device_model_length (id_model i) in
  let p := blit (frame_payload response) 0 [GUARDIAN_DEVICE_PAYLOAD_SCHEMA_VERSION] in
  let p := blit p 1 [u8 (id_firmware_major i)] in
  let p := blit p 2 [u8 (id_firmware_minor i)] in
  let p := blit p 3 [u8 (id_firmware_patch i)] in
  let p := blit p 4 (guardian_device_write_u32_be (id_device_id i)) in
  let p := blit p 8 [u8 (Z.of_nat model_length)] in
  let p := blit p 9 (take model_length (default [] (id_model i))) in
  reply_response request (u16 (9 + u16 (Z.of_nat model_length))) p.

Definition guardian_device_handle_status (runtime : guardian_device_runtime_t)
    (request response : guardian_frame_t) : guardian_frame_t :=
  let p := blit (frame_payload response) 0 [GUARDIAN_DEVICE_PAYLOAD_SCHEMA_VERSION] in
  let p := blit p 1 [u8 (device_state_value (rt_state runtime))] in
  let p := blit p 2 (guardian_device_write_u32_be (rt_uptime_seconds runtime)) in
  let p := blit p 6 (guardian_device_write_u32_be (rt_rx_frames runtime)) in
  let p := blit p 10 (guardian_device_write_u32_be (rt_tx_frames runtime)) in
  let p := blit p 14 (guardian_device_write_u32_be (rt_protocol_errors runtime)) in
  let p := blit p 18 [u8 (rt_last_error runtime)] in
  reply_response request 19 p.

Definition guardian_device_service_init (service : option guardian_device_service_t)
    (identity : option guardian_device_identity_t)
  : guardian_protocol_result_t * option guardian_device_service_t :=
  match service, identity with
  | Some _, Some i =>
      let model_length := guardian_device_model_length (id_model i) in
      early (model_length =? 0)%nat with (GUARDIAN_PROTOCOL_ERROR_LENGTH_MISMATCH, service) ;;
      early (GUARDIAN_DEVICE_MODEL_MAX_LENGTH <? model_length)%nat
        with (GUARDIAN_PROTOCOL_ERROR_PAYLOAD_TOO_LARGE, service) ;;
      (GUARDIAN_PROTOCOL_OK, Some (SERVICE i))
  | _, _ => (GUARDIAN_PROTOCOL_ERROR_NULL_ARGUMENT, service)
  end.

Definition guardian_device_service_handle (service : option guardian_device_service_t)
    (runtime : option guardian_device_runtime_t) (request response : option guardian_frame_t)
  : guardian_protocol_result_t * option guardian_frame_t :=
  match service, runtime, request, response with
  | Some s, Some rt, Some req, Some resp =>
      early negb (frame_message_type req =? GUARDIAN_MESSAGE_REQUEST)
        with (GUARDIAN_PROTOCOL_OK,
              Some (guardian_device_make_error req resp GUARDIAN_ERROR_MALFORMED_FRAME)) ;;
      early negb (frame_payload_length req =? 0)
        with (GUARDIAN_PROTOCOL_OK,
              Some (guardian_device_make_error req resp GUARDIAN_ERROR_INVALID_PAYLOAD)) ;;
      early frame_command req =? GUARDIAN_COMMAND_PING
        with (GUARDIAN_PROTOCOL_OK, Some (guardian_device_handle_ping req resp)) ;;
      early frame_command req =? GUARDIAN_COMMAND_DEVICE_INFO
        with (GUARDIAN_PROTOCOL_OK, Some (guardian_device_handle_info s req resp)) ;;
      early frame_command req =? GUARDIAN_COMMAND_GET_STATUS
        with (GUARDIAN_PROTOCOL_OK, Some (guardian_device_handle_status rt req resp)) ;;
      (GUARDIAN_PROTOCOL_OK,
       Some (guardian_device_make_error req resp GUARDIAN_ERROR_UNKNOWN_COMMAND))
  | _, _, _, _ => (GUARDIAN_PROTOCOL_ERROR_NULL_ARGUMENT, response)
  end.
