(* ===== verification/Telemetry.v ===== *)
(** * Machine telemetry

    Model of [firmware/Telemetry/Src/guardian_telemetry.c]: the configuration
    command, the millisecond scheduler and the frames it emits. *)

From S2P Require Import Prelude Crc32 Protocol Frames DeviceService.

Definition GUARDIAN_TELEMETRY_SCHEMA_VERSION : Z := 0x01.
Definition GUARDIAN_TELEMETRY_MIN_PERIOD_MS : Z := 100.
Definition GUARDIAN_TELEMETRY_MAX_PERIOD_MS : Z := 60000.
Definition GUARDIAN_TELEMETRY_DEFAULT_PERIOD_MS : Z := 1000.

Record guardian_machine_measurements_t := MEASUREMENTS {
  mm_temperature_centi_c : Z;           (* int16_t *)
  mm_vibration_mg_rms : Z;
  mm_current_ma : Z;
  mm_rpm : Z;
  mm_supply_mv : Z;
  mm_status_flags : Z
}.

Record guardian_telemetry_t := TELEMETRY {
  tm_enabled : Z;
  tm_period_ms : Z;
  tm_elapsed_ms : Z;
  tm_timestamp_ms : Z;
  tm_next_sequence : Z;
  tm_measurements : guardian_machine_measurements_t
}.

Definition guardian_telemetry_read_u16_be (input : list Z) : Z :=
  let value := u16 (u16 (Z.shiftl (byte_at input 0) 8)) in
  u16 (Z.lor value (byte_at input 1)).
Definition guardian_telemetry_write_u16_be (value : Z) : list Z := put_u16_be value.
Definition guardian_telemetry_write_i16_be (value : Z) : list Z :=
  let encoded := u16 value in guardian_telemetry_write_u16_be encoded.
Definition guardian_telemetry_write_u32_be (value : Z) : list Z := put_u32_be value.

Definition guardian_telemetry_make_error (request response : guardian_frame_t) (error_code : Z)
  : guardian_frame_t := reply_error request response error_code.

Definition guardian_telemetry_make_config_response (t : guardian_telemetry_t)
    (request response : guardian_frame_t) : guardian_frame_t :=
  let p := blit (frame_payload response) 0 [GUARDIAN_TELEMETRY_SCHEMA_VERSION] in
  let p := blit p 1 [u8 (tm_enabled t)] in
  let p := blit p 2 (guardian_telemetry_write_u16_be (tm_period_ms t)) in
  reply_response request 4 p.

Definition guardian_telemetry_init (telemetry : option guardian_telemetry_t)
  : option guardian_telemetry_t :=
  match telemetry with
  | None => None
  | Some _ => Some (TELEMETRY 0 GUARDIAN_TELEMETRY_DEFAULT_PERIOD_MS 0 0 1
                      (MEASUREMENTS 0 0 0 0 0 0))
  end.

Definition guardian_telemetry_tick_1ms (telemetry : option guardian_telemetry_t)
  : option guardian_telemetry_t :=
  match telemetry with
  | None => None
  | Some t =>
      let elapsed := if negb (tm_enabled t =? 0) && negb (tm_elapsed_ms t =? UINT32_MAX)
                     then u32 (tm_elapsed_ms t + 1) else tm_elapsed_ms t in
      Some (TELEMETRY (tm_enabled t) (tm_period_ms t) elapsed (u32 (tm_timestamp_ms t + 1))
              (tm_next_sequence t) (tm_measurements t))
  end.

Definition guardian_telemetry_set_measurements (telemetry : option guardian_telemetry_t)
    (measurements : option guardian_machine_measurements_t) : option guardian_telemetry_t :=
  match telemetry, measurements with
  | Some t, Some m => Some (TELEMETRY (tm_enabled t) (tm_period_ms t) (tm_elapsed_ms t)
                              (tm_timestamp_ms t) (tm_next_sequence t) m)
  | _, _ => telemetry
  end.

Definition guardian_telemetry_handle_request (telemetry : option guardian_telemetry_t)
    (request response : option guardian_frame_t)
  : guardian_protocol_result_t * option guardian_telemetry_t * option guardian_frame_t :=
  match telemetry, request, response with
  | Some t, Some req, Some resp =>
      let fail e := (GUARDIAN_PROTOCOL_OK, telemetry,
                     Some (guardian_telemetry_make_error req resp e)) in
      early negb (frame_message_type req =? GUARDIAN_MESSAGE_REQUEST)
        with fail GUARDIAN_ERROR_MALFORMED_FRAME ;;
      early negb (frame_command req =? GUARDIAN_COMMAND_SET_TELEMETRY)
        with fail GUARDIAN_ERROR_UNKNOWN_COMMAND ;;
      early negb (frame_payload_length req =? 4) with fail GUARDIAN_ERROR_INVALID_PAYLOAD ;;
      early negb (byte_at (frame_payload req) 0 =? GUARDIAN_TELEMETRY_SCHEMA_VERSION)
        with fail GUARDIAN_ERROR_INVALID_PAYLOAD ;;
      early 1 <? byte_at (frame_payload req) 1 with fail GUARDIAN_ERROR_INVALID_PAYLOAD ;;
      let requested_period_ms :=
        guardian_telemetry_read_u16_be (drop 2 (frame_payload req)) in
      early (requested_period_ms <? GUARDIAN_TELEMETRY_MIN_PERIOD_MS)
            || (GUARDIAN_TELEMETRY_MAX_PERIOD_MS <? requested_period_ms)
        with fail GUARDIAN_ERROR_INVALID_PAYLOAD ;;
      let t := TELEMETRY (byte_at (frame_payload req) 1) requested_period_ms 0
                 (tm_timestamp_ms t) (tm_next_sequence t) (tm_measurements t) in
      (GUARDIAN_PROTOCOL_OK, Some t, Some (guardian_telemetry_make_config_response t req resp))
  | _, _, _ => (GUARDIAN_PROTOCOL_ERROR_NULL_ARGUMENT, telemetry, response)
  end.

Definition guardian_telemetry_make_due_frame (telemetry : option guardian_telemetry_t)
    (state : guardian_device_state_t) (frame : option guardian_frame_t)
  : Z * option guardian_telemetry_t * option guardian_frame_t :=
  match telemetry, frame with
  | Some t, Some f =>
      early tm_enabled t =? 0 with (0, telemetry, frame) ;;
      early tm_elapsed_ms t <? tm_period_ms t with (0, telemetry, frame) ;;
      let next := if tm_next_sequence t =? UINT32_MAX then 1
                  else u32 (tm_next_sequence t + 1) in
      let m := tm_measurements t in
      let p := blit (frame_payload f) 0 [GUARDIAN_TELEMETRY_SCHEMA_VERSION] in
      let p := blit p 1 [u8 (device_state_value state)] in
      let p := blit p 2 (guardian_telemetry_write_u32_be (tm_timestamp_ms t)) in
      let p := blit p 6 (guardian_telemetry_write_i16_be (mm_temperature_centi_c m)) in
      let p := blit p 8 (guardian_telemetry_write_u16_be (mm_vibration_mg_rms m)) in
      let p := blit p 10 (guardian_telemetry_write_u16_be (mm_current_ma m)) in
      let p := blit p 12 (guardian_telemetry_write_u16_be (mm_rpm m)) in
      let p := blit p 14 (guardian_telemetry_write_u16_be (mm_supply_mv m)) in
      let p := blit p 16 (guardian_telemetry_write_u16_be (mm_status_flags m)) in
      (1, Some (TELEMETRY (tm_enabled t) (tm_period_ms t) 0 (tm_timestamp_ms t) next m),
       Some (FRAME GUARDIAN_MESSAGE_TELEMETRY GUARDIAN_COMMAND_MACHINE_TELEMETRY
               GUARDIAN_SUPPORTED_FLAGS (tm_next_sequence t) 18 p))
  | _, _ => (0, telemetry, frame)
  end.
