(* ===== verification/Acquisition.v ===== *)
(** * Acquisition

    Model of [firmware/Acquisition/Src/guardian_acquisition.c]: a block of raw ADC
    codes of five interleaved channels becomes one calibrated measurement and,
    when asked for, the vibration samples the signal processing analyzes.  All
    the arithmetic is on integers; every conversion that can lose bits and every
    operation of a fixed width is written with its wrap-around. *)

From S2P Require Import Prelude Crc32 Protocol Frames DeviceService Telemetry.

(** ** Data of guardian_acquisition.h *)

Definition GUARDIAN_ACQUISITION_ADC_MAX_CODE : Z := 4095.
Definition GUARDIAN_ACQUISITION_FACTORY_VDDA_MV : Z := 3300.
Definition GUARDIAN_ACQUISITION_CHANNEL_COUNT : nat := 5.
Definition GUARDIAN_ACQUISITION_FRAMES_PER_BLOCK : nat := 64.

Definition GUARDIAN_ACQUISITION_STATUS_VALID : Z := 0x0001.
Definition GUARDIAN_ACQUISITION_STATUS_ADC_SATURATED : Z := 0x0002.
Definition GUARDIAN_ACQUISITION_STATUS_RPM_STALE : Z := 0x0004.
Definition GUARDIAN_ACQUISITION_STATUS_DMA_DROP : Z := 0x0008.
Definition GUARDIAN_ACQUISITION_STATUS_DEFAULT_CALIBRATION : Z := 0x0010.
Definition GUARDIAN_ACQUISITION_STATUS_ADC_ERROR : Z := 0x0020.
Definition GUARDIAN_ACQUISITION_STATUS_DMA_ERROR : Z := 0x0040.

(** [guardian_acquisition_channel_t] *)
Definition GUARDIAN_ACQUISITION_CHANNEL_VIBRATION : nat := 0.
Definition GUARDIAN_ACQUISITION_CHANNEL_CURRENT : nat := 1.
Definition GUARDIAN_ACQUISITION_CHANNEL_SUPPLY : nat := 2.
Definition GUARDIAN_ACQUISITION_CHANNEL_TEMPERATURE : nat := 3.
Definition GUARDIAN_ACQUISITION_CHANNEL_VREFINT : nat := 4.

Inductive guardian_acquisition_result_t :=
  | GUARDIAN_ACQUISITION_OK
  | GUARDIAN_ACQUISITION_ERROR_NULL_ARGUMENT
  | GUARDIAN_ACQUISITION_ERROR_LENGTH
  | GUARDIAN_ACQUISITION_ERROR_CALIBRATION
  | GUARDIAN_ACQUISITION_ERROR_REFERENCE.

#[global] Instance guardian_acquisition_result_t_eq_dec : EqDecision guardian_acquisition_result_t.
Proof. solve_decision. Defined.

Record guardian_acquisition_calibration_t := CALIBRATION {
  cal_vrefint_cal_code : Z;
  cal_temperature_cal_30_code : Z;
  cal_temperature_cal_110_code : Z;
  cal_vibration_zero_code : Z;
  cal_vibration_mg_per_code_num : Z;
  cal_vibration_mg_per_code_den : Z;
  cal_current_zero_code : Z;
  cal_current_ma_per_code_num : Z;
  cal_current_ma_per_code_den : Z;
  cal_supply_divider_num : Z;
  cal_supply_divider_den : Z;
  cal_base_status_flags : Z
}.

Record guardian_acquisition_aux_t := AUX {
  aux_rpm : Z;
  aux_rpm_valid : Z;
  aux_hardware_status_flags : Z
}.

Record guardian_acquisition_signal_block_t := SIGNAL_BLOCK {
  sb_sequence : Z;
  sb_sample_rate_hz : Z;
  sb_sample_count : Z;
  sb_vibration_mg : list Z;             (* int16_t vibration_mg[64] *)
  sb_status_flags : Z
}.

Record guardian_acquisition_stats_t := ACQUISITION_STATS {
  as_blocks_processed : Z;
  as_invalid_blocks : Z;
  as_saturated_blocks : Z
}.

Record guardian_acquisition_t := ACQUISITION {
  acq_calibration : guardian_acquisition_calibration_t;
  acq_latest : guardian_machine_measurements_t;
  acq_next_block_sequence : Z;
  acq_stats : guardian_acquisition_stats_t
}.

Local Abbreviation calibration_t := guardian_acquisition_calibration_t.

(** ** Integer helpers *)

Definition guardian_acquisition_increment_u32 (value : Z) : Z :=
  if negb (value =? UINT32_MAX) then u32 (value + 1) else value.

(** [while (bit > remainder) bit >>= 2U;]: 2^62 is shifted out after 32 rounds. *)
Fixpoint isqrt_align (fuel : nat) (bit remainder : Z) : Z :=
  match fuel with
  | O => bit
  | S fuel => if remainder <? bit then isqrt_align fuel (Z.shiftr bit 2) remainder else bit
  end.

(** [while (bit != 0U) ...] *)
Fixpoint isqrt_digits (fuel : nat) (bit remainder result : Z) : Z :=
  match fuel with
  | O => result
  | S fuel =>
      if negb (bit =? 0) then
        if u64 (result + bit) <=? remainder
        then isqrt_digits fuel (Z.shiftr bit 2) (u64 (remainder - u64 (result + bit)))
               (u64 (Z.shiftr result 1 + bit))
        else isqrt_digits fuel (Z.shiftr bit 2) remainder (Z.shiftr result 1)
      else result
  end.

Definition guardian_acquisition_isqrt_u64 (value : Z) : Z :=
  let bit := isqrt_align 32 (2 ^ 62) value in
  let result := isqrt_digits 32 bit value 0 in
  early UINT32_MAX <? result with UINT32_MAX ;;
  u32 result.

Definition guardian_acquisition_u16 (value : Z) : Z :=
  early 65535 <? value with 65535 ;; u16 value.

Definition guardian_acquisition_i16 (value : Z) : Z :=
  early 32767 <? value with 32767 ;;
  early value <? -32768 with -32768 ;;
  i16 value.

Definition guardian_acquisition_normalize_code (code vdda_mv : Z) : Z :=
  let scaled := u64 (code * vdda_mv) in
  let scaled := u64 (scaled + GUARDIAN_ACQUISITION_FACTORY_VDDA_MV `div` 2) in
  let scaled := scaled `div` GUARDIAN_ACQUISITION_FACTORY_VDDA_MV in
  early UINT32_MAX <? scaled with UINT32_MAX ;;
  u32 scaled.

Definition guardian_acquisition_vibration_sample_mg (normalized_delta : Z) (c : calibration_t) : Z :=
  let scaled := i64 (normalized_delta * cal_vibration_mg_per_code_num c) in
  let denominator := cal_vibration_mg_per_code_den c in
  let scaled := if 0 <=? scaled then i64 (scaled + Z.quot denominator 2)
                else i64 (scaled - Z.quot denominator 2) in
  guardian_acquisition_i16 (Z.quot scaled denominator).

Definition guardian_acquisition_calibration_valid (c : calibration_t) : bool :=
  early cal_vrefint_cal_code c =? 0 with false ;;
  early cal_temperature_cal_30_code c =? cal_temperature_cal_110_code c with false ;;
  early cal_vibration_mg_per_code_den c =? 0 with false ;;
  early cal_current_ma_per_code_den c =? 0 with false ;;
  early cal_supply_divider_den c =? 0 with false ;;
  true.

(** ** Initialization *)

Definition guardian_acquisition_init (acquisition : option guardian_acquisition_t)
    (calibration : option calibration_t)
  : guardian_acquisition_result_t * option guardian_acquisition_t :=
  match acquisition, calibration with
  | Some _, Some c =>
      early negb (guardian_acquisition_calibration_valid c)
        with (GUARDIAN_ACQUISITION_ERROR_CALIBRATION, acquisition) ;;
      (GUARDIAN_ACQUISITION_OK,
       Some (ACQUISITION c (MEASUREMENTS 0 0 0 0 0 0) 0 (ACQUISITION_STATS 0 0 0)))
  | _, _ => (GUARDIAN_ACQUISITION_ERROR_NULL_ARGUMENT, acquisition)
  end.

(** ** Processing of one block *)

(** The first pair of loops: [channel_sum] and [saturated]. *)
Definition accumulate_sample (samples : list Z) (frame_index : nat)
    (acc : list Z * bool) (channel_index : nat) : list Z * bool :=
  let '(channel_sum, saturated) := acc in
  let sample :=
    byte_at samples (frame_index * GUARDIAN_ACQUISITION_CHANNEL_COUNT + channel_index) in
  (<[channel_index := u64 (byte_at channel_sum channel_index + sample)]> channel_sum,
   saturated || (sample =? 0) || (GUARDIAN_ACQUISITION_ADC_MAX_CODE <=? sample)).

Definition accumulate_block (samples : list Z) (frame_count : nat) : list Z * bool :=
  foldl (fun acc frame_index =>
           foldl (accumulate_sample samples frame_index) acc
             (seq 0 GUARDIAN_ACQUISITION_CHANNEL_COUNT))
    (replicate GUARDIAN_ACQUISITION_CHANNEL_COUNT 0, false) (seq 0 frame_count).

(** The loop that rounds the channel averages. *)
Definition channel_average (channel_sum : list Z) (frame_count : nat) (channel : nat) : Z :=
  let rounded := u64 (byte_at channel_sum channel + Z.of_nat frame_count `div` 2) in
  u32 (rounded `div` Z.of_nat frame_count).

Definition supply_voltage (c : calibration_t) (vrefint_average : Z) : Z :=
  u32 (u64 (u64 (GUARDIAN_ACQUISITION_FACTORY_VDDA_MV * cal_vrefint_cal_code c)
            + vrefint_average `div` 2) `div` vrefint_average).

(** One iteration of the vibration loop: the store into the signal block, when
    there is one, and the sum of squares. *)
Definition vibration_step (samples : list Z) (c : calibration_t) (vdda_mv : Z)
    (acc : option guardian_acquisition_signal_block_t * Z) (frame_index : nat)
  : option guardian_acquisition_signal_block_t * Z :=
  let '(signal_block, vibration_square_sum) := acc in
  let raw_vibration := byte_at samples (frame_index * GUARDIAN_ACQUISITION_CHANNEL_COUNT) in
  let normalized_vibration := guardian_acquisition_normalize_code raw_vibration vdda_mv in
  let normalized_delta := i32 (i32 normalized_vibration - cal_vibration_zero_code c) in
  (match signal_block with
   | Some b =>
       Some (SIGNAL_BLOCK (sb_sequence b) (sb_sample_rate_hz b) (sb_sample_count b)
               (<[frame_index := guardian_acquisition_vibration_sample_mg normalized_delta c]>
                  (sb_vibration_mg b))
               (sb_status_flags b))
   | None => None
   end,
   u64 (vibration_square_sum + u64 (i64 (normalized_delta * normalized_delta)))).

Definition measure_temperature (c : calibration_t) (temperature_average vdda_mv : Z) : Z :=
  let normalized_temperature_code :=
    guardian_acquisition_normalize_code temperature_average vdda_mv in
  let temperature_span :=
    i32 (cal_temperature_cal_110_code c - cal_temperature_cal_30_code c) in
  let temperature_offset :=
    i32 (i32 normalized_temperature_code - cal_temperature_cal_30_code c) in
  i64 (3000 + Z.quot (i64 (temperature_offset * 8000)) temperature_span).

Definition measure_vibration (c : calibration_t) (vibration_square_sum : Z) (frame_count : nat) : Z :=
  let vibration_rms_code :=
    guardian_acquisition_isqrt_u64 (vibration_square_sum `div` Z.of_nat frame_count) in
  u64 (vibration_rms_code * cal_vibration_mg_per_code_num c)
    `div` cal_vibration_mg_per_code_den c.

Definition measure_current (c : calibration_t) (current_average vdda_mv : Z) : Z :=
  let normalized_current_code := guardian_acquisition_normalize_code current_average vdda_mv in
  let current_delta := i32 (i32 normalized_current_code - cal_current_zero_code c) in
  let current_delta := if current_delta <? 0 then 0 else current_delta in
  u64 (u32 current_delta * cal_current_ma_per_code_num c) `div` cal_current_ma_per_code_den c.

Definition measure_supply (c : calibration_t) (supply_average vdda_mv : Z) : Z :=
  let supply_mv := u64 (supply_average * vdda_mv) `div` GUARDIAN_ACQUISITION_ADC_MAX_CODE in
  u64 (supply_mv * cal_supply_divider_num c) `div` cal_supply_divider_den c.

Definition count_invalid (a : guardian_acquisition_t) : guardian_acquisition_t :=
  ACQUISITION (acq_calibration a) (acq_latest a) (acq_next_block_sequence a)
    (ACQUISITION_STATS (as_blocks_processed (acq_stats a))
       (guardian_acquisition_increment_u32 (as_invalid_blocks (acq_stats a)))
       (as_saturated_blocks (acq_stats a))).

Definition zero_signal_block : guardian_acquisition_signal_block_t :=
  SIGNAL_BLOCK 0 0 0 (replicate GUARDIAN_ACQUISITION_FRAMES_PER_BLOCK 0) 0.

Definition measurement_status (c : calibration_t) (aux : guardian_acquisition_aux_t)
    (saturated : bool) : Z :=
  let status_flags := Z.lor (cal_base_status_flags c) (aux_hardware_status_flags aux) in
  let status_flags := Z.lor status_flags GUARDIAN_ACQUISITION_STATUS_VALID in
  let status_flags := if aux_rpm_valid aux =? 0
                      then Z.lor status_flags GUARDIAN_ACQUISITION_STATUS_RPM_STALE
                      else status_flags in
  if saturated then Z.lor status_flags GUARDIAN_ACQUISITION_STATUS_ADC_SATURATED
  else status_flags.

(** From the channel averages to the end of the function. *)
Definition publish_block (a : guardian_acquisition_t) (samples : list Z) (frame_count : nat)
    (channel_sum : list Z) (saturated : bool) (aux : guardian_acquisition_aux_t)
    (sample_rate_hz : Z) (signal_block : option guardian_acquisition_signal_block_t)
  : guardian_acquisition_result_t * option guardian_acquisition_t *
    option guardian_acquisition_signal_block_t :=
  let c := acq_calibration a in
  let average := channel_average channel_sum frame_count in
  early average GUARDIAN_ACQUISITION_CHANNEL_VREFINT =? 0
    with (GUARDIAN_ACQUISITION_ERROR_REFERENCE, Some (count_invalid a), signal_block) ;;
  let vdda_mv := supply_voltage c (average GUARDIAN_ACQUISITION_CHANNEL_VREFINT) in
  let '(signal_block, vibration_square_sum) :=
    foldl (vibration_step samples c vdda_mv) (signal_block, 0) (seq 0 frame_count) in
  let measurements :=
    MEASUREMENTS
      (guardian_acquisition_i16
         (measure_temperature c (average GUARDIAN_ACQUISITION_CHANNEL_TEMPERATURE) vdda_mv))
      (guardian_acquisition_u16 (measure_vibration c vibration_square_sum frame_count))
      (guardian_acquisition_u16
         (measure_current c (average GUARDIAN_ACQUISITION_CHANNEL_CURRENT) vdda_mv))
      (if negb (aux_rpm_valid aux =? 0) then aux_rpm aux else 0)
      (guardian_acquisition_u16
         (measure_supply c (average GUARDIAN_ACQUISITION_CHANNEL_SUPPLY) vdda_mv))
      (measurement_status c aux saturated) in
  let signal_block :=
    match signal_block with
    | Some b => Some (SIGNAL_BLOCK (acq_next_block_sequence a) sample_rate_hz
                        (u16 (Z.of_nat frame_count)) (sb_vibration_mg b)
                        (mm_status_flags measurements))
    | None => None
    end in
  let stats := acq_stats a in
  (GUARDIAN_ACQUISITION_OK,
   Some (ACQUISITION c measurements (u32 (acq_next_block_sequence a + 1))
           (ACQUISITION_STATS
              (guardian_acquisition_increment_u32 (as_blocks_processed stats))
              (as_invalid_blocks stats)
              (if saturated
               then guardian_acquisition_increment_u32 (as_saturated_blocks stats)
               else as_saturated_blocks stats))),
   signal_block).

Definition guardian_acquisition_process_block_ex (acquisition : option guardian_acquisition_t)
    (samples : option (list Z)) (sample_count : nat) (aux : option guardian_acquisition_aux_t)
    (sample_rate_hz : Z) (signal_block : option guardian_acquisition_signal_block_t)
  : guardian_acquisition_result_t * option guardian_acquisition_t *
    option guardian_acquisition_signal_block_t :=
  match acquisition, samples, aux with
  | Some a, Some samples, Some aux =>
      early negb (guardian_acquisition_calibration_valid (acq_calibration a))
        with (GUARDIAN_ACQUISITION_ERROR_CALIBRATION, Some (count_invalid a), signal_block) ;;
      early (sample_count =? 0)%nat
            || negb (sample_count `mod` GUARDIAN_ACQUISITION_CHANNEL_COUNT =? 0)%nat
        with (GUARDIAN_ACQUISITION_ERROR_LENGTH, Some (count_invalid a), signal_block) ;;
      let frame_count := (sample_count `div` GUARDIAN_ACQUISITION_CHANNEL_COUNT)%nat in
      early (GUARDIAN_ACQUISITION_FRAMES_PER_BLOCK <? frame_count)%nat
        with (GUARDIAN_ACQUISITION_ERROR_LENGTH, Some (count_invalid a), signal_block) ;;
      early negb (is_null signal_block) && (sample_rate_hz =? 0)
        with (GUARDIAN_ACQUISITION_ERROR_LENGTH, Some (count_invalid a), signal_block) ;;
      let signal_block := match signal_block with
                          | Some _ => Some zero_signal_block
                          | None => None
                          end in
      let '(channel_sum, saturated) := accumulate_block samples frame_count in
      publish_block a samples frame_count channel_sum saturated aux sample_rate_hz signal_block
  | _, _, _ => (GUARDIAN_ACQUISITION_ERROR_NULL_ARGUMENT, acquisition, signal_block)
  end.

Definition guardian_acquisition_process_block (acquisition : option guardian_acquisition_t)
    (samples : option (list Z)) (sample_count : nat) (aux : option guardian_acquisition_aux_t)
  : guardian_acquisition_result_t * option guardian_acquisition_t :=
  let '(result, acquisition, _) :=
    guardian_acquisition_process_block_ex acquisition samples sample_count aux 0 None in
  (result, acquisition).

Definition guardian_acquisition_latest (acquisition : option guardian_acquisition_t)
  : guardian_machine_measurements_t :=
  match acquisition with None => MEASUREMENTS 0 0 0 0 0 0 | Some a => acq_latest a end.

Definition guardian_acquisition_stats (acquisition : option guardian_acquisition_t)
  : guardian_acquisition_stats_t :=
  match acquisition with None => ACQUISITION_STATS 0 0 0 | Some a => acq_stats a end.

(** ** The integer square root *)

Lemma shiftr_2 z : Z.shiftr z 2 = z `div` 4.
Proof. by rewrite shiftr_div by lia. Qed.

Lemma shiftr_1 z : Z.shiftr z 1 = z `div` 2.
Proof. by rewrite shiftr_div by lia. Qed.

Lemma pow4_step k : 2 ^ (2 * Z.of_nat (S k)) = 4 * 2 ^ (2 * Z.of_nat k).
Proof. replace (2 * Z.of_nat (S k)) with (2 * Z.of_nat k + 2) by lia. rewrite Z.pow_add_r; lia. Qed.

Lemma pow_double k : 2 ^ (2 * Z.of_nat k) = 2 ^ Z.of_nat k * 2 ^ Z.of_nat k.
Proof. rewrite <- Z.pow_add_r by lia. f_equal. lia. Qed.

(** Aligning never skips a digit: the root fits below the bit it stops at. *)
Lemma isqrt_align_spec k : forall fuel v,
  (k < fuel)%nat -> 0 <= v < 2 ^ (2 * Z.of_nat (S k)) ->
  exists j, (j <= S k)%nat /\
    isqrt_align fuel (2 ^ (2 * Z.of_nat k)) v =
      (if (j =? 0)%nat then 0 else 2 ^ (2 * Z.of_nat (j - 1))) /\
    0 <= v < 2 ^ (2 * Z.of_nat j).
Proof.
  induction k as [|k IH]; intros fuel v Hf Hv; (destruct fuel as [|fuel]; [lia|]);
    cbn [isqrt_align].
  - change (2 ^ (2 * Z.of_nat 0)) with 1. destruct (Z.ltb_spec v 1) as [H|H].
    + exists 0%nat. split_and!; [lia| |cbn; lia..].
      assert (v = 0) as -> by lia. by destruct fuel.
    + exists 1%nat. split_and!; [lia|done|lia..].
  - destruct (Z.ltb_spec v (2 ^ (2 * Z.of_nat (S k)))) as [H|H].
    + rewrite shiftr_2, pow4_step.
      replace (4 * 2 ^ (2 * Z.of_nat k)) with (2 ^ (2 * Z.of_nat k) * 4) by lia.
      rewrite Z.div_mul by lia.
      destruct (IH fuel v) as (j & Hj & E & Hb); [lia|lia|]. exists j. split_and!; [lia|done|lia..].
    + exists (S (S k)). split_and!; [lia| |lia..]. by replace (S (S k) - 1)%nat with (S k) by lia.
Qed.

(** The digit loop: [a] is the part of the root found, a multiple of [2 ^ (k+1)]. *)
Lemma isqrt_digits_spec k : forall fuel a v,
  (k < fuel)%nat -> (k < 32)%nat -> 0 <= a -> a * a <= v -> v < 2 ^ 64 ->
  v < (a + 2 ^ Z.of_nat (S k)) * (a + 2 ^ Z.of_nat (S k)) ->
  (exists q, a = q * 2 ^ Z.of_nat (S k)) -> a + 2 ^ Z.of_nat (S k) <= 2 ^ 32 ->
  isqrt_digits fuel (2 ^ (2 * Z.of_nat k)) (v - a * a) (a * 2 ^ Z.of_nat (S k)) = Z.sqrt v.
Proof.
  induction k as [|k IH]; intros fuel a v Hf Hk Ha Hlo H64 Hhi Hq Hroot;
    (destruct fuel as [|fuel]; [lia|]); cbn [isqrt_digits].
  - change (2 ^ (2 * Z.of_nat 0)) with 1. change (2 ^ Z.of_nat 1) with 2 in *.
    cbn [Z.eqb negb]. unfold u64. rewrite (Z.mod_small (a * 2 + 1)) by lia.
    change (Z.shiftr 1 2) with 0.
    destruct (Z.leb_spec (a * 2 + 1) (v - a * a)) as [H|H];
      rewrite shiftr_1, Z.div_mul by lia; (destruct fuel as [|fuel]; cbn [isqrt_digits Z.eqb negb]).
    1, 2: rewrite (Z.mod_small (a + 1)) by lia; symmetry; apply Z.sqrt_unique; lia.
    all: symmetry; apply Z.sqrt_unique; lia.
  - set (p := 2 ^ Z.of_nat (S k)) in *.
    assert (Hp : 2 ^ Z.of_nat (S (S k)) = 2 * p).
    { unfold p. rewrite (Nat2Z.inj_succ (S k)), Z.pow_succ_r; lia. }
    assert (Hpp : 2 ^ (2 * Z.of_nat (S k)) = p * p) by (apply pow_double).
    assert (H1p : 2 <= p).
    { unfold p. rewrite Nat2Z.inj_succ, Z.pow_succ_r by lia.
      pose proof (Z.pow_pos_nonneg 2 (Z.of_nat k)). lia. }
    assert (Hp4 : Z.shiftr (p * p) 2 = 2 ^ (2 * Z.of_nat k)).
    { rewrite shiftr_2, <- Hpp, pow4_step. rewrite Z.mul_comm, Z.div_mul; lia. }
    rewrite Hp in *. rewrite Hpp.
    destruct (Z.eqb_spec (p * p) 0) as [|_]; [nia|]. cbn [negb].
    assert (Hap : a + p <= 2 ^ 32) by lia.
    assert (Hbound : 0 <= a * (2 * p) + p * p < 2 ^ 64).
    { assert ((a + p) * (a + p) <= (2 ^ 32 - 1) * (2 ^ 32 - 1))
        by (apply Z.mul_le_mono_nonneg; lia).
      assert (0 <= a * (2 * p)) by (apply Z.mul_nonneg_nonneg; lia).
      assert (0 <= p * p) by (apply Z.mul_nonneg_nonneg; lia).
      pose proof (Z.mul_nonneg_nonneg a a Ha Ha).
      replace (a * (2 * p) + p * p) with ((a + p) * (a + p) - a * a) by ring. lia. }
    unfold u64. rewrite (Z.mod_small (a * (2 * p) + p * p)) by lia.
    rewrite Hp4. destruct Hq as [q Hq].
    assert (Hhalf : Z.shiftr (a * (2 * p)) 1 = a * p).
    { rewrite shiftr_1. replace (a * (2 * p)) with (a * p * 2) by lia. by rewrite Z.div_mul. }
    destruct (Z.leb_spec (a * (2 * p) + p * p) (v - a * a)) as [H|H].
    + assert (Hsq : (a + p) * (a + p) = a * a + (a * (2 * p) + p * p)) by ring.
      rewrite Hhalf. rewrite !Z.mod_small by (split; [nia|]; nia).
      replace (v - a * a - (a * (2 * p) + p * p)) with (v - (a + p) * (a + p)) by lia.
      replace (a * p + p * p) with ((a + p) * p) by ring.
      apply IH; [lia|lia|lia|lia|lia| |exists (2 * q + 1)|lia].
      * by replace (a + p + p) with (a + 2 * p) by ring.
      * rewrite Hq. ring.
    + assert (Hsq : (a + p) * (a + p) = a * a + (a * (2 * p) + p * p)) by ring.
      rewrite Hhalf. apply IH; [lia|lia|lia|lia|lia|lia|exists (2 * q)|lia].
      rewrite Hq. ring.
Qed.

(** Both loops together compute the integer square root. *)
Lemma isqrt_loops_spec v :
  0 <= v < 2 ^ 64 -> isqrt_digits 32 (isqrt_align 32 (2 ^ 62) v) v 0 = Z.sqrt v.
Proof.
  intros Hv. destruct (isqrt_align_spec 31 32 v) as (j & Hj & E & Hb); [lia|exact Hv|].
  change (2 ^ (2 * Z.of_nat 31)) with (2 ^ 62) in E. rewrite E. clear E.
  destruct j as [|k]; cbn [Nat.eqb].
  - change (2 ^ (2 * Z.of_nat 0)) with 1 in Hb. by replace v with 0 by lia.
  - replace (S k - 1)%nat with k by lia.
    assert (2 ^ Z.of_nat (S k) <= 2 ^ 32) by (apply Z.pow_le_mono_r; lia).
    pose proof (isqrt_digits_spec k 32 0 v) as Hdigits.
    rewrite Z.mul_0_l, Z.sub_0_r, Z.add_0_l, <- pow_double in Hdigits.
    apply Hdigits; [lia..|by exists 0|lia].
Qed.

Lemma isqrt_spec v : 0 <= v < 2 ^ 64 -> guardian_acquisition_isqrt_u64 v = Z.sqrt v.
Proof.
  intros Hv. unfold guardian_acquisition_isqrt_u64. rewrite isqrt_loops_spec by done.
  assert (Hroot : 0 <= Z.sqrt v <= UINT32_MAX).
  { split; [apply Z.sqrt_nonneg|]. unfold UINT32_MAX.
    enough (Z.sqrt v < 2 ^ 32) by lia. apply Z.sqrt_lt_square; lia. }
  destruct (Z.ltb_spec UINT32_MAX (Z.sqrt v)); [lia|]. apply u32_id. unfold is_u32, UINT32_MAX in *. lia.
Qed.
