(* ===== verification/AcquisitionExact.v ===== *)
(** * Acquisition: exactness

    The fixed-width arithmetic of [Acquisition.v] against an exact reference on
    unbounded integers: for every block of 12-bit conversions and every
    calibration of the declared types, no intermediate operation wraps, and the
    published measurements are the saturated reference values. *)

From S2P Require Import Prelude Telemetry Acquisition.

Local Abbreviation channels := GUARDIAN_ACQUISITION_CHANNEL_COUNT.

(** ** The reference *)

(** A 12-bit conversion. *)
Definition adc_code (z : Z) : Prop := 0 <= z <= GUARDIAN_ACQUISITION_ADC_MAX_CODE.

(** The declared types of the calibration constants. *)
Record calibration_typed (c : guardian_acquisition_calibration_t) : Prop := {
  ct_vrefint : is_u16 (cal_vrefint_cal_code c);
  ct_t30 : is_u16 (cal_temperature_cal_30_code c);
  ct_t110 : is_u16 (cal_temperature_cal_110_code c);
  ct_zero : is_u16 (cal_vibration_zero_code c);
  ct_vib_num : is_u32 (cal_vibration_mg_per_code_num c);
  ct_vib_den : is_u32 (cal_vibration_mg_per_code_den c);
  ct_cur_zero : is_u16 (cal_current_zero_code c);
  ct_cur_num : is_u32 (cal_current_ma_per_code_num c);
  ct_cur_den : is_u32 (cal_current_ma_per_code_den c);
  ct_sup_num : is_u16 (cal_supply_divider_num c);
  ct_sup_den : is_u16 (cal_supply_divider_den c)
}.

(** Division rounded to the nearest integer, halves away from zero. *)
Definition round_div (a b : Z) : Z := Z.sgn a * ((Z.abs a + b `div` 2) `div` b).

Definition saturate_i16 (z : Z) : Z := Z.max (-32768) (Z.min 32767 z).
Definition saturate_u16 (z : Z) : Z := Z.min 65535 z.

(** The conversions of one channel, in scan order. *)
Definition channel_codes (samples : list Z) (frames channel : nat) : list Z :=
  map (fun i => byte_at samples (i * channels + channel)) (seq 0 frames).

Definition channel_mean (samples : list Z) (frames channel : nat) : Z :=
  round_div (sum_Z (channel_codes samples frames channel)) (Z.of_nat frames).

Definition block_touches_rail (samples : list Z) : bool :=
  existsb (fun z => (z =? 0) || (z =? GUARDIAN_ACQUISITION_ADC_MAX_CODE)) samples.

Section Reference.
Context (c : guardian_acquisition_calibration_t) (samples : list Z) (frames : nat).

Let mean : nat -> Z := channel_mean samples frames.

(** The analog supply in millivolts, from the factory code of the reference. *)
Definition block_vdda : Z :=
  round_div (GUARDIAN_ACQUISITION_FACTORY_VDDA_MV * cal_vrefint_cal_code c)
    (mean GUARDIAN_ACQUISITION_CHANNEL_VREFINT).

(** A code as it would have been converted at 3.3 V. *)
Definition at_factory_vdda (code : Z) : Z :=
  round_div (code * block_vdda) GUARDIAN_ACQUISITION_FACTORY_VDDA_MV.

Definition vibration_deltas : list Z :=
  map (fun code => at_factory_vdda code - cal_vibration_zero_code c)
    (channel_codes samples frames GUARDIAN_ACQUISITION_CHANNEL_VIBRATION).

Definition exact_temperature : Z :=
  3000 + Z.quot
    (8000 * (at_factory_vdda (mean GUARDIAN_ACQUISITION_CHANNEL_TEMPERATURE)
             - cal_temperature_cal_30_code c))
    (cal_temperature_cal_110_code c - cal_temperature_cal_30_code c).

(** The root of the mean square of the vibration, scaled to milli-g. *)
Definition exact_vibration : Z :=
  (Z.sqrt (sum_Z (map (fun d => d * d) vibration_deltas) `div` Z.of_nat frames)
     * cal_vibration_mg_per_code_num c) `div` cal_vibration_mg_per_code_den c.

Definition exact_current : Z :=
  (Z.max 0 (at_factory_vdda (mean GUARDIAN_ACQUISITION_CHANNEL_CURRENT)
            - cal_current_zero_code c)
     * cal_current_ma_per_code_num c) `div` cal_current_ma_per_code_den c.

Definition exact_supply : Z :=
  ((mean GUARDIAN_ACQUISITION_CHANNEL_SUPPLY * block_vdda)
     `div` GUARDIAN_ACQUISITION_ADC_MAX_CODE
     * cal_supply_divider_num c) `div` cal_supply_divider_den c.

(** The vibration samples exported for signal processing. *)
Definition exact_samples : list Z :=
  map (fun d => saturate_i16 (round_div (d * cal_vibration_mg_per_code_num c)
                                (cal_vibration_mg_per_code_den c)))
    vibration_deltas.

Definition block_measurements (aux : guardian_acquisition_aux_t)
  : guardian_machine_measurements_t :=
  MEASUREMENTS (saturate_i16 exact_temperature) (saturate_u16 exact_vibration)
    (saturate_u16 exact_current)
    (if aux_rpm_valid aux =? 0 then 0 else aux_rpm aux)
    (saturate_u16 exact_supply)
    (measurement_status c aux (block_touches_rail (take (frames * channels) samples))).
End Reference.

(** ** Arithmetic of the reference *)

Lemma round_div_nonneg a b : 0 <= a -> 0 < b -> round_div a b = (a + b `div` 2) `div` b.
Proof.
  intros Ha Hb. unfold round_div. destruct (decide (a = 0)) as [->|].
  - rewrite Z.sgn_0, Z.mul_0_l, Z.div_small; [done|].
    pose proof (Z.div_lt b 2). pose proof (Z.div_pos b 2). lia.
  - rewrite Z.sgn_pos, Z.abs_eq by lia. lia.
Qed.

Lemma round_div_bound a b m : 0 <= a -> 0 < b -> a <= m * b -> 0 <= m -> 0 <= round_div a b <= m.
Proof.
  intros Ha Hb Hm Hm0. rewrite round_div_nonneg by done. split; [apply Z.div_pos; lia|].
  rewrite <- (Z.div_mul m b) by lia.
  rewrite <- Z.lt_succ_r. apply Z.div_lt_upper_bound; [lia|].
  rewrite Z.div_mul by lia. pose proof (Z.div_lt b 2). lia.
Qed.

Lemma saturate_i16_spec z : guardian_acquisition_i16 z = saturate_i16 z.
Proof.
  unfold guardian_acquisition_i16, saturate_i16, i16.
  destruct (Z.ltb_spec 32767 z); [lia|]. destruct (Z.ltb_spec z (-32768)); [lia|].
  rewrite Z.mod_small; lia.
Qed.

Lemma saturate_u16_spec z : 0 <= z -> guardian_acquisition_u16 z = saturate_u16 z.
Proof.
  intros. unfold guardian_acquisition_u16, saturate_u16, u16.
  destruct (Z.ltb_spec 65535 z); [lia|]. rewrite Z.mod_small; lia.
Qed.

Lemma mul_bound a b A B : 0 <= a <= A -> 0 <= b <= B -> 0 <= a * b <= A * B.
Proof. intros. split; [apply Z.mul_nonneg_nonneg|apply Z.mul_le_mono_nonneg]; lia. Qed.

(** The signed rounding of [guardian_acquisition_vibration_sample_mg]. *)
Lemma round_away_quot a b : 0 < b ->
  Z.quot (if 0 <=? a then a + b ÷ 2 else a - b ÷ 2) b = round_div a b.
Proof.
  intros Hb. rewrite (Z.quot_div_nonneg b 2) by lia. pose proof (Z.div_pos b 2).
  destruct (Z.leb_spec 0 a).
  - rewrite Z.quot_div_nonneg by lia. by rewrite round_div_nonneg.
  - unfold round_div. rewrite Z.sgn_neg, Z.abs_neq by lia.
    replace (a - b `div` 2) with (- (- a + b `div` 2)) by lia.
    rewrite Z.quot_opp_l, Z.quot_div_nonneg by lia. lia.
Qed.

Lemma sum_Z_bound l m : Forall (fun z => 0 <= z <= m) l -> 0 <= sum_Z l <= m * Z.of_nat (length l).
Proof.
  induction 1 as [|x l Hx _ IH]; [cbn; lia|].
  rewrite sum_Z_cons. cbn [length]. rewrite Nat2Z.inj_succ, Z.mul_succ_r.
  clear -Hx IH. lia.
Qed.

(** ** The sums of the channels *)

Definition codes (samples : list Z) (frames : nat) : Prop :=
  Forall adc_code samples /\ length samples = (frames * channels)%nat.

Lemma code_at samples frames i :
  codes samples frames -> (i < frames * channels)%nat -> adc_code (byte_at samples i).
Proof.
  intros [Hc Hl] Hi. unfold byte_at. apply Forall_nth; [done|]. rewrite Hl. exact Hi.
Qed.

Lemma channel_codes_typed samples frames k channel :
  codes samples frames -> (k <= frames)%nat -> (channel < channels)%nat ->
  Forall adc_code (channel_codes samples k channel).
Proof.
  intros Hc Hk Hch. apply Forall_map, Forall_seq. intros i Hi. eapply code_at; [done|].
  unfold channels in *. lia.
Qed.

Lemma channel_codes_S samples k channel :
  channel_codes samples (S k) channel =
  channel_codes samples k channel ++ [byte_at samples (k * channels + channel)].
Proof. unfold channel_codes. by rewrite seq_S, map_app. Qed.

Lemma channel_codes_length samples k channel : length (channel_codes samples k channel) = k.
Proof. unfold channel_codes. by rewrite length_map, length_seq. Qed.

Lemma channel_sum_bound samples frames k channel :
  codes samples frames -> (k <= frames)%nat -> (channel < channels)%nat ->
  0 <= sum_Z (channel_codes samples k channel) <= 4095 * Z.of_nat k.
Proof.
  intros Hc Hk Hch.
  pose proof (sum_Z_bound _ _ (channel_codes_typed _ _ _ _ Hc Hk Hch)) as Hs.
  by rewrite channel_codes_length in Hs.
Qed.

Lemma rail_step samples frames n :
  codes samples frames -> (n < frames * channels)%nat ->
  block_touches_rail (take (S n) samples) =
  block_touches_rail (take n samples) || (byte_at samples n =? 0)
    || (GUARDIAN_ACQUISITION_ADC_MAX_CODE <=? byte_at samples n).
Proof.
  intros Hc Hn. pose proof (code_at _ _ _ Hc Hn) as Hb. destruct Hc as [_ Hl].
  destruct (lookup_lt_is_Some_2 samples n) as [x Hx]; [by rewrite Hl|].
  rewrite (take_S_r _ _ _ Hx). unfold byte_at in *.
  rewrite (nth_lookup_Some _ _ _ _ Hx) in *. unfold block_touches_rail.
  rewrite existsb_app. cbn [existsb]. unfold adc_code, GUARDIAN_ACQUISITION_ADC_MAX_CODE in *.
  destruct (existsb _ _); [done|]. cbn [orb].
  destruct (Z.eqb_spec x 0), (Z.eqb_spec x 4095), (Z.leb_spec 4095 x); (done || lia).
Qed.

(** The accumulation loops compute the channel sums and the rail contact. *)
Lemma accumulate_block_spec samples frames k :
  codes samples frames -> (k <= frames)%nat -> (frames <= GUARDIAN_ACQUISITION_FRAMES_PER_BLOCK)%nat ->
  accumulate_block samples k =
  (map (fun channel => sum_Z (channel_codes samples k channel)) (seq 0 channels),
   block_touches_rail (take (k * channels) samples)).
Proof.
  intros Hc Hk Hf. induction k as [|k IH]; [done|].
  unfold accumulate_block in *. rewrite seq_S, foldl_app, IH by lia. clear IH.
  assert (Hsum : forall channel, (channel < channels)%nat ->
    u64 (sum_Z (channel_codes samples k channel) + byte_at samples (k * channels + channel)) =
    sum_Z (channel_codes samples (S k) channel)).
  { intros channel Hch. rewrite channel_codes_S, sum_Z_snoc. apply u64_id.
    pose proof (channel_sum_bound samples frames k channel Hc ltac:(lia) Hch).
    assert (adc_code (byte_at samples (k * channels + channel))) as [? ?]
      by (eapply code_at; [done|unfold channels in *; lia]).
    unfold GUARDIAN_ACQUISITION_ADC_MAX_CODE, GUARDIAN_ACQUISITION_FRAMES_PER_BLOCK in *. lia. }
  replace (S k * channels)%nat with (S (k * channels + 4)) by (unfold channels; lia).
  rewrite (rail_step _ _ _ Hc) by (unfold channels in *; lia).
  replace (k * channels + 4)%nat with (S (k * channels + 3)) at 1 by lia.
  rewrite (rail_step _ _ (k * channels + 3) Hc) by (unfold channels in *; lia).
  replace (k * channels + 3)%nat with (S (k * channels + 2)) at 1 by lia.
  rewrite (rail_step _ _ (k * channels + 2) Hc) by (unfold channels in *; lia).
  replace (k * channels + 2)%nat with (S (k * channels + 1)) at 1 by lia.
  rewrite (rail_step _ _ (k * channels + 1) Hc) by (unfold channels in *; lia).
  replace (k * channels + 1)%nat with (S (k * channels + 0)) at 1 by lia.
  rewrite (rail_step _ _ (k * channels + 0) Hc) by (unfold channels in *; lia).
  rewrite <- (Nat.add_0_r (k * channels)) at 1.
  unfold GUARDIAN_ACQUISITION_CHANNEL_COUNT in *. cbn [foldl seq map].
  rewrite <- !Hsum by lia. reflexivity.
Qed.

(** ** The conversions *)

(** A compensated code stays below 2^29, so its square fits everywhere. *)
Definition compensated (z : Z) : Prop := 0 <= z <= 270000000.

Section Conversions.
Context (c : guardian_acquisition_calibration_t) (samples : list Z) (frames : nat).
Context (Hcal : calibration_typed c) (Hvalid : guardian_acquisition_calibration_valid c = true).
Context (Hcodes : codes samples frames) (Hpos : (0 < frames)%nat).
Context (Hmax : (frames <= GUARDIAN_ACQUISITION_FRAMES_PER_BLOCK)%nat).
Context (Href : 0 < channel_mean samples frames GUARDIAN_ACQUISITION_CHANNEL_VREFINT).

Let vdda : Z := block_vdda c samples frames.
Let sums : list Z := map (fun channel => sum_Z (channel_codes samples frames channel)) (seq 0 channels).

Lemma channel_mean_code channel : (channel < channels)%nat ->
  adc_code (channel_mean samples frames channel).
Proof.
  intros Hch. pose proof (channel_sum_bound _ _ frames channel Hcodes ltac:(lia) Hch) as [? ?].
  apply round_div_bound; unfold GUARDIAN_ACQUISITION_ADC_MAX_CODE; lia.
Qed.

Lemma channel_average_spec channel : (channel < channels)%nat ->
  channel_average sums frames channel = channel_mean samples frames channel.
Proof.
  intros Hch. pose proof (channel_mean_code channel Hch) as Hmean.
  unfold channel_average. replace (byte_at sums channel)
    with (sum_Z (channel_codes samples frames channel)).
  2: { unfold sums, GUARDIAN_ACQUISITION_CHANNEL_COUNT in *.
       do 5 (destruct channel as [|channel]; [done|]). lia. }
  pose proof (channel_sum_bound _ _ frames channel Hcodes ltac:(lia) Hch) as [? ?].
  unfold channel_mean in *. rewrite round_div_nonneg in * by lia.
  unfold adc_code, GUARDIAN_ACQUISITION_ADC_MAX_CODE, GUARDIAN_ACQUISITION_FRAMES_PER_BLOCK in *.
  rewrite u64_id by (pose proof (Z.div_lt (Z.of_nat frames) 2); pose proof (Z.div_pos (Z.of_nat frames) 2); lia).
  apply u32_id. unfold is_u32. lia.
Qed.

Lemma vdda_bound : 0 <= vdda <= 3300 * 65535.
Proof.
  destruct Hcal as [H ? ? ? ? ? ? ? ? ? ?]. unfold is_u16 in H.
  unfold vdda, block_vdda, GUARDIAN_ACQUISITION_FACTORY_VDDA_MV. apply round_div_bound; nia.
Qed.

Lemma supply_voltage_spec :
  supply_voltage c (channel_mean samples frames GUARDIAN_ACQUISITION_CHANNEL_VREFINT) = vdda.
Proof.
  pose proof vdda_bound as Hb. destruct Hcal as [H ? ? ? ? ? ? ? ? ? ?]. unfold is_u16 in H.
  pose proof (channel_mean_code GUARDIAN_ACQUISITION_CHANNEL_VREFINT ltac:(compute; lia)) as Hm.
  unfold adc_code, GUARDIAN_ACQUISITION_ADC_MAX_CODE in Hm.
  unfold vdda, block_vdda in *. unfold supply_voltage.
  set (v := channel_mean _ _ _) in *. unfold GUARDIAN_ACQUISITION_FACTORY_VDDA_MV in *.
  rewrite round_div_nonneg in * by lia.
  assert (0 <= v `div` 2 < v) by (split; [apply Z.div_pos|apply Z.div_lt]; lia).
  rewrite (u64_id (3300 * _)), u64_id by lia. apply u32_id. unfold is_u32. lia.
Qed.

Lemma normalize_code_spec code : adc_code code ->
  guardian_acquisition_normalize_code code vdda = at_factory_vdda c samples frames code
  /\ compensated (at_factory_vdda c samples frames code).
Proof.
  intros Hc. pose proof vdda_bound as Hb. unfold adc_code, GUARDIAN_ACQUISITION_ADC_MAX_CODE in Hc.
  unfold guardian_acquisition_normalize_code, at_factory_vdda, compensated. fold vdda.
  unfold GUARDIAN_ACQUISITION_FACTORY_VDDA_MV.
  assert (0 <= code * vdda <= 4095 * (3300 * 65535)) by nia.
  assert (Hr : 0 <= round_div (code * vdda) 3300 <= 4095 * 65535)
    by (apply round_div_bound; lia).
  rewrite round_div_nonneg in * by lia. rewrite (u64_id (code * vdda)), u64_id by lia.
  destruct (Z.ltb_spec UINT32_MAX ((code * vdda + 3300 `div` 2) `div` 3300));
    [unfold UINT32_MAX in *; lia|].
  split; [apply u32_id; unfold is_u32|]; lia.
Qed.

(** The signed distance of a compensated code to a 16-bit calibration code. *)
Lemma delta_spec code zero : adc_code code -> is_u16 zero ->
  i32 (i32 (guardian_acquisition_normalize_code code vdda) - zero) =
    at_factory_vdda c samples frames code - zero /\
  -65535 <= at_factory_vdda c samples frames code - zero <= 270000000.
Proof.
  intros Hc Hz. destruct (normalize_code_spec code Hc) as [-> Hb].
  unfold compensated, is_u16 in *. split; [|lia].
  rewrite (i32_id (at_factory_vdda _ _ _ _)), i32_id by lia. lia.
Qed.

Lemma temperature_spec :
  measure_temperature c (channel_mean samples frames GUARDIAN_ACQUISITION_CHANNEL_TEMPERATURE) vdda =
  exact_temperature c samples frames.
Proof.
  pose proof (channel_mean_code GUARDIAN_ACQUISITION_CHANNEL_TEMPERATURE ltac:(compute; lia)) as Hm.
  destruct Hcal as [? H30 H110 ? ? ? ? ? ? ? ?].
  destruct (delta_spec _ _ Hm H30) as [E Hb].
  assert (Hspan : cal_temperature_cal_110_code c - cal_temperature_cal_30_code c <> 0).
  { unfold guardian_acquisition_calibration_valid in Hvalid.
    destruct (cal_vrefint_cal_code c =? 0); [done|].
    destruct (Z.eqb_spec (cal_temperature_cal_30_code c) (cal_temperature_cal_110_code c)); [done|lia]. }
  unfold measure_temperature, exact_temperature. rewrite E.
  unfold is_u16 in *. rewrite i32_id by lia. rewrite (i64_id (_ * 8000)) by lia.
  rewrite (Z.mul_comm 8000). apply i64_id.
  set (x := (_ - _) * 8000). set (d := cal_temperature_cal_110_code c - _) in *.
  assert (Z.abs (x ÷ d) <= Z.abs x).
  { rewrite <- Z.quot_abs, Z.quot_div_nonneg by lia. apply Z.div_le_upper_bound; [lia|].
    pose proof (Z.abs_nonneg x). nia. }
  unfold x in *. lia.
Qed.

Lemma denominators :
  0 < cal_vibration_mg_per_code_den c /\ 0 < cal_current_ma_per_code_den c /\
  0 < cal_supply_divider_den c.
Proof.
  destruct Hcal as [? ? ? ? ? Hv ? ? Hi ? Hs]. revert Hvalid. unfold is_u16, is_u32 in *.
  unfold guardian_acquisition_calibration_valid.
  destruct (Z.eqb_spec (cal_vibration_mg_per_code_den c) 0),
    (Z.eqb_spec (cal_current_ma_per_code_den c) 0),
    (Z.eqb_spec (cal_supply_divider_den c) 0);
    repeat case_match; intros; (done || lia).
Qed.

Lemma current_spec :
  measure_current c (channel_mean samples frames GUARDIAN_ACQUISITION_CHANNEL_CURRENT) vdda =
  exact_current c samples frames /\ 0 <= exact_current c samples frames.
Proof.
  pose proof (channel_mean_code GUARDIAN_ACQUISITION_CHANNEL_CURRENT ltac:(compute; lia)) as Hm.
  pose proof denominators as (_ & Hd & _).
  destruct Hcal as [? ? ? ? ? ? Hz Hn _ ? ?].
  destruct (delta_spec _ _ Hm Hz) as [E Hb]. unfold measure_current, exact_current. rewrite E.
  set (d := at_factory_vdda _ _ _ _ - _) in *.
  replace (if d <? 0 then 0 else d) with (Z.max 0 d) by (destruct (Z.ltb_spec d 0); lia).
  unfold is_u32 in *. rewrite (u32_id (Z.max 0 d)) by (unfold is_u32; lia).
  assert (0 <= Z.max 0 d * cal_current_ma_per_code_num c <= 270000000 * 2 ^ 32)
    by (apply mul_bound; lia).
  split; [f_equal; apply u64_id; lia|apply Z_div_nonneg_nonneg; lia].
Qed.

Lemma supply_spec :
  measure_supply c (channel_mean samples frames GUARDIAN_ACQUISITION_CHANNEL_SUPPLY) vdda =
  exact_supply c samples frames /\ 0 <= exact_supply c samples frames.
Proof.
  pose proof (channel_mean_code GUARDIAN_ACQUISITION_CHANNEL_SUPPLY ltac:(compute; lia)) as Hm.
  pose proof vdda_bound as Hb. pose proof denominators as (_ & _ & Hd).
  destruct Hcal as [? ? ? ? ? ? ? ? ? Hn _]. unfold measure_supply, exact_supply. fold vdda.
  set (m := channel_mean samples frames GUARDIAN_ACQUISITION_CHANNEL_SUPPLY) in *.
  unfold adc_code, GUARDIAN_ACQUISITION_ADC_MAX_CODE, is_u16 in *.
  assert (0 <= m * vdda <= 4095 * (3300 * 65535))
    by (apply mul_bound; lia).
  rewrite (u64_id (m * vdda)) by lia. set (q := (m * vdda) `div` 4095).
  assert (0 <= q <= 3300 * 65535).
  { split; [apply Z_div_nonneg_nonneg; lia|]. apply Z.div_le_upper_bound; lia. }
  assert (0 <= q * cal_supply_divider_num c <= 3300 * 65535 * 65535)
    by (apply mul_bound; lia).
  split; [f_equal; apply u64_id; lia|apply Z_div_nonneg_nonneg; lia].
Qed.

(** *** The vibration loop *)

Let delta (code : Z) : Z := at_factory_vdda c samples frames code - cal_vibration_zero_code c.

Let deltas (k : nat) : list Z :=
  map delta (channel_codes samples k GUARDIAN_ACQUISITION_CHANNEL_VIBRATION).

Let exported (d : Z) : Z :=
  saturate_i16 (round_div (d * cal_vibration_mg_per_code_num c) (cal_vibration_mg_per_code_den c)).

Definition square (d : Z) : Z := d * d.

Lemma delta_bound code : adc_code code -> -65535 <= delta code <= 270000000.
Proof. intros Hc. by apply delta_spec, Hcal. Qed.

Lemma deltas_bound k : (k <= frames)%nat ->
  0 <= sum_Z (map square (deltas k)) <= 270000000 * 270000000 * Z.of_nat k.
Proof.
  intros Hk. assert (Hlen : length (map square (deltas k)) = k)
    by (unfold deltas; by rewrite !length_map, channel_codes_length).
  rewrite <- Hlen at 3. apply sum_Z_bound. unfold deltas. rewrite map_map. apply Forall_map.
  eapply Forall_impl; [apply (channel_codes_typed _ _ _ _ Hcodes Hk); compute; lia|].
  intros code Hc. pose proof (delta_bound code Hc). unfold square. cbn. nia.
Qed.

Lemma vibration_sample_spec d : -65535 <= d <= 270000000 ->
  guardian_acquisition_vibration_sample_mg d c = exported d.
Proof.
  intros Hd. pose proof denominators as (Hden & _). destruct Hcal as [? ? ? ? Hn Hdt ? ? ? ? ?].
  unfold guardian_acquisition_vibration_sample_mg, exported. unfold is_u32 in *.
  set (num := cal_vibration_mg_per_code_num c) in *.
  set (den := cal_vibration_mg_per_code_den c) in *.
  assert (- (65535 * 2 ^ 32) <= d * num <= 270000000 * 2 ^ 32) by nia.
  rewrite (i64_id (d * num)) by lia.
  assert (0 <= den ÷ 2 < 2 ^ 32).
  { rewrite Z.quot_div_nonneg by lia. split; [apply Z_div_nonneg_nonneg; lia|].
    apply Z.div_lt_upper_bound; lia. }
  rewrite <- (round_away_quot _ den) by lia. rewrite saturate_i16_spec. do 2 f_equal.
  destruct (Z.leb_spec 0 (d * num)); apply i64_id; lia.
Qed.

(** The store into the signal block, when there is one. *)
Definition store_samples (l : list Z) (b : guardian_acquisition_signal_block_t)
  : guardian_acquisition_signal_block_t :=
  SIGNAL_BLOCK (sb_sequence b) (sb_sample_rate_hz b) (sb_sample_count b)
    (blit (sb_vibration_mg b) 0 l) (sb_status_flags b).

Lemma blit_head (l src : list Z) : blit l 0 src = src ++ drop (length src) l.
Proof. done. Qed.

Lemma vibration_loop sb k : (k <= frames)%nat ->
  (forall b, sb = Some b -> length (sb_vibration_mg b) = GUARDIAN_ACQUISITION_FRAMES_PER_BLOCK) ->
  foldl (vibration_step samples c vdda) (sb, 0) (seq 0 k) =
  (store_samples (map exported (deltas k)) <$> sb, sum_Z (map square (deltas k))).
Proof.
  intros Hk Hlen. induction k as [|k IH].
  { by destruct sb as [[]|]. }
  rewrite seq_S, foldl_app, IH by lia. cbn [foldl vibration_step].
  set (code := byte_at samples (k * channels)).
  assert (Hc : adc_code code) by (eapply code_at; [done|unfold GUARDIAN_ACQUISITION_CHANNEL_COUNT; lia]).
  destruct (delta_spec code (cal_vibration_zero_code c) Hc ltac:(apply Hcal)) as [E Hd].
  change (0 + k)%nat with k. fold code. rewrite E. fold (delta code) in *.
  assert (HS : deltas (S k) = deltas k ++ [delta code]).
  { unfold deltas. rewrite channel_codes_S, map_app. cbn [map]. unfold code. do 5 f_equal.
    unfold GUARDIAN_ACQUISITION_CHANNEL_VIBRATION. lia. }
  pose proof (deltas_bound (S k) Hk) as Hsq. rewrite HS, !map_app in *. cbn [map] in *.
  rewrite sum_Z_snoc in *.
  assert (0 <= square (delta code) <= 270000000 * 270000000) by (unfold square; nia).
  f_equal.
  - destruct sb as [b|]; [|done]. cbn [fmap option_fmap option_map store_samples sb_vibration_mg].
    rewrite vibration_sample_spec by done. f_equal. unfold store_samples. f_equal.
    specialize (Hlen b eq_refl). unfold GUARDIAN_ACQUISITION_FRAMES_PER_BLOCK in *.
    assert (Hl : length (map exported (deltas k)) = k)
      by (unfold deltas; by rewrite !length_map, channel_codes_length).
    rewrite !blit_head, length_app, insert_app_r_alt, Hl, Nat.sub_diag by lia.
    destruct (lookup_lt_is_Some_2 (sb_vibration_mg b) k) as [x Hx]; [lia|].
    rewrite (drop_S _ x), <- app_assoc by done. cbn [length]. by rewrite Nat.add_1_r.
  - fold (square (delta code)). rewrite i64_id, (u64_id (square _)) by lia.
    unfold GUARDIAN_ACQUISITION_FRAMES_PER_BLOCK in *. apply u64_id. lia.
Qed.

Lemma vibration_spec :
  measure_vibration c (sum_Z (map square (deltas frames))) frames =
  exact_vibration c samples frames /\ 0 <= exact_vibration c samples frames.
Proof.
  pose proof (deltas_bound frames ltac:(lia)) as Hsq. pose proof denominators as (Hd & _).
  destruct Hcal as [? ? ? ? Hn _ ? ? ? ? ?]. unfold measure_vibration, exact_vibration.
  change (map (fun d => d * d) (vibration_deltas c samples frames))
    with (map square (deltas frames)).
  unfold is_u32 in *. set (q := sum_Z _ `div` _).
  assert (0 <= q <= 270000000 * 270000000).
  { split; [apply Z_div_nonneg_nonneg; lia|]. apply Z.div_le_upper_bound; lia. }
  assert (Hroot : 0 <= Z.sqrt q <= 270000000).
  { split; [apply Z.sqrt_nonneg|]. rewrite <- (Z.sqrt_square 270000000) by lia.
    apply Z.sqrt_le_mono. lia. }
  rewrite isqrt_spec by lia.
  pose proof (mul_bound (Z.sqrt q) (cal_vibration_mg_per_code_num c) 270000000 (2 ^ 32)
                Hroot ltac:(lia)).
  rewrite u64_id by lia. split; [done|].
  apply Z_div_nonneg_nonneg; lia.
Qed.

(** The signal block of a processed block. *)
Definition block_signal (sequence rate status : Z) : guardian_acquisition_signal_block_t :=
  SIGNAL_BLOCK sequence rate (Z.of_nat frames)
    (blit (replicate GUARDIAN_ACQUISITION_FRAMES_PER_BLOCK 0) 0 (exact_samples c samples frames))
    status.

Lemma publish_block_spec a aux rate sb :
  acq_calibration a = c -> (forall b, sb = Some b -> b = zero_signal_block) ->
  publish_block a samples frames sums (block_touches_rail (take (frames * channels) samples))
    aux rate sb =
  (GUARDIAN_ACQUISITION_OK,
   Some (ACQUISITION c (block_measurements c samples frames aux)
           (u32 (acq_next_block_sequence a + 1))
           (ACQUISITION_STATS
              (guardian_acquisition_increment_u32 (as_blocks_processed (acq_stats a)))
              (as_invalid_blocks (acq_stats a))
              (if block_touches_rail (take (frames * channels) samples)
               then guardian_acquisition_increment_u32 (as_saturated_blocks (acq_stats a))
               else as_saturated_blocks (acq_stats a)))),
   (fun _ => block_signal (acq_next_block_sequence a) rate
               (mm_status_flags (block_measurements c samples frames aux))) <$> sb).
Proof.
  intros Ha Hsb. unfold publish_block. rewrite Ha.
  rewrite !channel_average_spec by (compute; lia).
  destruct (Z.eqb_spec (channel_mean samples frames GUARDIAN_ACQUISITION_CHANNEL_VREFINT) 0)
    as [H|_]; [lia|].
  rewrite supply_voltage_spec, vibration_loop.
  2: lia. 2: { intros b Hb. by rewrite (Hsb _ Hb). }
  rewrite temperature_spec. destruct vibration_spec as [-> ?], current_spec as [-> ?],
    supply_spec as [-> ?].
  rewrite saturate_i16_spec, !saturate_u16_spec by done.
  unfold block_measurements. f_equal; [do 3 f_equal; by destruct (aux_rpm_valid aux =? 0)|].
  destruct sb as [b|]; [|done]. rewrite (Hsb b eq_refl). cbn [fmap option_fmap option_map].
  unfold block_signal. rewrite (u16_id (Z.of_nat frames))
    by (unfold is_u16, GUARDIAN_ACQUISITION_FRAMES_PER_BLOCK in *; lia).
  reflexivity.
Qed.
End Conversions.

(** ** Exactness of the processing *)

(** C25: For every block of up to 64 frames of 12-bit conversions and every valid
    calibration of the declared types, processing publishes the reference
    measurements (means, supply compensation, interpolated temperature, root mean
    square, scaled current and supply, each saturated to its field) and the
    exported vibration samples: no intermediate operation wraps. *)
Theorem acquisition_exact a samples frames aux rate signal :
  calibration_typed (acq_calibration a) ->
  guardian_acquisition_calibration_valid (acq_calibration a) = true ->
  codes samples frames ->
  (0 < frames <= GUARDIAN_ACQUISITION_FRAMES_PER_BLOCK)%nat ->
  0 < channel_mean samples frames GUARDIAN_ACQUISITION_CHANNEL_VREFINT ->
  is_null signal || negb (rate =? 0) = true ->
  let measured := block_measurements (acq_calibration a) samples frames aux in
  exists stats,
    guardian_acquisition_process_block_ex (Some a) (Some samples) (frames * channels) (Some aux)
      rate signal =
    (GUARDIAN_ACQUISITION_OK,
     Some (ACQUISITION (acq_calibration a) measured (u32 (acq_next_block_sequence a + 1)) stats),
     (fun _ => block_signal (acq_calibration a) samples frames (acq_next_block_sequence a) rate
                 (mm_status_flags measured)) <$> signal)
    /\ as_invalid_blocks stats = as_invalid_blocks (acq_stats a).
Proof.
  intros Hcal Hvalid Hcodes Hf Href Hsig measured. eexists. split.
  - unfold guardian_acquisition_process_block_ex. rewrite Hvalid. cbn [negb].
    rewrite Nat.Div0.mod_mul, Nat.div_mul by done.
    destruct (Nat.eqb_spec (frames * channels) 0);
      [unfold GUARDIAN_ACQUISITION_CHANNEL_COUNT in *; lia|]. cbn [Nat.eqb negb orb].
    destruct (Nat.ltb_spec GUARDIAN_ACQUISITION_FRAMES_PER_BLOCK frames); [lia|].
    destruct (negb (is_null signal) && (rate =? 0)) eqn:E.
    { by destruct (is_null signal), (rate =? 0). }
    rewrite (accumulate_block_spec samples frames frames) by (done || lia).
    rewrite publish_block_spec with (c := acq_calibration a); (done || lia || idtac).
    + destruct signal; reflexivity.
    + by destruct signal; intros ? [= <-].
  - done.
Qed.

(** A block that is not processed publishes nothing: whatever the inputs, when
    the result is not OK the latest measurements, the calibration and the block
    sequence are unchanged and exactly one invalid block is counted (saturating);
    a missing argument changes nothing at all. *)
Theorem rejected_block_publishes_nothing a samples n aux rate signal :
  let '(result, acquisition, _) :=
    guardian_acquisition_process_block_ex (Some a) samples n aux rate signal in
  match result with
  | GUARDIAN_ACQUISITION_OK =>
      guardian_acquisition_calibration_valid (acq_calibration a) = true /\
      (0 < n)%nat /\ (n `mod` channels = 0)%nat /\
      (n `div` channels <= GUARDIAN_ACQUISITION_FRAMES_PER_BLOCK)%nat /\
      exists b, acquisition = Some b /\
        acq_next_block_sequence b = u32 (acq_next_block_sequence a + 1) /\
        as_invalid_blocks (acq_stats b) = as_invalid_blocks (acq_stats a)
  | GUARDIAN_ACQUISITION_ERROR_NULL_ARGUMENT =>
      (samples = None \/ aux = None) /\ acquisition = Some a
  | GUARDIAN_ACQUISITION_ERROR_CALIBRATION =>
      guardian_acquisition_calibration_valid (acq_calibration a) = false /\
      acquisition = Some (count_invalid a)
  | _ => acquisition = Some (count_invalid a)
  end.
Proof.
  unfold guardian_acquisition_process_block_ex.
  destruct samples as [samples|]; [|by destruct aux; auto]. destruct aux as [aux|]; [|by auto].
  destruct (guardian_acquisition_calibration_valid (acq_calibration a)) eqn:Hvalid; [|done].
  cbn [negb].
  destruct (Nat.eqb_spec n 0), (Nat.eqb_spec (n `mod` channels) 0); [done..|cbn [negb orb]|done].
  destruct (Nat.ltb_spec GUARDIAN_ACQUISITION_FRAMES_PER_BLOCK (n `div` channels)); [done|].
  destruct (negb (is_null signal) && (rate =? 0)); [done|].
  destruct (accumulate_block samples (n `div` channels)) as [sums saturated].
  unfold publish_block. destruct (_ =? 0); [done|].
  destruct (foldl _ _ _) as [block squares].
  split_and!; [done|lia|done|done|]. eexists. split_and!; [reflexivity|done|done].
Qed.

(** ** Witnesses *)

Definition example_calibration : guardian_acquisition_calibration_t :=
  CALIBRATION 1500 900 1200 2048 3 2 2048 5 4 11 1 0.

Definition example_samples : list Z :=
  [2100; 2300; 1800; 1000; 1510; 2000; 2310; 1810; 1004; 1490].

Definition example_acquisition : guardian_acquisition_t :=
  ACQUISITION example_calibration (MEASUREMENTS 0 0 0 0 0 0) 7 (ACQUISITION_STATS 0 0 0).

Definition example_aux : guardian_acquisition_aux_t := AUX 1450 1 0.

Example example_process_block :
  guardian_acquisition_process_block (Some example_acquisition) (Some example_samples) 10
    (Some example_aux) =
  (GUARDIAN_ACQUISITION_OK,
   Some (ACQUISITION example_calibration (MEASUREMENTS 5720 75 321 1450 15994 1) 8
           (ACQUISITION_STATS 1 0 0))).
Proof. vm_compute. reflexivity. Qed.

Lemma acquisition_exact_witness :
  exists stats,
    guardian_acquisition_process_block_ex (Some example_acquisition) (Some example_samples)
      (2 * channels) (Some example_aux) 1000 None =
    (GUARDIAN_ACQUISITION_OK,
     Some (ACQUISITION example_calibration
             (block_measurements example_calibration example_samples 2 example_aux)
             (u32 (7 + 1)) stats), None)
    /\ as_invalid_blocks stats = 0.
Proof.
  apply (acquisition_exact example_acquisition example_samples 2 example_aux 1000 None).
  - constructor; unfold is_u16, is_u32; cbn; lia.
  - reflexivity.
  - split; [|reflexivity]. unfold adc_code, GUARDIAN_ACQUISITION_ADC_MAX_CODE.
    repeat constructor; lia.
  - unfold GUARDIAN_ACQUISITION_FRAMES_PER_BLOCK. lia.
  - vm_compute. reflexivity.
  - reflexivity.
Defined.
