(* ===== verification/Float32.v ===== *)
(** * Single-precision arithmetic

    The C type [float] of the target (a Cortex-M4 with a single-precision FPU):
    IEEE 754 binary32 with rounding to nearest even, every operation rounded on
    its own (no contraction to fused operations), as the Standard Library
    specifies it in [SpecFloat].  A decimal constant is the quotient of two
    integers, rounded once. *)

From Stdlib Require Import SpecFloat.
From S2P Require Import Prelude.

Definition f32 : Type := spec_float.

Definition f32_prec : Z := 24.
Definition f32_emax : Z := 128.

Definition f32_add : f32 -> f32 -> f32 := SFadd f32_prec f32_emax.
Definition f32_sub : f32 -> f32 -> f32 := SFsub f32_prec f32_emax.
Definition f32_mul : f32 -> f32 -> f32 := SFmul f32_prec f32_emax.
Definition f32_div : f32 -> f32 -> f32 := SFdiv f32_prec f32_emax.
Definition f32_sqrt : f32 -> f32 := SFsqrt f32_prec f32_emax.     (* sqrtf *)
Definition f32_neg : f32 -> f32 := SFopp.
Definition f32_lt : f32 -> f32 -> bool := SFltb.
Definition f32_le : f32 -> f32 -> bool := SFleb.

(** [(float)z] *)
Definition f32_of_Z (z : Z) : f32 := binary_normalize f32_prec f32_emax z 0 false.

(** The constant [n / d], for a positive [d]. *)
Definition f32_ratio (n : Z) (d : positive) : f32 :=
  match n with
  | 0 => S754_zero false
  | Zpos p => f32_div (S754_finite false p 0) (S754_finite false d 0)
  | Zneg p => f32_div (S754_finite true p 0) (S754_finite false d 0)
  end.

Definition f32_zero : f32 := S754_zero false.

(** The conversion of a [float] to an unsigned integer type, which truncates; the
    value of a finite non-negative operand is in range wherever the source
    converts. *)
Definition f32_trunc (x : f32) : Z :=
  match x with
  | S754_finite false m e =>
      match e with
      | Z0 => Zpos m
      | Zpos _ => Z.shiftl (Zpos m) e
      | Zneg k => Z.shiftr (Zpos m) (Zpos k)
      end
  | _ => 0
  end.

#[global] Instance f32_eq_dec : EqDecision f32.
Proof. unfold f32. solve_decision. Defined.
