(* ===== verification/Dsp.v ===== *)
(** * Signal processing

    Model of [firmware/DSP/Src/guardian_dsp.c]: the 64-point radix-2 transform, the
    time-domain and spectral features of one vibration block, and the command that
    publishes them.  The arithmetic is the binary32 of [Float32]; the transform is
    written over any arithmetic, so that it can also be read with exact numbers. *)

From Stdlib Require Import SpecFloat.
From S2P Require Import Prelude Crc32 Protocol Frames DeviceService Telemetry Acquisition Float32.

(** ** Data of guardian_dsp.h *)

Definition GUARDIAN_DSP_FFT_SIZE : nat := 64.
Definition GUARDIAN_DSP_ONE_SIDED_BIN_COUNT : nat := 33.
Definition GUARDIAN_DSP_SCHEMA_VERSION : Z := 0x01.
Definition GUARDIAN_DSP_PAYLOAD_SIZE : Z := 32.

Definition GUARDIAN_DSP_STATUS_VALID : Z := 0x0001.
Definition GUARDIAN_DSP_STATUS_DC_REMOVED : Z := 0x0002.
Definition GUARDIAN_DSP_STATUS_HANN_WINDOW : Z := 0x0004.
Definition GUARDIAN_DSP_STATUS_DOMINANT_VALID : Z := 0x0008.
Definition GUARDIAN_DSP_STATUS_SILENT : Z := 0x0010.

Inductive guardian_dsp_result_t :=
  | GUARDIAN_DSP_OK
  | GUARDIAN_DSP_ERROR_NULL_ARGUMENT
  | GUARDIAN_DSP_ERROR_LENGTH
  | GUARDIAN_DSP_ERROR_SAMPLE_RATE.

#[global] Instance guardian_dsp_result_t_eq_dec : EqDecision guardian_dsp_result_t.
Proof. solve_decision. Defined.

Record guardian_dsp_features_t := FEATURES {
  df_block_sequence : Z;
  df_sample_rate_hz : Z;
  df_rms_mg : Z;
  df_peak_mg : Z;
  df_crest_factor_milli : Z;
  df_dominant_frequency_centi_hz : Z;
  df_dominant_peak_mg : Z;
  df_spectral_centroid_centi_hz : Z;
  df_low_band_permille : Z;
  df_mid_band_permille : Z;
  df_high_band_permille : Z;
  df_acquisition_status_flags : Z;
  df_dsp_status_flags : Z
}.

Definition zero_features : guardian_dsp_features_t := FEATURES 0 0 0 0 0 0 0 0 0 0 0 0 0.

(** ** Constants *)

(** A constant of nine decimals. *)
Definition nano (n : Z) : f32 := f32_ratio n 1000000000.

Definition GUARDIAN_DSP_SILENCE_POWER_EPSILON : f32 := f32_ratio 1 1000000000.
Definition GUARDIAN_DSP_LOW_BAND_MAX_HZ : f32 := f32_of_Z 500.
Definition GUARDIAN_DSP_MID_BAND_MAX_HZ : f32 := f32_of_Z 1500.

(** The Hann window. *)
Definition guardian_dsp_hann : list f32 :=
  map nano
   [0; 2484612; 9913756; 22213597;
    39261894; 60889213; 86880613; 116977778;
    150881591; 188255099; 228726868; 271894671;
    317329488; 364579766; 413175911; 462634953;
    512465346; 562171852; 611260467; 659243325;
    705643552; 750000000; 791871836; 830842919;
    866525936; 898566254; 926645441; 950484434;
    969846310; 984538643; 994415413; 999378461;
    999378461; 994415413; 984538643; 969846310;
    950484434; 926645441; 898566254; 866525936;
    830842919; 791871836; 750000000; 705643552;
    659243325; 611260467; 562171852; 512465346;
    462634953; 413175911; 364579766; 317329488;
    271894671; 228726868; 188255099; 150881591;
    116977778; 86880613; 60889213; 39261894;
    22213597; 9913756; 2484612; 0].

(** The twiddle factors of the forward transform.  The source writes the first
    imaginary one as [-0.000000000F], a negative zero. *)
Definition guardian_dsp_twiddle_real : list f32 :=
  map nano
   [1000000000; 995184727; 980785280; 956940336;
    923879533; 881921264; 831469612; 773010453;
    707106781; 634393284; 555570233; 471396737;
    382683432; 290284677; 195090322; 98017140;
    0; -98017140; -195090322; -290284677;
    -382683432; -471396737; -555570233; -634393284;
    -707106781; -773010453; -831469612; -881921264;
    -923879533; -956940336; -980785280; -995184727].

Definition guardian_dsp_twiddle_imag : list f32 :=
  S754_zero true ::
  map nano
   [-98017140; -195090322; -290284677;
    -382683432; -471396737; -555570233; -634393284;
    -707106781; -773010453; -831469612; -881921264;
    -923879533; -956940336; -980785280; -995184727;
    -1000000000; -995184727; -980785280; -956940336;
    -923879533; -881921264; -831469612; -773010453;
    -707106781; -634393284; -555570233; -471396737;
    -382683432; -290284677; -195090322; -98017140].

(** ** Conversions to the published integers *)

Definition guardian_dsp_u16 (value : f32) : Z :=
  early negb (f32_lt f32_zero value) with 0 ;;
  early f32_le (f32_of_Z 65535) value with 65535 ;;
  u16 (f32_trunc (f32_add value (f32_ratio 1 2))).

(** The constant [4294967295.0F] is 2^32 in binary32. *)
Definition guardian_dsp_u32 (value : f32) : Z :=
  early negb (f32_lt f32_zero value) with 0 ;;
  early f32_le (f32_of_Z 4294967295) value with UINT32_MAX ;;
  u32 (f32_trunc (f32_add value (f32_ratio 1 2))).

(** ** The transform *)

Class Arith (F : Type) := {
  a_zero : F;
  a_add : F -> F -> F;
  a_sub : F -> F -> F;
  a_mul : F -> F -> F;
  a_twiddle_real : list F;
  a_twiddle_imag : list F
}.

#[global] Instance f32_arith : Arith f32 := {
  a_zero := f32_zero;
  a_add := f32_add;
  a_sub := f32_sub;
  a_mul := f32_mul;
  a_twiddle_real := guardian_dsp_twiddle_real;
  a_twiddle_imag := guardian_dsp_twiddle_imag
}.

(** [while ((reversed & bit) != 0U) ...]; the six bits of an index bound it. *)
Fixpoint reverse_carry (fuel : nat) (reversed bit : Z) : Z * Z :=
  match fuel with
  | O => (reversed, bit)
  | S fuel =>
      if negb (Z.land reversed bit =? 0)
      then reverse_carry fuel (Z.lxor reversed bit) (Z.shiftr bit 1)
      else (reversed, bit)
  end.

Definition next_reversed (reversed : Z) : Z :=
  let '(reversed, bit) := reverse_carry 7 reversed (Z.shiftr 64 1) in Z.lxor reversed bit.

Section transform.
Context {F : Type} `{Arith F}.

Definition at_index (l : list F) (i : nat) : F := nth i l a_zero.

(** Two arrays, [real] and [imag]. *)
Definition arrays : Type := list F * list F.

Definition guardian_dsp_swap_float (l : list F) (left right : nat) : list F :=
  let temporary := at_index l left in
  <[right := temporary]> (<[left := at_index l right]> l).

Definition bit_reverse_step (acc : arrays * Z) (index : nat) : arrays * Z :=
  let '((real, imag), reversed) := acc in
  let reversed := next_reversed reversed in
  if Z.of_nat index <? reversed
  then ((guardian_dsp_swap_float real index (Z.to_nat reversed),
         guardian_dsp_swap_float imag index (Z.to_nat reversed)), reversed)
  else ((real, imag), reversed).

Definition guardian_dsp_bit_reverse (a : arrays) : arrays :=
  fst (foldl bit_reverse_step (a, 0) (seq 1 (GUARDIAN_DSP_FFT_SIZE - 1))).

(** The body of the innermost loop. *)
Definition butterfly (length base : nat) (a : arrays) (offset : nat) : arrays :=
  let '(real, imag) := a in
  let twiddle_stride := (GUARDIAN_DSP_FFT_SIZE / length)%nat in
  let twiddle_index := (offset * twiddle_stride)%nat in
  let even_index := (base + offset)%nat in
  let odd_index := (even_index + length / 2)%nat in
  let wr := at_index a_twiddle_real twiddle_index in
  let wi := at_index a_twiddle_imag twiddle_index in
  let odd_real := a_sub (a_mul (at_index real odd_index) wr)
                        (a_mul (at_index imag odd_index) wi) in
  let odd_imag := a_add (a_mul (at_index real odd_index) wi)
                        (a_mul (at_index imag odd_index) wr) in
  let even_real := at_index real even_index in
  let even_imag := at_index imag even_index in
  let real := <[even_index := a_add even_real odd_real]> real in
  let imag := <[even_index := a_add even_imag odd_imag]> imag in
  let real := <[odd_index := a_sub even_real odd_real]> real in
  let imag := <[odd_index := a_sub even_imag odd_imag]> imag in
  (real, imag).

(** One stage: [base] runs over the multiples of [length] below 64, [offset] over
    the first half of each group. *)
Definition fft_stage (length : nat) (a : arrays) : arrays :=
  foldl (fun a base => foldl (butterfly length base) a (seq 0 (length / 2))) a
    (map (fun group => group * length)%nat (seq 0 (GUARDIAN_DSP_FFT_SIZE / length))).

(** [while (length <= 64) { ...; length <<= 1; }]: six stages. *)
Fixpoint fft_stages (fuel length : nat) (a : arrays) : arrays :=
  match fuel with
  | O => a
  | S fuel =>
      if (length <=? GUARDIAN_DSP_FFT_SIZE)%nat
      then fft_stages fuel (length * 2) (fft_stage length a)
      else a
  end.

Definition guardian_dsp_fft64 (a : arrays) : arrays :=
  fft_stages 7 2 (guardian_dsp_bit_reverse a).

End transform.

(** ** Analysis of one block *)

Definition sample_f32 (signal_block : guardian_acquisition_signal_block_t) (index : nat) : f32 :=
  f32_of_Z (byte_at (sb_vibration_mg signal_block) index).

Definition fft_size_f32 : f32 := f32_of_Z (Z.of_nat GUARDIAN_DSP_FFT_SIZE).

Definition block_mean (signal_block : guardian_acquisition_signal_block_t) : f32 :=
  f32_div
    (foldl (fun mean index => f32_add mean (sample_f32 signal_block index)) f32_zero
       (seq 0 GUARDIAN_DSP_FFT_SIZE))
    fft_size_f32.

(** The second loop: [rms_sum], [peak] and the windowed [real]. *)
Definition time_step (signal_block : guardian_acquisition_signal_block_t) (mean : f32)
    (acc : f32 * f32 * list f32) (index : nat) : f32 * f32 * list f32 :=
  let '(rms_sum, peak, real) := acc in
  let sample := f32_sub (sample_f32 signal_block index) mean in
  let rms_sum := f32_add rms_sum (f32_mul sample sample) in
  let absolute := if f32_lt sample f32_zero then f32_neg sample else sample in
  let peak := if f32_lt peak absolute then absolute else peak in
  (rms_sum, peak, <[index := f32_mul sample (at_index guardian_dsp_hann index)]> real).

Definition one_sided_power (real imag : list f32) : list f32 :=
  map (fun index => f32_add (f32_mul (at_index real index) (at_index real index))
                            (f32_mul (at_index imag index) (at_index imag index)))
    (seq 0 GUARDIAN_DSP_ONE_SIDED_BIN_COUNT).

(** The accumulators of the spectrum loop. *)
Record spectrum_t := SPECTRUM {
  sp_total_power : f32;
  sp_centroid_numerator : f32;
  sp_low_power : f32;
  sp_mid_power : f32;
  sp_high_power : f32;
  sp_dominant_power : f32;
  sp_dominant_bin : nat
}.

Definition spectrum_step (sample_rate_hz : Z) (power : list f32) (s : spectrum_t) (index : nat)
  : spectrum_t :=
  let frequency_hz :=
    f32_div (f32_mul (f32_of_Z (Z.of_nat index)) (f32_of_Z sample_rate_hz)) fft_size_f32 in
  let bin_power := at_index power index in
  let low := f32_le frequency_hz GUARDIAN_DSP_LOW_BAND_MAX_HZ in
  let mid := negb low && f32_le frequency_hz GUARDIAN_DSP_MID_BAND_MAX_HZ in
  let dominant := f32_lt (sp_dominant_power s) bin_power in
  SPECTRUM
    (f32_add (sp_total_power s) bin_power)
    (f32_add (sp_centroid_numerator s) (f32_mul frequency_hz bin_power))
    (if low then f32_add (sp_low_power s) bin_power else sp_low_power s)
    (if mid then f32_add (sp_mid_power s) bin_power else sp_mid_power s)
    (if negb low && negb mid then f32_add (sp_high_power s) bin_power else sp_high_power s)
    (if dominant then bin_power else sp_dominant_power s)
    (if dominant then index else sp_dominant_bin s).

Definition analyze_spectrum (sample_rate_hz : Z) (power : list f32) : spectrum_t :=
  foldl (spectrum_step sample_rate_hz power)
    (SPECTRUM f32_zero f32_zero f32_zero f32_zero f32_zero f32_zero 0)
    (seq 1 (GUARDIAN_DSP_ONE_SIDED_BIN_COUNT - 1)).

Definition f32_half : f32 := f32_ratio 1 2.
Definition f32_tiny : f32 := f32_ratio 1 1000000000000.

Definition interpolate_bin (power : list f32) (dominant_bin : nat) : f32 :=
  let bin := f32_of_Z (Z.of_nat dominant_bin) in
  if (1 <? dominant_bin)%nat && (dominant_bin <? GUARDIAN_DSP_ONE_SIDED_BIN_COUNT - 1)%nat then
    let left := at_index power (dominant_bin - 1) in
    let center := at_index power dominant_bin in
    let right := at_index power (dominant_bin + 1) in
    let denominator := f32_add (f32_sub left (f32_mul (f32_of_Z 2) center)) right in
    if f32_lt f32_tiny denominator || f32_lt denominator (f32_neg f32_tiny) then
      let delta := f32_div (f32_mul f32_half (f32_sub left right)) denominator in
      let delta := if f32_lt f32_half delta then f32_half
                   else if f32_lt delta (f32_neg f32_half) then f32_neg f32_half else delta in
      f32_add bin delta
    else bin
  else bin.

Definition hann_sum : f32 :=
  foldl (fun sum index => f32_add sum (at_index guardian_dsp_hann index)) f32_zero
    (seq 0 GUARDIAN_DSP_FFT_SIZE).

Definition permille (part total : f32) : Z :=
  guardian_dsp_u16 (f32_mul (f32_div part total) (f32_of_Z 1000)).

(** The high band takes what the rounding of the others leaves. *)
Definition high_band (low_band mid_band : Z) (s : spectrum_t) : Z :=
  if u32 (low_band + mid_band) <=? 1000 then u16 (u32 (u32 (1000 - low_band) - mid_band))
  else permille (sp_high_power s) (sp_total_power s).

Definition guardian_dsp_analyze (signal_block : option guardian_acquisition_signal_block_t)
    (features : option guardian_dsp_features_t)
  : guardian_dsp_result_t * option guardian_dsp_features_t :=
  match signal_block, features with
  | Some b, Some _ =>
      early negb (sb_sample_count b =? Z.of_nat GUARDIAN_DSP_FFT_SIZE)
        with (GUARDIAN_DSP_ERROR_LENGTH, features) ;;
      early sb_sample_rate_hz b =? 0 with (GUARDIAN_DSP_ERROR_SAMPLE_RATE, features) ;;
      let '(rms_sum, peak, real) :=
        foldl (time_step b (block_mean b))
          (f32_zero, f32_zero, replicate GUARDIAN_DSP_FFT_SIZE f32_zero)
          (seq 0 GUARDIAN_DSP_FFT_SIZE) in
      let rms := f32_sqrt (f32_div rms_sum fft_size_f32) in
      let '(real, imag) :=
        guardian_dsp_fft64 (real, replicate GUARDIAN_DSP_FFT_SIZE f32_zero) in
      let power := one_sided_power real imag in
      let s := analyze_spectrum (sb_sample_rate_hz b) power in
      let rate := if 65535 <? sb_sample_rate_hz b then 65535 else u16 (sb_sample_rate_hz b) in
      let crest := if f32_lt f32_zero rms
                   then guardian_dsp_u16 (f32_mul (f32_div peak rms) (f32_of_Z 1000)) else 0 in
      let flags := Z.lor (Z.lor GUARDIAN_DSP_STATUS_VALID GUARDIAN_DSP_STATUS_DC_REMOVED)
                     GUARDIAN_DSP_STATUS_HANN_WINDOW in
      if f32_lt GUARDIAN_DSP_SILENCE_POWER_EPSILON (sp_total_power s) then
        let low := permille (sp_low_power s) (sp_total_power s) in
        let mid := permille (sp_mid_power s) (sp_total_power s) in
        (GUARDIAN_DSP_OK,
         Some (FEATURES (sb_sequence b) rate (guardian_dsp_u16 rms) (guardian_dsp_u16 peak) crest
                 (guardian_dsp_u32
                    (f32_div (f32_mul (f32_mul (interpolate_bin power (sp_dominant_bin s))
                                         (f32_of_Z (sb_sample_rate_hz b))) (f32_of_Z 100))
                       fft_size_f32))
                 (guardian_dsp_u16
                    (f32_div (f32_mul (f32_of_Z 2) (f32_sqrt (sp_dominant_power s))) hann_sum))
                 (guardian_dsp_u32
                    (f32_mul (f32_div (sp_centroid_numerator s) (sp_total_power s))
                       (f32_of_Z 100)))
                 low mid (high_band low mid s)
                 (sb_status_flags b) (Z.lor flags GUARDIAN_DSP_STATUS_DOMINANT_VALID)))
      else
        (GUARDIAN_DSP_OK,
         Some (FEATURES (sb_sequence b) rate (guardian_dsp_u16 rms) (guardian_dsp_u16 peak) crest
                 0 0 0 0 0 0 (sb_status_flags b) (Z.lor flags GUARDIAN_DSP_STATUS_SILENT)))
  | _, _ => (GUARDIAN_DSP_ERROR_NULL_ARGUMENT, features)
  end.

(** ** The command *)

Definition guardian_dsp_write_u16_be (value : Z) : list Z := put_u16_be value.
Definition guardian_dsp_write_u32_be (value : Z) : list Z := put_u32_be value.

Definition guardian_dsp_make_error (request response : guardian_frame_t) (error_code : Z)
  : guardian_frame_t := reply_error request response error_code.

Definition guardian_dsp_encode_payload (features : option guardian_dsp_features_t)
    (payload : option (list Z)) (payload_capacity : Z) (payload_length : option Z)
  : guardian_protocol_result_t * option (list Z) * option Z :=
  match features, payload, payload_length with
  | Some f, Some p, Some _ =>
      early payload_capacity <? GUARDIAN_DSP_PAYLOAD_SIZE
        with (GUARDIAN_PROTOCOL_ERROR_OUTPUT_TOO_SMALL, payload, payload_length) ;;
      let p := blit p 0 [GUARDIAN_DSP_SCHEMA_VERSION] in
      let p := blit p 1 [0] in
      let p := blit p 2 (guardian_dsp_write_u32_be (df_block_sequence f)) in
      let p := blit p 6 (guardian_dsp_write_u16_be (df_sample_rate_hz f)) in
      let p := blit p 8 (guardian_dsp_write_u16_be (df_rms_mg f)) in
      let p := blit p 10 (guardian_dsp_write_u16_be (df_peak_mg f)) in
      let p := blit p 12 (guardian_dsp_write_u16_be (df_crest_factor_milli f)) in
      let p := blit p 14 (guardian_dsp_write_u32_be (df_dominant_frequency_centi_hz f)) in
      let p := blit p 18 (guardian_dsp_write_u16_be (df_dominant_peak_mg f)) in
      let p := blit p 20 (guardian_dsp_write_u32_be (df_spectral_centroid_centi_hz f)) in
      let p := blit p 24 (guardian_dsp_write_u16_be (df_low_band_permille f)) in
      let p := blit p 26 (guardian_dsp_write_u16_be (df_mid_band_permille f)) in
      let p := blit p 28 (guardian_dsp_write_u16_be (df_high_band_permille f)) in
      let p := blit p 30 (guardian_dsp_write_u16_be (df_acquisition_status_flags f)) in
      (GUARDIAN_PROTOCOL_OK, Some p, Some GUARDIAN_DSP_PAYLOAD_SIZE)
  | _, _, _ => (GUARDIAN_PROTOCOL_ERROR_NULL_ARGUMENT, payload, payload_length)
  end.

Definition guardian_dsp_handle_request (features : option guardian_dsp_features_t)
    (features_valid : Z) (request response : option guardian_frame_t)
  : guardian_protocol_result_t * option guardian_frame_t :=
  match request, response with
  | Some req, Some resp =>
      let fail e := (GUARDIAN_PROTOCOL_OK, Some (guardian_dsp_make_error req resp e)) in
      early negb (frame_command req =? GUARDIAN_COMMAND_GET_DSP_FEATURES)
        with fail GUARDIAN_ERROR_UNKNOWN_COMMAND ;;
      early negb (frame_message_type req =? GUARDIAN_MESSAGE_REQUEST)
        with fail GUARDIAN_ERROR_MALFORMED_FRAME ;;
      early negb (frame_payload_length req =? 0) with fail GUARDIAN_ERROR_INVALID_PAYLOAD ;;
      early (features_valid =? 0) || is_null features with fail GUARDIAN_ERROR_BUSY ;;
      let '(result, payload, payload_length) :=
        guardian_dsp_encode_payload features (Some (frame_payload resp))
          (Z.of_nat GUARDIAN_MAX_PAYLOAD_SIZE) (Some (frame_payload_length resp)) in
      (result, Some (reply_response req (default 0 payload_length) (default [] payload)))
  | _, _ => (GUARDIAN_PROTOCOL_ERROR_NULL_ARGUMENT, response)
  end.
