(* ===== verification/DspExact.v ===== *)
(** * The transform computes the discrete Fourier transform

    [Dsp.v] writes [guardian_dsp_fft64] over any arithmetic.  With the exact
    arithmetic of the real numbers and exact twiddle factors, the bit reversal and
    the six stages of butterflies compute the 64-point discrete Fourier transform.

    The proof runs the same loops a second time on symbolic values, sums of
    [x_j * w^m] with [w] the 64th root of unity, relates the two runs, and
    evaluates the symbolic one. *)

From Stdlib Require Import Reals Lra.
From S2P Require Import Prelude Float32 Dsp.

Local Open Scope R_scope.

(** ** Complex numbers and the root of unity *)

Definition complex : Type := R * R.

Definition c_zero : complex := (0, 0).
Definition c_add (a b : complex) : complex := (a.1 + b.1, a.2 + b.2).
Definition c_sub (a b : complex) : complex := (a.1 - b.1, a.2 - b.2).
Definition c_mul (a b : complex) : complex := (a.1 * b.1 - a.2 * b.2, a.1 * b.2 + a.2 * b.1).

(** The angle of [w^m]: the transform is a forward one. *)
Definition root (m : nat) : complex :=
  (cos (INR m * (PI / 32)), - sin (INR m * (PI / 32))).

(** The real arithmetic, with the twiddle factors the tables of the source round. *)
#[global] Instance real_arith : Arith R := {
  a_zero := 0;
  a_add := Rplus;
  a_sub := Rminus;
  a_mul := Rmult;
  a_twiddle_real := map (fun k => (root k).1) (seq 0 32);
  a_twiddle_imag := map (fun k => (root k).2) (seq 0 32)
}.

(** The discrete Fourier transform of the 64 samples [x]. *)
Definition dft64 (x : nat -> complex) (k : nat) : complex :=
  foldr (fun j s => c_add (c_mul (x j) (root (j * k))) s) c_zero (seq 0 64).

Definition sample_at (a : list R * list R) (i : nat) : complex :=
  (at_index a.1 i, at_index a.2 i).

Lemma c_add_comm a b : c_add a b = c_add b a.
Proof. unfold c_add. cbn. f_equal; ring. Qed.
Lemma c_add_assoc a b c : c_add a (c_add b c) = c_add (c_add a b) c.
Proof. unfold c_add. cbn. f_equal; ring. Qed.
Lemma c_add_0_l a : c_add c_zero a = a.
Proof. destruct a. unfold c_add, c_zero. cbn. f_equal; ring. Qed.
Lemma c_mul_assoc a b c : c_mul a (c_mul b c) = c_mul (c_mul a b) c.
Proof. unfold c_mul. cbn. f_equal; ring. Qed.
Lemma c_mul_add_l a b c : c_mul (c_add a b) c = c_add (c_mul a c) (c_mul b c).
Proof. unfold c_mul, c_add. cbn. f_equal; ring. Qed.
Lemma c_mul_0_l a : c_mul c_zero a = c_zero.
Proof. unfold c_mul, c_zero. cbn. f_equal; ring. Qed.

Lemma root_0 : root 0 = (1, 0).
Proof. unfold root. cbn [INR]. rewrite Rmult_0_l, cos_0, sin_0. f_equal. ring. Qed.

Lemma root_add m n : root (m + n) = c_mul (root m) (root n).
Proof.
  unfold root, c_mul. cbn. rewrite plus_INR, Rmult_plus_distr_r, cos_plus, sin_plus.
  f_equal; ring.
Qed.

Lemma root_32 : root 32 = (-1, 0).
Proof.
  unfold root. replace (INR 32 * (PI / 32)) with PI by (cbn; field).
  rewrite cos_PI, sin_PI. f_equal. ring.
Qed.

Lemma root_64 : root 64 = (1, 0).
Proof.
  change 64%nat with (32 + 32)%nat. rewrite root_add, root_32. unfold c_mul. cbn. f_equal; ring.
Qed.

Lemma c_mul_1_r a : c_mul a (1, 0) = a.
Proof. destruct a. unfold c_mul. cbn. f_equal; ring. Qed.

Lemma root_period q m : root (m + 64 * q) = root m.
Proof.
  induction q as [|q IH]; [by rewrite Nat.mul_0_r, Nat.add_0_r|].
  replace (m + 64 * S q)%nat with (m + 64 * q + 64)%nat by lia.
  by rewrite root_add, IH, root_64, c_mul_1_r.
Qed.

Lemma root_mod m : root (m mod 64) = root m.
Proof. rewrite (Nat.div_mod_eq m 64) at 2. by rewrite Nat.add_comm, root_period. Qed.

Lemma c_sub_root a b : c_sub a b = c_add a (c_mul b (root 32)).
Proof. rewrite root_32. unfold c_sub, c_add, c_mul. cbn. f_equal; ring. Qed.

(** ** Symbolic values *)

(** The sum of the terms [x_j * w^m]. *)
Definition symbol : Type := list (nat * nat).

Definition s_add (a b : symbol) : symbol := a ++ b.
Definition s_shift (m : nat) (a : symbol) : symbol :=
  map (fun t => (t.1, (t.2 + m) mod 64)%nat) a.

Section interpretation.
Context (x : nat -> complex).

Definition term (t : nat * nat) : complex := c_mul (x t.1) (root t.2).

Definition interp (a : symbol) : complex := foldr (fun t s => c_add (term t) s) c_zero a.

Lemma interp_add a b : interp (s_add a b) = c_add (interp a) (interp b).
Proof.
  unfold s_add. induction a as [|t a IH]; cbn; [by rewrite c_add_0_l|].
  unfold interp in *. by rewrite IH, c_add_assoc.
Qed.

Lemma interp_shift m a : interp (s_shift m a) = c_mul (interp a) (root m).
Proof.
  induction a as [|t a IH]; cbn; [by rewrite c_mul_0_l|]. unfold interp, s_shift in *.
  rewrite IH, c_mul_add_l. f_equal. unfold term. cbn [fst snd].
  by rewrite root_mod, root_add, c_mul_assoc.
Qed.

Lemma interp_sub a b : interp (s_add a (s_shift 32 b)) = c_sub (interp a) (interp b).
Proof. by rewrite interp_add, interp_shift, c_sub_root. Qed.

Lemma interp_permutation a b : Permutation a b -> interp a = interp b.
Proof.
  induction 1 as [|t a b _ IH|t u a|a b c _ IH1 _ IH2]; unfold interp in *; cbn; [done| | |congruence].
  - by rewrite IH.
  - rewrite !c_add_assoc. f_equal. apply c_add_comm.
Qed.
End interpretation.

(** ** The loops on symbols *)

Definition s_at (l : list symbol) (i : nat) : symbol := nth i l [].

Definition s_swap (l : list symbol) (i j : nat) : list symbol :=
  <[j := s_at l i]> (<[i := s_at l j]> l).

Definition s_reverse_step (acc : list symbol * Z) (index : nat) : list symbol * Z :=
  let '(l, reversed) := acc in
  let reversed := next_reversed reversed in
  if Z.of_nat index <? reversed then (s_swap l index (Z.to_nat reversed), reversed)
  else (l, reversed).

Definition s_butterfly (length base : nat) (l : list symbol) (offset : nat) : list symbol :=
  let even_index := (base + offset)%nat in
  let odd_index := (even_index + length / 2)%nat in
  let odd := s_shift (offset * (64 / length)) (s_at l odd_index) in
  let even := s_at l even_index in
  <[odd_index := s_add even (s_shift 32 odd)]> (<[even_index := s_add even odd]> l).

Definition s_stage (length : nat) (l : list symbol) : list symbol :=
  foldl (fun l base => foldl (s_butterfly length base) l (seq 0 (length / 2))) l
    (map (fun group => group * length)%nat (seq 0 (64 / length))).

Fixpoint s_stages (fuel length : nat) (l : list symbol) : list symbol :=
  match fuel with
  | O => l
  | S fuel => if (length <=? 64)%nat then s_stages fuel (length * 2) (s_stage length l) else l
  end.

Definition s_fft (l : list symbol) : list symbol :=
  s_stages 7 2 (fst (foldl s_reverse_step (l, 0%Z) (seq 1 63))).

(** The symbolic transform of the samples themselves. *)
Definition s_input : list symbol := map (fun j => [(j, 0%nat)]) (seq 0 64).

(** An output is a permutation of the terms of the transform. *)
Definition output_ok (k : nat) (out : symbol) : bool :=
  forallb (fun j => bool_decide ((j, (j * k) mod 64)%nat ∈ out)) (seq 0 64)
  && (length out =? 64)%nat.

Definition s_output_ok : bool :=
  forallb (fun k => output_ok k (s_at (s_fft s_input) k)) (seq 0 64).

Lemma s_output_checked : s_output_ok = true.
Proof. vm_compute. reflexivity. Qed.

(** ** The two runs are related *)

Lemma at_index_insert (l : list R) i j v :
  (i < length l)%nat -> at_index (<[i := v]> l) j = (if decide (i = j) then v else at_index l j).
Proof.
  intros Hi. unfold at_index. rewrite !nth_lookup. destruct (decide (i = j)) as [->|Hne].
  - by rewrite list_lookup_insert_eq.
  - by rewrite list_lookup_insert_ne.
Qed.

Lemma s_at_insert (l : list symbol) i j v :
  (i < length l)%nat -> s_at (<[i := v]> l) j = (if decide (i = j) then v else s_at l j).
Proof.
  intros Hi. unfold s_at. rewrite !nth_lookup. destruct (decide (i = j)) as [->|Hne].
  - by rewrite list_lookup_insert_eq.
  - by rewrite list_lookup_insert_ne.
Qed.

Lemma nth_map_seq {A} (f : nat -> A) d n k :
  (k < n)%nat -> nth k (map f (seq 0 n)) d = f k.
Proof.
  intros Hk. rewrite (nth_indep _ d (f 0%nat)) by (rewrite length_map, length_seq; done).
  rewrite map_nth. by rewrite seq_nth.
Qed.

Section simulation.
Context (x : nat -> complex).

Record related (a : list R * list R) (l : list symbol) : Prop := {
  rel_real : length a.1 = 64%nat;
  rel_imag : length a.2 = 64%nat;
  rel_symbols : length l = 64%nat;
  rel_at : forall i, sample_at a i = interp x (s_at l i)
}.

Lemma related_insert a l i v s :
  related a l -> (i < 64)%nat -> v = interp x s ->
  related (<[i := v.1]> a.1, <[i := v.2]> a.2) (<[i := s]> l).
Proof.
  intros [Hr Hi Hl Hat] Hlt ->. split; cbn; rewrite ?length_insert; [done..|].
  intros j. unfold sample_at. cbn [fst snd].
  rewrite !at_index_insert, s_at_insert by (rewrite ?Hr, ?Hi, ?Hl; done).
  destruct (decide (i = j)); [by destruct (interp x s)|apply Hat].
Qed.

Lemma related_swap a l i j :
  related a l -> (i < 64)%nat -> (j < 64)%nat ->
  related (guardian_dsp_swap_float a.1 i j, guardian_dsp_swap_float a.2 i j) (s_swap l i j).
Proof.
  intros Hrel Hi Hj. unfold guardian_dsp_swap_float, s_swap.
  pose proof (rel_at _ _ Hrel i) as Ei. pose proof (rel_at _ _ Hrel j) as Ej.
  pose proof (related_insert _ _ i _ _ Hrel Hi Ej) as H1.
  exact (related_insert _ _ j _ _ H1 Hj Ei).
Qed.

Lemma related_fold {B} (f : list R * list R -> B -> list R * list R)
    (g : list symbol -> B -> list symbol) (good : B -> Prop) xs a l :
  (forall a l b, good b -> related a l -> related (f a b) (g l b)) ->
  Forall good xs -> related a l -> related (foldl f a xs) (foldl g l xs).
Proof.
  intros Hstep Hxs. revert a l. induction Hxs as [|b xs Hb _ IH]; intros a l Hrel; cbn; eauto.
Qed.

Lemma next_reversed_range r : (0 <= r < 64)%Z -> (0 <= next_reversed r < 64)%Z.
Proof.
  intros Hr. enough (Forall (fun r => (0 <= next_reversed r < 64)%Z) (seqZ 0 64)) as Hall.
  { rewrite Forall_forall in Hall. apply Hall. by apply elem_of_seqZ. }
  apply (bool_decide_unpack _). vm_compute. exact I.
Qed.

Lemma related_reverse xs : forall a l r,
  Forall (fun i => (i < 64)%nat) xs -> (0 <= r < 64)%Z -> related a l ->
  related (fst (foldl bit_reverse_step (a, r) xs)) (fst (foldl s_reverse_step (l, r) xs)).
Proof.
  induction xs as [|i xs IH]; intros a l r Hxs Hr Hrel; [done|].
  inversion Hxs as [|? ? Hi Hrest]; subst. cbn [foldl bit_reverse_step s_reverse_step].
  pose proof (next_reversed_range r Hr) as Hn. destruct a as [real imag]. cbn.
  destruct (Z.of_nat i <? next_reversed r)%Z; apply IH; try done.
  apply (related_swap (real, imag)); [done..|lia].
Qed.

(** The stages the transform runs: powers of two up to 64. *)
Definition stage_length (len : nat) : Prop := len ∈ [2; 4; 8; 16; 32; 64]%nat.

Lemma twiddle_at k : (k < 32)%nat ->
  (at_index a_twiddle_real k, at_index a_twiddle_imag k) = root k.
Proof.
  intros Hk. unfold at_index. cbn [a_twiddle_real a_twiddle_imag real_arith].
  rewrite !nth_map_seq by done. by destruct (root k).
Qed.

Lemma related_butterfly len base a l offset :
  stage_length len -> (base + len <= 64)%nat -> (offset < len / 2)%nat -> related a l ->
  related (butterfly len base a offset) (s_butterfly len base l offset).
Proof.
  intros Hlen Hbase Hoff Hrel. destruct a as [real imag].
  assert (Hk : (offset * (64 / len) < 32)%nat /\ (len / 2 + len / 2 = len)%nat).
  { unfold stage_length in Hlen. rewrite !elem_of_cons, elem_of_nil in Hlen.
    destruct Hlen as [->|[->|[->|[->|[->|[->|[]]]]]]];
      match goal with |- context [(64 / ?n)%nat] =>
        let v := eval vm_compute in (64 / n)%nat in change (64 / n)%nat with v end;
      split; nat_div_mod. }
  destruct Hk as [Hk Hhalf]. pose proof (twiddle_at _ Hk) as Htw.
  unfold butterfly, s_butterfly. change GUARDIAN_DSP_FFT_SIZE with 64%nat.
  set (k := (offset * (64 / len))%nat) in *. set (e := (base + offset)%nat).
  set (o := (e + len / 2)%nat).
  pose proof (rel_at _ _ Hrel e) as He. pose proof (rel_at _ _ Hrel o) as Ho.
  assert (Hodd : (at_index real o * at_index a_twiddle_real k - at_index imag o * at_index a_twiddle_imag k,
                  at_index real o * at_index a_twiddle_imag k + at_index imag o * at_index a_twiddle_real k)
                 = interp x (s_shift k (s_at l o))).
  { rewrite interp_shift, <- Ho, <- Htw. reflexivity. }
  set (odd := s_shift k (s_at l o)) in *.
  assert (Hadd := interp_add x (s_at l e) odd). assert (Hsub := interp_sub x (s_at l e) odd).
  rewrite <- He, <- Hodd in Hadd, Hsub. symmetry in Hadd, Hsub.
  pose proof (related_insert _ _ e _ _ Hrel ltac:(lia) Hadd) as H1.
  exact (related_insert _ _ o _ _ H1 ltac:(lia) Hsub).
Qed.

Lemma related_stage len a l :
  stage_length len -> related a l -> related (fft_stage len a) (s_stage len l).
Proof.
  intros Hlen Hrel. unfold fft_stage, s_stage. change GUARDIAN_DSP_FFT_SIZE with 64%nat.
  assert (Hn : (64 / len * len = 64)%nat).
  { unfold stage_length in Hlen. rewrite !elem_of_cons, elem_of_nil in Hlen.
    by destruct Hlen as [->|[->|[->|[->|[->|[->|[]]]]]]]. }
  apply (related_fold _ _ (fun base => base + len <= 64)%nat); [|apply Forall_map, Forall_seq|done].
  - intros a' l' base Hbase Hrel'.
    apply (related_fold _ _ (fun offset => offset < len / 2)%nat); [|apply Forall_seq; lia|done].
    intros. by apply related_butterfly.
  - intros group Hgroup. nia.
Qed.

Lemma related_stages fuel : forall len a l,
  stage_length len \/ (64 < len)%nat -> related a l ->
  related (fft_stages fuel len a) (s_stages fuel len l).
Proof.
  induction fuel as [|fuel IH]; intros len a l Hlen Hrel; [done|]. cbn [fft_stages s_stages].
  change GUARDIAN_DSP_FFT_SIZE with 64%nat.
  destruct (Nat.leb_spec len 64) as [Hle|Hgt]; [|done]. destruct Hlen as [Hlen|]; [|lia].
  apply IH; [|by apply related_stage].
  unfold stage_length in *. rewrite !elem_of_cons, elem_of_nil in *.
  destruct Hlen as [->|[->|[->|[->|[->|[->|[]]]]]]]; lia.
Qed.

Lemma related_fft a l : related a l -> related (guardian_dsp_fft64 a) (s_fft l).
Proof.
  intros Hrel. unfold guardian_dsp_fft64, s_fft, guardian_dsp_bit_reverse.
  apply related_stages; [left; unfold stage_length; set_solver|].
  apply related_reverse; [apply Forall_seq; cbn; lia|lia|done].
Qed.
End simulation.

(** ** Equivalence with the transform *)

Lemma output_ok_spec k out : output_ok k out = true ->
  Permutation out (map (fun j => (j, (j * k) mod 64)%nat) (seq 0 64)).
Proof.
  intros Hok. apply andb_true_iff in Hok as [Hin Hlen]. apply Nat.eqb_eq in Hlen.
  symmetry. apply submseteq_length_Permutation; [|by rewrite Hlen, length_map, length_seq].
  apply NoDup_submseteq.
  - apply NoDup_fmap_2_strong; [|apply NoDup_seq]. by intros i j _ _ [= ->].
  - intros t Ht. apply list_elem_of_fmap in Ht as (j & -> & Hj). apply elem_of_seq in Hj.
    rewrite forallb_forall in Hin. specialize (Hin j ltac:(apply in_seq; lia)).
    by apply bool_decide_eq_true in Hin.
Qed.

Lemma s_output_permutation k : (k < 64)%nat ->
  Permutation (s_at (s_fft s_input) k) (map (fun j => (j, (j * k) mod 64)%nat) (seq 0 64)).
Proof.
  intros Hk. apply output_ok_spec.
  apply (proj1 (forallb_forall (fun k => output_ok k (s_at (s_fft s_input) k)) (seq 0 64))).
  - exact s_output_checked.
  - apply in_seq. lia.
Qed.

(** C24: With exact arithmetic and exact twiddle factors, the in-place radix-2
    routine of the signal processing (bit reversal, then six stages of butterflies)
    computes the 64-point discrete Fourier transform of its two arrays. *)
Theorem fft64_is_dft (real imag : list R) (k : nat) :
  length real = 64%nat -> length imag = 64%nat -> (k < 64)%nat ->
  sample_at (guardian_dsp_fft64 (real, imag)) k = dft64 (sample_at (real, imag)) k.
Proof.
  intros Hr Hi Hk. set (x := sample_at (real, imag)).
  assert (Hrel : related x (real, imag) s_input).
  { split; [done..|reflexivity|]. intros i. destruct (decide (i < 64)%nat) as [Hlt|Hge].
    - unfold s_at, s_input. rewrite nth_map_seq by done.
      cbn. unfold term. cbn [fst snd]. by rewrite root_0, c_mul_1_r, c_add_comm, c_add_0_l.
    - unfold s_at. rewrite (nth_overflow s_input) by (cbn; lia).
      unfold sample_at, at_index. by rewrite !nth_overflow by (cbn; lia). }
  rewrite (rel_at _ _ _ (related_fft x _ _ Hrel)).
  rewrite (interp_permutation x _ _ (s_output_permutation k Hk)).
  unfold interp, dft64. generalize (seq 0 64). intros js.
  induction js as [|j js IH]; [done|]. cbn. rewrite IH. unfold term. cbn [fst snd].
  by rewrite root_mod.
Qed.

Lemma fft64_is_dft_witness :
  sample_at (guardian_dsp_fft64 (replicate 64 1, replicate 64 0)) 3 =
  dft64 (sample_at (replicate 64 1, replicate 64 0)) 3.
Proof. apply fft64_is_dft; [reflexivity|reflexivity|lia]. Defined.
