(* ===== verification/Health.v ===== *)
(** * Machine health

    Model of [firmware/Health/Src/guardian_health.c]: the baseline learned with
    Welford's recurrences, the scoring of later feature vectors against it, the
    persistence and hysteresis of the health state, and the two commands of the
    module. *)

From Stdlib Require Import SpecFloat.
From S2P Require Import Prelude Crc32 Protocol Frames DeviceService Telemetry Acquisition Float32.
From S2P Require Import Dsp.

(** ** Data of guardian_health.h *)

Definition GUARDIAN_HEALTH_SCHEMA_VERSION : Z := 0x01.
Definition GUARDIAN_HEALTH_STATUS_PAYLOAD_SIZE : Z := 36.
Definition GUARDIAN_BASELINE_CONTROL_PAYLOAD_SIZE : Z := 4.
Definition GUARDIAN_HEALTH_BASELINE_MIN_SAMPLES : Z := 16.
Definition GUARDIAN_HEALTH_BASELINE_MAX_SAMPLES : Z := 1024.
Definition GUARDIAN_HEALTH_FEATURE_COUNT : nat := 7.
Definition GUARDIAN_HEALTH_FEATURE_NONE : Z := 0xFF.

Definition GUARDIAN_HEALTH_QUALITY_REFERENCE_CALIBRATION : Z := 0x0001.
Definition GUARDIAN_HEALTH_QUALITY_INPUT_REJECTED : Z := 0x0002.
Definition GUARDIAN_HEALTH_QUALITY_SAMPLE_RATE_MISMATCH : Z := 0x0004.
Definition GUARDIAN_HEALTH_QUALITY_BASELINE_READY : Z := 0x0008.
Definition GUARDIAN_HEALTH_QUALITY_ANOMALY_PRESENT : Z := 0x0010.

Inductive guardian_health_state_t :=
  | GUARDIAN_HEALTH_STATE_UNTRAINED
  | GUARDIAN_HEALTH_STATE_LEARNING
  | GUARDIAN_HEALTH_STATE_READY
  | GUARDIAN_HEALTH_STATE_WARNING
  | GUARDIAN_HEALTH_STATE_ALARM.

#[global] Instance guardian_health_state_t_eq_dec : EqDecision guardian_health_state_t.
Proof. solve_decision. Defined.

Definition health_state_value (s : guardian_health_state_t) : Z :=
  match s with
  | GUARDIAN_HEALTH_STATE_UNTRAINED => 0
  | GUARDIAN_HEALTH_STATE_LEARNING => 1
  | GUARDIAN_HEALTH_STATE_READY => 2
  | GUARDIAN_HEALTH_STATE_WARNING => 3
  | GUARDIAN_HEALTH_STATE_ALARM => 4
  end.

Definition GUARDIAN_BASELINE_ACTION_START : Z := 1.
Definition GUARDIAN_BASELINE_ACTION_RESET : Z := 2.

Record guardian_health_stat_t := STAT { stat_mean : f32; stat_m2 : f32 }.

Record guardian_health_status_t := HEALTH_STATUS {
  hs_state : guardian_health_state_t;
  hs_baseline_samples : Z;
  hs_baseline_target : Z;
  hs_anomaly_score : Z;
  hs_health_score : Z;
  hs_max_deviation_milli : Z;
  hs_dominant_feature : Z;
  hs_consecutive_anomalous : Z;
  hs_quality_flags : Z;
  hs_block_sequence : Z;
  hs_current_rms_mg : Z;
  hs_current_crest_factor_milli : Z;
  hs_current_dominant_frequency_centi_hz : Z;
  hs_baseline_rms_mean_mg : Z;
  hs_baseline_rms_std_mg : Z;
  hs_exceeded_feature_mask : Z;
  hs_rejected_inputs : Z
}.

Record guardian_health_t := HEALTH {
  he_status : guardian_health_status_t;
  he_stats : list guardian_health_stat_t;      (* stats[7] *)
  he_baseline_sample_rate_hz : Z;
  he_anomalous_streak : Z;
  he_recovery_streak : Z;
  he_rejected_inputs_total : Z
}.

Local Abbreviation status_t := guardian_health_status_t.
Local Abbreviation health_t := guardian_health_t.
Local Abbreviation features_t := guardian_dsp_features_t.

(** ** Constants of guardian_health.c *)

Definition GUARDIAN_HEALTH_WARNING_Z : f32 := f32_of_Z 3.
Definition GUARDIAN_HEALTH_ALARM_Z : f32 := f32_of_Z 6.
Definition GUARDIAN_HEALTH_RECOVERY_Z : f32 := f32_of_Z 2.
Definition GUARDIAN_HEALTH_WARNING_STREAK : Z := 3.
Definition GUARDIAN_HEALTH_ALARM_STREAK : Z := 2.
Definition GUARDIAN_HEALTH_RECOVERY_STREAK : Z := 5.

Definition GUARDIAN_HEALTH_REJECTED_ACQUISITION_FLAGS : Z :=
  Z.lor (Z.lor (Z.lor GUARDIAN_ACQUISITION_STATUS_ADC_SATURATED
                  GUARDIAN_ACQUISITION_STATUS_DMA_DROP)
           GUARDIAN_ACQUISITION_STATUS_ADC_ERROR)
    GUARDIAN_ACQUISITION_STATUS_DMA_ERROR.

Definition guardian_health_sigma_floor : list f32 :=
  map f32_of_Z [5; 50; 500; 500; 10; 10; 10].

Definition guardian_health_weight : list f32 :=
  map (fun n => f32_ratio n 100) [150; 120; 100; 90; 80; 80; 80].

(** ** Helpers *)

Definition guardian_health_increment_u32 (value : Z) : Z :=
  if negb (value =? UINT32_MAX) then u32 (value + 1) else value.

Definition guardian_health_u16 (value : f32) : Z :=
  early negb (f32_lt f32_zero value) with 0 ;;
  early f32_le (f32_of_Z 65535) value with 65535 ;;
  u16 (f32_trunc (f32_add value (f32_ratio 1 2))).

Definition guardian_health_abs (value : f32) : f32 :=
  if f32_lt value f32_zero then f32_neg value else value.

Definition guardian_health_vector (f : features_t) : list f32 :=
  map f32_of_Z
    [df_rms_mg f; df_crest_factor_milli f; df_dominant_frequency_centi_hz f;
     df_spectral_centroid_centi_hz f; df_low_band_permille f; df_mid_band_permille f;
     df_high_band_permille f].

Definition guardian_health_input_valid (features : option features_t) : bool :=
  match features with
  | None => false
  | Some f =>
      early Z.land (df_dsp_status_flags f) GUARDIAN_DSP_STATUS_VALID =? 0 with false ;;
      early Z.land (df_acquisition_status_flags f) GUARDIAN_ACQUISITION_STATUS_VALID =? 0
        with false ;;
      early negb (Z.land (df_acquisition_status_flags f)
                    GUARDIAN_HEALTH_REJECTED_ACQUISITION_FLAGS =? 0)
        with false ;;
      early df_sample_rate_hz f =? 0 with false ;;
      true
  end.

Definition stat_at (stats : list guardian_health_stat_t) (feature : nat) : guardian_health_stat_t :=
  nth feature stats (STAT f32_zero f32_zero).

Definition guardian_health_sigma (baseline_samples : Z) (stats : list guardian_health_stat_t)
    (feature : nat) : f32 :=
  let sigma := at_index guardian_health_sigma_floor feature in
  if 1 <? baseline_samples then
    let variance := f32_div (stat_m2 (stat_at stats feature)) (f32_of_Z (baseline_samples - 1)) in
    if f32_lt f32_zero variance then
      let candidate := f32_sqrt variance in
      if f32_lt sigma candidate then candidate else sigma
    else sigma
  else sigma.

(** The two fields [guardian_health_update_baseline_summary] stores. *)
Definition guardian_health_update_baseline_summary (baseline_samples : Z)
    (stats : list guardian_health_stat_t) : Z * Z :=
  early baseline_samples =? 0 with (0, 0) ;;
  (guardian_health_u16 (stat_mean (stat_at stats 0)),
   guardian_health_u16 (guardian_health_sigma baseline_samples stats 0)).

(** ** Lifecycle *)

Definition untrained_health : health_t :=
  HEALTH (HEALTH_STATUS GUARDIAN_HEALTH_STATE_UNTRAINED 0 0 0 1000 0 GUARDIAN_HEALTH_FEATURE_NONE
            0 0 0 0 0 0 0 0 0 0)
    (replicate GUARDIAN_HEALTH_FEATURE_COUNT (STAT f32_zero f32_zero)) 0 0 0 0.

Definition guardian_health_reset (health : option health_t) : option health_t :=
  match health with None => None | Some _ => Some untrained_health end.

Definition guardian_health_init (health : option health_t) : option health_t :=
  guardian_health_reset health.

Definition guardian_health_start_baseline (health : option health_t) (target_samples : Z)
  : Z * option health_t :=
  match health with
  | None => (0, health)
  | Some _ =>
      early (target_samples <? GUARDIAN_HEALTH_BASELINE_MIN_SAMPLES)
            || (GUARDIAN_HEALTH_BASELINE_MAX_SAMPLES <? target_samples)
        with (0, health) ;;
      (1, Some (HEALTH (HEALTH_STATUS GUARDIAN_HEALTH_STATE_LEARNING 0 target_samples 0 1000 0
                          GUARDIAN_HEALTH_FEATURE_NONE 0 0 0 0 0 0 0 0 0 0)
                  (replicate GUARDIAN_HEALTH_FEATURE_COUNT (STAT f32_zero f32_zero)) 0 0 0 0))
  end.

Definition guardian_health_reject_input (h : health_t) (quality_flag : Z) : health_t :=
  let s := he_status h in
  let total := guardian_health_increment_u32 (he_rejected_inputs_total h) in
  HEALTH (HEALTH_STATUS (hs_state s) (hs_baseline_samples s) (hs_baseline_target s)
            (hs_anomaly_score s) (hs_health_score s) (hs_max_deviation_milli s)
            (hs_dominant_feature s) (hs_consecutive_anomalous s)
            (Z.lor (hs_quality_flags s) quality_flag) (hs_block_sequence s)
            (hs_current_rms_mg s) (hs_current_crest_factor_milli s)
            (hs_current_dominant_frequency_centi_hz s) (hs_baseline_rms_mean_mg s)
            (hs_baseline_rms_std_mg s) (hs_exceeded_feature_mask s)
            (if 65535 <? total then 65535 else u16 total))
    (he_stats h) (he_baseline_sample_rate_hz h) (he_anomalous_streak h) (he_recovery_streak h)
    total.

(** ** Learning *)

(** The operations of the recurrence, over any arithmetic. *)
Class Recurrence (F : Type) := {
  r_add : F -> F -> F;
  r_sub : F -> F -> F;
  r_mul : F -> F -> F;
  r_div : F -> F -> F
}.

#[global] Instance f32_recurrence : Recurrence f32 := {
  r_add := f32_add;
  r_sub := f32_sub;
  r_mul := f32_mul;
  r_div := f32_div
}.

(** The loop body of [guardian_health_learn]: Welford's update of one statistic,
    its mean and its sum of squared deviations. *)
Definition welford_step {F : Type} `{Recurrence F} (next_count value : F) (s : F * F) : F * F :=
  let '(mean, m2) := s in
  let delta := r_sub value mean in
  let mean := r_add mean (r_div delta next_count) in
  let delta_after := r_sub value mean in
  (mean, r_add m2 (r_mul delta delta_after)).

Definition learn_feature (next_count : Z) (value : f32) (s : guardian_health_stat_t)
  : guardian_health_stat_t :=
  let '(mean, m2) := welford_step (f32_of_Z next_count) value (stat_mean s, stat_m2 s) in
  STAT mean m2.

Definition guardian_health_learn (h : health_t) (f : features_t) : health_t :=
  let s := he_status h in
  let vector := guardian_health_vector f in
  let rate := if hs_baseline_samples s =? 0 then df_sample_rate_hz f
              else he_baseline_sample_rate_hz h in
  let next_count := u16 (hs_baseline_samples s + 1) in
  let stats := map (fun feature => learn_feature next_count (at_index vector feature)
                                      (stat_at (he_stats h) feature))
                 (seq 0 GUARDIAN_HEALTH_FEATURE_COUNT) in
  let quality :=
    if negb (Z.land (df_acquisition_status_flags f)
               GUARDIAN_ACQUISITION_STATUS_DEFAULT_CALIBRATION =? 0)
    then Z.lor (hs_quality_flags s) GUARDIAN_HEALTH_QUALITY_REFERENCE_CALIBRATION
    else hs_quality_flags s in
  let '(rms_mean, rms_std) := guardian_health_update_baseline_summary next_count stats in
  let complete := hs_baseline_target s <=? next_count in
  HEALTH
    (HEALTH_STATUS
       (if complete then GUARDIAN_HEALTH_STATE_READY else hs_state s)
       next_count (hs_baseline_target s)
       (if complete then 0 else hs_anomaly_score s)
       (if complete then 1000 else hs_health_score s)
       (hs_max_deviation_milli s)
       (if complete then GUARDIAN_HEALTH_FEATURE_NONE else hs_dominant_feature s)
       (hs_consecutive_anomalous s)
       (if complete then Z.lor quality GUARDIAN_HEALTH_QUALITY_BASELINE_READY else quality)
       (df_block_sequence f) (df_rms_mg f) (df_crest_factor_milli f)
       (df_dominant_frequency_centi_hz f) rms_mean rms_std
       (hs_exceeded_feature_mask s) (hs_rejected_inputs s))
    stats rate (he_anomalous_streak h) (he_recovery_streak h) (he_rejected_inputs_total h).

(** ** Scoring *)

(** One iteration of the scoring loop on the accumulators [maximum_weighted_z],
    [dominant_feature] and [exceeded_mask]. *)
Definition score_feature (h : health_t) (vector : list f32) (acc : f32 * Z * Z) (feature : nat)
  : f32 * Z * Z :=
  let '(maximum_weighted_z, dominant_feature, exceeded_mask) := acc in
  let deviation := guardian_health_abs
                     (f32_sub (at_index vector feature) (stat_mean (stat_at (he_stats h) feature))) in
  let normalized :=
    f32_div deviation
      (guardian_health_sigma (hs_baseline_samples (he_status h)) (he_stats h) feature) in
  let weighted := f32_mul normalized (at_index guardian_health_weight feature) in
  let exceeded_mask :=
    if f32_le GUARDIAN_HEALTH_WARNING_Z weighted
    then Z.lor exceeded_mask (u16 (Z.shiftl 1 (Z.of_nat feature))) else exceeded_mask in
  if f32_lt maximum_weighted_z weighted
  then (weighted, Z.of_nat feature, exceeded_mask)
  else (maximum_weighted_z, dominant_feature, exceeded_mask).

Definition score_vector (h : health_t) (vector : list f32) : f32 * Z * Z :=
  foldl (score_feature h vector) (f32_zero, GUARDIAN_HEALTH_FEATURE_NONE, 0)
    (seq 0 GUARDIAN_HEALTH_FEATURE_COUNT).

(** The bounded severity. *)
Definition published_anomaly (maximum_weighted_z : f32) : Z :=
  let anomaly_score :=
    f32_mul (f32_div maximum_weighted_z GUARDIAN_HEALTH_ALARM_Z) (f32_of_Z 1000) in
  let anomaly_score :=
    if f32_lt (f32_of_Z 1000) anomaly_score then f32_of_Z 1000 else anomaly_score in
  guardian_health_u16 anomaly_score.

(** The persistence of the deviation: state, anomalous streak, recovery streak. *)
Definition persistence_step (maximum_weighted_z : f32) (state : guardian_health_state_t)
    (anomalous recovery : Z) : guardian_health_state_t * Z * Z :=
  let advanced := if negb (anomalous =? 255) then u8 (anomalous + 1) else anomalous in
  if f32_le GUARDIAN_HEALTH_ALARM_Z maximum_weighted_z then
    (if GUARDIAN_HEALTH_ALARM_STREAK <=? advanced then GUARDIAN_HEALTH_STATE_ALARM
     else if bool_decide (state = GUARDIAN_HEALTH_STATE_READY) then GUARDIAN_HEALTH_STATE_WARNING
     else state, advanced, 0)
  else if f32_le GUARDIAN_HEALTH_WARNING_Z maximum_weighted_z then
    (if (GUARDIAN_HEALTH_WARNING_STREAK <=? advanced)
        && negb (bool_decide (state = GUARDIAN_HEALTH_STATE_ALARM))
     then GUARDIAN_HEALTH_STATE_WARNING else state, advanced, 0)
  else if f32_lt maximum_weighted_z GUARDIAN_HEALTH_RECOVERY_Z then
    let recovered := if negb (recovery =? 255) then u8 (recovery + 1) else recovery in
    (if (GUARDIAN_HEALTH_RECOVERY_STREAK <=? recovered)
        && (bool_decide (state = GUARDIAN_HEALTH_STATE_WARNING)
            || bool_decide (state = GUARDIAN_HEALTH_STATE_ALARM))
     then GUARDIAN_HEALTH_STATE_READY else state, 0, recovered)
  else (state, 0, 0).

Definition guardian_health_score (h : health_t) (f : features_t) : health_t :=
  let s := he_status h in
  let '(maximum_weighted_z, dominant_feature, exceeded_mask) :=
    score_vector h (guardian_health_vector f) in
  let anomaly_score := published_anomaly maximum_weighted_z in
  let quality :=
    if f32_le GUARDIAN_HEALTH_WARNING_Z maximum_weighted_z
    then Z.lor (hs_quality_flags s) GUARDIAN_HEALTH_QUALITY_ANOMALY_PRESENT
    else Z.land (hs_quality_flags s) (u16 (Z.lnot GUARDIAN_HEALTH_QUALITY_ANOMALY_PRESENT)) in
  let '(state, anomalous_streak, recovery_streak) :=
    persistence_step maximum_weighted_z (hs_state s) (he_anomalous_streak h)
      (he_recovery_streak h) in
  HEALTH
    (HEALTH_STATUS state (hs_baseline_samples s) (hs_baseline_target s)
       anomaly_score (u16 (u32 (1000 - anomaly_score)))
       (guardian_health_u16 (f32_mul maximum_weighted_z (f32_of_Z 1000)))
       dominant_feature anomalous_streak quality
       (df_block_sequence f) (df_rms_mg f) (df_crest_factor_milli f)
       (df_dominant_frequency_centi_hz f)
       (hs_baseline_rms_mean_mg s) (hs_baseline_rms_std_mg s) exceeded_mask
       (hs_rejected_inputs s))
    (he_stats h) (he_baseline_sample_rate_hz h) anomalous_streak recovery_streak
    (he_rejected_inputs_total h).

(** ** Ingestion *)

Definition guardian_health_ingest (health : option health_t) (features : option features_t)
  : option health_t :=
  match health with
  | None => None
  | Some h =>
      match features with
      | Some f =>
          early negb (guardian_health_input_valid features)
            with Some (guardian_health_reject_input h GUARDIAN_HEALTH_QUALITY_INPUT_REJECTED) ;;
          early negb (he_baseline_sample_rate_hz h =? 0)
                && negb (df_sample_rate_hz f =? he_baseline_sample_rate_hz h)
            with Some (guardian_health_reject_input h
                         (Z.lor GUARDIAN_HEALTH_QUALITY_INPUT_REJECTED
                                GUARDIAN_HEALTH_QUALITY_SAMPLE_RATE_MISMATCH)) ;;
          match hs_state (he_status h) with
          | GUARDIAN_HEALTH_STATE_LEARNING => Some (guardian_health_learn h f)
          | GUARDIAN_HEALTH_STATE_READY | GUARDIAN_HEALTH_STATE_WARNING
          | GUARDIAN_HEALTH_STATE_ALARM => Some (guardian_health_score h f)
          | GUARDIAN_HEALTH_STATE_UNTRAINED => health
          end
      | None =>     (* [guardian_health_input_valid] rejects a missing pointer *)
          Some (guardian_health_reject_input h GUARDIAN_HEALTH_QUALITY_INPUT_REJECTED)
      end
  end.

Definition guardian_health_status (health : option health_t) : status_t :=
  match health with
  | None => HEALTH_STATUS GUARDIAN_HEALTH_STATE_UNTRAINED 0 0 0 0 0 0 0 0 0 0 0 0 0 0 0 0
  | Some h => he_status h
  end.

(** ** Commands *)

Definition guardian_health_write_u16_be (value : Z) : list Z := put_u16_be value.
Definition guardian_health_write_u32_be (value : Z) : list Z := put_u32_be value.
Definition guardian_health_read_u16_be (input : list Z) : Z := get_u16_be input.

Definition guardian_health_make_error (request response : guardian_frame_t) (error : Z)
  : guardian_frame_t := reply_error request response error.

Definition guardian_health_encode_status_payload (status : option status_t)
    (payload : option (list Z)) (payload_capacity : Z) (payload_length : option Z)
  : guardian_protocol_result_t * option (list Z) * option Z :=
  match status, payload, payload_length with
  | Some s, Some p, Some _ =>
      early payload_capacity <? GUARDIAN_HEALTH_STATUS_PAYLOAD_SIZE
        with (GUARDIAN_PROTOCOL_ERROR_OUTPUT_TOO_SMALL, payload, payload_length) ;;
      let p := blit p 0 [GUARDIAN_HEALTH_SCHEMA_VERSION] in
      let p := blit p 1 [u8 (health_state_value (hs_state s))] in
      let p := blit p 2 (guardian_health_write_u16_be (hs_baseline_samples s)) in
      let p := blit p 4 (guardian_health_write_u16_be (hs_baseline_target s)) in
      let p := blit p 6 (guardian_health_write_u16_be (hs_anomaly_score s)) in
      let p := blit p 8 (guardian_health_write_u16_be (hs_health_score s)) in
      let p := blit p 10 (guardian_health_write_u16_be (hs_max_deviation_milli s)) in
      let p := blit p 12 [u8 (hs_dominant_feature s)] in
      let p := blit p 13 [u8 (hs_consecutive_anomalous s)] in
      let p := blit p 14 (guardian_health_write_u16_be (hs_quality_flags s)) in
      let p := blit p 16 (guardian_health_write_u32_be (hs_block_sequence s)) in
      let p := blit p 20 (guardian_health_write_u16_be (hs_current_rms_mg s)) in
      let p := blit p 22 (guardian_health_write_u16_be (hs_current_crest_factor_milli s)) in
      let p := blit p 24
                 (guardian_health_write_u32_be (hs_current_dominant_frequency_centi_hz s)) in
      let p := blit p 28 (guardian_health_write_u16_be (hs_baseline_rms_mean_mg s)) in
      let p := blit p 30 (guardian_health_write_u16_be (hs_baseline_rms_std_mg s)) in
      let p := blit p 32 (guardian_health_write_u16_be (hs_exceeded_feature_mask s)) in
      let p := blit p 34 (guardian_health_write_u16_be (hs_rejected_inputs s)) in
      (GUARDIAN_PROTOCOL_OK, Some p, Some GUARDIAN_HEALTH_STATUS_PAYLOAD_SIZE)
  | _, _, _ => (GUARDIAN_PROTOCOL_ERROR_NULL_ARGUMENT, payload, payload_length)
  end.

(** The part of [guardian_health_handle_request] for BASELINE_CONTROL. *)
Definition handle_baseline_control (h : health_t) (req resp : guardian_frame_t)
  : guardian_protocol_result_t * option health_t * option guardian_frame_t :=
  let fail e := (GUARDIAN_PROTOCOL_OK, Some h, Some (guardian_health_make_error req resp e)) in
  early negb (frame_payload_length req =? GUARDIAN_BASELINE_CONTROL_PAYLOAD_SIZE)
    with fail GUARDIAN_ERROR_INVALID_PAYLOAD ;;
  early negb (byte_at (frame_payload req) 0 =? GUARDIAN_HEALTH_SCHEMA_VERSION)
    with fail GUARDIAN_ERROR_INVALID_PAYLOAD ;;
  let action := byte_at (frame_payload req) 1 in
  let target_samples := guardian_health_read_u16_be (drop 2 (frame_payload req)) in
  let respond health :=
    let p := blit (frame_payload resp) 0 [GUARDIAN_HEALTH_SCHEMA_VERSION] in
    let p := blit p 1 [u8 action] in
    let p := blit p 2 (guardian_health_write_u16_be
                         (if action =? GUARDIAN_BASELINE_ACTION_START
                          then hs_baseline_target (guardian_health_status health) else 0)) in
    (GUARDIAN_PROTOCOL_OK, health,
     Some (reply_response req GUARDIAN_BASELINE_CONTROL_PAYLOAD_SIZE p)) in
  if action =? GUARDIAN_BASELINE_ACTION_START then
    let '(ok, health) := guardian_health_start_baseline (Some h) target_samples in
    early ok =? 0 with fail GUARDIAN_ERROR_INVALID_PAYLOAD ;;
    respond health
  else if action =? GUARDIAN_BASELINE_ACTION_RESET then
    early negb (target_samples =? 0) with fail GUARDIAN_ERROR_INVALID_PAYLOAD ;;
    respond (guardian_health_reset (Some h))
  else fail GUARDIAN_ERROR_INVALID_PAYLOAD.

Definition guardian_health_handle_request (health : option health_t)
    (request response : option guardian_frame_t)
  : guardian_protocol_result_t * option health_t * option guardian_frame_t :=
  match health, request, response with
  | Some h, Some req, Some resp =>
      let fail e := (GUARDIAN_PROTOCOL_OK, health, Some (guardian_health_make_error req resp e)) in
      early negb (frame_message_type req =? GUARDIAN_MESSAGE_REQUEST)
        with fail GUARDIAN_ERROR_MALFORMED_FRAME ;;
      if frame_command req =? GUARDIAN_COMMAND_GET_HEALTH_STATUS then
        early negb (frame_payload_length req =? 0) with fail GUARDIAN_ERROR_INVALID_PAYLOAD ;;
        let '(result, payload, payload_length) :=
          guardian_health_encode_status_payload (Some (he_status h)) (Some (frame_payload resp))
            (Z.of_nat GUARDIAN_MAX_PAYLOAD_SIZE) (Some (frame_payload_length resp)) in
        (result, health,
         Some (reply_response req (default 0 payload_length) (default [] payload)))
      else if frame_command req =? GUARDIAN_COMMAND_BASELINE_CONTROL then
        handle_baseline_control h req resp
      else fail GUARDIAN_ERROR_UNKNOWN_COMMAND
  | _, _, _ => (GUARDIAN_PROTOCOL_ERROR_NULL_ARGUMENT, health, response)
  end.
