(* ===== verification/HealthSafety.v ===== *)
(** * Machine health: learning and persistence

    What [Health.v] promises over any sequence of inputs: the baseline is learned
    from exactly the first accepted blocks and frozen afterwards; the published
    state is a function of the history of deviations, with the persistence and the
    hysteresis the constants ask for; over exact arithmetic the recurrences compute
    the mean and the sum of squared deviations. *)

From Stdlib Require Import Reals Lra.
From S2P Require Import Prelude Acquisition Float32 Dsp Health.

(** ** Runs *)

(** One call of [guardian_health_ingest] on an object. *)
Definition ingest (h : guardian_health_t) (input : option guardian_dsp_features_t)
  : guardian_health_t := default h (guardian_health_ingest (Some h) input).

Definition ingest_all (h : guardian_health_t) (inputs : list (option guardian_dsp_features_t))
  : guardian_health_t := foldl ingest h inputs.

(** A block an object with the sample rate [rate] uses (0: not known yet). *)
Definition accepts (rate : Z) (f : guardian_dsp_features_t) : bool :=
  guardian_health_input_valid (Some f) && ((rate =? 0) || (df_sample_rate_hz f =? rate)).

(** The greatest weighted deviation of a block from the baseline. *)
Definition deviation (h : guardian_health_t) (f : guardian_dsp_features_t) : f32 :=
  (score_vector h (guardian_health_vector f)).1.1.

Definition learning (h : guardian_health_t) : Prop :=
  hs_state (he_status h) = GUARDIAN_HEALTH_STATE_LEARNING.

Definition operating (h : guardian_health_t) : Prop :=
  hs_state (he_status h) = GUARDIAN_HEALTH_STATE_READY \/
  hs_state (he_status h) = GUARDIAN_HEALTH_STATE_WARNING \/
  hs_state (he_status h) = GUARDIAN_HEALTH_STATE_ALARM.

(** A baseline that no block has been scored against. *)
Definition fresh (h : guardian_health_t) : Prop :=
  hs_state (he_status h) = GUARDIAN_HEALTH_STATE_READY /\
  he_anomalous_streak h = 0 /\ he_recovery_streak h = 0.

(** ** Histories of deviations, the newest first *)

Definition alarming (z : f32) : bool := f32_le GUARDIAN_HEALTH_ALARM_Z z.






(** ** Latching *)











(** ** Persistence *)




(** ** Ingestion *)

Lemma ingest_spec h input :
  ingest h input =
  match input with
  | Some f =>
      if accepts (he_baseline_sample_rate_hz h) f then
        match hs_state (he_status h) with
        | GUARDIAN_HEALTH_STATE_LEARNING => guardian_health_learn h f
        | GUARDIAN_HEALTH_STATE_UNTRAINED => h
        | _ => guardian_health_score h f
        end
      else if guardian_health_input_valid input
           then guardian_health_reject_input h (Z.lor GUARDIAN_HEALTH_QUALITY_INPUT_REJECTED
                                                  GUARDIAN_HEALTH_QUALITY_SAMPLE_RATE_MISMATCH)
           else guardian_health_reject_input h GUARDIAN_HEALTH_QUALITY_INPUT_REJECTED
  | None => guardian_health_reject_input h GUARDIAN_HEALTH_QUALITY_INPUT_REJECTED
  end.
Proof.
  destruct input as [f|]; [|done]. unfold ingest, guardian_health_ingest, accepts.
  destruct (guardian_health_input_valid (Some f)); [|done]. cbn [negb andb].
  destruct (he_baseline_sample_rate_hz h =? 0), (df_sample_rate_hz f =? he_baseline_sample_rate_hz h);
    cbn [negb andb orb]; by destruct (hs_state (he_status h)).
Qed.

(** What scoring and rejecting leave alone. *)
Record same_baseline (h h' : guardian_health_t) : Prop := {
  sb_stats : he_stats h' = he_stats h;
  sb_samples : hs_baseline_samples (he_status h') = hs_baseline_samples (he_status h);
  sb_target : hs_baseline_target (he_status h') = hs_baseline_target (he_status h);
  sb_rate : he_baseline_sample_rate_hz h' = he_baseline_sample_rate_hz h
}.




Lemma reject_same h q : same_baseline h (guardian_health_reject_input h q).
Proof. done. Qed.

Lemma score_same h f : same_baseline h (guardian_health_score h f).
Proof.
  unfold guardian_health_score. destruct (score_vector _ _) as [[z d] m].
  destruct (persistence_step _ _ _ _) as [[s a] r]. done.
Qed.

Lemma score_state h f :
  let h' := guardian_health_score h f in
  (hs_state (he_status h'), he_anomalous_streak h', he_recovery_streak h') =
  persistence_step (deviation h f) (hs_state (he_status h)) (he_anomalous_streak h)
    (he_recovery_streak h).
Proof.
  unfold guardian_health_score, deviation. destruct (score_vector _ _) as [[z d] m]. cbn [fst].
  by destruct (persistence_step _ _ _ _) as [[s a] r].
Qed.

(** The history of the accepted blocks of a run, the newest first. *)
Definition deviations (h : guardian_health_t) (inputs : list (option guardian_dsp_features_t))
  : list f32 :=
  foldl (fun hist input =>
           match input with
           | Some f => if accepts (he_baseline_sample_rate_hz h) f then deviation h f :: hist else hist
           | None => hist
           end) [] inputs.






(** ** Learning *)

(** The blocks a baseline accepts, in order: the valid ones that have the sample
    rate of the first. *)
Definition baseline_rate (fs : list guardian_dsp_features_t) : Z :=
  match fs with [] => 0 | f :: _ => df_sample_rate_hz f end.

Definition accepted (inputs : list (option guardian_dsp_features_t))
  : list guardian_dsp_features_t :=
  foldl (fun fs input =>
           match input with
           | Some f => if accepts (baseline_rate fs) f then fs ++ [f] else fs
           | None => fs
           end) [] inputs.

(** The statistics of a list of blocks, with their number. *)
Definition learn_vector (acc : Z * list guardian_health_stat_t) (f : guardian_dsp_features_t)
  : Z * list guardian_health_stat_t :=
  (acc.1 + 1,
   map (fun feature => learn_feature (acc.1 + 1) (at_index (guardian_health_vector f) feature)
                         (stat_at acc.2 feature)) (seq 0 GUARDIAN_HEALTH_FEATURE_COUNT)).

Definition statistics (fs : list guardian_dsp_features_t) : Z * list guardian_health_stat_t :=
  foldl learn_vector (0, replicate GUARDIAN_HEALTH_FEATURE_COUNT (STAT f32_zero f32_zero)) fs.

Lemma statistics_snoc fs f : statistics (fs ++ [f]) = learn_vector (statistics fs) f.
Proof. unfold statistics. by rewrite foldl_app. Qed.

Lemma statistics_count fs : (statistics fs).1 = Z.of_nat (length fs).
Proof.
  induction fs as [|f fs IH] using rev_ind; [done|].
  rewrite statistics_snoc, length_app. unfold learn_vector. cbn [fst length]. lia.
Qed.

(** The state of an object that was started with [target] and accepted [fs]. *)
Record baseline_of (target : Z) (fs : list guardian_dsp_features_t) (h : guardian_health_t)
  : Prop := {
  bo_samples : hs_baseline_samples (he_status h) = Z.min target (Z.of_nat (length fs));
  bo_target : hs_baseline_target (he_status h) = target;
  bo_stats : he_stats h = (statistics (take (Z.to_nat target) fs)).2;
  bo_rate : he_baseline_sample_rate_hz h = baseline_rate fs;
  bo_state : if Z.of_nat (length fs) <? target then learning h else operating h;
  bo_fresh : Z.of_nat (length fs) <= target ->
             he_anomalous_streak h = 0 /\ he_recovery_streak h = 0;
  bo_ready : Z.of_nat (length fs) = target -> fresh h
}.

Lemma accepts_rate rate f : accepts rate f = true ->
  df_sample_rate_hz f <> 0 /\ (rate = 0 \/ rate = df_sample_rate_hz f).
Proof.
  unfold accepts, guardian_health_input_valid. intros H. apply andb_true_iff in H as [Hv Hr].
  split.
  - destruct (_ =? 0); [done|]. destruct (_ =? 0); [done|]. destruct (negb _); [done|].
    by destruct (Z.eqb_spec (df_sample_rate_hz f) 0).
  - apply orb_true_iff in Hr as [->%Z.eqb_eq|Hr%Z.eqb_eq]; auto.
Qed.

Lemma learn_baseline target fs h f :
  GUARDIAN_HEALTH_BASELINE_MIN_SAMPLES <= target <= GUARDIAN_HEALTH_BASELINE_MAX_SAMPLES ->
  baseline_of target fs h -> Z.of_nat (length fs) < target ->
  accepts (baseline_rate fs) f = true ->
  baseline_of target (fs ++ [f]) (guardian_health_learn h f).
Proof.
  intros Ht [Hn Htg Hst Hr Hs Hf _] Hlt Hacc.
  destruct (Hf ltac:(lia)) as [Ha Hrec]. destruct (Z.ltb_spec (Z.of_nat (length fs)) target); [|lia].
  unfold GUARDIAN_HEALTH_BASELINE_MIN_SAMPLES, GUARDIAN_HEALTH_BASELINE_MAX_SAMPLES in Ht.
  assert (Hlen : Z.of_nat (length (fs ++ [f])) = Z.of_nat (length fs) + 1)
    by (rewrite length_app; cbn; lia).
  assert (Hcount : u16 (hs_baseline_samples (he_status h) + 1) = Z.of_nat (length fs) + 1)
    by (rewrite Hn, u16_id; unfold is_u16; lia).
  unfold guardian_health_learn. rewrite Hcount.
  destruct (guardian_health_update_baseline_summary _ _) as [mean std].
  rewrite Htg. unfold learning, operating, fresh in *.
  split; cbn [he_status he_stats hs_baseline_samples hs_baseline_target he_baseline_sample_rate_hz
              hs_state he_anomalous_streak he_recovery_streak]; rewrite ?Hlen.
  - lia.
  - done.
  - rewrite !take_ge in * by (rewrite ?length_app; cbn; lia).
    rewrite statistics_snoc, Hst. unfold learn_vector. cbn [snd].
    by rewrite statistics_count.
  - destruct fs as [|g fs]; cbn [length baseline_rate app].
    + rewrite Hn. cbn [length]. destruct (Z.eqb_spec (Z.min target (Z.of_nat 0)) 0); [done|lia].
    + rewrite Hn, Hr. destruct (Z.eqb_spec (Z.min target (Z.of_nat (length (g :: fs)))) 0) as [E|_];
        [cbn [length] in E; lia|done].
  - destruct (Z.leb_spec target (Z.of_nat (length fs) + 1)), (Z.ltb_spec (Z.of_nat (length fs) + 1) target);
      (lia || exact Hs || by left).
  - done.
  - intros E. by destruct (Z.leb_spec target (Z.of_nat (length fs) + 1)); [|lia].
Qed.

Lemma same_baseline_of target fs h h' :
  same_baseline h h' -> (operating h -> operating h') -> (learning h -> learning h') ->
  (fresh h -> fresh h') ->
  (he_anomalous_streak h', he_recovery_streak h') = (he_anomalous_streak h, he_recovery_streak h) ->
  baseline_of target fs h -> baseline_of target fs h'.
Proof.
  intros [E1 E2 E3 E4] Hop Hle Hfr [= E5 E6] [Hn Htg Hst Hr Hs Hf Hd].
  split; rewrite ?E1, ?E2, ?E3, ?E4, ?E5, ?E6; auto.
  destruct (_ <? _); auto.
Qed.

Lemma ingest_baseline target fs h input :
  GUARDIAN_HEALTH_BASELINE_MIN_SAMPLES <= target <= GUARDIAN_HEALTH_BASELINE_MAX_SAMPLES ->
  baseline_of target fs h ->
  baseline_of target (match input with
                      | Some f => if accepts (baseline_rate fs) f then fs ++ [f] else fs
                      | None => fs
                      end) (ingest h input).
Proof.
  intros Ht Hb. rewrite ingest_spec.
  assert (Hreject : forall q, baseline_of target fs (guardian_health_reject_input h q))
    by (intros q; by apply (same_baseline_of target fs h)).
  destruct input as [f|]; [|apply Hreject]. rewrite (bo_rate _ _ _ Hb).
  destruct (accepts (baseline_rate fs) f) eqn:Hacc;
    [|destruct (guardian_health_input_valid (Some f)); apply Hreject].
  pose proof (bo_state _ _ _ Hb) as Hs.
  destruct (Z.ltb_spec (Z.of_nat (length fs)) target) as [Hlt|Hge].
  { unfold learning in Hs. rewrite Hs. by apply learn_baseline. }
  assert (Hscore : baseline_of target (fs ++ [f]) (guardian_health_score h f)).
  { destruct Hb as [Hn Htg Hst Hr _ _ _]. destruct (score_same h f) as [E1 E2 E3 E4].
    assert (Hlen : Z.of_nat (length (fs ++ [f])) = Z.of_nat (length fs) + 1)
      by (rewrite length_app; cbn; lia).
    unfold GUARDIAN_HEALTH_BASELINE_MIN_SAMPLES in Ht.
    split; rewrite ?E1, ?E2, ?E3, ?E4, ?Hlen; [lia|done| | | |lia|lia].
    - rewrite take_app_le by lia. done.
    - rewrite Hr. destruct fs; [cbn [length] in *; lia|done].
    - destruct (Z.ltb_spec (Z.of_nat (length fs) + 1) target); [lia|].
      pose proof (score_state h f) as E. cbv zeta in E. unfold operating in *.
      assert (Hstep : forall s, s = GUARDIAN_HEALTH_STATE_READY \/ s = GUARDIAN_HEALTH_STATE_WARNING \/
        s = GUARDIAN_HEALTH_STATE_ALARM -> forall z a r, let s' := (persistence_step z s a r).1.1 in
        s' = GUARDIAN_HEALTH_STATE_READY \/ s' = GUARDIAN_HEALTH_STATE_WARNING \/
        s' = GUARDIAN_HEALTH_STATE_ALARM).
      { intros s Hop z a r. unfold persistence_step.
        repeat case_match; cbn; tauto. }
      specialize (Hstep _ Hs (deviation h f) (he_anomalous_streak h) (he_recovery_streak h)).
      by rewrite <- E in Hstep. }
  destruct Hs as [-> | [-> | ->]]; exact Hscore.
Qed.

(** Learning: after a baseline is started with a target of 16 to 1024 samples,
    for any inputs the object is LEARNING while fewer than [target] blocks were
    accepted (valid, and at the sample rate of the first), the learned statistics
    are those of exactly the first [target] accepted blocks, frozen afterwards, and
    the object is READY with no streak when the last of them is in. *)
Theorem baseline_is_first_accepted h target h0 inputs :
  guardian_health_start_baseline (Some h) target = (1, Some h0) ->
  let fs := accepted inputs in
  let h' := ingest_all h0 inputs in
  hs_baseline_samples (he_status h') = Z.min target (Z.of_nat (length fs)) /\
  he_stats h' = (statistics (take (Z.to_nat target) fs)).2 /\
  he_baseline_sample_rate_hz h' = baseline_rate fs /\
  (learning h' <-> Z.of_nat (length fs) < target) /\
  (Z.of_nat (length fs) = target -> fresh h').
Proof.
  intros Hstart. unfold guardian_health_start_baseline in Hstart.
  destruct ((target <? _) || _) eqn:E; [done|]. apply orb_false_iff in E as [E1%Z.ltb_ge E2%Z.ltb_ge].
  injection Hstart as <-. set (h0 := HEALTH _ _ _ _ _ _).
  assert (Hb : baseline_of target (accepted inputs) (ingest_all h0 inputs)).
  { induction inputs as [|input inputs IH] using rev_ind.
    - unfold GUARDIAN_HEALTH_BASELINE_MIN_SAMPLES in *.
      split; cbn [accepted ingest_all foldl length]; try done; [cbn; lia|by rewrite take_nil| |].
      + destruct (Z.ltb_spec (Z.of_nat 0) target); [done|lia].
      + lia.
    - unfold accepted, ingest_all in *. rewrite !foldl_app. cbn [foldl].
      by apply ingest_baseline. }
  destruct Hb as [Hn Htg Hst Hr Hs Hf Hd]. split_and!; [done..| |done].
  destruct (Z.ltb_spec (Z.of_nat (length (accepted inputs))) target); [tauto|].
  split; [|lia]. unfold learning, operating in *. intuition congruence.
Qed.

(** ** The recurrences over exact arithmetic *)

(** The recurrence run over a list of values from the empty statistic. *)
Definition welford_run {F : Type} `{Recurrence F} (of_Z : Z -> F) (values : list F) : F * F :=
  (foldl (fun acc value => (acc.1 + 1, welford_step (of_Z (acc.1 + 1)) value acc.2))
     (0, (of_Z 0, of_Z 0)) values).2.

(** The values one feature took. *)
Definition feature_values (feature : nat) (fs : list guardian_dsp_features_t) : list f32 :=
  map (fun f => at_index (guardian_health_vector f) feature) fs.

#[global] Instance real_recurrence : Recurrence R := {
  r_add := Rplus;
  r_sub := Rminus;
  r_mul := Rmult;
  r_div := Rdiv
}.

Definition sum_R (values : list R) : R := foldr Rplus 0%R values.

Definition mean_R (values : list R) : R := (sum_R values / IZR (Z.of_nat (length values)))%R.

(** The sum of the squared deviations from the mean. *)
Definition deviations_R (values : list R) : R :=
  sum_R (map (fun x => (x - mean_R values) * (x - mean_R values))%R values).

Lemma sum_R_snoc l x : sum_R (l ++ [x]) = (sum_R l + x)%R.
Proof. induction l as [|y l IH]; unfold sum_R in *; cbn; [ring|]. rewrite IH. ring. Qed.

Lemma deviations_R_expand (m : R) l :
  sum_R (map (fun x => (x - m) * (x - m))%R l) =
  (sum_R (map (fun x => x * x) l) - 2 * m * sum_R l + IZR (Z.of_nat (length l)) * (m * m))%R.
Proof.
  induction l as [|x l IH]; unfold sum_R in *; cbn [map foldr length]; [cbn; ring|].
  rewrite IH, Nat2Z.inj_succ, succ_IZR. ring.
Qed.

Lemma welford_run_snoc {F : Type} `{Recurrence F} of_Z (l : list F) x :
  welford_run of_Z (l ++ [x]) =
  welford_step (of_Z (Z.of_nat (length l) + 1)) x (welford_run of_Z l).
Proof.
  unfold welford_run. rewrite foldl_app. cbn [foldl snd]. do 2 f_equal. f_equal.
  induction l as [|y l IH] using rev_ind; [done|].
  rewrite foldl_app, length_app. cbn [foldl fst length]. rewrite IH. lia.
Qed.

Lemma welford_run_exact l : l <> [] -> welford_run IZR l =
  (mean_R l, sum_R (map (fun x => x * x) l) - sum_R l * mean_R l)%R.
Proof.
  induction l as [|x l IH] using rev_ind; [done|intros _].
  rewrite welford_run_snoc. unfold mean_R.
  rewrite map_app, !sum_R_snoc, length_app, Nat2Z.inj_add, plus_IZR. cbn [map length].
  rewrite sum_R_snoc. change (IZR (Z.of_nat 1)) with 1%R.
  rewrite plus_IZR.
  assert (Hn : (0 <= IZR (Z.of_nat (length l)))%R) by (apply IZR_le; lia).
  destruct (decide (l = [])) as [->|Hl].
  - cbn. f_equal; field.
  - rewrite (IH Hl). unfold welford_step, mean_R. cbn [r_add r_sub r_mul r_div real_recurrence].
    assert (IZR (Z.of_nat (length l)) <> 0)%R.
    { apply not_0_IZR. destruct l; [done|cbn; lia]. }
    f_equal; field; split; lra.
Qed.

Lemma learn_vector_stat acc f feature : (feature < GUARDIAN_HEALTH_FEATURE_COUNT)%nat ->
  stat_at (learn_vector acc f).2 feature =
  learn_feature (acc.1 + 1) (at_index (guardian_health_vector f) feature) (stat_at acc.2 feature).
Proof.
  intros Hi. unfold GUARDIAN_HEALTH_FEATURE_COUNT in Hi.
  do 7 (destruct feature as [|feature]; [reflexivity|]). lia.
Qed.

(** The learned statistics of every feature are the recurrence run over the
    values the feature took, in order; over the real numbers that recurrence
    computes the mean and the sum of the squared deviations from it. *)
Theorem learning_computes_statistics fs feature (values : list R) :
  (feature < GUARDIAN_HEALTH_FEATURE_COUNT)%nat -> values <> [] ->
  (let s := stat_at (statistics fs).2 feature in (stat_mean s, stat_m2 s)) =
    welford_run f32_of_Z (feature_values feature fs) /\
  welford_run IZR values = (mean_R values, deviations_R values).
Proof.
  intros Hfeature Hne. split.
  - induction fs as [|f fs IH] using rev_ind.
    + unfold GUARDIAN_HEALTH_FEATURE_COUNT in Hfeature.
      do 7 (destruct feature as [|feature]; [reflexivity|]). lia.
    + unfold feature_values in *. rewrite statistics_snoc, map_app. cbn [map].
      rewrite welford_run_snoc, <- IH, learn_vector_stat, statistics_count, length_map by done.
      unfold learn_feature. by destruct (welford_step _ _ _).
  - rewrite welford_run_exact by done. f_equal. unfold deviations_R.
    rewrite deviations_R_expand. unfold mean_R.
    assert (IZR (Z.of_nat (length values)) <> 0)%R.
    { apply not_0_IZR. destruct values; [done|cbn; lia]. }
    field. done.
Qed.

(** ** Witnesses *)

Definition example_features (rms : Z) : guardian_dsp_features_t :=
  FEATURES 1 1000 rms 1400 1414 5000 900 5100 200 700 100 1 1.

Definition example_started : guardian_health_t :=
  default untrained_health (guardian_health_start_baseline (Some untrained_health) 16).2.

Definition example_inputs : list (option guardian_dsp_features_t) :=
  map (fun i => Some (example_features (1000 + Z.of_nat i))) (seq 0 16).

Definition example_trained : guardian_health_t := ingest_all example_started example_inputs.

(** A warning-level block and then a single alarm-level one latch ALARM. *)
Example example_alarm :
  hs_state (he_status (ingest_all example_trained
    [Some (example_features 1024); Some (example_features 1100)])) = GUARDIAN_HEALTH_STATE_ALARM /\
  map alarming (deviations example_trained
    [Some (example_features 1024); Some (example_features 1100)]) = [true; false].
Proof. vm_compute. done. Qed.


Lemma baseline_is_first_accepted_witness :
  learning (ingest_all example_started (take 5 example_inputs)) <-> 5 < 16.
Proof.
  apply (baseline_is_first_accepted untrained_health 16 example_started (take 5 example_inputs)).
  reflexivity.
Defined.

Lemma learning_computes_statistics_witness :
  welford_run IZR [1; 3]%R = (mean_R [1; 3]%R, deviations_R [1; 3]%R).
Proof.
  apply (learning_computes_statistics [example_features 1000] 0 [1; 3]%R); [compute; lia|done].
Defined.
