(* ===== verification/Control.v ===== *)
(** * Supervisory control

    Model of [firmware/Control/Src/guardian_control.c]: the state machine that
    owns the machine's run permit.  The output adapter of the board is a
    parameter: a callback that is given its opaque context, a permit and the state
    of the world, and answers its [int] and the world. *)

From S2P Require Import Prelude Crc32 Protocol Frames DeviceService Telemetry Acquisition Float32.
From S2P Require Import Dsp Health.

(** ** Data of guardian_control.h *)

Definition GUARDIAN_CONTROL_SCHEMA_VERSION : Z := 0x01.
Definition GUARDIAN_CONTROL_STATUS_PAYLOAD_SIZE : Z := 28.
Definition GUARDIAN_CONTROL_COMMAND_REQUEST_SIZE : Z := 2.
Definition GUARDIAN_CONTROL_COMMAND_RESPONSE_SIZE : Z := 4.

Definition GUARDIAN_CONTROL_FAULT_HEALTH_NOT_READY : Z := 0x0001.
Definition GUARDIAN_CONTROL_FAULT_HEALTH_ALARM : Z := 0x0002.
Definition GUARDIAN_CONTROL_FAULT_INTERLOCK_OPEN : Z := 0x0004.
Definition GUARDIAN_CONTROL_FAULT_OUTPUT_FAILURE : Z := 0x0008.
Definition GUARDIAN_CONTROL_FAULT_OUTPUT_UNAVAILABLE : Z := 0x0010.

Definition GUARDIAN_CONTROL_REASON_HEALTH_NOT_READY : Z := 0x80.
Definition GUARDIAN_CONTROL_REASON_HEALTH_ALARM : Z := 0x81.
Definition GUARDIAN_CONTROL_REASON_INTERLOCK : Z := 0x82.
Definition GUARDIAN_CONTROL_REASON_OUTPUT_FAILURE : Z := 0x83.
Definition GUARDIAN_CONTROL_REASON_LOCAL_RUN : Z := 0x84.
Definition GUARDIAN_CONTROL_REASON_LOCAL_STOP : Z := 0x85.
Definition GUARDIAN_CONTROL_REASON_HEALTH_WARNING : Z := 0x86.
Definition GUARDIAN_CONTROL_REASON_HEALTH_RECOVERED : Z := 0x87.

Inductive guardian_control_state_t :=
  | GUARDIAN_CONTROL_STATE_DISABLED
  | GUARDIAN_CONTROL_STATE_ARMED
  | GUARDIAN_CONTROL_STATE_ACTIVE
  | GUARDIAN_CONTROL_STATE_DEGRADED
  | GUARDIAN_CONTROL_STATE_FAULT_LATCHED.

#[global] Instance guardian_control_state_t_eq_dec : EqDecision guardian_control_state_t.
Proof. solve_decision. Defined.

Definition control_state_value (s : guardian_control_state_t) : Z :=
  match s with
  | GUARDIAN_CONTROL_STATE_DISABLED => 0
  | GUARDIAN_CONTROL_STATE_ARMED => 1
  | GUARDIAN_CONTROL_STATE_ACTIVE => 2
  | GUARDIAN_CONTROL_STATE_DEGRADED => 3
  | GUARDIAN_CONTROL_STATE_FAULT_LATCHED => 4
  end.

(** [guardian_control_action_t]: the value of the enumeration object, a byte of
    the request cast to it. *)
Definition GUARDIAN_CONTROL_ACTION_ARM : Z := 1.
Definition GUARDIAN_CONTROL_ACTION_DISARM : Z := 2.
Definition GUARDIAN_CONTROL_ACTION_CLEAR_FAULT : Z := 3.

Inductive guardian_control_result_t :=
  | GUARDIAN_CONTROL_OK
  | GUARDIAN_CONTROL_ERROR_NULL_ARGUMENT
  | GUARDIAN_CONTROL_ERROR_DENIED
  | GUARDIAN_CONTROL_ERROR_OUTPUT.

#[global] Instance guardian_control_result_t_eq_dec : EqDecision guardian_control_result_t.
Proof. solve_decision. Defined.

(** [int apply(void *context, uint8_t run_permit)] *)
Definition guardian_control_output_fn (C W : Type) : Type := option C -> Z -> W -> Z * W.

Record guardian_control_output_t (C W : Type) := OUTPUT {
  out_apply : option (guardian_control_output_fn C W);
  out_context : option C
}.
Arguments OUTPUT {C W}.
Arguments out_apply {C W}.
Arguments out_context {C W}.

Record guardian_control_status_t := CONTROL_STATUS {
  cs_state : guardian_control_state_t;
  cs_supervision_enabled : Z;
  cs_local_run_request : Z;
  cs_run_permit : Z;
  cs_interlock_closed : Z;
  cs_health_state : guardian_health_state_t;
  cs_output_available : Z;
  cs_latched_faults : Z;
  cs_active_faults : Z;
  cs_health_score : Z;
  cs_anomaly_score : Z;
  cs_transition_count : Z;
  cs_fault_latch_count : Z;
  cs_last_transition_reason : Z;
  cs_reserved : Z;
  cs_reserved2 : Z
}.

Record guardian_control_t (C W : Type) := CONTROL {
  ct_status : guardian_control_status_t;
  ct_output : guardian_control_output_t C W
}.
Arguments CONTROL {C W}.
Arguments ct_status {C W}.
Arguments ct_output {C W}.

Local Abbreviation status_t := guardian_control_status_t.
Local Abbreviation result_t := guardian_control_result_t.

(** ** Field stores *)

Definition put_state (v : guardian_control_state_t) (s : status_t) : status_t :=
  CONTROL_STATUS v (cs_supervision_enabled s) (cs_local_run_request s) (cs_run_permit s)
    (cs_interlock_closed s) (cs_health_state s) (cs_output_available s) (cs_latched_faults s)
    (cs_active_faults s) (cs_health_score s) (cs_anomaly_score s) (cs_transition_count s)
    (cs_fault_latch_count s) (cs_last_transition_reason s) (cs_reserved s) (cs_reserved2 s).
Definition put_transition (count reason : Z) (s : status_t) : status_t :=
  CONTROL_STATUS (cs_state s) (cs_supervision_enabled s) (cs_local_run_request s) (cs_run_permit s)
    (cs_interlock_closed s) (cs_health_state s) (cs_output_available s) (cs_latched_faults s)
    (cs_active_faults s) (cs_health_score s) (cs_anomaly_score s) count
    (cs_fault_latch_count s) reason (cs_reserved s) (cs_reserved2 s).
Definition put_supervision (v : Z) (s : status_t) : status_t :=
  CONTROL_STATUS (cs_state s) v (cs_local_run_request s) (cs_run_permit s)
    (cs_interlock_closed s) (cs_health_state s) (cs_output_available s) (cs_latched_faults s)
    (cs_active_faults s) (cs_health_score s) (cs_anomaly_score s) (cs_transition_count s)
    (cs_fault_latch_count s) (cs_last_transition_reason s) (cs_reserved s) (cs_reserved2 s).
Definition put_run_request (v : Z) (s : status_t) : status_t :=
  CONTROL_STATUS (cs_state s) (cs_supervision_enabled s) v (cs_run_permit s)
    (cs_interlock_closed s) (cs_health_state s) (cs_output_available s) (cs_latched_faults s)
    (cs_active_faults s) (cs_health_score s) (cs_anomaly_score s) (cs_transition_count s)
    (cs_fault_latch_count s) (cs_last_transition_reason s) (cs_reserved s) (cs_reserved2 s).
Definition put_permit (v : Z) (s : status_t) : status_t :=
  CONTROL_STATUS (cs_state s) (cs_supervision_enabled s) (cs_local_run_request s) v
    (cs_interlock_closed s) (cs_health_state s) (cs_output_available s) (cs_latched_faults s)
    (cs_active_faults s) (cs_health_score s) (cs_anomaly_score s) (cs_transition_count s)
    (cs_fault_latch_count s) (cs_last_transition_reason s) (cs_reserved s) (cs_reserved2 s).
Definition put_interlock (v : Z) (s : status_t) : status_t :=
  CONTROL_STATUS (cs_state s) (cs_supervision_enabled s) (cs_local_run_request s) (cs_run_permit s)
    v (cs_health_state s) (cs_output_available s) (cs_latched_faults s)
    (cs_active_faults s) (cs_health_score s) (cs_anomaly_score s) (cs_transition_count s)
    (cs_fault_latch_count s) (cs_last_transition_reason s) (cs_reserved s) (cs_reserved2 s).
Definition put_health (h : guardian_health_status_t) (s : status_t) : status_t :=
  CONTROL_STATUS (cs_state s) (cs_supervision_enabled s) (cs_local_run_request s) (cs_run_permit s)
    (cs_interlock_closed s) (hs_state h) (cs_output_available s) (cs_latched_faults s)
    (cs_active_faults s) (hs_health_score h) (hs_anomaly_score h) (cs_transition_count s)
    (cs_fault_latch_count s) (cs_last_transition_reason s) (cs_reserved s) (cs_reserved2 s).
Definition put_available (v : Z) (s : status_t) : status_t :=
  CONTROL_STATUS (cs_state s) (cs_supervision_enabled s) (cs_local_run_request s) (cs_run_permit s)
    (cs_interlock_closed s) (cs_health_state s) v (cs_latched_faults s)
    (cs_active_faults s) (cs_health_score s) (cs_anomaly_score s) (cs_transition_count s)
    (cs_fault_latch_count s) (cs_last_transition_reason s) (cs_reserved s) (cs_reserved2 s).
Definition put_latched (v count : Z) (s : status_t) : status_t :=
  CONTROL_STATUS (cs_state s) (cs_supervision_enabled s) (cs_local_run_request s) (cs_run_permit s)
    (cs_interlock_closed s) (cs_health_state s) (cs_output_available s) v
    (cs_active_faults s) (cs_health_score s) (cs_anomaly_score s) (cs_transition_count s)
    count (cs_last_transition_reason s) (cs_reserved s) (cs_reserved2 s).
Definition put_active (v : Z) (s : status_t) : status_t :=
  CONTROL_STATUS (cs_state s) (cs_supervision_enabled s) (cs_local_run_request s) (cs_run_permit s)
    (cs_interlock_closed s) (cs_health_state s) (cs_output_available s) (cs_latched_faults s)
    v (cs_health_score s) (cs_anomaly_score s) (cs_transition_count s)
    (cs_fault_latch_count s) (cs_last_transition_reason s) (cs_reserved s) (cs_reserved2 s).

(** ** Static helpers *)

Definition guardian_control_increment_u32 (value : Z) : Z :=
  if negb (value =? UINT32_MAX) then u32 (value + 1) else value.

Definition guardian_control_transition (state : guardian_control_state_t) (reason : Z)
    (s : status_t) : status_t :=
  if bool_decide (cs_state s = state) then s
  else put_transition (guardian_control_increment_u32 (cs_transition_count s)) reason
         (put_state state s).

Definition guardian_control_active_faults (s : status_t) : Z :=
  let faults := 0 in
  let faults :=
    if bool_decide (cs_health_state s = GUARDIAN_HEALTH_STATE_UNTRAINED)
       || bool_decide (cs_health_state s = GUARDIAN_HEALTH_STATE_LEARNING)
    then Z.lor faults GUARDIAN_CONTROL_FAULT_HEALTH_NOT_READY else faults in
  let faults :=
    if bool_decide (cs_health_state s = GUARDIAN_HEALTH_STATE_ALARM)
    then Z.lor faults GUARDIAN_CONTROL_FAULT_HEALTH_ALARM else faults in
  let faults :=
    if cs_interlock_closed s =? 0
    then Z.lor faults GUARDIAN_CONTROL_FAULT_INTERLOCK_OPEN else faults in
  let faults :=
    if cs_output_available s =? 0
    then Z.lor faults GUARDIAN_CONTROL_FAULT_OUTPUT_UNAVAILABLE else faults in
  if negb (Z.land (cs_latched_faults s) GUARDIAN_CONTROL_FAULT_OUTPUT_FAILURE =? 0)
  then Z.lor faults GUARDIAN_CONTROL_FAULT_OUTPUT_FAILURE else faults.

Definition refresh_active (s : status_t) : status_t :=
  put_active (guardian_control_active_faults s) s.

Section control.
Context {C W : Type}.
Local Abbreviation control_t := (guardian_control_t C W).
Local Abbreviation output_t := (guardian_control_output_t C W).

Definition map_status (f : status_t -> status_t) (c : control_t) : control_t :=
  CONTROL (f (ct_status c)) (ct_output c).

(** [control->output.apply(control->output.context, permit)] *)
Definition call_output (apply : guardian_control_output_fn C W) (c : control_t) (permit : Z)
    (w : W) : Z * W :=
  apply (out_context (ct_output c)) permit w.

Definition guardian_control_latch_fault (c : control_t) (faults reason : Z) (w : W)
  : control_t * W :=
  let s := ct_status c in
  let new_faults := u16 (Z.land faults (u16 (Z.lnot (cs_latched_faults s)))) in
  let s := put_latched (Z.lor (cs_latched_faults s) faults)
             (if negb (new_faults =? 0)
              then guardian_control_increment_u32 (cs_fault_latch_count s)
              else cs_fault_latch_count s) s in
  let s := put_supervision 0 s in
  let s := put_permit 0 s in
  let '(s, w) :=
    match out_apply (ct_output c) with
    | Some apply =>
        let '(ok, w) := call_output apply c 0 w in
        (if ok =? 0
         then put_latched (Z.lor (cs_latched_faults s) GUARDIAN_CONTROL_FAULT_OUTPUT_FAILURE)
                (cs_fault_latch_count s) s
         else s, w)
    | None => (s, w)
    end in
  let s := guardian_control_transition GUARDIAN_CONTROL_STATE_FAULT_LATCHED reason s in
  (CONTROL (refresh_active s) (ct_output c), w).

Definition latch_output_failure (c : control_t) (w : W) : control_t * W :=
  guardian_control_latch_fault c GUARDIAN_CONTROL_FAULT_OUTPUT_FAILURE
    GUARDIAN_CONTROL_REASON_OUTPUT_FAILURE w.

Definition guardian_control_apply_output (c : control_t) (run_permit : Z) (w : W)
  : result_t * control_t * W :=
  match out_apply (ct_output c) with
  | None =>
      (GUARDIAN_CONTROL_ERROR_DENIED,
       map_status (fun s => refresh_active (put_available 0 s)) c, w)
  | Some apply =>
      let run_permit := if negb (run_permit =? 0) then 1 else 0 in
      let '(ok, w) := call_output apply c run_permit w in
      if ok =? 0 then
        let '(c, w) := latch_output_failure c w in (GUARDIAN_CONTROL_ERROR_OUTPUT, c, w)
      else (GUARDIAN_CONTROL_OK, map_status (put_permit run_permit) c, w)
  end.

(** [guardian_control_evaluate] once supervision is enabled without a latched
    fault and every safety condition passed. *)
Definition evaluate_permit (c : control_t) (w : W) : control_t * W :=
  if cs_local_run_request (ct_status c) =? 0 then
    let '(result, c, w) := guardian_control_apply_output c 0 w in
    early negb (bool_decide (result = GUARDIAN_CONTROL_OK)) with (c, w) ;;
    (map_status (guardian_control_transition GUARDIAN_CONTROL_STATE_ARMED
                   GUARDIAN_CONTROL_REASON_LOCAL_STOP) c, w)
  else
    let '(result, c, w) := guardian_control_apply_output c 1 w in
    early negb (bool_decide (result = GUARDIAN_CONTROL_OK)) with (c, w) ;;
    if bool_decide (cs_health_state (ct_status c) = GUARDIAN_HEALTH_STATE_WARNING) then
      (map_status (guardian_control_transition GUARDIAN_CONTROL_STATE_DEGRADED
                     GUARDIAN_CONTROL_REASON_HEALTH_WARNING) c, w)
    else
      (map_status (guardian_control_transition GUARDIAN_CONTROL_STATE_ACTIVE
                     (if bool_decide (cs_state (ct_status c) = GUARDIAN_CONTROL_STATE_DEGRADED)
                      then GUARDIAN_CONTROL_REASON_HEALTH_RECOVERED
                      else GUARDIAN_CONTROL_REASON_LOCAL_RUN)) c, w).

(** The branch for supervision that is disabled. *)
Definition evaluate_disabled (c : control_t) (w : W) : control_t * W :=
  let settle c :=
    map_status (fun s =>
      guardian_control_transition GUARDIAN_CONTROL_STATE_DISABLED (cs_last_transition_reason s)
        (put_permit 0 s)) c in
  match out_apply (ct_output c) with
  | Some apply =>
      let '(ok, w) := call_output apply c 0 w in
      early ok =? 0 with latch_output_failure c w ;;
      (settle c, w)
  | None => (settle c, w)
  end.

Definition active_fault (c : control_t) (fault : Z) : bool :=
  negb (Z.land (cs_active_faults (ct_status c)) fault =? 0).

Definition guardian_control_evaluate (c : control_t) (w : W) : control_t * W :=
  let c := map_status refresh_active c in
  if negb (cs_latched_faults (ct_status c) =? 0) then
    let '(_, c, w) := guardian_control_apply_output c 0 w in
    (map_status (fun s =>
       let s := put_supervision 0 s in
       guardian_control_transition GUARDIAN_CONTROL_STATE_FAULT_LATCHED
         (cs_last_transition_reason s) s) c, w)
  else if cs_supervision_enabled (ct_status c) =? 0 then evaluate_disabled c w
  else if active_fault c GUARDIAN_CONTROL_FAULT_INTERLOCK_OPEN then
    guardian_control_latch_fault c GUARDIAN_CONTROL_FAULT_INTERLOCK_OPEN
      GUARDIAN_CONTROL_REASON_INTERLOCK w
  else if active_fault c GUARDIAN_CONTROL_FAULT_HEALTH_NOT_READY then
    guardian_control_latch_fault c GUARDIAN_CONTROL_FAULT_HEALTH_NOT_READY
      GUARDIAN_CONTROL_REASON_HEALTH_NOT_READY w
  else if active_fault c GUARDIAN_CONTROL_FAULT_HEALTH_ALARM then
    guardian_control_latch_fault c GUARDIAN_CONTROL_FAULT_HEALTH_ALARM
      GUARDIAN_CONTROL_REASON_HEALTH_ALARM w
  else evaluate_permit c w.

(** ** Operations *)

Definition init_status : status_t :=
  CONTROL_STATUS GUARDIAN_CONTROL_STATE_DISABLED 0 0 0 0 GUARDIAN_HEALTH_STATE_UNTRAINED 0 0
    (Z.lor (Z.lor GUARDIAN_CONTROL_FAULT_HEALTH_NOT_READY GUARDIAN_CONTROL_FAULT_INTERLOCK_OPEN)
       GUARDIAN_CONTROL_FAULT_OUTPUT_UNAVAILABLE) 1000 0 0 0 0 0 0.

Definition guardian_control_init (control : option control_t) : option control_t :=
  match control with
  | None => None
  | Some _ => Some (CONTROL init_status (OUTPUT None None))
  end.

Definition guardian_control_configure_output (control : option control_t)
    (output : option output_t) (w : W) : result_t * option control_t * W :=
  match control, output with
  | Some c, Some o =>
      match out_apply o with
      | None => (GUARDIAN_CONTROL_ERROR_NULL_ARGUMENT, control, w)
      | Some apply =>
          let c := CONTROL (put_available 1 (ct_status c)) o in
          let '(ok, w) := call_output apply c 0 w in
          if ok =? 0 then
            let '(c, w) := latch_output_failure c w in
            (GUARDIAN_CONTROL_ERROR_OUTPUT, Some c, w)
          else
            (GUARDIAN_CONTROL_OK, Some (map_status (fun s => refresh_active (put_permit 0 s)) c), w)
      end
  | _, _ => (GUARDIAN_CONTROL_ERROR_NULL_ARGUMENT, control, w)
  end.

Definition guardian_control_set_local_run_request (control : option control_t) (requested : Z)
    (w : W) : option control_t * W :=
  match control with
  | None => (None, w)
  | Some c =>
      let c := map_status (put_run_request (if negb (requested =? 0) then 1 else 0)) c in
      let '(c, w) := guardian_control_evaluate c w in (Some c, w)
  end.

Definition guardian_control_set_interlock (control : option control_t) (closed : Z) (w : W)
  : option control_t * W :=
  match control with
  | None => (None, w)
  | Some c =>
      let c := map_status (put_interlock (if negb (closed =? 0) then 1 else 0)) c in
      let '(c, w) := guardian_control_evaluate c w in (Some c, w)
  end.

Definition guardian_control_update_health (control : option control_t)
    (health : option guardian_health_status_t) (w : W) : option control_t * W :=
  match control, health with
  | Some c, Some h =>
      let '(c, w) := guardian_control_evaluate (map_status (put_health h) c) w in (Some c, w)
  | _, _ => (control, w)
  end.

Definition disarm_settle (action : Z) (c : control_t) : control_t :=
  map_status (fun s =>
    let s := put_permit 0 s in
    let s := guardian_control_transition
               (if negb (cs_latched_faults s =? 0) then GUARDIAN_CONTROL_STATE_FAULT_LATCHED
                else GUARDIAN_CONTROL_STATE_DISABLED) (u8 action) s in
    refresh_active s) c.

Definition action_disarm (c : control_t) (action : Z) (w : W) : result_t * control_t * W :=
  let c := map_status (put_supervision 0) c in
  match out_apply (ct_output c) with
  | Some apply =>
      let '(ok, w) := call_output apply c 0 w in
      if ok =? 0 then
        let '(c, w) := latch_output_failure c w in (GUARDIAN_CONTROL_ERROR_OUTPUT, c, w)
      else (GUARDIAN_CONTROL_OK, disarm_settle action c, w)
  | None => (GUARDIAN_CONTROL_OK, disarm_settle action c, w)
  end.

Definition action_clear_fault (c : control_t) (action : Z) (w : W) : result_t * control_t * W :=
  let s := ct_status c in
  early negb (cs_supervision_enabled s =? 0) with (GUARDIAN_CONTROL_ERROR_DENIED, c, w) ;;
  early negb (cs_local_run_request s =? 0) with (GUARDIAN_CONTROL_ERROR_DENIED, c, w) ;;
  early negb (bool_decide (cs_health_state s = GUARDIAN_HEALTH_STATE_READY))
    with (GUARDIAN_CONTROL_ERROR_DENIED, c, w) ;;
  early cs_interlock_closed s =? 0 with (GUARDIAN_CONTROL_ERROR_DENIED, c, w) ;;
  match out_apply (ct_output c) with
  | None => (GUARDIAN_CONTROL_ERROR_DENIED, c, w)
  | Some apply =>
      let '(ok, w) := call_output apply c 0 w in
      if ok =? 0 then
        let '(c, w) := latch_output_failure c w in (GUARDIAN_CONTROL_ERROR_OUTPUT, c, w)
      else
        (GUARDIAN_CONTROL_OK,
         map_status (fun s =>
           let s := put_latched 0 (cs_fault_latch_count s) s in
           let s := put_permit 0 s in
           let s := guardian_control_transition GUARDIAN_CONTROL_STATE_DISABLED (u8 action) s in
           refresh_active s) c, w)
  end.

Definition action_arm (c : control_t) (action : Z) (w : W) : result_t * control_t * W :=
  let s := ct_status c in
  early negb (cs_latched_faults s =? 0) with (GUARDIAN_CONTROL_ERROR_DENIED, c, w) ;;
  early negb (cs_local_run_request s =? 0) with (GUARDIAN_CONTROL_ERROR_DENIED, c, w) ;;
  early negb (bool_decide (cs_health_state s = GUARDIAN_HEALTH_STATE_READY))
    with (GUARDIAN_CONTROL_ERROR_DENIED, c, w) ;;
  early cs_interlock_closed s =? 0 with (GUARDIAN_CONTROL_ERROR_DENIED, c, w) ;;
  early is_null (out_apply (ct_output c)) with (GUARDIAN_CONTROL_ERROR_DENIED, c, w) ;;
  let '(result, c, w) := guardian_control_apply_output c 0 w in
  early negb (bool_decide (result = GUARDIAN_CONTROL_OK))
    with (GUARDIAN_CONTROL_ERROR_OUTPUT, c, w) ;;
  (GUARDIAN_CONTROL_OK,
   map_status (fun s =>
     let s := put_supervision 1 s in
     let s := guardian_control_transition GUARDIAN_CONTROL_STATE_ARMED (u8 action) s in
     refresh_active s) c, w).

Definition guardian_control_action (control : option control_t) (action : Z) (w : W)
  : result_t * option control_t * W :=
  match control with
  | None => (GUARDIAN_CONTROL_ERROR_NULL_ARGUMENT, None, w)
  | Some c =>
      let '(result, c, w) :=
        if action =? GUARDIAN_CONTROL_ACTION_DISARM then action_disarm c action w
        else if action =? GUARDIAN_CONTROL_ACTION_CLEAR_FAULT then action_clear_fault c action w
        else if action =? GUARDIAN_CONTROL_ACTION_ARM then action_arm c action w
        else (GUARDIAN_CONTROL_ERROR_DENIED, c, w) in
      (result, Some c, w)
  end.

Definition guardian_control_status (control : option control_t) : status_t :=
  match control with
  | None =>
      CONTROL_STATUS GUARDIAN_CONTROL_STATE_DISABLED 0 0 0 0 GUARDIAN_HEALTH_STATE_UNTRAINED 0 0
        GUARDIAN_CONTROL_FAULT_OUTPUT_UNAVAILABLE 1000 0 0 0 0 0 0
  | Some c => ct_status c
  end.

Definition guardian_control_run_permit (control : option control_t) : Z :=
  match control with None => 0 | Some c => cs_run_permit (ct_status c) end.

(** ** Commands *)

Definition guardian_control_write_u16_be (value : Z) : list Z := put_u16_be value.
Definition guardian_control_write_u32_be (value : Z) : list Z := put_u32_be value.

Definition guardian_control_make_error (request response : guardian_frame_t) (error : Z)
  : guardian_frame_t := reply_error request response error.

Definition guardian_control_encode_status_payload (status : option status_t)
    (payload : option (list Z)) (payload_capacity : Z) (payload_length : option Z)
  : guardian_protocol_result_t * option (list Z) * option Z :=
  match status, payload, payload_length with
  | Some s, Some p, Some _ =>
      early payload_capacity <? GUARDIAN_CONTROL_STATUS_PAYLOAD_SIZE
        with (GUARDIAN_PROTOCOL_ERROR_OUTPUT_TOO_SMALL, payload, payload_length) ;;
      let p := blit p 0 [GUARDIAN_CONTROL_SCHEMA_VERSION] in
      let p := blit p 1 [u8 (control_state_value (cs_state s))] in
      let p := blit p 2 [u8 (cs_supervision_enabled s)] in
      let p := blit p 3 [u8 (cs_local_run_request s)] in
      let p := blit p 4 [u8 (cs_run_permit s)] in
      let p := blit p 5 [u8 (cs_interlock_closed s)] in
      let p := blit p 6 [u8 (health_state_value (cs_health_state s))] in
      let p := blit p 7 [u8 (cs_output_available s)] in
      let p := blit p 8 (guardian_control_write_u16_be (cs_latched_faults s)) in
      let p := blit p 10 (guardian_control_write_u16_be (cs_active_faults s)) in
      let p := blit p 12 (guardian_control_write_u16_be (cs_health_score s)) in
      let p := blit p 14 (guardian_control_write_u16_be (cs_anomaly_score s)) in
      let p := blit p 16 (guardian_control_write_u32_be (cs_transition_count s)) in
      let p := blit p 20 (guardian_control_write_u32_be (cs_fault_latch_count s)) in
      let p := blit p 24 [u8 (cs_last_transition_reason s)] in
      let p := blit p 25 [0] in
      let p := blit p 26 (guardian_control_write_u16_be 0) in
      (GUARDIAN_PROTOCOL_OK, Some p, Some GUARDIAN_CONTROL_STATUS_PAYLOAD_SIZE)
  | _, _, _ => (GUARDIAN_PROTOCOL_ERROR_NULL_ARGUMENT, payload, payload_length)
  end.

(** The part of [guardian_control_handle_request] for CONTROL_COMMAND. *)
Definition handle_control_command (c : control_t) (req resp : guardian_frame_t) (w : W)
  : guardian_protocol_result_t * option control_t * option guardian_frame_t * W :=
  let fail c w e :=
    (GUARDIAN_PROTOCOL_OK, c, Some (guardian_control_make_error req resp e), w) in
  early negb (frame_payload_length req =? GUARDIAN_CONTROL_COMMAND_REQUEST_SIZE)
    with fail (Some c) w GUARDIAN_ERROR_INVALID_PAYLOAD ;;
  early negb (byte_at (frame_payload req) 0 =? GUARDIAN_CONTROL_SCHEMA_VERSION)
    with fail (Some c) w GUARDIAN_ERROR_INVALID_PAYLOAD ;;
  let action := byte_at (frame_payload req) 1 in
  early negb (action =? GUARDIAN_CONTROL_ACTION_ARM)
        && negb (action =? GUARDIAN_CONTROL_ACTION_DISARM)
        && negb (action =? GUARDIAN_CONTROL_ACTION_CLEAR_FAULT)
    with fail (Some c) w GUARDIAN_ERROR_INVALID_PAYLOAD ;;
  let '(result, control, w) := guardian_control_action (Some c) action w in
  early bool_decide (result = GUARDIAN_CONTROL_ERROR_DENIED)
    with fail control w GUARDIAN_ERROR_BUSY ;;
  early bool_decide (result = GUARDIAN_CONTROL_ERROR_OUTPUT)
    with fail control w GUARDIAN_ERROR_INTERNAL ;;
  early negb (bool_decide (result = GUARDIAN_CONTROL_OK))
    with fail control w GUARDIAN_ERROR_INVALID_PAYLOAD ;;
  let s := guardian_control_status control in
  let p := blit (frame_payload resp) 0 [GUARDIAN_CONTROL_SCHEMA_VERSION] in
  let p := blit p 1 [u8 action] in
  let p := blit p 2 [u8 (control_state_value (cs_state s))] in
  let p := blit p 3 [u8 (cs_run_permit s)] in
  (GUARDIAN_PROTOCOL_OK, control,
   Some (reply_response req GUARDIAN_CONTROL_COMMAND_RESPONSE_SIZE p), w).

Definition guardian_control_handle_request (control : option control_t)
    (request response : option guardian_frame_t) (w : W)
  : guardian_protocol_result_t * option control_t * option guardian_frame_t * W :=
  match control, request, response with
  | Some c, Some req, Some resp =>
      let fail e := (GUARDIAN_PROTOCOL_OK, control,
                     Some (guardian_control_make_error req resp e), w) in
      early negb (frame_message_type req =? GUARDIAN_MESSAGE_REQUEST)
        with fail GUARDIAN_ERROR_MALFORMED_FRAME ;;
      if frame_command req =? GUARDIAN_COMMAND_GET_CONTROL_STATUS then
        early negb (frame_payload_length req =? 0) with fail GUARDIAN_ERROR_INVALID_PAYLOAD ;;
        let '(result, payload, payload_length) :=
          guardian_control_encode_status_payload (Some (ct_status c)) (Some (frame_payload resp))
            (Z.of_nat GUARDIAN_MAX_PAYLOAD_SIZE) (Some (frame_payload_length resp)) in
        (result, control,
         Some (reply_response req (default 0 payload_length) (default [] payload)), w)
      else if frame_command req =? GUARDIAN_COMMAND_CONTROL_COMMAND then
        handle_control_command c req resp w
      else fail GUARDIAN_ERROR_UNKNOWN_COMMAND
  | _, _, _ => (GUARDIAN_PROTOCOL_ERROR_NULL_ARGUMENT, control, response, w)
  end.

End control.
