(* ===== verification/ControlSafety.v ===== *)
(** * Supervisory control: safety and progress

    The invariant of the control state machine of [Control] and what it gives:
    the permit is asserted under every interlock or not at all, the output that
    was last accepted is the published permit, faults stay latched until an
    explicit reset, a host never starts the machine, and a machine whose
    conditions are met can always be started again. *)

From S2P Require Import Prelude Crc32 Protocol Frames DeviceService Telemetry Acquisition Float32.
From S2P Require Import Dsp Health Control.

Local Abbreviation status_t := guardian_control_status_t.

Definition is_flag (z : Z) : Prop := z = 0 \/ z = 1.

Lemma is_flag_bool (b : bool) : is_flag (if b then 1 else 0).
Proof. destruct b; [by right|by left]. Qed.

(** ** The mode the conditions determine *)

Definition control_mode (s : status_t) : guardian_control_state_t :=
  if negb (cs_latched_faults s =? 0) then GUARDIAN_CONTROL_STATE_FAULT_LATCHED
  else if cs_supervision_enabled s =? 0 then GUARDIAN_CONTROL_STATE_DISABLED
  else if cs_local_run_request s =? 0 then GUARDIAN_CONTROL_STATE_ARMED
  else if bool_decide (cs_health_state s = GUARDIAN_HEALTH_STATE_WARNING)
  then GUARDIAN_CONTROL_STATE_DEGRADED else GUARDIAN_CONTROL_STATE_ACTIVE.

(** The conditions supervision needs at every moment. *)
Definition permissive (s : status_t) : Prop :=
  cs_interlock_closed s = 1 /\ cs_output_available s = 1 /\
  (cs_health_state s = GUARDIAN_HEALTH_STATE_READY \/
   cs_health_state s = GUARDIAN_HEALTH_STATE_WARNING).

Section safety.
Context {C W : Type} (driven : W -> Z).
Local Abbreviation control_t := (guardian_control_t C W).

(** What an adapter promises: an accepted call leaves the output at the permit. *)
Definition output_law (o : guardian_control_output_t C W) : Prop :=
  forall apply, out_apply o = Some apply ->
  forall permit w ok w', apply (out_context o) permit w = (ok, w') -> ok <> 0 -> driven w' = permit.

(** What no store of any operation breaks. *)
Record control_base (c : control_t) : Prop := {
  pre_run : is_flag (cs_local_run_request (ct_status c));
  pre_interlock : is_flag (cs_interlock_closed (ct_status c));
  pre_available : cs_output_available (ct_status c) =
                  if is_null (out_apply (ct_output c)) then 0 else 1;
  pre_law : output_law (ct_output c)
}.

(** What holds also between an input change and the evaluation that follows it. *)
Record control_pre (c : control_t) : Prop := {
  pre_base :> control_base c;
  pre_supervision : is_flag (cs_supervision_enabled (ct_status c));
  pre_permit : cs_run_permit (ct_status c) = 0 \/
               cs_run_permit (ct_status c) = 1 /\ cs_supervision_enabled (ct_status c) = 1;
  pre_latched : cs_latched_faults (ct_status c) <> 0 ->
                cs_supervision_enabled (ct_status c) = 0;
  pre_enabled : cs_supervision_enabled (ct_status c) = 1 ->
                cs_output_available (ct_status c) = 1
}.

(** What holds between operations. *)
Record control_ok (c : control_t) : Prop := {
  ok_pre : control_pre c;
  ok_mode : cs_state (ct_status c) = control_mode (ct_status c);
  ok_permissive : cs_supervision_enabled (ct_status c) = 1 -> permissive (ct_status c);
  ok_run : cs_run_permit (ct_status c) = 1 -> cs_local_run_request (ct_status c) = 1;
  ok_active : cs_active_faults (ct_status c) = guardian_control_active_faults (ct_status c)
}.

(** The output follows the permit, as long as no failure of it is latched. *)
Definition faithful (c : control_t) (w : W) : Prop :=
  cs_output_available (ct_status c) = 1 ->
  Z.land (cs_latched_faults (ct_status c)) GUARDIAN_CONTROL_FAULT_OUTPUT_FAILURE = 0 ->
  driven w = cs_run_permit (ct_status c).

(** The inputs an evaluation leaves alone. *)
Definition inputs (s : status_t) :=
  (cs_local_run_request s, cs_interlock_closed s, cs_health_state s, cs_health_score s,
   cs_anomaly_score s).

End safety.

(** ** Lemmas on the helpers *)

Lemma transition_fields st r s :
  cs_state (guardian_control_transition st r s) = st /\
  exists n q, guardian_control_transition st r s = put_transition n q (put_state st s).
Proof.
  unfold guardian_control_transition. case_bool_decide as E.
  - split; [done|]. exists (cs_transition_count s), (cs_last_transition_reason s).
    rewrite <- E. by destruct s.
  - split; [done|]. by eexists _, _.
Qed.

(** A transition changes no field the safety conditions read. *)
Lemma transition_eq st r s :
  exists n q, guardian_control_transition st r s = put_transition n q (put_state st s).
Proof. apply transition_fields. Qed.

Ltac transitions :=
  repeat match goal with
  | |- context [guardian_control_transition ?st ?r ?s] =>
      let n := fresh "n" in let q := fresh "q" in let E := fresh "Et" in
      destruct (transition_eq st r s) as (n & q & E); rewrite E; clear E
  end.

Lemma lor_failure_bit x : Z.land (Z.lor x 8) 8 <> 0.
Proof.
  rewrite Z.land_lor_distr_l. change (Z.land 8 8) with 8. intros H.
  apply Z.lor_eq_0_iff in H. lia.
Qed.

Lemma lor_nonzero x y : y <> 0 -> Z.lor x y <> 0.
Proof. intros Hy H. apply Z.lor_eq_0_iff in H. lia. Qed.

(** [ended c c']: an evaluation took [c] to [c']; it changed neither the inputs nor
    the adapter and dropped no latched fault. *)
Record ended {C W} (c c' : guardian_control_t C W) : Prop := {
  ended_inputs : inputs (ct_status c') = inputs (ct_status c);
  ended_output : ct_output c' = ct_output c;
  ended_latched : Z.land (cs_latched_faults (ct_status c)) (cs_latched_faults (ct_status c'))
                  = cs_latched_faults (ct_status c);
  ended_supervision : cs_supervision_enabled (ct_status c') = 1 ->
                      cs_supervision_enabled (ct_status c) = 1
}.


Section operations.
Context {C W : Type} (driven : W -> Z).
Local Abbreviation control_t := (guardian_control_t C W).
Local Abbreviation control_base := (@control_base C W driven).
Local Abbreviation control_pre := (@control_pre C W driven).
Local Abbreviation control_ok := (@control_ok C W driven).
Local Abbreviation faithful := (@faithful C W driven).

(** ** Latching a fault *)

(** What a latched fault leaves behind. *)
Record tripped (c : control_t) : Prop := {
  tripped_latched : cs_latched_faults (ct_status c) <> 0;
  tripped_supervision : cs_supervision_enabled (ct_status c) = 0;
  tripped_permit : cs_run_permit (ct_status c) = 0
}.

(** Any two states that agree on what [control_ok] reads of a tripped state. *)
Lemma tripped_ok c s :
  control_base c ->
  inputs s = inputs (ct_status c) ->
  cs_output_available s = cs_output_available (ct_status c) ->
  cs_state s = GUARDIAN_CONTROL_STATE_FAULT_LATCHED ->
  cs_supervision_enabled s = 0 -> cs_run_permit s = 0 -> cs_latched_faults s <> 0 ->
  cs_active_faults s = guardian_control_active_faults s ->
  control_ok (CONTROL s (ct_output c)).
Proof.
  intros [] Hi Ha Hst Hsup Hp Hl Hact. unfold inputs in Hi. injection Hi as Hr Hil _ _ _.
  split; cbn; [split; [split|..]; cbn|..]; rewrite ?Hsup, ?Hp, ?Ha, ?Hr, ?Hil; try done.
  - by left.
  - by left.
  - unfold control_mode. destruct (Z.eqb_spec (cs_latched_faults s) 0); [done|]. by rewrite Hst.
Qed.

Lemma latch_fault_fields (c : control_t) faults reason w c' w' :
  guardian_control_latch_fault c faults reason w = (c', w') ->
  exists s extra,
    c' = CONTROL s (ct_output c) /\
    inputs s = inputs (ct_status c) /\
    cs_output_available s = cs_output_available (ct_status c) /\
    cs_state s = GUARDIAN_CONTROL_STATE_FAULT_LATCHED /\
    cs_supervision_enabled s = 0 /\ cs_run_permit s = 0 /\
    cs_active_faults s = guardian_control_active_faults s /\
    cs_latched_faults s = Z.lor (cs_latched_faults (ct_status c)) (Z.lor faults extra) /\
    (extra = GUARDIAN_CONTROL_FAULT_OUTPUT_FAILURE \/
     forall apply, out_apply (ct_output c) = Some apply ->
       exists ok, apply (out_context (ct_output c)) 0 w = (ok, w') /\ ok <> 0).
Proof.
  unfold guardian_control_latch_fault, call_output. intros H.
  destruct (out_apply (ct_output c)) as [apply|] eqn:Ea.
  - destruct (apply _ 0 w) as [ok w1] eqn:E.
    destruct (Z.eqb_spec ok 0) as [Hok|Hok]; injection H as <- <-; transitions.
    + eexists _, 8. split_and!; try reflexivity; [|by left]. cbn. by rewrite Z.lor_assoc.
    + eexists _, 0. split_and!; try reflexivity; [cbn; by rewrite Z.lor_0_r|].
      right. intros ? [= <-]. by eexists.
  - injection H as <- <-. transitions.
    eexists _, 0. split_and!; try reflexivity; [cbn; by rewrite Z.lor_0_r|by right].
Qed.

Lemma latch_fault_spec c faults reason w c' w' :
  control_base c -> faults <> 0 ->
  guardian_control_latch_fault c faults reason w = (c', w') ->
  control_ok c' /\ faithful c' w' /\ ended c c' /\ tripped c'.
Proof.
  intros Hpre Hf (s & extra & -> & Hi & Ha & Hst & Hsup & Hp & Hact & Hl & Hx)%latch_fault_fields.
  assert (Hne : cs_latched_faults s <> 0).
  { rewrite Hl. apply lor_nonzero. rewrite Z.lor_comm. by apply lor_nonzero. }
  split_and!.
  - by apply tripped_ok.
  - intros Hav Hbit. cbn in *. destruct Hx as [->|Hx].
    + exfalso. rewrite Hl, Z.lor_assoc in Hbit. by apply lor_failure_bit in Hbit.
    + rewrite Ha, (pre_available _ _ Hpre) in Hav.
      destruct (out_apply (ct_output c)) as [apply|] eqn:Ea; [|done].
      destruct (Hx _ eq_refl) as (ok & E & Hok). rewrite Hp.
      by eapply (pre_law _ _ Hpre).
  - split; [done|done| |]; cbn; [rewrite Hl; apply land_lor_absorb|by rewrite Hsup].
  - by split.
Qed.

Lemma latch_fault_ok (c : control_t) faults reason w c' w' :
  control_base c -> guardian_control_latch_fault c faults reason w = (c', w') -> faults <> 0 ->
  control_ok c' /\ faithful c' w' /\ ended c c'.
Proof. intros Hpre H Hf. by apply latch_fault_spec in H as (? & ? & ? & _). Qed.

(** ** Driving the output *)

Lemma apply_output_spec (c : control_t) p w r c' w' :
  control_base c -> guardian_control_apply_output c p w = (r, c', w') ->
  (r = GUARDIAN_CONTROL_ERROR_DENIED /\ out_apply (ct_output c) = None /\
   c' = map_status (fun s => refresh_active (put_available 0 s)) c /\ w' = w) \/
  (r = GUARDIAN_CONTROL_ERROR_OUTPUT /\ control_ok c' /\ faithful c' w' /\ ended c c' /\
   tripped c') \/
  (r = GUARDIAN_CONTROL_OK /\ is_Some (out_apply (ct_output c)) /\
   c' = map_status (put_permit (if negb (p =? 0) then 1 else 0)) c /\
   driven w' = if negb (p =? 0) then 1 else 0).
Proof.
  intros Hpre H. unfold guardian_control_apply_output, call_output in H.
  destruct (out_apply (ct_output c)) as [apply|] eqn:Ea.
  - destruct (apply _ _ w) as [ok w1] eqn:E. destruct (Z.eqb_spec ok 0) as [Hok|Hok].
    + destruct (latch_output_failure c w1) as [c2 w2] eqn:El. injection H as <- <- <-.
      right. left. split; [done|]. by eapply latch_fault_spec in El.
    + injection H as <- <- <-. right. right. split_and!; try done.
      by eapply (pre_law _ _ Hpre).
  - injection H as <- <- <-. left. done.
Qed.

(** ** Evaluation *)

Lemma refresh_pre (c : control_t) : control_pre c -> control_pre (map_status refresh_active c).
Proof. intros [[] ?]. by repeat split. Qed.

Lemma ended_trans (a b c : control_t) : ended a b -> ended b c -> ended a c.
Proof.
  intros [Hi1 Ho1 Hl1 Hs1] [Hi2 Ho2 Hl2 Hs2]. split; [congruence..| |tauto].
  rewrite <- Hl1 at 1. rewrite <- Z.land_assoc, Hl2. done.
Qed.

(** A state with no latched fault whose fields the stores of an operation gave. *)
Lemma control_settled_ok (c : control_t) s :
  control_base c ->
  inputs s = inputs (ct_status c) ->
  cs_output_available s = cs_output_available (ct_status c) ->
  is_flag (cs_supervision_enabled s) ->
  (cs_supervision_enabled s = 1 -> permissive s) ->
  cs_latched_faults s = 0 ->
  cs_state s = control_mode s ->
  (cs_run_permit s = 0 \/
   cs_run_permit s = 1 /\ cs_supervision_enabled s = 1 /\ cs_local_run_request s = 1) ->
  cs_active_faults s = guardian_control_active_faults s ->
  control_ok (CONTROL s (ct_output c)).
Proof.
  intros [] Hi Ha Hsup Hperm Hl Hmode Hp Hact. unfold inputs in Hi.
  injection Hi as Hr Hil _ _ _.
  split; cbn; [split; [split|..]; cbn|..]; rewrite ?Ha, ?Hr, ?Hil; try done; try tauto.
  - intros H1. rewrite <- Ha. by apply Hperm in H1 as (_ & ? & _).
  - intros H1. rewrite <- Hr. destruct Hp as [Hp|(_ & _ & Hp)]; [rewrite Hp in H1; lia|done].
Qed.

Lemma evaluate_disabled_spec (c : control_t) w c' w' :
  control_pre c -> cs_active_faults (ct_status c) = guardian_control_active_faults (ct_status c) ->
  cs_latched_faults (ct_status c) = 0 -> cs_supervision_enabled (ct_status c) = 0 ->
  evaluate_disabled c w = (c', w') ->
  control_ok c' /\ faithful c' w' /\ ended c c'.
Proof.
  intros Hpre Hact Hl Hs H. unfold evaluate_disabled, call_output in H.
  destruct (out_apply (ct_output c)) as [apply|] eqn:Ea.
  - destruct (apply _ 0 w) as [ok w1] eqn:E. destruct (Z.eqb_spec ok 0) as [Hok|Hok].
    + by eapply (latch_fault_ok _ _ _ _ _ _ Hpre).
    + injection H as <- <-. unfold map_status. transitions. split_and!.
      * apply (control_settled_ok c _ Hpre); try done; cbn; rewrite ?Hs, ?Hl; try first [by left|by right|done].
        unfold control_mode. cbn. by rewrite Hl, Hs.
      * intros _ _. cbn. by eapply (pre_law _ _ Hpre).
      * split; try done; cbn; first [apply Z.land_diag|lia].
  - injection H as <- <-. unfold map_status. transitions. split_and!.
    + apply (control_settled_ok c _ Hpre); try done; cbn; rewrite ?Hs, ?Hl; try first [by left|by right|done].
      unfold control_mode. cbn. by rewrite Hl, Hs.
    + intros Hav. cbn in Hav. by rewrite (pre_available _ _ Hpre), Ea in Hav.
    + split; try done; cbn; first [apply Z.land_diag|lia].
Qed.

Lemma active_fault_spec (c : control_t) :
  cs_active_faults (ct_status c) = guardian_control_active_faults (ct_status c) ->
  active_fault c GUARDIAN_CONTROL_FAULT_INTERLOCK_OPEN = (cs_interlock_closed (ct_status c) =? 0) /\
  active_fault c GUARDIAN_CONTROL_FAULT_HEALTH_NOT_READY =
    match cs_health_state (ct_status c) with
    | GUARDIAN_HEALTH_STATE_UNTRAINED | GUARDIAN_HEALTH_STATE_LEARNING => true
    | _ => false
    end /\
  active_fault c GUARDIAN_CONTROL_FAULT_HEALTH_ALARM =
    match cs_health_state (ct_status c) with GUARDIAN_HEALTH_STATE_ALARM => true | _ => false end.
Proof.
  intros Hact. unfold active_fault. rewrite Hact. unfold guardian_control_active_faults.
  destruct (cs_health_state (ct_status c)), (cs_interlock_closed (ct_status c) =? 0),
    (cs_output_available (ct_status c) =? 0), (Z.land _ GUARDIAN_CONTROL_FAULT_OUTPUT_FAILURE =? 0);
    by vm_compute.
Qed.

Lemma evaluate_permit_spec (c : control_t) w c' w' :
  control_pre c -> cs_active_faults (ct_status c) = guardian_control_active_faults (ct_status c) ->
  cs_latched_faults (ct_status c) = 0 -> cs_supervision_enabled (ct_status c) = 1 ->
  permissive (ct_status c) ->
  evaluate_permit c w = (c', w') ->
  control_ok c' /\ faithful c' w' /\ ended c c'.
Proof.
  intros Hpre Hact Hl Hs Hperm H. unfold evaluate_permit in H.
  assert (Happly : forall r, r <> GUARDIAN_CONTROL_OK ->
            bool_decide (r = GUARDIAN_CONTROL_OK) = false) by (intros; by apply bool_decide_eq_false).
  assert (Hsome : out_apply (ct_output c) <> None).
  { destruct Hperm as (_ & Hav & _). rewrite (pre_available _ _ Hpre) in Hav.
    by destruct (out_apply (ct_output c)). }
  destruct (Z.eqb_spec (cs_local_run_request (ct_status c)) 0) as [Hrun|Hrun];
    destruct (guardian_control_apply_output c _ w) as [[r c1] w1] eqn:E;
    apply (apply_output_spec _ _ _ _ _ _ Hpre) in E as [(_ & ? & _)|[(-> & Hok & Hf & He & _)|(-> & _ & -> & Hd)]];
    try done; rewrite ?Happly in H by done; cbn [negb] in H.
  - injection H as <- <-. done.
  - rewrite bool_decide_true in H by done. cbn [negb] in H. injection H as <- <-.
    unfold map_status. transitions. split_and!.
    + apply (control_settled_ok c _ Hpre); try done; try exact (fun _ => Hperm); cbn; rewrite ?Hs, ?Hl;
        try first [by left|by right|done].
      unfold control_mode. cbn. by rewrite Hl, Hs, Hrun.
    + by intros _ _.
    + split; try done; cbn; first [apply Z.land_diag|lia].
  - injection H as <- <-. done.
  - rewrite bool_decide_true in H by done. cbn [negb] in H.
    destruct (pre_run _ _ Hpre) as [?|Hrun1]; [done|].
    revert H. cbn -[guardian_control_transition]. case_bool_decide as Ehw; intros [= <- <-];
      unfold map_status; transitions; (split_and!;
        [apply (control_settled_ok c _ Hpre); try done; try exact (fun _ => Hperm); cbn; rewrite ?Hs, ?Hl;
           try first [by left|by right|done]
        |by intros _ _|split; try done; cbn; first [apply Z.land_diag|lia]]).
    + unfold control_mode. cbn. by rewrite Hl, Hs, Hrun1, Ehw.
    + unfold control_mode. cbn. rewrite Hl, Hs, Hrun1. cbn. by rewrite bool_decide_false.
Qed.

(** An evaluation re-establishes the invariant, whatever the inputs became. *)
Lemma evaluate_spec (c : control_t) w c' w' :
  control_pre c -> guardian_control_evaluate c w = (c', w') ->
  control_ok c' /\ faithful c' w' /\ ended c c'.
Proof.
  intros Hpre0 H. unfold guardian_control_evaluate in H.
  pose proof (refresh_pre c Hpre0) as Hpre. set (c1 := map_status refresh_active c) in *.
  assert (He0 : ended c c1) by (split; try done; cbn; first [apply Z.land_diag|lia]).
  enough (control_ok c' /\ faithful c' w' /\ ended c1 c').
  { split_and!; try tauto. eapply ended_trans; [done|tauto]. }
  assert (Hact : cs_active_faults (ct_status c1) = guardian_control_active_faults (ct_status c1))
    by done.
  destruct (active_fault_spec c1 Hact) as (Hi & Hn & Ha).
  clearbody c1. clear He0 Hpre0 c.
  destruct (Z.eqb_spec (cs_latched_faults (ct_status c1)) 0) as [Hl|Hl]; cbn [negb] in H.
  - destruct (Z.eqb_spec (cs_supervision_enabled (ct_status c1)) 0) as [Hs|Hs];
      [by eapply evaluate_disabled_spec|].
    destruct (pre_supervision _ _ Hpre) as [?|Hs1]; [done|].
    rewrite Hi in H. destruct (Z.eqb_spec (cs_interlock_closed (ct_status c1)) 0) as [Hz|Hz];
      [by eapply (latch_fault_ok _ _ _ _ _ _ Hpre)|].
    rewrite Hn, Ha in H.
    destruct (cs_health_state (ct_status c1)) eqn:Eh; cbn in H;
      try by eapply (latch_fault_ok _ _ _ _ _ _ Hpre).
    all: eapply evaluate_permit_spec; try done; unfold permissive; split_and!;
      [by destruct (pre_interlock _ _ Hpre)|by apply (pre_enabled _ _ Hpre)|rewrite Eh; tauto].
  - destruct (guardian_control_apply_output c1 0 w) as [[r c2] w2] eqn:E. injection H as <- <-.
    pose proof (pre_latched _ _ Hpre Hl) as Hsup.
    assert (Hp0 : cs_run_permit (ct_status c1) = 0).
    { destruct (pre_permit _ _ Hpre) as [?|[_ ?]]; [done|lia]. }
    apply (apply_output_spec _ _ _ _ _ _ Hpre) in E as [(_ & Hnone & -> & ->)|[(_ & Hok & Hf & He & Ht)|(_ & Hsm & -> & Hd)]];
      [| |unfold map_status].
    + unfold map_status. cbn -[guardian_control_transition refresh_active]. transitions.
      pose proof (pre_available _ _ Hpre) as Hav. rewrite Hnone in Hav. cbn in Hav.
      split_and!; [apply (tripped_ok c1 _ Hpre); try done; cbn; by rewrite ?Hav|done|split; try done; cbn; first [apply Z.land_diag|lia]].
    + destruct Ht as [Ht1 Ht2 Ht3]. unfold map_status. transitions. split_and!.
      * apply (tripped_ok c2 _ (ok_pre _ _ Hok)); try done; cbn; apply Hok.
      * done.
      * destruct He. by split.
    + transitions. split_and!; [apply (tripped_ok c1 _ Hpre); try done|by intros _ _|split; try done; cbn; first [apply Z.land_diag|lia]].
Qed.

(** ** Host actions *)

(** What a host action may do: it leaves the permit de-energized or the state
    untouched, and only CLEAR_FAULT drops latched faults, under its conditions. *)
Record acted (action : Z) (c c' : control_t) : Prop := {
  acted_permit : cs_run_permit (ct_status c') = 0 \/ c' = c;
  acted_inputs : inputs (ct_status c') = inputs (ct_status c);
  acted_output : ct_output c' = ct_output c;
  acted_latched :
    Z.land (cs_latched_faults (ct_status c)) (cs_latched_faults (ct_status c'))
      = cs_latched_faults (ct_status c) \/
    action = GUARDIAN_CONTROL_ACTION_CLEAR_FAULT /\
    cs_supervision_enabled (ct_status c') = 0 /\ cs_local_run_request (ct_status c') = 0 /\
    permissive (ct_status c') /\ cs_latched_faults (ct_status c') = 0;
  acted_supervision :
    cs_supervision_enabled (ct_status c') = 1 ->
    cs_supervision_enabled (ct_status c) = 1 \/
    action = GUARDIAN_CONTROL_ACTION_ARM /\ cs_latched_faults (ct_status c) = 0 /\
    cs_local_run_request (ct_status c) = 0 /\ cs_interlock_closed (ct_status c) = 1 /\
    cs_health_state (ct_status c) = GUARDIAN_HEALTH_STATE_READY
}.

Lemma acted_tripped action (c c' : control_t) : ended c c' -> tripped c' -> acted action c c'.
Proof. intros [] []. split; [by left|done|done|by left|by left; auto]. Qed.

Lemma acted_same action (c : control_t) : acted action c c.
Proof. split; [by right|done|done|left; apply Z.land_diag|by left]. Qed.

Definition action_goal (action : Z) (c : control_t) (res : guardian_control_result_t * control_t * W)
  : Prop :=
  control_ok res.1.2 /\ faithful res.1.2 res.2 /\ acted action c res.1.2.

(** The output failed: every action ends in the same latched fault. *)
Lemma action_trip action (c c0 : control_t) w :
  control_base c -> inputs (ct_status c) = inputs (ct_status c0) -> ct_output c = ct_output c0 ->
  cs_latched_faults (ct_status c) = cs_latched_faults (ct_status c0) ->
  action_goal action c0
    (let '(c, w) := latch_output_failure c w in (GUARDIAN_CONTROL_ERROR_OUTPUT, c, w)).
Proof.
  intros Hpre Hi Ho Hl. destruct (latch_output_failure c w) as [c' w'] eqn:E.
  apply latch_fault_spec in E as (Hok & Hf & [He1 He2 He3 _] & Ht); [|done..].
  split_and!; [done|done|]. apply acted_tripped; [|done]. cbn. split; [congruence..|by rewrite <- Hl|].
  destruct Ht. lia.
Qed.

Lemma faithful_unavailable (c : control_t) w :
  control_base c -> out_apply (ct_output c) = None -> faithful c w.
Proof. intros Hpre Hn Hav. by rewrite (pre_available _ _ Hpre), Hn in Hav. Qed.

Lemma disarm_spec action (c : control_t) w :
  control_ok c -> action_goal action c (action_disarm c action w).
Proof.
  intros Hok. pose proof (pre_base _ _ (ok_pre _ _ Hok)) as Hb.
  assert (Hset : forall w, (cs_output_available (ct_status c) = 1 -> driven w = 0) ->
    action_goal action c
      (GUARDIAN_CONTROL_OK, disarm_settle action (map_status (put_supervision 0) c), w)).
  { intros v Hv. unfold disarm_settle, map_status.
    cbn -[guardian_control_transition refresh_active].
    destruct (Z.eqb_spec (cs_latched_faults (ct_status c)) 0) as [Hl|Hl];
      cbn [negb]; transitions; (split_and!;
      [|by intros Hav _; apply Hv|split; [by left|done|done|left; apply Z.land_diag|try done; by left]]).
    - apply (control_settled_ok c); try done; cbn; try first [by left|done].
      unfold control_mode. cbn. by rewrite Hl.
    - by apply (tripped_ok c). }
  unfold action_disarm, call_output. cbn [map_status ct_output].
  destruct (out_apply (ct_output c)) as [apply|] eqn:Ea.
  - destruct (apply _ 0 w) as [ok w1] eqn:E. destruct (Z.eqb_spec ok 0) as [Ho|Ho].
    + apply action_trip; try done. by destruct Hb.
    + apply Hset. intros _. by eapply (pre_law _ _ Hb).
  - apply Hset. intros Hav. by rewrite (pre_available _ _ Hb), Ea in Hav.
Qed.

Lemma clear_fault_spec (c : control_t) w :
  control_ok c -> faithful c w ->
  action_goal GUARDIAN_CONTROL_ACTION_CLEAR_FAULT c
    (action_clear_fault c GUARDIAN_CONTROL_ACTION_CLEAR_FAULT w).
Proof.
  intros Hok Hf. pose proof (ok_pre _ _ Hok) as Hpre. pose proof (pre_base _ _ Hpre) as Hb.
  assert (Hsame : forall r, action_goal GUARDIAN_CONTROL_ACTION_CLEAR_FAULT c (r, c, w)).
  { intros r. split_and!; [done|done|apply acted_same]. }
  unfold action_clear_fault, call_output.
  destruct (Z.eqb_spec (cs_supervision_enabled (ct_status c)) 0) as [Hs|]; [|apply Hsame].
  destruct (Z.eqb_spec (cs_local_run_request (ct_status c)) 0) as [Hr|]; [|apply Hsame].
  case_bool_decide as Hh; [|apply Hsame].
  destruct (Z.eqb_spec (cs_interlock_closed (ct_status c)) 0) as [|Hi]; [apply Hsame|].
  cbn [negb]. destruct (out_apply (ct_output c)) as [apply|] eqn:Ea; [|apply Hsame].
  destruct (apply _ 0 w) as [ok w1] eqn:E. destruct (Z.eqb_spec ok 0) as [Ho|Ho];
    [by apply action_trip|].
  assert (Hav : cs_output_available (ct_status c) = 1).
  { by rewrite (pre_available _ _ Hb), Ea. }
  assert (Hi1 : cs_interlock_closed (ct_status c) = 1) by (by destruct (pre_interlock _ _ Hb)).
  unfold map_status. cbn -[guardian_control_transition refresh_active]. transitions. split_and!.
  - apply (control_settled_ok c _ Hb); try done; cbn; rewrite ?Hs; try first [by left|done].
  - intros _ _. cbn. by eapply (pre_law _ _ Hb).
  - split; [by left|done|done| |by left]. right. split_and!; try done. split_and!; [done|done|by left].
Qed.

Lemma arm_spec (c : control_t) w :
  control_ok c -> faithful c w ->
  action_goal GUARDIAN_CONTROL_ACTION_ARM c (action_arm c GUARDIAN_CONTROL_ACTION_ARM w).
Proof.
  intros Hok Hf. pose proof (ok_pre _ _ Hok) as Hpre. pose proof (pre_base _ _ Hpre) as Hb.
  assert (Hsame : forall r, action_goal GUARDIAN_CONTROL_ACTION_ARM c (r, c, w)).
  { intros r. split_and!; [done|done|apply acted_same]. }
  unfold action_arm.
  destruct (Z.eqb_spec (cs_latched_faults (ct_status c)) 0) as [Hl|]; [|apply Hsame].
  destruct (Z.eqb_spec (cs_local_run_request (ct_status c)) 0) as [Hr|]; [|apply Hsame].
  case_bool_decide as Hh; [|apply Hsame].
  destruct (Z.eqb_spec (cs_interlock_closed (ct_status c)) 0) as [|Hi]; [apply Hsame|].
  cbn [negb]. destruct (is_null (out_apply (ct_output c))) eqn:Ea; [apply Hsame|].
  destruct (guardian_control_apply_output c 0 w) as [[r c1] w1] eqn:E.
  apply (apply_output_spec _ _ _ _ _ _ Hb) in E
    as [(-> & Hn & _)|[(-> & Hok1 & Hf1 & He & Ht)|(-> & _ & -> & Hd)]].
  - by rewrite Hn in Ea.
  - rewrite bool_decide_false by done. split_and!; [done|done|by apply acted_tripped].
  - rewrite bool_decide_true by done. cbn [negb].
    assert (Hav : cs_output_available (ct_status c) = 1) by (by rewrite (pre_available _ _ Hb), Ea).
    assert (Hi1 : cs_interlock_closed (ct_status c) = 1) by (by destruct (pre_interlock _ _ Hb)).
    unfold map_status. cbn -[guardian_control_transition refresh_active]. transitions. split_and!.
    + apply (control_settled_ok c _ Hb); try done; cbn; try first [by right|by left|done].
      * intros _. split_and!; [done|done|by left].
      * unfold control_mode. cbn. by rewrite Hl, Hr.
    + intros _ _. cbn. done.
    + split; [by left|done|done|left; apply Z.land_diag|by right].
Qed.

Lemma action_spec action (c : control_t) w r c' w' :
  control_ok c -> faithful c w ->
  guardian_control_action (Some c) action w = (r, c', w') ->
  exists c1, c' = Some c1 /\ control_ok c1 /\ faithful c1 w' /\ acted action c c1.
Proof.
  intros Hok Hf H. unfold guardian_control_action in H.
  assert (Hgoal : forall res, action_goal action c res -> (let '(result, c2, w2) := res in
            (result, Some c2, w2)) = (r, c', w') ->
            exists c1, c' = Some c1 /\ control_ok c1 /\ faithful c1 w' /\ acted action c c1).
  { intros [[r2 c2] w2] (Ho & Hfa & Ha) [= <- <- <-]. by exists c2. }
  eapply Hgoal; [|exact H]. clear H Hgoal.
  destruct (Z.eqb_spec action GUARDIAN_CONTROL_ACTION_DISARM); [by apply disarm_spec|].
  destruct (Z.eqb_spec action GUARDIAN_CONTROL_ACTION_CLEAR_FAULT) as [->|];
    [by apply clear_fault_spec|].
  destruct (Z.eqb_spec action GUARDIAN_CONTROL_ACTION_ARM) as [->|]; [by apply arm_spec|].
  split_and!; [done|done|apply acted_same].
Qed.

(** ** Steps *)

(** The calls the application makes on the module's object. *)
Inductive control_op :=
  | OpConfigure (output : guardian_control_output_t C W)
  | OpRun (requested : Z)
  | OpInterlock (closed : Z)
  | OpHealth (health : guardian_health_status_t)
  | OpAction (action : Z).

Definition control_step (cw : control_t * W) (op : control_op) : control_t * W :=
  let '(c, w) := cw in
  let '(c', w') :=
    match op with
    | OpConfigure o =>
        let '(_, c', w') := guardian_control_configure_output (Some c) (Some o) w in (c', w')
    | OpRun r => guardian_control_set_local_run_request (Some c) r w
    | OpInterlock i => guardian_control_set_interlock (Some c) i w
    | OpHealth h => guardian_control_update_health (Some c) (Some h) w
    | OpAction a => let '(_, c', w') := guardian_control_action (Some c) a w in (c', w')
    end in
  (default c c', w').

Definition control_run (cw : control_t * W) (ops : list control_op) : control_t * W :=
  foldl control_step cw ops.

(** Every adapter the application installs keeps its promise. *)
Definition op_law (op : control_op) : Prop :=
  match op with OpConfigure o => output_law driven o | _ => True end.

Definition is_clear (op : control_op) : Prop :=
  op = OpAction GUARDIAN_CONTROL_ACTION_CLEAR_FAULT.

(** The inputs and the adapter a step leaves. *)
Definition op_inputs (op : control_op) (s : status_t) : status_t :=
  match op with
  | OpRun r => put_run_request (if negb (r =? 0) then 1 else 0) s
  | OpInterlock i => put_interlock (if negb (i =? 0) then 1 else 0) s
  | OpHealth h => put_health h s
  | _ => s
  end.

Definition op_output (op : control_op) (o : guardian_control_output_t C W)
  : guardian_control_output_t C W :=
  match op with OpConfigure o' => if is_null (out_apply o') then o else o' | _ => o end.

(** What one step may do to supervision, the permit and the latched faults. *)
Record stepped (op : control_op) (c c' : control_t) : Prop := {
  stepped_inputs : inputs (ct_status c') = inputs (op_inputs op (ct_status c));
  stepped_output : ct_output c' = op_output op (ct_output c);
  stepped_supervision :
    cs_supervision_enabled (ct_status c') = 1 ->
    cs_supervision_enabled (ct_status c) = 1 \/
    op = OpAction GUARDIAN_CONTROL_ACTION_ARM /\ cs_latched_faults (ct_status c) = 0 /\
    cs_local_run_request (ct_status c) = 0 /\ cs_interlock_closed (ct_status c) = 1 /\
    cs_health_state (ct_status c) = GUARDIAN_HEALTH_STATE_READY;
  stepped_permit :
    cs_run_permit (ct_status c') = 1 -> cs_run_permit (ct_status c) <> 1 ->
    match op with OpRun _ | OpInterlock _ | OpHealth _ => True | _ => False end;
  stepped_latched :
    ~ is_clear op ->
    Z.land (cs_latched_faults (ct_status c)) (cs_latched_faults (ct_status c'))
      = cs_latched_faults (ct_status c)
}.

(** Evaluating after an input changed. *)
Lemma input_step op (c : control_t) w c' w' :
  control_ok c ->
  match op with OpRun _ | OpInterlock _ | OpHealth _ => True | _ => False end ->
  guardian_control_evaluate (map_status (op_inputs op) c) w = (c', w') ->
  control_ok c' /\ faithful c' w' /\ stepped op c c'.
Proof.
  intros Hok Hop H. destruct (ok_pre _ _ Hok) as [[] ? ? ? ?].
  assert (Hpre : control_pre (map_status (op_inputs op) c)).
  { destruct op; try done; split; try split; cbn; auto using is_flag_bool. }
  apply (evaluate_spec _ _ _ _ Hpre) in H as (Hok' & Hf & [Hei Heo He Hes]).
  split_and!; [done|done|]. split.
  - done.
  - by destruct op.
  - intros H1. left. apply Hes in H1. by destruct op.
  - by intros _ _.
  - intros _. by destruct op.
Qed.

Lemma configure_step (c : control_t) o w r c' w' :
  control_ok c -> faithful c w -> output_law driven o ->
  guardian_control_configure_output (Some c) (Some o) w = (r, Some c', w') ->
  control_ok c' /\ faithful c' w' /\ stepped (OpConfigure o) c c'.
Proof.
  intros Hok Hf Hlaw H. unfold guardian_control_configure_output, call_output in H.
  destruct (ok_pre _ _ Hok) as [[] ? ? ? ?]. destruct Hok as [_ Hmode Hperm Hrun Hact].
  destruct (out_apply o) as [apply|] eqn:Ea.
  - cbn [ct_output] in H. destruct (apply _ 0 w) as [ok w1] eqn:E.
    assert (Hb : control_base (CONTROL (put_available 1 (ct_status c)) o)).
    { split; cbn; [done|done|by rewrite Ea|done]. }
    destruct (Z.eqb_spec ok 0) as [Ho|Ho].
    + destruct (latch_output_failure _ w1) as [c2 w2] eqn:El. injection H as <- <- <-.
      apply (latch_fault_spec _ _ _ _ _ _ Hb) in El as (? & ? & [Hei Heo He Hes] & [? ? Hp0]); [|done].
      split_and!; [done|done|].
      split; [done|cbn; by rewrite Ea|intros H1; left; by apply Hes|rewrite Hp0; lia|by intros _].
    + injection H as <- <- <-. split_and!.
      * split; cbn; [split; [split|..]; cbn|..]; rewrite ?Ea; try done; try first [by left|tauto].
        intros H1. apply Hperm in H1 as (? & _ & ?). by split_and!.
      * intros _ _. cbn. by eapply Hlaw.
      * split; cbn; [done|by rewrite Ea|by left|lia|intros _; apply Z.land_diag].
  - injection H as <- <- <-. split_and!; [split; try done; by split|done|].
    split; [done|cbn; by rewrite Ea|by left|tauto|intros _; apply Z.land_diag].
Qed.

Lemma control_step_ok (c : control_t) w op c' w' :
  control_ok c -> faithful c w -> op_law op -> control_step (c, w) op = (c', w') ->
  control_ok c' /\ faithful c' w' /\ stepped op c c'.
Proof.
  intros Hok Hf Hlaw H. unfold control_step in H. destruct (ok_pre _ _ Hok) as [[Hr Hi _ _] _ _ _ _].
  destruct op as [o|r|i|h|a].
  - destruct (guardian_control_configure_output (Some c) (Some o) w) as [[r c2] w2] eqn:E.
    injection H as <- <-. destruct c2 as [c2|]; [by eapply configure_step|].
    exfalso. revert E. unfold guardian_control_configure_output, latch_output_failure.
    repeat case_match; congruence.
  - cbn -[guardian_control_evaluate] in H.
    destruct (guardian_control_evaluate _ w) as [c2 w2] eqn:E. injection H as <- <-.
    by apply (input_step (OpRun r) c w).

  - cbn -[guardian_control_evaluate] in H.
    destruct (guardian_control_evaluate _ w) as [c2 w2] eqn:E. injection H as <- <-.
    by apply (input_step (OpInterlock i) c w).

  - cbn -[guardian_control_evaluate] in H.
    destruct (guardian_control_evaluate _ w) as [c2 w2] eqn:E. injection H as <- <-.
    by apply (input_step (OpHealth h) c w).

  - destruct (guardian_control_action (Some c) a w) as [[r c2] w2] eqn:E. injection H as <- <-.
    apply action_spec in E as (c3 & -> & Hok3 & Hf3 & [Hp Hi3 Ho3 Hl Hs]); [|done..].
    split_and!; [done|done|]. split; cbn; [done|done|..].
    + intros H1. destruct (Hs H1) as [?|(-> & ?)]; [by left|by right].
    + intros H1 H2. destruct Hp as [Hp| ->]; [by rewrite Hp in H1|done].
    + intros Hc. destruct Hl as [?|(-> & _)]; [done|by destruct Hc].
Qed.

(** ** Runs *)

Lemma control_run_ok ops : forall (c : control_t) w c' w',
  control_ok c -> faithful c w -> Forall op_law ops -> control_run (c, w) ops = (c', w') ->
  control_ok c' /\ faithful c' w'.
Proof.
  induction ops as [|op ops IH]; intros c w c' w' Hok Hf Hlaw H.
  - by injection H as <- <-.
  - apply Forall_cons in Hlaw as [Hl Hlaw].
    change (control_run (control_step (c, w) op) ops = (c', w')) in H.
    destruct (control_step (c, w) op) as [c1 w1] eqn:E.
    apply control_step_ok in E as (Hok1 & Hf1 & _); [by eapply IH|done..].
Qed.

Definition fresh_control : control_t := CONTROL init_status (OUTPUT None None).

Lemma fresh_control_ok : control_ok fresh_control.
Proof.
  split; cbn; [split; [split|..]; cbn|..]; try done; by left.
Qed.

Lemma fresh_control_faithful w : faithful fresh_control w.
Proof. intros H. discriminate H. Qed.

Lemma control_reachable ops w (c : control_t) w' :
  Forall op_law ops -> control_run (fresh_control, w) ops = (c, w') ->
  control_ok c /\ faithful c w'.
Proof.
  intros Hlaw H. eapply control_run_ok; [apply fresh_control_ok|apply fresh_control_faithful|done..].
Qed.


(** ** Starting a machine whose conditions are met *)

(** An adapter that accepts every call. *)
Definition accepting (o : guardian_control_output_t C W) : Prop :=
  exists apply, out_apply o = Some apply /\
    forall permit w, fst (apply (out_context o) permit w) <> 0.

Lemma accepted_call (c : control_t) apply permit w :
  accepting (ct_output c) -> out_apply (ct_output c) = Some apply ->
  exists ok w', call_output apply c permit w = (ok, w') /\ (ok =? 0) = false.
Proof.
  intros (apply' & E & Hacc) E'. rewrite E in E'. injection E' as <-.
  unfold call_output. specialize (Hacc permit w).
  destruct (apply' (out_context (ct_output c)) permit w) as [ok w']. exists ok, w'.
  split; [done|]. by destruct (Z.eqb_spec ok 0).
Qed.

Lemma disarm_accepted (c : control_t) w :
  control_ok c -> faithful c w -> accepting (ct_output c) ->
  cs_supervision_enabled
    (ct_status (control_step (c, w) (OpAction GUARDIAN_CONTROL_ACTION_DISARM)).1) = 0.
Proof.
  intros Hok Hf Hacc. unfold control_step, guardian_control_action, action_disarm.
  rewrite Z.eqb_refl. destruct Hacc as (apply & E & Hacc). cbn [map_status ct_output].
  rewrite E. destruct (accepted_call (map_status (put_supervision 0) c) apply 0 w)
    as (ok & w' & -> & ->); [by exists apply|done|].
  unfold disarm_settle, map_status. cbn -[guardian_control_transition]. by transitions.
Qed.

Lemma clear_accepted (c : control_t) w :
  control_ok c -> accepting (ct_output c) ->
  cs_supervision_enabled (ct_status c) = 0 -> cs_local_run_request (ct_status c) = 0 ->
  cs_health_state (ct_status c) = GUARDIAN_HEALTH_STATE_READY ->
  cs_interlock_closed (ct_status c) = 1 ->
  cs_latched_faults
    (ct_status (control_step (c, w) (OpAction GUARDIAN_CONTROL_ACTION_CLEAR_FAULT)).1) = 0.
Proof.
  intros Hok Hacc Hs Hr Hh Hi. unfold control_step, guardian_control_action, action_clear_fault.
  cbn [Z.eqb]. rewrite Hs, Hr, Hh, Hi. rewrite bool_decide_true by done.
  destruct Hacc as (apply & E & Hacc). rewrite E.
  destruct (accepted_call c apply 0 w) as (ok & w' & E2 & Hne); [by exists apply|done|].
  cbn -[call_output guardian_control_transition map_status].
  rewrite E2, Hne. unfold map_status. cbn -[guardian_control_transition]. by transitions.
Qed.

Lemma arm_accepted (c : control_t) w :
  control_ok c -> accepting (ct_output c) -> cs_latched_faults (ct_status c) = 0 ->
  cs_local_run_request (ct_status c) = 0 ->
  cs_health_state (ct_status c) = GUARDIAN_HEALTH_STATE_READY ->
  cs_interlock_closed (ct_status c) = 1 ->
  cs_supervision_enabled
    (ct_status (control_step (c, w) (OpAction GUARDIAN_CONTROL_ACTION_ARM)).1) = 1.
Proof.
  intros Hok Hacc Hl Hr Hh Hi. unfold control_step, guardian_control_action, action_arm,
    guardian_control_apply_output.
  cbn [Z.eqb]. rewrite Hl, Hr, Hh, Hi. rewrite bool_decide_true by done.
  destruct Hacc as (apply & E & Hacc). rewrite E.
  destruct (accepted_call c apply 0 w) as (ok & w' & E2 & Hne); [by exists apply|done|].
  cbn -[call_output guardian_control_transition map_status bool_decide].
  rewrite E2, Hne, bool_decide_true by done.
  unfold map_status. cbn -[guardian_control_transition]. by transitions.
Qed.

Lemma run_accepted (c : control_t) w :
  control_ok c -> accepting (ct_output c) -> cs_supervision_enabled (ct_status c) = 1 ->
  cs_health_state (ct_status c) = GUARDIAN_HEALTH_STATE_READY ->
  cs_run_permit (ct_status (control_step (c, w) (OpRun 1)).1) = 1.
Proof.
  intros Hok Hacc Hs Hh. destruct (ok_pre _ _ Hok) as [_ _ _ Hl _].
  destruct (ok_permissive _ _ Hok Hs) as (Hi & Hav & _).
  assert (Hl0 : cs_latched_faults (ct_status c) = 0).
  { destruct (decide (cs_latched_faults (ct_status c) = 0)) as [|Hne]; [done|].
    apply Hl in Hne. lia. }
  unfold control_step, guardian_control_set_local_run_request, guardian_control_evaluate.
  destruct (active_fault_spec (map_status refresh_active (map_status (put_run_request 1) c))
              eq_refl) as (Hf1 & Hf2 & Hf3).
  cbn [negb Z.eqb]. rewrite Hf1, Hf2, Hf3. cbn. rewrite Hl0, Hs, Hi, Hh. cbn.
  unfold evaluate_permit, guardian_control_apply_output. cbn -[call_output].
  destruct Hacc as (apply & E & Hacc). rewrite E.
  destruct (accepted_call (map_status refresh_active (map_status (put_run_request 1) c)) apply 1 w)
    as (ok & w' & E2 & Hne); [by exists apply|done|].
  unfold map_status in *. cbn -[call_output guardian_control_transition bool_decide] in *.
  rewrite E2, Hne, bool_decide_true by done. cbn -[guardian_control_transition bool_decide].
  case_bool_decide; cbn -[guardian_control_transition bool_decide]; by transitions.
Qed.

(** The sequence an operator follows, whatever state the controller is in. *)
Definition restart_sequence (h : guardian_health_status_t) : list control_op :=
  [OpRun 0; OpHealth h; OpInterlock 1; OpAction GUARDIAN_CONTROL_ACTION_DISARM;
   OpAction GUARDIAN_CONTROL_ACTION_CLEAR_FAULT; OpAction GUARDIAN_CONTROL_ACTION_ARM; OpRun 1].

(** The facts about a state the steps of the sequence carry along. *)
Record startable (c : control_t) (w : W) : Prop := {
  startable_ok : control_ok c;
  startable_faithful : faithful c w;
  startable_accepting : accepting (ct_output c)
}.

Lemma startable_step (c : control_t) w op :
  startable c w -> op_law op -> (forall o, op <> OpConfigure o) ->
  let cw := control_step (c, w) op in
  startable cw.1 cw.2 /\ inputs (ct_status cw.1) = inputs (op_inputs op (ct_status c)) /\
  stepped op c cw.1.
Proof.
  intros [Hok Hf Hacc] Hlaw Hnc. destruct (control_step (c, w) op) as [c1 w1] eqn:E.
  apply control_step_ok in E as (Hok1 & Hf1 & Hst); [|done..]. cbn.
  split_and!; [split; [done|done|]|apply Hst|done].
  rewrite (stepped_output _ _ _ Hst). destruct op; try done. by destruct (Hnc output).
Qed.

Lemma restart_sequence_runs (c : control_t) w h :
  startable c w -> hs_state h = GUARDIAN_HEALTH_STATE_READY ->
  let cw := control_run (c, w) (restart_sequence h) in
  startable cw.1 cw.2 /\ cs_run_permit (ct_status cw.1) = 1 /\
  cs_health_state (ct_status cw.1) = GUARDIAN_HEALTH_STATE_READY.
Proof.
  intros H0 Hh. cbn [restart_sequence control_run foldl].
  assert (Hgo : forall c w op, startable c w -> op_law op -> (forall o, op <> OpConfigure o) ->
    exists c' w', control_step (c, w) op = (c', w') /\ startable c' w' /\
      inputs (ct_status c') = inputs (op_inputs op (ct_status c)) /\ stepped op c c').
  { intros c1 w1 op Hs Hl Hn. pose proof (startable_step c1 w1 op Hs Hl Hn) as (? & ? & ?).
    destruct (control_step (c1, w1) op) as [c2 w2]. by exists c2, w2. }
  destruct (Hgo c w (OpRun 0)) as (c1 & w1 & -> & H1 & I1 & _); [done..|].
  destruct (Hgo c1 w1 (OpHealth h)) as (c2 & w2 & -> & H2 & I2 & _); [done..|].
  destruct (Hgo c2 w2 (OpInterlock 1)) as (c3 & w3 & -> & H3 & I3 & _); [done..|].
  unfold inputs in I1, I2, I3. cbn in I1, I2, I3.
  injection I1 as R1 _ _ _ _. injection I2 as R2 _ S2 _ _. injection I3 as R3 L3 S3 _ _.
  rewrite S2, Hh in S3. rewrite R2, R1 in R3.
  pose proof (disarm_accepted c3 w3 (startable_ok _ _ H3) (startable_faithful _ _ H3)
                (startable_accepting _ _ H3)) as D4.
  destruct (Hgo c3 w3 (OpAction GUARDIAN_CONTROL_ACTION_DISARM)) as (c4 & w4 & E4 & H4 & I4 & _);
    [done..|]. rewrite E4 in *. unfold inputs in I4. injection I4 as R4 L4 S4 _ _.
  rewrite R3 in R4. rewrite L3 in L4. rewrite S3 in S4.
  pose proof (clear_accepted c4 w4 (startable_ok _ _ H4) (startable_accepting _ _ H4)
                D4 R4 S4 L4) as D5.
  destruct (Hgo c4 w4 (OpAction GUARDIAN_CONTROL_ACTION_CLEAR_FAULT)) as (c5 & w5 & E5 & H5 & I5 & _);
    [done..|]. rewrite E5 in *. unfold inputs in I5. injection I5 as R5 L5 S5 _ _.
  rewrite R4 in R5. rewrite L4 in L5. rewrite S4 in S5.
  pose proof (arm_accepted c5 w5 (startable_ok _ _ H5) (startable_accepting _ _ H5)
                D5 R5 S5 L5) as D6.
  destruct (Hgo c5 w5 (OpAction GUARDIAN_CONTROL_ACTION_ARM)) as (c6 & w6 & E6 & H6 & I6 & _);
    [done..|]. rewrite E6 in *. unfold inputs in I6. injection I6 as _ _ S6 _ _.
  rewrite S5 in S6.
  pose proof (run_accepted c6 w6 (startable_ok _ _ H6) (startable_accepting _ _ H6) D6 S6) as D7.
  destruct (Hgo c6 w6 (OpRun 1)) as (c7 & w7 & E7 & H7 & I7 & _); [done..|].
  rewrite E7 in *. unfold inputs in I7. injection I7 as _ _ S7 _ _. cbn in S7.
  split_and!; [done|done|]. cbn. by rewrite S7.
Qed.

End operations.

(** C19: however the application and the host drive the controller (any order of
    adapter configurations, local run requests, interlock changes, health reports
    and host actions, with any values and any answers of the adapters), the run
    permit is asserted only while supervision is armed without a latched fault, the
    interlock is closed, an output adapter is installed, the machine's health is
    READY or WARNING and the local run request is present; the output then really is
    energized, and it is de-energized whenever the permit is withdrawn and no output
    failure is latched.  The published state is the one these conditions determine. *)
Theorem run_permit_safe {C W} (driven : W -> Z) (ops : list (@control_op C W)) w0 c w
    (Hlaw : Forall (op_law driven) ops)
    (Hrun : control_run (fresh_control, w0) ops = (c, w)) :
  let s := ct_status c in
  cs_state s = control_mode s /\
  (cs_run_permit s = 0 \/ cs_run_permit s = 1) /\
  (cs_run_permit s = 1 ->
     cs_supervision_enabled s = 1 /\ cs_latched_faults s = 0 /\ permissive s /\
     cs_local_run_request s = 1 /\ driven w = 1) /\
  (cs_output_available s = 1 ->
     Z.land (cs_latched_faults s) GUARDIAN_CONTROL_FAULT_OUTPUT_FAILURE = 0 ->
     driven w = cs_run_permit s).
Proof.
  destruct (control_reachable driven ops w0 c w Hlaw Hrun) as [Hok Hf].
  destruct (ok_pre _ _ Hok) as [_ _ Hp Hl _]. cbn zeta. split_and!.
  - apply Hok.
  - tauto.
  - intros Hp1. assert (Hs : cs_supervision_enabled (ct_status c) = 1).
    { destruct Hp as [Hp|[_ ?]]; [lia|done]. }
    pose proof (ok_permissive _ _ Hok Hs) as Hperm.
    assert (Hl0 : cs_latched_faults (ct_status c) = 0).
    { destruct (decide (cs_latched_faults (ct_status c) = 0)) as [|Hne]; [done|].
      apply Hl in Hne. lia. }
    split_and!; [done..|by apply (ok_run _ _ Hok)|].
    rewrite <- Hp1. apply Hf; [apply Hperm|by rewrite Hl0].
  - exact Hf.
Qed.

(** C20: supervision and motion take two different keys.  In any reachable state, the
    permit is raised only by a local call (run request, interlock, health report),
    never by a host action or by installing an adapter, and only when supervision was
    armed before; supervision is armed only by the host's ARM, with no latched fault,
    READY health, a closed interlock and no local run request present. *)
Theorem start_takes_two_keys {C W} (driven : W -> Z) (ops : list (@control_op C W)) op w0 c w c' w'
    (Hlaw : Forall (op_law driven) (ops ++ [op]))
    (Hrun : control_run (fresh_control, w0) ops = (c, w))
    (Hstep : control_step (c, w) op = (c', w')) :
  (cs_run_permit (ct_status c) <> 1 -> cs_run_permit (ct_status c') = 1 ->
     cs_supervision_enabled (ct_status c) = 1 /\
     match op with OpRun _ | OpInterlock _ | OpHealth _ => True | _ => False end) /\
  (cs_supervision_enabled (ct_status c) <> 1 -> cs_supervision_enabled (ct_status c') = 1 ->
     op = OpAction GUARDIAN_CONTROL_ACTION_ARM /\ cs_latched_faults (ct_status c) = 0 /\
     cs_local_run_request (ct_status c) = 0 /\ cs_interlock_closed (ct_status c) = 1 /\
     cs_health_state (ct_status c) = GUARDIAN_HEALTH_STATE_READY /\
     cs_run_permit (ct_status c') = 0).
Proof.
  apply Forall_app in Hlaw as [Hlaw Hop]. apply Forall_cons in Hop as [Hop _].
  destruct (control_reachable driven ops w0 c w Hlaw Hrun) as [Hok Hf].
  apply (control_step_ok driven c w op c' w' Hok Hf Hop) in Hstep as (Hok' & Hf' & [Hi _ Hs Hp _]).
  destruct (ok_pre _ _ Hok') as [_ _ Hp' _ _]. split.
  - intros H0 H1. pose proof (Hp H1 H0) as Hm. split; [|done].
    assert (Hs1 : cs_supervision_enabled (ct_status c') = 1).
    { destruct Hp' as [?|[_ ?]]; [lia|done]. }
    destruct (Hs Hs1) as [?|(-> & _)]; [done|done].
  - intros H0 H1. destruct (Hs H1) as [?|(-> & Hl & Hr & ? & ?)]; [done|].
    split_and!; try done. unfold inputs in Hi. injection Hi as Hri _ _ _ _. cbn in Hri.
    destruct Hp' as [?|[Hp1 _]]; [done|]. apply (ok_run _ _ Hok') in Hp1. lia.
Qed.


(** the controller never wedges.  From every reachable state with an installed
    adapter that accepts its calls, withdrawing the run request, reporting READY
    health, closing the interlock, disarming, clearing the fault, arming and requesting
    to run brings the machine to ACTIVE with the permit asserted and the output
    energized. *)
Theorem control_restarts {C W} (driven : W -> Z) (ops : list (@control_op C W)) w0 c w h
    (Hlaw : Forall (op_law driven) ops)
    (Hrun : control_run (fresh_control, w0) ops = (c, w))
    (Haccept : accepting (ct_output c))
    (Hready : hs_state h = GUARDIAN_HEALTH_STATE_READY) :
  let cw := control_run (c, w) (restart_sequence h) in
  cs_state (ct_status cw.1) = GUARDIAN_CONTROL_STATE_ACTIVE /\
  cs_run_permit (ct_status cw.1) = 1 /\ driven cw.2 = 1.
Proof.
  destruct (control_reachable driven ops w0 c w Hlaw Hrun) as [Hok Hf].
  destruct (restart_sequence_runs driven c w h) as ([Hok' Hf' _] & Hp & Hh); [done|done|].
  cbn zeta in *. destruct (control_run (c, w) (restart_sequence h)) as [c' w']. cbn [fst snd] in *.
  destruct (ok_pre _ _ Hok') as [_ _ [Hp0|[_ Hs]] Hl _]; [lia|].
  destruct (ok_permissive _ _ Hok' Hs) as (_ & Hav & _).
  pose proof (ok_run _ _ Hok' Hp) as Hr.
  assert (Hl0 : cs_latched_faults (ct_status c') = 0).
  { destruct (decide (cs_latched_faults (ct_status c') = 0)) as [|Hne]; [done|].
    apply Hl in Hne. lia. }
  split_and!; [|done|by rewrite <- Hp; apply Hf'; [|rewrite Hl0]].
  rewrite (ok_mode _ _ Hok'). unfold control_mode. by rewrite Hl0, Hs, Hr, Hh.
Qed.

(** ** Witnesses: a board whose output is the state of the world *)

Definition example_output : guardian_control_output_t unit Z :=
  OUTPUT (Some (fun _ permit _ => (1, permit))) (Some tt).

Definition example_health (st : guardian_health_state_t) : guardian_health_status_t :=
  HEALTH_STATUS st 64 64 0 1000 0 255 0 8 1 100 1400 4000 100 5 0 0.

Definition example_start : list (@control_op unit Z) :=
  [OpConfigure example_output; OpHealth (example_health GUARDIAN_HEALTH_STATE_READY);
   OpInterlock 1; OpAction GUARDIAN_CONTROL_ACTION_ARM].

Definition example_trip : list (@control_op unit Z) := example_start ++ [OpRun 1; OpInterlock 0].

Lemma example_output_law : output_law (fun w => w) example_output.
Proof. intros apply [= <-] permit w ok w' [= <- <-] _. done. Qed.

Lemma example_run_law : Forall (op_law (fun w => w)) (example_start ++ [OpRun 1]).
Proof. repeat constructor. apply example_output_law. Qed.

Lemma run_permit_safe_witness :
  (control_run (fresh_control, 0) (example_start ++ [OpRun 1])).2 = 1.
Proof.
  destruct (run_permit_safe (fun w => w) (example_start ++ [OpRun 1]) 0 _ _
              example_run_law
              (surjective_pairing _)) as (_ & _ & H & _).
  apply H. vm_compute. reflexivity.
Defined.

Lemma start_takes_two_keys_witness :
  cs_supervision_enabled
    (ct_status (control_run (fresh_control, 0) example_start).1) = 1.
Proof.
  destruct (start_takes_two_keys (fun w => w) example_start (OpRun 1) 0 _ _ _ _ example_run_law
              (surjective_pairing _) (surjective_pairing _)) as [H _].
  apply H; vm_compute; first [reflexivity|discriminate].
Defined.


Lemma control_restarts_witness :
  (control_run (control_run (fresh_control, 0) example_trip)
     (restart_sequence (example_health GUARDIAN_HEALTH_STATE_READY))).2 = 1.
Proof.
  destruct (control_restarts (fun w => w) example_trip 0
    (control_run (fresh_control, 0) example_trip).1 (control_run (fresh_control, 0) example_trip).2
    (example_health GUARDIAN_HEALTH_STATE_READY)) as (_ & _ & H).
  - repeat first [constructor|apply example_output_law].
  - vm_compute. reflexivity.
  - exists (fun _ permit _ => (1, permit)). split; [vm_compute; reflexivity|]. intros; cbn. lia.
  - reflexivity.
  - cbv zeta in H. rewrite <- surjective_pairing in H. exact H.
Defined.
