(* ===== verification/EmbeddedLink.v ===== *)
(** * The communication middleware

    Model of [firmware/Platform/Src/guardian_embedded_link.c]: the device's main
    loop body.  Bytes of the transport go through the stream parser; each frame is
    dispatched to the handler of its command, the privileged ones through the
    authenticated session; the reply is encoded and queued; a due telemetry frame
    follows.

    The transport callbacks, the random source, the firmware storage and the
    run-permit output are parameters; they act on a world [W]. *)

From S2P Require Import Prelude Crypto Crc32 Protocol Parser Security Lifecycle Frames.
From S2P Require Import DeviceService Telemetry Acquisition Float32 Dsp Health Control.

Definition GUARDIAN_EMBEDDED_DEFAULT_RX_BUDGET : nat := 64.

(** ** Data *)

(** [read_byte(context, &byte)]: the result and the byte variable afterwards. *)
Definition guardian_embedded_read_byte_fn (C W : Type) : Type :=
  option C -> Z -> W -> Z * Z * W.
(** [write(context, data, length)]: the number of bytes accepted. *)
Definition guardian_embedded_write_fn (C W : Type) : Type :=
  option C -> list Z -> nat -> W -> nat * W.
Definition guardian_embedded_uptime_fn (C W : Type) : Type := option C -> W -> Z * W.

Record guardian_embedded_io_t (C W : Type) := IO {
  io_read_byte : option (guardian_embedded_read_byte_fn C W);
  io_write : option (guardian_embedded_write_fn C W);
  io_uptime_seconds : option (guardian_embedded_uptime_fn C W);
  io_context : option C
}.
Arguments IO {C W}.
Arguments io_read_byte {C W}.
Arguments io_write {C W}.
Arguments io_uptime_seconds {C W}.
Arguments io_context {C W}.

Record guardian_embedded_link_stats_t := LINK_STATS {
  ls_rx_frames : Z;
  ls_tx_frames : Z;
  ls_protocol_errors : Z;
  ls_tx_queue_failures : Z;
  ls_last_error : Z
}.

Record guardian_embedded_link_t (C W : Type) := LINK {
  lk_parser : guardian_parser_t;
  lk_service : guardian_device_service_t;
  lk_telemetry : guardian_telemetry_t;
  lk_dsp_features : guardian_dsp_features_t;
  lk_dsp_features_valid : Z;
  lk_health : guardian_health_t;
  lk_control : guardian_control_t C W;
  lk_security : guardian_security_t C W;
  lk_firmware : guardian_firmware_lifecycle_t C W;
  lk_security_required : Z;
  lk_io : guardian_embedded_io_t C W;
  lk_state : guardian_device_state_t;
  lk_stats : guardian_embedded_link_stats_t
}.
Arguments LINK {C W}.
Arguments lk_parser {C W}.
Arguments lk_service {C W}.
Arguments lk_telemetry {C W}.
Arguments lk_dsp_features {C W}.
Arguments lk_dsp_features_valid {C W}.
Arguments lk_health {C W}.
Arguments lk_control {C W}.
Arguments lk_security {C W}.
Arguments lk_firmware {C W}.
Arguments lk_security_required {C W}.
Arguments lk_io {C W}.
Arguments lk_state {C W}.
Arguments lk_stats {C W}.

Definition guardian_embedded_increment_u32 (value : Z) : Z :=
  if negb (value =? UINT32_MAX) then u32 (value + 1) else value.

(** ** Diagnostics stores *)

Local Abbreviation stats_t := guardian_embedded_link_stats_t.

Definition count_rx (s : stats_t) : stats_t :=
  LINK_STATS (guardian_embedded_increment_u32 (ls_rx_frames s)) (ls_tx_frames s)
    (ls_protocol_errors s) (ls_tx_queue_failures s) (ls_last_error s).
Definition count_tx (s : stats_t) : stats_t :=
  LINK_STATS (ls_rx_frames s) (guardian_embedded_increment_u32 (ls_tx_frames s))
    (ls_protocol_errors s) (ls_tx_queue_failures s) (ls_last_error s).
Definition count_error (s : stats_t) : stats_t :=
  LINK_STATS (ls_rx_frames s) (ls_tx_frames s)
    (guardian_embedded_increment_u32 (ls_protocol_errors s)) (ls_tx_queue_failures s)
    (ls_last_error s).
Definition count_queue_failure (s : stats_t) : stats_t :=
  LINK_STATS (ls_rx_frames s) (ls_tx_frames s) (ls_protocol_errors s)
    (guardian_embedded_increment_u32 (ls_tx_queue_failures s)) (ls_last_error s).
Definition store_last_error (e : Z) (s : stats_t) : stats_t :=
  LINK_STATS (ls_rx_frames s) (ls_tx_frames s) (ls_protocol_errors s) (ls_tx_queue_failures s) e.

Section link.
Context {C W : Type}.
Local Abbreviation link_t := (guardian_embedded_link_t C W).
Local Abbreviation result_t := guardian_protocol_result_t.

(** ** Member stores *)

Definition link_parser (v : guardian_parser_t) (l : link_t) : link_t :=
  LINK v (lk_service l) (lk_telemetry l) (lk_dsp_features l) (lk_dsp_features_valid l)
    (lk_health l) (lk_control l) (lk_security l) (lk_firmware l) (lk_security_required l)
    (lk_io l) (lk_state l) (lk_stats l).
Definition link_telemetry (v : guardian_telemetry_t) (l : link_t) : link_t :=
  LINK (lk_parser l) (lk_service l) v (lk_dsp_features l) (lk_dsp_features_valid l)
    (lk_health l) (lk_control l) (lk_security l) (lk_firmware l) (lk_security_required l)
    (lk_io l) (lk_state l) (lk_stats l).
Definition link_dsp (v : guardian_dsp_features_t) (valid : Z) (l : link_t) : link_t :=
  LINK (lk_parser l) (lk_service l) (lk_telemetry l) v valid
    (lk_health l) (lk_control l) (lk_security l) (lk_firmware l) (lk_security_required l)
    (lk_io l) (lk_state l) (lk_stats l).
Definition link_health (v : guardian_health_t) (l : link_t) : link_t :=
  LINK (lk_parser l) (lk_service l) (lk_telemetry l) (lk_dsp_features l) (lk_dsp_features_valid l)
    v (lk_control l) (lk_security l) (lk_firmware l) (lk_security_required l)
    (lk_io l) (lk_state l) (lk_stats l).
Definition link_control (v : guardian_control_t C W) (l : link_t) : link_t :=
  LINK (lk_parser l) (lk_service l) (lk_telemetry l) (lk_dsp_features l) (lk_dsp_features_valid l)
    (lk_health l) v (lk_security l) (lk_firmware l) (lk_security_required l)
    (lk_io l) (lk_state l) (lk_stats l).
Definition link_security (v : guardian_security_t C W) (l : link_t) : link_t :=
  LINK (lk_parser l) (lk_service l) (lk_telemetry l) (lk_dsp_features l) (lk_dsp_features_valid l)
    (lk_health l) (lk_control l) v (lk_firmware l) (lk_security_required l)
    (lk_io l) (lk_state l) (lk_stats l).
Definition link_firmware (v : guardian_firmware_lifecycle_t C W) (l : link_t) : link_t :=
  LINK (lk_parser l) (lk_service l) (lk_telemetry l) (lk_dsp_features l) (lk_dsp_features_valid l)
    (lk_health l) (lk_control l) (lk_security l) v (lk_security_required l)
    (lk_io l) (lk_state l) (lk_stats l).
Definition link_required (v : Z) (l : link_t) : link_t :=
  LINK (lk_parser l) (lk_service l) (lk_telemetry l) (lk_dsp_features l) (lk_dsp_features_valid l)
    (lk_health l) (lk_control l) (lk_security l) (lk_firmware l) v
    (lk_io l) (lk_state l) (lk_stats l).
Definition link_state (v : guardian_device_state_t) (l : link_t) : link_t :=
  LINK (lk_parser l) (lk_service l) (lk_telemetry l) (lk_dsp_features l) (lk_dsp_features_valid l)
    (lk_health l) (lk_control l) (lk_security l) (lk_firmware l) (lk_security_required l)
    (lk_io l) v (lk_stats l).
Definition link_stats (f : stats_t -> stats_t) (l : link_t) : link_t :=
  LINK (lk_parser l) (lk_service l) (lk_telemetry l) (lk_dsp_features l) (lk_dsp_features_valid l)
    (lk_health l) (lk_control l) (lk_security l) (lk_firmware l) (lk_security_required l)
    (lk_io l) (lk_state l) (f (lk_stats l)).

(** ** The device state *)

Definition guardian_embedded_control_device_state (status : guardian_control_status_t)
  : guardian_device_state_t :=
  match cs_state status with
  | GUARDIAN_CONTROL_STATE_ACTIVE => GUARDIAN_DEVICE_STATE_RUNNING
  | GUARDIAN_CONTROL_STATE_DEGRADED => GUARDIAN_DEVICE_STATE_DEGRADED
  | GUARDIAN_CONTROL_STATE_FAULT_LATCHED => GUARDIAN_DEVICE_STATE_FAULT
  | _ => GUARDIAN_DEVICE_STATE_IDLE
  end.

Definition guardian_embedded_sync_control_state (l : link_t) : link_t :=
  let status := guardian_control_status (Some (lk_control l)) in
  early (cs_supervision_enabled status =? 0)
        && negb (bool_decide (cs_state status = GUARDIAN_CONTROL_STATE_FAULT_LATCHED)) with l ;;
  link_state (guardian_embedded_control_device_state status) l.

Definition guardian_embedded_update_control_health (l : link_t) (w : W) : link_t * W :=
  let health := guardian_health_status (Some (lk_health l)) in
  let '(control, w) := guardian_control_update_health (Some (lk_control l)) (Some health) w in
  let l := link_control (default (lk_control l) control) l in
  (guardian_embedded_sync_control_state l, w).

(** [link->io.uptime_seconds(link->io.context)]; [init] refuses a missing callback. *)
Definition call_uptime (l : link_t) (w : W) : Z * W :=
  match io_uptime_seconds (lk_io l) with
  | Some uptime => uptime (io_context (lk_io l)) w
  | None => (0, w)
  end.

Definition guardian_embedded_runtime (l : link_t) (w : W) : guardian_device_runtime_t * W :=
  let '(uptime, w) := call_uptime l w in
  let s := lk_stats l in
  (RUNTIME (lk_state l) uptime (ls_rx_frames s) (ls_tx_frames s) (ls_protocol_errors s)
     (ls_last_error s), w).

(** ** Transmission *)

Definition guardian_embedded_record_response_error (l : link_t) (response : guardian_frame_t)
  : link_t :=
  early negb (frame_message_type response =? GUARDIAN_MESSAGE_ERROR) with l ;;
  let l := link_stats count_error l in
  if frame_payload_length response =? 1
  then link_stats (store_last_error (byte_at (frame_payload response) 0)) l
  else l.

Definition guardian_embedded_transmit (l : link_t) (frame : guardian_frame_t) (w : W)
  : link_t * W :=
  let '(result, encoded, encoded_size) :=
    guardian_protocol_encode (Some frame) (Some (replicate GUARDIAN_MAX_FRAME_SIZE 0))
      GUARDIAN_MAX_FRAME_SIZE (Some 0%nat) in
  early negb (bool_decide (result = GUARDIAN_PROTOCOL_OK))
    with (link_stats (store_last_error GUARDIAN_ERROR_INTERNAL) (link_stats count_error l), w) ;;
  let encoded_size := default 0%nat encoded_size in
  let '(written, w) :=
    match io_write (lk_io l) with
    | Some write =>
        write (io_context (lk_io l)) (take encoded_size (default [] encoded)) encoded_size w
    | None => (0%nat, w)
    end in
  early negb (written =? encoded_size)%nat
    with (link_stats (store_last_error GUARDIAN_ERROR_BUSY)
            (link_stats count_error (link_stats count_queue_failure l)), w) ;;
  (link_stats count_tx l, w).

(** ** Replies of the middleware *)

Definition guardian_embedded_make_response (request : guardian_frame_t) : guardian_frame_t :=
  reply_response request 0 (frame_payload Frames.zero_frame).

Definition guardian_embedded_make_error (request : guardian_frame_t) (error : Z)
  : guardian_frame_t :=
  reply_error request Frames.zero_frame error.

Definition guardian_embedded_security_error (result : guardian_security_result_t) : Z :=
  early bool_decide (result = GUARDIAN_SECURITY_ERROR_REPLAY)
    with GUARDIAN_ERROR_REPLAY_DETECTED ;;
  early bool_decide (result = GUARDIAN_SECURITY_ERROR_UNAUTHORIZED)
    with GUARDIAN_ERROR_UNAUTHORIZED ;;
  early bool_decide (result = GUARDIAN_SECURITY_ERROR_INVALID_PAYLOAD)
    with GUARDIAN_ERROR_INVALID_PAYLOAD ;;
  GUARDIAN_ERROR_INTERNAL.

Definition guardian_embedded_firmware_error (result : guardian_firmware_result_t) : Z :=
  match result with
  | GUARDIAN_FIRMWARE_ERROR_ROLLBACK_BLOCKED => GUARDIAN_ERROR_ROLLBACK_BLOCKED
  | GUARDIAN_FIRMWARE_ERROR_SIGNATURE_INVALID => GUARDIAN_ERROR_SIGNATURE_INVALID
  | GUARDIAN_FIRMWARE_ERROR_INVALID_PAYLOAD
  | GUARDIAN_FIRMWARE_ERROR_OUT_OF_ORDER => GUARDIAN_ERROR_INVALID_PAYLOAD
  | GUARDIAN_FIRMWARE_ERROR_INVALID_STATE => GUARDIAN_ERROR_BUSY
  | GUARDIAN_FIRMWARE_ERROR_UNCONFIGURED | GUARDIAN_FIRMWARE_ERROR_STORAGE
  | GUARDIAN_FIRMWARE_ERROR_HASH_MISMATCH | GUARDIAN_FIRMWARE_ERROR_ACTIVATION
  | GUARDIAN_FIRMWARE_ERROR_CONFIRMATION => GUARDIAN_ERROR_UPDATE_FAILED
  | _ => GUARDIAN_ERROR_INTERNAL
  end.

(** ** Privileged commands *)

(** The end of each firmware branch: the reply to the lifecycle's result. *)
Definition firmware_reply (result : guardian_firmware_result_t) (request : guardian_frame_t)
  : guardian_frame_t :=
  if negb (bool_decide (result = GUARDIAN_FIRMWARE_OK))
  then guardian_embedded_make_error request (guardian_embedded_firmware_error result)
  else guardian_embedded_make_response request.

Definition dispatch_firmware_begin (l : link_t) (request : guardian_frame_t) (w : W)
  : guardian_firmware_result_t * link_t * W :=
  let '(result, manifest) :=
    guardian_firmware_decode_manifest (Some (frame_payload request))
      (frame_payload_length request) (Some zero_manifest) in
  early negb (bool_decide (result = GUARDIAN_FIRMWARE_OK)) with (result, l, w) ;;
  let '(result, firmware, w) := guardian_firmware_begin (Some (lk_firmware l)) manifest w in
  (result, link_firmware (default (lk_firmware l) firmware) l, w).

Definition dispatch_firmware_chunk (l : link_t) (request : guardian_frame_t) (w : W)
  : guardian_firmware_result_t * link_t * W :=
  let '(result, chunk) :=
    guardian_firmware_decode_chunk (Some (frame_payload request))
      (frame_payload_length request) (Some zero_chunk) in
  early negb (bool_decide (result = GUARDIAN_FIRMWARE_OK)) with (result, l, w) ;;
  let '(result, firmware, w) := guardian_firmware_write_chunk (Some (lk_firmware l)) chunk w in
  (result, link_firmware (default (lk_firmware l) firmware) l, w).

Definition dispatch_firmware_finalize (l : link_t) (request : guardian_frame_t) (w : W)
  : guardian_firmware_result_t * link_t * W :=
  let result :=
    guardian_firmware_decode_action (Some (frame_payload request))
      (frame_payload_length request) in
  early negb (bool_decide (result = GUARDIAN_FIRMWARE_OK)) with (result, l, w) ;;
  let '(result, firmware, w) := guardian_firmware_finalize (Some (lk_firmware l)) w in
  (result, link_firmware (default (lk_firmware l) firmware) l, w).

Definition dispatch_firmware_activate (l : link_t) (request : guardian_frame_t) (w : W)
  : guardian_firmware_result_t * link_t * W :=
  let result :=
    guardian_firmware_decode_action (Some (frame_payload request))
      (frame_payload_length request) in
  early negb (bool_decide (result = GUARDIAN_FIRMWARE_OK)) with (result, l, w) ;;
  let '(result, firmware, w) := guardian_firmware_activate (Some (lk_firmware l)) w in
  (result, link_firmware (default (lk_firmware l) firmware) l, w).

Definition guardian_embedded_dispatch_privileged (l : link_t) (request response : guardian_frame_t)
    (w : W) : result_t * link_t * guardian_frame_t * W :=
  let firmware step :=
    let '(result, l, w) := step l request w in
    (GUARDIAN_PROTOCOL_OK, l, firmware_reply result request, w) in
  if frame_command request =? GUARDIAN_COMMAND_BASELINE_CONTROL then
    let '(result, health, response') :=
      guardian_health_handle_request (Some (lk_health l)) (Some request) (Some response) in
    let l := link_health (default (lk_health l) health) l in
    let response := default response response' in
    if bool_decide (result = GUARDIAN_PROTOCOL_OK)
       && (frame_message_type response =? GUARDIAN_MESSAGE_RESPONSE)
    then let '(l, w) := guardian_embedded_update_control_health l w in (result, l, response, w)
    else (result, l, response, w)
  else if frame_command request =? GUARDIAN_COMMAND_CONTROL_COMMAND then
    let '(result, control, response', w) :=
      guardian_control_handle_request (Some (lk_control l)) (Some request) (Some response) w in
    let l := link_control (default (lk_control l) control) l in
    (result, guardian_embedded_sync_control_state l, default response response', w)
  else if frame_command request =? GUARDIAN_COMMAND_FIRMWARE_BEGIN
  then firmware dispatch_firmware_begin
  else if frame_command request =? GUARDIAN_COMMAND_FIRMWARE_CHUNK
  then firmware dispatch_firmware_chunk
  else if frame_command request =? GUARDIAN_COMMAND_FIRMWARE_FINALIZE
  then firmware dispatch_firmware_finalize
  else if frame_command request =? GUARDIAN_COMMAND_FIRMWARE_ACTIVATE
  then firmware dispatch_firmware_activate
  else (GUARDIAN_PROTOCOL_OK, l,
        guardian_embedded_make_error request GUARDIAN_ERROR_UNKNOWN_COMMAND, w).

(** ** Dispatch of one request

    The branches of the poll loop that answer a request.  [output] is the frame
    object the loop reuses and [protocol] its result variable, which only some
    branches assign. *)

Definition security_reply (result : guardian_security_result_t) (request : guardian_frame_t)
    (output : guardian_frame_t) : guardian_frame_t :=
  if negb (bool_decide (result = GUARDIAN_SECURITY_OK))
  then guardian_embedded_make_error request (guardian_embedded_security_error result)
  else output.

Definition dispatch_auth_begin (l : link_t) (request : guardian_frame_t) (now_seconds : Z) (w : W)
  : link_t * guardian_frame_t * W :=
  let output := guardian_embedded_make_response request in
  let '(result, security, payload, payload_length, w) :=
    guardian_security_auth_begin (Some (lk_security l)) (Some (frame_payload request))
      (frame_payload_length request) now_seconds (Some (frame_payload output))
      (Z.of_nat GUARDIAN_MAX_PAYLOAD_SIZE) (Some (frame_payload_length output)) w in
  (link_security (default (lk_security l) security) l,
   security_reply result request
     (reply_response request (default 0 payload_length) (default [] payload)), w).

Definition dispatch_auth_finish (l : link_t) (request : guardian_frame_t) (now_seconds : Z)
  : link_t * guardian_frame_t :=
  let output := guardian_embedded_make_response request in
  let '(result, security, payload, payload_length) :=
    guardian_security_auth_finish (Some (lk_security l)) (Some (frame_payload request))
      (frame_payload_length request) now_seconds (Some (frame_payload output))
      (Z.of_nat GUARDIAN_MAX_PAYLOAD_SIZE) (Some (frame_payload_length output)) in
  (link_security (default (lk_security l) security) l,
   security_reply result request
     (reply_response request (default 0 payload_length) (default [] payload))).

Definition dispatch_security_status (l : link_t) (request : guardian_frame_t) (now_seconds : Z)
  : link_t * guardian_frame_t :=
  early negb (frame_payload_length request =? 0)
    with (l, guardian_embedded_make_error request GUARDIAN_ERROR_INVALID_PAYLOAD) ;;
  let '(status, security) := guardian_security_status (Some (lk_security l)) now_seconds in
  let l := link_security (default (lk_security l) security) l in
  let output := guardian_embedded_make_response request in
  let '(result, payload, payload_length) :=
    guardian_security_encode_status_payload (Some status) (Some (frame_payload output))
      (Z.of_nat GUARDIAN_MAX_PAYLOAD_SIZE) (Some (frame_payload_length output)) in
  (l, if negb (bool_decide (result = GUARDIAN_SECURITY_OK))
      then guardian_embedded_make_error request GUARDIAN_ERROR_INTERNAL
      else reply_response request (default 0 payload_length) (default [] payload)).

Definition dispatch_firmware_status (l : link_t) (request : guardian_frame_t)
  : guardian_frame_t :=
  early negb (frame_payload_length request =? 0)
    with guardian_embedded_make_error request GUARDIAN_ERROR_INVALID_PAYLOAD ;;
  let status := guardian_firmware_status (Some (lk_firmware l)) in
  let output := guardian_embedded_make_response request in
  let '(result, payload, payload_length) :=
    guardian_firmware_encode_status_payload (Some status) (Some (frame_payload output))
      (Z.of_nat GUARDIAN_MAX_PAYLOAD_SIZE) (Some (frame_payload_length output)) in
  if negb (bool_decide (result = GUARDIAN_FIRMWARE_OK))
  then guardian_embedded_make_error request GUARDIAN_ERROR_INTERNAL
  else reply_response request (default 0 payload_length) (default [] payload).

Definition dispatch_secure (l : link_t) (request output : guardian_frame_t) (protocol : result_t)
    (now_seconds : Z) (w : W) : result_t * link_t * guardian_frame_t * W :=
  let '(result, security, inner_request, secure_counter) :=
    guardian_security_unwrap_request (Some (lk_security l)) (Some request) now_seconds
      (Some Frames.zero_frame) (Some 0) in
  let l := link_security (default (lk_security l) security) l in
  early negb (bool_decide (result = GUARDIAN_SECURITY_OK))
    with (protocol, l,
          guardian_embedded_make_error request (guardian_embedded_security_error result), w) ;;
  let inner_request := default Frames.zero_frame inner_request in
  let '(granted, security) :=
    guardian_security_authorize (Some (lk_security l)) (frame_command inner_request) in
  let l := link_security (default (lk_security l) security) l in
  let '(protocol, l, inner_response, w) :=
    if negb granted
    then (protocol, l, guardian_embedded_make_error inner_request GUARDIAN_ERROR_UNAUTHORIZED, w)
    else guardian_embedded_dispatch_privileged l inner_request Frames.zero_frame w in
  early negb (bool_decide (protocol = GUARDIAN_PROTOCOL_OK)) with (protocol, l, output, w) ;;
  let '(result, wrapped) :=
    guardian_security_wrap_response (Some (lk_security l)) (Some request)
      (default 0 secure_counter) (Some inner_response) (Some output) in
  (protocol, l, security_reply result request (default output wrapped), w).

(** The commands refused outside a session when security is required. *)
Definition privileged_command (command : Z) : bool :=
  (command =? GUARDIAN_COMMAND_BASELINE_CONTROL) || (command =? GUARDIAN_COMMAND_CONTROL_COMMAND)
  || (command =? GUARDIAN_COMMAND_FIRMWARE_BEGIN) || (command =? GUARDIAN_COMMAND_FIRMWARE_CHUNK)
  || (command =? GUARDIAN_COMMAND_FIRMWARE_FINALIZE)
  || (command =? GUARDIAN_COMMAND_FIRMWARE_ACTIVATE).

Definition dispatch_request (l : link_t) (request output : guardian_frame_t) (protocol : result_t)
    (now_seconds : Z) (w : W) : result_t * link_t * guardian_frame_t * W :=
  let command := frame_command request in
  if command =? GUARDIAN_COMMAND_AUTH_BEGIN then
    let '(l, output, w) := dispatch_auth_begin l request now_seconds w in (protocol, l, output, w)
  else if command =? GUARDIAN_COMMAND_AUTH_FINISH then
    let '(l, output) := dispatch_auth_finish l request now_seconds in (protocol, l, output, w)
  else if command =? GUARDIAN_COMMAND_GET_SECURITY_STATUS then
    let '(l, output) := dispatch_security_status l request now_seconds in (protocol, l, output, w)
  else if command =? GUARDIAN_COMMAND_GET_FIRMWARE_STATUS then
    (protocol, l, dispatch_firmware_status l request, w)
  else if command =? GUARDIAN_COMMAND_SECURE_COMMAND then
    dispatch_secure l request output protocol now_seconds w
  else if negb (lk_security_required l =? 0) && privileged_command command then
    (protocol, l, guardian_embedded_make_error request GUARDIAN_ERROR_UNAUTHORIZED, w)
  else if command =? GUARDIAN_COMMAND_SET_TELEMETRY then
    let '(protocol, telemetry, output') :=
      guardian_telemetry_handle_request (Some (lk_telemetry l)) (Some request) (Some output) in
    (protocol, link_telemetry (default (lk_telemetry l) telemetry) l, default output output', w)
  else if command =? GUARDIAN_COMMAND_GET_DSP_FEATURES then
    let '(protocol, output') :=
      guardian_dsp_handle_request (Some (lk_dsp_features l)) (lk_dsp_features_valid l)
        (Some request) (Some output) in
    (protocol, l, default output output', w)
  else if command =? GUARDIAN_COMMAND_GET_HEALTH_STATUS then
    let '(protocol, health, output') :=
      guardian_health_handle_request (Some (lk_health l)) (Some request) (Some output) in
    (protocol, link_health (default (lk_health l) health) l, default output output', w)
  else if command =? GUARDIAN_COMMAND_BASELINE_CONTROL then
    guardian_embedded_dispatch_privileged l request output w
  else if command =? GUARDIAN_COMMAND_GET_CONTROL_STATUS then
    let '(protocol, control, output', w) :=
      guardian_control_handle_request (Some (lk_control l)) (Some request) (Some output) w in
    (protocol,
     guardian_embedded_sync_control_state (link_control (default (lk_control l) control) l),
     default output output', w)
  else if command =? GUARDIAN_COMMAND_CONTROL_COMMAND then
    guardian_embedded_dispatch_privileged l request output w
  else
    let '(runtime, w) := guardian_embedded_runtime l w in
    let '(protocol, output') :=
      guardian_device_service_handle (Some (lk_service l)) (Some runtime) (Some request)
        (Some output) in
    (protocol, l, default output output', w).

(** ** Polling *)

(** The variables of the loop: the byte, the request and output frames, and the
    result of the last handler. *)
Record poll_t := POLL {
  po_byte : Z;
  po_request : guardian_frame_t;
  po_output : guardian_frame_t;
  po_protocol : result_t
}.

Definition poll_start : poll_t :=
  POLL 0 Frames.zero_frame Frames.zero_frame GUARDIAN_PROTOCOL_OK.

(** From the received-frame count to the end of the loop body. *)
Definition serve_request (l : link_t) (v : poll_t) (w : W) : link_t * poll_t * W :=
  let l := link_stats count_rx l in
  let '(now_seconds, w) := call_uptime l w in
  let '(protocol, l, output, w) :=
    dispatch_request l (po_request v) (po_output v) (po_protocol v) now_seconds w in
  let v := POLL (po_byte v) (po_request v) output protocol in
  early negb (bool_decide (protocol = GUARDIAN_PROTOCOL_OK))
    with (link_stats (store_last_error GUARDIAN_ERROR_INTERNAL) (link_stats count_error l), v, w) ;;
  let l := guardian_embedded_record_response_error l output in
  let '(l, w) := guardian_embedded_transmit l output w in
  (l, v, w).

(** From the push of the byte on. *)
Definition poll_byte (l : link_t) (v : poll_t) (w : W) : link_t * poll_t * W :=
  let '(parsed, parser, request) :=
    guardian_parser_push_byte (Some (lk_parser l)) (po_byte v) (Some (po_request v)) in
  let l := link_parser (default (lk_parser l) parser) l in
  let v := POLL (po_byte v) (default (po_request v) request) (po_output v) (po_protocol v) in
  early bool_decide (parsed = GUARDIAN_PARSER_NO_FRAME) with (l, v, w) ;;
  early negb (bool_decide (parsed = GUARDIAN_PARSER_FRAME_READY))
    with (link_stats (store_last_error GUARDIAN_ERROR_MALFORMED_FRAME) (link_stats count_error l),
          v, w) ;;
  serve_request l v w.

Fixpoint poll_loop (budget : nat) (l : link_t) (v : poll_t) (w : W) : link_t * poll_t * W :=
  match budget with
  | O => (l, v, w)
  | S budget =>
      let '(available, byte, w) :=
        match io_read_byte (lk_io l) with
        | Some read_byte => read_byte (io_context (lk_io l)) (po_byte v) w
        | None => (0, po_byte v, w)
        end in
      let v := POLL byte (po_request v) (po_output v) (po_protocol v) in
      early available =? 0 with (l, v, w) ;;
      let '(l, v, w) := poll_byte l v w in
      poll_loop budget l v w
  end.

Definition guardian_embedded_link_poll (link : option link_t) (rx_budget : nat) (w : W)
  : option link_t * W :=
  match link with
  | None => (None, w)
  | Some l =>
      let rx_budget := if (rx_budget =? 0)%nat then GUARDIAN_EMBEDDED_DEFAULT_RX_BUDGET
                       else rx_budget in
      let '(l, v, w) := poll_loop rx_budget l poll_start w in
      let '(due, telemetry, output) :=
        guardian_telemetry_make_due_frame (Some (lk_telemetry l)) (lk_state l)
          (Some (po_output v)) in
      let l := link_telemetry (default (lk_telemetry l) telemetry) l in
      if negb (due =? 0) then
        let '(l, w) := guardian_embedded_transmit l (default (po_output v) output) w in (Some l, w)
      else (Some l, w)
  end.

(** ** The rest of the interface *)

Definition guardian_embedded_link_init (link : option link_t)
    (io : option (guardian_embedded_io_t C W)) (identity : option guardian_device_identity_t)
  : result_t * option link_t :=
  match link, io, identity with
  | Some l, Some io, Some identity =>
      early is_null (io_read_byte io) || is_null (io_write io) || is_null (io_uptime_seconds io)
        with (GUARDIAN_PROTOCOL_ERROR_NULL_ARGUMENT, link) ;;
      (* [memset] of the object, then the initializers of its members *)
      let parser := PARSER GUARDIAN_PARSER_WAIT_MAGIC_0 (replicate GUARDIAN_MAX_FRAME_SIZE 0) 0 0
                      0 0 0 0 GUARDIAN_PROTOCOL_OK in
      let parser := default parser (guardian_parser_init (Some parser)) in
      let telemetry := TELEMETRY 0 0 0 0 0 (MEASUREMENTS 0 0 0 0 0 0) in
      let telemetry := default telemetry (guardian_telemetry_init (Some telemetry)) in
      let health := default untrained_health (guardian_health_init (Some untrained_health)) in
      let control := CONTROL init_status (OUTPUT None None) in
      let control := default control (guardian_control_init (Some control)) in
      let security := default zero_security (guardian_security_init (Some zero_security)) in
      let firmware := default zero_lifecycle (guardian_firmware_lifecycle_init (Some zero_lifecycle)) in
      let service := SERVICE (IDENTITY None 0 0 0 0) in
      let '(result, service') := guardian_device_service_init (Some service) (Some identity) in
      (result,
       Some (LINK parser (default service service') telemetry
               (FEATURES 0 0 0 0 0 0 0 0 0 0 0 0 0) 0 health control security firmware 0 io
               GUARDIAN_DEVICE_STATE_IDLE (LINK_STATS 0 0 0 0 0)))
  | _, _, _ => (GUARDIAN_PROTOCOL_ERROR_NULL_ARGUMENT, link)
  end.

Definition guardian_embedded_link_set_state (link : option link_t)
    (state : guardian_device_state_t) : option link_t :=
  match link with
  | None => None
  | Some l =>
      let status := guardian_control_status (Some (lk_control l)) in
      early negb (cs_supervision_enabled status =? 0)
            || bool_decide (cs_state status = GUARDIAN_CONTROL_STATE_FAULT_LATCHED) with link ;;
      Some (link_state state l)
  end.

Definition guardian_embedded_link_update_telemetry (link : option link_t)
    (measurements : option guardian_machine_measurements_t) : option link_t :=
  match link with
  | None => None
  | Some l =>
      Some (link_telemetry
              (default (lk_telemetry l)
                 (guardian_telemetry_set_measurements (Some (lk_telemetry l)) measurements)) l)
  end.

Definition guardian_embedded_link_update_dsp (link : option link_t)
    (features : option guardian_dsp_features_t) (w : W) : option link_t * W :=
  match link, features with
  | Some l, Some f =>
      let l := link_dsp f 1 l in
      let l := link_health (default (lk_health l)
                              (guardian_health_ingest (Some (lk_health l)) features)) l in
      let '(l, w) := guardian_embedded_update_control_health l w in (Some l, w)
  | _, _ => (link, w)
  end.

Definition guardian_embedded_link_health_status (link : option link_t)
  : guardian_health_status_t :=
  match link with
  | None => guardian_health_status None
  | Some l => guardian_health_status (Some (lk_health l))
  end.

Definition guardian_embedded_link_configure_control_output (link : option link_t)
    (output : option (guardian_control_output_t C W)) (w : W)
  : guardian_control_result_t * option link_t * W :=
  match link with
  | None => (GUARDIAN_CONTROL_ERROR_NULL_ARGUMENT, None, w)
  | Some l =>
      let '(result, control, w) :=
        guardian_control_configure_output (Some (lk_control l)) output w in
      let l := link_control (default (lk_control l) control) l in
      (result, Some (guardian_embedded_sync_control_state l), w)
  end.

Definition guardian_embedded_link_set_local_run_request (link : option link_t) (requested : Z)
    (w : W) : option link_t * W :=
  match link with
  | None => (None, w)
  | Some l =>
      let '(control, w) :=
        guardian_control_set_local_run_request (Some (lk_control l)) requested w in
      let l := link_control (default (lk_control l) control) l in
      (Some (guardian_embedded_sync_control_state l), w)
  end.

Definition guardian_embedded_link_set_interlock (link : option link_t) (closed : Z) (w : W)
  : option link_t * W :=
  match link with
  | None => (None, w)
  | Some l =>
      let '(control, w) := guardian_control_set_interlock (Some (lk_control l)) closed w in
      let l := link_control (default (lk_control l) control) l in
      (Some (guardian_embedded_sync_control_state l), w)
  end.

Definition guardian_embedded_link_control_status (link : option link_t)
  : guardian_control_status_t :=
  match link with
  | None => guardian_control_status (C := C) (W := W) None
  | Some l => guardian_control_status (Some (lk_control l))
  end.

Definition guardian_embedded_link_run_permit (link : option link_t) : Z :=
  match link with
  | None => 0
  | Some l => guardian_control_run_permit (Some (lk_control l))
  end.

Definition guardian_embedded_link_configure_security (link : option link_t)
    (config : option (guardian_security_config_t C W))
  : guardian_security_result_t * option link_t :=
  match link with
  | None => (GUARDIAN_SECURITY_ERROR_NULL_ARGUMENT, None)
  | Some l =>
      let '(result, security) := guardian_security_configure (Some (lk_security l)) config in
      (result, Some (link_security (default (lk_security l) security) l))
  end.

Definition guardian_embedded_link_require_security (link : option link_t) (required : Z)
  : option link_t :=
  match link with
  | None => None
  | Some l => Some (link_required (if negb (required =? 0) then 1 else 0) l)
  end.

Definition guardian_embedded_link_security_status (link : option link_t) (w : W)
  : guardian_security_status_t * option link_t * W :=
  match link with
  | None => ((guardian_security_status (C := C) (W := W) None 0).1, None, w)
  | Some l =>
      let '(now_seconds, w) := call_uptime l w in
      let '(status, security) := guardian_security_status (Some (lk_security l)) now_seconds in
      (status, Some (link_security (default (lk_security l) security) l), w)
  end.

Definition guardian_embedded_link_configure_firmware (link : option link_t)
    (config : option (guardian_firmware_config_t C W))
  : guardian_firmware_result_t * option link_t :=
  match link with
  | None => (GUARDIAN_FIRMWARE_ERROR_NULL_ARGUMENT, None)
  | Some l =>
      let '(result, firmware) := guardian_firmware_lifecycle_configure (Some (lk_firmware l)) config in
      (result, Some (link_firmware (default (lk_firmware l) firmware) l))
  end.

Definition guardian_embedded_link_firmware_status (link : option link_t)
  : guardian_firmware_status_t :=
  match link with
  | None => guardian_firmware_status (C := C) (W := W) None
  | Some l => guardian_firmware_status (Some (lk_firmware l))
  end.

Definition guardian_embedded_link_confirm_firmware_boot (link : option link_t)
    (booted_version_counter : Z) (w : W) : guardian_firmware_result_t * option link_t * W :=
  match link with
  | None => (GUARDIAN_FIRMWARE_ERROR_NULL_ARGUMENT, None, w)
  | Some l =>
      let '(result, firmware, w) :=
        guardian_firmware_confirm_boot (Some (lk_firmware l)) booted_version_counter w in
      (result, Some (link_firmware (default (lk_firmware l) firmware) l), w)
  end.

Definition guardian_embedded_link_report_firmware_boot_failure (link : option link_t)
    (attempted_version_counter : Z) (w : W) : guardian_firmware_result_t * option link_t * W :=
  match link with
  | None => (GUARDIAN_FIRMWARE_ERROR_NULL_ARGUMENT, None, w)
  | Some l =>
      let '(result, firmware, w) :=
        guardian_firmware_report_boot_failure (Some (lk_firmware l)) attempted_version_counter w in
      (result, Some (link_firmware (default (lk_firmware l) firmware) l), w)
  end.

Definition guardian_embedded_link_tick_1ms (link : option link_t) : option link_t :=
  match link with
  | None => None
  | Some l =>
      Some (link_telemetry
              (default (lk_telemetry l) (guardian_telemetry_tick_1ms (Some (lk_telemetry l)))) l)
  end.

Definition guardian_embedded_link_stats (link : option link_t) : stats_t :=
  match link with None => LINK_STATS 0 0 0 0 0 | Some l => lk_stats l end.

End link.
