(* ===== verification/EmbeddedReplies.v ===== *)
(** * Replies of the command handlers

    Every handler the middleware calls answers: it reports success and leaves a
    reply that is correlated with its request and that the encoder accepts. *)

From S2P Require Import Prelude Crypto Crc32 Protocol Parser Security SecuritySession Lifecycle.
From S2P Require Import Frames DeviceService Telemetry Acquisition Float32 Dsp Health Control.
From S2P Require Import EmbeddedLink.

Local Abbreviation frame_object := Protocol.frame_object.

(** The outcome of a handler: OK and a reply to the request. *)
Definition answered (request : guardian_frame_t)
    (outcome : guardian_protocol_result_t * option guardian_frame_t) : Prop :=
  outcome.1 = GUARDIAN_PROTOCOL_OK /\ exists f, outcome.2 = Some f /\ answers request f.

Lemma answered_error request response e :
  frame_ok request -> frame_object response ->
  answered request (GUARDIAN_PROTOCOL_OK, Some (reply_error request response e)).
Proof. intros. split; [done|]. eexists. split; [done|]. by apply error_answers. Qed.

Lemma answered_response request len p :
  frame_ok request -> 0 <= len <= 256 -> payload_object p ->
  answered request (GUARDIAN_PROTOCOL_OK, Some (reply_response request len p)).
Proof. intros. split; [done|]. eexists. split; [done|]. by apply response_answers. Qed.

#[export] Hint Resolve answered_error answered_response : frames.

(** A payload built by stores; constant bytes are in range. *)
Ltac stores :=
  repeat (apply store_object;
          [|rewrite ?put_u16_be_length, ?put_u32_be_length; cbn [length];
            unfold GUARDIAN_MAX_PAYLOAD_SIZE; lia
           |first [solve [auto with frames]|apply (bool_decide_unpack _); vm_compute; exact I]]);
  try assumption.

Section handlers.
Context (req resp : guardian_frame_t) (Hreq : frame_ok req) (Hresp : frame_object resp).

Lemma resp_payload : payload_object (frame_payload resp).
Proof. exact Hresp. Qed.

(** ** Device service *)

Lemma model_scan_bound model budget : forall n,
  (model_scan model n budget <= n + budget)%nat.
Proof.
  induction budget as [|budget IH]; intros n; cbn; [lia|].
  destruct (byte_at model n =? 0); [lia|]. pose proof (IH (n + 1)%nat). lia.
Qed.

(** The identity a service was initialized with. *)
Record service_ok (s : guardian_device_service_t) : Prop := {
  svc_model : exists m, id_model (service_identity s) = Some m /\ bytes m;
  svc_length : (guardian_device_model_length (id_model (service_identity s))
                <= GUARDIAN_DEVICE_MODEL_MAX_LENGTH)%nat
}.

Lemma device_service_answers service runtime :
  service_ok service ->
  answered req
    (guardian_device_service_handle (Some service) (Some runtime) (Some req) (Some resp)).
Proof.
  intros [(m & Hm & Hb) Hl]. pose proof resp_payload as Hp. unfold guardian_device_service_handle.
  destruct (negb _); [by apply answered_error|]. destruct (negb _); [by apply answered_error|].
  destruct (_ =? GUARDIAN_COMMAND_PING).
  { apply answered_response; [done|lia|]. stores. }
  destruct (_ =? GUARDIAN_COMMAND_DEVICE_INFO).
  { unfold guardian_device_handle_info. rewrite Hm in *. cbv zeta. cbn [default from_option id].
    set (n := guardian_device_model_length (Some m)) in *.
    unfold GUARDIAN_DEVICE_MODEL_MAX_LENGTH in Hl.
    rewrite (u16_id (Z.of_nat n)), u16_id by (unfold is_u16; lia).
    apply answered_response; [done|lia|]. apply store_object; [|rewrite length_take|by apply bytes_take].
    - stores.
    - unfold GUARDIAN_MAX_PAYLOAD_SIZE. lia. }
  destruct (_ =? GUARDIAN_COMMAND_GET_STATUS); [|by apply answered_error].
  apply answered_response; [done|lia|]. stores.
Qed.

(** ** Telemetry *)

Lemma telemetry_answers t :
  let '(result, telemetry, response) :=
    guardian_telemetry_handle_request (Some t) (Some req) (Some resp) in
  answered req (result, response) /\
  exists t', telemetry = Some t' /\ tm_next_sequence t' = tm_next_sequence t.
Proof.
  pose proof resp_payload as Hp. unfold guardian_telemetry_handle_request. cbv zeta.
  repeat (match goal with |- context [if ?c then _ else _] => destruct c end;
          [split; [by apply answered_error|by exists t]|]).
  split; [|by eexists]. apply answered_response; [done|lia|]. stores.
Qed.

(** ** Signal processing *)

Lemma dsp_answers features valid :
  answered req (guardian_dsp_handle_request (Some features) valid (Some req) (Some resp)).
Proof.
  pose proof resp_payload as Hp. unfold guardian_dsp_handle_request. cbv zeta.
  do 4 (match goal with |- context [if ?c then _ else _] => destruct c end;
          [by apply answered_error|]).
  unfold guardian_dsp_encode_payload.
  change (Z.of_nat GUARDIAN_MAX_PAYLOAD_SIZE <? GUARDIAN_DSP_PAYLOAD_SIZE) with false. cbv iota zeta.
  cbn [default from_option id]. apply answered_response; [done|unfold GUARDIAN_DSP_PAYLOAD_SIZE; lia|].
  stores.
Qed.

(** ** Health *)

Lemma health_answers h :
  let '(result, health, response) :=
    guardian_health_handle_request (Some h) (Some req) (Some resp) in
  answered req (result, response) /\ exists h', health = Some h' /\
    (frame_command req <> GUARDIAN_COMMAND_BASELINE_CONTROL -> h' = h).
Proof.
  pose proof resp_payload as Hp. unfold guardian_health_handle_request. cbv zeta.
  destruct (negb (frame_message_type req =? _)); [split; [by apply answered_error|by exists h]|].
  destruct (Z.eqb_spec (frame_command req) GUARDIAN_COMMAND_GET_HEALTH_STATUS) as [E|_].
  { destruct (negb _); [split; [by apply answered_error|by exists h]|].
    unfold guardian_health_encode_status_payload.
    change (Z.of_nat GUARDIAN_MAX_PAYLOAD_SIZE <? GUARDIAN_HEALTH_STATUS_PAYLOAD_SIZE) with false.
    cbv iota zeta. cbn [default from_option id]. split; [|by exists h].
    apply answered_response; [done|unfold GUARDIAN_HEALTH_STATUS_PAYLOAD_SIZE; lia|]. stores. }
  destruct (Z.eqb_spec (frame_command req) GUARDIAN_COMMAND_BASELINE_CONTROL) as [E|E];
    [|split; [by apply answered_error|by exists h]].
  unfold handle_baseline_control. cbv zeta.
  destruct (negb _); [split; [by apply answered_error|by exists h]|].
  destruct (negb _); [split; [by apply answered_error|by exists h]|].
  set (action := byte_at (frame_payload req) 1).
  assert (Hgo : forall v, answered req (GUARDIAN_PROTOCOL_OK,
    Some (reply_response req GUARDIAN_BASELINE_CONTROL_PAYLOAD_SIZE
            (blit (blit (blit (frame_payload resp) 0 [GUARDIAN_HEALTH_SCHEMA_VERSION]) 1 [u8 action]) 2
               (guardian_health_write_u16_be v))))).
  { intros v. apply answered_response; [done|unfold GUARDIAN_BASELINE_CONTROL_PAYLOAD_SIZE; lia|].
    unfold guardian_health_write_u16_be. stores. }
  destruct (action =? GUARDIAN_BASELINE_ACTION_START).
  { unfold guardian_health_start_baseline. destruct (_ || _); [split; [by apply answered_error|by exists h]|].
    split; [apply Hgo|]. eexists. split; [done|]. by intros []. }
  destruct (action =? GUARDIAN_BASELINE_ACTION_RESET); [|split; [by apply answered_error|by exists h]].
  destruct (negb _); [split; [by apply answered_error|by exists h]|].
  split; [apply Hgo|]. eexists. split; [done|]. by intros [].
Qed.

(** ** Control *)

Lemma control_action_some {C W} (c : guardian_control_t C W) action w r co w' :
  guardian_control_action (Some c) action w = (r, co, w') -> exists c', co = Some c'.
Proof.
  unfold guardian_control_action. cbv zeta.
  destruct (if action =? GUARDIAN_CONTROL_ACTION_DISARM then _ else _) as [[r' c'] w1].
  intros [= _ <- _]. by exists c'.
Qed.

Lemma control_answers {C W} (c : guardian_control_t C W) w :
  let '(result, control, response, w') :=
    guardian_control_handle_request (Some c) (Some req) (Some resp) w in
  answered req (result, response) /\ exists c', control = Some c' /\
    (frame_command req <> GUARDIAN_COMMAND_CONTROL_COMMAND -> c' = c).
Proof.
  pose proof resp_payload as Hp. unfold guardian_control_handle_request. cbv zeta.
  destruct (negb (frame_message_type req =? _)); [split; [by apply answered_error|by exists c]|].
  destruct (Z.eqb_spec (frame_command req) GUARDIAN_COMMAND_GET_CONTROL_STATUS) as [E|_].
  { destruct (negb _); [split; [by apply answered_error|by exists c]|].
    unfold guardian_control_encode_status_payload.
    change (Z.of_nat GUARDIAN_MAX_PAYLOAD_SIZE <? GUARDIAN_CONTROL_STATUS_PAYLOAD_SIZE) with false.
    cbv iota zeta. cbn [default from_option id]. split; [|by exists c].
    apply answered_response; [done|unfold GUARDIAN_CONTROL_STATUS_PAYLOAD_SIZE; lia|]. stores. }
  destruct (Z.eqb_spec (frame_command req) GUARDIAN_COMMAND_CONTROL_COMMAND) as [E|E];
    [|split; [by apply answered_error|by exists c]].
  unfold handle_control_command. cbv zeta.
  do 3 (match goal with |- context [if ?b then _ else _] => destruct b end;
          [split; [by apply answered_error|by exists c]|]).
  destruct (guardian_control_action (Some c) _ w) as [[r co] w'] eqn:Ea.
  apply control_action_some in Ea as [c' ->].
  repeat case_bool_decide; cbn [negb]; (split; [|exists c'; split; [done|by intros []]]);
    try by apply answered_error.
  apply answered_response; [done|unfold GUARDIAN_CONTROL_COMMAND_RESPONSE_SIZE; lia|]. stores.
Qed.
End handlers.
