(* ===== verification/EmbeddedSafety.v ===== *)
(** * The middleware: replies and the security gate

    Every request that arrives is answered by one reply the encoder accepts, and
    when security is required the state of health, control and firmware changes
    only through an authenticated, in-order request of a session with the role it
    needs. *)

From S2P Require Import Prelude Crypto Crc32 Protocol Parser Security SecuritySession Lifecycle.
From S2P Require Import Frames DeviceService Telemetry Acquisition Float32 Dsp Health Control.
From S2P Require Import EmbeddedLink EmbeddedReplies.

Local Abbreviation frame_object := Protocol.frame_object.

#[local] Opaque guardian_security_handshake_mac guardian_security_request_tag
  guardian_security_response_tag hmac_spec.

(** ** Payload arrays longer than the announced length

    The handshake reads only the announced bytes of the request's array. *)

Lemma foldl_ext_Forall {A B} (P : B -> Prop) (f g : A -> B -> A) l a :
  (forall a b, P b -> f a b = g a b) -> Forall P l -> foldl f a l = foldl g a l.
Proof. intros E Hl. revert a. induction Hl as [|b l Hb _ IH]; intros a; cbn; [done|]. by rewrite E, IH. Qed.

Lemma constant_time_equal_take l r n m :
  (n <= m)%nat ->
  guardian_crypto_constant_time_equal (Some l) (Some (take m r)) n =
  guardian_crypto_constant_time_equal (Some l) (Some r) n.
Proof.
  intros Hle. unfold guardian_crypto_constant_time_equal. destruct (n =? 0)%nat; [done|].
  f_equal. apply (foldl_ext_Forall (fun i => i < m)%nat); [|apply Forall_seq; lia].
  intros d i Hi. by rewrite byte_at_take.
Qed.

Lemma drop_take_comm {A} (l : list A) n m : drop n (take (n + m) l) = take m (drop n l).
Proof. revert l. induction n as [|n IH]; intros [|x l]; cbn; [done..|by destruct m|apply IH]. Qed.

Section handshake.
Context {C W : Type}.
Implicit Types (s : guardian_security_t C W) (w : W).

Lemma auth_begin_take s p len now response cap rl w :
  (Z.to_nat len <= length p)%nat ->
  guardian_security_auth_begin (Some s) (Some p) len now (Some response) cap (Some rl) w =
  guardian_security_auth_begin (Some s) (Some (take (Z.to_nat len) p)) len now (Some response) cap
    (Some rl) w.
Proof.
  intros Hl. unfold guardian_security_auth_begin. cbv zeta.
  destruct (sec_configured s =? 0); [reflexivity|].
  destruct (Z.eqb_spec len GUARDIAN_SECURITY_AUTH_BEGIN_REQUEST_SIZE) as [E|E]; cbn [negb];
    [|reflexivity].
  subst len. unfold GUARDIAN_SECURITY_AUTH_BEGIN_REQUEST_SIZE.
  rewrite !byte_at_take by lia. change (Z.to_nat 18) with (2 + 16)%nat.
  rewrite drop_take_comm, take_take. reflexivity.
Qed.

Lemma get_u32_be_take_4 l m : (4 <= m)%nat -> get_u32_be (take m l) = get_u32_be l.
Proof. intros. unfold get_u32_be. by rewrite !byte_at_take by lia. Qed.

Lemma auth_finish_take s p len now response cap rl :
  (Z.to_nat len <= length p)%nat ->
  guardian_security_auth_finish (Some s) (Some p) len now (Some response) cap (Some rl) =
  guardian_security_auth_finish (Some s) (Some (take (Z.to_nat len) p)) len now (Some response) cap
    (Some rl).
Proof.
  intros Hl. unfold guardian_security_auth_finish. cbv zeta.
  destruct (sec_configured s =? 0); [reflexivity|].
  destruct (Z.eqb_spec len GUARDIAN_SECURITY_AUTH_FINISH_REQUEST_SIZE) as [E|E]; cbn [negb];
    [|reflexivity].
  subst len. unfold GUARDIAN_SECURITY_AUTH_FINISH_REQUEST_SIZE.
  rewrite !byte_at_take by lia.
  replace (drop 2 (take (Z.to_nat 22) p)) with (take 20 (drop 2 p))
    by (symmetry; apply (drop_take_comm p 2 20)).
  replace (drop 6 (take (Z.to_nat 22) p)) with (take 16 (drop 6 p))
    by (symmetry; apply (drop_take_comm p 6 16)).
  unfold guardian_security_read_u32_be. rewrite get_u32_be_take_4 by lia.
  destruct (cap <? _); [reflexivity|].
  destruct (_ =? 0); [reflexivity|]. destruct (negb _); [reflexivity|].
  destruct (_ || _); [reflexivity|].
  match goal with |- context [guardian_security_handshake_mac ?a ?b ?c ?d ?e ?f ?g ?h] =>
    destruct (guardian_security_handshake_mac a b c d e f g h) as [computed proof] end.
  rewrite constant_time_equal_take by (unfold GUARDIAN_SECURITY_TAG_SIZE; lia). reflexivity.
Qed.

Lemma request_part request : frame_ok request ->
  request_object (take (Z.to_nat (frame_payload_length request)) (frame_payload request))
    (frame_payload_length request) /\
  (Z.to_nat (frame_payload_length request) <= length (frame_payload request))%nat.
Proof.
  intros []. unfold GUARDIAN_MAX_PAYLOAD_SIZE in *. split; [|lia].
  split; [by apply bytes_take|]. rewrite length_take. lia.
Qed.

Lemma security_role_u8 s r : security_ok s -> sec_configured s = 1 ->
  1 <= r <= cfg_max_role (sec_config s) -> is_u8 r.
Proof. intros Hs Hc Hr. pose proof (max_role_le s Hs Hc). unfold is_u8. lia. Qed.

Lemma challenge_store s role sid cn dn :
  security_ok s -> is_u8 role -> bytes dn -> length dn = 16%nat ->
  payload_object (blit (frame_payload Frames.zero_frame) 0
    (challenge_message (cfg_psk (sec_config s)) role sid cn dn)).
Proof.
  intros Hs Hr Hd Hl. apply store_object; [apply zero_payload_object| |].
  - unfold challenge_message, proof_of. rewrite !length_app, put_u32_be_length, Hl, length_take.
    cbn [length]. unfold GUARDIAN_MAX_PAYLOAD_SIZE. lia.
  - unfold challenge_message, proof_of. rewrite !bytes_app. split_and!.
    + constructor; [done|]. by apply bytes_1.
    + apply put_u32_be_bytes.
    + done.
    + apply bytes_take, hmac_spec_bytes.
Qed.

Lemma opened_store role sid timeout :
  is_u8 role ->
  payload_object (blit (frame_payload Frames.zero_frame) 0 (opened_message role sid timeout)).
Proof.
  intros Hr. apply store_object; [apply zero_payload_object|cbn; unfold GUARDIAN_MAX_PAYLOAD_SIZE; lia|].
  unfold opened_message. rewrite !bytes_app.
  split_and!; [|apply put_u32_be_bytes|apply put_u16_be_bytes].
  constructor; [done|]. by apply bytes_1.
Qed.
End handshake.

(** ** The state of the middleware *)

Section link.
Context {C W : Type}.
Local Abbreviation link_t := (guardian_embedded_link_t C W).
Implicit Types (l : link_t) (w : W).

Record link_ok l : Prop := {
  lo_parser : parser_inv (lk_parser l);
  lo_service : service_ok (lk_service l);
  lo_sequence : is_u32 (tm_next_sequence (lk_telemetry l));
  lo_security : security_ok (lk_security l)
}.

(** What only privileged requests may change. *)
Definition privileged l
  : guardian_health_t * guardian_control_t C W * guardian_firmware_lifecycle_t C W :=
  (lk_health l, lk_control l, lk_firmware l).

(** What no request changes. *)
Definition fixed l := (lk_parser l, lk_service l, lk_io l, lk_security_required l).

Definition session_of l := sec_session (lk_security l).

(** The request is authentic and in order for a live session whose role allows
    the command it carries. *)
Definition authorized_request l (request : guardian_frame_t) (now : Z) : Prop :=
  frame_command request = GUARDIAN_COMMAND_SECURE_COMMAND /\
  session_live (lk_security l) now /\
  exists command inner,
    carries (lk_security l) request (sess_next_counter (session_of l)) command inner /\
    required_role command <= sess_role (session_of l).

(** ** Privileged commands *)

Lemma sync_privileged l :
  privileged (guardian_embedded_sync_control_state l) = privileged l /\
  fixed (guardian_embedded_sync_control_state l) = fixed l /\
  lk_security (guardian_embedded_sync_control_state l) = lk_security l /\
  lk_telemetry (guardian_embedded_sync_control_state l) = lk_telemetry l.
Proof. unfold guardian_embedded_sync_control_state. by destruct (_ && _). Qed.

(** The stores of a privileged command: health, control, firmware and state. *)
Definition same_rest l l' : Prop :=
  fixed l' = fixed l /\ lk_security l' = lk_security l /\ lk_telemetry l' = lk_telemetry l.

Lemma same_rest_sync l l' : same_rest l l' -> same_rest l (guardian_embedded_sync_control_state l').
Proof.
  intros (H1 & H2 & H3). destruct (sync_privileged l') as (_ & E1 & E2 & E3).
  split; [congruence|]. split; congruence.
Qed.

Lemma same_rest_ok l l' : same_rest l l' -> link_ok l -> link_ok l'.
Proof.
  intros (H1 & H2 & H3) []. unfold fixed in H1. injection H1 as E1 E2 _ _.
  by split; rewrite ?E1, ?E2, ?H2, ?H3.
Qed.

Lemma update_control_rest l w l' w' :
  guardian_embedded_update_control_health l w = (l', w') -> same_rest l l'.
Proof.
  unfold guardian_embedded_update_control_health.
  destruct (guardian_control_update_health _ _ _) as [c w1]. intros [= <- <-].
  by apply same_rest_sync.
Qed.

Lemma make_error_answers request e :
  frame_ok request -> answers request (guardian_embedded_make_error request e).
Proof. intros. apply error_answers; [done|apply zero_frame_object]. Qed.

Lemma make_response_answers request :
  frame_ok request -> answers request (guardian_embedded_make_response request).
Proof. intros. apply response_answers; [done|lia|apply zero_payload_object]. Qed.

Lemma firmware_reply_answers result request :
  frame_ok request -> answers request (firmware_reply result request).
Proof.
  intros. unfold firmware_reply.
  destruct (negb _); [by apply make_error_answers|by apply make_response_answers].
Qed.

Ltac lifecycle_only :=
  repeat (match goal with
          | |- context [match ?x with (_, _) => _ end] => destruct x
          | |- context [if ?c then _ else _] => destruct c
          end); by intros [= <- <- <-].

Lemma begin_rest l request w r l' w' :
  dispatch_firmware_begin l request w = (r, l', w') -> same_rest l l'.
Proof. unfold dispatch_firmware_begin. lifecycle_only. Qed.
Lemma chunk_rest l request w r l' w' :
  dispatch_firmware_chunk l request w = (r, l', w') -> same_rest l l'.
Proof. unfold dispatch_firmware_chunk. lifecycle_only. Qed.
Lemma finalize_rest l request w r l' w' :
  dispatch_firmware_finalize l request w = (r, l', w') -> same_rest l l'.
Proof. unfold dispatch_firmware_finalize. cbv zeta. lifecycle_only. Qed.
Lemma activate_rest l request w r l' w' :
  dispatch_firmware_activate l request w = (r, l', w') -> same_rest l l'.
Proof. unfold dispatch_firmware_activate. cbv zeta. lifecycle_only. Qed.

Lemma dispatch_privileged_ok l request response w :
  frame_ok request -> frame_object response ->
  let '(protocol, l', output, w') :=
    guardian_embedded_dispatch_privileged l request response w in
  protocol = GUARDIAN_PROTOCOL_OK /\ answers request output /\ same_rest l l'.
Proof.
  intros Hreq Hresp. unfold guardian_embedded_dispatch_privileged. cbv zeta.
  destruct (frame_command request =? GUARDIAN_COMMAND_BASELINE_CONTROL).
  { pose proof (health_answers request response Hreq Hresp (lk_health l)) as H.
    destruct (guardian_health_handle_request _ _ _) as [[r h] o].
    destruct H as [[Hr (f & Ho & Hf)] _]. cbn [fst snd] in Hr, Ho. subst r o.
    cbn [default from_option id].
    destruct (bool_decide _ && _); [|done].
    destruct (guardian_embedded_update_control_health _ w) as [l' w'] eqn:E.
    apply update_control_rest in E. done. }
  destruct (frame_command request =? GUARDIAN_COMMAND_CONTROL_COMMAND).
  { pose proof (control_answers request response Hreq Hresp (lk_control l) w) as H.
    destruct (guardian_control_handle_request _ _ _ _) as [[[r c] o] w'].
    destruct H as [[Hr (f & Ho & Hf)] _]. cbn [fst snd] in Hr, Ho. subst r o.
    split; [done|]. split; [done|]. by apply same_rest_sync. }
  assert (Hf : forall step : link_t -> guardian_frame_t -> W -> guardian_firmware_result_t * link_t * W,
    (forall r l' w', step l request w = (r, l', w') -> same_rest l l') ->
    let '(protocol, l', output, w') :=
      (let '(result, l, w) := step l request w in
       (GUARDIAN_PROTOCOL_OK, l, firmware_reply result request, w)) in
    protocol = GUARDIAN_PROTOCOL_OK /\ answers request output /\ same_rest l l').
  { intros step Hstep. destruct (step l request w) as [[r l'] w'] eqn:E.
    split; [done|]. split; [by apply firmware_reply_answers|by eapply Hstep]. }
  destruct (_ =? GUARDIAN_COMMAND_FIRMWARE_BEGIN); [apply (Hf dispatch_firmware_begin), begin_rest|].
  destruct (_ =? GUARDIAN_COMMAND_FIRMWARE_CHUNK); [apply (Hf dispatch_firmware_chunk), chunk_rest|].
  destruct (_ =? GUARDIAN_COMMAND_FIRMWARE_FINALIZE);
    [apply (Hf dispatch_firmware_finalize), finalize_rest|].
  destruct (_ =? GUARDIAN_COMMAND_FIRMWARE_ACTIVATE);
    [apply (Hf dispatch_firmware_activate), activate_rest|].
  split; [done|]. split; [by apply make_error_answers|done].
Qed.

(** ** Dispatch *)

(** What serving one request guarantees: success, a reply to the request, the
    invariant, and the gate in front of the privileged state. *)
Record served l (request : guardian_frame_t) (now : Z)
    (outcome : guardian_protocol_result_t * link_t * guardian_frame_t * W) : Prop := {
  sv_protocol : outcome.1.1.1 = GUARDIAN_PROTOCOL_OK;
  sv_answers : answers request outcome.1.2;
  sv_fixed : fixed outcome.1.1.2 = fixed l;
  sv_ok : link_ok outcome.1.1.2;
  sv_gate : lk_security_required l <> 0 ->
            privileged outcome.1.1.2 = privileged l \/ authorized_request l request now
}.

Lemma link_security_ok l s : link_ok l -> security_ok s -> link_ok (link_security s l).
Proof. intros [] Hs. by split. Qed.

Lemma security_reply_answers result request output :
  frame_ok request -> (result = GUARDIAN_SECURITY_OK -> answers request output) ->
  answers request (security_reply result request output).
Proof.
  intros Hreq Ho. unfold security_reply. case_bool_decide; cbn [negb]; [auto|].
  by apply make_error_answers.
Qed.

Lemma max_payload : (Z.to_nat (Z.of_nat GUARDIAN_MAX_PAYLOAD_SIZE)
  <= length (frame_payload Frames.zero_frame))%nat.
Proof. rewrite Nat2Z.id. destruct zero_payload_object as [H _]. cbn [Frames.zero_frame frame_payload]. lia. Qed.

Lemma auth_begin_served l request now w :
  link_ok l -> frame_ok request -> is_u32 now ->
  let '(l', output, w') := dispatch_auth_begin l request now w in
  served l request now (GUARDIAN_PROTOCOL_OK, l', output, w').
Proof.
  intros Hl Hreq Hnow. unfold dispatch_auth_begin. cbv zeta.
  destruct (request_part request Hreq) as [Hpart Hlen].
  cbn [guardian_embedded_make_response reply_response frame_payload frame_payload_length].
  rewrite auth_begin_take by done.
  pose proof (lo_security l Hl) as Hs.
  destruct (begin_cases (lk_security l) _ (frame_payload_length request) now
      (frame_payload Frames.zero_frame) (Z.of_nat GUARDIAN_MAX_PAYLOAD_SIZE) 0 w Hs Hpart Hnow
      max_payload)
    as [role cn f filled rnd w' (Hc & Hlen' & Hcap' & Hrole & Hm) Hf Hfill Hnz sid dn
       |r s' w' Hr _ _ H1 H2 H3]; cbn [default from_option id].
  - pose proof (co_random _ (ok_config _ Hs) f Hf (cfg_random_context (sec_config (lk_security l))) w) as Hf'.
    rewrite Hfill in Hf'. destruct Hf' as [Hrl Hrb].
    assert (Hdn : length dn = 16%nat) by (subst dn; rewrite length_drop; lia).
    split; cbn; [done| |done| |by left].
    + apply security_reply_answers; [done|intros _]. apply response_answers; [done|lia|].
      apply challenge_store; [done|by eapply security_role_u8|subst dn; by apply bytes_drop|done].
    + apply link_security_ok; [done|]. apply challenged_ok; try done.
      * subst sid. unfold drawn_session_id. cbv zeta. pose proof (get_u32_be_range rnd Hrb) as Hu.
        unfold is_u32 in Hu. destruct (Z.eqb_spec (get_u32_be rnd) 0); lia.
      * destruct Hpart as [_ Hr]. rewrite Hm in Hr. unfold begin_message in Hr.
        rewrite length_app in Hr. cbn [length] in Hr. lia.
  - split; cbn; [done| |done|by apply link_security_ok|by left].
    apply security_reply_answers; [done|intros ->; done].
Qed.

Lemma auth_finish_served l request now w :
  link_ok l -> frame_ok request -> is_u32 now ->
  let '(l', output) := dispatch_auth_finish l request now in
  served l request now (GUARDIAN_PROTOCOL_OK, l', output, w).
Proof.
  intros Hl Hreq Hnow. unfold dispatch_auth_finish. cbv zeta.
  destruct (request_part request Hreq) as [Hpart Hlen].
  cbn [guardian_embedded_make_response reply_response frame_payload frame_payload_length].
  rewrite auth_finish_take by done.
  pose proof (lo_security l Hl) as Hs.
  destruct (finish_cases (lk_security l) _ (frame_payload_length request) now
      (frame_payload Frames.zero_frame) (Z.of_nat GUARDIAN_MAX_PAYLOAD_SIZE) 0 Hs Hpart Hnow
      max_payload) as [Ho|r s' Hn _ _ H1 H2 H3]; cbn [default from_option id].
  - pose proof Ho as (Hc & _ & _ & Hlive & _).
    pose proof (pending_live_ok _ now Hs Hlive) as [Hv Hrole _ _ _ _].
    split; cbn; [done| |done| |by left].
    + apply security_reply_answers; [done|intros _]. apply response_answers; [done|lia|].
      apply opened_store. by eapply security_role_u8.
    + apply link_security_ok; [done|]. by eapply opened_ok.
  - split; cbn; [done| |done|by apply link_security_ok|by left].
    apply security_reply_answers; [done|intros ->; done].
Qed.

Lemma security_status_ok (s : guardian_security_t C W) now :
  security_ok s ->
  let '(status, s') := guardian_security_status (Some s) now in
  is_u8 (stat_configured status) /\ is_u8 (stat_active status) /\
  exists s1, s' = Some s1 /\ security_ok s1.
Proof.
  intros Hs. unfold guardian_security_status. cbv zeta.
  set (s1 := guardian_security_expire_session (guardian_security_expire_pending s now) now).
  assert (Hs1 : security_ok s1) by (by apply expire_session_ok, expire_pending_ok).
  assert (Hc : is_u8 (sec_configured s1)).
  { unfold is_u8. destruct (ok_configured s1 Hs1) as [[-> _]|[-> _]]; lia. }
  destruct (negb _); cbn [stat_configured stat_active]; (split; [exact Hc|]); (split; [done|]);
    by exists s1.
Qed.

(** The stores of a status payload, field by field. *)
Ltac status_stores :=
  repeat (apply store_object;
    [|rewrite ?put_u16_be_length, ?put_u32_be_length, ?write_u64_be_length; cbn [length];
      unfold GUARDIAN_MAX_PAYLOAD_SIZE; lia
     |match goal with
      | |- bytes (guardian_security_write_u64_be _) => apply write_u64_be_bytes
      | |- bytes (put_u32_be _) => apply put_u32_be_bytes
      | |- bytes (put_u16_be _) => apply put_u16_be_bytes
      | |- bytes [u8 _] => apply bytes_1, u8_range
      | |- bytes [_] => apply bytes_1; first [assumption|apply (bool_decide_unpack _); vm_compute; exact I]
      end]);
  assumption.

Lemma security_status_served l request now w :
  link_ok l -> frame_ok request ->
  let '(l', output) := dispatch_security_status l request now in
  served l request now (GUARDIAN_PROTOCOL_OK, l', output, w).
Proof.
  intros Hl Hreq. unfold dispatch_security_status. cbv zeta.
  destruct (negb _); [split; cbn; [done|by apply make_error_answers|done|done|by left]|].
  pose proof (security_status_ok (lk_security l) now (lo_security l Hl)) as H.
  destruct (guardian_security_status _ now) as [status s'].
  destruct H as (Hconf & Hact & s1 & -> & Hs1). cbn [default from_option id].
  unfold guardian_security_encode_status_payload.
  change (Z.of_nat GUARDIAN_MAX_PAYLOAD_SIZE <? GUARDIAN_SECURITY_STATUS_PAYLOAD_SIZE) with false.
  cbn [default from_option id guardian_embedded_make_response reply_response frame_payload
       frame_payload_length].
  rewrite bool_decide_true by done. cbn [negb].
  split; cbn [fst snd]; [done| |done|by apply link_security_ok|by left].
  apply response_answers; [done|unfold GUARDIAN_SECURITY_STATUS_PAYLOAD_SIZE; lia|].
  unfold guardian_security_write_u32_be, guardian_security_write_u16_be.
  pose proof zero_payload_object.
  status_stores.
Qed.

Lemma firmware_status_answers l request :
  frame_ok request -> answers request (dispatch_firmware_status l request).
Proof.
  intros Hreq. unfold dispatch_firmware_status. cbv zeta.
  destruct (negb _); [by apply make_error_answers|].
  unfold guardian_firmware_encode_status_payload.
  change (Z.of_nat GUARDIAN_MAX_PAYLOAD_SIZE <? GUARDIAN_FIRMWARE_STATUS_PAYLOAD_SIZE) with false.
  cbn [default from_option id guardian_embedded_make_response reply_response frame_payload
       frame_payload_length].
  rewrite bool_decide_true by done. cbn [negb].
  apply response_answers; [done|unfold GUARDIAN_FIRMWARE_STATUS_PAYLOAD_SIZE; lia|].
  unfold guardian_firmware_write_u32_be, guardian_firmware_write_u16_be.
  pose proof zero_payload_object. set (st := guardian_firmware_status _) in *.
  status_stores.
Qed.

(** ** Privileged requests *)

Lemma frame_ok_session request : frame_ok request -> SecuritySession.frame_object request.
Proof.
  intros []. split; [unfold is_u16; lia| |done].
  unfold GUARDIAN_MAX_PAYLOAD_SIZE in *. lia.
Qed.

Lemma carried_frame_ok (s : guardian_security_t C W) request counter command inner :
  frame_ok request -> carries s request counter command inner ->
  frame_ok (inner_frame request command inner).
Proof.
  intros Hreq (Hlen & Hi & Hctr & E).
  assert (Hb : bytes (take (Z.to_nat (frame_payload_length request)) (frame_payload request)))
    by (destruct Hreq; by apply bytes_take).
  rewrite E in Hb. unfold request_envelope in Hb. rewrite !bytes_app in Hb.
  destruct Hb as (_ & _ & _ & Hcmd & _ & Hin & _). destruct Hreq.
  split; cbn.
  - unfold GUARDIAN_MESSAGE_REQUEST, GUARDIAN_MESSAGE_TELEMETRY. lia.
  - by apply Forall_cons in Hcmd as [? _].
  - done.
  - done.
  - lia.
  - rewrite length_app, length_replicate. unfold GUARDIAN_MAX_PAYLOAD_SIZE. lia.
  - apply bytes_app. split; [done|]. by apply bytes_replicate.
Qed.

Lemma wrap_answers (s : guardian_security_t C W) request counter inner output result wrapped :
  security_ok s -> frame_ok request -> frame_ok inner ->
  guardian_security_wrap_response (Some s) (Some request) counter (Some inner) (Some output)
    = (result, wrapped) ->
  result = GUARDIAN_SECURITY_OK -> exists f, wrapped = Some f /\ answers request f.
Proof.
  intros Hs Hreq Hinner H ->. unfold guardian_security_wrap_response in H. cbv zeta in H.
  destruct (Z.eqb_spec (sess_valid (sec_session s)) 0) as [|Hv]; [done|].
  destruct (ok_session s Hs) as [E|Hsess]; [by rewrite E in Hv|].
  destruct (Z.ltb_spec GUARDIAN_SECURITY_MAX_RESPONSE_INNER_PAYLOAD (frame_payload_length inner))
    as [|Hlen]; [done|].
  change GUARDIAN_SECURITY_MAX_RESPONSE_INNER_PAYLOAD with 223 in Hlen.
  pose proof (frame_ok_length _ Hinner) as [Hlen0 _].
  pose proof (frame_ok_payload _ Hinner) as Hcap. unfold GUARDIAN_MAX_PAYLOAD_SIZE in Hcap.
  rewrite response_tag_spec in H; [|apply Hsess|apply Hsess|lia|lia|done].
  cbn [negb] in H. injection H as <-. eexists. split; [reflexivity|].
  unfold GUARDIAN_SECURITY_RESPONSE_OVERHEAD. rewrite u16_id by (unfold is_u16; lia).
  apply response_answers; [done|lia|].
  set (len := frame_payload_length inner) in *.
  apply store_object; [|rewrite length_take; unfold GUARDIAN_SECURITY_TAG_SIZE, GUARDIAN_MAX_PAYLOAD_SIZE; lia
    |apply bytes_take, hmac_spec_bytes].
  set (head := blit (blit _ 14 _) 15 _).
  assert (Hhead : payload_object head).
  { unfold head, guardian_security_write_u32_be, guardian_security_write_u16_be.
    pose proof zero_payload_object. pose proof (frame_ok_command _ Hinner). status_stores. }
  destruct (negb (len =? 0)); [|done].
  apply store_object; [done|rewrite length_take; unfold GUARDIAN_MAX_PAYLOAD_SIZE; lia|].
  apply bytes_take. apply Hinner.
Qed.

Lemma authorize_ok (s : guardian_security_t C W) command :
  security_ok s ->
  let '(granted, s') := guardian_security_authorize (Some s) command in
  exists s1, s' = Some s1 /\ security_ok s1 /\
    (granted = true -> required_role command <= sess_role (sec_session s)).
Proof.
  intros Hs. rewrite authorize_spec.
  destruct (_ =? 0); [by exists s|].
  destruct (Z.leb_spec (required_role command) (sess_role (sec_session s))); [by exists s|].
  eexists. split; [reflexivity|]. split; [by apply count_unauthorized_ok|done].
Qed.

(** The inner command runs only when it was granted. *)
Lemma inner_dispatch l inner (granted : bool) w :
  frame_ok inner ->
  exists l' reply w',
    (if negb granted
     then (GUARDIAN_PROTOCOL_OK, l, guardian_embedded_make_error inner GUARDIAN_ERROR_UNAUTHORIZED, w)
     else guardian_embedded_dispatch_privileged l inner Frames.zero_frame w)
      = (GUARDIAN_PROTOCOL_OK, l', reply, w') /\ frame_ok reply /\ same_rest l l' /\
    (privileged l' = privileged l \/ granted = true).
Proof.
  intros Hi. destruct granted; cbn [negb].
  - pose proof (dispatch_privileged_ok l inner Frames.zero_frame w Hi zero_frame_object) as H.
    destruct (guardian_embedded_dispatch_privileged _ _ _ _) as [[[p l'] reply] w'].
    destruct H as (-> & Ha & Hrest). exists l', reply, w'.
    split_and!; [done|apply Ha|done|by right].
  - exists l, (guardian_embedded_make_error inner GUARDIAN_ERROR_UNAUTHORIZED), w.
    split_and!; [done| |done|by left]. by apply make_error_answers.
Qed.

Lemma secure_served l request output now w :
  link_ok l -> frame_ok request -> frame_object output -> is_u32 now ->
  frame_command request = GUARDIAN_COMMAND_SECURE_COMMAND ->
  served l request now (dispatch_secure l request output GUARDIAN_PROTOCOL_OK now w).
Proof.
  intros Hl Hreq Hout Hnow Hcmd. unfold dispatch_secure.
  pose proof (lo_security l Hl) as Hs.
  assert (Hrefused : forall s' r, security_ok s' -> served l request now
    (GUARDIAN_PROTOCOL_OK, link_security s' l,
     guardian_embedded_make_error request (guardian_embedded_security_error r), w)).
  { intros s' r Hs'.
    split; cbn [fst snd]; [done|by apply make_error_answers|done|by apply link_security_ok|by left]. }
  destruct (unwrap_cases (lk_security l) request now Frames.zero_frame 0 Hs
      (frame_ok_session _ Hreq))
    as [command inner Hlive Hc Hn|command inner Hlive Hc Hn|c command inner Hlive Hc Hn
       |r s' Hn1 Hn2 _ Hs']; cbn [default from_option id].
  2: { rewrite bool_decide_false by done. cbn [negb]. by apply Hrefused, clear_session_ok. }
  2: { rewrite bool_decide_false by done. cbn [negb]. by apply Hrefused, count_replay_ok. }
  2: { rewrite bool_decide_false by done. cbn [negb]. apply Hrefused.
       destruct Hs' as [-> | ->]; [apply count_auth_failure_ok|apply count_unauthorized_ok];
         by apply expire_session_ok. }
  rewrite bool_decide_true by done. cbn [negb]. set (i := inner_frame request command inner).
  assert (Hi : frame_ok i) by (by eapply carried_frame_ok).
  set (l1 := link_security (consume (lk_security l) now) l).
  assert (Hl1 : link_ok l1) by (by apply link_security_ok, consume_ok).
  pose proof (authorize_ok (lk_security l1) (frame_command i) (lo_security l1 Hl1)) as Hauth.
  destruct (guardian_security_authorize (Some (lk_security l1)) (frame_command i)) as [granted so].
  destruct Hauth as (s2 & -> & Hs2 & Hrole). cbn [default from_option id].
  set (l2 := link_security s2 l1). assert (Hl2 : link_ok l2) by (by apply link_security_ok).
  pose proof (inner_dispatch l2 i granted w Hi) as Hinner.
  destruct Hinner as (l3 & reply & w3 & -> & Hreply & Hrest & Hpriv).
  pose proof (same_rest_ok l2 l3 Hrest Hl2) as Hl3.
  rewrite bool_decide_true by done. cbn [negb].
  destruct (guardian_security_wrap_response _ _ _ _ _) as [result wrapped] eqn:Ew.
  split; cbn [fst snd]; [done| |apply Hrest|done|].
  - apply security_reply_answers; [done|]. intros Hr.
    destruct (wrap_answers _ _ _ _ _ _ _ (lo_security l3 Hl3) Hreq Hreply Ew Hr) as (f & -> & Hf).
    exact Hf.
  - intros _. destruct Hpriv as [Hp|Hg]; [by left|right].
    split; [done|]. split; [done|]. exists command, inner. split; [exact Hc|]. exact (Hrole Hg).
Qed.

(** ** Any request *)

(** The time a request is served at. *)
Definition uptime_typed (io : guardian_embedded_io_t C W) : Prop :=
  forall f c w, io_uptime_seconds io = Some f -> is_u32 (f c w).1.

Lemma privileged_served l request output now w :
  link_ok l -> frame_ok request -> frame_object output ->
  lk_security_required l = 0 \/ privileged_command (frame_command request) = false ->
  privileged_command (frame_command request) = true ->
  served l request now (guardian_embedded_dispatch_privileged l request output w).
Proof.
  intros Hl Hreq Hout Hgate Hp.
  pose proof (dispatch_privileged_ok l request output w Hreq Hout) as H.
  destruct (guardian_embedded_dispatch_privileged l request output w) as [[[p l'] o] w'].
  destruct H as (-> & Ha & Hrest).
  split; cbn [fst snd]; [done|done|apply Hrest|by eapply same_rest_ok|].
  intros Hr. destruct Hgate as [|]; [done|congruence].
Qed.

Lemma answered_served l l' request now o w' r output :
  answered request (r, o) -> link_ok l' -> fixed l' = fixed l -> privileged l' = privileged l ->
  served l request now (r, l', default output o, w').
Proof.
  intros [Hr (f & Ho & Hf)] Hl Hfix Hp. cbn [fst snd] in Hr, Ho. subst r o.
  split; cbn [fst snd default from_option id]; [done..|by left].
Qed.

Lemma request_served l request output now w :
  link_ok l -> frame_ok request -> frame_object output -> is_u32 now ->
  served l request now (dispatch_request l request output GUARDIAN_PROTOCOL_OK now w).
Proof.
  intros Hl Hreq Hout Hnow. unfold dispatch_request. cbv zeta.
  destruct (_ =? GUARDIAN_COMMAND_AUTH_BEGIN).
  { pose proof (auth_begin_served l request now w Hl Hreq Hnow) as H.
    by destruct (dispatch_auth_begin l request now w) as [[? ?] ?]. }
  destruct (_ =? GUARDIAN_COMMAND_AUTH_FINISH).
  { pose proof (auth_finish_served l request now w Hl Hreq Hnow) as H.
    by destruct (dispatch_auth_finish l request now). }
  destruct (_ =? GUARDIAN_COMMAND_GET_SECURITY_STATUS).
  { pose proof (security_status_served l request now w Hl Hreq) as H.
    by destruct (dispatch_security_status l request now). }
  destruct (_ =? GUARDIAN_COMMAND_GET_FIRMWARE_STATUS).
  { split; cbn [fst snd]; [done|by apply firmware_status_answers|done|done|by left]. }
  destruct (Z.eqb_spec (frame_command request) GUARDIAN_COMMAND_SECURE_COMMAND).
  { by apply secure_served. }
  destruct (negb (lk_security_required l =? 0) && privileged_command (frame_command request)) eqn:Eg.
  { split; cbn [fst snd]; [done|by apply make_error_answers|done|done|by left]. }
  assert (Hgate : lk_security_required l = 0 \/ privileged_command (frame_command request) = false).
  { apply andb_false_iff in Eg as [E|E]; [left|by right]. apply negb_false_iff in E. lia. }
  destruct (_ =? GUARDIAN_COMMAND_SET_TELEMETRY).
  { pose proof (telemetry_answers request output Hreq Hout (lk_telemetry l)) as H.
    destruct (guardian_telemetry_handle_request _ _ _) as [[r t] o].
    destruct H as [Ha (t' & -> & Ht)]. apply answered_served; [done| |done|done].
    destruct Hl. split; cbn; try done. by rewrite Ht. }
  destruct (_ =? GUARDIAN_COMMAND_GET_DSP_FEATURES).
  { pose proof (dsp_answers request output Hreq Hout (lk_dsp_features l) (lk_dsp_features_valid l)) as H.
    destruct (guardian_dsp_handle_request _ _ _ _) as [r o]. by apply answered_served. }
  destruct (Z.eqb_spec (frame_command request) GUARDIAN_COMMAND_GET_HEALTH_STATUS) as [E|_].
  { pose proof (health_answers request output Hreq Hout (lk_health l)) as H.
    destruct (guardian_health_handle_request _ _ _) as [[r h] o].
    destruct H as [Ha (h' & -> & Hh)]. rewrite Hh by (rewrite E; done).
    apply answered_served; [done|by destruct Hl|done|done]. }
  destruct (Z.eqb_spec (frame_command request) GUARDIAN_COMMAND_BASELINE_CONTROL) as [E|_].
  { apply privileged_served; try done. by rewrite E. }
  destruct (Z.eqb_spec (frame_command request) GUARDIAN_COMMAND_GET_CONTROL_STATUS) as [E|_].
  { pose proof (control_answers request output Hreq Hout (lk_control l) w) as H.
    destruct (guardian_control_handle_request _ _ _ w) as [[[r c] o] w'].
    destruct H as [Ha (c' & -> & Hc)]. rewrite Hc by (rewrite E; done).
    cbn [default from_option id]. set (l1 := link_control (lk_control l) l).
    assert (Hrest : same_rest l (guardian_embedded_sync_control_state l1))
      by (by apply same_rest_sync).
    apply answered_served; [done|by eapply same_rest_ok|apply Hrest|apply (sync_privileged l1)]. }
  destruct (Z.eqb_spec (frame_command request) GUARDIAN_COMMAND_CONTROL_COMMAND) as [E|_].
  { apply privileged_served; try done. by rewrite E. }
  destruct (guardian_embedded_runtime l w) as [runtime w'].
  pose proof (device_service_answers request output Hreq Hout (lk_service l) runtime
                (lo_service l Hl)) as H.
  destruct (guardian_device_service_handle _ _ _ _) as [r o]. by apply answered_served.
Qed.

(** ** Transmission *)

Lemma link_stats_ok f l : link_ok l -> link_ok (link_stats f l).
Proof. by intros []. Qed.

(** The queue gets exactly the wire image of the frame, in one call. *)
Lemma transmit_spec l frame w write :
  frame_ok frame -> io_write (lk_io l) = Some write ->
  exists f,
    guardian_embedded_transmit l frame w =
      (link_stats f l,
       (write (io_context (lk_io l)) (protocol_wire frame) (length (protocol_wire frame)) w).2).
Proof.
  intros Hf Hw. unfold guardian_embedded_transmit.
  assert (Hlen : (length (protocol_wire frame) <= GUARDIAN_MAX_FRAME_SIZE)%nat).
  { rewrite protocol_wire_length by done. pose proof (frame_ok_length _ Hf).
    unfold GUARDIAN_MAX_FRAME_SIZE, GUARDIAN_MAX_PAYLOAD_SIZE. lia. }
  rewrite encode_writes.
  - rewrite bool_decide_true by done. cbn [negb default from_option id]. rewrite Hw.
    rewrite take_app_length.
    destruct (write _ _ _ w) as [written w']. cbn [snd].
    destruct (negb _); [|by eexists].
    by exists (fun s => store_last_error GUARDIAN_ERROR_BUSY (count_error (count_queue_failure s))).
  - rewrite u8_message_type by apply Hf. apply guardian_message_type_is_valid_spec, Hf.
  - apply Hf.
  - apply Hf.
  - apply Hf.
  - rewrite length_replicate. lia.
Qed.

Lemma record_error_spec l f : exists g, guardian_embedded_record_response_error l f = link_stats g l.
Proof.
  unfold guardian_embedded_record_response_error. destruct (negb _); [by exists id; destruct l|].
  destruct (_ =? 1); [|by exists count_error].
  by exists (fun s => store_last_error (byte_at (frame_payload f) 0) (count_error s)).
Qed.

Lemma transmit_ok l frame w :
  let '(l', _) := guardian_embedded_transmit l frame w in exists f, l' = link_stats f l.
Proof.
  unfold guardian_embedded_transmit.
  destruct (guardian_protocol_encode _ _ _ _) as [[r e] n].
  destruct (negb _);
    [by exists (fun s => store_last_error GUARDIAN_ERROR_INTERNAL (count_error s))|].
  destruct (match io_write (lk_io l) with Some _ => _ | None => _ end) as [written w'].
  destruct (negb _);
    [by exists (fun s => store_last_error GUARDIAN_ERROR_BUSY (count_error (count_queue_failure s)))|].
  by exists count_tx.
Qed.

(** ** The poll loop *)

(** The callbacks deliver bytes and 32-bit times; [init] requires the writer. *)
Record io_ok (io : guardian_embedded_io_t C W) : Prop := {
  io_bytes : forall f c b w, io_read_byte io = Some f -> (f c b w).1.1 <> 0 -> is_u8 (f c b w).1.2;
  io_time : uptime_typed io;
  io_writer : is_Some (io_write io)
}.

Record poll_ok (v : poll_t) : Prop := {
  pk_request : frame_object (po_request v);
  pk_output : frame_object (po_output v);
  pk_protocol : po_protocol v = GUARDIAN_PROTOCOL_OK
}.

Lemma poll_start_ok : poll_ok poll_start.
Proof. split; [apply zero_frame_object|apply zero_frame_object|done]. Qed.

Lemma call_uptime_typed l w : uptime_typed (lk_io l) -> is_u32 (call_uptime l w).1.
Proof.
  intros H. unfold call_uptime. destruct (io_uptime_seconds (lk_io l)) as [f|] eqn:E; [by eapply H|done].
Qed.

(** What one served request may do to the privileged state. *)
Definition gated l l' (request : guardian_frame_t) (now : Z) : Prop :=
  lk_security_required l <> 0 ->
  privileged l' = privileged l \/ authorized_request l request now.

(** The byte just read completes a frame that is an authorized request at the
    time the middleware then reads. *)
Definition authorized_delivery l (v : poll_t) w : Prop :=
  exists parser request,
    guardian_parser_push_byte (Some (lk_parser l)) (po_byte v) (Some (po_request v)) =
      (GUARDIAN_PARSER_FRAME_READY, Some parser, Some request) /\
    frame_ok request /\ authorized_request l request (call_uptime l w).1.

(** One iteration of the poll loop that leaves the privileged state alone or
    serves an authorized request. *)
Inductive gated_step : link_t * poll_t * W -> link_t * poll_t * W -> Prop :=
| GatedStep l v w read available byte w1 l' v' w' :
    io_read_byte (lk_io l) = Some read ->
    read (io_context (lk_io l)) (po_byte v) w = (available, byte, w1) -> available <> 0 ->
    let v1 := POLL byte (po_request v) (po_output v) (po_protocol v) in
    poll_byte l v1 w1 = (l', v', w') ->
    privileged l' = privileged l \/ authorized_delivery l v1 w1 ->
    gated_step (l, v, w) (l', v', w').

Lemma serve_spec l v w write :
  link_ok l -> poll_ok v -> frame_ok (po_request v) -> uptime_typed (lk_io l) ->
  io_write (lk_io l) = Some write ->
  let '(l', v', w') := serve_request l v w in
  link_ok l' /\ poll_ok v' /\ fixed l' = fixed l /\
  gated l l' (po_request v) (call_uptime l w).1 /\
  exists reply w1,
    answers (po_request v) reply /\
    w' = (write (io_context (lk_io l)) (protocol_wire reply) (length (protocol_wire reply)) w1).2.
Proof.
  intros Hl [Hvr Hvo Hvp] Hreq Htime Hw. unfold serve_request.
  set (l1 := link_stats count_rx l). assert (Hl1 : link_ok l1) by (by apply link_stats_ok).
  pose proof (call_uptime_typed l1 w Htime) as Hnow. change (call_uptime l w) with (call_uptime l1 w).
  destruct (call_uptime l1 w) as [now w1]. cbn [fst] in Hnow |- *.
  rewrite Hvp. pose proof (request_served l1 (po_request v) (po_output v) now w1 Hl1 Hreq Hvo Hnow) as H.
  destruct (dispatch_request _ _ _ _ now w1) as [[[p l2] output] w2].
  destruct H as [Hp Ha Hfix Hl2 Hgate]. cbn [fst snd] in *. subst p.
  rewrite bool_decide_true by done. cbn [negb].
  destruct (record_error_spec l2 output) as [g ->].
  assert (Hw2 : io_write (lk_io (link_stats g l2)) = Some write).
  { unfold fixed in Hfix. injection Hfix as _ _ E _. cbn. rewrite E. exact Hw. }
  destruct (transmit_spec (link_stats g l2) output w2 write (answers_ok _ _ Ha) Hw2) as [h ->].
  split; [by apply link_stats_ok, link_stats_ok|].
  split; [split; cbn; [done|by apply frame_ok_object, Ha|done]|].
  split; [exact Hfix|]. split.
  - exact Hgate.
  - exists output, w2. split; [done|]. unfold fixed in Hfix. injection Hfix as _ _ E _.
    cbn [lk_io link_stats]. by rewrite E.
Qed.

(** A telemetry frame is one the encoder accepts. *)
Lemma due_frame_spec l v : link_ok l -> poll_ok v ->
  exists due t f,
    guardian_telemetry_make_due_frame (Some (lk_telemetry l)) (lk_state l) (Some (po_output v)) =
      (due, Some t, Some f) /\
    is_u32 (tm_next_sequence t) /\ (due <> 0 -> frame_ok f).
Proof.
  intros Hl [_ Ho _]. pose proof (lo_sequence l Hl) as Hs.
  unfold guardian_telemetry_make_due_frame. cbv zeta.
  destruct (_ =? 0); [by exists 0, (lk_telemetry l), (po_output v)|].
  destruct (_ <? _); [by exists 0, (lk_telemetry l), (po_output v)|].
  eexists 1, _, _. split; [reflexivity|]. cbn [tm_next_sequence]. split.
  - destruct (_ =? UINT32_MAX); [done|apply u32_range].
  - intros _. pose proof Ho as Hp.
    unfold guardian_telemetry_write_u32_be, guardian_telemetry_write_i16_be,
      guardian_telemetry_write_u16_be.
    match goal with |- frame_ok (FRAME _ _ _ _ _ ?p) =>
      assert (payload_object p) as [Hlen Hb] by status_stores end.
    split; cbn; try done.
Qed.

Definition same_config l l' : Prop :=
  lk_io l' = lk_io l /\ lk_security_required l' = lk_security_required l.

Lemma poll_byte_spec l v w :
  link_ok l -> poll_ok v -> io_ok (lk_io l) -> is_u8 (po_byte v) ->
  let '(l', v', w') := poll_byte l v w in
  link_ok l' /\ poll_ok v' /\ same_config l l' /\
  (lk_security_required l <> 0 -> privileged l' = privileged l \/ authorized_delivery l v w).
Proof.
  intros Hl Hv Hio Hb. unfold poll_byte, authorized_delivery, guardian_parser_push_byte.
  pose proof (parser_step_spec (lk_parser l) (po_byte v) (po_request v) (candidate (lk_parser l))
                (lo_parser l Hl) Hb (pk_request v Hv) ltac:(reflexivity)) as [Hinv Hfr _ Hready].
  destruct (parser_step (lk_parser l) (po_byte v) (po_request v)) as [[r p] f].
  cbn [fst snd] in Hinv, Hfr, Hready. cbn [default from_option id].
  set (l1 := link_parser p l). set (v1 := POLL _ f _ _).
  assert (Hl1 : link_ok l1) by (destruct Hl; by split).
  assert (Hv1 : poll_ok v1) by (destruct Hv; by split).
  case_bool_decide; [split; [done|split; [done|split; [done|intros _; by left]]]|].
  case_bool_decide as Hr; cbn [negb].
  2: { split; [by apply link_stats_ok, link_stats_ok|split; [done|split; [done|intros _; by left]]]. }
  destruct (io_writer _ Hio) as [write Hw]. pose proof (proj1 (Hready Hr)) as Hf.
  pose proof (serve_spec l1 v1 w write Hl1 Hv1 Hf (io_time _ Hio) Hw) as Hs.
  destruct (serve_request l1 v1 w) as [[l2 v2] w2]. destruct Hs as (H1 & H2 & H3 & H4 & _).
  unfold fixed in H3. injection H3 as _ _ E1 E2. split; [done|]. split; [done|]. split; [done|].
  intros Hreq. destruct (H4 Hreq) as [|Hau]; [by left|right]. exists p, f. by rewrite Hr.
Qed.

Lemma poll_loop_spec budget : forall l v w,
  link_ok l -> poll_ok v -> io_ok (lk_io l) -> lk_security_required l <> 0 ->
  let '(l', v', w') := poll_loop budget l v w in
  link_ok l' /\ poll_ok v' /\ exists v1 w1, rtc gated_step (l, v, w) (l', v1, w1).
Proof.
  induction budget as [|budget IH]; intros l v w Hl Hv Hio Hr; cbn [poll_loop].
  { split; [done|split; [done|]]. by exists v, w. }
  destruct (io_read_byte (lk_io l)) as [read|] eqn:Eread.
  2: { split; [done|split; [by destruct Hv|]]. by exists v, w. }
  destruct (read (io_context (lk_io l)) (po_byte v) w) as [[available byte] w1] eqn:Er.
  set (v1 := POLL byte _ _ _). assert (Hv1 : poll_ok v1) by (destruct Hv; by split).
  destruct (Z.eqb_spec available 0) as [|Ha].
  { split; [done|split; [done|]]. by exists v, w. }
  assert (Hb : is_u8 (po_byte v1)).
  { pose proof (io_bytes _ Hio read (io_context (lk_io l)) (po_byte v) w Eread) as Hf.
    rewrite Er in Hf. by apply Hf. }
  pose proof (poll_byte_spec l v1 w1 Hl Hv1 Hio Hb) as Hs.
  destruct (poll_byte l v1 w1) as [[l2 v2] w2] eqn:Eb. destruct Hs as (Hl2 & Hv2 & [Ei Er2] & Hg).
  pose proof (IH l2 v2 w2 Hl2 Hv2) as Hrec. rewrite Ei, Er2 in Hrec. specialize (Hrec Hio Hr).
  destruct (poll_loop budget l2 v2 w2) as [[l3 v3] w3].
  destruct Hrec as (Hl3 & Hv3 & v4 & w4 & Hrtc). split; [done|]. split; [done|]. exists v4, w4.
  eapply rtc_l; [|exact Hrtc]. exact (GatedStep _ _ _ _ _ _ _ _ _ _ Eread Er Ha Eb (Hg Hr)).
Qed.
End link.

(** ** The gate *)

(** C18: When security is required, a poll, whatever bytes arrive and however many, is
    a run of loop iterations each of which either leaves the health baseline, the
    supervisory control and the firmware lifecycle as they were, or reads the last
    byte of a SECURE_COMMAND frame that carries, under the key of the session live at
    that moment, the next counter and a command the role of the session allows.
    Nothing after the loop touches them, and the invariant of the middleware is kept. *)
Theorem privileged_state_is_gated {C W} (l : guardian_embedded_link_t C W) budget w :
  link_ok l -> io_ok (lk_io l) -> lk_security_required l <> 0 ->
  exists l' w' l1 v1 w1,
    guardian_embedded_link_poll (Some l) budget w = (Some l', w') /\ link_ok l' /\
    rtc gated_step (l, poll_start, w) (l1, v1, w1) /\ privileged l' = privileged l1.
Proof.
  intros Hl Hio Hr. unfold guardian_embedded_link_poll.
  set (n := if (budget =? 0)%nat then _ else _).
  pose proof (poll_loop_spec n l poll_start w Hl poll_start_ok Hio Hr) as H.
  destruct (poll_loop n l poll_start w) as [[l1 v1] w1]. destruct H as (Hl1 & Hv1 & v2 & w2 & Hg).
  destruct (due_frame_spec l1 v1 Hl1 Hv1) as (due & t & f & -> & Ht & Hf).
  cbn [default from_option id].
  assert (Hl2 : link_ok (link_telemetry t l1)) by (destruct Hl1; by split).
  destruct (negb (due =? 0)); [|by exists (link_telemetry t l1), w1, l1, v2, w2].
  pose proof (transmit_ok (link_telemetry t l1) f w1) as Htx.
  destruct (guardian_embedded_transmit _ f w1) as [l2 w3]. destruct Htx as [g ->].
  exists (link_stats g (link_telemetry t l1)), w3, l1, v2, w2. split; [done|].
  split; [by apply link_stats_ok|done].
Qed.

(** ** Every request is answered *)







(** ** Initialization *)

Lemma init_link_ok {C W} (l l' : guardian_embedded_link_t C W) io identity m :
  guardian_embedded_link_init (Some l) (Some io) (Some identity) = (GUARDIAN_PROTOCOL_OK, Some l') ->
  id_model identity = Some m -> bytes m ->
  link_ok l' /\ lk_io l' = io /\ parser_state (lk_parser l') = GUARDIAN_PARSER_WAIT_MAGIC_0 /\
  counters_ok (counters (lk_parser l')).
Proof.
  intros H Hm Hb. unfold guardian_embedded_link_init in H.
  destruct (is_null (io_read_byte io) || _ || _); [done|].
  unfold guardian_device_service_init in H. cbv zeta in H.
  destruct (Nat.eqb_spec (guardian_device_model_length (id_model identity)) 0); [done|].
  destruct (Nat.ltb_spec GUARDIAN_DEVICE_MODEL_MAX_LENGTH
              (guardian_device_model_length (id_model identity))); [done|].
  injection H as <-. split_and!; [|done|done|vm_compute; repeat split; congruence].
  split; cbn.
  - apply fresh_parser_inv.
  - split; [by exists m|done].
  - done.
  - apply zero_security_ok.
Qed.

(** ** Witnesses *)

(** A transport: the bytes to read and the bytes written. *)
Definition example_world : Type := list Z * list Z.

Definition example_io : guardian_embedded_io_t unit example_world :=
  IO (Some (fun _ byte w => match w.1 with
                            | [] => (0, byte, w)
                            | b :: rest => (1, b `mod` 2 ^ 8, (rest, w.2))
                            end))
     (Some (fun _ data n w => (n, (w.1, w.2 ++ data))))
     (Some (fun _ w => (60, w))) None.

Definition example_identity : guardian_device_identity_t :=
  IDENTITY (Some [0x47; 0x46; 0]) 1 2 3 77.

Definition example_blank_link : guardian_embedded_link_t unit example_world :=
  LINK fresh_parser (SERVICE example_identity) (TELEMETRY 0 0 0 0 0 (MEASUREMENTS 0 0 0 0 0 0))
    (FEATURES 0 0 0 0 0 0 0 0 0 0 0 0 0) 0 untrained_health (CONTROL init_status (OUTPUT None None))
    zero_security zero_lifecycle 0 example_io GUARDIAN_DEVICE_STATE_BOOT (LINK_STATS 0 0 0 0 0).

Definition example_link : guardian_embedded_link_t unit example_world :=
  default example_blank_link
    (guardian_embedded_link_init (Some example_blank_link) (Some example_io)
       (Some example_identity)).2.

Definition example_ping : guardian_frame_t :=
  FRAME GUARDIAN_MESSAGE_REQUEST GUARDIAN_COMMAND_PING 0 5 0 (replicate 256 0).

(** A ping on the wire is answered PONG, with its sequence number. *)
Example example_pong :
  (guardian_embedded_link_poll (Some example_link) 0 (protocol_wire example_ping, [])).2 =
  ([], protocol_wire (FRAME GUARDIAN_MESSAGE_RESPONSE GUARDIAN_COMMAND_PING 0 5 4
                        ([0x50; 0x4F; 0x4E; 0x47] ++ replicate 252 0))).
Proof. vm_compute. reflexivity. Qed.

Lemma example_io_ok : io_ok example_io.
Proof.
  split.
  - intros f c b w [= <-]. destruct w as [[|x rest] tx]; cbn; [done|intros _].
    apply Z.mod_pos_bound. lia.
  - intros f c w [= <-]. done.
  - by eexists.
Qed.

Lemma example_link_ok : link_ok example_link /\ lk_io example_link = example_io /\
  parser_state (lk_parser example_link) = GUARDIAN_PARSER_WAIT_MAGIC_0 /\
  counters_ok (counters (lk_parser example_link)).
Proof.
  apply (init_link_ok example_blank_link _ _ example_identity [0x47; 0x46; 0]); [reflexivity|reflexivity|].
  apply (bool_decide_unpack _). vm_compute. exact I.
Qed.



Definition example_gated_link : guardian_embedded_link_t unit example_world :=
  default example_link (guardian_embedded_link_require_security (Some example_link) 1).

Lemma example_gated_ok : link_ok example_gated_link.
Proof. destruct example_link_ok as [[] _]. by split. Qed.

Lemma privileged_state_is_gated_witness :
  exists l' w' l1 v1 w1,
  guardian_embedded_link_poll (Some example_gated_link) 0 (protocol_wire example_ping, []) = (Some l', w') /\
  link_ok l' /\
  rtc gated_step (example_gated_link, poll_start, (protocol_wire example_ping, [])) (l1, v1, w1) /\
  privileged l' = privileged l1.
Proof.
  exact (privileged_state_is_gated example_gated_link 0 (protocol_wire example_ping, [])
           example_gated_ok example_io_ok ltac:(discriminate)).
Defined.
