(* ===== verification/Wire.v ===== *)
(** * Corroboration payloads

    Model of the two payload codecs of MultiNode/: the observation
    (MultiNode/Src/guardian_corroboration_wire.c) and the acknowledgement
    (MultiNode/Src/guardian_corroboration_ack.c), and of the little-endian fields
    that these files, the signed envelope and the ingress transaction share. *)

From S2P Require Import Prelude Crypto.

(** ** Little-endian fields *)

(** [put32] of the corroboration files: four shifts. *)
Definition put32 (value : Z) : list Z :=
  [u8 value; u8 (Z.shiftr value 8); u8 (Z.shiftr value 16); u8 (Z.shiftr value 24)].

(** [put32] of the envelope and [put] of the ingress transaction: a loop that
    stores the low byte and shifts. *)
Fixpoint put32_loop (count : nat) (n : Z) : list Z :=
  match count with
  | O => []
  | S count => u8 (Z.land n 255) :: put32_loop count (Z.shiftr n 8)
  end.

Definition get32 (p : list Z) : Z :=
  Z.lor (Z.lor (Z.lor (byte_at p 0) (u32 (Z.shiftl (byte_at p 1) 8)))
               (u32 (Z.shiftl (byte_at p 2) 16)))
        (u32 (Z.shiftl (byte_at p 3) 24)).

Lemma put32_eq v :
  put32 v = [v `mod` 256; (v `div` 2 ^ 8) `mod` 256; (v `div` 2 ^ 16) `mod` 256;
             (v `div` 2 ^ 24) `mod` 256].
Proof. unfold put32, u8. by rewrite !shiftr_div by lia. Qed.

Lemma put32_loop_eq v : put32_loop 4 v = put32 v.
Proof.
  rewrite put32_eq. cbn [put32_loop]. unfold u8. rewrite !land_255, !shiftr_div by lia.
  change (2 ^ 8) with 256. by rewrite !Z.mod_mod, !Z.div_div by lia.
Qed.

Lemma put32_length v : length (put32 v) = 4%nat.
Proof. done. Qed.

Lemma put32_bytes v : bytes (put32 v).
Proof. unfold put32. repeat constructor; apply u8_range. Qed.

Lemma lor_add_high lo hi k : 0 <= k -> 0 <= lo < 2 ^ k -> Z.lor lo (hi * 2 ^ k) = lo + hi * 2 ^ k.
Proof. intros. rewrite Z.lor_comm, lor_add_disjoint by done. lia. Qed.

Lemma get32_cons a b c d l :
  is_u8 a -> is_u8 b -> is_u8 c -> is_u8 d ->
  get32 (a :: b :: c :: d :: l) = a + b * 2 ^ 8 + c * 2 ^ 16 + d * 2 ^ 24.
Proof.
  unfold is_u8, get32, byte_at, u32. cbn [nth]. intros.
  rewrite !Z.shiftl_mul_pow2, !Z.mod_small by lia.
  rewrite (lor_add_high a b 8), (lor_add_high _ c 16), (lor_add_high _ d 24) by lia. done.
Qed.

Lemma get32_range l : bytes l -> is_u32 (get32 l).
Proof.
  intros Hl. pose proof (fun i => byte_at_range l i Hl) as Hat.
  change (get32 l) with (get32 (byte_at l 0 :: byte_at l 1 :: byte_at l 2 :: byte_at l 3 :: [])).
  rewrite get32_cons by apply Hat.
  pose proof (Hat 0%nat). pose proof (Hat 1%nat). pose proof (Hat 2%nat). pose proof (Hat 3%nat).
  unfold_ints. lia.
Qed.

Lemma get_put32 v l : is_u32 v -> get32 (put32 v ++ l) = v.
Proof.
  intros Hv. rewrite put32_eq. cbn [app].
  rewrite get32_cons by (unfold is_u8; div_mod_lia). unfold is_u32 in Hv. div_mod_lia.
Qed.

Lemma put_get32_take l : bytes l -> (4 <= length l)%nat -> put32 (get32 l) = take 4 l.
Proof.
  intros Hl Hn. destruct l as [|a [|b [|c [|d l]]]]; cbn in Hn; [lia..|].
  unfold bytes in Hl. rewrite !Forall_cons in Hl. destruct Hl as (Ha & Hb & Hc & Hd & _).
  rewrite get32_cons by done. rewrite put32_eq. unfold is_u8 in *. cbn [take].
  repeat f_equal; div_mod_lia.
Qed.

(** The first bytes of a buffer, one by one. *)
Lemma split_bytes n (l : list Z) :
  (n <= length l)%nat -> l = map (byte_at l) (seq 0 n) ++ drop n l.
Proof.
  intros Hn. rewrite <- (take_drop n l) at 1. f_equal.
  apply (byte_at_ext _ _ n); [by rewrite length_take_le|by rewrite length_map, length_seq|].
  intros i Hi. rewrite byte_at_take by done. unfold byte_at at 2.
  rewrite (nth_indep _ 0 (byte_at l 0)) by (by rewrite length_map, length_seq).
  by rewrite map_nth, seq_nth by done.
Qed.

Lemma put32_inj v w : is_u32 v -> is_u32 w -> put32 v = put32 w -> v = w.
Proof.
  intros Hv Hw H. rewrite <- (get_put32 v []), <- (get_put32 w []) by done. by rewrite H.
Qed.

Lemma get32_app l k : (4 <= length l)%nat -> get32 (l ++ k) = get32 l.
Proof. intros H. by destruct l as [|? [|? [|? [|? ?]]]]; cbn in H; try lia. Qed.

(** A buffer read field by field: the next four bytes, then the rest. *)
Lemma split_u32 l : bytes l -> (4 <= length l)%nat -> l = put32 (get32 l) ++ drop 4 l.
Proof. intros Hb Hl. rewrite put_get32_take by done. by rewrite take_drop. Qed.

#[export] Hint Resolve put32_bytes get32_range : guardian.
#[export] Hint Rewrite put32_length : guardian_len.

(** ** The observation (guardian_corroboration_wire) *)

Definition GC_WIRE_SIZE : nat := 52.
Definition GC_WIRE_VERSION : Z := 1.
Definition GC_WIRE_COMMITMENT_SIZE : nat := 32.

Record gc_wire_observation := WIRE_OBSERVATION {
  wo_generation : Z; wo_policy : Z; wo_profile : Z; wo_round : Z;
  wo_claims_actuation : Z;
  wo_commitment : list Z
}.

Inductive gc_wire_result := GC_WIRE_OK | GC_WIRE_INVALID | GC_WIRE_CAPACITY.

#[global] Instance gc_wire_result_eq_dec : EqDecision gc_wire_result.
Proof. solve_decision. Defined.

Definition wire_valid (value : gc_wire_observation) : bool :=
  negb (wo_generation value =? 0) && negb (wo_policy value =? 0) &&
  negb (wo_profile value =? 0) && negb (wo_round value =? 0) &&
  (wo_claims_actuation value <=? 1).

Definition gc_wire_encode (observation : option gc_wire_observation) (output : option (list Z))
    (capacity : nat) (output_length : option nat)
  : gc_wire_result * option (list Z) * option nat :=
  match output_length with
  | None => (GC_WIRE_INVALID, output, None)
  | Some _ =>
      match observation, output with
      | Some o, Some out =>
          early negb (wire_valid o) with (GC_WIRE_INVALID, output, Some 0%nat) ;;
          early (capacity <? GC_WIRE_SIZE)%nat with (GC_WIRE_CAPACITY, output, Some 0%nat) ;;
          let wire := replicate GC_WIRE_SIZE 0 in
          let wire := blit wire 0 [GC_WIRE_VERSION] in
          let wire := blit wire 1 [wo_claims_actuation o] in
          let wire := blit wire 4 (put32 (wo_generation o)) in
          let wire := blit wire 8 (put32 (wo_policy o)) in
          let wire := blit wire 12 (put32 (wo_profile o)) in
          let wire := blit wire 16 (put32 (wo_round o)) in
          let wire := blit wire 20 (take GC_WIRE_COMMITMENT_SIZE (wo_commitment o)) in
          (GC_WIRE_OK, Some (blit out 0 wire), Some GC_WIRE_SIZE)
      | _, _ => (GC_WIRE_INVALID, output, Some 0%nat)
      end
  end.

Definition gc_wire_decode (input : option (list Z)) (length : nat)
    (observation : option gc_wire_observation)
  : gc_wire_result * option gc_wire_observation :=
  match input, observation with
  | Some inp, Some _ =>
      early negb (length =? GC_WIRE_SIZE)%nat with (GC_WIRE_INVALID, observation) ;;
      early negb (byte_at inp 0 =? GC_WIRE_VERSION) || (1 <? byte_at inp 1)
            || negb (byte_at inp 2 =? 0) || negb (byte_at inp 3 =? 0)
        with (GC_WIRE_INVALID, observation) ;;
      let candidate :=
        WIRE_OBSERVATION (get32 (drop 4 inp)) (get32 (drop 8 inp)) (get32 (drop 12 inp))
          (get32 (drop 16 inp)) (byte_at inp 1)
          (take GC_WIRE_COMMITMENT_SIZE (drop 20 inp)) in
      early negb (wire_valid candidate) with (GC_WIRE_INVALID, observation) ;;
      (GC_WIRE_OK, Some candidate)
  | _, _ => (GC_WIRE_INVALID, observation)
  end.

(** ** The acknowledgement (guardian_corroboration_ack) *)

Definition GC_ACK_SIZE : nat := 60.
Definition GC_ACK_VERSION : Z := 1.
Definition GC_ACK_KIND : Z := 0xa1.

Record gc_ack := ACK {
  ack_generation : Z; ack_policy : Z; ack_profile : Z; ack_round : Z;
  ack_observation_epoch : Z; ack_observation_sequence : Z;
  ack_commitment : list Z
}.

Inductive gc_ack_result := GC_ACK_OK | GC_ACK_INVALID | GC_ACK_CAPACITY | GC_ACK_MISMATCH.

#[global] Instance gc_ack_result_eq_dec : EqDecision gc_ack_result.
Proof. solve_decision. Defined.

Definition ack_valid (a : option gc_ack) : bool :=
  match a with
  | None => false
  | Some a =>
      negb (ack_generation a =? 0) && negb (ack_policy a =? 0) && negb (ack_profile a =? 0) &&
      negb (ack_round a =? 0) && negb (ack_observation_epoch a =? 0) &&
      negb (ack_observation_sequence a =? 0)
  end.

Definition gc_ack_encode (a : option gc_ack) (output : option (list Z)) (capacity : nat)
    (length : option nat) : gc_ack_result * option (list Z) * option nat :=
  match length with
  | None => (GC_ACK_INVALID, output, None)
  | Some _ =>
      match a, output with
      | Some v, Some out =>
          early negb (ack_valid a) with (GC_ACK_INVALID, output, Some 0%nat) ;;
          early (capacity <? GC_ACK_SIZE)%nat with (GC_ACK_CAPACITY, output, Some 0%nat) ;;
          let wire := replicate GC_ACK_SIZE 0 in
          let wire := blit wire 0 [GC_ACK_VERSION] in
          let wire := blit wire 1 [GC_ACK_KIND] in
          let wire := blit wire 4 (put32 (ack_generation v)) in
          let wire := blit wire 8 (put32 (ack_policy v)) in
          let wire := blit wire 12 (put32 (ack_profile v)) in
          let wire := blit wire 16 (put32 (ack_round v)) in
          let wire := blit wire 20 (put32 (ack_observation_epoch v)) in
          let wire := blit wire 24 (put32 (ack_observation_sequence v)) in
          let wire := blit wire 28 (take 32 (ack_commitment v)) in
          (GC_ACK_OK, Some (blit out 0 wire), Some GC_ACK_SIZE)
      | _, _ => (GC_ACK_INVALID, output, Some 0%nat)
      end
  end.

Definition gc_ack_decode (input : option (list Z)) (length : nat) (a : option gc_ack)
  : gc_ack_result * option gc_ack :=
  match input, a with
  | Some inp, Some _ =>
      early negb (length =? GC_ACK_SIZE)%nat with (GC_ACK_INVALID, a) ;;
      early negb (byte_at inp 0 =? GC_ACK_VERSION) || negb (byte_at inp 1 =? GC_ACK_KIND)
            || negb (byte_at inp 2 =? 0) || negb (byte_at inp 3 =? 0)
        with (GC_ACK_INVALID, a) ;;
      let candidate :=
        ACK (get32 (drop 4 inp)) (get32 (drop 8 inp)) (get32 (drop 12 inp)) (get32 (drop 16 inp))
          (get32 (drop 20 inp)) (get32 (drop 24 inp)) (take 32 (drop 28 inp)) in
      early negb (ack_valid (Some candidate)) with (GC_ACK_INVALID, a) ;;
      (GC_ACK_OK, Some candidate)
  | _, _ => (GC_ACK_INVALID, a)
  end.

(** The loop accumulates the differences of the commitments. *)
Definition gc_ack_match (a pending : option gc_ack) : gc_ack_result :=
  early negb (ack_valid a) || negb (ack_valid pending) with GC_ACK_INVALID ;;
  match a, pending with
  | Some a, Some p =>
      early negb (ack_generation a =? ack_generation p) || negb (ack_policy a =? ack_policy p)
            || negb (ack_profile a =? ack_profile p) || negb (ack_round a =? ack_round p)
            || negb (ack_observation_epoch a =? ack_observation_epoch p)
            || negb (ack_observation_sequence a =? ack_observation_sequence p)
        with GC_ACK_MISMATCH ;;
      let diff :=
        foldl (fun diff i =>
                 u8 (Z.lor diff (u8 (Z.lxor (byte_at (ack_commitment a) i)
                                            (byte_at (ack_commitment p) i)))))
          0 (seq 0 32) in
      if diff =? 0 then GC_ACK_OK else GC_ACK_MISMATCH
  | _, _ => GC_ACK_INVALID
  end.

(** ** Objects and images *)

(** The C objects: every member within its type. *)
Record wire_object (o : gc_wire_observation) : Prop := {
  wio_generation : is_u32 (wo_generation o);
  wio_policy : is_u32 (wo_policy o);
  wio_profile : is_u32 (wo_profile o);
  wio_round : is_u32 (wo_round o);
  wio_claims : is_u8 (wo_claims_actuation o);
  wio_commitment : bytes (wo_commitment o);
  wio_length : length (wo_commitment o) = 32%nat
}.

Definition wire_image (o : gc_wire_observation) : list Z :=
  [GC_WIRE_VERSION; wo_claims_actuation o; 0; 0] ++ put32 (wo_generation o) ++
  put32 (wo_policy o) ++ put32 (wo_profile o) ++ put32 (wo_round o) ++ wo_commitment o.

Record ack_object (a : gc_ack) : Prop := {
  ako_generation : is_u32 (ack_generation a);
  ako_policy : is_u32 (ack_policy a);
  ako_profile : is_u32 (ack_profile a);
  ako_round : is_u32 (ack_round a);
  ako_epoch : is_u32 (ack_observation_epoch a);
  ako_sequence : is_u32 (ack_observation_sequence a);
  ako_commitment : bytes (ack_commitment a);
  ako_length : length (ack_commitment a) = 32%nat
}.

Definition ack_image (a : gc_ack) : list Z :=
  [GC_ACK_VERSION; GC_ACK_KIND; 0; 0] ++ put32 (ack_generation a) ++ put32 (ack_policy a) ++
  put32 (ack_profile a) ++ put32 (ack_round a) ++ put32 (ack_observation_epoch a) ++
  put32 (ack_observation_sequence a) ++ ack_commitment a.

(** The last store fills the buffer up to its end. *)
Lemma blit_tail (dst src : list Z) off :
  length dst = (off + length src)%nat -> blit dst off src = take off dst ++ src.
Proof. intros H. unfold blit. rewrite (drop_ge dst) by lia. by rewrite app_nil_r. Qed.

Lemma wire_encode_eq o out cap n :
  wire_object o -> wire_valid o = true -> (GC_WIRE_SIZE <= cap)%nat ->
  gc_wire_encode (Some o) (Some out) cap (Some n) =
  (GC_WIRE_OK, Some (blit out 0 (wire_image o)), Some GC_WIRE_SIZE).
Proof.
  intros [] Hv Hc. unfold gc_wire_encode. rewrite Hv. cbn [negb].
  destruct (Nat.ltb_spec cap GC_WIRE_SIZE); [lia|].
  rewrite (take_ge (wo_commitment o)) by (unfold GC_WIRE_COMMITMENT_SIZE; lia).
  rewrite (blit_tail _ (wo_commitment o)) by (rewrite wio_length0; reflexivity). reflexivity.
Qed.

Lemma ack_encode_eq a out cap n :
  ack_object a -> ack_valid (Some a) = true -> (GC_ACK_SIZE <= cap)%nat ->
  gc_ack_encode (Some a) (Some out) cap (Some n) =
  (GC_ACK_OK, Some (blit out 0 (ack_image a)), Some GC_ACK_SIZE).
Proof.
  intros [] Hv Hc. unfold gc_ack_encode. rewrite Hv. cbn [negb].
  destruct (Nat.ltb_spec cap GC_ACK_SIZE); [lia|].
  rewrite (take_ge (ack_commitment a)) by lia.
  rewrite (blit_tail _ (ack_commitment a)) by (rewrite ako_length0; reflexivity). reflexivity.
Qed.

(** A buffer from the field at [n] on. *)
Lemma split_u32_at l n m :
  bytes l -> (n + 4 <= length l)%nat -> m = (n + 4)%nat ->
  drop n l = put32 (get32 (drop n l)) ++ drop m l.
Proof.
  intros Hb Hl ->. rewrite <- drop_drop. apply split_u32; [by apply bytes_drop|].
  rewrite length_drop. lia.
Qed.


Lemma wire_decode_image o x :
  wire_object o -> wire_valid o = true ->
  gc_wire_decode (Some (wire_image o)) GC_WIRE_SIZE (Some x) = (GC_WIRE_OK, Some o).
Proof.
  intros [] Hv. unfold gc_wire_decode. rewrite Nat.eqb_refl. cbn [negb].
  change (drop 4 (wire_image o)) with (put32 (wo_generation o) ++ drop 8 (wire_image o)).
  change (drop 8 (wire_image o)) with (put32 (wo_policy o) ++ drop 12 (wire_image o)).
  change (drop 12 (wire_image o)) with (put32 (wo_profile o) ++ drop 16 (wire_image o)).
  change (drop 16 (wire_image o)) with (put32 (wo_round o) ++ drop 20 (wire_image o)).
  change (drop 20 (wire_image o)) with (wo_commitment o).
  rewrite !get_put32, take_ge by first [done|unfold GC_WIRE_COMMITMENT_SIZE; lia].
  change (byte_at (wire_image o) 1) with (wo_claims_actuation o).
  assert (Hc : (1 <? wo_claims_actuation o) = false).
  { unfold wire_valid in Hv. rewrite !andb_true_iff in Hv. lia. }
  rewrite Hc. replace (WIRE_OBSERVATION _ _ _ _ _ _) with o by (by destruct o).
  by rewrite Hv.
Qed.

Lemma wire_decode_ok input n x r o' :
  bytes input -> length input = n ->
  gc_wire_decode (Some input) n (Some x) = (r, o') ->
  (r = GC_WIRE_INVALID /\ o' = Some x) \/
  (r = GC_WIRE_OK /\ exists o, o' = Some o /\ wire_object o /\ wire_valid o = true /\
                     input = wire_image o).
Proof.
  intros Hb Hn. unfold gc_wire_decode.
  destruct (Nat.eqb_spec n GC_WIRE_SIZE) as [->|]; cbn [negb]; [|intros [= <- <-]; by left].
  destruct (_ || _) eqn:Eh; [intros [= <- <-]; by left|].
  set (o := WIRE_OBSERVATION _ _ _ _ _ _).
  destruct (wire_valid o) eqn:Ev; cbn [negb]; intros [= <- <-]; [right|by left].
  split; [done|]. exists o. split; [done|]. unfold GC_WIRE_SIZE in Hn.
  rewrite !orb_false_iff, !negb_false_iff, !Z.eqb_eq in Eh. destruct Eh as (((E0 & _) & E2) & E3).
  split; [|split; [done|]].
  - split; try (apply get32_range, bytes_drop; done); [by apply byte_at_range| |].
    + by apply bytes_take, bytes_drop.
    + cbn. rewrite length_take, length_drop, Hn. reflexivity.
  - rewrite (split_bytes 4 input) at 1 by lia. cbn [map seq]. rewrite E0, E2, E3.
    unfold wire_image, o. cbn [wo_generation wo_policy wo_profile wo_round wo_claims_actuation wo_commitment].
    rewrite (split_u32_at input 4 8), (split_u32_at input 8 12), (split_u32_at input 12 16),
      (split_u32_at input 16 20) at 1 by (done || lia).
    by rewrite (take_ge (drop 20 input)) by (rewrite length_drop; unfold GC_WIRE_COMMITMENT_SIZE; lia).
Qed.

(** A decoder accepts exactly the images of the valid objects, and gives that
    object back; otherwise it leaves its output alone. *)
Theorem wire_decode_exact input n x o :
  bytes input -> length input = n ->
  gc_wire_decode (Some input) n (Some x) = (GC_WIRE_OK, Some o) <->
  wire_object o /\ wire_valid o = true /\ input = wire_image o.
Proof.
  intros Hb Hn. split.
  - intros H. destruct (wire_decode_ok _ _ _ _ _ Hb Hn H) as [[[=] _]|(_ & o1 & [= <-] & Ho)]. done.
  - intros (Ho & Hv & ->). rewrite <- Hn.
    replace (length (wire_image o)) with GC_WIRE_SIZE; [by apply wire_decode_image|].
    unfold wire_image. rewrite !length_app, !put32_length, (wio_length _ Ho). reflexivity.
Qed.

Lemma ack_decode_image a x :
  ack_object a -> ack_valid (Some a) = true ->
  gc_ack_decode (Some (ack_image a)) GC_ACK_SIZE (Some x) = (GC_ACK_OK, Some a).
Proof.
  intros [] Hv. unfold gc_ack_decode. rewrite Nat.eqb_refl. cbn [negb].
  change (drop 4 (ack_image a)) with (put32 (ack_generation a) ++ drop 8 (ack_image a)).
  change (drop 8 (ack_image a)) with (put32 (ack_policy a) ++ drop 12 (ack_image a)).
  change (drop 12 (ack_image a)) with (put32 (ack_profile a) ++ drop 16 (ack_image a)).
  change (drop 16 (ack_image a)) with (put32 (ack_round a) ++ drop 20 (ack_image a)).
  change (drop 20 (ack_image a)) with (put32 (ack_observation_epoch a) ++ drop 24 (ack_image a)).
  change (drop 24 (ack_image a)) with (put32 (ack_observation_sequence a) ++ drop 28 (ack_image a)).
  change (drop 28 (ack_image a)) with (ack_commitment a).
  rewrite !get_put32, take_ge by first [done|lia].
  replace (ACK _ _ _ _ _ _ _) with a by (by destruct a). by rewrite Hv.
Qed.

Lemma ack_decode_ok input n x r o' :
  bytes input -> length input = n ->
  gc_ack_decode (Some input) n (Some x) = (r, o') ->
  (r = GC_ACK_INVALID /\ o' = Some x) \/
  (r = GC_ACK_OK /\ exists a, o' = Some a /\ ack_object a /\ ack_valid (Some a) = true /\
                     input = ack_image a).
Proof.
  intros Hb Hn. unfold gc_ack_decode.
  destruct (Nat.eqb_spec n GC_ACK_SIZE) as [->|]; cbn [negb]; [|intros [= <- <-]; by left].
  destruct (_ || _) eqn:Eh; [intros [= <- <-]; by left|].
  set (a := ACK _ _ _ _ _ _ _).
  destruct (ack_valid (Some a)) eqn:Ev; cbn [negb]; intros [= <- <-]; [right|by left].
  split; [done|]. exists a. split; [done|]. unfold GC_ACK_SIZE in Hn.
  rewrite !orb_false_iff, !negb_false_iff, !Z.eqb_eq in Eh. destruct Eh as (((E0 & E1) & E2) & E3).
  split; [|split; [done|]].
  - split; try (apply get32_range, bytes_drop; done).
    + by apply bytes_take, bytes_drop.
    + cbn. rewrite length_take, length_drop, Hn. reflexivity.
  - rewrite (split_bytes 4 input) at 1 by lia. cbn [map seq]. rewrite E0, E1, E2, E3.
    unfold ack_image, a. cbn [ack_generation ack_policy ack_profile ack_round ack_commitment
      ack_observation_epoch ack_observation_sequence].
    rewrite (split_u32_at input 4 8), (split_u32_at input 8 12), (split_u32_at input 12 16),
      (split_u32_at input 16 20), (split_u32_at input 20 24), (split_u32_at input 24 28) at 1
      by (done || lia).
    by rewrite (take_ge (drop 28 input)) by (rewrite length_drop; lia).
Qed.

Theorem ack_decode_exact input n x a :
  bytes input -> length input = n ->
  gc_ack_decode (Some input) n (Some x) = (GC_ACK_OK, Some a) <->
  ack_object a /\ ack_valid (Some a) = true /\ input = ack_image a.
Proof.
  intros Hb Hn. split.
  - intros H. destruct (ack_decode_ok _ _ _ _ _ Hb Hn H) as [[[=] _]|(_ & a1 & [= <-] & Ha)]. done.
  - intros (Ho & Hv & ->). rewrite <- Hn.
    replace (length (ack_image a)) with GC_ACK_SIZE; [by apply ack_decode_image|].
    unfold ack_image. rewrite !length_app, !put32_length, (ako_length _ Ho). reflexivity.
Qed.

(** The low byte of a disjunction of bytes is the disjunction. *)
Lemma u8_lor a b : u8 (Z.lor a b) = Z.lor (u8 a) (u8 b).
Proof. unfold u8. rewrite <- !(Z.land_ones _ 8) by lia. apply Z.land_lor_distr_l. Qed.

Lemma u8_difference l r acc idx :
  is_u8 acc ->
  foldl (fun diff i => u8 (Z.lor diff (u8 (Z.lxor (byte_at l i) (byte_at r i))))) acc idx =
  foldl (fun diff i => Z.lor diff (u8 (Z.lxor (byte_at l i) (byte_at r i)))) acc idx.
Proof.
  revert acc. induction idx as [|i idx IH]; intros acc Ha; cbn [foldl]; [done|].
  assert (E : u8 (Z.lor acc (u8 (Z.lxor (byte_at l i) (byte_at r i)))) =
              Z.lor acc (u8 (Z.lxor (byte_at l i) (byte_at r i)))).
  { by rewrite u8_lor, !u8_id by (done || apply u8_range). }
  rewrite E. apply IH. rewrite <- E. apply u8_range.
Qed.

Lemma commitment_loop l r :
  bytes l -> bytes r -> length l = 32%nat -> length r = 32%nat ->
  foldl (fun diff i => u8 (Z.lor diff (u8 (Z.lxor (byte_at l i) (byte_at r i))))) 0 (seq 0 32) = 0 <->
  l = r.
Proof.
  intros Hl Hr Ll Lr. rewrite u8_difference by done. rewrite difference_zero by done. split.
  - intros [_ H]. apply (byte_at_ext _ _ 32); [done|done|]. intros i Hi. apply H. lia.
  - intros ->. done.
Qed.

Lemma ack_ext a p :
  ack_generation a = ack_generation p -> ack_policy a = ack_policy p ->
  ack_profile a = ack_profile p -> ack_round a = ack_round p ->
  ack_observation_epoch a = ack_observation_epoch p ->
  ack_observation_sequence a = ack_observation_sequence p ->
  ack_commitment a = ack_commitment p -> a = p.
Proof. destruct a, p; cbn. congruence. Qed.

(** An acknowledgement matches a pending reference exactly when it is that one. *)
Theorem ack_match_exact a p :
  ack_object a -> ack_object p ->
  gc_ack_match (Some a) (Some p) = GC_ACK_OK <-> a = p /\ ack_valid (Some p) = true.
Proof.
  intros Ha Hp.
  pose proof (commitment_loop _ _ (ako_commitment _ Ha) (ako_commitment _ Hp)
                (ako_length _ Ha) (ako_length _ Hp)) as Hc.
  unfold gc_ack_match. cbv zeta. revert Hc.
  match goal with |- context [foldl ?f ?x ?l] => generalize (foldl f x l) end. intros diff Hc. split.
  - destruct (ack_valid (Some a)); [|done]. destruct (ack_valid (Some p)) eqn:Ev; [|done].
    cbn [negb orb]. destruct (_ || _) eqn:E; [done|].
    rewrite !orb_false_iff, !negb_false_iff, !Z.eqb_eq in E.
    destruct E as (((((E1 & E2) & E3) & E4) & E5) & E6).
    destruct (Z.eqb_spec diff 0); [intros _|done]. split; [|done].
    apply ack_ext; [done..|]. by apply Hc.
  - intros [-> Hv]. rewrite Hv. cbn [negb orb]. rewrite !Z.eqb_refl. cbn [negb orb].
    by rewrite (proj2 Hc eq_refl).
Qed.
