(* ===== verification/Corroboration.v ===== *)
(** * Corroboration of a round

    Model of MultiNode/Src/guardian_multinode_corroboration.c: a round of
    reports of a configured set of peers, with a threshold, required roles, an age
    limit on the local clock, a latch for conflicting reports and a state that asks
    to rejoin. *)

From S2P Require Import Prelude.

Definition GUARDIAN_CORROBORATION_CAPACITY : nat := 5.
Definition GUARDIAN_CORROBORATION_COMMITMENT_BYTES : nat := 32.

Inductive gc_state :=
  | GC_UNCONFIGURED | GC_INSUFFICIENT | GC_CORROBORATED | GC_CONFLICT_LATCHED
  | GC_REJOIN_REQUIRED.

Inductive gc_result :=
  | GC_OK | GC_REJECTED | GC_CLOCK_FAILURE | GC_EPOCH_CHANGE | GC_CONFLICT | GC_LATCHED.

#[global] Instance gc_state_eq_dec : EqDecision gc_state.
Proof. solve_decision. Defined.
#[global] Instance gc_result_eq_dec : EqDecision gc_result.
Proof. solve_decision. Defined.

Record gc_peer := PEER { peer_id : Z; peer_role : Z }.

Record gc_config := CORROBORATION_CONFIG {
  cc_generation : Z; cc_policy : Z; cc_profile : Z; cc_round : Z;
  cc_max_age : Z;
  cc_count : Z; cc_threshold : Z; cc_required_roles : Z;
  cc_peers : list gc_peer
}.

Record gc_report := REPORT {
  rp_id : Z; rp_generation : Z; rp_policy : Z; rp_profile : Z; rp_round : Z;
  rp_epoch : Z; rp_sequence : Z;
  rp_authenticated : Z; rp_persistent_freshness : Z; rp_same_round_ack : Z;
  rp_claims_actuation : Z;
  rp_commitment : list Z
}.

Record gc_slot := SLOT {
  sl_report : gc_report;
  sl_received_at : Z;
  sl_seen : Z;
  sl_available : Z
}.

Record gc_context := CORROBORATION {
  co_state : gc_state;
  co_config : gc_config;
  co_slots : list gc_slot;
  co_last_clock : Z;
  co_clock_seen : Z;
  co_conflict_present : Z;
  co_conflicting_report : gc_report
}.

Record gc_assessment := ASSESSMENT {
  as_state : gc_state;
  as_eligible_for_local_review : Z;
  as_fresh_count : Z;
  as_role_coverage : Z;
  as_config : gc_config;
  as_sources : list gc_slot;
  as_conflict_present : Z;
  as_conflicting_report : gc_report
}.

(** [memset] of the objects. *)
Definition zero_report : gc_report :=
  REPORT 0 0 0 0 0 0 0 0 0 0 0 (replicate GUARDIAN_CORROBORATION_COMMITMENT_BYTES 0).
Definition zero_slot : gc_slot := SLOT zero_report 0 0 0.
Definition zero_corroboration_config : gc_config :=
  CORROBORATION_CONFIG 0 0 0 0 0 0 0 0 (replicate GUARDIAN_CORROBORATION_CAPACITY (PEER 0 0)).
Definition zero_corroboration : gc_context :=
  CORROBORATION GC_UNCONFIGURED zero_corroboration_config
    (replicate GUARDIAN_CORROBORATION_CAPACITY zero_slot) 0 0 0 zero_report.
Definition zero_assessment : gc_assessment :=
  ASSESSMENT GC_UNCONFIGURED 0 0 0 zero_corroboration_config
    (replicate GUARDIAN_CORROBORATION_CAPACITY zero_slot) 0 zero_report.

(** ** Member stores *)

Definition put_co_state (v : gc_state) (c : gc_context) : gc_context :=
  CORROBORATION v (co_config c) (co_slots c) (co_last_clock c) (co_clock_seen c)
    (co_conflict_present c) (co_conflicting_report c).
Definition put_co_clock (now : Z) (c : gc_context) : gc_context :=
  CORROBORATION (co_state c) (co_config c) (co_slots c) now 1
    (co_conflict_present c) (co_conflicting_report c).
Definition put_co_slot (i : nat) (s : gc_slot) (c : gc_context) : gc_context :=
  CORROBORATION (co_state c) (co_config c) (<[i := s]> (co_slots c)) (co_last_clock c)
    (co_clock_seen c) (co_conflict_present c) (co_conflicting_report c).

(** The stores of both conflict branches. *)
Definition latch_conflict (r : gc_report) (c : gc_context) : gc_context :=
  CORROBORATION GC_CONFLICT_LATCHED (co_config c) (co_slots c) (co_last_clock c)
    (co_clock_seen c) 1 r.

Definition peer_at (p : gc_config) (i : nat) : gc_peer := nth i (cc_peers p) (PEER 0 0).
Definition slot_at (c : gc_context) (i : nat) : gc_slot := nth i (co_slots c) zero_slot.

(** The indices below the configured count. *)
Definition peer_indices (p : gc_config) : list nat := seq 0 (Z.to_nat (cc_count p)).

Definition role_bit (role : Z) : Z := u8 (Z.shiftl 1 role).

(** ** Operations *)

Definition peer_index (c : gc_context) (id : Z) : option nat :=
  List.find (fun i => peer_id (peer_at (co_config c) i) =? id) (peer_indices (co_config c)).

Definition gc_init (c : option gc_context) : option gc_context :=
  match c with None => None | Some _ => Some zero_corroboration end.

(** The loop over the peers: their roles, or nothing when one is refused. *)
Fixpoint configure_peers (p : gc_config) (i n : nat) (roles : Z) : option Z :=
  match n with
  | O => Some roles
  | S n =>
      early (peer_id (peer_at p i) =? 0) || (5 <=? peer_role (peer_at p i)) with None ;;
      let roles := u8 (Z.lor roles (role_bit (peer_role (peer_at p i)))) in
      early existsb (fun j => peer_id (peer_at p j) =? peer_id (peer_at p i)) (seq 0 i) with None ;;
      configure_peers p (S i) n roles
  end.

Definition gc_configure (c : option gc_context) (p : option gc_config)
  : gc_result * option gc_context :=
  match c, p with
  | Some x, Some p =>
      early negb (bool_decide (co_state x = GC_UNCONFIGURED)) with (GC_REJECTED, c) ;;
      early (cc_generation p =? 0) || (cc_policy p =? 0) || (cc_profile p =? 0)
            || (cc_round p =? 0) || (cc_max_age p =? 0) || (cc_count p =? 0)
            || (Z.of_nat GUARDIAN_CORROBORATION_CAPACITY <? cc_count p)
            || (cc_threshold p =? 0) || (cc_count p <? cc_threshold p)
            || (cc_required_roles p =? 0) || negb (Z.land (cc_required_roles p) 0xe0 =? 0)
        with (GC_REJECTED, c) ;;
      match configure_peers p 0 (Z.to_nat (cc_count p)) 0 with
      | None => (GC_REJECTED, c)
      | Some roles =>
          early negb (Z.land roles (cc_required_roles p) =? cc_required_roles p)
            with (GC_REJECTED, c) ;;
          (GC_OK, Some (CORROBORATION GC_INSUFFICIENT p (co_slots x) (co_last_clock x)
                          (co_clock_seen x) (co_conflict_present x) (co_conflicting_report x)))
      end
  | _, _ => (GC_REJECTED, c)
  end.

Definition require_rejoin (c : gc_context) : gc_context :=
  if negb (bool_decide (co_state c = GC_UNCONFIGURED))
     && negb (bool_decide (co_state c = GC_CONFLICT_LATCHED))
  then put_co_state GC_REJOIN_REQUIRED c else c.

Definition gc_require_rejoin (c : option gc_context) : option gc_context :=
  require_rejoin <$> c.

Definition clock_check (c : gc_context) (now valid : Z) : gc_result * gc_context :=
  early negb (valid =? 1) || (negb (co_clock_seen c =? 0) && (now <? co_last_clock c))
    with (GC_CLOCK_FAILURE, require_rejoin c) ;;
  (GC_OK, put_co_clock now c).

(** The condition of the loop of [evaluate]. *)
Definition slot_counts (c : gc_context) (now : Z) (i : nat) : bool :=
  let s := slot_at c i in
  negb (sl_seen s =? 0) && negb (sl_available s =? 0) && (rp_same_round_ack (sl_report s) =? 1)
  && (sl_received_at s <=? now) && (u64 (now - sl_received_at s) <=? cc_max_age (co_config c)).

Definition evaluate (c : gc_context) (now : Z) : gc_context * Z * Z :=
  let '(count, roles) :=
    foldl (fun '(count, roles) i =>
             if slot_counts c now i then
               (u8 (count + 1),
                u8 (Z.lor roles (role_bit (peer_role (peer_at (co_config c) i)))))
             else (count, roles))
      (0, 0) (peer_indices (co_config c)) in
  let c :=
    if bool_decide (co_state c = GC_INSUFFICIENT) || bool_decide (co_state c = GC_CORROBORATED)
    then
      put_co_state
        (if (cc_threshold (co_config c) <=? count)
            && (Z.land roles (cc_required_roles (co_config c)) =? cc_required_roles (co_config c))
         then GC_CORROBORATED else GC_INSUFFICIENT) c
    else c in
  (c, count, roles).

Definition report_admissible (c : gc_context) (r : gc_report) : bool :=
  (rp_generation r =? cc_generation (co_config c)) && (rp_policy r =? cc_policy (co_config c))
  && (rp_profile r =? cc_profile (co_config c)) && (rp_round r =? cc_round (co_config c))
  && negb (rp_epoch r =? 0) && negb (rp_sequence r =? 0)
  && (rp_authenticated r =? 1) && (rp_persistent_freshness r =? 1)
  && (rp_same_round_ack r <=? 1) && (rp_claims_actuation r <=? 1).

(** [memcmp] of the commitments. *)
Definition commitment_differs (r s : gc_report) : bool :=
  negb (bool_decide (take GUARDIAN_CORROBORATION_COMMITMENT_BYTES (rp_commitment r)
                     = take GUARDIAN_CORROBORATION_COMMITMENT_BYTES (rp_commitment s))).

Definition gc_submit (c : option gc_context) (r : option gc_report) (now valid : Z)
  : gc_result * option gc_context :=
  match c, r with
  | Some x, Some r =>
      early bool_decide (co_state x = GC_UNCONFIGURED) with (GC_REJECTED, c) ;;
      match peer_index x (rp_id r) with
      | None => (GC_REJECTED, c)
      | Some index =>
          early negb (report_admissible x r) with (GC_REJECTED, c) ;;
          let s := slot_at x index in
          early negb (sl_seen s =? 0) && (rp_epoch r =? rp_epoch (sl_report s))
                && (rp_sequence r <=? rp_sequence (sl_report s))
            with (GC_REJECTED, c) ;;
          let '(checked, x) := clock_check x now valid in
          early negb (bool_decide (checked = GC_OK)) with (GC_CLOCK_FAILURE, Some x) ;;
          early bool_decide (co_state x = GC_CONFLICT_LATCHED)
                || bool_decide (co_state x = GC_REJOIN_REQUIRED)
            with (GC_LATCHED, Some x) ;;
          early negb (sl_seen s =? 0) && negb (rp_epoch r =? rp_epoch (sl_report s))
            with (GC_EPOCH_CHANGE, Some (require_rejoin x)) ;;
          early (rp_claims_actuation r =? 1)
                && negb (peer_role (peer_at (co_config x) index) =? 0)
            with (GC_CONFLICT, Some (latch_conflict r x)) ;;
          early existsb (fun i => negb (sl_seen (slot_at x i) =? 0)
                                  && commitment_differs r (sl_report (slot_at x i)))
                  (peer_indices (co_config x))
            with (GC_CONFLICT, Some (latch_conflict r x)) ;;
          let x := put_co_slot index (SLOT r now 1 1) x in
          let '(x, _, _) := evaluate x now in
          (GC_OK, Some x)
      end
  | _, _ => (GC_REJECTED, c)
  end.

Definition gc_query (c : option gc_context) (now valid : Z) (out : option gc_assessment)
  : gc_result * option gc_context * option gc_assessment :=
  match out with
  | None => (GC_REJECTED, c, None)
  | Some _ =>
      match c with
      | None => (GC_REJECTED, c, Some zero_assessment)
      | Some x =>
          early bool_decide (co_state x = GC_UNCONFIGURED)
            with (GC_REJECTED, c, Some zero_assessment) ;;
          let '(result, x) := clock_check x now valid in
          let '(x, count, roles) := evaluate x now in
          (result, Some x,
           Some (ASSESSMENT (co_state x)
                   (if bool_decide (result = GC_OK) && bool_decide (co_state x = GC_CORROBORATED)
                    then 1 else 0)
                   count roles (co_config x) (co_slots x) (co_conflict_present x)
                   (co_conflicting_report x)))
      end
  end.

Definition gc_link_loss (c : option gc_context) (id now valid : Z)
  : gc_result * option gc_context :=
  match c with
  | None => (GC_REJECTED, c)
  | Some x =>
      early bool_decide (co_state x = GC_UNCONFIGURED) with (GC_REJECTED, c) ;;
      match peer_index x id with
      | None => (GC_REJECTED, c)
      | Some i =>
          let '(checked, x) := clock_check x now valid in
          early negb (bool_decide (checked = GC_OK)) with (GC_CLOCK_FAILURE, Some x) ;;
          let s := slot_at x i in
          let x := put_co_slot i (SLOT (sl_report s) (sl_received_at s) (sl_seen s) 0) x in
          let '(x, _, _) := evaluate x now in
          (GC_OK, Some x)
      end
  end.
