(* ===== verification/CorroborationSafety.v ===== *)
(** * What a corroborated round stands for

    Over every run of the operations of [Corroboration] from a cleared context: a
    query grants eligibility only on enough fresh, authentic and agreeing reports of
    distinct configured peers; reports of a peer advance; a conflict, a clock
    failure or an epoch change latches; and an honest round is corroborated. *)

From stdpp Require Import sorting.
From S2P Require Import Prelude Corroboration.

(** ** Runs *)

Inductive gc_op :=
  | OpConfigure (p : gc_config)
  | OpSubmit (r : gc_report) (now valid : Z)
  | OpQuery (now valid : Z)
  | OpLinkLoss (id now valid : Z)
  | OpRequireRejoin.

Definition gc_step (c : gc_context) (op : gc_op) : gc_result * gc_context :=
  match op with
  | OpConfigure p =>
      let '(result, c') := gc_configure (Some c) (Some p) in (result, default c c')
  | OpSubmit r now valid =>
      let '(result, c') := gc_submit (Some c) (Some r) now valid in (result, default c c')
  | OpQuery now valid =>
      let '(result, c', _) := gc_query (Some c) now valid (Some zero_assessment) in
      (result, default c c')
  | OpLinkLoss id now valid =>
      let '(result, c') := gc_link_loss (Some c) id now valid in (result, default c c')
  | OpRequireRejoin => (GC_OK, default c (gc_require_rejoin (Some c)))
  end.

(** The history pairs every operation with its result. *)
Fixpoint gc_run (h : list (gc_op * gc_result)) (c : gc_context) (ops : list gc_op)
  : list (gc_op * gc_result) * gc_context :=
  match ops with
  | [] => (h, c)
  | op :: ops => let '(result, c) := gc_step c op in gc_run (h ++ [(op, result)]) c ops
  end.

Definition is_u64_time (t : Z) : Prop := 0 <= t < 2 ^ 64.

(** The members the model relies on are within their C types. *)
Definition gc_op_typed (op : gc_op) : Prop :=
  match op with
  | OpConfigure p => Forall (fun q => is_u8 (peer_role q)) (cc_peers p)
  | OpSubmit _ now _ | OpQuery now _ | OpLinkLoss _ now _ => is_u64_time now
  | OpRequireRejoin => True
  end.

Definition latched (c : gc_context) : Prop :=
  co_state c = GC_CONFLICT_LATCHED \/ co_state c = GC_REJOIN_REQUIRED.

Definition alarm (result : gc_result) : Prop :=
  match result with GC_CONFLICT | GC_CLOCK_FAILURE | GC_EPOCH_CHANGE => True | _ => False end.

(** The commitment a report carries. *)
Definition committed_to (r : gc_report) : list Z :=
  take GUARDIAN_CORROBORATION_COMMITMENT_BYTES (rp_commitment r).

(** Two accepted reports of one peer, in this order. *)
Definition advances_on (e1 e2 : gc_op * gc_result) : Prop :=
  match e1, e2 with
  | (OpSubmit r1 _ _, GC_OK), (OpSubmit r2 _ _, GC_OK) =>
      committed_to r1 = committed_to r2 /\
      (rp_id r1 = rp_id r2 ->
       rp_epoch r1 = rp_epoch r2 /\ rp_sequence r1 < rp_sequence r2)
  | _, _ => True
  end.

(** A configuration that [gc_configure] accepts. *)
Record round_ok (p : gc_config) : Prop := {
  ro_ids : NoDup (map (fun i => peer_id (peer_at p i)) (peer_indices p));
  ro_roles : forall i, In i (peer_indices p) -> peer_role (peer_at p i) < 5;
  ro_count : cc_count p <= 5
}.

(** The invariant of a context with its history. *)
Record round_inv (h : list (gc_op * gc_result)) (c : gc_context) : Prop := {
  ri_slots : length (co_slots c) = GUARDIAN_CORROBORATION_CAPACITY;
  ri_config : co_state c <> GC_UNCONFIGURED -> round_ok (co_config c);
  ri_typed : Forall (fun q => is_u8 (peer_role q)) (cc_peers (co_config c));
  ri_fresh : co_state c = GC_UNCONFIGURED -> forall i, sl_seen (slot_at c i) = 0;
  ri_seen : forall i, In i (peer_indices (co_config c)) -> sl_seen (slot_at c i) <> 0 ->
    let s := slot_at c i in
    (exists v, In (OpSubmit (sl_report s) (sl_received_at s) v, GC_OK) h) /\
    rp_id (sl_report s) = peer_id (peer_at (co_config c) i) /\
    report_admissible c (sl_report s) = true /\ is_u64_time (sl_received_at s);
  ri_agree : forall i j, In i (peer_indices (co_config c)) -> In j (peer_indices (co_config c)) ->
    sl_seen (slot_at c i) <> 0 -> sl_seen (slot_at c j) <> 0 ->
    committed_to (sl_report (slot_at c i)) = committed_to (sl_report (slot_at c j));
  ri_past : forall r t v, In (OpSubmit r t v, GC_OK) h ->
    exists i, peer_index c (rp_id r) = Some i /\ sl_seen (slot_at c i) <> 0 /\
      committed_to r = committed_to (sl_report (slot_at c i)) /\
      rp_epoch r = rp_epoch (sl_report (slot_at c i)) /\
      rp_sequence r <= rp_sequence (sl_report (slot_at c i));
  ri_order : StronglySorted advances_on h;
  ri_alarm : forall op result, In (op, result) h -> alarm result -> latched c
}.

(** ** Steps that leave reports and configuration alone *)

Record same_reports (c c' : gc_context) : Prop := {
  sr_config : co_config c' = co_config c;
  sr_slots : co_slots c' = co_slots c
}.

(** The same reports, whatever the availability. *)
Record kept_reports (c c' : gc_context) : Prop := {
  kr_config : co_config c' = co_config c;
  kr_length : length (co_slots c') = length (co_slots c);
  kr_slot : forall i,
    sl_report (slot_at c' i) = sl_report (slot_at c i) /\
    sl_received_at (slot_at c' i) = sl_received_at (slot_at c i) /\
    sl_seen (slot_at c' i) = sl_seen (slot_at c i)
}.

Lemma same_kept c c' : same_reports c c' -> kept_reports c c'.
Proof. intros [E1 E2]. split; [done|by rewrite E2|]. intros i. unfold slot_at. by rewrite E2. Qed.

Lemma peer_index_config c c' id : co_config c' = co_config c -> peer_index c' id = peer_index c id.
Proof. unfold peer_index. by intros ->. Qed.

Lemma admissible_config c c' r :
  co_config c' = co_config c -> report_admissible c' r = report_admissible c r.
Proof. unfold report_admissible. by intros ->. Qed.

Lemma peer_index_spec c id i :
  peer_index c id = Some i ->
  In i (peer_indices (co_config c)) /\ peer_id (peer_at (co_config c) i) = id.
Proof.
  unfold peer_index. intros H. apply List.find_some in H as [H E]. split; [done|by apply Z.eqb_eq].
Qed.

Lemma NoDup_map_inj {A B} (f : A -> B) (l : list A) x y :
  NoDup (map f l) -> In x l -> In y l -> f x = f y -> x = y.
Proof.
  induction l as [|a l IH]; cbn; intros Hnd Hx Hy E; [done|].
  apply NoDup_cons in Hnd as [Hna Hnd].
  destruct Hx as [->|Hx], Hy as [->|Hy]; [done| | |by apply IH].
  - destruct Hna. rewrite E. apply list_elem_of_In, in_map, Hy.
  - destruct Hna. rewrite <- E. apply list_elem_of_In, in_map, Hx.
Qed.

(** An accepted submission that is not one adds only itself to the history. *)
Definition not_accepted (op : gc_op) (result : gc_result) : Prop :=
  match op, result with OpSubmit _ _ _, GC_OK => False | _, _ => True end.

Lemma advances_not_accepted e op result :
  not_accepted op result -> advances_on e (op, result).
Proof. destruct e as [[] []], op, result; cbn; intros H; try exact I; destruct H. Qed.

(** The invariant over a step that accepts no report: the reports stay, the state
    is latched after an alarm and keeps its configuration. *)
Lemma inv_quiet h c c' op result :
  round_inv h c -> kept_reports c c' -> not_accepted op result ->
  (latched c -> latched c') -> (alarm result -> latched c') ->
  (co_state c' = GC_UNCONFIGURED <-> co_state c = GC_UNCONFIGURED) ->
  round_inv (h ++ [(op, result)]) c'.
Proof.
  intros [] [Ec El Hs] Hna Hl Ha Hu.
  assert (Hr : forall i, sl_report (slot_at c' i) = sl_report (slot_at c i)) by apply Hs.
  assert (Ht : forall i, sl_received_at (slot_at c' i) = sl_received_at (slot_at c i)) by apply Hs.
  assert (Hsn : forall i, sl_seen (slot_at c' i) = sl_seen (slot_at c i)) by apply Hs.
  split; rewrite ?Ec.
  - by rewrite El.
  - rewrite Hu. done.
  - done.
  - intros E i. rewrite Hsn. apply ri_fresh0. by apply Hu.
  - intros i Hi. cbv zeta. rewrite Hr, Ht, Hsn, (admissible_config c c') by done. intros Hseen.
    destruct (ri_seen0 i Hi Hseen) as ((v & Hv) & H). split; [|done].
    exists v. apply in_snoc. by left.
  - intros i j. rewrite !Hsn, !Hr. apply ri_agree0.
  - intros r t v Hin. rewrite (peer_index_config c c') by done.
    apply in_snoc in Hin as [Hin|[= <- <-]]; [|done].
    destruct (ri_past0 r t v Hin) as (i & H). exists i. by rewrite Hsn, Hr.
  - apply sorted_snoc; [done|]. apply List.Forall_forall. intros e _. by apply advances_not_accepted.
  - intros op' r' Hin Har. apply in_snoc in Hin as [Hin|[= <- <-]]; eauto.
Qed.

(** ** The pieces of the operations *)

Lemma require_rejoin_spec c :
  co_state c <> GC_UNCONFIGURED ->
  same_reports c (require_rejoin c) /\ latched (require_rejoin c) /\
  co_state (require_rejoin c) <> GC_UNCONFIGURED.
Proof.
  intros Hu. unfold require_rejoin, latched. rewrite (bool_decide_false _ Hu). cbn [negb andb].
  case_bool_decide as E; cbn; (split; [done|]).
  - rewrite E. auto.
  - auto.
Qed.

Lemma clock_check_spec c now valid :
  co_state c <> GC_UNCONFIGURED ->
  let '(result, c') := clock_check c now valid in
  same_reports c c' /\ co_state c' <> GC_UNCONFIGURED /\ (latched c -> latched c') /\
  ((result = GC_OK /\ co_state c' = co_state c) \/ (result = GC_CLOCK_FAILURE /\ latched c')).
Proof.
  intros Hu. unfold clock_check. destruct (require_rejoin_spec c Hu) as (Hs & Hl & Hn).
  destruct (_ || _).
  - split; [done|]. split; [done|]. split; [done|]. by right.
  - split; [done|]. split; [done|]. split; [done|]. by left.
Qed.

Lemma evaluate_state c now :
  let '(c', _, _) := evaluate c now in
  same_reports c c' /\ (latched c -> co_state c' = co_state c) /\ (latched c' -> latched c) /\
  (co_state c' = GC_UNCONFIGURED <-> co_state c = GC_UNCONFIGURED).
Proof.
  unfold evaluate. destruct (foldl _ _ _) as [count roles]. unfold latched.
  destruct (_ || _) eqn:E.
  - apply orb_true_iff in E. rewrite !bool_decide_eq_true in E. cbn.
    split; [done|]. destruct (_ && _); intuition congruence.
  - done.
Qed.

(** ** Counting *)

Lemma testbit_u8 z k : 0 <= k -> Z.testbit (u8 z) k = (k <? 8) && Z.testbit z k.
Proof.
  intros Hk. unfold u8. destruct (Z.ltb_spec k 8).
  - by rewrite Z.mod_pow2_bits_low by lia.
  - by rewrite Z.mod_pow2_bits_high by lia.
Qed.

Lemma testbit_role_bit role k :
  0 <= k -> 0 <= role < 8 -> Z.testbit (role_bit role) k = (k =? role).
Proof.
  intros Hk Hr. unfold role_bit. rewrite testbit_u8, Z.shiftl_spec by done.
  destruct (Z.eqb_spec k role) as [->|].
  - rewrite Z.sub_diag. destruct (Z.ltb_spec role 8); [done|lia].
  - destruct (Z.lt_ge_cases k role).
    + rewrite Z.testbit_neg_r by lia. apply andb_false_r.
    + change 1 with (2 ^ 0). rewrite Z.pow2_bits_false by lia. apply andb_false_r.
Qed.

Definition coverage (p : gc_config) (sources : list nat) : Z :=
  foldl (fun roles i => u8 (Z.lor roles (role_bit (peer_role (peer_at p i))))) 0 sources.

Lemma coverage_snoc p l i :
  coverage p (l ++ [i]) = u8 (Z.lor (coverage p l) (role_bit (peer_role (peer_at p i)))).
Proof. unfold coverage. by rewrite foldl_app. Qed.

(** A bit is covered exactly by a source of that role. *)
Lemma coverage_spec p sources k :
  0 <= k -> (forall i, In i sources -> 0 <= peer_role (peer_at p i) < 8) ->
  Z.testbit (coverage p sources) k = true <->
  exists i, In i sources /\ peer_role (peer_at p i) = k.
Proof.
  intros Hk. induction sources as [|i l IH] using rev_ind; intros Hr.
  { split; [|by intros (? & [] & _)]. unfold coverage. cbn. by rewrite Z.bits_0. }
  rewrite coverage_snoc, testbit_u8, Z.lor_spec, andb_true_iff, orb_true_iff by done.
  rewrite testbit_role_bit by (try apply Hr; try apply in_snoc; auto).
  rewrite Z.eqb_eq, IH by (intros; apply Hr, in_snoc; by left). split.
  - intros [_ [(j & Hj & E)|E]]; [exists j|exists i]; rewrite in_snoc; auto.
  - intros (j & Hj & <-). pose proof (Hr j Hj). split; [lia|].
    apply in_snoc in Hj as [Hj| ->]; eauto.
Qed.

(** The reports the loop of [evaluate] counts. *)
Definition sources_at (c : gc_context) (now : Z) : list nat :=
  List.filter (slot_counts c now) (peer_indices (co_config c)).

Lemma evaluate_fold c now idx count roles :
  0 <= count -> count + Z.of_nat (length idx) < 256 ->
  foldl (fun '(count, roles) i =>
           if slot_counts c now i then
             (u8 (count + 1),
              u8 (Z.lor roles (role_bit (peer_role (peer_at (co_config c) i)))))
           else (count, roles))
    (count, roles) idx =
  (count + Z.of_nat (length (List.filter (slot_counts c now) idx)),
   foldl (fun roles i => u8 (Z.lor roles (role_bit (peer_role (peer_at (co_config c) i)))))
     roles (List.filter (slot_counts c now) idx)).
Proof.
  revert count roles. induction idx as [|i idx IH]; intros count roles H0 H1; cbn [foldl List.filter length] in *.
  { by rewrite Z.add_0_r. }
  destruct (slot_counts c now i); cbn [foldl length]; rewrite IH by (rewrite ?u8_id; unfold is_u8; lia).
  - rewrite u8_id by (unfold is_u8; lia). f_equal. lia.
  - done.
Qed.

(** What [evaluate] leaves: the state says whether the counted sources suffice. *)
Definition suffices (p : gc_config) (sources : list nat) : Prop :=
  cc_threshold p <= Z.of_nat (length sources) /\
  Z.land (coverage p sources) (cc_required_roles p) = cc_required_roles p.

Lemma round_evaluate_spec c now :
  cc_count (co_config c) <= 5 ->
  let '(c', count, roles) := evaluate c now in
  count = Z.of_nat (length (sources_at c now)) /\ roles = coverage (co_config c) (sources_at c now) /\
  same_reports c c' /\
  (co_state c = GC_INSUFFICIENT \/ co_state c = GC_CORROBORATED ->
   (co_state c' = GC_CORROBORATED <-> suffices (co_config c) (sources_at c now)) /\
   (co_state c' = GC_CORROBORATED \/ co_state c' = GC_INSUFFICIENT)).
Proof.
  intros Hc. unfold evaluate.
  assert (Hn : (length (peer_indices (co_config c)) <= 5)%nat)
    by (unfold peer_indices; rewrite length_seq; lia).
  rewrite evaluate_fold by lia. rewrite Z.add_0_l.
  change (foldl _ _ _) with (coverage (co_config c) (sources_at c now)).
  change (List.filter _ _) with (sources_at c now).
  split; [done|]. split; [done|]. destruct (_ || _) eqn:E; cbn.
  - split; [done|]. intros _. unfold suffices.
    destruct (Z.leb_spec (cc_threshold (co_config c)) (Z.of_nat (length (sources_at c now))));
      cbn [andb]; [|split; [split; [done|lia]|by right]].
    destruct (Z.eqb_spec (Z.land (coverage (co_config c) (sources_at c now))
                            (cc_required_roles (co_config c))) (cc_required_roles (co_config c)));
      [split; [by split|by left]|]. split; [|by right]. split; [done|]. by intros [].
  - split; [done|]. apply orb_false_iff in E. rewrite !bool_decide_eq_false in E. tauto.
Qed.

(** ** Submission *)

(** A step that accepts no report. *)
Record quiet (c c' : gc_context) (result : gc_result) : Prop := {
  qu_same : same_reports c c';
  qu_latched : latched c -> latched c';
  qu_alarm : alarm result -> latched c';
  qu_state : co_state c' = GC_UNCONFIGURED <-> co_state c = GC_UNCONFIGURED
}.

Lemma quiet_refused c : quiet c c GC_REJECTED.
Proof. by split. Qed.

(** A report accepted for the peer at an index. *)
Record accepts (c c' : gc_context) (r : gc_report) (now : Z) (i : nat) : Prop := {
  ac_index : peer_index c (rp_id r) = Some i;
  ac_admissible : report_admissible c r = true;
  ac_configured : co_state c <> GC_UNCONFIGURED;
  ac_open : ~ latched c;
  ac_later : sl_seen (slot_at c i) <> 0 ->
    rp_epoch r = rp_epoch (sl_report (slot_at c i)) /\
    rp_sequence (sl_report (slot_at c i)) < rp_sequence r;
  ac_agrees : forall j, In j (peer_indices (co_config c)) -> sl_seen (slot_at c j) <> 0 ->
    committed_to r = committed_to (sl_report (slot_at c j));
  ac_config : co_config c' = co_config c;
  ac_slots : co_slots c' = <[i := SLOT r now 1 1]> (co_slots c);
  ac_state : co_state c' = GC_CORROBORATED \/ co_state c' = GC_INSUFFICIENT
}.

Lemma submit_cases c r now valid :
  (co_state c <> GC_UNCONFIGURED -> cc_count (co_config c) <= 5) ->
  exists result c', gc_submit (Some c) (Some r) now valid = (result, Some c') /\
    ((result <> GC_OK /\ quiet c c' result) \/
     (result = GC_OK /\ exists i, accepts c c' r now i)).
Proof.
  intros Hcount. unfold gc_submit.
  assert (Href : exists result c', (GC_REJECTED, Some c) = (result, Some c') /\
    ((result <> GC_OK /\ quiet c c' result) \/ (result = GC_OK /\ exists i, accepts c c' r now i))).
  { exists GC_REJECTED, c. split; [done|left]. split; [done|apply quiet_refused]. }
  case_bool_decide as Hu; [exact Href|].
  destruct (peer_index c (rp_id r)) as [i|] eqn:Ei; [|exact Href].
  destruct (report_admissible c r) eqn:Ea; cbn [negb]; [|exact Href].
  set (s := slot_at c i). cbv zeta.
  destruct (_ && (rp_sequence r <=? rp_sequence (sl_report s))) eqn:Er; [exact Href|].
  pose proof (clock_check_spec c now valid Hu) as Hclk.
  destruct (clock_check c now valid) as [checked x].
  destruct Hclk as ([Ec Es] & Hx & Hl & Hres).
  case_bool_decide as Hok; cbn [negb].
  2: { exists GC_CLOCK_FAILURE, x. split; [done|left]. split; [done|].
       destruct Hres as [[? _]|[_ Hlat]]; [done|]. by split. }
  assert (Est : co_state x = co_state c) by (destruct Hres as [[_ ?]|[-> _]]; done).
  assert (Hq : forall result, ~ alarm result -> quiet c x result) by (by split).
  destruct (_ || _) eqn:Elat.
  { exists GC_LATCHED, x. split; [done|left]. split; [done|apply Hq]. by intros []. }
  apply orb_false_iff in Elat. rewrite !bool_decide_eq_false in Elat.
  assert (Hslot : forall j, slot_at x j = slot_at c j) by (intros j; unfold slot_at; by rewrite Es).
  destruct (negb (sl_seen s =? 0) && negb _) eqn:Eep.
  { exists GC_EPOCH_CHANGE, (require_rejoin x). split; [done|left]. split; [done|].
    destruct (require_rejoin_spec x Hx) as ([E1 E2] & Hlat & Hn).
    split; [split; congruence|done|done|done]. }
  assert (Hconf : exists result c', (GC_CONFLICT, Some (latch_conflict r x)) = (result, Some c') /\
    ((result <> GC_OK /\ quiet c c' result) \/ (result = GC_OK /\ exists i, accepts c c' r now i))).
  { exists GC_CONFLICT, (latch_conflict r x). split; [done|left]. split; [done|].
    by split; [|left|left|]. }
  destruct (_ && negb (peer_role _ =? 0)); [exact Hconf|].
  destruct (existsb _ _) eqn:Edis; [exact Hconf|].
  assert (Ecx : co_config (put_co_slot i (SLOT r now 1 1) x) = co_config c) by done.
  pose proof (round_evaluate_spec (put_co_slot i (SLOT r now 1 1) x) now) as Hev. rewrite Ecx in Hev.
  specialize (Hev (Hcount Hu)).
  destruct (evaluate _ now) as [[c' n] roles]. destruct Hev as (_ & _ & [E1 E2] & Hstate).
  exists GC_OK, c'. split; [done|right]. split; [done|]. exists i. split; try done.
  - unfold latched. rewrite <- Est. tauto.
  - intros Hseen. apply Z.eqb_neq in Hseen. fold s in Hseen |- *. rewrite Hseen in Er, Eep.
    cbn [negb andb] in Er, Eep. apply negb_false_iff, Z.eqb_eq in Eep. rewrite Eep, Z.eqb_refl in Er.
    cbn [andb] in Er. lia.
  - intros j Hj Hseen. rewrite <- not_true_iff_false, existsb_exists in Edis.
    destruct (decide (committed_to r = committed_to (sl_report (slot_at c j)))) as [|Hne]; [done|].
    destruct Edis. exists j. rewrite Ec, Hslot. split; [done|].
    apply Z.eqb_neq in Hseen. rewrite Hseen. unfold commitment_differs.
    by rewrite bool_decide_false.
  - by rewrite E1.
  - rewrite E2. cbn. by rewrite Es.
  - apply Hstate. cbn. rewrite Est. destruct (co_state c) eqn:E; try done; auto;
      rewrite Est in Elat; intuition congruence.
Qed.

(** ** The invariant *)

Lemma in_indices_bound p i :
  In i (peer_indices p) -> cc_count p <= 5 -> (i < GUARDIAN_CORROBORATION_CAPACITY)%nat.
Proof.
  unfold peer_indices, GUARDIAN_CORROBORATION_CAPACITY. rewrite in_seq. lia.
Qed.

Lemma slot_at_insert c c' i j s :
  co_slots c' = <[i := s]> (co_slots c) -> (i < length (co_slots c))%nat ->
  slot_at c' j = if decide (i = j) then s else slot_at c j.
Proof.
  intros E Hi. unfold slot_at. rewrite E, !nth_lookup.
  case_decide as D; [subst; by rewrite list_lookup_insert_eq by done|].
  by rewrite list_lookup_insert_ne by done.
Qed.

Lemma accepted_inv h c c' r now v i :
  round_inv h c -> is_u64_time now -> accepts c c' r now i ->
  round_inv (h ++ [(OpSubmit r now v, GC_OK)]) c'.
Proof.
  intros [] Ht [].
  pose proof (peer_index_spec _ _ _ ac_index0) as [Hi Hid].
  destruct (ri_config0 ac_configured0) as [Hids Hroles Hcount].
  assert (Hlt : (i < length (co_slots c))%nat)
    by (rewrite ri_slots0; by eapply in_indices_bound).
  assert (Hslot : forall j, slot_at c' j = if decide (i = j) then SLOT r now 1 1 else slot_at c j)
    by (intros j; by apply slot_at_insert).
  assert (Hidx : forall id, peer_index c' id = peer_index c id)
    by (intros id; by apply peer_index_config).
  (* every report accepted before is that of a seen slot, which the new one continues *)
  assert (Hbefore : forall r' t' v', In (OpSubmit r' t' v', GC_OK) h ->
    committed_to r' = committed_to r /\
    (rp_id r' = rp_id r -> rp_epoch r' = rp_epoch r /\ rp_sequence r' < rp_sequence r)).
  { intros r' t' v' Hin. destruct (ri_past0 r' t' v' Hin) as (k & Hk & Hseen & Hc & He & Hq).
    split; [rewrite Hc; symmetry; apply ac_agrees0; [by eapply peer_index_spec|done]|].
    intros E. rewrite E, ac_index0 in Hk. injection Hk as <-.
    destruct (ac_later0 Hseen). split; [congruence|lia]. }
  assert (Hopen : ~ latched c') by (unfold latched; destruct ac_state0 as [-> | ->]; intuition congruence).
  split; rewrite ?ac_config0.
  - by rewrite ac_slots0, length_insert.
  - done.
  - done.
  - intros E. destruct ac_state0; congruence.
  - intros j Hj. cbv zeta. rewrite Hslot, (admissible_config c c') by done. case_decide as D.
    + subst j. intros _. cbn. split; [exists v; apply in_snoc; by right|]. done.
    + intros Hseen. destruct (ri_seen0 j Hj Hseen) as ((v' & Hv) & H). split; [|done].
      exists v'. apply in_snoc. by left.
  - intros j k Hj Hk. rewrite !Hslot.
    do 2 case_decide; subst; cbn; intros H1 H2; [done|by apply ac_agrees0| |by apply ri_agree0].
    symmetry. by apply ac_agrees0.
  - intros r' t' v' Hin. rewrite Hidx. apply in_snoc in Hin as [Hin|[= -> -> ->]].
    + destruct (Hbefore r' t' v' Hin) as [Hc Hadv].
      destruct (ri_past0 r' t' v' Hin) as (k & Hk & Hseen & Hc' & He & Hq).
      exists k. split; [done|]. rewrite Hslot. case_decide as D; [|done]. subst k. cbn.
      split; [done|]. split; [done|].
      pose proof (peer_index_spec _ _ _ Hk) as [_ Hid'].
      destruct Hadv; [congruence|]. split; [done|lia].
    + exists i. split; [done|]. rewrite Hslot, decide_True by done. cbn. done.
  - apply sorted_snoc; [done|]. apply List.Forall_forall. intros [op res] Hin. destruct op; try done.
    destruct res; try done. cbn. by eapply Hbefore.
  - intros op res Hin Har. apply in_snoc in Hin as [Hin|[= -> ->]]; [|done].
    by destruct ac_open0; eapply ri_alarm0.
Qed.

Lemma configure_peers_spec p n : forall i roles result,
  configure_peers p i n roles = Some result ->
  NoDup (map (fun j => peer_id (peer_at p j)) (seq 0 i)) ->
  NoDup (map (fun j => peer_id (peer_at p j)) (seq 0 (i + n))) /\
  forall j, (i <= j < i + n)%nat -> peer_role (peer_at p j) < 5.
Proof.
  induction n as [|n IH]; intros i roles result; cbn [configure_peers].
  { rewrite Nat.add_0_r. intros _ H. split; [done|lia]. }
  destruct (_ || _) eqn:E; [done|]. apply orb_false_iff in E as [_ E]. apply Z.leb_gt in E.
  destruct (existsb _ _) eqn:Ed; [done|]. intros Hrest Hnd.
  assert (Hnd' : NoDup (map (fun j => peer_id (peer_at p j)) (seq 0 (S i)))).
  { rewrite seq_S, map_app. cbn. apply NoDup_app. split; [done|]. split; [|apply NoDup_singleton].
    intros x Hx Hx'. apply list_elem_of_singleton in Hx'. subst x.
    apply list_elem_of_In, in_map_iff in Hx as (j & Ej & Hj).
    rewrite <- not_true_iff_false in Ed. destruct Ed. apply existsb_exists. exists j.
    split; [done|]. by apply Z.eqb_eq. }
  destruct (IH _ _ _ Hrest Hnd') as [H1 H2]. rewrite Nat.add_succ_r. split; [done|].
  intros j Hj. destruct (decide (j = i)) as [->|]; [done|]. apply H2. lia.
Qed.

Lemma configure_cases c p :
  exists result c', gc_configure (Some c) (Some p) = (result, Some c') /\
    ((result = GC_REJECTED /\ c' = c) \/
     (result = GC_OK /\ co_state c = GC_UNCONFIGURED /\ round_ok p /\
      co_state c' = GC_INSUFFICIENT /\ co_config c' = p /\ co_slots c' = co_slots c)).
Proof.
  unfold gc_configure.
  assert (Href : exists result c', (GC_REJECTED, Some c) = (result, Some c') /\
    ((result = GC_REJECTED /\ c' = c) \/
     (result = GC_OK /\ co_state c = GC_UNCONFIGURED /\ round_ok p /\
      co_state c' = GC_INSUFFICIENT /\ co_config c' = p /\ co_slots c' = co_slots c))).
  { exists GC_REJECTED, c. auto. }
  case_bool_decide as Hu; cbn [negb]; [|exact Href].
  destruct (_ || _) eqn:E; [exact Href|]. rewrite !orb_false_iff in E.
  destruct (configure_peers _ _ _ _) as [roles|] eqn:Ep; [|exact Href].
  destruct (negb (Z.land roles _ =? _)); [exact Href|]. eexists _, _. split; [reflexivity|right]. cbn.
  apply configure_peers_spec in Ep as [Hnd Hr]; [|constructor]. cbn [Nat.add] in Hnd, Hr.
  split_and!; try done. split; [done| |].
  - intros i Hi. apply Hr. unfold peer_indices in Hi. rewrite in_seq in Hi. lia.
  - unfold GUARDIAN_CORROBORATION_CAPACITY in E. change (Z.of_nat 5) with 5 in E.
    apply Z.ltb_ge. tauto.
Qed.

(** A configuration accepted: nothing was seen, and nothing accepted, before it. *)
Lemma configured_inv h c c' p :
  round_inv h c -> co_state c = GC_UNCONFIGURED -> round_ok p ->
  Forall (fun q => is_u8 (peer_role q)) (cc_peers p) ->
  co_state c' = GC_INSUFFICIENT -> co_config c' = p -> co_slots c' = co_slots c ->
  round_inv (h ++ [(OpConfigure p, GC_OK)]) c'.
Proof.
  intros [] Hu Hp Ht Es Ec El.
  assert (Hs : forall i, slot_at c' i = slot_at c i) by (intros i; unfold slot_at; by rewrite El).
  pose proof (ri_fresh0 Hu) as Hf.
  assert (Hn : forall r t v, ~ In (OpSubmit r t v, GC_OK) h).
  { intros r t v Hin. destruct (ri_past0 r t v Hin) as (i & _ & Hseen & _). by destruct Hseen. }
  assert (Ha : forall op result, In (op, result) h -> ~ alarm result).
  { intros op result Hin Har. destruct (ri_alarm0 op result Hin Har); congruence. }
  split; rewrite ?Ec.
  - by rewrite El.
  - done.
  - done.
  - congruence.
  - intros i Hi. cbv zeta. rewrite Hs, Hf. done.
  - intros i j Hi Hj. by rewrite Hs, Hf.
  - intros r t v Hin. apply in_snoc in Hin as [Hin|[=]]. by apply Hn in Hin.
  - apply sorted_snoc; [done|]. apply List.Forall_forall. by intros [[] []].
  - intros op res Hin Har. apply in_snoc in Hin as [Hin|[= -> ->]]; [|done]. by apply Ha in Hin.
Qed.

(** Marking a slot unavailable keeps its report. *)
Lemma unavailable_kept c c' i :
  (i < length (co_slots c))%nat -> co_config c' = co_config c ->
  co_slots c' = <[i := SLOT (sl_report (slot_at c i)) (sl_received_at (slot_at c i))
                         (sl_seen (slot_at c i)) 0]> (co_slots c) ->
  kept_reports c c'.
Proof.
  intros Hi Ec Es. split; [done|by rewrite Es, length_insert|].
  intros j. rewrite (slot_at_insert _ _ _ _ _ Es Hi). by case_decide; subst.
Qed.

Lemma link_loss_quiet c id now valid :
  (co_state c <> GC_UNCONFIGURED -> cc_count (co_config c) <= 5) ->
  length (co_slots c) = GUARDIAN_CORROBORATION_CAPACITY ->
  exists result c', gc_link_loss (Some c) id now valid = (result, Some c') /\
    kept_reports c c' /\ (latched c -> latched c') /\ (alarm result -> latched c') /\
    (co_state c' = GC_UNCONFIGURED <-> co_state c = GC_UNCONFIGURED).
Proof.
  intros Hcount Hlen. unfold gc_link_loss.
  assert (Hk : kept_reports c c) by (by apply same_kept).
  case_bool_decide as Hu; [by exists GC_REJECTED, c|].
  destruct (peer_index c id) as [i|] eqn:Ei; [|by exists GC_REJECTED, c].
  pose proof (clock_check_spec c now valid Hu) as Hclk.
  destruct (clock_check c now valid) as [checked x].
  destruct Hclk as ([Ec Es] & Hx & Hl & Hres).
  case_bool_decide as Hok; cbn [negb].
  2: { exists GC_CLOCK_FAILURE, x. destruct Hres as [[? _]|[_ Hlat]]; [done|].
       split_and!; [done|by apply same_kept|done..]. }
  assert (Hs : slot_at x i = slot_at c i) by (unfold slot_at; by rewrite Es).
  cbv zeta. set (y := put_co_slot i _ x). pose proof (evaluate_state y now) as Hev.
  destruct (evaluate y now) as [[c' n] roles]. destruct Hev as ([E1 E2] & H1 & H2 & H3).
  exists GC_OK, c'. split; [done|]. split; [|split; [|split; [done|]]].
  - apply (unavailable_kept _ _ i).
    + apply peer_index_spec in Ei as [Hi _]. rewrite Hlen. eapply in_indices_bound; eauto.
    + by rewrite E1.
    + rewrite E2. unfold y. cbn. by rewrite Es, Hs.
  - intros Hlat. apply Hl in Hlat. unfold latched in *. rewrite H1 by done. exact Hlat.
  - rewrite H3. unfold y. cbn. tauto.
Qed.

Lemma query_cases c now valid x :
  exists result c' out, gc_query (Some c) now valid (Some x) = (result, Some c', Some out) /\
    same_reports c c' /\ (latched c -> latched c') /\ (alarm result -> latched c') /\
    (co_state c' = GC_UNCONFIGURED <-> co_state c = GC_UNCONFIGURED).
Proof.
  unfold gc_query. case_bool_decide as Hu; [by exists GC_REJECTED, c, zero_assessment|].
  pose proof (clock_check_spec c now valid Hu) as Hclk.
  destruct (clock_check c now valid) as [checked y].
  destruct Hclk as ([Ec Es] & Hx & Hl & Hres).
  pose proof (evaluate_state y now) as Hev.
  destruct (evaluate y now) as [[c' n] roles]. destruct Hev as ([E1 E2] & H1 & H2 & H3).
  eexists _, _, _. split; [reflexivity|]. split; [split; congruence|].
  assert (Hlat : latched y -> latched c') by (intros H; unfold latched; by rewrite H1).
  split; [auto|]. split; [|tauto].
  destruct Hres as [[-> _]|[_ ?]]; [done|auto].
Qed.

(** ** Every run keeps the invariant *)

Lemma round_step h c op :
  round_inv h c -> gc_op_typed op ->
  let '(result, c') := gc_step c op in round_inv (h ++ [(op, result)]) c'.
Proof.
  intros Hc Ht.
  assert (Hcount : co_state c <> GC_UNCONFIGURED -> cc_count (co_config c) <= 5)
    by (intros H; apply (ro_count _ (ri_config _ _ Hc H))).
  destruct op as [p|r now valid|now valid|id now valid|]; cbn [gc_step].
  - destruct (configure_cases c p) as (result & c' & -> & H). cbn [default from_option id].
    destruct H as [[-> ->]|(-> & Hu & Hp & H1 & H2 & H3)].
    + by apply (inv_quiet _ c); [done|apply same_kept|..].
    + by apply (configured_inv h c).
  - destruct (submit_cases c r now valid Hcount) as (result & c' & -> & H).
    cbn [default from_option id].
    destruct H as [[Hr []]|(-> & i & Hacc)].
    + by apply (inv_quiet _ c); [done|apply same_kept|destruct result|..].
    + by apply (accepted_inv h c c' r now valid i).
  - destruct (query_cases c now valid zero_assessment) as (result & c' & out & -> & H1 & H2 & H3 & H4).
    by apply (inv_quiet _ c); [done|apply same_kept|destruct result|..].
  - destruct (link_loss_quiet c id now valid Hcount (ri_slots _ _ Hc))
      as (result & c' & -> & H1 & H2 & H3 & H4).
    by apply (inv_quiet _ c); [done|done|destruct result|..].
  - cbn [gc_require_rejoin fmap option_fmap option_map default from_option id].
    destruct (decide (co_state c = GC_UNCONFIGURED)) as [E|E].
    + unfold require_rejoin. rewrite bool_decide_true by done. cbn [negb andb].
      by apply (inv_quiet _ c); [done|apply same_kept|..].
    + destruct (require_rejoin_spec c E) as (H1 & H2 & H3).
      by apply (inv_quiet _ c); [done|apply same_kept|..].
Qed.

Lemma gc_run_inv ops : forall h c,
  round_inv h c -> Forall gc_op_typed ops ->
  let '(h', c') := gc_run h c ops in round_inv h' c'.
Proof.
  induction ops as [|op ops IH]; intros h c Hc Ht; cbn [gc_run]; [done|].
  apply Forall_cons in Ht as [Ht Hts]. pose proof (round_step h c op Hc Ht) as H.
  destruct (gc_step c op) as [result c']. by apply IH.
Qed.

Lemma cleared_inv : round_inv [] zero_corroboration.
Proof.
  split; try done.
  - by apply (bool_decide_unpack _).
  - intros _ i. destruct i as [|[|[|[|[|[|i]]]]]]; done.
  - constructor.
Qed.

Lemma gc_run_reachable ops h c :
  Forall gc_op_typed ops -> gc_run [] zero_corroboration ops = (h, c) -> round_inv h c.
Proof.
  intros Ht E. pose proof (gc_run_inv ops [] zero_corroboration cleared_inv Ht) as H. by rewrite E in H.
Qed.

(** ** Eligibility *)

(** The history has an accepted, authentic and acknowledged report of the peer for
    this round and commitment, received no longer than the age limit ago. *)
Definition vouches (h : list (gc_op * gc_result)) (now : Z) (p : gc_config)
    (commitment : list Z) (peer : gc_peer) : Prop :=
  exists r t v, In (OpSubmit r t v, GC_OK) h /\
    rp_id r = peer_id peer /\ rp_generation r = cc_generation p /\ rp_policy r = cc_policy p /\
    rp_profile r = cc_profile p /\ rp_round r = cc_round p /\
    rp_authenticated r = 1 /\ rp_persistent_freshness r = 1 /\ rp_same_round_ack r = 1 /\
    committed_to r = commitment /\ t <= now <= t + cc_max_age p.

Lemma admissible_spec c r :
  report_admissible c r = true ->
  rp_generation r = cc_generation (co_config c) /\ rp_policy r = cc_policy (co_config c) /\
  rp_profile r = cc_profile (co_config c) /\ rp_round r = cc_round (co_config c) /\
  rp_authenticated r = 1 /\ rp_persistent_freshness r = 1.
Proof. unfold report_admissible. rewrite !andb_true_iff, !Z.eqb_eq. tauto. Qed.

Lemma slot_counts_spec c now i :
  is_u64_time now -> is_u64_time (sl_received_at (slot_at c i)) ->
  slot_counts c now i = true <->
  sl_seen (slot_at c i) <> 0 /\ sl_available (slot_at c i) <> 0 /\
  rp_same_round_ack (sl_report (slot_at c i)) = 1 /\
  sl_received_at (slot_at c i) <= now <= sl_received_at (slot_at c i) + cc_max_age (co_config c).
Proof.
  unfold is_u64_time, slot_counts. intros Hn Ht. cbv zeta.
  rewrite !andb_true_iff, !negb_true_iff, !Z.eqb_neq, Z.eqb_eq, !Z.leb_le. unfold u64. split.
  - intros ((((H1 & H2) & H3) & H4) & H5). rewrite Z.mod_small in H5 by lia. repeat split; try done; lia.
  - intros (H1 & H2 & H3 & H4). rewrite Z.mod_small by lia. repeat split; try done; lia.
Qed.

Lemma NoDup_map_filter {A B} (f : A -> B) (g : A -> bool) l :
  NoDup (map f l) -> NoDup (map f (List.filter g l)).
Proof.
  induction l as [|x l IH]; cbn; [done|]. intros [Hx Hl]%NoDup_cons.
  destruct (g x); cbn; [|auto]. apply NoDup_cons. split; [|auto].
  intros Hin. apply Hx. apply list_elem_of_In, in_map_iff in Hin as (y & E & Hy).
  apply List.filter_In in Hy as [Hy _]. rewrite <- E. by apply list_elem_of_In, in_map.
Qed.

Lemma peer_role_u8 p i :
  Forall (fun q => is_u8 (peer_role q)) (cc_peers p) -> is_u8 (peer_role (peer_at p i)).
Proof.
  intros Hp. unfold peer_at. destruct (nth_in_or_default i (cc_peers p) (PEER 0 0)) as [Hn| ->].
  - rewrite List.Forall_forall in Hp. by apply Hp in Hn.
  - done.
Qed.

Lemma covers_role p sources role :
  Z.land (coverage p sources) (cc_required_roles p) = cc_required_roles p ->
  (forall i, In i sources -> 0 <= peer_role (peer_at p i) < 8) -> 0 <= role ->
  Z.testbit (cc_required_roles p) role = true ->
  exists i, In i sources /\ peer_role (peer_at p i) = role.
Proof.
  intros E Hr Hrole Hbit. apply (coverage_spec p sources role Hrole Hr).
  rewrite <- E, Z.land_spec, andb_true_iff in Hbit. tauto.
Qed.

(** What an eligible query has computed. *)
Lemma eligible_query c now valid x result c' out :
  (co_state c <> GC_UNCONFIGURED -> cc_count (co_config c) <= 5) ->
  gc_query (Some c) now valid (Some x) = (result, c', Some out) ->
  as_eligible_for_local_review out = 1 ->
  (co_state c = GC_INSUFFICIENT \/ co_state c = GC_CORROBORATED) /\
  suffices (co_config c) (sources_at c now).
Proof.
  intros Hcount. unfold gc_query. case_bool_decide as Hu; [by intros [= <- <- <-]|].
  pose proof (clock_check_spec c now valid Hu) as Hclk.
  destruct (clock_check c now valid) as [checked y].
  destruct Hclk as ([Ec Es] & Hx & Hl & Hres).
  pose proof (evaluate_state y now) as Hst.
  pose proof (round_evaluate_spec y now) as Hev. rewrite Ec in Hev. specialize (Hev (Hcount Hu)).
  destruct (evaluate y now) as [[z n] roles]. intros [= <- <- <-]. cbn.
  destruct (bool_decide (checked = GC_OK)) eqn:Eok; cbn [andb]; [|done].
  apply bool_decide_eq_true in Eok. subst checked.
  case_bool_decide as Ez; [intros _|done].
  destruct Hres as [[_ Est]|[? _]]; [|done].
  destruct Hst as (_ & H1 & _ & H3). destruct Hev as (_ & _ & _ & H4).
  assert (Hopen : co_state c = GC_INSUFFICIENT \/ co_state c = GC_CORROBORATED).
  { rewrite <- Est. unfold latched in H1. destruct (co_state y); auto; try done.
    - rewrite Ez in H1. specialize (H1 (or_introl eq_refl)). done.
    - rewrite Ez in H1. specialize (H1 (or_intror eq_refl)). done. }
  split; [done|]. rewrite <- Est in Hopen. apply (H4 Hopen) in Ez.
  replace (sources_at c now) with (sources_at y now); [done|].
  unfold sources_at, slot_counts, slot_at. by rewrite Ec, Es.
Qed.

(** C5:A query grants eligibility for local review only if, in the history of
    accepted operations since the context was cleared, enough configured peers of
    different identity (the threshold), covering every required role, each sent an
    authentic, fresh and acknowledged report of this generation, policy, profile and
    round, all of them committing to the same value and received within the age
    limit; and no conflict, clock failure or epoch change has occurred. *)
Theorem eligibility_is_earned ops h c now valid x result c' out :
  Forall gc_op_typed ops -> is_u64_time now -> gc_run [] zero_corroboration ops = (h, c) ->
  gc_query (Some c) now valid (Some x) = (result, c', Some out) ->
  as_eligible_for_local_review out = 1 ->
  let p := co_config c in
  exists commitment sources,
    NoDup (map peer_id sources) /\
    Forall (fun q => exists i, In i (peer_indices p) /\ q = peer_at p i) sources /\
    Forall (vouches h now p commitment) sources /\
    cc_threshold p <= Z.of_nat (length sources) /\
    (forall role, 0 <= role -> Z.testbit (cc_required_roles p) role = true ->
       exists q, In q sources /\ peer_role q = role) /\
    Forall (fun e => ~ alarm e.2) h.
Proof.
  intros Ht Hnow Hrun Hq Hel p. pose proof (gc_run_reachable _ _ _ Ht Hrun) as Hinv.
  assert (Hcount : co_state c <> GC_UNCONFIGURED -> cc_count p <= 5)
    by (intros H; apply (ro_count _ (ri_config _ _ Hinv H))).
  destruct (eligible_query _ _ _ _ _ _ _ Hcount Hq Hel) as [Hopen [Hth Hcov]].
  assert (Hu : co_state c <> GC_UNCONFIGURED) by (destruct Hopen; congruence).
  destruct (ri_config _ _ Hinv Hu) as [Hids Hroles _].
  set (idx := sources_at c now) in *.
  assert (Hidx : forall i, In i idx -> In i (peer_indices p) /\ slot_counts c now i = true)
    by (intros i; apply List.filter_In).
  assert (Hsrc : forall i, In i idx -> sl_seen (slot_at c i) <> 0 /\
    vouches h now p (committed_to (sl_report (slot_at c i))) (peer_at p i)).
  { intros i Hi. destruct (Hidx i Hi) as [Hin Hc].
    assert (Hseen : sl_seen (slot_at c i) <> 0).
    { intros E. unfold slot_counts in Hc. by rewrite E in Hc. }
    destruct (ri_seen _ _ Hinv i Hin Hseen) as ((v & Hv) & Hid & Hadm & Hrt).
    apply slot_counts_spec in Hc; [|done..]. destruct Hc as (_ & _ & Hack & Hage).
    split; [done|]. destruct (admissible_spec _ _ Hadm) as (H1 & H2 & H3 & H4 & H5 & H6).
    eexists _, _, v. split; [exact Hv|]. destruct Hage. by repeat split. }
  assert (Hnd : NoDup (map (fun i => peer_id (peer_at p i)) idx)) by (by apply NoDup_map_filter).
  clearbody idx.
  exists (committed_to (sl_report (slot_at c (hd 0%nat idx)))), (map (peer_at p) idx).
  split; [|split; [|split; [|split; [|split]]]].
  - by rewrite map_map.
  - apply Forall_forall. intros q Hq'. apply list_elem_of_In, in_map_iff in Hq' as (i & <- & Hi).
    exists i. split; [by apply Hidx|done].
  - apply Forall_forall. intros q Hq'. apply list_elem_of_In, in_map_iff in Hq' as (i & <- & Hi).
    assert (Hhd : In (hd 0%nat idx) idx) by (destruct idx; [done|cbn; by left]).
    rewrite (ri_agree _ _ Hinv (hd 0%nat idx) i); [by apply Hsrc|by apply Hidx..| |]; by apply Hsrc.
  - by rewrite length_map.
  - intros role Hrole Hbit. destruct (covers_role p idx role Hcov) as (i & Hi & E); try done.
    + intros i Hi. destruct (Hidx i Hi) as [Hin _]. pose proof (Hroles i Hin : peer_role (peer_at p i) < 5).
      destruct (peer_role_u8 p i (ri_typed _ _ Hinv)). split; [done|lia].
    + exists (peer_at p i). split; [by apply in_map|done].
  - apply Forall_forall. intros [op res] Hin Har. cbn in Har.
    destruct (ri_alarm _ _ Hinv op res) as [E|E]; [by apply list_elem_of_In|done|..];
      destruct Hopen; congruence.
Qed.

(** The accepted reports of a round, in the order of their acceptance, all commit
    to the same value, and those of one peer have one epoch and strictly increasing
    sequence numbers: no report is accepted twice or out of order. *)
Theorem accepted_reports_advance ops h c h1 r1 t1 v1 h2 r2 t2 v2 h3 :
  Forall gc_op_typed ops -> gc_run [] zero_corroboration ops = (h, c) ->
  h = h1 ++ (OpSubmit r1 t1 v1, GC_OK) :: h2 ++ (OpSubmit r2 t2 v2, GC_OK) :: h3 ->
  committed_to r1 = committed_to r2 /\
  (rp_id r1 = rp_id r2 -> rp_epoch r1 = rp_epoch r2 /\ rp_sequence r1 < rp_sequence r2).
Proof.
  intros Ht Hrun ->. pose proof (ri_order _ _ (gc_run_reachable _ _ _ Ht Hrun)) as Hs.
  apply StronglySorted_app in Hs as (_ & _ & Hs). apply StronglySorted_inv in Hs as [_ Hs].
  rewrite Forall_app in Hs. destruct Hs as [_ Hs]. by apply Forall_cons in Hs as [Hs _].
Qed.

(** ** Latches *)

Lemma require_rejoin_latched c : latched c -> co_state (require_rejoin c) = co_state c.
Proof.
  unfold require_rejoin, latched. intros [E|E]; rewrite E; cbn; [done|]. reflexivity.
Qed.

Lemma clock_check_latched c now valid :
  latched c -> co_state (clock_check c now valid).2 = co_state c.
Proof.
  intros Hl. unfold clock_check. destruct (_ || _); [by apply require_rejoin_latched|done].
Qed.

Lemma evaluate_latched c now : latched c -> co_state (evaluate c now).1.1 = co_state c.
Proof.
  intros Hl. pose proof (evaluate_state c now) as H. destruct (evaluate c now) as [[c' n] roles].
  cbn. by apply H.
Qed.

(** No operation leaves a latched state. *)
Lemma latched_step c op : latched c -> co_state (gc_step c op).2 = co_state c.
Proof.
  intros Hl. assert (Hu : co_state c <> GC_UNCONFIGURED) by (destruct Hl; congruence).
  destruct op as [p|r now valid|now valid|id now valid|]; cbn [gc_step].
  - unfold gc_configure. by rewrite bool_decide_false.
  - unfold gc_submit. rewrite bool_decide_false by done. destruct (peer_index _ _) as [i|]; [|done].
    destruct (negb _); [done|]. cbv zeta. destruct (_ && _); [done|].
    pose proof (clock_check_latched c now valid Hl) as E.
    destruct (clock_check c now valid) as [checked x]. cbn [snd] in E.
    case_bool_decide; cbn [negb]; [|done].
    replace (bool_decide (co_state x = GC_CONFLICT_LATCHED)
             || bool_decide (co_state x = GC_REJOIN_REQUIRED)) with true; [done|].
    symmetry. apply orb_true_iff. rewrite !bool_decide_eq_true. by rewrite E.
  - unfold gc_query. rewrite bool_decide_false by done.
    pose proof (clock_check_latched c now valid Hl) as E.
    destruct (clock_check c now valid) as [checked x]. cbn [snd] in E.
    pose proof (evaluate_latched x now) as E'. destruct (evaluate x now) as [[y n] roles].
    cbn in E' |- *. rewrite E'; [done|]. unfold latched. by rewrite E.
  - unfold gc_link_loss. rewrite bool_decide_false by done.
    destruct (peer_index _ _) as [i|]; [|done].
    pose proof (clock_check_latched c now valid Hl) as E.
    destruct (clock_check c now valid) as [checked x]. cbn [snd] in E.
    case_bool_decide; cbn [negb]; [|done]. cbv zeta. set (y := put_co_slot i _ x).
    assert (Ey : co_state y = co_state c) by exact E. clearbody y.
    pose proof (evaluate_latched y now) as E'. destruct (evaluate y now) as [[z n] roles].
    cbn in E' |- *. rewrite E'; [done|]. unfold latched. by rewrite Ey.
  - by apply require_rejoin_latched.
Qed.

Lemma latched_run ops : forall h c, latched c -> co_state (gc_run h c ops).2 = co_state c.
Proof.
  induction ops as [|op ops IH]; intros h c Hl; cbn [gc_run]; [done|].
  pose proof (latched_step c op Hl) as E. destruct (gc_step c op) as [result c']. cbn in E.
  rewrite IH; [done|]. unfold latched. by rewrite E.
Qed.

(** C6:Fail-closed latches: an operation that reports a conflict, a clock failure or an
    epoch change leaves the round in the conflict or the rejoin state, and no
    sequence of operations leaves that state again: every later query denies
    eligibility (only clearing the context starts over). *)
Theorem alarms_latch ops h c op result c1 later h' c' now valid x out r2 c2 :
  Forall gc_op_typed ops -> gc_op_typed op -> gc_run [] zero_corroboration ops = (h, c) ->
  gc_step c op = (result, c1) -> alarm result -> gc_run h c1 later = (h', c') ->
  gc_query (Some c') now valid (Some x) = (r2, c2, Some out) ->
  co_state c' = co_state c1 /\
  (co_state c' = GC_CONFLICT_LATCHED \/ co_state c' = GC_REJOIN_REQUIRED) /\
  as_state out = co_state c' /\ as_eligible_for_local_review out = 0.
Proof.
  intros Ht Hop Hrun Hstep Ha Hlater Hq.
  pose proof (round_step h c op (gc_run_reachable _ _ _ Ht Hrun) Hop) as Hinv.
  rewrite Hstep in Hinv.
  assert (Hl : latched c1) by (apply (ri_alarm _ _ Hinv op result); [by apply in_snoc; right|done]).
  pose proof (latched_run later h c1 Hl) as E. rewrite Hlater in E. cbn in E.
  split; [done|]. assert (Hl' : latched c') by (unfold latched; by rewrite E). split; [done|].
  unfold gc_query in Hq. rewrite bool_decide_false in Hq by (destruct Hl'; congruence).
  pose proof (clock_check_latched c' now valid Hl') as Ec.
  destruct (clock_check c' now valid) as [checked y]. cbn in Ec.
  pose proof (evaluate_latched y now) as Ee. destruct (evaluate y now) as [[z n] roles].
  cbn in Ee. rewrite Ec in Ee. injection Hq as _ _ <-. cbn.
  assert (Ez : co_state z = co_state c') by (apply Ee; unfold latched; by rewrite Ec).
  split; [done|]. rewrite (bool_decide_false (co_state z = GC_CORROBORATED))
    by (rewrite Ez; destruct Hl'; congruence). by rewrite andb_false_r.
Qed.

(** ** Honest rounds *)

(** The submissions of a round and their results. *)
Definition submissions (l : list (gc_report * Z)) : list gc_op :=
  map (fun '(r, t) => OpSubmit r t 1) l.

(** After the reports [done], with [last] the time of the latest one. *)
Record honest (p : gc_config) (done : list (gc_report * Z)) (last : Z) (c : gc_context) : Prop := {
  ho_config : co_config c = p;
  ho_state : co_state c = GC_INSUFFICIENT \/ co_state c = GC_CORROBORATED;
  ho_slots : length (co_slots c) = GUARDIAN_CORROBORATION_CAPACITY;
  ho_clock : co_clock_seen c = 0 \/ co_last_clock c <= last;
  ho_done : forall r t, In (r, t) done ->
    exists i, peer_index c (rp_id r) = Some i /\ slot_at c i = SLOT r t 1 1;
  ho_seen : forall i, In i (peer_indices p) -> sl_seen (slot_at c i) <> 0 ->
    exists r t, In (r, t) done /\ slot_at c i = SLOT r t 1 1 /\ peer_index c (rp_id r) = Some i
}.

(** A report an honest peer of the round sends. *)
Record honest_report (p : gc_config) (commitment : list Z) (r : gc_report) : Prop := {
  hr_member : In (rp_id r) (map (fun i => peer_id (peer_at p i)) (peer_indices p));
  hr_generation : rp_generation r = cc_generation p;
  hr_policy : rp_policy r = cc_policy p;
  hr_profile : rp_profile r = cc_profile p;
  hr_round : rp_round r = cc_round p;
  hr_epoch : rp_epoch r <> 0;
  hr_sequence : rp_sequence r <> 0;
  hr_authenticated : rp_authenticated r = 1;
  hr_fresh : rp_persistent_freshness r = 1;
  hr_ack : rp_same_round_ack r = 1;
  hr_claims : rp_claims_actuation r = 0;
  hr_commitment : committed_to r = commitment
}.

Lemma honest_clock p done last c t :
  honest p done last c -> last <= t -> clock_check c t 1 = (GC_OK, put_co_clock t c).
Proof.
  intros [] Ht. unfold clock_check. cbn [negb Z.eqb orb].
  destruct (Z.eqb_spec (co_clock_seen c) 0); cbn [negb andb]; [done|].
  destruct (Z.ltb_spec t (co_last_clock c)); [lia|done].
Qed.

Lemma evaluate_clock c now : co_last_clock (evaluate c now).1.1 = co_last_clock c.
Proof. unfold evaluate. destruct (foldl _ _ _) as [count roles]. by destruct (_ || _). Qed.

Lemma honest_submit p commitment done last c r t :
  round_ok p -> honest p done last c -> honest_report p commitment r -> last <= t ->
  (forall r' t', In (r', t') done -> committed_to r' = commitment /\ rp_id r' <> rp_id r) ->
  exists c', gc_submit (Some c) (Some r) t 1 = (GC_OK, Some c') /\ honest p (done ++ [(r, t)]) t c'.
Proof.
  intros Hp Hc Hr Ht Hd. pose proof (honest_clock p done last c t Hc Ht) as Hclk.
  destruct Hc, Hr. unfold gc_submit.
  rewrite bool_decide_false by (destruct ho_state0; congruence).
  assert (Hi : exists i, peer_index c (rp_id r) = Some i).
  { apply in_map_iff in hr_member0 as (i & E & Hi). unfold peer_index. rewrite ho_config0.
    destruct (List.find _ _) as [j|] eqn:Ef; [by exists j|].
    apply (List.find_none _ _ Ef) in Hi. rewrite E, Z.eqb_refl in Hi. done. }
  destruct Hi as [i Ei]. rewrite Ei. pose proof (peer_index_spec _ _ _ Ei) as [Hin Hid].
  rewrite ho_config0 in Hin, Hid.
  assert (Hadm : report_admissible c r = true).
  { unfold report_admissible.
    rewrite ho_config0, hr_generation0, hr_policy0, hr_profile0, hr_round0, hr_authenticated0,
      hr_fresh0, hr_ack0, hr_claims0, !Z.eqb_refl.
    by rewrite (proj2 (Z.eqb_neq _ _) hr_epoch0), (proj2 (Z.eqb_neq _ _) hr_sequence0). }
  rewrite Hadm. cbn [negb]. cbv zeta.
  assert (Hnew : sl_seen (slot_at c i) = 0).
  { destruct (decide (sl_seen (slot_at c i) = 0)) as [|Hseen]; [done|].
    destruct (ho_seen0 i Hin Hseen) as (r' & t' & Hin' & _ & Ei').
    destruct (Hd r' t' Hin') as [_ []]. apply peer_index_spec in Ei' as [_ E].
    rewrite ho_config0 in E. congruence. }
  rewrite Hnew. cbn [negb Z.eqb andb]. rewrite Hclk, bool_decide_true by done. cbn [negb].
  change (co_state (put_co_clock t c)) with (co_state c).
  replace (bool_decide (co_state c = GC_CONFLICT_LATCHED)
           || bool_decide (co_state c = GC_REJOIN_REQUIRED)) with false
    by (symmetry; apply orb_false_iff; rewrite !bool_decide_eq_false; destruct ho_state0; split; congruence).
  rewrite hr_claims0. cbn [Z.eqb andb].
  destruct (existsb _ _) eqn:Ex.
  { apply existsb_exists in Ex as (j & Hj & Ex). apply andb_true_iff in Ex as [Hs Hdiff].
    change (slot_at (put_co_clock t c) j) with (slot_at c j) in Hs, Hdiff.
    cbn in Hj. rewrite ho_config0 in Hj. apply negb_true_iff, Z.eqb_neq in Hs.
    destruct (ho_seen0 j Hj Hs) as (r' & t' & Hin' & Es & _). rewrite Es in Hdiff. cbn in Hdiff.
    unfold commitment_differs in Hdiff. apply negb_true_iff, bool_decide_eq_false in Hdiff.
    destruct Hdiff. destruct (Hd r' t' Hin') as [E _]. unfold committed_to in *. congruence. }
  set (y := put_co_slot i _ _).
  pose proof (evaluate_clock y t) as Hlc. pose proof (round_evaluate_spec y t) as Hev.
  assert (Ey : co_config y = p) by done. rewrite Ey in Hev. specialize (Hev (ro_count _ Hp)).
  destruct (evaluate y t) as [[c' n] roles]. destruct Hev as (_ & _ & [E1 E2] & Hst).
  exists c'. split; [done|].
  assert (Hslot : forall j, slot_at c' j = if decide (i = j) then SLOT r t 1 1 else slot_at c j).
  { intros j. apply slot_at_insert; [by rewrite E2|]. rewrite ho_slots0.
    eapply in_indices_bound; [done|apply Hp]. }
  assert (Hidx : forall id, peer_index c' id = peer_index c id)
    by (intros; apply peer_index_config; by rewrite E1).
  split.
  - by rewrite E1.
  - destruct (Hst ho_state0) as [_ []]; auto.
  - rewrite E2. cbn. by rewrite length_insert.
  - right. cbn in Hlc. rewrite Hlc. cbn. lia.
  - intros r' t' Hin'. apply in_snoc in Hin' as [Hin'|[= -> ->]].
    + destruct (ho_done0 r' t' Hin') as (j & Ej & Es). exists j. rewrite Hidx. split; [done|].
      rewrite Hslot. case_decide as D; [|done]. subst j. rewrite Es in Hnew. done.
    + exists i. rewrite Hidx, Hslot, decide_True by done. done.
  - intros j Hj. rewrite Hslot. case_decide as D.
    + subst j. intros _. exists r, t. rewrite in_snoc, Hidx. auto.
    + intros Hseen. destruct (ho_seen0 j Hj Hseen) as (r' & t' & H & H1 & H2).
      exists r', t'. rewrite in_snoc, Hidx. auto.
Qed.

(** The times at which reports arrive, from the latest one on. *)
Fixpoint in_time_order (last : Z) (times : list Z) : Prop :=
  match times with [] => True | t :: times => last <= t /\ in_time_order t times end.

Lemma last_default {A} (l : list A) x y : l <> [] -> List.last l x = List.last l y.
Proof. induction l as [|a [|b l] IH]; [done|done|]. intros _. by apply IH. Qed.

Lemma honest_run p commitment l : forall before last c h,
  round_ok p -> honest p before last c -> in_time_order last (map snd l) ->
  Forall (fun e => honest_report p commitment e.1) l ->
  Forall (fun e => committed_to e.1 = commitment) before ->
  NoDup (map (fun e => rp_id e.1) (before ++ l)) ->
  exists c', gc_run h c (submissions l) = (h ++ map (fun op => (op, GC_OK)) (submissions l), c') /\
    honest p (before ++ l) (List.last (map snd l) last) c'.
Proof.
  induction l as [|[r t] l IH]; intros before last c h Hp Hc Ht Hl Hb Hnd.
  { exists c. cbn. by rewrite !app_nil_r. }
  cbn in Ht. destruct Ht as [Ht Hts]. apply Forall_cons in Hl as [Hr Hl]. cbn in Hr.
  destruct (honest_submit p commitment before last c r t Hp Hc Hr Ht) as (c1 & E & Hc1).
  { intros r' t' Hin. rewrite List.Forall_forall in Hb. split; [apply (Hb (r', t') Hin)|].
    rewrite map_app in Hnd. cbn in Hnd. apply NoDup_app in Hnd as (_ & Hnd & _). intros Eid.
    apply (Hnd (rp_id r')); [by apply list_elem_of_In, (in_map (fun e => rp_id e.1) _ (r', t'))|].
    rewrite Eid. by left. }
  destruct (IH (before ++ [(r, t)]) t c1 (h ++ [(OpSubmit r t 1, GC_OK)]) Hp Hc1 Hts Hl) as (c' & E' & Hc').
  - apply Forall_app. split; [done|]. repeat constructor. apply Hr.
  - by rewrite <- app_assoc.
  - exists c'. cbn [submissions map gc_run gc_step]. rewrite E. cbn [default from_option id].
    split; [rewrite <- app_assoc in E'; exact E'|]. rewrite <- app_assoc in Hc'.
    change (honest p (before ++ (r, t) :: l) (List.last (t :: map snd l) last) c').
    replace (List.last (t :: map snd l) last) with (List.last (map snd l) t); [exact Hc'|].
    destruct l as [|e l]; [done|]. by apply (last_default (map snd (e :: l))).
Qed.

(** The peers of the honest reports, among the sources that [evaluate] counts. *)
Lemma honest_sources p commitment l last c now :
  round_ok p -> honest p l last c -> is_u64_time now ->
  Forall (fun e => honest_report p commitment e.1 /\ is_u64_time e.2 /\
                   e.2 <= now <= e.2 + cc_max_age p) l ->
  forall r t, In (r, t) l -> exists i, In i (sources_at c now) /\ peer_id (peer_at p i) = rp_id r.
Proof.
  intros Hp [] Hnow Hl r t Hin. destruct (ho_done0 r t Hin) as (i & Ei & Es). exists i.
  rewrite List.Forall_forall in Hl. destruct (Hl _ Hin) as (Hr & Ht & Hage). cbn in Hr, Ht, Hage.
  apply peer_index_spec in Ei as [Hi Hid]. rewrite ho_config0 in Hi, Hid. split; [|done].
  apply List.filter_In. rewrite ho_config0. split; [done|].
  apply slot_counts_spec; [done|by rewrite Es|]. rewrite Es, ho_config0. cbn.
  split; [done|]. split; [done|]. split; [apply Hr|done].
Qed.

(** Reports of different peers are counted once each. *)
Lemma honest_sources_count p commitment l last c now :
  round_ok p -> honest p l last c -> is_u64_time now ->
  Forall (fun e => honest_report p commitment e.1 /\ is_u64_time e.2 /\
                   e.2 <= now <= e.2 + cc_max_age p) l ->
  NoDup (map (fun e => rp_id e.1) l) -> (length l <= length (sources_at c now))%nat.
Proof.
  intros Hp Hc Hnow Hl Hnd.
  rewrite <- (length_map (fun e => rp_id e.1) l),
          <- (length_map (fun i => peer_id (peer_at p i)) (sources_at c now)).
  apply List.NoDup_incl_length; [by apply NoDup_ListNoDup|].
  intros id Hid. apply in_map_iff in Hid as ([r t] & <- & Hin).
  destruct (honest_sources p commitment l last c now Hp Hc Hnow Hl r t Hin) as (i & Hi & Hid).
  cbn. rewrite <- Hid. by apply (in_map (fun i => peer_id (peer_at p i))).
Qed.

Lemma configured_honest p c :
  gc_configure (Some zero_corroboration) (Some p) = (GC_OK, Some c) -> honest p [] 0 c.
Proof.
  intros E. destruct (configure_cases zero_corroboration p) as (res & c0 & E' & Hcase).
  rewrite E in E'. injection E' as <- <-.
  destruct Hcase as [[? _]|(_ & _ & Hp & Est & Ec & Es)]; [done|].
  assert (Hclk : co_clock_seen c = 0).
  { unfold gc_configure in E. cbn [co_state zero_corroboration] in E.
    rewrite bool_decide_true in E by done. cbn [negb] in E. destruct (_ || _); [done|].
    destruct (configure_peers _ _ _ _); [|done]. destruct (negb (Z.land _ _ =? _)); [done|].
    injection E as <-. done. }
  split; [done|by left|by rewrite Es|by left|done|].
  intros i _ Hseen. exfalso. apply Hseen. unfold slot_at. rewrite Es.
  destruct i as [|[|[|[|[|[|i]]]]]]; done.
Qed.

Lemma honest_suffices p commitment l last c now :
  round_ok p -> Forall (fun q => is_u8 (peer_role q)) (cc_peers p) ->
  honest p l last c -> is_u64_time now ->
  Forall (fun e => honest_report p commitment e.1 /\ is_u64_time e.2 /\
                   e.2 <= now <= e.2 + cc_max_age p) l ->
  NoDup (map (fun e => rp_id e.1) l) -> cc_threshold p <= Z.of_nat (length l) ->
  (forall role, Z.testbit (cc_required_roles p) role = true ->
     exists r t i, In (r, t) l /\ In i (peer_indices p) /\
                   peer_id (peer_at p i) = rp_id r /\ peer_role (peer_at p i) = role) ->
  suffices p (sources_at c now).
Proof.
  intros Hp Htyped Hc Hnow Hl Hnd Hth Hroles.
  pose proof (honest_sources p commitment l last c now Hp Hc Hnow Hl) as Hsrc. split.
  - pose proof (honest_sources_count p commitment l last c now Hp Hc Hnow Hl Hnd). lia.
  - apply Z.bits_inj'. intros k Hk. rewrite Z.land_spec.
    destruct (Z.testbit (cc_required_roles p) k) eqn:E; [|by rewrite andb_false_r].
    rewrite andb_true_r. apply coverage_spec; [done| |].
    + intros i Hi. apply List.filter_In in Hi as [Hi _]. rewrite (ho_config _ _ _ _ Hc) in Hi.
      pose proof (ro_roles _ Hp i Hi). destruct (peer_role_u8 p i Htyped). split; [done|lia].
    + destruct (Hroles k E) as (r & t & i & Hin & Hi & Hid & Hrole).
      destruct (Hsrc r t Hin) as (j & Hj & Ej). exists j. split; [done|].
      enough (j = i) by congruence.
      apply (NoDup_map_inj (fun i => peer_id (peer_at p i)) (peer_indices p)); [apply Hp| |done|congruence].
      apply List.filter_In in Hj as [Hj _]. by rewrite (ho_config _ _ _ _ Hc) in Hj.
Qed.

(** C7:An honest round is corroborated: from an accepted configuration, when enough
    different peers of the round, covering the required roles, send acknowledged
    reports that agree, in time order, every submission is accepted, and a query
    while the reports are within the age limit grants eligibility and counts them. *)
Theorem honest_round_is_corroborated p c commitment l now :
  gc_configure (Some zero_corroboration) (Some p) = (GC_OK, Some c) ->
  Forall (fun q => is_u8 (peer_role q)) (cc_peers p) ->
  Forall (fun e => honest_report p commitment e.1 /\ is_u64_time e.2 /\
                   e.2 <= now <= e.2 + cc_max_age p) l ->
  in_time_order 0 (map snd l) -> is_u64_time now ->
  NoDup (map (fun e => rp_id e.1) l) -> cc_threshold p <= Z.of_nat (length l) ->
  (forall role, Z.testbit (cc_required_roles p) role = true ->
     exists r t i, In (r, t) l /\ In i (peer_indices p) /\
                   peer_id (peer_at p i) = rp_id r /\ peer_role (peer_at p i) = role) ->
  exists c' c'' out,
    gc_run [] c (submissions l) = (map (fun op => (op, GC_OK)) (submissions l), c') /\
    gc_query (Some c') now 1 (Some zero_assessment) = (GC_OK, Some c'', Some out) /\
    as_eligible_for_local_review out = 1 /\ as_state out = GC_CORROBORATED /\
    Z.of_nat (length l) <= as_fresh_count out.
Proof.
  intros Hcfg Htyped Hl Hord Hnow Hnd Hth Hroles.
  destruct (configure_cases zero_corroboration p) as (res & c0 & E & Hcase).
  rewrite Hcfg in E. injection E as <- <-.
  destruct Hcase as [[? _]|(_ & _ & Hp & Est & Ec & Es)]; [done|].
  assert (Hc0 : honest p [] 0 c) by (by apply configured_honest).
  destruct (honest_run p commitment l [] 0 c [] Hp Hc0 Hord) as (c' & Hrun & Hc').
  { eapply Forall_impl; [exact Hl|]. by intros e [? _]. }
  { constructor. }
  { done. }
  cbn [app] in Hc'. exists c'.
  assert (Hle : List.last (map snd l) 0 <= now).
  { destruct l as [|e l _] using rev_ind; [destruct Hnow; done|].
    rewrite map_app. cbn [map]. rewrite List.last_last.
    apply Forall_app in Hl as [_ Hl]. apply Forall_cons in Hl as [Hl _]. tauto. }
  pose proof (honest_clock p l _ c' now Hc' Hle) as Hclk.
  pose proof (honest_suffices p commitment l _ c' now Hp Htyped Hc' Hnow Hl Hnd Hth Hroles) as Hsuf.
  pose proof (honest_sources_count p commitment l _ c' now Hp Hc' Hnow Hl Hnd) as Hcount.
  unfold gc_query.
  rewrite bool_decide_false by (destruct (ho_state _ _ _ _ Hc'); congruence).
  rewrite Hclk. set (y := put_co_clock now c').
  pose proof (round_evaluate_spec y now) as Hev.
  change (co_config y) with (co_config c') in Hev. rewrite (ho_config _ _ _ _ Hc') in Hev.
  specialize (Hev (ro_count _ Hp)). change (sources_at y now) with (sources_at c' now) in Hev.
  destruct (evaluate y now) as [[z n] roles]. destruct Hev as (-> & _ & _ & Hst).
  destruct (Hst (ho_state _ _ _ _ Hc')) as [Hz _]. apply Hz in Hsuf.
  eexists _, _. split; [exact Hrun|]. split; [reflexivity|]. cbn. rewrite Hsuf. cbn.
  split; [done|]. split; [done|lia].
Qed.

(** ** A round of three peers *)

Definition example_round : gc_config :=
  CORROBORATION_CONFIG 1 2 3 4 100 3 2 3
    [PEER 11 0; PEER 12 1; PEER 13 2; PEER 0 0; PEER 0 0].

Definition example_report (id sequence value : Z) : gc_report :=
  REPORT id 1 2 3 4 7 sequence 1 1 1 0 (replicate GUARDIAN_CORROBORATION_COMMITMENT_BYTES value).

Definition example_ops : list gc_op :=
  [OpConfigure example_round; OpSubmit (example_report 11 1 9) 10 1;
   OpSubmit (example_report 12 1 9) 20 1; OpSubmit (example_report 11 2 9) 30 1].

Lemma example_round_typed : Forall gc_op_typed example_ops.
Proof. repeat constructor; vm_compute; done. Qed.

Lemma eligibility_is_earned_witness :
  exists h commitment sources,
    NoDup (map peer_id sources) /\ 2 <= Z.of_nat (length sources) /\
    Forall (vouches h 40 example_round commitment) sources.
Proof.
  destruct (eligibility_is_earned example_ops (gc_run [] zero_corroboration example_ops).1
    (gc_run [] zero_corroboration example_ops).2 40 1 zero_assessment GC_OK
    (gc_query (Some (gc_run [] zero_corroboration example_ops).2) 40 1 (Some zero_assessment)).1.2
    (default zero_assessment
      (gc_query (Some (gc_run [] zero_corroboration example_ops).2) 40 1 (Some zero_assessment)).2))
    as (commitment & sources & H1 & H2 & H3 & H4 & _).
  - exact example_round_typed.
  - unfold is_u64_time. lia.
  - vm_compute. reflexivity.
  - vm_compute. reflexivity.
  - vm_compute. reflexivity.
  - exists (gc_run [] zero_corroboration example_ops).1, commitment, sources.
    split; [exact H1|]. split; [exact H4|exact H3].
Defined.

Lemma accepted_reports_advance_witness : 1 < 2.
Proof.
  apply (accepted_reports_advance example_ops (gc_run [] zero_corroboration example_ops).1
    (gc_run [] zero_corroboration example_ops).2
    [(OpConfigure example_round, GC_OK)] (example_report 11 1 9) 10 1
    [(OpSubmit (example_report 12 1 9) 20 1, GC_OK)] (example_report 11 2 9) 30 1 []).
  - exact example_round_typed.
  - vm_compute. reflexivity.
  - vm_compute. reflexivity.
  - reflexivity.
Defined.

Definition example_later : list gc_op :=
  [OpQuery 40 1; OpConfigure example_round; OpSubmit (example_report 11 3 9) 50 1; OpRequireRejoin].

Lemma alarms_latch_witness :
  let s := gc_step (gc_run [] zero_corroboration example_ops).2
             (OpSubmit (example_report 13 1 8) 35 1) in
  let later := gc_run [] s.2 example_later in
  s.1 = GC_CONFLICT /\ co_state later.2 = GC_CONFLICT_LATCHED.
Proof.
  cbv zeta. split; [vm_compute; reflexivity|].
  rewrite (proj1 (alarms_latch example_ops (gc_run [] zero_corroboration example_ops).1
    (gc_run [] zero_corroboration example_ops).2 (OpSubmit (example_report 13 1 8) 35 1) GC_CONFLICT
    (gc_step (gc_run [] zero_corroboration example_ops).2
       (OpSubmit (example_report 13 1 8) 35 1)).2 example_later
    (gc_run (gc_run [] zero_corroboration example_ops).1
       (gc_step (gc_run [] zero_corroboration example_ops).2
          (OpSubmit (example_report 13 1 8) 35 1)).2 example_later).1
    (gc_run [] (gc_step (gc_run [] zero_corroboration example_ops).2
          (OpSubmit (example_report 13 1 8) 35 1)).2 example_later).2
    60 1 zero_assessment
    (default zero_assessment
      (gc_query (Some (gc_run [] (gc_step (gc_run [] zero_corroboration example_ops).2
         (OpSubmit (example_report 13 1 8) 35 1)).2 example_later).2) 60 1 (Some zero_assessment)).2)
    GC_OK
    (gc_query (Some (gc_run [] (gc_step (gc_run [] zero_corroboration example_ops).2
       (OpSubmit (example_report 13 1 8) 35 1)).2 example_later).2) 60 1 (Some zero_assessment)).1.2
    example_round_typed ltac:(unfold gc_op_typed, is_u64_time; lia)
    ltac:(vm_compute; reflexivity) ltac:(vm_compute; reflexivity) I
    ltac:(vm_compute; reflexivity) ltac:(vm_compute; reflexivity))).
  vm_compute. reflexivity.
Defined.

Lemma honest_round_is_corroborated_witness :
  exists c' c'' out, gc_query (Some c') 40 1 (Some zero_assessment) = (GC_OK, Some c'', Some out) /\
    as_eligible_for_local_review out = 1.
Proof.
  destruct (honest_round_is_corroborated example_round
    (gc_step zero_corroboration (OpConfigure example_round)).2
    (replicate GUARDIAN_CORROBORATION_COMMITMENT_BYTES 9)
    [(example_report 11 1 9, 10); (example_report 12 1 9, 20)] 40)
    as (c' & c'' & out & H1 & H2 & H3 & _).
  - vm_compute. reflexivity.
  - repeat constructor; vm_compute; done.
  - assert (Hr : forall id, id = 11 \/ id = 12 ->
      honest_report example_round (replicate GUARDIAN_CORROBORATION_COMMITMENT_BYTES 9)
        (example_report id 1 9)).
    { intros id Hid. destruct Hid as [-> | ->]; split; try done; vm_compute; auto. }
    repeat constructor; try (apply Hr; lia); cbn; try lia; vm_compute; done.
  - cbn. lia.
  - unfold is_u64_time. lia.
  - apply (bool_decide_unpack _). vm_compute. done.
  - cbn. lia.
  - intros role Hb. assert (H : role = 0 \/ role = 1).
    { destruct (Z.lt_ge_cases role 0); [by rewrite Z.testbit_neg_r in Hb|].
      destruct (Z.lt_ge_cases role 2); [lia|].
      rewrite Z.bits_above_log2 in Hb; [done|done|]. cbn. lia. }
    destruct H as [-> | ->].
    + exists (example_report 11 1 9), 10, 0%nat. split_and!; vm_compute; auto.
    + exists (example_report 12 1 9), 20, 1%nat. split_and!; vm_compute; auto.
  - exists c', c'', out. split; [exact H2|exact H3].
Defined.
