(* ===== verification/Envelope.v ===== *)
(** * Signed envelopes

    Model of NodeLink/Src/guardian_signed_envelope.c, the codec and transcript of
    version 2 envelopes, and NodeLink/Src/guardian_signed_envelope_auth.c, the local
    registry of peers and the verification of a received envelope. The Ed25519
    primitive of the vendored library is the parameter [crypto_ed25519_check]. *)

From S2P Require Import Prelude Crypto Wire.

(** ** Data *)

Definition GSE_HEADER : nat := 32.
Definition GSE_SIGNATURE : nat := 64.
Definition GSE_MAX_PAYLOAD : nat := 64.
Definition GSE_MAX_WIRE : nat := 160.
Definition GSE_DOMAIN : list Z := Eval cbv in label_bytes "GUARDIAN-F401:NODELINK:SIGNED-ENVELOPE:V2".
Definition GSE_DOMAIN_SIZE : nat := Eval cbv in length GSE_DOMAIN.
Definition GSE_MAX_TRANSCRIPT : nat := GSE_DOMAIN_SIZE + GSE_HEADER + GSE_MAX_PAYLOAD.

Record gse_unverified := UNVERIFIED {
  en_type : Z; en_state : Z;
  en_payload_length : Z;
  en_sender : Z; en_producer : Z; en_key : Z; en_epoch : Z; en_sequence : Z;
  en_payload : list Z;      (* payload[64] *)
  en_signature : list Z     (* signature[64] *)
}.

Inductive gse_result := GSE_OK | GSE_INVALID | GSE_CAPACITY.

#[global] Instance gse_result_eq_dec : EqDecision gse_result.
Proof. solve_decision. Defined.

(** ** The codec *)

Definition envelope_valid (p : option gse_unverified) : bool :=
  match p with
  | None => false
  | Some p =>
      (en_state p <=? 5) && negb (en_sender p =? 0) && negb (en_producer p =? 0)
      && negb (en_key p =? 0) && negb (en_epoch p =? 0) && negb (en_sequence p =? 0)
      && (((en_type p =? 7) && (en_payload_length p =? 52))
          || ((en_type p =? 8) && (en_payload_length p =? 60)))
  end.

Definition envelope_header (p : gse_unverified) : list Z :=
  let b := replicate GSE_HEADER 0 in
  let b := blit b 0 [0x47] in
  let b := blit b 1 [0x53] in
  let b := blit b 2 [2] in
  let b := blit b 3 [en_type p] in
  let b := blit b 5 [en_state p] in
  let b := blit b 6 [1] in
  let b := blit b 8 [u8 (en_payload_length p)] in
  let b := blit b 10 [64] in
  let b := blit b 12 (put32_loop 4 (en_sender p)) in
  let b := blit b 16 (put32_loop 4 (en_producer p)) in
  let b := blit b 20 (put32_loop 4 (en_key p)) in
  let b := blit b 24 (put32_loop 4 (en_epoch p)) in
  blit b 28 (put32_loop 4 (en_sequence p)).

(** The stores into the temporary buffer are consecutive. *)
Definition gse_encode (input : option gse_unverified) (wire : option (list Z))
    (capacity : nat) (length : option nat) : gse_result * option (list Z) * option nat :=
  match length with
  | None => (GSE_INVALID, wire, None)
  | Some _ =>
      early is_null wire || negb (envelope_valid input) with (GSE_INVALID, wire, Some 0%nat) ;;
      match input, wire with
      | Some p, Some out =>
          let n := (GSE_HEADER + Z.to_nat (en_payload_length p) + GSE_SIGNATURE)%nat in
          early (capacity <? n)%nat with (GSE_CAPACITY, wire, Some 0%nat) ;;
          let temp := envelope_header p ++ take (Z.to_nat (en_payload_length p)) (en_payload p)
                      ++ take GSE_SIGNATURE (en_signature p) in
          (GSE_OK, Some (blit out 0 temp), Some n)
      | _, _ => (GSE_INVALID, wire, Some 0%nat)
      end
  end.

Definition gse_decode (wire : option (list Z)) (length : nat) (output : option gse_unverified)
  : gse_result * option gse_unverified :=
  match wire, output with
  | Some w, Some _ =>
      early (length <? GSE_HEADER + GSE_SIGNATURE)%nat || (GSE_MAX_WIRE <? length)%nat
        with (GSE_INVALID, output) ;;
      early negb (byte_at w 0 =? 0x47) || negb (byte_at w 1 =? 0x53) || negb (byte_at w 2 =? 2)
            || negb (byte_at w 4 =? 0) || negb (byte_at w 6 =? 1) || negb (byte_at w 7 =? 0)
            || negb (byte_at w 9 =? 0) || negb (byte_at w 10 =? 64) || negb (byte_at w 11 =? 0)
        with (GSE_INVALID, output) ;;
      let payload := byte_at w 8 in
      let n := Z.to_nat payload in
      early negb (length =? GSE_HEADER + n + GSE_SIGNATURE)%nat
            || (GSE_MAX_PAYLOAD <? n)%nat with (GSE_INVALID, output) ;;
      let temp :=
        UNVERIFIED (byte_at w 3) (byte_at w 5) payload
          (get32 (drop 12 w)) (get32 (drop 16 w)) (get32 (drop 20 w)) (get32 (drop 24 w))
          (get32 (drop 28 w)) (replicate GSE_MAX_PAYLOAD 0) (replicate GSE_SIGNATURE 0) in
      early negb (envelope_valid (Some temp)) with (GSE_INVALID, output) ;;
      (GSE_OK,
       Some (UNVERIFIED (en_type temp) (en_state temp) (en_payload_length temp) (en_sender temp)
               (en_producer temp) (en_key temp) (en_epoch temp) (en_sequence temp)
               (blit (en_payload temp) 0 (take n (drop GSE_HEADER w)))
               (blit (en_signature temp) 0 (take GSE_SIGNATURE (drop (GSE_HEADER + n) w)))))
  | _, _ => (GSE_INVALID, output)
  end.

Definition gse_transcript (input : option gse_unverified) (bytes : option (list Z))
    (capacity : nat) (length : option nat) : gse_result * option (list Z) * option nat :=
  match length with
  | None => (GSE_INVALID, bytes, None)
  | Some _ =>
      early is_null bytes || negb (envelope_valid input) with (GSE_INVALID, bytes, Some 0%nat) ;;
      match input, bytes with
      | Some p, Some out =>
          let n := (GSE_DOMAIN_SIZE + GSE_HEADER + Z.to_nat (en_payload_length p))%nat in
          early (capacity <? n)%nat with (GSE_CAPACITY, bytes, Some 0%nat) ;;
          let temp := GSE_DOMAIN ++ envelope_header p
                      ++ take (Z.to_nat (en_payload_length p)) (en_payload p) in
          (GSE_OK, Some (blit out 0 temp), Some n)
      | _, _ => (GSE_INVALID, bytes, Some 0%nat)
      end
  end.

(** ** The registry *)

Definition GSEA_MAX_PEERS : nat := 8.
Definition GSEA_PUBLIC_KEY_SIZE : nat := 32.
Definition GSEA_OBSERVATION : Z := 1.
Definition GSEA_ACK : Z := 2.
Definition GSEA_BOTH : Z := 3.

Record gsea_peer := ENVELOPE_PEER {
  pr_sender : Z; pr_producer : Z; pr_key : Z;
  pr_public_key : list Z;   (* public_key[32] *)
  pr_revoked : Z; pr_allowed_types : Z
}.

Record gsea_context := REGISTRY {
  rg_peers : list gsea_peer;  (* peers[8] *)
  rg_count : nat;
  rg_registry_revision : Z;
  rg_configured : Z
}.

Record gsea_signature_evidence := SIGNATURE_EVIDENCE {
  sg_envelope : gse_unverified;
  sg_registry_revision : Z
}.

Inductive gsea_result :=
  | GSEA_OK | GSEA_INVALID | GSEA_UNCONFIGURED | GSEA_PEER_UNKNOWN | GSEA_KEY_REVOKED
  | GSEA_TYPE_DENIED | GSEA_SIGNATURE_INVALID.

#[global] Instance gsea_result_eq_dec : EqDecision gsea_result.
Proof. solve_decision. Defined.

Definition blank_peer : gsea_peer := ENVELOPE_PEER 0 0 0 (replicate GSEA_PUBLIC_KEY_SIZE 0) 0 0.
Definition zero_registry : gsea_context := REGISTRY (replicate GSEA_MAX_PEERS blank_peer) 0 0 0.

Definition gsea_init (context : option gsea_context) : option gsea_context :=
  match context with None => None | Some _ => Some zero_registry end.

Definition valid_peer (peer : gsea_peer) : bool :=
  let aggregate :=
    foldl (fun aggregate i => u8 (Z.lor aggregate (byte_at (pr_public_key peer) i))) 0
      (seq 0 GSEA_PUBLIC_KEY_SIZE) in
  negb (pr_sender peer =? 0) && negb (pr_producer peer =? 0) && negb (pr_key peer =? 0)
  && (pr_revoked peer <=? 1) && (GSEA_OBSERVATION <=? pr_allowed_types peer)
  && (pr_allowed_types peer <=? GSEA_BOTH) && negb (aggregate =? 0).

Definition envelope_peer_at (peers : list gsea_peer) (i : nat) : gsea_peer := nth i peers blank_peer.

Definition same_identity (p q : gsea_peer) : bool :=
  (pr_sender p =? pr_sender q) && (pr_producer p =? pr_producer q) && (pr_key p =? pr_key q).

(** The loop that copies the peers, or stops at one that is refused. *)
Fixpoint registry_peers (peers : list gsea_peer) (i n : nat) (candidate : list gsea_peer)
  : option (list gsea_peer) :=
  match n with
  | O => Some candidate
  | S n =>
      early negb (valid_peer (envelope_peer_at peers i)) with None ;;
      early existsb (fun j => same_identity (envelope_peer_at peers i) (envelope_peer_at peers j))
              (seq 0 i) with None ;;
      registry_peers peers (S i) n (<[i := envelope_peer_at peers i]> candidate)
  end.

Definition gsea_configure (context : option gsea_context) (peers : option (list gsea_peer))
    (count : nat) (registry_revision : Z) : gsea_result * option gsea_context :=
  match context with
  | None => (GSEA_INVALID, None)
  | Some _ =>
      match peers with
      | None => (GSEA_INVALID, gsea_init context)
      | Some ps =>
          early (count =? 0)%nat || (GSEA_MAX_PEERS <? count)%nat || (registry_revision =? 0)
            with (GSEA_INVALID, gsea_init context) ;;
          match registry_peers ps 0 count (rg_peers zero_registry) with
          | None => (GSEA_INVALID, gsea_init context)
          | Some candidate => (GSEA_OK, Some (REGISTRY candidate count registry_revision 1))
          end
      end
  end.

Definition names_peer (decoded : gse_unverified) (p : gsea_peer) : bool :=
  (pr_sender p =? en_sender decoded) && (pr_producer p =? en_producer decoded)
  && (pr_key p =? en_key decoded).

(** The search loop: two matches end it. *)
Fixpoint find_peer (peers : list gsea_peer) (decoded : gse_unverified) (i n : nat)
    (peer : option gsea_peer) : option (option gsea_peer) :=
  match n with
  | O => Some peer
  | S n =>
      if names_peer decoded (envelope_peer_at peers i)
      then
        early negb (is_null peer) with None ;;
        find_peer peers decoded (S i) n (Some (envelope_peer_at peers i))
      else find_peer peers decoded (S i) n peer
  end.

Definition blank_envelope : gse_unverified :=
  UNVERIFIED 0 0 0 0 0 0 0 0 (replicate GSE_MAX_PAYLOAD 0) (replicate GSE_SIGNATURE 0).

Section verify.
(** Signature, public key and the message bytes that pointer and length designate. *)
Context (crypto_ed25519_check : list Z -> list Z -> list Z -> Z).

Definition gsea_verify (context : option gsea_context) (wire : option (list Z)) (length : nat)
    (output : option gsea_signature_evidence) : gsea_result * option gsea_signature_evidence :=
  match context, wire, output with
  | Some c, Some w, Some _ =>
      early negb (rg_configured c =? 1) || (rg_count c =? 0)%nat
            || (GSEA_MAX_PEERS <? rg_count c)%nat || (rg_registry_revision c =? 0)
        with (GSEA_UNCONFIGURED, output) ;;
      let '(result, decoded) := gse_decode (Some w) length (Some blank_envelope) in
      early negb (bool_decide (result = GSE_OK)) with (GSEA_INVALID, output) ;;
      let decoded := default blank_envelope decoded in
      match find_peer (rg_peers c) decoded 0 (rg_count c) None with
      | None => (GSEA_INVALID, output)
      | Some None => (GSEA_PEER_UNKNOWN, output)
      | Some (Some peer) =>
          early negb (pr_revoked peer =? 0) with (GSEA_KEY_REVOKED, output) ;;
          let required_type := if en_type decoded =? 7 then GSEA_OBSERVATION else GSEA_ACK in
          early Z.land (pr_allowed_types peer) required_type =? 0 with (GSEA_TYPE_DENIED, output) ;;
          let '(result, transcript, transcript_length) :=
            gse_transcript (Some decoded) (Some (replicate GSE_MAX_TRANSCRIPT 0))
              GSE_MAX_TRANSCRIPT (Some 0%nat) in
          early negb (bool_decide (result = GSE_OK)) with (GSEA_INVALID, output) ;;
          early negb (crypto_ed25519_check (en_signature decoded) (pr_public_key peer)
                        (take (default 0%nat transcript_length) (default [] transcript)) =? 0)
            with (GSEA_SIGNATURE_INVALID, output) ;;
          (GSEA_OK, Some (SIGNATURE_EVIDENCE decoded (rg_registry_revision c)))
      end
  | _, _, _ => (GSEA_INVALID, output)
  end.
End verify.

(** ** Objects and images *)

Record envelope_object (e : gse_unverified) : Prop := {
  eo_type : is_u8 (en_type e);
  eo_state : is_u8 (en_state e);
  eo_payload_length : is_u16 (en_payload_length e);
  eo_sender : is_u32 (en_sender e);
  eo_producer : is_u32 (en_producer e);
  eo_key : is_u32 (en_key e);
  eo_epoch : is_u32 (en_epoch e);
  eo_sequence : is_u32 (en_sequence e);
  eo_payload : bytes (en_payload e);
  eo_payload_size : length (en_payload e) = GSE_MAX_PAYLOAD;
  eo_signature : bytes (en_signature e);
  eo_signature_size : length (en_signature e) = GSE_SIGNATURE
}.

(** The payload bytes of the envelope, and the zeros behind them in the array. *)
Definition payload_of (e : gse_unverified) : list Z :=
  take (Z.to_nat (en_payload_length e)) (en_payload e).

Definition padded (e : gse_unverified) : Prop :=
  en_payload e = payload_of e ++ replicate (GSE_MAX_PAYLOAD - Z.to_nat (en_payload_length e)) 0.

Definition header_image (e : gse_unverified) : list Z :=
  [0x47; 0x53; 2; en_type e; 0; en_state e; 1; 0; u8 (en_payload_length e); 0; 64; 0] ++
  put32 (en_sender e) ++ put32 (en_producer e) ++ put32 (en_key e) ++ put32 (en_epoch e) ++
  put32 (en_sequence e).

Definition envelope_image (e : gse_unverified) : list Z :=
  header_image e ++ payload_of e ++ en_signature e.

Definition envelope_transcript (e : gse_unverified) : list Z :=
  GSE_DOMAIN ++ header_image e ++ payload_of e.

Lemma envelope_header_eq e : envelope_header e = header_image e.
Proof. unfold envelope_header. rewrite !put32_loop_eq. reflexivity. Qed.

Lemma header_image_length e : length (header_image e) = GSE_HEADER.
Proof. reflexivity. Qed.
#[export] Hint Rewrite header_image_length : guardian_len.

Lemma valid_payload_length e :
  envelope_valid (Some e) = true -> en_payload_length e = 52 \/ en_payload_length e = 60.
Proof. cbn. rewrite !andb_true_iff, orb_true_iff, !andb_true_iff. lia. Qed.

Lemma payload_of_length e :
  envelope_object e -> envelope_valid (Some e) = true ->
  length (payload_of e) = Z.to_nat (en_payload_length e).
Proof.
  intros [] Hv. unfold payload_of. rewrite length_take, eo_payload_size0. unfold GSE_MAX_PAYLOAD.
  destruct (valid_payload_length e Hv) as [-> | ->]; reflexivity.
Qed.

Lemma envelope_image_length e :
  envelope_object e -> envelope_valid (Some e) = true ->
  length (envelope_image e) =
    (GSE_HEADER + Z.to_nat (en_payload_length e) + GSE_SIGNATURE)%nat.
Proof.
  intros He Hv. unfold envelope_image.
  rewrite !length_app, header_image_length, payload_of_length, eo_signature_size by done. lia.
Qed.

Lemma envelope_image_bytes e :
  envelope_object e -> envelope_valid (Some e) = true -> bytes (envelope_image e).
Proof.
  intros [] Hv. unfold envelope_image, header_image, payload_of.
  repeat apply bytes_app_2; try apply put32_bytes; try done; [|by apply bytes_take].
  repeat (apply bytes_cons; [first [done|apply u8_range]|]). apply bytes_nil.
Qed.

Lemma gse_encode_eq e out cap n :
  envelope_object e -> envelope_valid (Some e) = true ->
  (length (envelope_image e) <= cap)%nat ->
  gse_encode (Some e) (Some out) cap (Some n) =
  (GSE_OK, Some (blit out 0 (envelope_image e)), Some (length (envelope_image e))).
Proof.
  intros He Hv Hc. pose proof (envelope_image_length e He Hv) as El. unfold gse_encode.
  rewrite Hv. cbn [is_null negb orb]. rewrite <- El.
  destruct (Nat.ltb_spec cap (length (envelope_image e))); [lia|].
  rewrite envelope_header_eq, (take_ge (en_signature e)) by (by rewrite (eo_signature_size _ He)).
  reflexivity.
Qed.

Lemma gse_transcript_eq e out cap n :
  envelope_object e -> envelope_valid (Some e) = true ->
  (GSE_MAX_TRANSCRIPT <= cap)%nat ->
  gse_transcript (Some e) (Some out) cap (Some n) =
  (GSE_OK, Some (blit out 0 (envelope_transcript e)), Some (length (envelope_transcript e))).
Proof.
  intros He Hv Hc. unfold gse_transcript. rewrite Hv. cbn [is_null negb orb].
  assert (El : length (envelope_transcript e) =
               (GSE_DOMAIN_SIZE + GSE_HEADER + Z.to_nat (en_payload_length e))%nat).
  { unfold envelope_transcript. rewrite !length_app, header_image_length, payload_of_length by done.
    change (length GSE_DOMAIN) with GSE_DOMAIN_SIZE. lia. }
  rewrite <- El. destruct (Nat.ltb_spec cap (length (envelope_transcript e))) as [H|_].
  { unfold GSE_MAX_TRANSCRIPT, GSE_DOMAIN_SIZE, GSE_HEADER, GSE_MAX_PAYLOAD in *.
    assert (Z.to_nat (en_payload_length e) <= 60)%nat
      by (destruct (valid_payload_length e Hv) as [-> | ->]; lia). lia. }
  by rewrite envelope_header_eq.
Qed.

Lemma envelope_decode_image e x :
  envelope_object e -> envelope_valid (Some e) = true -> padded e ->
  gse_decode (Some (envelope_image e)) (length (envelope_image e)) (Some x) = (GSE_OK, Some e).
Proof.
  intros He Hv Hp. pose proof (envelope_image_length e He Hv) as El.
  pose proof (payload_of_length e He Hv) as Epl.
  assert (Hb : u8 (en_payload_length e) = en_payload_length e).
  { destruct (valid_payload_length e Hv) as [-> | ->]; done. }
  unfold gse_decode. rewrite El.
  assert (Hn : (Z.to_nat (en_payload_length e) <= 60)%nat)
    by (destruct (valid_payload_length e Hv) as [-> | ->]; lia).
  destruct (Nat.ltb_spec (GSE_HEADER + Z.to_nat (en_payload_length e) + GSE_SIGNATURE)
              (GSE_HEADER + GSE_SIGNATURE)); [lia|].
  destruct (Nat.ltb_spec GSE_MAX_WIRE
              (GSE_HEADER + Z.to_nat (en_payload_length e) + GSE_SIGNATURE));
    [unfold GSE_MAX_WIRE, GSE_HEADER, GSE_SIGNATURE in *; lia|].
  cbn [orb]. rewrite <- El.
  set (w := envelope_image e).
  change (byte_at w 8) with (u8 (en_payload_length e)). rewrite Hb.
  change (negb (byte_at w 0 =? 0x47)) with false. change (negb (byte_at w 1 =? 0x53)) with false.
  change (negb (byte_at w 2 =? 2)) with false. change (negb (byte_at w 4 =? 0)) with false.
  change (negb (byte_at w 6 =? 1)) with false. change (negb (byte_at w 7 =? 0)) with false.
  change (negb (byte_at w 9 =? 0)) with false. change (negb (byte_at w 10 =? 64)) with false.
  change (negb (byte_at w 11 =? 0)) with false. cbn [orb].
  unfold w at 1. rewrite El, Nat.eqb_refl. cbn [negb orb].
  destruct (Nat.ltb_spec GSE_MAX_PAYLOAD (Z.to_nat (en_payload_length e)));
    [unfold GSE_MAX_PAYLOAD in *; lia|].
  change (drop 12 w) with (put32 (en_sender e) ++ drop 16 w).
  change (drop 16 w) with (put32 (en_producer e) ++ drop 20 w).
  change (drop 20 w) with (put32 (en_key e) ++ drop 24 w).
  change (drop 24 w) with (put32 (en_epoch e) ++ drop 28 w).
  change (drop 28 w) with (put32 (en_sequence e) ++ drop 32 w).
  rewrite !get_put32 by apply He.
  change (byte_at w 3) with (en_type e). change (byte_at w 5) with (en_state e).
  set (temp := UNVERIFIED _ _ _ _ _ _ _ _ _ _).
  change (envelope_valid (Some temp)) with (envelope_valid (Some e)). rewrite Hv. cbn [negb].
  unfold temp. cbn [en_type en_state en_payload_length en_sender en_producer en_key en_epoch
    en_sequence en_payload en_signature]. f_equal. f_equal.
  change (drop GSE_HEADER w) with (payload_of e ++ en_signature e).
  replace (drop (GSE_HEADER + Z.to_nat (en_payload_length e)) w) with (en_signature e).
  - rewrite take_app_length' by done.
    rewrite (take_ge (en_signature e)) by (rewrite (eo_signature_size _ He); done).
    rewrite (blit_exact _ (en_signature e)) by (by rewrite (eo_signature_size _ He)).
    rewrite blit_0, Epl, drop_replicate. rewrite <- Hp. by destruct e.
  - unfold w, envelope_image. rewrite app_assoc, drop_app_length'; [done|].
    rewrite length_app, Epl. reflexivity.
Qed.

Lemma decode_object w n x e :
  bytes w -> length w = n ->
  gse_decode (Some w) n (Some x) = (GSE_OK, Some e) ->
  envelope_object e /\ envelope_valid (Some e) = true /\ padded e /\ w = envelope_image e.
Proof.
  intros Hb Hn. unfold gse_decode. early_case El. apply orb_false_iff in El as [El _].
  apply Nat.ltb_ge in El. unfold GSE_HEADER, GSE_SIGNATURE in El. early_case Eh.
  set (m := Z.to_nat (byte_at w 8)). cbv zeta. early_case Em.
  rewrite orb_false_iff, negb_false_iff, Nat.eqb_eq, Nat.ltb_ge in Em. destruct Em as [Em Em'].
  set (temp := UNVERIFIED _ _ _ _ _ _ _ _ (replicate _ 0) (replicate _ 0)). early_case Ev.
  apply negb_false_iff in Ev. intros E. apply (f_equal snd), (inj Some) in E. rewrite <- E. clear E e.
  rewrite !orb_false_iff, !negb_false_iff, !Z.eqb_eq in Eh.
  destruct Eh as ((((((((E0 & E1) & E2) & E4) & E6) & E7) & E9) & E10) & E11).
  pose proof (byte_at_range w 8 Hb) as H8.
  unfold GSE_HEADER, GSE_SIGNATURE, GSE_MAX_PAYLOAD in *.
  assert (Hpl : length (take m (drop 32 w)) = m) by (rewrite length_take, length_drop; lia).
  assert (Hsl : length (take 64 (drop (32 + m) w)) = 64%nat)
    by (rewrite length_take, length_drop; lia).
  set (e := UNVERIFIED _ _ _ _ _ _ _ _ _ _).
  assert (Hpay : payload_of e = take m (drop 32 w)).
  { unfold payload_of, e. cbn [en_payload_length en_payload]. fold m. rewrite blit_0.
    by apply take_app_length'. }
  split; [|split; [exact Ev|split]].
  - split; try (apply get32_range, bytes_drop; exact Hb); try (apply byte_at_range; exact Hb).
    + unfold e, temp. cbn. unfold is_u16, is_u8 in *. lia.
    + unfold e, temp. cbn [en_payload]. auto with guardian.
      apply bytes_blit; [by apply bytes_replicate|by apply bytes_take, bytes_drop].
    + unfold e, temp. cbn [en_payload]. rewrite blit_length; [done|].
      rewrite length_replicate, Hpl. unfold GSE_MAX_PAYLOAD. lia.
    + unfold e, temp. cbn [en_signature].
      apply bytes_blit; [by apply bytes_replicate|by apply bytes_take, bytes_drop].
    + unfold e, temp. cbn [en_signature]. rewrite blit_exact; [done|by rewrite Hsl].
  - unfold padded. rewrite Hpay. unfold e, temp. cbn [en_payload en_payload_length]. fold m.
    by rewrite blit_0, Hpl, drop_replicate.
  - unfold envelope_image. rewrite Hpay.
    replace (en_signature e) with (drop (32 + m) w)
      by (unfold e, temp; cbn [en_signature]; rewrite blit_exact by (by rewrite Hsl);
          rewrite take_ge; [done|rewrite length_drop; lia]).
    rewrite (split_bytes 12 w) at 1 by lia. cbn [map seq].
    rewrite E0, E1, E2, E4, E6, E7, E9, E10, E11.
    rewrite (split_u32_at w 12 16), (split_u32_at w 16 20), (split_u32_at w 20 24),
      (split_u32_at w 24 28), (split_u32_at w 28 32) at 1 by (done || lia).
    rewrite <- (take_drop m (drop 32 w)) at 1. rewrite drop_drop.
    unfold header_image. rewrite <- !app_assoc. cbn [app].
    replace (u8 (en_payload_length e)) with (byte_at w 8); [reflexivity|].
    unfold e, temp. cbn [en_payload_length]. by rewrite u8_id.
Qed.

(** The decoder accepts exactly the images of the valid envelopes, and gives the
    envelope back. *)
Theorem gse_decode_exact w n x e :
  bytes w -> length w = n ->
  gse_decode (Some w) n (Some x) = (GSE_OK, Some e) <->
  envelope_object e /\ envelope_valid (Some e) = true /\ padded e /\ w = envelope_image e.
Proof.
  intros Hb Hn. split.
  - by apply decode_object.
  - intros (He & Hv & Hp & ->). rewrite <- Hn. by apply envelope_decode_image.
Qed.

Lemma envelope_image_inj e f :
  envelope_object e -> envelope_valid (Some e) = true -> padded e ->
  envelope_object f -> envelope_valid (Some f) = true -> padded f ->
  envelope_image e = envelope_image f -> e = f.
Proof.
  intros H1 H2 H3 H4 H5 H6 E. pose proof (envelope_decode_image e e H1 H2 H3) as Ee.
  rewrite E, envelope_decode_image in Ee by done. by injection Ee.
Qed.

(** The decoder reads only the bytes that the length designates. *)
Lemma gse_decode_take w n x :
  (n <= length w)%nat -> gse_decode (Some w) n (Some x) = gse_decode (Some (take n w)) n (Some x).
Proof.
  intros Hn. unfold gse_decode.
  destruct ((n <? _)%nat || _) eqn:El; [done|]. apply orb_false_iff in El as [El _].
  apply Nat.ltb_ge in El. unfold GSE_HEADER, GSE_SIGNATURE in El.
  rewrite !byte_at_take by lia. set (bad := negb (byte_at w 0 =? 0x47) || _).
  destruct bad; [done|]. set (m := Z.to_nat (byte_at w 8)). cbv zeta.
  destruct (negb (n =? _)%nat || _) eqn:Em; [done|].
  rewrite orb_false_iff, negb_false_iff, Nat.eqb_eq in Em. destruct Em as [Em _].
  unfold GSE_HEADER, GSE_SIGNATURE in *.
  assert (Hg : forall k, (k + 4 <= n)%nat -> get32 (drop k (take n w)) = get32 (drop k w)).
  { intros k Hk. unfold get32. rewrite !byte_at_drop, !byte_at_take by lia. done. }
  rewrite !Hg by lia.
  assert (Ht : forall j k, (j + k <= n)%nat -> take k (drop j (take n w)) = take k (drop j w)).
  { intros j k Hk. by rewrite !take_drop_commute, take_take, Nat.min_l by done. }
  by rewrite !Ht by lia.
Qed.

(** The members that the signature covers. *)
Definition unsigned (e : gse_unverified) : gse_unverified :=
  UNVERIFIED (en_type e) (en_state e) (en_payload_length e) (en_sender e) (en_producer e)
    (en_key e) (en_epoch e) (en_sequence e) (en_payload e) [].

Lemma header_image_inj e f r s :
  envelope_object e -> envelope_object f -> header_image e ++ r = header_image f ++ s ->
  en_type e = en_type f /\ en_state e = en_state f /\
  u8 (en_payload_length e) = u8 (en_payload_length f) /\
  en_sender e = en_sender f /\ en_producer e = en_producer f /\ en_key e = en_key f /\
  en_epoch e = en_epoch f /\ en_sequence e = en_sequence f /\ r = s.
Proof.
  intros [] [] H. unfold header_image in H. rewrite <- !app_assoc in H.
  apply app_inj_1 in H as [H1 H]; [|done]. injection H1 as -> -> ->.
  apply app_inj_1 in H as [?%put32_inj H]; [|done..].
  apply app_inj_1 in H as [?%put32_inj H]; [|done..].
  apply app_inj_1 in H as [?%put32_inj H]; [|done..].
  apply app_inj_1 in H as [?%put32_inj H]; [|done..].
  apply app_inj_1 in H as [?%put32_inj H]; [|done..]. done.
Qed.

(** A signature covers every field: valid envelopes with the same transcript differ
    at most in their signatures. *)
Theorem envelope_transcript_injective e f :
  envelope_object e -> envelope_object f -> padded e -> padded f ->
  envelope_valid (Some e) = true -> envelope_valid (Some f) = true ->
  envelope_transcript e = envelope_transcript f -> unsigned e = unsigned f.
Proof.
  intros He Hf Hpe Hpf Hve Hvf H. apply app_inv_head in H.
  apply header_image_inj in H as (H1 & H2 & H3 & H4 & H5 & H6 & H7 & H8 & H9); [|done..].
  assert (Hl : en_payload_length e = en_payload_length f).
  { destruct (valid_payload_length e Hve) as [E|E], (valid_payload_length f Hvf) as [E'|E'];
      rewrite E, E' in *; done. }
  unfold unsigned, padded in *. rewrite Hpe, Hpf, H9. congruence.
Qed.

(** ** The registry *)

Definition identity_of (p : gsea_peer) : Z * Z * Z := (pr_sender p, pr_producer p, pr_key p).

Lemma same_identity_spec p q : same_identity p q = true <-> identity_of p = identity_of q.
Proof.
  unfold same_identity, identity_of. rewrite !andb_true_iff, !Z.eqb_eq.
  split; [intros [[-> ->] ->]; done|by intros [= -> -> ->]].
Qed.

Lemma NoDup_map_take {A B} (f : A -> B) (l : list A) k m :
  (k <= m)%nat -> NoDup (map f (take m l)) -> NoDup (map f (take k l)).
Proof.
  intros Hk Hnd. rewrite <- (take_drop k (take m l)), take_take, Nat.min_l, map_app in Hnd by done.
  by apply NoDup_app in Hnd as [Hnd _].
Qed.

Lemma registry_peers_spec ps n : forall i candidate,
  (i + n <= length ps)%nat -> (i + n <= length candidate)%nat -> take i candidate = take i ps ->
  NoDup (map identity_of (take i ps)) ->
  registry_peers ps i n candidate =
    if decide (Forall (fun p => valid_peer p = true) (take n (drop i ps)) /\
               NoDup (map identity_of (take (i + n) ps)))
    then Some (take (i + n) ps ++ drop (i + n) candidate) else None.
Proof.
  induction n as [|n IH]; intros i candidate Hi Hc Ht Hnd; cbn [registry_peers].
  { rewrite decide_True by (split; [constructor|by rewrite Nat.add_0_r]).
    rewrite Nat.add_0_r, <- Ht. by rewrite take_drop. }
  destruct (lookup_lt_is_Some_2 ps i) as [p Hp]; [lia|].
  assert (Ep : envelope_peer_at ps i = p) by (unfold envelope_peer_at; by rewrite nth_lookup, Hp).
  assert (Es : take (S i) ps = take i ps ++ [p]) by (by apply take_S_r).
  rewrite Ep. destruct (valid_peer p) eqn:Ev; cbn [negb].
  2: { rewrite decide_False; [done|]. intros [Hv _].
       rewrite (drop_S _ _ _ Hp) in Hv. cbn in Hv. apply Forall_cons in Hv as [Hv _]. congruence. }
  destruct (existsb _ _) eqn:Ex.
  { apply existsb_exists in Ex as (j & Hj & Ej). apply in_seq in Hj.
    apply same_identity_spec in Ej. rewrite decide_False; [done|]. intros [_ Hnd'].
    apply (NoDup_map_take _ _ (S i)) in Hnd'; [|lia]. rewrite Es, map_app in Hnd'.
    apply NoDup_app in Hnd' as (_ & Hnd' & _). destruct (Hnd' (identity_of p)); [|by left].
    destruct (lookup_lt_is_Some_2 ps j) as [q Hq]; [lia|].
    unfold envelope_peer_at in Ej. rewrite nth_lookup, Hq in Ej. cbn in Ej. rewrite Ej.
    apply list_elem_of_In, in_map, list_elem_of_In.
    apply (list_elem_of_lookup_2 _ j). rewrite lookup_take_lt; [done|lia]. }
  assert (Hnd' : NoDup (map identity_of (take (S i) ps))).
  { rewrite Es, map_app. apply NoDup_app. split; [done|]. split; [|apply NoDup_singleton].
    intros k Hk Hk'. apply list_elem_of_singleton in Hk'. cbn in Hk'. subst k.
    apply list_elem_of_In, in_map_iff in Hk as (q & Eq & Hq).
    apply list_elem_of_In, list_elem_of_lookup in Hq as [j Hj].
    assert (j < i)%nat by (apply lookup_lt_Some in Hj; rewrite length_take in Hj; lia).
    rewrite lookup_take_lt in Hj by done.
    rewrite <- not_true_iff_false in Ex. destruct Ex. apply existsb_exists. exists j.
    split; [apply in_seq; lia|]. apply same_identity_spec. unfold envelope_peer_at.
    by rewrite nth_lookup, Hj. }
  rewrite IH; [|lia|rewrite length_insert; lia| |done].
  - replace (S i + n)%nat with (i + S n)%nat by lia.
    rewrite drop_insert_lt by lia. rewrite (drop_S _ _ _ Hp). cbn [take].
    destruct (decide (Forall _ (take n _) /\ _)) as [[H1 H2]|H].
    + rewrite decide_True; [done|]. split; [by constructor|done].
    + rewrite decide_False; [done|]. intros [H1 H2]. destruct H.
      apply Forall_cons in H1 as [_ H1]. done.
  - rewrite Es, (take_S_r _ _ p) by (by rewrite list_lookup_insert_eq by lia).
    by rewrite take_insert_ge by lia; rewrite Ht.
Qed.

(** [gsea_configure] installs exactly the registries whose peers are all valid and
    have different identities, with a revision; any other input leaves the context
    unconfigured, whatever it held before. *)
Theorem registry_configure_exact x ps n revision :
  (n <= length ps)%nat ->
  gsea_configure (Some x) (Some ps) n revision =
  if decide ((1 <= n <= GSEA_MAX_PEERS)%nat /\ revision <> 0 /\
             Forall (fun p => valid_peer p = true) (take n ps) /\
             NoDup (map identity_of (take n ps)))
  then (GSEA_OK, Some (REGISTRY (take n ps ++ replicate (GSEA_MAX_PEERS - n) blank_peer) n revision 1))
  else (GSEA_INVALID, Some zero_registry).
Proof.
  intros Hn. unfold gsea_configure. cbn [gsea_init].
  destruct ((n =? 0)%nat || _ || _) eqn:E.
  - rewrite decide_False; [done|]. intros (H1 & H2 & _).
    rewrite !orb_true_iff, Nat.eqb_eq, Nat.ltb_lt, Z.eqb_eq in E. lia.
  - rewrite !orb_false_iff, Nat.eqb_neq, Nat.ltb_ge, Z.eqb_neq in E. destruct E as [[E1 E2] E3].
    rewrite (registry_peers_spec ps n 0); [|done|exact E2|done|constructor].
    rewrite drop_0, Nat.add_0_l. cbn [rg_peers zero_registry]. rewrite drop_replicate.
    destruct (decide (Forall _ _ /\ _)) as [[H1 H2]|H].
    + rewrite decide_True; [done|]. split; [lia|done].
    + rewrite decide_False; [done|]. intros (_ & _ & H1 & H2). by destruct H.
Qed.

(** ** Verification *)

Definition matching (c : gsea_context) (e : gse_unverified) : list gsea_peer :=
  List.filter (names_peer e) (map (envelope_peer_at (rg_peers c)) (seq 0 (rg_count c))).

Lemma find_peer_spec peers e n : forall i peer,
  find_peer peers e i n peer =
  match peer, List.filter (names_peer e) (map (envelope_peer_at peers) (seq i n)) with
  | None, [] => Some None
  | None, [p] => Some (Some p)
  | Some q, [] => Some (Some q)
  | _, _ => None
  end.
Proof.
  induction n as [|n IH]; intros i peer; cbn [find_peer seq map List.filter]; [by destruct peer|].
  destruct (names_peer e (envelope_peer_at peers i)); rewrite !IH; [|done].
  destruct peer as [q|]; cbn [is_null negb]; [done|].
  by destruct (List.filter _ _) as [|? []].
Qed.

Definition usable (c : gsea_context) : Prop :=
  rg_configured c = 1 /\ (1 <= rg_count c <= GSEA_MAX_PEERS)%nat /\ rg_registry_revision c <> 0.

Definition type_bit (e : gse_unverified) : Z :=
  if en_type e =? 7 then GSEA_OBSERVATION else GSEA_ACK.

(** The envelope is one that the registry vouches for: exactly one peer has its
    identity, the key is not revoked, the type is allowed and the signature is the
    key's over the transcript. *)
Record envelope_authentic (check : list Z -> list Z -> list Z -> Z) (c : gsea_context)
    (e : gse_unverified) : Prop := {
  ea_usable : usable c;
  ea_object : envelope_object e;
  ea_valid : envelope_valid (Some e) = true;
  ea_padded : padded e;
  ea_peer : exists peer, matching c e = [peer] /\ pr_revoked peer = 0 /\
    Z.land (pr_allowed_types peer) (type_bit e) <> 0 /\
    check (en_signature e) (pr_public_key peer) (envelope_transcript e) = 0
}.

(** [gsea_verify] succeeds exactly on the image of an envelope that the registry
    vouches for, and then publishes that envelope and the registry revision; in
    every other case the output stays as it was. *)
Theorem gsea_verify_exact check c w n x :
  bytes w -> length w = n ->
  (forall evidence,
     gsea_verify check (Some c) (Some w) n (Some x) = (GSEA_OK, Some evidence) <->
     exists e, w = envelope_image e /\ envelope_authentic check c e /\
               evidence = SIGNATURE_EVIDENCE e (rg_registry_revision c)) /\
  ((gsea_verify check (Some c) (Some w) n (Some x)).1 <> GSEA_OK ->
   (gsea_verify check (Some c) (Some w) n (Some x)).2 = Some x).
Proof.
  intros Hb Hn. unfold gsea_verify.
  destruct (negb (rg_configured c =? 1) || _ || _ || _) eqn:Ec.
  { split; [|done]. intros ev. split; [discriminate|]. intros (e & _ & [(H1 & H2 & H3)] & _).
    rewrite !orb_true_iff, negb_true_iff, Z.eqb_neq, Nat.eqb_eq, Nat.ltb_lt, Z.eqb_eq in Ec. lia. }
  assert (Hu : usable c).
  { rewrite !orb_false_iff, negb_false_iff, Z.eqb_eq, Nat.eqb_neq, Nat.ltb_ge, Z.eqb_neq in Ec.
    unfold usable. split_and!; try tauto; lia. }
  destruct (gse_decode (Some w) n (Some blank_envelope)) as [result decoded] eqn:Ed.
  case_bool_decide as Er; cbn [negb].
  2: { split; [|done]. intros ev. split; [discriminate|]. intros (e & -> & [_ Ho Hv Hp _] & _).
       rewrite <- Hn in Ed. rewrite envelope_decode_image in Ed by done. congruence. }
  subst result. assert (Hd : exists e, decoded = Some e).
  { unfold gse_decode in Ed. destruct (_ || _) in Ed; [discriminate|].
    destruct (_ || _) in Ed; [discriminate|]. destruct (_ || _) in Ed; [discriminate|].
    destruct (negb _) in Ed; [discriminate|]. injection Ed as <-. by eexists. }
  destruct Hd as [e ->]. cbn [default from_option id].
  pose proof (proj1 (gse_decode_exact w n _ e Hb Hn) Ed) as (Ho & Hv & Hp & Ew).
  assert (Honly : forall f, w = envelope_image f -> envelope_object f ->
    envelope_valid (Some f) = true -> padded f -> f = e).
  { intros f Ef H1 H2 H3. pose proof (envelope_decode_image f blank_envelope H1 H2 H3) as E.
    rewrite <- Ef, Hn, Ed in E. by injection E. }
  rewrite find_peer_spec. fold (matching c e).
  assert (Href : forall r, r <> GSEA_OK ->
    (forall peer, matching c e = [peer] -> pr_revoked peer = 0 ->
       Z.land (pr_allowed_types peer) (type_bit e) <> 0 ->
       check (en_signature e) (pr_public_key peer) (envelope_transcript e) = 0 -> False) ->
    (forall ev, (r, Some x) = (GSEA_OK, Some ev) <->
       exists f, w = envelope_image f /\ envelope_authentic check c f /\
                 ev = SIGNATURE_EVIDENCE f (rg_registry_revision c)) /\
    ((r, Some x).1 <> GSEA_OK -> (r, Some x).2 = Some x)).
  { intros r Hr H. split; [|done]. intros ev. split; [intros [= ? _]; done|].
    intros (f & Ef & [_ H1 H2 H3 (peer & Hm & H4 & H5 & H6)] & _).
    rewrite (Honly f Ef H1 H2 H3) in *. by destruct (H peer). }
  destruct (matching c e) as [|peer [|? ?]] eqn:Em;
    [apply Href; [done|congruence]| |apply Href; [done|congruence]].
  destruct (Z.eqb_spec (pr_revoked peer) 0) as [Hrev|Hrev]; cbn [negb];
    [|apply Href; [done|intros ? [= <-]; congruence]].
  fold (type_bit e).
  destruct (Z.eqb_spec (Z.land (pr_allowed_types peer) (type_bit e)) 0) as [Ht|Ht];
    [apply Href; [done|intros ? [= <-]; congruence]|].
  rewrite gse_transcript_eq by done. cbn [negb bool_decide].
  rewrite bool_decide_true by done. cbn [negb default from_option id].
  rewrite blit_0, take_app_length.
  destruct (Z.eqb_spec (check (en_signature e) (pr_public_key peer) (envelope_transcript e)) 0)
    as [Hs|Hs]; cbn [negb]; [|apply Href; [done|intros ? [= <-]; congruence]].
  split; [|done]. intros ev. split.
  - intros [= <-]. exists e. split; [done|]. split; [|done]. split; try done. by exists peer.
  - intros (f & Ef & [_ H1 H2 H3 _] & ->). by rewrite (Honly f Ef H1 H2 H3).
Qed.

Lemma gsea_verify_output check c w n x :
  exists r ev, gsea_verify check c w n (Some x) = (r, Some ev).
Proof.
  unfold gsea_verify. destruct c as [c|]; [|by eexists _, _]. destruct w as [w|]; [|by eexists _, _].
  destruct (_ || _); [by eexists _, _|]. destruct (gse_decode _ _ _) as [r d].
  destruct (negb _); [by eexists _, _|]. destruct (find_peer _ _ _ _ _) as [[q|]|]; [|by eexists _, _..].
  destruct (negb (pr_revoked q =? 0)); [by eexists _, _|].
  destruct (Z.land _ _ =? 0); [by eexists _, _|]. destruct (gse_transcript _ _ _ _) as [[r' t] tl].
  destruct (negb (bool_decide _)); [by eexists _, _|]. destruct (negb (_ =? 0)); by eexists _, _.
Qed.

Lemma gsea_verify_take check c w n x :
  (n <= length w)%nat ->
  gsea_verify check c (Some w) n (Some x) = gsea_verify check c (Some (take n w)) n (Some x).
Proof. intros Hn. unfold gsea_verify. destruct c; [|done]. by rewrite gse_decode_take. Qed.

Lemma filter_at_most_one {A B} (f : A -> B) (g : A -> bool) l b :
  (forall x, g x = true -> f x = b) -> NoDup (map f l) -> (length (List.filter g l) <= 1)%nat.
Proof.
  intros Hg Hnd. induction l as [|x l IH]; cbn; [lia|]. cbn in Hnd. apply NoDup_cons in Hnd as [Hx Hl].
  destruct (g x) eqn:E; [|by apply IH]. cbn.
  destruct (List.filter g l) as [|y k] eqn:Ef; [done|]. exfalso.
  assert (Hy : In y (List.filter g l)) by (rewrite Ef; by left).
  apply List.filter_In in Hy as [Hy Eg]. apply Hx. rewrite (Hg x E), <- (Hg y Eg).
  by apply list_elem_of_In, in_map.
Qed.

(** In an installed registry no envelope names two peers. *)
Lemma configured_unambiguous x ps n revision c e :
  (n <= length ps)%nat -> gsea_configure (Some x) (Some ps) n revision = (GSEA_OK, Some c) ->
  usable c /\ (length (matching c e) <= 1)%nat.
Proof.
  intros Hn. rewrite registry_configure_exact by done.
  destruct (decide _) as [(H1 & H2 & _ & H3)|]; [intros [= <-]|discriminate].
  split; [done|]. unfold matching. cbn [rg_peers rg_count].
  replace (map (envelope_peer_at _) (seq 0 n)) with (take n ps).
  - apply (filter_at_most_one identity_of _ _ (en_sender e, en_producer e, en_key e)); [|done].
    intros p. unfold names_peer, identity_of. rewrite !andb_true_iff, !Z.eqb_eq.
    by intros [[-> ->] ->].
  - set (f := envelope_peer_at _).
    apply (nth_ext _ _ blank_peer (f 0%nat)); [rewrite length_map, length_seq, length_take; lia|].
    intros i Hi. rewrite map_nth, seq_nth by (rewrite length_take in Hi; lia).
    unfold f, envelope_peer_at. by rewrite app_nth1.
Qed.

(** ** An example registry *)

Definition example_envelope : gse_unverified :=
  UNVERIFIED 7 3 52 101 102 103 5 1 (replicate 52 9 ++ replicate 12 0) (replicate 64 7).

Definition example_peers : list gsea_peer :=
  [ENVELOPE_PEER 101 102 103 (replicate 32 1) 0 GSEA_BOTH;
   ENVELOPE_PEER 101 102 104 (replicate 32 2) 1 GSEA_ACK].

Definition example_registry : gsea_context :=
  REGISTRY (example_peers ++ replicate 6 blank_peer) 2 77 1.

(** A verifier that accepts one signature only. *)
Definition example_check (signature public_key message : list Z) : Z :=
  if bool_decide (signature = replicate 64 7 /\ public_key = replicate 32 1) then 0 else -1.

Lemma example_envelope_object : envelope_object example_envelope.
Proof. split; try (apply (bool_decide_unpack _); vm_compute; exact I). Qed.

Lemma envelope_transcript_injective_witness :
  unsigned example_envelope =
  unsigned (UNVERIFIED 7 3 52 101 102 103 5 1 (replicate 52 9 ++ replicate 12 0) (replicate 64 8)).
Proof.
  apply (envelope_transcript_injective example_envelope
    (UNVERIFIED 7 3 52 101 102 103 5 1 (replicate 52 9 ++ replicate 12 0) (replicate 64 8)));
    try reflexivity.
  - exact example_envelope_object.
  - split; try (apply (bool_decide_unpack _); vm_compute; exact I).
Defined.

Lemma registry_configure_exact_witness :
  gsea_configure (Some zero_registry) (Some example_peers) 2 77 = (GSEA_OK, Some example_registry).
Proof.
  rewrite (registry_configure_exact zero_registry example_peers 2 77 ltac:(cbn; lia)).
  vm_compute. reflexivity.
Defined.

Lemma gsea_verify_exact_witness :
  exists e, envelope_image example_envelope = envelope_image e /\
    envelope_authentic example_check example_registry e /\ en_sequence e = 1.
Proof.
  destruct (proj1 (proj1 (gsea_verify_exact example_check example_registry
    (envelope_image example_envelope) 148 (SIGNATURE_EVIDENCE blank_envelope 0)
    ltac:(apply (bool_decide_unpack _); vm_compute; exact I) ltac:(reflexivity))
    (SIGNATURE_EVIDENCE example_envelope 77))) as (e & H1 & H2 & H3).
  - vm_compute. reflexivity.
  - exists e. split; [exact H1|]. split; [exact H2|]. injection H3 as <- . reflexivity.
Defined.
