(* ===== verification/Ingress.v ===== *)
(** * The ingress transaction

    Model of NodeLink/Src/guardian_ingress_transaction.c: one peer and one round,
    whose reports, acknowledgements and pending references are committed to a record
    store under an anchor before they are published in memory. The provider's four
    callbacks, the BLAKE2b and the Ed25519 primitives of the vendored library are
    parameters. *)

From S2P Require Import Prelude Crypto Wire Envelope.

(** ** Data *)

Definition GI_RECORD_SIZE : nat := 256.
Definition GI_DIGEST_SIZE : nat := 32.
Definition GI_READY : Z := 1.
Definition GI_PREPARED : Z := 2.
Definition GI_HOLD_MODE : Z := 3.

Record gi_config := INGRESS_CONFIG {
  ic_sender : Z; ic_producer : Z; ic_key : Z; ic_epoch : Z; ic_registry_revision : Z;
  ic_generation : Z; ic_policy : Z; ic_profile : Z; ic_round : Z;
  ic_expected_state : Z;
  ic_measurement_digest : list Z;   (* measurement_digest[32] *)
  ic_public_key : list Z            (* public_key[32] *)
}.

Record gi_state := INGRESS_STATE {
  gs_revision : Z; gs_obs_sequence : Z; gs_ack_sequence : Z;
  gs_local_epoch : Z; gs_local_sequence : Z;
  gs_deadline : Z; gs_last_time : Z;
  gs_has_report : Z; gs_pending : Z; gs_eligible : Z
}.

(** The callbacks: the opaque pointer of the user and the world they act on; the
    integer is their result, zero for success. *)
Record gi_provider (C W : Type) := INGRESS_PROVIDER {
  ip_user : option C;
  ip_read_anchor : option (option C -> W -> Z * Z * list Z * W);
  ip_read_record : option (option C -> Z -> W -> Z * list Z * W);
  ip_stage : option (option C -> Z -> list Z -> W -> Z * W);
  ip_advance : option (option C -> Z -> list Z -> Z -> list Z -> W -> Z * W)
}.
Arguments INGRESS_PROVIDER {C W}.
Arguments ip_user {C W}.
Arguments ip_read_anchor {C W}.
Arguments ip_read_record {C W}.
Arguments ip_stage {C W}.
Arguments ip_advance {C W}.

Record gi_context (C W : Type) := INGRESS {
  ig_config : gi_config;
  ig_live : gi_state;
  ig_proposed : gi_state;
  ig_provider : gi_provider C W;
  ig_digest : list Z;          (* digest[32] *)
  ig_commitment : list Z;      (* commitment[32] *)
  ig_prepared_wire : list Z;   (* prepared_wire[160] *)
  ig_prepared_length : nat;
  ig_clock_floor : Z;
  ig_mode : Z;
  ig_prepared_kind : Z
}.
Arguments INGRESS {C W}.
Arguments ig_config {C W}.
Arguments ig_live {C W}.
Arguments ig_proposed {C W}.
Arguments ig_provider {C W}.
Arguments ig_digest {C W}.
Arguments ig_commitment {C W}.
Arguments ig_prepared_wire {C W}.
Arguments ig_prepared_length {C W}.
Arguments ig_clock_floor {C W}.
Arguments ig_mode {C W}.
Arguments ig_prepared_kind {C W}.

Inductive gi_result :=
  | GI_OK | GI_INVALID | GI_HOLD | GI_AUTH | GI_SEMANTIC | GI_REPLAY | GI_ACK
  | GI_EXPIRED | GI_STORAGE | GI_CONFLICT.

#[global] Instance gi_result_eq_dec : EqDecision gi_result.
Proof. solve_decision. Defined.

(** [memset] of the objects. *)
Definition zero_ingress_config : gi_config :=
  INGRESS_CONFIG 0 0 0 0 0 0 0 0 0 0 (replicate 32 0) (replicate 32 0).
Definition zero_ingress_state : gi_state := INGRESS_STATE 0 0 0 0 0 0 0 0 0 0.
Definition zero_ingress {C W} : gi_context C W :=
  INGRESS zero_ingress_config zero_ingress_state zero_ingress_state
    (INGRESS_PROVIDER None None None None None) (replicate 32 0) (replicate 32 0)
    (replicate GSE_MAX_WIRE 0) 0 0 0 0.

(** ** Member stores *)

Definition put_mode {C W} (mode : Z) (x : gi_context C W) : gi_context C W :=
  INGRESS (ig_config x) (ig_live x) (ig_proposed x) (ig_provider x) (ig_digest x)
    (ig_commitment x) (ig_prepared_wire x) (ig_prepared_length x) (ig_clock_floor x)
    mode (ig_prepared_kind x).
Definition put_floor {C W} (now : Z) (x : gi_context C W) : gi_context C W :=
  INGRESS (ig_config x) (ig_live x) (ig_proposed x) (ig_provider x) (ig_digest x)
    (ig_commitment x) (ig_prepared_wire x) (ig_prepared_length x) now
    (ig_mode x) (ig_prepared_kind x).
Definition put_prepared {C W} (wire : list Z) (length : nat) (kind : Z) (next : gi_state)
    (x : gi_context C W) : gi_context C W :=
  INGRESS (ig_config x) (ig_live x) next (ig_provider x) (ig_digest x)
    (ig_commitment x) wire length (ig_clock_floor x) GI_PREPARED kind.
Definition put_prepared_length {C W} (length : nat) (x : gi_context C W) : gi_context C W :=
  INGRESS (ig_config x) (ig_live x) (ig_proposed x) (ig_provider x) (ig_digest x)
    (ig_commitment x) (ig_prepared_wire x) length (ig_clock_floor x)
    (ig_mode x) (ig_prepared_kind x).
Definition put_live {C W} (live : gi_state) (digest : list Z) (x : gi_context C W)
  : gi_context C W :=
  INGRESS (ig_config x) live (ig_proposed x) (ig_provider x) digest
    (ig_commitment x) (ig_prepared_wire x) (ig_prepared_length x) (ig_clock_floor x)
    (ig_mode x) (ig_prepared_kind x).

(** Stores into the working copy of the state. *)
Definition put_last_time (now : Z) (s : gi_state) : gi_state :=
  INGRESS_STATE (gs_revision s) (gs_obs_sequence s) (gs_ack_sequence s) (gs_local_epoch s)
    (gs_local_sequence s) (gs_deadline s) now (gs_has_report s) (gs_pending s) (gs_eligible s).
Definition next_revision (now : Z) (s : gi_state) : gi_state :=
  INGRESS_STATE (u32 (gs_revision s + 1)) (gs_obs_sequence s) (gs_ack_sequence s)
    (gs_local_epoch s) (gs_local_sequence s) (gs_deadline s) now (gs_has_report s)
    (gs_pending s) (gs_eligible s).
Definition put_observation (sequence : Z) (s : gi_state) : gi_state :=
  INGRESS_STATE (gs_revision s) sequence (gs_ack_sequence s) (gs_local_epoch s)
    (gs_local_sequence s) (gs_deadline s) (gs_last_time s) 1 (gs_pending s) 0.
Definition put_acknowledgement (sequence : Z) (s : gi_state) : gi_state :=
  INGRESS_STATE (gs_revision s) (gs_obs_sequence s) sequence (gs_local_epoch s)
    (gs_local_sequence s) (gs_deadline s) (gs_last_time s) (gs_has_report s) 0 1.
Definition put_pending (epoch sequence deadline : Z) (s : gi_state) : gi_state :=
  INGRESS_STATE (gs_revision s) (gs_obs_sequence s) (gs_ack_sequence s) epoch sequence
    deadline (gs_last_time s) (gs_has_report s) 1 (gs_eligible s).

(** ** Checks *)

Definition gi_config_ok (c : option gi_config) : bool :=
  match c with
  | None => false
  | Some c =>
      negb (ic_sender c =? 0) && negb (ic_producer c =? 0) && negb (ic_key c =? 0)
      && negb (ic_epoch c =? 0) && negb (ic_epoch c =? UINT32_MAX)
      && negb (ic_registry_revision c =? 0) && negb (ic_generation c =? 0)
      && negb (ic_generation c =? UINT32_MAX) && negb (ic_policy c =? 0)
      && negb (ic_profile c =? 0) && negb (ic_round c =? 0) && (ic_expected_state c <=? 5)
  end.

Definition gi_state_ok (s : gi_state) : bool :=
  (gs_has_report s <=? 1) && (gs_pending s <=? 1) && (gs_eligible s <=? 1)
  && (negb (gs_has_report s =? 0) || ((gs_obs_sequence s =? 0) && (gs_eligible s =? 0)))
  && ((gs_has_report s =? 0) || negb (gs_obs_sequence s =? 0))
  && ((gs_pending s =? 0)
      || ((gs_eligible s =? 0) && negb (gs_local_epoch s =? 0) && negb (gs_local_sequence s =? 0)
          && (gs_last_time s <? gs_deadline s)))
  && ((gs_eligible s =? 0)
      || ((gs_has_report s =? 1) && (gs_pending s =? 0) && negb (gs_ack_sequence s =? 0)
          && negb (gs_local_epoch s =? 0) && negb (gs_local_sequence s =? 0)
          && (gs_last_time s <? gs_deadline s))).

(** The loop of [registry_ok]: the number of matches, or the return on a bad one. *)
Fixpoint registry_matches (c : gi_config) (peers : list gsea_peer) (i n : nat) (found : nat)
  : option nat :=
  match n with
  | O => Some found
  | S n =>
      let p := envelope_peer_at peers i in
      if (pr_sender p =? ic_sender c) && (pr_producer p =? ic_producer c) && (pr_key p =? ic_key c)
      then
        early negb (pr_revoked p =? 0) || negb (pr_allowed_types p =? GSEA_BOTH)
              || negb (bool_decide (take 32 (pr_public_key p) = take 32 (ic_public_key c)))
          with None ;;
        registry_matches c peers (S i) n (S found)
      else registry_matches c peers (S i) n found
  end.

Definition registry_ok {C W} (x : gi_context C W) (a : option gsea_context) : bool :=
  match a with
  | None => false
  | Some a =>
      early negb (rg_configured a =? 1) || (rg_count a =? 0)%nat
            || (GSEA_MAX_PEERS <? rg_count a)%nat
            || negb (rg_registry_revision a =? ic_registry_revision (ig_config x))
        with false ;;
      match registry_matches (ig_config x) (rg_peers a) 0 (rg_count a) 0 with
      | None => false
      | Some found => (found =? 1)%nat
      end
  end.

(** ** Commitment and record *)

Definition gi_commitment_domain : list Z :=
  Eval cbv in label_bytes "GUARDIAN:CORROBORATION:COMMITMENT:V1".

Section ingress.
(** [crypto_blake2b(hash, hash_size, message, message_size)] *)
Context (crypto_blake2b : nat -> list Z -> list Z).
Context (crypto_ed25519_check : list Z -> list Z -> list Z -> Z).
Context {C W : Type}.
Local Abbreviation context := (gi_context C W).

Definition gi_commitment (c : gi_config) : list Z :=
  crypto_blake2b 32
    (gi_commitment_domain ++ put32_loop 4 (ic_generation c) ++ put32_loop 4 (ic_policy c) ++
     put32_loop 4 (ic_profile c) ++ put32_loop 4 (ic_round c) ++ [ic_expected_state c] ++
     take 32 (ic_measurement_digest c)).

Definition record_fields (c : gi_config) (s : gi_state) : list Z :=
  [gs_revision s; ic_sender c; ic_producer c; ic_key c; ic_epoch c; ic_registry_revision c;
   ic_generation c; ic_policy c; ic_profile c; ic_round c; gs_obs_sequence s; gs_ack_sequence s;
   gs_local_epoch s; gs_local_sequence s; gs_deadline s; gs_last_time s; 0; 0].

Definition gi_encode_record (c : option gi_config) (s : option gi_state) (b : option (list Z))
  : gi_result * option (list Z) :=
  early negb (gi_config_ok c) || is_null s || is_null b with (GI_INVALID, b) ;;
  match c, s, b with
  | Some c, Some s, Some _ =>
      early negb (gi_state_ok s) with (GI_INVALID, b) ;;
      let r := replicate GI_RECORD_SIZE 0 in
      let r := blit r 0 [0x47] in
      let r := blit r 1 [0x49] in
      let r := blit r 2 [1] in
      let r := blit r 4 [gs_has_report s] in
      let r := blit r 5 [gs_pending s] in
      let r := blit r 6 [gs_eligible s] in
      let r := blit r 7 [ic_expected_state c] in
      let r :=
        foldl (fun r i => blit r (8 + 4 * i) (put32_loop 4 (nth i (record_fields c s) 0))) r
          (seq 0 18) in
      let r := blit r 80 (gi_commitment c) in
      let r := blit r 112 (take 32 (ic_measurement_digest c)) in
      let r := blit r 144 (take 32 (ic_public_key c)) in
      let r := blit r 224 (crypto_blake2b 32 (take 224 r)) in
      (GI_OK, Some r)
  | _, _, _ => (GI_INVALID, b)
  end.

Definition gi_decode (x : context) (b : list Z) : option gi_state :=
  let t :=
    INGRESS_STATE (get32 (drop 8 b)) (get32 (drop 48 b)) (get32 (drop 52 b)) (get32 (drop 56 b))
      (get32 (drop 60 b)) (get32 (drop 64 b)) (get32 (drop 68 b)) (byte_at b 4) (byte_at b 5)
      (byte_at b 6) in
  let '(result, exact) :=
    gi_encode_record (Some (ig_config x)) (Some t) (Some (replicate GI_RECORD_SIZE 0)) in
  early negb (bool_decide (result = GI_OK))
        || negb (bool_decide (default [] exact = take GI_RECORD_SIZE b)) with None ;;
  Some t.

(** ** Operations *)

Definition gi_init (x : option context) (c : option gi_config) (p : option (gi_provider C W))
  : gi_result * option context :=
  match x with
  | None => (GI_INVALID, None)
  | Some _ =>
      let x := put_mode GI_HOLD_MODE zero_ingress in
      match c, p with
      | Some c', Some p =>
          early negb (gi_config_ok c) || is_null (ip_read_anchor p) || is_null (ip_read_record p)
                || is_null (ip_stage p) || is_null (ip_advance p)
            with (GI_INVALID, Some x) ;;
          (GI_OK,
           Some (INGRESS c' (ig_live x) (ig_proposed x) p (ig_digest x) (gi_commitment c')
                   (ig_prepared_wire x) (ig_prepared_length x) (ig_clock_floor x) (ig_mode x)
                   (ig_prepared_kind x)))
      | _, _ => (GI_INVALID, Some x)
      end
  end.

Definition gi_recover (x : option context) (a : option gsea_context) (now : Z) (w : W)
  : gi_result * option context * W :=
  match x with
  | None => (GI_INVALID, None, w)
  | Some x =>
      let x := put_prepared_length 0 (put_mode GI_HOLD_MODE x) in
      early negb (registry_ok x a) with (GI_HOLD, Some x, w) ;;
      match ip_read_anchor (ig_provider x), ip_read_record (ig_provider x) with
      | Some read_anchor, Some read_record =>
          let '(status, revision, hash, w) := read_anchor (ip_user (ig_provider x)) w in
          early negb (status =? 0) with (GI_HOLD, Some x, w) ;;
          let '(status, b, w) := read_record (ip_user (ig_provider x)) revision w in
          early negb (status =? 0) with (GI_HOLD, Some x, w) ;;
          match gi_decode x b with
          | None => (GI_HOLD, Some x, w)
          | Some s =>
              early negb (gs_revision s =? revision)
                    || negb (bool_decide (take 32 hash = take 32 (drop 224 b)))
                    || (now <? gs_last_time s)
                with (GI_HOLD, Some x, w) ;;
              (GI_OK, Some (put_mode GI_READY (put_live s (take 32 hash) (put_floor now x))), w)
          end
      | _, _ => (GI_HOLD, Some x, w)
      end
  end.

Definition gi_begin (x : option context) (a : option gsea_context) (now : Z)
  : gi_result * option context :=
  match x with
  | None => (GI_INVALID, None)
  | Some y =>
      early negb (ig_mode y =? GI_READY) with (GI_HOLD, x) ;;
      early negb (registry_ok y a) || (now <? gs_last_time (ig_live y)) || (now <? ig_clock_floor y)
        with (GI_HOLD, Some (put_mode GI_HOLD_MODE y)) ;;
      let y := put_floor now y in
      early gs_revision (ig_live y) =? UINT32_MAX with (GI_HOLD, Some (put_mode GI_HOLD_MODE y)) ;;
      (GI_OK, Some y)
  end.

Definition semantics (x : context) (e : gse_unverified) : bool :=
  let c := ig_config x in
  let p := en_payload e in
  let offset := if en_type e =? 7 then 20%nat else 28%nat in
  (en_sender e =? ic_sender c) && (en_producer e =? ic_producer c) && (en_key e =? ic_key c)
  && negb (en_sequence e =? UINT32_MAX) && (en_epoch e =? ic_epoch c)
  && (en_state e =? ic_expected_state c)
  && (byte_at p 0 =? 1) && (byte_at p 1 =? (if en_type e =? 7 then 0 else 0xa1))
  && (byte_at p 2 =? 0) && (byte_at p 3 =? 0)
  && (get32 (drop 4 p) =? ic_generation c) && (get32 (drop 8 p) =? ic_policy c)
  && (get32 (drop 12 p) =? ic_profile c) && (get32 (drop 16 p) =? ic_round c)
  && bool_decide (take 32 (drop offset p) = take 32 (ig_commitment x)).

Definition blank_evidence : gsea_signature_evidence := SIGNATURE_EVIDENCE blank_envelope 0.

Definition gi_prepare (x : option context) (a : option gsea_context) (wire : option (list Z))
    (length : nat) (now : Z) : gi_result * option context :=
  let '(r, x) := gi_begin x a now in
  early negb (bool_decide (r = GI_OK)) with (r, x) ;;
  match x with
  | None => (GI_INVALID, None)
  | Some y =>
      let '(verified, evidence) :=
        gsea_verify crypto_ed25519_check a wire length (Some blank_evidence) in
      early negb (bool_decide (verified = GSEA_OK)) with (GI_AUTH, x) ;;
      let e := sg_envelope (default blank_evidence evidence) in
      early negb (semantics y e) with (GI_SEMANTIC, x) ;;
      let live := ig_live y in
      let finish next :=
        (GI_OK,
         Some (put_prepared (blit (ig_prepared_wire y) 0 (take length (default [] wire))) length
                 (en_type e) (next_revision now next) y)) in
      if en_type e =? 7 then
        early en_sequence e <=? gs_obs_sequence live with (GI_REPLAY, x) ;;
        finish (put_observation (en_sequence e) live)
      else
        early en_sequence e <=? gs_ack_sequence live with (GI_REPLAY, x) ;;
        early negb (gs_pending live =? 1) || negb (gs_has_report live =? 1)
              || negb (get32 (drop 20 (en_payload e)) =? gs_local_epoch live)
              || negb (get32 (drop 24 (en_payload e)) =? gs_local_sequence live)
          with (GI_ACK, x) ;;
        early gs_deadline live <=? now with (GI_EXPIRED, x) ;;
        finish (put_acknowledgement (en_sequence e) live)
  end.

Definition gi_prepare_pending (x : option context) (a : option gsea_context)
    (epoch sequence deadline now : Z) : gi_result * option context :=
  let '(r, x) := gi_begin x a now in
  early negb (bool_decide (r = GI_OK)) with (r, x) ;;
  match x with
  | None => (GI_INVALID, None)
  | Some y =>
      let live := ig_live y in
      early (epoch =? 0) || (sequence =? 0) || (epoch =? UINT32_MAX) || (sequence =? UINT32_MAX)
            || (deadline <=? now) || negb (gs_pending live =? 0) || negb (gs_eligible live =? 0)
            || (epoch <? gs_local_epoch live)
            || ((epoch =? gs_local_epoch live) && (sequence <=? gs_local_sequence live))
        with (GI_INVALID, x) ;;
      (GI_OK,
       Some (put_prepared (ig_prepared_wire y) 0 0
               (next_revision now (put_pending epoch sequence deadline live)) y))
  end.

Definition gi_commit (x : option context) (a : option gsea_context) (now : Z) (w : W)
  : gi_result * option context * W :=
  match x with
  | None => (GI_INVALID, None, w)
  | Some y =>
      early negb (ig_mode y =? GI_PREPARED) with (GI_HOLD, x, w) ;;
      let y := put_mode GI_HOLD_MODE y in
      let proposed := ig_proposed y in
      early negb (registry_ok y a) || (now <? gs_last_time proposed) || (now <? ig_clock_floor y)
        with (GI_CONFLICT, Some y, w) ;;
      early (negb (gs_pending proposed =? 0) || negb (gs_eligible proposed =? 0))
            && (gs_deadline proposed <=? now)
        with (GI_EXPIRED, Some y, w) ;;
      let '(verified, evidence) :=
        gsea_verify crypto_ed25519_check a (Some (ig_prepared_wire y)) (ig_prepared_length y)
          (Some blank_evidence) in
      early negb (ig_prepared_kind y =? 0)
            && (negb (bool_decide (verified = GSEA_OK))
                || negb (semantics y (sg_envelope (default blank_evidence evidence))))
        with (GI_AUTH, Some y, w) ;;
      let y := put_floor now y in
      let proposed := put_last_time now proposed in
      let '(encoded, b) :=
        gi_encode_record (Some (ig_config y)) (Some proposed) (Some (replicate GI_RECORD_SIZE 0)) in
      early negb (bool_decide (encoded = GI_OK)) with (GI_INVALID, Some y, w) ;;
      let b := default [] b in
      match ip_stage (ig_provider y), ip_advance (ig_provider y),
            ip_read_anchor (ig_provider y), ip_read_record (ig_provider y) with
      | Some stage, Some advance, Some read_anchor, Some read_record =>
          let user := ip_user (ig_provider y) in
          let '(status, w) := stage user (gs_revision proposed) b w in
          early negb (status =? 0) with (GI_STORAGE, Some y, w) ;;
          let '(status, w) :=
            advance user (gs_revision (ig_live y)) (ig_digest y) (gs_revision proposed)
              (drop 224 b) w in
          early negb (status =? 0) with (GI_STORAGE, Some y, w) ;;
          let '(status, revision, hash, w) := read_anchor user w in
          early negb (status =? 0) || negb (revision =? gs_revision proposed)
                || negb (bool_decide (take 32 hash = take 32 (drop 224 b)))
            with (GI_STORAGE, Some y, w) ;;
          let '(status, readback, w) := read_record user revision w in
          early negb (status =? 0) || negb (bool_decide (take GI_RECORD_SIZE readback = b))
            with (GI_STORAGE, Some y, w) ;;
          (GI_OK,
           Some (put_prepared_length 0 (put_mode GI_READY (put_live proposed (take 32 hash) y))), w)
      | _, _, _, _ => (GI_STORAGE, Some y, w)
      end
  end.

Definition gi_snapshot (x : option context) (a : option gsea_context) (now : Z)
    (out : option gi_state) : gi_result * option gi_state :=
  match x, out with
  | Some x, Some _ =>
      early negb (registry_ok x a) || negb (ig_mode x =? GI_READY)
            || (now <? gs_last_time (ig_live x)) || (now <? ig_clock_floor x)
            || (negb (gs_eligible (ig_live x) =? 0) && (gs_deadline (ig_live x) <=? now))
        with (GI_HOLD, out) ;;
      (GI_OK, Some (ig_live x))
  | _, _ => (GI_INVALID, out)
  end.
End ingress.

(** ** The record *)

(** The C objects: every member within its type. *)
Record ingress_config_object (c : gi_config) : Prop := {
  co_sender : is_u32 (ic_sender c);
  co_producer : is_u32 (ic_producer c);
  co_key : is_u32 (ic_key c);
  co_epoch : is_u32 (ic_epoch c);
  co_registry : is_u32 (ic_registry_revision c);
  co_generation : is_u32 (ic_generation c);
  co_policy : is_u32 (ic_policy c);
  co_profile : is_u32 (ic_profile c);
  co_round : is_u32 (ic_round c);
  co_expected_state : is_u8 (ic_expected_state c);
  co_digest : bytes (ic_measurement_digest c);
  co_digest_size : length (ic_measurement_digest c) = 32%nat;
  co_public_key : bytes (ic_public_key c);
  co_public_key_size : length (ic_public_key c) = 32%nat
}.

Record ingress_state_object (s : gi_state) : Prop := {
  so_revision : is_u32 (gs_revision s);
  so_obs_sequence : is_u32 (gs_obs_sequence s);
  so_ack_sequence : is_u32 (gs_ack_sequence s);
  so_local_epoch : is_u32 (gs_local_epoch s);
  so_local_sequence : is_u32 (gs_local_sequence s);
  so_deadline : is_u32 (gs_deadline s);
  so_last_time : is_u32 (gs_last_time s);
  so_has_report : is_u8 (gs_has_report s);
  so_pending : is_u8 (gs_pending s);
  so_eligible : is_u8 (gs_eligible s)
}.

(** BLAKE2b as the module uses it: the digest has the requested size. *)
Class Blake (blake2b : nat -> list Z -> list Z) : Prop := {
  blake_bytes n m : bytes (blake2b n m);
  blake_length n m : length (blake2b n m) = n
}.

Section record.
Context (blake2b : nat -> list Z -> list Z) `{!Blake blake2b}.

Definition record_head (c : gi_config) (s : gi_state) : list Z :=
  [0x47; 0x49; 1; 0; gs_has_report s; gs_pending s; gs_eligible s; ic_expected_state c].

Definition record_body (c : gi_config) (s : gi_state) : list Z :=
  (record_head c s ++ concat (map put32 (record_fields c s))) ++ gi_commitment blake2b c ++
  ic_measurement_digest c ++ ic_public_key c ++ replicate 48 0.

Definition record_digest (c : gi_config) (s : gi_state) : list Z := blake2b 32 (record_body c s).

Definition record_image (c : gi_config) (s : gi_state) : list Z :=
  record_body c s ++ record_digest c s.

Lemma blit_zeros pre off src n :
  length pre = off -> (length src <= n)%nat ->
  blit (pre ++ replicate n 0) off src = (pre ++ src) ++ replicate (n - length src) 0.
Proof.
  intros <- Hn. unfold blit. rewrite take_app_length, drop_app_ge by lia.
  replace (length pre + length src - length pre)%nat with (length src) by lia.
  by rewrite drop_replicate, app_assoc.
Qed.

Lemma gi_commitment_length c : length (gi_commitment blake2b c) = 32%nat.
Proof. apply (blake_length (blake2b := blake2b)). Qed.

Lemma record_body_length c s :
  ingress_config_object c -> length (record_body c s) = 224%nat.
Proof.
  intros []. unfold record_body. rewrite !length_app, gi_commitment_length, co_digest_size0,
    co_public_key_size0. reflexivity.
Qed.

Lemma record_image_length c s :
  ingress_config_object c -> length (record_image c s) = GI_RECORD_SIZE.
Proof.
  intros Hc. unfold record_image. rewrite length_app, record_body_length by done.
  unfold record_digest. by rewrite blake_length.
Qed.

Lemma encode_record_eq c s b :
  ingress_config_object c -> gi_config_ok (Some c) = true -> gi_state_ok s = true ->
  gi_encode_record blake2b (Some c) (Some s) (Some b) = (GI_OK, Some (record_image c s)).
Proof.
  intros Hc Hco Hso. unfold gi_encode_record. rewrite Hco, Hso. cbn [negb is_null orb].
  set (f := foldl _ _ (seq 0 18)).
  assert (Ef : f = (record_head c s ++ concat (map put32 (record_fields c s))) ++ replicate 176 0).
  { unfold f. cbn [map record_fields]. rewrite <- !put32_loop_eq. reflexivity. }
  rewrite Ef. clear Ef f.
  rewrite (take_ge (ic_measurement_digest c)) by (by rewrite (co_digest_size _ Hc)).
  rewrite (take_ge (ic_public_key c)) by (by rewrite (co_public_key_size _ Hc)).
  rewrite blit_zeros by (done || (rewrite gi_commitment_length; lia)).
  rewrite blit_zeros by (rewrite ?length_app, gi_commitment_length, ?(co_digest_size _ Hc); (reflexivity || lia)).
  rewrite blit_zeros by (rewrite ?length_app, ?gi_commitment_length, ?(co_digest_size _ Hc), ?(co_public_key_size _ Hc); (reflexivity || lia)).
  rewrite gi_commitment_length, (co_digest_size _ Hc), (co_public_key_size _ Hc).
  change (replicate (176 - 32 - 32 - 32) 0) with (replicate 48 0 ++ replicate 32 0).
  rewrite (app_assoc _ (replicate 48 0)).
  assert (El : (((((record_head c s ++ concat (map put32 (record_fields c s))) ++
    gi_commitment blake2b c) ++ ic_measurement_digest c) ++ ic_public_key c) ++ replicate 48 0)
    = record_body c s) by (unfold record_body; by rewrite <- !app_assoc).
  rewrite El, take_app_length' by (by rewrite record_body_length).
  rewrite blit_zeros by (rewrite ?record_body_length, ?blake_length; done).
  rewrite blake_length. cbn [Nat.sub replicate]. by rewrite app_nil_r.
Qed.

Lemma record_image_bytes c s :
  ingress_config_object c -> ingress_state_object s -> bytes (record_image c s).
Proof.
  intros [] []. unfold record_image, record_body, record_head, record_digest.
  repeat apply bytes_app_2;
    first [done | apply put32_bytes | apply (blake_bytes (blake2b := blake2b))
          | apply bytes_nil | by apply bytes_replicate | idtac].
  repeat (apply bytes_cons; [done|]). apply bytes_nil.
Qed.

(** The decoder accepts exactly the images of the consistent states. *)
Lemma gi_decode_exact {C W} (x : gi_context C W) b s :
  ingress_config_object (ig_config x) -> gi_config_ok (Some (ig_config x)) = true ->
  bytes b -> length b = GI_RECORD_SIZE ->
  gi_decode blake2b x b = Some s <->
  ingress_state_object s /\ gi_state_ok s = true /\ b = record_image (ig_config x) s.
Proof.
  intros Hc Hco Hb Hl. unfold gi_decode. set (t := INGRESS_STATE _ _ _ _ _ _ _ _ _ _).
  rewrite (take_ge b) by (by rewrite Hl).
  split.
  - destruct (gi_state_ok t) eqn:Et.
    + rewrite encode_record_eq by done. rewrite bool_decide_true by done. cbn [negb orb default from_option id].
      case_bool_decide as Eb; cbn [negb]; [|discriminate]. intros [= <-].
      split; [|done]. split; try (apply get32_range, bytes_drop, Hb); by apply byte_at_range.
    + unfold gi_encode_record. rewrite Hco, Et. cbn [negb is_null orb].
      rewrite bool_decide_false by done. discriminate.
  - intros (Hs & Hso & ->).
    assert (Et : t = s).
    { unfold t. set (c := ig_config x).
      change (drop 8 (record_image c s)) with (put32 (gs_revision s) ++ drop 12 (record_image c s)).
      change (drop 48 (record_image c s)) with (put32 (gs_obs_sequence s) ++ drop 52 (record_image c s)).
      change (drop 52 (record_image c s)) with (put32 (gs_ack_sequence s) ++ drop 56 (record_image c s)).
      change (drop 56 (record_image c s)) with (put32 (gs_local_epoch s) ++ drop 60 (record_image c s)).
      change (drop 60 (record_image c s)) with (put32 (gs_local_sequence s) ++ drop 64 (record_image c s)).
      change (drop 64 (record_image c s)) with (put32 (gs_deadline s) ++ drop 68 (record_image c s)).
      change (drop 68 (record_image c s)) with (put32 (gs_last_time s) ++ drop 72 (record_image c s)).
      rewrite !get_put32 by apply Hs. by destruct s. }
    rewrite Et, encode_record_eq by done. rewrite !bool_decide_true by done. done.
Qed.

Lemma record_image_inj c s t :
  ingress_config_object c -> gi_config_ok (Some c) = true ->
  ingress_state_object s -> gi_state_ok s = true ->
  ingress_state_object t -> gi_state_ok t = true ->
  record_image c s = record_image c t -> s = t.
Proof.
  intros Hc Hco Hs Hso Ht Hto E.
  set (x := INGRESS c s s (INGRESS_PROVIDER None None None None None) [] [] [] 0 0 0 0
            : gi_context nat nat).
  assert (H : forall u, ingress_state_object u -> gi_state_ok u = true ->
    gi_decode blake2b x (record_image c u) = Some u).
  { intros u Hu Huo. apply gi_decode_exact; try done; [by apply record_image_bytes|].
    by apply record_image_length. }
  pose proof (H s Hs Hso) as E1. rewrite E, (H t Ht Hto) in E1. by injection E1.
Qed.
End record.
