(* ===== verification/IngressSafety.v ===== *)
(** * What the ingress transaction guarantees

    Over every run of the operations of [Ingress], with failures of the provider and
    restarts at any point: the durable state moves only along the protocol of
    observations, pending references and acknowledgements, each of them signed by the
    pinned key; nothing is accepted twice; a granted eligibility is earned; a cut
    leaves the old or the new state; and an honest exchange completes. *)

From Stdlib Require Import Sorted.
From S2P Require Import Prelude Crypto Wire Envelope Ingress.

(** ** The provider's contract *)

(** The anchor holds a revision and a digest and is compared and advanced at once;
    records are kept by revision. A call that fails may have taken effect, a torn
    record included, but staging a revision never disturbs the anchored record; a
    record that reads back differently does not have the anchored digest. *)
Class IngressStore {C W : Type} (blake2b : nat -> list Z -> list Z) (p : gi_provider C W)
    (anchor : W -> Z * list Z) (record : W -> Z -> list Z) : Prop := {
  st_read_anchor : exists f, ip_read_anchor p = Some f /\
    forall u w status revision hash w', f u w = (status, revision, hash, w') ->
      anchor w' = anchor w /\ (forall r, record w' r = record w r) /\
      (status = 0 -> anchor w = (revision, hash));
  st_read_record : exists f, ip_read_record p = Some f /\
    forall u revision w status b w', f u revision w = (status, b, w') ->
      anchor w' = anchor w /\ (forall r, record w' r = record w r) /\
      bytes b /\ length b = GI_RECORD_SIZE /\
      (status = 0 -> b = record w revision \/ blake2b 32%nat (take 224 b) <> (anchor w).2);
  st_stage : exists f, ip_stage p = Some f /\
    forall u revision b w status w', f u revision b w = (status, w') ->
      anchor w' = anchor w /\
      (revision <> (anchor w).1 -> record w' (anchor w).1 = record w (anchor w).1) /\
      (status = 0 -> record w' revision = b);
  st_advance : exists f, ip_advance p = Some f /\
    forall u r0 h0 r1 h1 w status w', f u r0 h0 r1 h1 w = (status, w') ->
      (forall r, record w' r = record w r) /\
      (anchor w' = anchor w \/ (anchor w = (r0, h0) /\ anchor w' = (r1, h1))) /\
      (status = 0 -> anchor w = (r0, h0) /\ anchor w' = (r1, h1))
}.

(** ** The protocol *)

Inductive gi_event :=
  | EvObservation (e : gse_unverified)
  | EvPending (epoch sequence deadline : Z)
  | EvAck (e : gse_unverified).

Section protocol.
Context (blake2b : nat -> list Z -> list Z) (check : list Z -> list Z -> list Z -> Z).
Context (cfg : gi_config).

(** The payload is for this peer, round and commitment. *)
Record addressed (e : gse_unverified) : Prop := {
  ad_sender : en_sender e = ic_sender cfg;
  ad_producer : en_producer e = ic_producer cfg;
  ad_key : en_key e = ic_key cfg;
  ad_epoch : en_epoch e = ic_epoch cfg;
  ad_state : en_state e = ic_expected_state cfg;
  ad_version : take 4 (en_payload e) = [1; if en_type e =? 7 then 0 else 0xa1; 0; 0];
  ad_generation : get32 (drop 4 (en_payload e)) = ic_generation cfg;
  ad_policy : get32 (drop 8 (en_payload e)) = ic_policy cfg;
  ad_profile : get32 (drop 12 (en_payload e)) = ic_profile cfg;
  ad_round : get32 (drop 16 (en_payload e)) = ic_round cfg;
  ad_commitment : take 32 (drop (if en_type e =? 7 then 20%nat else 28%nat) (en_payload e))
                  = gi_commitment blake2b cfg
}.

(** A valid envelope for this round with a signature of the pinned key over all of it. *)
Record genuine (e : gse_unverified) : Prop := {
  ge_object : envelope_object e;
  ge_valid : envelope_valid (Some e) = true;
  ge_addressed : addressed e;
  ge_signed : check (en_signature e) (ic_public_key cfg) (envelope_transcript e) = 0
}.

(** One committed transaction at a time. *)
Inductive advance (now : Z) : gi_event -> gi_state -> gi_state -> Prop :=
  | AdvObservation e s :
      genuine e -> en_type e = 7 -> gs_obs_sequence s < en_sequence e < UINT32_MAX ->
      gs_revision s < UINT32_MAX -> gs_last_time s <= now ->
      advance now (EvObservation e) s (next_revision now (put_observation (en_sequence e) s))
  | AdvPending epoch sequence deadline s :
      0 < epoch < UINT32_MAX -> 0 < sequence < UINT32_MAX ->
      gs_local_epoch s < epoch \/ (gs_local_epoch s = epoch /\ gs_local_sequence s < sequence) ->
      gs_pending s = 0 -> gs_eligible s = 0 -> now < deadline ->
      gs_revision s < UINT32_MAX -> gs_last_time s <= now ->
      advance now (EvPending epoch sequence deadline) s
        (next_revision now (put_pending epoch sequence deadline s))
  | AdvAck e s :
      genuine e -> en_type e = 8 -> gs_ack_sequence s < en_sequence e < UINT32_MAX ->
      gs_pending s = 1 -> gs_has_report s = 1 ->
      get32 (drop 20 (en_payload e)) = gs_local_epoch s ->
      get32 (drop 24 (en_payload e)) = gs_local_sequence s -> now < gs_deadline s ->
      gs_revision s < UINT32_MAX -> gs_last_time s <= now ->
      advance now (EvAck e) s (next_revision now (put_acknowledgement (en_sequence e) s)).

(** The transactions of a run, oldest first, with their commit times. *)
Inductive history : gi_state -> list (Z * gi_event) -> gi_state -> Prop :=
  | HistoryNil s : history s [] s
  | HistorySnoc s0 log s now ev s' :
      history s0 log s -> advance now ev s s' -> history s0 (log ++ [(now, ev)]) s'.

Lemma history_cons s0 now ev s1 log s2 :
  advance now ev s0 s1 -> history s1 log s2 -> history s0 ((now, ev) :: log) s2.
Proof.
  intros Hadv. induction 1 as [s|s1 log s now' ev' s' Hlog IH Hadv'].
  - apply (HistorySnoc _ [] s0); [constructor|done].
  - rewrite app_comm_cons. by eapply HistorySnoc; [apply IH|].
Qed.
End protocol.

(** ** Runs *)

Inductive ingress_op :=
  | OpRestart
  | OpRecover (a : option gsea_context) (now : Z)
  | OpPrepare (a : option gsea_context) (wire : option (list Z)) (length : nat) (now : Z)
  | OpPreparePending (a : option gsea_context) (epoch sequence deadline now : Z)
  | OpCommit (a : option gsea_context) (now : Z).

Definition registry_typed (a : option gsea_context) : Prop :=
  match a with
  | None => True
  | Some a => length (rg_peers a) = GSEA_MAX_PEERS /\
              Forall (fun q => length (pr_public_key q) = 32%nat) (rg_peers a)
  end.

(** The arguments are C values: times and sequence numbers of 32 bits, buffers of the
    given length. *)
Definition ingress_op_typed (op : ingress_op) : Prop :=
  match op with
  | OpRestart => True
  | OpRecover a now | OpCommit a now => registry_typed a /\ is_u32 now
  | OpPrepare a wire n now =>
      registry_typed a /\ is_u32 now /\
      match wire with None => True | Some w => bytes w /\ length w = n end
  | OpPreparePending a epoch sequence deadline now =>
      registry_typed a /\ is_u32 now /\ is_u32 epoch /\ is_u32 sequence /\ is_u32 deadline
  end.

Section run.
Context (blake2b : nat -> list Z -> list Z) (check : list Z -> list Z -> list Z -> Z).
Context {C W : Type} (cfg : gi_config) (p : gi_provider C W).

(** A restart clears the memory and initializes it again. *)
Definition ingress_step (x : gi_context C W) (w : W) (op : ingress_op)
  : gi_result * gi_context C W * W :=
  match op with
  | OpRestart =>
      let '(result, y) := gi_init blake2b (Some x) (Some cfg) (Some p) in (result, default x y, w)
  | OpRecover a now =>
      let '(result, y, w) := gi_recover blake2b (Some x) a now w in (result, default x y, w)
  | OpPrepare a wire n now =>
      let '(result, y) := gi_prepare check (Some x) a wire n now in (result, default x y, w)
  | OpPreparePending a epoch sequence deadline now =>
      let '(result, y) := gi_prepare_pending (Some x) a epoch sequence deadline now in
      (result, default x y, w)
  | OpCommit a now =>
      let '(result, y, w) := gi_commit blake2b check (Some x) a now w in (result, default x y, w)
  end.

(** The results of a run, oldest first. *)
Fixpoint ingress_run (x : gi_context C W) (w : W) (ops : list ingress_op)
  : list gi_result * gi_context C W * W :=
  match ops with
  | [] => ([], x, w)
  | op :: ops =>
      let '(result, x, w) := ingress_step x w op in
      let '(results, x, w) := ingress_run x w ops in
      (result :: results, x, w)
  end.
End run.

(** ** The registry and the payload *)

Lemma registry_matches_spec c peers n : forall i found k,
  registry_matches c peers i n found = Some k ->
  forall j, (i <= j < i + n)%nat ->
    let q := envelope_peer_at peers j in
    pr_sender q = ic_sender c -> pr_producer q = ic_producer c -> pr_key q = ic_key c ->
    pr_revoked q = 0 /\ pr_allowed_types q = GSEA_BOTH /\
    take 32 (pr_public_key q) = take 32 (ic_public_key c).
Proof.
  induction n as [|n IH]; intros i found k; cbn [registry_matches]; [lia|].
  destruct (_ && _) eqn:Em.
  - destruct (_ || _) eqn:Eg; [discriminate|]. intros H j Hj.
    destruct (decide (j = i)) as [->|Hne]; [|apply (IH _ _ _ H); lia].
    intros _ _ _. rewrite !orb_false_iff, !negb_false_iff, !Z.eqb_eq in Eg.
    rewrite bool_decide_eq_true in Eg. tauto.
  - intros H j Hj. destruct (decide (j = i)) as [->|Hne]; [|apply (IH _ _ _ H); lia].
    intros E1 E2 E3. by rewrite E1, E2, E3, !Z.eqb_refl in Em.
Qed.

(** Under a registry that passes [registry_ok], an authentic envelope of the
    configured identity is signed by the pinned key. *)
Lemma pinned_key {C W} (x : gi_context C W) check a e :
  registry_ok x (Some a) = true -> registry_typed (Some a) ->
  length (ic_public_key (ig_config x)) = 32%nat ->
  envelope_authentic check a e ->
  en_sender e = ic_sender (ig_config x) -> en_producer e = ic_producer (ig_config x) ->
  en_key e = ic_key (ig_config x) ->
  check (en_signature e) (ic_public_key (ig_config x)) (envelope_transcript e) = 0.
Proof.
  intros Hr [Hl Ht] Hk [(_ & Hcount & _) _ _ _ (peer & Hm & _ & _ & Hs)] E1 E2 E3.
  assert (Hin : In peer (matching a e)) by (rewrite Hm; by left).
  apply List.filter_In in Hin as [Hin Hn]. apply in_map_iff in Hin as (j & Ej & Hj).
  apply in_seq in Hj. unfold names_peer in Hn. rewrite !andb_true_iff, !Z.eqb_eq in Hn.
  cbn [registry_ok] in Hr. destruct (_ || _) in Hr; [discriminate|].
  destruct (registry_matches _ _ _ _ _) as [k|] eqn:Em; [|discriminate].
  pose proof (registry_matches_spec _ _ _ _ _ _ Em j ltac:(lia)) as Hg. cbv zeta in Hg.
  rewrite Ej in Hg. destruct Hg as (_ & _ & Hg); [intuition congruence..|].
  assert (Hlen : length (pr_public_key peer) = 32%nat).
  { rewrite <- Ej. unfold envelope_peer_at. rewrite Forall_forall in Ht. apply Ht.
    apply list_elem_of_In, nth_In. lia. }
  rewrite !take_ge in Hg by lia. by rewrite <- Hg.
Qed.

Lemma take_4_payload (l : list Z) a b c d :
  (4 <= length l)%nat ->
  byte_at l 0 = a -> byte_at l 1 = b -> byte_at l 2 = c -> byte_at l 3 = d ->
  take 4 l = [a; b; c; d].
Proof. destruct l as [|? [|? [|? [|? l]]]]; cbn; [lia..|]. by intros _ -> -> -> ->. Qed.

Lemma semantics_spec {C W} (x : gi_context C W) blake2b e :
  envelope_object e -> length (ig_commitment x) = 32%nat ->
  ig_commitment x = gi_commitment blake2b (ig_config x) ->
  semantics x e = true -> addressed blake2b (ig_config x) e /\ en_sequence e <> UINT32_MAX.
Proof.
  intros He Hl Hc. unfold semantics. rewrite !andb_true_iff, !Z.eqb_eq, negb_true_iff, Z.eqb_neq.
  rewrite bool_decide_eq_true, (take_ge (ig_commitment x)) by lia.
  intros ((((((((((((((H1 & H2) & H3) & H4) & H5) & H6) & H7) & H8) & H9) & H10) & H11) & H12) & H13)
    & H14) & H15).
  split; [|done]. split; try done; [|by rewrite <- Hc].
  apply take_4_payload; try done. by rewrite (eo_payload_size _ He); unfold GSE_MAX_PAYLOAD; lia.
Qed.

(** ** What a history says *)

(** Two transactions of a run, in this order. *)
Definition newer (x y : Z * gi_event) : Prop :=
  x.1 <= y.1 /\
  match x.2, y.2 with
  | EvObservation e, EvObservation f | EvAck e, EvAck f => en_sequence e < en_sequence f
  | EvPending epoch sequence _, EvPending epoch' sequence' _ =>
      epoch < epoch' \/ (epoch = epoch' /\ sequence < sequence')
  | _, _ => True
  end.

(** The cursors of the state are past the transaction. *)
Definition recorded (s : gi_state) (x : Z * gi_event) : Prop :=
  x.1 <= gs_last_time s /\
  match x.2 with
  | EvObservation e => en_sequence e <= gs_obs_sequence s
  | EvAck e => en_sequence e <= gs_ack_sequence s
  | EvPending epoch sequence _ =>
      epoch < gs_local_epoch s \/ (epoch = gs_local_epoch s /\ sequence <= gs_local_sequence s)
  end.

Definition is_observation (x : Z * gi_event) : Prop :=
  match x.2 with EvObservation _ => True | _ => False end.

Section history.
Context (blake2b : nat -> list Z -> list Z) (check : list Z -> list Z -> list Z -> Z).
Context (cfg : gi_config).
Local Abbreviation history := (history blake2b check cfg).
Local Abbreviation genuine := (genuine blake2b check cfg).

Lemma history_ordered s0 log s :
  history s0 log s -> StronglySorted newer log /\ Forall (recorded s) log.
Proof.
  induction 1 as [s|s0 log s now ev s' Hlog [Hs Hr] Hadv]; [split; constructor|].
  assert (Hnew : Forall (fun x => newer x (now, ev)) log).
  { eapply Forall_impl; [exact Hr|]. intros [t e] [Ht He]. cbn in Ht, He. unfold newer. cbn.
    destruct Hadv, e; cbn in *; (split; [lia|]); try done; lia. }
  split; [by apply sorted_snoc|]. apply Forall_app. split.
  - eapply Forall_impl; [exact Hr|]. intros [t e] [Ht He]. cbn in Ht, He. unfold recorded. cbn.
    destruct Hadv, e; cbn in *; (split; [lia|]); try done; lia.
  - repeat constructor; destruct Hadv; cbn; lia.
Qed.

Lemma history_genuine s0 log s :
  history s0 log s ->
  Forall (fun x => match x.2 with
                   | EvObservation e => genuine e /\ en_type e = 7
                   | EvAck e => genuine e /\ en_type e = 8
                   | EvPending _ _ deadline => x.1 < deadline
                   end) log.
Proof.
  induction 1 as [s|s0 log s now ev s' Hlog IH Hadv]; [constructor|].
  apply Forall_app. split; [done|]. repeat constructor. by destruct Hadv.
Qed.

Lemma history_report s0 log s :
  history s0 log s -> gs_has_report s0 = 0 -> gs_has_report s <> 0 ->
  Exists is_observation log.
Proof.
  induction 1 as [s|s0 log s now ev s' Hlog IH Hadv]; intros H0 H1; [done|].
  apply Exists_app. destruct Hadv; cbn in H1; [right; by constructor|left; auto..].
Qed.

(** A pending reference is that of the last [EvPending], with observations since. *)
Lemma history_pending s0 log s :
  history s0 log s -> gs_pending s0 = 0 -> gs_pending s <> 0 ->
  exists l1 t l2, log = l1 ++ (t, EvPending (gs_local_epoch s) (gs_local_sequence s)
                                   (gs_deadline s)) :: l2 /\
    Forall is_observation l2.
Proof.
  induction 1 as [s|s0 log s now ev s' Hlog IH Hadv]; intros H0 H1; [done|].
  destruct Hadv as [e s|epoch sequence deadline s|e s]; cbn in H1.
  - destruct (IH H0 H1) as (l1 & t & l2 & -> & Hl2). exists l1, t, (l2 ++ [(now, EvObservation e)]).
    split; [by rewrite <- app_assoc|]. apply Forall_app. split; [done|]. by repeat constructor.
  - by exists log, now, [].
  - done.
Qed.

(** Eligibility is granted by the last transaction: the acknowledgement of the last
    pending reference, before its deadline, with an observation on record. *)
Lemma history_eligible s0 log s :
  history s0 log s -> gs_has_report s0 = 0 -> gs_pending s0 = 0 -> gs_eligible s0 = 0 ->
  gs_eligible s <> 0 ->
  exists l1 t0 epoch sequence l2 t a,
    log = l1 ++ (t0, EvPending epoch sequence (gs_deadline s)) :: l2 ++ [(t, EvAck a)] /\
    Forall is_observation l2 /\ Exists is_observation (l1 ++ l2) /\
    get32 (drop 20 (en_payload a)) = epoch /\ get32 (drop 24 (en_payload a)) = sequence /\
    t < gs_deadline s.
Proof.
  intros Hlog Hr Hp He0 He.
  destruct Hlog as [s|s0 log s now ev s' Hlog Hadv]; [done|].
  destruct Hadv as [e s|epoch sequence deadline s|e s]; cbn in He; [done|done|].
  destruct (history_pending _ _ _ Hlog Hp) as (l1 & t & l2 & E & Hl2); [congruence|].
  exists l1, t, (gs_local_epoch s), (gs_local_sequence s), l2, now, e.
  split; [cbn; by rewrite E, <- app_assoc|]. split; [done|]. split; [|done].
  pose proof (history_report _ _ _ Hlog Hr) as Hrep. rewrite E in Hrep.
  rewrite Exists_app, Exists_cons in Hrep. apply Exists_app.
  destruct Hrep as [|[[]|]]; [congruence|by left|by right].
Qed.
End history.

(** ** The invariant *)

Section safety.
Context (blake2b : nat -> list Z -> list Z) `{!Blake blake2b}.
Context (check : list Z -> list Z -> list Z -> Z).
Context {C W : Type} (cfg : gi_config) (p : gi_provider C W).
Context (anchor : W -> Z * list Z) (record : W -> Z -> list Z).
Context `{!IngressStore blake2b p anchor record}.
Context (Hcfg : ingress_config_object cfg) (Hok : gi_config_ok (Some cfg) = true).

Local Abbreviation context := (gi_context C W).
Local Abbreviation advances := (advance blake2b check cfg).

(** The world durably holds a consistent state: it is the anchored record. *)
Record durable (w : W) (s : gi_state) : Prop := {
  du_object : ingress_state_object s;
  du_ok : gi_state_ok s = true;
  du_anchor : anchor w = (gs_revision s, record_digest blake2b cfg s);
  du_record : record w (gs_revision s) = record_image blake2b cfg s
}.

(** A context has prepared a transaction of the protocol, up to the checks that the
    commit repeats. *)
Inductive prepared (x : context) (s : gi_state) : Prop :=
  | PreparedPending epoch sequence deadline t :
      ig_prepared_kind x = 0 ->
      0 < epoch < UINT32_MAX -> 0 < sequence < UINT32_MAX ->
      gs_local_epoch s < epoch \/ (gs_local_epoch s = epoch /\ gs_local_sequence s < sequence) ->
      gs_pending s = 0 -> gs_eligible s = 0 -> is_u32 deadline ->
      ig_proposed x = next_revision t (put_pending epoch sequence deadline s) ->
      gs_last_time s <= t ->
      prepared x s
  | PreparedEnvelope e t :
      ig_prepared_kind x = en_type e -> envelope_object e -> envelope_valid (Some e) = true ->
      padded e -> (ig_prepared_length x <= length (ig_prepared_wire x))%nat ->
      take (ig_prepared_length x) (ig_prepared_wire x) = envelope_image e ->
      ig_proposed x = next_revision t
        (if en_type e =? 7 then put_observation (en_sequence e) s
         else put_acknowledgement (en_sequence e) s) ->
      gs_last_time s <= t ->
      (en_type e = 7 -> gs_obs_sequence s < en_sequence e) ->
      (en_type e <> 7 -> gs_ack_sequence s < en_sequence e /\ gs_pending s = 1 /\
         gs_has_report s = 1 /\ get32 (drop 20 (en_payload e)) = gs_local_epoch s /\
         get32 (drop 24 (en_payload e)) = gs_local_sequence s) ->
      prepared x s.

Record ingress_inv (x : context) (w : W) (s : gi_state) : Prop := {
  in_config : ig_config x = cfg;
  in_provider : ig_provider x = p;
  in_commitment : ig_commitment x = gi_commitment blake2b cfg;
  in_wire : length (ig_prepared_wire x) = GSE_MAX_WIRE;
  in_wire_bytes : bytes (ig_prepared_wire x);
  in_durable : durable w s;
  in_live : ig_mode x = GI_READY \/ ig_mode x = GI_PREPARED ->
    ig_live x = s /\ ig_digest x = record_digest blake2b cfg s;
  in_prepared : ig_mode x = GI_PREPARED -> prepared x s /\ gs_revision s < UINT32_MAX
}.

(** A world that the anchor and the anchored record survive. *)
Lemma durable_same w w' s :
  durable w s -> anchor w' = anchor w -> record w' (gs_revision s) = record w (gs_revision s) ->
  durable w' s.
Proof. intros [] Ea Er. split; try done; congruence. Qed.

(** On hold the context says nothing about the durable state. *)
Lemma hold_inv x x' w w' s s' :
  ingress_inv x w s -> durable w' s' -> ig_config x' = ig_config x ->
  ig_provider x' = ig_provider x -> ig_commitment x' = ig_commitment x ->
  ig_prepared_wire x' = ig_prepared_wire x -> ig_mode x' = GI_HOLD_MODE -> ingress_inv x' w' s'.
Proof.
  intros [] Hd E1 E2 E3 E4 Em.
  split; try congruence; rewrite Em; [intros [E|E]|intros E]; discriminate E.
Qed.

(** The same context with another clock floor. *)
Lemma floor_inv x w s now : ingress_inv x w s -> ingress_inv (put_floor now x) w s.
Proof.
  intros []. split; [done..|exact in_live0|].
  intros Hm. destruct (in_prepared0 Hm) as [Hp Hr]. split; [|done].
  destruct Hp as [epoch sequence deadline t|e t];
    [apply (PreparedPending _ _ epoch sequence deadline t)|apply (PreparedEnvelope _ _ e t)];
    assumption.
Qed.

(** ** Steps before the commit *)

Lemma restart_inv x w s :
  durable w s -> exists y, gi_init blake2b (Some x) (Some cfg) (Some p) = (GI_OK, Some y) /\
    ingress_inv y w s /\ ig_mode y = GI_HOLD_MODE.
Proof.
  intros Hd. unfold gi_init. rewrite Hok.
  destruct st_read_anchor as (? & -> & _), st_read_record as (? & -> & _),
    st_stage as (? & -> & _), st_advance as (? & -> & _). cbn [negb is_null orb].
  eexists. split; [reflexivity|]. split; [|done].
  split; try done; [by apply bytes_replicate|]. intros [E|E]; discriminate E.
Qed.

Lemma ingress_begin_cases x a now w s :
  ingress_inv x w s ->
  exists r y, gi_begin (Some x) a now = (r, Some y) /\ ingress_inv y w s /\
    (r <> GI_OK \/
     (r = GI_OK /\ ig_mode y = GI_READY /\ ig_live y = s /\ registry_ok y a = true /\
      gs_last_time s <= now /\ gs_revision s < UINT32_MAX)).
Proof.
  intros Hx. unfold gi_begin. destruct (Z.eqb_spec (ig_mode x) GI_READY) as [Em|Em]; cbn [negb].
  2: { exists GI_HOLD, x. split; [done|]. split; [done|by left]. }
  destruct (in_live _ _ _ Hx (or_introl Em)) as [El _].
  destruct (negb (registry_ok x a) || _ || _) eqn:Eg.
  { eexists _, _. split; [done|]. split; [|by left]. by eapply hold_inv; try apply Hx. }
  rewrite !orb_false_iff, negb_false_iff, !Z.ltb_ge in Eg. destruct Eg as [[Hr Ht] Hf].
  destruct (Z.eqb_spec (gs_revision (ig_live (put_floor now x))) UINT32_MAX) as [Em'|Em'].
  { eexists _, _. split; [done|]. split; [|by left]. by eapply hold_inv; try apply Hx. }
  eexists _, _. split; [done|]. split; [by apply floor_inv|right]. cbn in Em'. rewrite El in *.
  pose proof (so_revision _ (du_object _ _ (in_durable _ _ _ Hx))) as Hu.
  split_and!; try done. unfold is_u32, UINT32_MAX in *. lia.
Qed.

Lemma next_put_last_time now t s : put_last_time now (next_revision t s) = next_revision now s.
Proof. done. Qed.

Lemma prepared_put x s w n kind next w0 :
  ingress_inv x w0 s -> bytes w -> length w = GSE_MAX_WIRE -> gs_revision s < UINT32_MAX ->
  ig_mode x = GI_READY ->
  prepared (put_prepared w n kind next x) s -> ingress_inv (put_prepared w n kind next x) w0 s.
Proof. intros [] Hb Hl Hr Hm Hp. split; try done. intros _. cbn. auto. Qed.

Lemma pending_step x a epoch sequence deadline now w s :
  ingress_inv x w s -> is_u32 epoch -> is_u32 sequence -> is_u32 deadline ->
  exists r y, gi_prepare_pending (Some x) a epoch sequence deadline now = (r, Some y) /\
    ingress_inv y w s.
Proof.
  intros Hx He Hs Hd. unfold gi_prepare_pending.
  destruct (ingress_begin_cases x a now w s Hx) as (r & y & -> & Hy & Hr).
  case_bool_decide as Er; cbn [negb]; [|by exists r, y].
  destruct Hr as [?|(_ & Hm & El & Hreg & Ht & Hrev)]; [done|]. rewrite El.
  destruct (_ || _) eqn:Eg; [by exists GI_INVALID, y|].
  rewrite !orb_false_iff, !negb_false_iff, !Z.eqb_eq, !Z.eqb_neq, Z.leb_gt, Z.ltb_ge, andb_false_iff,
    Z.eqb_neq, Z.leb_gt in Eg.
  destruct Eg as ((((((((G1 & G2) & G3) & G4) & G5) & G6) & G7) & G8) & G9).
  eexists _, _. split; [done|]. unfold is_u32, UINT32_MAX in *.
  apply prepared_put; try done; [apply Hy..|].
  eapply (PreparedPending _ _ epoch sequence deadline now); try done; unfold UINT32_MAX; lia.
Qed.

Lemma prepare_step x a wire n now w s :
  ingress_inv x w s -> match wire with None => True | Some v => bytes v /\ length v = n end ->
  exists r y, gi_prepare check (Some x) a wire n now = (r, Some y) /\ ingress_inv y w s.
Proof.
  intros Hx Hw. unfold gi_prepare.
  destruct (ingress_begin_cases x a now w s Hx) as (r & y & -> & Hy & Hr).
  case_bool_decide as Er; cbn [negb]; [|by exists r, y].
  destruct Hr as [?|(_ & Hm & El & Hreg & Ht & Hrev)]; [done|].
  destruct (gsea_verify check a wire n (Some blank_evidence)) as [verified evidence] eqn:Ev.
  case_bool_decide as Evr; cbn [negb]; [|by exists GI_AUTH, y]. subst verified.
  destruct a as [a|]; [|done]. destruct wire as [v|]; [|done]. destruct Hw as [Hb Hl].
  destruct (gsea_verify_exact check a v n blank_evidence Hb Hl) as [Hex _].
  destruct (gsea_verify_output check (Some a) (Some v) n blank_evidence) as (v' & ev & E).
  rewrite E in Ev. injection Ev as -> <-. rename E into Ev. apply Hex in Ev as (e & -> & He & ->).
  cbn [default from_option id sg_envelope]. destruct He as [_ He Hv Hpad _].
  destruct (semantics y e) eqn:Es; cbn [negb]; [|by exists GI_SEMANTIC, y].
  rewrite El. cbn [default from_option id]. rewrite (take_ge (envelope_image e)) by lia.
  pose proof (envelope_image_length e He Hv) as Elen.
  assert (Hn : (n <= GSE_MAX_WIRE)%nat).
  { rewrite <- Hl, Elen. unfold GSE_MAX_WIRE, GSE_HEADER, GSE_SIGNATURE.
    destruct (valid_payload_length e Hv) as [-> | ->]; lia. }
  set (v := blit (ig_prepared_wire y) 0 (envelope_image e)).
  assert (Hvl : length v = GSE_MAX_WIRE)
    by (unfold v; rewrite blit_length; rewrite ?(in_wire _ _ _ Hy); lia).
  assert (Hvb : bytes v) by (apply bytes_blit; [apply Hy|done]).
  assert (Hvt : take n v = envelope_image e) by (unfold v; rewrite blit_0; by apply take_app_length').
  destruct (Z.eqb_spec (en_type e) 7) as [E7|E7].
  - destruct (Z.leb_spec (en_sequence e) (gs_obs_sequence s)); [by exists GI_REPLAY, y|].
    eexists _, _. split; [done|]. apply prepared_put; try done.
    eapply (PreparedEnvelope _ _ e now); try done; cbn; [by rewrite Hvl|].
    by rewrite E7.
  - destruct (Z.leb_spec (en_sequence e) (gs_ack_sequence s)); [by exists GI_REPLAY, y|].
    destruct (_ || _) eqn:Eg; [by exists GI_ACK, y|].
    rewrite !orb_false_iff, !negb_false_iff, !Z.eqb_eq in Eg.
    destruct (Z.leb_spec (gs_deadline s) now); [by exists GI_EXPIRED, y|].
    eexists _, _. split; [done|]. apply prepared_put; try done.
    eapply (PreparedEnvelope _ _ e now); try done; cbn; [by rewrite Hvl| |tauto].
    by rewrite (proj2 (Z.eqb_neq _ _) E7).
Qed.

(** ** The commit *)

(** The checks of the commit make the prepared transaction one of the protocol. *)
Lemma prepared_advances x w s a now verified ev :
  ingress_inv x w s -> ig_mode x = GI_PREPARED -> registry_typed a -> is_u32 now ->
  registry_ok x a = true -> gs_last_time (ig_proposed x) <= now ->
  (gs_pending (ig_proposed x) <> 0 \/ gs_eligible (ig_proposed x) <> 0 ->
   now < gs_deadline (ig_proposed x)) ->
  gsea_verify check a (Some (ig_prepared_wire x)) (ig_prepared_length x) (Some blank_evidence)
    = (verified, Some ev) ->
  (ig_prepared_kind x <> 0 -> verified = GSEA_OK /\ semantics x (sg_envelope ev) = true) ->
  exists event, advances now event s (put_last_time now (ig_proposed x)) /\
    ingress_state_object (put_last_time now (ig_proposed x)) /\
    gs_revision (put_last_time now (ig_proposed x)) = gs_revision s + 1.
Proof.
  intros Hx Hm Ha Hnow Hreg Ht Hdl Hver Hkind.
  destruct (in_prepared _ _ _ Hx Hm) as [Hp Hrev].
  pose proof (du_object _ _ (in_durable _ _ _ Hx)) as Hs.
  assert (Hsucc : u32 (gs_revision s + 1) = gs_revision s + 1).
  { apply u32_id. pose proof (so_revision _ Hs). unfold is_u32, UINT32_MAX in *. lia. }
  destruct Hp as [epoch sequence deadline t Hk He Hq Hnew Hpd Hel Hd E Htt
                 |e t Hk He Hv Hpad Hle Htake E Htt Hobs Hack].
  - rewrite E in *. rewrite next_put_last_time. cbn in Ht, Hdl.
    exists (EvPending epoch sequence deadline). split; [|split; [|exact Hsucc]].
    + apply AdvPending; try done; [|lia]. apply Hdl. by left.
    + destruct Hs. unfold UINT32_MAX in *.
      split; cbn; try done; [apply u32_range|unfold is_u32; lia..].
  - assert (Hk0 : ig_prepared_kind x <> 0).
    { rewrite Hk. cbn in Hv. rewrite !andb_true_iff, orb_true_iff, !andb_true_iff in Hv. lia. }
    destruct (Hkind Hk0) as [-> Hsem]. destruct a as [a|]; [|done].
    rewrite gsea_verify_take in Hver by done. rewrite Htake in Hver.
    assert (Hlen : length (envelope_image e) = ig_prepared_length x).
    { rewrite <- Htake, length_take. lia. }
    assert (Hb : bytes (envelope_image e)) by (rewrite <- Htake; apply bytes_take, Hx).
    destruct (gsea_verify_exact check a _ _ blank_evidence Hb Hlen) as [Hex _].
    apply Hex in Hver as (f & Ei & Hf & ->). cbn [sg_envelope] in Hsem.
    assert (f = e) as ->.
    { destruct Hf. by apply envelope_image_inj. }
    destruct (semantics_spec x blake2b e He) as [Had Hmax];
      [by rewrite (in_commitment _ _ _ Hx), gi_commitment_length
      |by rewrite (in_commitment _ _ _ Hx), (in_config _ _ _ Hx)|done|].
    rewrite (in_config _ _ _ Hx) in Had.
    assert (Hgen : genuine blake2b check cfg e).
    { split; try done. rewrite <- (in_config _ _ _ Hx).
      destruct Had. apply (pinned_key x check a); rewrite ?(in_config _ _ _ Hx); try done. apply Hcfg. }
    assert (Hseq : en_sequence e < UINT32_MAX).
    { pose proof (eo_sequence _ He). unfold is_u32, UINT32_MAX in *. lia. }
    rewrite E in *. rewrite next_put_last_time. clear E.
    destruct (Z.eqb_spec (en_type e) 7) as [E7|E7].
    + exists (EvObservation e). cbn in Ht. split; [|split; [|exact Hsucc]].
      * apply AdvObservation; try done; [|lia]. split; [by apply Hobs|done].
      * destruct Hs. split; cbn; try done. apply u32_range. apply He.
    + destruct (Hack E7) as (H1 & H2 & H3 & H4 & H5). exists (EvAck e). cbn in Ht, Hdl.
      split; [|split; [|exact Hsucc]].
      * apply AdvAck; try done; [|lia..].
        cbn in Hv. rewrite !andb_true_iff, orb_true_iff, !andb_true_iff in Hv. lia.
      * destruct Hs. split; cbn; try done. apply u32_range. apply He.
Qed.

Lemma drop_record_digest s : drop 224 (record_image blake2b cfg s) = record_digest blake2b cfg s.
Proof. unfold record_image. apply drop_app_length'. by rewrite record_body_length. Qed.

Lemma record_digest_length s : length (record_digest blake2b cfg s) = 32%nat.
Proof. apply (blake_length (blake2b := blake2b)). Qed.

Lemma commit_step x a now w s :
  ingress_inv x w s -> registry_typed a -> is_u32 now ->
  exists r y w' s', gi_commit blake2b check (Some x) a now w = (r, Some y, w') /\
    ingress_inv y w' s' /\
    (s' = s \/ (s' = put_last_time now (ig_proposed x) /\ ig_mode x = GI_PREPARED /\
                exists event, advances now event s s')) /\
    (r = GI_OK -> ig_mode y = GI_READY /\ s' = put_last_time now (ig_proposed x) /\
                  exists event, advances now event s s').
Proof.
  intros Hx Ha Hnow. unfold gi_commit.
  destruct (Z.eqb_spec (ig_mode x) GI_PREPARED) as [Em|Em]; cbn [negb].
  2: { exists GI_HOLD, x, w, s. split; [done|]. split; [done|]. split; [by left|done]. }
  set (y := put_mode GI_HOLD_MODE x).
  assert (Hhold : forall r z w', r <> GI_OK -> durable w' s ->
    z = y \/ z = put_floor now y ->
    exists r' y' w'' s', (r, Some z, w') = (r', Some y', w'') /\ ingress_inv y' w'' s' /\
      (s' = s \/ (s' = put_last_time now (ig_proposed x) /\ ig_mode x = GI_PREPARED /\
                  exists event, advances now event s s')) /\
      (r' = GI_OK -> ig_mode y' = GI_READY /\ s' = put_last_time now (ig_proposed x) /\
                     exists event, advances now event s s')).
  { intros r z w' Hr Hd Hz. exists r, z, w', s. split; [done|].
    split; [|split; [by left|done]]. by destruct Hz as [-> | ->]; eapply hold_inv; try exact Hx. }
  pose proof (in_durable _ _ _ Hx) as Hd.
  destruct (negb (registry_ok y a) || _ || _) eqn:Eg; [apply Hhold; auto|].
  rewrite !orb_false_iff, negb_false_iff, !Z.ltb_ge in Eg. destruct Eg as [[Hreg Ht] _].
  destruct ((_ || _) && _) eqn:Edl; [apply Hhold; auto|].
  destruct (gsea_verify_output check a (Some (ig_prepared_wire y)) (ig_prepared_length y)
              blank_evidence) as (verified & ev & Hver).
  rewrite Hver. cbn [default from_option id].
  destruct (negb (ig_prepared_kind y =? 0) && _) eqn:Ek; [apply Hhold; auto|].
  assert (Hadv : exists event, advances now event s (put_last_time now (ig_proposed x)) /\
    ingress_state_object (put_last_time now (ig_proposed x)) /\
    gs_revision (put_last_time now (ig_proposed x)) = gs_revision s + 1).
  { apply (prepared_advances x w s a now verified ev); try done.
    - intros Hpe. apply andb_false_iff in Edl.
      rewrite orb_false_iff, !negb_false_iff, !Z.eqb_eq, Z.leb_gt in Edl.
      destruct Edl as [[]|]; [|done]. cbn in *. tauto.
    - intros Hk. apply Z.eqb_neq in Hk. cbn [y put_mode ig_prepared_kind] in Ek.
      change (ig_prepared_kind y) with (ig_prepared_kind x) in Ek. rewrite Hk in Ek.
      cbn [negb andb] in Ek. rewrite orb_false_iff, !negb_false_iff, bool_decide_eq_true in Ek. done. }
  change (ig_proposed y) with (ig_proposed x). set (s' := put_last_time now (ig_proposed x)) in *.
  destruct Hadv as (event & Hadv & Hobj & Hrev).
  change (ig_config (put_floor now y)) with (ig_config x). rewrite (in_config _ _ _ Hx).
  destruct (gi_state_ok s') eqn:Eok.
  2: { unfold gi_encode_record. rewrite Hok, Eok. cbn [negb is_null orb].
       rewrite bool_decide_false by done. apply Hhold; auto. }
  rewrite encode_record_eq by done. rewrite bool_decide_true by done. cbn [negb default from_option id].
  change (ig_provider (put_floor now y)) with (ig_provider x). rewrite (in_provider _ _ _ Hx).
  destruct (st_stage (p := p)) as (stage & -> & Hstage).
  destruct (st_advance (p := p)) as (adv & -> & Hadvance).
  destruct (st_read_anchor (p := p)) as (read_anchor & -> & Hanchor).
  destruct (st_read_record (p := p)) as (read_record & -> & Hrecord).
  set (b := record_image blake2b cfg s') in *.
  assert (Hend : forall r w', r <> GI_OK -> durable w' s \/ durable w' s' ->
    exists r' y' w'' t, (r, Some (put_floor now y), w') = (r', Some y', w'') /\
      ingress_inv y' w'' t /\
      (t = s \/ (t = s' /\ ig_mode x = GI_PREPARED /\ exists event, advances now event s t)) /\
      (r' = GI_OK -> ig_mode y' = GI_READY /\ t = s' /\ exists event, advances now event s t)).
  { intros r w' Hr [Hw|Hw]; exists r, (put_floor now y), w'; [exists s|exists s'];
      (split; [done|]); (split; [|split; [|done]]).
    - by eapply hold_inv; try exact Hx.
    - by left.
    - eapply hold_inv; try exact Hx; done.
    - right. split; [done|]. split; [done|]. by exists event. }
  assert (Hne : gs_revision s' <> (anchor w).1) by (rewrite (du_anchor _ _ Hd); cbn [fst]; rewrite Hrev; lia).
  destruct (stage _ _ b w) as [st1 w1] eqn:E1. apply Hstage in E1 as (A1 & R1 & S1).
  specialize (R1 Hne). rewrite (du_anchor _ _ Hd) in R1. cbn [fst] in R1.
  assert (Hd1 : durable w1 s) by (by apply (durable_same w)).
  destruct (Z.eqb_spec st1 0) as [Z1|]; cbn [negb]; [|apply Hend; auto]. specialize (S1 Z1).
  unfold b in *. rewrite drop_record_digest in *.
  destruct (adv _ _ _ _ _ w1) as [st2 w2] eqn:E2. apply Hadvance in E2 as (R2 & A2 & S2).
  change (ig_live (put_floor now y)) with (ig_live x) in *.
  change (ig_digest (put_floor now y)) with (ig_digest x) in *.
  assert (Hnew : anchor w2 = (gs_revision s', record_digest blake2b cfg s') -> durable w2 s').
  { intros EA. split; try done. by rewrite R2. }
  assert (Hd2 : durable w2 s \/ durable w2 s').
  { destruct A2 as [A2|[_ A2]]; [left; by apply (durable_same w1)|right; by apply Hnew]. }
  destruct (Z.eqb_spec st2 0) as [Z2|]; cbn [negb]; [|apply Hend; auto].
  assert (Hd2' : durable w2 s') by (apply Hnew; by apply S2).
  destruct (read_anchor _ w2) as [[[st3 revision] hash] w3] eqn:E3.
  apply Hanchor in E3 as (A3 & R3 & S3).
  assert (Hd3 : durable w3 s') by (by apply (durable_same w2)).
  destruct (negb (st3 =? 0) || _ || _) eqn:E; [apply Hend; auto|].
  rewrite !orb_false_iff, !negb_false_iff, !Z.eqb_eq, bool_decide_eq_true in E.
  destruct E as [[Z3 Er] Eh].
  destruct (read_record _ revision w3) as [[st4 readback] w4] eqn:E4.
  apply Hrecord in E4 as (A4 & R4 & _).
  assert (Hd4 : durable w4 s') by (by apply (durable_same w3)).
  destruct (negb (st4 =? 0) || _) eqn:E'; [apply Hend; auto|].
  eexists _, _, _, s'. split; [reflexivity|]. split; [|split; [right; split; [done|split; [done|by exists event]]|]].
  - split; try apply Hx; try done.
    + intros _. split; [done|]. cbn. rewrite Eh. apply take_ge. by rewrite record_digest_length.
  - intros _. split; [done|]. split; [done|]. by exists event.
Qed.

(** ** Recovery and runs *)

(** A recovery that succeeds publishes exactly the durable state. *)
Lemma recover_step x a now w s :
  ingress_inv x w s ->
  exists r y w', gi_recover blake2b (Some x) a now w = (r, Some y, w') /\ ingress_inv y w' s /\
    (r = GI_OK -> ig_mode y = GI_READY).
Proof.
  intros Hx. unfold gi_recover. cbv zeta. set (y := put_prepared_length 0 (put_mode GI_HOLD_MODE x)).
  assert (Hhold : forall w', durable w' s ->
    exists r z w'', (GI_HOLD, Some y, w') = (r, Some z, w'') /\ ingress_inv z w'' s /\
      (r = GI_OK -> ig_mode z = GI_READY)).
  { intros w' Hw. exists GI_HOLD, y, w'. split; [done|]. split; [|done].
    by eapply hold_inv; try exact Hx. }
  pose proof (in_durable _ _ _ Hx) as Hd.
  destruct (negb (registry_ok y a)); [by apply Hhold|].
  change (ig_provider y) with (ig_provider x). rewrite (in_provider _ _ _ Hx).
  destruct (st_read_anchor (p := p)) as (read_anchor & -> & Hanchor).
  destruct (st_read_record (p := p)) as (read_record & -> & Hrecord).
  destruct (read_anchor _ w) as [[[st1 revision] hash] w1] eqn:E1.
  apply Hanchor in E1 as (A1 & R1 & S1).
  assert (Hd1 : durable w1 s) by (by apply (durable_same w)).
  destruct (Z.eqb_spec st1 0) as [Z1|]; cbn [negb]; [|by apply Hhold].
  specialize (S1 Z1). rewrite (du_anchor _ _ Hd) in S1. injection S1 as <- <-.
  destruct (read_record _ _ w1) as [[st2 b] w2] eqn:E2.
  apply Hrecord in E2 as (A2 & R2 & Hb & Hl & S2).
  assert (Hd2 : durable w2 s) by (by apply (durable_same w1)).
  destruct (Z.eqb_spec st2 0) as [Z2|]; cbn [negb]; [|by apply Hhold].
  specialize (S2 Z2).
  assert (Hcx : ig_config y = cfg) by apply Hx.
  destruct (gi_decode blake2b y b) as [t|] eqn:Ed; [|by apply Hhold].
  assert (Hcy : ingress_config_object (ig_config y)) by (by rewrite Hcx).
  assert (Hoy : gi_config_ok (Some (ig_config y)) = true) by (by rewrite Hcx).
  pose proof (proj1 (gi_decode_exact blake2b y b t Hcy Hoy Hb Hl) Ed) as (Ht & Hto & Eb).
  rewrite Hcx in Eb.
  destruct (negb (gs_revision t =? gs_revision s) || _ || _) eqn:Eg; [by apply Hhold|].
  rewrite !orb_false_iff, !negb_false_iff, Z.eqb_eq, bool_decide_eq_true, Z.ltb_ge in Eg.
  destruct Eg as [[Er Eh] _].
  rewrite Eb, drop_record_digest, !take_ge in Eh by (by rewrite record_digest_length).
  assert (E : b = record_image blake2b cfg s).
  { destruct S2 as [S2|S2]; [by rewrite S2, (du_record _ _ Hd1)|]. exfalso. apply S2.
    rewrite Eb. unfold record_image at 1. rewrite take_app_length' by (by rewrite record_body_length).
    by rewrite (du_anchor _ _ Hd1). }
  assert (t = s) as -> by (apply (record_image_inj blake2b cfg); try done; [apply Hd|apply Hd|congruence]).
  eexists GI_OK, _, w2. split; [reflexivity|]. split; [|done].
  split; try done; try apply Hx. intros _. split; [done|]. cbn.
  apply take_ge. by rewrite record_digest_length.
Qed.

Lemma ingress_step_inv x w op s :
  ingress_inv x w s -> ingress_op_typed op ->
  let '(r, y, w') := ingress_step blake2b check cfg p x w op in
  exists s', ingress_inv y w' s' /\
    ((forall a now, op <> OpCommit a now) -> s' = s) /\
    (forall a now, op = OpCommit a now ->
       s' = s \/ (s' = put_last_time now (ig_proposed x) /\ ig_mode x = GI_PREPARED /\
                  exists event, advances now event s s')) /\
    (forall a now, op = OpCommit a now -> r = GI_OK ->
       ig_mode y = GI_READY /\ s' = put_last_time now (ig_proposed x) /\
       exists event, advances now event s s').
Proof.
  intros Hx Ht. destruct op as [|a now|a wire n now|a epoch sequence deadline now|a now];
    cbn [ingress_step]; cbn in Ht.
  - destruct (restart_inv x w s (in_durable _ _ _ Hx)) as (y & -> & Hy & _). by exists s.
  - destruct (recover_step x a now w s Hx) as (r & y & w' & -> & Hy & _). by exists s.
  - destruct (prepare_step x a wire n now w s Hx) as (r & y & -> & Hy); [tauto|]. by exists s.
  - destruct Ht as (_ & _ & H1 & H2 & H3).
    destruct (pending_step x a epoch sequence deadline now w s Hx) as (r & y & -> & Hy); try done.
    by exists s.
  - destruct Ht as [Ha Hnow].
    destruct (commit_step x a now w s Hx Ha Hnow) as (r & y & w' & s' & -> & Hy & H1 & H2).
    exists s'. split; [done|]. split; [intros H; by destruct (H a now)|]. split; [by intros ? ? [= <- <-]|].
    by intros ? ? [= <- <-].
Qed.

Lemma ingress_run_inv ops : forall x w s,
  ingress_inv x w s -> Forall ingress_op_typed ops ->
  let '(results, y, w') := ingress_run blake2b check cfg p x w ops in
  exists log s', ingress_inv y w' s' /\ history blake2b check cfg s log s' /\
    (Forall (fun op => forall a now, op <> OpCommit a now) ops -> s' = s).
Proof.
  induction ops as [|op ops IH]; intros x w s Hx Ht; cbn [ingress_run].
  { exists [], s. split; [done|]. split; [constructor|done]. }
  apply Forall_cons in Ht as [Ht Hts]. pose proof (ingress_step_inv x w op s Hx Ht) as Hstep.
  destruct (ingress_step _ _ _ _ x w op) as [[r y] w1]. destruct Hstep as (s1 & Hy & Hk & Hc & _).
  pose proof (IH y w1 s1 Hy Hts) as Hrun.
  destruct (ingress_run _ _ _ _ y w1 ops) as [[rs z] w2].
  destruct Hrun as (log & s2 & Hz & Hlog & Hk2).
  assert (Hfirst : s1 = s \/ exists now event, advances now event s s1).
  { destruct op as [| | | |a now]; try (left; apply Hk; by intros ? ? [=]).
    destruct (Hc a now eq_refl) as [->|(_ & _ & event & H)]; [by left|right; eauto]. }
  destruct Hfirst as [->|(now & event & Hadv)].
  - exists log, s2. split; [done|]. split; [done|]. by intros [_ ?]%Forall_cons; apply Hk2.
  - exists ((now, event) :: log), s2. split; [done|]. split.
    + by eapply history_cons.
    + intros [Hop Hops]%Forall_cons. rewrite Hk2 by done. by apply Hk.
Qed.

(** ** Guarantees *)

Local Abbreviation history := (history blake2b check cfg).
Local Abbreviation genuine := (genuine blake2b check cfg).
Local Abbreviation run := (ingress_run blake2b check cfg p).
Local Abbreviation step := (ingress_step blake2b check cfg p).

Lemma initial_inv (z : context) x w s :
  durable w s -> gi_init blake2b (Some z) (Some cfg) (Some p) = (GI_OK, Some x) -> ingress_inv x w s.
Proof.
  intros Hd E. destruct (restart_inv z w s Hd)
    as (y & E' & Hy & _). rewrite E in E'. by injection E' as ->.
Qed.

(** C1:Whatever the provider's failures, the received bytes and the restarts, every run
    of the operations moves the durable record along the protocol: each committed
    transaction is a pending reference or an envelope for this peer and round, signed
    by the pinned key over all its fields; sequence numbers of observations and
    acknowledgements and the local references strictly increase over the whole
    history, so nothing is accepted twice, not even across restarts; and what a READY
    context holds in memory is the durable state. *)
Theorem ingress_follows_protocol (z x0 x : context) w0 s0 ops results w :
  durable w0 s0 -> gi_init blake2b (Some z) (Some cfg) (Some p) = (GI_OK, Some x0) ->
  Forall ingress_op_typed ops -> run x0 w0 ops = (results, x, w) ->
  exists log s,
    history s0 log s /\ durable w s /\ (ig_mode x = GI_READY -> ig_live x = s) /\
    StronglySorted newer log /\
    Forall (fun t => match t.2 with
                     | EvObservation e => genuine e /\ en_type e = 7
                     | EvAck e => genuine e /\ en_type e = 8
                     | EvPending _ _ deadline => t.1 < deadline
                     end) log.
Proof.
  intros Hd Hi Ht Hrun. pose proof (initial_inv z x0 w0 s0 Hd Hi) as Hx.
  pose proof (ingress_run_inv ops x0 w0 s0 Hx Ht) as H.
  rewrite Hrun in H. destruct H as (log & s & Hy & Hlog & _). exists log, s.
  split; [done|]. split; [apply Hy|].
  split; [intros Hm; by apply (in_live _ _ _ Hy); left|].
  split; [by apply (history_ordered blake2b check cfg s0 log s)|].
  by apply (history_genuine blake2b check cfg s0 log s).
Qed.

(** Nothing has been received and nothing is pending. *)
Definition genesis (s : gi_state) : Prop :=
  gs_has_report s = 0 /\ gs_pending s = 0 /\ gs_eligible s = 0.

(** C2:A snapshot grants eligibility only when the last committed transaction is a
    genuine acknowledgement of the local reference that was last declared pending,
    committed before the deadline of that reference, with a genuine observation on
    record; the snapshot itself is before the deadline, and the registry still has the
    pinned key, unrevoked. *)
Theorem eligible_snapshot_is_earned (z x0 x : context) w0 s0 ops results w a now out s :
  durable w0 s0 -> genesis s0 -> gi_init blake2b (Some z) (Some cfg) (Some p) = (GI_OK, Some x0) ->
  Forall ingress_op_typed ops -> run x0 w0 ops = (results, x, w) ->
  gi_snapshot (Some x) a now (Some out) = (GI_OK, Some s) -> gs_eligible s <> 0 ->
  exists l1 t0 epoch sequence l2 t ack,
    history s0 (l1 ++ (t0, EvPending epoch sequence (gs_deadline s)) :: l2 ++ [(t, EvAck ack)]) s /\
    durable w s /\ Forall is_observation l2 /\
    (exists t' e, In (t', EvObservation e) (l1 ++ l2) /\ genuine e) /\
    genuine ack /\ get32 (drop 20 (en_payload ack)) = epoch /\
    get32 (drop 24 (en_payload ack)) = sequence /\
    t < gs_deadline s /\ now < gs_deadline s /\ registry_ok x a = true.
Proof.
  intros Hd (G1 & G2 & G3) Hi Ht Hrun Hsnap He.
  unfold gi_snapshot in Hsnap. early_inv Hsnap Eg. injection Hsnap as Es.
  rewrite !orb_false_iff, !negb_false_iff, Z.eqb_eq in Eg.
  destruct Eg as ((((Hreg & Hm) & _) & _) & Hdl).
  destruct (ingress_follows_protocol z x0 x w0 s0 ops results w Hd Hi Ht Hrun)
    as (log & s' & Hlog & Hdw & Hlive & _ & Hgen).
  assert (s' = s) as -> by (rewrite <- Es; symmetry; by apply Hlive).
  destruct (history_eligible blake2b check cfg s0 log s Hlog G1 G2 G3 He)
    as (l1 & t0 & epoch & sequence & l2 & t & ack & -> & Hl2 & Hobs & H1 & H2 & H3).
  exists l1, t0, epoch, sequence, l2, t, ack. split; [done|]. split; [done|]. split; [done|].
  rewrite Forall_app, Forall_cons, Forall_app, Forall_cons in Hgen.
  destruct Hgen as (Hg1 & _ & Hg2 & [Hack _] & _). cbn in Hack. split; [|split; [done|]].
  - apply Exists_exists in Hobs as ([t' ev] & Hin & Ho). destruct ev as [e|?|?]; try done.
    exists t', e. apply list_elem_of_In in Hin. split; [done|].
    assert (Hall : Forall (fun t => match t.2 with
      | EvObservation e => genuine e /\ en_type e = 7
      | EvAck e => genuine e /\ en_type e = 8
      | EvPending _ _ deadline => t.1 < deadline end) (l1 ++ l2)) by (by apply Forall_app).
    rewrite List.Forall_forall in Hall. by apply Hall in Hin as [? _].
  - split; [done|]. split; [done|]. split; [done|]. split; [|done].
    rewrite Es in Hdl. apply Z.eqb_neq in He. rewrite He in Hdl. cbn in Hdl. lia.
Qed.

(** C3:The commit is atomic: whatever fails in it and whatever happens after it,
    restarts and failed recoveries included, a context that is READY again without
    another commit holds the state before the transaction or the state after it; and
    after a commit that reported success it is the state after it. *)
Theorem commit_is_atomic (z x0 x y x' : context) w0 s0 ops results w a now r w1 later results' w' :
  durable w0 s0 -> gi_init blake2b (Some z) (Some cfg) (Some p) = (GI_OK, Some x0) ->
  Forall ingress_op_typed ops -> run x0 w0 ops = (results, x, w) ->
  ig_mode x = GI_PREPARED -> ingress_op_typed (OpCommit a now) ->
  step x w (OpCommit a now) = (r, y, w1) ->
  Forall ingress_op_typed later -> Forall (fun op => forall a now, op <> OpCommit a now) later ->
  run y w1 later = (results', x', w') -> ig_mode x' = GI_READY ->
  (ig_live x' = ig_live x \/ ig_live x' = put_last_time now (ig_proposed x)) /\
  (r = GI_OK -> ig_live x' = put_last_time now (ig_proposed x)).
Proof.
  intros Hd Hi Ht Hrun Hm Hc Hstep Hl Hnc Hlater Hm'.
  pose proof (initial_inv z x0 w0 s0 Hd Hi) as Hx0.
  pose proof (ingress_run_inv ops x0 w0 s0 Hx0 Ht) as H.
  rewrite Hrun in H. destruct H as (log & s & Hx & _).
  pose proof (ingress_step_inv x w _ s Hx Hc) as H.
  rewrite Hstep in H. destruct H as (s1 & Hy & _ & H1 & H2).
  pose proof (ingress_run_inv later y w1 s1 Hy Hl) as H.
  rewrite Hlater in H. destruct H as (log' & s2 & Hx' & _ & Hkeep). rewrite (Hkeep Hnc) in Hx'.
  destruct (in_live _ _ _ Hx (or_intror Hm)) as [El _].
  destruct (in_live _ _ _ Hx' (or_introl Hm')) as [El' _]. rewrite El', El.
  split.
  - destruct (H1 a now eq_refl) as [->|(-> & _)]; auto.
  - intros Hr. by apply (H2 a now eq_refl) in Hr as (_ & -> & _).
Qed.

(** ** An honest exchange *)

(** A provider that works: no call fails and records read back as written. *)
Record provider_works : Prop := {
  wk_read_anchor : forall f, ip_read_anchor p = Some f -> forall u w, (f u w).1.1.1 = 0;
  wk_read_record : forall f, ip_read_record p = Some f -> forall u r w,
    (f u r w).1 = (0, record w r);
  wk_stage : forall f, ip_stage p = Some f -> forall u r b w,
    bytes b -> length b = GI_RECORD_SIZE -> (f u r b w).1 = 0;
  wk_advance : forall f, ip_advance p = Some f -> forall u r0 h0 r1 h1 w,
    anchor w = (r0, h0) -> (f u r0 h0 r1 h1 w).1 = 0
}.

(** The registry has the configured peer, with the pinned key. *)
Definition registry_accepts (a : option gsea_context) : Prop :=
  forall x : context, ig_config x = cfg -> registry_ok x a = true.

Lemma semantics_complete (x : context) e :
  ig_config x = cfg -> ig_commitment x = gi_commitment blake2b cfg ->
  addressed blake2b cfg e -> en_sequence e < UINT32_MAX -> semantics x e = true.
Proof.
  intros Ec Em [] Hs. unfold semantics. rewrite Ec, Em.
  rewrite ad_sender0, ad_producer0, ad_key0, ad_epoch0, ad_state0, ad_generation0, ad_policy0,
    ad_profile0, ad_round0, !Z.eqb_refl.
  rewrite (proj2 (Z.eqb_neq _ UINT32_MAX)) by lia. cbn [negb andb].
  rewrite ad_commitment0, take_ge by (by rewrite gi_commitment_length).
  rewrite bool_decide_true, andb_true_r by done.
  destruct (en_payload e) as [|b0 [|b1 [|b2 [|b3 l]]]]; cbn in ad_version0; try discriminate.
  injection ad_version0 as -> -> -> ->. cbn [byte_at nth].
  by destruct (en_type e =? 7).
Qed.

(** Just recovered, at this time. *)
Record recovered (x : context) (w : W) (s : gi_state) (now : Z) : Prop := {
  rv_inv : ingress_inv x w s;
  rv_mode : ig_mode x = GI_READY;
  rv_floor : ig_clock_floor x = now
}.

Lemma recover_works x a now w s :
  provider_works -> ingress_inv x w s -> registry_accepts a -> gs_last_time s <= now ->
  exists y w', gi_recover blake2b (Some x) a now w = (GI_OK, Some y, w') /\ recovered y w' s now.
Proof.
  intros Hwk Hx Ha Ht. destruct (recover_step x a now w s Hx) as (r & y & w' & E & Hy & Hm).
  assert (Hr : r = GI_OK /\ ig_clock_floor y = now).
  { revert E. unfold gi_recover. cbv zeta. set (x' := put_prepared_length 0 (put_mode GI_HOLD_MODE x)).
    assert (Ecx : ig_config x' = cfg) by apply Hx. rewrite (Ha x' Ecx). cbn [negb].
    change (ig_provider x') with (ig_provider x). rewrite (in_provider _ _ _ Hx).
    destruct (st_read_anchor (p := p)) as (ra & Era & Hra).
    destruct (st_read_record (p := p)) as (rr & Err & Hrr). rewrite Era, Err.
    pose proof (wk_read_anchor Hwk ra Era (ip_user p) w) as Z1.
    destruct (ra (ip_user p) w) as [[[st1 rev] hash] w1] eqn:E1. cbn in Z1. subst st1.
    apply Hra in E1 as (A1 & R1 & S1). specialize (S1 eq_refl).
    pose proof (in_durable _ _ _ Hx) as Hd. rewrite (du_anchor _ _ Hd) in S1. injection S1 as <- <-.
    cbn [negb Z.eqb]. pose proof (wk_read_record Hwk rr Err (ip_user p) (gs_revision s) w1) as Z2.
    destruct (rr (ip_user p) (gs_revision s) w1) as [[st2 b] w2] eqn:E2. injection Z2 as -> Eb.
    rewrite R1, (du_record _ _ Hd) in Eb. subst b. cbn [negb Z.eqb].
    apply Hrr in E2 as (_ & _ & Hb & Hl & _).
    assert (Hdec : gi_decode blake2b x' (record_image blake2b cfg s) = Some s).
    { apply gi_decode_exact; rewrite ?Ecx; try done; by destruct Hd. }
    rewrite Hdec, drop_record_digest, !take_ge, Z.eqb_refl, bool_decide_true
      by (done || by rewrite record_digest_length).
    destruct (Z.ltb_spec now (gs_last_time s)); [lia|]. cbn [negb orb]. by intros [= <- <- _]. }
  destruct Hr as [-> Hf]. exists y, w'. split; [done|]. split; [done|by apply Hm|done].
Qed.

Lemma begin_works x a now w s :
  recovered x w s now -> registry_accepts a -> gs_last_time s <= now -> gs_revision s < UINT32_MAX ->
  gi_begin (Some x) a now = (GI_OK, Some (put_floor now x)) /\ ig_live x = s.
Proof.
  intros [Hx Hm Hf] Ha Ht Hr. destruct (in_live _ _ _ Hx (or_introl Hm)) as [El _].
  split; [|done]. unfold gi_begin. rewrite Hm, Ha by apply Hx. cbn [negb Z.eqb GI_READY].
  rewrite El, Hf. destruct (Z.ltb_spec now (gs_last_time s)); [lia|].
  destruct (Z.ltb_spec now now); [lia|]. cbn [orb]. change (Pos.eqb 1 1) with true. cbn [negb].
  change (gs_revision (ig_live (put_floor now x))) with (gs_revision (ig_live x)). rewrite El.
  by rewrite (proj2 (Z.eqb_neq _ _)) by lia.
Qed.

(** The prepared context can be committed: the commit's own checks will pass. *)
Record committable (x : context) (w : W) (s : gi_state) (a : option gsea_context) (now : Z)
    (next : gi_state) : Prop := {
  cm_inv : ingress_inv x w s;
  cm_mode : ig_mode x = GI_PREPARED;
  cm_floor : ig_clock_floor x = now;
  cm_proposed : ig_proposed x = next;
  cm_time : gs_last_time next = now;
  cm_deadline : gs_pending next <> 0 \/ gs_eligible next <> 0 -> now < gs_deadline next;
  cm_signed : ig_prepared_kind x = 0 \/
    exists e, gsea_verify check a (Some (ig_prepared_wire x)) (ig_prepared_length x)
                (Some blank_evidence) = (GSEA_OK, Some e) /\
              semantics x (sg_envelope e) = true
}.

Lemma commit_works x a now w s next :
  provider_works -> committable x w s a now next -> registry_accepts a -> registry_typed a ->
  is_u32 now -> gi_state_ok next = true ->
  exists y w', gi_commit blake2b check (Some x) a now w = (GI_OK, Some y, w') /\ durable w' next.
Proof.
  intros Hwk [Hx Hm Hf Ep Et Hdl Hsg] Ha Hat Hnow Hso.
  destruct (commit_step x a now w s Hx Hat Hnow) as (r & y & w' & s' & E & Hy & _ & Hr).
  assert (En : put_last_time now (ig_proposed x) = next) by (rewrite Ep, <- Et; by destruct next).
  assert (r = GI_OK) as ->.
  2: { destruct (Hr eq_refl) as (_ & -> & _). exists y, w'. split; [done|].
       rewrite <- En. apply Hy. }
  revert E. unfold gi_commit. rewrite Hm. cbn [negb Z.eqb]. change (GI_PREPARED =? GI_PREPARED) with true.
  cbn [negb]. cbv zeta. set (x' := put_mode GI_HOLD_MODE x).
  assert (Ecx : ig_config x' = cfg) by apply Hx. rewrite (Ha x' Ecx). cbn [negb orb].
  change (ig_proposed x') with (ig_proposed x). change (ig_clock_floor x') with (ig_clock_floor x).
  rewrite Ep, Hf, Et, Z.ltb_irrefl. cbn [orb].
  replace ((negb (gs_pending next =? 0) || negb (gs_eligible next =? 0))
           && (gs_deadline next <=? now)) with false.
  2: { symmetry. destruct (Z.eqb_spec (gs_pending next) 0), (Z.eqb_spec (gs_eligible next) 0);
         cbn [negb orb andb]; [done|apply Z.leb_gt; auto..]. }
  destruct (gsea_verify_output check a (Some (ig_prepared_wire x')) (ig_prepared_length x')
              blank_evidence) as (verified & ev & Hver).
  rewrite Hver. cbn [default from_option id].
  assert (Hno : ingress_state_object next).
  { destruct (prepared_advances x w s a now verified ev Hx Hm Hat Hnow) as (event & _ & Hobj & _).
    - apply Ha, Hx.
    - rewrite Ep, Et. lia.
    - by rewrite Ep.
    - exact Hver.
    - intros Hk. destruct Hsg as [?|(e & Hv & Hs)]; [done|].
      assert (Hsame : (verified, Some ev) = (GSEA_OK, Some e)) by (rewrite <- Hver; exact Hv).
      by injection Hsame as -> ->.
    - by rewrite En in Hobj. }
  match goal with |- context [negb (ig_prepared_kind x' =? 0) && ?c] =>
    replace (negb (ig_prepared_kind x' =? 0) && c) with false end.
  2: { symmetry. change (ig_prepared_kind x') with (ig_prepared_kind x).
       destruct Hsg as [->|(e & Hv & Hs)]; [done|].
       change (ig_prepared_wire x') with (ig_prepared_wire x) in Hver.
       change (ig_prepared_length x') with (ig_prepared_length x) in Hver.
       rewrite Hv in Hver. injection Hver as <- <-.
       change (semantics x' (sg_envelope e)) with (semantics x (sg_envelope e)).
       rewrite Hs, bool_decide_true by done. apply andb_false_r. }
  change (ig_config (put_floor now x')) with (ig_config x). rewrite (in_config _ _ _ Hx).
  replace (put_last_time now next) with next by (rewrite <- Et; by destruct next).
  rewrite encode_record_eq, bool_decide_true by done. cbn [negb default from_option id].
  change (ig_provider (put_floor now x')) with (ig_provider x). rewrite (in_provider _ _ _ Hx).
  change (ig_live (put_floor now x')) with (ig_live x).
  change (ig_digest (put_floor now x')) with (ig_digest x).
  destruct (in_live _ _ _ Hx (or_intror Hm)) as [El Eg]. rewrite El, Eg, drop_record_digest.
  destruct (st_stage (p := p)) as (stage & Est & Hstage).
  destruct (st_advance (p := p)) as (adv & Ead & Hadvance).
  destruct (st_read_anchor (p := p)) as (ra & Era & Hra).
  destruct (st_read_record (p := p)) as (rr & Err & Hrr). rewrite Est, Ead, Era, Err.
  pose proof (in_durable _ _ _ Hx) as Hd.
  set (u := ip_user p). set (b := record_image blake2b cfg next).
  pose proof (wk_stage Hwk stage Est u (gs_revision next) b w) as Z1.
  specialize (Z1 (record_image_bytes _ _ _ Hcfg Hno) (record_image_length _ _ _ Hcfg)).
  destruct (stage u (gs_revision next) b w) as [st1 w1] eqn:E1. cbn in Z1. subst st1.
  apply Hstage in E1 as (A1 & _ & S1). specialize (S1 eq_refl). cbn [negb Z.eqb].
  rewrite (du_anchor _ _ Hd) in A1.
  pose proof (wk_advance Hwk adv Ead u _ _ (gs_revision next) (record_digest blake2b cfg next) w1 A1) as Z2.
  destruct (adv u _ _ _ _ w1) as [st2 w2] eqn:E2. cbn in Z2. subst st2.
  apply Hadvance in E2 as (R2 & _ & S2). destruct (S2 eq_refl) as [_ A2]. cbn [negb Z.eqb].
  pose proof (wk_read_anchor Hwk ra Era u w2) as Z3.
  destruct (ra u w2) as [[[st3 rev] hash] w3] eqn:E3. cbn in Z3. subst st3.
  apply Hra in E3 as (A3 & R3 & S3). specialize (S3 eq_refl). rewrite A2 in S3. injection S3 as <- <-.
  rewrite !Z.eqb_refl, bool_decide_true by done. cbn [negb orb].
  pose proof (wk_read_record Hwk rr Err u (gs_revision next) w3) as Z4.
  destruct (rr u (gs_revision next) w3) as [[st4 readback] w4]. injection Z4 as -> ->.
  rewrite R3, R2, S1, take_ge, bool_decide_true by (done || (unfold b; by rewrite record_image_length)).
  cbn [negb orb Z.eqb]. intros E. by apply (f_equal (fun t => t.1.1)) in E.
Qed.

Lemma pending_works x a epoch sequence deadline now w s :
  recovered x w s now -> registry_accepts a -> gs_last_time s <= now -> gs_revision s < UINT32_MAX ->
  0 < epoch < UINT32_MAX -> 0 < sequence < UINT32_MAX -> is_u32 deadline ->
  gs_local_epoch s < epoch \/ (gs_local_epoch s = epoch /\ gs_local_sequence s < sequence) ->
  gs_pending s = 0 -> gs_eligible s = 0 -> now < deadline ->
  exists y, gi_prepare_pending (Some x) a epoch sequence deadline now = (GI_OK, Some y) /\
    committable y w s a now (next_revision now (put_pending epoch sequence deadline s)).
Proof.
  intros Hx Ha Ht Hr He Hs Hd Hlex Hp Hel Hdl.
  destruct (begin_works x a now w s Hx Ha Ht Hr) as [Eb El].
  destruct (pending_step x a epoch sequence deadline now w s) as (r & y & E & Hy);
    [apply Hx|unfold is_u32, UINT32_MAX in *; lia..|done|].
  assert (E' : gi_prepare_pending (Some x) a epoch sequence deadline now =
    (GI_OK, Some (put_prepared (ig_prepared_wire x) 0 0
      (next_revision now (put_pending epoch sequence deadline s)) (put_floor now x)))).
  { unfold gi_prepare_pending. rewrite Eb. rewrite bool_decide_true by done. cbn [negb].
    change (ig_live (put_floor now x)) with (ig_live x). rewrite El, Hp, Hel.
    rewrite (proj2 (Z.eqb_neq epoch 0)), (proj2 (Z.eqb_neq sequence 0)),
      (proj2 (Z.eqb_neq epoch UINT32_MAX)), (proj2 (Z.eqb_neq sequence UINT32_MAX)),
      (proj2 (Z.leb_gt deadline now)), (proj2 (Z.ltb_ge epoch (gs_local_epoch s))) by lia.
    replace ((epoch =? gs_local_epoch s) && (sequence <=? gs_local_sequence s)) with false; [done|].
    symmetry. apply andb_false_iff. rewrite Z.eqb_neq, Z.leb_gt. lia. }
  rewrite E' in E. injection E as <- <-. eexists. split; [exact E'|]. by split; try done; left.
Qed.

(** The transaction that an envelope asks for. *)
Definition envelope_next (e : gse_unverified) (now : Z) (s : gi_state) : gi_state :=
  next_revision now (if en_type e =? 7 then put_observation (en_sequence e) s
                     else put_acknowledgement (en_sequence e) s).

(** What an acknowledgement needs in the state. *)
Definition awaited (e : gse_unverified) (now : Z) (s : gi_state) : Prop :=
  gs_pending s = 1 /\ gs_has_report s = 1 /\
  get32 (drop 20 (en_payload e)) = gs_local_epoch s /\
  get32 (drop 24 (en_payload e)) = gs_local_sequence s.

Lemma envelope_works x a e now w s :
  recovered x w s now -> registry_accepts (Some a) -> gs_last_time s <= now ->
  gs_revision s < UINT32_MAX -> envelope_authentic check a e -> addressed blake2b cfg e ->
  en_sequence e < UINT32_MAX ->
  (en_type e = 7 -> gs_obs_sequence s < en_sequence e) ->
  (en_type e <> 7 -> gs_ack_sequence s < en_sequence e /\ awaited e now s) ->
  (gs_pending s <> 0 -> now < gs_deadline s) ->
  exists y, gi_prepare check (Some x) (Some a) (Some (envelope_image e))
              (length (envelope_image e)) now = (GI_OK, Some y) /\
    committable y w s (Some a) now (envelope_next e now s).
Proof.
  intros Hx Ha Ht Hr Hauth Hadd Hseq Hobs Hack Hdl.
  destruct (begin_works x (Some a) now w s Hx Ha Ht Hr) as [Eb El].
  pose proof (rv_inv _ _ _ _ Hx) as Hinv. destruct Hauth as [Hu He Hv Hpad Hpeer].
  assert (Hauth : envelope_authentic check a e) by done.
  assert (Hb : bytes (envelope_image e)) by (by apply envelope_image_bytes).
  set (n := length (envelope_image e)).
  assert (Hver : gsea_verify check (Some a) (Some (envelope_image e)) n (Some blank_evidence) =
    (GSEA_OK, Some (SIGNATURE_EVIDENCE e (rg_registry_revision a)))).
  { apply (proj1 (gsea_verify_exact check a _ n blank_evidence Hb eq_refl)). by exists e. }
  assert (Hsem : semantics (put_floor now x) e = true)
    by (apply semantics_complete; try done; apply Hinv).
  assert (Hn : (n <= GSE_MAX_WIRE)%nat).
  { unfold n. rewrite (envelope_image_length e He Hv).
    unfold GSE_MAX_WIRE, GSE_HEADER, GSE_SIGNATURE.
    destruct (valid_payload_length e Hv) as [-> | ->]; lia. }
  set (v := blit (ig_prepared_wire x) 0 (envelope_image e)).
  assert (Hvl : (n <= length v)%nat)
    by (unfold v; rewrite blit_length; rewrite ?(in_wire _ _ _ Hinv); unfold n in *; lia).
  assert (Hvt : take n v = envelope_image e) by (unfold v; rewrite blit_0; by apply take_app_length').
  destruct (prepare_step x (Some a) (Some (envelope_image e)) n now w s Hinv (conj Hb eq_refl))
    as (r & y & E & Hy).
  assert (E' : gi_prepare check (Some x) (Some a) (Some (envelope_image e)) n now =
    (GI_OK, Some (put_prepared v n (en_type e) (envelope_next e now s) (put_floor now x)))).
  { unfold gi_prepare. rewrite Eb, bool_decide_true by done. cbn [negb]. rewrite Hver.
    rewrite bool_decide_true by done. cbn [negb default from_option id sg_envelope]. rewrite Hsem.
    cbn [negb]. change (ig_live (put_floor now x)) with (ig_live x). rewrite El.
    rewrite (take_ge (envelope_image e)) by done. unfold envelope_next.
    destruct (Z.eqb_spec (en_type e) 7) as [E7|E7].
    - by rewrite (proj2 (Z.leb_gt _ _)) by auto.
    - destruct (Hack E7) as (H1 & H2 & H3 & H4 & H5).
      rewrite (proj2 (Z.leb_gt (en_sequence e) (gs_ack_sequence s))) by lia.
      rewrite H2, H3, H4, H5, !Z.eqb_refl. cbn [negb orb Z.eqb Pos.eqb].
      by rewrite (proj2 (Z.leb_gt _ _)) by (apply Hdl; lia). }
  rewrite E' in E. injection E as <- <-. eexists. split; [exact E'|].
  split; try done.
  - unfold envelope_next. destruct (Z.eqb_spec (en_type e) 7) as [E7|E7]; cbn.
    + intros [H|[]]; [auto|done].
    + intros _. apply Hdl. destruct (Hack E7) as (_ & H2 & _). lia.
  - right. exists (SIGNATURE_EVIDENCE e (rg_registry_revision a)). split; [|done].
    change (ig_prepared_wire _) with v. change (ig_prepared_length _) with n.
    by rewrite gsea_verify_take, Hvt.
Qed.

Lemma ingress_run_app ops1 ops2 x w :
  run x w (ops1 ++ ops2) =
  let '(r1, x1, w1) := run x w ops1 in
  let '(r2, x2, w2) := run x1 w1 ops2 in (r1 ++ r2, x2, w2).
Proof.
  revert x w. induction ops1 as [|op ops1 IH]; intros x w; cbn [ingress_run app].
  { by destruct (run x w ops2) as [[r2 x2] w2]. }
  destruct (step x w op) as [[r y] w1]. rewrite IH.
  destruct (run y w1 ops1) as [[r1 x1] w2]. by destruct (run x1 w2 ops2) as [[r2 x2] w3].
Qed.

(** One transaction between two restarts. *)
Definition transaction (a : option gsea_context) (op : ingress_op) (now : Z) : list ingress_op :=
  [OpRestart; OpRecover a now; op; OpCommit a now].

Lemma transaction_works a op now s next :
  provider_works -> registry_accepts a -> registry_typed a -> is_u32 now -> gs_last_time s <= now ->
  gi_state_ok next = true ->
  (forall x w, recovered x w s now ->
     exists y, step x w op = (GI_OK, y, w) /\ committable y w s a now next) ->
  forall x w, durable w s ->
    exists y w', run x w (transaction a op now) = (replicate 4 GI_OK, y, w') /\ durable w' next.
Proof.
  intros Hwk Ha Hat Hnow Ht Hso Hop x w Hd. unfold transaction.
  destruct (restart_inv x w s Hd) as (x1 & E1 & Hx1 & _).
  destruct (recover_works x1 a now w s Hwk Hx1 Ha Ht) as (x2 & w2 & E2 & Hx2).
  destruct (Hop x2 w2 Hx2) as (x3 & E3 & Hx3).
  destruct (commit_works x3 a now w2 s next Hwk Hx3 Ha Hat Hnow Hso) as (x4 & w4 & E4 & Hd4).
  exists x4, w4. cbn [ingress_run]. cbn [ingress_step]. rewrite E1. cbn [default from_option id].
  rewrite E2. cbn [default from_option id]. rewrite E3, E4. done.
Qed.

(** The three transactions of an exchange, and a last restart. *)
Definition exchange (a : gsea_context) (obs ack : gse_unverified)
    (epoch sequence deadline t1 t2 t3 t4 : Z) : list ingress_op :=
  let receive e := OpPrepare (Some a) (Some (envelope_image e)) (length (envelope_image e)) in
  transaction (Some a) (receive obs t1) t1 ++
  transaction (Some a) (OpPreparePending (Some a) epoch sequence deadline t2) t2 ++
  transaction (Some a) (receive ack t3) t3 ++ [OpRestart; OpRecover (Some a) t4].

(** C4:An honest exchange completes: on a provider that works, an authentic
    observation, a fresh local reference and an authentic acknowledgement of it,
    committed in this order before the deadline and with a restart before every
    transaction, are all accepted; and after a last restart the snapshot grants
    eligibility with the three cursors of the exchange. *)
Theorem honest_exchange_completes x w s0 a obs ack epoch sequence deadline t1 t2 t3 t4 out :
  provider_works -> durable w s0 -> registry_accepts (Some a) -> registry_typed (Some a) ->
  gs_pending s0 = 0 -> gs_eligible s0 = 0 -> gs_revision s0 + 3 < UINT32_MAX ->
  envelope_authentic check a obs -> addressed blake2b cfg obs -> en_type obs = 7 ->
  gs_obs_sequence s0 < en_sequence obs < UINT32_MAX ->
  0 < epoch < UINT32_MAX -> 0 < sequence < UINT32_MAX -> is_u32 deadline ->
  gs_local_epoch s0 < epoch \/ (gs_local_epoch s0 = epoch /\ gs_local_sequence s0 < sequence) ->
  envelope_authentic check a ack -> addressed blake2b cfg ack -> en_type ack = 8 ->
  gs_ack_sequence s0 < en_sequence ack < UINT32_MAX ->
  get32 (drop 20 (en_payload ack)) = epoch -> get32 (drop 24 (en_payload ack)) = sequence ->
  gs_last_time s0 <= t1 -> t1 <= t2 -> t2 <= t3 -> t3 <= t4 -> t4 < deadline ->
  exists y w' s,
    run x w (exchange a obs ack epoch sequence deadline t1 t2 t3 t4) = (replicate 14 GI_OK, y, w') /\
    durable w' s /\ gi_snapshot (Some y) (Some a) t4 (Some out) = (GI_OK, Some s) /\
    gs_eligible s = 1 /\ gs_obs_sequence s = en_sequence obs /\ gs_ack_sequence s = en_sequence ack /\
    gs_local_epoch s = epoch /\ gs_local_sequence s = sequence.
Proof.
  intros Hwk Hd Ha Hat Hp He Hrev Hobs Hoa Ho7 Hos Hep Hsq Hdl Hlex Hack Haa Ha8 Has H20 H24
    T0 T1 T2 T3 T4.
  pose proof (du_object _ _ Hd) as Ho.
  assert (Hrange : forall t, gs_last_time s0 <= t -> t < deadline -> is_u32 t).
  { intros t. pose proof (so_last_time _ Ho). unfold is_u32 in *. lia. }
  assert (Hbump : forall r, gs_revision s0 <= r -> r < gs_revision s0 + 3 -> u32 (r + 1) = r + 1).
  { intros r Hr Hr'. apply u32_id. pose proof (so_revision _ Ho). unfold is_u32, UINT32_MAX in *. lia. }
  set (s1 := envelope_next obs t1 s0).
  set (s2 := next_revision t2 (put_pending epoch sequence deadline s1)).
  set (s3 := envelope_next ack t3 s2).
  assert (E1 : s1 = next_revision t1 (put_observation (en_sequence obs) s0))
    by (unfold s1, envelope_next; by rewrite Ho7).
  assert (E3 : s3 = next_revision t3 (put_acknowledgement (en_sequence ack) s2))
    by (unfold s3, envelope_next; by rewrite Ha8).
  assert (R1 : gs_revision s1 = gs_revision s0 + 1) by (rewrite E1; apply Hbump; lia).
  assert (R2 : gs_revision s2 = gs_revision s0 + 2)
    by (change (gs_revision s2) with (u32 (gs_revision s1 + 1)); rewrite R1, Hbump by lia; lia).
  pose proof (so_obs_sequence _ Ho) as Hoq. pose proof (so_ack_sequence _ Ho) as Haq.
  unfold is_u32 in Hoq, Haq.
  assert (O1 : gi_state_ok s1 = true).
  { rewrite E1. unfold gi_state_ok. cbn. rewrite Hp. cbn. rewrite andb_true_r.
    by rewrite (proj2 (Z.eqb_neq _ _)) by lia. }
  assert (O2 : gi_state_ok s2 = true).
  { unfold s2, gi_state_ok. rewrite E1. cbn. rewrite !(proj2 (Z.eqb_neq _ 0)) by lia.
    cbn. by rewrite (proj2 (Z.ltb_lt _ _)) by lia. }
  assert (O3 : gi_state_ok s3 = true).
  { rewrite E3. unfold s2, gi_state_ok. rewrite E1. cbn. rewrite !(proj2 (Z.eqb_neq _ 0)) by lia.
    cbn. by rewrite (proj2 (Z.ltb_lt _ _)) by lia. }
  destruct (transaction_works (Some a)
    (OpPrepare (Some a) (Some (envelope_image obs)) (length (envelope_image obs)) t1) t1 s0 s1
    Hwk Ha Hat ltac:(apply Hrange; lia) T0 O1) with (x := x) (w := w) as (x1 & w1 & Q1 & D1); [|done|].
  { intros y v Hy. destruct (envelope_works y a obs t1 v s0 Hy Ha T0) as (z & E & Hz);
      try done; try lia. exists z. split; [|done]. cbn [ingress_step]. by rewrite E. }
  destruct (transaction_works (Some a) (OpPreparePending (Some a) epoch sequence deadline t2) t2 s1 s2
    Hwk Ha Hat ltac:(apply Hrange; lia) ltac:(rewrite E1; exact T1) O2) with (x := x1) (w := w1)
    as (x2 & w2 & Q2 & D2); [|done|].
  { intros y v Hy.
    destruct (pending_works y (Some a) epoch sequence deadline t2 v s1 Hy Ha) as (z & E & Hz);
      try done; try lia; try (rewrite E1; cbn; done || lia).
    exists z. split; [|done]. cbn [ingress_step]. by rewrite E. }
  destruct (transaction_works (Some a)
    (OpPrepare (Some a) (Some (envelope_image ack)) (length (envelope_image ack)) t3) t3 s2 s3
    Hwk Ha Hat ltac:(apply Hrange; lia) T2 O3) with (x := x2) (w := w2) as (x3 & w3 & Q3 & D3); [|done|].
  { intros y v Hy. destruct (envelope_works y a ack t3 v s2 Hy Ha T2) as (z & E & Hz);
      try done; try lia.
    - intros _. unfold s2, awaited. rewrite E1. cbn. split; [lia|done].
    - unfold s2. cbn. lia.
    - exists z. split; [|done]. cbn [ingress_step]. by rewrite E. }
  destruct (restart_inv x3 w3 s3 D3) as (x4 & E4 & Hx4 & _).
  destruct (recover_works x4 (Some a) t4 w3 s3 Hwk Hx4 Ha) as (y & w' & E5 & [Hy Hym Hyf]);
    [rewrite E3; exact T3|].
  destruct (in_live _ _ _ Hy (or_introl Hym)) as [El _].
  exists y, w', s3. split.
  { unfold exchange. rewrite ingress_run_app, Q1, ingress_run_app, Q2, ingress_run_app, Q3. cbn [ingress_run ingress_step].
    rewrite E4. cbn [default from_option id]. by rewrite E5. }
  split; [apply Hy|]. split.
  { unfold gi_snapshot. rewrite Ha by apply Hy. rewrite Hym, Hyf, El, Z.ltb_irrefl. cbn [negb].
    change (GI_READY =? GI_READY) with true. cbn [negb orb].
    rewrite (proj2 (Z.ltb_ge t4 (gs_last_time s3))) by (rewrite E3; exact T3).
    rewrite (proj2 (Z.leb_gt (gs_deadline s3) t4)) by (rewrite E3; exact T4).
    by rewrite andb_false_r. }
  rewrite E3. unfold s2. rewrite E1. done.
Qed.

(** ** A reference that expires *)

Definition op_time (op : ingress_op) : option Z :=
  match op with
  | OpRestart => None
  | OpRecover _ now | OpPrepare _ _ _ now | OpPreparePending _ _ _ _ now | OpCommit _ now => Some now
  end.

Lemma expired_step now ev s s' :
  advances now ev s s' -> gi_state_ok s' = true -> gs_pending s <> 0 -> now < gs_deadline s.
Proof.
  intros Hadv Hso Hp. destruct Hadv; [|done|done].
  unfold gi_state_ok in Hso. rewrite !andb_true_iff in Hso. destruct Hso as [[_ Hso] _]. cbn in Hso.
  rewrite (proj2 (Z.eqb_neq _ _) Hp) in Hso. cbn in Hso. rewrite !andb_true_iff in Hso. lia.
Qed.

(** Once a local reference is pending and its deadline has passed, the round is over:
    no sequence of operations, whatever envelopes arrive and however often the device
    restarts, changes the durable state again, observations included. *)
Theorem expired_reference_blocks (z x0 x : context) w0 s0 ops results w :
  durable w0 s0 -> gs_pending s0 <> 0 ->
  gi_init blake2b (Some z) (Some cfg) (Some p) = (GI_OK, Some x0) ->
  Forall ingress_op_typed ops ->
  Forall (fun op => forall now, op_time op = Some now -> gs_deadline s0 <= now) ops ->
  run x0 w0 ops = (results, x, w) -> durable w s0.
Proof.
  intros Hd Hp Hi Ht Hlate Hrun. pose proof (initial_inv z x0 w0 s0 Hd Hi) as Hx.
  clear Hi Hd z. revert x0 w0 results Hx Hrun.
  induction ops as [|op ops IH]; intros x0 w0 results Hx Hrun; cbn [ingress_run] in Hrun.
  { injection Hrun as _ _ <-. apply Hx. }
  apply Forall_cons in Ht as [Ht Hts]. apply Forall_cons in Hlate as [Hop Hlate].
  pose proof (ingress_step_inv x0 w0 op s0 Hx Ht) as Hstep.
  destruct (step x0 w0 op) as [[r y] w1]. destruct Hstep as (s1 & Hy & Hk & Hc & _).
  destruct (run y w1 ops) as [[rs x1] w2] eqn:E. injection Hrun as _ -> ->.
  assert (s1 = s0) as ->; [|by eapply IH].
  destruct op as [| | | |a now]; try (apply Hk; by intros ? ? [=]).
  destruct (Hc a now eq_refl) as [?|(_ & _ & ev & Hadv)]; [done|].
  pose proof (expired_step _ _ _ _ Hadv (du_ok _ _ (in_durable _ _ _ Hy)) Hp).
  specialize (Hop now eq_refl). lia.
Qed.
End safety.

(** ** A store in memory *)

Record mem := MEM { mem_anchor : Z * list Z; mem_cells : list (Z * list Z) }.

Definition well_formed (b : list Z) : bool := bool_decide (bytes b /\ length b = GI_RECORD_SIZE).

Definition mem_record (w : mem) (r : Z) : list Z :=
  match List.find (fun '(k, b) => (k =? r) && well_formed b) (mem_cells w) with
  | Some (_, b) => b
  | None => replicate GI_RECORD_SIZE 0
  end.

Definition mem_provider : gi_provider unit mem :=
  INGRESS_PROVIDER None
    (Some (fun _ w => (0, (mem_anchor w).1, (mem_anchor w).2, w)))
    (Some (fun _ r w => (0, mem_record w r, w)))
    (Some (fun _ r b w =>
             if well_formed b then (0, MEM (mem_anchor w) ((r, b) :: mem_cells w)) else (1, w)))
    (Some (fun _ r0 h0 r1 h1 w =>
             if bool_decide (mem_anchor w = (r0, h0)) then (0, MEM (r1, h1) (mem_cells w))
             else (1, w))).

Lemma mem_record_ok w r : bytes (mem_record w r) /\ length (mem_record w r) = GI_RECORD_SIZE.
Proof.
  unfold mem_record. destruct (List.find _ _) as [[k b]|] eqn:E.
  - apply List.find_some in E as [_ E]. apply andb_true_iff in E as [_ E].
    by apply bool_decide_eq_true in E.
  - split; [by apply bytes_replicate|by rewrite length_replicate].
Qed.

#[local] Instance mem_store blake2b : IngressStore blake2b mem_provider mem_anchor mem_record.
Proof.
  split; eexists; (split; [reflexivity|]).
  - intros u w status revision hash w' [= <- <- <- <-]. split; [done|]. split; [done|].
    intros _. by destruct (mem_anchor w).
  - intros u revision w status b w' [= <- <- <-]. destruct (mem_record_ok w revision). by split_and!; auto.
  - intros u revision b w status w'. cbv beta. destruct (well_formed b) eqn:Eb; intros [= <- <-]; [|done].
    cbn. split; [done|]. unfold mem_record. cbn. split.
    + intros Hne. by rewrite (proj2 (Z.eqb_neq _ _) Hne).
    + intros _. by rewrite Z.eqb_refl, Eb.
  - intros u r0 h0 r1 h1 w status w'. cbv beta. case_bool_decide; intros [= <- <-]; cbn; [|by split_and!; auto].
    split; [done|]. split; [right|]; done.
Qed.

Lemma mem_working : provider_works mem_provider mem_anchor mem_record.
Proof.
  split; intros f [= <-]; [done|done| |].
  - intros u r b w Hb Hl. unfold well_formed. by rewrite bool_decide_true.
  - intros u r0 h0 r1 h1 w E. by rewrite bool_decide_true.
Qed.

(** A hash function of the right size. *)
Definition example_blake (n : nat) (m : list Z) : list Z := replicate n 7.

#[local] Instance example_blake_ok : Blake example_blake.
Proof.
  split; intros n m; [by apply bytes_replicate|by apply length_replicate].
Qed.

Definition example_config : gi_config :=
  INGRESS_CONFIG 101 102 103 5 77 1 2 3 4 3 (replicate 32 9) (replicate 32 1).

Definition example_genesis : gi_state := zero_ingress_state.

Definition example_world : mem :=
  MEM (0, record_digest example_blake example_config example_genesis)
      [(0, record_image example_blake example_config example_genesis)].

Definition example_observation : gse_unverified :=
  UNVERIFIED 7 3 52 101 102 103 5 1
    ([1; 0; 0; 0] ++ put32 1 ++ put32 2 ++ put32 3 ++ put32 4 ++ replicate 32 7 ++ replicate 12 0)
    (replicate 64 7).

Definition example_ack : gse_unverified :=
  UNVERIFIED 8 3 60 101 102 103 5 1
    ([1; 0xa1; 0; 0] ++ put32 1 ++ put32 2 ++ put32 3 ++ put32 4 ++ put32 8 ++ put32 9 ++
     replicate 32 7 ++ replicate 4 0)
    (replicate 64 7).

Lemma example_ingress_config_object : ingress_config_object example_config.
Proof. split; apply (bool_decide_unpack _); vm_compute; exact I. Qed.

Lemma example_durable :
  durable example_blake example_config mem_anchor mem_record example_world example_genesis.
Proof.
  split; [split; apply (bool_decide_unpack _); vm_compute; exact I|done|done|].
  vm_compute. reflexivity.
Qed.

Lemma example_accepts :
  registry_accepts (C := unit) (W := mem) example_config (Some example_registry).
Proof. intros x E. unfold registry_ok. rewrite E. vm_compute. reflexivity. Qed.

Lemma example_registry_typed : registry_typed (Some example_registry).
Proof. split; [done|]. repeat constructor. Qed.

Lemma example_authentic e :
  e = example_observation \/ e = example_ack ->
  envelope_authentic example_check example_registry e /\ addressed example_blake example_config e.
Proof.
  intros [-> | ->]; (split; [split|split]);
    try (split; try (apply (bool_decide_unpack _); vm_compute; exact I));
    try (vm_compute; reflexivity); try (unfold GSEA_MAX_PEERS; cbn; lia); try done.
  all: exists (ENVELOPE_PEER 101 102 103 (replicate 32 1) 0 GSEA_BOTH);
    split; [reflexivity|]; split; [done|]; split; [done|vm_compute; reflexivity].
Qed.

Definition example_exchange : list ingress_op :=
  exchange example_registry example_observation example_ack 8 9 1000 10 20 30 40.

Lemma example_exchange_typed : Forall ingress_op_typed example_exchange.
Proof.
  assert (Hb : forall e, e = example_observation \/ e = example_ack -> bytes (envelope_image e)).
  { intros e He. destruct (example_authentic e He) as [[] _]. by apply envelope_image_bytes. }
  pose proof example_registry_typed.
  repeat constructor; try done; try (apply Hb; auto).
Qed.

Definition example_start : gi_context unit mem :=
  default zero_ingress
    (gi_init example_blake (Some zero_ingress) (Some example_config) (Some mem_provider)).2.

Definition example_run (ops : list ingress_op) : list gi_result * gi_context unit mem * mem :=
  ingress_run example_blake example_check example_config mem_provider example_start example_world ops.

Definition example_final : gi_state :=
  default zero_ingress_state
    (gi_snapshot (Some (example_run example_exchange).1.2) (Some example_registry) 40
       (Some zero_ingress_state)).2.

Lemma ingress_follows_protocol_witness :
  exists log s, history example_blake example_check example_config example_genesis log s /\
    durable example_blake example_config mem_anchor mem_record
      (example_run example_exchange).2 s /\ StronglySorted newer log.
Proof.
  destruct (ingress_follows_protocol example_blake example_check example_config mem_provider
    mem_anchor mem_record example_ingress_config_object ltac:(reflexivity) zero_ingress example_start
    (example_run example_exchange).1.2 example_world example_genesis example_exchange
    (example_run example_exchange).1.1 (example_run example_exchange).2 example_durable
    ltac:(reflexivity) example_exchange_typed ltac:(vm_compute; reflexivity))
    as (log & s & H1 & H2 & _ & H3 & _).
  exists log, s. split; [exact H1|]. split; [exact H2|exact H3].
Defined.

Lemma eligible_snapshot_is_earned_witness :
  exists t ack, genuine example_blake example_check example_config ack /\ t < 1000.
Proof.
  destruct (eligible_snapshot_is_earned example_blake example_check example_config mem_provider
    mem_anchor mem_record example_ingress_config_object ltac:(reflexivity) zero_ingress example_start
    (example_run example_exchange).1.2 example_world example_genesis example_exchange
    (example_run example_exchange).1.1 (example_run example_exchange).2
    (Some example_registry) 40 zero_ingress_state example_final example_durable
    ltac:(split; [reflexivity|split; reflexivity])
    ltac:(reflexivity) example_exchange_typed ltac:(vm_compute; reflexivity)
    ltac:(vm_compute; reflexivity) ltac:(vm_compute; discriminate))
    as (l1 & t0 & epoch & sequence & l2 & t & ack & _ & _ & _ & _ & H1 & _ & _ & H3 & _).
  assert (E : gs_deadline example_final = 1000) by (vm_compute; reflexivity).
  exists t, ack. split; [exact H1|]. rewrite <- E. exact H3.
Defined.

(** A commit whose anchor cannot be read back: the first transaction of the exchange. *)
Definition example_prepared : gi_context unit mem :=
  (example_run (take 3 example_exchange)).1.2.

Lemma commit_is_atomic_witness :
  let committed := ingress_step example_blake example_check example_config mem_provider
                     example_prepared (example_run (take 3 example_exchange)).2
                     (OpCommit (Some example_registry) 10) in
  ig_live (ingress_run example_blake example_check example_config mem_provider committed.1.2
             committed.2 [OpRestart; OpRecover (Some example_registry) 15]).1.2
  = put_last_time 10 (ig_proposed example_prepared).
Proof.
  intros committed.
  apply (commit_is_atomic example_blake example_check example_config mem_provider
    mem_anchor mem_record example_ingress_config_object ltac:(reflexivity) zero_ingress example_start
    example_prepared committed.1.2
    (ingress_run example_blake example_check example_config mem_provider committed.1.2
       committed.2 [OpRestart; OpRecover (Some example_registry) 15]).1.2
    example_world example_genesis (take 3 example_exchange)
    (example_run (take 3 example_exchange)).1.1 (example_run (take 3 example_exchange)).2
    (Some example_registry) 10 committed.1.1 committed.2
    [OpRestart; OpRecover (Some example_registry) 15]
    (ingress_run example_blake example_check example_config mem_provider committed.1.2
       committed.2 [OpRestart; OpRecover (Some example_registry) 15]).1.1
    (ingress_run example_blake example_check example_config mem_provider committed.1.2
       committed.2 [OpRestart; OpRecover (Some example_registry) 15]).2).
  - exact example_durable.
  - reflexivity.
  - apply Forall_take. exact example_exchange_typed.
  - vm_compute. reflexivity.
  - vm_compute. reflexivity.
  - split; [exact example_registry_typed|unfold is_u32; lia].
  - vm_compute. reflexivity.
  - repeat constructor; exact example_registry_typed || (unfold is_u32; lia) || idtac.
  - repeat constructor; discriminate.
  - vm_compute. reflexivity.
  - vm_compute. reflexivity.
  - vm_compute. reflexivity.
Defined.

Lemma honest_exchange_completes_witness :
  exists y w' s,
    example_run example_exchange = (replicate 14 GI_OK, y, w') /\
    gi_snapshot (Some y) (Some example_registry) 40 (Some zero_ingress_state) = (GI_OK, Some s) /\
    gs_eligible s = 1.
Proof.
  destruct (example_authentic example_observation ltac:(auto)) as [Ho1 Ho2].
  destruct (example_authentic example_ack ltac:(auto)) as [Ha1 Ha2].
  destruct (honest_exchange_completes example_blake example_check example_config mem_provider
    mem_anchor mem_record example_ingress_config_object ltac:(reflexivity) example_start example_world
    example_genesis example_registry example_observation example_ack 8 9 1000 10 20 30 40
    zero_ingress_state mem_working example_durable example_accepts example_registry_typed)
    as (y & w' & s & H1 & _ & H2 & H3 & _);
    try assumption; try reflexivity; try (cbn; unfold is_u32, UINT32_MAX; lia).
  exists y, w', s. split; [exact H1|]. split; [exact H2|exact H3].
Defined.

(** The exchange up to its pending reference, then observations after the deadline. *)
Definition example_pending : gi_state :=
  default zero_ingress_state
    (gi_decode example_blake (example_run (take 8 example_exchange)).1.2
       (mem_record (example_run (take 8 example_exchange)).2 2)).

Definition example_late : list ingress_op :=
  transaction (Some example_registry)
    (OpPrepare (Some example_registry) (Some (envelope_image example_ack)) 156 1000) 1000.

Lemma expired_reference_blocks_witness :
  durable example_blake example_config mem_anchor mem_record
    (ingress_run example_blake example_check example_config mem_provider example_start
       (example_run (take 8 example_exchange)).2 example_late).2 example_pending.
Proof.
  apply (expired_reference_blocks example_blake example_check example_config mem_provider
    mem_anchor mem_record example_ingress_config_object ltac:(reflexivity) zero_ingress example_start
    (ingress_run example_blake example_check example_config mem_provider example_start
       (example_run (take 8 example_exchange)).2 example_late).1.2
    (example_run (take 8 example_exchange)).2 example_pending example_late
    (ingress_run example_blake example_check example_config mem_provider example_start
       (example_run (take 8 example_exchange)).2 example_late).1.1).
  - split; [split; apply (bool_decide_unpack _); vm_compute; exact I| | |];
      vm_compute; reflexivity.
  - vm_compute. discriminate.
  - reflexivity.
  - pose proof example_registry_typed as Hr. assert (Hn : is_u32 1000) by (unfold is_u32; lia).
    assert (Hb : bytes (envelope_image example_ack))
      by (destruct (example_authentic example_ack ltac:(auto)) as [[] _]; by apply envelope_image_bytes).
    repeat (apply Forall_cons; split); [exact I|by split| |by split|apply Forall_nil; exact I].
    split; [exact Hr|]. split; [exact Hn|]. split; [exact Hb|]. vm_compute. reflexivity.
  - assert (E : gs_deadline example_pending = 1000) by (vm_compute; reflexivity). rewrite E.
    repeat (apply Forall_cons; split); [..|apply Forall_nil; exact I];
      intros now; cbn; intros [= <-]; lia.
  - vm_compute. reflexivity.
Defined.
