(* ===== verification/MultiNode.v ===== *)
(** * Topology of the nodes

    Model of MultiNode/Src/guardian_multinode.c: what a node may claim, the
    registry of at most five nodes, and the question whether a node may request
    actuation. Role and authority class are range-checked by the code, so they are
    kept as the integers of the C enumerations.

    The invariant [registry_ok] holds after any sequence of registrations; on
    it the answers of the registry are exact. *)

From S2P Require Import Prelude.

(** ** Data *)

Definition GUARDIAN_MULTINODE_MAX_NODES : nat := 5.

Definition GUARDIAN_CAP_OBSERVATION : Z := Z.shiftl 1 0.
Definition GUARDIAN_CAP_SUPERVISION : Z := Z.shiftl 1 1.
Definition GUARDIAN_CAP_EVIDENCE_WITNESS : Z := Z.shiftl 1 2.
Definition GUARDIAN_CAP_RECOVERY_ASSIST : Z := Z.shiftl 1 3.
Definition GUARDIAN_CAP_SIGNAL_PROCESSING : Z := Z.shiftl 1 4.
Definition GUARDIAN_CAP_POLICY_REFERENCE : Z := Z.shiftl 1 5.
Definition GUARDIAN_CAP_ACTUATION_GATE : Z := Z.shiftl 1 6.
Definition GUARDIAN_CAP_SIGNATURE_VERIFY : Z := Z.shiftl 1 7.
Definition GUARDIAN_CAP_SENSOR_ACQUISITION : Z := Z.shiftl 1 8.
Definition GUARDIAN_CAP_ALL : Z := 0x1FF.

Definition GUARDIAN_NODE_ROLE_INVALID : Z := 0.
Definition GUARDIAN_NODE_ROLE_F401_REFERENCE_CONTROL : Z := 1.
Definition GUARDIAN_NODE_ROLE_MCXN947_SUPERVISORY_PEER : Z := 2.
Definition GUARDIAN_NODE_ROLE_ST_MEASUREMENT_REFERENCE : Z := 3.
Definition GUARDIAN_NODE_ROLE_SECURITY_WITNESS : Z := 4.
Definition GUARDIAN_NODE_ROLE_HIGH_COMPUTE_PROCESSING : Z := 5.

Definition GUARDIAN_AUTHORITY_CLASS_NONE : Z := 0.
Definition GUARDIAN_AUTHORITY_CLASS_OBSERVE : Z := 1.
Definition GUARDIAN_AUTHORITY_CLASS_WITNESS : Z := 2.
Definition GUARDIAN_AUTHORITY_CLASS_REFERENCE_CONTROL : Z := 3.

Inductive guardian_multinode_result_t :=
  | GUARDIAN_MULTINODE_OK
  | GUARDIAN_MULTINODE_ERROR_NULL_ARGUMENT
  | GUARDIAN_MULTINODE_ERROR_INVALID_IDENTITY
  | GUARDIAN_MULTINODE_ERROR_INVALID_ROLE
  | GUARDIAN_MULTINODE_ERROR_INVALID_AUTHORITY_CLASS
  | GUARDIAN_MULTINODE_ERROR_INVALID_CAPABILITIES
  | GUARDIAN_MULTINODE_ERROR_AUTHORITY_ESCALATION
  | GUARDIAN_MULTINODE_ERROR_REGISTRY_FULL
  | GUARDIAN_MULTINODE_ERROR_DUPLICATE_NODE_ID
  | GUARDIAN_MULTINODE_ERROR_DUPLICATE_PRODUCER_ID
  | GUARDIAN_MULTINODE_ERROR_DUPLICATE_ROLE
  | GUARDIAN_MULTINODE_ERROR_TOPOLOGY_INCOMPLETE
  | GUARDIAN_MULTINODE_ERROR_NOT_REFERENCE_CONTROL.

#[global] Instance guardian_multinode_result_eq_dec : EqDecision guardian_multinode_result_t.
Proof. solve_decision. Defined.

Record guardian_multinode_node_t := MULTINODE_NODE {
  mn_node_id : Z; mn_producer_id : Z; mn_key_id : Z;
  mn_role : Z; mn_authority_class : Z;
  mn_capabilities : Z
}.

#[global] Instance guardian_multinode_node_eq_dec : EqDecision guardian_multinode_node_t.
Proof. solve_decision. Defined.

Record guardian_multinode_registry_t := MULTINODE_REGISTRY {
  mr_nodes : list guardian_multinode_node_t;  (* nodes[5] *)
  mr_node_count : nat
}.

Definition zero_node : guardian_multinode_node_t := MULTINODE_NODE 0 0 0 0 0 0.
Definition zero_multinode_registry : guardian_multinode_registry_t :=
  MULTINODE_REGISTRY (replicate GUARDIAN_MULTINODE_MAX_NODES zero_node) 0.

Definition multinode_at (nodes : list guardian_multinode_node_t) (i : nat) : guardian_multinode_node_t :=
  nth i nodes zero_node.

(** ** One node *)

Definition guardian_multinode_required_capabilities (role : Z) : Z :=
  if role =? GUARDIAN_NODE_ROLE_F401_REFERENCE_CONTROL then
    Z.lor (Z.lor GUARDIAN_CAP_OBSERVATION GUARDIAN_CAP_POLICY_REFERENCE) GUARDIAN_CAP_ACTUATION_GATE
  else if role =? GUARDIAN_NODE_ROLE_MCXN947_SUPERVISORY_PEER then
    Z.lor (Z.lor (Z.lor (Z.lor GUARDIAN_CAP_OBSERVATION GUARDIAN_CAP_SUPERVISION)
      GUARDIAN_CAP_EVIDENCE_WITNESS) GUARDIAN_CAP_RECOVERY_ASSIST) GUARDIAN_CAP_SIGNATURE_VERIFY
  else if role =? GUARDIAN_NODE_ROLE_ST_MEASUREMENT_REFERENCE then
    Z.lor GUARDIAN_CAP_OBSERVATION GUARDIAN_CAP_SENSOR_ACQUISITION
  else if role =? GUARDIAN_NODE_ROLE_SECURITY_WITNESS then
    Z.lor (Z.lor GUARDIAN_CAP_OBSERVATION GUARDIAN_CAP_EVIDENCE_WITNESS) GUARDIAN_CAP_SIGNATURE_VERIFY
  else if role =? GUARDIAN_NODE_ROLE_HIGH_COMPUTE_PROCESSING then
    Z.lor GUARDIAN_CAP_OBSERVATION GUARDIAN_CAP_SIGNAL_PROCESSING
  else 0.

Definition guardian_multinode_expected_authority (role : Z) : Z :=
  if role =? GUARDIAN_NODE_ROLE_F401_REFERENCE_CONTROL then
    GUARDIAN_AUTHORITY_CLASS_REFERENCE_CONTROL
  else if (role =? GUARDIAN_NODE_ROLE_MCXN947_SUPERVISORY_PEER)
          || (role =? GUARDIAN_NODE_ROLE_ST_MEASUREMENT_REFERENCE)
          || (role =? GUARDIAN_NODE_ROLE_HIGH_COMPUTE_PROCESSING) then
    GUARDIAN_AUTHORITY_CLASS_OBSERVE
  else if role =? GUARDIAN_NODE_ROLE_SECURITY_WITNESS then GUARDIAN_AUTHORITY_CLASS_WITNESS
  else GUARDIAN_AUTHORITY_CLASS_NONE.

Definition guardian_multinode_registry_init (registry : option guardian_multinode_registry_t)
  : option guardian_multinode_registry_t :=
  match registry with None => None | Some _ => Some zero_multinode_registry end.

Definition guardian_multinode_validate_node (node : option guardian_multinode_node_t)
  : guardian_multinode_result_t :=
  match node with
  | None => GUARDIAN_MULTINODE_ERROR_NULL_ARGUMENT
  | Some node =>
      early (mn_node_id node =? 0) || (mn_producer_id node =? 0) || (mn_key_id node =? 0)
        with GUARDIAN_MULTINODE_ERROR_INVALID_IDENTITY ;;
      early (mn_role node <=? GUARDIAN_NODE_ROLE_INVALID)
            || (GUARDIAN_NODE_ROLE_HIGH_COMPUTE_PROCESSING <? mn_role node)
        with GUARDIAN_MULTINODE_ERROR_INVALID_ROLE ;;
      early (mn_capabilities node =? 0)
            || negb (Z.land (mn_capabilities node) (u32 (Z.lnot GUARDIAN_CAP_ALL)) =? 0)
        with GUARDIAN_MULTINODE_ERROR_INVALID_CAPABILITIES ;;
      let required := guardian_multinode_required_capabilities (mn_role node) in
      let expected_authority := guardian_multinode_expected_authority (mn_role node) in
      early required =? 0 with GUARDIAN_MULTINODE_ERROR_INVALID_ROLE ;;
      early negb (mn_authority_class node =? expected_authority)
        with GUARDIAN_MULTINODE_ERROR_INVALID_AUTHORITY_CLASS ;;
      early negb (Z.land (mn_capabilities node) required =? required)
        with GUARDIAN_MULTINODE_ERROR_INVALID_CAPABILITIES ;;
      early negb (Z.land (mn_capabilities node) GUARDIAN_CAP_ACTUATION_GATE =? 0)
            && (negb (mn_role node =? GUARDIAN_NODE_ROLE_F401_REFERENCE_CONTROL)
                || negb (mn_authority_class node =? GUARDIAN_AUTHORITY_CLASS_REFERENCE_CONTROL))
        with GUARDIAN_MULTINODE_ERROR_AUTHORITY_ESCALATION ;;
      early negb (mn_role node =? GUARDIAN_NODE_ROLE_F401_REFERENCE_CONTROL)
            && (mn_authority_class node =? GUARDIAN_AUTHORITY_CLASS_REFERENCE_CONTROL)
        with GUARDIAN_MULTINODE_ERROR_AUTHORITY_ESCALATION ;;
      GUARDIAN_MULTINODE_OK
  end.

(** ** The registry *)

(** The loop that looks for a registered node with an identity of the new one. *)
Fixpoint registration_conflict (nodes : list guardian_multinode_node_t) (index n : nat)
    (node : guardian_multinode_node_t) : option guardian_multinode_result_t :=
  match n with
  | O => None
  | S n =>
      let other := multinode_at nodes index in
      early mn_node_id other =? mn_node_id node
        with Some GUARDIAN_MULTINODE_ERROR_DUPLICATE_NODE_ID ;;
      early mn_producer_id other =? mn_producer_id node
        with Some GUARDIAN_MULTINODE_ERROR_DUPLICATE_PRODUCER_ID ;;
      early mn_role other =? mn_role node with Some GUARDIAN_MULTINODE_ERROR_DUPLICATE_ROLE ;;
      registration_conflict nodes (S index) n node
  end.

Definition guardian_multinode_register_node (registry : option guardian_multinode_registry_t)
    (node : option guardian_multinode_node_t)
  : guardian_multinode_result_t * option guardian_multinode_registry_t :=
  match registry, node with
  | Some r, Some node =>
      let result := guardian_multinode_validate_node (Some node) in
      early negb (bool_decide (result = GUARDIAN_MULTINODE_OK)) with (result, registry) ;;
      early (GUARDIAN_MULTINODE_MAX_NODES <=? mr_node_count r)%nat
        with (GUARDIAN_MULTINODE_ERROR_REGISTRY_FULL, registry) ;;
      match registration_conflict (mr_nodes r) 0 (mr_node_count r) node with
      | Some result => (result, registry)
      | None =>
          (GUARDIAN_MULTINODE_OK,
           Some (MULTINODE_REGISTRY (<[mr_node_count r := node]> (mr_nodes r)) (S (mr_node_count r))))
      end
  | _, _ => (GUARDIAN_MULTINODE_ERROR_NULL_ARGUMENT, registry)
  end.

(** The loop over the registered nodes: the first refusal, or the roles seen. *)
Fixpoint topology_roles (nodes : list guardian_multinode_node_t) (index n : nat) (roles_seen : Z)
  : guardian_multinode_result_t + Z :=
  match n with
  | O => inr roles_seen
  | S n =>
      let result := guardian_multinode_validate_node (Some (multinode_at nodes index)) in
      early negb (bool_decide (result = GUARDIAN_MULTINODE_OK)) with inl result ;;
      topology_roles nodes (S index) n
        (Z.lor roles_seen (u32 (Z.shiftl 1 (mn_role (multinode_at nodes index)))))
  end.

Definition expected_roles : Z :=
  Z.lor (Z.lor (Z.lor (Z.lor
    (u32 (Z.shiftl 1 GUARDIAN_NODE_ROLE_F401_REFERENCE_CONTROL))
    (u32 (Z.shiftl 1 GUARDIAN_NODE_ROLE_MCXN947_SUPERVISORY_PEER)))
    (u32 (Z.shiftl 1 GUARDIAN_NODE_ROLE_ST_MEASUREMENT_REFERENCE)))
    (u32 (Z.shiftl 1 GUARDIAN_NODE_ROLE_SECURITY_WITNESS)))
    (u32 (Z.shiftl 1 GUARDIAN_NODE_ROLE_HIGH_COMPUTE_PROCESSING)).

Definition guardian_multinode_validate_complete_topology
    (registry : option guardian_multinode_registry_t) : guardian_multinode_result_t :=
  match registry with
  | None => GUARDIAN_MULTINODE_ERROR_NULL_ARGUMENT
  | Some r =>
      early negb (mr_node_count r =? GUARDIAN_MULTINODE_MAX_NODES)%nat
        with GUARDIAN_MULTINODE_ERROR_TOPOLOGY_INCOMPLETE ;;
      match topology_roles (mr_nodes r) 0 (mr_node_count r) 0 with
      | inl result => result
      | inr roles_seen =>
          early negb (roles_seen =? expected_roles) with GUARDIAN_MULTINODE_ERROR_TOPOLOGY_INCOMPLETE ;;
          GUARDIAN_MULTINODE_OK
      end
  end.

(** The search loop: the answer of the first node with the identity, and the
    value stored in [*allowed]. *)
Fixpoint actuation_answer (nodes : list guardian_multinode_node_t) (index n : nat)
    (requesting_node_id : Z) : guardian_multinode_result_t * Z :=
  match n with
  | O => (GUARDIAN_MULTINODE_ERROR_INVALID_IDENTITY, 0)
  | S n =>
      let node := multinode_at nodes index in
      if mn_node_id node =? requesting_node_id
      then
        let result := guardian_multinode_validate_node (Some node) in
        early negb (bool_decide (result = GUARDIAN_MULTINODE_OK)) with (result, 0) ;;
        early negb (mn_role node =? GUARDIAN_NODE_ROLE_F401_REFERENCE_CONTROL)
              || negb (mn_authority_class node =? GUARDIAN_AUTHORITY_CLASS_REFERENCE_CONTROL)
              || (Z.land (mn_capabilities node) GUARDIAN_CAP_ACTUATION_GATE =? 0)
          with (GUARDIAN_MULTINODE_ERROR_NOT_REFERENCE_CONTROL, 0) ;;
        (GUARDIAN_MULTINODE_OK, 1)
      else actuation_answer nodes (S index) n requesting_node_id
  end.

Definition guardian_multinode_can_request_actuation
    (registry : option guardian_multinode_registry_t) (requesting_node_id : Z) (allowed : option Z)
  : guardian_multinode_result_t * option Z :=
  match registry, allowed with
  | Some r, Some _ =>
      early requesting_node_id =? 0 with (GUARDIAN_MULTINODE_ERROR_INVALID_IDENTITY, Some 0) ;;
      let '(result, value) :=
        actuation_answer (mr_nodes r) 0 (mr_node_count r) requesting_node_id in
      (result, Some value)
  | _, Some _ => (GUARDIAN_MULTINODE_ERROR_NULL_ARGUMENT, Some 0)
  | _, None => (GUARDIAN_MULTINODE_ERROR_NULL_ARGUMENT, None)
  end.

(** ** What a node may claim *)

(** The claims that belong together: only the reference controller holds the
    authority of reference control, and only it may hold the actuation gate. *)
Record legitimate (n : guardian_multinode_node_t) : Prop := {
  lg_node_id : mn_node_id n <> 0;
  lg_producer_id : mn_producer_id n <> 0;
  lg_key_id : mn_key_id n <> 0;
  lg_role : 1 <= mn_role n <= 5;
  lg_capabilities : Z.land (mn_capabilities n) (u32 (Z.lnot GUARDIAN_CAP_ALL)) = 0;
  lg_authority : mn_authority_class n = guardian_multinode_expected_authority (mn_role n);
  lg_required :
    Z.land (mn_capabilities n) (guardian_multinode_required_capabilities (mn_role n)) =
    guardian_multinode_required_capabilities (mn_role n);
  lg_gate :
    Z.land (mn_capabilities n) GUARDIAN_CAP_ACTUATION_GATE <> 0 ->
    mn_role n = GUARDIAN_NODE_ROLE_F401_REFERENCE_CONTROL
}.

Lemma role_cases role : 1 <= role <= 5 ->
  role = GUARDIAN_NODE_ROLE_F401_REFERENCE_CONTROL \/
  role = GUARDIAN_NODE_ROLE_MCXN947_SUPERVISORY_PEER \/
  role = GUARDIAN_NODE_ROLE_ST_MEASUREMENT_REFERENCE \/
  role = GUARDIAN_NODE_ROLE_SECURITY_WITNESS \/
  role = GUARDIAN_NODE_ROLE_HIGH_COMPUTE_PROCESSING.
Proof. cbv -[Z.le]. lia. Qed.

Lemma expected_authority_reference role : 1 <= role <= 5 ->
  guardian_multinode_expected_authority role = GUARDIAN_AUTHORITY_CLASS_REFERENCE_CONTROL <->
  role = GUARDIAN_NODE_ROLE_F401_REFERENCE_CONTROL.
Proof.
  intros H. destruct (role_cases role H) as [-> | [-> | [-> | [-> | ->]]]]; vm_compute; split; done.
Qed.

Lemma required_nonzero role : 1 <= role <= 5 -> guardian_multinode_required_capabilities role <> 0.
Proof.
  intros H. destruct (role_cases role H) as [-> | [-> | [-> | [-> | ->]]]]; vm_compute; done.
Qed.

(** A node that has what its role requires has some capability. *)
Lemma capabilities_nonzero n :
  legitimate n -> mn_capabilities n <> 0.
Proof.
  intros [] E. rewrite E in *. by apply (required_nonzero (mn_role n)).
Qed.

Lemma validate_node_ok n :
  guardian_multinode_validate_node (Some n) = GUARDIAN_MULTINODE_OK <-> legitimate n.
Proof.
  split.
  - cbn. intros H. early_inv H E1. early_inv H E2. early_inv H E3. early_inv H E4.
    early_inv H E5. early_inv H E6. early_inv H E7.
    rewrite !orb_false_iff in *. rewrite negb_false_iff in *. destruct_and!.
    assert (1 <= mn_role n <= 5) by (unfold GUARDIAN_NODE_ROLE_INVALID,
      GUARDIAN_NODE_ROLE_HIGH_COMPUTE_PROCESSING in *; lia).
    split; lia.
  - intros Hn. pose proof (capabilities_nonzero n Hn) as Hc. destruct Hn. cbn.
    pose proof (required_nonzero (mn_role n) lg_role0) as Hr.
    pose proof (expected_authority_reference (mn_role n) lg_role0) as Ha.
    rewrite lg_capabilities0, lg_authority0, lg_required0, !Z.eqb_refl. cbn [negb orb andb].
    rewrite (proj2 (Z.eqb_neq _ _) lg_node_id0), (proj2 (Z.eqb_neq _ _) lg_producer_id0),
      (proj2 (Z.eqb_neq _ _) lg_key_id0), (proj2 (Z.eqb_neq _ _) Hc), (proj2 (Z.eqb_neq _ _) Hr).
    replace ((mn_role n <=? GUARDIAN_NODE_ROLE_INVALID)
             || (GUARDIAN_NODE_ROLE_HIGH_COMPUTE_PROCESSING <? mn_role n)) with false
      by (symmetry; apply orb_false_iff; cbv -[Z.leb Z.ltb mn_role]; lia).
    cbn [orb]. destruct (Z.eqb_spec (mn_role n) GUARDIAN_NODE_ROLE_F401_REFERENCE_CONTROL) as [E|E].
    + apply Ha in E. rewrite E, Z.eqb_refl. cbn. by rewrite andb_false_r.
    + destruct (Z.eqb_spec (Z.land (mn_capabilities n) GUARDIAN_CAP_ACTUATION_GATE) 0); [|tauto].
      cbn. destruct (Z.eqb_spec (guardian_multinode_expected_authority (mn_role n))
                       GUARDIAN_AUTHORITY_CLASS_REFERENCE_CONTROL); tauto.
Qed.

#[global] Instance legitimate_dec n : Decision (legitimate n).
Proof.
  refine (cast_if (decide (guardian_multinode_validate_node (Some n) = GUARDIAN_MULTINODE_OK)));
    by rewrite <- validate_node_ok.
Defined.

Lemma validate_node_decide n :
  bool_decide (guardian_multinode_validate_node (Some n) = GUARDIAN_MULTINODE_OK) =
  bool_decide (legitimate n).
Proof. apply bool_decide_ext, validate_node_ok. Qed.

(** Holding the gate is exactly being the reference controller. *)
Lemma gate_iff_reference n :
  legitimate n ->
  Z.land (mn_capabilities n) GUARDIAN_CAP_ACTUATION_GATE <> 0 <->
  mn_role n = GUARDIAN_NODE_ROLE_F401_REFERENCE_CONTROL.
Proof.
  intros []. split; [done|]. intros E. rewrite E in lg_required0.
  apply (f_equal (fun z => Z.land z GUARDIAN_CAP_ACTUATION_GATE)) in lg_required0.
  rewrite <- Z.land_assoc in lg_required0. intros H.
  change (Z.land (guardian_multinode_required_capabilities _) GUARDIAN_CAP_ACTUATION_GATE)
    with GUARDIAN_CAP_ACTUATION_GATE in lg_required0. by rewrite H in lg_required0.
Qed.

(** A capability that the role requires is there. *)
Lemma required_capability n cap :
  legitimate n ->
  Z.land (guardian_multinode_required_capabilities (mn_role n)) cap = cap ->
  Z.land (mn_capabilities n) cap = cap.
Proof. intros H E. by rewrite <- E, Z.land_assoc, (lg_required n H). Qed.

Lemma no_gate n :
  legitimate n -> mn_role n <> GUARDIAN_NODE_ROLE_F401_REFERENCE_CONTROL ->
  Z.land (mn_capabilities n) GUARDIAN_CAP_ACTUATION_GATE = 0.
Proof.
  intros H Hr. destruct (Z.eq_dec (Z.land (mn_capabilities n) GUARDIAN_CAP_ACTUATION_GATE) 0) as [|Hg];
    [done|]. by apply (gate_iff_reference n H) in Hg.
Qed.

(** ** The invariant of the registry *)

(** The registered nodes [ns] stand first in the array, each legitimate, no two
    sharing an identity, a producer or a role. *)
Record registry_holds (r : guardian_multinode_registry_t) (ns : list guardian_multinode_node_t)
  : Prop := {
  rh_nodes :
    mr_nodes r = ns ++ replicate (GUARDIAN_MULTINODE_MAX_NODES - length ns) zero_node;
  rh_count : mr_node_count r = length ns;
  rh_bound : (length ns <= GUARDIAN_MULTINODE_MAX_NODES)%nat;
  rh_legitimate : Forall legitimate ns;
  rh_node_ids : NoDup (map mn_node_id ns);
  rh_producer_ids : NoDup (map mn_producer_id ns);
  rh_roles : NoDup (map mn_role ns)
}.

(** A new node clashes with none of [ns]. *)
Definition distinct_from (n m : guardian_multinode_node_t) : Prop :=
  mn_node_id m <> mn_node_id n /\ mn_producer_id m <> mn_producer_id n /\ mn_role m <> mn_role n.

Lemma multinode_at_app pre m post : multinode_at (pre ++ m :: post) (length pre) = m.
Proof. unfold multinode_at. by rewrite app_nth2, Nat.sub_diag by lia. Qed.

Lemma registration_conflict_none n ns : forall pre post,
  registration_conflict (pre ++ ns ++ post) (length pre) (length ns) n = None <->
  Forall (distinct_from n) ns.
Proof.
  induction ns as [|m ns IH]; intros pre post; [by split; constructor|].
  cbn [length app registration_conflict]. rewrite multinode_at_app. cbv zeta.
  specialize (IH (pre ++ [m]) post). rewrite length_app, Nat.add_1_r, <- app_assoc in IH. cbn in IH.
  rewrite Forall_cons, <- IH. unfold distinct_from.
  destruct (Z.eqb_spec (mn_node_id m) (mn_node_id n)); [by intuition congruence|].
  destruct (Z.eqb_spec (mn_producer_id m) (mn_producer_id n)); [by intuition congruence|].
  destruct (Z.eqb_spec (mn_role m) (mn_role n)); intuition congruence.
Qed.

Lemma not_in_map {B} (f : guardian_multinode_node_t -> B) n ns :
  Forall (fun m => f m <> f n) ns -> f n ∉ map f ns.
Proof.
  intros H Hin. apply list_elem_of_In, in_map_iff in Hin as (m & E & Hm).
  rewrite List.Forall_forall in H. by apply (H m).
Qed.

Lemma nodup_map_snoc {B} (f : guardian_multinode_node_t -> B) n ns :
  NoDup (map f ns) -> Forall (fun m => f m <> f n) ns -> NoDup (map f (ns ++ [n])).
Proof.
  intros Hd Hn. rewrite map_app. cbn. apply NoDup_app. repeat split; [done| |apply NoDup_singleton].
  intros x Hx ->%list_elem_of_singleton. by apply (not_in_map f n ns).
Qed.

Lemma insert_first_free ns n :
  (length ns < GUARDIAN_MULTINODE_MAX_NODES)%nat ->
  <[length ns := n]> (ns ++ replicate (GUARDIAN_MULTINODE_MAX_NODES - length ns) zero_node) =
  (ns ++ [n]) ++ replicate (GUARDIAN_MULTINODE_MAX_NODES - length (ns ++ [n])) zero_node.
Proof.
  intros H. rewrite insert_app_r_alt, Nat.sub_diag, length_app by lia. cbn [length].
  replace (GUARDIAN_MULTINODE_MAX_NODES - length ns)%nat
    with (S (GUARDIAN_MULTINODE_MAX_NODES - (length ns + 1))) by lia.
  cbn. by rewrite <- app_assoc.
Qed.

Lemma zero_registry_holds : registry_holds zero_multinode_registry [].
Proof. split; cbn; try apply NoDup_nil; try constructor; done || lia. Qed.

(** A registration that succeeds appends the node. *)
Lemma register_node_appends r ns n :
  registry_holds r ns -> legitimate n -> Forall (distinct_from n) ns ->
  (length ns < GUARDIAN_MULTINODE_MAX_NODES)%nat ->
  exists r', guardian_multinode_register_node (Some r) (Some n) = (GUARDIAN_MULTINODE_OK, Some r')
             /\ registry_holds r' (ns ++ [n]).
Proof.
  intros [Hnodes Hcount Hbound Hlegit Hids Hprods Hroles] Hn Hd Hlt. unfold guardian_multinode_register_node.
  rewrite validate_node_decide, bool_decide_true by done. cbn [negb]. rewrite Hcount.
  rewrite (proj2 (Nat.leb_gt _ _) Hlt), Hnodes.
  pose proof (proj2 (registration_conflict_none n ns [] (replicate
    (GUARDIAN_MULTINODE_MAX_NODES - length ns) zero_node)) Hd) as E.
  cbn [length app] in E. rewrite E. eexists. split; [done|]. unfold distinct_from in Hd. rewrite !Forall_and in Hd.
  destruct Hd as (? & ? & ?). split; cbn [mr_nodes mr_node_count].
  - by apply insert_first_free.
  - rewrite length_app. cbn. lia.
  - rewrite length_app. cbn. lia.
  - apply Forall_app. by split; [|constructor].
  - by apply nodup_map_snoc.
  - by apply nodup_map_snoc.
  - by apply nodup_map_snoc.
Qed.

(** Every other registration is refused and changes nothing. *)
Lemma register_node_refuses r ns n :
  registry_holds r ns ->
  ~ (legitimate n /\ Forall (distinct_from n) ns /\ (length ns < GUARDIAN_MULTINODE_MAX_NODES)%nat) ->
  exists e, guardian_multinode_register_node (Some r) (Some n) = (e, Some r)
            /\ e <> GUARDIAN_MULTINODE_OK.
Proof.
  intros [Hnodes Hcount _ _ _ _ _] Hno. unfold guardian_multinode_register_node. cbv zeta.
  destruct (bool_decide_reflect (guardian_multinode_validate_node (Some n) = GUARDIAN_MULTINODE_OK))
    as [Hv|Hv]; cbn [negb]; [|by eauto]. apply validate_node_ok in Hv. rewrite Hcount.
  destruct (Nat.leb_spec GUARDIAN_MULTINODE_MAX_NODES (length ns)); [by eauto|].
  destruct (registration_conflict (mr_nodes r) 0 (length ns) n) as [e|] eqn:E.
  - exists e. split; [done|]. intros ->. clear -E. revert E. generalize 0%nat.
    induction (length ns) as [|k IH]; intros i; [done|]. cbn. repeat case_match; [done..|apply IH].
  - rewrite Hnodes in E. apply (registration_conflict_none n ns []) in E. tauto.
Qed.

(** ** Histories of registrations *)

Definition register_step (r : guardian_multinode_registry_t) (n : guardian_multinode_node_t)
  : guardian_multinode_registry_t :=
  default r (snd (guardian_multinode_register_node (Some r) (Some n))).

(** The registry after the requests [ns], whatever their results. *)
Definition register_all (ns : list guardian_multinode_node_t) : guardian_multinode_registry_t :=
  foldl register_step zero_multinode_registry ns.

(** The nodes that a registry lists. *)
Definition registered (r : guardian_multinode_registry_t) : list guardian_multinode_node_t :=
  take (mr_node_count r) (mr_nodes r).

Lemma registered_eq r ns : registry_holds r ns -> registered r = ns.
Proof. intros []. unfold registered. by rewrite rh_nodes0, rh_count0, take_app_length. Qed.

Lemma register_step_holds r ns n :
  registry_holds r ns ->
  registry_holds (register_step r n) ns \/ registry_holds (register_step r n) (ns ++ [n]).
Proof.
  intros H. unfold register_step.
  destruct (decide (legitimate n)) as [Hn|Hn];
  [destruct (decide (registration_conflict (mr_nodes r) 0 (length ns) n = None)) as [Hd|Hd];
   [destruct (decide (length ns < GUARDIAN_MULTINODE_MAX_NODES)%nat) as [Hl|Hl]|]|].
  { rewrite (rh_nodes _ _ H) in Hd. apply (registration_conflict_none n ns []) in Hd.
    destruct (register_node_appends r ns n) as (r' & -> & Hr'); by auto. }
  all: left; destruct (register_node_refuses r ns n H) as (e & -> & _); [|done].
  all: intros (? & Hd' & ?); try done.
  apply Hd. rewrite (rh_nodes _ _ H). by apply (registration_conflict_none n ns []).
Qed.

Lemma register_all_holds ns : registry_holds (register_all ns) (registered (register_all ns)).
Proof.
  unfold register_all.
  enough (Hgen : forall r ms, registry_holds r ms ->
    exists ms', registry_holds (foldl register_step r ns) ms').
  { destruct (Hgen _ _ zero_registry_holds) as [ms' H]. by rewrite (registered_eq _ _ H). }
  induction ns as [|n ns IH]; intros r ms H; cbn; [by eauto|].
  destruct (register_step_holds r ms n H) as [H'|H']; by apply IH in H'.
Qed.

(** ** Who may request actuation *)

(** The answer for an identity, read off the registered nodes. *)
Definition actuation_verdict (ns : list guardian_multinode_node_t) (id : Z)
  : guardian_multinode_result_t * Z :=
  match List.find (fun n => mn_node_id n =? id) ns with
  | None => (GUARDIAN_MULTINODE_ERROR_INVALID_IDENTITY, 0)
  | Some n =>
      if mn_role n =? GUARDIAN_NODE_ROLE_F401_REFERENCE_CONTROL then (GUARDIAN_MULTINODE_OK, 1)
      else (GUARDIAN_MULTINODE_ERROR_NOT_REFERENCE_CONTROL, 0)
  end.

(** The three tests on a legitimate node are one. *)
Lemma legitimate_grant n :
  legitimate n ->
  negb (mn_role n =? GUARDIAN_NODE_ROLE_F401_REFERENCE_CONTROL)
  || negb (mn_authority_class n =? GUARDIAN_AUTHORITY_CLASS_REFERENCE_CONTROL)
  || (Z.land (mn_capabilities n) GUARDIAN_CAP_ACTUATION_GATE =? 0) =
  negb (mn_role n =? GUARDIAN_NODE_ROLE_F401_REFERENCE_CONTROL).
Proof.
  intros H. destruct (Z.eqb_spec (mn_role n) GUARDIAN_NODE_ROLE_F401_REFERENCE_CONTROL) as [E|]; [|done].
  rewrite (lg_authority _ H), (proj2 (expected_authority_reference _ (lg_role _ H)) E), Z.eqb_refl.
  cbn. by apply Z.eqb_neq, gate_iff_reference.
Qed.

Lemma actuation_answer_verdict id ns : Forall legitimate ns -> forall pre post,
  actuation_answer (pre ++ ns ++ post) (length pre) (length ns) id = actuation_verdict ns id.
Proof.
  unfold actuation_verdict. induction 1 as [|m ns Hm _ IH]; intros pre post; [done|].
  cbn [length app actuation_answer List.find]. rewrite multinode_at_app. cbv zeta.
  specialize (IH (pre ++ [m]) post). rewrite length_app, Nat.add_1_r, <- app_assoc in IH. cbn in IH.
  destruct (mn_node_id m =? id); [|done].
  rewrite validate_node_decide, bool_decide_true, legitimate_grant by done. cbn [negb].
  by destruct (mn_role m =? GUARDIAN_NODE_ROLE_F401_REFERENCE_CONTROL).
Qed.

Lemma can_request_actuation_spec r ns id a :
  registry_holds r ns ->
  guardian_multinode_can_request_actuation (Some r) id (Some a) =
  ((actuation_verdict ns id).1, Some (actuation_verdict ns id).2).
Proof.
  intros [Hnodes Hcount _ Hlegit _ _ _]. unfold guardian_multinode_can_request_actuation.
  pose proof (actuation_answer_verdict id ns Hlegit [] (replicate
    (GUARDIAN_MULTINODE_MAX_NODES - length ns) zero_node)) as E. cbn [length app] in E.
  rewrite Hnodes, Hcount, E. destruct (Z.eqb_spec id 0) as [->|]; [|by destruct (actuation_verdict ns id)].
  unfold actuation_verdict.
  destruct (List.find _ ns) as [m|] eqn:Hf; [|done].
  apply find_some in Hf as [Hm Hid]. rewrite List.Forall_forall in Hlegit.
  apply Hlegit, lg_node_id in Hm. lia.
Qed.

Lemma nodup_map_in {B} (f : guardian_multinode_node_t -> B) ns n m :
  NoDup (map f ns) -> In n ns -> In m ns -> f n = f m -> n = m.
Proof.
  induction ns as [|x ns IH]; cbn; [done|]. intros [Hx Hd]%NoDup_cons Hn Hm E.
  assert (Hno : forall y, In y ns -> f y <> f x).
  { intros y Hy E'. apply Hx. rewrite <- E'. by apply list_elem_of_In, in_map. }
  destruct Hn as [->|Hn], Hm as [->|Hm]; [done|by destruct (Hno m)|by destruct (Hno n)|by apply IH].
Qed.

Lemma verdict_grants ns id :
  NoDup (map mn_node_id ns) ->
  actuation_verdict ns id = (GUARDIAN_MULTINODE_OK, 1) <->
  exists n, In n ns /\ mn_node_id n = id /\ mn_role n = GUARDIAN_NODE_ROLE_F401_REFERENCE_CONTROL.
Proof.
  intros Hd. unfold actuation_verdict. split.
  - destruct (List.find _ ns) as [m|] eqn:Hf; [|done]. apply find_some in Hf as [Hm Hid].
    destruct (Z.eqb_spec (mn_role m) GUARDIAN_NODE_ROLE_F401_REFERENCE_CONTROL); [|done].
    intros _. exists m. repeat split; try done. lia.
  - intros (n & Hn & Hid & Hr). destruct (List.find _ ns) as [m|] eqn:Hf.
    + apply find_some in Hf as [Hm Hmid]. replace m with n; [by rewrite Hr|].
      apply (nodup_map_in mn_node_id ns); try done. lia.
    + apply (find_none _ _ Hf) in Hn. lia.
Qed.

Lemma can_request_iff r ns id a :
  registry_holds r ns ->
  guardian_multinode_can_request_actuation (Some r) id (Some a) = (GUARDIAN_MULTINODE_OK, Some 1) <->
  exists n, In n ns /\ mn_node_id n = id /\ mn_role n = GUARDIAN_NODE_ROLE_F401_REFERENCE_CONTROL.
Proof.
  intros H. rewrite (can_request_actuation_spec r ns id a H), <- verdict_grants by apply H.
  destruct (actuation_verdict ns id). cbn. split; congruence.
Qed.

(** C11:whatever was offered to the registry, a node may request actuation exactly
    when it is registered as the F401 reference controller; every other request
    leaves [*allowed] zero, and at most one identity is ever granted. *)
Theorem only_reference_control_actuates offers id a :
  let r := register_all offers in
  let request id := guardian_multinode_can_request_actuation (Some r) id (Some a) in
  (request id = (GUARDIAN_MULTINODE_OK, Some 1) <->
   exists n, In n (registered r) /\ legitimate n /\ mn_node_id n = id /\
             mn_role n = GUARDIAN_NODE_ROLE_F401_REFERENCE_CONTROL) /\
  (fst (request id) <> GUARDIAN_MULTINODE_OK -> snd (request id) = Some 0) /\
  (forall id', request id = (GUARDIAN_MULTINODE_OK, Some 1) ->
               request id' = (GUARDIAN_MULTINODE_OK, Some 1) -> id' = id).
Proof.
  intros r request. pose proof (register_all_holds offers) as H. fold r in H. unfold request.
  pose proof (rh_legitimate _ _ H) as Hl. rewrite List.Forall_forall in Hl. split_and!.
  - rewrite (can_request_iff r _ id a H). split; [|by intros (n & ? & _ & ?); exists n].
    intros (n & Hn & ?). exists n. by auto.
  - rewrite (can_request_actuation_spec r _ id a H). unfold actuation_verdict. by repeat case_match.
  - intros id' (n & Hn & <- & Hr)%(can_request_iff r _ id a H)
      (m & Hm & <- & Hr')%(can_request_iff r _ id' a H).
    f_equal. apply (nodup_map_in mn_role (registered r)); try done; [apply H|congruence].
Qed.

(** ** The complete topology *)

Definition role_bits (acc : Z) (ns : list guardian_multinode_node_t) : Z :=
  foldl (fun acc n => Z.lor acc (u32 (Z.shiftl 1 (mn_role n)))) acc ns.

Lemma topology_roles_bits ns : Forall legitimate ns -> forall pre post acc,
  topology_roles (pre ++ ns ++ post) (length pre) (length ns) acc = inr (role_bits acc ns).
Proof.
  induction 1 as [|m ns Hm _ IH]; intros pre post acc; [done|].
  cbn [length app topology_roles]. rewrite multinode_at_app. cbv zeta.
  rewrite validate_node_decide, bool_decide_true by done. cbn [negb].
  specialize (IH (pre ++ [m]) post). rewrite length_app, Nat.add_1_r, <- app_assoc in IH. cbn in IH.
  apply IH.
Qed.

Lemma role_bit role k : 1 <= role <= 5 -> 0 <= k ->
  Z.testbit (u32 (Z.shiftl 1 role)) k = (role =? k).
Proof.
  intros Hr Hk. assert (E : u32 (Z.shiftl 1 role) = 2 ^ role).
  { destruct (role_cases role Hr) as [-> | [-> | [-> | [-> | ->]]]]; done. }
  rewrite E. destruct (Z.eqb_spec role k) as [->|]; [apply Z.pow2_bits_true; lia|].
  apply Z.pow2_bits_false. lia.
Qed.

Lemma role_bits_testbit ns k : Forall legitimate ns -> 0 <= k -> forall acc,
  Z.testbit (role_bits acc ns) k = Z.testbit acc k || existsb (fun n => mn_role n =? k) ns.
Proof.
  intros H Hk. induction H as [|m ns Hm _ IH]; intros acc; cbn; [by rewrite orb_false_r|].
  by rewrite IH, Z.lor_spec, role_bit, orb_assoc by (try apply (lg_role m Hm); done).
Qed.

Lemma expected_roles_testbit k : 0 <= k ->
  Z.testbit expected_roles k = (1 <=? k) && (k <=? 5).
Proof.
  intros Hk. unfold expected_roles. rewrite !Z.lor_spec, !role_bit by (cbv; done || lia).
  cbv -[Z.leb Z.eqb orb andb]. lia.
Qed.

(** Every role is held by some node of [ns]. *)
Definition every_role (ns : list guardian_multinode_node_t) : Prop :=
  forall role, 1 <= role <= 5 -> exists n, In n ns /\ mn_role n = role.

Lemma role_bits_complete ns :
  Forall legitimate ns -> role_bits 0 ns = expected_roles <-> every_role ns.
Proof.
  intros H. split.
  - intros E role Hr. apply (f_equal (fun z => Z.testbit z role)) in E.
    rewrite role_bits_testbit, expected_roles_testbit, Z.bits_0 in E by (done || lia).
    cbn in E. replace ((1 <=? role) && (role <=? 5)) with true in E by lia.
    apply existsb_exists in E as (n & ? & ?). exists n. split; [done|lia].
  - intros Hall. apply Z.bits_inj'. intros k Hk.
    rewrite role_bits_testbit, expected_roles_testbit, Z.bits_0 by done. cbn.
    rewrite List.Forall_forall in H. apply eq_true_iff_eq. rewrite existsb_exists. split.
    + intros (n & Hn & E). pose proof (lg_role n (H n Hn)). lia.
    + intros E. destruct (Hall k) as (n & Hn & <-); [lia|]. exists n. by rewrite Z.eqb_refl.
Qed.

(** Roles are five: pairwise distinct roles of five nodes are all of them, and
    nodes with all of them are at least five. *)
Lemma roles_in_range ns : Forall legitimate ns -> incl (map mn_role ns) [1; 2; 3; 4; 5].
Proof.
  intros H x (n & <- & Hn)%in_map_iff. rewrite List.Forall_forall in H.
  pose proof (lg_role n (H n Hn)). cbn. lia.
Qed.

Lemma five_roles ns :
  Forall legitimate ns -> NoDup (map mn_role ns) -> length ns = GUARDIAN_MULTINODE_MAX_NODES ->
  every_role ns.
Proof.
  intros Hl Hd Hlen role Hr.
  assert (Hi : incl [1; 2; 3; 4; 5] (map mn_role ns)).
  { apply NoDup_length_incl; [by apply NoDup_ListNoDup|by rewrite length_map, Hlen|by apply roles_in_range]. }
  destruct (proj1 (in_map_iff mn_role ns role)) as (n & E & Hn); [|by eauto].
  apply Hi. cbn. lia.
Qed.

Lemma every_role_five ns : every_role ns -> (GUARDIAN_MULTINODE_MAX_NODES <= length ns)%nat.
Proof.
  intros H. rewrite <- (length_map mn_role ns). change GUARDIAN_MULTINODE_MAX_NODES
    with (length [1; 2; 3; 4; 5]). apply NoDup_incl_length.
  - repeat constructor; cbn; lia.
  - intros x Hx. apply in_map_iff. destruct (H x) as (n & ? & ?); [cbn in Hx; lia|by eauto].
Qed.

Lemma complete_topology_spec r ns :
  registry_holds r ns ->
  guardian_multinode_validate_complete_topology (Some r) =
  if (length ns =? GUARDIAN_MULTINODE_MAX_NODES)%nat then GUARDIAN_MULTINODE_OK
  else GUARDIAN_MULTINODE_ERROR_TOPOLOGY_INCOMPLETE.
Proof.
  intros [Hnodes Hcount _ Hlegit _ _ Hroles].
  unfold guardian_multinode_validate_complete_topology. rewrite Hcount.
  destruct (Nat.eqb_spec (length ns) GUARDIAN_MULTINODE_MAX_NODES) as [E|]; [|done]. cbn [negb].
  pose proof (topology_roles_bits ns Hlegit [] (replicate
    (GUARDIAN_MULTINODE_MAX_NODES - length ns) zero_node) 0) as Hb. cbn [length app] in Hb.
  rewrite Hnodes, Hb. rewrite (proj2 (role_bits_complete ns Hlegit)), Z.eqb_refl; [done|].
  by apply five_roles.
Qed.

(** C12:after any offers, the topology is complete exactly when every one of the
    five roles is held by a registered node; then exactly one identity may request
    actuation. *)
Theorem complete_topology_iff_every_role offers :
  let r := register_all offers in
  (guardian_multinode_validate_complete_topology (Some r) = GUARDIAN_MULTINODE_OK <->
   every_role (registered r)) /\
  (guardian_multinode_validate_complete_topology (Some r) = GUARDIAN_MULTINODE_OK ->
   exists! id, guardian_multinode_can_request_actuation (Some r) id (Some 0) =
               (GUARDIAN_MULTINODE_OK, Some 1)).
Proof.
  intros r. pose proof (register_all_holds offers) as H. fold r in H.
  assert (Hiff : guardian_multinode_validate_complete_topology (Some r) = GUARDIAN_MULTINODE_OK <->
                 every_role (registered r)).
  { rewrite (complete_topology_spec r _ H). pose proof (rh_bound _ _ H).
    destruct (Nat.eqb_spec (length (registered r)) GUARDIAN_MULTINODE_MAX_NODES) as [E|E]; split; try done.
    - intros _. by apply five_roles; try apply H.
    - intros Hall%every_role_five. lia. }
  split; [done|]. intros Hok%Hiff.
  destruct (Hok GUARDIAN_NODE_ROLE_F401_REFERENCE_CONTROL) as (n & Hn & Hr); [done|].
  assert (Hreq : guardian_multinode_can_request_actuation (Some r) (mn_node_id n) (Some 0) =
                 (GUARDIAN_MULTINODE_OK, Some 1)) by (apply (can_request_iff r _ _ _ H); eauto).
  exists (mn_node_id n). split; [done|]. intros id' (m & Hm & <- & Hr')%(can_request_iff r _ id' _ H).
  f_equal. apply (nodup_map_in mn_role (registered r)); try done; [apply H|congruence].
Qed.

(** ** Registration of a complete system *)

(** The results of registering [ns] one after the other. *)
Fixpoint register_results (r : guardian_multinode_registry_t) (ns : list guardian_multinode_node_t)
  : list guardian_multinode_result_t :=
  match ns with
  | [] => []
  | n :: ns =>
      fst (guardian_multinode_register_node (Some r) (Some n)) :: register_results (register_step r n) ns
  end.

(** Nodes that a system may consist of. *)
Record consistent (ns : list guardian_multinode_node_t) : Prop := {
  cs_legitimate : Forall legitimate ns;
  cs_node_ids : NoDup (map mn_node_id ns);
  cs_producer_ids : NoDup (map mn_producer_id ns);
  cs_roles : NoDup (map mn_role ns)
}.

Lemma nodup_map_app {B} (f : guardian_multinode_node_t -> B) ms n ns :
  NoDup (map f (ms ++ n :: ns)) -> Forall (fun m => f m <> f n) ms.
Proof.
  rewrite map_app. cbn. intros (_ & Hno & _)%NoDup_app. apply List.Forall_forall.
  intros m Hm E. apply (Hno (f n)); [|constructor]. rewrite <- E. by apply list_elem_of_In, in_map.
Qed.

Lemma consistent_next ms n ns :
  consistent (ms ++ n :: ns) -> legitimate n /\ Forall (distinct_from n) ms.
Proof.
  intros []. rewrite Forall_app, Forall_cons in cs_legitimate0. split; [tauto|].
  unfold distinct_from. rewrite !Forall_and. by repeat split; apply (nodup_map_app _ _ _ ns).
Qed.

Lemma register_consistent ns : forall r ms,
  registry_holds r ms -> consistent (ms ++ ns) ->
  (length (ms ++ ns) <= GUARDIAN_MULTINODE_MAX_NODES)%nat ->
  register_results r ns = replicate (length ns) GUARDIAN_MULTINODE_OK /\
  registry_holds (foldl register_step r ns) (ms ++ ns).
Proof.
  induction ns as [|n ns IH]; intros r ms H Hc Hlen; [by rewrite app_nil_r|].
  destruct (consistent_next ms n ns Hc) as [Hn Hd].
  destruct (register_node_appends r ms n H Hn Hd) as (r' & E & Hr').
  { rewrite length_app in Hlen. cbn in Hlen. lia. }
  cbn [register_results foldl length replicate]. rewrite E. cbn [fst].
  specialize (IH r' (ms ++ [n])). rewrite <- app_assoc in IH. cbn [app] in IH.
  destruct (IH Hr' Hc Hlen) as [IHr IHh].
  replace (register_step r n) with r' by (unfold register_step; by rewrite E).
  by rewrite IHr.
Qed.

(** any five nodes that are legitimate and share no identity, producer or role
    are all accepted, in whatever order they register, and the topology is then
    complete. *)
Theorem five_nodes_complete_topology ns (Hc : consistent ns)
    (Hlen : length ns = GUARDIAN_MULTINODE_MAX_NODES) :
  register_results zero_multinode_registry ns = replicate GUARDIAN_MULTINODE_MAX_NODES GUARDIAN_MULTINODE_OK /\
  guardian_multinode_validate_complete_topology (Some (register_all ns)) = GUARDIAN_MULTINODE_OK.
Proof.
  destruct (register_consistent ns zero_multinode_registry []) as [Hr Hh]; [apply zero_registry_holds|done|cbn; lia|].
  rewrite Hr, Hlen. split; [done|]. unfold register_all.
  rewrite (complete_topology_spec _ _ Hh). cbn [app]. by rewrite Hlen.
Qed.

(** ** Examples *)

(** The nodes of the reference system. *)
Definition example_f401 : guardian_multinode_node_t := MULTINODE_NODE 1 101 201 1 3 0x61.
Definition example_mcxn947 : guardian_multinode_node_t := MULTINODE_NODE 2 102 202 2 1 0x8F.
Definition example_measurement : guardian_multinode_node_t := MULTINODE_NODE 3 103 203 3 1 0x101.
Definition example_witness : guardian_multinode_node_t := MULTINODE_NODE 4 104 204 4 2 0x85.
Definition example_compute : guardian_multinode_node_t := MULTINODE_NODE 5 105 205 5 1 0x11.

Definition example_system : list guardian_multinode_node_t :=
  [example_compute; example_f401; example_witness; example_mcxn947; example_measurement].

Lemma example_system_consistent : consistent example_system.
Proof.
  split; [|apply (bool_decide_unpack _); vm_compute; done..].
  repeat constructor; apply validate_node_ok; vm_compute; done.
Qed.

Lemma five_nodes_complete_topology_witness :
  length example_system = 5%nat /\
  guardian_multinode_validate_complete_topology (Some (register_all example_system)) =
  GUARDIAN_MULTINODE_OK.
Proof.
  split; [reflexivity|].
  apply (five_nodes_complete_topology example_system example_system_consistent). reflexivity.
Defined.
