(* ===== verification/Supervisor.v ===== *)
(** * The supervisory peer

    Model of MultiNode/Src/guardian_mcxn947_supervisor.c: the heartbeat monitor of
    the supervisory node. Theorems: the state after any sequence of heartbeats and
    missed heartbeats is a function of the accepted heartbeats and of the silence
    since the last one; nothing the supervisor does grants actuation. *)

From S2P Require Import Prelude MultiNode.
From Stdlib Require Import Sorted.

(** ** Data *)

Inductive guardian_mcxn947_state_t :=
  | GUARDIAN_MCXN947_STATE_BOOTSTRAP
  | GUARDIAN_MCXN947_STATE_MONITORING
  | GUARDIAN_MCXN947_STATE_DEGRADED
  | GUARDIAN_MCXN947_STATE_SAFE_HOLD.

#[global] Instance guardian_mcxn947_state_eq_dec : EqDecision guardian_mcxn947_state_t.
Proof. solve_decision. Defined.

Inductive guardian_mcxn947_result_t :=
  | GUARDIAN_MCXN947_OK
  | GUARDIAN_MCXN947_ERROR_NULL_ARGUMENT
  | GUARDIAN_MCXN947_ERROR_INVALID_CONFIG
  | GUARDIAN_MCXN947_ERROR_INVALID_NODE
  | GUARDIAN_MCXN947_ERROR_NOT_AUTHENTICATED
  | GUARDIAN_MCXN947_ERROR_NOT_FRESH
  | GUARDIAN_MCXN947_ERROR_SEMANTICALLY_INCOMPATIBLE
  | GUARDIAN_MCXN947_ERROR_REPLAY_OR_REGRESSION
  | GUARDIAN_MCXN947_ERROR_ACTUATION_PROHIBITED
  | GUARDIAN_MCXN947_ERROR_INVALID_HEARTBEAT.

#[global] Instance guardian_mcxn947_result_eq_dec : EqDecision guardian_mcxn947_result_t.
Proof. solve_decision. Defined.

Record guardian_mcxn947_heartbeat_t := HEARTBEAT {
  hb_sequence : Z; hb_epoch : Z;
  hb_authenticated : Z; hb_fresh : Z; hb_semantically_compatible : Z;
  hb_peer_healthy : Z; hb_disagreement : Z
}.

Record guardian_mcxn947_recovery_request_t := RECOVERY_REQUEST {
  rq_requesting_node_id : Z; rq_observed_epoch : Z; rq_observed_sequence : Z;
  rq_requested : Z; rq_actuation_authorized : Z
}.

Record guardian_mcxn947_supervisor_t := SUPERVISOR {
  sv_self : guardian_multinode_node_t;
  sv_state : guardian_mcxn947_state_t;
  sv_accepted_epoch : Z; sv_accepted_sequence : Z;
  sv_missed_heartbeats : Z; sv_missed_heartbeat_limit : Z;
  sv_heartbeat_initialized : Z;
  sv_recovery_requested : Z
}.

Definition zero_supervisor : guardian_mcxn947_supervisor_t :=
  SUPERVISOR zero_node GUARDIAN_MCXN947_STATE_BOOTSTRAP 0 0 0 0 0 0.

(** ** Operations *)

Definition guardian_mcxn947_supervisor_init (supervisor : option guardian_mcxn947_supervisor_t)
  : option guardian_mcxn947_supervisor_t :=
  match supervisor with None => None | Some _ => Some zero_supervisor end.

Definition guardian_mcxn947_supervisor_configure (supervisor : option guardian_mcxn947_supervisor_t)
    (self : option guardian_multinode_node_t) (missed_heartbeat_limit : Z)
  : guardian_mcxn947_result_t * option guardian_mcxn947_supervisor_t :=
  match supervisor, self with
  | Some _, Some self =>
      early missed_heartbeat_limit =? 0 with (GUARDIAN_MCXN947_ERROR_INVALID_CONFIG, supervisor) ;;
      early negb (bool_decide (guardian_multinode_validate_node (Some self) = GUARDIAN_MULTINODE_OK))
        with (GUARDIAN_MCXN947_ERROR_INVALID_NODE, supervisor) ;;
      early negb (mn_role self =? GUARDIAN_NODE_ROLE_MCXN947_SUPERVISORY_PEER)
        with (GUARDIAN_MCXN947_ERROR_INVALID_NODE, supervisor) ;;
      early negb (mn_authority_class self =? GUARDIAN_AUTHORITY_CLASS_OBSERVE)
        with (GUARDIAN_MCXN947_ERROR_INVALID_NODE, supervisor) ;;
      early Z.land (mn_capabilities self) GUARDIAN_CAP_SUPERVISION =? 0
        with (GUARDIAN_MCXN947_ERROR_INVALID_NODE, supervisor) ;;
      early Z.land (mn_capabilities self) GUARDIAN_CAP_RECOVERY_ASSIST =? 0
        with (GUARDIAN_MCXN947_ERROR_INVALID_NODE, supervisor) ;;
      early negb (Z.land (mn_capabilities self) GUARDIAN_CAP_ACTUATION_GATE =? 0)
        with (GUARDIAN_MCXN947_ERROR_INVALID_NODE, supervisor) ;;
      (GUARDIAN_MCXN947_OK,
       Some (SUPERVISOR self (sv_state zero_supervisor) (sv_accepted_epoch zero_supervisor)
               (sv_accepted_sequence zero_supervisor) (sv_missed_heartbeats zero_supervisor)
               missed_heartbeat_limit (sv_heartbeat_initialized zero_supervisor)
               (sv_recovery_requested zero_supervisor)))
  | _, _ => (GUARDIAN_MCXN947_ERROR_NULL_ARGUMENT, supervisor)
  end.

Definition guardian_mcxn947_supervisor_accept_heartbeat
    (supervisor : option guardian_mcxn947_supervisor_t) (heartbeat : option guardian_mcxn947_heartbeat_t)
  : guardian_mcxn947_result_t * option guardian_mcxn947_supervisor_t :=
  match supervisor, heartbeat with
  | Some s, Some h =>
      early sv_missed_heartbeat_limit s =? 0 with (GUARDIAN_MCXN947_ERROR_INVALID_CONFIG, supervisor) ;;
      early (1 <? hb_peer_healthy h) || (1 <? hb_disagreement h)
        with (GUARDIAN_MCXN947_ERROR_INVALID_HEARTBEAT, supervisor) ;;
      early negb (hb_authenticated h =? 1) with (GUARDIAN_MCXN947_ERROR_NOT_AUTHENTICATED, supervisor) ;;
      early negb (hb_fresh h =? 1) with (GUARDIAN_MCXN947_ERROR_NOT_FRESH, supervisor) ;;
      early negb (hb_semantically_compatible h =? 1)
        with (GUARDIAN_MCXN947_ERROR_SEMANTICALLY_INCOMPATIBLE, supervisor) ;;
      early (hb_epoch h =? 0) || (hb_sequence h =? 0)
        with (GUARDIAN_MCXN947_ERROR_REPLAY_OR_REGRESSION, supervisor) ;;
      early negb (sv_heartbeat_initialized s =? 0) && (hb_epoch h <? sv_accepted_epoch s)
        with (GUARDIAN_MCXN947_ERROR_REPLAY_OR_REGRESSION, supervisor) ;;
      early negb (sv_heartbeat_initialized s =? 0) && (hb_epoch h =? sv_accepted_epoch s)
            && (hb_sequence h <=? sv_accepted_sequence s)
        with (GUARDIAN_MCXN947_ERROR_REPLAY_OR_REGRESSION, supervisor) ;;
      (GUARDIAN_MCXN947_OK,
       Some (SUPERVISOR (sv_self s)
               (if negb (hb_peer_healthy h =? 1) || (hb_disagreement h =? 1)
                then GUARDIAN_MCXN947_STATE_DEGRADED else GUARDIAN_MCXN947_STATE_MONITORING)
               (hb_epoch h) (hb_sequence h) 0 (sv_missed_heartbeat_limit s) 1 0))
  | _, _ => (GUARDIAN_MCXN947_ERROR_NULL_ARGUMENT, supervisor)
  end.

Definition guardian_mcxn947_supervisor_note_missed_heartbeat
    (supervisor : option guardian_mcxn947_supervisor_t)
  : guardian_mcxn947_result_t * option guardian_mcxn947_supervisor_t :=
  match supervisor with
  | None => (GUARDIAN_MCXN947_ERROR_NULL_ARGUMENT, None)
  | Some s =>
      early sv_missed_heartbeat_limit s =? 0 with (GUARDIAN_MCXN947_ERROR_INVALID_CONFIG, supervisor) ;;
      let missed :=
        if sv_missed_heartbeats s <? UINT32_MAX then u32 (sv_missed_heartbeats s + 1)
        else sv_missed_heartbeats s in
      let '(state, recovery) :=
        if sv_missed_heartbeat_limit s <=? missed then (GUARDIAN_MCXN947_STATE_SAFE_HOLD, 1)
        else if bool_decide (sv_state s = GUARDIAN_MCXN947_STATE_MONITORING)
             then (GUARDIAN_MCXN947_STATE_DEGRADED, sv_recovery_requested s)
             else (sv_state s, sv_recovery_requested s) in
      (GUARDIAN_MCXN947_OK,
       Some (SUPERVISOR (sv_self s) state (sv_accepted_epoch s) (sv_accepted_sequence s) missed
               (sv_missed_heartbeat_limit s) (sv_heartbeat_initialized s) recovery))
  end.

Definition guardian_mcxn947_supervisor_build_recovery_request
    (supervisor : option guardian_mcxn947_supervisor_t)
    (request : option guardian_mcxn947_recovery_request_t)
  : guardian_mcxn947_result_t * option guardian_mcxn947_recovery_request_t :=
  match supervisor, request with
  | Some s, Some _ =>
      (GUARDIAN_MCXN947_OK,
       Some (RECOVERY_REQUEST (mn_node_id (sv_self s)) (sv_accepted_epoch s) (sv_accepted_sequence s)
               (sv_recovery_requested s) 0))
  | _, _ => (GUARDIAN_MCXN947_ERROR_NULL_ARGUMENT, request)
  end.

Definition guardian_mcxn947_supervisor_can_actuate
    (supervisor : option guardian_mcxn947_supervisor_t) (allowed : option Z)
  : guardian_mcxn947_result_t * option Z :=
  match supervisor, allowed with
  | Some _, Some _ => (GUARDIAN_MCXN947_ERROR_ACTUATION_PROHIBITED, Some 0)
  | _, _ => (GUARDIAN_MCXN947_ERROR_NULL_ARGUMENT, allowed)
  end.

(** ** Runs *)

Inductive supervisor_event :=
  | Heartbeat (h : guardian_mcxn947_heartbeat_t)
  | Missed.

Definition supervisor_step (s : guardian_mcxn947_supervisor_t) (e : supervisor_event)
  : guardian_mcxn947_result_t * guardian_mcxn947_supervisor_t :=
  let '(r, o) :=
    match e with
    | Heartbeat h => guardian_mcxn947_supervisor_accept_heartbeat (Some s) (Some h)
    | Missed => guardian_mcxn947_supervisor_note_missed_heartbeat (Some s)
    end in
  (r, default s o).

Definition supervisor_run (s : guardian_mcxn947_supervisor_t) (es : list supervisor_event)
  : guardian_mcxn947_supervisor_t := foldl (fun s e => snd (supervisor_step s e)) s es.

(** The abstract view of a run: the accepted heartbeats, newest first, and the
    number of missed ones since. *)
Record watch := WATCH { wt_accepted : list guardian_mcxn947_heartbeat_t; wt_silence : Z }.

Definition position_before (h1 h2 : guardian_mcxn947_heartbeat_t) : Prop :=
  hb_epoch h1 < hb_epoch h2 \/ hb_epoch h1 = hb_epoch h2 /\ hb_sequence h1 < hb_sequence h2.

#[global] Instance position_before_dec h1 h2 : Decision (position_before h1 h2).
Proof. unfold position_before. apply _. Defined.

(** A heartbeat that its lower layers vouch for, with canonical flags. *)
Definition vouched (h : guardian_mcxn947_heartbeat_t) : Prop :=
  hb_peer_healthy h <= 1 /\ hb_disagreement h <= 1 /\
  hb_authenticated h = 1 /\ hb_fresh h = 1 /\ hb_semantically_compatible h = 1 /\
  hb_epoch h <> 0 /\ hb_sequence h <> 0.

#[global] Instance vouched_dec h : Decision (vouched h).
Proof. unfold vouched. apply _. Defined.

Definition acceptable (w : watch) (h : guardian_mcxn947_heartbeat_t) : Prop :=
  vouched h /\ match wt_accepted w with [] => True | last :: _ => position_before last h end.

#[global] Instance acceptable_dec w h : Decision (acceptable w h).
Proof. unfold acceptable. destruct (wt_accepted w); apply _. Defined.

Definition watch_step (w : watch) (e : supervisor_event) : watch :=
  match e with
  | Heartbeat h => if decide (acceptable w h) then WATCH (h :: wt_accepted w) 0 else w
  | Missed => WATCH (wt_accepted w) (wt_silence w + 1)
  end.

Definition watch_run (es : list supervisor_event) : watch := foldl watch_step (WATCH [] 0) es.

(** The state that a watch stands for. *)
Definition agreeing (h : guardian_mcxn947_heartbeat_t) : bool :=
  (hb_peer_healthy h =? 1) && negb (hb_disagreement h =? 1).

Definition watch_state (limit : Z) (w : watch) : guardian_mcxn947_state_t :=
  if limit <=? wt_silence w then GUARDIAN_MCXN947_STATE_SAFE_HOLD
  else match wt_accepted w with
       | [] => GUARDIAN_MCXN947_STATE_BOOTSTRAP
       | h :: _ => if (wt_silence w =? 0) && agreeing h then GUARDIAN_MCXN947_STATE_MONITORING
                   else GUARDIAN_MCXN947_STATE_DEGRADED
       end.

Definition watch_supervisor (self : guardian_multinode_node_t) (limit : Z) (w : watch)
  : guardian_mcxn947_supervisor_t :=
  SUPERVISOR self (watch_state limit w)
    (match wt_accepted w with [] => 0 | h :: _ => hb_epoch h end)
    (match wt_accepted w with [] => 0 | h :: _ => hb_sequence h end)
    (Z.min UINT32_MAX (wt_silence w)) limit
    (match wt_accepted w with [] => 0 | _ => 1 end)
    (if limit <=? wt_silence w then 1 else 0).

Definition limit_ok (limit : Z) : Prop := 0 < limit <= UINT32_MAX.

(** The guards of the code are [acceptable]. *)
Definition heartbeat_refused (s : guardian_mcxn947_supervisor_t) (h : guardian_mcxn947_heartbeat_t)
  : bool :=
  (1 <? hb_peer_healthy h) || (1 <? hb_disagreement h) || negb (hb_authenticated h =? 1)
  || negb (hb_fresh h =? 1) || negb (hb_semantically_compatible h =? 1)
  || (hb_epoch h =? 0) || (hb_sequence h =? 0)
  || (negb (sv_heartbeat_initialized s =? 0)
      && ((hb_epoch h <? sv_accepted_epoch s)
          || (hb_epoch h =? sv_accepted_epoch s) && (hb_sequence h <=? sv_accepted_sequence s))).

Lemma refused_acceptable self limit w h :
  heartbeat_refused (watch_supervisor self limit w) h = false <-> acceptable w h.
Proof.
  unfold heartbeat_refused, acceptable, vouched, position_before.
  destruct w as [[|last accepted] silence]; cbn; lia.
Qed.

Lemma accept_heartbeat_cases s h :
  sv_missed_heartbeat_limit s <> 0 ->
  if heartbeat_refused s h
  then exists e, supervisor_step s (Heartbeat h) = (e, s) /\ e <> GUARDIAN_MCXN947_OK
  else supervisor_step s (Heartbeat h) =
       (GUARDIAN_MCXN947_OK,
        SUPERVISOR (sv_self s)
          (if agreeing h then GUARDIAN_MCXN947_STATE_MONITORING else GUARDIAN_MCXN947_STATE_DEGRADED)
          (hb_epoch h) (hb_sequence h) 0 (sv_missed_heartbeat_limit s) 1 0).
Proof.
  intros Hl. unfold heartbeat_refused, agreeing, supervisor_step,
    guardian_mcxn947_supervisor_accept_heartbeat.
  rewrite (proj2 (Z.eqb_neq _ _) Hl).
  destruct (1 <? hb_peer_healthy h), (1 <? hb_disagreement h); cbn [orb]; try by eauto.
  destruct (hb_authenticated h =? 1); cbn [orb negb]; [|by eauto].
  destruct (hb_fresh h =? 1); cbn [orb negb]; [|by eauto].
  destruct (hb_semantically_compatible h =? 1); cbn [orb negb]; [|by eauto].
  destruct (hb_epoch h =? 0), (hb_sequence h =? 0); cbn [orb]; try by eauto.
  destruct (sv_heartbeat_initialized s =? 0); cbn [orb negb andb];
    [|destruct (hb_epoch h <? sv_accepted_epoch s); cbn [orb andb]; [by eauto|];
      destruct (hb_epoch h =? sv_accepted_epoch s); cbn [orb andb];
      [destruct (hb_sequence h <=? sv_accepted_sequence s); cbn [orb andb]; [by eauto|]|]].
  all: by destruct (hb_peer_healthy h =? 1), (hb_disagreement h =? 1).
Qed.

Lemma watch_state_accepted limit h hs :
  0 < limit ->
  watch_state limit (WATCH (h :: hs) 0) =
  if agreeing h then GUARDIAN_MCXN947_STATE_MONITORING else GUARDIAN_MCXN947_STATE_DEGRADED.
Proof. intros. unfold watch_state. cbn. by rewrite (proj2 (Z.leb_gt _ _)). Qed.

Lemma heartbeat_watch self limit w h :
  limit_ok limit ->
  snd (supervisor_step (watch_supervisor self limit w) (Heartbeat h)) =
  watch_supervisor self limit (watch_step w (Heartbeat h)) /\
  (fst (supervisor_step (watch_supervisor self limit w) (Heartbeat h)) = GUARDIAN_MCXN947_OK <->
   acceptable w h).
Proof.
  intros [Hl0 Hl1].
  pose proof (accept_heartbeat_cases (watch_supervisor self limit w) h) as H.
  pose proof (refused_acceptable self limit w h) as Hr. cbn [watch_step].
  destruct (heartbeat_refused _ h).
  - destruct H as (e & -> & He); [cbn; lia|]. cbn [fst snd].
    rewrite decide_False by (intros Ha%Hr; done). split; [done|]. split; [done|].
    by intros Ha%Hr.
  - rewrite H by (cbn; lia). rewrite decide_True by (by apply Hr). cbn [fst snd].
    split; [|split; [by intros _; apply Hr|done]].
    unfold watch_supervisor. cbn [wt_accepted wt_silence sv_self sv_missed_heartbeat_limit].
    rewrite watch_state_accepted, (proj2 (Z.leb_gt _ _)) by done. done.
Qed.

Lemma missed_watch self limit w :
  limit_ok limit -> 0 <= wt_silence w ->
  supervisor_step (watch_supervisor self limit w) Missed =
  (GUARDIAN_MCXN947_OK, watch_supervisor self limit (watch_step w Missed)).
Proof.
  intros [Hl0 Hl1] Hw. destruct w as [hs k]. cbn [wt_silence] in Hw.
  unfold watch_supervisor, supervisor_step, guardian_mcxn947_supervisor_note_missed_heartbeat.
  cbn [watch_step sv_missed_heartbeat_limit sv_missed_heartbeats sv_state
    sv_recovery_requested sv_self sv_accepted_epoch sv_accepted_sequence sv_heartbeat_initialized
    wt_accepted wt_silence].
  rewrite (proj2 (Z.eqb_neq _ _)) by lia.
  set (missed := if Z.min UINT32_MAX k <? UINT32_MAX then _ else _).
  assert (Em : missed = Z.min UINT32_MAX (k + 1)).
  { unfold missed, u32, UINT32_MAX in *. destruct (Z.ltb_spec (Z.min 4294967295 k) 4294967295); [|lia].
    rewrite Z.mod_small; lia. }
  rewrite Em. unfold watch_state. cbn [wt_accepted wt_silence].
  replace (limit <=? Z.min UINT32_MAX (k + 1)) with (limit <=? k + 1) by lia.
  destruct (Z.leb_spec limit (k + 1)); [done|].
  rewrite !(proj2 (Z.leb_gt limit k)) by lia. destruct hs as [|h hs]; [done|].
  replace (k + 1 =? 0) with false by lia. cbn [andb].
  by destruct ((k =? 0) && agreeing h).
Qed.

Lemma watch_silence_nonneg es : 0 <= wt_silence (watch_run es).
Proof.
  unfold watch_run. enough (H : forall w, 0 <= wt_silence w -> 0 <= wt_silence (foldl watch_step w es))
    by (apply H; cbn; lia).
  induction es as [|[h|] es IH]; intros w Hw; cbn; [done|..]; apply IH; [|cbn; lia].
  by destruct (decide (acceptable w h)).
Qed.

Lemma watch_run_snoc es e : watch_run (es ++ [e]) = watch_step (watch_run es) e.
Proof. unfold watch_run. by rewrite foldl_app. Qed.

Lemma supervisor_run_watch self limit es :
  limit_ok limit ->
  supervisor_run (watch_supervisor self limit (WATCH [] 0)) es =
  watch_supervisor self limit (watch_run es).
Proof.
  intros Hl. induction es as [|e es IH] using rev_ind; [done|].
  unfold supervisor_run in *. rewrite foldl_app, IH, watch_run_snoc. cbn [foldl]. destruct e as [h|].
  - by apply heartbeat_watch.
  - by rewrite missed_watch by (done || apply watch_silence_nonneg).
Qed.

(** Accepted heartbeats advance. *)
Definition advancing (hs : list guardian_mcxn947_heartbeat_t) : Prop :=
  StronglySorted (fun h1 h2 => position_before h2 h1) hs /\ Forall vouched hs.

Lemma watch_run_advancing es : advancing (wt_accepted (watch_run es)).
Proof.
  induction es as [|e es [Hs Hv]] using rev_ind; [repeat constructor|].
  rewrite watch_run_snoc. destruct e as [h|]; cbn [watch_step]; [|done].
  destruct (decide (acceptable (watch_run es) h)) as [[Hh Hlast]|]; [|done]. cbn [wt_accepted].
  split; constructor; try done.
  destruct (wt_accepted (watch_run es)) as [|last hs]; constructor; [done|].
  apply StronglySorted_inv in Hs as [_ Hs]. eapply Forall_impl; [done|]. cbn.
  unfold position_before in *. intros x Hx. lia.
Qed.

(** ** Configuration

    Of the tests on [self], those on authority and capabilities are implied by the
    validity of the node and its role. *)

Lemma configure_spec s self limit :
  limit <> 0 ->
  guardian_mcxn947_supervisor_configure (Some s) (Some self) limit =
  if bool_decide (legitimate self) && (mn_role self =? GUARDIAN_NODE_ROLE_MCXN947_SUPERVISORY_PEER)
  then (GUARDIAN_MCXN947_OK, Some (SUPERVISOR self GUARDIAN_MCXN947_STATE_BOOTSTRAP 0 0 0 limit 0 0))
  else (GUARDIAN_MCXN947_ERROR_INVALID_NODE, Some s).
Proof.
  intros Hl. unfold guardian_mcxn947_supervisor_configure.
  rewrite (proj2 (Z.eqb_neq _ _) Hl), validate_node_decide.
  destruct (bool_decide_reflect (legitimate self)) as [Hn|]; [|done]. cbn [negb andb].
  destruct (Z.eqb_spec (mn_role self) GUARDIAN_NODE_ROLE_MCXN947_SUPERVISORY_PEER) as [Er|]; [|done].
  cbn [negb]. rewrite (lg_authority _ Hn), Er. cbn [negb Z.eqb].
  rewrite (required_capability self GUARDIAN_CAP_SUPERVISION) by (done || by rewrite Er).
  rewrite (required_capability self GUARDIAN_CAP_RECOVERY_ASSIST) by (done || by rewrite Er).
  by rewrite (no_gate self) by (done || by rewrite Er).
Qed.

(** A configured supervisor is the one that watches from now on. *)
Lemma configured_watch s self limit s' :
  is_u32 limit ->
  guardian_mcxn947_supervisor_configure (Some s) (Some self) limit = (GUARDIAN_MCXN947_OK, Some s') ->
  limit_ok limit /\ s' = watch_supervisor self limit (WATCH [] 0).
Proof.
  unfold limit_ok, is_u32, UINT32_MAX. intros Hl. destruct (Z.eq_dec limit 0) as [->|Hnz].
  { unfold guardian_mcxn947_supervisor_configure. by intros [=]. }
  rewrite configure_spec by done. case_match; [|done]. intros [= <-]. split; [lia|].
  unfold watch_supervisor, watch_state. cbn [wt_accepted wt_silence].
  by rewrite (proj2 (Z.leb_gt _ _)) by lia.
Qed.

(** ** Correctness *)

(** C13:after any heartbeats and missed heartbeats, the whole state of a configured
    supervisor is determined by the heartbeats it accepted and the silence since the
    last: safe hold and a recovery request exactly at the limit, monitoring only
    right after a healthy and agreeing heartbeat; accepted heartbeats are vouched
    for and strictly advance. *)
Theorem supervisor_state_is_history s0 self limit s es
    (Hl : is_u32 limit)
    (Hc : guardian_mcxn947_supervisor_configure (Some s0) (Some self) limit =
          (GUARDIAN_MCXN947_OK, Some s)) :
  supervisor_run s es = watch_supervisor self limit (watch_run es) /\
  advancing (wt_accepted (watch_run es)) /\
  (forall h, fst (supervisor_step (supervisor_run s es) (Heartbeat h)) = GUARDIAN_MCXN947_OK <->
             acceptable (watch_run es) h).
Proof.
  destruct (configured_watch s0 self limit s Hl Hc) as [Hlim ->].
  rewrite supervisor_run_watch by done.
  split; [done|]. split; [apply watch_run_advancing|]. intros h. by apply heartbeat_watch.
Qed.

Definition missed_in (es : list supervisor_event) : nat :=
  length (List.filter (fun e => match e with Missed => true | _ => false end) es).

(** Nothing in [es] is a heartbeat that a watch would accept. *)
Definition silent (w : watch) (es : list supervisor_event) : Prop :=
  Forall (fun e => match e with Heartbeat h => ~ acceptable w h | Missed => True end) es.

#[global] Instance silent_dec w es : Decision (silent w es).
Proof. apply Forall_dec. intros [h|]; apply _. Defined.

Lemma silent_run w es :
  silent w es -> foldl watch_step w es = WATCH (wt_accepted w) (wt_silence w + Z.of_nat (missed_in es)).
Proof.
  unfold missed_in. revert w. induction es as [|e es IH]; intros [hs k] H.
  { cbn. f_equal. lia. }
  apply Forall_cons in H as [He H]. destruct e as [h|]; cbn [foldl watch_step List.filter].
  - rewrite decide_False by done. by apply IH.
  - rewrite IH by done. cbn [length wt_accepted wt_silence]. f_equal. lia.
Qed.

(** C14:whatever happened before, once the limit of heartbeats is missed and none
    that could be accepted arrives (forged, stale or replayed ones do not count),
    the supervisor is in safe hold and asks for recovery, without any authority to
    actuate; the next vouched, agreeing heartbeat with a later position ends it. *)
Theorem silence_is_held_and_recovered s0 self limit s es es' h
    (Hl : is_u32 limit)
    (Hc : guardian_mcxn947_supervisor_configure (Some s0) (Some self) limit =
          (GUARDIAN_MCXN947_OK, Some s))
    (Hs : silent (watch_run es) es') (Hn : limit <= Z.of_nat (missed_in es'))
    (Hh : acceptable (watch_run es) h) (Ha : agreeing h = true) :
  let s1 := supervisor_run s (es ++ es') in
  let s2 := supervisor_run s (es ++ es' ++ [Heartbeat h]) in
  sv_state s1 = GUARDIAN_MCXN947_STATE_SAFE_HOLD /\
  (forall rq, guardian_mcxn947_supervisor_build_recovery_request (Some s1) (Some rq) =
     (GUARDIAN_MCXN947_OK,
      Some (RECOVERY_REQUEST (mn_node_id self) (sv_accepted_epoch s1) (sv_accepted_sequence s1) 1 0))) /\
  (forall a, guardian_mcxn947_supervisor_can_actuate (Some s1) (Some a) =
     (GUARDIAN_MCXN947_ERROR_ACTUATION_PROHIBITED, Some 0)) /\
  sv_state s2 = GUARDIAN_MCXN947_STATE_MONITORING /\ sv_recovery_requested s2 = 0.
Proof.
  destruct (configured_watch s0 self limit s Hl Hc) as [Hlim ->]. cbv zeta.
  rewrite !supervisor_run_watch by done. unfold watch_run in *. rewrite !foldl_app, !silent_run by done.
  set (w := foldl watch_step _ es) in *. cbn [foldl watch_step].
  pose proof (watch_silence_nonneg es : 0 <= wt_silence w) as Hw.
  rewrite decide_True by done. unfold watch_supervisor. cbn [sv_state sv_recovery_requested].
  rewrite watch_state_accepted, Ha by apply Hlim. unfold watch_state. cbn [wt_accepted wt_silence].
  rewrite (proj2 (Z.leb_le _ _)) by lia. split_and!; try done.
  by rewrite (proj2 (Z.leb_gt _ _)) by apply Hlim.
Qed.

(** ** Examples *)

Definition example_heartbeat (epoch sequence : Z) : guardian_mcxn947_heartbeat_t :=
  HEARTBEAT sequence epoch 1 1 1 1 0.

Definition example_supervisor : guardian_mcxn947_supervisor_t :=
  SUPERVISOR example_mcxn947 GUARDIAN_MCXN947_STATE_BOOTSTRAP 0 0 0 3 0 0.

Lemma supervisor_state_is_history_witness :
  sv_state (supervisor_run example_supervisor [Heartbeat (example_heartbeat 1 5); Missed]) =
    GUARDIAN_MCXN947_STATE_DEGRADED /\
  advancing (wt_accepted (watch_run [Heartbeat (example_heartbeat 1 5); Missed])).
Proof.
  destruct (supervisor_state_is_history zero_supervisor example_mcxn947 3 example_supervisor
              [Heartbeat (example_heartbeat 1 5); Missed]) as (E & H & _).
  - by vm_compute.
  - by vm_compute.
  - split; [|exact H]. rewrite E. by vm_compute.
Defined.

Lemma silence_is_held_and_recovered_witness :
  sv_state (supervisor_run example_supervisor
    ([Heartbeat (example_heartbeat 1 5)] ++ [Missed; Heartbeat (example_heartbeat 1 5); Missed; Missed])) =
    GUARDIAN_MCXN947_STATE_SAFE_HOLD.
Proof.
  apply (silence_is_held_and_recovered zero_supervisor example_mcxn947 3 example_supervisor
           [Heartbeat (example_heartbeat 1 5)]
           [Missed; Heartbeat (example_heartbeat 1 5); Missed; Missed] (example_heartbeat 2 1)).
  - by vm_compute.
  - by vm_compute.
  - apply (bool_decide_unpack _). by vm_compute.
  - by vm_compute.
  - apply (bool_decide_unpack _). by vm_compute.
  - reflexivity.
Defined.
