(* ===== verification/Measurement.v ===== *)
(** * The measurement node

    Model of MultiNode/Src/guardian_st_measurement_node.c: configuration of the
    node, validation and acceptance of samples. Theorem: what a configured node
    publishes and counts over any stream of samples is what the accepted samples of
    the stream determine. Values in thousandths are [int32_t], signal types the
    integers of the C enumeration. *)

From S2P Require Import Prelude MultiNode.
From Stdlib Require Import Sorted.

(** ** Data *)

Definition GUARDIAN_ST_MEASUREMENT_MAX_QUALITY : Z := 100.

Definition GUARDIAN_ST_SIGNAL_INVALID : Z := 0.
Definition GUARDIAN_ST_SIGNAL_VIBRATION_X : Z := 1.
Definition GUARDIAN_ST_SIGNAL_TRANSIENT : Z := 10.

Inductive guardian_st_measurement_result_t :=
  | GUARDIAN_ST_MEASUREMENT_OK
  | GUARDIAN_ST_MEASUREMENT_ERROR_NULL_ARGUMENT
  | GUARDIAN_ST_MEASUREMENT_ERROR_INVALID_NODE
  | GUARDIAN_ST_MEASUREMENT_ERROR_INVALID_POLICY
  | GUARDIAN_ST_MEASUREMENT_ERROR_INVALID_SAMPLE
  | GUARDIAN_ST_MEASUREMENT_ERROR_SEQUENCE_REGRESSION
  | GUARDIAN_ST_MEASUREMENT_ERROR_TIMESTAMP_REGRESSION
  | GUARDIAN_ST_MEASUREMENT_ERROR_OUT_OF_RANGE
  | GUARDIAN_ST_MEASUREMENT_ERROR_SATURATED
  | GUARDIAN_ST_MEASUREMENT_ERROR_QUALITY
  | GUARDIAN_ST_MEASUREMENT_ERROR_UNCERTAINTY
  | GUARDIAN_ST_MEASUREMENT_ERROR_ACTUATION_PROHIBITED.

#[global] Instance guardian_st_measurement_result_eq_dec : EqDecision guardian_st_measurement_result_t.
Proof. solve_decision. Defined.

Record guardian_st_measurement_policy_t := MEASUREMENT_POLICY {
  mp_max_uncertainty_milli : Z; mp_minimum_quality : Z
}.

Record guardian_st_measurement_sample_t := MEASUREMENT_SAMPLE {
  ms_sensor_id : Z; ms_signal_type : Z; ms_sequence : Z; ms_timestamp_us : Z;
  ms_value_milli : Z; ms_valid_min_milli : Z; ms_valid_max_milli : Z;
  ms_uncertainty_milli : Z;
  ms_quality : Z; ms_saturated : Z
}.

Record guardian_st_measurement_observation_t := MEASUREMENT_OBSERVATION {
  mo_producer_node_id : Z; mo_sensor_id : Z; mo_signal_type : Z; mo_sequence : Z;
  mo_timestamp_us : Z; mo_value_milli : Z; mo_uncertainty_milli : Z; mo_quality : Z;
  mo_actuation_authorized : Z
}.

Record guardian_st_measurement_node_t := MEASUREMENT_NODE {
  me_self : guardian_multinode_node_t;
  me_policy : guardian_st_measurement_policy_t;
  me_last_sequence : Z; me_last_timestamp_us : Z;
  me_accepted_samples : Z; me_rejected_samples : Z;
  me_initialized : Z
}.

Definition zero_measurement_node : guardian_st_measurement_node_t :=
  MEASUREMENT_NODE zero_node (MEASUREMENT_POLICY 0 0) 0 0 0 0 0.
Definition zero_observation : guardian_st_measurement_observation_t :=
  MEASUREMENT_OBSERVATION 0 0 0 0 0 0 0 0 0.

(** ** Operations *)

Definition guardian_st_signal_type_valid (signal_type : Z) : bool :=
  (GUARDIAN_ST_SIGNAL_INVALID <? signal_type) && (signal_type <=? GUARDIAN_ST_SIGNAL_TRANSIENT).

Definition guardian_st_measurement_node_init (node : option guardian_st_measurement_node_t)
  : option guardian_st_measurement_node_t :=
  match node with None => None | Some _ => Some zero_measurement_node end.

Definition guardian_st_measurement_node_configure (node : option guardian_st_measurement_node_t)
    (self : option guardian_multinode_node_t) (policy : option guardian_st_measurement_policy_t)
  : guardian_st_measurement_result_t * option guardian_st_measurement_node_t :=
  match node, self, policy with
  | Some _, Some self, Some policy =>
      early negb (bool_decide (guardian_multinode_validate_node (Some self) = GUARDIAN_MULTINODE_OK))
        with (GUARDIAN_ST_MEASUREMENT_ERROR_INVALID_NODE, node) ;;
      early negb (mn_role self =? GUARDIAN_NODE_ROLE_ST_MEASUREMENT_REFERENCE)
        with (GUARDIAN_ST_MEASUREMENT_ERROR_INVALID_NODE, node) ;;
      early negb (mn_authority_class self =? GUARDIAN_AUTHORITY_CLASS_OBSERVE)
        with (GUARDIAN_ST_MEASUREMENT_ERROR_INVALID_NODE, node) ;;
      early Z.land (mn_capabilities self) GUARDIAN_CAP_SENSOR_ACQUISITION =? 0
        with (GUARDIAN_ST_MEASUREMENT_ERROR_INVALID_NODE, node) ;;
      early negb (Z.land (mn_capabilities self) GUARDIAN_CAP_ACTUATION_GATE =? 0)
        with (GUARDIAN_ST_MEASUREMENT_ERROR_INVALID_NODE, node) ;;
      early (mp_max_uncertainty_milli policy =? 0) || (mp_minimum_quality policy =? 0)
            || (GUARDIAN_ST_MEASUREMENT_MAX_QUALITY <? mp_minimum_quality policy)
        with (GUARDIAN_ST_MEASUREMENT_ERROR_INVALID_POLICY, node) ;;
      (GUARDIAN_ST_MEASUREMENT_OK,
       Some (MEASUREMENT_NODE self policy (me_last_sequence zero_measurement_node)
               (me_last_timestamp_us zero_measurement_node) (me_accepted_samples zero_measurement_node)
               (me_rejected_samples zero_measurement_node) 1))
  | _, _, _ => (GUARDIAN_ST_MEASUREMENT_ERROR_NULL_ARGUMENT, node)
  end.

Definition guardian_st_measurement_validate_sample (node : option guardian_st_measurement_node_t)
    (sample : option guardian_st_measurement_sample_t) : guardian_st_measurement_result_t :=
  match node, sample with
  | Some n, Some s =>
      early negb (me_initialized n =? 1) with GUARDIAN_ST_MEASUREMENT_ERROR_INVALID_NODE ;;
      early (ms_sensor_id s =? 0) || (ms_sequence s =? 0) || (ms_timestamp_us s =? 0)
            || negb (guardian_st_signal_type_valid (ms_signal_type s))
        with GUARDIAN_ST_MEASUREMENT_ERROR_INVALID_SAMPLE ;;
      early ms_valid_max_milli s <? ms_valid_min_milli s
        with GUARDIAN_ST_MEASUREMENT_ERROR_INVALID_SAMPLE ;;
      early 1 <? ms_saturated s with GUARDIAN_ST_MEASUREMENT_ERROR_INVALID_SAMPLE ;;
      early GUARDIAN_ST_MEASUREMENT_MAX_QUALITY <? ms_quality s
        with GUARDIAN_ST_MEASUREMENT_ERROR_INVALID_SAMPLE ;;
      early ms_saturated s =? 1 with GUARDIAN_ST_MEASUREMENT_ERROR_SATURATED ;;
      early (ms_value_milli s <? ms_valid_min_milli s) || (ms_valid_max_milli s <? ms_value_milli s)
        with GUARDIAN_ST_MEASUREMENT_ERROR_OUT_OF_RANGE ;;
      early ms_quality s <? mp_minimum_quality (me_policy n)
        with GUARDIAN_ST_MEASUREMENT_ERROR_QUALITY ;;
      early (ms_uncertainty_milli s =? 0)
            || (mp_max_uncertainty_milli (me_policy n) <? ms_uncertainty_milli s)
        with GUARDIAN_ST_MEASUREMENT_ERROR_UNCERTAINTY ;;
      early (0 <? me_accepted_samples n) && (ms_sequence s <=? me_last_sequence n)
        with GUARDIAN_ST_MEASUREMENT_ERROR_SEQUENCE_REGRESSION ;;
      early (0 <? me_accepted_samples n) && (ms_timestamp_us s <=? me_last_timestamp_us n)
        with GUARDIAN_ST_MEASUREMENT_ERROR_TIMESTAMP_REGRESSION ;;
      GUARDIAN_ST_MEASUREMENT_OK
  | _, _ => GUARDIAN_ST_MEASUREMENT_ERROR_NULL_ARGUMENT
  end.

(** [if (counter < UINT32_MAX) counter += 1] *)
Definition saturating_increment (counter : Z) : Z :=
  if counter <? UINT32_MAX then u32 (counter + 1) else counter.

Definition guardian_st_measurement_accept_sample (node : option guardian_st_measurement_node_t)
    (sample : option guardian_st_measurement_sample_t)
    (observation : option guardian_st_measurement_observation_t)
  : guardian_st_measurement_result_t * option guardian_st_measurement_node_t
    * option guardian_st_measurement_observation_t :=
  match node, sample, observation with
  | Some n, Some s, Some _ =>
      let result := guardian_st_measurement_validate_sample (Some n) (Some s) in
      early negb (bool_decide (result = GUARDIAN_ST_MEASUREMENT_OK))
        with (result,
              Some (MEASUREMENT_NODE (me_self n) (me_policy n) (me_last_sequence n)
                      (me_last_timestamp_us n) (me_accepted_samples n)
                      (saturating_increment (me_rejected_samples n)) (me_initialized n)),
              Some zero_observation) ;;
      (GUARDIAN_ST_MEASUREMENT_OK,
       Some (MEASUREMENT_NODE (me_self n) (me_policy n) (ms_sequence s) (ms_timestamp_us s)
               (saturating_increment (me_accepted_samples n)) (me_rejected_samples n)
               (me_initialized n)),
       Some (MEASUREMENT_OBSERVATION (mn_node_id (me_self n)) (ms_sensor_id s) (ms_signal_type s)
               (ms_sequence s) (ms_timestamp_us s) (ms_value_milli s) (ms_uncertainty_milli s)
               (ms_quality s) 0))
  | _, _, _ => (GUARDIAN_ST_MEASUREMENT_ERROR_NULL_ARGUMENT, node, observation)
  end.

Definition guardian_st_measurement_can_actuate (node : option guardian_st_measurement_node_t)
    (allowed : option Z) : guardian_st_measurement_result_t * option Z :=
  match node, allowed with
  | Some _, Some _ => (GUARDIAN_ST_MEASUREMENT_ERROR_ACTUATION_PROHIBITED, Some 0)
  | _, _ => (GUARDIAN_ST_MEASUREMENT_ERROR_NULL_ARGUMENT, allowed)
  end.

(** ** What an acceptable sample is *)

Record sample_ok (p : guardian_st_measurement_policy_t) (s : guardian_st_measurement_sample_t)
  : Prop := {
  so_sensor : ms_sensor_id s <> 0;
  so_sequence : ms_sequence s <> 0;
  so_timestamp : ms_timestamp_us s <> 0;
  so_signal : 1 <= ms_signal_type s <= 10;
  so_unsaturated : ms_saturated s < 1;
  so_value : ms_valid_min_milli s <= ms_value_milli s <= ms_valid_max_milli s;
  so_quality : mp_minimum_quality p <= ms_quality s <= 100;
  so_uncertainty : ms_uncertainty_milli s <> 0 /\
                   ms_uncertainty_milli s <= mp_max_uncertainty_milli p
}.

(** Both the sequence number and the time advance. *)
Definition sample_after (last s : guardian_st_measurement_sample_t) : Prop :=
  ms_sequence last < ms_sequence s /\ ms_timestamp_us last < ms_timestamp_us s.

Definition sample_admissible (p : guardian_st_measurement_policy_t)
    (accepted : list guardian_st_measurement_sample_t) (s : guardian_st_measurement_sample_t) : Prop :=
  sample_ok p s /\ match accepted with [] => True | last :: _ => sample_after last s end.

#[global] Instance sample_ok_dec p s : Decision (sample_ok p s).
Proof.
  refine (cast_if (decide (ms_sensor_id s <> 0 /\ ms_sequence s <> 0 /\ ms_timestamp_us s <> 0 /\
    1 <= ms_signal_type s <= 10 /\ ms_saturated s < 1 /\
    ms_valid_min_milli s <= ms_value_milli s <= ms_valid_max_milli s /\
    mp_minimum_quality p <= ms_quality s <= 100 /\
    (ms_uncertainty_milli s <> 0 /\ ms_uncertainty_milli s <= mp_max_uncertainty_milli p)))).
  - destruct_and!. by split.
  - intros []. tauto.
Defined.

#[global] Instance sample_admissible_dec p accepted s : Decision (sample_admissible p accepted s).
Proof. unfold sample_admissible, sample_after. destruct accepted; apply _. Defined.

(** ** Streams *)

(** The accepted samples of a stream, newest first, and the number of rejected. *)
Definition accept_step (p : guardian_st_measurement_policy_t)
    (h : list guardian_st_measurement_sample_t * Z) (s : guardian_st_measurement_sample_t)
  : list guardian_st_measurement_sample_t * Z :=
  if decide (sample_admissible p h.1 s) then (s :: h.1, h.2) else (h.1, h.2 + 1).

Definition accepted_of (p : guardian_st_measurement_policy_t) (ss : list guardian_st_measurement_sample_t)
  : list guardian_st_measurement_sample_t * Z := foldl (accept_step p) ([], 0) ss.

Definition observation_of (self : guardian_multinode_node_t) (s : guardian_st_measurement_sample_t)
  : guardian_st_measurement_observation_t :=
  MEASUREMENT_OBSERVATION (mn_node_id self) (ms_sensor_id s) (ms_signal_type s) (ms_sequence s)
    (ms_timestamp_us s) (ms_value_milli s) (ms_uncertainty_milli s) (ms_quality s) 0.

Definition history_node (self : guardian_multinode_node_t) (p : guardian_st_measurement_policy_t)
    (h : list guardian_st_measurement_sample_t * Z) : guardian_st_measurement_node_t :=
  MEASUREMENT_NODE self p
    (match h.1 with [] => 0 | s :: _ => ms_sequence s end)
    (match h.1 with [] => 0 | s :: _ => ms_timestamp_us s end)
    (Z.min UINT32_MAX (Z.of_nat (length h.1))) (Z.min UINT32_MAX h.2) 1.

(** Running the node over a stream: its state and the published observations,
    newest first. *)
Definition measurement_step
    (st : guardian_st_measurement_node_t * list guardian_st_measurement_observation_t)
    (s : guardian_st_measurement_sample_t)
  : guardian_st_measurement_node_t * list guardian_st_measurement_observation_t :=
  let '(r, n, o) := guardian_st_measurement_accept_sample (Some st.1) (Some s) (Some zero_observation) in
  (default st.1 n,
   if bool_decide (r = GUARDIAN_ST_MEASUREMENT_OK) then default zero_observation o :: st.2 else st.2).

Definition measurement_run (n : guardian_st_measurement_node_t) (ss : list guardian_st_measurement_sample_t)
  : guardian_st_measurement_node_t * list guardian_st_measurement_observation_t :=
  foldl measurement_step (n, []) ss.

Lemma saturating_increment_min k : 0 <= k ->
  saturating_increment (Z.min UINT32_MAX k) = Z.min UINT32_MAX (k + 1).
Proof.
  unfold saturating_increment, u32, UINT32_MAX. intros Hk.
  destruct (Z.ltb_spec (Z.min 4294967295 k) 4294967295); [|lia]. rewrite Z.mod_small; lia.
Qed.

Lemma validate_sample_spec self p h s :
  guardian_st_measurement_validate_sample (Some (history_node self p h)) (Some s) =
    GUARDIAN_ST_MEASUREMENT_OK <-> sample_admissible p h.1 s.
Proof.
  unfold sample_admissible, sample_after. destruct h as [hs k].
  assert (Hpos : (0 <? Z.min UINT32_MAX (Z.of_nat (length hs))) = match hs with [] => false | _ => true end).
  { destruct hs; [done|]. cbn [length]. apply Z.ltb_lt. unfold UINT32_MAX. lia. }
  unfold guardian_st_measurement_validate_sample, history_node, guardian_st_signal_type_valid,
    GUARDIAN_ST_SIGNAL_INVALID, GUARDIAN_ST_SIGNAL_TRANSIENT, GUARDIAN_ST_MEASUREMENT_MAX_QUALITY.
  cbn [me_initialized me_policy me_accepted_samples me_last_sequence me_last_timestamp_us fst snd
    Z.eqb Pos.eqb negb]. rewrite Hpos. split.
  - intros H. early_inv H E1. early_inv H E2. early_inv H E3. early_inv H E4. early_inv H E5.
    early_inv H E6. early_inv H E7. early_inv H E8. early_inv H E9. early_inv H E10.
    split; [split; lia|]. destruct hs; [done|]. cbn in E10, H. lia.
  - intros [[] Hlast]. destruct hs as [|last hs]; repeat (case_match; [lia|]); done.
Qed.

Lemma measurement_step_spec self p h s :
  0 <= h.2 ->
  measurement_step (history_node self p h, map (observation_of self) h.1) s =
  (history_node self p (accept_step p h s), map (observation_of self) (accept_step p h s).1).
Proof.
  intros Hk. destruct h as [hs k]. cbn [fst snd] in *. pose proof (validate_sample_spec self p (hs, k) s) as Hv.
  unfold measurement_step, guardian_st_measurement_accept_sample, accept_step. cbn [fst snd] in *.
  destruct (bool_decide_reflect (guardian_st_measurement_validate_sample
    (Some (history_node self p (hs, k))) (Some s) = GUARDIAN_ST_MEASUREMENT_OK)) as [E|E];
    cbn [negb default].
  - rewrite decide_True, bool_decide_true by (done || by apply Hv).
    unfold history_node. cbn [fst snd me_self me_policy me_accepted_samples me_rejected_samples
      me_initialized map length].
    rewrite saturating_increment_min by lia. by rewrite Nat2Z.inj_succ.
  - rewrite decide_False, bool_decide_false by (try rewrite <- Hv; done).
    unfold history_node. cbn [fst snd me_self me_policy me_accepted_samples me_rejected_samples
      me_last_sequence me_last_timestamp_us me_initialized].
    by rewrite saturating_increment_min.
Qed.

Lemma accept_step_rejected p h s : 0 <= h.2 -> 0 <= (accept_step p h s).2.
Proof. unfold accept_step. case_decide; cbn; lia. Qed.

Lemma measurement_run_spec self p ss : forall h, 0 <= h.2 ->
  foldl measurement_step (history_node self p h, map (observation_of self) h.1) ss =
  (history_node self p (foldl (accept_step p) h ss),
   map (observation_of self) (foldl (accept_step p) h ss).1).
Proof.
  induction ss as [|s ss IH]; intros h Hk; [done|].
  cbn [foldl]. rewrite measurement_step_spec by done. by apply IH, accept_step_rejected.
Qed.

(** Accepted samples are in order. *)
Lemma accepted_advancing p ss :
  StronglySorted (fun s2 s1 => sample_after s1 s2) (accepted_of p ss).1 /\
  Forall (sample_ok p) (accepted_of p ss).1.
Proof.
  unfold accepted_of. induction ss as [|s ss [Hs Hv]] using rev_ind; [repeat constructor|].
  rewrite foldl_app. cbn [foldl]. unfold accept_step at 1 3.
  case_decide as Ha; [|done]. destruct Ha as [Hok Hlast]. cbn [fst].
  split; constructor; try done.
  destruct (foldl (accept_step p) ([], 0) ss) as [[|last hs] k]; cbn [fst] in *; constructor; [done|].
  apply StronglySorted_inv in Hs as [_ Hs]. eapply Forall_impl; [done|].
  unfold sample_after in *. cbn. intros x Hx. lia.
Qed.

(** The number of samples of a stream is conserved. *)
Lemma accepted_conserved p ss :
  Z.of_nat (length (accepted_of p ss).1) + (accepted_of p ss).2 = Z.of_nat (length ss).
Proof.
  unfold accepted_of. induction ss as [|s ss IH] using rev_ind; [done|].
  rewrite foldl_app, length_app. cbn [foldl length]. unfold accept_step at 1 3.
  case_decide; cbn [fst snd length]; lia.
Qed.

(** ** Configuration *)

Definition policy_ok (p : guardian_st_measurement_policy_t) : Prop :=
  mp_max_uncertainty_milli p <> 0 /\ mp_minimum_quality p <> 0 /\ mp_minimum_quality p <= 100.

Lemma measurement_configure_spec n self p n' :
  guardian_st_measurement_node_configure (Some n) (Some self) (Some p) =
    (GUARDIAN_ST_MEASUREMENT_OK, Some n') <->
  legitimate self /\ mn_role self = GUARDIAN_NODE_ROLE_ST_MEASUREMENT_REFERENCE /\ policy_ok p /\
  n' = history_node self p ([], 0).
Proof.
  unfold guardian_st_measurement_node_configure. rewrite validate_node_decide.
  destruct (bool_decide_reflect (legitimate self)) as [Hn|]; [|by split; [|intros (? & _)]]. cbn [negb].
  destruct (Z.eqb_spec (mn_role self) GUARDIAN_NODE_ROLE_ST_MEASUREMENT_REFERENCE) as [Er|];
    [|by split; [|intros (_ & ? & _)]].
  cbn [negb]. rewrite (lg_authority _ Hn), Er. cbn [negb Z.eqb].
  rewrite (required_capability self GUARDIAN_CAP_SENSOR_ACQUISITION) by (done || by rewrite Er).
  rewrite (no_gate self) by (done || by rewrite Er). cbn [negb Z.eqb].
  unfold policy_ok, GUARDIAN_ST_MEASUREMENT_MAX_QUALITY.
  destruct (_ || _) eqn:E.
  - split; [done|]. intros (_ & _ & Hp & _). lia.
  - split; [|by intros (_ & _ & _ & ->)]. intros [= <-]. split_and!; done || lia.
Qed.

(** ** Correctness *)

(** C15:over any stream of samples, a configured node accepts exactly the samples
    that are well formed, within range, quality and uncertainty, and later than the
    last accepted one in both sequence and time; it publishes those and nothing
    else, in order, without authority, and every sample is counted once. *)
Theorem measurement_stream_exact n0 self p n ss
    (Hc : guardian_st_measurement_node_configure (Some n0) (Some self) (Some p) =
          (GUARDIAN_ST_MEASUREMENT_OK, Some n)) :
  let accepted := (accepted_of p ss).1 in
  measurement_run n ss = (history_node self p (accepted_of p ss), map (observation_of self) accepted) /\
  Forall (sample_ok p) accepted /\
  StronglySorted (fun s2 s1 => sample_after s1 s2) accepted /\
  Z.of_nat (length accepted) + (accepted_of p ss).2 = Z.of_nat (length ss) /\
  Forall (fun o => mo_actuation_authorized o = 0) (snd (measurement_run n ss)).
Proof.
  apply measurement_configure_spec in Hc as (_ & _ & _ & ->). intros accepted.
  assert (E : measurement_run (history_node self p ([], 0)) ss =
              (history_node self p (accepted_of p ss), map (observation_of self) accepted)).
  { by apply (measurement_run_spec self p ss ([], 0)). }
  rewrite E. split_and!; try done; try apply accepted_advancing; [apply accepted_conserved|].
  cbn [snd]. by apply Forall_map, Forall_true.
Qed.

(** ** Examples *)

Definition example_measurement_policy : guardian_st_measurement_policy_t := MEASUREMENT_POLICY 500 60.
Definition example_sample (sequence value : Z) : guardian_st_measurement_sample_t :=
  MEASUREMENT_SAMPLE 7 GUARDIAN_ST_SIGNAL_VIBRATION_X sequence (1000 * sequence) value (-2000) 2000 100 90 0.

Lemma measurement_stream_exact_witness :
  map mo_value_milli (snd (measurement_run (history_node example_measurement example_measurement_policy ([], 0))
    [example_sample 1 12; example_sample 2 3000; example_sample 2 40; example_sample 1 5])) = [40; 12].
Proof.
  destruct (measurement_stream_exact zero_measurement_node example_measurement example_measurement_policy
    (history_node example_measurement example_measurement_policy ([], 0))
    [example_sample 1 12; example_sample 2 3000; example_sample 2 40; example_sample 1 5]) as (E & _).
  - by vm_compute.
  - rewrite E. by vm_compute.
Defined.
