(* ===== verification/HighCompute.v ===== *)
(** * The processing node

    Model of MultiNode/Src/guardian_high_compute_node.c: statistics over a window of
    normalized samples, and the correlation and fusion of two windows, in the 32-bit
    and 64-bit integer arithmetic of the code. A window designates its samples by a
    pointer and a count; the theorems assume that the array has that many. *)

From S2P Require Import Prelude MultiNode Acquisition.

(** ** Data *)

Definition GUARDIAN_HIGH_COMPUTE_MAX_SAMPLES : nat := 16.
Definition GUARDIAN_HIGH_COMPUTE_MAX_QUALITY : Z := 100.
Definition GUARDIAN_HIGH_COMPUTE_NORMALIZED_LIMIT_MILLI : Z := 100000.
Definition GUARDIAN_HIGH_COMPUTE_CORRELATION_SCALE : Z := 1000.
Definition GUARDIAN_HIGH_COMPUTE_AUTHORITY_NONE : Z := 0.

Inductive guardian_high_compute_result_t :=
  | GUARDIAN_HIGH_COMPUTE_OK
  | GUARDIAN_HIGH_COMPUTE_ERROR_NULL_ARGUMENT
  | GUARDIAN_HIGH_COMPUTE_ERROR_INVALID_NODE
  | GUARDIAN_HIGH_COMPUTE_ERROR_INVALID_POLICY
  | GUARDIAN_HIGH_COMPUTE_ERROR_INVALID_WINDOW
  | GUARDIAN_HIGH_COMPUTE_ERROR_SEQUENCE_REGRESSION
  | GUARDIAN_HIGH_COMPUTE_ERROR_TIMESTAMP_REGRESSION
  | GUARDIAN_HIGH_COMPUTE_ERROR_OUT_OF_RANGE
  | GUARDIAN_HIGH_COMPUTE_ERROR_SATURATED
  | GUARDIAN_HIGH_COMPUTE_ERROR_QUALITY
  | GUARDIAN_HIGH_COMPUTE_ERROR_CORRELATION_UNDEFINED
  | GUARDIAN_HIGH_COMPUTE_ERROR_ACTUATION_PROHIBITED.

#[global] Instance guardian_high_compute_result_eq_dec : EqDecision guardian_high_compute_result_t.
Proof. solve_decision. Defined.

Record guardian_high_compute_policy_t := COMPUTE_POLICY {
  hp_minimum_quality : Z; hp_drift_threshold_milli : Z; hp_minimum_correlation_milli : Z
}.

Record guardian_high_compute_sample_t := COMPUTE_SAMPLE {
  hs_sequence : Z; hs_timestamp_us : Z; hs_normalized_milli : Z; hs_quality : Z; hs_saturated : Z
}.

Record guardian_high_compute_window_t := COMPUTE_WINDOW {
  hw_subject_node_id : Z; hw_subject_producer_id : Z; hw_signal_id : Z; hw_epoch : Z;
  hw_baseline_milli : Z;
  hw_samples : option (list guardian_high_compute_sample_t);  (* the array pointed to *)
  hw_sample_count : nat
}.

Record guardian_high_compute_analysis_t := COMPUTE_ANALYSIS {
  ha_subject_node_id : Z; ha_subject_producer_id : Z; ha_signal_id : Z; ha_epoch : Z;
  ha_first_sequence : Z; ha_last_sequence : Z;
  ha_first_timestamp_us : Z; ha_last_timestamp_us : Z;
  ha_sample_count : nat;
  ha_mean_milli : Z; ha_minimum_milli : Z; ha_maximum_milli : Z; ha_peak_to_peak_milli : Z;
  ha_mean_square_milli2 : Z; ha_drift_milli : Z;
  ha_minimum_quality : Z; ha_drift_detected : Z; ha_actuation_authorized : Z
}.

Record guardian_high_compute_fusion_t := COMPUTE_FUSION {
  hf_correlation_milli : Z; hf_fused_mean_milli : Z;
  hf_contradiction_detected : Z; hf_actuation_authorized : Z
}.

Record guardian_high_compute_node_t := COMPUTE_NODE {
  hn_self : guardian_multinode_node_t;
  hn_policy : guardian_high_compute_policy_t;
  hn_accepted_windows : Z; hn_rejected_windows : Z;
  hn_initialized : Z
}.

Definition zero_compute_sample : guardian_high_compute_sample_t := COMPUTE_SAMPLE 0 0 0 0 0.
Definition zero_compute_node : guardian_high_compute_node_t :=
  COMPUTE_NODE zero_node (COMPUTE_POLICY 0 0 0) 0 0 0.
Definition zero_analysis : guardian_high_compute_analysis_t :=
  COMPUTE_ANALYSIS 0 0 0 0 0 0 0 0 0 0 0 0 0 0 0 0 0 0.
Definition zero_fusion : guardian_high_compute_fusion_t := COMPUTE_FUSION 0 0 0 0.

Definition sample_at (samples : list guardian_high_compute_sample_t) (i : nat)
  : guardian_high_compute_sample_t := nth i samples zero_compute_sample.
Definition value_at (samples : list guardian_high_compute_sample_t) (i : nat) : Z :=
  hs_normalized_milli (sample_at samples i).

(** ** Integer helpers *)

(** The two loops are those of the square root of the acquisition. *)
Definition guardian_high_compute_isqrt_u64 (value : Z) : Z :=
  isqrt_digits 32 (isqrt_align 32 (2 ^ 62) value) value 0.

Definition guardian_high_compute_abs_i64_to_u32 (value : Z) : Z :=
  let magnitude := if value <? 0 then u64 (i64 (- value)) else u64 value in
  early UINT32_MAX <? magnitude with UINT32_MAX ;;
  u32 magnitude.

Definition guardian_high_compute_window_basic_valid (window : option guardian_high_compute_window_t)
  : bool :=
  match window with
  | None => false
  | Some w =>
      early is_null (hw_samples w) || (hw_subject_node_id w =? 0) || (hw_subject_producer_id w =? 0)
            || (hw_signal_id w =? 0) || (hw_epoch w =? 0) || (hw_sample_count w <? 2)%nat
            || (GUARDIAN_HIGH_COMPUTE_MAX_SAMPLES <? hw_sample_count w)%nat with false ;;
      early (hw_baseline_milli w <? - GUARDIAN_HIGH_COMPUTE_NORMALIZED_LIMIT_MILLI)
            || (GUARDIAN_HIGH_COMPUTE_NORMALIZED_LIMIT_MILLI <? hw_baseline_milli w) with false ;;
      true
  end.

(** ** Configuration *)

Definition guardian_high_compute_init (node : option guardian_high_compute_node_t)
  : option guardian_high_compute_node_t :=
  match node with None => None | Some _ => Some zero_compute_node end.

Definition guardian_high_compute_configure (node : option guardian_high_compute_node_t)
    (self : option guardian_multinode_node_t) (policy : option guardian_high_compute_policy_t)
  : guardian_high_compute_result_t * option guardian_high_compute_node_t :=
  match node, self, policy with
  | Some _, Some self, Some policy =>
      early negb (bool_decide (guardian_multinode_validate_node (Some self) = GUARDIAN_MULTINODE_OK))
        with (GUARDIAN_HIGH_COMPUTE_ERROR_INVALID_NODE, node) ;;
      early negb (mn_role self =? GUARDIAN_NODE_ROLE_HIGH_COMPUTE_PROCESSING)
            || negb (mn_authority_class self =? GUARDIAN_AUTHORITY_CLASS_OBSERVE)
            || (Z.land (mn_capabilities self) GUARDIAN_CAP_SIGNAL_PROCESSING =? 0)
            || negb (Z.land (mn_capabilities self) GUARDIAN_CAP_ACTUATION_GATE =? 0)
        with (GUARDIAN_HIGH_COMPUTE_ERROR_INVALID_NODE, node) ;;
      early (hp_minimum_quality policy =? 0)
            || (GUARDIAN_HIGH_COMPUTE_MAX_QUALITY <? hp_minimum_quality policy)
            || (hp_drift_threshold_milli policy =? 0)
            || (u32 GUARDIAN_HIGH_COMPUTE_NORMALIZED_LIMIT_MILLI <? hp_drift_threshold_milli policy)
            || (hp_minimum_correlation_milli policy <? - GUARDIAN_HIGH_COMPUTE_CORRELATION_SCALE)
            || (GUARDIAN_HIGH_COMPUTE_CORRELATION_SCALE <? hp_minimum_correlation_milli policy)
        with (GUARDIAN_HIGH_COMPUTE_ERROR_INVALID_POLICY, node) ;;
      (GUARDIAN_HIGH_COMPUTE_OK,
       Some (COMPUTE_NODE self policy (hn_accepted_windows zero_compute_node)
               (hn_rejected_windows zero_compute_node) 1))
  | _, _, _ => (GUARDIAN_HIGH_COMPUTE_ERROR_NULL_ARGUMENT, node)
  end.

(** ** Analysis of a window *)

(** The accumulators of the loop. *)
Record accumulators := ACCUMULATORS {
  ac_sum : Z; ac_sum_square : Z; ac_minimum : Z; ac_maximum : Z; ac_quality : Z
}.

(** One sample: the refusal, or the accumulators after it. *)
Definition analyze_sample (policy : guardian_high_compute_policy_t)
    (samples : list guardian_high_compute_sample_t) (index : nat) (acc : accumulators)
  : guardian_high_compute_result_t + accumulators :=
  let sample := sample_at samples index in
  early (hs_sequence sample =? 0) || (hs_timestamp_us sample =? 0)
    with inl GUARDIAN_HIGH_COMPUTE_ERROR_INVALID_WINDOW ;;
  early (hs_normalized_milli sample <? - GUARDIAN_HIGH_COMPUTE_NORMALIZED_LIMIT_MILLI)
        || (GUARDIAN_HIGH_COMPUTE_NORMALIZED_LIMIT_MILLI <? hs_normalized_milli sample)
    with inl GUARDIAN_HIGH_COMPUTE_ERROR_OUT_OF_RANGE ;;
  early negb (hs_saturated sample =? 0) with inl GUARDIAN_HIGH_COMPUTE_ERROR_SATURATED ;;
  early (hs_quality sample =? 0) || (GUARDIAN_HIGH_COMPUTE_MAX_QUALITY <? hs_quality sample)
        || (hs_quality sample <? hp_minimum_quality policy)
    with inl GUARDIAN_HIGH_COMPUTE_ERROR_QUALITY ;;
  early (0 <? index)%nat && (hs_sequence sample <=? hs_sequence (sample_at samples (index - 1)))
    with inl GUARDIAN_HIGH_COMPUTE_ERROR_SEQUENCE_REGRESSION ;;
  early (0 <? index)%nat && (hs_timestamp_us sample <=? hs_timestamp_us (sample_at samples (index - 1)))
    with inl GUARDIAN_HIGH_COMPUTE_ERROR_TIMESTAMP_REGRESSION ;;
  let value64 := hs_normalized_milli sample in
  inr (ACCUMULATORS
         (i64 (ac_sum acc + value64))
         (u64 (ac_sum_square acc + u64 (i64 (value64 * value64))))
         (if value64 <? ac_minimum acc then value64 else ac_minimum acc)
         (if ac_maximum acc <? value64 then value64 else ac_maximum acc)
         (if hs_quality sample <? ac_quality acc then hs_quality sample else ac_quality acc)).

Fixpoint analyze_loop (policy : guardian_high_compute_policy_t)
    (samples : list guardian_high_compute_sample_t) (index n : nat) (acc : accumulators)
  : guardian_high_compute_result_t + accumulators :=
  match n with
  | O => inr acc
  | S n =>
      match analyze_sample policy samples index acc with
      | inl result => inl result
      | inr acc => analyze_loop policy samples (S index) n acc
      end
  end.

Definition count_rejected (n : guardian_high_compute_node_t) : guardian_high_compute_node_t :=
  COMPUTE_NODE (hn_self n) (hn_policy n) (hn_accepted_windows n) (u32 (hn_rejected_windows n + 1))
    (hn_initialized n).

Definition count_accepted (n : guardian_high_compute_node_t) : guardian_high_compute_node_t :=
  COMPUTE_NODE (hn_self n) (hn_policy n) (u32 (hn_accepted_windows n + 1)) (hn_rejected_windows n)
    (hn_initialized n).

(** The stores of an accepted window. *)
Definition window_analysis (n : guardian_high_compute_node_t) (w : guardian_high_compute_window_t)
    (samples : list guardian_high_compute_sample_t) (acc : accumulators)
  : guardian_high_compute_analysis_t :=
  let count := Z.of_nat (hw_sample_count w) in
  let last := (hw_sample_count w - 1)%nat in
  let mean := i32 (Z.quot (ac_sum acc) count) in
  let drift := guardian_high_compute_abs_i64_to_u32 (i64 (mean - hw_baseline_milli w)) in
  COMPUTE_ANALYSIS (hw_subject_node_id w) (hw_subject_producer_id w) (hw_signal_id w) (hw_epoch w)
    (hs_sequence (sample_at samples 0)) (hs_sequence (sample_at samples last))
    (hs_timestamp_us (sample_at samples 0)) (hs_timestamp_us (sample_at samples last))
    (hw_sample_count w) mean (ac_minimum acc) (ac_maximum acc)
    (u32 (i64 (ac_maximum acc - ac_minimum acc)))
    (ac_sum_square acc `div` count) drift (ac_quality acc)
    (if hp_drift_threshold_milli (hn_policy n) <=? drift then 1 else 0)
    GUARDIAN_HIGH_COMPUTE_AUTHORITY_NONE.

Definition guardian_high_compute_analyze (node : option guardian_high_compute_node_t)
    (window : option guardian_high_compute_window_t) (analysis : option guardian_high_compute_analysis_t)
  : guardian_high_compute_result_t * option guardian_high_compute_node_t
    * option guardian_high_compute_analysis_t :=
  match node, window, analysis with
  | Some n, Some w, Some _ =>
      early negb (hn_initialized n =? 1)
        with (GUARDIAN_HIGH_COMPUTE_ERROR_INVALID_NODE, node, Some zero_analysis) ;;
      early negb (guardian_high_compute_window_basic_valid (Some w))
        with (GUARDIAN_HIGH_COMPUTE_ERROR_INVALID_WINDOW, Some (count_rejected n), Some zero_analysis) ;;
      let samples := default [] (hw_samples w) in
      let first := sample_at samples 0 in
      match analyze_loop (hn_policy n) samples 0 (hw_sample_count w)
              (ACCUMULATORS 0 0 (hs_normalized_milli first) (hs_normalized_milli first)
                 (hs_quality first)) with
      | inl result => (result, Some (count_rejected n), Some zero_analysis)
      | inr acc =>
          (GUARDIAN_HIGH_COMPUTE_OK, Some (count_accepted n), Some (window_analysis n w samples acc))
      end
  | _, _, _ => (GUARDIAN_HIGH_COMPUTE_ERROR_NULL_ARGUMENT, node, analysis)
  end.

(** ** Correlation and fusion of two windows *)

Definition window_sum (samples : list guardian_high_compute_sample_t) (n : nat) : Z :=
  foldl (fun sum i => i64 (sum + value_at samples i)) 0 (seq 0 n).

(** The loop over the centered values: [dot], [left_square], [right_square]. *)
Definition correlation_step (left right : list guardian_high_compute_sample_t)
    (sample_count64 left_sum right_sum : Z) (acc : Z * Z * Z) (i : nat) : Z * Z * Z :=
  let '(dot, left_square, right_square) := acc in
  let left_centered := i64 (i64 (value_at left i * sample_count64) - left_sum) in
  let right_centered := i64 (i64 (value_at right i * sample_count64) - right_sum) in
  (i64 (dot + i64 (left_centered * right_centered)),
   u64 (left_square + u64 (i64 (left_centered * left_centered))),
   u64 (right_square + u64 (i64 (right_centered * right_centered)))).

Definition correlation_sums (left right : list guardian_high_compute_sample_t) (n : nat)
    (left_sum right_sum : Z) : Z * Z * Z :=
  foldl (correlation_step left right (Z.of_nat n) left_sum right_sum) (0, 0, 0) (seq 0 n).

Definition guardian_high_compute_correlate_and_fuse (node : option guardian_high_compute_node_t)
    (left right : option guardian_high_compute_window_t)
    (left_analysis right_analysis : option guardian_high_compute_analysis_t)
    (fusion : option guardian_high_compute_fusion_t)
  : guardian_high_compute_result_t * option guardian_high_compute_fusion_t :=
  match node, left, right, left_analysis, right_analysis, fusion with
  | Some n, Some l, Some r, Some la, Some ra, Some _ =>
      early negb (hn_initialized n =? 1)
        with (GUARDIAN_HIGH_COMPUTE_ERROR_INVALID_NODE, Some zero_fusion) ;;
      early negb (guardian_high_compute_window_basic_valid (Some l))
            || negb (guardian_high_compute_window_basic_valid (Some r))
            || negb (hw_sample_count l =? hw_sample_count r)%nat
            || negb (ha_sample_count la =? hw_sample_count l)%nat
            || negb (ha_sample_count ra =? hw_sample_count r)%nat
            || negb (ha_actuation_authorized la =? GUARDIAN_HIGH_COMPUTE_AUTHORITY_NONE)
            || negb (ha_actuation_authorized ra =? GUARDIAN_HIGH_COMPUTE_AUTHORITY_NONE)
        with (GUARDIAN_HIGH_COMPUTE_ERROR_INVALID_WINDOW, Some zero_fusion) ;;
      let ls := default [] (hw_samples l) in
      let rs := default [] (hw_samples r) in
      let count := hw_sample_count l in
      let '(dot, left_square, right_square) :=
        correlation_sums ls rs count (window_sum ls count) (window_sum rs count) in
      early (left_square =? 0) || (right_square =? 0)
        with (GUARDIAN_HIGH_COMPUTE_ERROR_CORRELATION_UNDEFINED, Some zero_fusion) ;;
      let denominator := u64 (guardian_high_compute_isqrt_u64 left_square
                              * guardian_high_compute_isqrt_u64 right_square) in
      early denominator =? 0
        with (GUARDIAN_HIGH_COMPUTE_ERROR_CORRELATION_UNDEFINED, Some zero_fusion) ;;
      let scaled_dot := i64 (dot * GUARDIAN_HIGH_COMPUTE_CORRELATION_SCALE) in
      let correlation := Z.quot scaled_dot (i64 denominator) in
      let correlation :=
        if GUARDIAN_HIGH_COMPUTE_CORRELATION_SCALE <? correlation
        then GUARDIAN_HIGH_COMPUTE_CORRELATION_SCALE
        else if correlation <? - GUARDIAN_HIGH_COMPUTE_CORRELATION_SCALE
             then - GUARDIAN_HIGH_COMPUTE_CORRELATION_SCALE else correlation in
      let fused_sum := i64 (ha_mean_milli la + ha_mean_milli ra) in
      let correlation_milli := i32 correlation in
      (GUARDIAN_HIGH_COMPUTE_OK,
       Some (COMPUTE_FUSION correlation_milli (i32 (Z.quot fused_sum 2))
               (if correlation_milli <? hp_minimum_correlation_milli (hn_policy n) then 1 else 0)
               GUARDIAN_HIGH_COMPUTE_AUTHORITY_NONE))
  | _, _, _, _, _, _ => (GUARDIAN_HIGH_COMPUTE_ERROR_NULL_ARGUMENT, fusion)
  end.

Definition guardian_high_compute_can_actuate (node : option guardian_high_compute_node_t)
    (allowed : option Z) : guardian_high_compute_result_t * option Z :=
  match node, allowed with
  | Some _, Some _ => (GUARDIAN_HIGH_COMPUTE_ERROR_ACTUATION_PROHIBITED, Some 0)
  | _, _ => (GUARDIAN_HIGH_COMPUTE_ERROR_NULL_ARGUMENT, allowed)
  end.
