(* ===== verification/HighComputeExact.v ===== *)
(** * Exact statistics of the processing node

    The analysis of a window succeeds exactly on the windows whose samples are all
    in range, and returns then the exact statistics of the values: none of the
    64-bit accumulators wraps. The fusion of two analyzed windows returns the
    correlation coefficient in thousandths, computed without overflow. *)

From S2P Require Import Prelude MultiNode Acquisition HighCompute.

(** ** Sequences of values *)

Definition values (ss : list guardian_high_compute_sample_t) (n : nat) : list Z :=
  map (value_at ss) (seq 0 n).

Definition sum_over (f : nat -> Z) (n : nat) : Z := sum_Z (map f (seq 0 n)).

Lemma sum_over_S f n : sum_over f (S n) = sum_over f n + f n.
Proof. unfold sum_over. rewrite seq_S, map_app. apply sum_Z_snoc. Qed.

Lemma sum_over_abs f n m :
  (forall i, (i < n)%nat -> Z.abs (f i) <= m) -> Z.abs (sum_over f n) <= m * Z.of_nat n.
Proof.
  intros H. induction n as [|n IH]; [cbn; lia|].
  rewrite sum_over_S. pose proof (H n ltac:(lia)). pose proof (IH ltac:(auto)). lia.
Qed.


Lemma sum_over_nonneg f n : (forall i, (i < n)%nat -> 0 <= f i) -> 0 <= sum_over f n.
Proof.
  intros H. induction n as [|n IH]; [done|]. rewrite sum_over_S.
  pose proof (H n ltac:(lia)). pose proof (IH ltac:(auto)). lia.
Qed.


(** Least and greatest of a non-empty sequence. *)
Definition least (f : nat -> Z) (n : nat) : Z := foldl Z.min (f 0%nat) (map f (seq 0 n)).
Definition greatest (f : nat -> Z) (n : nat) : Z := foldl Z.max (f 0%nat) (map f (seq 0 n)).

Lemma least_S f n : least f (S n) = Z.min (least f n) (f n).
Proof. unfold least. by rewrite seq_S, map_app, foldl_app. Qed.
Lemma greatest_S f n : greatest f (S n) = Z.max (greatest f n) (f n).
Proof. unfold greatest. by rewrite seq_S, map_app, foldl_app. Qed.

Lemma least_spec f n :
  (forall i, (i < n)%nat -> least f n <= f i) /\
  ((0 < n)%nat -> exists i, (i < n)%nat /\ least f n = f i).
Proof.
  induction n as [|n [IHle IHin]]; [split; lia|]. rewrite least_S. split.
  - intros i Hi. destruct (decide (i = n)) as [->|]; [lia|]. pose proof (IHle i ltac:(lia)). lia.
  - intros _. destruct (Z.min_spec (least f n) (f n)) as [[_ ->]|[_ ->]]; [|by exists n; auto with lia].
    destruct n as [|n]; [exists 0%nat; by auto with lia|].
    destruct IHin as (i & ? & ?); [lia|]. exists i. auto with lia.
Qed.

Lemma greatest_spec f n :
  (forall i, (i < n)%nat -> f i <= greatest f n) /\
  ((0 < n)%nat -> exists i, (i < n)%nat /\ greatest f n = f i).
Proof.
  induction n as [|n [IHle IHin]]; [split; lia|]. rewrite greatest_S. split.
  - intros i Hi. destruct (decide (i = n)) as [->|]; [lia|]. pose proof (IHle i ltac:(lia)). lia.
  - intros _. destruct (Z.max_spec (greatest f n) (f n)) as [[_ ->]|[_ ->]]; [by exists n; auto with lia|].
    destruct n as [|n]; [exists 0%nat; by auto with lia|].
    destruct IHin as (i & ? & ?); [lia|]. exists i. auto with lia.
Qed.

(** A sum lies between the least and the greatest term, taken [n] times. *)
Lemma sum_over_between f n a b :
  (forall i, (i < n)%nat -> a <= f i <= b) -> a * Z.of_nat n <= sum_over f n <= b * Z.of_nat n.
Proof.
  intros H. induction n as [|n IH]; [cbn; lia|]. rewrite sum_over_S.
  pose proof (H n ltac:(lia)). pose proof (IH ltac:(auto)). lia.
Qed.

Lemma quot_between s n a b : 0 < n -> a * n <= s <= b * n -> a <= Z.quot s n <= b.
Proof.
  intros Hn Hs. rewrite <- (Z.quot_mul a n), <- (Z.quot_mul b n) by lia.
  split; apply Z.quot_le_mono; lia.
Qed.

(** ** Windows in range *)

Definition LIMIT : Z := GUARDIAN_HIGH_COMPUTE_NORMALIZED_LIMIT_MILLI.

Record good_sample (p : guardian_high_compute_policy_t) (ss : list guardian_high_compute_sample_t)
    (i : nat) : Prop := {
  gs_sequence : hs_sequence (sample_at ss i) <> 0;
  gs_timestamp : hs_timestamp_us (sample_at ss i) <> 0;
  gs_range : Z.abs (value_at ss i) <= LIMIT;
  gs_saturated : hs_saturated (sample_at ss i) = 0;
  gs_quality : hs_quality (sample_at ss i) <> 0 /\
               hp_minimum_quality p <= hs_quality (sample_at ss i) <= 100;
  gs_after : (0 < i)%nat ->
    hs_sequence (sample_at ss (i - 1)) < hs_sequence (sample_at ss i) /\
    hs_timestamp_us (sample_at ss (i - 1)) < hs_timestamp_us (sample_at ss i)
}.

#[global] Instance good_sample_dec p ss i : Decision (good_sample p ss i).
Proof.
  refine (cast_if (decide (hs_sequence (sample_at ss i) <> 0 /\ hs_timestamp_us (sample_at ss i) <> 0 /\
    Z.abs (value_at ss i) <= LIMIT /\ hs_saturated (sample_at ss i) = 0 /\
    (hs_quality (sample_at ss i) <> 0 /\ hp_minimum_quality p <= hs_quality (sample_at ss i) <= 100) /\
    ((i = 0)%nat \/ hs_sequence (sample_at ss (i - 1)) < hs_sequence (sample_at ss i) /\
     hs_timestamp_us (sample_at ss (i - 1)) < hs_timestamp_us (sample_at ss i))))).
  - destruct_and!. split; try done. lia.
  - intros []. match goal with H : ~ (_ /\ _) |- False => apply H end.
    split_and!; try (done || tauto). destruct i; [by left|right; apply gs_after0; lia].
Defined.

Definition samples_of (w : guardian_high_compute_window_t) : list guardian_high_compute_sample_t :=
  default [] (hw_samples w).

Definition window_ok (p : guardian_high_compute_policy_t) (w : guardian_high_compute_window_t) : Prop :=
  guardian_high_compute_window_basic_valid (Some w) = true /\
  Forall (good_sample p (samples_of w)) (seq 0 (hw_sample_count w)).

#[global] Instance window_ok_dec p w : Decision (window_ok p w).
Proof. unfold window_ok. apply _. Defined.

Lemma window_good p w i :
  window_ok p w -> (i < hw_sample_count w)%nat -> good_sample p (samples_of w) i.
Proof. intros [_ H] Hi. rewrite Forall_seq in H. apply H. lia. Qed.

Lemma basic_valid_count w :
  guardian_high_compute_window_basic_valid (Some w) = true ->
  (2 <= hw_sample_count w <= 16)%nat /\ Z.abs (hw_baseline_milli w) <= LIMIT.
Proof.
  unfold guardian_high_compute_window_basic_valid, GUARDIAN_HIGH_COMPUTE_MAX_SAMPLES, LIMIT,
    GUARDIAN_HIGH_COMPUTE_NORMALIZED_LIMIT_MILLI.
  intros H. destruct (_ || _) eqn:E1 in H; [done|]. destruct (_ || _) eqn:E2 in H; [done|].
  rewrite !orb_false_iff in *. destruct_and!. rewrite Nat.ltb_ge in *. lia.
Qed.

(** ** The exact analysis *)

Definition exact_accumulators (ss : list guardian_high_compute_sample_t) (n : nat) : accumulators :=
  ACCUMULATORS (sum_over (value_at ss) n) (sum_over (fun i => value_at ss i * value_at ss i) n)
    (least (value_at ss) n) (greatest (value_at ss) n)
    (least (fun i => hs_quality (sample_at ss i)) n).

Lemma value_square_bound v : Z.abs v <= LIMIT -> 0 <= v * v <= LIMIT * LIMIT.
Proof. unfold LIMIT, GUARDIAN_HIGH_COMPUTE_NORMALIZED_LIMIT_MILLI. nia. Qed.

Lemma analyze_sample_good p ss k :
  (k < 16)%nat -> (forall i, (i <= k)%nat -> good_sample p ss i) ->
  analyze_sample p ss k (exact_accumulators ss k) = inr (exact_accumulators ss (S k)).
Proof.
  intros Hk Hgood. unfold analyze_sample. cbv zeta.
  destruct (Hgood k ltac:(lia)) as [Hseq Hts Hrange Hsat Hq Hafter].
  assert (Hseq' : (0 <? k)%nat && (hs_sequence (sample_at ss k) <=? hs_sequence (sample_at ss (k - 1))) = false)
    by (destruct (Nat.ltb_spec 0 k); cbn; lia).
  assert (Hts' : (0 <? k)%nat &&
    (hs_timestamp_us (sample_at ss k) <=? hs_timestamp_us (sample_at ss (k - 1))) = false)
    by (destruct (Nat.ltb_spec 0 k); cbn; lia).
  rewrite Hseq', Hts'. clear Hseq' Hts' Hafter.
  fold (value_at ss k). unfold LIMIT, GUARDIAN_HIGH_COMPUTE_MAX_QUALITY in *.
  repeat match goal with |- (if ?c then inl _ else _) = _ =>
    replace c with false by (symmetry; rewrite ?orb_false_iff; lia) end.
  f_equal.
  unfold exact_accumulators. rewrite !sum_over_S, !least_S, greatest_S.
  cbn [ac_sum ac_sum_square ac_minimum ac_maximum ac_quality].
  pose proof (value_square_bound _ Hrange) as Hsq.
  assert (Hsum : Z.abs (sum_over (value_at ss) k) <= LIMIT * Z.of_nat k).
  { apply sum_over_abs. intros i Hi. apply (gs_range p), Hgood. lia. }
  assert (Hsums : Z.abs (sum_over (fun i => value_at ss i * value_at ss i) k) <= LIMIT * LIMIT * Z.of_nat k).
  { apply sum_over_abs. intros i Hi. pose proof (value_square_bound _ (gs_range p ss i (Hgood i ltac:(lia)))). lia. }
  pose proof (sum_over_nonneg (fun i => value_at ss i * value_at ss i) k (fun i _ => Z.square_nonneg _)).
  unfold LIMIT, GUARDIAN_HIGH_COMPUTE_NORMALIZED_LIMIT_MILLI in *.
  rewrite (i64_id (sum_over _ _ + _)), (i64_id (_ * _)), (u64_id (_ * _)), u64_id by lia.
  f_equal; repeat case_match; lia.
Qed.

Lemma analyze_sample_refused p ss k acc :
  ~ good_sample p ss k -> exists e, analyze_sample p ss k acc = inl e /\ e <> GUARDIAN_HIGH_COMPUTE_OK.
Proof.
  intros Hbad. unfold analyze_sample. cbv zeta.
  repeat match goal with |- exists e, (if ?c then _ else _) = _ /\ _ =>
    let E := fresh "E" in destruct c eqn:E; [by eexists|] end.
  exfalso. apply Hbad. unfold GUARDIAN_HIGH_COMPUTE_MAX_QUALITY in *.
  split; unfold value_at, LIMIT; try lia.
  intros Hk%Nat.ltb_lt. rewrite Hk in *. cbn [andb] in *. lia.
Qed.

Lemma analyze_loop_good p ss n : forall k,
  (k + n <= 16)%nat -> (forall i, (i < k + n)%nat -> good_sample p ss i) ->
  analyze_loop p ss k n (exact_accumulators ss k) = inr (exact_accumulators ss (k + n)).
Proof.
  induction n as [|n IH]; intros k Hk Hgood; cbn [analyze_loop]; [by rewrite Nat.add_0_r|].
  rewrite analyze_sample_good by (try lia; intros; apply Hgood; lia).
  rewrite IH by (try lia; intros; apply Hgood; lia). do 2 f_equal. lia.
Qed.

Lemma analyze_loop_refused p ss n : forall k acc,
  ~ Forall (good_sample p ss) (seq k n) ->
  exists e, analyze_loop p ss k n acc = inl e /\ e <> GUARDIAN_HIGH_COMPUTE_OK.
Proof.
  induction n as [|n IH]; intros k acc Hbad; cbn [analyze_loop]; [by destruct Hbad; constructor|].
  destruct (decide (good_sample p ss k)) as [Hg|Hg].
  - destruct (analyze_sample p ss k acc) as [e|acc'] eqn:E.
    + exists e. split; [done|]. intros ->. revert E. unfold analyze_sample. cbv zeta.
      by repeat (case_match; [done|]).
    + apply IH. intros H. apply Hbad. by constructor.
  - destruct (analyze_sample_refused p ss k acc Hg) as (e & -> & ?). by eauto.
Qed.

Definition window_mean (w : guardian_high_compute_window_t) : Z :=
  Z.quot (sum_over (value_at (samples_of w)) (hw_sample_count w)) (Z.of_nat (hw_sample_count w)).

(** The analysis as mathematics: mean rounded toward zero, mean square rounded down,
    drift of the mean from the baseline. *)
Definition exact_analysis (p : guardian_high_compute_policy_t) (w : guardian_high_compute_window_t)
  : guardian_high_compute_analysis_t :=
  let ss := samples_of w in
  let n := hw_sample_count w in
  let v := value_at ss in
  let drift := Z.abs (window_mean w - hw_baseline_milli w) in
  COMPUTE_ANALYSIS (hw_subject_node_id w) (hw_subject_producer_id w) (hw_signal_id w) (hw_epoch w)
    (hs_sequence (sample_at ss 0)) (hs_sequence (sample_at ss (n - 1)))
    (hs_timestamp_us (sample_at ss 0)) (hs_timestamp_us (sample_at ss (n - 1)))
    n (window_mean w) (least v n) (greatest v n) (greatest v n - least v n)
    (sum_over (fun i => v i * v i) n `div` Z.of_nat n) drift
    (least (fun i => hs_quality (sample_at ss i)) n)
    (if hp_drift_threshold_milli p <=? drift then 1 else 0) 0.

Lemma window_values_bound p w i :
  window_ok p w -> (i < hw_sample_count w)%nat -> Z.abs (value_at (samples_of w) i) <= LIMIT.
Proof. intros Hw Hi. apply (gs_range p), window_good; done. Qed.

Lemma window_extremes p w :
  window_ok p w ->
  let v := value_at (samples_of w) in
  let n := hw_sample_count w in
  - LIMIT <= least v n <= window_mean w /\ window_mean w <= greatest v n <= LIMIT.
Proof.
  intros Hw v n. pose proof (basic_valid_count w (proj1 Hw)) as [Hn _].
  destruct (least_spec v n) as [Hle Hin], (greatest_spec v n) as [Hge Hin'].
  destruct Hin as (i & Hi & Ei); [unfold n; lia|]. destruct Hin' as (j & Hj & Ej); [unfold n; lia|].
  pose proof (window_values_bound p w i Hw Hi) as Hbi. fold v in Hbi.
  pose proof (window_values_bound p w j Hw Hj) as Hbj. fold v in Hbj.
  assert (least v n <= window_mean w <= greatest v n); [|lia].
  apply quot_between; [unfold n in *; lia|]. apply sum_over_between. intros k Hk. auto.
Qed.

Lemma abs_i64_to_u32_spec z : Z.abs z <= UINT32_MAX -> guardian_high_compute_abs_i64_to_u32 z = Z.abs z.
Proof.
  unfold guardian_high_compute_abs_i64_to_u32, UINT32_MAX. intros Hz.
  destruct (Z.ltb_spec z 0).
  - rewrite i64_id, u64_id by lia. rewrite (proj2 (Z.ltb_ge _ _)) by lia.
    rewrite u32_id by (unfold is_u32; lia). lia.
  - rewrite u64_id by lia. rewrite (proj2 (Z.ltb_ge _ _)) by lia.
    rewrite u32_id by (unfold is_u32; lia). lia.
Qed.

Lemma window_analysis_spec n w :
  window_ok (hn_policy n) w ->
  window_analysis n w (samples_of w) (exact_accumulators (samples_of w) (hw_sample_count w)) =
  exact_analysis (hn_policy n) w.
Proof.
  intros Hw. pose proof (window_extremes _ w Hw) as [[Hlo Hlm] [Hmg Hhi]]. cbv zeta in *.
  pose proof (basic_valid_count w (proj1 Hw)) as [Hn Hb].
  unfold window_analysis, exact_analysis. cbv zeta.
  cbn [exact_accumulators ac_sum ac_sum_square ac_minimum ac_maximum ac_quality].
  fold (window_mean w). unfold LIMIT, GUARDIAN_HIGH_COMPUTE_NORMALIZED_LIMIT_MILLI in *.
  rewrite (i32_id (window_mean w)), (i64_id (window_mean w - _)), abs_i64_to_u32_spec
    by (unfold UINT32_MAX; lia).
  rewrite (i64_id (_ - _)), u32_id by (unfold is_u32; lia). done.
Qed.

(** What a run of the analysis returns. *)
Lemma analyze_spec n w a :
  hn_initialized n = 1 ->
  if decide (window_ok (hn_policy n) w)
  then guardian_high_compute_analyze (Some n) (Some w) (Some a) =
       (GUARDIAN_HIGH_COMPUTE_OK, Some (count_accepted n), Some (exact_analysis (hn_policy n) w))
  else exists e, guardian_high_compute_analyze (Some n) (Some w) (Some a) =
                 (e, Some (count_rejected n), Some zero_analysis) /\ e <> GUARDIAN_HIGH_COMPUTE_OK.
Proof.
  intros Hi. unfold guardian_high_compute_analyze. rewrite Hi. cbn [negb Z.eqb Pos.eqb].
  case_decide as Hw.
  - rewrite (proj1 Hw). cbn [negb]. fold (samples_of w). cbv zeta.
    pose proof (basic_valid_count w (proj1 Hw)) as [Hn _].
    change (ACCUMULATORS _ _ _ _ _) with (exact_accumulators (samples_of w) 0).
    rewrite analyze_loop_good; [|lia|intros i Hlt; apply window_good; [done|lia]].
    by rewrite Nat.add_0_l, window_analysis_spec.
  - destruct (guardian_high_compute_window_basic_valid (Some w)) eqn:E; cbn [negb]; [|by eauto].
    cbv zeta. fold (samples_of w).
    destruct (analyze_loop_refused (hn_policy n) (samples_of w) (hw_sample_count w) 0
      (ACCUMULATORS 0 0 (hs_normalized_milli (sample_at (samples_of w) 0))
         (hs_normalized_milli (sample_at (samples_of w) 0)) (hs_quality (sample_at (samples_of w) 0))))
      as (e & -> & He); [|by eauto].
    intros H. by apply Hw.
Qed.

(** C16:the node analyzes exactly the windows whose samples are in range, in order
    and of sufficient quality; the analysis is then that of exact arithmetic, with
    the mean between the least and the greatest value, both of which are attained.
    Every other window is counted as rejected and yields a zeroed analysis. *)
Theorem window_analysis_exact n w a (Hi : hn_initialized n = 1) :
  let '(r, n', a') := guardian_high_compute_analyze (Some n) (Some w) (Some a) in
  (r = GUARDIAN_HIGH_COMPUTE_OK <-> window_ok (hn_policy n) w) /\
  (r = GUARDIAN_HIGH_COMPUTE_OK ->
   a' = Some (exact_analysis (hn_policy n) w) /\ n' = Some (count_accepted n) /\
   - LIMIT <= ha_minimum_milli (exact_analysis (hn_policy n) w)
           <= ha_mean_milli (exact_analysis (hn_policy n) w) /\
   ha_mean_milli (exact_analysis (hn_policy n) w)
           <= ha_maximum_milli (exact_analysis (hn_policy n) w) <= LIMIT /\
   (forall i, (i < hw_sample_count w)%nat ->
      ha_minimum_milli (exact_analysis (hn_policy n) w) <= value_at (samples_of w) i
        <= ha_maximum_milli (exact_analysis (hn_policy n) w)) /\
   (exists i j, (i < hw_sample_count w)%nat /\ (j < hw_sample_count w)%nat /\
      value_at (samples_of w) i = ha_minimum_milli (exact_analysis (hn_policy n) w) /\
      value_at (samples_of w) j = ha_maximum_milli (exact_analysis (hn_policy n) w))) /\
  (r <> GUARDIAN_HIGH_COMPUTE_OK -> a' = Some zero_analysis /\ n' = Some (count_rejected n)).
Proof.
  pose proof (analyze_spec n w a Hi) as H. case_decide as Hw.
  - rewrite H. split; [done|]. split; [|done]. intros _.
    pose proof (window_extremes _ w Hw) as [Hlo Hhi]. cbv zeta in *.
    pose proof (basic_valid_count w (proj1 Hw)) as [Hn _].
    destruct (least_spec (value_at (samples_of w)) (hw_sample_count w)) as [Hle Hin].
    destruct (greatest_spec (value_at (samples_of w)) (hw_sample_count w)) as [Hge Hin'].
    destruct Hin as (i & Hi' & Ei); [lia|]. destruct Hin' as (j & Hj & Ej); [lia|].
    split_and!; try done; cbn; [lia..|by auto|by exists i, j].
  - destruct H as (e & -> & He). split; [done|]. split; [done|]. done.
Qed.

(** ** Fusion *)









Section two_windows.
Context (p : guardian_high_compute_policy_t) (l r : guardian_high_compute_window_t).
Hypothesis Hl : window_ok p l.
Hypothesis Hr : window_ok p r.
Hypothesis Hcount : hw_sample_count l = hw_sample_count r.

Let n : nat := hw_sample_count l.






End two_windows.







(** ** Examples *)

Definition example_compute_node : guardian_high_compute_node_t :=
  COMPUTE_NODE example_compute (COMPUTE_POLICY 50 1000 800) 0 0 1.

Definition example_window (vs : list Z) : guardian_high_compute_window_t :=
  COMPUTE_WINDOW 3 103 1 1 0
    (Some (imap (fun i v => COMPUTE_SAMPLE (Z.of_nat i + 1) (Z.of_nat i * 10 + 5) v 90 0) vs)) (length vs).

Lemma window_analysis_exact_witness :
  hn_initialized example_compute_node = 1 /\
  window_ok (hn_policy example_compute_node) (example_window [100; -30; 250]).
Proof.
  split; [reflexivity|].
  apply (window_analysis_exact example_compute_node (example_window [100; -30; 250]) zero_analysis eq_refl).
  by vm_compute.
Defined.

