(* ===== verification/SecurityWitness.v ===== *)
(** * The security witness

    Model of MultiNode/Src/guardian_security_witness.c: a node that signs evidence
    about other nodes. The record it signs is bound by a transcript; each subject's
    position must advance. The signing and verifying provider is external code,
    given by two functions over a context [C] and a world [W]. *)

From S2P Require Import Prelude Crypto MultiNode.

(** ** Data *)

Definition GUARDIAN_SECURITY_WITNESS_SCHEMA_VERSION : Z := 1.
Definition GUARDIAN_SECURITY_WITNESS_SIGNATURE_ED25519 : Z := 1.
Definition GUARDIAN_SECURITY_WITNESS_SIGNATURE_SIZE : nat := 64.
Definition GUARDIAN_SECURITY_WITNESS_MAX_PAYLOAD : nat := 256.
Definition GUARDIAN_SECURITY_WITNESS_MAX_SUBJECTS : nat := 5.
Definition GUARDIAN_SECURITY_WITNESS_TRANSCRIPT_MAX_SIZE : nat := 128.
Definition GUARDIAN_SECURITY_WITNESS_AUTHORITY_NONE : Z := 0.
Definition GUARDIAN_SECURITY_WITNESS_DOMAIN : list Z :=
  Eval cbv in label_bytes "GUARDIAN-F401:M17:EVIDENCE-WITNESS:V1".

Definition GUARDIAN_SECURITY_WITNESS_EVIDENCE_INVALID : Z := 0.
Definition GUARDIAN_SECURITY_WITNESS_EVIDENCE_OBSERVATION : Z := 1.
Definition GUARDIAN_SECURITY_WITNESS_EVIDENCE_SUPERVISION : Z := 2.
Definition GUARDIAN_SECURITY_WITNESS_EVIDENCE_RECOVERY_REQUEST : Z := 4.
Definition GUARDIAN_SECURITY_WITNESS_EVIDENCE_EXECUTION_RESULT : Z := 6.

(** Any other value that a provider returns is handled like [FAILURE]. *)
Inductive guardian_security_witness_provider_result_t :=
  | GUARDIAN_SECURITY_WITNESS_PROVIDER_OK
  | GUARDIAN_SECURITY_WITNESS_PROVIDER_SIGNATURE_INVALID
  | GUARDIAN_SECURITY_WITNESS_PROVIDER_KEY_UNKNOWN
  | GUARDIAN_SECURITY_WITNESS_PROVIDER_KEY_REVOKED
  | GUARDIAN_SECURITY_WITNESS_PROVIDER_UNAVAILABLE
  | GUARDIAN_SECURITY_WITNESS_PROVIDER_FAILURE.

Inductive guardian_security_witness_result_t :=
  | GUARDIAN_SECURITY_WITNESS_OK
  | GUARDIAN_SECURITY_WITNESS_ERROR_NULL_ARGUMENT
  | GUARDIAN_SECURITY_WITNESS_ERROR_INVALID_NODE
  | GUARDIAN_SECURITY_WITNESS_ERROR_INVALID_CONFIG
  | GUARDIAN_SECURITY_WITNESS_ERROR_INVALID_EVIDENCE
  | GUARDIAN_SECURITY_WITNESS_ERROR_TRANSCRIPT
  | GUARDIAN_SECURITY_WITNESS_ERROR_REPLAY_OR_REGRESSION
  | GUARDIAN_SECURITY_WITNESS_ERROR_SUBJECT_TABLE_FULL
  | GUARDIAN_SECURITY_WITNESS_ERROR_SIGNATURE_INVALID
  | GUARDIAN_SECURITY_WITNESS_ERROR_KEY_UNKNOWN
  | GUARDIAN_SECURITY_WITNESS_ERROR_KEY_REVOKED
  | GUARDIAN_SECURITY_WITNESS_ERROR_PROVIDER_UNAVAILABLE
  | GUARDIAN_SECURITY_WITNESS_ERROR_PROVIDER_FAILURE
  | GUARDIAN_SECURITY_WITNESS_ERROR_ACTUATION_PROHIBITED.

#[global] Instance guardian_security_witness_result_eq_dec : EqDecision guardian_security_witness_result_t.
Proof. solve_decision. Defined.

Record guardian_security_witness_input_t := WITNESS_INPUT {
  wi_subject_node_id : Z; wi_subject_producer_id : Z; wi_subject_key_id : Z;
  wi_epoch : Z; wi_sequence : Z;
  wi_evidence_type : Z;
  wi_payload : option (list Z); wi_payload_length : nat
}.

Record guardian_security_witness_record_t := WITNESS_RECORD {
  wr_schema_version : Z; wr_evidence_type : Z; wr_signature_algorithm : Z; wr_authority_flags : Z;
  wr_witness_node_id : Z; wr_witness_producer_id : Z; wr_witness_key_id : Z;
  wr_subject_node_id : Z; wr_subject_producer_id : Z; wr_subject_key_id : Z;
  wr_epoch : Z; wr_sequence : Z;
  wr_payload_length : Z;
  wr_payload_digest : list Z;   (* payload_digest[32] *)
  wr_signature : list Z         (* signature[64] *)
}.

Record guardian_security_witness_subject_state_t := WITNESS_SUBJECT {
  ws_subject_node_id : Z; ws_subject_producer_id : Z; ws_subject_key_id : Z;
  ws_accepted_epoch : Z; ws_accepted_sequence : Z;
  ws_active : Z
}.

Definition zero_record : guardian_security_witness_record_t :=
  WITNESS_RECORD 0 0 0 0 0 0 0 0 0 0 0 0 0 (replicate GUARDIAN_SHA256_SIZE 0)
    (replicate GUARDIAN_SECURITY_WITNESS_SIGNATURE_SIZE 0).
Definition zero_subject : guardian_security_witness_subject_state_t := WITNESS_SUBJECT 0 0 0 0 0 0.

(** ** Records and their transcript *)

Definition guardian_security_witness_evidence_type_valid (type : Z) : bool :=
  (GUARDIAN_SECURITY_WITNESS_EVIDENCE_INVALID <? type)
  && (type <=? GUARDIAN_SECURITY_WITNESS_EVIDENCE_EXECUTION_RESULT).

Definition guardian_security_witness_put_u32_be (value : Z) : list Z := put_u32_be value.

Definition guardian_security_witness_map_provider (result : guardian_security_witness_provider_result_t)
  : guardian_security_witness_result_t :=
  match result with
  | GUARDIAN_SECURITY_WITNESS_PROVIDER_OK => GUARDIAN_SECURITY_WITNESS_OK
  | GUARDIAN_SECURITY_WITNESS_PROVIDER_SIGNATURE_INVALID => GUARDIAN_SECURITY_WITNESS_ERROR_SIGNATURE_INVALID
  | GUARDIAN_SECURITY_WITNESS_PROVIDER_KEY_UNKNOWN => GUARDIAN_SECURITY_WITNESS_ERROR_KEY_UNKNOWN
  | GUARDIAN_SECURITY_WITNESS_PROVIDER_KEY_REVOKED => GUARDIAN_SECURITY_WITNESS_ERROR_KEY_REVOKED
  | GUARDIAN_SECURITY_WITNESS_PROVIDER_UNAVAILABLE => GUARDIAN_SECURITY_WITNESS_ERROR_PROVIDER_UNAVAILABLE
  | GUARDIAN_SECURITY_WITNESS_PROVIDER_FAILURE => GUARDIAN_SECURITY_WITNESS_ERROR_PROVIDER_FAILURE
  end.

Definition guardian_security_witness_record_structurally_valid
    (record : option guardian_security_witness_record_t) : bool :=
  match record with
  | None => false
  | Some r =>
      early negb (wr_schema_version r =? GUARDIAN_SECURITY_WITNESS_SCHEMA_VERSION) with false ;;
      early negb (guardian_security_witness_evidence_type_valid (wr_evidence_type r)) with false ;;
      early negb (wr_signature_algorithm r =? GUARDIAN_SECURITY_WITNESS_SIGNATURE_ED25519) with false ;;
      early negb (wr_authority_flags r =? GUARDIAN_SECURITY_WITNESS_AUTHORITY_NONE) with false ;;
      early (wr_witness_node_id r =? 0) || (wr_witness_producer_id r =? 0) || (wr_witness_key_id r =? 0)
            || (wr_subject_node_id r =? 0) || (wr_subject_producer_id r =? 0)
            || (wr_subject_key_id r =? 0) || (wr_epoch r =? 0) || (wr_sequence r =? 0) with false ;;
      early (wr_payload_length r =? 0)
            || (u32 (Z.of_nat GUARDIAN_SECURITY_WITNESS_MAX_PAYLOAD) <? wr_payload_length r) with false ;;
      true
  end.

(** The fields that the consecutive stores of the transcript write. *)
Definition witness_transcript_fields (r : guardian_security_witness_record_t) : list Z :=
  GUARDIAN_SECURITY_WITNESS_DOMAIN
  ++ [wr_schema_version r; u8 (wr_evidence_type r); wr_signature_algorithm r; wr_authority_flags r]
  ++ guardian_security_witness_put_u32_be (wr_witness_node_id r)
  ++ guardian_security_witness_put_u32_be (wr_witness_producer_id r)
  ++ guardian_security_witness_put_u32_be (wr_witness_key_id r)
  ++ guardian_security_witness_put_u32_be (wr_subject_node_id r)
  ++ guardian_security_witness_put_u32_be (wr_subject_producer_id r)
  ++ guardian_security_witness_put_u32_be (wr_subject_key_id r)
  ++ guardian_security_witness_put_u32_be (wr_epoch r)
  ++ guardian_security_witness_put_u32_be (wr_sequence r)
  ++ guardian_security_witness_put_u32_be (wr_payload_length r)
  ++ take GUARDIAN_SHA256_SIZE (wr_payload_digest r).

Definition guardian_security_witness_build_transcript
    (record : option guardian_security_witness_record_t) (output : option (list Z))
    (output_capacity : nat) (output_length : option nat)
  : guardian_security_witness_result_t * option (list Z) * option nat :=
  let cleared := match output_length with None => None | Some _ => Some 0%nat end in
  match record, output, output_length with
  | Some r, Some out, Some _ =>
      early negb (guardian_security_witness_record_structurally_valid (Some r))
        with (GUARDIAN_SECURITY_WITNESS_ERROR_INVALID_EVIDENCE, output, cleared) ;;
      early (output_capacity <? GUARDIAN_SECURITY_WITNESS_TRANSCRIPT_MAX_SIZE)%nat
        with (GUARDIAN_SECURITY_WITNESS_ERROR_TRANSCRIPT, output, cleared) ;;
      let blank := blit out 0 (replicate output_capacity 0) in
      let fields := witness_transcript_fields r in
      early (GUARDIAN_SECURITY_WITNESS_TRANSCRIPT_MAX_SIZE <? length fields)%nat
        with (GUARDIAN_SECURITY_WITNESS_ERROR_TRANSCRIPT, Some blank, cleared) ;;
      (GUARDIAN_SECURITY_WITNESS_OK, Some (blit blank 0 fields), Some (length fields))
  | _, _, _ => (GUARDIAN_SECURITY_WITNESS_ERROR_NULL_ARGUMENT, output, cleared)
  end.

(** [uint8_t transcript[128]; size_t transcript_length = 0U;] and the call: the
    bytes that pointer and length designate afterwards. *)
Definition witness_transcript (r : guardian_security_witness_record_t)
  : guardian_security_witness_result_t * list Z :=
  let '(result, transcript, transcript_length) :=
    guardian_security_witness_build_transcript (Some r)
      (Some (replicate GUARDIAN_SECURITY_WITNESS_TRANSCRIPT_MAX_SIZE 0))
      GUARDIAN_SECURITY_WITNESS_TRANSCRIPT_MAX_SIZE (Some 0%nat) in
  (result, take (default 0%nat transcript_length) (default [] transcript)).

Definition guardian_security_witness_subject_equal
    (state : option guardian_security_witness_subject_state_t)
    (input : option guardian_security_witness_input_t) : bool :=
  match state, input with
  | Some s, Some i =>
      (ws_active s =? 1) && (ws_subject_node_id s =? wi_subject_node_id i)
      && (ws_subject_producer_id s =? wi_subject_producer_id i)
      && (ws_subject_key_id s =? wi_subject_key_id i)
  | _, _ => false
  end.

Definition subject_at (subjects : list guardian_security_witness_subject_state_t) (i : nat)
  : guardian_security_witness_subject_state_t := nth i subjects zero_subject.

(** The search loop over a table of [none] entries: the first entry that is [found],
    or the first [free] one, [none] if there is neither. *)
Fixpoint slot_search (found free : nat -> bool) (none index n free_index : nat) : option nat * nat :=
  match n with
  | O => (None, free_index)
  | S n =>
      if found index then (Some index, free_index)
      else
        slot_search found free none (S index) n
          (if (free_index =? none)%nat && free index then index else free_index)
  end.

Definition subject_slot (subjects : list guardian_security_witness_subject_state_t)
    (input : guardian_security_witness_input_t) : option nat * nat :=
  slot_search
    (fun index => guardian_security_witness_subject_equal (Some (subject_at subjects index)) (Some input))
    (fun index => ws_active (subject_at subjects index) =? 0)
    GUARDIAN_SECURITY_WITNESS_MAX_SUBJECTS 0 GUARDIAN_SECURITY_WITNESS_MAX_SUBJECTS
    GUARDIAN_SECURITY_WITNESS_MAX_SUBJECTS.

Section provider.
Context {C W : Type}.

(** [sign] returns the new content of the signature buffer. *)
Definition guardian_security_witness_sign_fn : Type :=
  C -> Z -> Z -> list Z -> list Z -> W -> guardian_security_witness_provider_result_t * list Z * W.
Definition guardian_security_witness_verify_fn : Type :=
  C -> Z -> Z -> list Z -> list Z -> W -> guardian_security_witness_provider_result_t * W.

Record guardian_security_witness_provider_t := WITNESS_PROVIDER {
  wp_context : C;
  wp_sign : option guardian_security_witness_sign_fn;
  wp_verify : option guardian_security_witness_verify_fn;
  wp_signature_algorithm : Z
}.

Record guardian_security_witness_node_t := WITNESS_NODE {
  wn_self : guardian_multinode_node_t;
  wn_provider : guardian_security_witness_provider_t;
  wn_subjects : list guardian_security_witness_subject_state_t;  (* subjects[5] *)
  wn_subject_count : nat;
  wn_initialized : Z
}.

(** All bytes zero: the context pointer of the provider is the null pointer [null]. *)
Definition zero_witness (null : C) : guardian_security_witness_node_t :=
  WITNESS_NODE zero_node (WITNESS_PROVIDER null None None 0)
    (replicate GUARDIAN_SECURITY_WITNESS_MAX_SUBJECTS zero_subject) 0 0.

Definition guardian_security_witness_init (null : C) (node : option guardian_security_witness_node_t)
  : option guardian_security_witness_node_t :=
  match node with None => None | Some _ => Some (zero_witness null) end.

Definition guardian_security_witness_configure (null : C)
    (node : option guardian_security_witness_node_t) (self : option guardian_multinode_node_t)
    (provider : option guardian_security_witness_provider_t)
  : guardian_security_witness_result_t * option guardian_security_witness_node_t :=
  match node, self, provider with
  | Some _, Some self, Some provider =>
      early negb (bool_decide (guardian_multinode_validate_node (Some self) = GUARDIAN_MULTINODE_OK))
        with (GUARDIAN_SECURITY_WITNESS_ERROR_INVALID_NODE, node) ;;
      early negb (mn_role self =? GUARDIAN_NODE_ROLE_SECURITY_WITNESS)
            || negb (mn_authority_class self =? GUARDIAN_AUTHORITY_CLASS_WITNESS)
        with (GUARDIAN_SECURITY_WITNESS_ERROR_INVALID_NODE, node) ;;
      early Z.land (mn_capabilities self) GUARDIAN_CAP_EVIDENCE_WITNESS =? 0
        with (GUARDIAN_SECURITY_WITNESS_ERROR_INVALID_NODE, node) ;;
      early Z.land (mn_capabilities self) GUARDIAN_CAP_SIGNATURE_VERIFY =? 0
        with (GUARDIAN_SECURITY_WITNESS_ERROR_INVALID_NODE, node) ;;
      early negb (Z.land (mn_capabilities self) GUARDIAN_CAP_ACTUATION_GATE =? 0)
        with (GUARDIAN_SECURITY_WITNESS_ERROR_INVALID_NODE, node) ;;
      early is_null (wp_sign provider) || is_null (wp_verify provider)
            || negb (wp_signature_algorithm provider =? GUARDIAN_SECURITY_WITNESS_SIGNATURE_ED25519)
        with (GUARDIAN_SECURITY_WITNESS_ERROR_INVALID_CONFIG, node) ;;
      (GUARDIAN_SECURITY_WITNESS_OK,
       Some (WITNESS_NODE self provider (wn_subjects (zero_witness null))
               (wn_subject_count (zero_witness null)) 1))
  | _, _, _ => (GUARDIAN_SECURITY_WITNESS_ERROR_NULL_ARGUMENT, node)
  end.

(** The record that [create] fills in before it is signed. *)
Definition unsigned_record (node : guardian_security_witness_node_t)
    (input : guardian_security_witness_input_t) : guardian_security_witness_record_t :=
  WITNESS_RECORD GUARDIAN_SECURITY_WITNESS_SCHEMA_VERSION (wi_evidence_type input)
    (wp_signature_algorithm (wn_provider node)) GUARDIAN_SECURITY_WITNESS_AUTHORITY_NONE
    (mn_node_id (wn_self node)) (mn_producer_id (wn_self node)) (mn_key_id (wn_self node))
    (wi_subject_node_id input) (wi_subject_producer_id input) (wi_subject_key_id input)
    (wi_epoch input) (wi_sequence input)
    (u32 (Z.of_nat (wi_payload_length input)))
    (sha256_digest (default [] (wi_payload input)) (wi_payload_length input))
    (wr_signature zero_record).

Definition with_signature (r : guardian_security_witness_record_t) (signature : list Z)
  : guardian_security_witness_record_t :=
  WITNESS_RECORD (wr_schema_version r) (wr_evidence_type r) (wr_signature_algorithm r)
    (wr_authority_flags r) (wr_witness_node_id r) (wr_witness_producer_id r) (wr_witness_key_id r)
    (wr_subject_node_id r) (wr_subject_producer_id r) (wr_subject_key_id r) (wr_epoch r) (wr_sequence r)
    (wr_payload_length r) (wr_payload_digest r) signature.

(** The stores into the subject table after a signature. *)
Definition record_position (node : guardian_security_witness_node_t)
    (input : guardian_security_witness_input_t) (existing : option nat) (slot : nat)
  : guardian_security_witness_node_t :=
  let old := subject_at (wn_subjects node) slot in
  let state :=
    match existing with
    | Some _ => WITNESS_SUBJECT (ws_subject_node_id old) (ws_subject_producer_id old)
                  (ws_subject_key_id old) (wi_epoch input) (wi_sequence input) (ws_active old)
    | None => WITNESS_SUBJECT (wi_subject_node_id input) (wi_subject_producer_id input)
                (wi_subject_key_id input) (wi_epoch input) (wi_sequence input) 1
    end in
  let count :=
    if is_null existing && (wn_subject_count node <? GUARDIAN_SECURITY_WITNESS_MAX_SUBJECTS)%nat
    then S (wn_subject_count node) else wn_subject_count node in
  WITNESS_NODE (wn_self node) (wn_provider node) (<[slot := state]> (wn_subjects node)) count
    (wn_initialized node).

Definition witness_input_invalid (i : guardian_security_witness_input_t) : bool :=
  (wi_subject_node_id i =? 0) || (wi_subject_producer_id i =? 0) || (wi_subject_key_id i =? 0)
  || (wi_epoch i =? 0) || (wi_sequence i =? 0) || is_null (wi_payload i)
  || (wi_payload_length i =? 0)%nat
  || (GUARDIAN_SECURITY_WITNESS_MAX_PAYLOAD <? wi_payload_length i)%nat
  || negb (guardian_security_witness_evidence_type_valid (wi_evidence_type i)).

(** The sign call of a node whose provider may have no function; a configured node
    always has one. *)
Definition call_sign (node : guardian_security_witness_node_t) (message signature : list Z) (w : W)
  : guardian_security_witness_provider_result_t * list Z * W :=
  match wp_sign (wn_provider node) with
  | Some sign => sign (wp_context (wn_provider node)) (wp_signature_algorithm (wn_provider node))
                   (mn_key_id (wn_self node)) message signature w
  | None => (GUARDIAN_SECURITY_WITNESS_PROVIDER_FAILURE, signature, w)
  end.

Definition guardian_security_witness_create (node : option guardian_security_witness_node_t)
    (input : option guardian_security_witness_input_t)
    (record : option guardian_security_witness_record_t) (w : W)
  : guardian_security_witness_result_t * option guardian_security_witness_node_t
    * option guardian_security_witness_record_t * W :=
  match node, input, record with
  | Some n, Some i, Some _ =>
      early negb (wn_initialized n =? 1)
        with (GUARDIAN_SECURITY_WITNESS_ERROR_INVALID_CONFIG, node, Some zero_record, w) ;;
      early witness_input_invalid i
        with (GUARDIAN_SECURITY_WITNESS_ERROR_INVALID_EVIDENCE, node, Some zero_record, w) ;;
      let '(existing, free_index) := subject_slot (wn_subjects n) i in
      let slot := default free_index existing in
      let state := subject_at (wn_subjects n) slot in
      early negb (is_null existing) && (wi_epoch i <? ws_accepted_epoch state)
        with (GUARDIAN_SECURITY_WITNESS_ERROR_REPLAY_OR_REGRESSION, node, Some zero_record, w) ;;
      early negb (is_null existing) && (wi_epoch i =? ws_accepted_epoch state)
            && (wi_sequence i <=? ws_accepted_sequence state)
        with (GUARDIAN_SECURITY_WITNESS_ERROR_REPLAY_OR_REGRESSION, node, Some zero_record, w) ;;
      early is_null existing && (GUARDIAN_SECURITY_WITNESS_MAX_SUBJECTS <=? free_index)%nat
        with (GUARDIAN_SECURITY_WITNESS_ERROR_SUBJECT_TABLE_FULL, node, Some zero_record, w) ;;
      let r := unsigned_record n i in
      let '(result, transcript) := witness_transcript r in
      early negb (bool_decide (result = GUARDIAN_SECURITY_WITNESS_OK))
        with (result, node, Some zero_record, w) ;;
      let '(provider_result, signature, w) := call_sign n transcript (wr_signature r) w in
      let result := guardian_security_witness_map_provider provider_result in
      early negb (bool_decide (result = GUARDIAN_SECURITY_WITNESS_OK))
        with (result, node, Some zero_record, w) ;;
      (GUARDIAN_SECURITY_WITNESS_OK, Some (record_position n i existing slot),
       Some (with_signature r signature), w)
  | _, _, _ => (GUARDIAN_SECURITY_WITNESS_ERROR_NULL_ARGUMENT, node, record, w)
  end.

Definition call_verify (node : guardian_security_witness_node_t) (algorithm key_id : Z)
    (message signature : list Z) (w : W) : guardian_security_witness_provider_result_t * W :=
  match wp_verify (wn_provider node) with
  | Some verify => verify (wp_context (wn_provider node)) algorithm key_id message signature w
  | None => (GUARDIAN_SECURITY_WITNESS_PROVIDER_FAILURE, w)
  end.

Definition guardian_security_witness_verify (node : option guardian_security_witness_node_t)
    (record : option guardian_security_witness_record_t) (w : W)
  : guardian_security_witness_result_t * W :=
  match node, record with
  | Some n, Some r =>
      early negb (wn_initialized n =? 1) with (GUARDIAN_SECURITY_WITNESS_ERROR_INVALID_CONFIG, w) ;;
      early negb (guardian_security_witness_record_structurally_valid (Some r))
        with (GUARDIAN_SECURITY_WITNESS_ERROR_INVALID_EVIDENCE, w) ;;
      early negb (wr_witness_node_id r =? mn_node_id (wn_self n))
            || negb (wr_witness_producer_id r =? mn_producer_id (wn_self n))
            || negb (wr_witness_key_id r =? mn_key_id (wn_self n))
        with (GUARDIAN_SECURITY_WITNESS_ERROR_INVALID_EVIDENCE, w) ;;
      let '(result, transcript) := witness_transcript r in
      early negb (bool_decide (result = GUARDIAN_SECURITY_WITNESS_OK)) with (result, w) ;;
      let '(provider_result, w) :=
        call_verify n (wr_signature_algorithm r) (wr_witness_key_id r) transcript (wr_signature r) w in
      (guardian_security_witness_map_provider provider_result, w)
  | _, _ => (GUARDIAN_SECURITY_WITNESS_ERROR_NULL_ARGUMENT, w)
  end.

Definition guardian_security_witness_can_actuate (node : option guardian_security_witness_node_t)
    (allowed : option Z) : guardian_security_witness_result_t * option Z :=
  match node, allowed with
  | Some _, Some _ => (GUARDIAN_SECURITY_WITNESS_ERROR_ACTUATION_PROHIBITED, Some 0)
  | _, _ => (GUARDIAN_SECURITY_WITNESS_ERROR_NULL_ARGUMENT, allowed)
  end.
End provider.

Arguments guardian_security_witness_sign_fn : clear implicits.
Arguments guardian_security_witness_verify_fn : clear implicits.
Arguments guardian_security_witness_provider_t : clear implicits.
Arguments guardian_security_witness_node_t : clear implicits.
