(* ===== verification/WitnessSafety.v ===== *)
(** * The witness signs each position once

    The transcript binds every field of a record; over any requests the positions
    that a witness signs for one subject strictly advance; what it signed it
    verifies. *)

From S2P Require Import Prelude Crypto MultiNode SecurityWitness.
From Stdlib Require Import Sorted.

(** ** The transcript *)

Record record_typed (r : guardian_security_witness_record_t) : Prop := {
  rt_schema : is_u8 (wr_schema_version r);
  rt_algorithm : is_u8 (wr_signature_algorithm r);
  rt_authority : is_u8 (wr_authority_flags r);
  rt_witness_node : is_u32 (wr_witness_node_id r);
  rt_witness_producer : is_u32 (wr_witness_producer_id r);
  rt_witness_key : is_u32 (wr_witness_key_id r);
  rt_subject_node : is_u32 (wr_subject_node_id r);
  rt_subject_producer : is_u32 (wr_subject_producer_id r);
  rt_subject_key : is_u32 (wr_subject_key_id r);
  rt_epoch : is_u32 (wr_epoch r);
  rt_sequence : is_u32 (wr_sequence r);
  rt_payload_length : is_u32 (wr_payload_length r);
  rt_digest : bytes (wr_payload_digest r) /\ length (wr_payload_digest r) = GUARDIAN_SHA256_SIZE;
  rt_signature : bytes (wr_signature r) /\
                 length (wr_signature r) = GUARDIAN_SECURITY_WITNESS_SIGNATURE_SIZE
}.

Lemma witness_fields_length r :
  length (wr_payload_digest r) = GUARDIAN_SHA256_SIZE -> length (witness_transcript_fields r) = 109%nat.
Proof.
  intros H. unfold witness_transcript_fields, guardian_security_witness_put_u32_be.
  rewrite !length_app, length_take, H, !put_u32_be_length. reflexivity.
Qed.

(** A buffer that is cleared and then written from its start. *)
Lemma take_cleared_blit n (fields : list Z) :
  (length fields <= n)%nat ->
  take (length fields) (blit (blit (replicate n 0) 0 (replicate n 0)) 0 fields) = fields.
Proof.
  intros H. rewrite take_blit_0 by lia. apply take_ge. lia.
Qed.

Lemma witness_transcript_valid r :
  guardian_security_witness_record_structurally_valid (Some r) = true ->
  length (wr_payload_digest r) = GUARDIAN_SHA256_SIZE ->
  witness_transcript r = (GUARDIAN_SECURITY_WITNESS_OK, witness_transcript_fields r).
Proof.
  intros Hv Hd. unfold witness_transcript, guardian_security_witness_build_transcript.
  rewrite Hv. cbn [negb]. rewrite Nat.ltb_irrefl. cbv zeta.
  pose proof (witness_fields_length r Hd) as Hl. unfold GUARDIAN_SECURITY_WITNESS_TRANSCRIPT_MAX_SIZE.
  rewrite (proj2 (Nat.ltb_ge _ _)) by lia. cbn [from_option id]. by rewrite take_cleared_blit by lia.
Qed.

Lemma witness_transcript_invalid r :
  guardian_security_witness_record_structurally_valid (Some r) = false ->
  witness_transcript r = (GUARDIAN_SECURITY_WITNESS_ERROR_INVALID_EVIDENCE, []).
Proof.
  intros Hv. unfold witness_transcript, guardian_security_witness_build_transcript. by rewrite Hv.
Qed.

(** The transcript covers the record without its signature. *)
Definition content (r : guardian_security_witness_record_t) : guardian_security_witness_record_t :=
  with_signature r [].

Lemma evidence_type_u8 r :
  guardian_security_witness_record_structurally_valid (Some r) = true ->
  u8 (wr_evidence_type r) = wr_evidence_type r.
Proof.
  cbn. unfold guardian_security_witness_evidence_type_valid. intros H. early_inv H E1. early_inv H E2.
  apply u8_id. unfold is_u8, GUARDIAN_SECURITY_WITNESS_EVIDENCE_INVALID,
    GUARDIAN_SECURITY_WITNESS_EVIDENCE_EXECUTION_RESULT in *. lia.
Qed.

(** Peel equal fields of equal lengths off an equation of buffers. *)
Ltac peel_field H E :=
  apply app_inj_1 in H as [E H]; [|by rewrite ?put_u32_be_length].

Lemma witness_transcript_injective r s :
  record_typed r -> record_typed s ->
  guardian_security_witness_record_structurally_valid (Some r) = true ->
  guardian_security_witness_record_structurally_valid (Some s) = true ->
  witness_transcript r = witness_transcript s -> content r = content s.
Proof.
  intros Hr Hs Hvr Hvs. destruct (rt_digest r Hr) as [_ Hdr], (rt_digest s Hs) as [_ Hds].
  rewrite !witness_transcript_valid by done. intros H. apply (f_equal snd) in H. cbn [snd] in H.
  unfold witness_transcript_fields, guardian_security_witness_put_u32_be in H.
  rewrite (evidence_type_u8 r Hvr), (evidence_type_u8 s Hvs) in H.
  apply app_inv_head in H. apply app_inj_1 in H as [E0 H]; [|done].
  peel_field H E1. peel_field H E2. peel_field H E3. peel_field H E4. peel_field H E5.
  peel_field H E6. peel_field H E7. peel_field H E8. peel_field H E9.
  rewrite !take_ge in H by (rewrite ?Hdr, ?Hds; done).
  destruct Hr, Hs.
  apply put_u32_be_inj in E1, E2, E3, E4, E5, E6, E7, E8, E9; try done.
  injection E0 as F1 F2 F3 F4. unfold content, with_signature.
  by rewrite F1, F2, F3, F4, E1, E2, E3, E4, E5, E6, E7, E8, E9, H.
Qed.

(** ** The subject table *)

Definition subject_ids (s : guardian_security_witness_subject_state_t) : Z * Z * Z :=
  (ws_subject_node_id s, ws_subject_producer_id s, ws_subject_key_id s).
Definition input_ids (i : guardian_security_witness_input_t) : Z * Z * Z :=
  (wi_subject_node_id i, wi_subject_producer_id i, wi_subject_key_id i).
Definition record_ids (r : guardian_security_witness_record_t) : Z * Z * Z :=
  (wr_subject_node_id r, wr_subject_producer_id r, wr_subject_key_id r).

Definition record_earlier (r s : guardian_security_witness_record_t) : Prop :=
  wr_epoch r < wr_epoch s \/ wr_epoch r = wr_epoch s /\ wr_sequence r < wr_sequence s.

Lemma subject_equal_true s i :
  guardian_security_witness_subject_equal (Some s) (Some i) = true <->
  ws_active s = 1 /\ subject_ids s = input_ids i.
Proof.
  cbn. unfold subject_ids, input_ids. rewrite !andb_true_iff, !Z.eqb_eq. split.
  - intros [[[? ?] ?] ?]. split; congruence.
  - intros [? [= ? ? ?]]. tauto.
Qed.

Lemma slot_search_spec found free none n : forall index free_index,
  (free_index = none \/ (free_index < index)%nat /\ free free_index = true) ->
  match slot_search found free none index n free_index with
  | (Some k, _) => (index <= k < index + n)%nat /\ found k = true
  | (None, f) =>
      (forall k, (index <= k < index + n)%nat -> found k = false) /\
      (f = none \/ (f < index + n)%nat /\ free f = true)
  end.
Proof.
  induction n as [|n IH]; intros index free_index Hf; cbn [slot_search].
  { split; [lia|]. destruct Hf as [|[? ?]]; [by left|right; split; [lia|done]]. }
  destruct (found index) eqn:E; [split; [lia|done]|].
  set (f' := if andb _ _ then index else free_index).
  assert (Hf' : f' = none \/ (f' < S index)%nat /\ free f' = true).
  { unfold f'. destruct (_ && _) eqn:Eg; [right|].
    { apply andb_true_iff in Eg as [_ Eg]. split; [lia|done]. }
    destruct Hf as [|[? ?]]; [by left|right; split; [lia|done]]. }
  specialize (IH (S index) f' Hf'). destruct (slot_search _ _ _ _ _ _) as [[k|] f].
  - destruct IH. split; [lia|done].
  - destruct IH as [Hall Hfree]. split.
    + intros k Hk. destruct (decide (k = index)) as [->|]; [done|]. apply Hall. lia.
    + destruct Hfree as [|[? ?]]; [by left|right; split; [lia|done]].
Qed.

(** What the search from the start of a table of [none] entries returns. *)
Lemma table_search_spec found free none :
  match slot_search found free none 0 none none with
  | (Some k, _) => (k < none)%nat /\ found k = true
  | (None, f) =>
      (forall k, (k < none)%nat -> found k = false) /\ (f = none \/ (f < none)%nat /\ free f = true)
  end.
Proof.
  pose proof (slot_search_spec found free none none 0 none (or_introl eq_refl)) as H.
  destruct (slot_search _ _ _ _ _ _) as [[k|] f]; [destruct H; split; [lia|done]|].
  destruct H as [Hall Hf]. split; [intros k Hk; apply Hall; lia|done].
Qed.

Lemma subject_slot_spec subjects i :
  match subject_slot subjects i with
  | (Some k, _) =>
      (k < 5)%nat /\ ws_active (subject_at subjects k) = 1 /\
      subject_ids (subject_at subjects k) = input_ids i
  | (None, f) =>
      (forall k, (k < 5)%nat ->
         ~ (ws_active (subject_at subjects k) = 1 /\ subject_ids (subject_at subjects k) = input_ids i)) /\
      (f = 5%nat \/ (f < 5)%nat /\ ws_active (subject_at subjects f) = 0)
  end.
Proof.
  pose proof (table_search_spec
    (fun index => guardian_security_witness_subject_equal (Some (subject_at subjects index)) (Some i))
    (fun index => ws_active (subject_at subjects index) =? 0) 5) as H.
  unfold subject_slot. destruct (slot_search _ _ _ _ _ _) as [[k|] f].
  - rewrite subject_equal_true in H. done.
  - destruct H as [Hall Hf]. split; [|destruct Hf as [|[? ?]]; [by left|right; split; [done|lia]]].
    intros k Hk Heq. apply subject_equal_true in Heq. by rewrite (Hall k Hk) in Heq.
Qed.

Lemma subject_at_insert subjects slot s k :
  (slot < length subjects)%nat ->
  subject_at (<[slot := s]> subjects) k = if decide (k = slot) then s else subject_at subjects k.
Proof.
  intros H. unfold subject_at. rewrite !nth_lookup. case_decide as E.
  - subst. by rewrite list_lookup_insert_eq.
  - by rewrite list_lookup_insert_ne.
Qed.

Section witness.
Context {C W : Type}.

(** The table covers the records signed so far: each has an active slot of its
    subject, at its position or later, and no two active slots share a subject. *)
Record table_covers (n : guardian_security_witness_node_t C W) (signed : list guardian_security_witness_record_t) : Prop := {
  tc_length : length (wn_subjects n) = GUARDIAN_SECURITY_WITNESS_MAX_SUBJECTS;
  tc_unique : forall j k, (j < 5)%nat -> (k < 5)%nat ->
    ws_active (subject_at (wn_subjects n) j) = 1 -> ws_active (subject_at (wn_subjects n) k) = 1 ->
    subject_ids (subject_at (wn_subjects n) j) = subject_ids (subject_at (wn_subjects n) k) -> j = k;
  tc_covers : forall r, In r signed -> exists k, (k < 5)%nat /\
    ws_active (subject_at (wn_subjects n) k) = 1 /\ subject_ids (subject_at (wn_subjects n) k) = record_ids r /\
    (wr_epoch r < ws_accepted_epoch (subject_at (wn_subjects n) k) \/
     wr_epoch r = ws_accepted_epoch (subject_at (wn_subjects n) k) /\
     wr_sequence r <= ws_accepted_sequence (subject_at (wn_subjects n) k))
}.

(** Positions of one subject advance; newest first. *)
Definition positions_advance (signed : list guardian_security_witness_record_t) : Prop :=
  StronglySorted (fun s r => record_ids r = record_ids s -> record_earlier r s) signed.

(** What a successful creation did. *)
Record created (n : guardian_security_witness_node_t C W) (i : guardian_security_witness_input_t) (n' : guardian_security_witness_node_t C W)
    (r : guardian_security_witness_record_t) : Prop := {
  cr_initialized : wn_initialized n = 1;
  cr_input : witness_input_invalid i = false;
  cr_record : content r = content (unsigned_record n i);
  cr_slot : exists existing slot,
    fst (subject_slot (wn_subjects n) i) = existing /\
    slot = default (snd (subject_slot (wn_subjects n) i)) existing /\
    n' = record_position n i existing slot /\
    match existing with
    | Some k => let s := subject_at (wn_subjects n) k in
        ws_accepted_epoch s < wi_epoch i \/
        ws_accepted_epoch s = wi_epoch i /\ ws_accepted_sequence s < wi_sequence i
    | None => (slot < 5)%nat
    end
}.

Lemma create_created (n : guardian_security_witness_node_t C W) i r0 w n' r w' :
  guardian_security_witness_create (Some n) (Some i) (Some r0) w =
    (GUARDIAN_SECURITY_WITNESS_OK, Some n', Some r, w') -> created n i n' r.
Proof.
  unfold guardian_security_witness_create. early_case E1. early_case E2.
  destruct (subject_slot (wn_subjects n) i) as [existing free] eqn:Es. cbv zeta.
  early_case E3. early_case E4. early_case E5.
  destruct (witness_transcript (unsigned_record n i)) as [result transcript].
  destruct (bool_decide_reflect (result = GUARDIAN_SECURITY_WITNESS_OK)) as [->|]; cbn [negb]; [|congruence].
  destruct (call_sign n transcript _ w) as [[pr signature] w1].
  destruct (bool_decide_reflect (guardian_security_witness_map_provider pr = GUARDIAN_SECURITY_WITNESS_OK))
    as [->|]; cbn [negb]; [|congruence].
  intros [= <- <- <-]. split; [lia|done|done|].
  exists existing, (default free existing).
  rewrite Es. split_and!; try done. destruct existing as [k|]; cbn [from_option id is_null negb andb] in *.
  - lia.
  - apply Nat.leb_gt in E5. exact E5.
Qed.

(** The table after a creation: one slot holds the subject at its new position, and
    no other active slot is that subject's. *)
Lemma created_slot n signed i n' r :
  table_covers n signed -> created n i n' r ->
  exists slot s, (slot < 5)%nat /\ wn_subjects n' = <[slot := s]> (wn_subjects n) /\
    ws_active s = 1 /\ subject_ids s = input_ids i /\
    ws_accepted_epoch s = wi_epoch i /\ ws_accepted_sequence s = wi_sequence i /\
    (ws_active (subject_at (wn_subjects n) slot) = 1 ->
     subject_ids (subject_at (wn_subjects n) slot) = input_ids i) /\
    forall k, (k < 5)%nat -> ws_active (subject_at (wn_subjects n) k) = 1 ->
      subject_ids (subject_at (wn_subjects n) k) = input_ids i ->
      k = slot /\ (ws_accepted_epoch (subject_at (wn_subjects n) k) < wi_epoch i \/
                   ws_accepted_epoch (subject_at (wn_subjects n) k) = wi_epoch i /\
                   ws_accepted_sequence (subject_at (wn_subjects n) k) < wi_sequence i).
Proof.
  intros [_ Huniq _] [_ _ _ (existing & slot & Hex & Hslot & -> & Hpos)].
  pose proof (subject_slot_spec (wn_subjects n) i) as Hs.
  destruct (subject_slot (wn_subjects n) i) as [ex f]. cbn [fst snd] in *. subst ex.
  unfold record_position. cbn [wn_subjects].
  destruct existing as [k|]; cbn [default from_option id] in Hslot; subst slot;
    (eexists _, _; split; [|split; [reflexivity|]]).
  - lia.
  - destruct Hs as (Hk & Ha & Hids). cbn. split_and!; try done.
    intros j Hj Haj Hidj. assert (j = k) as -> by (apply Huniq; [lia|lia|done..|congruence]). done.
  - done.
  - destruct Hs as [Hno Hf]. cbn. split_and!; try done.
    { intros Ha. destruct Hf as [->|[? ?]]; [lia|congruence]. }
    intros j Hj Haj Hidj. destruct (Hno j); [lia|done].
Qed.

(** A creation keeps the coverage, and its record is later than every signed record
    of the subject. *)
Lemma created_covers n signed i n' r :
  table_covers n signed -> created n i n' r ->
  table_covers n' (r :: signed) /\
  forall s, In s signed -> record_ids s = record_ids r -> record_earlier s r.
Proof.
  intros Ht Hc. destruct (created_slot n signed i n' r Ht Hc) as (slot & s & Hslot & Hsub & Ha & Hids & He & Hq & Hsame & Hown).
  destruct Ht as [Hlen Huniq Hcov]. destruct Hc as [_ _ Hr _].
  assert (Hri : record_ids r = input_ids i /\ wr_epoch r = wi_epoch i /\ wr_sequence r = wi_sequence i).
  { injection Hr as _ _ _ _ _ _ _ E1 E2 E3 E4 E5 _ _. unfold record_ids, input_ids. by rewrite E1, E2, E3. }
  destruct Hri as (Hri & Hre & Hrq).
  assert (Hat : forall k, subject_at (wn_subjects n') k = if decide (k = slot) then s else subject_at (wn_subjects n) k).
  { intros k. rewrite Hsub. apply subject_at_insert. by rewrite Hlen. }
  split; [split|].
  - by rewrite Hsub, length_insert.
  - intros j k Hj Hk. rewrite !Hat. repeat case_decide; subst; try done.
    + rewrite Hids. intros _ Hak E. by destruct (Hown k Hk Hak).
    + rewrite Hids. intros Haj _ E. by destruct (Hown j Hj Haj).
    + by apply Huniq.
  - intros q [<-|Hq'].
    + exists slot. rewrite Hat, decide_True by done. rewrite Hids, He, Hq, Hri, Hre, Hrq.
      split_and!; try done. right. split; [done|lia].
    + destruct (Hcov q Hq') as (k & Hk & Hak & Hidk & Hp). exists k. rewrite Hat.
      case_decide as E; [|done]. subst k. rewrite Hids, He, Hq.
      destruct (Hown slot Hslot Hak (Hsame Hak)) as [_ Hlt]. pose proof (Hsame Hak).
      split_and!; [done|done|congruence|lia].
  - intros q Hq' Eq. destruct (Hcov q Hq') as (k & Hk & Hak & Hidk & Hp).
    destruct (Hown k Hk Hak) as [_ Hlt]; [congruence|]. unfold record_earlier. rewrite Hre, Hrq. lia.
Qed.
(** ** Runs *)

(** The node after some requests, and the records it signed, newest first. *)
Definition witness_step
    (st : guardian_security_witness_node_t C W * list guardian_security_witness_record_t * W)
    (i : guardian_security_witness_input_t)
  : guardian_security_witness_node_t C W * list guardian_security_witness_record_t * W :=
  let '(n, signed, w) := st in
  let '(result, n', r, w') := guardian_security_witness_create (Some n) (Some i) (Some zero_record) w in
  (default n n',
   if bool_decide (result = GUARDIAN_SECURITY_WITNESS_OK) then default zero_record r :: signed else signed,
   w').

Definition witness_run (n : guardian_security_witness_node_t C W) (w : W)
    (inputs : list guardian_security_witness_input_t)
  : guardian_security_witness_node_t C W * list guardian_security_witness_record_t * W :=
  foldl witness_step (n, [], w) inputs.

(** A creation either succeeds as [created], or leaves the node as it was. *)
Lemma create_cases (n : guardian_security_witness_node_t C W) i r0 w :
  (exists n' r w', guardian_security_witness_create (Some n) (Some i) (Some r0) w =
     (GUARDIAN_SECURITY_WITNESS_OK, Some n', Some r, w')) \/
  (exists e w', guardian_security_witness_create (Some n) (Some i) (Some r0) w =
     (e, Some n, Some zero_record, w') /\ e <> GUARDIAN_SECURITY_WITNESS_OK).
Proof.
  unfold guardian_security_witness_create.
  case_match; [by eauto 10|]. case_match; [by eauto 10|].
  destruct (subject_slot _ _) as [existing free]. cbv zeta.
  case_match; [by eauto 10|]. case_match; [by eauto 10|]. case_match; [by eauto 10|].
  destruct (witness_transcript (unsigned_record n i)) as [result transcript].
  destruct (bool_decide_reflect (result = GUARDIAN_SECURITY_WITNESS_OK)); cbn [negb]; [|by eauto 10].
  destruct (call_sign n transcript _ w) as [[pr signature] w1].
  destruct (bool_decide_reflect (guardian_security_witness_map_provider pr = GUARDIAN_SECURITY_WITNESS_OK));
    cbn [negb]; by eauto 10.
Qed.

(** What a signed record says of the witness. *)
Definition names_witness (self : guardian_multinode_node_t) (r : guardian_security_witness_record_t) : Prop :=
  wr_witness_node_id r = mn_node_id self /\ wr_witness_producer_id r = mn_producer_id self /\
  wr_witness_key_id r = mn_key_id self.

Record run_ok (self : guardian_multinode_node_t)
    (st : guardian_security_witness_node_t C W * list guardian_security_witness_record_t * W) : Prop := {
  ro_self : wn_self st.1.1 = self;
  ro_covers : table_covers st.1.1 st.1.2;
  ro_advance : positions_advance st.1.2;
  ro_valid : Forall (fun r => guardian_security_witness_record_structurally_valid (Some r) = true /\
                              names_witness self r) st.1.2
}.

(** The validity of a record does not depend on its signature. *)
Lemma structurally_valid_content r s :
  content r = content s ->
  guardian_security_witness_record_structurally_valid (Some r) =
  guardian_security_witness_record_structurally_valid (Some s).
Proof.
  intros H. change (guardian_security_witness_record_structurally_valid (Some (content r)) =
    guardian_security_witness_record_structurally_valid (Some (content s))). by rewrite H.
Qed.

Lemma create_structurally_valid (n : guardian_security_witness_node_t C W) i r0 w n' r w' :
  guardian_security_witness_create (Some n) (Some i) (Some r0) w =
    (GUARDIAN_SECURITY_WITNESS_OK, Some n', Some r, w') ->
  guardian_security_witness_record_structurally_valid (Some r) = true.
Proof.
  intros H. pose proof (cr_record _ _ _ _ (create_created _ _ _ _ _ _ _ H)) as Hr.
  rewrite (structurally_valid_content _ _ Hr). revert H. unfold guardian_security_witness_create.
  early_case E1. early_case E2. destruct (subject_slot _ _) as [existing free]. cbv zeta.
  early_case E3. early_case E4. early_case E5.
  destruct (guardian_security_witness_record_structurally_valid (Some (unsigned_record n i))) eqn:Ev; [done|].
  by rewrite (witness_transcript_invalid _ Ev).
Qed.

Lemma run_step_ok self st i : run_ok self st -> run_ok self (witness_step st i).
Proof.
  destruct st as [[n signed] w]. intros [Hself Hcov Hadv Hval]. cbn [fst snd] in *. unfold witness_step.
  destruct (create_cases n i zero_record w) as [(n' & r & w' & E)|(e & w' & E & He)]; rewrite E.
  - rewrite bool_decide_true by done. cbn [from_option id].
    pose proof (create_created _ _ _ _ _ _ _ E) as Hc.
    destruct (created_covers n signed i n' r Hcov Hc) as [Hcov' Hlater].
    pose proof (create_structurally_valid _ _ _ _ _ _ _ E) as Hv.
    destruct Hc as [_ _ Hr (existing & slot & _ & _ & -> & _)]. split; cbn [fst snd]; try done.
    + constructor; [done|]. apply List.Forall_forall. intros q Hq Eq. by apply Hlater.
    + constructor; [|done]. split; [done|]. unfold names_witness.
      injection Hr as _ _ _ _ E5 E6 E7 _ _ _ _ _ _ _. by rewrite E5, E6, E7, Hself.
  - rewrite bool_decide_false by done. by split.
Qed.

Lemma foldl_run_ok self inputs : forall st, run_ok self st -> run_ok self (foldl witness_step st inputs).
Proof. induction inputs as [|i inputs IH]; intros st H; [done|]. by apply IH, run_step_ok. Qed.

Lemma fresh_table_covers (n : guardian_security_witness_node_t C W) :
  wn_subjects n = replicate GUARDIAN_SECURITY_WITNESS_MAX_SUBJECTS zero_subject -> table_covers n [].
Proof.
  intros E. split; rewrite E; [done| |done].
  intros j k Hj _. by do 5 (destruct j as [|j]; [done|]); lia.
Qed.

(** ** Configuration *)

Lemma witness_configure_spec null (n0 : guardian_security_witness_node_t C W) self p n :
  guardian_security_witness_configure null (Some n0) (Some self) (Some p) =
    (GUARDIAN_SECURITY_WITNESS_OK, Some n) ->
  legitimate self /\ mn_role self = GUARDIAN_NODE_ROLE_SECURITY_WITNESS /\
  n = WITNESS_NODE self p (replicate GUARDIAN_SECURITY_WITNESS_MAX_SUBJECTS zero_subject) 0 1 /\
  wp_signature_algorithm p = GUARDIAN_SECURITY_WITNESS_SIGNATURE_ED25519.
Proof.
  unfold guardian_security_witness_configure. rewrite validate_node_decide.
  early_case E1. early_case E2. early_case E3. early_case E4. early_case E5. early_case E6.
  intros [= <-]. apply negb_false_iff, bool_decide_eq_true in E1. split_and!; try done; lia.
Qed.

(** C10:whatever a configured witness is asked, the positions it signs for one
    subject strictly advance, so no two of its records share subject and position;
    every record is structurally valid, claims no authority and names the witness. *)
Theorem signed_positions_advance null (n0 : guardian_security_witness_node_t C W) self p n w inputs
    (Hc : guardian_security_witness_configure null (Some n0) (Some self) (Some p) =
          (GUARDIAN_SECURITY_WITNESS_OK, Some n)) :
  let signed := (witness_run n w inputs).1.2 in
  positions_advance signed /\
  Forall (fun r => guardian_security_witness_record_structurally_valid (Some r) = true /\
                   wr_authority_flags r = GUARDIAN_SECURITY_WITNESS_AUTHORITY_NONE /\
                   names_witness self r) signed /\
  (forall a, guardian_security_witness_can_actuate (Some (witness_run n w inputs).1.1) (Some a) =
             (GUARDIAN_SECURITY_WITNESS_ERROR_ACTUATION_PROHIBITED, Some 0)).
Proof.
  apply witness_configure_spec in Hc as (_ & _ & -> & _).
  assert (H : run_ok self (witness_run (WITNESS_NODE self p
    (replicate GUARDIAN_SECURITY_WITNESS_MAX_SUBJECTS zero_subject) 0 1) w inputs)).
  { unfold witness_run. apply foldl_run_ok. split; cbn [fst snd]; try done; [|constructor..].
    by apply fresh_table_covers. }
  destruct H as [_ _ Hadv Hval]. cbv zeta. split; [done|]. split; [|done].
  eapply Forall_impl; [exact Hval|]. cbn beta. intros r [Hv Hn]. split_and!; try done.
  revert Hv. cbn. early_case E1. early_case E2. early_case E3. early_case E4. lia.
Qed.
(** ** Providers that sign *)

(** A provider that answers: it signs every message under the key with a 64-byte
    signature, and verifies what it signed, then and later. *)
Class SigningProvider (p : guardian_security_witness_provider_t C W) (key_id : Z) : Prop := {
  signs_and_verifies message buffer w :
    exists signature w',
      (exists sign, wp_sign p = Some sign /\
         sign (wp_context p) (wp_signature_algorithm p) key_id message buffer w =
         (GUARDIAN_SECURITY_WITNESS_PROVIDER_OK, signature, w')) /\
      bytes signature /\ length signature = GUARDIAN_SECURITY_WITNESS_SIGNATURE_SIZE /\
      (exists verify, wp_verify p = Some verify /\ forall w'',
         fst (verify (wp_context p) (wp_signature_algorithm p) key_id message signature w'') =
         GUARDIAN_SECURITY_WITNESS_PROVIDER_OK)
}.

(** The slot that a request may use: its own at an earlier position, or a free one. *)
Definition slot_available (n : guardian_security_witness_node_t C W)
    (i : guardian_security_witness_input_t) : Prop :=
  match subject_slot (wn_subjects n) i with
  | (Some k, _) => let s := subject_at (wn_subjects n) k in
      ws_accepted_epoch s < wi_epoch i \/
      ws_accepted_epoch s = wi_epoch i /\ ws_accepted_sequence s < wi_sequence i
  | (None, f) => (f < 5)%nat
  end.

Lemma unsigned_valid (n : guardian_security_witness_node_t C W) i :
  legitimate (wn_self n) -> wp_signature_algorithm (wn_provider n) = GUARDIAN_SECURITY_WITNESS_SIGNATURE_ED25519 ->
  witness_input_invalid i = false ->
  guardian_security_witness_record_structurally_valid (Some (unsigned_record n i)) = true.
Proof.
  intros [] Ha Hi. unfold witness_input_invalid in Hi. rewrite !orb_false_iff, negb_false_iff in Hi.
  destruct_and!. cbn. rewrite Ha. match goal with H : _ = true |- _ => rewrite H end. cbn [negb Z.eqb Pos.eqb].
  unfold GUARDIAN_SECURITY_WITNESS_MAX_PAYLOAD in *.
  rewrite Nat.eqb_neq, Nat.ltb_ge in *.
  rewrite (u32_id (Z.of_nat _)) by (unfold is_u32; lia). change (u32 (Z.of_nat 256)) with 256.
  repeat (case_match; [lia|]). done.
Qed.

(** With such a provider a valid request at an available position is signed, and
    the witness, now or later, verifies the record. *)
Lemma create_signs (n : guardian_security_witness_node_t C W) i r0 w :
  SigningProvider (wn_provider n) (mn_key_id (wn_self n)) ->
  wn_initialized n = 1 -> legitimate (wn_self n) ->
  wp_signature_algorithm (wn_provider n) = GUARDIAN_SECURITY_WITNESS_SIGNATURE_ED25519 ->
  witness_input_invalid i = false -> slot_available n i ->
  exists n' r w', guardian_security_witness_create (Some n) (Some i) (Some r0) w =
    (GUARDIAN_SECURITY_WITNESS_OK, Some n', Some r, w') /\
    bytes (wr_signature r) /\ length (wr_signature r) = GUARDIAN_SECURITY_WITNESS_SIGNATURE_SIZE /\
    forall n'' w'', wn_self n'' = wn_self n -> wn_provider n'' = wn_provider n -> wn_initialized n'' = 1 ->
      fst (guardian_security_witness_verify (Some n'') (Some r) w'') = GUARDIAN_SECURITY_WITNESS_OK.
Proof.
  intros Hp Hinit Hself Ha Hi Hs. pose proof (unsigned_valid n i Hself Ha Hi) as Hv.
  pose proof (sha256_digest_length (default [] (wi_payload i)) (wi_payload_length i)) as Hd.
  destruct (signs_and_verifies (witness_transcript_fields (unsigned_record n i))
    (wr_signature (unsigned_record n i)) w) as (sg & w' & (sign & Es & Esign) & Hb & Hl & verify & Ev & Hver).
  unfold guardian_security_witness_create. rewrite Hinit, Hi. cbn [negb Z.eqb Pos.eqb].
  unfold slot_available in Hs.
  destruct (subject_slot _ _) as [existing free]. cbv zeta.
  rewrite (witness_transcript_valid _ Hv Hd), bool_decide_true by done. cbn [negb].
  unfold call_sign. rewrite Es, Esign. cbn [guardian_security_witness_map_provider].
  rewrite bool_decide_true by done. cbn [negb].
  exists (record_position n i existing (default free existing)), (with_signature (unsigned_record n i) sg), w'.
  split_and!; try done.
  - destruct existing as [k|]; cbn [from_option id is_null negb andb];
      [|by rewrite (proj2 (Nat.leb_gt GUARDIAN_SECURITY_WITNESS_MAX_SUBJECTS free) Hs)].
    cbv zeta in Hs. repeat (case_match; [lia|]). done.
  - intros n'' w'' Es' Ep Ei. unfold guardian_security_witness_verify. rewrite Ei, Es'. cbn [negb Z.eqb Pos.eqb].
    rewrite (structurally_valid_content _ (unsigned_record n i)), Hv by done.
    cbn [negb with_signature wr_witness_node_id wr_witness_producer_id wr_witness_key_id unsigned_record].
    rewrite !Z.eqb_refl. cbn [negb orb].
    rewrite (witness_transcript_valid (with_signature (unsigned_record n i) sg)) by done.
    rewrite bool_decide_true by done. cbn [negb]. unfold call_verify. rewrite Ep, Ev.
    specialize (Hver w''). change (witness_transcript_fields (with_signature _ sg))
      with (witness_transcript_fields (unsigned_record n i)).
    cbn [with_signature wr_signature_algorithm wr_witness_key_id wr_signature unsigned_record].
    destruct (verify _ _ _ _ _ _) as [pr w3]. cbn [fst] in *. by rewrite Hver.
Qed.
End witness.

(** ** An example *)

(** A provider whose signature is the digest of the message, twice. *)
Definition example_signature (message : list Z) : list Z :=
  let d := sha256_digest message (length message) in d ++ d.

Definition example_provider : guardian_security_witness_provider_t unit unit :=
  WITNESS_PROVIDER tt
    (Some (fun _ _ _ message _ w => (GUARDIAN_SECURITY_WITNESS_PROVIDER_OK, example_signature message, w)))
    (Some (fun _ _ _ message signature w =>
       (if bool_decide (signature = example_signature message)
        then GUARDIAN_SECURITY_WITNESS_PROVIDER_OK
        else GUARDIAN_SECURITY_WITNESS_PROVIDER_SIGNATURE_INVALID, w)))
    GUARDIAN_SECURITY_WITNESS_SIGNATURE_ED25519.

#[global] Instance example_provider_signs key_id : SigningProvider example_provider key_id.
Proof.
  split. intros message buffer w. exists (example_signature message), w.
  split; [by eexists|]. split; [apply bytes_app_2; apply sha256_digest_bytes|].
  split; [unfold example_signature; by rewrite length_app, !sha256_digest_length|].
  eexists. split; [done|]. intros []. cbn. by rewrite bool_decide_true.
Qed.

Definition example_witness_node : guardian_security_witness_node_t unit unit :=
  WITNESS_NODE example_witness example_provider
    (replicate GUARDIAN_SECURITY_WITNESS_MAX_SUBJECTS zero_subject) 0 1.

Definition example_witness_input (epoch sequence : Z) : guardian_security_witness_input_t :=
  WITNESS_INPUT 3 103 203 epoch sequence GUARDIAN_SECURITY_WITNESS_EVIDENCE_OBSERVATION (Some [1; 2; 3]) 3.

Lemma signed_positions_advance_witness :
  map wr_sequence (witness_run example_witness_node tt
    [example_witness_input 1 5; example_witness_input 1 5; example_witness_input 1 6]).1.2 = [6; 5] /\
  positions_advance (witness_run example_witness_node tt
    [example_witness_input 1 5; example_witness_input 1 5; example_witness_input 1 6]).1.2.
Proof.
  split; [by vm_compute|].
  apply (signed_positions_advance tt (zero_witness tt) example_witness example_provider example_witness_node tt).
  reflexivity.
Defined.
