(* ===== verification/SignedEvidence.v ===== *)
(** * Signed evidence

    Model of MultiNode/Src/guardian_signed_evidence.c: envelopes that a producer
    creates through the security witness, and their verification and acceptance
    into a hash chain per producer. The lookup that resolves a producer and its
    trust is external code, a function over a context [L] and the world [W] that
    the provider of the witness shares. The witness node is an object of its own
    that the context points to; the operations take and return it. *)

From S2P Require Import Prelude Crypto MultiNode SecurityWitness.

(** ** Data *)

Definition GUARDIAN_SIGNED_EVIDENCE_SCHEMA_VERSION : Z := 1.
Definition GUARDIAN_SIGNED_EVIDENCE_AUTHORITY_NONE : Z := 0.
Definition GUARDIAN_SIGNED_EVIDENCE_MAX_TRACKED_PRODUCERS : nat := 5.
Definition GUARDIAN_SIGNED_EVIDENCE_TRANSCRIPT_MAX_SIZE : nat := 192.
Definition GUARDIAN_SIGNED_EVIDENCE_DIGEST_INPUT_MAX_SIZE : nat := 320.
Definition GUARDIAN_SIGNED_EVIDENCE_DOMAIN : list Z :=
  Eval cbv in label_bytes "GUARDIAN-F401:M17:SIGNED-EVIDENCE:V1".
Definition GUARDIAN_SIGNED_EVIDENCE_DIGEST_DOMAIN : list Z :=
  Eval cbv in label_bytes "GUARDIAN-F401:M17:SIGNED-EVIDENCE-DIGEST:V1".

Definition GUARDIAN_SIGNED_EVIDENCE_CLASS_INVALID : Z := 0.
Definition GUARDIAN_SIGNED_EVIDENCE_CLASS_MEASUREMENT : Z := 1.
Definition GUARDIAN_SIGNED_EVIDENCE_CLASS_ANALYSIS : Z := 2.
Definition GUARDIAN_SIGNED_EVIDENCE_CLASS_FUSION : Z := 3.
Definition GUARDIAN_SIGNED_EVIDENCE_CLASS_SUPERVISION : Z := 4.
Definition GUARDIAN_SIGNED_EVIDENCE_CLASS_RECOVERY : Z := 5.

Inductive guardian_signed_evidence_trust_t :=
  | GUARDIAN_SIGNED_EVIDENCE_TRUST_UNKNOWN
  | GUARDIAN_SIGNED_EVIDENCE_TRUST_TRUSTED
  | GUARDIAN_SIGNED_EVIDENCE_TRUST_UNTRUSTED
  | GUARDIAN_SIGNED_EVIDENCE_TRUST_REVOKED.

#[global] Instance guardian_signed_evidence_trust_eq_dec : EqDecision guardian_signed_evidence_trust_t.
Proof. solve_decision. Defined.

Inductive guardian_signed_evidence_result_t :=
  | GUARDIAN_SIGNED_EVIDENCE_OK
  | GUARDIAN_SIGNED_EVIDENCE_ERROR_NULL_ARGUMENT
  | GUARDIAN_SIGNED_EVIDENCE_ERROR_INVALID_CONFIG
  | GUARDIAN_SIGNED_EVIDENCE_ERROR_INVALID_PRODUCER
  | GUARDIAN_SIGNED_EVIDENCE_ERROR_INVALID_ENVELOPE
  | GUARDIAN_SIGNED_EVIDENCE_ERROR_TRANSCRIPT
  | GUARDIAN_SIGNED_EVIDENCE_ERROR_SIGNATURE_INVALID
  | GUARDIAN_SIGNED_EVIDENCE_ERROR_KEY_UNKNOWN
  | GUARDIAN_SIGNED_EVIDENCE_ERROR_KEY_REVOKED
  | GUARDIAN_SIGNED_EVIDENCE_ERROR_PROVIDER_UNAVAILABLE
  | GUARDIAN_SIGNED_EVIDENCE_ERROR_PROVIDER_FAILURE
  | GUARDIAN_SIGNED_EVIDENCE_ERROR_UNTRUSTED
  | GUARDIAN_SIGNED_EVIDENCE_ERROR_UNAUTHORIZED_ROLE
  | GUARDIAN_SIGNED_EVIDENCE_ERROR_CHAIN_MISMATCH
  | GUARDIAN_SIGNED_EVIDENCE_ERROR_REPLAY_OR_REGRESSION
  | GUARDIAN_SIGNED_EVIDENCE_ERROR_TRACKING_TABLE_FULL
  | GUARDIAN_SIGNED_EVIDENCE_ERROR_ACTUATION_PROHIBITED.

#[global] Instance guardian_signed_evidence_result_eq_dec : EqDecision guardian_signed_evidence_result_t.
Proof. solve_decision. Defined.

Record guardian_signed_evidence_core_t := EVIDENCE_CORE {
  ec_schema_version : Z; ec_evidence_class : Z; ec_producer_role : Z; ec_actuation_authorized : Z;
  ec_producer_node_id : Z; ec_producer_id : Z; ec_producer_key_id : Z;
  ec_epoch : Z; ec_sequence : Z;
  ec_payload_digest : list Z;            (* payload_digest[32] *)
  ec_analysis_digest : list Z;           (* analysis_digest[32] *)
  ec_previous_evidence_digest : list Z   (* previous_evidence_digest[32] *)
}.

Record guardian_signed_evidence_envelope_t := EVIDENCE_ENVELOPE {
  ee_core : guardian_signed_evidence_core_t;
  ee_witness_record : guardian_security_witness_record_t;
  ee_evidence_digest : list Z            (* evidence_digest[32] *)
}.

Record guardian_signed_evidence_verdict_t := EVIDENCE_VERDICT {
  ev_signature_valid : Z; ev_trusted : Z; ev_authorized : Z; ev_chain_valid : Z; ev_fresh : Z;
  ev_accepted : Z; ev_actuation_authorized : Z
}.

Record guardian_signed_evidence_producer_state_t := EVIDENCE_PRODUCER {
  ep_producer_node_id : Z; ep_producer_id : Z; ep_producer_key_id : Z; ep_producer_role : Z;
  ep_accepted_epoch : Z; ep_accepted_sequence : Z;
  ep_last_evidence_digest : list Z;      (* last_evidence_digest[32] *)
  ep_active : Z
}.

Definition blank_digest : list Z := replicate GUARDIAN_SHA256_SIZE 0.
Definition zero_core : guardian_signed_evidence_core_t :=
  EVIDENCE_CORE 0 0 0 0 0 0 0 0 0 blank_digest blank_digest blank_digest.
Definition zero_evidence : guardian_signed_evidence_envelope_t :=
  EVIDENCE_ENVELOPE zero_core zero_record blank_digest.
Definition zero_producer : guardian_signed_evidence_producer_state_t :=
  EVIDENCE_PRODUCER 0 0 0 0 0 0 blank_digest 0.

(** ** Classes, roles and results *)

Definition guardian_signed_evidence_put_u32_be (value : Z) : list Z := put_u32_be value.

Definition guardian_signed_evidence_all_zero (value : list Z) : bool :=
  foldl (fun aggregate index => u8 (Z.lor aggregate (byte_at value index))) 0
    (seq 0 GUARDIAN_SHA256_SIZE) =? 0.

Definition guardian_signed_evidence_class_valid (evidence_class : Z) : bool :=
  (GUARDIAN_SIGNED_EVIDENCE_CLASS_INVALID <? evidence_class)
  && (evidence_class <=? GUARDIAN_SIGNED_EVIDENCE_CLASS_RECOVERY).

Definition guardian_signed_evidence_witness_type (evidence_class : Z) : Z :=
  if evidence_class =? GUARDIAN_SIGNED_EVIDENCE_CLASS_MEASUREMENT
  then GUARDIAN_SECURITY_WITNESS_EVIDENCE_OBSERVATION
  else if (evidence_class =? GUARDIAN_SIGNED_EVIDENCE_CLASS_ANALYSIS)
          || (evidence_class =? GUARDIAN_SIGNED_EVIDENCE_CLASS_FUSION)
  then GUARDIAN_SECURITY_WITNESS_EVIDENCE_EXECUTION_RESULT
  else if evidence_class =? GUARDIAN_SIGNED_EVIDENCE_CLASS_SUPERVISION
  then GUARDIAN_SECURITY_WITNESS_EVIDENCE_SUPERVISION
  else if evidence_class =? GUARDIAN_SIGNED_EVIDENCE_CLASS_RECOVERY
  then GUARDIAN_SECURITY_WITNESS_EVIDENCE_RECOVERY_REQUEST
  else GUARDIAN_SECURITY_WITNESS_EVIDENCE_INVALID.

Definition guardian_signed_evidence_role_authorized (evidence_class : Z)
    (resolved : option guardian_multinode_node_t) : bool :=
  match resolved with
  | None => false
  | Some n =>
      early negb (Z.land (mn_capabilities n) GUARDIAN_CAP_ACTUATION_GATE =? 0) with false ;;
      let holds role capability :=
        (mn_role n =? role) && (mn_authority_class n =? GUARDIAN_AUTHORITY_CLASS_OBSERVE)
        && negb (Z.land (mn_capabilities n) capability =? 0) in
      if evidence_class =? GUARDIAN_SIGNED_EVIDENCE_CLASS_MEASUREMENT
      then holds GUARDIAN_NODE_ROLE_ST_MEASUREMENT_REFERENCE GUARDIAN_CAP_SENSOR_ACQUISITION
      else if (evidence_class =? GUARDIAN_SIGNED_EVIDENCE_CLASS_ANALYSIS)
              || (evidence_class =? GUARDIAN_SIGNED_EVIDENCE_CLASS_FUSION)
      then holds GUARDIAN_NODE_ROLE_HIGH_COMPUTE_PROCESSING GUARDIAN_CAP_SIGNAL_PROCESSING
      else if evidence_class =? GUARDIAN_SIGNED_EVIDENCE_CLASS_SUPERVISION
      then holds GUARDIAN_NODE_ROLE_MCXN947_SUPERVISORY_PEER GUARDIAN_CAP_SUPERVISION
      else if evidence_class =? GUARDIAN_SIGNED_EVIDENCE_CLASS_RECOVERY
      then holds GUARDIAN_NODE_ROLE_MCXN947_SUPERVISORY_PEER GUARDIAN_CAP_RECOVERY_ASSIST
      else false
  end.

Definition guardian_signed_evidence_map_witness_result (result : guardian_security_witness_result_t)
  : guardian_signed_evidence_result_t :=
  match result with
  | GUARDIAN_SECURITY_WITNESS_OK => GUARDIAN_SIGNED_EVIDENCE_OK
  | GUARDIAN_SECURITY_WITNESS_ERROR_SIGNATURE_INVALID => GUARDIAN_SIGNED_EVIDENCE_ERROR_SIGNATURE_INVALID
  | GUARDIAN_SECURITY_WITNESS_ERROR_KEY_UNKNOWN => GUARDIAN_SIGNED_EVIDENCE_ERROR_KEY_UNKNOWN
  | GUARDIAN_SECURITY_WITNESS_ERROR_KEY_REVOKED => GUARDIAN_SIGNED_EVIDENCE_ERROR_KEY_REVOKED
  | GUARDIAN_SECURITY_WITNESS_ERROR_PROVIDER_UNAVAILABLE =>
      GUARDIAN_SIGNED_EVIDENCE_ERROR_PROVIDER_UNAVAILABLE
  | GUARDIAN_SECURITY_WITNESS_ERROR_PROVIDER_FAILURE => GUARDIAN_SIGNED_EVIDENCE_ERROR_PROVIDER_FAILURE
  | _ => GUARDIAN_SIGNED_EVIDENCE_ERROR_INVALID_ENVELOPE
  end.

(** ** Transcript and digest *)

(** The fields that the consecutive stores of the transcript write. *)
Definition evidence_transcript_fields (c : guardian_signed_evidence_core_t) : list Z :=
  GUARDIAN_SIGNED_EVIDENCE_DOMAIN
  ++ [ec_schema_version c; u8 (ec_evidence_class c); u8 (ec_producer_role c); ec_actuation_authorized c]
  ++ guardian_signed_evidence_put_u32_be (ec_producer_node_id c)
  ++ guardian_signed_evidence_put_u32_be (ec_producer_id c)
  ++ guardian_signed_evidence_put_u32_be (ec_producer_key_id c)
  ++ guardian_signed_evidence_put_u32_be (ec_epoch c)
  ++ guardian_signed_evidence_put_u32_be (ec_sequence c)
  ++ take GUARDIAN_SHA256_SIZE (ec_payload_digest c)
  ++ take GUARDIAN_SHA256_SIZE (ec_analysis_digest c)
  ++ take GUARDIAN_SHA256_SIZE (ec_previous_evidence_digest c).

Definition evidence_core_invalid (c : guardian_signed_evidence_core_t) : bool :=
  negb (ec_schema_version c =? GUARDIAN_SIGNED_EVIDENCE_SCHEMA_VERSION)
  || negb (guardian_signed_evidence_class_valid (ec_evidence_class c))
  || negb (ec_actuation_authorized c =? GUARDIAN_SIGNED_EVIDENCE_AUTHORITY_NONE)
  || (ec_producer_role c =? GUARDIAN_NODE_ROLE_INVALID)
  || (ec_producer_node_id c =? 0) || (ec_producer_id c =? 0) || (ec_producer_key_id c =? 0)
  || (ec_epoch c =? 0) || (ec_sequence c =? 0).

Definition guardian_signed_evidence_build_transcript (core : option guardian_signed_evidence_core_t)
    (output : option (list Z)) (output_capacity : nat) (output_length : option nat)
  : guardian_signed_evidence_result_t * option (list Z) * option nat :=
  let cleared := match output_length with None => None | Some _ => Some 0%nat end in
  match core, output, output_length with
  | Some c, Some out, Some _ =>
      early evidence_core_invalid c
        with (GUARDIAN_SIGNED_EVIDENCE_ERROR_INVALID_ENVELOPE, output, cleared) ;;
      early (output_capacity <? GUARDIAN_SIGNED_EVIDENCE_TRANSCRIPT_MAX_SIZE)%nat
        with (GUARDIAN_SIGNED_EVIDENCE_ERROR_TRANSCRIPT, output, cleared) ;;
      let blank := blit out 0 (replicate output_capacity 0) in
      let fields := evidence_transcript_fields c in
      early (GUARDIAN_SIGNED_EVIDENCE_TRANSCRIPT_MAX_SIZE <? length fields)%nat
        with (GUARDIAN_SIGNED_EVIDENCE_ERROR_TRANSCRIPT, Some blank, cleared) ;;
      (GUARDIAN_SIGNED_EVIDENCE_OK, Some (blit blank 0 fields), Some (length fields))
  | _, _, _ => (GUARDIAN_SIGNED_EVIDENCE_ERROR_NULL_ARGUMENT, output, cleared)
  end.

(** [uint8_t transcript[192]; size_t transcript_length = 0U;] and the call: the
    bytes that pointer and length designate afterwards. *)
Definition evidence_transcript (c : guardian_signed_evidence_core_t)
  : guardian_signed_evidence_result_t * list Z :=
  let '(result, transcript, transcript_length) :=
    guardian_signed_evidence_build_transcript (Some c)
      (Some (replicate GUARDIAN_SIGNED_EVIDENCE_TRANSCRIPT_MAX_SIZE 0))
      GUARDIAN_SIGNED_EVIDENCE_TRANSCRIPT_MAX_SIZE (Some 0%nat) in
  (result, take (default 0%nat transcript_length) (default [] transcript)).

(** The result and the digest, which is stored only on success. *)
Definition guardian_signed_evidence_compute_digest (c : guardian_signed_evidence_core_t)
    (witness_record : guardian_security_witness_record_t) (digest : list Z)
  : guardian_signed_evidence_result_t * list Z :=
  let '(result, transcript) := evidence_transcript c in
  early negb (bool_decide (result = GUARDIAN_SIGNED_EVIDENCE_OK)) with (result, digest) ;;
  early (GUARDIAN_SIGNED_EVIDENCE_DIGEST_INPUT_MAX_SIZE <?
         length GUARDIAN_SIGNED_EVIDENCE_DIGEST_DOMAIN + length transcript
         + GUARDIAN_SECURITY_WITNESS_SIGNATURE_SIZE)%nat
    with (GUARDIAN_SIGNED_EVIDENCE_ERROR_TRANSCRIPT, digest) ;;
  let digest_input := GUARDIAN_SIGNED_EVIDENCE_DIGEST_DOMAIN ++ transcript
    ++ take GUARDIAN_SECURITY_WITNESS_SIGNATURE_SIZE (wr_signature witness_record) in
  (GUARDIAN_SIGNED_EVIDENCE_OK, sha256_digest digest_input (length digest_input)).

(** ** The tracked producers *)

Definition producer_at (producers : list guardian_signed_evidence_producer_state_t) (i : nat)
  : guardian_signed_evidence_producer_state_t := nth i producers zero_producer.

Definition tracks (s : guardian_signed_evidence_producer_state_t) (c : guardian_signed_evidence_core_t)
  : bool :=
  (ep_active s =? 1) && (ep_producer_node_id s =? ec_producer_node_id c)
  && (ep_producer_id s =? ec_producer_id c) && (ep_producer_key_id s =? ec_producer_key_id c).

Section evidence.
Context {C L W : Type}.

(** The lookup may write the node and the trust it is given. *)
Definition guardian_signed_evidence_lookup_fn : Type :=
  L -> Z -> Z -> Z -> guardian_multinode_node_t -> guardian_signed_evidence_trust_t -> W ->
  Z * guardian_multinode_node_t * guardian_signed_evidence_trust_t * W.

Record guardian_signed_evidence_config_t := EVIDENCE_CONFIG {
  eg_lookup : option guardian_signed_evidence_lookup_fn;
  eg_lookup_context : L
}.

Record guardian_signed_evidence_t := EVIDENCE {
  se_witness : bool;                     (* witness != NULL *)
  se_config : guardian_signed_evidence_config_t;
  se_producers : list guardian_signed_evidence_producer_state_t;  (* producers[5] *)
  se_producer_count : nat;
  se_initialized : Z
}.

Definition zero_evidence_context (null : L) : guardian_signed_evidence_t :=
  EVIDENCE false (EVIDENCE_CONFIG None null)
    (replicate GUARDIAN_SIGNED_EVIDENCE_MAX_TRACKED_PRODUCERS zero_producer) 0 0.

(** The slot of the producer of [core], and the first free slot before it. *)
Definition guardian_signed_evidence_find_state (context : guardian_signed_evidence_t)
    (core : guardian_signed_evidence_core_t) : option nat * nat :=
  slot_search (fun index => tracks (producer_at (se_producers context) index) core)
    (fun index => ep_active (producer_at (se_producers context) index) =? 0)
    GUARDIAN_SIGNED_EVIDENCE_MAX_TRACKED_PRODUCERS 0 GUARDIAN_SIGNED_EVIDENCE_MAX_TRACKED_PRODUCERS
    GUARDIAN_SIGNED_EVIDENCE_MAX_TRACKED_PRODUCERS.

Definition guardian_signed_evidence_init (null : L) (context : option guardian_signed_evidence_t)
  : option guardian_signed_evidence_t :=
  match context with None => None | Some _ => Some (zero_evidence_context null) end.

Definition guardian_signed_evidence_configure (null : L) (context : option guardian_signed_evidence_t)
    (witness : option (guardian_security_witness_node_t C W))
    (config : option guardian_signed_evidence_config_t)
  : guardian_signed_evidence_result_t * option guardian_signed_evidence_t :=
  match context, witness, config with
  | Some _, Some n, Some g =>
      early negb (wn_initialized n =? 1) || is_null (eg_lookup g)
        with (GUARDIAN_SIGNED_EVIDENCE_ERROR_INVALID_CONFIG, context) ;;
      (GUARDIAN_SIGNED_EVIDENCE_OK,
       Some (EVIDENCE true g (se_producers (zero_evidence_context null))
               (se_producer_count (zero_evidence_context null)) 1))
  | _, _, _ => (GUARDIAN_SIGNED_EVIDENCE_ERROR_NULL_ARGUMENT, context)
  end.

(** ** Creation *)

Definition evidence_core (producer : guardian_multinode_node_t) (evidence_class epoch sequence : Z)
    (payload_digest analysis_digest previous_evidence_digest : list Z)
  : guardian_signed_evidence_core_t :=
  EVIDENCE_CORE GUARDIAN_SIGNED_EVIDENCE_SCHEMA_VERSION evidence_class (mn_role producer)
    GUARDIAN_SIGNED_EVIDENCE_AUTHORITY_NONE (mn_node_id producer) (mn_producer_id producer)
    (mn_key_id producer) epoch sequence
    (take GUARDIAN_SHA256_SIZE payload_digest) (take GUARDIAN_SHA256_SIZE analysis_digest)
    (take GUARDIAN_SHA256_SIZE previous_evidence_digest).

Definition evidence_input (core : guardian_signed_evidence_core_t) (transcript : list Z)
  : guardian_security_witness_input_t :=
  WITNESS_INPUT (ec_producer_node_id core) (ec_producer_id core) (ec_producer_key_id core)
    (ec_epoch core) (ec_sequence core) (guardian_signed_evidence_witness_type (ec_evidence_class core))
    (Some transcript) (length transcript).

(** [context->witness] designates the node [n]. *)
Definition guardian_signed_evidence_create (context : option guardian_signed_evidence_t)
    (n : guardian_security_witness_node_t C W) (producer : option guardian_multinode_node_t)
    (evidence_class epoch sequence : Z)
    (payload_digest analysis_digest previous_evidence_digest : option (list Z))
    (envelope : option guardian_signed_evidence_envelope_t) (w : W)
  : guardian_signed_evidence_result_t * guardian_security_witness_node_t C W
    * option guardian_signed_evidence_envelope_t * W :=
  match context, producer, payload_digest, analysis_digest, previous_evidence_digest, envelope with
  | Some x, Some producer, Some payload, Some analysis, Some previous, Some _ =>
      early negb (se_initialized x =? 1) || negb (se_witness x)
        with (GUARDIAN_SIGNED_EVIDENCE_ERROR_INVALID_CONFIG, n, Some zero_evidence, w) ;;
      early negb (bool_decide (guardian_multinode_validate_node (Some producer) = GUARDIAN_MULTINODE_OK))
            || negb (guardian_signed_evidence_class_valid evidence_class)
            || (epoch =? 0) || (sequence =? 0)
        with (GUARDIAN_SIGNED_EVIDENCE_ERROR_INVALID_PRODUCER, n, Some zero_evidence, w) ;;
      let core := evidence_core producer evidence_class epoch sequence payload analysis previous in
      let '(result, transcript) := evidence_transcript core in
      early negb (bool_decide (result = GUARDIAN_SIGNED_EVIDENCE_OK))
        with (result, n, Some (EVIDENCE_ENVELOPE core zero_record blank_digest), w) ;;
      let '(witness_result, n', record, w) :=
        guardian_security_witness_create (Some n) (Some (evidence_input core transcript))
          (Some zero_record) w in
      let n := default n n' in
      early negb (bool_decide (witness_result = GUARDIAN_SECURITY_WITNESS_OK))
        with (guardian_signed_evidence_map_witness_result witness_result, n, Some zero_evidence, w) ;;
      let record := default zero_record record in
      let '(result, digest) := guardian_signed_evidence_compute_digest core record blank_digest in
      early negb (bool_decide (result = GUARDIAN_SIGNED_EVIDENCE_OK))
        with (result, n, Some zero_evidence, w) ;;
      (GUARDIAN_SIGNED_EVIDENCE_OK, n, Some (EVIDENCE_ENVELOPE core record digest), w)
  | _, _, _, _, _, _ => (GUARDIAN_SIGNED_EVIDENCE_ERROR_NULL_ARGUMENT, n, envelope, w)
  end.

(** ** Verification and acceptance *)

(** The record names what the core says. *)
Definition envelope_mismatch (e : guardian_signed_evidence_envelope_t) : bool :=
  negb (wr_subject_node_id (ee_witness_record e) =? ec_producer_node_id (ee_core e))
  || negb (wr_subject_producer_id (ee_witness_record e) =? ec_producer_id (ee_core e))
  || negb (wr_subject_key_id (ee_witness_record e) =? ec_producer_key_id (ee_core e))
  || negb (wr_epoch (ee_witness_record e) =? ec_epoch (ee_core e))
  || negb (wr_sequence (ee_witness_record e) =? ec_sequence (ee_core e))
  || negb (wr_evidence_type (ee_witness_record e) =?
           guardian_signed_evidence_witness_type (ec_evidence_class (ee_core e))).

Definition producer_mismatch (core : guardian_signed_evidence_core_t) (resolved : guardian_multinode_node_t)
  : bool :=
  negb (mn_node_id resolved =? ec_producer_node_id core)
  || negb (mn_producer_id resolved =? ec_producer_id core)
  || negb (mn_key_id resolved =? ec_producer_key_id core)
  || negb (mn_role resolved =? ec_producer_role core)
  || negb (bool_decide (guardian_multinode_validate_node (Some resolved) = GUARDIAN_MULTINODE_OK))
  || negb (guardian_signed_evidence_role_authorized (ec_evidence_class core) (Some resolved)).

(** The stores of an acceptance into slot [slot]. *)
Definition accept_evidence (x : guardian_signed_evidence_t) (e : guardian_signed_evidence_envelope_t)
    (slot : nat) : guardian_signed_evidence_t :=
  let core := ee_core e in
  let state := producer_at (se_producers x) slot in
  let '(state, count) :=
    if ep_active state =? 0
    then (EVIDENCE_PRODUCER (ec_producer_node_id core) (ec_producer_id core) (ec_producer_key_id core)
            (ec_producer_role core) (ep_accepted_epoch zero_producer)
            (ep_accepted_sequence zero_producer) (ep_last_evidence_digest zero_producer) 1,
          S (se_producer_count x))
    else (state, se_producer_count x) in
  let state :=
    EVIDENCE_PRODUCER (ep_producer_node_id state) (ep_producer_id state) (ep_producer_key_id state)
      (ep_producer_role state) (ec_epoch core) (ec_sequence core)
      (take GUARDIAN_SHA256_SIZE (ee_evidence_digest e)) (ep_active state) in
  EVIDENCE (se_witness x) (se_config x) (<[slot := state]> (se_producers x)) count (se_initialized x).

(** The checks on the chain: a refusal with the verdict bits, or the slot. *)
Definition chain_check (x : guardian_signed_evidence_t) (core : guardian_signed_evidence_core_t)
  : (guardian_signed_evidence_result_t * guardian_signed_evidence_verdict_t) + nat :=
  let '(existing, free_index) := guardian_signed_evidence_find_state x core in
  match existing with
  | None =>
      early (GUARDIAN_SIGNED_EVIDENCE_MAX_TRACKED_PRODUCERS <=? free_index)%nat
        with inl (GUARDIAN_SIGNED_EVIDENCE_ERROR_TRACKING_TABLE_FULL, EVIDENCE_VERDICT 1 1 1 0 0 0 0) ;;
      early negb (guardian_signed_evidence_all_zero (ec_previous_evidence_digest core))
        with inl (GUARDIAN_SIGNED_EVIDENCE_ERROR_CHAIN_MISMATCH, EVIDENCE_VERDICT 1 1 1 0 0 0 0) ;;
      inr free_index
  | Some slot =>
      let state := producer_at (se_producers x) slot in
      early negb (guardian_crypto_constant_time_equal (Some (ec_previous_evidence_digest core))
                    (Some (ep_last_evidence_digest state)) GUARDIAN_SHA256_SIZE)
        with inl (GUARDIAN_SIGNED_EVIDENCE_ERROR_CHAIN_MISMATCH, EVIDENCE_VERDICT 1 1 1 0 0 0 0) ;;
      early (ec_epoch core <? ep_accepted_epoch state)
            || ((ec_epoch core =? ep_accepted_epoch state)
                && (ec_sequence core <=? ep_accepted_sequence state))
        with inl (GUARDIAN_SIGNED_EVIDENCE_ERROR_REPLAY_OR_REGRESSION,
                  EVIDENCE_VERDICT 1 1 1 1 0 0 0) ;;
      inr slot
  end.

Definition guardian_signed_evidence_verify_and_accept (context : option guardian_signed_evidence_t)
    (n : guardian_security_witness_node_t C W) (envelope : option guardian_signed_evidence_envelope_t)
    (verdict : option guardian_signed_evidence_verdict_t) (w : W)
  : guardian_signed_evidence_result_t * option guardian_signed_evidence_t
    * option guardian_signed_evidence_verdict_t * W :=
  let none := EVIDENCE_VERDICT 0 0 0 0 0 0 GUARDIAN_SIGNED_EVIDENCE_AUTHORITY_NONE in
  match context, envelope, verdict with
  | Some x, Some e, Some _ =>
      match eg_lookup (se_config x) with
      | Some lookup =>
          early negb (se_initialized x =? 1) || negb (se_witness x)
            with (GUARDIAN_SIGNED_EVIDENCE_ERROR_INVALID_CONFIG, context, Some none, w) ;;
          let '(result, transcript) := evidence_transcript (ee_core e) in
          early negb (bool_decide (result = GUARDIAN_SIGNED_EVIDENCE_OK))
            with (result, context, Some none, w) ;;
          early envelope_mismatch e
            with (GUARDIAN_SIGNED_EVIDENCE_ERROR_INVALID_ENVELOPE, context, Some none, w) ;;
          early negb (guardian_crypto_constant_time_equal
                        (Some (sha256_digest transcript (length transcript)))
                        (Some (wr_payload_digest (ee_witness_record e))) GUARDIAN_SHA256_SIZE)
            with (GUARDIAN_SIGNED_EVIDENCE_ERROR_SIGNATURE_INVALID, context, Some none, w) ;;
          let '(witness_result, w) :=
            guardian_security_witness_verify (Some n) (Some (ee_witness_record e)) w in
          early negb (bool_decide (witness_result = GUARDIAN_SECURITY_WITNESS_OK))
            with (guardian_signed_evidence_map_witness_result witness_result, context, Some none, w) ;;
          let signed := EVIDENCE_VERDICT 1 0 0 0 0 0 0 in
          let '(result, digest) :=
            guardian_signed_evidence_compute_digest (ee_core e) (ee_witness_record e) blank_digest in
          early negb (bool_decide (result = GUARDIAN_SIGNED_EVIDENCE_OK))
            with (result, context, Some signed, w) ;;
          early negb (guardian_crypto_constant_time_equal (Some digest) (Some (ee_evidence_digest e))
                        GUARDIAN_SHA256_SIZE)
            with (GUARDIAN_SIGNED_EVIDENCE_ERROR_INVALID_ENVELOPE, context, Some signed, w) ;;
          let '(found, resolved, trust, w) :=
            lookup (eg_lookup_context (se_config x)) (ec_producer_node_id (ee_core e))
              (ec_producer_id (ee_core e)) (ec_producer_key_id (ee_core e)) zero_node
              GUARDIAN_SIGNED_EVIDENCE_TRUST_UNKNOWN w in
          early found =? 0 with (GUARDIAN_SIGNED_EVIDENCE_ERROR_KEY_UNKNOWN, context, Some signed, w) ;;
          early bool_decide (trust = GUARDIAN_SIGNED_EVIDENCE_TRUST_REVOKED)
            with (GUARDIAN_SIGNED_EVIDENCE_ERROR_KEY_REVOKED, context, Some signed, w) ;;
          early negb (bool_decide (trust = GUARDIAN_SIGNED_EVIDENCE_TRUST_TRUSTED))
            with (GUARDIAN_SIGNED_EVIDENCE_ERROR_UNTRUSTED, context, Some signed, w) ;;
          early producer_mismatch (ee_core e) resolved
            with (GUARDIAN_SIGNED_EVIDENCE_ERROR_UNAUTHORIZED_ROLE, context,
                  Some (EVIDENCE_VERDICT 1 1 0 0 0 0 0), w) ;;
          match chain_check x (ee_core e) with
          | inl (result, v) => (result, context, Some v, w)
          | inr slot =>
              (GUARDIAN_SIGNED_EVIDENCE_OK, Some (accept_evidence x e slot),
               Some (EVIDENCE_VERDICT 1 1 1 1 1 1 GUARDIAN_SIGNED_EVIDENCE_AUTHORITY_NONE), w)
          end
      | None => (GUARDIAN_SIGNED_EVIDENCE_ERROR_INVALID_CONFIG, context, Some none, w)
      end
  | _, _, _ => (GUARDIAN_SIGNED_EVIDENCE_ERROR_NULL_ARGUMENT, context, verdict, w)
  end.

Definition guardian_signed_evidence_can_actuate (context : option guardian_signed_evidence_t)
    (allowed : option Z) : guardian_signed_evidence_result_t * option Z :=
  match context, allowed with
  | Some _, Some _ => (GUARDIAN_SIGNED_EVIDENCE_ERROR_ACTUATION_PROHIBITED, Some 0)
  | _, _ => (GUARDIAN_SIGNED_EVIDENCE_ERROR_NULL_ARGUMENT, allowed)
  end.
End evidence.

Arguments guardian_signed_evidence_lookup_fn : clear implicits.
Arguments guardian_signed_evidence_config_t : clear implicits.
Arguments guardian_signed_evidence_t : clear implicits.
