(* ===== verification/EvidenceSafety.v ===== *)
(** * Accepted evidence is a chain

    What the acceptance of an envelope establishes, and what a sequence of
    acceptances amounts to: one hash chain per producer, of envelopes that the
    witness verified for a trusted producer in an authorized role. *)

From S2P Require Import Prelude Crypto Wire MultiNode SecurityWitness WitnessSafety SignedEvidence.

(** ** Transcript and digest *)

Record core_typed (c : guardian_signed_evidence_core_t) : Prop := {
  ct_schema : is_u8 (ec_schema_version c);
  ct_role : is_u8 (ec_producer_role c);
  ct_authority : is_u8 (ec_actuation_authorized c);
  ct_node : is_u32 (ec_producer_node_id c);
  ct_producer : is_u32 (ec_producer_id c);
  ct_key : is_u32 (ec_producer_key_id c);
  ct_epoch : is_u32 (ec_epoch c);
  ct_sequence : is_u32 (ec_sequence c);
  ct_payload : bytes (ec_payload_digest c) /\ length (ec_payload_digest c) = GUARDIAN_SHA256_SIZE;
  ct_analysis : bytes (ec_analysis_digest c) /\ length (ec_analysis_digest c) = GUARDIAN_SHA256_SIZE;
  ct_previous : bytes (ec_previous_evidence_digest c) /\
                length (ec_previous_evidence_digest c) = GUARDIAN_SHA256_SIZE
}.

Record evidence_typed (e : guardian_signed_evidence_envelope_t) : Prop := {
  et_core : core_typed (ee_core e);
  et_record : record_typed (ee_witness_record e);
  et_digest : bytes (ee_evidence_digest e) /\ length (ee_evidence_digest e) = GUARDIAN_SHA256_SIZE
}.

Lemma evidence_fields_length c : core_typed c -> length (evidence_transcript_fields c) = 156%nat.
Proof.
  intros []. destruct ct_payload0, ct_analysis0, ct_previous0.
  unfold evidence_transcript_fields, guardian_signed_evidence_put_u32_be.
  rewrite !length_app, !length_take, !put_u32_be_length.
  repeat match goal with H : length _ = _ |- _ => rewrite H end. reflexivity.
Qed.

Lemma evidence_transcript_valid c :
  core_typed c -> evidence_core_invalid c = false ->
  evidence_transcript c = (GUARDIAN_SIGNED_EVIDENCE_OK, evidence_transcript_fields c).
Proof.
  intros Hc Hv. unfold evidence_transcript, guardian_signed_evidence_build_transcript.
  rewrite Hv, Nat.ltb_irrefl. cbv zeta. pose proof (evidence_fields_length c Hc) as Hl.
  unfold GUARDIAN_SIGNED_EVIDENCE_TRANSCRIPT_MAX_SIZE.
  rewrite (proj2 (Nat.ltb_ge _ _)) by lia. cbn [from_option id]. by rewrite take_cleared_blit by lia.
Qed.

Lemma evidence_transcript_invalid c :
  evidence_core_invalid c = true ->
  evidence_transcript c = (GUARDIAN_SIGNED_EVIDENCE_ERROR_INVALID_ENVELOPE, []).
Proof.
  intros Hv. unfold evidence_transcript, guardian_signed_evidence_build_transcript. by rewrite Hv.
Qed.

Lemma class_u8 c : evidence_core_invalid c = false -> u8 (ec_evidence_class c) = ec_evidence_class c.
Proof.
  unfold evidence_core_invalid, guardian_signed_evidence_class_valid,
    GUARDIAN_SIGNED_EVIDENCE_CLASS_INVALID, GUARDIAN_SIGNED_EVIDENCE_CLASS_RECOVERY.
  intros H. apply u8_id. unfold is_u8. lia.
Qed.

(** The transcript determines the core. *)
Lemma evidence_transcript_injective c d :
  core_typed c -> core_typed d -> evidence_core_invalid c = false -> evidence_core_invalid d = false ->
  evidence_transcript_fields c = evidence_transcript_fields d -> c = d.
Proof.
  intros Hc Hd Hvc Hvd H. unfold evidence_transcript_fields, guardian_signed_evidence_put_u32_be in H.
  rewrite (class_u8 c Hvc), (class_u8 d Hvd), (u8_id _ (ct_role c Hc)), (u8_id _ (ct_role d Hd)) in H.
  apply app_inv_head in H. apply app_inj_1 in H as [E0 H]; [|done].
  peel_field H E1. peel_field H E2. peel_field H E3. peel_field H E4. peel_field H E5.
  destruct Hc as [_ _ _ ? ? ? ? ? [_ Hp] [_ Ha] [_ Hq]], Hd as [_ _ _ ? ? ? ? ? [_ Hp'] [_ Ha'] [_ Hq']].
  rewrite !take_ge in H by lia.
  apply app_inj_1 in H as [E6 H]; [|congruence]. apply app_inj_1 in H as [E7 H]; [|congruence].
  apply put_u32_be_inj in E1, E2, E3, E4, E5; try done.
  injection E0 as F1 F2 F3 F4. destruct c, d. cbn in *. by subst.
Qed.

(** The digest of an envelope: of its transcript and the signature over it. *)
Definition evidence_digest (c : guardian_signed_evidence_core_t) (signature : list Z) : list Z :=
  let input := GUARDIAN_SIGNED_EVIDENCE_DIGEST_DOMAIN ++ evidence_transcript_fields c ++ signature in
  sha256_digest input (length input).

Lemma digest_domain_length : length GUARDIAN_SIGNED_EVIDENCE_DIGEST_DOMAIN = 43%nat.
Proof. reflexivity. Qed.

Lemma compute_digest_spec c r digest :
  core_typed c -> evidence_core_invalid c = false ->
  length (wr_signature r) = GUARDIAN_SECURITY_WITNESS_SIGNATURE_SIZE ->
  guardian_signed_evidence_compute_digest c r digest =
  (GUARDIAN_SIGNED_EVIDENCE_OK, evidence_digest c (wr_signature r)).
Proof.
  intros Hc Hv Hs. unfold guardian_signed_evidence_compute_digest.
  rewrite evidence_transcript_valid, bool_decide_true by done. cbn [negb].
  rewrite evidence_fields_length, digest_domain_length, (take_ge (wr_signature r)) by (done || lia).
  rewrite (proj2 (Nat.ltb_ge _ _)); [reflexivity|].
  unfold GUARDIAN_SECURITY_WITNESS_SIGNATURE_SIZE, GUARDIAN_SIGNED_EVIDENCE_DIGEST_INPUT_MAX_SIZE. lia.
Qed.

(** ** What an acceptance checks *)

(** The envelope is what it claims to be: core and record agree, the record
    commits to the transcript, the digest is that of transcript and signature. *)
Record coherent (e : guardian_signed_evidence_envelope_t) : Prop := {
  ch_core : evidence_core_invalid (ee_core e) = false;
  ch_match : envelope_mismatch e = false;
  ch_payload : wr_payload_digest (ee_witness_record e) =
    sha256_digest (evidence_transcript_fields (ee_core e)) 156;
  ch_digest : ee_evidence_digest e = evidence_digest (ee_core e) (wr_signature (ee_witness_record e))
}.

(** A producer that may give evidence of the class: trusted, legitimate and in the
    role that the class demands. *)
Record authorized (c : guardian_signed_evidence_core_t) (p : guardian_multinode_node_t) : Prop := {
  au_node_id : mn_node_id p = ec_producer_node_id c;
  au_producer_id : mn_producer_id p = ec_producer_id c;
  au_key_id : mn_key_id p = ec_producer_key_id c;
  au_role : mn_role p = ec_producer_role c;
  au_legitimate : legitimate p;
  au_class : guardian_signed_evidence_role_authorized (ec_evidence_class c) (Some p) = true
}.

Lemma producer_mismatch_spec c p : producer_mismatch c p = false <-> authorized c p.
Proof.
  unfold producer_mismatch.
  rewrite validate_node_decide, !orb_false_iff, !negb_false_iff, bool_decide_eq_true, !Z.eqb_eq.
  split; [intros; destruct_and!; by split|by intros []].
Qed.

(** No authorized producer can actuate. *)
Lemma authorized_no_gate c p :
  authorized c p -> Z.land (mn_capabilities p) GUARDIAN_CAP_ACTUATION_GATE = 0.
Proof.
  intros []. revert au_class0. cbn.
  destruct (Z.eqb_spec (Z.land (mn_capabilities p) GUARDIAN_CAP_ACTUATION_GATE) 0); done.
Qed.

Lemma constant_time_equal_32 l r :
  bytes l /\ length l = GUARDIAN_SHA256_SIZE -> bytes r /\ length r = GUARDIAN_SHA256_SIZE ->
  guardian_crypto_constant_time_equal (Some l) (Some r) GUARDIAN_SHA256_SIZE = true <-> l = r.
Proof.
  intros [Hl El] [Hr Er]. unfold GUARDIAN_SHA256_SIZE in *.
  rewrite guardian_crypto_constant_time_equal_spec by (done || lia). by rewrite !take_ge by lia.
Qed.

Lemma all_zero_spec v :
  bytes v -> length v = GUARDIAN_SHA256_SIZE ->
  guardian_signed_evidence_all_zero v = true <-> v = blank_digest.
Proof.
  intros Hv Hl. unfold guardian_signed_evidence_all_zero, blank_digest.
  by rewrite Z.eqb_eq, or_loop_zeros.
Qed.

Lemma map_witness_ok r :
  guardian_signed_evidence_map_witness_result r = GUARDIAN_SIGNED_EVIDENCE_OK <->
  r = GUARDIAN_SECURITY_WITNESS_OK.
Proof. by destruct r. Qed.

Section evidence.
Context {C L W : Type}.

(** A context that [configure] made ready, with its lookup. *)
Definition ready (x : guardian_signed_evidence_t L W) (lookup : guardian_signed_evidence_lookup_fn L W) : Prop :=
  se_initialized x = 1 /\ se_witness x = true /\ eg_lookup (se_config x) = Some lookup.

Definition resolve (x : guardian_signed_evidence_t L W) (lookup : guardian_signed_evidence_lookup_fn L W)
    (c : guardian_signed_evidence_core_t) (w : W)
  : Z * guardian_multinode_node_t * guardian_signed_evidence_trust_t * W :=
  lookup (eg_lookup_context (se_config x)) (ec_producer_node_id c) (ec_producer_id c)
    (ec_producer_key_id c) zero_node GUARDIAN_SIGNED_EVIDENCE_TRUST_UNKNOWN w.

(** The conditions of acceptance, in the order of the code: the witness verifies
    the record in world [w], the lookup then resolves the producer [p] as trusted,
    leaving world [w']. *)
Record acceptance (x : guardian_signed_evidence_t L W) (lookup : guardian_signed_evidence_lookup_fn L W)
    (n : guardian_security_witness_node_t C W) (e : guardian_signed_evidence_envelope_t) (w : W)
    (p : guardian_multinode_node_t) (slot : nat) (w' : W) : Prop := {
  ac_coherent : coherent e;
  ac_verified : fst (guardian_security_witness_verify (Some n) (Some (ee_witness_record e)) w) =
                GUARDIAN_SECURITY_WITNESS_OK;
  ac_resolved : exists found, found <> 0 /\
    resolve x lookup (ee_core e)
      (snd (guardian_security_witness_verify (Some n) (Some (ee_witness_record e)) w)) =
    (found, p, GUARDIAN_SIGNED_EVIDENCE_TRUST_TRUSTED, w');
  ac_authorized : authorized (ee_core e) p;
  ac_chain : chain_check x (ee_core e) = inr slot
}.

Lemma payload_digest_check e :
  evidence_typed e ->
  guardian_crypto_constant_time_equal
    (Some (sha256_digest (evidence_transcript_fields (ee_core e)) (length (evidence_transcript_fields (ee_core e)))))
    (Some (wr_payload_digest (ee_witness_record e))) GUARDIAN_SHA256_SIZE = true <->
  wr_payload_digest (ee_witness_record e) = sha256_digest (evidence_transcript_fields (ee_core e)) 156.
Proof.
  intros [Hc Hr _]. rewrite evidence_fields_length by done.
  rewrite constant_time_equal_32; [by split|split; [apply sha256_digest_bytes|apply sha256_digest_length]|].
  apply Hr.
Qed.

Lemma evidence_digest_check e :
  evidence_typed e ->
  guardian_crypto_constant_time_equal (Some (evidence_digest (ee_core e) (wr_signature (ee_witness_record e))))
    (Some (ee_evidence_digest e)) GUARDIAN_SHA256_SIZE = true <->
  ee_evidence_digest e = evidence_digest (ee_core e) (wr_signature (ee_witness_record e)).
Proof.
  intros [_ _ Hd]. rewrite constant_time_equal_32; [by split|split|done];
    [apply sha256_digest_bytes|apply sha256_digest_length].
Qed.

(** What is returned when the envelope is refused. *)
Definition refused (x : guardian_signed_evidence_t L W)
    (res : guardian_signed_evidence_result_t * option (guardian_signed_evidence_t L W)
           * option guardian_signed_evidence_verdict_t * W) : Prop :=
  exists r v w', res = (r, Some x, Some v, w') /\ r <> GUARDIAN_SIGNED_EVIDENCE_OK /\
                 ev_accepted v = 0 /\ ev_actuation_authorized v = 0.

Definition accepted_result (x : guardian_signed_evidence_t L W) (e : guardian_signed_evidence_envelope_t)
    (slot : nat) (w' : W)
  : guardian_signed_evidence_result_t * option (guardian_signed_evidence_t L W)
    * option guardian_signed_evidence_verdict_t * W :=
  (GUARDIAN_SIGNED_EVIDENCE_OK, Some (accept_evidence x e slot), Some (EVIDENCE_VERDICT 1 1 1 1 1 1 0), w').

Lemma chain_check_refusal x c r v :
  chain_check (L := L) (W := W) x c = inl (r, v) ->
  r <> GUARDIAN_SIGNED_EVIDENCE_OK /\ ev_accepted v = 0 /\ ev_actuation_authorized v = 0.
Proof.
  unfold chain_check. destruct (guardian_signed_evidence_find_state x c) as [[slot|] free]; cbv zeta.
  - case_match; [by intros [= <- <-]|]. case_match; by intros [= <- <-].
  - case_match; [by intros [= <- <-]|]. case_match; by intros [= <- <-].
Qed.

(** One step of the case analysis: the guard holds and the call is refused, or it
    does not and the call goes on. *)
Ltac refuse_or E := match goal with |- context [if ?c then _ else _] =>
  destruct c eqn:E;
    [right; do 3 eexists; split; [reflexivity|split; [discriminate|split; reflexivity]]|] end.

Lemma verify_cases x lookup n e v w :
  ready x lookup -> evidence_typed e ->
  let res := guardian_signed_evidence_verify_and_accept (C := C) (Some x) n (Some e) (Some v) w in
  (exists p slot w', acceptance x lookup n e w p slot w' /\ res = accepted_result x e slot w') \/
  refused x res.
Proof.
  intros (Hi & Hw & Hl) He. cbv zeta. unfold guardian_signed_evidence_verify_and_accept, refused.
  rewrite Hl, Hi, Hw. cbn [negb orb Z.eqb Pos.eqb]. pose proof (et_core e He) as Hc.
  destruct (evidence_core_invalid (ee_core e)) eqn:Ecore.
  { rewrite evidence_transcript_invalid by done. right. by do 3 eexists. }
  rewrite evidence_transcript_valid, bool_decide_true by done. cbn [negb].
  refuse_or Ematch. refuse_or Epay. apply negb_false_iff, payload_digest_check in Epay; [|done].
  destruct (guardian_security_witness_verify (Some n) (Some (ee_witness_record e)) w) as [wr w1] eqn:Ever.
  destruct (bool_decide_reflect (wr = GUARDIAN_SECURITY_WITNESS_OK)) as [->|Hwr]; cbn [negb];
    [|right; do 3 eexists; split; [done|]; by rewrite map_witness_ok].
  rewrite compute_digest_spec, bool_decide_true by (done || apply He). cbn [negb].
  refuse_or Edig. apply negb_false_iff, evidence_digest_check in Edig; [|done].
  fold (resolve x lookup (ee_core e) w1).
  destruct (resolve x lookup (ee_core e) w1) as [[[found p] trust] w2] eqn:Eres.
  refuse_or Efound. refuse_or Erev. refuse_or Etrust. refuse_or Eauth.
  apply negb_false_iff, bool_decide_eq_true in Etrust as ->. apply producer_mismatch_spec in Eauth.
  destruct (chain_check x (ee_core e)) as [[r v']|slot] eqn:Echain.
  - right. apply chain_check_refusal in Echain. by do 3 eexists.
  - left. exists p, slot, w2. split; [|reflexivity]. split; rewrite ?Ever; [by split|done| |done|done].
    exists found. split; [lia|done].
Qed.

Lemma verify_accepts x lookup n e v w p slot w' :
  ready x lookup -> evidence_typed e -> acceptance x lookup n e w p slot w' ->
  guardian_signed_evidence_verify_and_accept (C := C) (Some x) n (Some e) (Some v) w =
  accepted_result x e slot w'.
Proof.
  intros (Hi & Hw & Hl) He [[Hcore Hmatch Hpay Hdig] Hver (found & Hf & Hres) Hauth Hchain].
  pose proof (et_core e He) as Hc. unfold guardian_signed_evidence_verify_and_accept.
  rewrite Hl, Hi, Hw. cbn [negb orb Z.eqb Pos.eqb].
  rewrite evidence_transcript_valid, bool_decide_true, Hmatch by done. cbn [negb].
  rewrite (proj2 (payload_digest_check e He) Hpay). cbn [negb].
  destruct (guardian_security_witness_verify (Some n) (Some (ee_witness_record e)) w) as [wr w1].
  cbn [fst snd] in *. subst wr. rewrite bool_decide_true by done. cbn [negb].
  rewrite compute_digest_spec, bool_decide_true by (done || apply He). cbn [negb].
  rewrite (proj2 (evidence_digest_check e He) Hdig). cbn [negb].
  fold (resolve x lookup (ee_core e) w1). rewrite Hres, (proj2 (Z.eqb_neq _ _) Hf).
  rewrite bool_decide_false, bool_decide_true, (proj2 (producer_mismatch_spec _ _) Hauth) by done. cbn [negb].
  by rewrite Hchain.
Qed.

(** an envelope is accepted exactly under the conditions of acceptance: core,
    record and digests agree, the witness verifies its signature, the producer is
    resolved, trusted, legitimate and in the role of the class, without the
    actuation gate, and the envelope continues the chain of the producer. The
    verdict never authorizes actuation, and a refusal changes nothing. *)
Theorem evidence_acceptance_exact x lookup n e v w (Hr : ready x lookup) (He : evidence_typed e) :
  let '(r, x', v', w') :=
    guardian_signed_evidence_verify_and_accept (C := C) (Some x) n (Some e) (Some v) w in
  (r = GUARDIAN_SIGNED_EVIDENCE_OK <-> exists p slot w'', acceptance x lookup n e w p slot w'') /\
  (r = GUARDIAN_SIGNED_EVIDENCE_OK ->
   exists p slot, acceptance x lookup n e w p slot w' /\ x' = Some (accept_evidence x e slot) /\
     Z.land (mn_capabilities p) GUARDIAN_CAP_ACTUATION_GATE = 0) /\
  (r <> GUARDIAN_SIGNED_EVIDENCE_OK -> x' = Some x /\ exists v'', v' = Some v'' /\ ev_accepted v'' = 0) /\
  (exists v'', v' = Some v'' /\ ev_actuation_authorized v'' = 0).
Proof.
  destruct (verify_cases x lookup n e v w Hr He) as [(p & slot & w1 & Ha & E)|(r & v1 & w1 & E & Hno & Hv & Hact)];
    cbv zeta in E; rewrite E.
  - unfold accepted_result. split_and!; [by split; eauto| |done|by eauto].
    intros _. exists p, slot. split_and!; try done. by apply (authorized_no_gate _ _ (ac_authorized _ _ _ _ _ _ _ _ Ha)).
  - split_and!; [|done|by eauto|by eauto]. split; [done|]. intros (p & slot & w2 & Ha).
    rewrite (verify_accepts x lookup n e v w p slot w2 Hr He Ha) in E. by injection E as <- _ _ _.
Qed.
End evidence.

(** ** The chain of a producer *)

Definition core_ids (c : guardian_signed_evidence_core_t) : Z * Z * Z :=
  (ec_producer_node_id c, ec_producer_id c, ec_producer_key_id c).
Definition producer_ids (s : guardian_signed_evidence_producer_state_t) : Z * Z * Z :=
  (ep_producer_node_id s, ep_producer_id s, ep_producer_key_id s).

Definition evidence_earlier (d e : guardian_signed_evidence_envelope_t) : Prop :=
  ec_epoch (ee_core d) < ec_epoch (ee_core e) \/
  ec_epoch (ee_core d) = ec_epoch (ee_core e) /\ ec_sequence (ee_core d) < ec_sequence (ee_core e).

(** The envelopes of one producer among [es]. *)
Definition of_producer (ids : Z * Z * Z) (es : list guardian_signed_evidence_envelope_t)
  : list guardian_signed_evidence_envelope_t :=
  List.filter (fun e => bool_decide (core_ids (ee_core e) = ids)) es.

(** An envelope begins a chain with the zero digest, or continues the last one by
    its digest and at a later position. *)
Definition continues (last : option guardian_signed_evidence_envelope_t)
    (e : guardian_signed_evidence_envelope_t) : Prop :=
  match last with
  | None => ec_previous_evidence_digest (ee_core e) = blank_digest
  | Some d => ec_previous_evidence_digest (ee_core e) = ee_evidence_digest d /\ evidence_earlier d e
  end.

(** Newest first. *)
Fixpoint hash_chain (es : list guardian_signed_evidence_envelope_t) : Prop :=
  match es with
  | [] => True
  | e :: es => continues (hd_error es) e /\ hash_chain es
  end.

Lemma tracks_true s c : tracks s c = true <-> ep_active s = 1 /\ producer_ids s = core_ids c.
Proof.
  unfold tracks, producer_ids, core_ids. rewrite !andb_true_iff, !Z.eqb_eq. split.
  - intros [[[? ?] ?] ?]. split; congruence.
  - intros [? [= ? ? ?]]. tauto.
Qed.

Lemma producer_at_insert producers slot s k :
  (slot < length producers)%nat ->
  producer_at (<[slot := s]> producers) k = if decide (k = slot) then s else producer_at producers k.
Proof.
  intros H. unfold producer_at. rewrite !nth_lookup. case_decide as E.
  - subst. by rewrite list_lookup_insert_eq.
  - by rewrite list_lookup_insert_ne.
Qed.

(** The state of a slot is that of the last accepted envelope. *)
Definition slot_follows (s : guardian_signed_evidence_producer_state_t)
    (e : guardian_signed_evidence_envelope_t) : Prop :=
  ep_last_evidence_digest s = ee_evidence_digest e /\
  ep_accepted_epoch s = ec_epoch (ee_core e) /\ ep_accepted_sequence s = ec_sequence (ee_core e).

Section chain.
Context {C L W : Type}.

(** Each slot is free or holds the last of its producer's accepted envelopes, and
    each producer with an accepted envelope has one slot. *)
Record tracked (x : guardian_signed_evidence_t L W) (accepted : list guardian_signed_evidence_envelope_t)
  : Prop := {
  tk_length : length (se_producers x) = GUARDIAN_SIGNED_EVIDENCE_MAX_TRACKED_PRODUCERS;
  tk_active k : (k < 5)%nat ->
    ep_active (producer_at (se_producers x) k) = 0 \/ ep_active (producer_at (se_producers x) k) = 1;
  tk_unique j k : (j < 5)%nat -> (k < 5)%nat ->
    ep_active (producer_at (se_producers x) j) = 1 -> ep_active (producer_at (se_producers x) k) = 1 ->
    producer_ids (producer_at (se_producers x) j) = producer_ids (producer_at (se_producers x) k) -> j = k;
  tk_follows k : (k < 5)%nat -> ep_active (producer_at (se_producers x) k) = 1 ->
    exists e, hd_error (of_producer (producer_ids (producer_at (se_producers x) k)) accepted) = Some e /\
              slot_follows (producer_at (se_producers x) k) e;
  tk_covers e : In e accepted -> exists k, (k < 5)%nat /\
    ep_active (producer_at (se_producers x) k) = 1 /\
    producer_ids (producer_at (se_producers x) k) = core_ids (ee_core e);
  tk_typed : Forall evidence_typed accepted
}.

Lemma find_state_spec (x : guardian_signed_evidence_t L W) c :
  match guardian_signed_evidence_find_state x c with
  | (Some k, _) => (k < 5)%nat /\ ep_active (producer_at (se_producers x) k) = 1 /\
                   producer_ids (producer_at (se_producers x) k) = core_ids c
  | (None, f) =>
      (forall k, (k < 5)%nat -> ~ (ep_active (producer_at (se_producers x) k) = 1 /\
                                   producer_ids (producer_at (se_producers x) k) = core_ids c)) /\
      (f = 5%nat \/ (f < 5)%nat /\ ep_active (producer_at (se_producers x) f) = 0)
  end.
Proof.
  pose proof (table_search_spec (fun index => tracks (producer_at (se_producers x) index) c)
    (fun index => ep_active (producer_at (se_producers x) index) =? 0) 5) as H.
  unfold guardian_signed_evidence_find_state. destruct (slot_search _ _ _ _ _ _) as [[k|] f].
  - rewrite tracks_true in H. done.
  - destruct H as [Hall Hf]. split; [|destruct Hf as [|[? ?]]; [by left|right; split; [done|lia]]].
    intros k Hk Heq. apply tracks_true in Heq. by rewrite (Hall k Hk) in Heq.
Qed.

(** The slot that the chain check lets an envelope into: the producer's own, whose
    last envelope it continues, or a free one for the first of its chain. *)
Lemma chain_check_slot x accepted e slot :
  tracked x accepted -> evidence_typed e -> chain_check x (ee_core e) = inr slot ->
  (slot < 5)%nat /\ continues (hd_error (of_producer (core_ids (ee_core e)) accepted)) e /\
  (ep_active (producer_at (se_producers x) slot) = 1 ->
   producer_ids (producer_at (se_producers x) slot) = core_ids (ee_core e)) /\
  (forall k, (k < 5)%nat -> ep_active (producer_at (se_producers x) k) = 1 ->
     producer_ids (producer_at (se_producers x) k) = core_ids (ee_core e) -> k = slot).
Proof.
  intros [_ _ Huniq Hfol Hcov Htyped] He. pose proof (find_state_spec x (ee_core e)) as Hs. unfold chain_check.
  pose proof (ct_previous _ (et_core e He)) as Hprev.
  destruct (guardian_signed_evidence_find_state x (ee_core e)) as [[k|] f]; cbv zeta.
  - destruct Hs as (Hk & Ha & Hids). destruct (Hfol k Hk Ha) as (d & Hd & Hdig & Hep & Hsq).
    rewrite Hids in Hd. assert (Htd : evidence_typed d).
    { rewrite List.Forall_forall in Htyped. apply Htyped. destruct (of_producer _ accepted) as [|d' ds] eqn:E; [done|].
      injection Hd as ->. apply (filter_In (fun e' => bool_decide (core_ids (ee_core e') = core_ids (ee_core e)))).
      unfold of_producer in E. rewrite E. by left. }
    rewrite Hdig, Hep, Hsq.
    destruct (guardian_crypto_constant_time_equal _ _ _) eqn:Ect; cbn [negb]; [|done].
    apply constant_time_equal_32 in Ect; [|done|apply Htd].
    case_match eqn:Epos; [done|]. intros [= <-]. rewrite Hd. split_and!; try done.
    + split; [done|]. unfold evidence_earlier. lia.
    + intros j Hj Haj Hidj. apply Huniq; try done. congruence.
  - destruct Hs as [Hno Hf].
    destruct (Nat.leb_spec GUARDIAN_SIGNED_EVIDENCE_MAX_TRACKED_PRODUCERS f) as [|Hlt]; [done|].
    destruct (guardian_signed_evidence_all_zero _) eqn:Ez; cbn [negb]; [|done]. intros [= <-].
    apply all_zero_spec in Ez; try apply Hprev.
    assert (Hnone : of_producer (core_ids (ee_core e)) accepted = []).
    { destruct (of_producer _ accepted) as [|d ds] eqn:E; [done|].
      assert (Hin : In d (of_producer (core_ids (ee_core e)) accepted)) by (rewrite E; by left).
      apply filter_In in Hin as [Hin Hd]. apply bool_decide_eq_true in Hd.
      destruct (Hcov d Hin) as (k & Hk & Ha & Hids). destruct (Hno k Hk). by rewrite Hids. }
    rewrite Hnone. split_and!; [done|done| |].
    + intros Ha. unfold GUARDIAN_SIGNED_EVIDENCE_MAX_TRACKED_PRODUCERS in Hlt. destruct Hf as [|[_ ?]]; [lia|congruence].
    + intros k Hk Ha Hids. by destruct (Hno k Hk).
Qed.

(** The slot after an acceptance. *)
Lemma accept_evidence_slot x accepted e slot :
  tracked x accepted -> evidence_typed e -> chain_check x (ee_core e) = inr slot ->
  exists s, se_producers (accept_evidence x e slot) = <[slot := s]> (se_producers x) /\
    ep_active s = 1 /\ producer_ids s = core_ids (ee_core e) /\ slot_follows s e.
Proof.
  intros Ht He Hc. destruct (chain_check_slot x accepted e slot Ht He Hc) as (Hslot & _ & Hsame & _).
  unfold accept_evidence. destruct (et_digest e He) as [_ Hl].
  destruct (tk_active _ _ Ht slot Hslot) as [Ha|Ha]; rewrite Ha; cbn [Z.eqb se_producers];
    (eexists; split; [reflexivity|]); cbn; unfold slot_follows; cbn;
    rewrite take_ge by (by rewrite Hl); split_and!; try done.
  by rewrite <- (Hsame Ha).
Qed.

Lemma accept_tracked x accepted e slot :
  tracked x accepted -> evidence_typed e -> chain_check x (ee_core e) = inr slot ->
  tracked (accept_evidence x e slot) (e :: accepted).
Proof.
  intros Ht He Hc. destruct (chain_check_slot x accepted e slot Ht He Hc) as (Hslot & _ & Hsame & Hown).
  destruct (accept_evidence_slot x accepted e slot Ht He Hc) as (s & Hp & Ha & Hids & Hf).
  destruct Ht as [Hlen Hact Huniq Hfol Hcov Htyped].
  assert (Hat : forall k, producer_at (se_producers (accept_evidence x e slot)) k =
    if decide (k = slot) then s else producer_at (se_producers x) k).
  { intros k. rewrite Hp. apply producer_at_insert. by rewrite Hlen. }
  split.
  - by rewrite Hp, length_insert.
  - intros k Hk. rewrite Hat. case_decide; [by right|by apply Hact].
  - intros j k Hj Hk. rewrite !Hat. repeat case_decide; subst; try done.
    + rewrite Hids. intros _ Hak E. symmetry. by apply Hown.
    + rewrite Hids. intros Haj _ E. by apply Hown.
    + by apply Huniq.
  - intros k Hk. rewrite Hat. unfold of_producer. cbn [List.filter]. case_decide as Ek.
    + intros _. exists e. by rewrite Hids, bool_decide_true.
    + intros Hak. rewrite bool_decide_false; [by apply Hfol|]. intros E. apply Ek. by apply Hown.
  - intros d [<-|Hd].
    + exists slot. by rewrite Hat, decide_True.
    + destruct (Hcov d Hd) as (k & Hk & Hak & Hidk). exists k. rewrite Hat.
      case_decide as Ek; [|done]. subst k. split_and!; [done|done|]. rewrite Hids, <- Hidk. by rewrite Hsame.
  - by constructor.
Qed.

(** ** Runs of acceptances *)

(** The context after envelopes are presented, each with the state of the witness
    node at that time, and the accepted ones, newest first. *)
Definition evidence_step
    (st : guardian_signed_evidence_t L W * list guardian_signed_evidence_envelope_t * W)
    (o : guardian_security_witness_node_t C W * guardian_signed_evidence_envelope_t)
  : guardian_signed_evidence_t L W * list guardian_signed_evidence_envelope_t * W :=
  let '(x, accepted, w) := st in
  let '(r, x', _, w') :=
    guardian_signed_evidence_verify_and_accept (Some x) o.1 (Some o.2) (Some (EVIDENCE_VERDICT 0 0 0 0 0 0 0)) w in
  (default x x', if bool_decide (r = GUARDIAN_SIGNED_EVIDENCE_OK) then o.2 :: accepted else accepted, w').

Definition evidence_run (x : guardian_signed_evidence_t L W) (w : W)
    (os : list (guardian_security_witness_node_t C W * guardian_signed_evidence_envelope_t))
  : guardian_signed_evidence_t L W * list guardian_signed_evidence_envelope_t * W :=
  foldl evidence_step (x, [], w) os.

Record evidence_run_ok (lookup : guardian_signed_evidence_lookup_fn L W)
    (st : guardian_signed_evidence_t L W * list guardian_signed_evidence_envelope_t * W) : Prop := {
  er_ready : ready st.1.1 lookup;
  er_tracked : tracked st.1.1 st.1.2;
  er_chain ids : hash_chain (of_producer ids st.1.2);
  er_coherent : Forall (fun e => coherent e /\ exists p, authorized (ee_core e) p) st.1.2
}.

Lemma accept_ready x lookup e slot :
  ready x lookup -> ready (accept_evidence (L := L) (W := W) x e slot) lookup.
Proof. unfold ready, accept_evidence. by case_match. Qed.

Lemma evidence_step_ok lookup st o :
  evidence_run_ok lookup st -> evidence_typed o.2 -> evidence_run_ok lookup (evidence_step st o).
Proof.
  destruct st as [[x accepted] w]. intros [Hr Ht Hch Hco] He. cbn [fst snd] in *. unfold evidence_step.
  destruct (verify_cases x lookup o.1 o.2 (EVIDENCE_VERDICT 0 0 0 0 0 0 0) w Hr He)
    as [(p & slot & w1 & Ha & E)|(r & v1 & w1 & E & Hno & _)]; cbv zeta in E; rewrite E.
  - unfold accepted_result. rewrite bool_decide_true by done. cbn [from_option id].
    destruct Ha as [Hcoh _ _ Hauth Hchain].
    destruct (chain_check_slot x accepted o.2 slot Ht He Hchain) as (_ & Hcont & _ & _).
    split; cbn [fst snd].
    + by apply accept_ready.
    + by apply accept_tracked.
    + intros ids. unfold of_producer. cbn [List.filter].
      case_bool_decide as Eids; [|apply Hch]. split; [by rewrite <- Eids|apply Hch].
    + constructor; [by eauto|done].
  - rewrite bool_decide_false by done. by split.
Qed.

Lemma evidence_steps_ok lookup os : Forall (fun o => evidence_typed o.2) os ->
  forall st, evidence_run_ok lookup st -> evidence_run_ok lookup (foldl evidence_step st os).
Proof. induction 1 as [|o os Ho _ IH]; intros st H; [done|]. by apply IH, evidence_step_ok. Qed.

Lemma configure_evidence_spec null (x0 : guardian_signed_evidence_t L W)
    (n : guardian_security_witness_node_t C W) g x :
  guardian_signed_evidence_configure null (Some x0) (Some n) (Some g) =
    (GUARDIAN_SIGNED_EVIDENCE_OK, Some x) ->
  wn_initialized n = 1 /\ (exists lookup, ready x lookup /\ eg_lookup g = Some lookup) /\ se_config x = g /\
  se_producers x = replicate GUARDIAN_SIGNED_EVIDENCE_MAX_TRACKED_PRODUCERS zero_producer.
Proof.
  unfold guardian_signed_evidence_configure. early_case E1. intros [= <-].
  apply orb_false_iff in E1 as [E1 E2]. apply is_null_false in E2 as [lookup El].
  split; [lia|]. split; [|done]. exists lookup. by unfold ready.
Qed.

Lemma fresh_tracked (x : guardian_signed_evidence_t L W) :
  se_producers x = replicate GUARDIAN_SIGNED_EVIDENCE_MAX_TRACKED_PRODUCERS zero_producer -> tracked x [].
Proof.
  intros E. assert (Hz : forall k, ep_active (producer_at (se_producers x) k) = 0).
  { intros k. rewrite E. by do 5 (destruct k as [|k]; [done|]); destruct k. }
  split; [by rewrite E|by left| | |done|by constructor].
  - intros j k _ _ Hj. by rewrite Hz in Hj.
  - intros k _ Hk. by rewrite Hz in Hk.
Qed.

(** C8:whatever envelopes are presented to a configured context, and whatever the
    provider and the lookup answer, the accepted envelopes of each producer form a
    hash chain: the first refers to the zero digest, each later one to the digest
    of its predecessor, at a strictly later position. Every accepted envelope is
    coherent and from a legitimate node in the role that its class demands. *)
Theorem accepted_evidence_is_chained null (x0 : guardian_signed_evidence_t L W) n g x w os
    (Hc : guardian_signed_evidence_configure (C := C) null (Some x0) (Some n) (Some g) =
          (GUARDIAN_SIGNED_EVIDENCE_OK, Some x))
    (Ht : Forall (fun o => evidence_typed o.2) os) :
  let accepted := (evidence_run x w os).1.2 in
  (forall ids, hash_chain (of_producer ids accepted)) /\
  Forall (fun e => coherent e /\ exists p, authorized (ee_core e) p /\
                   Z.land (mn_capabilities p) GUARDIAN_CAP_ACTUATION_GATE = 0) accepted.
Proof.
  apply configure_evidence_spec in Hc as (_ & (lookup & Hr & _) & _ & Hp). cbv zeta.
  assert (H : evidence_run_ok lookup (evidence_run x w os)).
  { apply evidence_steps_ok; [done|]. split; cbn [fst snd]; [done|by apply fresh_tracked|by intros|by constructor]. }
  split; [apply H|]. eapply Forall_impl; [apply (er_coherent _ _ H)|]. cbn beta.
  intros e [Hco [p Hauth]]. split; [exact Hco|]. exists p. split; [exact Hauth|].
  by apply (authorized_no_gate _ _ Hauth).
Qed.
End chain.

(** ** An example *)

Definition example_lookup : guardian_signed_evidence_lookup_fn unit unit :=
  fun _ node_id producer_id key_id node trust w =>
    if (node_id =? 3) && (producer_id =? 103) && (key_id =? 203)
    then (1, example_measurement, GUARDIAN_SIGNED_EVIDENCE_TRUST_TRUSTED, w)
    else (0, node, trust, w).

Definition example_evidence : guardian_signed_evidence_t unit unit :=
  EVIDENCE true (EVIDENCE_CONFIG (Some example_lookup) tt) (replicate 5 zero_producer) 0 1.

(** The first envelope of the example, by computation. *)
Definition example_envelope : guardian_signed_evidence_envelope_t := Eval vm_compute in
  let '(_, _, e, _) :=
    guardian_signed_evidence_create (Some example_evidence) example_witness_node (Some example_measurement) 1 1 1
      (Some (replicate 32 7)) (Some (replicate 32 8)) (Some blank_digest) (Some zero_evidence) tt in
  default zero_evidence e.

Lemma example_envelope_typed : evidence_typed example_envelope.
Proof.
  split; [split|split|split]; try (split; [|reflexivity]);
    try (apply (bool_decide_unpack _); vm_compute; exact I).
  all: unfold is_u8, is_u32; vm_compute; split; congruence.
Qed.

Lemma evidence_acceptance_exact_witness :
  exists p slot w, acceptance (C := unit) example_evidence example_lookup example_witness_node example_envelope tt p slot w.
Proof.
  pose proof (evidence_acceptance_exact (C := unit) example_evidence example_lookup example_witness_node
    example_envelope (EVIDENCE_VERDICT 0 0 0 0 0 0 0) tt ltac:(by unfold ready) example_envelope_typed) as H.
  destruct (guardian_signed_evidence_verify_and_accept _ _ _ _ _) as [[[r x'] v'] w'] eqn:E.
  apply H. apply (f_equal (fun t => t.1.1.1)) in E. cbn [fst] in E. rewrite <- E. by vm_compute.
Defined.

Lemma accepted_evidence_is_chained_witness :
  length (evidence_run example_evidence tt
    [(example_witness_node, example_envelope); (example_witness_node, example_envelope)]).1.2 = 1%nat /\
  forall ids, hash_chain (of_producer ids (evidence_run example_evidence tt
    [(example_witness_node, example_envelope); (example_witness_node, example_envelope)]).1.2).
Proof.
  split; [by vm_compute|].
  apply (accepted_evidence_is_chained tt (zero_evidence_context tt) example_witness_node
    (EVIDENCE_CONFIG (Some example_lookup) tt) example_evidence tt).
  - reflexivity.
  - repeat constructor; apply example_envelope_typed.
Defined.
