(* ===== verification/EvidenceExchange.v ===== *)
(** * Honest evidence is accepted

    The whole path of a piece of evidence: the producer has it created through the
    witness, each naming the digest of the last, and presents it. With a provider
    that signs and a lookup that trusts the producer every piece is accepted. *)

From S2P Require Import Prelude Crypto MultiNode SecurityWitness WitnessSafety SignedEvidence EvidenceSafety.

(** ** Honest producers *)

(** What a producer asks to be signed. *)
Record evidence_request := EVIDENCE_REQUEST {
  er_class : Z; er_epoch : Z; er_sequence : Z; er_payload : list Z; er_analysis : list Z
}.

Definition digest_typed (d : list Z) : Prop := bytes d /\ length d = GUARDIAN_SHA256_SIZE.

(** A request for evidence of a class of the producer, at a position after [last]. *)
Record request_ok (p : guardian_multinode_node_t) (last : option (Z * Z)) (q : evidence_request) : Prop := {
  rq_class : guardian_signed_evidence_role_authorized (er_class q) (Some p) = true;
  rq_epoch : is_u32 (er_epoch q) /\ er_epoch q <> 0;
  rq_sequence : is_u32 (er_sequence q) /\ er_sequence q <> 0;
  rq_payload : digest_typed (er_payload q);
  rq_analysis : digest_typed (er_analysis q);
  rq_later : match last with
             | None => True
             | Some (epoch, sequence) =>
                 epoch < er_epoch q \/ epoch = er_epoch q /\ sequence < er_sequence q
             end
}.

Fixpoint requests_ok (p : guardian_multinode_node_t) (last : option (Z * Z)) (qs : list evidence_request)
  : Prop :=
  match qs with
  | [] => True
  | q :: qs => request_ok p last q /\ requests_ok p (Some (er_epoch q, er_sequence q)) qs
  end.

Record node_typed (n : guardian_multinode_node_t) : Prop := {
  nt_node : is_u32 (mn_node_id n);
  nt_producer : is_u32 (mn_producer_id n);
  nt_key : is_u32 (mn_key_id n)
}.

Lemma authorized_class class p :
  guardian_signed_evidence_role_authorized class (Some p) = true -> 1 <= class <= 5.
Proof.
  cbn. unfold GUARDIAN_SIGNED_EVIDENCE_CLASS_MEASUREMENT, GUARDIAN_SIGNED_EVIDENCE_CLASS_ANALYSIS,
    GUARDIAN_SIGNED_EVIDENCE_CLASS_FUSION, GUARDIAN_SIGNED_EVIDENCE_CLASS_SUPERVISION,
    GUARDIAN_SIGNED_EVIDENCE_CLASS_RECOVERY.
  case_match; [done|]. repeat (case_match; [lia|]). done.
Qed.

Lemma witness_type_valid class :
  1 <= class <= 5 ->
  guardian_security_witness_evidence_type_valid (guardian_signed_evidence_witness_type class) = true.
Proof.
  intros H. assert (class = 1 \/ class = 2 \/ class = 3 \/ class = 4 \/ class = 5)
    as [-> | [-> | [-> | [-> | ->]]]] by lia; done.
Qed.

(** One piece of evidence from the request to its acceptance: it is created with the
    digest of the last one, and presented. *)
Definition exchange_step {C L W} (p : guardian_multinode_node_t)
    (st : guardian_signed_evidence_t L W * guardian_security_witness_node_t C W * list Z * W)
    (q : evidence_request)
  : guardian_signed_evidence_result_t * guardian_signed_evidence_result_t
    * (guardian_signed_evidence_t L W * guardian_security_witness_node_t C W * list Z * W) :=
  let '(x, n, previous, w) := st in
  let '(created, n', e, w1) :=
    guardian_signed_evidence_create (Some x) n (Some p) (er_class q) (er_epoch q) (er_sequence q)
      (Some (er_payload q)) (Some (er_analysis q)) (Some previous) (Some zero_evidence) w in
  let e := default zero_evidence e in
  let '(verified, x', _, w2) :=
    guardian_signed_evidence_verify_and_accept (Some x) n' (Some e)
      (Some (EVIDENCE_VERDICT 0 0 0 0 0 0 0)) w1 in
  (created, verified, (default x x', n', ee_evidence_digest e, w2)).

Fixpoint exchange_results {C L W} (p : guardian_multinode_node_t)
    (st : guardian_signed_evidence_t L W * guardian_security_witness_node_t C W * list Z * W)
    (qs : list evidence_request)
  : list (guardian_signed_evidence_result_t * guardian_signed_evidence_result_t) :=
  match qs with
  | [] => []
  | q :: qs =>
      let '(created, verified, st) := exchange_step p st q in
      (created, verified) :: exchange_results p st qs
  end.

(** The lookup knows the producer and trusts it. *)
Class TrustedProducer {L W} (lookup : guardian_signed_evidence_lookup_fn L W)
    (p : guardian_multinode_node_t) (context : L) : Prop := {
  resolves w : exists found w', found <> 0 /\
    lookup context (mn_node_id p) (mn_producer_id p) (mn_key_id p) zero_node
      GUARDIAN_SIGNED_EVIDENCE_TRUST_UNKNOWN w = (found, p, GUARDIAN_SIGNED_EVIDENCE_TRUST_TRUSTED, w')
}.

Section honest.
Context {C L W : Type}.
Context (self p : guardian_multinode_node_t) (provider : guardian_security_witness_provider_t C W).
Context (lookup : guardian_signed_evidence_lookup_fn L W).
Context (Hself : legitimate self) (Hp : legitimate p) (Tself : node_typed self) (Tp : node_typed p).
Context (Halg : wp_signature_algorithm provider = GUARDIAN_SECURITY_WITNESS_SIGNATURE_ED25519).
Context `{!SigningProvider provider (mn_key_id self)}.

(** The last accepted evidence: position and digest. *)
Definition last_evidence : Type := option (Z * Z * list Z).

Definition last_position (last : last_evidence) : option (Z * Z) := fst <$> last.
Definition last_digest (last : last_evidence) : list Z := default blank_digest (snd <$> last).

(** The tables of witness and context while only this producer is active. *)
Record serving (last : last_evidence) (x : guardian_signed_evidence_t L W)
    (n : guardian_security_witness_node_t C W) : Prop := {
  sv_ready : ready x lookup;
  sv_trusted : TrustedProducer lookup p (eg_lookup_context (se_config x));
  sv_witness : wn_self n = self /\ wn_provider n = provider /\ wn_initialized n = 1;
  sv_digest : digest_typed (last_digest last);
  sv_subjects : wn_subjects n =
    match last with
    | None => replicate 5 zero_subject
    | Some (epoch, sequence, _) =>
        WITNESS_SUBJECT (mn_node_id p) (mn_producer_id p) (mn_key_id p) epoch sequence 1
        :: replicate 4 zero_subject
    end;
  sv_producers : se_producers x =
    match last with
    | None => replicate 5 zero_producer
    | Some (epoch, sequence, digest) =>
        EVIDENCE_PRODUCER (mn_node_id p) (mn_producer_id p) (mn_key_id p) (mn_role p) epoch sequence digest 1
        :: replicate 4 zero_producer
    end
}.

Definition request_core (last : last_evidence) (q : evidence_request) : guardian_signed_evidence_core_t :=
  evidence_core p (er_class q) (er_epoch q) (er_sequence q) (er_payload q) (er_analysis q) (last_digest last).

Lemma request_core_typed last q :
  digest_typed (last_digest last) -> request_ok p (last_position last) q -> core_typed (request_core last q).
Proof.
  intros Hd [_ [? _] [? _] [? ?] [? ?] _]. destruct Hd, Tp. pose proof (lg_role p Hp).
  unfold GUARDIAN_SHA256_SIZE in *.
  split; cbn; rewrite ?take_ge by lia; first [done|by split|unfold is_u8; lia].
Qed.

Lemma request_core_valid last q :
  request_ok p (last_position last) q -> evidence_core_invalid (request_core last q) = false.
Proof.
  intros [Hclass [_ ?] [_ ?] _ _ _]. apply authorized_class in Hclass. destruct Hp.
  unfold evidence_core_invalid, guardian_signed_evidence_class_valid, GUARDIAN_SIGNED_EVIDENCE_CLASS_INVALID,
    GUARDIAN_SIGNED_EVIDENCE_CLASS_RECOVERY, GUARDIAN_NODE_ROLE_INVALID. cbn. lia.
Qed.

Definition request_input (last : last_evidence) (q : evidence_request) : guardian_security_witness_input_t :=
  evidence_input (request_core last q) (evidence_transcript_fields (request_core last q)).

Lemma request_input_valid last q :
  digest_typed (last_digest last) -> request_ok p (last_position last) q ->
  witness_input_invalid (request_input last q) = false.
Proof.
  intros Hd Hq. pose proof (evidence_fields_length _ (request_core_typed last q Hd Hq)) as Hl.
  destruct Hq as [Hclass [_ ?] [_ ?] _ _ _]. apply authorized_class, witness_type_valid in Hclass.
  destruct Hp. unfold witness_input_invalid, request_input, evidence_input.
  cbn [wi_subject_node_id wi_subject_producer_id wi_subject_key_id wi_epoch wi_sequence wi_payload
    wi_payload_length wi_evidence_type is_null]. rewrite Hl.
  change (ec_evidence_class (request_core last q)) with (er_class q). rewrite Hclass. cbn. lia.
Qed.

(** The slot of the witness: the first. *)
Lemma request_subject_slot last x n q :
  serving last x n ->
  subject_slot (wn_subjects n) (request_input last q) =
  match last with None => (None, 0%nat) | Some _ => (Some 0%nat, 5%nat) end.
Proof.
  intros [_ _ _ _ -> _]. destruct last as [[[epoch sequence] digest]|]; [|reflexivity].
  unfold subject_slot, GUARDIAN_SECURITY_WITNESS_MAX_SUBJECTS. cbn [slot_search].
  by rewrite (proj2 (subject_equal_true _ _)).
Qed.

Lemma request_available last x n q :
  serving last x n -> request_ok p (last_position last) q -> slot_available n (request_input last q).
Proof.
  intros Hs [_ _ _ _ _ Hlater]. unfold slot_available. rewrite (request_subject_slot last x n q Hs).
  destruct last as [[[epoch sequence] digest]|]; [|cbn; lia].
  rewrite (sv_subjects _ _ _ Hs). cbn in *. lia.
Qed.

(** The slot of the context: the first. *)
Lemma request_chain_check last x n q :
  serving last x n -> request_ok p (last_position last) q ->
  chain_check x (request_core last q) = inr 0%nat.
Proof.
  intros Hs [_ _ _ _ _ Hlater]. pose proof (sv_digest _ _ _ Hs) as Hd.
  assert (Eprev : ec_previous_evidence_digest (request_core last q) = last_digest last)
    by (cbn; destruct Hd; apply take_ge; unfold GUARDIAN_SHA256_SIZE in *; lia).
  unfold chain_check, guardian_signed_evidence_find_state. rewrite (sv_producers _ _ _ Hs), Eprev.
  destruct last as [[[epoch sequence] digest]|].
  - unfold GUARDIAN_SIGNED_EVIDENCE_MAX_TRACKED_PRODUCERS. cbn [slot_search].
    rewrite (proj2 (tracks_true _ _)) by done. cbv zeta. cbn [producer_at nth ep_last_evidence_digest
      ep_accepted_epoch ep_accepted_sequence].
    change (last_digest (Some (epoch, sequence, digest))) with digest in *.
    rewrite (proj2 (constant_time_equal_32 digest digest Hd Hd)) by done. cbn [negb].
    unfold request_core, evidence_core. cbn [ec_epoch ec_sequence]. cbn in Hlater.
    case_match; [lia|done].
  - reflexivity.
Qed.

(** ** One piece of evidence *)

Definition exchange_ok (last : last_evidence) (x : guardian_signed_evidence_t L W)
    (n : guardian_security_witness_node_t C W) (q : evidence_request) (w : W) : Prop :=
  exists n' e x' w1 w2,
    guardian_signed_evidence_create (Some x) n (Some p) (er_class q) (er_epoch q) (er_sequence q)
      (Some (er_payload q)) (Some (er_analysis q)) (Some (last_digest last)) (Some zero_evidence) w =
      (GUARDIAN_SIGNED_EVIDENCE_OK, n', Some e, w1) /\
    guardian_signed_evidence_verify_and_accept (Some x) n' (Some e) (Some (EVIDENCE_VERDICT 0 0 0 0 0 0 0)) w1 =
      (GUARDIAN_SIGNED_EVIDENCE_OK, Some x', Some (EVIDENCE_VERDICT 1 1 1 1 1 1 0), w2) /\
    serving (Some (er_epoch q, er_sequence q, ee_evidence_digest e)) x' n'.

Lemma witness_type_bounds class : 0 <= guardian_signed_evidence_witness_type class < 256.
Proof. unfold guardian_signed_evidence_witness_type. repeat case_match; by vm_compute. Qed.

(** The signed record is typed and says what the core says. *)
Lemma signed_record_typed last (n : guardian_security_witness_node_t C W) q r :
  wn_self n = self -> wn_provider n = provider ->
  digest_typed (last_digest last) -> request_ok p (last_position last) q ->
  content r = content (unsigned_record n (request_input last q)) ->
  bytes (wr_signature r) -> length (wr_signature r) = GUARDIAN_SECURITY_WITNESS_SIGNATURE_SIZE ->
  record_typed r.
Proof.
  intros Es Ep Hd Hq Hr Hb Hl. destruct Hq as [_ [? _] [? _] _ _ _], Tself, Tp.
  destruct r. unfold content, with_signature, unsigned_record, request_input, evidence_input in Hr.
  rewrite Es, Ep, Halg in Hr. cbn in Hr. injection Hr as -> -> -> -> -> -> -> -> -> -> -> -> -> ->.
  split; cbn [wr_schema_version wr_signature_algorithm wr_authority_flags wr_witness_node_id
    wr_witness_producer_id wr_witness_key_id wr_subject_node_id wr_subject_producer_id wr_subject_key_id
    wr_epoch wr_sequence wr_payload_length wr_payload_digest]; try done.
  - apply u32_range.
  - split; [apply sha256_digest_bytes|apply sha256_digest_length].
Qed.

Lemma signed_coherent last (n : guardian_security_witness_node_t C W) q r :
  digest_typed (last_digest last) -> request_ok p (last_position last) q ->
  content r = content (unsigned_record n (request_input last q)) ->
  coherent (EVIDENCE_ENVELOPE (request_core last q) r (evidence_digest (request_core last q) (wr_signature r))).
Proof.
  intros Hd Hq Hr. split; cbn [ee_core ee_witness_record ee_evidence_digest].
  - by apply request_core_valid.
  - injection Hr as _ E2 _ _ _ _ _ E8 E9 E10 E11 E12 _ _. unfold envelope_mismatch.
    cbn [ee_core ee_witness_record]. rewrite E2, E8, E9, E10, E11, E12. cbn. by rewrite !Z.eqb_refl.
  - injection Hr as _ _ _ _ _ _ _ _ _ _ _ _ _ E14.
    rewrite <- (evidence_fields_length _ (request_core_typed last q Hd Hq)). exact E14.
  - done.
Qed.

(** The table of the witness after the signature. *)
Lemma served_subjects last x n q existing :
  serving last x n -> existing = fst (subject_slot (wn_subjects n) (request_input last q)) ->
  wn_subjects (record_position n (request_input last q) existing 0) =
  WITNESS_SUBJECT (mn_node_id p) (mn_producer_id p) (mn_key_id p) (er_epoch q) (er_sequence q) 1
  :: replicate 4 zero_subject.
Proof.
  intros Hs. rewrite (request_subject_slot last x n q Hs). intros ->.
  unfold record_position. cbn [wn_subjects]. rewrite (sv_subjects _ _ _ Hs).
  by destruct last as [[[epoch sequence] digest]|].
Qed.

Lemma served_producers last x n q r d :
  serving last x n -> digest_typed d ->
  se_producers (accept_evidence x (EVIDENCE_ENVELOPE (request_core last q) r d) 0) =
  EVIDENCE_PRODUCER (mn_node_id p) (mn_producer_id p) (mn_key_id p) (mn_role p) (er_epoch q) (er_sequence q) d 1
  :: replicate 4 zero_producer.
Proof.
  intros Hs [_ Hl]. unfold accept_evidence. rewrite (sv_producers _ _ _ Hs).
  destruct last as [[[epoch sequence] digest]|]; cbn; by rewrite take_ge by (unfold GUARDIAN_SHA256_SIZE in *; lia).
Qed.

(** The creation of one piece of evidence. *)
Lemma create_served last x n q w :
  serving last x n -> request_ok p (last_position last) q ->
  exists n' r w1,
    guardian_signed_evidence_create (Some x) n (Some p) (er_class q) (er_epoch q) (er_sequence q)
      (Some (er_payload q)) (Some (er_analysis q)) (Some (last_digest last)) (Some zero_evidence) w =
      (GUARDIAN_SIGNED_EVIDENCE_OK, n',
       Some (EVIDENCE_ENVELOPE (request_core last q) r (evidence_digest (request_core last q) (wr_signature r))), w1) /\
    record_typed r /\ content r = content (unsigned_record n (request_input last q)) /\
    wn_self n' = self /\ wn_provider n' = provider /\ wn_initialized n' = 1 /\
    wn_subjects n' =
      WITNESS_SUBJECT (mn_node_id p) (mn_producer_id p) (mn_key_id p) (er_epoch q) (er_sequence q) 1
      :: replicate 4 zero_subject /\
    forall w'', fst (guardian_security_witness_verify (Some n') (Some r) w'') = GUARDIAN_SECURITY_WITNESS_OK.
Proof.
  intros Hs Hq. pose proof Hs as [(Hi & Hw & _) _ (Es & Ep & Ein) Hd _ _].
  pose proof (request_core_typed last q Hd Hq) as Hct. pose proof (request_core_valid last q Hq) as Hcv.
  destruct (create_signs n (request_input last q) zero_record w) as (n' & r & w1 & E & Hb & Hl & Hver);
    [by rewrite Ep, Es|done|by rewrite Es|by rewrite Ep|by apply request_input_valid|by apply (request_available last x)|].
  pose proof (create_created _ _ _ _ _ _ _ E) as [_ _ Hr (existing & slot & Hex & Hslot & En & _)].
  assert (slot = 0%nat) as ->.
  { rewrite Hslot, <- Hex, (request_subject_slot last x n q Hs). by destruct last. }
  assert (Hrt : record_typed r) by (by apply (signed_record_typed last n q)).
  exists n', r, w1. split; [|split; [done|split; [done|]]].
  - unfold guardian_signed_evidence_create. rewrite Hi, Hw. cbn [negb orb Z.eqb Pos.eqb].
    rewrite validate_node_decide, (bool_decide_true (legitimate p)) by done. cbn [negb orb].
    pose proof (authorized_class _ _ (rq_class _ _ _ Hq)) as Hclass.
    replace (negb (guardian_signed_evidence_class_valid (er_class q)) || (er_epoch q =? 0) || (er_sequence q =? 0))
      with false by (destruct Hq as [_ [_ ?] [_ ?] _ _ _]; unfold guardian_signed_evidence_class_valid,
        GUARDIAN_SIGNED_EVIDENCE_CLASS_INVALID, GUARDIAN_SIGNED_EVIDENCE_CLASS_RECOVERY; lia).
    cbv zeta. fold (request_core last q). rewrite evidence_transcript_valid, bool_decide_true by done. cbn [negb].
    fold (request_input last q). rewrite E, bool_decide_true by done. cbn [negb from_option id].
    by rewrite compute_digest_spec, bool_decide_true by done.
  - subst n'. split_and!; [exact Es|exact Ep|exact Ein|by apply (served_subjects last x)|].
    intros w''. by apply Hver.
Qed.

Lemma exchange_served last x n q w :
  serving last x n -> request_ok p (last_position last) q -> exchange_ok last x n q w.
Proof.
  intros Hs Hq. pose proof Hs as [Hr Htrust _ Hd _ _].
  destruct (create_served last x n q w Hs Hq) as (n' & r & w1 & E & Hrt & Hcont & Es & Ep & Ein & Hsub & Hver).
  set (e := EVIDENCE_ENVELOPE _ _ _) in E.
  assert (Hdig : digest_typed (ee_evidence_digest e)) by (split; [apply sha256_digest_bytes|apply sha256_digest_length]).
  assert (He : evidence_typed e) by (split; [by apply request_core_typed|done|exact Hdig]).
  destruct (resolves (snd (guardian_security_witness_verify (Some n') (Some r) w1))) as (found & w2 & Hf & Hl).
  pose proof (verify_accepts x lookup n' e (EVIDENCE_VERDICT 0 0 0 0 0 0 0) w1 p 0 w2 Hr He) as Ha.
  exists n', e, (accept_evidence x e 0), w1, w2. split; [exact E|]. split.
  - apply Ha. split.
    + by apply (signed_coherent last n).
    + apply Hver.
    + exists found. split; [done|exact Hl].
    + split; try done. apply Hq.
    + by apply (request_chain_check last x n q).
  - split; [by apply accept_ready| |done|exact Hdig|exact Hsub|by apply (served_producers last x n)].
    unfold accept_evidence. by destruct (ep_active _ =? 0).
Qed.

Lemma exchange_results_served qs : forall last x n w,
  serving last x n -> requests_ok p (last_position last) qs ->
  exchange_results p (x, n, last_digest last, w) qs =
  replicate (length qs) (GUARDIAN_SIGNED_EVIDENCE_OK, GUARDIAN_SIGNED_EVIDENCE_OK).
Proof.
  induction qs as [|q qs IH]; intros last x n w Hs Hqs; [done|]. destruct Hqs as [Hq Hqs].
  destruct (exchange_served last x n q w Hs Hq) as (n' & e & x' & w1 & w2 & Ec & Ev & Hs').
  cbn [exchange_results length replicate]. unfold exchange_step. rewrite Ec. cbn [from_option id].
  rewrite Ev. cbn [from_option id]. f_equal.
  by apply (IH (Some (er_epoch q, er_sequence q, ee_evidence_digest e))).
Qed.
End honest.

(** C9:evidence reaches acceptance. A legitimate producer that the lookup trusts,
    asking a configured witness whose provider signs, for evidence of the classes
    of its role at increasing positions, each naming the digest of the last: every
    piece is created and every piece is accepted, however many there are. *)
Theorem honest_evidence_is_accepted {C L W} null null' (n0 : guardian_security_witness_node_t C W) self provider n
    (x0 : guardian_signed_evidence_t L W) lookup context x p w qs
    (Hn : guardian_security_witness_configure null (Some n0) (Some self) (Some provider) =
          (GUARDIAN_SECURITY_WITNESS_OK, Some n))
    (Hx : guardian_signed_evidence_configure null' (Some x0) (Some n) (Some (EVIDENCE_CONFIG (Some lookup) context)) =
          (GUARDIAN_SIGNED_EVIDENCE_OK, Some x))
    (Hsign : SigningProvider provider (mn_key_id self)) (Htrust : TrustedProducer lookup p context)
    (Hp : legitimate p) (Tself : node_typed self) (Tp : node_typed p)
    (Hqs : requests_ok p None qs) :
  exchange_results p (x, n, blank_digest, w) qs =
  replicate (length qs) (GUARDIAN_SIGNED_EVIDENCE_OK, GUARDIAN_SIGNED_EVIDENCE_OK).
Proof.
  apply witness_configure_spec in Hn as (Hself & _ & -> & Halg).
  apply configure_evidence_spec in Hx as (_ & (lookup' & Hr & [= <-]) & Hg & Hprod).
  apply (exchange_results_served self p provider lookup Hself Hp Tself Tp Halg qs None); [|done].
  split; try done; [by rewrite Hg|]. split; [|done]. apply bytes_replicate. by vm_compute.
Qed.

(** ** An example *)

#[global] Instance example_measurement_trusted : TrustedProducer example_lookup example_measurement tt.
Proof. split. intros w. by exists 1, w. Qed.

Definition example_requests : list evidence_request :=
  [EVIDENCE_REQUEST 1 1 1 (replicate 32 7) (replicate 32 8); EVIDENCE_REQUEST 1 1 2 (replicate 32 9) (replicate 32 8);
   EVIDENCE_REQUEST 1 2 1 (replicate 32 1) (replicate 32 2)].

Lemma example_evidence_requests_ok : requests_ok example_measurement None example_requests.
Proof.
  assert (Hd : forall v, is_u8 v -> digest_typed (replicate 32 v)) by (intros; split; [by apply bytes_replicate|done]).
  repeat split; first [apply Hd|idtac]; cbn; unfold is_u32, is_u8; lia || (try by left) || (by right).
Qed.

Lemma example_measurement_legitimate : legitimate example_measurement.
Proof. apply validate_node_ok. by vm_compute. Qed.

Lemma honest_evidence_is_accepted_witness :
  exchange_results example_measurement (example_evidence, example_witness_node, blank_digest, tt) example_requests =
  replicate 3 (GUARDIAN_SIGNED_EVIDENCE_OK, GUARDIAN_SIGNED_EVIDENCE_OK).
Proof.
  apply (honest_evidence_is_accepted tt tt (zero_witness tt) example_witness example_provider example_witness_node
    (zero_evidence_context tt) example_lookup tt example_evidence example_measurement tt example_requests).
  - reflexivity.
  - reflexivity.
  - apply _.
  - apply _.
  - apply example_measurement_legitimate.
  - split; by vm_compute.
  - split; by vm_compute.
  - apply example_evidence_requests_ok.
Defined.
