(* ===== verification/NodelinkAdapter.v ===== *)
(** * The node-link sender

    Model of App/Src/guardian_f401_nodelink_adapter.c: the state of the sender, its
    frames and its heartbeat timer. The transport is a callback parameter. To state
    what it is given, [recorded t] is the transport [t] with the calls it received
    appended to the world; the adapter sees no difference. *)

From S2P Require Import Prelude NodeLink.
From Stdlib Require Import Sorted.

(** ** Data *)

Definition GUARDIAN_F401_NODELINK_DEFAULT_HEARTBEAT_MS : Z := 1000.

Inductive guardian_f401_nodelink_adapter_result_t :=
  | GUARDIAN_F401_NODELINK_OK
  | GUARDIAN_F401_NODELINK_ERROR_NULL_ARGUMENT
  | GUARDIAN_F401_NODELINK_ERROR_NODE_ID_ZERO
  | GUARDIAN_F401_NODELINK_ERROR_EPOCH_ZERO
  | GUARDIAN_F401_NODELINK_ERROR_NOT_INITIALIZED
  | GUARDIAN_F401_NODELINK_ERROR_INVALID_STATE
  | GUARDIAN_F401_NODELINK_ERROR_TRANSPORT_NOT_CONFIGURED
  | GUARDIAN_F401_NODELINK_ERROR_ENCODE
  | GUARDIAN_F401_NODELINK_ERROR_TRANSPORT
  | GUARDIAN_F401_NODELINK_ERROR_SEQUENCE_EXHAUSTED.

#[global] Instance guardian_f401_nodelink_adapter_result_eq_dec :
  EqDecision guardian_f401_nodelink_adapter_result_t.
Proof. solve_decision. Defined.

Definition guardian_f401_nodelink_state_valid (state : Z) : bool :=
  u32 state <=? u32 GUARDIAN_NODE_STATE_FAULT.

Section adapter.
Context {C W : Type}.

Definition guardian_f401_nodelink_send_frame_fn : Type := C -> list Z -> nat -> W -> Z * W.

Record guardian_f401_nodelink_transport_t := NODELINK_TRANSPORT {
  tr_send_frame : option guardian_f401_nodelink_send_frame_fn;
  tr_context : C
}.

Record guardian_f401_nodelink_adapter_t := NODELINK_ADAPTER {
  na_transport : guardian_f401_nodelink_transport_t;
  na_local_state : Z;
  na_sender_node_id : Z; na_sender_epoch : Z;
  na_next_sequence : Z;
  na_heartbeat_interval_ms : Z; na_elapsed_ms : Z;
  na_initialized : Z; na_sequence_exhausted : Z
}.

Definition put_transport t a := NODELINK_ADAPTER t (na_local_state a) (na_sender_node_id a)
  (na_sender_epoch a) (na_next_sequence a) (na_heartbeat_interval_ms a) (na_elapsed_ms a)
  (na_initialized a) (na_sequence_exhausted a).
Definition put_local_state s a := NODELINK_ADAPTER (na_transport a) s (na_sender_node_id a)
  (na_sender_epoch a) (na_next_sequence a) (na_heartbeat_interval_ms a) (na_elapsed_ms a)
  (na_initialized a) (na_sequence_exhausted a).
Definition put_sequence n x a := NODELINK_ADAPTER (na_transport a) (na_local_state a)
  (na_sender_node_id a) (na_sender_epoch a) n (na_heartbeat_interval_ms a) (na_elapsed_ms a)
  (na_initialized a) x.
Definition put_elapsed e a := NODELINK_ADAPTER (na_transport a) (na_local_state a)
  (na_sender_node_id a) (na_sender_epoch a) (na_next_sequence a) (na_heartbeat_interval_ms a) e
  (na_initialized a) (na_sequence_exhausted a).

(** ** Operations *)

Definition next_frame (a : guardian_f401_nodelink_adapter_t) (message_type : Z)
  : guardian_node_link_frame_t :=
  NL_FRAME message_type GUARDIAN_NODE_LINK_SUPPORTED_FLAGS (na_local_state a) 0
    (na_next_sequence a) (na_sender_epoch a) (na_sender_node_id a)
    (replicate GUARDIAN_NODE_LINK_MAX_PAYLOAD 0).

Definition guardian_f401_nodelink_send (adapter : option guardian_f401_nodelink_adapter_t)
    (message_type : Z) (w : W)
  : guardian_f401_nodelink_adapter_result_t * option guardian_f401_nodelink_adapter_t * W :=
  match adapter with
  | None => (GUARDIAN_F401_NODELINK_ERROR_NULL_ARGUMENT, adapter, w)
  | Some a =>
      early na_initialized a =? 0 with (GUARDIAN_F401_NODELINK_ERROR_NOT_INITIALIZED, adapter, w) ;;
      match tr_send_frame (na_transport a) with
      | None => (GUARDIAN_F401_NODELINK_ERROR_TRANSPORT_NOT_CONFIGURED, adapter, w)
      | Some send_frame =>
          early negb (na_sequence_exhausted a =? 0)
            with (GUARDIAN_F401_NODELINK_ERROR_SEQUENCE_EXHAUSTED, adapter, w) ;;
          let '(encode_result, encoded, encoded_size) :=
            guardian_node_link_encode (Some (next_frame a message_type))
              (Some (replicate GUARDIAN_NODE_LINK_MAX_FRAME 0)) GUARDIAN_NODE_LINK_MAX_FRAME
              (Some 0%nat) in
          early negb (bool_decide (encode_result = GUARDIAN_NODE_LINK_OK))
            with (GUARDIAN_F401_NODELINK_ERROR_ENCODE, adapter, w) ;;
          let size := default 0%nat encoded_size in
          let '(sent, w) :=
            send_frame (tr_context (na_transport a)) (take size (default [] encoded)) size w in
          early sent =? 0 with (GUARDIAN_F401_NODELINK_ERROR_TRANSPORT, adapter, w) ;;
          (GUARDIAN_F401_NODELINK_OK,
           Some (if na_next_sequence a =? UINT32_MAX then put_sequence (na_next_sequence a) 1 a
                 else put_sequence (u32 (na_next_sequence a + 1)) (na_sequence_exhausted a) a), w)
      end
  end.

(** [null] is the null context pointer. *)
Definition guardian_f401_nodelink_adapter_init (null : C)
    (adapter : option guardian_f401_nodelink_adapter_t) (sender_node_id sender_epoch : Z)
  : guardian_f401_nodelink_adapter_result_t * option guardian_f401_nodelink_adapter_t :=
  match adapter with
  | None => (GUARDIAN_F401_NODELINK_ERROR_NULL_ARGUMENT, adapter)
  | Some _ =>
      early sender_node_id =? 0 with (GUARDIAN_F401_NODELINK_ERROR_NODE_ID_ZERO, adapter) ;;
      early sender_epoch =? 0 with (GUARDIAN_F401_NODELINK_ERROR_EPOCH_ZERO, adapter) ;;
      (GUARDIAN_F401_NODELINK_OK,
       Some (NODELINK_ADAPTER (NODELINK_TRANSPORT None null) GUARDIAN_NODE_STATE_BOOT sender_node_id
               sender_epoch 1 GUARDIAN_F401_NODELINK_DEFAULT_HEARTBEAT_MS 0 1 0))
  end.

Definition guardian_f401_nodelink_adapter_set_transport
    (adapter : option guardian_f401_nodelink_adapter_t)
    (transport : option guardian_f401_nodelink_transport_t)
  : guardian_f401_nodelink_adapter_result_t * option guardian_f401_nodelink_adapter_t :=
  match adapter, transport with
  | Some a, Some t =>
      early na_initialized a =? 0 with (GUARDIAN_F401_NODELINK_ERROR_NOT_INITIALIZED, adapter) ;;
      early is_null (tr_send_frame t)
        with (GUARDIAN_F401_NODELINK_ERROR_TRANSPORT_NOT_CONFIGURED, adapter) ;;
      (GUARDIAN_F401_NODELINK_OK, Some (put_transport t a))
  | _, _ => (GUARDIAN_F401_NODELINK_ERROR_NULL_ARGUMENT, adapter)
  end.

Definition guardian_f401_nodelink_adapter_set_state
    (adapter : option guardian_f401_nodelink_adapter_t) (state : Z)
  : guardian_f401_nodelink_adapter_result_t * option guardian_f401_nodelink_adapter_t :=
  match adapter with
  | None => (GUARDIAN_F401_NODELINK_ERROR_NULL_ARGUMENT, adapter)
  | Some a =>
      early na_initialized a =? 0 with (GUARDIAN_F401_NODELINK_ERROR_NOT_INITIALIZED, adapter) ;;
      early negb (guardian_f401_nodelink_state_valid state)
        with (GUARDIAN_F401_NODELINK_ERROR_INVALID_STATE, adapter) ;;
      (GUARDIAN_F401_NODELINK_OK, Some (put_local_state state a))
  end.

Definition guardian_f401_nodelink_adapter_tick_1ms (adapter : option guardian_f401_nodelink_adapter_t)
  : guardian_f401_nodelink_adapter_result_t * option guardian_f401_nodelink_adapter_t :=
  match adapter with
  | None => (GUARDIAN_F401_NODELINK_ERROR_NULL_ARGUMENT, adapter)
  | Some a =>
      early na_initialized a =? 0 with (GUARDIAN_F401_NODELINK_ERROR_NOT_INITIALIZED, adapter) ;;
      (GUARDIAN_F401_NODELINK_OK,
       Some (if na_elapsed_ms a <? na_heartbeat_interval_ms a
             then put_elapsed (u32 (na_elapsed_ms a + 1)) a else a))
  end.

Definition guardian_f401_nodelink_adapter_send_hello
    (adapter : option guardian_f401_nodelink_adapter_t) (w : W) :=
  guardian_f401_nodelink_send adapter GUARDIAN_NODE_LINK_MESSAGE_HELLO w.

Definition guardian_f401_nodelink_adapter_poll (adapter : option guardian_f401_nodelink_adapter_t) (w : W)
  : guardian_f401_nodelink_adapter_result_t * option guardian_f401_nodelink_adapter_t * W :=
  match adapter with
  | None => (GUARDIAN_F401_NODELINK_ERROR_NULL_ARGUMENT, adapter, w)
  | Some a =>
      early na_initialized a =? 0 with (GUARDIAN_F401_NODELINK_ERROR_NOT_INITIALIZED, adapter, w) ;;
      early na_elapsed_ms a <? na_heartbeat_interval_ms a with (GUARDIAN_F401_NODELINK_OK, adapter, w) ;;
      let '(result, adapter, w) :=
        guardian_f401_nodelink_send adapter GUARDIAN_NODE_LINK_MESSAGE_HEARTBEAT w in
      (result,
       if bool_decide (result = GUARDIAN_F401_NODELINK_OK) then option_map (put_elapsed 0) adapter
       else adapter, w)
  end.
End adapter.

Arguments guardian_f401_nodelink_send_frame_fn : clear implicits.
Arguments guardian_f401_nodelink_transport_t : clear implicits.
Arguments guardian_f401_nodelink_adapter_t : clear implicits.

Ltac fields := cbn [put_transport put_local_state put_sequence put_elapsed na_transport na_local_state
  na_sender_node_id na_sender_epoch na_next_sequence na_heartbeat_interval_ms na_elapsed_ms
  na_initialized na_sequence_exhausted].

(** ** Calls of the transport, and the receiver *)

(** The transport with a log of its calls: the bytes, and whether it took them. *)
Definition recorded {C W} (send : guardian_f401_nodelink_send_frame_fn C W)
  : guardian_f401_nodelink_send_frame_fn C (W * list (list Z * bool)) :=
  fun context frame frame_size '(w, log) =>
    let '(sent, w) := send context frame frame_size w in
    (sent, (w, log ++ [(take frame_size frame, negb (sent =? 0))])).

(** The bytes that the transport took. *)
Definition taken (log : list (list Z * bool)) : list (list Z) :=
  map fst (List.filter snd log).

Definition sequence_floor (log : list (list Z * bool)) : Z := Z.of_nat (length (taken log)).

(** What a receiver does with the bytes of a frame: decode, then its sequence guard. *)
Definition receive (g : guardian_node_link_sequence_guard_t) (wire : list Z)
  : guardian_node_link_result_t * guardian_node_link_sequence_guard_t :=
  match guardian_node_link_decode (Some wire) (length wire) (Some blank_nl_frame) with
  | (GUARDIAN_NODE_LINK_OK, Some f) =>
      let '(result, g') := guardian_node_link_accept_sequence (Some g) (nl_sequence f) in
      (result, default g g')
  | (result, _) => (result, g)
  end.

Fixpoint receive_all (g : guardian_node_link_sequence_guard_t) (wires : list (list Z))
  : list guardian_node_link_result_t :=
  match wires with
  | [] => []
  | wire :: wires => let '(result, g) := receive g wire in result :: receive_all g wires
  end.

Inductive sender_op :=
  | Set_state (state : Z)
  | Tick
  | Hello
  | Poll.

Definition sender_op_typed (o : sender_op) : Prop :=
  match o with Set_state state => is_u32 state | _ => True end.

Section runs.
Context {C W : Type}.

Local Abbreviation adapter := (guardian_f401_nodelink_adapter_t C (W * list (list Z * bool))).

Definition sender_step (x : adapter * (W * list (list Z * bool))) (o : sender_op)
  : adapter * (W * list (list Z * bool)) :=
  let '(a, w) := x in
  match o with
  | Set_state state =>
      let '(_, a') := guardian_f401_nodelink_adapter_set_state (Some a) state in (default a a', w)
  | Tick => let '(_, a') := guardian_f401_nodelink_adapter_tick_1ms (Some a) in (default a a', w)
  | Hello =>
      let '(_, a', w) := guardian_f401_nodelink_adapter_send_hello (Some a) w in (default a a', w)
  | Poll => let '(_, a', w) := guardian_f401_nodelink_adapter_poll (Some a) w in (default a a', w)
  end.

Definition sender_run (x : adapter * (W * list (list Z * bool))) (os : list sender_op) := foldl sender_step x os.

(** A node and an epoch, and a transport that is recorded. *)
Context (send : guardian_f401_nodelink_send_frame_fn C W) (c : C) (node epoch : Z).

(** What a call of the transport after [k] accepted frames is given. *)
Definition own_frame (k : Z) (f : guardian_node_link_frame_t) : Prop :=
  nl_frame_ok f /\ nl_sender_node_id f = node /\ nl_sender_epoch f = epoch /\
  nl_sequence f = k + 1 /\ nl_payload_length f = 0 /\
  (nl_message_type f = GUARDIAN_NODE_LINK_MESSAGE_HELLO \/
   nl_message_type f = GUARDIAN_NODE_LINK_MESSAGE_HEARTBEAT).

(** Every call was given the frame that continues the sequence. *)
Inductive well_sequenced : list (list Z * bool) -> Prop :=
  | sequenced_nil : well_sequenced []
  | sequenced_snoc log f sent :
      well_sequenced log -> own_frame (sequence_floor log) f ->
      well_sequenced (log ++ [(nl_wire f, sent)]).

(** The state of the sender after the calls [log]. *)
Record sender_ok (a : adapter) (log : list (list Z * bool)) : Prop := {
  sd_transport : na_transport a = NODELINK_TRANSPORT (Some (recorded send)) c;
  sd_node : na_sender_node_id a = node;
  sd_epoch : na_sender_epoch a = epoch;
  sd_initialized : na_initialized a = 1;
  sd_state : GUARDIAN_NODE_STATE_BOOT <= na_local_state a <= GUARDIAN_NODE_STATE_FAULT;
  sd_interval : na_heartbeat_interval_ms a = 1000;
  sd_elapsed : 0 <= na_elapsed_ms a <= 1000;
  sd_floor : sequence_floor log <= UINT32_MAX;
  sd_next : na_next_sequence a = Z.min (sequence_floor log + 1) UINT32_MAX;
  sd_exhausted :
    na_sequence_exhausted a = if decide (sequence_floor log = UINT32_MAX) then 1 else 0;
  sd_sequenced : well_sequenced log
}.

Lemma sequence_floor_snoc log wire sent :
  sequence_floor (log ++ [(wire, sent)]) = sequence_floor log + if sent : bool then 1 else 0.
Proof.
  unfold sequence_floor, taken. rewrite List.filter_app, map_app, length_app.
  destruct sent; cbn; lia.
Qed.

Lemma sequence_floor_nonneg log : 0 <= sequence_floor log.
Proof. unfold sequence_floor. lia. Qed.

Hypothesis Hnode : is_u32 node.
Hypothesis Hepoch : is_u32 epoch.

Lemma next_frame_own a log type :
  sender_ok a log -> sequence_floor log < UINT32_MAX ->
  type = GUARDIAN_NODE_LINK_MESSAGE_HELLO \/ type = GUARDIAN_NODE_LINK_MESSAGE_HEARTBEAT ->
  own_frame (sequence_floor log) (next_frame a type).
Proof.
  intros [] Hlt Ht. pose proof (sequence_floor_nonneg log). unfold UINT32_MAX in *.
  unfold own_frame, next_frame. cbn. rewrite sd_next0, Z.min_l by lia.
  split_and!; try done. split; cbn; try done.
  - by destruct Ht as [-> | ->].
  - unfold is_u32. lia.
  - lia.
  - by rewrite sd_epoch0.
  - by rewrite sd_node0.
  - by apply (bytes_replicate 64).
Qed.

(** One send: nothing when the sequence is exhausted, otherwise one call with the
    next frame, and the sequence advances exactly when the transport took it. *)
Lemma send_spec a log w type :
  sender_ok a log ->
  type = GUARDIAN_NODE_LINK_MESSAGE_HELLO \/ type = GUARDIAN_NODE_LINK_MESSAGE_HEARTBEAT ->
  guardian_f401_nodelink_send (Some a) type (w, log) =
  if decide (sequence_floor log = UINT32_MAX)
  then (GUARDIAN_F401_NODELINK_ERROR_SEQUENCE_EXHAUSTED, Some a, (w, log))
  else
    let wire := nl_wire (next_frame a type) in
    let '(sent, w) := send c wire (length wire) w in
    (if sent =? 0 then GUARDIAN_F401_NODELINK_ERROR_TRANSPORT else GUARDIAN_F401_NODELINK_OK,
     Some (if sent =? 0 then a
           else if na_next_sequence a =? UINT32_MAX then put_sequence (na_next_sequence a) 1 a
           else put_sequence (u32 (na_next_sequence a + 1)) (na_sequence_exhausted a) a),
     (w, log ++ [(wire, negb (sent =? 0))])).
Proof.
  intros Ha Ht. pose proof (sequence_floor_nonneg log) as Hk.
  unfold guardian_f401_nodelink_send.
  rewrite (sd_initialized _ _ Ha), (sd_transport _ _ Ha), (sd_exhausted _ _ Ha).
  cbn [Z.eqb tr_send_frame tr_context]. destruct (decide _) as [|Hlt]; [done|]. cbn [negb Z.eqb].
  assert (Hown : own_frame (sequence_floor log) (next_frame a type)).
  { apply next_frame_own; [done| |done]. pose proof (sd_floor _ _ Ha). lia. }
  destruct Hown as (Hok & _). pose proof (nl_wire_length _ Hok) as Hw. cbn [nl_payload_length next_frame] in Hw.
  rewrite nl_encode_writes by (done || (rewrite Hw, length_replicate; cbv; lia)).
  rewrite bool_decide_true by done. cbn [negb default from_option id].
  rewrite take_app_length' by done. unfold recorded.
  destruct (send c _ _ w) as [sent w']. rewrite take_ge by done. by destruct (sent =? 0).
Qed.

Lemma sender_ok_advanced a log f sent :
  sender_ok a log -> sequence_floor log <> UINT32_MAX -> own_frame (sequence_floor log) f ->
  sender_ok
    (if negb sent then a
     else if na_next_sequence a =? UINT32_MAX then put_sequence (na_next_sequence a) 1 a
     else put_sequence (u32 (na_next_sequence a + 1)) (na_sequence_exhausted a) a)
    (log ++ [(nl_wire f, sent)]).
Proof.
  intros [] Hlt Hf. pose proof (sequence_floor_nonneg log) as Hk. pose proof (sequence_floor_snoc log (nl_wire f) sent) as E.
  rewrite decide_False in sd_exhausted0 by done.
  assert (Hseq : well_sequenced (log ++ [(nl_wire f, sent)])) by (by constructor).
  unfold UINT32_MAX in *. destruct sent; cbn [negb].
  - destruct (Z.eqb_spec (na_next_sequence a) 4294967295) as [En|En].
    + split; fields; try assumption; rewrite ?E; unfold UINT32_MAX; try lia.
      by rewrite decide_True by lia.
    + split; fields; try assumption; rewrite ?E; unfold UINT32_MAX; try lia.
      * rewrite u32_id by (unfold is_u32; lia). lia.
      * by rewrite decide_False by lia.
  - split; try assumption; rewrite ?E; unfold UINT32_MAX; try lia. by rewrite decide_False by lia.
Qed.

Lemma send_ok a log w type :
  sender_ok a log ->
  type = GUARDIAN_NODE_LINK_MESSAGE_HELLO \/ type = GUARDIAN_NODE_LINK_MESSAGE_HEARTBEAT ->
  let '(_, a', (_, log')) := guardian_f401_nodelink_send (Some a) type (w, log) in
  sender_ok (default a a') log'.
Proof.
  intros Ha Ht. rewrite send_spec by done. destruct (decide _) as [|Hlt]; [done|]. cbv zeta.
  destruct (send c _ _ w) as [sent w']. cbn [default from_option id].
  rewrite <- (negb_involutive (sent =? 0)) at 1. apply sender_ok_advanced; [done|done|].
  apply next_frame_own; [done| |done]. pose proof (sd_floor _ _ Ha). lia.
Qed.

Lemma sender_ok_elapsed a log e :
  sender_ok a log -> 0 <= e <= 1000 -> sender_ok (put_elapsed e a) log.
Proof. intros [] He. by split. Qed.

Lemma poll_spec a log w :
  sender_ok a log ->
  guardian_f401_nodelink_adapter_poll (Some a) (w, log) =
  if na_elapsed_ms a <? 1000 then (GUARDIAN_F401_NODELINK_OK, Some a, (w, log))
  else
    let '(result, a', w) :=
      guardian_f401_nodelink_send (Some a) GUARDIAN_NODE_LINK_MESSAGE_HEARTBEAT (w, log) in
    (result, if bool_decide (result = GUARDIAN_F401_NODELINK_OK) then option_map (put_elapsed 0) a'
             else a', w).
Proof.
  intros Ha. unfold guardian_f401_nodelink_adapter_poll.
  by rewrite (sd_initialized _ _ Ha), (sd_interval _ _ Ha).
Qed.

Lemma tick_spec a log :
  sender_ok a log ->
  guardian_f401_nodelink_adapter_tick_1ms (Some a) =
  (GUARDIAN_F401_NODELINK_OK, Some (put_elapsed (Z.min (na_elapsed_ms a + 1) 1000) a)).
Proof.
  intros []. cbn. rewrite sd_initialized0, sd_interval0. cbn [Z.eqb].
  destruct (Z.ltb_spec (na_elapsed_ms a) 1000).
  - rewrite u32_id by (unfold is_u32; lia). by rewrite Z.min_l by lia.
  - rewrite Z.min_r by lia. replace 1000 with (na_elapsed_ms a) by lia. by destruct a.
Qed.

Lemma sender_step_ok a log w o :
  sender_ok a log -> sender_op_typed o ->
  let '(a', (_, log')) := sender_step (a, (w, log)) o in sender_ok a' log'.
Proof.
  intros Ha Ho. destruct o as [state| | |]; cbn [sender_step].
  - cbn. rewrite (sd_initialized _ _ Ha). cbn [Z.eqb].
    unfold guardian_f401_nodelink_state_valid. rewrite u32_id by done.
    destruct (Z.leb_spec state (u32 GUARDIAN_NODE_STATE_FAULT)) as [Hs|]; [|exact Ha].
    change (sender_ok (put_local_state state a) log).
    destruct Ha. split; fields; try assumption. cbn in Ho. unfold is_u32 in Ho.
    change (u32 GUARDIAN_NODE_STATE_FAULT) with 5 in Hs.
    unfold GUARDIAN_NODE_STATE_BOOT, GUARDIAN_NODE_STATE_FAULT. lia.
  - rewrite (tick_spec a log) by done. cbn [default from_option id].
    apply sender_ok_elapsed; [exact Ha|]. pose proof (sd_elapsed _ _ Ha). lia.
  - unfold guardian_f401_nodelink_adapter_send_hello.
    pose proof (send_ok a log w GUARDIAN_NODE_LINK_MESSAGE_HELLO Ha (or_introl eq_refl)) as H.
    destruct (guardian_f401_nodelink_send _ _ _) as [[r a'] [w' log']]. exact H.
  - rewrite poll_spec by done. destruct (_ <? _); [exact Ha|].
    pose proof (send_ok a log w GUARDIAN_NODE_LINK_MESSAGE_HEARTBEAT Ha (or_intror eq_refl)) as H.
    destruct (guardian_f401_nodelink_send _ _ _) as [[r a'] [w' log']].
    destruct (bool_decide _); [|exact H]. destruct a' as [a'|]; [|exact H].
    apply sender_ok_elapsed; [exact H|lia].
Qed.

Lemma sender_run_ok os : forall a log w,
  sender_ok a log -> Forall sender_op_typed os ->
  let '(a', (_, log')) := sender_run (a, (w, log)) os in sender_ok a' log'.
Proof.
  induction os as [|o os IH]; intros a log w Ha Hos; [done|].
  apply Forall_cons in Hos as [Ho Hos]. cbn [sender_run foldl].
  pose proof (sender_step_ok a log w o Ha Ho) as H.
  destruct (sender_step _ o) as [a' [w' log']]. by apply IH.
Qed.

(** The adapter after its two configuration calls. *)
Definition configured : adapter :=
  NODELINK_ADAPTER (NODELINK_TRANSPORT (Some (recorded send)) c) GUARDIAN_NODE_STATE_BOOT node epoch 1
    GUARDIAN_F401_NODELINK_DEFAULT_HEARTBEAT_MS 0 1 0.

Lemma configured_spec null a0 a1 a2 :
  guardian_f401_nodelink_adapter_init null (Some a0) node epoch = (GUARDIAN_F401_NODELINK_OK, Some a1) ->
  guardian_f401_nodelink_adapter_set_transport (Some a1)
    (Some (NODELINK_TRANSPORT (Some (recorded send)) c)) = (GUARDIAN_F401_NODELINK_OK, Some a2) ->
  a2 = configured /\ sender_ok a2 [].
Proof.
  cbn. early_case E1. early_case E2. intros [= <-]. cbn. intros [= <-]. split; [done|].
  split; cbn; try done; try constructor.
Qed.

(** ** The receiver *)

(** The frames that the transport took carry the sequence numbers 1, 2, 3, ... *)
Lemma taken_frames log :
  well_sequenced log ->
  exists fs, taken log = map nl_wire fs /\ Forall nl_frame_ok fs /\
    map nl_sequence fs = map Z.of_nat (seq 1 (length fs)).
Proof.
  induction 1 as [|log f sent _ (fs & E & Hok & Hseq) (Hf & _ & _ & Hs & _)]; [by exists []|].
  unfold taken. rewrite List.filter_app, map_app. fold (taken log).
  destruct sent; [|exists fs; by rewrite app_nil_r].
  exists (fs ++ [f]). rewrite E, map_app. split; [done|]. split.
  - apply Forall_app. split; [done|]. by constructor.
  - rewrite map_app, Hseq, length_app. cbn [length]. rewrite seq_app, map_app. f_equal. cbn [map seq].
    rewrite Hs. unfold sequence_floor. rewrite E, length_map. f_equal. lia.
Qed.
End runs.

Lemma sublist_map_inv {A B} (f : A -> B) l k :
  sublist l (map f k) -> exists k', l = map f k' /\ sublist k' k.
Proof.
  revert l. induction k as [|x k IH]; intros l H; cbn [map] in H.
  - apply sublist_nil_r in H as ->. by exists [].
  - apply sublist_cons_r in H as [H|(l' & -> & H)].
    + destruct (IH l H) as (k' & -> & Hk). exists k'. split; [done|by constructor].
    + destruct (IH l' H) as (k' & -> & Hk). exists (x :: k'). split; [done|by constructor].
Qed.

Lemma sublist_map {A B} (f : A -> B) l k : sublist l k -> sublist (map f l) (map f k).
Proof. induction 1; by constructor. Qed.

Lemma sublist_sorted {A} (R : A -> A -> Prop) l k :
  sublist l k -> StronglySorted R k -> StronglySorted R l.
Proof.
  induction 1 as [|x l k Hlk IH|x l k Hlk IH]; intros H; [constructor| |].
  - apply StronglySorted_inv in H as [Hk Hx]. constructor; [by apply IH|].
    rewrite Forall_forall in *. intros y Hy. apply Hx. by eapply elem_of_sublist.
  - apply StronglySorted_inv in H as [Hk _]. by apply IH.
Qed.

Lemma sorted_of_nat_seq n k : StronglySorted Z.lt (map Z.of_nat (seq k n)).
Proof.
  revert k. induction n as [|n IH]; intros k; cbn [seq map]; constructor; [apply IH|].
  apply Forall_map, Forall_forall. intros x Hx%elem_of_seq. lia.
Qed.

(** A fresh receiver takes any frames with increasing sequence numbers. *)
Lemma receive_increasing fs : forall g,
  Forall nl_frame_ok fs -> 0 <= guard_last_sequence g ->
  StronglySorted Z.lt (guard_floor g :: map nl_sequence fs) ->
  receive_all g (map nl_wire fs) = replicate (length fs) GUARDIAN_NODE_LINK_OK.
Proof.
  induction fs as [|f fs IH]; intros g Hok Hg Hs; [done|].
  apply Forall_cons in Hok as [Hf Hok]. apply StronglySorted_inv in Hs as [Hs Hlt].
  apply Forall_cons in Hlt as [Hlt _]. cbn [map receive_all]. unfold receive.
  rewrite <- (app_nil_r (nl_wire f)) at 1. rewrite nl_decode_wire by done. cbn [nl_sequence nl_normalized].
  rewrite accept_sequence_floor by (apply Hf || done). rewrite (proj2 (Z.ltb_lt _ _) Hlt).
  cbn [default from_option id length replicate]. f_equal. apply IH; [done| |done].
  cbn. pose proof (nl_ok_sequence _ Hf) as H. unfold is_u32 in H. lia.
Qed.

Definition fresh_guard : guardian_node_link_sequence_guard_t := SEQUENCE_GUARD 0 0.

(** ** Heartbeats *)

Section heartbeats.
Context {C W : Type} (send : guardian_f401_nodelink_send_frame_fn C W) (c : C) (node epoch state : Z).
Hypothesis Hnode : is_u32 node.
Hypothesis Hepoch : is_u32 epoch.
Hypothesis Hstate : GUARDIAN_NODE_STATE_BOOT <= state <= GUARDIAN_NODE_STATE_FAULT.
Hypothesis Hsend : forall frame n w, fst (send c frame n w) <> 0.

Definition heartbeat (i : nat) : guardian_node_link_frame_t :=
  NL_FRAME GUARDIAN_NODE_LINK_MESSAGE_HEARTBEAT GUARDIAN_NODE_LINK_SUPPORTED_FLAGS state 0
    (Z.of_nat i) epoch node (replicate GUARDIAN_NODE_LINK_MAX_PAYLOAD 0).

Definition heartbeats (n : nat) : list (list Z * bool) :=
  map (fun i => (nl_wire (heartbeat i), true)) (seq 1 n).

Definition milliseconds (n : nat) : list sender_op := concat (replicate n [Tick; Poll]).

(** The sender after [n] heartbeats and [e] milliseconds. *)
Definition beating (n : nat) (e : Z) : guardian_f401_nodelink_adapter_t C (W * list (list Z * bool)) :=
  NODELINK_ADAPTER (NODELINK_TRANSPORT (Some (recorded send)) c) state node epoch
    (Z.min (Z.of_nat n + 1) UINT32_MAX) GUARDIAN_F401_NODELINK_DEFAULT_HEARTBEAT_MS e 1
    (if decide (Z.of_nat n = UINT32_MAX) then 1 else 0).

Lemma heartbeats_taken n : taken (heartbeats n) = map (fun i => nl_wire (heartbeat i)) (seq 1 n).
Proof.
  unfold taken, heartbeats. generalize 1%nat. induction n as [|n IH]; intros k; [done|].
  cbn [seq map List.filter snd fst]. f_equal. apply IH.
Qed.

Lemma heartbeats_floor n : sequence_floor (heartbeats n) = Z.of_nat n.
Proof. unfold sequence_floor. by rewrite heartbeats_taken, length_map, length_seq. Qed.

Lemma heartbeats_snoc n :
  heartbeats (S n) = heartbeats n ++ [(nl_wire (heartbeat (S n)), true)].
Proof. unfold heartbeats. by rewrite seq_S, map_app. Qed.

Lemma heartbeat_ok i : (1 <= i)%nat -> Z.of_nat i <= UINT32_MAX -> nl_frame_ok (heartbeat i).
Proof.
  unfold UINT32_MAX. intros. split; cbn [heartbeat nl_message_type nl_flags nl_node_state
    nl_payload_length nl_sequence nl_sender_epoch nl_sender_node_id nl_payload]; try done.
  - unfold is_u32. lia.
  - lia.
  - by apply bytes_replicate.
Qed.

Lemma beating_ok n e :
  Z.of_nat n <= UINT32_MAX -> 0 <= e <= 1000 -> sender_ok send c node epoch (beating n e) (heartbeats n).
Proof.
  intros Hn He. split; try done; rewrite ?heartbeats_floor; try done.
  induction n as [|n IH]; [constructor|]. rewrite heartbeats_snoc. constructor; [apply IH; lia|].
  split; [apply heartbeat_ok; lia|]. rewrite heartbeats_floor. cbn. split_and!; try done; [lia|by right].
Qed.

Lemma beating_frame n :
  Z.of_nat n < UINT32_MAX ->
  next_frame (beating n 1000) GUARDIAN_NODE_LINK_MESSAGE_HEARTBEAT = heartbeat (S n).
Proof. intros Hn. unfold next_frame, heartbeat, beating. fields. f_equal. lia. Qed.

Lemma beating_next n :
  Z.of_nat n < UINT32_MAX ->
  (if na_next_sequence (beating n 1000) =? UINT32_MAX
   then put_sequence (na_next_sequence (beating n 1000)) 1 (beating n 1000)
   else put_sequence (u32 (na_next_sequence (beating n 1000) + 1))
          (na_sequence_exhausted (beating n 1000)) (beating n 1000)) = beating (S n) 1000.
Proof.
  intros Hn. unfold beating, put_sequence. fields.
  destruct (Z.eqb_spec (Z.min (Z.of_nat n + 1) UINT32_MAX) UINT32_MAX) as [E|E]; unfold UINT32_MAX in *.
  - rewrite (decide_True _ _ (P := Z.of_nat (S n) = _)) by lia. f_equal. lia.
  - rewrite !decide_False by lia. rewrite u32_id by (unfold is_u32; lia). f_equal. lia.
Qed.

(** One millisecond: the timer advances, or it fires and one heartbeat is sent. *)
Lemma millisecond_spec n e w :
  0 <= e < 1000 -> Z.of_nat n < UINT32_MAX ->
  exists w',
  sender_run (beating n e, (w, heartbeats n)) [Tick; Poll] =
  if e =? 999 then (beating (S n) 0, (w', heartbeats (S n)))
  else (beating n (e + 1), (w', heartbeats n)).
Proof.
  intros He Hn. cbn [sender_run foldl sender_step].
  rewrite (tick_spec send c node epoch (beating n e) (heartbeats n)) by (apply beating_ok; lia).
  cbn [na_elapsed_ms beating]. rewrite Z.min_l by lia.
  change (put_elapsed (e + 1) (beating n e)) with (beating n (e + 1)). cbn [from_option id sender_step].
  rewrite (poll_spec send c node epoch (beating n (e + 1)) (heartbeats n)) by (apply beating_ok; lia).
  cbn [na_elapsed_ms beating].
  destruct (Z.eqb_spec e 999) as [->|]; [|rewrite (proj2 (Z.ltb_lt _ _)) by lia; by exists w].
  change (999 + 1 <? 1000) with false. change (999 + 1) with 1000. cbv iota.
  rewrite (send_spec send c node epoch Hnode Hepoch (beating n 1000) (heartbeats n))
    by (try (apply beating_ok; lia); by right).
  rewrite heartbeats_floor, decide_False by lia. cbv zeta.
  rewrite beating_next, beating_frame, heartbeats_snoc by done.
  pose proof (Hsend (nl_wire (heartbeat (S n))) (length (nl_wire (heartbeat (S n)))) w) as Hs.
  destruct (send c _ _ w) as [sent w']. cbn [fst] in Hs. rewrite (proj2 (Z.eqb_neq _ _) Hs). by exists w'.
Qed.

(** With a transport that takes every frame, [m] milliseconds after the start
    [m / 1000] heartbeats have been sent. *)
Lemma milliseconds_spec m w :
  Z.of_nat m < 1000 * UINT32_MAX ->
  exists w',
  sender_run (beating 0 0, (w, [])) (milliseconds m) =
  (beating (m / 1000) (Z.of_nat (m mod 1000)), (w', heartbeats (m / 1000))).
Proof.
  intros Hm. induction m as [|m IH]; [by exists w|].
  destruct IH as (w1 & E); [lia|]. unfold milliseconds. rewrite replicate_S_end, concat_app.
  unfold sender_run in *. rewrite foldl_app. fold (milliseconds m). rewrite E. cbn [concat app].
  pose proof (Nat.mod_upper_bound m 1000 ltac:(lia)) as Hb.
  pose proof (Nat.div_mod_eq m 1000) as Hd. unfold UINT32_MAX in *.
  destruct (millisecond_spec (m / 1000) (Z.of_nat (m mod 1000)) w1) as (w' & Er);
    [lia|unfold UINT32_MAX; lia|]. unfold sender_run in Er. exists w'. etransitivity; [exact Er|].
  destruct (Z.eqb_spec (Z.of_nat (m mod 1000)) 999) as [H|H].
  - rewrite <- (Nat.div_unique (S m) 1000 (S (m / 1000)) 0) by lia.
    by rewrite <- (Nat.mod_unique (S m) 1000 (S (m / 1000)) 0) by lia.
  - rewrite <- (Nat.div_unique (S m) 1000 (m / 1000) (S (m mod 1000))) by lia.
    rewrite <- (Nat.mod_unique (S m) 1000 (m / 1000) (S (m mod 1000))) by lia.
    by rewrite Nat2Z.inj_succ.
Qed.
End heartbeats.

(** ** Correctness *)

(** C1: whatever is asked of a configured sender and whatever its transport does,
    every frame it sends is the valid frame of its node and epoch with the next
    sequence number: a number is reused only after the transport refused it, and
    none is sent after the last one. A fresh receiver accepts the frames that were
    taken, whichever of them the channel loses. *)
Theorem sender_never_reuses_a_sequence {C W} (send : guardian_f401_nodelink_send_frame_fn C W) c null
    node epoch a0 a1 a2 os w a w' log arrived
    (Hn : is_u32 node) (He : is_u32 epoch)
    (Hi : guardian_f401_nodelink_adapter_init null (Some a0) node epoch =
          (GUARDIAN_F401_NODELINK_OK, Some a1))
    (Ht : guardian_f401_nodelink_adapter_set_transport (Some a1)
            (Some (NODELINK_TRANSPORT (Some (recorded send)) c)) = (GUARDIAN_F401_NODELINK_OK, Some a2))
    (Hos : Forall sender_op_typed os)
    (Hrun : sender_run (a2, (w, [])) os = (a, (w', log)))
    (Ha : sublist arrived (taken log)) :
  well_sequenced node epoch log /\ sequence_floor log <= UINT32_MAX /\
  receive_all fresh_guard arrived = replicate (length arrived) GUARDIAN_NODE_LINK_OK.
Proof.
  destruct (configured_spec send c node epoch null a0 a1 a2 Hi Ht) as [_ Hok].
  pose proof (sender_run_ok send c node epoch Hn He os a2 [] w Hok Hos) as H. rewrite Hrun in H.
  split; [apply H|]. split; [apply H|].
  destruct (taken_frames node epoch log (sd_sequenced _ _ _ _ _ _ H)) as (fs & E & Hfs & Hseq).
  rewrite E in Ha. destruct (sublist_map_inv nl_wire arrived fs Ha) as (ks & -> & Hks).
  rewrite length_map. apply receive_increasing; [|done|].
  { rewrite Forall_forall in *. intros f Hf. eapply Hfs, elem_of_sublist; eassumption. }
  assert (Hs : StronglySorted Z.lt (map nl_sequence ks)).
  { apply (sublist_sorted _ _ (map nl_sequence fs)); [by apply sublist_map|].
    rewrite Hseq. apply sorted_of_nat_seq. }
  constructor; [done|]. apply Forall_map, Forall_forall. intros f Hf. cbn.
  assert (Hin : nl_sequence f ∈ map nl_sequence fs).
  { apply list_elem_of_fmap. exists f. split; [done|]. by eapply elem_of_sublist. }
  rewrite Hseq in Hin. apply list_elem_of_fmap in Hin as (i & -> & Hi'). apply elem_of_seq in Hi'. lia.
Qed.

(** C2: on a transport that takes every frame a sender that is polled every
    millisecond sends one heartbeat per second, numbered from 1 and with the state
    it was given, until the sequence is used up. *)
Theorem heartbeat_every_second {C W} (send : guardian_f401_nodelink_send_frame_fn C W) c null
    node epoch state a0 a1 a2 m w
    (Hn : is_u32 node) (He : is_u32 epoch)
    (Hs : GUARDIAN_NODE_STATE_BOOT <= state <= GUARDIAN_NODE_STATE_FAULT)
    (Hi : guardian_f401_nodelink_adapter_init null (Some a0) node epoch =
          (GUARDIAN_F401_NODELINK_OK, Some a1))
    (Ht : guardian_f401_nodelink_adapter_set_transport (Some a1)
            (Some (NODELINK_TRANSPORT (Some (recorded send)) c)) = (GUARDIAN_F401_NODELINK_OK, Some a2))
    (Hsend : forall frame n w, fst (send c frame n w) <> 0)
    (Hm : Z.of_nat m < 1000 * UINT32_MAX) :
  snd (snd (sender_run (a2, (w, [])) (Set_state state :: milliseconds m))) =
  heartbeats node epoch state (m / 1000).
Proof.
  destruct (configured_spec send c node epoch null a0 a1 a2 Hi Ht) as [-> _].
  cbn [sender_run foldl sender_step guardian_f401_nodelink_adapter_set_state configured na_initialized Z.eqb].
  unfold guardian_f401_nodelink_state_valid. rewrite u32_id.
  2: { unfold is_u32, GUARDIAN_NODE_STATE_BOOT, GUARDIAN_NODE_STATE_FAULT in *. lia. }
  rewrite (proj2 (Z.leb_le state (u32 GUARDIAN_NODE_STATE_FAULT))) by apply Hs. cbn [negb].
  destruct (milliseconds_spec send c node epoch state Hn He Hs Hsend m w Hm) as (w' & E).
  transitivity (snd (snd (sender_run (beating send c node epoch state 0 0, (w, [])) (milliseconds m))));
    [done|]. by rewrite E.
Qed.

(** ** Witnesses *)

(** A transport that refuses every second frame. *)
Definition example_send : guardian_f401_nodelink_send_frame_fn unit bool :=
  fun _ _ _ busy => (if busy : bool then 0 else 1, negb busy).

Definition example_sender (send : guardian_f401_nodelink_send_frame_fn unit bool)
  : guardian_f401_nodelink_adapter_t unit (bool * list (list Z * bool)) := configured send tt 7 3.

Definition example_adapter : guardian_f401_nodelink_adapter_t unit (bool * list (list Z * bool)) :=
  NODELINK_ADAPTER (NODELINK_TRANSPORT None tt) 0 0 0 0 0 0 0 0.

Lemma sender_never_reuses_a_sequence_witness :
  let run := sender_run (example_sender example_send, (false, [])) [Hello; Hello; Set_state 2; Hello] in
  map snd (snd (snd run)) = [true; false; true] /\
  sequence_floor (snd (snd run)) = 2 /\
  receive_all fresh_guard (taken (snd (snd run))) = [GUARDIAN_NODE_LINK_OK; GUARDIAN_NODE_LINK_OK].
Proof.
  cbv zeta. split; [by vm_compute|]. split; [by vm_compute|].
  apply (sender_never_reuses_a_sequence example_send tt tt 7 3 example_adapter
    (NODELINK_ADAPTER (NODELINK_TRANSPORT None tt) 0 7 3 1 1000 0 1 0) (example_sender example_send)
    [Hello; Hello; Set_state 2; Hello] false
    (fst (sender_run (example_sender example_send, (false, [])) [Hello; Hello; Set_state 2; Hello]))
    (fst (snd (sender_run (example_sender example_send, (false, [])) [Hello; Hello; Set_state 2; Hello])))
    (snd (snd (sender_run (example_sender example_send, (false, [])) [Hello; Hello; Set_state 2; Hello])))
    (taken (snd (snd (sender_run (example_sender example_send, (false, []))
                        [Hello; Hello; Set_state 2; Hello])))));
    [done|done|reflexivity|reflexivity|by repeat constructor| |reflexivity].
  by vm_compute.
Defined.

Lemma heartbeat_every_second_witness :
  snd (snd (sender_run (example_sender (fun _ _ _ w => (1, w)), (false, [])) (Set_state 2 :: milliseconds 2100)))
  = heartbeats 7 3 2 2.
Proof.
  apply (heartbeat_every_second (fun _ _ _ w => (1, w)) tt tt 7 3 2 example_adapter
    (NODELINK_ADAPTER (NODELINK_TRANSPORT None tt) 0 7 3 1 1000 0 1 0) (example_sender (fun _ _ _ w => (1, w)))
    2100 false); done.
Defined.
