(* ===== verification/FlashAdapter.v ===== *)
(** * The STM32F401 flash behind the media interface

    Model of NodeLink/Src/guardian_node_link_freshness_persistence_stm32f401.c: the
    two slots are the flash sectors 3 and 4, read through memory and written with
    the flash functions of the vendor library, which are parameters. [HalFlash]
    states what their documentation promises: each function touches only the sector
    or the byte it is asked to, whatever it answers; unlocked and without a fault
    they do what they are asked. [chip] is an instance: a locked flash with a
    power supply that may fail.

    [flash_laws] shows that the adapter obeys [MediaLaws], so the theorems on the
    dual-slot store hold on this flash. *)

From S2P Require Import Prelude Freshness Persistence Codec Media Backend Recovery.

(** ** Data *)

Inductive HAL_StatusTypeDef :=
  | HAL_OK
  | HAL_ERROR
  | HAL_BUSY
  | HAL_TIMEOUT.

#[global] Instance HAL_StatusTypeDef_eq_dec : EqDecision HAL_StatusTypeDef.
Proof. solve_decision. Defined.

Definition FLASH_TYPEERASE_SECTORS : Z := 0.
Definition FLASH_TYPEPROGRAM_BYTE : Z := 0.
Definition FLASH_SECTOR_3 : Z := 3.
Definition FLASH_SECTOR_4 : Z := 4.

Definition IS_VOLTAGERANGE (range : Z) : bool :=
  (range =? 0) || (range =? 1) || (range =? 2) || (range =? 3).

Record FLASH_EraseInitTypeDef := ERASE_INIT {
  er_TypeErase : Z; er_Banks : Z; er_Sector : Z; er_NbSectors : Z; er_VoltageRange : Z
}.

Definition GUARDIAN_STM32F401_PERSISTENCE_SLOT_A_ADDRESS : Z := 0x0800C000.
Definition GUARDIAN_STM32F401_PERSISTENCE_SLOT_A_SIZE : Z := 0x00004000.
Definition GUARDIAN_STM32F401_PERSISTENCE_SLOT_B_ADDRESS : Z := 0x08010000.
Definition GUARDIAN_STM32F401_PERSISTENCE_SLOT_B_SIZE : Z := 0x00010000.

Record guardian_node_link_stm32f401_flash_context_t := FLASH_CONTEXT {
  fx_erase_voltage_range : Z
}.

Local Abbreviation slot := guardian_node_link_persistence_slot_t.
Local Abbreviation media_result := guardian_node_link_persistence_media_result_t.
Local Abbreviation op_result := guardian_node_link_freshness_persistence_operation_result_t.
Local Abbreviation media_t := guardian_node_link_persistence_media_t.

(** ** Helpers *)

(** The copy loop from the memory [source]. *)
Definition guardian_stm32f401_bytes_copy (destination : list Z) (source : nat -> Z) (length : nat)
  : list Z :=
  foldl (fun destination index => blit destination index [source index]) destination (seq 0 length).

(** Base address, capacity and sector of a slot. *)
Definition guardian_stm32f401_slot_geometry (s : slot) : Z * nat * Z :=
  match s with
  | GUARDIAN_NODE_LINK_PERSISTENCE_SLOT_A =>
      (GUARDIAN_STM32F401_PERSISTENCE_SLOT_A_ADDRESS,
       Z.to_nat GUARDIAN_STM32F401_PERSISTENCE_SLOT_A_SIZE, FLASH_SECTOR_3)
  | GUARDIAN_NODE_LINK_PERSISTENCE_SLOT_B =>
      (GUARDIAN_STM32F401_PERSISTENCE_SLOT_B_ADDRESS,
       Z.to_nat GUARDIAN_STM32F401_PERSISTENCE_SLOT_B_SIZE, FLASH_SECTOR_4)
  end.

Definition guardian_stm32f401_range_valid (capacity offset length : nat) : bool :=
  early (capacity <? offset)%nat with false ;;
  early (capacity - offset <? length)%nat with false ;;
  true.

(** ** The adapter *)

Section adapter.
Context {W : Type}.

(** The flash as memory, and the functions of the vendor library. [HAL_FLASHEx_Erase]
    takes the value of [*SectorError] and returns the new one. *)
Context (flash_byte : W -> Z -> Z)
        (HAL_FLASH_Unlock HAL_FLASH_Lock : W -> HAL_StatusTypeDef * W)
        (HAL_FLASHEx_Erase : FLASH_EraseInitTypeDef -> Z -> W -> HAL_StatusTypeDef * Z * W)
        (HAL_FLASH_Program : Z -> Z -> Z -> W -> HAL_StatusTypeDef * W).

Definition guardian_stm32f401_flash_read (s : slot) (offset : nat) (output : option (list Z))
    (length : nat) (w : W) : media_result * option (list Z) * W :=
  early is_null output && negb (length =? 0)%nat
    with (GUARDIAN_NODE_LINK_PERSISTENCE_MEDIA_INVALID, output, w) ;;
  let '(base_address, capacity, sector) := guardian_stm32f401_slot_geometry s in
  early negb (guardian_stm32f401_range_valid capacity offset length)
    with (GUARDIAN_NODE_LINK_PERSISTENCE_MEDIA_IO_FAILURE, output, w) ;;
  early (length =? 0)%nat with (GUARDIAN_NODE_LINK_PERSISTENCE_MEDIA_OK, output, w) ;;
  let source := u32 (base_address + u32 (Z.of_nat offset)) in
  (GUARDIAN_NODE_LINK_PERSISTENCE_MEDIA_OK,
   option_map (fun output =>
     guardian_stm32f401_bytes_copy output (fun index => flash_byte w (source + Z.of_nat index)) length)
     output, w).

Definition guardian_stm32f401_flash_erase
    (opaque_context : option guardian_node_link_stm32f401_flash_context_t) (s : slot) (w : W)
  : media_result * W :=
  match opaque_context with
  | None => (GUARDIAN_NODE_LINK_PERSISTENCE_MEDIA_INVALID, w)
  | Some context =>
      let '(base_address, capacity, sector) := guardian_stm32f401_slot_geometry s in
      let erase := ERASE_INIT FLASH_TYPEERASE_SECTORS 0 sector 1 (fx_erase_voltage_range context) in
      let '(unlock_status, w) := HAL_FLASH_Unlock w in
      early negb (bool_decide (unlock_status = HAL_OK))
        with (GUARDIAN_NODE_LINK_PERSISTENCE_MEDIA_IO_FAILURE, w) ;;
      let '(erase_status, sector_error, w) := HAL_FLASHEx_Erase erase UINT32_MAX w in
      let '(lock_status, w) := HAL_FLASH_Lock w in
      early negb (bool_decide (erase_status = HAL_OK)) || negb (bool_decide (lock_status = HAL_OK))
        with (GUARDIAN_NODE_LINK_PERSISTENCE_MEDIA_IO_FAILURE, w) ;;
      early negb (sector_error =? UINT32_MAX)
        with (GUARDIAN_NODE_LINK_PERSISTENCE_MEDIA_IO_FAILURE, w) ;;
      (GUARDIAN_NODE_LINK_PERSISTENCE_MEDIA_OK, w)
  end.

(** The loop over the bytes: the status of the last call. *)
Fixpoint program_loop (base_address : Z) (offset : nat) (data : list Z) (index n : nat) (w : W)
  : HAL_StatusTypeDef * W :=
  match n with
  | O => (HAL_OK, w)
  | S n =>
      let '(program_status, w) :=
        HAL_FLASH_Program FLASH_TYPEPROGRAM_BYTE
          (u32 (u32 (base_address + u32 (Z.of_nat offset)) + u32 (Z.of_nat index)))
          (byte_at data index) w in
      early negb (bool_decide (program_status = HAL_OK)) with (program_status, w) ;;
      program_loop base_address offset data (S index) n w
  end.

Definition guardian_stm32f401_flash_program (s : slot) (offset : nat) (data : option (list Z))
    (length : nat) (w : W) : media_result * W :=
  early is_null data && negb (length =? 0)%nat with (GUARDIAN_NODE_LINK_PERSISTENCE_MEDIA_INVALID, w) ;;
  let '(base_address, capacity, sector) := guardian_stm32f401_slot_geometry s in
  early negb (guardian_stm32f401_range_valid capacity offset length)
    with (GUARDIAN_NODE_LINK_PERSISTENCE_MEDIA_IO_FAILURE, w) ;;
  early (length =? 0)%nat with (GUARDIAN_NODE_LINK_PERSISTENCE_MEDIA_OK, w) ;;
  let '(unlock_status, w) := HAL_FLASH_Unlock w in
  early negb (bool_decide (unlock_status = HAL_OK))
    with (GUARDIAN_NODE_LINK_PERSISTENCE_MEDIA_IO_FAILURE, w) ;;
  let '(program_status, w) := program_loop base_address offset (default [] data) 0 length w in
  let '(lock_status, w) := HAL_FLASH_Lock w in
  early negb (bool_decide (program_status = HAL_OK)) || negb (bool_decide (lock_status = HAL_OK))
    with (GUARDIAN_NODE_LINK_PERSISTENCE_MEDIA_IO_FAILURE, w) ;;
  (GUARDIAN_NODE_LINK_PERSISTENCE_MEDIA_OK, w).

(** The callbacks that [media_init] installs, for the context [x]. *)
Definition flash_media_read (x : guardian_node_link_stm32f401_flash_context_t)
  : guardian_node_link_persistence_media_read_fn W :=
  fun w s offset output length =>
    let '(result, output', w) := guardian_stm32f401_flash_read s offset (Some output) length w in
    (result, default output output', w).
Definition flash_media_erase (x : guardian_node_link_stm32f401_flash_context_t)
  : guardian_node_link_persistence_media_erase_fn W :=
  fun w s => guardian_stm32f401_flash_erase (Some x) s w.
Definition flash_media_program (x : guardian_node_link_stm32f401_flash_context_t)
  : guardian_node_link_persistence_media_program_fn W :=
  fun w s offset data length => guardian_stm32f401_flash_program s offset (Some data) length w.

Definition guardian_node_link_stm32f401_flash_media_init
    (context : option guardian_node_link_stm32f401_flash_context_t) (erase_voltage_range : Z)
    (media : option (media_t W))
  : op_result * option guardian_node_link_stm32f401_flash_context_t * option (media_t W) :=
  match context, media with
  | Some _, Some _ =>
      early negb (IS_VOLTAGERANGE erase_voltage_range) with (GUARDIAN_NODE_LINK_PERSISTENCE_OPERATION_INVALID, context, media) ;;
      let x := FLASH_CONTEXT erase_voltage_range in
      (GUARDIAN_NODE_LINK_PERSISTENCE_OPERATION_OK, Some x,
       Some (MEDIA (Some (flash_media_read x)) (Some (flash_media_erase x)) (Some (flash_media_program x))))
  | _, _ => (GUARDIAN_NODE_LINK_PERSISTENCE_OPERATION_INVALID, context, media)
  end.
End adapter.

(** ** What the vendor library promises *)

(** The sectors of the device: four of 16 KiB, one of 64 KiB, then 128 KiB each. *)
Definition sector_start (sector : Z) : Z :=
  0x08000000 + (if sector <? 4 then sector * 0x4000 else if sector =? 4 then 0x10000
                else (sector - 4) * 0x20000).

Definition in_sector (sector address : Z) : Prop :=
  sector_start sector <= address < sector_start (sector + 1).

Class HalFlash {W : Type} (flash_byte : W -> Z -> Z)
    (HAL_FLASH_Unlock HAL_FLASH_Lock : W -> HAL_StatusTypeDef * W)
    (HAL_FLASHEx_Erase : FLASH_EraseInitTypeDef -> Z -> W -> HAL_StatusTypeDef * Z * W)
    (HAL_FLASH_Program : Z -> Z -> Z -> W -> HAL_StatusTypeDef * W) := {
  working : W -> Prop;     (* no fault *)
  unlocked : W -> Prop;
  flash_bytes : forall w a, is_u8 (flash_byte w a);
  unlock_frame : forall w r w', HAL_FLASH_Unlock w = (r, w') -> forall a, flash_byte w' a = flash_byte w a;
  lock_frame : forall w r w', HAL_FLASH_Lock w = (r, w') -> forall a, flash_byte w' a = flash_byte w a;
  sector_frame : forall x e w r e' w',
    HAL_FLASHEx_Erase x e w = (r, e', w') ->
    er_TypeErase x = FLASH_TYPEERASE_SECTORS -> er_NbSectors x = 1 ->
    forall a, ~ in_sector (er_Sector x) a -> flash_byte w' a = flash_byte w a;
  byte_frame : forall address v w r w',
    HAL_FLASH_Program FLASH_TYPEPROGRAM_BYTE address v w = (r, w') ->
    forall a, a <> address -> flash_byte w' a = flash_byte w a;
  unlock_working : forall w, working w ->
    exists w', HAL_FLASH_Unlock w = (HAL_OK, w') /\ working w' /\ unlocked w';
  lock_working : forall w, working w -> exists w', HAL_FLASH_Lock w = (HAL_OK, w') /\ working w';
  erase_working : forall x e w, working w -> unlocked w ->
    er_TypeErase x = FLASH_TYPEERASE_SECTORS -> er_NbSectors x = 1 ->
    IS_VOLTAGERANGE (er_VoltageRange x) = true ->
    exists w', HAL_FLASHEx_Erase x e w = (HAL_OK, UINT32_MAX, w') /\ working w' /\ unlocked w' /\
    forall a, in_sector (er_Sector x) a -> flash_byte w' a = 0xFF;
  program_working : forall address v w, working w -> unlocked w -> is_u8 v ->
    flash_byte w address = 0xFF ->
    exists w', HAL_FLASH_Program FLASH_TYPEPROGRAM_BYTE address v w = (HAL_OK, w') /\
    working w' /\ unlocked w' /\ flash_byte w' address = v
}.

(** ** The adapter on such a library *)

Definition slot_base (s : slot) : Z := (guardian_stm32f401_slot_geometry s).1.1.
Definition slot_capacity (s : slot) : nat := (guardian_stm32f401_slot_geometry s).1.2.
Definition slot_sector (s : slot) : Z := (guardian_stm32f401_slot_geometry s).2.

Definition slot_address (s : slot) (a : Z) : Prop :=
  slot_base s <= a < slot_base s + Z.of_nat (slot_capacity s).

Lemma geometry_eq s :
  guardian_stm32f401_slot_geometry s = (slot_base s, slot_capacity s, slot_sector s).
Proof. by destruct s. Qed.

Lemma slot_capacity_Z s :
  Z.of_nat (slot_capacity s) =
  match s with
  | GUARDIAN_NODE_LINK_PERSISTENCE_SLOT_A => 0x4000
  | GUARDIAN_NODE_LINK_PERSISTENCE_SLOT_B => 0x10000
  end.
Proof. destruct s; apply Z2Nat.id; done. Qed.

#[global] Opaque slot_capacity.

(** A slot is exactly its sector, and the two are disjoint. *)
Lemma slot_is_sector s a : in_sector (slot_sector s) a <-> slot_address s a.
Proof.
  unfold in_sector, slot_address. rewrite slot_capacity_Z. by destruct s.
Qed.

Lemma slots_disjoint s a : slot_address s a -> ~ slot_address (other_slot s) a.
Proof.
  unfold slot_address. rewrite !slot_capacity_Z. destruct s; cbn; unfold
    GUARDIAN_STM32F401_PERSISTENCE_SLOT_A_ADDRESS, GUARDIAN_STM32F401_PERSISTENCE_SLOT_B_ADDRESS; lia.
Qed.

(** The address computations stay inside the slot. *)
Lemma slot_offset_address s off :
  (off <= slot_capacity s)%nat ->
  u32 (slot_base s + u32 (Z.of_nat off)) = slot_base s + Z.of_nat off.
Proof.
  intros H. pose proof (slot_capacity_Z s) as E.
  rewrite (u32_id (Z.of_nat off)) by (unfold is_u32; destruct s; lia).
  apply u32_id. unfold is_u32. destruct s; cbn; unfold
    GUARDIAN_STM32F401_PERSISTENCE_SLOT_A_ADDRESS, GUARDIAN_STM32F401_PERSISTENCE_SLOT_B_ADDRESS; lia.
Qed.

Lemma slot_index_address s off i :
  (off + i <= slot_capacity s)%nat ->
  u32 (u32 (slot_base s + u32 (Z.of_nat off)) + u32 (Z.of_nat i)) = slot_base s + Z.of_nat (off + i).
Proof.
  intros H. pose proof (slot_capacity_Z s) as E. rewrite slot_offset_address by lia.
  rewrite (u32_id (Z.of_nat i)) by (unfold is_u32; destruct s; lia).
  rewrite u32_id; [lia|]. unfold is_u32. destruct s; cbn; unfold
    GUARDIAN_STM32F401_PERSISTENCE_SLOT_A_ADDRESS, GUARDIAN_STM32F401_PERSISTENCE_SLOT_B_ADDRESS; lia.
Qed.

Lemma range_valid_spec capacity off n :
  guardian_stm32f401_range_valid capacity off n = true <-> (off + n <= capacity)%nat.
Proof.
  unfold guardian_stm32f401_range_valid.
  destruct (Nat.ltb_spec capacity off); [split; [done|lia]|].
  destruct (Nat.ltb_spec (capacity - off) n); split; (done || lia).
Qed.

(** The copy loop writes the first [n] bytes. *)
Lemma bytes_copy_spec dst (source : nat -> Z) n :
  (n <= length dst)%nat ->
  guardian_stm32f401_bytes_copy dst source n = map source (seq 0 n) ++ drop n dst.
Proof.
  unfold guardian_stm32f401_bytes_copy. induction n as [|n IH]; intros H; [done|].
  rewrite seq_S, foldl_app, IH by lia. cbn [foldl Nat.add]. unfold blit.
  rewrite take_app_length' by (by rewrite length_map, length_seq).
  rewrite map_app, <- app_assoc. f_equal. cbn [map app length]. f_equal.
  rewrite drop_app_ge by (rewrite length_map, length_seq; lia).
  rewrite length_map, length_seq, drop_drop. f_equal. lia.
Qed.

Section laws.
Context {W : Type} {flash_byte : W -> Z -> Z} {unlock lock : W -> HAL_StatusTypeDef * W}
  {hal_erase : FLASH_EraseInitTypeDef -> Z -> W -> HAL_StatusTypeDef * Z * W}
  {hal_program : Z -> Z -> Z -> W -> HAL_StatusTypeDef * W}
  {hal : HalFlash flash_byte unlock lock hal_erase hal_program}.
Context (x : guardian_node_link_stm32f401_flash_context_t).

Local Abbreviation read := (flash_media_read flash_byte x).
Local Abbreviation erase := (flash_media_erase unlock lock hal_erase x).
Local Abbreviation program := (flash_media_program unlock lock hal_program x).

Definition untouched (w w' : W) (s : slot) : Prop :=
  forall a, ~ slot_address s a -> flash_byte w' a = flash_byte w a.

(** ** Frames *)

Lemma read_flash w s off out n r out' w' :
  read w s off out n = (r, out', w') ->
  w' = w /\
  (r = GUARDIAN_NODE_LINK_PERSISTENCE_MEDIA_OK <-> (off + n <= slot_capacity s)%nat) /\
  (r = GUARDIAN_NODE_LINK_PERSISTENCE_MEDIA_OK -> (n <= length out)%nat ->
   out' = map (fun i => flash_byte w (slot_base s + Z.of_nat i)) (seq off n) ++ drop n out).
Proof.
  unfold flash_media_read, guardian_stm32f401_flash_read. cbn [is_null andb].
  rewrite geometry_eq. pose proof (range_valid_spec (slot_capacity s) off n) as Hv.
  destruct (guardian_stm32f401_range_valid _ _ _); cbn [negb].
  - destruct Hv as [Hv _]. specialize (Hv eq_refl). destruct (Nat.eqb_spec n 0) as [->|].
    + intros [= <- <- <-]. split; [done|]. split; [done|]. intros _ _. by rewrite drop_0.
    + rewrite slot_offset_address by lia. intros [= <- <- <-]. split; [done|]. split; [done|].
      intros _ Hn. rewrite bytes_copy_spec by done. f_equal.
      replace (seq off n) with (map (Nat.add off) (seq 0 n))
        by (rewrite <- (Nat.add_0_r off) at 2; apply fmap_add_seq).
      rewrite map_map. apply map_ext. intros i. f_equal. lia.
  - intros [= <- <- <-]. split; [done|]. split; [|done]. split; [done|]. intros H. by apply Hv in H.
Qed.

Lemma erase_confined w s r w' : erase w s = (r, w') -> untouched w w' s.
Proof.
  unfold flash_media_erase, guardian_stm32f401_flash_erase. rewrite geometry_eq.
  destruct (unlock w) as [u w1] eqn:Eu. intros H a Ha. pose proof (unlock_frame _ _ _ Eu a) as Hu.
  destruct (negb (bool_decide (u = HAL_OK))); [by injection H as _ <-|].
  destruct (hal_erase _ _ w1) as [[e se] w2] eqn:Ee.
  assert (Hs : flash_byte w2 a = flash_byte w1 a).
  { apply (sector_frame _ _ _ _ _ _ Ee); [done|done|]. cbn [er_Sector]. by rewrite slot_is_sector. }
  destruct (lock w2) as [l w3] eqn:El. pose proof (lock_frame _ _ _ El a) as Hl.
  destruct (negb _ || negb _); [injection H as _ <-; congruence|].
  destruct (negb (_ =? _)); injection H as _ <-; congruence.
Qed.

Lemma program_loop_frame s off data w0 : forall n i w r w',
  (off + i + n <= slot_capacity s)%nat -> untouched w0 w s ->
  program_loop hal_program (slot_base s) off data i n w = (r, w') -> untouched w0 w' s.
Proof.
  induction n as [|n IH]; intros i w r w' Hn Hw H; cbn [program_loop] in H; [by injection H as _ <-|].
  rewrite slot_index_address in H by lia.
  destruct (hal_program _ _ _ w) as [p w1] eqn:Ep.
  assert (H1 : untouched w0 w1 s).
  { intros a Ha. rewrite (byte_frame _ _ _ _ _ Ep a), Hw; [done|done|].
    intros ->. apply Ha. unfold slot_address. lia. }
  destruct (negb _); [by injection H as _ <-|]. by apply (IH (S i) w1 r); [lia|..].
Qed.

Lemma program_confined w s off data n r w' : program w s off data n = (r, w') -> untouched w w' s.
Proof.
  unfold flash_media_program, guardian_stm32f401_flash_program. cbn [is_null andb]. rewrite geometry_eq.
  destruct (guardian_stm32f401_range_valid _ _ _) eqn:Ev; cbn [negb]; [|by intros [= _ <-]].
  apply range_valid_spec in Ev. destruct (n =? 0)%nat; [by intros [= _ <-]|].
  destruct (unlock w) as [u w1] eqn:Eu. pose proof (unlock_frame _ _ _ Eu) as Hu.
  destruct (negb _); [intros [= _ <-]; intros a _; apply Hu|].
  cbn [from_option id]. destruct (program_loop _ _ _ _ _ _ w1) as [p w2] eqn:Ep.
  assert (H2 : untouched w w2 s).
  { apply (program_loop_frame s off data w n 0 w1 p); [lia| |done]. intros a _. apply Hu. }
  destruct (lock w2) as [l w3] eqn:El. pose proof (lock_frame _ _ _ El) as Hl.
  destruct (negb _ || negb _); intros [= _ <-] a Ha; rewrite Hl; by apply H2.
Qed.

(** ** On a working flash *)

Definition flash_content (w : W) (s : slot) : list Z :=
  map (fun i => flash_byte w (slot_base s + Z.of_nat i)) (seq 0 448).

Lemma flash_content_untouched w w' s : untouched w w' s -> flash_content w' (other_slot s) = flash_content w (other_slot s).
Proof.
  intros H. apply map_ext_in. intros i Hi%in_seq. apply H.
  rewrite <- (other_slot_involutive s) at 1. apply slots_disjoint.
  unfold slot_address. rewrite slot_capacity_Z. destruct (other_slot s); lia.
Qed.

Lemma flash_slice w s off n :
  (off + n <= 448)%nat ->
  take n (drop off (flash_content w s)) = map (fun i => flash_byte w (slot_base s + Z.of_nat i)) (seq off n).
Proof. intros H. unfold flash_content. by rewrite skipn_map, firstn_map, take_drop_seq. Qed.

Lemma image_in_slot s : (448 <= slot_capacity s)%nat.
Proof. pose proof (slot_capacity_Z s). destruct s; lia. Qed.

Lemma flash_erase_working w s (Hx : IS_VOLTAGERANGE (fx_erase_voltage_range x) = true) :
  working w ->
  exists w', erase w s = (GUARDIAN_NODE_LINK_PERSISTENCE_MEDIA_OK, w') /\ working w' /\
  forall a, slot_address s a -> flash_byte w' a = 0xFF.
Proof.
  intros Hw. unfold flash_media_erase, guardian_stm32f401_flash_erase. rewrite geometry_eq.
  destruct (unlock_working w Hw) as (w1 & -> & Hw1 & Hu). rewrite bool_decide_true by done. cbn [negb].
  destruct (erase_working (ERASE_INIT FLASH_TYPEERASE_SECTORS 0 (slot_sector s) 1
    (fx_erase_voltage_range x)) UINT32_MAX w1) as (w2 & -> & Hw2 & Hu2 & Hff); [done..|].
  destruct (lock_working w2 Hw2) as (w3 & El & Hw3). pose proof (lock_frame _ _ _ El) as Hl. rewrite El.
  rewrite !bool_decide_true, Z.eqb_refl by done. cbn [negb orb].
  exists w3. split; [done|]. split; [done|]. intros a Ha. rewrite Hl. by apply Hff, slot_is_sector.
Qed.

(** The loop on erased bytes stores the data. *)
Lemma program_loop_working s off data : forall n i w,
  (off + i + n <= slot_capacity s)%nat -> bytes data -> working w -> unlocked w ->
  (forall k, (off + i <= k < off + i + n)%nat -> flash_byte w (slot_base s + Z.of_nat k) = 0xFF) ->
  exists w', program_loop hal_program (slot_base s) off data i n w = (HAL_OK, w') /\ working w' /\
  forall k, (k < slot_capacity s)%nat ->
    flash_byte w' (slot_base s + Z.of_nat k) =
    if decide (off + i <= k < off + i + n)%nat then byte_at data (k - off)
    else flash_byte w (slot_base s + Z.of_nat k).
Proof.
  induction n as [|n IH]; intros i w Hn Hd Hw Hu Hff; cbn [program_loop].
  { exists w. split; [done|]. split; [done|]. intros k _. by rewrite decide_False by lia. }
  rewrite slot_index_address by lia.
  destruct (program_working (slot_base s + Z.of_nat (off + i)) (byte_at data i) w Hw Hu)
    as (w1 & Ep & Hw1 & Hu1 & Hv); [by apply byte_at_range|apply Hff; lia|].
  rewrite Ep, bool_decide_true by done. cbn [negb].
  pose proof (byte_frame _ _ _ _ _ Ep) as Hf.
  destruct (IH (S i) w1) as (w2 & E & Hw2 & Hk); [lia|done|done|done| |].
  { intros k Hk. rewrite Hf by lia. apply Hff. lia. }
  exists w2. split; [done|]. split; [done|]. intros k Hc. rewrite Hk by done.
  destruct (decide (k = off + i)%nat) as [->|Hne].
  - rewrite decide_False, decide_True by lia. rewrite Hv. f_equal. lia.
  - rewrite Hf by lia. destruct (decide (off + S i <= k < off + S i + n)%nat).
    + by rewrite decide_True by lia.
    + by rewrite decide_False by lia.
Qed.

Lemma flash_program_working w s off data n :
  working w -> bytes data -> (off + n <= 448)%nat ->
  take n (drop off (flash_content w s)) = replicate n 0xFF ->
  exists w', program w s off data n = (GUARDIAN_NODE_LINK_PERSISTENCE_MEDIA_OK, w') /\ working w' /\
  forall k, (k < 448)%nat ->
    flash_byte w' (slot_base s + Z.of_nat k) =
    if decide (off <= k < off + n)%nat then byte_at data (k - off)
    else flash_byte w (slot_base s + Z.of_nat k).
Proof.
  intros Hw Hd Hn Her. pose proof (image_in_slot s) as Hc.
  unfold flash_media_program, guardian_stm32f401_flash_program. cbn [is_null andb]. rewrite geometry_eq.
  rewrite (proj2 (range_valid_spec (slot_capacity s) off n)) by lia. cbn [negb].
  destruct (Nat.eqb_spec n 0) as [->|].
  { exists w. split; [done|]. split; [done|]. intros k _. by rewrite decide_False by lia. }
  destruct (unlock_working w Hw) as (w1 & Eu & Hw1 & Hu1). pose proof (unlock_frame _ _ _ Eu) as Hf1.
  rewrite Eu, bool_decide_true by done. cbn [negb from_option id].
  destruct (program_loop_working s off data n 0 w1) as (w2 & -> & Hw2 & Hk); [lia|done..| |].
  { intros k Hk. rewrite Hf1. rewrite flash_slice in Her by done.
    apply (f_equal (fun l => byte_at l (k - off))) in Her. rewrite byte_at_map_seq in Her by lia.
    replace (off + (k - off))%nat with k in Her by lia. rewrite Her.
    unfold byte_at. by rewrite nth_lookup, lookup_replicate_2 by lia. }
  destruct (lock_working w2 Hw2) as (w3 & El & Hw3). pose proof (lock_frame _ _ _ El) as Hf3.
  rewrite El, !bool_decide_true by done. cbn [negb orb].
  exists w3. split; [done|]. split; [done|]. intros k Hk'. rewrite Hf3, Hk by lia. rewrite Hf1.
  by rewrite Nat.add_0_r.
Qed.

Context (Hx : IS_VOLTAGERANGE (fx_erase_voltage_range x) = true).

(** The adapter keeps the contract of the media interface. *)
#[global] Instance flash_laws : MediaLaws read erase program.
Proof using Hx hal.
  refine (Build_MediaLaws W read erase program flash_content working _ _ _ _ _ _ _ _ _).
  - intros w s. apply Forall_map, Forall_true. intros. apply flash_bytes.
  - intros w s. unfold flash_content. by rewrite length_map, length_seq.
  - intros w s off buf n r out w' H. apply read_flash in H as (-> & _). done.
  - intros w s off buf n out w' H Hn Hb. apply read_flash in H as (_ & _ & H).
    rewrite H, flash_slice, drop_ge, app_nil_r by (done || lia). done.
  - intros w s off buf n Hw Hn. destruct (read w s off buf n) as [[r out] w'] eqn:E.
    pose proof (read_flash _ _ _ _ _ _ _ _ E) as (_ & [_ H] & _). pose proof (image_in_slot s).
    rewrite <- H by lia. by exists out, w'.
  - intros w s r w' H. by apply flash_content_untouched, (erase_confined w s r).
  - intros w s Hw. destruct (flash_erase_working w s Hx Hw) as (w' & E & Hw' & Hff).
    exists w'. split; [done|]. split; [done|]. unfold flash_content. rewrite length_map, length_seq.
    apply (byte_at_ext _ _ 448); [by rewrite length_map, length_seq|by rewrite length_replicate|].
    intros i Hi. rewrite byte_at_map_seq by done. rewrite Hff.
    + unfold byte_at. by rewrite nth_lookup, lookup_replicate_2.
    + unfold slot_address. pose proof (image_in_slot s). lia.
  - intros w s off data n r w' H. by apply flash_content_untouched, (program_confined w s off data n r).
  - intros w s off data n Hw Hd Hn Hoff Her.
    destruct (flash_program_working w s off data n Hw Hd Hoff Her) as (w' & E & Hw' & Hk).
    exists w'. split; [done|]. split; [done|].
    assert (Hlen : length (flash_content w s) = 448%nat)
      by (unfold flash_content; by rewrite length_map, length_seq).
    apply (byte_at_ext _ _ 448); [by unfold flash_content; rewrite length_map, length_seq| |].
    { rewrite blit_length; [done|]. rewrite length_take. lia. }
    intros i Hi. rewrite byte_at_blit by (rewrite length_take; lia).
    rewrite length_take, Nat.min_l by done. unfold flash_content at 1.
    rewrite byte_at_map_seq by done. cbn [Nat.add]. rewrite Hk by done.
    destruct (Nat.leb_spec off i), (Nat.ltb_spec i (off + n)); cbn [andb].
    1: rewrite decide_True by lia; by rewrite byte_at_take by lia.
    all: rewrite decide_False by lia; unfold flash_content; by rewrite byte_at_map_seq.
Defined.
End laws.

(** ** A flash chip

    Cells that programming clears and erasing sets, a lock, and a power supply for
    so many more cells ([None]: for ever). *)

Record chip := CHIP { ch_cells : Z -> Z; ch_unlocked : bool; ch_power : option Z }.

Definition chip_byte (c : chip) (a : Z) : Z := u8 (ch_cells c a).

Definition chip_lock (unlocked : bool) (c : chip) : HAL_StatusTypeDef * chip :=
  match ch_power c with
  | Some 0 => (HAL_TIMEOUT, c)
  | power => (HAL_OK, CHIP (ch_cells c) unlocked power)
  end.

Definition chip_erase (x : FLASH_EraseInitTypeDef) (e : Z) (c : chip) : HAL_StatusTypeDef * Z * chip :=
  early negb (ch_unlocked c) || negb (er_TypeErase x =? FLASH_TYPEERASE_SECTORS)
    with (HAL_ERROR, e, c) ;;
  let size := sector_start (er_Sector x + 1) - sector_start (er_Sector x) in
  let done := match ch_power c with None => size | Some p => Z.min p size end in
  (if done =? size then HAL_OK else HAL_TIMEOUT, if done =? size then UINT32_MAX else er_Sector x,
   CHIP (fun a => if (sector_start (er_Sector x) <=? a) && (a <? sector_start (er_Sector x) + done)
                  then 0xFF else ch_cells c a)
     (ch_unlocked c) (option_map (fun p => p - done) (ch_power c))).

Definition chip_program (type address v : Z) (c : chip) : HAL_StatusTypeDef * chip :=
  early negb (ch_unlocked c) || negb (type =? FLASH_TYPEPROGRAM_BYTE) with (HAL_ERROR, c) ;;
  early bool_decide (ch_power c = Some 0) with (HAL_TIMEOUT, c) ;;
  (HAL_OK,
   CHIP (fun a => if a =? address then Z.land (ch_cells c a) v else ch_cells c a) (ch_unlocked c)
     (option_map Z.pred (ch_power c))).

#[global] Instance chip_hal :
  HalFlash chip_byte (chip_lock true) (chip_lock false) chip_erase chip_program.
Proof.
  refine (Build_HalFlash chip chip_byte (chip_lock true) (chip_lock false) chip_erase chip_program
    (fun c => ch_power c = None) (fun c => ch_unlocked c = true) _ _ _ _ _ _ _ _ _).
  - intros c a. apply u8_range.
  - intros c r c'. unfold chip_lock. destruct (ch_power c) as [[]|]; by intros [= _ <-].
  - intros c r c'. unfold chip_lock. destruct (ch_power c) as [[]|]; by intros [= _ <-].
  - intros x e c r e' c' H Ht Hn a Ha. unfold chip_erase in H.
    destruct (negb (ch_unlocked c) || _); [by injection H as _ _ <-|].
    injection H as _ _ <-. unfold chip_byte. cbn [ch_cells]. unfold in_sector in Ha.
    replace (_ && _) with false; [done|]. symmetry. destruct (ch_power c); lia.
  - intros address v c r c' H a Ha. unfold chip_program in H.
    destruct (negb (ch_unlocked c) || _); [by injection H as _ <-|].
    destruct (bool_decide _); [by injection H as _ <-|]. injection H as _ <-.
    unfold chip_byte. cbn [ch_cells]. by rewrite (proj2 (Z.eqb_neq _ _) Ha).
  - intros c Hp. unfold chip_lock. rewrite Hp. by eexists.
  - intros c Hp. unfold chip_lock. rewrite Hp. by eexists.
  - intros x e c Hp Hu Ht Hn _. unfold chip_erase. rewrite Hp, Hu, Ht, !Z.eqb_refl. cbn [negb orb].
    eexists. split; [reflexivity|]. split; [done|]. split; [done|]. intros a Ha.
    unfold chip_byte. cbn [ch_cells]. unfold in_sector in Ha.
    by replace (_ && _) with true by (symmetry; lia).
  - intros address v c Hp Hu Hv Hff. unfold chip_program. rewrite Hp, Hu, Z.eqb_refl. cbn [negb orb].
    rewrite bool_decide_false by done. eexists. split; [reflexivity|]. split; [done|]. split; [done|].
    unfold chip_byte in *. cbn [ch_cells]. rewrite Z.eqb_refl, u8_land, Hff, <- (u8_id v) by done.
    change 255 with (u8 255). rewrite <- u8_land. apply land_255_byte. by rewrite u8_id.
Defined.

(** ** Correctness *)

Inductive media_call :=
  | Media_read (s : slot) (offset : nat) (output : list Z) (length : nat)
  | Media_erase (s : slot)
  | Media_program (s : slot) (offset : nat) (data : list Z) (length : nat).

Section correctness.
Context {W : Type} {flash_byte : W -> Z -> Z} {unlock lock : W -> HAL_StatusTypeDef * W}
  {hal_erase : FLASH_EraseInitTypeDef -> Z -> W -> HAL_StatusTypeDef * Z * W}
  {hal_program : Z -> Z -> Z -> W -> HAL_StatusTypeDef * W}
  {hal : HalFlash flash_byte unlock lock hal_erase hal_program}.

Local Abbreviation media_init :=
  (guardian_node_link_stm32f401_flash_media_init flash_byte unlock lock hal_erase hal_program).

Definition media_step (x : guardian_node_link_stm32f401_flash_context_t) (w : W) (call : media_call) : W :=
  match call with
  | Media_read s off out n => (flash_media_read flash_byte x w s off out n).2
  | Media_erase s => (flash_media_erase unlock lock hal_erase x w s).2
  | Media_program s off data n => (flash_media_program unlock lock hal_program x w s off data n).2
  end.

Definition writes (call : media_call) (s : slot) : Prop :=
  match call with
  | Media_read _ _ _ _ => False
  | Media_erase t | Media_program t _ _ _ => t = s
  end.

(** C1: whatever the flash functions answer and whatever offsets and lengths are
    asked for, the adapter changes no byte of the flash outside the slots it was
    asked to erase or program; in particular none outside sectors 3 and 4. *)
Theorem flash_writes_confined x calls w a
    (Ha : forall s, Exists (fun call => writes call s) calls -> ~ slot_address s a) :
  flash_byte (foldl (media_step x) w calls) a = flash_byte w a.
Proof.
  revert w. induction calls as [|call calls IH]; intros w; [done|]. cbn [foldl].
  rewrite IH by (intros s Hs; apply Ha; by right).
  destruct call as [s off out n|s|s off data n]; cbn [media_step].
  - destruct (flash_media_read _ _ _ _ _ _ _) as [[r out'] w'] eqn:E.
    by apply read_flash in E as (-> & _).
  - destruct (flash_media_erase _ _ _ _ _ _) as [r w'] eqn:E. apply (erase_confined x _ _ _ _ E).
    apply Ha. by left.
  - destruct (flash_media_program _ _ _ _ _ _ _ _ _) as [r w'] eqn:E.
    apply (program_confined x _ _ _ _ _ _ _ E). apply Ha. by left.
Qed.

Lemma media_init_ok x0 range m0 x media :
  media_init (Some x0) range (Some m0) = (GUARDIAN_NODE_LINK_PERSISTENCE_OPERATION_OK, Some x, Some media) ->
  IS_VOLTAGERANGE (fx_erase_voltage_range x) = true /\
  media = MEDIA (Some (flash_media_read flash_byte x)) (Some (flash_media_erase unlock lock hal_erase x))
    (Some (flash_media_program unlock lock hal_program x)).
Proof. cbn. early_case E. intros [= <- <-]. by apply negb_false_iff in E. Qed.

(** C2: on the flash of the device the record that recovery once reported is never
    rolled back nor forgotten: whatever the flash functions answer within their
    documentation, after any operations of the store and restarts recovery reports
    no empty store, and a valid record only if it is that record or a later one. *)
Theorem flash_store_never_rolls_back x0 range m0 x media b0 w0 st0 rec0 d0 res0 r d0' w0'
    b w st rec d res st' r' d' w'
    (Hi : media_init (Some x0) range (Some m0) =
          (GUARDIAN_NODE_LINK_PERSISTENCE_OPERATION_OK, Some x, Some media))
    (Hb : guardian_node_link_freshness_physical_backend_init (Some tt) (Some media) =
          (GUARDIAN_NODE_LINK_PERSISTENCE_OPERATION_OK, Some b0))
    (H0 : guardian_node_link_freshness_physical_backend_recover (Some b0) (Some st0) (Some rec0) (Some d0)
            w0 = (res0, Some GUARDIAN_NODE_LINK_PERSISTENCE_STATUS_VALID_PERSISTED_STATE, Some r, d0', w0'))
    (Hsteps : rtc (backend_step (laws := flash_laws x (proj1 (media_init_ok _ _ _ _ _ Hi))))
                (b0, w0') (b, w))
    (H : guardian_node_link_freshness_physical_backend_recover (Some b) (Some st) (Some rec) (Some d) w
         = (res, Some st', Some r', d', w')) :
  st' <> GUARDIAN_NODE_LINK_PERSISTENCE_STATUS_NO_PERSISTED_STATE /\
  (st' = GUARDIAN_NODE_LINK_PERSISTENCE_STATUS_VALID_PERSISTED_STATE -> advances r r').
Proof.
  pose proof (proj2 (media_init_ok _ _ _ _ _ Hi)) as Em. revert Hb. rewrite Em at 1. intros [= <-].
  refine (backend_never_rolls_back (laws := flash_laws x (proj1 (media_init_ok _ _ _ _ _ Hi)))
    _ w0 st0 rec0 d0 res0 r d0' w0' b w st rec d res st' r' d' w' _ _ H0 Hsteps H).
  - by split_and!.
  - done.
Qed.
End correctness.

(** ** Witnesses *)

Definition example_context : guardian_node_link_stm32f401_flash_context_t := FLASH_CONTEXT 2.

(** A chip whose slot A holds a committed record and whose slot B is erased. *)
Definition example_chip : chip :=
  CHIP (fun a =>
    if (0x0800C000 <=? a) && (a <? 0x0800C000 + 448)
    then nor_cells example_flash GUARDIAN_NODE_LINK_PERSISTENCE_SLOT_A (Z.to_nat (a - 0x0800C000))
    else 0xFF) false None.

Definition example_media : media_t chip :=
  MEDIA (Some (flash_media_read chip_byte example_context))
    (Some (flash_media_erase (chip_lock true) (chip_lock false) chip_erase example_context))
    (Some (flash_media_program (chip_lock true) (chip_lock false) chip_program example_context)).

Definition example_chip_backend : guardian_node_link_freshness_physical_backend_t chip :=
  BACKEND (flash_media_read chip_byte example_context)
    (flash_media_erase (chip_lock true) (chip_lock false) chip_erase example_context)
    (flash_media_program (chip_lock true) (chip_lock false) chip_program example_context)
    GUARDIAN_NODE_LINK_PERSISTENCE_SLOT_A 0.

Lemma example_media_init :
  guardian_node_link_stm32f401_flash_media_init chip_byte (chip_lock true) (chip_lock false) chip_erase
    chip_program (Some (FLASH_CONTEXT 0)) 2 (Some (MEDIA None None None)) =
  (GUARDIAN_NODE_LINK_PERSISTENCE_OPERATION_OK, Some example_context, Some example_media).
Proof. reflexivity. Qed.

Definition example_chip_laws := flash_laws example_context (proj1 (media_init_ok _ _ _ _ _ example_media_init)).

(** The chip holds what the NOR flash of the example holds. *)
Lemma example_chip_content s :
  content (MediaLaws := example_chip_laws) example_chip s = nor_content example_flash s.
Proof.
  apply map_ext_in. intros i Hi%in_seq. unfold chip_byte. f_equal. unfold example_chip. cbn [ch_cells].
  destruct s; cbn [slot_base guardian_stm32f401_slot_geometry fst].
  - unfold GUARDIAN_STM32F401_PERSISTENCE_SLOT_A_ADDRESS.
    replace (_ && _) with true by (symmetry; lia). f_equal. lia.
  - unfold GUARDIAN_STM32F401_PERSISTENCE_SLOT_B_ADDRESS.
    by replace (_ && _) with false by (symmetry; lia).
Qed.

Lemma example_chip_committed :
  committed (laws := example_chip_laws) example_chip GUARDIAN_NODE_LINK_PERSISTENCE_SLOT_A
    (example_record 100 7).
Proof. unfold committed. rewrite example_chip_content. apply example_flash_committed. Qed.

Lemma example_chip_erased :
  erased (laws := example_chip_laws) example_chip GUARDIAN_NODE_LINK_PERSISTENCE_SLOT_B.
Proof. unfold erased. rewrite example_chip_content. apply example_flash_erased. Qed.

Lemma flash_writes_confined_witness :
  chip_byte (foldl (media_step (flash_byte := chip_byte) (unlock := chip_lock true) (lock := chip_lock false)
    (hal_erase := chip_erase) (hal_program := chip_program) example_context) example_chip
    [Media_erase GUARDIAN_NODE_LINK_PERSISTENCE_SLOT_B;
     Media_program GUARDIAN_NODE_LINK_PERSISTENCE_SLOT_B 400 [1; 2; 3] 3]) 0x0800C000
  = chip_byte example_chip 0x0800C000.
Proof.
  apply (flash_writes_confined (hal := chip_hal) example_context
    [Media_erase GUARDIAN_NODE_LINK_PERSISTENCE_SLOT_B;
     Media_program GUARDIAN_NODE_LINK_PERSISTENCE_SLOT_B 400 [1; 2; 3] 3] example_chip 0x0800C000).
  intros s Hs [Ha _]. destruct s; [|by apply Ha].
  apply Exists_cons in Hs as [Hs|Hs]; [discriminate Hs|].
  apply Exists_cons in Hs as [Hs|Hs]; [discriminate Hs|]. by apply Exists_nil in Hs.
Defined.

Lemma flash_store_never_rolls_back_witness : exists m' b2 m2,
  guardian_node_link_freshness_physical_backend_write_candidate (Some example_chip_backend)
    (Some (example_record 105 8)) m' = (GUARDIAN_NODE_LINK_PERSISTENCE_OPERATION_OK, Some b2, m2) /\
  advances (example_record 100 7) (example_record 100 7).
Proof.
  destruct (torn_run_example (laws := example_chip_laws) example_chip_backend example_chip
    (conj eq_refl (conj eq_refl eq_refl)) eq_refl example_chip_committed example_chip_erased)
    as (m' & b2 & m2 & d & m3 & H0 & Hw & H3). unfold example_recover in H0, H3.
  exists m', b2, m2. split; [exact Hw|].
  refine (proj2 (flash_store_never_rolls_back (hal := chip_hal) (FLASH_CONTEXT 0) 2 (MEDIA None None None)
    example_context example_media example_chip_backend example_chip
    _ _ _ _ _ _ m' (set_pending b2 GUARDIAN_NODE_LINK_PERSISTENCE_SLOT_A 0) m2 _ _ _ _ _ _ d m3
    example_media_init eq_refl H0 _ H3) eq_refl).
  eapply rtc_l; [exact (step_write _ _ _ _ _ _ Hw)|].
  eapply rtc_l; [exact (step_restart _ _ m2 (fun s => eq_refl))|apply rtc_refl].
Defined.
