(* ===== verification/Uart.v ===== *)
(** * The serial port

    Model of Platform/STM32F401/Src/stm32f401_uart2.c: the receive and transmit
    queues, the interrupt handler, and the register settings of the
    initialization. Registers are fields; what the hardware answers when a status
    or data register is read is an argument. *)

From S2P Require Import Prelude.

(** ** Data *)

Definition GUARDIAN_STM32F401_UART2_RX_CAPACITY : Z := 512.
Definition GUARDIAN_STM32F401_UART2_TX_CAPACITY : Z := 512.

Definition USART_SR_PE : Z := 0x1.
Definition USART_SR_FE : Z := 0x2.
Definition USART_SR_NE : Z := 0x4.
Definition USART_SR_ORE : Z := 0x8.
Definition USART_SR_RXNE : Z := 0x20.
Definition USART_SR_TXE : Z := 0x80.
Definition USART_CR1_RE : Z := 0x4.
Definition USART_CR1_TE : Z := 0x8.
Definition USART_CR1_RXNEIE : Z := 0x20.
Definition USART_CR1_TXEIE : Z := 0x80.
Definition USART_CR1_UE : Z := 0x2000.

Record guardian_stm32f401_uart2_stats_t := UART2_STATS {
  us_parity_errors : Z; us_framing_errors : Z; us_noise_errors : Z; us_hardware_overruns : Z;
  us_rx_queue_overruns : Z; us_tx_queue_rejections : Z
}.

(** The static variables of the driver and the control register. *)
Record uart := UART {
  u_rx_queue : list Z; u_rx_head : Z; u_rx_tail : Z;
  u_tx_queue : list Z; u_tx_head : Z; u_tx_tail : Z;
  u_stats : guardian_stm32f401_uart2_stats_t;
  u_cr1 : Z
}.

Definition put_rx (queue : list Z) (head tail : Z) (u : uart) : uart :=
  UART queue head tail (u_tx_queue u) (u_tx_head u) (u_tx_tail u) (u_stats u) (u_cr1 u).
Definition put_tx (queue : list Z) (head tail : Z) (u : uart) : uart :=
  UART (u_rx_queue u) (u_rx_head u) (u_rx_tail u) queue head tail (u_stats u) (u_cr1 u).
Definition put_stats (stats : guardian_stm32f401_uart2_stats_t) (u : uart) : uart :=
  UART (u_rx_queue u) (u_rx_head u) (u_rx_tail u) (u_tx_queue u) (u_tx_head u) (u_tx_tail u) stats (u_cr1 u).
Definition put_cr1 (cr1 : Z) (u : uart) : uart :=
  UART (u_rx_queue u) (u_rx_head u) (u_rx_tail u) (u_tx_queue u) (u_tx_head u) (u_tx_tail u) (u_stats u) cr1.

(** ** Helpers *)

Definition guardian_uart_increment_u32 (value : Z) : Z :=
  if negb (value =? 0xFFFFFFFF) then u32 (value + 1) else value.

Definition guardian_rx_next (index : Z) : Z :=
  let index := u16 (index + 1) in
  if GUARDIAN_STM32F401_UART2_RX_CAPACITY <=? index then 0 else index.

Definition guardian_tx_next (index : Z) : Z :=
  let index := u16 (index + 1) in
  if GUARDIAN_STM32F401_UART2_TX_CAPACITY <=? index then 0 else index.

Definition queue_at (queue : list Z) (index : Z) : Z := byte_at queue (Z.to_nat index).
Definition queue_store (queue : list Z) (index byte : Z) : list Z := blit queue (Z.to_nat index) [byte].

Definition count_rejection (u : uart) : uart :=
  let s := u_stats u in
  put_stats (UART2_STATS (us_parity_errors s) (us_framing_errors s) (us_noise_errors s)
    (us_hardware_overruns s) (us_rx_queue_overruns s)
    (guardian_uart_increment_u32 (us_tx_queue_rejections s))) u.

Definition count_overrun (u : uart) : uart :=
  let s := u_stats u in
  put_stats (UART2_STATS (us_parity_errors s) (us_framing_errors s) (us_noise_errors s)
    (us_hardware_overruns s) (guardian_uart_increment_u32 (us_rx_queue_overruns s))
    (us_tx_queue_rejections s)) u.

(** ** Foreground operations *)

(** The result, [*byte] and the driver. *)
Definition guardian_stm32f401_uart2_read_byte (byte : option Z) (u : uart) : Z * option Z * uart :=
  match byte with
  | None => (0, byte, u)
  | Some _ =>
      let tail := u_rx_tail u in
      early tail =? u_rx_head u with (0, byte, u) ;;
      (1, Some (queue_at (u_rx_queue u) tail),
       put_rx (u_rx_queue u) (u_rx_head u) (guardian_rx_next tail) u)
  end.

Definition free_slots (head tail : Z) : Z :=
  if tail <=? head then GUARDIAN_STM32F401_UART2_TX_CAPACITY - (head - tail) - 1
  else tail - head - 1.

(** The copy loop: the queue and the private producer index. *)
Fixpoint copy_loop (data : list Z) (index n : nat) (queue : list Z) (head : Z) : list Z * Z :=
  match n with
  | O => (queue, head)
  | S n =>
      copy_loop data (S index) n (queue_store queue head (byte_at data index)) (guardian_tx_next head)
  end.

Definition guardian_stm32f401_uart2_write (data : option (list Z)) (length : nat) (u : uart)
  : nat * uart :=
  early is_null data && negb (length =? 0)%nat with (0%nat, u) ;;
  early (length =? 0)%nat with (0%nat, u) ;;
  early GUARDIAN_STM32F401_UART2_TX_CAPACITY <=? Z.of_nat length with (0%nat, count_rejection u) ;;
  let head := u_tx_head u in
  let tail := u_tx_tail u in
  early free_slots head tail <? Z.of_nat length with (0%nat, count_rejection u) ;;
  let '(queue, head) := copy_loop (default [] data) 0 length (u_tx_queue u) head in
  let u := put_tx queue head (u_tx_tail u) u in
  (length, put_cr1 (Z.lor (u_cr1 u) USART_CR1_TXEIE) u).

(** ** The interrupt handler *)

Definition count_if (status bit value : Z) : Z :=
  if negb (Z.land status bit =? 0) then guardian_uart_increment_u32 value else value.

Definition count_errors (status : Z) (u : uart) : uart :=
  let s := u_stats u in
  put_stats (UART2_STATS (count_if status USART_SR_PE (us_parity_errors s))
    (count_if status USART_SR_FE (us_framing_errors s))
    (count_if status USART_SR_NE (us_noise_errors s))
    (count_if status USART_SR_ORE (us_hardware_overruns s))
    (us_rx_queue_overruns s) (us_tx_queue_rejections s)) u.

Definition line_errors : Z :=
  Z.lor (Z.lor (Z.lor USART_SR_PE USART_SR_FE) USART_SR_NE) USART_SR_ORE.

Definition receive_byte (received : Z) (u : uart) : uart :=
  let next := guardian_rx_next (u_rx_head u) in
  if negb (next =? u_rx_tail u)
  then put_rx (queue_store (u_rx_queue u) (u_rx_head u) received) next (u_rx_tail u) u
  else count_overrun u.

(** The receive and error service: [status] and [data] are what SR and DR hold. *)
Definition receive_service (status data : Z) (u : uart) : uart :=
  if negb (Z.land status (Z.lor (Z.lor (Z.lor (Z.lor USART_SR_RXNE USART_SR_PE) USART_SR_FE)
             USART_SR_NE) USART_SR_ORE) =? 0)
  then
    let received := u8 (Z.land data 0xFF) in
    let u := count_errors status u in
    if negb (Z.land status USART_SR_RXNE =? 0) && (Z.land status line_errors =? 0)
    then receive_byte received u else u
  else u.

(** The transmit service: [status] is what SR holds when it is read again. Returns
    the value written to DR. *)
Definition transmit_service (status : Z) (u : uart) : option Z * uart :=
  if negb (Z.land (u_cr1 u) USART_CR1_TXEIE =? 0) && negb (Z.land status USART_SR_TXE =? 0)
  then
    if negb (u_tx_tail u =? u_tx_head u)
    then (Some (queue_at (u_tx_queue u) (u_tx_tail u)),
          put_tx (u_tx_queue u) (u_tx_head u) (guardian_tx_next (u_tx_tail u)) u)
    else (None, put_cr1 (Z.land (u_cr1 u) (u32 (Z.lnot USART_CR1_TXEIE))) u)
  else (None, u).

Definition guardian_stm32f401_uart2_irq_handler (status data status' : Z) (u : uart) : option Z * uart :=
  transmit_service status' (receive_service status data u).

Definition guardian_stm32f401_uart2_stats (u : uart) : guardian_stm32f401_uart2_stats_t := u_stats u.

(** ** Initialization *)

(** The registers that the initialization writes. *)
Record uart_registers := UART_REGISTERS {
  rg_ahb1enr : Z; rg_apb1enr : Z;
  rg_moder : Z; rg_otyper : Z; rg_ospeedr : Z; rg_pupdr : Z; rg_afr0 : Z;
  rg_cr1 : Z; rg_cr2 : Z; rg_cr3 : Z; rg_brr : Z
}.

Definition GUARDIAN_GPIO_TWO_BIT_MASK : Z := 0x3.
Definition GUARDIAN_GPIO_MODE_AF : Z := 0x2.
Definition GUARDIAN_GPIO_AF_MASK : Z := 0xF.
Definition GUARDIAN_STM32F401_USART2_TX_PIN : Z := 2.
Definition GUARDIAN_STM32F401_USART2_RX_PIN : Z := 3.
Definition GUARDIAN_STM32F401_USART2_AF : Z := 7.
Definition RCC_CFGR_PPRE1 : Z := 0x1C00.
Definition RCC_CFGR_PPRE1_Pos : Z := 10.
Definition RCC_AHB1ENR_GPIOAEN : Z := 0x1.
Definition RCC_APB1ENR_USART2EN : Z := 0x20000.

Definition guardian_stm32f401_uart2_apb1_clock_hz (system_core_clock cfgr : Z) : Z :=
  let ppre1 := Z.shiftr (Z.land cfgr RCC_CFGR_PPRE1) RCC_CFGR_PPRE1_Pos in
  early ppre1 <? 4 with system_core_clock ;;
  Z.shiftr system_core_clock (ppre1 - 3).

(** [reg &= ~(mask << shift)], [reg |= (value << shift)] *)
Definition clear_bits (mask shift reg : Z) : Z := Z.land reg (u32 (Z.lnot (u32 (Z.shiftl mask shift)))).
Definition set_bits (value shift reg : Z) : Z := Z.lor reg (u32 (Z.shiftl value shift)).

Definition configure_registers (brr : Z) (r : uart_registers) : uart_registers :=
  let TX := GUARDIAN_STM32F401_USART2_TX_PIN in
  let RX := GUARDIAN_STM32F401_USART2_RX_PIN in
  UART_REGISTERS
    (Z.lor (rg_ahb1enr r) RCC_AHB1ENR_GPIOAEN)
    (Z.lor (rg_apb1enr r) RCC_APB1ENR_USART2EN)
    (set_bits GUARDIAN_GPIO_MODE_AF (RX * 2) (clear_bits GUARDIAN_GPIO_TWO_BIT_MASK (RX * 2)
       (set_bits GUARDIAN_GPIO_MODE_AF (TX * 2) (clear_bits GUARDIAN_GPIO_TWO_BIT_MASK (TX * 2)
          (rg_moder r)))))
    (clear_bits 1 RX (clear_bits 1 TX (rg_otyper r)))
    (set_bits 1 (RX * 2) (clear_bits GUARDIAN_GPIO_TWO_BIT_MASK (RX * 2)
       (set_bits 1 (TX * 2) (clear_bits GUARDIAN_GPIO_TWO_BIT_MASK (TX * 2) (rg_ospeedr r)))))
    (set_bits 1 (RX * 2) (clear_bits GUARDIAN_GPIO_TWO_BIT_MASK (RX * 2)
       (clear_bits GUARDIAN_GPIO_TWO_BIT_MASK (TX * 2) (rg_pupdr r))))
    (set_bits GUARDIAN_STM32F401_USART2_AF (RX * 4) (clear_bits GUARDIAN_GPIO_AF_MASK (RX * 4)
       (set_bits GUARDIAN_STM32F401_USART2_AF (TX * 4) (clear_bits GUARDIAN_GPIO_AF_MASK (TX * 4)
          (rg_afr0 r)))))
    (Z.lor (Z.lor (Z.lor USART_CR1_RE USART_CR1_TE) USART_CR1_RXNEIE) USART_CR1_UE) 0 0 brr.

(** The result, the registers and the queue indices; [system_core_clock] is the value
    after [SystemCoreClockUpdate]. *)
Definition guardian_stm32f401_uart2_init (baud_rate system_core_clock cfgr : Z) (r : uart_registers)
    (u : uart) : Z * uart_registers * uart :=
  early baud_rate =? 0 with (0, r, u) ;;
  let pclk1_hz := guardian_stm32f401_uart2_apb1_clock_hz system_core_clock cfgr in
  early pclk1_hz =? 0 with (0, r, u) ;;
  let brr := u32 (pclk1_hz + baud_rate / 2) / baud_rate in
  early (brr =? 0) || (0xFFFF <? brr) with (0, r, u) ;;
  let r := configure_registers brr r in
  (1, r, UART (u_rx_queue u) 0 0 (u_tx_queue u) 0 0 (u_stats u) (rg_cr1 r)).

(** ** The settings *)

(** A field of [width] bits at [shift] is outside of the bit [i]. *)
Lemma field_bit mask shift width i :
  0 <= mask < 2 ^ width -> 0 <= width -> 0 <= shift -> 0 <= i < 32 -> ~ (shift <= i < shift + width) ->
  Z.testbit (u32 (Z.shiftl mask shift)) i = false.
Proof.
  intros Hm Hw Hs Hi Ho. unfold u32. rewrite Z.mod_pow2_bits_low, Z.shiftl_spec by lia.
  destruct (Z.lt_ge_cases i shift); [by rewrite Z.testbit_neg_r by lia|].
  rewrite <- (Z.mod_small mask (2 ^ width)) by lia.
  apply Z.mod_pow2_bits_high. lia.
Qed.

Lemma clear_bits_other mask shift width reg i :
  0 <= mask < 2 ^ width -> 0 <= width -> 0 <= shift -> 0 <= i < 32 -> ~ (shift <= i < shift + width) ->
  Z.testbit (clear_bits mask shift reg) i = Z.testbit reg i.
Proof.
  intros Hm Hw Hs Hi Ho. unfold clear_bits. rewrite Z.land_spec. unfold u32 at 1.
  rewrite Z.mod_pow2_bits_low, Z.lnot_spec, (field_bit mask shift width) by lia. apply andb_true_r.
Qed.

Lemma set_bits_other value shift width reg i :
  0 <= value < 2 ^ width -> 0 <= width -> 0 <= shift -> 0 <= i < 32 -> ~ (shift <= i < shift + width) ->
  Z.testbit (set_bits value shift reg) i = Z.testbit reg i.
Proof.
  intros Hm Hw Hs Hi Ho. unfold set_bits. rewrite Z.lor_spec, (field_bit value shift width) by lia.
  apply orb_false_r.
Qed.

(** Only the fields of the pins 2 and 3 change. *)
Lemma configured_pins brr r i : 0 <= i < 32 ->
  let r' := configure_registers brr r in
  (~ 4 <= i < 8 ->
   Z.testbit (rg_moder r') i = Z.testbit (rg_moder r) i /\
   Z.testbit (rg_ospeedr r') i = Z.testbit (rg_ospeedr r) i /\
   Z.testbit (rg_pupdr r') i = Z.testbit (rg_pupdr r) i) /\
  (~ 2 <= i < 4 -> Z.testbit (rg_otyper r') i = Z.testbit (rg_otyper r) i) /\
  (~ 8 <= i < 16 -> Z.testbit (rg_afr0 r') i = Z.testbit (rg_afr0 r) i).
Proof.
  intros Hi. cbn [configure_registers rg_moder rg_ospeedr rg_pupdr rg_otyper rg_afr0].
  unfold GUARDIAN_GPIO_TWO_BIT_MASK, GUARDIAN_GPIO_MODE_AF, GUARDIAN_GPIO_AF_MASK,
    GUARDIAN_STM32F401_USART2_TX_PIN, GUARDIAN_STM32F401_USART2_RX_PIN, GUARDIAN_STM32F401_USART2_AF.
  split; [|split]; intros Ho.
  - by rewrite ?(set_bits_other _ _ 2), ?(clear_bits_other _ _ 2), ?(set_bits_other _ _ 2),
      ?(clear_bits_other _ _ 2) by lia.
  - by rewrite !(clear_bits_other _ _ 1) by lia.
  - by rewrite (set_bits_other _ _ 4), (clear_bits_other _ _ 4), (set_bits_other _ _ 4),
      (clear_bits_other _ _ 4) by lia.
Qed.

(** The baud rate divisor is the clock divided by the rate, rounded to nearest: a
    rate that the divisor cannot represent is refused and leaves registers and
    queues untouched; otherwise the frame clock is off by at most half a step, the
    queues are empty and the transmit interrupt is off. *)
Theorem uart_init_exact baud clock cfgr r u
    (Hb : is_u32 baud) (Hc : is_u32 clock) (Hp : clock <= 2 ^ 31) :
  let pclk := guardian_stm32f401_uart2_apb1_clock_hz clock cfgr in
  let '(result, r', u') := guardian_stm32f401_uart2_init baud clock cfgr r u in
  (result = 0 -> r' = r /\ u' = u) /\
  (result = 1 <-> 0 < baud /\ 0 < pclk /\ baud <= 2 * pclk /\ (pclk + baud / 2) / baud <= 0xFFFF) /\
  (result = 1 ->
   2 * Z.abs (rg_brr r' * baud - pclk) <= baud /\
   u_rx_head u' = u_rx_tail u' /\ u_tx_head u' = u_tx_tail u' /\
   Z.land (u_cr1 u') USART_CR1_TXEIE = 0).
Proof.
  cbv zeta. set (pclk := guardian_stm32f401_uart2_apb1_clock_hz clock cfgr).
  assert (Hk : 0 <= pclk <= 2 ^ 31).
  { unfold pclk, guardian_stm32f401_uart2_apb1_clock_hz. unfold is_u32 in Hc.
    destruct (Z.ltb_spec (Z.shiftr (Z.land cfgr RCC_CFGR_PPRE1) RCC_CFGR_PPRE1_Pos) 4); [lia|].
    rewrite Z.shiftr_div_pow2 by lia. split; [apply Z.div_pos; lia|].
    apply Z.le_trans with clock; [|done]. apply Z.div_le_upper_bound; [lia|].
    pose proof (Z.pow_pos_nonneg 2 (Z.shiftr (Z.land cfgr RCC_CFGR_PPRE1) RCC_CFGR_PPRE1_Pos - 3)). nia. }
  unfold guardian_stm32f401_uart2_init. fold pclk. unfold is_u32 in *.
  destruct (Z.eqb_spec baud 0) as [->|Hb0]; [split; [done|split; [split; [done|lia]|done]]|].
  destruct (Z.eqb_spec pclk 0) as [E|Hp0]; [split; [done|split; [split; [done|lia]|done]]|].
  assert (Hh : 0 <= baud / 2 < 2 ^ 31) by (split; [apply Z.div_pos; lia|apply Z.div_lt_upper_bound; lia]).
  rewrite u32_id by (unfold is_u32; lia). set (brr := (pclk + baud / 2) / baud).
  pose proof (Z.div_mod (pclk + baud / 2) baud Hb0) as Hd.
  pose proof (Z.mod_pos_bound (pclk + baud / 2) baud ltac:(lia)) as Hm. fold brr in Hd.
  pose proof (Z.div_mod baud 2 ltac:(lia)) as Hd2. pose proof (Z.mod_pos_bound baud 2 ltac:(lia)) as Hm2.
  assert (Hpos : 0 < brr <-> baud <= 2 * pclk).
  { split; intros H; [|]; nia. }
  destruct (Z.eqb_spec brr 0) as [E|E]; cbn [orb].
  { split; [done|]. split; [|done]. split; [done|]. intros (_ & _ & H & _). apply Hpos in H. lia. }
  destruct (Z.ltb_spec 0xFFFF brr) as [H|H].
  { split; [done|]. split; [|done]. split; [done|]. intros (_ & _ & _ & H'). lia. }
  assert (0 <= brr) by (apply Z.div_pos; lia).
  split; [done|]. split; [split; [intros _|done]; split_and!; lia|]. intros _. cbn [rg_brr configure_registers].
  split; [|done]. nia.
Qed.

Lemma uart_init_exact_witness :
  let '(result, r', _) := guardian_stm32f401_uart2_init 115200 84000000 0x1000
    (UART_REGISTERS 0 0 0 0 0 0 0 0 0 0 0) (UART [] 0 0 [] 0 0 (UART2_STATS 0 0 0 0 0 0) 0) in
  result = 1 /\ rg_brr r' = 365 /\ 2 * Z.abs (rg_brr r' * 115200 - 42000000) <= 115200.
Proof.
  pose proof (uart_init_exact 115200 84000000 0x1000 (UART_REGISTERS 0 0 0 0 0 0 0 0 0 0 0)
    (UART [] 0 0 [] 0 0 (UART2_STATS 0 0 0 0 0 0) 0)) as H.
  cbv zeta in H.
  destruct (guardian_stm32f401_uart2_init _ _ _ _ _) as [[result r'] u'] eqn:E. vm_compute in E.
  injection E as <- <- <-. split; [done|]. split; [done|].
  apply H; done.
Defined.
