(* ===== verification/UartInterleaving.v ===== *)
(** * The serial port under interrupts

    The foreground calls of Uart.v as the sequences of memory accesses that the
    compiled code makes, with the interrupt handler running between any two of
    them. [call_is_uninterrupted_run] ties the accesses to the functions of Uart.v;
    the theorems hold for every schedule. *)

From S2P Require Import Prelude Uart.

(** ** A ring of [cap] cells *)

Section ring.
Context (cap : Z) (Hcap : 1 < cap).

Definition ring_length (tail head : Z) : nat := Z.to_nat ((head - tail) mod cap).

Definition ring_index (tail : Z) (k : nat) : Z := (tail + Z.of_nat k) mod cap.

(** The bytes from [tail] up to [head]. *)
Definition ring (queue : list Z) (tail head : Z) : list Z :=
  map (fun k => queue_at queue (ring_index tail k)) (seq 0 (ring_length tail head)).

Definition ring_next (index : Z) : Z := (index + 1) mod cap.

Definition index_ok (i : Z) : Prop := 0 <= i < cap.

Lemma ring_next_ok i : index_ok (ring_next i).
Proof using Hcap. apply Z.mod_pos_bound. lia. Qed.

Lemma ring_size queue tail head : length (ring queue tail head) = ring_length tail head.
Proof. unfold ring. by rewrite length_map, length_seq. Qed.

Lemma ring_length_bound tail head : (ring_length tail head < Z.to_nat cap)%nat.
Proof using Hcap.
  unfold ring_length. pose proof (Z.mod_pos_bound (head - tail) cap). lia.
Qed.

Lemma ring_length_Z tail head : Z.of_nat (ring_length tail head) = (head - tail) mod cap.
Proof using Hcap.
  unfold ring_length. pose proof (Z.mod_pos_bound (head - tail) cap). lia.
Qed.

Lemma ring_empty tail head :
  index_ok tail -> index_ok head -> ring_length tail head = 0%nat <-> tail = head.
Proof using Hcap.
  intros Ht Hh. unfold index_ok, ring_length in *.
  destruct (Z.lt_ge_cases head tail).
  - rewrite <- (Z_mod_plus_full (head - tail) 1 cap), Z.mod_small by lia. lia.
  - rewrite Z.mod_small by lia. lia.
Qed.

Lemma ring_nil queue tail : ring queue tail tail = [].
Proof. unfold ring, ring_length. by rewrite Z.sub_diag, Zmod_0_l. Qed.

(** The queue grows by a store at the head that does not reach the tail. *)
Lemma ring_length_push tail head :
  ring_next head <> tail -> index_ok tail -> ring_length tail (ring_next head) = S (ring_length tail head).
Proof using Hcap.
  intros Hne Ht. unfold ring_length, ring_next. rewrite Zminus_mod_idemp_l.
  replace (head + 1 - tail) with (head - tail + 1) by lia.
  pose proof (Z.mod_pos_bound (head - tail) cap ltac:(lia)) as Hb.
  rewrite <- Z.add_mod_idemp_l by lia.
  destruct (Z.eq_dec ((head - tail) mod cap + 1) cap) as [E|E]; [|rewrite Z.mod_small; lia].
  exfalso. apply Hne. unfold ring_next. unfold index_ok in Ht.
  assert (Hd : (head + 1 - tail) mod cap = 0).
  { replace (head + 1 - tail) with (head - tail + 1) by lia. rewrite <- Z.add_mod_idemp_l, E by lia.
    apply Z.mod_same. lia. }
  apply Z.mod_divide in Hd as [k Hk]; [|lia].
  replace (head + 1) with (tail + k * cap) by lia. rewrite Z_mod_plus_full. apply Z.mod_small. lia.
Qed.

Lemma ring_index_head tail head :
  index_ok head -> ring_index tail (ring_length tail head) = head.
Proof using Hcap.
  intros Hh. unfold ring_index. rewrite ring_length_Z, Z.add_mod_idemp_r by lia.
  replace (tail + (head - tail)) with head by lia. by apply Z.mod_small.
Qed.

Lemma ring_index_inj tail j k :
  (j < Z.to_nat cap)%nat -> (k < Z.to_nat cap)%nat -> ring_index tail j = ring_index tail k -> j = k.
Proof using Hcap.
  intros Hj Hk E. unfold ring_index in E.
  assert (Hd : (Z.of_nat j - Z.of_nat k) mod cap = 0).
  { replace (Z.of_nat j - Z.of_nat k) with ((tail + Z.of_nat j) - (tail + Z.of_nat k)) by lia.
    by rewrite Zminus_mod, E, Z.sub_diag, Zmod_0_l. }
  apply Z.mod_divide in Hd as [q Hq]; [|lia].
  assert (q = 0) by nia. lia.
Qed.

Lemma queue_at_store queue i j b :
  index_ok i -> index_ok j -> Z.of_nat (length queue) = cap ->
  queue_at (queue_store queue i b) j = if decide (j = i) then b else queue_at queue j.
Proof using Hcap.
  intros Hi Hj Hl. unfold index_ok in *. unfold queue_at, queue_store, blit. destruct (decide (j = i)) as [->|Hne].
  - rewrite byte_at_app_r by (rewrite length_take; lia). rewrite length_take, Nat.min_l by lia.
    by rewrite Nat.sub_diag.
  - destruct (Z.lt_ge_cases j i).
    + rewrite byte_at_app_l by (rewrite length_take; lia). by rewrite byte_at_take by lia.
    + rewrite byte_at_app_r by (rewrite length_take; lia). rewrite length_take, Nat.min_l by lia.
      rewrite byte_at_app_r by (cbn; lia). cbn [length]. rewrite byte_at_drop. f_equal. lia.
Qed.

Lemma queue_store_length queue i b :
  index_ok i -> Z.of_nat (length queue) = cap -> Z.of_nat (length (queue_store queue i b)) = cap.
Proof. intros Hi Hl. unfold queue_store. rewrite blit_length; [done|]. unfold index_ok in Hi. cbn. lia. Qed.

(** A store at the end of a longer ring leaves this one. *)
Lemma ring_store queue tail head i b :
  Z.of_nat (length queue) = cap -> index_ok i -> (ring_length tail head <= ring_length tail i)%nat ->
  ring (queue_store queue i b) tail head = ring queue tail head.
Proof using Hcap.
  intros Hl Hi Hle. apply map_ext_in. intros k Hk%in_seq. pose proof (ring_length_bound tail i) as Hb.
  rewrite queue_at_store, decide_False; [done| |done|apply Z.mod_pos_bound; lia|done].
  rewrite <- (ring_index_head tail i Hi). intros E. apply ring_index_inj in E; lia.
Qed.

Lemma ring_push queue tail head b :
  Z.of_nat (length queue) = cap -> index_ok tail -> index_ok head -> ring_next head <> tail ->
  ring (queue_store queue head b) tail (ring_next head) = ring queue tail head ++ [b].
Proof using Hcap.
  intros Hl Ht Hh Hne. unfold ring at 1. rewrite ring_length_push, seq_S, map_app by done.
  cbn [map Nat.add]. f_equal.
  - exact (ring_store queue tail head head b Hl Hh (Nat.le_refl _)).
  - rewrite ring_index_head by done. f_equal.
    by rewrite queue_at_store, decide_True by done.
Qed.

Lemma ring_length_pop tail head :
  tail <> head -> index_ok tail -> index_ok head -> ring_length tail head = S (ring_length (ring_next tail) head).
Proof using Hcap.
  intros Hne Ht Hh.
  pose proof (ring_length_Z (ring_next tail) head) as E1. pose proof (ring_length_Z tail head) as E2.
  pose proof (proj1 (ring_empty tail head Ht Hh)) as He.
  assert (ring_length tail head <> 0%nat) by tauto.
  enough ((head - ring_next tail) mod cap = (head - tail) mod cap - 1) by lia.
  unfold ring_next. rewrite Zminus_mod_idemp_r. replace (head - (tail + 1)) with (head - tail - 1) by lia.
  rewrite <- (Zminus_mod_idemp_l (head - tail)). apply Z.mod_small.
  pose proof (Z.mod_pos_bound (head - tail) cap). lia.
Qed.

Lemma ring_pop queue tail head :
  tail <> head -> index_ok tail -> index_ok head ->
  ring queue tail head = queue_at queue tail :: ring queue (ring_next tail) head.
Proof using Hcap.
  intros Hne Ht Hh. unfold ring. rewrite (ring_length_pop tail head) by done. cbn [seq map]. f_equal.
  - f_equal. unfold ring_index. rewrite Z.add_0_r. by apply Z.mod_small.
  - rewrite <- seq_shift, map_map. apply map_ext. intros k. f_equal. unfold ring_index, ring_next.
    rewrite Z.add_mod_idemp_l by lia. f_equal. lia.
Qed.
End ring.

(** ** Foreground and interrupts *)

(** Where the foreground is between two accesses, with its local variables. *)
Inductive foreground :=
  | Idle
  | Read_called
  | Read_tail (tail : Z)
  | Read_available (tail : Z)
  | Read_taken (tail byte : Z)
  | Write_called (data : list Z)
  | Write_head (data : list Z) (head : Z)
  | Write_copy (data : list Z) (index : nat) (head : Z)
  | Write_enable (data : list Z)
  | Write_enabling (data : list Z) (cr1 : Z).

Record system := SYSTEM {
  sy_fg : foreground;
  sy_uart : uart;
  sy_line : list Z;              (* bytes that arrived without an error *)
  sy_stored : list Z;            (* those that the handler stored *)
  sy_read : list Z;              (* bytes that read_byte returned *)
  sy_accepted : list (list Z);   (* blocks that write accepted *)
  sy_sent : list Z               (* bytes written to the data register *)
}.

Definition put_fg (fg : foreground) (u : uart) (s : system) : system :=
  SYSTEM fg u (sy_line s) (sy_stored s) (sy_read s) (sy_accepted s) (sy_sent s).

(** One access of the foreground. *)
Definition foreground_step (s : system) : system :=
  let u := sy_uart s in
  match sy_fg s with
  | Idle => s
  | Read_called => put_fg (Read_tail (u_rx_tail u)) u s
  | Read_tail tail => put_fg (if tail =? u_rx_head u then Idle else Read_available tail) u s
  | Read_available tail => put_fg (Read_taken tail (queue_at (u_rx_queue u) tail)) u s
  | Read_taken tail byte =>
      SYSTEM Idle (put_rx (u_rx_queue u) (u_rx_head u) (guardian_rx_next tail) u)
        (sy_line s) (sy_stored s) (sy_read s ++ [byte]) (sy_accepted s) (sy_sent s)
  | Write_called data =>
      early (length data =? 0)%nat with put_fg Idle u s ;;
      early GUARDIAN_STM32F401_UART2_TX_CAPACITY <=? Z.of_nat (length data)
        with put_fg Idle (count_rejection u) s ;;
      put_fg (Write_head data (u_tx_head u)) u s
  | Write_head data head =>
      early free_slots head (u_tx_tail u) <? Z.of_nat (length data)
        with put_fg Idle (count_rejection u) s ;;
      put_fg (Write_copy data 0 head) u s
  | Write_copy data index head =>
      if (index <? length data)%nat
      then put_fg (Write_copy data (S index) (guardian_tx_next head))
             (put_tx (queue_store (u_tx_queue u) head (byte_at data index)) (u_tx_head u) (u_tx_tail u) u) s
      else SYSTEM (Write_enable data) (put_tx (u_tx_queue u) head (u_tx_tail u) u)
             (sy_line s) (sy_stored s) (sy_read s) (sy_accepted s ++ [data]) (sy_sent s)
  | Write_enable data => put_fg (Write_enabling data (u_cr1 u)) u s
  | Write_enabling data cr1 => put_fg Idle (put_cr1 (Z.lor cr1 USART_CR1_TXEIE) u) s
  end.

Inductive uart_event :=
  | Call_read
  | Call_write (data : list Z)
  | Access
  | Interrupt (status data status' : Z).

(** The byte that arrived without an error, if one did. *)
Definition arrived (status data : Z) : list Z :=
  if negb (Z.land status USART_SR_RXNE =? 0) && (Z.land status line_errors =? 0)
  then [u8 (Z.land data 0xFF)] else [].

Definition rx_full (u : uart) : bool := guardian_rx_next (u_rx_head u) =? u_rx_tail u.

Definition uart_step (s : system) (e : uart_event) : system :=
  let u := sy_uart s in
  match e with
  | Call_read => match sy_fg s with Idle => put_fg Read_called u s | _ => s end
  | Call_write data => match sy_fg s with Idle => put_fg (Write_called data) u s | _ => s end
  | Access => foreground_step s
  | Interrupt status data status' =>
      let '(sent, u') := guardian_stm32f401_uart2_irq_handler status data status' u in
      SYSTEM (sy_fg s) u' (sy_line s ++ arrived status data)
        (sy_stored s ++ if rx_full u then [] else arrived status data)
        (sy_read s) (sy_accepted s) (sy_sent s ++ option_list sent)
  end.

Definition uart_run (s : system) (es : list uart_event) : system := foldl uart_step s es.

(** ** The invariant *)

Local Abbreviation CAP := 512.
Local Abbreviation rx_ring u := (ring CAP (u_rx_queue u) (u_rx_tail u) (u_rx_head u)).
Local Abbreviation tx_ring u := (ring CAP (u_tx_queue u) (u_tx_tail u) (u_tx_head u)).

Record queues_ok (u : uart) : Prop := {
  qo_rx_queue : Z.of_nat (length (u_rx_queue u)) = CAP;
  qo_rx_head : index_ok CAP (u_rx_head u);
  qo_rx_tail : index_ok CAP (u_rx_tail u);
  qo_tx_queue : Z.of_nat (length (u_tx_queue u)) = CAP;
  qo_tx_head : index_ok CAP (u_tx_head u);
  qo_tx_tail : index_ok CAP (u_tx_tail u)
}.

Definition tx_enabled (u : uart) : Prop := Z.land (u_cr1 u) USART_CR1_TXEIE <> 0.

(** What the local variables of the foreground say of the queues. *)
Definition foreground_ok (fg : foreground) (u : uart) : Prop :=
  match fg with
  | Idle | Read_called | Write_called _ | Write_enable _ | Write_enabling _ _ => True
  | Read_tail tail => tail = u_rx_tail u
  | Read_available tail => tail = u_rx_tail u /\ rx_ring u <> []
  | Read_taken tail byte => tail = u_rx_tail u /\ exists rest, rx_ring u = byte :: rest
  | Write_head data head => head = u_tx_head u /\ (0 < length data)%nat
  | Write_copy data index head =>
      index_ok CAP head /\ (index <= length data)%nat /\
      ring CAP (u_tx_queue u) (u_tx_tail u) head = tx_ring u ++ take index data /\
      Z.of_nat (ring_length CAP (u_tx_tail u) head + (length data - index)) < CAP
  end.

(** Between publishing a block and enabling the interrupt. *)
Definition enabling (fg : foreground) : bool :=
  match fg with Write_enable _ | Write_enabling _ _ => true | _ => false end.

Record system_ok (s : system) : Prop := {
  sy_queues : queues_ok (sy_uart s);
  sy_rx : sy_stored s = sy_read s ++ rx_ring (sy_uart s);
  sy_tx : concat (sy_accepted s) = sy_sent s ++ tx_ring (sy_uart s);
  sy_foreground : foreground_ok (sy_fg s) (sy_uart s);
  sy_enabled : enabling (sy_fg s) = false -> tx_ring (sy_uart s) <> [] -> tx_enabled (sy_uart s)
}.

Lemma rx_next_ring i : index_ok CAP i -> guardian_rx_next i = ring_next CAP i.
Proof.
  unfold index_ok, guardian_rx_next, ring_next, GUARDIAN_STM32F401_UART2_RX_CAPACITY. intros H.
  rewrite u16_id by (unfold is_u16; lia). destruct (Z.leb_spec 512 (i + 1)).
  - replace (i + 1) with 512 by lia. done.
  - by rewrite Z.mod_small by lia.
Qed.

Lemma tx_next_ring i : index_ok CAP i -> guardian_tx_next i = ring_next CAP i.
Proof. exact (rx_next_ring i). Qed.

Lemma free_slots_ring head tail :
  index_ok CAP head -> index_ok CAP tail ->
  free_slots head tail = CAP - 1 - Z.of_nat (ring_length CAP tail head).
Proof.
  unfold index_ok, free_slots, GUARDIAN_STM32F401_UART2_TX_CAPACITY. intros Hh Ht.
  rewrite ring_length_Z by lia. destruct (Z.leb_spec tail head).
  - rewrite Z.mod_small by lia. lia.
  - rewrite <- (Z_mod_plus_full (head - tail) 1 512), Z.mod_small by lia. lia.
Qed.

Lemma enable_sets v : Z.land (Z.lor v USART_CR1_TXEIE) USART_CR1_TXEIE <> 0.
Proof. rewrite Z.land_comm, Z.lor_comm, land_lor_absorb. done. Qed.

(** ** The interrupt handler keeps it *)

Lemma arrived_cases status data :
  (negb (Z.land status USART_SR_RXNE =? 0) && (Z.land status line_errors =? 0) = true /\
   arrived status data = [u8 (Z.land data 0xFF)]) \/
  (negb (Z.land status USART_SR_RXNE =? 0) && (Z.land status line_errors =? 0) = false /\
   arrived status data = []).
Proof. unfold arrived. destruct (_ && _); auto. Qed.

(** An arriving byte always enters the service. *)
Lemma arrived_serviced status :
  negb (Z.land status USART_SR_RXNE =? 0) = true ->
  negb (Z.land status (Z.lor (Z.lor (Z.lor (Z.lor USART_SR_RXNE USART_SR_PE) USART_SR_FE)
          USART_SR_NE) USART_SR_ORE) =? 0) = true.
Proof.
  rewrite !negb_true_iff, !Z.eqb_neq. intros H E. apply H.
  rewrite <- (land_lor_absorb USART_SR_RXNE (Z.lor (Z.lor (Z.lor USART_SR_PE USART_SR_FE) USART_SR_NE) USART_SR_ORE)).
  rewrite !Z.lor_assoc, (Z.land_comm USART_SR_RXNE), Z.land_assoc, E. apply Z.land_0_l.
Qed.

(** The receive service stores the byte that arrived, unless the queue is full. *)
Lemma receive_service_spec status data u :
  queues_ok u ->
  let u' := receive_service status data u in
  queues_ok u' /\
  u_rx_tail u' = u_rx_tail u /\
  rx_ring u' = rx_ring u ++ (if rx_full u then [] else arrived status data) /\
  u_tx_queue u' = u_tx_queue u /\ u_tx_head u' = u_tx_head u /\ u_tx_tail u' = u_tx_tail u /\
  u_cr1 u' = u_cr1 u.
Proof.
  intros Hu. cbv zeta. unfold receive_service.
  destruct (arrived_cases status data) as [[E ->]|[E ->]].
  - rewrite (arrived_serviced status) by (by apply andb_true_iff in E as [-> _]). rewrite E.
    unfold receive_byte, rx_full.
    change (u_rx_head (count_errors status u)) with (u_rx_head u).
    change (u_rx_tail (count_errors status u)) with (u_rx_tail u).
    change (u_rx_queue (count_errors status u)) with (u_rx_queue u).
    destruct Hu. rewrite rx_next_ring by done.
    destruct (Z.eqb_spec (ring_next CAP (u_rx_head u)) (u_rx_tail u)) as [Ef|Ef]; cbn [negb].
    + split; [done|]. split; [done|]. by rewrite app_nil_r.
    + split; [|split; [done|]].
      * split; cbn [put_rx u_rx_queue u_rx_head u_rx_tail u_tx_queue u_tx_head u_tx_tail]; try done.
        -- by apply queue_store_length.
        -- by apply ring_next_ok.
      * split; [|done]. by apply ring_push.
  - rewrite E. destruct Hu.
    destruct (negb (Z.land status (Z.lor (Z.lor (Z.lor (Z.lor USART_SR_RXNE USART_SR_PE) USART_SR_FE)
                USART_SR_NE) USART_SR_ORE) =? 0));
      (split; [constructor; assumption|]; split; [done|]; split; [|done]);
      destruct (rx_full u); by rewrite app_nil_r.
Qed.

(** The transmit service sends the oldest byte, or disables itself on an empty queue. *)
Lemma transmit_service_spec status u :
  queues_ok u ->
  let '(sent, u') := transmit_service status u in
  queues_ok u' /\
  u_rx_queue u' = u_rx_queue u /\ u_rx_head u' = u_rx_head u /\ u_rx_tail u' = u_rx_tail u /\
  u_tx_queue u' = u_tx_queue u /\ u_tx_head u' = u_tx_head u /\
  tx_ring u = option_list sent ++ tx_ring u' /\
  match sent with
  | Some _ => u_tx_tail u <> u_tx_head u /\ u_tx_tail u' = ring_next CAP (u_tx_tail u) /\ u_cr1 u' = u_cr1 u
  | None => u_tx_tail u' = u_tx_tail u /\ (tx_ring u <> [] -> u_cr1 u' = u_cr1 u)
  end.
Proof.
  intros Hu. unfold transmit_service. destruct (_ && _); [|by split; [|repeat split]].
  destruct Hu. rewrite tx_next_ring by done.
  destruct (Z.eqb_spec (u_tx_tail u) (u_tx_head u)) as [E|E]; cbn [negb].
  - split; [by split|]. repeat split. intros []. rewrite E. by apply ring_nil.
  - split; [split; try done; by apply ring_next_ok|]. do 5 (split; [done|]). split; [|done].
    cbn [option_list app]. by apply ring_pop.
Qed.

(** The local ring of a write in progress loses the same byte as the published one. *)
Lemma write_copy_sent data index head u u' b :
  queues_ok u -> index_ok CAP head -> u_tx_queue u' = u_tx_queue u -> u_tx_head u' = u_tx_head u ->
  u_tx_tail u' = ring_next CAP (u_tx_tail u) -> u_tx_tail u <> u_tx_head u ->
  tx_ring u = b :: tx_ring u' ->
  ring CAP (u_tx_queue u) (u_tx_tail u) head = tx_ring u ++ take index data ->
  ring CAP (u_tx_queue u') (u_tx_tail u') head = tx_ring u' ++ take index data /\
  S (ring_length CAP (u_tx_tail u') head) = ring_length CAP (u_tx_tail u) head.
Proof.
  intros [] Hh Eq Eh Et Hne Er E.
  assert (Hth : u_tx_tail u <> head).
  { intros Eth. rewrite <- Eth, ring_nil in E. rewrite Er in E. discriminate E. }
  rewrite Er, ring_pop in E by (done || lia). injection E as _ E.
  rewrite Eq, Et in *. rewrite Eh in *. split; [exact E|].
  by rewrite (ring_length_pop CAP ltac:(lia) (u_tx_tail u) head).
Qed.

Lemma interrupt_ok s status data status' :
  system_ok s -> system_ok (uart_step s (Interrupt status data status')).
Proof.
  intros [Hq Hrx Htx Hfg Hen]. cbn [uart_step]. unfold guardian_stm32f401_uart2_irq_handler.
  destruct (receive_service_spec status data (sy_uart s) Hq) as (Hq1 & Ert & Er & Etq & Eth & Ett & Ec).
  set (u1 := receive_service status data (sy_uart s)) in *.
  pose proof (transmit_service_spec status' u1 Hq1) as H.
  destruct (transmit_service status' u1) as [sent u2].
  destruct H as (Hq2 & Erq2 & Erh2 & Ert2 & Etq2 & Eth2 & Et & Hs).
  assert (Erx : rx_ring u2 = rx_ring (sy_uart s) ++ (if rx_full (sy_uart s) then [] else arrived status data))
    by (rewrite Erq2, Erh2, Ert2; exact Er).
  assert (Etx : tx_ring u1 = tx_ring (sy_uart s)) by (by rewrite Etq, Eth, Ett).
  rewrite Etx in *. split; cbn [sy_uart sy_stored sy_read sy_accepted sy_sent sy_fg].
  - exact Hq2.
  - by rewrite Erx, Hrx, app_assoc.
  - by rewrite Htx, Et, app_assoc.
  - destruct (sy_fg s) as [| |tail|tail|tail byte| |block head|block index head| |]; cbn [foreground_ok] in *; try done.
    + by rewrite Ert2, Ert.
    + destruct Hfg as [-> Hne]. rewrite Ert2, Ert. split; [done|]. rewrite <- Ert, <- Ert2, Erx.
      destruct (rx_ring (sy_uart s)); [by destruct Hne|done].
    + destruct Hfg as (-> & rest & E). rewrite Ert2, Ert. split; [done|].
      rewrite <- Ert, <- Ert2, Erx, E. by eexists.
    + by rewrite Eth2, Eth.
    + destruct Hfg as (Hh & Hi & E & Hroom). split; [done|]. split; [done|].
      destruct sent as [b|].
      * destruct Hs as (Hne & Etail & _).
        rewrite <- Etq, <- Eth, <- Ett in E.
        destruct (write_copy_sent block index head u1 u2 b Hq1 Hh Etq2 Eth2 Etail Hne) as [E' El].
        { rewrite Etx. exact Et. }
        { exact E. }
        split; [exact E'|]. rewrite Ett in El. lia.
      * destruct Hs as (Etail & _). rewrite Etq2, Etq, Etail, Ett, Eth2, Eth. by split.
  - intros Hf Hne. unfold tx_enabled. destruct sent as [b|].
    + destruct Hs as (_ & _ & ->). rewrite Ec. apply Hen; [done|]. rewrite Et. by destruct (tx_ring u2).
    + destruct Hs as (_ & Hs). cbn [option_list app] in Et. rewrite Hs, Ec by (by rewrite Et).
      apply Hen; [done|]. by rewrite Et.
Qed.

(** ** The foreground keeps it *)

Lemma put_fg_ok s fg :
  system_ok s -> foreground_ok fg (sy_uart s) -> enabling (sy_fg s) = false ->
  system_ok (put_fg fg (sy_uart s) s).
Proof. intros [] Hf He. split; try done. intros _. by apply sy_enabled0. Qed.

(** Counting a rejection changes no queue. *)
Lemma rejection_ok s : system_ok s -> enabling (sy_fg s) = false -> system_ok (put_fg Idle (count_rejection (sy_uart s)) s).
Proof.
  intros [] He. split; try done.
  - by destruct sy_queues0; split.
  - intros _. exact (sy_enabled0 He).
Qed.

Lemma read_taken_ok s tail byte :
  system_ok s -> sy_fg s = Read_taken tail byte -> system_ok (foreground_step s).
Proof.
  intros [Hq Hrx Htx Hfg Hen] E. unfold foreground_step. rewrite E in *.
  destruct Hfg as (-> & rest & Er). pose proof Hq as [].
  assert (Hne : u_rx_tail (sy_uart s) <> u_rx_head (sy_uart s)).
  { intros Et. by rewrite Et, ring_nil in Er. }
  pose proof Er as Ep. rewrite ring_pop in Ep by (done || lia). injection Ep as _ Ep.
  rewrite rx_next_ring by done. split; cbn [sy_uart sy_stored sy_read sy_accepted sy_sent sy_fg].
  - split; try done. by apply ring_next_ok.
  - rewrite Hrx, Er, <- app_assoc. cbn [app]. by rewrite <- Ep.
  - exact Htx.
  - done.
  - intros _. by apply Hen.
Qed.

Lemma write_head_ok s data head :
  system_ok s -> sy_fg s = Write_head data head -> system_ok (foreground_step s).
Proof.
  intros H E. pose proof H as [Hq _ _ Hfg _]. unfold foreground_step. rewrite E in *.
  destruct Hfg as [-> Hlen]. pose proof Hq as []. rewrite free_slots_ring by done.
  destruct (Z.ltb_spec (CAP - 1 - Z.of_nat (ring_length CAP (u_tx_tail (sy_uart s)) (u_tx_head (sy_uart s))))
    (Z.of_nat (length data))) as [|Hroom].
  - apply rejection_ok; [done|by rewrite E].
  - apply put_fg_ok; [done| |by rewrite E]. cbn. split; [done|]. split; [lia|]. split; [by rewrite app_nil_r|lia].
Qed.

Lemma write_copy_ok s data index head :
  system_ok s -> sy_fg s = Write_copy data index head -> system_ok (foreground_step s).
Proof.
  intros [Hq Hrx Htx Hfg Hen] E. unfold foreground_step. rewrite E in *.
  destruct Hfg as (Hh & Hi & Er & Hroom). pose proof Hq as []. rewrite tx_next_ring by done.
  pose proof (f_equal length Er) as El. rewrite length_app, !ring_size, length_take in El.
  destruct (Nat.ltb_spec index (length data)) as [Hlt|Hge].
  - assert (Hne : ring_next CAP head <> u_tx_tail (sy_uart s)).
    { intros En. pose proof (ring_length_Z CAP ltac:(lia) (u_tx_tail (sy_uart s)) head) as Hl.
      rewrite <- En in Hl at 2. unfold ring_next in Hl. rewrite Zminus_mod_idemp_r in Hl.
      replace (head - (head + 1)) with (-1) in Hl by lia. change (-1 mod 512) with 511 in Hl. lia. }
    assert (Hst : ring CAP (queue_store (u_tx_queue (sy_uart s)) head (byte_at data index))
                    (u_tx_tail (sy_uart s)) (u_tx_head (sy_uart s)) = tx_ring (sy_uart s)).
    { apply ring_store; [lia|done|done|lia]. }
    split; cbn [put_fg put_tx sy_uart sy_stored sy_read sy_accepted sy_sent sy_fg u_rx_queue u_rx_head
      u_rx_tail u_tx_queue u_tx_head u_tx_tail enabling].
    + split; try done. by apply queue_store_length.
    + exact Hrx.
    + by rewrite Hst.
    + cbn [foreground_ok put_tx u_tx_queue u_tx_head u_tx_tail]. split; [by apply ring_next_ok|]. split; [lia|].
      rewrite Hst, ring_push, Er by (done || lia). rewrite <- app_assoc. split.
      * f_equal. symmetry. apply take_S_r. unfold byte_at.
        destruct (lookup_lt_is_Some_2 data index Hlt) as [b Hb]. by rewrite nth_lookup, Hb.
      * rewrite ring_length_push by (done || lia). lia.
    + rewrite Hst. exact Hen.
  - assert (Eall : take index data = data) by (by apply take_ge).
    split; cbn [put_tx sy_uart sy_stored sy_read sy_accepted sy_sent sy_fg u_rx_queue u_rx_head
      u_rx_tail u_tx_queue u_tx_head u_tx_tail enabling]; try done.
    rewrite concat_app, Htx, <- app_assoc, Er, Eall. cbn [concat]. by rewrite app_nil_r.
Qed.

Lemma foreground_step_ok s : system_ok s -> system_ok (foreground_step s).
Proof.
  intros H. destruct (sy_fg s) as [| |tail|tail|tail byte|block|block head|block index head|block|block cr1] eqn:E;
    [| | | |by eapply read_taken_ok| |by eapply write_head_ok|by eapply write_copy_ok| |];
    pose proof H as [Hq Hrx Htx Hfg Hen]; unfold foreground_step; rewrite E in *.
  - exact H.
  - apply put_fg_ok; [done|done|by rewrite E].
  - apply put_fg_ok; [done| |by rewrite E]. cbn in Hfg. subst tail.
    destruct (Z.eqb_spec (u_rx_tail (sy_uart s)) (u_rx_head (sy_uart s))) as [|Hne]; [done|].
    split; [done|]. destruct Hq. by rewrite ring_pop by (done || lia).
  - apply put_fg_ok; [done| |by rewrite E]. destruct Hfg as [-> Hne]. split; [done|].
    destruct (decide (u_rx_tail (sy_uart s) = u_rx_head (sy_uart s))) as [Et|].
    { by rewrite Et, ring_nil in Hne. }
    destruct Hq. rewrite ring_pop by (done || lia). by eexists.
  - destruct (Nat.eqb_spec (length block) 0); [apply put_fg_ok; [done|done|by rewrite E]|].
    destruct (_ <=? _); [apply rejection_ok; [done|by rewrite E]|].
    apply put_fg_ok; [done| |by rewrite E]. split; [done|lia].
  - by split.
  - split; try done.
    + by destruct Hq; split.
    + intros _ _. apply enable_sets.
Qed.

Lemma uart_step_ok s e : system_ok s -> system_ok (uart_step s e).
Proof.
  intros H. destruct e as [|block| |status data status'].
  - cbn. destruct (sy_fg s) eqn:E; try done. apply put_fg_ok; [done|done|by rewrite E].
  - cbn. destruct (sy_fg s) eqn:E; try done. apply put_fg_ok; [done|done|by rewrite E].
  - by apply foreground_step_ok.
  - by apply interrupt_ok.
Qed.

Lemma uart_run_ok es : forall s, system_ok s -> system_ok (uart_run s es).
Proof. induction es as [|e es IH]; intros s H; [done|]. by apply IH, uart_step_ok. Qed.

(** ** Overruns *)

Definition overruns (s : system) : Z := us_rx_queue_overruns (u_stats (sy_uart s)).

Lemma transmit_stats status u : u_stats (snd (transmit_service status u)) = u_stats u.
Proof. unfold transmit_service. by repeat case_match. Qed.

(** The bytes of a service that find the queue full. *)
Definition dropped (status data : Z) (u : uart) : list Z := if rx_full u then arrived status data else [].

Lemma receive_overruns status data u :
  us_rx_queue_overruns (u_stats (receive_service status data u)) =
  foldl (fun n _ => guardian_uart_increment_u32 n) (us_rx_queue_overruns (u_stats u))
    (dropped status data u).
Proof.
  unfold receive_service, dropped. destruct (arrived_cases status data) as [[E ->]|[E ->]].
  - rewrite (arrived_serviced status) by (by apply andb_true_iff in E as [-> _]). rewrite E.
    unfold receive_byte.
    change (guardian_rx_next (u_rx_head (count_errors status u)) =? u_rx_tail (count_errors status u))
      with (rx_full u). by destruct (rx_full u).
  - rewrite E. destruct (negb (Z.land status (Z.lor (Z.lor (Z.lor (Z.lor USART_SR_RXNE USART_SR_PE) USART_SR_FE)
                USART_SR_NE) USART_SR_ORE) =? 0)), (rx_full u); reflexivity.
Qed.

Lemma foreground_overruns s :
  overruns (foreground_step s) = overruns s /\ sy_line (foreground_step s) = sy_line s /\
  sy_stored (foreground_step s) = sy_stored s.
Proof.
  unfold foreground_step, overruns. destruct (sy_fg s); try done; by repeat case_match.
Qed.

(** The overrun counter tells how many bytes were lost, until it saturates. *)
Record counted (n0 : Z) (s : system) : Prop := {
  ct_stored : sublist (sy_stored s) (sy_line s);
  ct_overruns :
    overruns s = Z.min 0xFFFFFFFF (n0 + Z.of_nat (length (sy_line s)) - Z.of_nat (length (sy_stored s)))
}.

Lemma interrupt_counted n0 s status data status' :
  0 <= n0 -> counted n0 s -> counted n0 (uart_step s (Interrupt status data status')).
Proof.
  intros Hn [Hst Hov]. pose proof (sublist_length _ _ Hst) as Hl.
  pose proof (transmit_stats status' (receive_service status data (sy_uart s))) as Ht.
  pose proof (receive_overruns status data (sy_uart s)) as Hr. unfold dropped in Hr.
  cbn [uart_step]. unfold guardian_stm32f401_uart2_irq_handler.
  destruct (transmit_service status' _) as [sent u2]. cbn [snd] in Ht.
  assert (Ha : (length (arrived status data) <= 1)%nat)
    by (destruct (arrived_cases status data) as [[_ ->]|[_ ->]]; cbn; lia).
  unfold overruns in *.
  split; unfold overruns; cbn [sy_stored sy_line sy_uart]; rewrite ?Ht, ?Hr, ?Hov; destruct (rx_full (sy_uart s)).
  - rewrite app_nil_r. by apply sublist_inserts_r.
  - by apply sublist_app.
  - rewrite app_nil_r, length_app. destruct (arrived status data) as [|b [|]]; cbn [foldl length] in *; [lia| |lia].
    unfold guardian_uart_increment_u32.
    destruct (Z.eqb_spec (Z.min 4294967295 (n0 + Z.of_nat (length (sy_line s)) - Z.of_nat (length (sy_stored s))))
      4294967295); cbn [negb]; [lia|]. rewrite u32_id by (unfold is_u32; lia). lia.
  - cbn [foldl]. rewrite !length_app. lia.
Qed.

Lemma uart_run_counted n0 es : forall s, 0 <= n0 -> counted n0 s -> counted n0 (uart_run s es).
Proof.
  induction es as [|e es IH]; intros s Hn H; [done|]. apply IH; [done|].
  destruct e as [|block| |status data status']; [..|by apply interrupt_counted].
  - cbn. by destruct (sy_fg s); destruct H; split.
  - cbn. by destruct (sy_fg s); destruct H; split.
  - destruct (foreground_overruns s) as (E1 & E2 & E3). destruct H. split; cbn [uart_step].
    + by rewrite E2, E3.
    + by rewrite E1, E2, E3.
Qed.

(** ** A call without interrupts *)

Definition accesses (n : nat) : list uart_event := replicate n Access.

Lemma uart_run_app s es es' : uart_run s (es ++ es') = uart_run (uart_run s es) es'.
Proof. apply foldl_app. Qed.

Lemma idle_accesses n s : sy_fg s = Idle -> uart_run s (accesses n) = s.
Proof.
  intros E. induction n as [|n IH]; [done|]. cbn [accesses replicate uart_run foldl uart_step].
  unfold foreground_step at 1. rewrite E. exact IH.
Qed.

(** The bytes that a call of read_byte returned. *)
Definition returned (result : Z) (byte : option Z) : list Z :=
  if result =? 0 then [] else option_list byte.

Lemma read_call s b :
  sy_fg s = Idle ->
  let '(result, byte, u') := guardian_stm32f401_uart2_read_byte (Some b) (sy_uart s) in
  uart_run s (Call_read :: accesses 4) =
  SYSTEM Idle u' (sy_line s) (sy_stored s) (sy_read s ++ returned result byte) (sy_accepted s) (sy_sent s).
Proof.
  intros E. cbn [guardian_stm32f401_uart2_read_byte]. destruct s as [fg u line stored read acc sent].
  cbn [sy_fg sy_uart sy_line sy_stored sy_read sy_accepted sy_sent] in *. subst fg.
  destruct (u_rx_tail u =? u_rx_head u) eqn:Et; cbn.
  - by rewrite Et, app_nil_r.
  - by rewrite Et.
Qed.

Lemma copy_run data n : forall index head u line stored read acc sent,
  (index + n = length data)%nat ->
  uart_run (SYSTEM (Write_copy data index head) u line stored read acc sent) (accesses n) =
  let '(queue, head') := copy_loop data index n (u_tx_queue u) head in
  SYSTEM (Write_copy data (length data) head') (put_tx queue (u_tx_head u) (u_tx_tail u) u)
    line stored read acc sent.
Proof.
  induction n as [|n IH]; intros index head u line stored read acc sent Hn.
  - cbn [copy_loop]. replace index with (length data) by lia. by destruct u.
  - cbn [accesses replicate uart_run foldl uart_step copy_loop].
    unfold foreground_step at 1. cbn [sy_fg sy_uart]. rewrite (proj2 (Nat.ltb_lt _ _)) by lia.
    unfold put_fg. cbn [sy_fg sy_uart sy_line sy_stored sy_read sy_accepted sy_sent].
    etransitivity; [apply (IH (S index)); lia|]. cbn [put_tx u_tx_queue u_tx_head u_tx_tail].
    by destruct (copy_loop _ _ _ _ _).
Qed.

Lemma write_call s data :
  sy_fg s = Idle ->
  let '(result, u') := guardian_stm32f401_uart2_write (Some data) (length data) (sy_uart s) in
  uart_run s (Call_write data :: accesses (length data + 5)) =
  SYSTEM Idle u' (sy_line s) (sy_stored s) (sy_read s)
    (sy_accepted s ++ if (result =? 0)%nat then [] else [data]) (sy_sent s).
Proof.
  intros E. unfold guardian_stm32f401_uart2_write. cbn [is_null andb].
  destruct s as [fg u line stored read acc sent].
  cbn [sy_fg sy_uart sy_line sy_stored sy_read sy_accepted sy_sent] in *. subst fg.
  replace (length data + 5)%nat with (S (S (length data + 3))) by lia.
  change (uart_run (SYSTEM Idle u line stored read acc sent)
            (Call_write data :: accesses (S (S (length data + 3)))))
    with (uart_run (foreground_step (foreground_step (SYSTEM (Write_called data) u line stored read acc sent)))
            (accesses (length data + 3))).
  unfold foreground_step at 2. cbn [sy_fg sy_uart].
  destruct (Nat.eqb_spec (length data) 0) as [E0|E0].
  { unfold foreground_step. cbn [put_fg sy_fg]. rewrite idle_accesses by done. by rewrite app_nil_r. }
  destruct (_ <=? _).
  { unfold foreground_step. cbn [put_fg sy_fg]. rewrite idle_accesses by done. by rewrite app_nil_r. }
  unfold foreground_step at 1. cbn [put_fg sy_fg sy_uart].
  destruct (_ <? _).
  { cbn [put_fg sy_fg]. rewrite idle_accesses by done. by rewrite app_nil_r. }
  unfold put_fg. cbn [sy_line sy_stored sy_read sy_accepted sy_sent]. unfold accesses. rewrite replicate_add.
  rewrite uart_run_app. fold (accesses (length data)). rewrite copy_run by done.
  cbn [from_option id]. destruct (copy_loop _ _ _ _ _) as [queue head].
  rewrite (proj2 (Nat.eqb_neq _ _)) by done. cbn [replicate uart_run foldl uart_step].
  unfold foreground_step at 3. cbn [sy_fg sy_uart]. rewrite Nat.ltb_irrefl. by destruct u.
Qed.

(** ** Draining *)

Definition transmit_ready (e : uart_event) : Prop :=
  match e with Interrupt _ _ status' => Z.land status' USART_SR_TXE <> 0 | _ => False end.

Lemma interrupt_sends s e :
  system_ok s -> sy_fg s = Idle -> transmit_ready e ->
  let s' := uart_step s e in
  system_ok s' /\ sy_fg s' = Idle /\ sy_accepted s' = sy_accepted s /\
  length (tx_ring (sy_uart s')) = (length (tx_ring (sy_uart s)) - 1)%nat /\
  (tx_ring (sy_uart s) = [] -> tx_enabled (sy_uart s') -> False).
Proof.
  intros H Hi He. cbv zeta. split; [by apply uart_step_ok|].
  destruct e as [|block| |status data status']; try done. cbn in He.
  pose proof (sy_queues _ H) as Hq.
  destruct (receive_service_spec status data (sy_uart s) Hq) as (Hq1 & _ & _ & Etq & Eth & Ett & Ec).
  cbn [uart_step]. unfold guardian_stm32f401_uart2_irq_handler.
  set (u1 := receive_service status data (sy_uart s)) in *.
  pose proof (transmit_service_spec status' u1 Hq1) as Ht.
  destruct (transmit_service status' u1) as [sent u2] eqn:E.
  destruct Ht as (_ & _ & _ & _ & _ & _ & Et & Hs). cbn [sy_fg sy_accepted sy_uart].
  split; [exact Hi|]. split; [done|]. rewrite <- Etq, <- Eth, <- Ett.
  assert (Hen : tx_ring u1 <> [] -> tx_enabled u1).
  { unfold tx_enabled. rewrite Ec, Etq, Eth, Ett. apply (sy_enabled _ H). by rewrite Hi. }
  unfold transmit_service in E. rewrite (proj2 (Z.eqb_neq _ _) He) in E. cbn [negb] in E.
  rewrite andb_true_r in E. rewrite Et. destruct sent as [b|].
  - split; [change (option_list (Some b)) with [b]; cbn [app length]; lia|discriminate].
  - change (option_list (@None Z)) with (@nil Z) in *. cbn [app] in *. rewrite <- Et in *. destruct (tx_ring u1) as [|b rest] eqn:Er.
    + split; [done|]. intros _. unfold tx_enabled.
      destruct (Z.eqb_spec (Z.land (u_cr1 u1) USART_CR1_TXEIE) 0) as [E0|E0]; cbn [negb] in E.
      * injection E as <-. done.
      * destruct (negb _); [discriminate E|]. injection E as <-. cbn [put_cr1 u_cr1].
        rewrite <- Z.land_assoc. change (Z.land (u32 (Z.lnot USART_CR1_TXEIE)) USART_CR1_TXEIE) with 0.
        by rewrite Z.land_0_r.
    + exfalso. assert (Hu1 : tx_enabled u1) by (by apply Hen). unfold tx_enabled in Hu1.
      rewrite (proj2 (Z.eqb_neq _ _) Hu1) in E. cbn [negb] in E.
      destruct (Z.eqb_spec (u_tx_tail u1) (u_tx_head u1)) as [Ee|]; [|discriminate E].
      by rewrite Ee, ring_nil in Er.
Qed.

Lemma interrupts_drain es : forall s,
  system_ok s -> sy_fg s = Idle -> Forall transmit_ready es ->
  system_ok (uart_run s es) /\ sy_fg (uart_run s es) = Idle /\
  sy_accepted (uart_run s es) = sy_accepted s /\
  length (tx_ring (sy_uart (uart_run s es))) = (length (tx_ring (sy_uart s)) - length es)%nat.
Proof.
  induction es as [|e es IH]; intros s H Hi He; [by rewrite Nat.sub_0_r|].
  apply Forall_cons in He as [He Hes].
  destruct (interrupt_sends s e H Hi He) as (H1 & Hi1 & Ea & El & _).
  destruct (IH (uart_step s e) H1 Hi1 Hes) as (H2 & Hi2 & Ea2 & El2). cbn [uart_run foldl].
  split; [exact H2|]. split; [exact Hi2|]. split; [by rewrite <- Ea|].
  etransitivity; [exact El2|]. rewrite El. cbn [length]. lia.
Qed.

Definition read_calls (n : nat) : list uart_event := concat (replicate n (Call_read :: accesses 4)).

Lemma read_call_pops s :
  system_ok s -> sy_fg s = Idle ->
  let s' := uart_run s (Call_read :: accesses 4) in
  system_ok s' /\ sy_fg s' = Idle /\ sy_stored s' = sy_stored s /\ sy_accepted s' = sy_accepted s /\
  sy_sent s' = sy_sent s /\
  length (rx_ring (sy_uart s')) = (length (rx_ring (sy_uart s)) - 1)%nat.
Proof.
  intros H Hi. cbv zeta. split; [by apply uart_run_ok|].
  pose proof (read_call s 0 Hi) as E. cbn [guardian_stm32f401_uart2_read_byte] in E.
  pose proof (sy_queues _ H) as [].
  destruct (Z.eqb_spec (u_rx_tail (sy_uart s)) (u_rx_head (sy_uart s))) as [Et|Et]; rewrite E;
    cbn [sy_fg sy_stored sy_accepted sy_sent sy_uart]; do 4 (split; [done|]).
  - by rewrite Et, ring_nil.
  - cbn [put_rx u_rx_queue u_rx_head u_rx_tail]. rewrite rx_next_ring by done.
    rewrite !ring_size, (ring_length_pop CAP ltac:(lia) (u_rx_tail (sy_uart s))) by done. lia.
Qed.

Lemma read_calls_drain n : forall s,
  system_ok s -> sy_fg s = Idle ->
  let s' := uart_run s (read_calls n) in
  system_ok s' /\ sy_fg s' = Idle /\ sy_stored s' = sy_stored s /\ sy_accepted s' = sy_accepted s /\
  sy_sent s' = sy_sent s /\
  length (rx_ring (sy_uart s')) = (length (rx_ring (sy_uart s)) - n)%nat.
Proof.
  induction n as [|n IH]; intros s H Hi; cbv zeta.
  - split; [exact H|]. by rewrite Nat.sub_0_r.
  - unfold read_calls. cbn [replicate concat]. rewrite uart_run_app. fold (read_calls n).
    destruct (read_call_pops s H Hi) as (H1 & Hi1 & E1 & E2 & E3 & El).
    destruct (IH _ H1 Hi1) as (H2 & Hi2 & F1 & F2 & F3 & Fl).
    split; [exact H2|]. split; [exact Hi2|]. rewrite F1, F2, F3, Fl, E1, E2, E3, El. split_and!; done || lia.
Qed.

(** ** Correctness *)

(** The system after a successful initialization. *)
Definition started (u : uart) : system := SYSTEM Idle u [] [] [] [] [].

Lemma init_started baud clock cfgr r u r' u' :
  guardian_stm32f401_uart2_init baud clock cfgr r u = (1, r', u') ->
  Z.of_nat (length (u_rx_queue u)) = CAP -> Z.of_nat (length (u_tx_queue u)) = CAP ->
  system_ok (started u') /\ us_rx_queue_overruns (u_stats u') = us_rx_queue_overruns (u_stats u).
Proof.
  unfold guardian_stm32f401_uart2_init. early_case E1. early_case E2. early_case E3.
  intros [= <- <-] Hr Ht. split; [|done].
  split; cbn; rewrite ?ring_nil; try done.
Qed.

(** C1: under every interleaving of foreground accesses and interrupts, no byte is
    reordered, duplicated or invented: what was read is a prefix of what the handler
    stored, with at most 511 bytes in the queue; the stored bytes are the error-free
    bytes of the line except those counted as overruns; what was sent is a prefix of
    the accepted blocks, each of which is queued whole or not at all. *)
Theorem uart_streams_are_fifo baud clock cfgr r u r' u' es
    (Hi : guardian_stm32f401_uart2_init baud clock cfgr r u = (1, r', u'))
    (Hr : Z.of_nat (length (u_rx_queue u)) = 512) (Ht : Z.of_nat (length (u_tx_queue u)) = 512)
    (Hs : is_u32 (us_rx_queue_overruns (u_stats u))) :
  let s := uart_run (started u') es in
  (exists pending, sy_stored s = sy_read s ++ pending /\ (length pending <= 511)%nat) /\
  (exists pending, concat (sy_accepted s) = sy_sent s ++ pending /\ (length pending <= 511)%nat) /\
  sublist (sy_stored s) (sy_line s) /\
  overruns s = Z.min 0xFFFFFFFF
    (us_rx_queue_overruns (u_stats u) + Z.of_nat (length (sy_line s)) - Z.of_nat (length (sy_stored s))).
Proof.
  destruct (init_started _ _ _ _ _ _ _ Hi Hr Ht) as [H0 E0]. cbv zeta.
  pose proof (uart_run_ok es _ H0) as H. unfold is_u32 in Hs.
  destruct (uart_run_counted (us_rx_queue_overruns (u_stats u)) es (started u')) as [Hc Ho].
  { lia. }
  { split; [done|]. unfold overruns. cbn [started sy_uart sy_line sy_stored length]. rewrite E0. lia. }
  split; [|split; [|by split]].
  - exists (rx_ring (sy_uart (uart_run (started u') es))). split; [apply (sy_rx _ H)|].
    rewrite ring_size. pose proof (ring_length_bound CAP ltac:(lia) (u_rx_tail (sy_uart (uart_run (started u') es)))
      (u_rx_head (sy_uart (uart_run (started u') es)))). lia.
  - exists (tx_ring (sy_uart (uart_run (started u') es))). split; [apply (sy_tx _ H)|].
    rewrite ring_size. pose proof (ring_length_bound CAP ltac:(lia) (u_tx_tail (sy_uart (uart_run (started u') es)))
      (u_tx_head (sy_uart (uart_run (started u') es)))). lia.
Qed.

(** C2: nothing stays in the queues. After any schedule, as long as blocks are
    pending and no call is in progress the transmit interrupt is enabled, so many
    interrupts as bytes are pending send every accepted block, and so many calls of
    read_byte as bytes are stored return them all. *)
Theorem uart_drains baud clock cfgr r u r' u' es irqs n
    (Hi : guardian_stm32f401_uart2_init baud clock cfgr r u = (1, r', u'))
    (Hr : Z.of_nat (length (u_rx_queue u)) = 512) (Ht : Z.of_nat (length (u_tx_queue u)) = 512)
    (Hidle : sy_fg (uart_run (started u') es) = Idle)
    (His : Forall transmit_ready irqs) (Hn : (511 <= length irqs)%nat) (Hm : (511 <= n)%nat) :
  let s := uart_run (started u') es in
  (sy_sent s <> concat (sy_accepted s) -> tx_enabled (sy_uart s)) /\
  sy_sent (uart_run s irqs) = concat (sy_accepted s) /\
  sy_read (uart_run s (read_calls n)) = sy_stored s.
Proof.
  destruct (init_started _ _ _ _ _ _ _ Hi Hr Ht) as [H0 _]. cbv zeta.
  pose proof (uart_run_ok es _ H0) as H. set (s := uart_run (started u') es) in *.
  pose proof (ring_length_bound CAP ltac:(lia) (u_tx_tail (sy_uart s)) (u_tx_head (sy_uart s))) as Hb1.
  pose proof (ring_length_bound CAP ltac:(lia) (u_rx_tail (sy_uart s)) (u_rx_head (sy_uart s))) as Hb2.
  split; [|split].
  - intros Hne. apply (sy_enabled _ H); [by rewrite Hidle|]. intros E. apply Hne.
    by rewrite (sy_tx _ H), E, app_nil_r.
  - destruct (interrupts_drain irqs s H Hidle His) as (H1 & _ & Ea & El).
    rewrite (ring_size _ (u_tx_queue (sy_uart s))) in El. rewrite <- Ea, (sy_tx _ H1).
    rewrite (nil_length_inv (ring _ _ _ _)) by lia. by rewrite app_nil_r.
  - destruct (read_calls_drain n s H Hidle) as (H1 & _ & Es & _ & _ & El).
    rewrite (ring_size _ (u_rx_queue (sy_uart s))) in El. rewrite <- Es, (sy_rx _ H1).
    rewrite (nil_length_inv (ring _ _ _ _)) by lia. by rewrite app_nil_r.
Qed.

(** C3: a call that no interrupt falls into does what read_byte and write of the
    driver do, on every branch: an empty queue, a block that cannot fit, one that
    does not fit now, and one that is accepted. *)
Theorem call_is_uninterrupted_run s b data (Hidle : sy_fg s = Idle) :
  (let '(result, byte, u') := guardian_stm32f401_uart2_read_byte (Some b) (sy_uart s) in
   uart_run s (Call_read :: accesses 4) =
   SYSTEM Idle u' (sy_line s) (sy_stored s) (sy_read s ++ returned result byte) (sy_accepted s) (sy_sent s)) /\
  (let '(result, u') := guardian_stm32f401_uart2_write (Some data) (length data) (sy_uart s) in
   uart_run s (Call_write data :: accesses (length data + 5)) =
   SYSTEM Idle u' (sy_line s) (sy_stored s) (sy_read s)
     (sy_accepted s ++ if (result =? 0)%nat then [] else [data]) (sy_sent s)).
Proof. split; [by apply read_call|by apply write_call]. Qed.

(** ** Witnesses *)

Definition example_registers : uart_registers := UART_REGISTERS 0 0 0 0 0 0 0 0 0 0 0.

(** The static variables of the driver: all zero. *)
Definition example_uart : uart :=
  UART (replicate 512 0) 0 0 (replicate 512 0) 0 0 (UART2_STATS 0 0 0 0 0 0) 0.

Definition example_init := guardian_stm32f401_uart2_init 115200 84000000 0x1000 example_registers example_uart.

(** A byte arrives while read_byte runs, a block is written while another arrives. *)
Definition example_schedule : list uart_event :=
  [Interrupt USART_SR_RXNE 65 0; Call_read; Access; Interrupt USART_SR_RXNE 66 0; Access; Access;
   Interrupt (Z.lor USART_SR_RXNE USART_SR_FE) 67 0; Access; Call_write [1; 2]; Access; Access; Access;
   Interrupt USART_SR_RXNE 68 USART_SR_TXE] ++ accesses 4 ++ [Interrupt 0 0 USART_SR_TXE].

Lemma uart_streams_are_fifo_witness :
  let s := uart_run (started (snd example_init)) example_schedule in
  sy_read s = [65] /\ sy_sent s = [1] /\ sy_line s = [65; 66; 68] /\
  sublist (sy_stored s) (sy_line s).
Proof.
  cbv zeta. split; [by vm_compute|]. split; [by vm_compute|]. split; [by vm_compute|].
  apply (uart_streams_are_fifo 115200 84000000 0x1000 example_registers example_uart
    (snd (fst example_init)) (snd example_init) example_schedule); by vm_compute.
Defined.

Lemma uart_drains_witness :
  let s := uart_run (started (snd example_init)) example_schedule in
  sy_sent (uart_run s (replicate 511 (Interrupt 0 0 USART_SR_TXE))) = [1; 2] /\
  sy_read (uart_run s (read_calls 511)) = [65; 66; 68].
Proof.
  cbv zeta.
  pose proof (uart_drains 115200 84000000 0x1000 example_registers example_uart
    (snd (fst example_init)) (snd example_init) example_schedule
    (replicate 511 (Interrupt 0 0 USART_SR_TXE)) 511 ltac:(vm_compute; reflexivity)
    ltac:(reflexivity) ltac:(reflexivity) ltac:(vm_compute; reflexivity)
    ltac:(apply Forall_replicate; discriminate) ltac:(rewrite length_replicate; lia) ltac:(lia)) as H.
  cbv zeta in H. destruct H as (_ & H1 & H2). rewrite H1, H2. split; vm_compute; reflexivity.
Defined.

Lemma call_is_uninterrupted_run_witness :
  sy_accepted (uart_run (started example_uart) (Call_write [7; 8; 9] :: accesses 8)) = [[7; 8; 9]].
Proof.
  pose proof (call_is_uninterrupted_run (started example_uart) 0 [7; 8; 9] eq_refl) as [_ H].
  destruct (guardian_stm32f401_uart2_write (Some [7; 8; 9]) _ _) as [n u'] eqn:E.
  vm_compute in E. injection E as <- _.
  exact (f_equal sy_accepted H).
Defined.
